(* ===== verification/_CoqProject ===== *)
-Q . S2P
Prelude.v
KernelText.v
C2Wire.v
C2Proto.v
C2Flash.v
C2Rel.v
C2FlashSpec.v
C2Stack.v
C2Sysfs.v
C2SysfsSpec.v
C2Device.v
C2Boards.v
UsbString.v
UsbConfig.v
EpAutoconf.v
Composite.v
CompositeCtl.v
CompositeSpec.v
CompositeCtlSpec.v
CompositeRun.v
CompositeBind.v
CompositeBindSpec.v
Spi2Apb.v
QfpFuse.v
QfpFuseSpec.v
ScaleUsb.v
ScaleUsbSpec.v
ScaleSetup.v
ScaleSetupSpec.v
ScaleBind.v
ScaleBindSpec.v
TimedGpio.v
TimedGpioSpec.v
FbGrab.v
FbGrabSpec.v
Mirror.v
MirrorSpec.v
Regulator.v
TickList.v
TickListSpec.v
UbootApp.v
Bitmap.v
Samples.v
TestDrm.v
HwRegs.v
Renesas.v
RenesasSpec.v
AmdUdc.v
Fusb300.v
FslUdc.v
ChipIdea.v
Net2280.v
AtmelUsba.v
GokuUdc.v
PxaUdc.v
QeImxUdc.v
SysReg.v
SmallUdc.v
Rndis.v
UserTools.v
TapTools.v
Netlink.v
Deferred.v
Devices.v
Programs.v
Uvc.v
Attributes.v
