(* ===== verification/Prelude.v ===== *)
(** * Verification of the ldd_example_test drivers

    The repository collects Linux drivers and samples.  This library models
    and verifies the parts with logic of their own: the C2 port driver, the
    USB gadget framework with its scale gadget, the SPI to APB bridge, the
    fuse driver, the timed GPIO class, the framebuffer grabber and the bitmap
    programs, the packet mirror, the regulator sample, the readers of a tick,
    the kernel samples around a character device, of deferred work, timers
    and device interfaces, the netlink module with its programs, the programs
    on a tap device, the display test, the user space tools and tests, the
    U-Boot application, and the headers of USB device controllers, of USB
    network links and of the video function with the macros and inline
    functions they define.  What is left are declarations and data of drivers
    that are not in the repository.

    This file holds the integers, the monads, buffers and bits all files
    share; [KernelText] numbers as text and strings in buffers.

    ** How code is modelled

    A C function is a Rocq function of the same name.  Integers are [Z] with
    the wrap-around of their C type written out ([u8], [u16], [u32]); buffers
    are lists of bytes.  Code that threads hardware or a device object is in
    the state monad [M]; code that could dereference a null pointer or leave a
    buffer is in the monad [FM], where such an access is [None], so a theorem
    that a function returns [Some] says it has no such access.  Everything
    outside the repository - pins, registers, callbacks of other drivers, the
    allocator, user memory - is a type class of operations over an abstract
    world.  Theorems about the order of calls instantiate the class with a
    world that records every call and takes its answers from an arbitrary
    function of the history, so they hold for all hardware and all callbacks.
    Loops with a bound in the source ([wait_loop], [safe_write_loop], the
    polls of the C2 driver) recurse on the bound that is left; the only fuels
    are those of [safe_write_blocks], [read_loop] and [write_loop], where one
    round more than there are bytes is enough because every round moves at
    least one byte (lemmas [safe_write_run], [read_loop_ok],
    [write_loop_ok]); of [ports_loop], one round per character of the buffer
    ([loop_ports]); of the bitmap's [rows_loop], one round per line and so no
    more than the file has bytes ([rows_loop_run]); of [bin_loop], 64 for at most 32 digits ([bin_loop_run]);
    of [uart_putc_polled], more than the polls the port needs ([putc_run]);
    and of [hex_loop], one round per byte, of which it needs one for sixteen
    ([hex_loop_lines]).  A run that makes no progress runs out of any fuel.  Loops
    over lists and strings are structural.

    ** The C2 port driver (test_c2port: core.c, c2port-duramar2150.c,
       c2port-client.c)

    A two-wire programming interface to a microcontroller: a wire protocol
    bit-banged over callbacks of a board driver, flash commands over four
    register accesses, sysfs methods on top.
    - [C2Wire]: pins, delays and interrupt flag as events;
      [c2port_strobe_ck] to [c2port_read_dr].
    - [C2Proto]: frames.  A register access on an idle line puts exactly the
      frame of the C2 specification on the line, samples at the right edges
      and keeps the strobe shorter than a reset; data read back through the
      replayed frame is the data written.
    - [C2Flash], [C2FlashSpec]: polling, keycodes, erase, block read and
      write over the class of register accesses, with the dialogue of each
      command, its length and bounds, and that nothing is erased before the
      target has accepted the command.
    - [C2Rel], [C2Stack]: a relational interface through which the flash
      layer runs over the wire layer; the composition refines the transaction
      level.
    - [C2Sysfs], [C2SysfsSpec]: the attribute handlers with their guards and
      the mutex; the invariant of flags, pins and trace, kept by every
      sequence of requests and, without concurrent access changes, by every
      interleaving; the race that remains.
    - [C2Device]: registration and unregistration with identifiers and error
      paths.  [C2Boards]: the two boards as instances of the callback class.

    ** The USB gadget framework (test_gadget: composite.c, usbstring.c,
       config.c, epautoconf.c, gadget_chips.h, scale_usb.c)

    - [UsbString]: UTF-8 to UTF-16LE and string descriptors: memory safety on
      any terminated string, and the right code units for texts of the basic
      plane.
    - [UsbConfig]: descriptor vectors: filling a buffer, the configuration
      buffer, copying descriptors, finding an endpoint in a copy.
    - [EpAutoconf]: the choice of endpoints by name, type, direction and
      packet size, per controller: an endpoint that is chosen serves what its
      name says; numbers handed out by the counter differ.
    - [Composite], [CompositeSpec]: functions, configurations, descriptors
      and strings of a composite device; what the host reads is what was
      registered, at the right index, in the right order.
    - [CompositeCtl], [CompositeCtlSpec]: configuration selection and the
      setup handler over the callback class [GadgetOps]; the outcome of a
      selection, decided by what the functions answer; no request leaves the
      1024 byte buffer.
    - [CompositeRun]: the entry points as a step relation: in every reachable
      state the next request is answered with at most one data stage no
      longer than asked, except one to an endpoint of an unconfigured device,
      which dereferences NULL; activation counter and pull-up; delayed
      status.
    - [CompositeBind], [CompositeBindSpec]: probe, bind and unbind on a heap
      of named objects: every error path frees exactly what was allocated.

    - [Attributes]: the attribute that shows the suspended state and the
      completion of control requests; the entry points of the fuse driver.

    - [ScaleUsb], [ScaleUsbSpec]: the character device of scale_usb.c.  The
      receive queues refine a byte stream, a write is a sequence of chunks,
      no request is lost; interrupts that run while the spinlock is released
      are explicit windows in which queued requests complete.  The calls that do not return are [None].
    - [ScaleSetup], [ScaleSetupSpec]: its setup handler with descriptors and
      the vendor table: every request with an answer, within its table, is
      answered with it; the configuration it sends parses; where it reads and sends more than
      its tables and its buffer hold.
    - [ScaleBind], [ScaleBindSpec]: binding, unbinding and the module's entry
      points, by a calculus of triples: what a bound gadget owns, that it
      serves requests, and what the error paths leave.

    ** The SPI to APB bridge (test_spi: spi2apb.c, spi2apb.h)

    - [Spi2Apb]: messages, bit order, the writes and reads with state check
      and retry: what an answer of 0 says about the bus, and what it does
      not.

    ** The fuse driver (test_qfp_fuse: qfp_fuse.c, qfp_fuse.h)

    - [QfpFuse], [QfpFuseSpec]: open, release, the ioctl and blowing a word:
      the dialogue with regulator and registers, the range check and its
      wrap-around, locks and buffers on every path.

    ** Timed GPIO (test_timedgpio)

    - [TimedGpio], [TimedGpioSpec]: the class of timed outputs, the GPIO
      driver's callbacks, probe and remove: an output is on exactly while its
      timer runs, and every failure of the probe gives back what was taken.

    ** The framebuffer grabber (test_framebuffer/fbgrab-1.3)

    - [FbGrab], [FbGrabSpec]: the whole program.  The conversions are the map
      of a pixel function; over any system that keeps the class [FbMachine],
      [main] writes one picture of the console asked for and restores the
      console.

    ** Bitmaps of the framebuffer (test_framebuffer: test_fd_app1.c,
       test_fb_app.c)

    - [Bitmap]: [Grab] writes the framebuffer to a bitmap file, [Show] draws
      one: drawing what was written restores the framebuffer, for lines of
      whole words that fit the line buffer; the file byte by byte; the line buffer that a file overruns; the console's mode.

    ** The packet mirror (net/mirror.c)

    - [Mirror], [MirrorSpec]: the parser in place refines reading the names
      one by one; references are counted in the state; packets of configured
      interfaces are sent on, in order, and never in a circle.

    ** The regulator sample (test_regulator)

    - [Regulator]: service and client, with the kernel's core between them as
      an interface ([RegLaws]) that a core over the service implements.

    ** Readers of a tick (test_list_head)

    - [TickList], [TickListSpec]: files and the tasks that read them, asleep
      in a wait loop, the timer that flags and wakes them, the attributes:
      atomic steps in any interleaving.  No wake-up is lost, no number is missed, a tick ends the
      sleep; and the races of the timer.

    ** Kernel samples (test_completion, test_wait_queue, test_mmap, test_proc,
       test_sysfs, test_echo_reg and others)

    - [Samples]: the entry points that the samples with a character device
      share, with each sample's differences ([Chrdev]); the completion and
      the wait queue under any order of writers and readers; the attributes
      and the proc file; the key, input and firmware samples.
    - [Deferred] (test_work_struct, test_spi_drv, test_tasklet,
      test_tasklet_hi, test_schedule, test_spinlock, test_timer): work items
      and tasklets that coalesce, and what unloading does to them; the read
      that sleeps until a signal; locks that are kept; the timer and its
      attributes, with the races of its function.
    - [Devices] (test_misc, test_gpio, test_platform, test_echo_reg,
      test_mmap, test_blockio): the commands of the misc device, the probe of
      the pins, device and driver on the platform bus, the ioctl, the mapping
      of the buffer with the program that uses it, and the read that takes
      the interrupts: every interrupt is given once and none is slept over.

    ** Netlink (test_netlink)

    - [Netlink]: the module and both programs; a message goes to the handler
      and its answer back to the process that asked, with one letter of the
      text; references, over-reads and the failures that are not seen.

    ** The tap device (test_tap)

    - [TapTools]: the echo answer with the Internet checksum as a reference
      sum, the raw socket with its texts, the answer to address requests.

    ** The display test (test_drm: testdrm.c)

    - [TestDrm]: buffers, the conversion of picture files, the command line
      and the loop of [main], over the class [DrmLaws] of the graphics
      library: what the screen shows for how long, and when the copy leaves
      the buffer or the arguments are not there.

    ** User space tools (test_watchdog, test_input/sendevent.c)

    - [UserTools]: the program that feeds a watchdog and lets the system
      reset, the interval that is set, and the program that writes an input
      event, with the failure it does not see.
    - [Programs] (test_input, test_list_head/test_read.c, test_aio,
      test_fb_app.c, hello.c): readers and writers of events and ticks,
      asynchronous writes, the description of the screen, the main program of
      the U-Boot application; handlers and entry points of samples whose
      other parts are in [Samples].

    ** Device controllers (test_gadget: *_udc.h, *-udc.h, net2280.h)

    The headers describe registers, fields and memory structures, and have
    macros and inline functions that work on them; the drivers are not in the
    repository.  Tables in the files below are the definitions of the headers.
    - [HwRegs]: masks and fields: when a table is consistent, and that an
      update of a field then sets it and leaves the others; the layout of C
      structures.
    - [Renesas], [RenesasSpec]: M66592 and R8A66597, with the transfer of
      packets to and from the FIFO over a class [Mmio] of register accesses:
      the bus writes of a packet, with the lane of each byte, for any bus
      width, alignment and byte order; where the read leaves its buffer.
    - [AmdUdc]: AMD5536, bit field macros, address space and descriptors.
    - [Fusb300]: FUSB300: fields, interrupt bits by name and by endpoint.
    - [FslUdc]: the two ChipIdea headers of Freescale and the charger: pipes
      and endpoints, transfer descriptors, codes that differ.
    - [ChipIdea]: the other three users of that core (Marvell, ci13xxx,
      Langwell): structures, descriptors, buffer pages.
    - [Net2280]: halt, NAK and indexed registers, lamps, byte counts.
    - [AtmelUsba]: the macros that build, extract and insert bit fields.
    - [GokuUdc]: the register file, bits and commands by endpoint.
    - [PxaUdc]: PXA27x, interrupt bits, endpoint definitions: the names the
      header gives are those [EpAutoconf] accepts, for the right requests and
      packet sizes.
    - [QeImxUdc]: QE parameter memory and frames, i.MX1 registers and dumps.
    - [SmallUdc]: PXA25x with its state dump, OMAP, AT91, and the S3C2410,
      whose endpoints are related to [EpAutoconf] too.

    ** Messages (test_gadget: rndis.h, ndis.h, u_ether.h, fsl_updater.h,
       uvc.h, uvc_queue.h)

    - [Rndis]: messages are read back from their bytes at the offsets of
      their members, codes of questions and answers, identifiers; commands
      of the updater; controllers that can serve CDC Ethernet.
    - [Uvc]: ioctl codes, the events and answers of the video function, the
      messages of the updater on processors of both widths, flags and
      warnings.

    ** The U-Boot application (uboot/app)

    - [UbootApp]: polled console output, the heap pointer, binary text and
      the crash report.
    - [SysReg]: sysreg.h: system registers and the instructions that access
      them are encoded so that they decode again, names stand for different
      registers, fields, and the exception level the crash handler reports.

    ** Not modelled

    Messages to the kernel log; the interrupt-level locking of the composite
    framework (its handlers are sequential steps); callbacks that change the
    composite device behind the framework's back.
    The start code of the U-Boot application, which is assembly.  Code that
    is not compiled ([#if 0], builds with other options).  Of the headers,
    the structures of requests, endpoints and devices that hold kernel
    objects - data of drivers that are not in the repository -, debug
    messages, inline assembly, and headers with declarations only.  The
    Python tool for address translation. *)

From Stdlib Require Import ZArith Ascii.
From stdpp Require Import base list strings.

Declare Scope drv_scope.
Delimit Scope drv_scope with drv.
#[global] Open Scope Z_scope.

Create HintDb drv.

(** ** Machine integers

    A [w]-bit unsigned C integer is a [Z] reduced modulo [2^w]; a signed one
    is reduced into [-2^(w-1), 2^(w-1)). *)
Definition wrap (w x : Z) : Z := x mod 2 ^ w.
Definition u8 (x : Z) : Z := wrap 8 x.
Definition u16 (x : Z) : Z := wrap 16 x.
Definition u32 (x : Z) : Z := wrap 32 x.
Definition s32 (x : Z) : Z := (x + 2 ^ 31) mod 2 ^ 32 - 2 ^ 31.

(** [x++] and [--x] on an [int] counter, which wraps at its ends (the kernel
    is built with -fno-strict-overflow). *)
Definition int_inc (x : Z) : Z := if x =? 2 ^ 31 - 1 then - 2 ^ 31 else x + 1.
Definition int_dec (x : Z) : Z := if x =? - 2 ^ 31 then 2 ^ 31 - 1 else x - 1.

(** The truth value of a C integer, and the C integer of a truth value. *)
Definition truthy (x : Z) : bool := negb (x =? 0).
Definition c_not (x : Z) : Z := if x =? 0 then 1 else 0.

(** ** Kernel error numbers (include/uapi/asm-generic/errno*.h) *)
Definition ENOENT : Z := 2.
Definition EIO : Z := 5.
Definition ENOMEM : Z := 12.
Definition EFAULT : Z := 14.
Definition EBUSY : Z := 16.
Definition ENODEV : Z := 19.
Definition EINVAL : Z := 22.
Definition ENOTTY : Z := 25.
Definition EOPNOTSUPP : Z := 95.
Definition ETIMEDOUT : Z := 110.
Definition ERESTARTSYS : Z := 512.

(** ** A state monad for code that threads the hardware or a device object *)
Definition M (S A : Type) : Type := S -> A * S.
Definition ret {S A} (a : A) : M S A := fun s => (a, s).
Definition bind {S A B} (m : M S A) (k : A -> M S B) : M S B :=
  fun s => let '(a, s') := m s in k a s'.
Definition get {S} : M S S := fun s => (s, s).
Definition modify {S} (f : S -> S) : M S unit := fun s => (tt, f s).

Notation "x <- c ;; k" := (bind c (fun x => k))
  (at level 100, c at next level, right associativity) : drv_scope.
Notation "'let!' p := c 'in' k" := (bind c (fun x => match x with p => k end))
  (at level 10, p pattern, c at level 100, k at level 200) : drv_scope.
Notation "c ;; k" := (bind c (fun _ => k))
  (at level 100, right associativity) : drv_scope.
#[global] Open Scope drv_scope.

Lemma bind_run {S A B} (m : M S A) (k : A -> M S B) s :
  bind m k s = k (fst (m s)) (snd (m s)).
Proof. unfold bind. by destruct (m s). Qed.

Lemma bind_assoc {S A B C} (m : M S A) (f : A -> M S B) (k : B -> M S C) s :
  bind (bind m f) k s = bind m (fun a => bind (f a) k) s.
Proof. unfold bind. by destruct (m s). Qed.

(** The same monad with faults: [None] is a NULL dereference or an access
    outside a buffer. *)
Definition FM (S A : Type) : Type := S -> option (A * S).
Definition fret {S A} (a : A) : FM S A := fun s => Some (a, s).
Definition fbind {S A B} (m : FM S A) (k : A -> FM S B) : FM S B :=
  fun s => match m s with Some (a, s') => k a s' | None => None end.
Definition fault {S A} : FM S A := fun _ => None.
Definition total_ {S A} (m : M S A) : FM S A := fun s => Some (m s).
Definition fmodify {S} (f : S -> S) : FM S unit := fun s => Some (tt, f s).
Definition fget {S} : FM S S := fun s => Some (s, s).

Notation "x <~ c ;; k" := (fbind c (fun x => k))
  (at level 100, c at next level, right associativity) : drv_scope.
Notation "c ~;; k" := (fbind c (fun _ => k))
  (at level 100, right associativity) : drv_scope.

Lemma fbind_ret {S A B} (a : A) (k : A -> FM S B) s : fbind (fret a) k s = k a s.
Proof. done. Qed.
Lemma fbind_assoc {S A B C} (m : FM S A) (f : A -> FM S B) (k : B -> FM S C) s :
  fbind (fbind m f) k s = fbind m (fun a => fbind (f a) k) s.
Proof. unfold fbind. by destruct (m s) as [[]|]. Qed.

(** ** Characters of the kernel's string routines *)
Definition isspace (c : ascii) : bool :=
  let n := nat_of_ascii c in
  ((9 <=? n) && (n <=? 13) || (n =? 32) || (n =? 160))%nat.
Definition digit_val (c : ascii) : option Z :=
  let n := Z.of_nat (nat_of_ascii c) in
  if (48 <=? n) && (n <=? 57) then Some (n - 48) else None.

(** The value of the leading digits. *)
Fixpoint digits (acc : Z) (s : string) : Z :=
  match s with
  | String c s' => match digit_val c with Some d => digits (10 * acc + d) s' | None => acc end
  | EmptyString => acc
  end.

(** [atoi] of the C library, in the C locale. *)
Fixpoint skip_blanks (s : string) : string :=
  match s with
  | String c s' => let n := nat_of_ascii c in if ((9 <=? n) && (n <=? 13) || (n =? 32))%nat then skip_blanks s' else s
  | EmptyString => s
  end.
Definition atoi (s : string) : Z :=
  match skip_blanks s with
  | String "-" s => s32 (- digits 0 s)
  | String "+" s => s32 (digits 0 s)
  | s => s32 (digits 0 s)
  end.

(** ** Bits, least significant first *)
Fixpoint bits_of (n : nat) (x : Z) : list bool :=
  match n with
  | O => []
  | S n => Z.odd x :: bits_of n (Z.shiftr x 1)
  end.

Fixpoint of_bits (bs : list bool) : Z :=
  match bs with
  | [] => 0
  | b :: bs => Z.b2z b + 2 * of_bits bs
  end.

Lemma length_bits_of n x : length (bits_of n x) = n.
Proof. revert x. induction n; simpl; auto. Qed.

Lemma shiftr1_div2 x : Z.shiftr x 1 = x / 2.
Proof. rewrite Z.shiftr_div_pow2; [done | lia]. Qed.

Lemma odd_div2 x : x = Z.b2z (Z.odd x) + 2 * (x / 2).
Proof.
  pose proof (Z.div_mod x 2). rewrite Zmod_odd in H.
  destruct (Z.odd x); simpl in *; lia.
Qed.

Lemma of_bits_bits_of n x : of_bits (bits_of n x) = x mod 2 ^ Z.of_nat n.
Proof.
  revert x. induction n as [|n IH]; intros x.
  - by rewrite Z.mod_1_r.
  - cbn [bits_of of_bits]. rewrite IH, shiftr1_div2.
    rewrite Nat2Z.inj_succ, Z.pow_succ_r by lia.
    rewrite Z.rem_mul_r, Zmod_odd by lia. by destruct (Z.odd x).
Qed.

Lemma lookup_bits_of n x i :
  (i < n)%nat -> bits_of n x !! i = Some (Z.testbit x (Z.of_nat i)).
Proof.
  revert x i. induction n as [|n IH]; intros x i Hi; [lia|].
  destruct i as [|i]; cbn [bits_of lookup list_lookup].
  - by rewrite <- Z.bit0_odd.
  - fold (bits_of n (Z.shiftr x 1) !! i). rewrite IH by lia.
    rewrite Z.shiftr_spec by lia. do 2 f_equal. lia.
Qed.

Lemma fmap_seq_bits_of (f : nat -> bool) p n x :
  (forall i, (i < n)%nat -> f (p + i)%nat = Z.testbit x (Z.of_nat i)) ->
  f <$> seq p n = bits_of n x.
Proof.
  intros Hf. apply list_eq_same_length with n;
    rewrite ?length_fmap, ?length_seq, ?length_bits_of; [done..|].
  intros i a b Hi. rewrite list_lookup_fmap, lookup_seq_lt, lookup_bits_of by done.
  cbn. rewrite Hf by done. congruence.
Qed.

Lemma of_bits_range bs : 0 <= of_bits bs < 2 ^ Z.of_nat (length bs).
Proof.
  induction bs as [|b bs IH]; [simpl; lia|].
  cbn [of_bits length]. rewrite Nat2Z.inj_succ, Z.pow_succ_r by lia.
  destruct b; simpl; lia.
Qed.

Lemma bits_of_of_bits bs : bits_of (length bs) (of_bits bs) = bs.
Proof.
  induction bs as [|b bs IH]; [done|]. cbn [of_bits length bits_of].
  rewrite shiftr1_div2. f_equal.
  - rewrite Z.odd_add, Z.odd_mul. destruct b; reflexivity.
  - transitivity (bits_of (length bs) (of_bits bs)); [f_equal | done].
    assert (Z.b2z b / 2 = 0) by (by destruct b).
    rewrite (Z.mul_comm 2), Z.div_add by lia. lia.
Qed.

Lemma bits_of_wrap n x : bits_of n (x mod 2 ^ Z.of_nat n) = bits_of n x.
Proof.
  rewrite <- of_bits_bits_of.
  transitivity (bits_of (length (bits_of n x)) (of_bits (bits_of n x))).
  - by rewrite length_bits_of.
  - apply bits_of_of_bits.
Qed.

(** ** Ranges of the machine integers *)
Lemma wrap_range w x : 0 <= w -> 0 <= wrap w x < 2 ^ w.
Proof. intros. apply Z.mod_pos_bound. lia. Qed.
Lemma wrap_small w x : 0 <= x < 2 ^ w -> wrap w x = x.
Proof. apply Z.mod_small. Qed.
Lemma u8_range x : 0 <= u8 x < 256.
Proof. by apply (wrap_range 8). Qed.
Lemma u8_small x : 0 <= x < 256 -> u8 x = x.
Proof. apply (wrap_small 8). Qed.
Lemma u16_range x : 0 <= u16 x < 65536.
Proof. by apply (wrap_range 16). Qed.
Lemma u16_small x : 0 <= x < 65536 -> u16 x = x.
Proof. apply (wrap_small 16). Qed.
Lemma u32_range x : 0 <= u32 x < 2 ^ 32.
Proof. by apply (wrap_range 32). Qed.
Lemma u32_small x : 0 <= x < 2 ^ 32 -> u32 x = x.
Proof. apply (wrap_small 32). Qed.

#[export] Hint Resolve u8_range u16_range u32_range : drv.

(** ** Buffers

    A C buffer is the list of its bytes; [buf_write] is [memcpy] of [bs] to
    offset [off].  A write that does not fit in the buffer is out of bounds;
    operations that could do that return [None]. *)
Definition buf_write (buf : list Z) (off : nat) (bs : list Z) : list Z :=
  take off buf ++ bs ++ drop (off + length bs) buf.

Definition buf_store (buf : list Z) (off : nat) (bs : list Z) : option (list Z) :=
  if decide (off + length bs <= length buf)%nat
  then Some (buf_write buf off bs) else None.

Lemma length_buf_write buf off bs :
  (off + length bs <= length buf)%nat -> length (buf_write buf off bs) = length buf.
Proof.
  intros. unfold buf_write. rewrite !length_app, length_take, length_drop. lia.
Qed.

Lemma take_buf_write buf off bs :
  (off <= length buf)%nat -> take off (buf_write buf off bs) = take off buf.
Proof.
  intros. unfold buf_write. rewrite take_app_le.
  - rewrite take_take. f_equal. lia.
  - rewrite length_take. lia.
Qed.

Lemma take_buf_write_ge buf off bs :
  (off + length bs <= length buf)%nat ->
  take (off + length bs) (buf_write buf off bs) = take off buf ++ bs.
Proof.
  intros. unfold buf_write. rewrite app_assoc, take_app_le.
  - rewrite take_ge; [done|]. rewrite length_app, length_take. lia.
  - rewrite length_app, length_take. lia.
Qed.

Lemma drop_buf_write buf off bs :
  (off + length bs <= length buf)%nat ->
  drop (off + length bs) (buf_write buf off bs) = drop (off + length bs) buf.
Proof.
  intros. unfold buf_write. rewrite app_assoc, drop_app_le.
  - rewrite drop_ge; [done|]. rewrite length_app, length_take. lia.
  - rewrite length_app, length_take. lia.
Qed.

Lemma drop_buf_write_at buf off bs :
  (off <= length buf)%nat ->
  drop off (buf_write buf off bs) = bs ++ drop (off + length bs) buf.
Proof.
  intros H. unfold buf_write. rewrite drop_app_ge by (rewrite length_take; lia).
  rewrite length_take, Nat.min_l, Nat.sub_diag by lia. done.
Qed.

Lemma buf_store_in buf off bs :
  (off + length bs <= length buf)%nat -> buf_store buf off bs = Some (buf_write buf off bs).
Proof. intros. unfold buf_store. by rewrite decide_True. Qed.

Lemma drop_buf_write_ge buf off bs n :
  (off + length bs <= n)%nat -> (n <= length buf)%nat ->
  drop n (buf_write buf off bs) = drop n buf.
Proof.
  intros H1 H2. set (m := (off + length bs)%nat) in *.
  assert (forall l : list Z, drop n l = drop (n - m) (drop m l)) as Hd.
  { intros l. rewrite drop_drop. f_equal. lia. }
  rewrite !Hd. unfold m. by rewrite drop_buf_write by lia.
Qed.

(** Two writes that touch are one. *)
Lemma buf_write_nil buf off : buf_write buf off [] = buf.
Proof. unfold buf_write. cbn. by rewrite Nat.add_0_r, take_drop. Qed.
Lemma buf_write_app buf off a b :
  (off + length a <= length buf)%nat -> buf_write (buf_write buf off a) (off + length a) b = buf_write buf off (a ++ b).
Proof.
  intros H. unfold buf_write at 1. rewrite take_buf_write_ge by done. unfold buf_write.
  rewrite <- !app_assoc, length_app, Nat.add_assoc. do 3 f_equal.
  rewrite !drop_app, !length_take, !drop_drop, Nat.min_l by lia. rewrite (drop_ge (take off buf)) by (rewrite length_take; lia).
  rewrite (drop_ge a) by lia. cbn. f_equal. lia.
Qed.

(** Joining disjoint bit fields. *)
Lemma lor_shiftl x y n : 0 <= n -> 0 <= y < 2 ^ n -> Z.lor (Z.shiftl x n) y = x * 2 ^ n + y.
Proof.
  intros Hn Hy. rewrite <- (Z.shiftl_mul_pow2 x n) by lia.
  assert (Z.land (Z.shiftl x n) y = 0) as Hl.
  { apply Z.bits_inj_iff'. intros i Hi. rewrite Z.land_spec, Z.bits_0.
    destruct (decide (i < n)); [rewrite Z.shiftl_spec_low by lia; done|].
    destruct (decide (y = 0)) as [->|]; [by rewrite Z.bits_0, andb_false_r|].
    rewrite (Z.bits_above_log2 y i), andb_false_r; [done|lia|]. apply Z.log2_lt_pow2; [lia|].
    apply Z.lt_le_trans with (2 ^ n); [lia|]. apply Z.pow_le_mono_r; lia. }
  rewrite <- Z.lxor_lor, Z.add_nocarry_lxor by done. done.
Qed.

(** A decidable property of a small range, checked by evaluation. *)
Lemma forall_below (f : Z -> bool) (n : nat) :
  forallb f (Z.of_nat <$> seq 0 n) = true -> forall x, 0 <= x < Z.of_nat n -> f x = true.
Proof.
  intros H x Hx. rewrite forallb_forall in H. apply H.
  apply list_elem_of_In, list_elem_of_fmap. exists (Z.to_nat x). split; [lia|].
  apply elem_of_seq. lia.
Qed.

(** A bit of a word, tested with a mask. *)
Lemma truthy_land_pow b i : 0 <= i -> truthy (Z.land b (2 ^ i)) = Z.testbit b i.
Proof.
  intros Hi. unfold truthy. destruct (Z.testbit b i) eqn:E.
  - destruct (Z.eqb_spec (Z.land b (2 ^ i)) 0) as [H|]; [|done].
    assert (Z.testbit (Z.land b (2 ^ i)) i = false) as H' by (by rewrite H, Z.testbit_0_l).
    rewrite Z.land_spec, E, Z.pow2_bits_true in H' by done. done.
  - replace (Z.land b (2 ^ i)) with 0; [done|]. apply Z.bits_inj'. intros n Hn.
    rewrite Z.land_spec, Z.testbit_0_l, Z.pow2_bits_eqb by done.
    destruct (Z.eqb_spec i n) as [->|]; [by rewrite E|by rewrite andb_false_r].
Qed.

(** Little-endian 16-bit values in a buffer. *)
Definition le16 (x : Z) : list Z := [u8 x; u8 (Z.shiftr x 8)].
Definition of_le16 (lo hi : Z) : Z := lo + 256 * hi.

Lemma of_le16_le16 x : 0 <= x < 65536 -> of_le16 (u8 x) (u8 (Z.shiftr x 8)) = x.
Proof.
  intros H. unfold of_le16, u8, wrap. rewrite Z.shiftr_div_pow2 by lia.
  change (2 ^ 8) with 256. rewrite (Z.mod_small (x / 256)).
  - pose proof (Z.div_mod x 256). lia.
  - split; [apply Z.div_pos|apply Z.div_lt_upper_bound]; lia.
Qed.

(** The bytes of an integer, the lowest first. *)
Fixpoint le_bytes (n : nat) (x : Z) : list Z :=
  match n with O => [] | S n => u8 x :: le_bytes n (Z.shiftr x 8) end.
Fixpoint of_le_bytes (l : list Z) : Z :=
  match l with [] => 0 | b :: l => b + 256 * of_le_bytes l end.

Lemma length_le_bytes n x : length (le_bytes n x) = n.
Proof. revert x. induction n as [|n IH]; intros x; [done|]. cbn. by rewrite IH. Qed.
Lemma of_le_bytes_le n x : of_le_bytes (le_bytes n x) = x mod 2 ^ (8 * Z.of_nat n).
Proof.
  revert x. induction n as [|n IH]; intros x; [by rewrite Z.mod_1_r|].
  cbn [le_bytes of_le_bytes]. rewrite IH, Z.shiftr_div_pow2 by lia. unfold u8, wrap.
  replace (8 * Z.of_nat (S n)) with (8 + 8 * Z.of_nat n) by lia. rewrite Z.pow_add_r by lia.
  pose proof (Z.pow_pos_nonneg 2 (8 * Z.of_nat n)). rewrite Z.rem_mul_r by lia. done.
Qed.

(** A list of bytes back from its integer. *)
Lemma le_bytes_of_le l : Forall (fun b => 0 <= b < 256) l -> le_bytes (length l) (of_le_bytes l) = l.
Proof.
  induction 1 as [|b l Hb Hl IH]; [done|]. cbn [length le_bytes of_le_bytes]. f_equal.
  - unfold u8, wrap. change (2 ^ 8) with 256. rewrite (Z.mul_comm 256), Z.mod_add by lia. by apply Z.mod_small.
  - rewrite Z.shiftr_div_pow2 by lia. change (2 ^ 8) with 256. rewrite (Z.mul_comm 256), Z.div_add, Z.div_small by lia. done.
Qed.
(** One byte of an integer. *)
Lemma le_bytes_lookup n x i : (i < n)%nat -> le_bytes n x !! i = Some (u8 (Z.shiftr x (8 * Z.of_nat i))).
Proof.
  revert x i. induction n as [|n IH]; intros x i Hi; [lia|]. destruct i as [|i]; cbn [le_bytes lookup list_lookup]; [done|].
  fold (le_bytes n (Z.shiftr x 8) !! i). rewrite IH, Z.shiftr_shiftr by lia. do 3 f_equal. lia.
Qed.
Lemma le_bytes_range n x : Forall (fun b => 0 <= b < 256) (le_bytes n x).
Proof. revert x. induction n as [|n IH]; intros x; constructor; [apply u8_range|apply IH]. Qed.

(** ** Tactics

    [run_step] unfolds one monadic step; [case_if] splits the conditional in
    the goal. *)
Ltac run_step := cbn [bind ret get modify fst snd].
Ltac case_if :=
  match goal with
  | |- context [if ?b then _ else _] => destruct b eqn:?
  end.
Ltac bool_to_prop :=
  repeat match goal with
  | H : (_ =? _) = true |- _ => apply Z.eqb_eq in H
  | H : (_ =? _) = false |- _ => apply Z.eqb_neq in H
  | H : (_ <? _) = true |- _ => apply Z.ltb_lt in H
  | H : (_ <? _) = false |- _ => apply Z.ltb_ge in H
  | H : (_ <=? _) = true |- _ => apply Z.leb_le in H
  | H : (_ <=? _) = false |- _ => apply Z.leb_gt in H
  | H : (_ && _)%bool = true |- _ => apply andb_prop in H; destruct H
  | H : (_ || _)%bool = false |- _ => apply orb_false_iff in H; destruct H
  | H : negb _ = true |- _ => apply negb_true_iff in H
  | H : negb _ = false |- _ => apply negb_false_iff in H
  end.
