(* ===== verification/KernelText.v ===== *)
(** * Numbers and strings as text

    What the drivers use of the kernel's [sscanf] and [sprintf] with the
    format [%d], for the attributes in sysfs, and that one reads what the
    other prints; strings in buffers, up to their terminator. *)

From Stdlib Require Import ZArith Ascii.
From stdpp Require Import base list strings pretty.
From S2P Require Import Prelude.

(** ** The kernel's [sscanf(buf, "%d", &v)] and [sprintf(buf, "%d\n", v)] *)
Fixpoint skip_spaces (s : string) : string :=
  match s with
  | String c s' => if isspace c then skip_spaces s' else s
  | EmptyString => s
  end.

Definition starts_digit (s : string) : bool :=
  match s with
  | String c _ => match digit_val c with Some _ => true | None => false end
  | EmptyString => false
  end.

(** [Some v] when the return value is 1, with the [int] stored. *)
Definition sscanf_d (buf : string) : option Z :=
  match skip_spaces buf with
  | String "-" s => if starts_digit s then Some (s32 (- digits 0 s)) else None
  | s => if starts_digit s then Some (s32 (digits 0 s)) else None
  end.

Definition newline : string := String "010" EmptyString.
Definition sprintf_d (v : Z) : string := pretty v +:+ newline.
Definition text_len (s : string) : Z := Z.of_nat (String.length s).

(** The return value and the text of an attribute that prints a number. *)
Definition show_int (v : Z) : Z * string := (text_len (sprintf_d v), sprintf_d v).

(** ** What is printed is read back *)
Lemma digit_char x :
  (x < 10)%N -> digit_val (pretty_N_char x) = Some (Z.of_N x) /\
    isspace (pretty_N_char x) = false /\ pretty_N_char x <> "-"%char.
Proof.
  intros H. assert (x = 0 \/ x = 1 \/ x = 2 \/ x = 3 \/ x = 4 \/ x = 5 \/ x = 6 \/ x = 7 \/
    x = 8 \/ x = 9)%N as Hx by lia.
  repeat (destruct Hx as [->|Hx]; [by cbn|]). by subst.
Qed.

(** The printed digits of [x] before [s] read back as [x]; the first one is
    neither a space nor a sign. *)
Lemma pretty_go_spec x s :
  (0 < x)%N ->
  digits 0 (pretty_N_go x s) = digits (Z.of_N x) s /\
  exists c t, pretty_N_go x s = String c t /\ digit_val c <> None /\
    isspace c = false /\ c <> "-"%char.
Proof.
  revert s. induction (N.lt_wf_0 x) as [x _ IH]; intros s Hx.
  rewrite pretty_N_go_step by done.
  destruct (digit_char (x `mod` 10)) as (Hd & Hs & Hm); [by apply N.mod_lt|].
  destruct (decide (0 < x `div` 10)%N) as [Hq|Hq].
  - destruct (IH (x `div` 10)%N) with (s := String (pretty_N_char (x `mod` 10)) s)
      as [Hv He]; [by apply N.div_lt|done|]. split; [|exact He].
    rewrite Hv. cbn [digits]. rewrite Hd. f_equal.
    rewrite <- N2Z.inj_mul with (n := 10%N), <- N2Z.inj_add. f_equal.
    symmetry. by apply N.div_mod.
  - assert (x `div` 10 = 0)%N as E by (revert Hq; generalize (x `div` 10)%N; lia). rewrite E, pretty_N_go_0. split.
    + cbn [digits]. rewrite Hd. f_equal. pose proof (N.div_mod x 10 ltac:(done)) as Hm'. rewrite E in Hm'. lia.
    + do 2 eexists. split; [done|]. by rewrite Hd.
Qed.

Lemma pretty_go_app x s t : pretty_N_go x s +:+ t = pretty_N_go x (s +:+ t).
Proof.
  revert s. induction (N.lt_wf_0 x) as [x _ IH]; intros s.
  assert (x = 0 \/ 0 < x)%N as [->|Hx] by lia; [done|].
  rewrite !(pretty_N_go_step x) by done. rewrite IH by (by apply N.div_lt). done.
Qed.

Lemma s32_small v : - 2 ^ 31 <= v < 2 ^ 31 -> s32 v = v.
Proof. intros. unfold s32. rewrite Z.mod_small by lia. lia. Qed.

Lemma scan_pos p (neg : bool) :
  - 2 ^ 31 <= (if neg then - Zpos p else Zpos p) < 2 ^ 31 ->
  let s := pretty (Npos p) +:+ newline in
  starts_digit s = true /\ s32 (if neg then - digits 0 s else digits 0 s) =
    (if neg then - Zpos p else Zpos p) /\
  exists c t, s = String c t /\ isspace c = false /\ c <> "-"%char.
Proof.
  intros Hr s. assert (s = pretty_N_go (Npos p) newline) as -> by (apply pretty_go_app).
  destruct (pretty_go_spec (Npos p) newline) as (-> & c & t & -> & Hd & Hs & Hm); [lia|].
  split; [cbn; by destruct (digit_val c)|].
  split; [|by exists c, t]. cbn [digits newline]. apply s32_small. by destruct neg.
Qed.

Lemma scan_show v : - 2 ^ 31 <= v < 2 ^ 31 -> sscanf_d (snd (show_int v)) = Some v.
Proof.
  intros Hr. cbn [show_int snd]. unfold sprintf_d, sscanf_d. destruct v as [|p|p]; [done|..].
  - destruct (scan_pos p false Hr) as (Hd & Hv & c & t & Hs & Hsp & Hm).
    change (pretty (Z.pos p)) with (pretty (N.pos p)). rewrite Hs in *.
    cbn [skip_spaces]. rewrite Hsp.
    destruct c as [[] [] [] [] [] [] [] []]; first [by rewrite Hd, Hv|congruence].
  - destruct (scan_pos p true Hr) as (Hd & Hv & _).
    change (pretty (Z.neg p) +:+ newline) with (String "-" (pretty (N.pos p) +:+ newline)).
    cbn [skip_spaces]. change (isspace "-") with false. cbv iota beta. by rewrite Hd, Hv.
Qed.

(** ** C strings in buffers *)
Definition NUL : ascii := "000".
(** The string in the buffer; [None]: there is no terminator. *)
Fixpoint c_str (l : list ascii) : option string :=
  match l with
  | [] => None
  | c :: l => if bool_decide (c = NUL) then Some EmptyString else String c <$> c_str l
  end.

(** A string without NUL, in front of one. *)
Definition c_string (s : string) : Prop := NUL ∉ String.list_ascii_of_string s.

Lemma c_str_app l rest :
  NUL ∉ l -> c_str (l ++ NUL :: rest) = Some (String.string_of_list_ascii l).
Proof.
  induction l as [|c l IH]; intros H; [done|]. apply not_elem_of_cons in H as [H1 H2].
  cbn [app c_str]. rewrite bool_decide_eq_false_2 by congruence. by rewrite IH.
Qed.
Lemma c_str_no_nul l : NUL ∉ l -> c_str l = None.
Proof.
  induction l as [|c l IH]; intros H; [done|]. apply not_elem_of_cons in H as [H1 H2].
  cbn [c_str]. rewrite bool_decide_eq_false_2 by congruence. by rewrite IH.
Qed.
Lemma length_ascii s : length (String.list_ascii_of_string s) = String.length s.
Proof. induction s; [done|]. cbn. by f_equal. Qed.
