(* ===== verification/C2Wire.v ===== *)
(** * C2 port: the bit-banged wire protocol (test_c2port/core.c, lines 60-258)

    The functions of the "low level signal" and "basic functions" sections of
    core.c, written once over the interface [C2PortOps] that [struct
    c2port_ops] is in the source, and over the kernel primitives [Kernel] they
    call.  [bus] is the observing instance: it records every call in a trace
    and answers [c2d_get] from an arbitrary stream of line samples, so a
    theorem about it holds for every behaviour of the target. *)

From Stdlib Require Import ZArith.
From stdpp Require Import base list.
From S2P Require Import Prelude.

(** [struct c2port_ops]: the callbacks a board driver supplies. *)
Class C2PortOps (W : Type) := {
  access : Z -> M W unit;
  c2d_dir : Z -> M W unit;
  c2d_get : M W Z;
  c2d_set : Z -> M W unit;
  c2ck_set : Z -> M W unit;
}.

(** The kernel primitives core.c calls around the callbacks. *)
Class Kernel (W : Type) := {
  local_irq_disable : M W unit;
  local_irq_enable : M W unit;
  udelay : Z -> M W unit;
  mdelay : Z -> M W unit;
}.

Section Core.
Context {W : Type} `{!C2PortOps W} `{!Kernel W}.

Definition c2port_reset : M W unit :=
  local_irq_disable ;;
  c2ck_set 0 ;;
  udelay 25 ;;
  c2ck_set 1 ;;
  local_irq_enable ;;
  udelay 1.

Definition c2port_strobe_ck : M W unit :=
  local_irq_disable ;;
  c2ck_set 0 ;;
  udelay 1 ;;
  c2ck_set 1 ;;
  local_irq_enable ;;
  udelay 1.

(** The transmit loop [for (i = 0; i < n; i++) { c2d_set(x & 1); strobe; x >>= 1; }]. *)
Fixpoint c2port_shift_out (n : nat) (x : Z) : M W unit :=
  match n with
  | O => ret tt
  | S n =>
      c2d_set (Z.land x 1) ;;
      c2port_strobe_ck ;;
      c2port_shift_out n (Z.shiftr x 1)
  end.

(** The receive loop
    [for (i = 0; i < n; i++) { x >>= 1; strobe; if (c2d_get()) x |= 0x80; }]. *)
Fixpoint c2port_shift_in (n : nat) (x : Z) : M W Z :=
  match n with
  | O => ret x
  | S n =>
      let x := Z.shiftr x 1 in
      c2port_strobe_ck ;;
      v <- c2d_get ;;
      c2port_shift_in n (if truthy v then Z.lor x 0x80 else x)
  end.

(** The WAIT loop
    [do { strobe; if (c2d_get()) break; udelay(1); } while (--timeout > 0);]
    returns the value [timeout] has when the loop is left. *)
Fixpoint c2port_wait (timeout : nat) : M W Z :=
  match timeout with
  | O => ret 0
  | S t =>
      c2port_strobe_ck ;;
      v <- c2d_get ;;
      if truthy v then ret (Z.of_nat timeout)
      else (udelay 1 ;; c2port_wait t)
  end.

Definition c2port_write_ar (addr : Z) : M W unit :=
  c2port_strobe_ck ;;
  c2d_dir 0 ;;
  c2d_set 1 ;;
  c2port_strobe_ck ;;
  c2d_set 1 ;;
  c2port_strobe_ck ;;
  c2port_shift_out 8 addr ;;
  c2d_dir 1 ;;
  c2port_strobe_ck.

(** Returns the C return value and the new contents of [*addr]. *)
Definition c2port_read_ar (addr : Z) : M W (Z * Z) :=
  c2port_strobe_ck ;;
  c2d_dir 0 ;;
  c2d_set 0 ;;
  c2port_strobe_ck ;;
  c2d_set 1 ;;
  c2port_strobe_ck ;;
  c2d_dir 1 ;;
  addr <- c2port_shift_in 8 0 ;;
  c2port_strobe_ck ;;
  ret (0, addr).

Definition c2port_write_dr (data : Z) : M W Z :=
  c2port_strobe_ck ;;
  c2d_dir 0 ;;
  c2d_set 1 ;;
  c2port_strobe_ck ;;
  c2d_set 0 ;;
  c2port_strobe_ck ;;
  c2d_set 0 ;;
  c2port_strobe_ck ;;
  c2d_set 0 ;;
  c2port_strobe_ck ;;
  c2port_shift_out 8 data ;;
  c2d_dir 1 ;;
  timeout <- c2port_wait 20 ;;
  if timeout =? 0 then ret (- EIO)
  else (c2port_strobe_ck ;; ret 0).

(** Returns the C return value and the new contents of [*data]. *)
Definition c2port_read_dr (data : Z) : M W (Z * Z) :=
  c2port_strobe_ck ;;
  c2d_dir 0 ;;
  c2d_set 0 ;;
  c2port_strobe_ck ;;
  c2d_set 0 ;;
  c2port_strobe_ck ;;
  c2d_set 0 ;;
  c2port_strobe_ck ;;
  c2d_set 0 ;;
  c2port_strobe_ck ;;
  c2d_dir 1 ;;
  timeout <- c2port_wait 20 ;;
  if timeout =? 0 then ret (- EIO, data)
  else
    (data <- c2port_shift_in 8 0 ;;
     c2port_strobe_ck ;;
     ret (0, data)).
End Core.

(** ** The observing bus *)
Inductive c2_event : Type :=
| EvAccess (status : Z)
| EvDir (dir : Z)
| EvSet (v : Z)
| EvCk (v : Z)
| EvGet (v : Z)
| EvIrqOff
| EvIrqOn
| EvUdelay (us : Z)
| EvMdelay (ms : Z).

#[export] Instance c2_event_eq_dec : EqDecision c2_event.
Proof. solve_decision. Defined.

Record bus := mkBus {
  trace : list c2_event;
  line : nat -> Z;
  pos : nat;
}.

(** [adv w evs k]: [w] after the events [evs], [k] of them line samples. *)
Definition adv (w : bus) (evs : list c2_event) (k : nat) : bus :=
  mkBus (trace w ++ evs) (line w) (pos w + k).

Definition emit (e : c2_event) : M bus unit := modify (fun w => adv w [e] 0).

#[export] Instance bus_ops : C2PortOps bus := {|
  access s := emit (EvAccess s);
  c2d_dir d := emit (EvDir d);
  c2d_get := fun w => (line w (pos w), adv w [EvGet (line w (pos w))] 1);
  c2d_set v := emit (EvSet v);
  c2ck_set v := emit (EvCk v);
|}.

#[export] Instance bus_kernel : Kernel bus := {|
  local_irq_disable := emit EvIrqOff;
  local_irq_enable := emit EvIrqOn;
  udelay us := emit (EvUdelay us);
  mdelay ms := emit (EvMdelay ms);
|}.
