(* ===== verification/C2Proto.v ===== *)
(** * C2 port: what the wire functions put on the line

    The C2 frame format as the comments of core.c give it (START, INS,
    LENGTH, ADDRESS/DATA, WAIT and STOP fields), the view a target has of the
    line (one symbol per rising clock edge), the timing discipline of the
    clock line, and the theorems that the wire functions of [C2Wire] produce
    exactly these frames and keep that discipline. *)

From Stdlib Require Import ZArith.
From stdpp Require Import base list.
From S2P Require Import Prelude C2Wire.

(** ** The line as the target sees it *)

(** State of the pins, as driven by the host.  [p_owned]: the access callback
    switched the lines on; [p_dir]: 0 output, otherwise input. *)
Record pins := mkPins {
  p_owned : bool;
  p_dir : Z;
  p_level : Z;
  p_ck : Z;
}.

Definition pin_step (p : pins) (e : c2_event) : pins :=
  match e with
  | EvAccess s => mkPins (truthy s) (if truthy s then 0 else 1) (p_level p) (p_ck p)
  | EvDir d => mkPins (p_owned p) d (p_level p) (p_ck p)
  | EvSet v => mkPins (p_owned p) (p_dir p) v (p_ck p)
  | EvCk v => mkPins (p_owned p) (p_dir p) (p_level p) v
  | _ => p
  end.

Definition pins_after (p : pins) (evs : list c2_event) : pins :=
  fold_left pin_step evs p.

(** One symbol per rising clock edge: the bit the host drives, or a released
    line. *)
Inductive sym := Driven (b : bool) | Released.
#[export] Instance Driven_inj : Inj (=) (=) Driven.
Proof. by intros ? ? [=]. Qed.

Definition edge (p : pins) (e : c2_event) : list sym :=
  match e with
  | EvCk v =>
      if truthy v && (p_ck p =? 0)
      then [if p_dir p =? 0 then Driven (truthy (p_level p)) else Released]
      else []
  | _ => []
  end.

Fixpoint strobes (p : pins) (evs : list c2_event) : list sym :=
  match evs with
  | [] => []
  | e :: evs => edge p e ++ strobes (pin_step p e) evs
  end.

(** Between two frames the host holds the clock high and releases C2D. *)
Definition pins_idle (p : pins) : Prop := p_dir p = 1 /\ p_ck p = 1.

(** ** Frames *)
Inductive c2_frame :=
| AddressWrite (addr : Z)
| AddressRead
| DataWrite (data : Z) (waits : nat)
| DataRead (waits : nat).

Fixpoint driven_bits (n : nat) (ss : list sym) : option (list bool * list sym) :=
  match n, ss with
  | O, _ => Some ([], ss)
  | S n, Driven b :: ss =>
      match driven_bits n ss with
      | Some (bs, rest) => Some (b :: bs, rest)
      | None => None
      end
  | _, _ => None
  end.

Fixpoint released (ss : list sym) : option nat :=
  match ss with
  | [] => Some 0%nat
  | Released :: ss => option_map S (released ss)
  | Driven _ :: _ => None
  end.

(** A receiver for the frames: START, two INS bits (LSB first), then the
    fields of the instruction, then a released STOP. *)
Definition decode_frame (ss : list sym) : option c2_frame :=
  match ss with
  | Released :: Driven i0 :: Driven i1 :: rest =>
      match i0, i1 with
      | true, true =>
          match driven_bits 8 rest with
          | Some (bs, [Released]) => Some (AddressWrite (of_bits bs))
          | _ => None
          end
      | false, true =>
          match released rest with
          | Some 9%nat => Some AddressRead
          | _ => None
          end
      | true, false =>
          match driven_bits 2 rest with
          | Some ([false; false], rest) =>
              match driven_bits 8 rest with
              | Some (bs, rest) =>
                  match released rest with
                  | Some (S (S w)) => Some (DataWrite (of_bits bs) (S w))
                  | _ => None
                  end
              | None => None
              end
          | _ => None
          end
      | false, false =>
          match driven_bits 2 rest with
          | Some ([false; false], rest) =>
              match released rest with
              | Some n =>
                  if (10 <=? n)%nat then Some (DataRead (n - 9)) else None
              | None => None
              end
          | _ => None
          end
      end
  | _ => None
  end.

(** ** The clock discipline

    A monitor for the clock line: it may go low only with local interrupts
    off, interrupts stay off while it is low, and the length of the low pulse
    in microseconds satisfies [lim].  [None]: violation. *)
Record clk := mkClk { clk_irq_off : bool; clk_low : option Z }.

Definition clk_step (lim : Z -> bool) (c : clk) (e : c2_event) : option clk :=
  match e with
  | EvIrqOff => Some (mkClk true (clk_low c))
  | EvIrqOn =>
      match clk_low c with
      | None => Some (mkClk false None)
      | Some _ => None
      end
  | EvCk v =>
      if truthy v then
        match clk_low c with
        | Some t => if lim t then Some (mkClk (clk_irq_off c) None) else None
        | None => Some c
        end
      else if clk_irq_off c then
        Some (mkClk true (Some (default 0 (clk_low c))))
      else None
  | EvUdelay us => Some (mkClk (clk_irq_off c) (Z.add us <$> clk_low c))
  | EvMdelay ms => Some (mkClk (clk_irq_off c) (Z.add (1000 * ms) <$> clk_low c))
  | _ => Some c
  end.

Fixpoint clk_run (lim : Z -> bool) (c : clk) (evs : list c2_event) : option clk :=
  match evs with
  | [] => Some c
  | e :: evs =>
      match clk_step lim c e with
      | Some c' => clk_run lim c' evs
      | None => None
      end
  end.

Definition clk_idle : clk := mkClk false None.

(** "shorter than 5us, otherwise the microcontroller may consider it as a
    reset signal" (core.c:84) and "at least 20us" (core.c:68). *)
Definition is_strobe (t : Z) : bool := (0 <? t) && (t <? 5).
Definition is_reset (t : Z) : bool := 20 <=? t.

(** The access callback is not called. *)
Definition keeps_access (e : c2_event) : Prop :=
  match e with EvAccess _ => False | _ => True end.

(** The events of an operation between two frames: the clock discipline is
    kept, the pins come back to idle and the lines stay switched on. *)
Definition quiet (lim : Z -> bool) (evs : list c2_event) : Prop :=
  clk_run lim clk_idle evs = Some clk_idle /\
  (forall p, pins_idle p -> pins_idle (pins_after p evs)) /\
  Forall keeps_access evs.

(** ** Exact runs on the observing bus *)
Definition runs {A} (m : M bus A) (w : bus) (a : A) (evs : list c2_event) (k : nat) : Prop :=
  m w = (a, adv w evs k).

Definition strobe_evs : list c2_event :=
  [EvIrqOff; EvCk 0; EvUdelay 1; EvCk 1; EvIrqOn; EvUdelay 1].

Definition out_evs (bs : list bool) : list c2_event :=
  b ← bs; EvSet (Z.b2z b) :: strobe_evs.

Definition in_evs (vs : list Z) : list c2_event :=
  v ← vs; strobe_evs ++ [EvGet v].

Definition waiting_evs (vs : list Z) : list c2_event :=
  v ← vs; strobe_evs ++ [EvGet v; EvUdelay 1].

(** The next [n] samples of the line. *)
Definition samples (w : bus) (n : nat) : list Z := line w <$> seq (pos w) n.

(** How many of the next [n] samples are low before the first high one. *)
Fixpoint low_run (l : nat -> Z) (p n : nat) : option nat :=
  match n with
  | O => None
  | S n => if truthy (l p) then Some 0%nat else S <$> low_run l (S p) n
  end.

(** ** Lemmas *)
Lemma adv_adv w e1 k1 e2 k2 : adv (adv w e1 k1) e2 k2 = adv w (e1 ++ e2) (k1 + k2).
Proof. unfold adv. simpl. by rewrite app_assoc, Nat.add_assoc. Qed.

Lemma adv_nil w : adv w [] 0 = w.
Proof. destruct w. unfold adv. simpl. by rewrite app_nil_r, Nat.add_0_r. Qed.

Lemma runs_ret {A} (a : A) w : runs (ret a) w a [] 0.
Proof. unfold runs, ret. by rewrite adv_nil. Qed.

Lemma runs_bind {A B} (m : M bus A) (f : A -> M bus B) w a b e1 e2 k1 k2 :
  runs m w a e1 k1 -> runs (f a) (adv w e1 k1) b e2 k2 ->
  runs (bind m f) w b (e1 ++ e2) (k1 + k2).
Proof.
  unfold runs, bind. intros -> ->. by rewrite adv_adv.
Qed.

Lemma runs_emit e w : runs (emit e) w tt [e] 0.
Proof. done. Qed.

Lemma runs_access v w : runs (access v) w tt [EvAccess v] 0.
Proof. done. Qed.
Lemma runs_dir d w : runs (c2d_dir d) w tt [EvDir d] 0.
Proof. done. Qed.
Lemma runs_set v w : runs (c2d_set v) w tt [EvSet v] 0.
Proof. done. Qed.
Lemma runs_ck v w : runs (c2ck_set v) w tt [EvCk v] 0.
Proof. done. Qed.
Lemma runs_udelay v w : runs (udelay v) w tt [EvUdelay v] 0.
Proof. done. Qed.
Lemma runs_mdelay v w : runs (mdelay v) w tt [EvMdelay v] 0.
Proof. done. Qed.

Lemma runs_get w : runs c2d_get w (line w (pos w)) [EvGet (line w (pos w))] 1.
Proof. done. Qed.

Lemma runs_strobe w : runs c2port_strobe_ck w tt strobe_evs 0.
Proof.
  unfold runs, c2port_strobe_ck, bind, emit, modify. simpl.
  unfold emit, modify. simpl. unfold adv. simpl.
  by rewrite <- !app_assoc, !Nat.add_0_r.
Qed.

Lemma runs_eq {A} (m : M bus A) w a a' e e' k k' :
  runs m w a e k -> a = a' -> e = e' -> k = k' -> runs m w a' e' k'.
Proof. by intros ? -> -> ->. Qed.

Create HintDb c2runs.
#[export] Hint Resolve runs_ret runs_emit runs_get runs_strobe
  runs_access runs_dir runs_set runs_ck runs_udelay runs_mdelay : c2runs.

(** [runs_tac]: split a sequence into its steps, closing the known ones. *)
Ltac runs_tac :=
  repeat first
    [ eapply runs_bind; [solve [eauto with c2runs] | cbv beta; simpl fst; simpl snd]
    | solve [eauto with c2runs] ].

Lemma land1 x : Z.land x 1 = Z.b2z (Z.odd x).
Proof. change 1 with (Z.ones 1). rewrite Z.land_ones, Zmod_odd by lia. by destruct (Z.odd x). Qed.

Lemma runs_shift_out n x w : runs (c2port_shift_out n x) w tt (out_evs (bits_of n x)) 0.
Proof.
  revert x w. induction n as [|n IH]; intros x w; simpl.
  - apply runs_ret.
  - rewrite land1. eapply runs_eq; [runs_tac; apply IH| | |]; [done| |done].
    unfold out_evs. simpl. done.
Qed.

(** The value the receive loop computes from the sampled levels. *)
Definition shift_in_val (x : Z) (vs : list Z) : Z :=
  fold_left (fun x v => let x := Z.shiftr x 1 in
                        if truthy v then Z.lor x 0x80 else x) vs x.

Lemma samples_S w n :
  samples w (S n) = line w (pos w) :: samples (adv w [] 1) n.
Proof. unfold samples. simpl. by rewrite Nat.add_1_r. Qed.

Lemma samples_adv w e k n : samples (adv w e k) n = line w <$> seq (pos w + k) n.
Proof. done. Qed.

Lemma runs_shift_in n x w :
  runs (c2port_shift_in n x) w (shift_in_val x (samples w n)) (in_evs (samples w n)) n.
Proof.
  revert x w. induction n as [|n IH]; intros x w; [apply runs_ret|].
  rewrite samples_S. simpl c2port_shift_in.
  eapply runs_eq; [runs_tac; apply IH| | |].
  - unfold shift_in_val. rewrite !samples_adv. simpl. by rewrite Nat.add_0_r.
  - unfold in_evs. rewrite !samples_adv. simpl. by rewrite Nat.add_0_r.
  - lia.
Qed.

Lemma lor_80 x : 0 <= x < 128 -> Z.lor x 0x80 = x + 128.
Proof.
  intros. rewrite <- Z.lxor_lor, Z.add_nocarry_lxor; [done| |].
  all: change 128 with (2 ^ 7); rewrite Z.land_comm; apply Z.bits_inj_iff'; intros i Hi.
  all: rewrite Z.land_spec, Z.pow2_bits_eqb, Z.bits_0 by lia.
  all: destruct (Z.eqb_spec 7 i); [|done]; subst; rewrite andb_true_l.
  all: apply Z.bits_above_log2; [lia|]; destruct (Z.eq_dec x 0) as [->|]; [done|].
  all: apply Z.log2_lt_pow2; lia.
Qed.

Lemma shift_in_val_spec vs x :
  (length vs <= 8)%nat -> 0 <= x < 256 ->
  shift_in_val x vs =
    x / 2 ^ Z.of_nat (length vs) +
    2 ^ (8 - Z.of_nat (length vs)) * of_bits (truthy <$> vs).
Proof.
  revert x. induction vs as [|v vs IH]; intros x Hl Hx.
  - simpl. rewrite Z.div_1_r. lia.
  - cbn [length] in Hl. unfold shift_in_val. cbn [fold_left].
    fold (shift_in_val (if truthy v then Z.lor (Z.shiftr x 1) 128 else Z.shiftr x 1) vs).
    set (n := length vs) in *. cbn [length fmap list_fmap of_bits].
    fold n. rewrite shiftr1_div2.
    assert (Hd : 0 <= x / 2 < 128).
    { split; [apply Z.div_pos; lia | apply Z.div_lt_upper_bound; lia]. }
    set (y := if truthy v then _ else _).
    assert (Hy : y = x / 2 + 128 * Z.b2z (truthy v)).
    { unfold y. destruct (truthy v); [rewrite lor_80 by done|]; simpl; lia. }
    rewrite IH by (destruct (truthy v); simpl in Hy; lia).
    rewrite Hy, Nat2Z.inj_succ.
    assert (0 < 2 ^ Z.of_nat n) by lia.
    replace 128 with (2 ^ (7 - Z.of_nat n) * 2 ^ Z.of_nat n)
      by (rewrite <- Z.pow_add_r by lia; replace (7 - _ + _) with 7 by lia; done).
    rewrite <- Z.mul_assoc, (Z.mul_comm (2 ^ Z.of_nat n)), Z.mul_assoc, Z.div_add by lia.
    rewrite Z.div_div, <- Z.pow_succ_r by lia.
    replace (8 - Z.of_nat n) with (Z.succ (7 - Z.of_nat n)) by lia.
    replace (8 - Z.succ (Z.of_nat n)) with (7 - Z.of_nat n) by lia.
    rewrite !Z.pow_succ_r by lia. fold (truthy <$> vs). ring.
Qed.

Lemma shift_in_val_8 vs : length vs = 8%nat -> shift_in_val 0 vs = of_bits (truthy <$> vs).
Proof.
  intros Hl. rewrite shift_in_val_spec by lia. rewrite Hl.
  change (2 ^ (8 - Z.of_nat 8)) with 1. rewrite Z.div_0_l by lia. lia.
Qed.

(** *** The WAIT loop *)
Lemma low_run_lt l p n k : low_run l p n = Some k -> (k < n)%nat.
Proof.
  revert p k. induction n as [|n IH]; intros p k; simpl; [done|].
  destruct (truthy (l p)); [intros [= <-]; lia|].
  destruct (low_run l (S p) n) eqn:E; intros [= <-]. apply IH in E. lia.
Qed.

Definition wait_ret (n : nat) (r : option nat) : Z :=
  match r with Some k => Z.of_nat (n - k) | None => 0 end.
Definition wait_evs (w : bus) (n : nat) (r : option nat) : list c2_event :=
  match r with
  | Some k => waiting_evs (samples w k) ++ strobe_evs ++ [EvGet (line w (pos w + k))]
  | None => waiting_evs (samples w n)
  end.
Definition wait_samples (n : nat) (r : option nat) : nat :=
  match r with Some k => S k | None => n end.

Lemma runs_wait n w :
  let r := low_run (line w) (pos w) n in
  runs (c2port_wait n) w (wait_ret n r) (wait_evs w n r) (wait_samples n r).
Proof.
  revert w. induction n as [|n IH]; intros w; [apply runs_ret|].
  simpl low_run. simpl c2port_wait.
  destruct (truthy (line w (pos w))) eqn:Ht; simpl.
  - eapply runs_eq; [runs_tac; cbn [adv line pos]; rewrite Nat.add_0_r, Ht; runs_tac|..];
      simpl; rewrite ?Nat.add_0_r; done.
  - eapply runs_eq.
    + runs_tac. cbn [adv line pos]. rewrite Nat.add_0_r, Ht. runs_tac.
    + simpl. rewrite !Nat.add_0_r, Nat.add_1_r.
      destruct (low_run (line w) (S (pos w)) n) eqn:E; simpl; [|done].
      apply low_run_lt in E. lia.
    + cbn [adv line pos]. rewrite !Nat.add_0_r, Nat.add_1_r.
      destruct (low_run (line w) (S (pos w)) n);
        cbn [fmap option_fmap option_map]; unfold wait_evs;
        rewrite samples_S; unfold waiting_evs; rewrite bind_cons, !samples_adv;
        cbn [adv line pos]; rewrite !Nat.add_0_r, !Nat.add_1_r, <- ?app_assoc;
        by rewrite <- ?Nat.add_succ_comm.
    + simpl. rewrite !Nat.add_0_r, Nat.add_1_r.
      by destruct (low_run (line w) (S (pos w)) n).
Qed.

#[export] Hint Resolve runs_shift_out runs_shift_in runs_wait : c2runs.

(** *** The events of the four frames *)
Definition ins_evs (bs : list bool) : list c2_event :=
  strobe_evs ++ EvDir 0 :: out_evs bs.

Definition write_ar_evs (addr : Z) : list c2_event :=
  ins_evs [true; true] ++ out_evs (bits_of 8 addr) ++ EvDir 1 :: strobe_evs.

Definition read_ar_evs (vs : list Z) : list c2_event :=
  ins_evs [false; true] ++ EvDir 1 :: in_evs vs ++ strobe_evs.

Definition write_dr_evs (w : bus) (data : Z) : list c2_event :=
  let r := low_run (line w) (pos w) 20 in
  ins_evs [true; false; false; false] ++ out_evs (bits_of 8 data) ++
  EvDir 1 :: wait_evs w 20 r ++ match r with Some _ => strobe_evs | None => [] end.

Definition read_dr_evs (w : bus) : list c2_event :=
  let r := low_run (line w) (pos w) 20 in
  ins_evs [false; false; false; false] ++ EvDir 1 :: wait_evs w 20 r ++
  match r with
  | Some k => in_evs (line w <$> seq (pos w + S k) 8) ++ strobe_evs
  | None => []
  end.

Ltac flat := rewrite <- ?app_assoc; cbn [app]; reflexivity.

Lemma runs_write_ar addr w :
  runs (c2port_write_ar addr) w tt (write_ar_evs addr) 0.
Proof.
  unfold c2port_write_ar. eapply runs_eq; [runs_tac|..]; [done| |done].
  unfold write_ar_evs, ins_evs. cbn [out_evs mbind list_bind Z.b2z app]. flat.
Qed.

Lemma runs_read_ar addr w :
  runs (c2port_read_ar addr) w (0, of_bits (truthy <$> samples w 8))
    (read_ar_evs (samples w 8)) 8.
Proof.
  unfold c2port_read_ar. eapply runs_eq; [runs_tac|..]; [| |done].
  - rewrite samples_adv. simpl pos. rewrite !Nat.add_0_r. f_equal. by apply shift_in_val_8.
  - rewrite samples_adv. simpl pos. rewrite !Nat.add_0_r.
    unfold read_ar_evs, ins_evs. cbn [out_evs mbind list_bind Z.b2z app]. flat.
Qed.

Lemma runs_write_dr data w :
  let r := low_run (line w) (pos w) 20 in
  runs (c2port_write_dr data) w (match r with Some _ => 0 | None => - EIO end)
    (write_dr_evs w data) (wait_samples 20 r).
Proof.
  intros r. unfold c2port_write_dr.
  destruct r as [k|] eqn:Hr; subst r.
  - eapply runs_eq.
    + runs_tac. cbn [adv line pos]. rewrite !Nat.add_0_r, Hr.
      pose proof (low_run_lt _ _ _ _ Hr).
      case_if; [cbn [wait_ret] in *; bool_to_prop; lia|]. runs_tac.
    + done.
    + unfold write_dr_evs, ins_evs. cbn [adv line pos]. rewrite !Nat.add_0_r, Hr.
      cbn [wait_evs out_evs mbind list_bind Z.b2z app]. rewrite samples_adv.
      cbn [adv line pos]. rewrite !Nat.add_0_r. flat.
    + cbn [adv line pos]. rewrite !Nat.add_0_r, Hr. cbn. lia.
  - eapply runs_eq.
    + runs_tac. cbn [adv line pos]. rewrite !Nat.add_0_r, Hr. cbn [wait_ret Z.eqb]. runs_tac.
    + done.
    + unfold write_dr_evs, ins_evs. cbn [adv line pos]. rewrite !Nat.add_0_r, Hr.
      cbn [wait_evs out_evs mbind list_bind Z.b2z app]. rewrite samples_adv.
      cbn [adv line pos]. rewrite !Nat.add_0_r. flat.
    + cbn [adv line pos]. rewrite !Nat.add_0_r, Hr. cbn. lia.
Qed.

Definition read_dr_result (w : bus) (data : Z) : Z * Z :=
  match low_run (line w) (pos w) 20 with
  | Some k => (0, of_bits (truthy <$> (line w <$> seq (pos w + S k) 8)))
  | None => (- EIO, data)
  end.

Definition read_dr_samples (w : bus) : nat :=
  match low_run (line w) (pos w) 20 with Some k => S k + 8 | None => 20 end.

Lemma runs_read_dr data w :
  runs (c2port_read_dr data) w (read_dr_result w data) (read_dr_evs w) (read_dr_samples w).
Proof.
  unfold c2port_read_dr, read_dr_result, read_dr_samples, read_dr_evs.
  destruct (low_run (line w) (pos w) 20) as [k|] eqn:Hr.
  - eapply runs_eq.
    + runs_tac. cbn [adv line pos]. rewrite !Nat.add_0_r, Hr.
      pose proof (low_run_lt _ _ _ _ Hr).
      case_if; [cbn [wait_ret] in *; bool_to_prop; lia|]. runs_tac.
    + rewrite samples_adv. cbn [adv line pos wait_samples].
      rewrite !Nat.add_0_r. f_equal. by apply shift_in_val_8.
    + unfold ins_evs. cbn [adv line pos]. rewrite !Nat.add_0_r, Hr.
      cbn [wait_evs out_evs mbind list_bind Z.b2z app]. rewrite !samples_adv.
      cbn [adv line pos wait_samples]. rewrite !Nat.add_0_r. flat.
    + cbn [adv line pos]. rewrite !Nat.add_0_r, Hr. cbn. lia.
  - eapply runs_eq.
    + runs_tac. cbn [adv line pos]. rewrite !Nat.add_0_r, Hr. cbn [wait_ret Z.eqb]. runs_tac.
    + done.
    + unfold ins_evs. cbn [adv line pos]. rewrite !Nat.add_0_r, Hr.
      cbn [wait_evs out_evs mbind list_bind Z.b2z app]. rewrite samples_adv.
      cbn [adv line pos]. rewrite !Nat.add_0_r. flat.
    + cbn [adv line pos]. rewrite !Nat.add_0_r, Hr. cbn. lia.
Qed.

(** *** The target's view of the event sequences *)
Lemma pins_after_app p a b : pins_after p (a ++ b) = pins_after (pins_after p a) b.
Proof. apply fold_left_app. Qed.

Lemma strobes_app p a b : strobes p (a ++ b) = strobes p a ++ strobes (pins_after p a) b.
Proof.
  revert p. induction a as [|e a IH]; intros p; [done|]. simpl. by rewrite IH, app_assoc.
Qed.

Definition with_ck (p : pins) (v : Z) : pins := mkPins (p_owned p) (p_dir p) (p_level p) v.

Lemma strobe_view p :
  strobes p strobe_evs = [if p_dir p =? 0 then Driven (truthy (p_level p)) else Released] /\
  pins_after p strobe_evs = with_ck p 1.
Proof. split; reflexivity. Qed.

Lemma out_view bs p :
  p_dir p = 0 -> p_ck p = 1 ->
  strobes p (out_evs bs) = Driven <$> bs /\
  p_dir (pins_after p (out_evs bs)) = 0 /\ p_ck (pins_after p (out_evs bs)) = 1.
Proof.
  revert p. induction bs as [|b bs IH]; intros p Hd Hc; [done|].
  unfold out_evs. rewrite bind_cons. fold (out_evs bs).
  rewrite strobes_app, pins_after_app.
  destruct (IH (pins_after p (EvSet (Z.b2z b) :: strobe_evs))) as (-> & ? & ?); [done..|].
  split; [|done]. cbn. rewrite Hd. by destruct b.
Qed.

(** Sampling sequences: strobes, samples and delays, no change of direction. *)
Lemma sampled_view (f : Z -> list c2_event) vs p :
  (forall q v, p_dir q = 1 ->
     strobes q (f v) = [Released] /\ p_dir (pins_after q (f v)) = 1 /\ p_ck (pins_after q (f v)) = 1) ->
  pins_idle p ->
  strobes p (v ← vs; f v) = replicate (length vs) Released /\
  pins_idle (pins_after p (v ← vs; f v)).
Proof.
  intros Hf. revert p. induction vs as [|v vs IH]; intros p [Hd Hc]; [done|].
  rewrite bind_cons, strobes_app, pins_after_app.
  destruct (Hf p v Hd) as (-> & ? & ?).
  destruct (IH (pins_after p (f v))) as (-> & ?); [done|]. done.
Qed.

Lemma in_view vs p :
  pins_idle p ->
  strobes p (in_evs vs) = replicate (length vs) Released /\ pins_idle (pins_after p (in_evs vs)).
Proof. apply sampled_view. intros q v Hq. cbn. by rewrite Hq. Qed.

Lemma waiting_view vs p :
  pins_idle p ->
  strobes p (waiting_evs vs) = replicate (length vs) Released /\
  pins_idle (pins_after p (waiting_evs vs)).
Proof. apply sampled_view. intros q v Hq. cbn. by rewrite Hq. Qed.

Lemma stop_view p :
  pins_idle p -> strobes p strobe_evs = [Released] /\ pins_idle (pins_after p strobe_evs).
Proof. intros [Hd Hc]. cbn. by rewrite Hd. Qed.

Lemma length_samples w n : length (samples w n) = n.
Proof. unfold samples. by rewrite length_fmap, length_seq. Qed.

Lemma wait_view w n r p :
  pins_idle p ->
  strobes p (wait_evs w n r) = replicate (wait_samples n r) Released /\
  pins_idle (pins_after p (wait_evs w n r)).
Proof.
  intros Hp. destruct r as [k|]; cbn [wait_evs wait_samples].
  - rewrite !strobes_app, !pins_after_app.
    destruct (waiting_view (samples w k) p Hp) as [-> H1].
    destruct (stop_view _ H1) as [-> H2]. rewrite length_samples. split.
    + cbn [strobes edge app]. 
      by rewrite replicate_S_end.
    + done.
  - destruct (waiting_view (samples w n) p Hp) as [-> H1]. by rewrite length_samples.
Qed.

(** START, then the driven INS (and LENGTH) bits; the host then drives. *)
Lemma ins_view bs p :
  pins_idle p ->
  strobes p (ins_evs bs) = Released :: (Driven <$> bs) /\
  p_dir (pins_after p (ins_evs bs)) = 0 /\ p_ck (pins_after p (ins_evs bs)) = 1.
Proof.
  intros Hp. unfold ins_evs. rewrite strobes_app, pins_after_app.
  destruct (stop_view p Hp) as [-> _]. cbn [strobes edge app pins_after fold_left].
  destruct (out_view bs (pin_step (with_ck p 1) (EvDir 0))) as (Hs & ?); [done..|].
  split; [|done]. f_equal. apply Hs.
Qed.

(** *** The clock discipline of the event sequences *)
Definition clk_ok (lim : Z -> bool) (evs : list c2_event) : Prop :=
  clk_run lim clk_idle evs = Some clk_idle.

Lemma clk_run_app lim c a b :
  clk_run lim c (a ++ b) =
    match clk_run lim c a with Some c' => clk_run lim c' b | None => None end.
Proof.
  revert c. induction a as [|e a IH]; intros c; [done|]. simpl.
  destruct (clk_step lim c e); [apply IH|done].
Qed.

Lemma clk_ok_app lim a b : clk_ok lim a -> clk_ok lim b -> clk_ok lim (a ++ b).
Proof. unfold clk_ok. intros Ha Hb. by rewrite clk_run_app, Ha. Qed.

Lemma clk_ok_cons lim e b : clk_ok lim [e] -> clk_ok lim b -> clk_ok lim (e :: b).
Proof. apply (clk_ok_app lim [e]). Qed.

Lemma clk_ok_bind {A} lim (f : A -> list c2_event) l :
  (forall x, clk_ok lim (f x)) -> clk_ok lim (x ← l; f x).
Proof.
  intros Hf. induction l as [|x l IH]; [done|]. rewrite bind_cons. by apply clk_ok_app.
Qed.

Lemma clk_ok_strobe : clk_ok is_strobe strobe_evs.
Proof. done. Qed.
Lemma clk_ok_out bs : clk_ok is_strobe (out_evs bs).
Proof. by apply clk_ok_bind. Qed.
Lemma clk_ok_in vs : clk_ok is_strobe (in_evs vs).
Proof. by apply clk_ok_bind. Qed.
Lemma clk_ok_waiting vs : clk_ok is_strobe (waiting_evs vs).
Proof. by apply clk_ok_bind. Qed.
Lemma clk_ok_wait w n r : clk_ok is_strobe (wait_evs w n r).
Proof.
  destruct r; cbn [wait_evs]; auto using clk_ok_app, clk_ok_waiting, clk_ok_strobe.
Qed.
Lemma clk_ok_ins bs : clk_ok is_strobe (ins_evs bs).
Proof. apply clk_ok_app; [done|]. apply clk_ok_cons; [done|apply clk_ok_out]. Qed.

#[export] Hint Resolve clk_ok_app clk_ok_cons clk_ok_strobe clk_ok_out clk_ok_in
  clk_ok_waiting clk_ok_wait clk_ok_ins : c2runs.
#[export] Hint Extern 1 (clk_ok _ [_]) => reflexivity : c2runs.
#[export] Hint Extern 1 (clk_ok _ []) => reflexivity : c2runs.

Lemma quiet_app lim a b : quiet lim a -> quiet lim b -> quiet lim (a ++ b).
Proof.
  intros (Ha & Pa & ?) (Hb & Pb & ?). split; [by apply clk_ok_app|].
  split; [|by apply Forall_app]. intros p Hp. rewrite pins_after_app. auto.
Qed.

Lemma quiet_nil lim : quiet lim [].
Proof. by split_and!. Qed.

Lemma keeps_bind {A} (f : A -> list c2_event) l :
  (forall x, Forall keeps_access (f x)) -> Forall keeps_access (x ← l; f x).
Proof.
  intros Hf. induction l as [|x l IH]; [done|]. rewrite bind_cons. by apply Forall_app.
Qed.

(** [keeps_tac]: the event lists of the frames contain no access event. *)
Ltac keeps_tac :=
  repeat match goal with
  | |- Forall keeps_access (_ ++ _) => apply Forall_app; split
  | |- Forall keeps_access (_ :: _) => constructor; [exact I|]
  | |- Forall keeps_access [] => constructor
  | |- Forall keeps_access strobe_evs => by repeat constructor
  | |- Forall keeps_access (ins_evs _) => unfold ins_evs
  | |- Forall keeps_access (wait_evs _ _ ?r) => destruct r; cbn [wait_evs]
  | |- Forall keeps_access (_ _) => apply keeps_bind; intros ?
  | |- Forall keeps_access (match ?r with _ => _ end) => destruct r
  end.

Lemma driven_bits_app bs rest :
  driven_bits (length bs) ((Driven <$> bs) ++ rest) = Some (bs, rest).
Proof. induction bs as [|b bs IH]; [done|]. cbn. by rewrite IH. Qed.

Lemma driven_bits_8 x rest :
  driven_bits 8 ((Driven <$> bits_of 8 x) ++ rest) = Some (bits_of 8 x, rest).
Proof. apply (driven_bits_app (bits_of 8 x)). Qed.

Lemma released_replicate n : released (replicate n Released) = Some n.
Proof. induction n; [done|]. cbn. by rewrite IHn. Qed.

(** *** The four frames *)
Lemma write_ar_view addr p :
  pins_idle p ->
  strobes p (write_ar_evs addr) =
    Released :: Driven true :: Driven true :: (Driven <$> bits_of 8 addr) ++ [Released] /\
  pins_idle (pins_after p (write_ar_evs addr)).
Proof.
  intros Hp. unfold write_ar_evs. rewrite !strobes_app, !pins_after_app.
  destruct (ins_view [true; true] p Hp) as (-> & Hd & Hc).
  destruct (out_view (bits_of 8 addr) _ Hd Hc) as (-> & Hd' & Hc').
  cbn [app fmap list_fmap strobes edge pins_after fold_left]. split.
  - do 3 f_equal.
  - split; [done|]. done.
Qed.

Lemma read_ar_view vs p :
  pins_idle p ->
  strobes p (read_ar_evs vs) =
    Released :: Driven false :: Driven true :: replicate (length vs + 1) Released /\
  pins_idle (pins_after p (read_ar_evs vs)).
Proof.
  intros Hp. unfold read_ar_evs. rewrite !strobes_app, !pins_after_app.
  destruct (ins_view [false; true] p Hp) as (-> & Hd & Hc).
  set (q := pins_after p _) in *.
  change (EvDir 1 :: in_evs vs ++ strobe_evs) with ([EvDir 1] ++ in_evs vs ++ strobe_evs).
  rewrite !strobes_app, !pins_after_app.
  destruct (in_view vs (pins_after q [EvDir 1])) as [-> H1]; [done|].
  destruct (stop_view _ H1) as [-> H2]. split; [|done].
  cbn [app fmap list_fmap strobes edge]. by rewrite replicate_add.
Qed.

Lemma write_dr_view w data p :
  pins_idle p ->
  let r := low_run (line w) (pos w) 20 in
  strobes p (write_dr_evs w data) =
    Released :: (Driven <$> [true; false; false; false] ++ bits_of 8 data) ++
    replicate (wait_samples 20 r + (match r with Some _ => 1 | None => 0 end)) Released /\
  pins_idle (pins_after p (write_dr_evs w data)).
Proof.
  intros Hp r. unfold write_dr_evs. fold r. rewrite !strobes_app, !pins_after_app.
  destruct (ins_view [true; false; false; false] p Hp) as (-> & Hd & Hc).
  destruct (out_view (bits_of 8 data) _ Hd Hc) as (-> & Hd' & Hc').
  set (q := pins_after (pins_after p _) _) in *.
  match goal with |- context [EvDir 1 :: ?a ++ ?b] =>
    change (EvDir 1 :: a ++ b) with ([EvDir 1] ++ a ++ b) end.
  rewrite !strobes_app, !pins_after_app.
  destruct (wait_view w 20 r (pins_after q [EvDir 1])) as [-> H1]; [done|].
  rewrite fmap_app, replicate_add. cbn [strobes edge app].
  destruct r.
  - destruct (stop_view _ H1) as [-> H2]. split; [|done].
    cbn [fmap list_fmap app]. by rewrite <- ?app_assoc.
  - split; [|done]. cbn [fmap list_fmap app strobes replicate]. by rewrite <- ?app_assoc.
Qed.

Lemma read_dr_view w p :
  pins_idle p ->
  strobes p (read_dr_evs w) =
    Released :: (Driven <$> [false; false; false; false]) ++
    replicate (match low_run (line w) (pos w) 20 with
               | Some k => S k + 9 | None => 20 end) Released /\
  pins_idle (pins_after p (read_dr_evs w)).
Proof.
  intros Hp. unfold read_dr_evs. rewrite !strobes_app, !pins_after_app.
  destruct (ins_view [false; false; false; false] p Hp) as (-> & Hd & Hc).
  set (q := pins_after p _) in *.
  match goal with |- context [EvDir 1 :: ?a ++ ?b] =>
    change (EvDir 1 :: a ++ b) with ([EvDir 1] ++ a ++ b) end.
  rewrite !strobes_app, !pins_after_app.
  destruct (wait_view w 20 (low_run (line w) (pos w) 20) (pins_after q [EvDir 1]))
    as [-> H1]; [done|].
  destruct (low_run (line w) (pos w) 20) as [k|]; cbn [wait_samples].
  - rewrite !strobes_app, !pins_after_app.
    destruct (in_view (line w <$> seq (pos w + S k) 8) _ H1) as [-> H2].
    destruct (stop_view _ H2) as [-> H3]. split; [|done].
    rewrite length_fmap, length_seq, (replicate_add (S k) 9). done.
  - split; [|done]. done.
Qed.

(** What the receiver makes of the four event sequences, and that each keeps
    the discipline of the lines. *)
Lemma decode_write_ar addr p :
  pins_idle p -> decode_frame (strobes p (write_ar_evs addr)) = Some (AddressWrite (u8 addr)).
Proof.
  intros Hp. destruct (write_ar_view addr p Hp) as [-> _]. cbn [decode_frame].
  by rewrite driven_bits_8, of_bits_bits_of.
Qed.

Lemma quiet_write_ar addr : quiet is_strobe (write_ar_evs addr).
Proof.
  split; [|split; [intros q Hq; by apply write_ar_view|]].
  - change (clk_ok is_strobe (write_ar_evs addr)). unfold write_ar_evs. eauto 8 with c2runs.
  - unfold write_ar_evs. keeps_tac.
Qed.

Lemma decode_read_ar w p :
  pins_idle p -> decode_frame (strobes p (read_ar_evs (samples w 8))) = Some AddressRead.
Proof.
  intros Hp. destruct (read_ar_view (samples w 8) p Hp) as [-> _]. rewrite length_samples.
  cbn [decode_frame]. by rewrite released_replicate.
Qed.

Lemma quiet_read_ar vs : quiet is_strobe (read_ar_evs vs).
Proof.
  split; [|split; [intros q Hq; by apply read_ar_view|]].
  - change (clk_ok is_strobe (read_ar_evs vs)). unfold read_ar_evs. eauto 8 with c2runs.
  - unfold read_ar_evs. keeps_tac.
Qed.

Lemma decode_write_dr w data p k :
  pins_idle p -> low_run (line w) (pos w) 20 = Some k ->
  decode_frame (strobes p (write_dr_evs w data)) = Some (DataWrite (u8 data) (S k)).
Proof.
  intros Hp Hr. destruct (write_dr_view w data p Hp) as [-> _]. cbv zeta. rewrite Hr.
  rewrite fmap_app, <- app_assoc.
  change (Driven <$> [true; false; false; false])
    with [Driven true; Driven false; Driven false; Driven false].
  cbn [app decode_frame].
  change (driven_bits 2 (Driven false :: Driven false :: ?r)) with (Some ([false; false], r)).
  cbv beta match. rewrite driven_bits_8, released_replicate, of_bits_bits_of.
  cbn [wait_samples]. by rewrite Nat.add_1_r.
Qed.

Lemma quiet_write_dr w data : quiet is_strobe (write_dr_evs w data).
Proof.
  split; [|split; [intros q Hq; by apply write_dr_view|]].
  - change (clk_ok is_strobe (write_dr_evs w data)). unfold write_dr_evs. destruct (low_run _ _ _); eauto 8 with c2runs.
  - unfold write_dr_evs. keeps_tac.
Qed.

Lemma decode_read_dr w p k :
  pins_idle p -> low_run (line w) (pos w) 20 = Some k ->
  decode_frame (strobes p (read_dr_evs w)) = Some (DataRead (S k)).
Proof.
  intros Hp Hr. destruct (read_dr_view w p Hp) as [-> _]. rewrite Hr.
  cbn [fmap list_fmap app decode_frame driven_bits]. rewrite released_replicate.
  replace (10 <=? S k + 9)%nat with true by (symmetry; apply Nat.leb_le; lia).
  do 2 f_equal. lia.
Qed.

Lemma quiet_read_dr w : quiet is_strobe (read_dr_evs w).
Proof.
  split; [|split; [intros q Hq; by apply read_dr_view|]].
  - change (clk_ok is_strobe (read_dr_evs w)). unfold read_dr_evs. destruct (low_run _ _ _); eauto 8 with c2runs.
  - unfold read_dr_evs. keeps_tac.
Qed.

(** ** Properties of the wire functions *)

(** property: writing the address register puts one well-formed C2 Address Write
    frame on the line - START, INS 11b, the eight address bits LSB first,
    STOP - from which a receiver recovers exactly the (8-bit) address; the
    clock pulses are shorter than 5 us with interrupts off and the line is
    released afterwards. *)
Theorem write_ar_frame w addr p :
  pins_idle p ->
  exists evs,
    c2port_write_ar addr w = (tt, adv w evs 0) /\
    decode_frame (strobes p evs) = Some (AddressWrite (u8 addr)) /\
    quiet is_strobe evs.
Proof.
  intros Hp. exists (write_ar_evs addr).
  split; [apply runs_write_ar|]. auto using decode_write_ar, quiet_write_ar.
Qed.

(** property: reading the address register puts one Address Read frame (INS 10b)
    on the line, takes exactly eight samples, and returns 0 with the byte
    whose bit [i] is the [i]-th sampled level. *)
Theorem read_ar_frame w addr p :
  pins_idle p ->
  exists evs,
    c2port_read_ar addr w = ((0, of_bits (truthy <$> samples w 8)), adv w evs 8) /\
    decode_frame (strobes p evs) = Some AddressRead /\
    quiet is_strobe evs.
Proof.
  intros Hp. exists (read_ar_evs (samples w 8)).
  split; [apply runs_read_ar|]. auto using decode_read_ar, quiet_read_ar.
Qed.

(** C21: a data register write answers within 20 samples: if sample [k] is
    the first high one it returns 0 after one Data Write frame that carries
    the byte and [k+1] WAIT clocks, and if all 20 are low it returns -EIO;
    in both cases the line is left idle. *)
Theorem write_dr_frame w data p :
  pins_idle p ->
  match low_run (line w) (pos w) 20 with
  | Some k =>
      exists evs,
        c2port_write_dr data w = (0, adv w evs (S k)) /\
        decode_frame (strobes p evs) = Some (DataWrite (u8 data) (S k)) /\
        quiet is_strobe evs
  | None =>
      exists evs, c2port_write_dr data w = (- EIO, adv w evs 20) /\ quiet is_strobe evs
  end.
Proof.
  intros Hp. pose proof (runs_write_dr data w) as Hrun. cbv zeta in Hrun.
  destruct (low_run (line w) (pos w) 20) eqn:Hr;
    exists (write_dr_evs w data); auto using decode_write_dr, quiet_write_dr.
Qed.

(** C22: a data register read answers within 20 samples: if sample [k] is the
    first high one it returns 0 and the byte whose bits are the eight samples
    that follow it, after one Data Read frame; if all 20 are low it returns
    -EIO and leaves [*data] unchanged. *)
Theorem read_dr_frame w data p :
  pins_idle p ->
  match low_run (line w) (pos w) 20 with
  | Some k =>
      exists evs,
        c2port_read_dr data w =
          ((0, of_bits (truthy <$> (line w <$> seq (pos w + S k) 8))), adv w evs (S k + 8)) /\
        decode_frame (strobes p evs) = Some (DataRead (S k)) /\
        quiet is_strobe evs
  | None =>
      exists evs, c2port_read_dr data w = ((- EIO, data), adv w evs 20) /\ quiet is_strobe evs
  end.
Proof.
  intros Hp. pose proof (runs_read_dr data w) as Hrun.
  unfold runs, read_dr_result, read_dr_samples in Hrun.
  destruct (low_run (line w) (pos w) 20) eqn:Hr;
    exists (read_dr_evs w); auto using decode_read_dr, quiet_read_dr.
Qed.

(** The data field of what a data register write put on the line between the
    buses [w] and [w']: the eight symbols behind START, INS and LENGTH. *)
Definition data_field (p : pins) (w w' : bus) : list sym :=
  take 8 (drop 5 (strobes p (drop (length (trace w)) (trace w')))).

(** C23: reading a data register inverts writing one: if, after the target's
    acknowledge within 20 samples, the line replays the eight data symbols that
    [c2port_write_dr] drove for a byte from an idle line, [c2port_read_dr]
    returns 0 and that byte: the transmit and the receive loop agree on the
    number and the order of the bits. *)
Theorem data_roundtrip w0 p d w data k :
  pins_idle p -> low_run (line w) (pos w) 20 = Some k ->
  data_field p w0 (snd (c2port_write_dr d w0)) =
    (fun v => Driven (truthy v)) <$> (line w <$> seq (pos w + S k) 8) ->
  fst (c2port_read_dr data w) = (0, u8 d).
Proof.
  intros Hp Hr Hf. pose proof (runs_read_dr data w) as Hrun.
  unfold runs, read_dr_result in Hrun. rewrite Hr in Hrun. rewrite Hrun. cbn [fst]. f_equal.
  pose proof (runs_write_dr d w0) as Hw. cbv zeta in Hw. unfold runs in Hw. rewrite Hw in Hf.
  unfold data_field in Hf. cbn [snd adv trace] in Hf. rewrite drop_app_length in Hf.
  rewrite (proj1 (write_dr_view w0 d p Hp)) in Hf. cbv zeta in Hf.
  rewrite fmap_app, <- app_assoc in Hf.
  change (drop 5 (Released :: (Driven <$> [true; false; false; false]) ++ ?l)) with l in Hf.
  rewrite take_app_length' in Hf by (by rewrite length_fmap, length_bits_of).
  change (fun v => Driven (truthy v)) with (Driven ∘ truthy) in Hf.
  rewrite list_fmap_compose in Hf. apply (inj (fmap Driven)) in Hf. rewrite <- Hf.
  by rewrite of_bits_bits_of.
Qed.

(** property: a reset is one clock-low pulse of at least 20 us with interrupts
    off, and can not be taken for a strobe; every strobe is shorter than 5 us
    and can not be taken for a reset. *)
Theorem reset_is_not_strobe w :
  exists r s,
    c2port_reset w = (tt, adv w r 0) /\ c2port_strobe_ck w = (tt, adv w s 0) /\
    quiet is_reset r /\ ~ quiet is_strobe r /\ quiet is_strobe s /\ ~ quiet is_reset s.
Proof.
  exists [EvIrqOff; EvCk 0; EvUdelay 25; EvCk 1; EvIrqOn; EvUdelay 1], strobe_evs.
  split; [|split; [apply runs_strobe|]].
  - unfold c2port_reset, bind, adv. cbn. unfold emit, modify, adv. cbn.
    by rewrite <- !app_assoc, !Nat.add_0_r.
  - assert (Forall keeps_access [EvIrqOff; EvCk 0; EvUdelay 25; EvCk 1; EvIrqOn; EvUdelay 1])
      by keeps_tac.
    assert (Forall keeps_access strobe_evs) by keeps_tac.
    split; [|split; [|split]]; try (by intros [? _]);
      (split; [reflexivity|split; [|done]]); by intros p [? ?].
Qed.

(** A released, clock-high pin state, and a line that is always high. *)
Definition demo_pins : pins := mkPins true 1 0 1.
Definition demo_bus : bus := mkBus [] (fun _ => 1) 0.

Lemma write_ar_frame_witness :
  exists evs, c2port_write_ar 0xB4 demo_bus = (tt, adv demo_bus evs 0) /\
    decode_frame (strobes demo_pins evs) = Some (AddressWrite (u8 0xB4)) /\
    quiet is_strobe evs.
Proof. apply (write_ar_frame demo_bus 0xB4 demo_pins). split; reflexivity. Defined.

Lemma read_ar_frame_witness :
  exists evs, c2port_read_ar 0 demo_bus =
      ((0, of_bits (truthy <$> samples demo_bus 8)), adv demo_bus evs 8) /\
    decode_frame (strobes demo_pins evs) = Some AddressRead /\ quiet is_strobe evs.
Proof. apply (read_ar_frame demo_bus 0 demo_pins). split; reflexivity. Defined.

Lemma write_dr_frame_witness :
  exists evs, c2port_write_dr 0x1DE demo_bus = (0, adv demo_bus evs 1) /\
    decode_frame (strobes demo_pins evs) = Some (DataWrite (u8 0x1DE) 1) /\
    quiet is_strobe evs.
Proof. apply (write_dr_frame demo_bus 0x1DE demo_pins). split; reflexivity. Defined.

Lemma read_dr_frame_witness :
  exists evs, c2port_read_dr 0 demo_bus =
      ((0, of_bits (truthy <$> (line demo_bus <$> seq (pos demo_bus + 1) 8))),
       adv demo_bus evs 9) /\
    decode_frame (strobes demo_pins evs) = Some (DataRead 1) /\ quiet is_strobe evs.
Proof. apply (read_dr_frame demo_bus 0 demo_pins). split; reflexivity. Defined.

(** A line that acknowledges at once and then replays the byte 0x0d. *)
Definition demo_replay : bus :=
  mkBus [] (fun i => match i with O => 1 | S i => Z.b2z (Z.testbit 0x0d (Z.of_nat i)) end) 0.

Lemma data_roundtrip_witness : fst (c2port_read_dr 0 demo_replay) = (0, 0x0d).
Proof.
  apply (data_roundtrip demo_bus demo_pins 0x0d demo_replay 0 0);
    [split; reflexivity|reflexivity|vm_compute; reflexivity].
Defined.
