(* ===== verification/C2Flash.v ===== *)
(** * C2 port: polling and flash programming (test_c2port/core.c, lines 260-301 and 486-833)

    These functions use the wire only through the four register accesses and
    the delays, so they are written over the interface [C2Reg]; [wire_reg]
    implements the interface with the wire functions of [C2Wire], which is
    what the source links them with.  [log_reg] wraps any implementation with
    a record of the register transactions, in which the protocol of each
    command is stated. *)

From Stdlib Require Import ZArith.
From stdpp Require Import base list.
From S2P Require Import Prelude C2Wire C2Proto.

(** What the flash layer needs from the wire layer. *)
Class C2Reg (R : Type) := {
  write_ar : Z -> M R unit;
  read_ar : Z -> M R (Z * Z);
  write_dr : Z -> M R Z;
  read_dr : Z -> M R (Z * Z);
  reg_udelay : Z -> M R unit;
  reg_mdelay : Z -> M R unit;
}.

#[export] Instance wire_reg {W} `{!C2PortOps W} `{!Kernel W} : C2Reg W := {|
  write_ar := c2port_write_ar;
  read_ar := c2port_read_ar;
  write_dr := c2port_write_dr;
  read_dr := c2port_read_dr;
  reg_udelay := udelay;
  reg_mdelay := mdelay;
|}.

(** C2 registers, commands and status codes (core.c:42-58). *)
Definition C2PORT_DEVICEID : Z := 0x00.
Definition C2PORT_REVID : Z := 0x01.
Definition C2PORT_FPCTL : Z := 0x02.
Definition C2PORT_FPDAT : Z := 0xB4.
Definition C2PORT_DEVICE_ERASE : Z := 0x03.
Definition C2PORT_BLOCK_READ : Z := 0x06.
Definition C2PORT_BLOCK_WRITE : Z := 0x07.
Definition C2PORT_COMMAND_OK : Z := 0x0d.

(** The flash geometry fields of [struct c2port_ops]. *)
Record c2port_geometry := mkGeometry { block_size : Z; blocks_num : Z }.
(** The product of two [unsigned short]s, computed in [int]. *)
Definition flash_size (ops : c2port_geometry) : Z := s32 (block_size ops * blocks_num ops).

(** [ret = c; if (ret < 0) return ret; k]. *)
Definition checked {S} (c k : M S Z) : M S Z :=
  r <- c ;; if r <? 0 then ret r else k.
Notation "c ?;; k" := (checked c k) (at level 100, right associativity) : drv_scope.

Section Flash.
Context {R : Type} `{!C2Reg R}.

Fixpoint poll_in_busy_loop (timeout : nat) (addr : Z) : M R Z :=
  match timeout with
  | O => ret (- EIO)
  | S t =>
      let! (r, addr) := read_ar addr in
      if r <? 0 then ret (- EIO)
      else if Z.land addr 0x02 =? 0 then ret 0
      else (reg_udelay 1 ;; poll_in_busy_loop t addr)
  end.
Definition c2port_poll_in_busy : M R Z := poll_in_busy_loop 20 0.

Fixpoint poll_out_ready_loop (timeout : nat) (addr : Z) : M R Z :=
  match timeout with
  | O => ret (- EIO)
  | S t =>
      let! (r, addr) := read_ar addr in
      if r <? 0 then ret (- EIO)
      else if negb (Z.land addr 0x01 =? 0) then ret 0
      else (reg_udelay 1 ;; poll_out_ready_loop t addr)
  end.
Definition c2port_poll_out_ready : M R Z := poll_out_ready_loop (Z.to_nat 10000) 0.

(** [ret = c2port_read_dr(dev, &status); if (ret < 0) return ret;
    if (status != C2PORT_COMMAND_OK) return -EBUSY; k] *)
Definition status_ok (k : M R Z) : M R Z :=
  let! (r, status) := read_dr 0 in
  if r <? 0 then ret r
  else if negb (status =? C2PORT_COMMAND_OK) then ret (- EBUSY)
  else k.

(** The keycode sequence of [__c2port_store_flash_access]; the guard and the
    flag update around it are in [C2Sysfs]. *)
Definition flash_keycodes : M R Z :=
  write_ar C2PORT_FPCTL ;;
  write_dr 0x02 ?;;
  write_dr 0x01 ?;;
  reg_mdelay 25 ;;
  ret 0.

Definition __c2port_write_flash_erase : M R Z :=
  write_ar C2PORT_FPDAT ;;
  write_dr C2PORT_DEVICE_ERASE ;;
  c2port_poll_in_busy ?;;
  c2port_poll_out_ready ?;;
  status_ok
    (write_dr 0xde ;;
     c2port_poll_in_busy ?;;
     write_dr 0xad ;;
     c2port_poll_in_busy ?;;
     write_dr 0xa5 ;;
     c2port_poll_in_busy ?;;
     c2port_poll_out_ready ?;;
     ret 0).

(** The command header both block transfers send: target FPDAT, the command,
    and after a COMMAND_OK status the address bytes and the length, again
    answered by COMMAND_OK.  (core.c:648-704 and 757-813 are this sequence
    with C2PORT_BLOCK_READ and C2PORT_BLOCK_WRITE.)  0 on success. *)
Definition block_header (cmd offset n : Z) : M R Z :=
  write_ar C2PORT_FPDAT ;;
  write_dr cmd ;;
  c2port_poll_in_busy ?;;
  c2port_poll_out_ready ?;;
  status_ok
    (write_dr (u8 (Z.shiftr offset 8)) ;;
     c2port_poll_in_busy ?;;
     write_dr (u8 (Z.land offset 0x00ff)) ;;
     c2port_poll_in_busy ?;;
     write_dr n ;;
     c2port_poll_in_busy ?;;
     c2port_poll_out_ready ?;;
     status_ok (ret 0)).

(** [for (i = 0; i < nread; i++)] of the block read, from index [i] with [n]
    iterations left: 0 or the error, and the buffer. *)
Fixpoint read_block_loop (n i : nat) (buffer : list Z) : M R (Z * list Z) :=
  match n with
  | O => ret (0, buffer)
  | S n =>
      r <- c2port_poll_out_ready ;;
      if r <? 0 then ret (r, buffer)
      else
        let! (r, v) := read_dr (default 0 (buffer !! i)) in
        let buffer := <[i := v]> buffer in
        if r <? 0 then ret (r, buffer)
        else read_block_loop n (S i) buffer
  end.

(** The number of bytes a block read transfers ([u8 nread] before its
    [nread == 0] test). *)
Definition read_length (ops : c2port_geometry) (offset count : Z) : Z :=
  let nread := 128 in
  let nread := if flash_size ops - offset <? nread
               then u8 (flash_size ops - offset) else nread in
  if count <? nread then u8 count else nread.

Definition __c2port_read_flash_data (ops : c2port_geometry)
    (buffer : list Z) (offset count : Z) : M R (Z * list Z) :=
  if flash_size ops <=? offset then ret (0, buffer)
  else
    let nread := read_length ops offset count in
    if nread =? 0 then ret (nread, buffer)
    else
      r <- block_header C2PORT_BLOCK_READ offset nread ;;
      if r <? 0 then ret (r, buffer)
      else
        let! (r, buffer) := read_block_loop (Z.to_nat nread) 0 buffer in
        if r <? 0 then ret (r, buffer) else ret (nread, buffer).

(** [for (i = 0; i < nwrite; i++)] of the block write. *)
Fixpoint write_block_loop (n i : nat) (buffer : list Z) : M R Z :=
  match n with
  | O => ret 0
  | S n =>
      write_dr (u8 (default 0 (buffer !! i))) ?;;
      c2port_poll_in_busy ?;;
      write_block_loop n (S i) buffer
  end.

Definition write_length (ops : c2port_geometry) (offset count : Z) : Z :=
  let nwrite := 128 in
  let nwrite := if count <? nwrite then u8 count else nwrite in
  if flash_size ops - offset <? nwrite then u8 (flash_size ops - offset) else nwrite.

Definition __c2port_write_flash_data (ops : c2port_geometry)
    (buffer : list Z) (offset count : Z) : M R Z :=
  let nwrite := write_length ops offset count in
  if flash_size ops <=? offset then ret (- EINVAL)
  else
    block_header C2PORT_BLOCK_WRITE offset nwrite ?;;
    write_block_loop (Z.to_nat nwrite) 0 buffer ?;;
    c2port_poll_out_ready ?;;
    ret nwrite.

(** [__c2port_show_dev_id] and [__c2port_show_rev_id] up to the [sprintf]:
    select the register and read it. *)
Definition show_reg (reg : Z) : M R (Z * Z) :=
  write_ar reg ;;
  read_dr 0.
End Flash.

(** ** Register transactions *)
Inductive xact :=
| XWriteAR (addr : Z)
| XReadAR (ret addr : Z)
| XWriteDR (data ret : Z)
| XReadDR (ret data : Z)
| XUdelay (us : Z)
| XMdelay (ms : Z).

#[export] Instance xact_eq_dec : EqDecision xact.
Proof. solve_decision. Defined.

(** Any implementation of the registers, with a log of the transactions. *)
Definition logged {R A} (m : M R A) (x : A -> xact) : M (R * list xact) A :=
  fun '(r, log) => let '(a, r') := m r in (a, (r', log ++ [x a])).

#[export] Instance log_reg {R} `{!C2Reg R} : C2Reg (R * list xact) | 2 := {|
  write_ar a := logged (write_ar a) (fun _ => XWriteAR a);
  read_ar a := logged (read_ar a) (fun '(r, v) => XReadAR r v);
  write_dr d := logged (write_dr d) (XWriteDR d);
  read_dr d := logged (read_dr d) (fun '(r, v) => XReadDR r v);
  reg_udelay us := logged (reg_udelay us) (fun _ => XUdelay us);
  reg_mdelay ms := logged (reg_mdelay ms) (fun _ => XMdelay ms);
|}.
