(* ===== verification/C2Rel.v ===== *)
(** * C2 port: one proof per function for every implementation of the interfaces

    The functions of [C2Wire] and [C2Flash] are polymorphic in the
    implementation of their interface.  [MRel] is a relation between
    computations over two implementations that is compatible with the monad;
    if it relates the interface operations ([OpsRel], [RegRel]) it relates
    every function of the driver.  The client files instantiate it: with a
    projection to erase the transaction log or to compare board drivers, and
    with a property of one implementation to show that every function has
    it. *)

From Stdlib Require Import ZArith.
From stdpp Require Import base list.
From S2P Require Import Prelude C2Wire C2Proto C2Flash.

(** A relation between computations over the states [S1] and [S2]. *)
Class MRel {S1 S2 : Type} (Rel : forall A : Type, M S1 A -> M S2 A -> Prop) := {
  rel_ret : forall A (a : A), Rel A (ret a) (ret a);
  rel_bind : forall A B (m1 : M S1 A) m2 (k1 : A -> M S1 B) k2,
    Rel A m1 m2 -> (forall a, Rel B (k1 a) (k2 a)) -> Rel B (bind m1 k1) (bind m2 k2);
}.

Section Related.
Context {S1 S2 : Type} {Rel : forall A : Type, M S1 A -> M S2 A -> Prop} `{!MRel Rel}.

Lemma rel_if {A} (b : bool) (m1 n1 : M S1 A) m2 n2 :
  Rel A m1 m2 -> Rel A n1 n2 -> Rel A (if b then m1 else n1) (if b then m2 else n2).
Proof. by destruct b. Qed.

Lemma rel_checked m1 m2 k1 k2 :
  Rel Z m1 m2 -> Rel Z k1 k2 -> Rel Z (checked m1 k1) (checked m2 k2).
Proof.
  intros Hm Hk. apply rel_bind; [done|]. intros a. apply rel_if; [apply rel_ret|done].
Qed.

Lemma rel_bind_pair {A B C} (m1 : M S1 (A * B)) m2 (k1 : A -> B -> M S1 C) k2 :
  Rel (A * B) m1 m2 -> (forall a b, Rel C (k1 a b) (k2 a b)) ->
  Rel C (let! (a, b) := m1 in k1 a b) (let! (a, b) := m2 in k2 a b).
Proof. intros Hm Hk. apply rel_bind; [done|]. by intros [a b]. Qed.
End Related.

(** ** The wire layer *)
Class OpsRel {S1 S2} `{!C2PortOps S1, !Kernel S1, !C2PortOps S2, !Kernel S2}
    (Rel : forall A : Type, M S1 A -> M S2 A -> Prop) := {
  rel_access : forall v, Rel unit (access v) (access v);
  rel_c2d_dir : forall v, Rel unit (c2d_dir v) (c2d_dir v);
  rel_c2d_get : Rel Z c2d_get c2d_get;
  rel_c2d_set : forall v, Rel unit (c2d_set v) (c2d_set v);
  rel_c2ck_set : forall v, Rel unit (c2ck_set v) (c2ck_set v);
  rel_irq_disable : Rel unit local_irq_disable local_irq_disable;
  rel_irq_enable : Rel unit local_irq_enable local_irq_enable;
  rel_udelay : forall v, Rel unit (udelay v) (udelay v);
  rel_mdelay : forall v, Rel unit (mdelay v) (mdelay v);
}.

(** ** The flash layer *)
Class RegRel {S1 S2} `{!C2Reg S1, !C2Reg S2}
    (Rel : forall A : Type, M S1 A -> M S2 A -> Prop) := {
  rel_write_ar : forall a, Rel unit (write_ar a) (write_ar a);
  rel_read_ar : forall a, Rel (Z * Z)%type (read_ar a) (read_ar a);
  rel_write_dr : forall d, Rel Z (write_dr d) (write_dr d);
  rel_read_dr : forall d, Rel (Z * Z)%type (read_dr d) (read_dr d);
  rel_reg_udelay : forall v, Rel unit (reg_udelay v) (reg_udelay v);
  rel_reg_mdelay : forall v, Rel unit (reg_mdelay v) (reg_mdelay v);
}.

Create HintDb c2rel.

(** [rel_prim]: an interface operation; [rel_tac]: follow the structure of a
    driver function. *)
Ltac rel_prim :=
  first
    [ apply rel_ret | apply rel_write_ar | apply rel_read_ar | apply rel_write_dr
    | apply rel_read_dr | apply rel_reg_udelay | apply rel_reg_mdelay
    | apply rel_access | apply rel_c2d_dir | apply rel_c2d_get | apply rel_c2d_set
    | apply rel_c2ck_set | apply rel_irq_disable | apply rel_irq_enable
    | apply rel_udelay | apply rel_mdelay | solve [auto with c2rel] ].
Ltac rel_tac :=
  repeat first
    [ rel_prim
    | apply rel_bind_pair; [rel_prim | intros ? ?]
    | apply rel_bind; [rel_prim | intros ?]
    | apply rel_checked
    | apply rel_if ].

Section Wire.
Context {S1 S2 : Type} `{!C2PortOps S1, !Kernel S1, !C2PortOps S2, !Kernel S2}
  {Rel : forall A : Type, M S1 A -> M S2 A -> Prop} `{!MRel Rel} `{!OpsRel Rel}.

Lemma rel_reset : Rel unit c2port_reset c2port_reset.
Proof. unfold c2port_reset. rel_tac. Qed.

Lemma rel_strobe : Rel unit c2port_strobe_ck c2port_strobe_ck.
Proof. unfold c2port_strobe_ck. rel_tac. Qed.
#[local] Hint Resolve rel_strobe : c2rel.

Lemma rel_shift_out n x : Rel unit (c2port_shift_out n x) (c2port_shift_out n x).
Proof. revert x. induction n; intros x; cbn [c2port_shift_out]; rel_tac. Qed.

Lemma rel_shift_in n x : Rel Z (c2port_shift_in n x) (c2port_shift_in n x).
Proof. revert x. induction n; intros x; cbn [c2port_shift_in]; rel_tac. Qed.

Lemma rel_wait n : Rel Z (c2port_wait n) (c2port_wait n).
Proof. induction n; cbn [c2port_wait]; rel_tac. Qed.
#[local] Hint Resolve rel_shift_out rel_shift_in rel_wait : c2rel.

(** Related board drivers give related registers. *)
#[export] Instance wire_reg_rel : RegRel (C2Reg0 := wire_reg) (C2Reg1 := wire_reg) Rel.
Proof.
  constructor; cbn [write_ar read_ar write_dr read_dr reg_udelay reg_mdelay wire_reg];
    intros; unfold c2port_write_ar, c2port_read_ar, c2port_write_dr, c2port_read_dr; rel_tac.
Qed.
End Wire.

Section Reg.
Context {S1 S2 : Type} `{!C2Reg S1, !C2Reg S2}
  {Rel : forall A : Type, M S1 A -> M S2 A -> Prop} `{!MRel Rel} `{!RegRel Rel}.

Lemma rel_poll_in n a : Rel Z (poll_in_busy_loop n a) (poll_in_busy_loop n a).
Proof. revert a. induction n; intros a; cbn [poll_in_busy_loop]; rel_tac. Qed.

Lemma rel_poll_out n a : Rel Z (poll_out_ready_loop n a) (poll_out_ready_loop n a).
Proof. revert a. induction n; intros a; cbn [poll_out_ready_loop]; rel_tac. Qed.

Lemma rel_poll_in_busy : Rel Z c2port_poll_in_busy c2port_poll_in_busy.
Proof. apply rel_poll_in. Qed.
Lemma rel_poll_out_ready : Rel Z c2port_poll_out_ready c2port_poll_out_ready.
Proof. apply rel_poll_out. Qed.
#[local] Hint Resolve rel_poll_in_busy rel_poll_out_ready : c2rel.

Lemma rel_status_ok k1 k2 : Rel Z k1 k2 -> Rel Z (status_ok k1) (status_ok k2).
Proof. intros. unfold status_ok. rel_tac. Qed.
#[local] Hint Resolve rel_status_ok : c2rel.

Lemma rel_flash_keycodes : Rel Z flash_keycodes flash_keycodes.
Proof. unfold flash_keycodes. rel_tac. Qed.

Lemma rel_erase : Rel Z __c2port_write_flash_erase __c2port_write_flash_erase.
Proof. unfold __c2port_write_flash_erase. rel_tac. Qed.

Lemma rel_block_header c o n : Rel Z (block_header c o n) (block_header c o n).
Proof. unfold block_header. rel_tac. Qed.
#[local] Hint Resolve rel_block_header : c2rel.

Lemma rel_read_block_loop n i b :
  Rel (Z * list Z)%type (read_block_loop n i b) (read_block_loop n i b).
Proof. revert i b. induction n; intros i b; cbn [read_block_loop]; rel_tac. Qed.

Lemma rel_write_block_loop n i b : Rel Z (write_block_loop n i b) (write_block_loop n i b).
Proof. revert i. induction n; intros i; cbn [write_block_loop]; rel_tac. Qed.
#[local] Hint Resolve rel_read_block_loop rel_write_block_loop : c2rel.

Lemma rel_read_flash ops b o c :
  Rel (Z * list Z)%type (__c2port_read_flash_data ops b o c) (__c2port_read_flash_data ops b o c).
Proof. unfold __c2port_read_flash_data. rel_tac. Qed.

Lemma rel_write_flash ops b o c :
  Rel Z (__c2port_write_flash_data ops b o c) (__c2port_write_flash_data ops b o c).
Proof. unfold __c2port_write_flash_data. rel_tac. Qed.

Lemma rel_show_reg a : Rel (Z * Z)%type (show_reg a) (show_reg a).
Proof. unfold show_reg. rel_tac. Qed.
End Reg.
