(* ===== verification/C2FlashSpec.v ===== *)
(** * C2 port: the flash programming protocol

    The register dialogues of the flash commands, as predicates on the
    transaction log, and the theorems that the functions of [C2Flash] keep to
    them over every implementation of the registers; the bounds of the block
    transfers; and the wire discipline of the whole flash layer over the
    observing bus. *)

From Stdlib Require Import ZArith.
From stdpp Require Import base list.
From S2P Require Import Prelude C2Wire C2Proto C2Flash C2Rel.

(** ** Dialogues *)

(** Reads of the address register until [ready] holds of its value, a
    microsecond apart; at most [n] reads. *)
Definition polled (ready : Z -> bool) (n : nat) (xs : list xact) : Prop :=
  exists (busy : list (Z * Z)) r v,
    xs = (busy ≫= (fun '(r, v) => [XReadAR r v; XUdelay 1])) ++ [XReadAR r v] /\
    Forall (fun '(r, v) => 0 <= r /\ ready v = false) busy /\
    0 <= r /\ ready v = true /\ (length busy < n)%nat.

Definition in_free (v : Z) : bool := Z.land v 0x02 =? 0.
Definition out_ready (v : Z) : bool := negb (Z.land v 0x01 =? 0).
Definition polled_in : list xact -> Prop := polled in_free 20.
Definition polled_out : list xact -> Prop := polled out_ready (Z.to_nat 10000).

(** Concatenation of dialogues. *)
Definition seqd (P Q : list xact -> Prop) (xs : list xact) : Prop :=
  exists a b, xs = a ++ b /\ P a /\ Q b.
Infix "+++" := seqd (at level 60, right associativity).
Definition exactly (xs : list xact) : list xact -> Prop := eq xs.
Definition wrote (d : Z) (xs : list xact) : Prop := exists e, xs = [XWriteDR d e].
Definition status (s : Z) (xs : list xact) : Prop := exists r, 0 <= r /\ xs = [XReadDR r s].
Definition sent_byte (d : Z) : list xact -> Prop := wrote d +++ polled_in.

(** The device erase of core.c:549: command, COMMAND_OK, then the arming
    sequence 0xde 0xad 0xa5. *)
Definition erase_dialogue : list xact -> Prop :=
  exactly [XWriteAR C2PORT_FPDAT] +++ sent_byte C2PORT_DEVICE_ERASE +++ polled_out +++
  status C2PORT_COMMAND_OK +++
  sent_byte 0xde +++ sent_byte 0xad +++ sent_byte 0xa5 +++ polled_out.

Definition header_dialogue (cmd hi lo n : Z) : list xact -> Prop :=
  exactly [XWriteAR C2PORT_FPDAT] +++ sent_byte cmd +++ polled_out +++
  status C2PORT_COMMAND_OK +++
  sent_byte hi +++ sent_byte lo +++ sent_byte n +++ polled_out +++
  status C2PORT_COMMAND_OK.

Fixpoint read_dialogue (vs : list Z) : list xact -> Prop :=
  match vs with
  | [] => exactly []
  | v :: vs => polled_out +++ status v +++ read_dialogue vs
  end.

Fixpoint write_dialogue (vs : list Z) : list xact -> Prop :=
  match vs with
  | [] => exactly []
  | v :: vs => (fun xs => exists e, 0 <= e /\ xs = [XWriteDR v e]) +++ polled_in +++
               write_dialogue vs
  end.

(** [m] appends to the log a dialogue that [P] relates to its result. *)
Definition logs {R A} (m : M (R * list xact) A) (P : A -> list xact -> Prop) : Prop :=
  forall r log, exists xs,
    snd (snd (m (r, log))) = log ++ xs /\ P (fst (m (r, log))) xs.

(** A driver result together with the dialogue that explains it. *)
Definition ok_or_err (P : Z -> list xact -> Prop) (r : Z) (xs : list xact) : Prop :=
  0 <= r -> P r xs.

Section LogRules.
Context {R : Type} `{!C2Reg R}.
Implicit Types m : M (R * list xact) Z.

Lemma logs_ret {A} (a : A) : logs (R:=R) (ret a) (fun b xs => b = a /\ xs = []).
Proof. intros r log. exists []. by rewrite app_nil_r. Qed.

Lemma logs_bind {A B} (m : M (R * list xact) A) (k : A -> M (R * list xact) B) P Q :
  logs m P -> (forall a, logs (k a) (Q a)) ->
  logs (bind m k) (fun b xs => exists a, (P a +++ Q a b) xs).
Proof.
  intros Hm Hk r log. rewrite bind_run.
  destruct (Hm r log) as (x1 & H1 & HP). destruct (m (r, log)) as [a [r1 log1]].
  cbn in *. subst. destruct (Hk a r1 (log ++ x1)) as (x2 & H2 & HQ).
  exists (x1 ++ x2). rewrite H2, app_assoc. split; [done|]. exists a. by exists x1, x2.
Qed.

Lemma logs_weaken {A} (m : M (R * list xact) A) P Q :
  logs m P -> (forall a xs, P a xs -> Q a xs) -> logs m Q.
Proof. intros Hm HPQ r log. destruct (Hm r log) as (xs & ? & ?). eauto. Qed.

Lemma logs_checked m k P Q :
  logs m (ok_or_err (fun _ => P)) -> logs k (ok_or_err Q) ->
  logs (checked m k) (ok_or_err (fun b => P +++ Q b)).
Proof.
  intros Hm Hk. eapply logs_weaken.
  { apply (logs_bind _ _ _ (fun a b xs => (a < 0 -> b = a) /\ (0 <= a -> ok_or_err Q b xs)) Hm).
    intros a. case_if; bool_to_prop.
    - eapply logs_weaken; [apply logs_ret|]. intros ? ? [-> ->]. split; [done|lia].
    - eapply logs_weaken; [apply Hk|]. intros ? ? ?. split; [lia|done]. }
  intros b xs (a & x1 & x2 & -> & HP & Hlt & Hge) Hb.
  destruct (decide (0 <= a)) as [Ha|Ha].
  - exists x1, x2. split; [done|]. split; [by apply HP|by apply Hge].
  - rewrite Hlt in Hb by lia. lia.
Qed.

(** The last step: [m ?;; ret c]. *)
Lemma logs_last m c P :
  logs m (ok_or_err (fun _ => P)) ->
  logs (checked m (ret c)) (ok_or_err (fun b xs => b = c /\ P xs)).
Proof.
  intros Hm. eapply logs_weaken.
  - eapply logs_checked; [exact Hm|]. eapply logs_weaken; [apply (logs_ret c)|].
    intros b xs H _. exact H.
  - intros b xs H Hb. destruct (H Hb) as (x1 & x2 & -> & HP & -> & ->).
    by rewrite app_nil_r.
Qed.

Lemma logs_seq {A} (m : M (R * list xact) A) k P Q :
  logs m (fun _ => P) -> logs k (ok_or_err Q) ->
  logs (m ;; k) (ok_or_err (fun b => P +++ Q b)).
Proof.
  intros Hm Hk. eapply logs_weaken; [by apply (logs_bind _ _ _ (fun _ => ok_or_err Q) Hm)|].
  intros b xs (a & x1 & x2 & -> & HP & HQ) Hb. exists x1, x2. auto.
Qed.

Lemma logs_write_ar a : logs (write_ar (C2Reg:=log_reg) a) (fun _ => exactly [XWriteAR a]).
Proof.
  intros r log. exists [XWriteAR a]. cbn. unfold logged.
  by destruct (write_ar a r).
Qed.

Lemma logs_read_ar a :
  logs (read_ar (C2Reg:=log_reg) a) (fun '(r, v) xs => xs = [XReadAR r v]).
Proof.
  intros r log. cbn. unfold logged. destruct (read_ar a r) as [[x v] r']. by exists [XReadAR x v].
Qed.

Lemma logs_write_dr d : logs (write_dr (C2Reg:=log_reg) d) (fun e xs => xs = [XWriteDR d e]).
Proof.
  intros r log. cbn. unfold logged. destruct (write_dr d r) as [e r']. by exists [XWriteDR d e].
Qed.

Lemma logs_read_dr d :
  logs (read_dr (C2Reg:=log_reg) d) (fun '(r, v) xs => xs = [XReadDR r v]).
Proof.
  intros r log. cbn. unfold logged. destruct (read_dr d r) as [[x v] r']. by exists [XReadDR x v].
Qed.

Lemma logs_udelay v : logs (reg_udelay (C2Reg:=log_reg) v) (fun _ => exactly [XUdelay v]).
Proof. intros r log. exists [XUdelay v]. cbn. unfold logged. by destruct (reg_udelay v r). Qed.

(** Both polling loops: induction on the timeout. *)
Ltac poll_tac n IH :=
  let a := fresh "a" in intros a; revert a; induction n as [|n IH]; intros a r log;
  [exists []; rewrite app_nil_r; split; [done|]; intros Hr; by cbn in Hr|];
  cbn [poll_in_busy_loop poll_out_ready_loop]; unfold bind; cbn [read_ar log_reg];
  unfold logged; destruct (read_ar a r) as [[x v] r1]; case_if; bool_to_prop;
  [exists [XReadAR x v]; split; [done|]; intros Hr; by cbn in Hr|];
  case_if;
  [ exists [XReadAR x v]; split; [done|]; intros _; exists [], x, v;
    split_and!; try done; cbn; lia
  | cbn [reg_udelay log_reg]; unfold logged; destruct (reg_udelay 1 r1) as [[] r2];
    destruct (IH v r2 ((log ++ [XReadAR x v]) ++ [XUdelay 1])) as (xs & -> & HP);
    exists (XReadAR x v :: XUdelay 1 :: xs); split; [by rewrite <- !app_assoc|];
    intros Hr; destruct (HP Hr) as (busy & x' & v' & -> & Hb & ? & ? & ?);
    exists ((x, v) :: busy), x', v'; split_and!; try done; [by constructor|cbn; lia] ].

Lemma logs_poll_in n :
  forall a, logs (poll_in_busy_loop (C2Reg0:=log_reg) n a) (ok_or_err (fun _ => polled in_free n)).
Proof. poll_tac n IH. Qed.

Lemma logs_poll_out n :
  forall a, logs (poll_out_ready_loop (C2Reg0:=log_reg) n a)
    (ok_or_err (fun _ => polled out_ready n)).
Proof. poll_tac n IH. Qed.

Lemma logs_send d k Q :
  logs k (ok_or_err Q) ->
  logs (write_dr (C2Reg:=log_reg) d ;; c2port_poll_in_busy (C2Reg0:=log_reg) ?;; k)
    (ok_or_err (fun b => sent_byte d +++ Q b)).
Proof.
  intros Hk. eapply logs_weaken.
  - apply (logs_seq _ _ (wrote d)).
    + eapply logs_weaken; [apply logs_write_dr|]. intros e xs ->. by exists e.
    + apply logs_checked; [apply (logs_poll_in 20)|exact Hk].
  - intros b xs H Hb. destruct (H Hb) as (x1 & ? & -> & HW & x2 & x3 & -> & HP & HQ).
    exists (x1 ++ x2), x3. split; [by rewrite app_assoc|]. split; [by exists x1, x2|done].
Qed.

Lemma logs_status_ok k Q :
  logs k (ok_or_err Q) ->
  logs (status_ok (C2Reg0:=log_reg) k) (ok_or_err (fun b => status C2PORT_COMMAND_OK +++ Q b)).
Proof.
  intros Hk r log. unfold status_ok, bind. cbn [read_dr log_reg]. unfold logged.
  destruct (read_dr 0 r) as [[x v] r1]. case_if; bool_to_prop.
  { exists [XReadDR x v]. split; [done|]. intros Hr. cbn in Hr. lia. }
  case_if; bool_to_prop.
  { exists [XReadDR x v]. split; [done|]. intros Hr. by cbn in Hr. }
  subst v. destruct (Hk r1 (log ++ [XReadDR x C2PORT_COMMAND_OK])) as (xs & -> & HQ).
  exists (XReadDR x C2PORT_COMMAND_OK :: xs). split; [by rewrite <- app_assoc|].
  intros Hr. exists [XReadDR x C2PORT_COMMAND_OK], xs. split; [done|].
  split; [by exists x|]. by apply HQ.
Qed.

Lemma logs_erase :
  logs (__c2port_write_flash_erase (C2Reg0:=log_reg))
    (ok_or_err (fun b xs => b = 0 /\ erase_dialogue xs)).
Proof.
  eapply logs_weaken.
  - apply logs_seq; [apply logs_write_ar|]. apply logs_send.
    apply logs_checked; [apply logs_poll_out|]. apply logs_status_ok.
    do 3 apply logs_send. apply logs_last. apply logs_poll_out.
  - intros b xs H Hb. specialize (H Hb). unfold erase_dialogue.
    destruct H as (x1 & ? & -> & ? & x2 & ? & -> & ? & x3 & ? & -> & ? & x4 & ? & -> & ? &
      x5 & ? & -> & ? & x6 & ? & -> & ? & x7 & ? & -> & ? & -> & ?).
    split; [done|]. repeat (eexists _, _; split; [reflexivity|]; split; [eassumption|]).
    done.
Qed.

Lemma logs_block_header cmd offset n :
  logs (block_header (C2Reg0:=log_reg) cmd offset n)
    (ok_or_err (fun b xs => b = 0 /\
       header_dialogue cmd (u8 (Z.shiftr offset 8)) (u8 (Z.land offset 0x00ff)) n xs)).
Proof.
  eapply logs_weaken.
  - apply logs_seq; [apply logs_write_ar|]. apply logs_send.
    apply logs_checked; [apply logs_poll_out|]. apply logs_status_ok.
    do 3 apply logs_send. apply logs_checked; [apply logs_poll_out|]. apply logs_status_ok.
    eapply logs_weaken; [apply (logs_ret 0)|]. intros b xs H _. exact H.
  - intros b xs H Hb. specialize (H Hb). unfold header_dialogue.
    destruct H as (x1 & ? & -> & ? & x2 & ? & -> & ? & x3 & ? & -> & ? & x4 & ? & -> & ? &
      x5 & ? & -> & ? & x6 & ? & -> & ? & x7 & ? & -> & ? & x8 & ? & -> & ? & x9 & ? & -> & ? & -> & ->).
    split; [done|]. rewrite app_nil_r.
    repeat (eexists _, _; split; [reflexivity|]; split; [eassumption|]). done.
Qed.

(** Storing [v] at [i] and then [vs] after it is storing [v :: vs] at [i]. *)
Lemma buf_write_cons buf i v vs :
  (i + S (length vs) <= length buf)%nat ->
  buf_write (<[i:=v]> buf) (S i) vs = buf_write buf i (v :: vs).
Proof.
  intros Hl. unfold buf_write. rewrite insert_take_drop by lia.
  rewrite take_app_ge, drop_app_ge by (rewrite length_take; lia).
  rewrite length_take, Nat.min_l by lia.
  replace (S i - i)%nat with 1%nat by lia.
  replace (S i + length vs - i)%nat with (S (length vs)) by lia.
  cbn [length]. rewrite <- app_assoc. f_equal.
  change (v :: vs ++ drop (length vs) (drop (S i) buf) = v :: vs ++ drop (i + S (length vs)) buf).
  rewrite drop_drop. do 3 f_equal. lia.
Qed.

Lemma logs_read_block_loop n i buf :
  logs (read_block_loop (C2Reg0:=log_reg) n i buf)
    (fun '(r, buf') xs => 0 <= r -> r = 0 /\ exists vs, length vs = n /\ read_dialogue vs xs /\
       ((i + n <= length buf)%nat -> buf' = buf_write buf i vs)).
Proof.
  revert i buf. induction n as [|n IH]; intros i buf r log.
  { exists []. rewrite app_nil_r. split; [done|]. intros _. split; [done|]. exists [].
    split_and!; try done. intros _. unfold buf_write. cbn. by rewrite Nat.add_0_r, take_drop. }
  cbn [read_block_loop]. rewrite bind_run.
  destruct (logs_poll_out (Z.to_nat 10000) 0 r log) as (xp & Hp & HP).
  fold (c2port_poll_out_ready (R:=R * list xact)) in *.
  destruct (c2port_poll_out_ready (r, log)) as [e [r1 log1]]. cbn [fst snd] in *. subst log1.
  case_if; bool_to_prop; [exists xp; split; [done|]; cbn; lia|].
  unfold bind. cbn [read_dr log_reg]. unfold logged.
  destruct (read_dr _ r1) as [[x v] r2].
  case_if; bool_to_prop.
  { exists (xp ++ [XReadDR x v]). rewrite app_assoc. split; [done|]. cbn. lia. }
  destruct (IH (S i) (<[i:=v]> buf) r2 ((log ++ xp) ++ [XReadDR x v])) as (xs & -> & HI).
  destruct (read_block_loop n (S i) _ _) as [[e' buf'] ?]. cbn [fst snd] in *.
  exists (xp ++ XReadDR x v :: xs). split; [by rewrite <- !app_assoc|].
  intros He. destruct (HI He) as (? & vs & Hl & HD & Hbuf). split; [done|].
  exists (v :: vs). split; [cbn; lia|]. split.
  - exists xp, (XReadDR x v :: xs). split; [done|]. split; [by apply HP|].
    exists [XReadDR x v], xs. split; [done|]. split; [by exists x|done].
  - intros Hlen. rewrite Hbuf by (rewrite length_insert; lia).
    apply buf_write_cons. lia.
Qed.

Lemma logs_write_block_loop n i buf :
  (i + n <= length buf)%nat ->
  logs (write_block_loop (C2Reg0:=log_reg) n i buf)
    (ok_or_err (fun b xs => b = 0 /\ write_dialogue (u8 <$> take n (drop i buf)) xs)).
Proof.
  revert i. induction n as [|n IH]; intros i Hi; cbn [write_block_loop].
  { eapply logs_weaken; [apply (logs_ret 0)|]. intros b xs [-> ->] _. done. }
  destruct (lookup_lt_is_Some_2 buf i) as [v Hv]; [lia|].
  rewrite (drop_S _ _ _ Hv), Hv. cbn [default from_option id].
  eapply logs_weaken.
  - apply (logs_checked _ _ (fun xs => exists e, 0 <= e /\ xs = [XWriteDR (u8 v) e])).
    + eapply logs_weaken; [apply logs_write_dr|]. intros e xs -> He. by exists e.
    + apply logs_checked; [apply (logs_poll_in 20)|]. apply (IH (S i)). lia.
  - intros b xs H Hb. destruct (H Hb) as (x1 & ? & -> & H1 & x2 & x3 & -> & H2 & -> & H3).
    split; [done|]. exists x1, (x2 ++ x3). split; [done|]. split; [done|].
    exists x2, x3. done.
Qed.

(** What any prefix of an erase keeps, also when it fails: the first arming
    byte is only sent after COMMAND_OK was read. *)
Definition disarmed (x : xact) : Prop :=
  match x with XWriteDR d _ => d <> 0xde | _ => True end.
Definition guarded (xs : list xact) : Prop :=
  forall a e c, xs = a ++ XWriteDR 0xde e :: c ->
    exists r, 0 <= r /\ XReadDR r C2PORT_COMMAND_OK ∈ a.

Lemma guarded_disarmed xs : Forall disarmed xs -> guarded xs.
Proof.
  intros H a e c ->. apply Forall_app in H as [_ H]. by apply Forall_cons in H as [[] _].
Qed.

Lemma guarded_app a b : Forall disarmed a -> guarded b -> guarded (a ++ b).
Proof.
  intros Ha. induction Ha as [|x a Hx Ha IH]; [done|]. intros Hb p e c Heq.
  destruct p as [|y p]; cbn in Heq; simplify_eq.
  { by destruct Hx. }
  destruct (IH Hb p e c) as (r & ? & ?); [done|]. exists r. split; [done|]. by constructor.
Qed.

Lemma guarded_ok r xs : 0 <= r -> guarded (XReadDR r C2PORT_COMMAND_OK :: xs).
Proof.
  intros Hr a e c Heq. destruct a as [|y a]; cbn in Heq; simplify_eq.
  exists r. split; [done|]. by constructor.
Qed.

Definition disarms {A} (m : M (R * list xact) A) : Prop := logs m (fun _ => Forall disarmed).

Ltac disarm_poll n IH :=
  intros a; revert a; induction n as [|n IH]; intros a r log;
  [exists []; rewrite app_nil_r; split; [done|by constructor]|];
  cbn [poll_in_busy_loop poll_out_ready_loop]; unfold bind; cbn [read_ar log_reg];
  unfold logged; destruct (read_ar a r) as [[x v] r1]; case_if;
  [exists [XReadAR x v]; split; [done|by repeat constructor]|];
  case_if;
  [exists [XReadAR x v]; split; [done|by repeat constructor]|];
  cbn [reg_udelay log_reg]; unfold logged; destruct (reg_udelay 1 r1) as [[] r2];
  destruct (IH v r2 ((log ++ [XReadAR x v]) ++ [XUdelay 1])) as (xs & -> & HP);
  exists (XReadAR x v :: XUdelay 1 :: xs); split; [by rewrite <- !app_assoc|];
  by repeat constructor.

Lemma disarms_poll_in n : forall a, disarms (poll_in_busy_loop (C2Reg0:=log_reg) n a).
Proof. disarm_poll n IH. Qed.
Lemma disarms_poll_out n : forall a, disarms (poll_out_ready_loop (C2Reg0:=log_reg) n a).
Proof. disarm_poll n IH. Qed.

Lemma guarded_bind {A B} (m : M (R * list xact) A) (k : A -> M (R * list xact) B) :
  disarms m -> (forall a, logs (k a) (fun _ => guarded)) ->
  logs (bind m k) (fun _ => guarded).
Proof.
  intros Hm Hk. eapply logs_weaken; [by apply (logs_bind _ _ _ (fun _ _ => guarded) Hm)|].
  intros b xs (_ & x1 & x2 & -> & ? & ?). by apply guarded_app.
Qed.

Lemma guarded_checked m k :
  disarms m -> logs k (fun _ => guarded) -> logs (checked m k) (fun _ => guarded).
Proof.
  intros Hm Hk. apply guarded_bind; [done|]. intros a. case_if; [|done].
  eapply logs_weaken; [apply (logs_ret a)|]. intros ? ? [_ ->].
  apply guarded_disarmed. constructor.
Qed.

(** Everything after a passed status check is guarded by it. *)
Lemma guarded_status_ok k :
  logs k (fun _ _ => True) -> logs (status_ok (C2Reg0:=log_reg) k) (fun _ => guarded).
Proof.
  intros Hk r log. unfold status_ok, bind. cbn [read_dr log_reg]. unfold logged.
  destruct (read_dr 0 r) as [[x v] r1]. case_if; bool_to_prop.
  { exists [XReadDR x v]. split; [done|]. apply guarded_disarmed. by repeat constructor. }
  case_if; bool_to_prop.
  { exists [XReadDR x v]. split; [done|]. apply guarded_disarmed. by repeat constructor. }
  subst v. destruct (Hk r1 (log ++ [XReadDR x C2PORT_COMMAND_OK])) as (xs & -> & _).
  exists (XReadDR x C2PORT_COMMAND_OK :: xs). split; [by rewrite <- app_assoc|].
  by apply guarded_ok.
Qed.

Lemma guarded_erase : logs (__c2port_write_flash_erase (C2Reg0:=log_reg)) (fun _ => guarded).
Proof.
  apply guarded_bind; [|intros _; apply guarded_bind; [|intros _]].
  - eapply logs_weaken; [apply logs_write_ar|]. intros ? ? <-. by repeat constructor.
  - eapply logs_weaken; [apply logs_write_dr|]. intros ? ? ->. by repeat constructor.
  - apply guarded_checked; [apply disarms_poll_in|].
    apply guarded_checked; [apply disarms_poll_out|].
    apply guarded_status_ok. eapply logs_weaken;
      [do 3 apply logs_send; apply logs_last, logs_poll_out|done].
Qed.
End LogRules.

(** ** Properties of the flash commands *)

Lemma write_length_range ops offset count :
  0 <= offset < flash_size ops -> 0 <= count ->
  let n := write_length ops offset count in
  0 <= n <= 128 /\ n <= count /\ offset + n <= flash_size ops /\
  (n = 128 \/ n = count \/ n = flash_size ops - offset).
Proof.
  intros Ho Hc. unfold write_length. cbv zeta.
  destruct (count <? 128) eqn:E1; bool_to_prop; rewrite ?u8_small by lia;
    case_if; bool_to_prop; rewrite ?u8_small by lia; lia.
Qed.

Lemma read_length_range ops offset count :
  0 <= offset < flash_size ops -> 0 <= count ->
  let n := read_length ops offset count in
  0 <= n <= 128 /\ n <= count /\ offset + n <= flash_size ops /\
  (n = 128 \/ n = count \/ n = flash_size ops - offset).
Proof.
  intros Ho Hc. unfold read_length. cbv zeta.
  destruct (flash_size ops - offset <? 128) eqn:E1; bool_to_prop; rewrite ?u8_small by lia;
    case_if; bool_to_prop; rewrite ?u8_small by lia; lia.
Qed.

(** The two address bytes of a block header name the offset. *)
Lemma address_bytes offset :
  0 <= offset < 65536 ->
  u8 (Z.shiftr offset 8) * 256 + u8 (Z.land offset 0x00ff) = offset.
Proof.
  intros H. rewrite Z.shiftr_div_pow2 by lia. change (Z.land offset 0x00ff) with (Z.land offset (Z.ones 8)).
  rewrite Z.land_ones by lia. change (2 ^ 8) with 256.
  assert (0 <= offset / 256 < 256) by (split; [apply Z.div_pos|apply Z.div_lt_upper_bound]; lia).
  pose proof (Z.mod_pos_bound offset 256). rewrite !u8_small by lia.
  pose proof (Z.div_mod offset 256). lia.
Qed.

Section FlashProps.
Context {R : Type} `{!C2Reg R}.

(** C7: a successful device erase performed exactly the erase dialogue -
    DEVICE_ERASE, COMMAND_OK read back, then 0xde, 0xad, 0xa5, each
    acknowledged by a cleared InBusy within 20 polls - whatever the registers
    do; and also when it fails, 0xde is never written before COMMAND_OK was
    read. *)
Theorem erase_protocol (r : R) log :
  exists xs,
    snd (snd (__c2port_write_flash_erase (r, log))) = log ++ xs /\
    (0 <= fst (__c2port_write_flash_erase (r, log)) ->
       fst (__c2port_write_flash_erase (r, log)) = 0 /\ erase_dialogue xs) /\
    guarded xs.
Proof.
  destruct (logs_erase r log) as (xs & Hx & HP).
  destruct (guarded_erase r log) as (xs' & Hx' & HP').
  exists xs. rewrite Hx in Hx' |- *. apply app_inv_head in Hx' as <-. done.
Qed.

(** C6: a block read that succeeds transferred [n <= min(128, count)] bytes
    that lie inside the flash.  [n = 0] (end of flash, or an empty request)
    touches no register; otherwise the device saw the BLOCK_READ header with
    the offset's two address bytes and the length, and the first [n] bytes of
    the buffer are the bytes the data register returned, in order, the rest
    of the buffer unchanged. *)
Theorem read_flash_protocol (r : R) log ops buf offset count :
  0 <= offset -> 0 <= count <= Z.of_nat (length buf) ->
  let res := __c2port_read_flash_data ops buf offset count (r, log) in
  let n := fst (fst res) in
  exists xs, snd (snd res) = log ++ xs /\ (0 <= n ->
    n <= 128 /\ n <= count /\
    (n = 0 -> xs = [] /\ snd (fst res) = buf /\ (count = 0 \/ flash_size ops <= offset)) /\
    (0 < n -> offset + n <= flash_size ops /\ exists vs,
       Z.of_nat (length vs) = n /\ snd (fst res) = buf_write buf 0 vs /\
       (header_dialogue C2PORT_BLOCK_READ
          (u8 (Z.shiftr offset 8)) (u8 (Z.land offset 0x00ff)) n +++ read_dialogue vs) xs)).
Proof.
  intros Ho Hc. cbv zeta. unfold __c2port_read_flash_data. case_if; bool_to_prop.
  { exists []. cbn. rewrite app_nil_r. split; [done|]. intros _. split; [lia|]. split; [lia|]. split; [by auto|intros; lia]. }
  pose proof (read_length_range ops offset count) as Hn. cbv zeta in Hn.
  set (n := read_length ops offset count) in *.
  case_if; bool_to_prop.
  { exists []. cbn. rewrite app_nil_r. split; [done|]. intros _. split; [lia|]. split; [lia|]. split; [|intros; lia].
    intros _. split_and!; [done..|]. left. lia. }
  rewrite bind_run.
  destruct (logs_block_header C2PORT_BLOCK_READ offset n r log) as (xh & Hh & HPh).
  destruct (block_header _ _ _ _) as [e [r1 log1]]. cbn [fst snd] in *. subst log1.
  case_if; bool_to_prop.
  { exists xh. split; [done|]. cbn. lia. }
  rewrite bind_run.
  destruct (logs_read_block_loop (Z.to_nat n) 0 buf r1 (log ++ xh)) as (xd & Hd & HPd).
  destruct (read_block_loop _ _ _ _) as [[e' buf'] [r2 log2]]. cbn [fst snd] in *. subst log2.
  exists (xh ++ xd). case_if; bool_to_prop.
  { cbn. rewrite app_assoc. split; [done|lia]. }
  cbn. rewrite app_assoc. split; [done|]. intros _.
  destruct HPh as [_ HPh]; [lia|]. destruct HPd as (_ & vs & Hl & HPd & Hb); [lia|].
  split_and!; try lia. intros _. split; [lia|]. exists vs. split; [lia|].
  split; [apply Hb; lia|]. by exists xh, xd.
Qed.

(** C5: a block write at or past the end of the flash fails with -EINVAL
    without touching a register; one that succeeds returns
    [n = min(128, count, flash_size - offset)] after the BLOCK_WRITE header
    with the offset's two address bytes and [n], followed by exactly the
    first [n] bytes of the buffer, each acknowledged, and a final OutReady. *)
Theorem write_flash_protocol (r : R) log ops buf offset count :
  0 <= offset -> 0 <= count <= Z.of_nat (length buf) ->
  let res := __c2port_write_flash_data ops buf offset count (r, log) in
  let n := fst res in
  exists xs, snd (snd res) = log ++ xs /\
    (flash_size ops <= offset -> n = - EINVAL /\ xs = []) /\
    (0 <= n -> n = Z.min 128 (Z.min count (flash_size ops - offset)) /\
       (header_dialogue C2PORT_BLOCK_WRITE
          (u8 (Z.shiftr offset 8)) (u8 (Z.land offset 0x00ff)) n +++
        write_dialogue (u8 <$> take (Z.to_nat n) buf) +++ polled_out) xs).
Proof.
  intros Ho Hc. cbv zeta. unfold __c2port_write_flash_data. case_if; bool_to_prop.
  { exists []. cbn. rewrite app_nil_r. split_and!; [done..|]. by cbn. }
  pose proof (write_length_range ops offset count) as Hn. cbv zeta in Hn.
  set (n := write_length ops offset count) in *.
  assert (logs (R:=R) (block_header C2PORT_BLOCK_WRITE offset n ?;;
     write_block_loop (Z.to_nat n) 0 buf ?;; c2port_poll_out_ready ?;; ret n)
     (ok_or_err (fun b xs => b = n /\ (header_dialogue C2PORT_BLOCK_WRITE
          (u8 (Z.shiftr offset 8)) (u8 (Z.land offset 0x00ff)) n +++
        write_dialogue (u8 <$> take (Z.to_nat n) buf) +++ polled_out) xs))) as HL.
  { eapply logs_weaken.
    - eapply logs_checked.
      + eapply logs_weaken; [apply logs_block_header|]. intros ? ? H Hb. by apply (H Hb).
      + eapply logs_checked; [|apply logs_last, logs_poll_out].
        eapply logs_weaken; [apply logs_write_block_loop; lia|]. intros ? ? H Hb. by apply (H Hb).
    - intros b xs H Hb. destruct (H Hb) as (x1 & ? & -> & H1 & x2 & x3 & -> & H2 & -> & H3).
      split; [done|]. exists x1, (x2 ++ x3). split; [done|]. split; [done|].
      exists x2, x3. done. }
  destruct (HL r log) as (xs & -> & HP). exists xs. split; [done|]. split; [lia|].
  intros Hb. destruct (HP Hb) as [-> HD]. split; [lia|done].
Qed.
End FlashProps.

(** A target that is always ready and answers the data register reads from a
    script. *)
Record script := mkScript { answers : list Z }.

#[export] Instance script_reg : C2Reg script := {|
  write_ar _ := ret tt;
  read_ar _ := ret (0, 1);
  write_dr _ := ret 0;
  read_dr d := fun s =>
    match answers s with
    | [] => ((- EIO, d), s)
    | v :: q => ((0, v), mkScript q)
    end;
  reg_udelay _ := ret tt;
  reg_mdelay _ := ret tt;
|}.

Definition demo_geometry : c2port_geometry := mkGeometry 512 30.

Lemma read_flash_protocol_witness :
  let res := __c2port_read_flash_data demo_geometry [0; 0; 9; 8] 0x1234 2
               (mkScript [0x0d; 0x0d; 0xAA; 0x55], []) in
  fst res = (2, [0xAA; 0x55; 9; 8]) /\
  exists vs, snd (fst res) = buf_write [0; 0; 9; 8] 0 vs /\
    (header_dialogue C2PORT_BLOCK_READ 0x12 0x34 2 +++ read_dialogue vs) (snd (snd res)).
Proof.
  intros res. assert (fst res = (2, [0xAA; 0x55; 9; 8])) as Hres by (vm_compute; reflexivity).
  split; [exact Hres|].
  destruct (read_flash_protocol (mkScript [0x0d; 0x0d; 0xAA; 0x55]) [] demo_geometry
    [0; 0; 9; 8] 0x1234 2) as (xs & Hx & HP); [lia|cbn; lia|].
  fold res in Hx, HP. rewrite Hres in HP. cbn [fst snd] in HP.
  destruct HP as (_ & _ & _ & HP); [lia|]. destruct HP as (_ & vs & _ & Hb & HD); [lia|].
  exists vs. rewrite Hres, Hx. split; [exact Hb|]. exact HD.
Defined.

Lemma write_flash_protocol_witness :
  let res := __c2port_write_flash_data demo_geometry [1; 2; 3] 15359 3
               (mkScript [0x0d; 0x0d], []) in
  fst res = 1 /\
  (header_dialogue C2PORT_BLOCK_WRITE 0x3b 0xff 1 +++ write_dialogue [1] +++ polled_out)
    (snd (snd res)).
Proof.
  intros res. assert (fst res = 1) as Hres by (vm_compute; reflexivity).
  split; [exact Hres|].
  destruct (write_flash_protocol (mkScript [0x0d; 0x0d]) [] demo_geometry
    [1; 2; 3] 15359 3) as (xs & Hx & _ & HP); [lia|cbn; lia|].
  fold res in Hx, HP. rewrite Hx. rewrite Hres in HP. apply HP. lia.
Defined.
