(* ===== verification/C2Stack.v ===== *)
(** * C2 port: the flash layer on top of the wire layer

    [C2FlashSpec] states the flash protocol in register transactions,
    [C2Proto] the frames of one register access.  This file puts the two
    layers together: whatever a flash command does over the observing bus is
    a sequence of frames, one per register transaction of its log, in order,
    each of which a receiver decodes to that transaction. *)

From Stdlib Require Import ZArith.
From stdpp Require Import base list.
From S2P Require Import Prelude C2Wire C2Proto C2Flash C2Rel C2FlashSpec.

(** The levels sampled by a sequence of events. *)
Definition sampled (evs : list c2_event) : list Z :=
  omap (fun e => match e with EvGet v => Some v | _ => None end) evs.

(** On every idle line the events are the frame [f]. *)
Definition framed (f : c2_frame) (evs : list c2_event) : Prop :=
  forall p, pins_idle p -> decode_frame (strobes p evs) = Some f.

(** The events that carry one register transaction. *)
Definition carries (x : xact) (evs : list c2_event) : Prop :=
  match x with
  | XWriteAR a => framed (AddressWrite (u8 a)) evs
  | XReadAR r v =>
      r = 0 /\ framed AddressRead evs /\ v = of_bits (truthy <$> sampled evs)
  | XWriteDR d e =>
      (e = 0 /\ exists k, framed (DataWrite (u8 d) k) evs) \/ e = - EIO
  | XReadDR r v =>
      (r = 0 /\ exists k, framed (DataRead k) evs /\
         v = of_bits (truthy <$> drop k (sampled evs))) \/ r = - EIO
  | XUdelay us => evs = [EvUdelay us]
  | XMdelay ms => evs = [EvMdelay ms]
  end.

(** The events are the transactions' frames one after the other, and the
    clock and pin discipline is kept by each. *)
Definition wired (xs : list xact) (evs : list c2_event) : Prop :=
  exists segs, evs = concat segs /\
    Forall2 (fun x seg => carries x seg /\ quiet is_strobe seg) xs segs.

(** The computation [m2] over the bus does what [m1] does with a transaction
    log, and its events carry the logged transactions. *)
Definition on_wire A (m1 : M (bus * list xact) A) (m2 : M bus A) : Prop :=
  forall w log, exists a evs k xs,
    m2 w = (a, adv w evs k) /\ m1 (w, log) = (a, (adv w evs k, log ++ xs)) /\ wired xs evs.

Lemma wired_app x1 e1 x2 e2 : wired x1 e1 -> wired x2 e2 -> wired (x1 ++ x2) (e1 ++ e2).
Proof.
  intros (s1 & -> & H1) (s2 & -> & H2). exists (s1 ++ s2).
  rewrite concat_app. split; [done|]. by apply Forall2_app.
Qed.

Lemma wired_one x evs : carries x evs -> quiet is_strobe evs -> wired [x] evs.
Proof. intros. exists [evs]. cbn. rewrite app_nil_r. auto. Qed.

Lemma wired_quiet xs evs : wired xs evs -> quiet is_strobe evs.
Proof.
  intros (segs & -> & H). induction H as [|x s xs segs [_ ?] _ IH]; [apply quiet_nil|].
  by apply quiet_app.
Qed.

#[export] Instance on_wire_rel : MRel on_wire.
Proof.
  constructor.
  - intros A a w log. exists a, [], 0%nat, []. rewrite adv_nil, app_nil_r.
    split_and!; [done..|]. by exists [].
  - intros A B m1 m2 k1 k2 Hm Hk w log.
    destruct (Hm w log) as (a & e1 & n1 & x1 & E2 & E1 & W1).
    destruct (Hk a (adv w e1 n1) (log ++ x1)) as (b & e2 & n2 & x2 & F2 & F1 & W2).
    exists b, (e1 ++ e2), (n1 + n2)%nat, (x1 ++ x2). unfold bind. rewrite E1, E2, F1, F2.
    rewrite adv_adv, app_assoc. split_and!; [done..|]. by apply wired_app.
Qed.

(** *** What the sequences of a frame sample *)
Lemma sampled_app a b : sampled (a ++ b) = sampled a ++ sampled b.
Proof. apply omap_app. Qed.

Lemma sampled_bind {A} (f : A -> list c2_event) (g : A -> list Z) l :
  (forall x, sampled (f x) = g x) -> sampled (x ← l; f x) = x ← l; g x.
Proof.
  intros H. induction l as [|x l IH]; [done|]. by rewrite !bind_cons, sampled_app, H, IH.
Qed.

Lemma bind_single {A} (l : list A) : (x ← l; [x]) = l.
Proof. induction l as [|x l IH]; [done|]. rewrite bind_cons, IH. done. Qed.

Lemma sampled_in vs : sampled (in_evs vs) = vs.
Proof. unfold in_evs. rewrite (sampled_bind _ (fun v => [v])) by done. apply bind_single. Qed.
Lemma sampled_waiting vs : sampled (waiting_evs vs) = vs.
Proof. unfold waiting_evs. rewrite (sampled_bind _ (fun v => [v])) by done. apply bind_single. Qed.

Lemma sampled_read_ar vs : sampled (read_ar_evs vs) = vs.
Proof.
  unfold read_ar_evs. rewrite sampled_app. change (sampled (EvDir 1 :: ?x)) with (sampled x).
  rewrite sampled_app, sampled_in. cbn. by rewrite app_nil_r.
Qed.

Lemma sampled_read_dr w k :
  low_run (line w) (pos w) 20 = Some k ->
  drop (S k) (sampled (read_dr_evs w)) = line w <$> seq (pos w + S k) 8.
Proof.
  intros Hr. unfold read_dr_evs. rewrite Hr. cbn [wait_evs].
  rewrite sampled_app. change (sampled (EvDir 1 :: ?x)) with (sampled x).
  rewrite !sampled_app, sampled_waiting, sampled_in.
  change (sampled (ins_evs _)) with (@nil Z). change (sampled strobe_evs) with (@nil Z).
  rewrite app_nil_r. cbn [app sampled omap list_omap].
  rewrite drop_app_ge by (rewrite length_app, length_samples; cbn; lia).
  rewrite length_app, length_samples. cbn [length]. by rewrite Nat.add_1_r, Nat.sub_diag.
Qed.

(** The wire implements the registers: every access is its frame. *)
#[export] Instance on_wire_reg :
  RegRel (C2Reg0 := log_reg (R:=bus)) (C2Reg1 := wire_reg) on_wire.
Proof.
  constructor; cbn [write_ar read_ar write_dr read_dr reg_udelay reg_mdelay log_reg wire_reg];
    unfold on_wire, logged.
  - intros a w log. rewrite (runs_write_ar a w). do 4 eexists. split_and!; [done..|].
    apply wired_one; [intros p; apply decode_write_ar|apply quiet_write_ar].
  - intros a w log. rewrite (runs_read_ar a w). do 4 eexists. split_and!; [done..|].
    apply wired_one; [|apply quiet_read_ar]. split_and!; [done| |by rewrite sampled_read_ar].
    intros p. apply decode_read_ar.
  - intros d w log. rewrite (runs_write_dr d w). do 4 eexists. split_and!; [done..|].
    apply wired_one; [|apply quiet_write_dr].
    destruct (low_run (line w) (pos w) 20) as [k|] eqn:Hr; [left|by right].
    split; [done|]. exists (S k). intros p Hp. by apply decode_write_dr.
  - intros d w log. rewrite (runs_read_dr d w). unfold read_dr_result.
    destruct (low_run (line w) (pos w) 20) as [k|] eqn:Hr; do 4 eexists; split_and!; try done;
      (apply wired_one; [|apply quiet_read_dr]); [left|by right].
    split; [done|]. exists (S k). split; [intros p Hp; by apply decode_read_dr|].
    by rewrite (sampled_read_dr _ _ Hr).
  - intros us w log. do 4 eexists. split_and!; [done..|]. apply wired_one; [done|].
    split; [done|]. split; [done|]. by repeat constructor.
  - intros ms w log. do 4 eexists. split_and!; [done..|]. apply wired_one; [done|].
    split; [done|]. split; [done|]. by repeat constructor.
Qed.

(** C2: over the wire every flash command behaves as over any registers
    (same results with and without the transaction log), and the events on
    the pins are, in order, exactly the C2 frames of its register
    transactions, each with the bytes written or sampled and each keeping the
    strobe timing and the idle line. *)
Theorem flash_layer_on_wire :
  on_wire _ flash_keycodes flash_keycodes /\
  on_wire _ __c2port_write_flash_erase __c2port_write_flash_erase /\
  (forall ops buf offset count,
     on_wire _ (__c2port_read_flash_data ops buf offset count)
               (__c2port_read_flash_data ops buf offset count)) /\
  (forall ops buf offset count,
     on_wire _ (__c2port_write_flash_data ops buf offset count)
               (__c2port_write_flash_data ops buf offset count)) /\
  (forall reg, on_wire _ (show_reg reg) (show_reg reg)).
Proof.
  split_and!; intros.
  - apply rel_flash_keycodes.
  - apply rel_erase.
  - apply rel_read_flash.
  - apply rel_write_flash.
  - apply rel_show_reg.
Qed.

(** property: a device erase issued on the wire that reports success has put the
    frames of the erase dialogue on the line - nothing else -, and an erase
    that fails has not sent the first arming byte unless it had sampled a
    COMMAND_OK byte. *)
Theorem erase_on_wire w :
  exists a evs k xs,
    __c2port_write_flash_erase w = (a, adv w evs k) /\
    wired xs evs /\ quiet is_strobe evs /\
    (0 <= a -> a = 0 /\ erase_dialogue xs) /\ guarded xs.
Proof.
  destruct (rel_erase (Rel:=on_wire) w []) as (a & evs & k & xs & E & EL & HW).
  exists a, evs, k, xs. split_and!; [done..|by eapply wired_quiet| |].
  - destruct (logs_erase w []) as (xs' & Hx & HP). rewrite EL in Hx, HP.
    cbn in Hx, HP. by subst xs'.
  - destruct (guarded_erase w []) as (xs' & Hx & HP). rewrite EL in Hx.
    cbn in Hx. by subst xs'.
Qed.
