(* ===== verification/C2Sysfs.v ===== *)
(** * C2 port: the sysfs methods (test_c2port/core.c, lines 303-545, 606-627, 720-739, 835-854)

    The handlers of the class attributes, with their guards and the device
    mutex, over the state of one device: [struct c2port_device] and the wire.
    The strings of the attributes are stdpp strings; a text buffer a handler
    leaves alone is returned unchanged. *)

From Stdlib Require Import ZArith Ascii.
From stdpp Require Import base list strings pretty.
From S2P Require Import Prelude KernelText C2Wire C2Proto C2Flash.

(** ** The device *)
Record c2port_device := mkDev {
  c2_name : list ascii;         (** [char name[C2PORT_NAME_LEN]] *)
  c2_access : Z;
  c2_flash_access : Z;
  c2_mutex : bool;              (** held *)
  c2_ops : c2port_geometry;
}.

Definition set_access (v : Z) (d : c2port_device) : c2port_device :=
  mkDev (c2_name d) v (c2_flash_access d) (c2_mutex d) (c2_ops d).
Definition set_flash_access (v : Z) (d : c2port_device) : c2port_device :=
  mkDev (c2_name d) (c2_access d) v (c2_mutex d) (c2_ops d).
Definition set_mutex (b : bool) (d : c2port_device) : c2port_device :=
  mkDev (c2_name d) (c2_access d) (c2_flash_access d) b (c2_ops d).

(** [!!status] *)
Definition bool_of (status : Z) : Z := if truthy status then 1 else 0.

Section Sysfs.
Context {W : Type} `{!C2PortOps W} `{!Kernel W}.
Abbreviation MD := (M (c2port_device * W)).

Definition the_dev : MD c2port_device := fun s => (fst s, s).
Definition upd (f : c2port_device -> c2port_device) : MD unit := modify (fun '(d, w) => (f d, w)).
Definition wire {A} (m : M W A) : MD A :=
  fun '(d, w) => let '(a, w') := m w in (a, (d, w')).

Definition mutex_lock : MD unit := upd (set_mutex true).
Definition mutex_unlock : MD unit := upd (set_mutex false).

(** [mutex_lock(&c2dev->mutex); ret = m; mutex_unlock(&c2dev->mutex);] *)
Definition locked {A} (m : MD A) : MD A :=
  mutex_lock ;; a <- m ;; mutex_unlock ;; ret a.

(** *** Read-only attributes: the return value and the text *)
Fixpoint c_string (l : list ascii) : option string :=
  match l with
  | [] => None
  | c :: l => if (nat_of_ascii c =? 0)%nat then Some EmptyString
              else String c <$> c_string l
  end.

(** [None]: the array has no terminator and [%s] reads past it. *)
Definition c2port_show_name (d : c2port_device) : option (Z * string) :=
  s ← c_string (c2_name d); Some (text_len (s +:+ newline), s +:+ newline).

Definition c2port_show_flash_blocks_num (d : c2port_device) : Z * string :=
  show_int (blocks_num (c2_ops d)).
Definition c2port_show_flash_block_size (d : c2port_device) : Z * string :=
  show_int (block_size (c2_ops d)).
Definition c2port_show_flash_size (d : c2port_device) : Z * string :=
  show_int (s32 (blocks_num (c2_ops d) * block_size (c2_ops d))).
Definition access_show (d : c2port_device) : Z * string := show_int (c2_access d).
Definition c2port_show_flash_access (d : c2port_device) : Z * string :=
  show_int (c2_flash_access d).

(** *** Access and reset *)
Definition access_store_body (status : Z) : MD unit :=
  upd (set_access (bool_of status)) ;;
  d <- the_dev ;;
  (if truthy (c2_access d) then wire (c2ck_set 1) else ret tt) ;;
  wire (access (c2_access d)) ;;
  (if truthy (c2_access d) then wire (c2d_dir 1) else ret tt).

Definition access_store (buf : string) (count : Z) : MD Z :=
  match sscanf_d buf with
  | None => ret (- EINVAL)
  | Some status => locked (access_store_body status) ;; ret count
  end.

Definition store_reset_body : MD unit :=
  wire c2port_reset ;; upd (set_flash_access 0).

Definition c2port_store_reset (count : Z) : MD Z :=
  d <- the_dev ;;
  if negb (truthy (c2_access d)) then ret (- EBUSY)
  else (locked store_reset_body ;; ret count).

(** *** Identification registers *)
Definition show_id (reg : Z) (buf : string) : MD (Z * string) :=
  let! (r, data) := wire (show_reg reg) in
  if r <? 0 then ret (r, buf) else ret (show_int data).
Definition __c2port_show_dev_id : string -> MD (Z * string) := show_id C2PORT_DEVICEID.
Definition __c2port_show_rev_id : string -> MD (Z * string) := show_id C2PORT_REVID.

Definition c2port_show_dev_id (buf : string) : MD (Z * string) :=
  d <- the_dev ;;
  if negb (truthy (c2_access d)) then ret (- EBUSY, buf)
  else locked (__c2port_show_dev_id buf).

Definition c2port_show_rev_id (buf : string) : MD (Z * string) :=
  d <- the_dev ;;
  if negb (truthy (c2_access d)) then ret (- EBUSY, buf)
  else locked (__c2port_show_rev_id buf).

(** *** Flash access *)
Definition __c2port_store_flash_access (status : Z) : MD Z :=
  d <- the_dev ;;
  if negb (truthy (c2_access d)) then ret (- EBUSY)
  else
    (upd (set_flash_access (bool_of status)) ;;
     d <- the_dev ;;
     if c2_flash_access d =? 0 then ret 0
     else wire flash_keycodes).

Definition c2port_store_flash_access (buf : string) (count : Z) : MD Z :=
  match sscanf_d buf with
  | None => ret (- EINVAL)
  | Some status =>
      r <- locked (__c2port_store_flash_access status) ;;
      if r <? 0 then ret r else ret count
  end.

(** [!c2dev->access || !c2dev->flash_access] *)
Definition no_flash (d : c2port_device) : bool :=
  negb (truthy (c2_access d)) || negb (truthy (c2_flash_access d)).

Definition c2port_store_flash_erase (count : Z) : MD Z :=
  d <- the_dev ;;
  if no_flash d then ret (- EBUSY)
  else
    (r <- locked (wire __c2port_write_flash_erase) ;;
     if r <? 0 then ret r else ret count).

Definition c2port_read_flash_data (buffer : list Z) (offset count : Z) : MD (Z * list Z) :=
  d <- the_dev ;;
  if no_flash d then ret (- EBUSY, buffer)
  else locked (wire (__c2port_read_flash_data (c2_ops d) buffer offset count)).

Definition c2port_write_flash_data (buffer : list Z) (offset count : Z) : MD Z :=
  d <- the_dev ;;
  if no_flash d then ret (- EBUSY)
  else locked (wire (__c2port_write_flash_data (c2_ops d) buffer offset count)).

(** ** Requests

    A request is one call of a sysfs method that can touch the device;
    [handle] is the method.  (The results that carry text or data are
    reduced to the return value.) *)
Inductive request :=
| ReqAccess (buf : string) (count : Z)
| ReqReset (count : Z)
| ReqDevId (buf : string)
| ReqRevId (buf : string)
| ReqFlashAccess (buf : string) (count : Z)
| ReqErase (count : Z)
| ReqRead (buffer : list Z) (offset count : Z)
| ReqWrite (buffer : list Z) (offset count : Z).

Definition result_of {A} (m : MD (Z * A)) : MD Z := let! (r, _) := m in ret r.

Definition handle (q : request) : MD Z :=
  match q with
  | ReqAccess buf count => access_store buf count
  | ReqReset count => c2port_store_reset count
  | ReqDevId buf => result_of (c2port_show_dev_id buf)
  | ReqRevId buf => result_of (c2port_show_rev_id buf)
  | ReqFlashAccess buf count => c2port_store_flash_access buf count
  | ReqErase count => c2port_store_flash_erase count
  | ReqRead b o c => result_of (c2port_read_flash_data b o c)
  | ReqWrite b o c => c2port_write_flash_data b o c
  end.

Fixpoint handle_all (qs : list request) (s : c2port_device * W) : c2port_device * W :=
  match qs with
  | [] => s
  | q :: qs => handle_all qs (snd (handle q s))
  end.
End Sysfs.
