(* ===== verification/C2SysfsSpec.v ===== *)
(** * C2 port: properties of the sysfs methods

    The guards of the methods (for every board driver), the invariant that
    ties the device flags to the pins and to the whole event trace, the
    functional behaviour of the state-changing methods, and what interleaved
    methods can do. *)

From Stdlib Require Import ZArith Ascii.
From stdpp Require Import base list strings pretty numbers relations.
From S2P Require Import Prelude KernelText C2Wire C2Proto C2Flash C2Rel C2FlashSpec C2Stack C2Sysfs.

(** ** The invariant *)

(** Every clock pulse is a strobe or a reset. *)
Definition pulse (t : Z) : bool := is_strobe t || is_reset t.

(** The lines are only driven or sampled while they are switched on; raising
    the clock is what [access_store] does before switching on. *)
Fixpoint owned_ok (owned : bool) (evs : list c2_event) : bool :=
  match evs with
  | [] => true
  | EvAccess s :: evs => owned_ok (truthy s) evs
  | EvCk v :: evs => (owned || truthy v) && owned_ok owned evs
  | (EvSet _ | EvGet _ | EvDir _) :: evs => owned && owned_ok owned evs
  | _ :: evs => owned_ok owned evs
  end.

(** [p0]: the pins when the device was registered. *)
Record sysfs_ok (p0 : pins) (d : c2port_device) (w : bus) : Prop := mkOk {
  ok_access : c2_access d = 0 \/ c2_access d = 1;
  ok_flash : c2_flash_access d = 0 \/ c2_flash_access d = 1;
  ok_owned : p_owned (pins_after p0 (trace w)) = truthy (c2_access d);
  ok_idle : c2_access d = 1 -> pins_idle (pins_after p0 (trace w));
  ok_clock : clk_run pulse clk_idle (trace w) = Some clk_idle;
  ok_driven : owned_ok (p_owned p0) (trace w) = true;
}.

Definition sysfs_inv (p0 : pins) (s : c2port_device * bus) : Prop :=
  c2_mutex (fst s) = false /\ sysfs_ok p0 (fst s) (snd s).

(** *** Lemmas *)
Lemma owned_ok_app o a b p :
  p_owned p = o ->
  owned_ok o (a ++ b) = owned_ok o a && owned_ok (p_owned (pins_after p a)) b.
Proof.
  revert o p. induction a as [|e a IH]; intros o p Hp; [by subst|].
  change (pins_after p (e :: a)) with (pins_after (pin_step p e) a).
  destruct e as [s|?|?|?|?| | |?|?] eqn:E; cbn [app owned_ok];
    rewrite (IH _ (pin_step p e)) by (subst; done); subst e; by rewrite ?andb_assoc.
Qed.

Lemma keeps_owned p evs :
  Forall keeps_access evs -> p_owned (pins_after p evs) = p_owned p.
Proof.
  intros H. revert p. induction H as [|e evs He _ IH]; intros p; [done|].
  change (pins_after p (e :: evs)) with (pins_after (pin_step p e) evs).
  rewrite IH. by destruct e.
Qed.

Lemma owned_ok_keeps evs : Forall keeps_access evs -> owned_ok true evs = true.
Proof. induction 1 as [|e evs He _ IH]; [done|]. by destruct e; cbn; rewrite ?IH. Qed.

Lemma clk_run_mono (l1 l2 : Z -> bool) :
  (forall t, l1 t = true -> l2 t = true) ->
  forall evs c c', clk_run l1 c evs = Some c' -> clk_run l2 c evs = Some c'.
Proof.
  intros Hl. induction evs as [|e evs IH]; intros c c' H; [done|]. cbn [clk_run] in *.
  assert (forall c1, clk_step l1 c e = Some c1 -> clk_step l2 c e = Some c1) as Hs.
  { intros c1. destruct e; cbn; try done. repeat case_match; try done.
    all: by rewrite (Hl _ ltac:(eassumption)) in *. }
  destruct (clk_step l1 c e) as [c1|]; [|done]. rewrite (Hs c1) by done. by apply IH.
Qed.

(** A quiet sequence of events while access is on. *)
Lemma sysfs_ok_quiet p0 lim d w evs k :
  (forall t, lim t = true -> pulse t = true) ->
  sysfs_ok p0 d w -> c2_access d = 1 -> quiet lim evs -> sysfs_ok p0 d (adv w evs k).
Proof.
  intros Hl [? ? Ho Hi Hc Hd] Ha (Qc & Qp & Qk). constructor; cbn [adv trace]; try done.
  - by rewrite pins_after_app, keeps_owned.
  - intros _. rewrite pins_after_app. auto.
  - rewrite clk_run_app, Hc. by apply (clk_run_mono lim).
  - rewrite (owned_ok_app _ _ _ p0), Hd, Ho, Ha by done. by apply owned_ok_keeps.
Qed.

Lemma sysfs_ok_set_flash p0 d w v :
  sysfs_ok p0 d w -> v = 0 \/ v = 1 -> sysfs_ok p0 (set_flash_access v d) w.
Proof. intros [] ?. by constructor. Qed.

Lemma sysfs_ok_mutex p0 d w b : sysfs_ok p0 (set_mutex b d) w <-> sysfs_ok p0 d w.
Proof. split; intros []; by constructor. Qed.

Lemma bool_of_bit v : bool_of v = 0 \/ bool_of v = 1.
Proof. unfold bool_of. destruct (truthy v); auto. Qed.

(** [m] keeps [sysfs_ok] when it starts with access on. *)
Definition keeps_ok {A} (m : M (c2port_device * bus) A) : Prop :=
  forall p0 d w, sysfs_ok p0 d w -> c2_access d = 1 ->
    sysfs_ok p0 (fst (snd (m (d, w)))) (snd (snd (m (d, w)))).

Lemma keeps_ok_wire {A} (m1 : M (bus * list xact) A) (m2 : M bus A) :
  on_wire A m1 m2 -> keeps_ok (wire m2).
Proof.
  intros H p0 d w Hok Ha. destruct (H w []) as (a & evs & k & xs & E & _ & HW).
  cbn. rewrite E. cbn. eapply sysfs_ok_quiet; [|done..|by eapply wired_quiet].
  unfold pulse. by intros t ->.
Qed.

Lemma locked_run {A} (m : M (c2port_device * bus) A) d w :
  locked m (d, w) =
    (fst (m (set_mutex true d, w)),
     (set_mutex false (fst (snd (m (set_mutex true d, w)))),
      snd (snd (m (set_mutex true d, w))))).
Proof.
  unfold locked, bind, mutex_lock, mutex_unlock, upd, modify.
  by destruct (m (set_mutex true d, w)) as [a [d' w']].
Qed.

Lemma inv_locked {A} (m : M (c2port_device * bus) A) p0 d w :
  keeps_ok m -> sysfs_inv p0 (d, w) -> c2_access d = 1 ->
  sysfs_inv p0 (snd (locked m (d, w))).
Proof.
  intros Hm [_ Hok] Ha. rewrite locked_run. split; [done|].
  cbn [fst snd]. apply sysfs_ok_mutex. apply Hm; [by apply sysfs_ok_mutex|done].
Qed.

Lemma truthy_bit v : v = 0 \/ v = 1 -> negb (truthy v) = false -> v = 1.
Proof. by intros [->| ->]. Qed.

(** The shape of the guarded methods. *)
Lemma inv_guarded {A} (m : c2port_device -> M (c2port_device * bus) A) (r : A)
    (g : c2port_device -> bool) p0 d w :
  (g d = false -> c2_access d = 1) -> keeps_ok (m d) -> sysfs_inv p0 (d, w) ->
  sysfs_inv p0 (snd ((d <- the_dev ;; if g d then ret r else locked (m d)) (d, w))).
Proof.
  intros Hg Hm Hi. cbn. destruct (g d); [done|]. apply inv_locked; auto.
Qed.

Lemma snd_bind_ret {S A B} (m : M S A) (f : A -> M S B) s :
  (forall a s, snd (f a s) = s) -> snd (bind m f s) = snd (m s).
Proof. intros Hf. rewrite bind_run. apply Hf. Qed.

Lemma inv_no_flash d w p0 : sysfs_inv p0 (d, w) -> no_flash d = false -> c2_access d = 1.
Proof.
  intros [_ [? ? _ _ _ _]] H. apply orb_false_iff in H as [H _]. by apply truthy_bit.
Qed.

Lemma inv_access d w p0 :
  sysfs_inv p0 (d, w) -> negb (truthy (c2_access d)) = false -> c2_access d = 1.
Proof. intros [_ [? ? _ _ _ _]] H. by apply truthy_bit. Qed.

Lemma inv_access_store p0 d w buf count :
  sysfs_inv p0 (d, w) -> sysfs_inv p0 (snd (access_store buf count (d, w))).
Proof.
  intros HI. unfold access_store. destruct (sscanf_d buf) as [status|]; [|done].
  destruct HI as [_ [Ha Hf Ho Hi Hc Hd]]. cbn [fst snd] in *.
  rewrite snd_bind_ret by done. rewrite locked_run. split; [done|]. cbn [fst snd].
  apply sysfs_ok_mutex. unfold access_store_body, bool_of.
  destruct (truthy status); cbn; constructor; cbn -[pins_after]; auto;
    rewrite ?pins_after_app; cbn; try done.
  - by rewrite !clk_run_app, Hc.
  - rewrite <- !app_assoc, (owned_ok_app _ _ _ p0), Hd by done. cbn. by rewrite orb_true_r.
  - by rewrite !clk_run_app, Hc.
  - by rewrite (owned_ok_app _ _ _ p0), Hd by done.
Qed.

Lemma keeps_ok_reset : keeps_ok store_reset_body.
Proof.
  intros p0 d w Hok Ha. unfold store_reset_body. cbn.
  apply sysfs_ok_set_flash; [|auto]. rewrite !adv_adv.
  apply (sysfs_ok_quiet p0 is_reset); [|done..|].
  - unfold pulse. intros t ->. apply orb_true_r.
  - split; [done|]. split; [by intros p [? ?]|by repeat constructor].
Qed.

Lemma keeps_ok_show_id reg buf : keeps_ok (show_id reg buf).
Proof.
  intros p0 d w Hok Ha. unfold show_id.
  rewrite snd_bind_ret by (intros [r v] s; by destruct (r <? 0)).
  by apply (keeps_ok_wire _ _ (rel_show_reg reg)).
Qed.

Lemma keeps_ok_flash_access status p0 d w :
  sysfs_ok p0 d w ->
  sysfs_ok p0 (fst (snd (__c2port_store_flash_access status (d, w))))
              (snd (snd (__c2port_store_flash_access status (d, w)))).
Proof.
  intros Hok. unfold __c2port_store_flash_access. rewrite bind_run.
  cbn [the_dev fst snd]. case_if; [done|].
  unfold bind at 1 2 3 4, upd, modify. cbn [the_dev fst snd].
  assert (sysfs_ok p0 (set_flash_access (bool_of status) d) w)
    by (apply sysfs_ok_set_flash; [done|apply bool_of_bit]).
  case_if; [done|]. apply (keeps_ok_wire _ _ rel_flash_keycodes); [done|].
  destruct Hok. by apply truthy_bit.
Qed.

(** C4: every sysfs method keeps, whatever its arguments and whatever the
    target answers, the invariant of the device: the mutex is free, the flags
    are bits, the lines are switched on exactly when [access] is set and are
    idle then, they were only driven or sampled while switched on, and every
    clock pulse so far was a strobe shorter than 5 us or a reset of at least
    20 us, with interrupts off. *)
Theorem sysfs_invariant p0 qs d w :
  sysfs_inv p0 (d, w) -> sysfs_inv p0 (handle_all qs (d, w)).
Proof.
  revert d w. induction qs as [|q qs IH]; intros d w Hi; [done|].
  cbn [handle_all].
  assert (sysfs_inv p0 (snd (handle q (d, w)))) as Hq;
    [|by destruct (snd (handle q (d, w))); apply IH].
  pose proof (inv_access d w p0 Hi) as Ha. pose proof (inv_no_flash d w p0 Hi) as Hf.
  destruct q; cbn [handle]; unfold result_of; rewrite ?snd_bind_ret by (by intros []).
  - by apply inv_access_store.
  - unfold c2port_store_reset. cbn. destruct (negb _); [done|].
    rewrite snd_bind_ret by done. auto using inv_locked, keeps_ok_reset.
  - apply (inv_guarded (fun _ => _) (- EBUSY, buf) (fun d => negb (truthy (c2_access d))));
      [done|apply keeps_ok_show_id|done].
  - apply (inv_guarded (fun _ => _) (- EBUSY, buf) (fun d => negb (truthy (c2_access d))));
      [done|apply keeps_ok_show_id|done].
  - unfold c2port_store_flash_access. destruct (sscanf_d buf) as [status|]; [|done].
    rewrite snd_bind_ret by (intros a s; by destruct (a <? 0)).
    rewrite locked_run. split; [done|]. apply sysfs_ok_mutex, keeps_ok_flash_access.
    apply sysfs_ok_mutex, Hi.
  - unfold c2port_store_flash_erase. cbn. destruct (no_flash d); [done|].
    rewrite snd_bind_ret by (intros a s; by destruct (a <? 0)).
    apply inv_locked; [apply (keeps_ok_wire _ _ rel_erase)|done|auto].
  - apply (inv_guarded (fun d => _) (- EBUSY, buffer) no_flash); [done| |done].
    apply (keeps_ok_wire _ _ (rel_read_flash _ _ _ _)).
  - apply (inv_guarded (fun d => _) (- EBUSY) no_flash); [done| |done].
    apply (keeps_ok_wire _ _ (rel_write_flash _ _ _ _)).
Qed.

(** ** Guards, for every board driver *)
Section Guards.
Context {W : Type} `{!C2PortOps W} `{!Kernel W}.

(** property: the methods that need access return -EBUSY when [access] is off,
    those that need the flash when [access] or [flash_access] is off, and a
    value that does not parse is -EINVAL; in all these cases neither the
    device nor the wire is touched. *)
Theorem guards_reject d (w : W) buf count text data offset :
  c2_mutex d = false ->
  (c2_access d = 0 ->
     c2port_store_reset count (d, w) = (- EBUSY, (d, w)) /\
     c2port_show_dev_id text (d, w) = ((- EBUSY, text), (d, w)) /\
     c2port_show_rev_id text (d, w) = ((- EBUSY, text), (d, w)) /\
     (sscanf_d buf <> None -> c2port_store_flash_access buf count (d, w) = (- EBUSY, (d, w)))) /\
  (c2_access d = 0 \/ c2_flash_access d = 0 ->
     c2port_store_flash_erase count (d, w) = (- EBUSY, (d, w)) /\
     c2port_read_flash_data data offset count (d, w) = ((- EBUSY, data), (d, w)) /\
     c2port_write_flash_data data offset count (d, w) = (- EBUSY, (d, w))) /\
  (sscanf_d buf = None ->
     access_store buf count (d, w) = (- EINVAL, (d, w)) /\
     c2port_store_flash_access buf count (d, w) = (- EINVAL, (d, w))).
Proof.
  intros Hm. destruct d as [nm a f m o]. cbn in Hm. subst m. cbn [c2_access c2_flash_access].
  split; [|split].
  - intros ->. split_and!; [done..|]. intros Hs. unfold c2port_store_flash_access.
    destruct (sscanf_d buf); [reflexivity|congruence].
  - intros H. assert (no_flash (mkDev nm a f false o) = true) as Hn.
    { unfold no_flash. cbn. destruct H as [-> | ->]; [done|]. by rewrite orb_true_r. }
    unfold c2port_store_flash_erase, c2port_read_flash_data, c2port_write_flash_data, bind.
    cbn [the_dev fst]. rewrite Hn. by split_and!.
  - intros Hs. unfold access_store, c2port_store_flash_access. by rewrite Hs.
Qed.
End Guards.

(** ** Text round trip *)
(** property: what the integer attributes print is what the parser reads: writing
    the text of the access attribute back to it leaves the flag as it is, on
    every board, and the geometry attributes read back as the geometry. *)
Theorem attribute_roundtrip {W} `{!C2PortOps W} d (w : W) count :
  c2_access d = 0 \/ c2_access d = 1 ->
  0 <= blocks_num (c2_ops d) < 65536 -> 0 <= block_size (c2_ops d) < 65536 ->
  (exists w', access_store (snd (access_show d)) count (d, w) = (count, (set_mutex false d, w'))) /\
  sscanf_d (snd (c2port_show_flash_blocks_num d)) = Some (blocks_num (c2_ops d)) /\
  sscanf_d (snd (c2port_show_flash_block_size d)) = Some (block_size (c2_ops d)) /\
  sscanf_d (snd (c2port_show_flash_size d)) = Some (flash_size (c2_ops d)).
Proof.
  intros Ha Hn Hs. split.
  - unfold access_store, access_show. rewrite scan_show by lia.
    unfold bind at 1, locked, mutex_lock, mutex_unlock, access_store_body, upd, modify, wire, bind.
    destruct d as [nm a f m o]. cbn [c2_access] in Ha. cbn.
    destruct Ha as [-> | ->]; cbn.
    + destruct (access 0 w). eauto.
    + destruct (c2ck_set 1 w) as [? w1]. destruct (access 1 w1) as [? w2].
      destruct (c2d_dir 1 w2). eauto.
  - split; [|split]; [apply scan_show; lia..|].
    unfold c2port_show_flash_size, flash_size. rewrite (Z.mul_comm (block_size _)).
    apply scan_show. unfold s32. pose proof (Z.mod_pos_bound (blocks_num (c2_ops d) * block_size (c2_ops d) + 2 ^ 31) (2 ^ 32)).
    lia.
Qed.

(** ** Flash access *)

Lemma keycodes_timeout w :
  low_run (line w) (pos w) 20 = None ->
  exists evs, flash_keycodes w = (- EIO, adv w evs 20).
Proof.
  intros Hr. unfold flash_keycodes. rewrite bind_run.
  change (write_ar ?a ?w) with (c2port_write_ar a w). rewrite (runs_write_ar _ w).
  cbn [fst snd]. unfold checked. rewrite bind_run.
  change (write_dr ?a ?w) with (c2port_write_dr a w). rewrite (runs_write_dr _ _).
  cbn [adv line pos]. rewrite Nat.add_0_r, Hr. cbn [fst snd wait_samples Z.ltb Z.compare Z.opp EIO].
  eexists. cbn. rewrite adv_adv. done.
Qed.

(** property: a write that enables flash access and finds the target not
    answering returns -EIO, but the flag stays set: the flash methods are no
    longer rejected although the keycodes were never accepted. *)
Theorem failed_keycodes_leave_flash_access d w buf count v :
  sscanf_d buf = Some v -> truthy v = true -> c2_access d = 1 ->
  low_run (line w) (pos w) 20 = None ->
  exists w', c2port_store_flash_access buf count (d, w) =
      (- EIO, (set_mutex false (set_flash_access 1 d), w')) /\
    no_flash (set_mutex false (set_flash_access 1 d)) = false.
Proof.
  intros Hs Hv Ha Hr. destruct (keycodes_timeout w Hr) as (evs & HE).
  exists (adv w evs 20). split.
  - unfold c2port_store_flash_access. rewrite Hs, bind_run, locked_run. cbn [fst snd].
    unfold __c2port_store_flash_access, bind, upd, modify. cbn [the_dev fst snd set_mutex c2_access].
    rewrite Ha. unfold bool_of. rewrite Hv. cbn [truthy Z.eqb negb c2_flash_access set_flash_access].
    cbn [fst snd c2_flash_access set_flash_access Z.eqb wire]. rewrite HE. done.
  - unfold no_flash. cbn. by rewrite Ha.
Qed.

(** ** Interleaved methods

    A method first checks the flags without the mutex and then runs its body
    with the mutex held; other methods may run between the two. *)
Inductive thread :=
| Start (q : request)
| Passed (q : request)
| Finished (r : Z).

(** The check before the mutex: the error it returns, if any. *)
Definition precheck (q : request) (d : c2port_device) : option Z :=
  match q with
  | ReqAccess buf _ | ReqFlashAccess buf _ =>
      match sscanf_d buf with None => Some (- EINVAL) | Some _ => None end
  | ReqReset _ | ReqDevId _ | ReqRevId _ =>
      if negb (truthy (c2_access d)) then Some (- EBUSY) else None
  | ReqErase _ | ReqRead _ _ _ | ReqWrite _ _ _ =>
      if no_flash d then Some (- EBUSY) else None
  end.

Definition scanned (buf : string) : Z := default 0 (sscanf_d buf).

(** The rest of the method. *)
Definition body (q : request) (s : c2port_device * bus) : Z * (c2port_device * bus) :=
  match q with
  | ReqAccess buf count => (locked (access_store_body (scanned buf)) ;; ret count) s
  | ReqReset count => (locked store_reset_body ;; ret count) s
  | ReqDevId buf => result_of (locked (__c2port_show_dev_id buf)) s
  | ReqRevId buf => result_of (locked (__c2port_show_rev_id buf)) s
  | ReqFlashAccess buf count =>
      (r <- locked (__c2port_store_flash_access (scanned buf)) ;;
       if r <? 0 then ret r else ret count) s
  | ReqErase count =>
      (r <- locked (wire __c2port_write_flash_erase) ;; if r <? 0 then ret r else ret count) s
  | ReqRead b o c =>
      result_of (locked (wire (__c2port_read_flash_data (c2_ops (fst s)) b o c))) s
  | ReqWrite b o c => locked (wire (__c2port_write_flash_data (c2_ops (fst s)) b o c)) s
  end.

(** Run without interruption the two parts are the method. *)
Lemma handle_split q d w :
  handle q (d, w) =
    match precheck q d with Some e => (e, (d, w)) | None => body q (d, w) end.
Proof.
  destruct q; cbn [handle precheck body].
  1, 5: unfold scanned, access_store, c2port_store_flash_access; by destruct (sscanf_d buf).
  - unfold c2port_store_reset. rewrite bind_run. cbn [the_dev fst snd]. by destruct (negb _).
  - unfold result_of, c2port_show_dev_id, the_dev, bind. cbn [fst snd]. by destruct (negb _).
  - unfold result_of, c2port_show_rev_id, the_dev, bind. cbn [fst snd]. by destruct (negb _).
  - unfold c2port_store_flash_erase. rewrite bind_run. cbn [the_dev fst snd].
    by destruct (no_flash d).
  - unfold result_of, c2port_read_flash_data, the_dev, bind. cbn [fst snd].
    by destruct (no_flash d).
  - unfold c2port_write_flash_data. rewrite bind_run. cbn [the_dev fst snd].
    by destruct (no_flash d).
Qed.

(** One step of one thread: its check, or its body under the mutex. *)
Inductive step : list thread * (c2port_device * bus) -> list thread * (c2port_device * bus) -> Prop :=
| step_check ts i q s :
    ts !! i = Some (Start q) ->
    step (ts, s)
      (<[i := match precheck q (fst s) with Some e => Finished e | None => Passed q end]> ts, s)
| step_body ts i q s :
    ts !! i = Some (Passed q) ->
    step (ts, s) (<[i := Finished (fst (body q s))]> ts, snd (body q s)).

Definition switches_access (q : request) : Prop :=
  match q with ReqAccess _ _ => True | _ => False end.

(** No thread switches the access, and whoever passed its check did so with
    access on. *)
Definition thread_ok (d : c2port_device) (t : thread) : Prop :=
  match t with
  | Start q => ~ switches_access q
  | Passed (ReqAccess _ _) => False
  | Passed (ReqFlashAccess _ _) => True
  | Passed _ => c2_access d = 1
  | Finished _ => True
  end.

Lemma locked_inv {A} (m : M (c2port_device * bus) A) p0 d w :
  sysfs_inv p0 (d, w) ->
  (forall d' w', sysfs_ok p0 d' w' -> c2_access d' = c2_access d ->
     let s := snd (m (d', w')) in
     sysfs_ok p0 (fst s) (snd s) /\ c2_access (fst s) = c2_access d) ->
  let s := snd (locked m (d, w)) in sysfs_inv p0 s /\ c2_access (fst s) = c2_access d.
Proof.
  intros [_ Hok] Hm. cbv zeta. rewrite locked_run. cbn [fst snd].
  destruct (Hm (set_mutex true d) w) as [H1 H2]; [by apply sysfs_ok_mutex|done|].
  split; [|done]. split; [done|]. by apply sysfs_ok_mutex.
Qed.

Lemma wire_access {A} (m : M bus A) d w : fst (snd (wire m (d, w))) = d.
Proof. cbn. by destruct (m w). Qed.

Lemma wire_keeps {A} (m1 : M (bus * list xact) A) (m2 : M bus A) p0 d w :
  on_wire A m1 m2 -> sysfs_ok p0 d w -> c2_access d = 1 ->
  let s := snd (wire m2 (d, w)) in sysfs_ok p0 (fst s) (snd s) /\ c2_access (fst s) = 1.
Proof.
  intros H Hok Ha. cbv zeta. rewrite wire_access. split; [|done].
  pose proof (keeps_ok_wire m1 m2 H p0 d w Hok Ha) as H'. by rewrite wire_access in H'.
Qed.

Lemma access_of_flash_access v d w :
  c2_access (fst (snd (__c2port_store_flash_access v (d, w)))) = c2_access d.
Proof.
  unfold __c2port_store_flash_access, bind, upd, modify. cbn [the_dev fst snd].
  case_if; [done|]. case_if; [done|]. by rewrite wire_access.
Qed.

Lemma body_keeps p0 q d w :
  sysfs_inv p0 (d, w) -> thread_ok d (Passed q) ->
  let s := snd (body q (d, w)) in sysfs_inv p0 s /\ c2_access (fst s) = c2_access d.
Proof.
  intros Hi Hq. destruct q; cbn [thread_ok] in Hq; try done; cbn [body fst]; cbv zeta;
    unfold result_of; rewrite ?snd_bind_ret by (intros a s; by destruct a || by destruct (a <? 0));
    apply locked_inv; try done; intros d' w' Hok Ha; cbv zeta; rewrite ?Hq in *.
  - split; [by apply keeps_ok_reset|]. done.
  - split; [by apply keeps_ok_show_id|]. unfold __c2port_show_dev_id, show_id.
    rewrite snd_bind_ret by (intros [r v] s; by destruct (r <? 0)). by rewrite wire_access.
  - split; [by apply keeps_ok_show_id|]. unfold __c2port_show_rev_id, show_id.
    rewrite snd_bind_ret by (intros [r v] s; by destruct (r <? 0)). by rewrite wire_access.
  - split; [by apply keeps_ok_flash_access|]. by rewrite access_of_flash_access.
  - by apply (wire_keeps _ _ p0 _ _ rel_erase).
  - by apply (wire_keeps _ _ p0 _ _ (rel_read_flash _ _ _ _)).
  - by apply (wire_keeps _ _ p0 _ _ (rel_write_flash _ _ _ _)).
Qed.

Lemma thread_ok_access d d' t : c2_access d' = c2_access d -> thread_ok d t -> thread_ok d' t.
Proof. intros H. destruct t as [|[]|]; cbn; congruence. Qed.

(** C34: as long as no thread writes the [access] attribute, every
    interleaving of the methods keeps the invariant of the device and of the
    pins (the checks are made outside the mutex, but the flag they depend on
    can not change). *)
Theorem interleaved_invariant p0 ts s ts' s' :
  rtc step (ts, s) (ts', s') ->
  sysfs_inv p0 s -> Forall (thread_ok (fst s)) ts ->
  sysfs_inv p0 s' /\ Forall (thread_ok (fst s')) ts'.
Proof.
  intros Hr. remember (ts, s) as x eqn:Hx. remember (ts', s') as y eqn:Hy.
  revert ts s Hx. induction Hr as [|x z y Hs Hr IH]; intros ts s -> Hi Hts; [by simplify_eq|].
  inversion Hs as [? i q ? Hl|? i q ? Hl]; subst.
  - eapply IH; [done..|]. apply Forall_insert; [done|].
    pose proof (Forall_lookup_1 _ _ _ _ Hts Hl) as Hq. cbn in Hq. destruct s as [d w].
    pose proof (inv_access d w p0 Hi) as H1. pose proof (inv_no_flash d w p0 Hi) as H2.
    destruct q; cbn [precheck fst] in *; case_match; try done; cbn [thread_ok].
    all: by repeat case_match; simplify_eq; auto.
  - destruct s as [d w].
    destruct (body_keeps p0 q d w Hi (Forall_lookup_1 _ _ _ _ Hts Hl)) as [Hi' Ha].
    apply (IH eq_refl (<[i:=Finished (fst (body q (d, w)))]> ts) (snd (body q (d, w))) eq_refl Hi').
    apply Forall_insert; [|done].
    eapply Forall_impl; [exact Hts|]. intros t. by apply thread_ok_access.
Qed.

(** ** Concrete devices *)
Definition demo_name : list ascii := ["c"%char; "2"%char; "000"%char].
Definition demo_dev (a f : Z) : c2port_device := mkDev demo_name a f false demo_geometry.
Definition demo_off : pins := mkPins false 1 0 1.

(** A device just switched on, on a line that stays high or low. *)
Definition demo_on (level : Z) : c2port_device * bus :=
  (demo_dev 1 0, mkBus [EvAccess 0; EvCk 1; EvAccess 1; EvDir 1] (fun _ => level) 0).

Lemma demo_on_inv level : sysfs_inv demo_off (demo_on level).
Proof. split; [done|]. by constructor; cbn; auto. Qed.

(** property: writing the [access] attribute concurrently breaks the invariant:
    a reset that has passed its check runs after the lines were switched off
    and drives the clock of a port the driver no longer owns. *)
Theorem access_race :
  exists ts s',
    rtc step ([Start (ReqReset 1); Start (ReqAccess "0" 1)], demo_on 1) (ts, s') /\
    sysfs_inv demo_off (demo_on 1) /\
    ts = [Finished 1; Finished 1] /\
    c2_access (fst s') = 0 /\ owned_ok false (trace (snd s')) = false.
Proof.
  do 2 eexists. split; [|split; [apply demo_on_inv|]].
  - eapply rtc_l; [by apply (step_check _ 0)|]. eapply rtc_l; [by apply (step_check _ 1)|].
    eapply rtc_l; [by apply (step_body _ 1)|]. eapply rtc_l; [by apply (step_body _ 0)|].
    apply rtc_refl.
  - by vm_compute.
Qed.

Lemma sysfs_invariant_witness :
  sysfs_inv demo_off (handle_all [ReqReset 1; ReqDevId ""; ReqAccess "0" 2; ReqErase 1] (demo_on 1)).
Proof. apply (sysfs_invariant demo_off); apply demo_on_inv. Defined.

Lemma guards_reject_witness :
  c2port_store_reset 1 (demo_dev 0 1, demo_bus) = (- EBUSY, (demo_dev 0 1, demo_bus)) /\
  c2port_store_flash_erase 1 (demo_dev 0 1, demo_bus) = (- EBUSY, (demo_dev 0 1, demo_bus)) /\
  access_store "x" 1 (demo_dev 0 1, demo_bus) = (- EINVAL, (demo_dev 0 1, demo_bus)).
Proof.
  destruct (guards_reject (demo_dev 0 1) demo_bus "x" 1 "" [] 0) as (H1 & H2 & H3); [reflexivity|].
  split; [apply H1; reflexivity|]. split; [apply H2; left; reflexivity|]. apply H3; reflexivity.
Defined.

Lemma attribute_roundtrip_witness :
  exists w', access_store (snd (access_show (demo_dev 1 0))) 2 (demo_dev 1 0, demo_bus) =
    (2, (demo_dev 1 0, w')).
Proof.
  exact (proj1 (attribute_roundtrip (demo_dev 1 0) demo_bus 2 (or_intror eq_refl)
    ltac:(cbn; lia) ltac:(cbn; lia))).
Defined.

Lemma failed_keycodes_leave_flash_access_witness :
  exists w', c2port_store_flash_access " 1" 2 (demo_on 0) =
      (- EIO, (demo_dev 1 1, w')) /\ no_flash (demo_dev 1 1) = false.
Proof.
  apply (failed_keycodes_leave_flash_access (demo_dev 1 0) (snd (demo_on 0)) " 1" 2 1); reflexivity.
Defined.

(** A reset passes its check; then the whole enabling of the flash runs. *)
Lemma demo_interleaving :
  exists ts s', rtc step ([Start (ReqReset 1); Start (ReqFlashAccess "1" 2)], demo_on 1) (ts, s') /\
    ts = [Passed (ReqReset 1); Finished 2].
Proof.
  do 2 eexists. split.
  - eapply rtc_l; [by apply (step_check _ 0)|]. eapply rtc_l; [by apply (step_check _ 1)|].
    eapply rtc_l; [by apply (step_body _ 1)|]. apply rtc_refl.
  - by vm_compute.
Qed.

Lemma interleaved_invariant_witness :
  exists ts s', rtc step ([Start (ReqReset 1); Start (ReqFlashAccess "1" 2)], demo_on 1) (ts, s') /\
    ts = [Passed (ReqReset 1); Finished 2] /\ sysfs_inv demo_off s'.
Proof.
  destruct demo_interleaving as (ts & s' & Hr & Hts). exists ts, s'.
  split; [exact Hr|]. split; [exact Hts|].
  apply (interleaved_invariant demo_off _ _ _ _ Hr); [apply demo_on_inv|].
  constructor; [cbn; tauto|]. constructor; [cbn; tauto|]. constructor.
Defined.
