(* ===== verification/C2Device.v ===== *)
(** * C2 port: registration of devices (test_c2port/core.c, lines 891-997)

    The class state (the id allocator, the live device objects, the devices
    created in the class), [c2port_device_register] with its error paths and
    [c2port_device_unregister].  The allocators of the kernel are parameters:
    whether [kmalloc] succeeds, the id [idr_alloc] returns, the result of
    [device_create] and the effect of [device_destroy]. *)

From Stdlib Require Import ZArith Ascii.
From stdpp Require Import base list strings gmap.
From S2P Require Import Prelude KernelText C2Wire C2Proto C2Flash C2FlashSpec C2Sysfs C2SysfsSpec.

(** [struct c2port_ops]: the callbacks may be NULL. *)
Record c2port_ops (W : Type) := mkOps {
  o_geometry : c2port_geometry;
  o_access : option (Z -> M W unit);
  o_c2d_dir : option (Z -> M W unit);
  o_c2d_get : option (M W Z);
  o_c2d_set : option (Z -> M W unit);
  o_c2ck_set : option (Z -> M W unit);
}.
Arguments mkOps {W}. Arguments o_geometry {W}. Arguments o_access {W}.
Arguments o_c2d_dir {W}. Arguments o_c2d_get {W}. Arguments o_c2d_set {W}.
Arguments o_c2ck_set {W}.

(** The callbacks as the interface the core is written against. *)
Definition callbacks {W} (ops : c2port_ops W) : option (C2PortOps W) :=
  match o_access ops, o_c2d_dir ops, o_c2ck_set ops, o_c2d_get ops, o_c2d_set ops with
  | Some a, Some d, Some c, Some g, Some s =>
      Some {| access := a; c2d_dir := d; c2d_get := g; c2d_set := s; c2ck_set := c |}
  | _, _, _, _, _ => None
  end.

(** [cl_devices]: (devt, id) of the devices created in the class. *)
Record c2class (W : Type) := mkClass {
  cl_idr : gset Z;
  cl_heap : Z;
  cl_devices : list (Z * Z);
  cl_flash_attr_size : Z;
  cl_wire : W;
}.
Arguments mkClass {W}. Arguments cl_idr {W}. Arguments cl_heap {W}.
Arguments cl_devices {W}. Arguments cl_flash_attr_size {W}. Arguments cl_wire {W}.

(** [strncpy]: copies at most [n] characters and pads with NUL. *)
Definition strncpy (n : nat) (s : list ascii) : list ascii :=
  take n s ++ replicate (n - length s) "000"%char.

Lemma length_strncpy n s : length (strncpy n s) = n.
Proof. unfold strncpy. rewrite length_app, length_take, length_replicate. lia. Qed.

Section Register.
Context {W : Type}.
(** [C2PORT_NAME_LEN] of linux/c2port.h. *)
Variable NAME_LEN : nat.
Variable kmalloc_ok : bool.
Variable idr_alloc : gset Z -> Z.
Variable device_create : Z -> Z.
Variable device_destroy : Z -> list (Z * Z) -> list (Z * Z).

(** [inl e] is [ERR_PTR(e)], [inr (id, d)] the new device. *)
Definition c2port_device_register (name : list ascii) (ops : option (c2port_ops W)) :
    M (c2class W) (Z + Z * c2port_device) :=
  match ops with
  | None => ret (inl (- EINVAL))
  | Some ops =>
      match callbacks ops with
      | None => ret (inl (- EINVAL))
      | Some cb =>
          if negb kmalloc_ok then ret (inl (- ENOMEM))
          else fun c =>
            let c := mkClass (cl_idr c) (cl_heap c + 1) (cl_devices c)
                       (cl_flash_attr_size c) (cl_wire c) in
            let r := idr_alloc (cl_idr c) in
            if r <? 0 then
              (inl r, mkClass (cl_idr c) (cl_heap c - 1) (cl_devices c)
                        (cl_flash_attr_size c) (cl_wire c))
            else
              let id := r in
              let size := s32 (blocks_num (o_geometry ops) * block_size (o_geometry ops)) in
              let c := mkClass ({[id]} ∪ cl_idr c) (cl_heap c) (cl_devices c) size (cl_wire c) in
              let e := device_create id in
              if e <? 0 then
                (inl e, mkClass (cl_idr c ∖ {[id]}) (cl_heap c - 1) (cl_devices c)
                          (cl_flash_attr_size c) (cl_wire c))
              else
                let d := mkDev (strncpy NAME_LEN name) 0 0 false (o_geometry ops) in
                let '(_, w) := access (C2PortOps:=cb) 0 (cl_wire c) in
                (inr (id, d), mkClass (cl_idr c) (cl_heap c) ((0, id) :: cl_devices c)
                                (cl_flash_attr_size c) w)
      end
  end.

Definition c2port_device_unregister (c2dev : option (Z * c2port_device)) : M (c2class W) unit :=
  match c2dev with
  | None => ret tt
  | Some (id, _) =>
      modify (fun c => mkClass (cl_idr c ∖ {[id]}) (cl_heap c - 1)
                (device_destroy id (cl_devices c)) (cl_flash_attr_size c) (cl_wire c))
  end.

(** property: registering a device either fails and leaves the id allocator, the
    heap, the class devices and the wire as they were (-EINVAL when a
    callback is missing, -ENOMEM, or the error of the allocator), or it
    returns a device with access and flash access off and the mutex free,
    whose id is new, and the access callback has been called with 0. *)
Theorem register_spec name ops c :
  (forall s, idr_alloc s ∉ s) ->
  let '(r, c') := c2port_device_register name ops c in
  match r with
  | inl e => e < 0 /\ cl_idr c' = cl_idr c /\ cl_heap c' = cl_heap c /\
             cl_devices c' = cl_devices c /\ cl_wire c' = cl_wire c /\
             ((ops ≫= callbacks) = None -> e = - EINVAL /\ c' = c)
  | inr (id, d) =>
      (id ∉ cl_idr c) /\ cl_idr c' = {[id]} ∪ cl_idr c /\ cl_heap c' = cl_heap c + 1 /\
      cl_devices c' = (0, id) :: cl_devices c /\
      c2_access d = 0 /\ c2_flash_access d = 0 /\ c2_mutex d = false /\
      length (c2_name d) = NAME_LEN /\
      exists cb, (ops ≫= callbacks) = Some cb /\
        cl_wire c' = snd (access (C2PortOps:=cb) 0 (cl_wire c))
  end.
Proof.
  clear device_destroy. intros Hidr. unfold c2port_device_register.
  destruct ops as [ops|]; [|by destruct c]. cbn [mbind option_bind].
  destruct (callbacks ops) as [cb|] eqn:Hcb; [|by destruct c].
  destruct kmalloc_ok; cbn [negb]; [|by destruct c].
  cbn [cl_idr cl_heap cl_devices cl_flash_attr_size cl_wire]. pose proof (Hidr (cl_idr c)) as Hn.
  case_if; bool_to_prop; [split_and!; try done; cbn; lia|].
  case_if; bool_to_prop.
  - split_and!; try done; cbn; [set_solver|lia].
  - cbn. destruct (access 0 (cl_wire c)) as [[] w] eqn:Ha. split_and!; try done.
    + apply length_strncpy.
    + exists cb. by rewrite Ha.
Qed.

(** property: the device object is freed and its id released, but
    [device_create] is given the device number 0 and [device_destroy] the id:
    a device with a non-zero id is never removed from the class. *)
Theorem unregister_leaks_device name ops c id d c1 :
  (forall devt l, devt ∉ (fst <$> l) -> device_destroy devt l = l) ->
  c2port_device_register name ops c = (inr (id, d), c1) ->
  Forall (fun x => fst x = 0) (cl_devices c) -> id <> 0 ->
  let c2 := snd (c2port_device_unregister (Some (id, d)) c1) in
  cl_heap c2 = cl_heap c /\ (id ∉ cl_idr c2) /\ (0, id) ∈ cl_devices c2.
Proof.
  intros Hd Hr Hz Hid. unfold c2port_device_register in Hr.
  destruct ops as [ops|]; [|done]. destruct (callbacks ops) as [cb|]; [|done].
  destruct kmalloc_ok; [|done]. cbn in Hr.
  repeat (case_match; [done|]). destruct (access 0 (cl_wire c)) as [[] w].
  simplify_eq. cbn. split_and!; [lia|set_solver|].
  rewrite Hd; [set_solver|]. rewrite Forall_forall in Hz.
  intros (x & Hx & Hin)%list_elem_of_fmap.
  apply elem_of_cons in Hin as [->|Hin]; [done|]. apply Hz in Hin. congruence.
Qed.
End Register.

(** The name attribute of a registered device. *)
Lemma c_string_term l n :
  "000"%char ∉ l -> (0 < n)%nat ->
  c_string (l ++ replicate n "000"%char) = Some (String.string_of_list_ascii l).
Proof.
  intros Hl Hn. induction l as [|c l IH]; cbn.
  - destruct n; [lia|done].
  - destruct (Nat.eqb_spec (nat_of_ascii c) 0) as [E|_].
    + destruct Hl. rewrite <- (ascii_nat_embedding c), E. set_solver.
    + rewrite IH; [done|set_solver].
Qed.

Lemma c_string_full l : "000"%char ∉ l -> c_string l = None.
Proof.
  induction l as [|c l IH]; intros Hl; [done|]. cbn.
  destruct (Nat.eqb_spec (nat_of_ascii c) 0) as [E|_].
  - destruct Hl. rewrite <- (ascii_nat_embedding c), E. set_solver.
  - rewrite IH; [done|set_solver].
Qed.

(** property: the name attribute prints the registered name as long as it is
    shorter than the array; a name that fills the array is stored without
    terminator and reading the attribute runs past it. *)
Theorem show_name_spec n name f :
  "000"%char ∉ name ->
  c2port_show_name (mkDev (strncpy n name) 0 0 false f) =
    if decide (length name < n)%nat
    then let s := String.string_of_list_ascii name +:+ newline in Some (text_len s, s)
    else None.
Proof.
  intros Hn. unfold c2port_show_name, strncpy. cbn [c2_name].
  case_decide.
  - rewrite take_ge, c_string_term by (done || lia). done.
  - replace (n - length name)%nat with 0%nat by lia. cbn [replicate]. rewrite app_nil_r.
    rewrite c_string_full; [done|]. intros H'. apply Hn.
    eapply elem_of_submseteq; [exact H'|]. by apply sublist_submseteq, sublist_take.
Qed.

(** Board callbacks that leave the wire alone, on a fresh class, and an id
    allocator and a [device_destroy] that behave as documented. *)
Definition demo_ops : c2port_ops unit :=
  mkOps demo_geometry (Some (fun _ => ret tt)) (Some (fun _ => ret tt)) (Some (ret 0))
    (Some (fun _ => ret tt)) (Some (fun _ => ret tt)).
Definition demo_class : c2class unit := mkClass ∅ 0 [] 0 tt.
Definition demo_idr (s : gset Z) : Z := foldr (fun x m => Z.max (x + 1) m) 1 (elements s).
Definition demo_destroy (devt : Z) (l : list (Z * Z)) : list (Z * Z) :=
  match list_find (fun x => fst x = devt) l with
  | Some (i, _) => delete i l
  | None => l
  end.

Lemma demo_idr_fresh s : demo_idr s ∉ s.
Proof.
  unfold demo_idr. rewrite <- elem_of_elements.
  assert (forall l x, x ∈ l -> x < foldr (fun x m => Z.max (x + 1) m) 1 l) as H.
  { induction l as [|y l IH]; intros x Hx; [by apply elem_of_nil in Hx|].
    cbn. apply elem_of_cons in Hx as [->|Hx]; [|apply IH in Hx]; lia. }
  intros Hin. apply H in Hin. lia.
Qed.

Lemma demo_destroy_absent devt l : devt ∉ (fst <$> l) -> demo_destroy devt l = l.
Proof.
  intros Hn. unfold demo_destroy. destruct (list_find _ l) as [[i x]|] eqn:E; [|done].
  apply list_find_Some in E as (Hl & <- & _). destruct Hn.
  apply list_elem_of_fmap. exists x. split; [done|]. by eapply list_elem_of_lookup_2.
Qed.

Lemma register_spec_witness :
  let c' := snd (c2port_device_register 32 true demo_idr (fun _ => 0) demo_name (Some demo_ops)
                   demo_class) in
  cl_idr c' = {[1]} ∪ ∅ /\ cl_heap c' = 1.
Proof.
  pose proof (register_spec 32 true demo_idr (fun _ => 0) demo_name (Some demo_ops) demo_class
    demo_idr_fresh) as H.
  vm_compute in H |- *. split; [exact (proj1 (proj2 H))|exact (proj1 (proj2 (proj2 H)))].
Defined.

Lemma unregister_leaks_device_witness :
  exists d c1,
    c2port_device_register 32 true demo_idr (fun _ => 0) demo_name (Some demo_ops) demo_class =
      (inr (1, d), c1) /\
    (0, 1) ∈ cl_devices (snd (c2port_device_unregister demo_destroy (Some (1, d)) c1)).
Proof.
  do 2 eexists. split; [reflexivity|].
  refine (proj2 (proj2 (unregister_leaks_device 32 true demo_idr (fun _ => 0) demo_destroy
    demo_name (Some demo_ops) demo_class 1 _ _ demo_destroy_absent _ _ _))).
  - reflexivity.
  - constructor.
  - discriminate.
Defined.

Lemma show_name_spec_witness :
  c2port_show_name (mkDev (strncpy 32 ["u"%char; "c"%char]) 0 0 false demo_geometry) =
    Some (3, "uc" +:+ newline).
Proof.
  rewrite (show_name_spec 32 ["u"%char; "c"%char] demo_geometry); [reflexivity|].
  intros H. repeat (apply elem_of_cons in H as [H|H]; [discriminate H|]).
  by apply elem_of_nil in H.
Defined.

(** ** The module's class *)
(** [c2port_class]: NULL, an error pointer or a class, with whether its
    attribute groups are set. *)
Inductive class_pointer := NoClass | ClassErr (e : Z) | ClassAt (groups : bool) | Destroyed.

(** [created] is the error of [class_create], 0 for none. *)
Definition c2port_init (created : Z) : FM class_pointer Z :=
  if created <? 0 then fmodify (fun _ => ClassErr created) ~;; fret created
  else fmodify (fun _ => ClassAt true) ~;; fret 0.
Definition c2port_exit : FM class_pointer unit :=
  p <~ fget ;; match p with ClassAt _ => fmodify (fun _ => Destroyed) | _ => fault end.

(** property: loading succeeds exactly if the class could be created, with the
    attributes of every device set, and then unloading destroys it; the
    error pointer a failed load leaves must not be unloaded. *)
Theorem class_lifetime created :
  created <= 0 ->
  exists p, c2port_init created NoClass = Some (created, p) /\
    (created = 0 <-> p = ClassAt true) /\
    (fbind (c2port_init created) (fun _ => c2port_exit) NoClass = Some (tt, Destroyed) <-> created = 0).
Proof.
  intros H. unfold c2port_init. destruct (Z.ltb_spec created 0) as [Hn|Hn].
  - eexists. split; [done|]. split; split; intros; first [lia|done].
  - assert (created = 0) as -> by lia. by eexists.
Qed.
Lemma class_lifetime_witness :
  exists p, c2port_init (- ENOMEM) NoClass = Some (- ENOMEM, p) /\
    (- ENOMEM = 0 <-> p = ClassAt true) /\
    (fbind (c2port_init (- ENOMEM)) (fun _ => c2port_exit) NoClass = Some (tt, Destroyed) <-> - ENOMEM = 0).
Proof. apply (class_lifetime (- ENOMEM)). by vm_compute. Defined.
