(* ===== verification/C2Boards.v ===== *)
(** * C2 port: the board drivers

    The callbacks of c2port-duramar2150.c (two registers behind port I/O) and
    of c2port-client.c (two GPIO lines), as instances of [C2PortOps].
    [BoardLaws] is what the wire layer expects of a board; both boards are
    instances, and an address register write is shown correct on every board
    that satisfies the laws.  The module initialisation of both drivers is at
    the end. *)

From Stdlib Require Import ZArith Ascii.
From stdpp Require Import base list strings gmap.
From S2P Require Import Prelude KernelText C2Wire C2Proto C2Flash C2Sysfs C2Device.

(** ** c2port-duramar2150.c *)
Module Duramar.
Definition DATA_PORT : Z := 0x325.
Definition DIR_PORT : Z := 0x326.
Definition C2D : Z := Z.shiftl 1 0.
Definition C2CK : Z := Z.shiftl 1 1.

(** The two 8-bit registers: lines whose direction bit is 1 are outputs and
    read back the latch, the others read the level [ext] outside. *)
Record hw := mkHw { latch : Z; dirs : Z; ext : nat -> Z; hpos : nat }.

Definition inb (port : Z) : M hw Z := fun h =>
  if port =? DATA_PORT then
    (u8 (Z.lor (Z.land (latch h) (dirs h)) (Z.land (ext h (hpos h)) (Z.lnot (dirs h)))),
     mkHw (latch h) (dirs h) (ext h) (S (hpos h)))
  else if port =? DIR_PORT then (dirs h, h)
  else (0xff, h).

Definition outb (v port : Z) : M hw unit := fun h =>
  if port =? DATA_PORT then (tt, mkHw (u8 v) (dirs h) (ext h) (hpos h))
  else if port =? DIR_PORT then (tt, mkHw (latch h) (u8 v) (ext h) (hpos h))
  else (tt, h).

(** The callbacks hold [update_lock] from the first to the last statement. *)
Definition duramar2150_c2port_access (status : Z) : M hw unit :=
  v <- inb DIR_PORT ;;
  if truthy status then outb (Z.lor v (Z.lor C2D C2CK)) DIR_PORT
  else outb (Z.land v (Z.lnot (Z.lor C2D C2CK))) DIR_PORT.

Definition duramar2150_c2port_c2d_dir (dir : Z) : M hw unit :=
  v <- inb DIR_PORT ;;
  if truthy dir then outb (Z.land v (Z.lnot C2D)) DIR_PORT
  else outb (Z.lor v C2D) DIR_PORT.

Definition duramar2150_c2port_c2d_get : M hw Z :=
  v <- inb DATA_PORT ;; ret (Z.land v C2D).

Definition duramar2150_c2port_c2d_set (status : Z) : M hw unit :=
  v <- inb DATA_PORT ;;
  if truthy status then outb (Z.lor v C2D) DATA_PORT
  else outb (Z.land v (Z.lnot C2D)) DATA_PORT.

Definition duramar2150_c2port_c2ck_set (status : Z) : M hw unit :=
  v <- inb DATA_PORT ;;
  if truthy status then outb (Z.lor v C2CK) DATA_PORT
  else outb (Z.land v (Z.lnot C2CK)) DATA_PORT.

Definition duramar2150_c2port_ops : c2port_ops hw := {|
  o_geometry := mkGeometry 512 30;
  o_access := Some duramar2150_c2port_access;
  o_c2d_dir := Some duramar2150_c2port_c2d_dir;
  o_c2d_get := Some duramar2150_c2port_c2d_get;
  o_c2d_set := Some duramar2150_c2port_c2d_set;
  o_c2ck_set := Some duramar2150_c2port_c2ck_set;
|}.

#[global] Instance duramar_ops : C2PortOps hw := {|
  access := duramar2150_c2port_access;
  c2d_dir := duramar2150_c2port_c2d_dir;
  c2d_get := duramar2150_c2port_c2d_get;
  c2d_set := duramar2150_c2port_c2d_set;
  c2ck_set := duramar2150_c2port_c2ck_set;
|}.
End Duramar.

(** ** c2port-client.c *)
Module Client.
Definition GPIO_TO_PIN (gpio : Z) : Z := 933 + gpio.
Definition C2D_IO : Z := GPIO_TO_PIN 20.
Definition C2CK_IO : Z := GPIO_TO_PIN 21.

(** A GPIO controller: direction and output value per pin, and the levels
    outside. *)
Record gpios := mkGpios {
  g_out : gmap Z bool;
  g_val : gmap Z bool;
  g_ext : nat -> Z;
  g_pos : nat;
}.

Definition gpio_direction_output (pin v : Z) : M gpios unit :=
  modify (fun g => mkGpios (<[pin := true]> (g_out g)) (<[pin := truthy v]> (g_val g))
                     (g_ext g) (g_pos g)).
Definition gpio_direction_input (pin : Z) : M gpios unit :=
  modify (fun g => mkGpios (<[pin := false]> (g_out g)) (g_val g) (g_ext g) (g_pos g)).
Definition gpio_set_value (pin v : Z) : M gpios unit :=
  modify (fun g => mkGpios (g_out g) (<[pin := truthy v]> (g_val g)) (g_ext g) (g_pos g)).
Definition gpio_get_value (pin : Z) : M gpios Z := fun g =>
  (if default false (g_out g !! pin) then Z.b2z (default false (g_val g !! pin))
   else g_ext g (g_pos g),
   mkGpios (g_out g) (g_val g) (g_ext g) (S (g_pos g))).

Definition c2port_access (status : Z) : M gpios unit :=
  if truthy status
  then (gpio_direction_output C2D_IO 1 ;; gpio_direction_output C2CK_IO 1)
  else (gpio_direction_input C2D_IO ;; gpio_direction_input C2CK_IO).

Definition c2port_c2d_dir (dir : Z) : M gpios unit :=
  if truthy dir then gpio_direction_input C2D_IO else gpio_direction_output C2D_IO 1.

Definition c2port_c2d_get : M gpios Z := gpio_get_value C2D_IO.

Definition c2port_c2d_set (status : Z) : M gpios unit :=
  if truthy status then gpio_set_value C2D_IO 1 else gpio_set_value C2D_IO 0.

Definition c2port_c2ck_set (status : Z) : M gpios unit :=
  if truthy status then gpio_set_value C2CK_IO 1 else gpio_set_value C2CK_IO 0.

Definition efm_c2port_ops : c2port_ops gpios := {|
  o_geometry := mkGeometry 512 16;
  o_access := Some c2port_access;
  o_c2d_dir := Some c2port_c2d_dir;
  o_c2d_get := Some c2port_c2d_get;
  o_c2d_set := Some c2port_c2d_set;
  o_c2ck_set := Some c2port_c2ck_set;
|}.

#[global] Instance client_ops : C2PortOps gpios := {|
  access := c2port_access;
  c2d_dir := c2port_c2d_dir;
  c2d_get := c2port_c2d_get;
  c2d_set := c2port_c2d_set;
  c2ck_set := c2port_c2ck_set;
|}.
End Client.

(** ** What the wire layer expects of a board

    [view]: the pins of a board state. *)
Class BoardLaws (W : Type) `{!C2PortOps W} (view : W -> pins) := {
  law_access : forall s w, let q := view (snd (access s w)) in
    p_owned q = truthy s /\ p_dir q = (if truthy s then 0 else 1) /\
    (p_ck (view w) = 1 -> p_ck q = 1);
  law_dir : forall d w, let q := view (snd (c2d_dir d w)) in
    p_owned q = p_owned (view w) /\ p_dir q = (if truthy d then 1 else 0) /\
    p_ck q = p_ck (view w);
  law_set : forall v w, p_owned (view w) = true -> p_dir (view w) = 0 ->
    view (snd (c2d_set v w)) = mkPins true 0 (Z.b2z (truthy v)) (p_ck (view w));
  law_ck : forall v w, let q := view (snd (c2ck_set v w)) in
    p_owned q = p_owned (view w) /\ p_dir q = p_dir (view w) /\ p_ck q = Z.b2z (truthy v) /\
    (p_dir (view w) = 0 -> p_level q = p_level (view w));
  law_get : forall w, view (snd (c2d_get w)) = view w;
}.

Definition duramar_view (h : Duramar.hw) : pins :=
  mkPins (Z.testbit (Duramar.dirs h) 1) (Z.b2z (negb (Z.testbit (Duramar.dirs h) 0)))
    (Z.b2z (Z.testbit (Duramar.latch h) 0)) (Z.b2z (Z.testbit (Duramar.latch h) 1)).

Definition client_view (g : Client.gpios) : pins :=
  let out p := default false (Client.g_out g !! p) in
  let val p := default false (Client.g_val g !! p) in
  mkPins (out Client.C2CK_IO) (Z.b2z (negb (out Client.C2D_IO)))
    (Z.b2z (val Client.C2D_IO)) (Z.b2z (val Client.C2CK_IO)).

Lemma testbit_u8 x i : 0 <= i < 8 -> Z.testbit (u8 x) i = Z.testbit x i.
Proof. intros. apply Z.mod_pow2_bits_low. lia. Qed.

#[local] Arguments Z.testbit : simpl never.

Lemma line_bits :
  Z.testbit Duramar.C2D 0 = true /\ Z.testbit Duramar.C2D 1 = false /\
  Z.testbit Duramar.C2CK 0 = false /\ Z.testbit Duramar.C2CK 1 = true.
Proof. done. Qed.

(** Bits of the expressions the callbacks write. *)
Ltac bits :=
  let H1 := fresh in let H2 := fresh in let H3 := fresh in let H4 := fresh in
  destruct line_bits as (H1 & H2 & H3 & H4);
  repeat first [rewrite testbit_u8 by lia | rewrite Z.lor_spec | rewrite Z.land_spec
               | rewrite Z.lnot_spec by lia];
  rewrite ?H1, ?H2, ?H3, ?H4; clear H1 H2 H3 H4;
  cbn [negb]; rewrite ?orb_true_r, ?orb_false_r, ?andb_true_r, ?andb_false_r.

#[export] Instance duramar_laws : BoardLaws Duramar.hw duramar_view.
Proof.
  constructor; cbn [access c2d_dir c2d_set c2ck_set c2d_get Duramar.duramar_ops]; cbv zeta.
  - intros s h. unfold Duramar.duramar2150_c2port_access, bind. cbn.
    destruct (truthy s); cbn; unfold duramar_view; cbn; by bits.
  - intros d h. unfold Duramar.duramar2150_c2port_c2d_dir, bind. cbn.
    destruct (truthy d); cbn; unfold duramar_view; cbn; by bits.
  - intros v h Ho Hd. unfold Duramar.duramar2150_c2port_c2d_set, bind. cbn.
    unfold duramar_view in *. cbn in Ho, Hd.
    destruct (Z.testbit (Duramar.dirs h) 0) eqn:E0; [|done].
    destruct (truthy v); cbn; bits; rewrite Ho, ?E0; cbn;
      by rewrite andb_true_r, andb_false_r, orb_false_r.
  - intros v h. unfold Duramar.duramar2150_c2port_c2ck_set, bind. cbn.
    destruct (truthy v); cbn; unfold duramar_view; cbn; bits; split_and!; try done;
      destruct (Z.testbit (Duramar.dirs h) 0) eqn:E0; cbn; try done;
      by rewrite andb_true_r, andb_false_r, orb_false_r.
  - done.
Qed.

#[export] Instance client_laws : BoardLaws Client.gpios client_view.
Proof.
  assert (Client.C2D_IO <> Client.C2CK_IO) by done.
  constructor; cbn [access c2d_dir c2d_set c2ck_set c2d_get Client.client_ops]; cbv zeta.
  - intros s g. unfold Client.c2port_access. destruct (truthy s); cbn; unfold client_view; cbn;
      rewrite ?lookup_insert_eq, ?lookup_insert_ne, ?lookup_insert_eq by done; done.
  - intros d g. unfold Client.c2port_c2d_dir. destruct (truthy d); cbn; unfold client_view; cbn;
      rewrite ?lookup_insert_eq, ?lookup_insert_ne by done; done.
  - intros v g Ho Hd. unfold Client.c2port_c2d_set, client_view in *. cbn in *.
    destruct (truthy v); cbn; rewrite ?lookup_insert_eq, ?lookup_insert_ne by done;
      cbn; by rewrite Ho, Hd.
  - intros v g. unfold Client.c2port_c2ck_set. destruct (truthy v); cbn; unfold client_view; cbn;
      rewrite ?lookup_insert_eq, ?lookup_insert_ne by done; done.
  - done.
Qed.

(** ** A target listening to a board

    [rec_ops] adds to a board the symbols a target reads at the rising clock
    edges of its pins. *)
Section Listener.
Context {W : Type} {ops : C2PortOps W} {view : W -> pins} {laws : BoardLaws W view}.
Abbreviation heard := (W * list sym)%type.

Definition quietly (m : M W unit) : M heard unit := fun '(w, log) => (tt, (snd (m w), log)).

#[local] Instance rec_ops : C2PortOps heard := {|
  access s := quietly (access s);
  c2d_dir d := quietly (c2d_dir d);
  c2d_get := fun '(w, log) => let '(v, w') := c2d_get w in (v, (w', log));
  c2d_set v := quietly (c2d_set v);
  c2ck_set v := fun '(w, log) =>
    let w' := snd (c2ck_set v w) in
    (tt, (w', if truthy v && (p_ck (view w) =? 0)
              then log ++ [if p_dir (view w') =? 0
                           then Driven (truthy (p_level (view w'))) else Released]
              else log));
|}.

#[local] Instance rec_kernel : Kernel heard := {|
  local_irq_disable := ret tt;
  local_irq_enable := ret tt;
  udelay _ := ret tt;
  mdelay _ := ret tt;
|}.

(** [m] run on an owned board with direction [d] is heard as [ss] and leaves
    the direction [d'] and the clock high. *)
Definition hears (m : M heard unit) (d : Z) (ss : list sym) (d' : Z) : Prop :=
  forall w log, p_owned (view w) = true -> p_dir (view w) = d ->
    exists w', m (w, log) = (tt, (w', log ++ ss)) /\
      p_owned (view w') = true /\ p_dir (view w') = d' /\ p_ck (view w') = 1.

Lemma hears_bind m1 m2 d1 s1 d2 s2 d3 :
  hears m1 d1 s1 d2 -> hears m2 d2 s2 d3 -> hears (m1 ;; m2) d1 (s1 ++ s2) d3.
Proof.
  intros H1 H2 w log Ho Hd. destruct (H1 w log Ho Hd) as (w1 & E1 & Ho1 & Hd1 & _).
  destruct (H2 w1 (log ++ s1) Ho1 Hd1) as (w2 & E2 & ? & ? & ?).
  exists w2. unfold bind. rewrite E1, E2, app_assoc. done.
Qed.

(** A strobe is one symbol, the level of the line being driven or not. *)
Lemma strobe_heard w log :
  p_owned (view w) = true ->
  exists w', c2port_strobe_ck (w, log) =
      (tt, (w', log ++ [if p_dir (view w) =? 0
                        then Driven (truthy (p_level (view w))) else Released])) /\
    p_owned (view w') = true /\ p_dir (view w') = p_dir (view w) /\ p_ck (view w') = 1.
Proof.
  intros Ho. unfold c2port_strobe_ck, bind. cbn.
  destruct (law_ck 0 w) as (O1 & D1 & C1 & L1). set (w1 := snd (c2ck_set 0 w)) in *.
  destruct (law_ck 1 w1) as (O2 & D2 & C2 & L2). set (w2 := snd (c2ck_set 1 w1)) in *.
  exists w2. rewrite C1, C2, D2, D1, O2, O1. cbn. split; [|done].
  destruct (Z.eqb_spec (p_dir (view w)) 0) as [E|E]; [|done].
  rewrite L2, L1 by congruence. done.
Qed.

Lemma hears_strobe_released : hears c2port_strobe_ck 1 [Released] 1.
Proof.
  intros w log Ho Hd. destruct (strobe_heard w log Ho) as (w' & E & ? & Hd' & ?).
  rewrite Hd in *. by exists w'.
Qed.

Lemma hears_bit v k d s :
  hears k 0 s d -> hears (c2d_set v ;; c2port_strobe_ck ;; k) 0 (Driven (truthy v) :: s) d.
Proof.
  intros Hk w log Ho Hd. pose proof (law_set v w Ho Hd) as Hv. unfold bind at 1. cbn [c2d_set rec_ops quietly].
  set (w1 := snd (c2d_set v w)) in *.
  destruct (strobe_heard w1 log) as (w2 & E & Ho2 & Hd2 & _); [by rewrite Hv|].
  unfold bind at 1. rewrite E, Hv. cbn [p_dir p_level Z.eqb].
  rewrite Hv in Hd2. cbn in Hd2.
  replace (truthy (Z.b2z (truthy v))) with (truthy v) by (by destruct (truthy v)).
  destruct (Hk w2 (log ++ [Driven (truthy v)]) Ho2 Hd2) as (w3 & E3 & ?).
  exists w3. rewrite E3, <- app_assoc. done.
Qed.

(** Changing the direction is silent. *)
Lemma hears_dir v k d s d' :
  hears k (if truthy v then 1 else 0) s d' -> hears (c2d_dir v ;; k) d s d'.
Proof.
  intros Hk w log Ho Hd. destruct (law_dir v w) as (H1 & H2 & _).
  apply (Hk (snd (c2d_dir v w)) log); [by rewrite H1|exact H2].
Qed.

Lemma hears_shift_out n x k d s :
  hears k 0 s d -> hears (c2port_shift_out n x ;; k) 0 ((Driven <$> bits_of n x) ++ s) d.
Proof.
  intros Hk. revert x. induction n as [|n IH]; intros x; [exact Hk|].
  intros w log Ho Hd. cbn [c2port_shift_out bits_of fmap list_fmap app].
  specialize (hears_bit (Z.land x 1) _ _ _ (IH (Z.shiftr x 1)) w log Ho Hd).
  rewrite land1. replace (truthy (Z.b2z (Z.odd x))) with (Z.odd x) by (by destruct (Z.odd x)).
  intros (w' & E & ?). exists w'. split; [|done]. rewrite <- E.
  rewrite !bind_assoc. rewrite !(bind_run (c2d_set _)). by rewrite !bind_assoc.
Qed.

(** property: on every board that satisfies the laws - both boards of the
    repository do - an address register write is heard by the target as one
    Address Write frame with the address, and the board is left owned, with
    the data line released and the clock high. *)
Theorem write_ar_on_board addr w :
  p_owned (view w) = true -> p_dir (view w) = 1 ->
  exists w' ss,
    c2port_write_ar addr (w, []) = (tt, (w', ss)) /\
    decode_frame ss = Some (AddressWrite (u8 addr)) /\
    p_owned (view w') = true /\ pins_idle (view w').
Proof.
  intros Ho Hd.
  assert (hears (c2port_write_ar addr) 1
    ([Released] ++ Driven true :: Driven true :: (Driven <$> bits_of 8 addr) ++ [Released]) 1) as H.
  { apply hears_bind with 1; [apply hears_strobe_released|].
    apply hears_dir, (hears_bit 1), (hears_bit 1), hears_shift_out, hears_dir.
    apply hears_strobe_released. }
  destruct (H w [] Ho Hd) as (w' & E & Ho' & Hd' & Hc'). exists w'. eexists. split; [exact E|].
  split; [|done]. cbn [app decode_frame]. by rewrite driven_bits_8, of_bits_bits_of.
Qed.
End Listener.

(** ** Module initialisation *)

(** The class, whether the region or the GPIOs are held, and the static
    device pointer of the module ([Some (inl e)]: an ERR_PTR). *)
Record mod_state (W : Type) := mkMod {
  m_class : c2class W;
  m_held : bool;
  m_dev : option (Z + Z * c2port_device);
}.
Arguments mkMod {W}. Arguments m_class {W}. Arguments m_held {W}. Arguments m_dev {W}.

Definition uc : list ascii := ["u"%char; "c"%char].

Section Init.
Variable NAME_LEN : nat.
Variable kmalloc_ok : bool.
Variable idr_alloc : gset Z -> Z.
Variable device_create : Z -> Z.
Variable device_destroy : Z -> list (Z * Z) -> list (Z * Z).

Definition register_uc {W} (ops : c2port_ops W) : M (c2class W) (Z + Z * c2port_device) :=
  c2port_device_register NAME_LEN kmalloc_ok idr_alloc device_create uc (Some ops).

(** [region]: whether [request_region] gets the ports. *)
Definition duramar2150_c2port_init (region : bool) : M (mod_state Duramar.hw) Z := fun s =>
  if negb region then (- EBUSY, s)
  else
    let '(d, c) := register_uc Duramar.duramar2150_c2port_ops (m_class s) in
    match d with
    | inl e => (e, mkMod c false (Some d))
    | inr _ => (0, mkMod c true (Some d))
    end.

(** The tests of the source are against NULL; an ERR_PTR is not NULL. *)
Definition client_c2port_init : M (mod_state Client.gpios) Z := fun s =>
  let '(d, c) := register_uc Client.efm_c2port_ops (m_class s) in
  (0, mkMod c true (Some d)).

(** [exit acc s]: the access callback [acc] with 0, then unregister and
    release; [None] when the pointer is not a device. *)
Definition c2port_module_exit {W} (acc : Z -> M W unit) (s : mod_state W) : option (mod_state W) :=
  let c := m_class s in
  let w := snd (acc 0 (cl_wire c)) in
  let c := mkClass (cl_idr c) (cl_heap c) (cl_devices c) (cl_flash_attr_size c) w in
  match m_dev s with
  | Some (inr dev) =>
      let c := snd (c2port_device_unregister device_destroy (Some dev) c) in
      Some (mkMod c false (m_dev s))
  | Some (inl _) => None
  | None => Some (mkMod c false None)
  end.

Definition duramar2150_c2port_exit := c2port_module_exit Duramar.duramar2150_c2port_access.
Definition client_c2port_exit := c2port_module_exit Client.c2port_access.

(** property: initialising the Duramar driver either returns 0 with the region
    held and a device, or a negative error with the region not held; the
    client driver compares the result of the registration with NULL, which
    an ERR_PTR is not: when the registration fails its initialisation still
    returns 0, keeps the GPIOs, and removing the module then dereferences the
    ERR_PTR. *)
Theorem board_init_errors region s sc e c :
  (let '(r, s') := duramar2150_c2port_init region s in
   m_held s = false ->
   (r = 0 /\ m_held s' = true /\ (exists d, m_dev s' = Some (inr d))) \/
   (r < 0 /\ m_held s' = false)) /\
  (register_uc Client.efm_c2port_ops (m_class sc) = (inl e, c) ->
   let '(r, s') := client_c2port_init sc in
   r = 0 /\ m_held s' = true /\ client_c2port_exit s' = None).
Proof.
  split.
  - unfold duramar2150_c2port_init. destruct region; [|by right]. cbn [negb].
    destruct (register_uc _ (m_class s)) as [[e'|d] c'] eqn:E; intros _; [right|left; eauto].
    split; [|done]. unfold register_uc, c2port_device_register in E.
    cbn [callbacks Duramar.duramar2150_c2port_ops o_access o_c2d_dir o_c2ck_set o_c2d_get o_c2d_set] in E.
    destruct kmalloc_ok; cbn [negb] in E; [|by injection E as <- _].
    cbv zeta in E. cbn [cl_idr] in E. repeat case_match; simplify_eq; bool_to_prop; lia.
  - intros E. unfold client_c2port_init. rewrite E. done.
Qed.
End Init.

(** The boards, switched on and idle. *)
Definition demo_hw : Duramar.hw := Duramar.mkHw 2 2 (fun _ => 0) 0.
Definition demo_gpios : Client.gpios :=
  Client.mkGpios {[Client.C2CK_IO := true]} {[Client.C2CK_IO := true]} (fun _ => 0) 0.

Lemma write_ar_on_board_witness :
  (exists w' ss, c2port_write_ar (W := Duramar.hw * list sym)
      (C2PortOps0 := rec_ops (view := duramar_view)) (Kernel0 := rec_kernel) 0xB4 (demo_hw, []) =
      (tt, (w', ss)) /\ decode_frame ss = Some (AddressWrite 0xB4)) /\
  (exists w' ss, c2port_write_ar (W := Client.gpios * list sym)
      (C2PortOps0 := rec_ops (view := client_view)) (Kernel0 := rec_kernel) 0xB4 (demo_gpios, []) =
      (tt, (w', ss)) /\ decode_frame ss = Some (AddressWrite 0xB4)).
Proof.
  split.
  - destruct (write_ar_on_board (view := duramar_view) 0xB4 demo_hw) as (w' & ss & H1 & H2 & _);
      [reflexivity..|]. exists w', ss. split; [exact H1|exact H2].
  - destruct (write_ar_on_board (view := client_view) 0xB4 demo_gpios) as (w' & ss & H1 & H2 & _);
      [reflexivity..|]. exists w', ss. split; [exact H1|exact H2].
Defined.

(** A system without memory. *)
Lemma board_init_errors_witness :
  fst (client_c2port_init 32 false (fun _ => 0) (fun _ => 0)
         (mkMod (mkClass ∅ 0 [] 0 demo_gpios) false None)) = 0 /\
  fst (duramar2150_c2port_init 32 false (fun _ => 0) (fun _ => 0) true
         (mkMod (mkClass ∅ 0 [] 0 demo_hw) false None)) = - ENOMEM.
Proof.
  destruct (board_init_errors 32 false (fun _ => 0) (fun _ => 0) (fun _ l => l) true
    (mkMod (mkClass ∅ 0 [] 0 demo_hw) false None)
    (mkMod (mkClass ∅ 0 [] 0 demo_gpios) false None) (- ENOMEM) (mkClass ∅ 0 [] 0 demo_gpios))
    as [_ H].
  split; [exact (proj1 (H eq_refl))|reflexivity].
Defined.
