(* ===== verification/UsbString.v ===== *)
(** * USB gadget: string descriptors (test_gadget/usbstring.c)

    [utf8_to_utf16le] on the bytes of a C string, and [usb_gadget_get_string].
    Memory is explicit: a read past the end of the string's memory or a write
    outside the buffer is [None].  The reference definition is a UTF-8 encoder
    for the code points of the basic multilingual plane. *)

From Stdlib Require Import ZArith.
From stdpp Require Import base list.
From S2P Require Import Prelude.

Definition USB_DT_STRING : Z := 3.

(** ** The code *)

(** One character: [c] is the byte already fetched (not NUL), [s] the bytes
    after it.  [Some (Some u, s')]: the code unit and the rest; [Some (None,
    _)]: [goto fail]; [None]: read outside the memory. *)
Definition utf8_char (c : Z) (s : list Z) : option (option Z * list Z) :=
  if negb (Z.land c 0x80 =? 0) then
    if Z.land c 0xe0 =? 0xc0 then
      let uchar := u16 (Z.shiftl (Z.land c 0x1f) 6) in
      match s with
      | [] => None
      | c :: s =>
          if negb (Z.land c 0xc0 =? 0x80) then Some (None, s)
          else Some (Some (u16 (Z.lor uchar (Z.land c 0x3f))), s)
      end
    else if Z.land c 0xf0 =? 0xe0 then
      let uchar := u16 (Z.shiftl (Z.land c 0x0f) 12) in
      match s with
      | [] => None
      | c :: s =>
          if negb (Z.land c 0xc0 =? 0x80) then Some (None, s)
          else
            let uchar := u16 (Z.lor uchar (Z.shiftl (Z.land c 0x3f) 6)) in
            match s with
            | [] => None
            | c :: s =>
                if negb (Z.land c 0xc0 =? 0x80) then Some (None, s)
                else
                  let uchar := u16 (Z.lor uchar (Z.land c 0x3f)) in
                  if (0xd800 <=? uchar) && (uchar <=? 0xdfff) then Some (None, s)
                  else Some (Some uchar, s)
            end
      end
    else Some (None, s)
  else Some (Some c, s).

(** The loop, [len] characters left: the return value ([-1] on failure,
    otherwise [count] more than given) and the code units written. *)
Fixpoint utf8_to_utf16le (s : list Z) (len : nat) (count : Z) : option (Z * list Z) :=
  match len with
  | O => Some (count, [])
  | S len =>
      match s with
      | [] => None
      | c :: s =>
          if c =? 0 then Some (count, [])
          else
            match utf8_char c s with
            | None => None
            | Some (None, _) => Some (-1, [])
            | Some (Some u, s) =>
                match utf8_to_utf16le s len (count + 1) with
                | None => None
                | Some (r, us) => Some (r, u :: us)
                end
            end
      end
  end.

(** [strlen]: [None] without terminator. *)
Fixpoint strlen (s : list Z) : option nat :=
  match s with
  | [] => None
  | c :: s => if c =? 0 then Some 0%nat else S <$> strlen s
  end.

(** [struct usb_gadget_strings]; [strings] is the table up to its NULL
    entry, [None] a NULL table. *)
Record usb_gadget_strings := mkStrings {
  language : Z;
  strings : option (list (Z * list Z));
}.

(** The [for] loop over the table. *)
Fixpoint find_string (id : Z) (l : list (Z * list Z)) : option (list Z) :=
  match l with
  | [] => None
  | (i, s) :: l => if i =? id then Some s else find_string id l
  end.

(** The return value and the buffer. *)
Definition usb_gadget_get_string (table : usb_gadget_strings) (id : Z) (buf : list Z) :
    option (Z * list Z) :=
  if id =? 0 then
    buf' ← buf_store buf 0 [4; USB_DT_STRING; u8 (language table); u8 (Z.shiftr (language table) 8)];
    Some (4, buf')
  else
    match strings table ≫= find_string id with
    | None => Some (- EINVAL, buf)
    | Some s =>
        n ← strlen s;
        let len := Nat.min 126 n in
        buf ← buf_store buf 2 (replicate (2 * len) 0);
        r ← utf8_to_utf16le s len 0;
        let '(ret, us) := r in
        buf ← buf_store buf 2 (us ≫= le16);
        if ret <? 0 then Some (- EINVAL, buf)
        else
          buf ← buf_store buf 0 [u8 ((ret + 1) * 2); USB_DT_STRING];
          Some (u8 ((ret + 1) * 2), buf)
    end.

(** ** The encoder *)

(** Code points of the basic multilingual plane, without NUL and surrogates. *)
Definition bmp (cp : Z) : Prop := 0 < cp < 0x10000 /\ ~ (0xd800 <= cp <= 0xdfff).

Definition utf8_enc (cp : Z) : list Z :=
  if cp <? 0x80 then [cp]
  else if cp <? 0x800 then [0xc0 + cp / 64; 0x80 + cp mod 64]
  else [0xe0 + cp / 4096; 0x80 + cp / 64 mod 64; 0x80 + cp mod 64].

Definition utf8_text (cps : list Z) : list Z := cps ≫= utf8_enc.

(** ** Lemmas *)

(** The byte classes the decoder tests, by evaluation. *)
Definition is_ascii (c : Z) : bool := Z.land c 0x80 =? 0.
Definition is_cont (x : Z) : bool :=
  (Z.land (0x80 + x) 0xc0 =? 0x80) && (Z.land (0x80 + x) 0x3f =? x).
Definition is_lead2 (x : Z) : bool :=
  negb (Z.land (0xc0 + x) 0x80 =? 0) && (Z.land (0xc0 + x) 0xe0 =? 0xc0) &&
  (Z.land (0xc0 + x) 0x1f =? x).
Definition is_lead3 (x : Z) : bool :=
  negb (Z.land (0xe0 + x) 0x80 =? 0) && negb (Z.land (0xe0 + x) 0xe0 =? 0xc0) &&
  (Z.land (0xe0 + x) 0xf0 =? 0xe0) && (Z.land (0xe0 + x) 0x0f =? x).

Lemma ascii_byte c : 0 <= c < 0x80 -> is_ascii c = true.
Proof. intros. by apply (forall_below is_ascii 128). Qed.
Lemma cont_byte x : 0 <= x < 64 -> is_cont x = true.
Proof. intros. by apply (forall_below is_cont 64). Qed.
Lemma lead2_byte x : 0 <= x < 32 -> is_lead2 x = true.
Proof. intros. by apply (forall_below is_lead2 32). Qed.
Lemma lead3_byte x : 0 <= x < 16 -> is_lead3 x = true.
Proof. intros. by apply (forall_below is_lead3 16). Qed.

(** Turn the boolean facts about a byte into rewrites. *)
Ltac byte_facts H :=
  unfold is_ascii, is_cont, is_lead2, is_lead3 in H;
  repeat match type of H with
  | (_ && _) = true => let H' := fresh "Hb" in apply andb_prop in H as [H H']
  end.

Lemma mod64 x : 0 <= x mod 64 < 64.
Proof. apply Z.mod_pos_bound. lia. Qed.
Lemma div_range x n d : 0 <= x < n * d -> 0 < d -> 0 <= x / d < n.
Proof. intros. split; [apply Z.div_pos|apply Z.div_lt_upper_bound]; lia. Qed.

(** The two joins of bit fields of the decoder. *)
Lemma join2 x y : 0 <= x < 32 -> 0 <= y < 64 ->
  u16 (Z.lor (u16 (Z.shiftl x 6)) y) = 64 * x + y.
Proof.
  intros. rewrite (u16_small (Z.shiftl x 6)) by (rewrite Z.shiftl_mul_pow2; lia).
  rewrite lor_shiftl by lia. rewrite u16_small; lia.
Qed.

Lemma join3 x y z : 0 <= x < 16 -> 0 <= y < 64 -> 0 <= z < 64 ->
  u16 (Z.lor (u16 (Z.lor (u16 (Z.shiftl x 12)) (Z.shiftl y 6))) z) = 4096 * x + 64 * y + z.
Proof.
  intros. rewrite (u16_small (Z.shiftl x 12)) by (rewrite Z.shiftl_mul_pow2; lia).
  rewrite (Z.shiftl_mul_pow2 y) by lia. rewrite lor_shiftl by lia.
  replace (x * 2 ^ 12 + y * 2 ^ 6) with (Z.shiftl (64 * x + y) 6)
    by (rewrite Z.shiftl_mul_pow2; lia).
  rewrite (u16_small (Z.shiftl _ _)) by (rewrite Z.shiftl_mul_pow2; lia).
  rewrite lor_shiftl by lia. rewrite u16_small; lia.
Qed.

Lemma split3 cp : cp = 4096 * (cp / 4096) + 64 * (cp / 64 mod 64) + cp mod 64.
Proof.
  pose proof (Z.div_mod cp 64 ltac:(lia)). pose proof (Z.div_mod (cp / 64) 64 ltac:(lia)) as H1.
  rewrite Z.div_div in H1 by lia. change (64 * 64) with 4096 in H1. lia.
Qed.

(** Decoding one encoded character gives it back and consumes its bytes. *)
Lemma utf8_char_enc cp rest :
  bmp cp -> exists c s,
    utf8_enc cp ++ rest = c :: s /\ (c =? 0) = false /\ utf8_char c s = Some (Some cp, rest).
Proof.
  intros [Hr Hs]. unfold utf8_enc. case_if; bool_to_prop; [|case_if; bool_to_prop].
  - exists cp, rest. split; [done|]. split; [apply Z.eqb_neq; lia|].
    pose proof (ascii_byte cp ltac:(lia)) as H. unfold is_ascii in H. unfold utf8_char. by rewrite H.
  - pose proof (div_range cp 32 64 ltac:(lia) ltac:(lia)) as Hd.
    pose proof (lead2_byte (cp / 64) ltac:(lia)) as Ha.
    pose proof (cont_byte (cp mod 64) (mod64 cp)) as Hc.
    byte_facts Ha. byte_facts Hc. do 2 eexists. split; [reflexivity|].
    split; [apply Z.eqb_neq; lia|]. unfold utf8_char.
    rewrite Ha, Hb0, Hc. apply Z.eqb_eq in Hb, Hb1. rewrite Hb, Hb1. cbn [negb].
    rewrite join2 by (done || apply mod64). by rewrite <- Z.div_mod by lia.
  - pose proof (div_range cp 16 4096 ltac:(lia) ltac:(lia)) as Hd.
    pose proof (lead3_byte (cp / 4096) ltac:(lia)) as Ha.
    pose proof (cont_byte (cp mod 64) (mod64 cp)) as Hc.
    pose proof (cont_byte (cp / 64 mod 64) (mod64 (cp / 64))) as He.
    byte_facts Ha. byte_facts Hc. byte_facts He.
    do 2 eexists. split; [reflexivity|]. split; [apply Z.eqb_neq; lia|]. unfold utf8_char.
    apply negb_true_iff in Hb1. apply Z.eqb_eq in Hb, Hb2, Hb3.
    rewrite Ha, Hb1, Hb0, He, Hc, Hb, Hb2, Hb3. cbn [negb].
    rewrite join3 by (done || apply mod64). rewrite <- split3.
    case_if; bool_to_prop; [lia|done].
Qed.

Lemma utf8_text_cons cp cps : utf8_text (cp :: cps) = utf8_enc cp ++ utf8_text cps.
Proof. done. Qed.

Lemma utf8_decode_text cps rest n count :
  Forall bmp cps ->
  utf8_to_utf16le (utf8_text cps ++ 0 :: rest) n count =
    Some (count + Z.of_nat (Nat.min n (length cps)), take n cps).
Proof.
  intros H. revert n count. induction H as [|cp cps Hcp _ IH]; intros n count.
  - destruct n; cbn; by rewrite Z.add_0_r.
  - destruct n as [|n]; [cbn; by rewrite Z.add_0_r|].
    rewrite utf8_text_cons, <- app_assoc.
    destruct (utf8_char_enc cp (utf8_text cps ++ 0 :: rest) Hcp) as (c & s & -> & Hc & Hch).
    cbn [utf8_to_utf16le]. rewrite Hc, Hch, IH. cbn [length take]. do 2 f_equal. lia.
Qed.

(** *** Any terminated string *)
Lemma utf8_char_term c s :
  0 ∈ s -> exists r s', utf8_char c s = Some (r, s') /\ (r <> None -> 0 ∈ s').
Proof.
  intros Hs.
  assert (forall x l, 0 ∈ x :: l -> negb (Z.land x 0xc0 =? 0x80) = false -> 0 ∈ l) as Hc.
  { intros x l Hin Hx. apply elem_of_cons in Hin as [<-|?]; [done|done]. }
  unfold utf8_char. case_if; [|by do 2 eexists]. case_if.
  - destruct s as [|x s]; [by apply elem_of_nil in Hs|].
    case_if; [by do 2 eexists|]. do 2 eexists. split; [reflexivity|]. intros _. by eapply Hc.
  - case_if; [|by do 2 eexists]. destruct s as [|x s]; [by apply elem_of_nil in Hs|].
    case_if; [by do 2 eexists|]. pose proof (Hc x s Hs ltac:(done)) as Hs'.
    destruct s as [|y s]; [by apply elem_of_nil in Hs'|].
    case_if; [by do 2 eexists|]. case_if; [by do 2 eexists|].
    do 2 eexists. split; [reflexivity|]. intros _. by eapply Hc.
Qed.

Lemma utf8_term s n count :
  0 ∈ s -> exists r us,
    utf8_to_utf16le s n count = Some (r, us) /\ (length us <= n)%nat /\
    (r = -1 \/ r = count + Z.of_nat (length us)).
Proof.
  revert s count. induction n as [|n IH]; intros s count Hs.
  { do 2 eexists. split; [reflexivity|]. cbn. split; [lia|]. right. lia. }
  destruct s as [|c s]; [by apply elem_of_nil in Hs|]. cbn [utf8_to_utf16le].
  case_if; bool_to_prop.
  { do 2 eexists. split; [reflexivity|]. cbn. split; [lia|]. right. lia. }
  apply elem_of_cons in Hs as [<-|Hs]; [done|].
  destruct (utf8_char_term c s Hs) as ([u|] & s' & -> & Hs').
  - destruct (IH s' (count + 1)) as (r & us & -> & Hl & Hr); [by apply Hs'|].
    do 2 eexists. split; [reflexivity|]. cbn. split; [lia|]. destruct Hr; [by left|right; lia].
  - do 2 eexists. split; [reflexivity|]. cbn. split; [lia|by left].
Qed.

Lemma strlen_term s : 0 ∈ s -> exists n, strlen s = Some n.
Proof.
  induction s as [|c s IH]; intros Hs; [by apply elem_of_nil in Hs|]. cbn.
  case_if; [by eauto|]. bool_to_prop. apply elem_of_cons in Hs as [<-|Hs]; [done|].
  destruct (IH Hs) as [n ->]. by exists (S n).
Qed.

Lemma length_le16s us : length (us ≫= le16) = (2 * length us)%nat.
Proof. induction us as [|u us IH]; [done|]. rewrite bind_cons, length_app, IH. cbn. lia. Qed.

Lemma find_string_in id l s : find_string id l = Some s -> (id, s) ∈ l.
Proof.
  induction l as [|[i t] l IH]; [done|]. cbn. case_if; bool_to_prop.
  - intros [= ->]. subst. constructor.
  - intros H. constructor. by apply IH.
Qed.

(** What a descriptor answer is: an error, or a length byte and tag. *)
Definition string_answer (r : Z) (buf' : list Z) : Prop :=
  r = - EINVAL \/
  (2 <= r <= 254 /\ Z.even r = true /\ buf' !! 0%nat = Some r /\
   buf' !! 1%nat = Some USB_DT_STRING).

Lemma get_string_run table id buf :
  (forall l i s, strings table = Some l -> (i, s) ∈ l -> 0 ∈ s) ->
  (256 <= length buf)%nat ->
  exists r buf',
    usb_gadget_get_string table id buf = Some (r, buf') /\
    length buf' = length buf /\ drop 256 buf' = drop 256 buf /\ string_answer r buf'.
Proof.
  intros Ht Hb. unfold usb_gadget_get_string, string_answer. case_if; bool_to_prop.
  { rewrite buf_store_in by (cbn; lia). cbn [mbind option_bind]. do 2 eexists. split; [reflexivity|].
    rewrite length_buf_write, drop_buf_write_ge by (cbn; lia). split_and!; [done..|].
    right. split_and!; [lia|lia|done..]. }
  destruct (strings table) as [l|] eqn:El; cbn [mbind option_bind];
    [|do 2 eexists; split; [reflexivity|]; auto].
  destruct (find_string id l) as [s|] eqn:Ef; [|do 2 eexists; split; [reflexivity|]; auto].
  assert (0 ∈ s) as Hs by (eapply Ht; [done|by apply find_string_in]).
  destruct (strlen_term s Hs) as [n ->]. cbn [mbind option_bind].
  rewrite buf_store_in by (rewrite length_replicate; lia). cbn [mbind option_bind].
  destruct (utf8_term s (Nat.min 126 n) 0 Hs) as (r & us & -> & Hl & Hr). cbn [mbind option_bind].
  set (b1 := buf_write buf 2 _).
  assert (length b1 = length buf /\ drop 256 b1 = drop 256 buf) as [L1 D1].
  { unfold b1. rewrite length_buf_write, drop_buf_write_ge; rewrite ?length_replicate; done || lia. }
  rewrite buf_store_in by (rewrite length_le16s; lia). cbn [mbind option_bind].
  set (b2 := buf_write b1 2 _).
  assert (length b2 = length buf /\ drop 256 b2 = drop 256 buf) as [L2 D2].
  { unfold b2. rewrite length_buf_write, drop_buf_write_ge; rewrite ?length_le16s; done || lia. }
  case_if; bool_to_prop; [do 2 eexists; split; [reflexivity|]; auto|].
  rewrite buf_store_in by (cbn; lia). cbn [mbind option_bind]. do 2 eexists. split; [reflexivity|].
  rewrite length_buf_write, drop_buf_write_ge by (cbn; lia). split_and!; [done..|].
  right. rewrite u8_small by lia. split_and!; [lia|lia| |done..].
  rewrite Z.even_mul. apply orb_true_r.
Qed.

(** property: for every table whose strings are NUL-terminated and every buffer of
    at least 256 bytes (what the callers are asked to supply),
    [usb_gadget_get_string] reads and writes inside its memory and leaves
    everything past the first 256 bytes alone; it returns -EINVAL or the even
    length of the descriptor, between 2 and 254, which is also its first
    byte, followed by the string tag. *)
Theorem get_string_safe table id buf :
  (forall l i s, strings table = Some l -> (i, s) ∈ l -> 0 ∈ s) ->
  (256 <= length buf)%nat ->
  exists r buf',
    usb_gadget_get_string table id buf = Some (r, buf') /\
    length buf' = length buf /\ drop 256 buf' = drop 256 buf /\
    (r = - EINVAL \/
     (2 <= r <= 254 /\ Z.even r = true /\ buf' !! 0%nat = Some r /\
      buf' !! 1%nat = Some USB_DT_STRING)).
Proof.
  intros Ht Hb. destruct (get_string_run table id buf Ht Hb) as (r & buf' & H & ? & ? & ?).
  by exists r, buf'.
Qed.

Lemma strlen_text cps rest :
  Forall bmp cps -> exists n, strlen (utf8_text cps ++ 0 :: rest) = Some n /\ (length cps <= n)%nat.
Proof.
  assert (forall l t, Forall (fun c => c <> 0) l ->
    strlen (l ++ t) = (fun n => length l + n)%nat <$> strlen t) as Hnz.
  { intros l t Hl. induction Hl as [|c l Hc _ IH]; cbn; [by destruct (strlen t)|].
    rewrite (proj2 (Z.eqb_neq c 0) Hc), IH. by destruct (strlen t). }
  induction 1 as [|cp cps [Hr Hs] _ [n [IH Hn]]]; [by exists 0%nat|].
  rewrite utf8_text_cons, <- app_assoc, Hnz.
  - rewrite IH. cbn. eexists. split; [reflexivity|].
    unfold utf8_enc. repeat case_if; cbn; lia.
  - unfold utf8_enc. pose proof (mod64 cp). pose proof (mod64 (cp / 64)).
    pose proof (Z.div_pos cp 64). pose proof (Z.div_pos cp 4096).
    repeat case_if; bool_to_prop; repeat constructor; lia.
Qed.

(** C28: a string of the table that is the UTF-8 encoding of characters of
    the basic multilingual plane is returned as the descriptor of exactly
    these characters, the first 126 if there are more: length, tag, and the
    code units in little-endian order. *)
Theorem get_string_text table l id cps rest buf :
  strings table = Some l -> id <> 0 ->
  find_string id l = Some (utf8_text cps ++ 0 :: rest) -> Forall bmp cps ->
  (256 <= length buf)%nat ->
  exists buf', let r := (2 * (1 + Nat.min 126 (length cps)))%nat in
    usb_gadget_get_string table id buf = Some (Z.of_nat r, buf') /\
    take r buf' = [Z.of_nat r; USB_DT_STRING] ++ (take 126 cps ≫= le16).
Proof.
  intros Hl Hid Hf Hc Hb. unfold usb_gadget_get_string.
  rewrite (proj2 (Z.eqb_neq id 0) Hid), Hl. cbn [mbind option_bind]. rewrite Hf.
  destruct (strlen_text cps rest Hc) as (n & -> & Hn). cbn [mbind option_bind].
  rewrite buf_store_in by (rewrite length_replicate; lia). cbn [mbind option_bind].
  rewrite utf8_decode_text by done. cbn [mbind option_bind].
  set (b1 := buf_write buf 2 _).
  assert (length b1 = length buf) as L1
    by (apply length_buf_write; rewrite length_replicate; lia).
  replace (Nat.min (Nat.min 126 n) (length cps)) with (Nat.min 126 (length cps)) by lia.
  replace (take (Nat.min 126 n) cps) with (take 126 cps); cycle 1.
  { destruct (decide (126 <= n)%nat); [by rewrite Nat.min_l|].
    rewrite Nat.min_r, !take_ge by lia. done. }
  assert (length (take 126 cps ≫= le16) = 2 * Nat.min 126 (length cps))%nat as Hu
    by (rewrite length_le16s, length_take; lia).
  rewrite buf_store_in by lia. cbn [mbind option_bind]. case_if; bool_to_prop; [lia|].
  assert (length (buf_write b1 2 (take 126 cps ≫= le16)) = length buf) as L2
    by (rewrite length_buf_write; lia).
  rewrite buf_store_in by (cbn; lia). cbn [mbind option_bind].
  rewrite u8_small by lia. eexists. cbv zeta. split; [do 2 f_equal; lia|].
  replace (2 * (1 + Nat.min 126 (length cps)))%nat
    with (S (S (2 * Nat.min 126 (length cps)))) by lia.
  unfold buf_write at 1. rewrite take_0. cbn [length app].
  rewrite !firstn_cons. f_equal; [lia|]. f_equal.
  change (0 + 2)%nat with 2%nat. rewrite drop_buf_write_at by lia.
  rewrite take_app_le by lia. apply take_ge. lia.
Qed.

(** "né€": one, two and three bytes. *)
Definition demo_table : usb_gadget_strings :=
  mkStrings 0x409 (Some [(1, [110; 0xc3; 0xa9; 0xe2; 0x82; 0xac; 0])]).

Lemma get_string_safe_witness :
  exists r buf', usb_gadget_get_string demo_table 1 (replicate 256 7) = Some (r, buf') /\
    drop 256 buf' = [].
Proof.
  destruct (get_string_safe demo_table 1 (replicate 256 7)) as (r & buf' & H & _ & Hd & _).
  - intros l i s [= <-] Hin. apply elem_of_cons in Hin as [[= -> ->]|Hin].
    + do 6 apply list_elem_of_further. apply list_elem_of_here.
    + by apply elem_of_nil in Hin.
  - rewrite length_replicate. lia.
  - exists r, buf'. split; [exact H|]. rewrite Hd. reflexivity.
Defined.

Lemma get_string_text_witness :
  exists buf', usb_gadget_get_string demo_table 1 (replicate 256 7) = Some (8, buf') /\
    take 8 buf' = [8; 3; 110; 0; 0xe9; 0; 0xac; 0x20].
Proof.
  destruct (get_string_text demo_table [(1, [110; 0xc3; 0xa9; 0xe2; 0x82; 0xac; 0])] 1
    [110; 0xe9; 0x20ac] [] (replicate 256 7)) as (buf' & H1 & H2);
    [reflexivity|discriminate|reflexivity| |cbn; lia|].
  - repeat constructor; lia.
  - exists buf'. split; [exact H1|exact H2].
Defined.
