(* ===== verification/UsbConfig.v ===== *)
(** * USB gadget: building configuration descriptors (test_gadget/config.c)

    A descriptor is the list of its bytes, the first of which is [bLength].
    A buffer is a list of bytes; a copy that reads past the end of a
    descriptor or writes outside the buffer is [None]. *)

From Stdlib Require Import ZArith.
From stdpp Require Import base list.
From S2P Require Import Prelude.

Definition USB_DT_CONFIG : Z := 2.
Definition USB_DT_CONFIG_SIZE : Z := 9.
Definition USB_CONFIG_ATT_ONE : Z := 0x80.

(** The length a descriptor declares. *)
Definition bLength (d : list Z) : option nat := Z.to_nat <$> head d.

(** [memcpy(dest, d, len)] into [buf] at [dest]. *)
Definition copy_desc (buf : list Z) (dest : nat) (d : list Z) (len : nat) : option (list Z) :=
  if decide (len <= length d)%nat then buf_store buf dest (take len d) else None.

(** The [for] loop, [dest] the index of the next byte and [buflen] what is
    left. *)
Fixpoint fillbuf_loop (buf : list Z) (base dest buflen : nat) (src : list (list Z)) :
    option (Z * list Z) :=
  match src with
  | [] => Some (Z.of_nat dest - Z.of_nat base, buf)
  | d :: src =>
      len ← bLength d;
      if (buflen <? len)%nat then Some (- EINVAL, buf)
      else
        buf ← copy_desc buf dest d len;
        fillbuf_loop buf base (dest + len) (buflen - len) src
  end.

(** [usb_descriptor_fillbuf(buf + base, buflen, src)]; [None] is a NULL
    vector. *)
Definition usb_descriptor_fillbuf (buf : list Z) (base buflen : nat)
    (src : option (list (list Z))) : option (Z * list Z) :=
  match src with
  | None => Some (- EINVAL, buf)
  | Some src => fillbuf_loop buf base base buflen src
  end.

(** [usb_gadget_config_buf(config, buf, length, desc)] with [buf] of at
    least [len] bytes. *)
Definition usb_gadget_config_buf (config buf : list Z) (len : nat)
    (desc : option (list (list Z))) : option (Z * list Z) :=
  if (Z.of_nat len <? USB_DT_CONFIG_SIZE) || (match desc with None => true | _ => false end)
  then Some (- EINVAL, buf)
  else
    buf ← copy_desc buf 0 config 9;
    r ← usb_descriptor_fillbuf buf 9 (len - 9) desc;
    let '(l, buf) := r in
    if l <? 0 then Some (l, buf)
    else
      let l := l + USB_DT_CONFIG_SIZE in
      if 0xffff <? l then Some (- EINVAL, buf)
      else
        buf ← buf_store buf 0 [USB_DT_CONFIG_SIZE; USB_DT_CONFIG];
        buf ← buf_store buf 2 (le16 l);
        att ← buf !! 7%nat;
        buf ← buf_store buf 7 [Z.lor att USB_CONFIG_ATT_ONE];
        Some (l, buf).

(** [usb_copy_descriptors]: one block holds the pointer vector and then the
    copies; [psize] is the size of a pointer.  The result is the block, the
    vector of offsets of the copies in it (without the final NULL). *)
Definition sum_bytes (src : list (list Z)) : option nat :=
  foldr (fun d acc => n ← bLength d; m ← acc; Some (n + m)%nat) (Some 0%nat) src.

Fixpoint copy_loop (block : list Z) (mem : nat) (src : list (list Z)) :
    option (list Z * list nat) :=
  match src with
  | [] => Some (block, [])
  | d :: src =>
      len ← bLength d;
      block ← copy_desc block mem d len;
      r ← copy_loop block (mem + len) src;
      let '(block, vec) := r in
      Some (block, mem :: vec)
  end.

(** [kmalloc bytes]: the fresh block, [None] when there is no memory. *)
Definition usb_copy_descriptors (kmalloc : Z -> option (list Z)) (psize : nat)
    (src : list (list Z)) : option (option (list Z * list nat)) :=
  bytes ← sum_bytes src;
  let n_desc := length src in
  let bytes := u32 (Z.of_nat bytes + Z.of_nat ((n_desc + 1) * psize)) in
  match kmalloc bytes with
  | None => Some None
  | Some mem =>
      if decide (Z.of_nat ((n_desc + 1) * psize) <= Z.of_nat (length mem)) then
        r ← copy_loop mem ((n_desc + 1) * psize) src;
        Some (Some r)
      else None
  end.

(** [usb_find_endpoint]: pointers are numbers; the result [None] is NULL, a
    [copy] vector shorter than [src] is read past its end. *)
Fixpoint usb_find_endpoint (src copy : list Z) (match_ : Z) : option (option Z) :=
  match src with
  | [] => Some None
  | s :: src =>
      match copy with
      | [] => None
      | c :: copy => if s =? match_ then Some (Some c) else usb_find_endpoint src copy match_
      end
  end.

(** ** Lemmas *)

(** A well-formed descriptor: its first byte is its length. *)
Definition desc_ok (d : list Z) : Prop := head d = Some (Z.of_nat (length d)).

Lemma bLength_ok d : desc_ok d -> bLength d = Some (length d).
Proof. intros H. unfold bLength. rewrite H. cbn. by rewrite Nat2Z.id. Qed.

Lemma copy_desc_ok buf dest d :
  (dest + length d <= length buf)%nat ->
  copy_desc buf dest d (length d) = Some (buf_write buf dest d).
Proof.
  intros H. unfold copy_desc. rewrite decide_True by done.
  rewrite firstn_all. by apply buf_store_in.
Qed.

Definition total (src : list (list Z)) : nat := sum_list (length <$> src).

Lemma total_cons d src : total (d :: src) = (length d + total src)%nat.
Proof. done. Qed.

Lemma length_concat (src : list (list Z)) : length (concat src) = total src.
Proof. induction src as [|d src IH]; [done|]. cbn. by rewrite length_app, IH. Qed.

Lemma fillbuf_ok buf base dest buflen src :
  Forall desc_ok src -> (dest + buflen <= length buf)%nat -> (total src <= buflen)%nat ->
  fillbuf_loop buf base dest buflen src =
    Some (Z.of_nat (dest + total src) - Z.of_nat base, buf_write buf dest (concat src)).
Proof.
  intros Hs. revert buf dest buflen. induction Hs as [|d src Hd _ IH]; intros buf dest buflen Hb Ht.
  - cbn. unfold buf_write. cbn. by rewrite Nat.add_0_r, take_drop.
  - rewrite total_cons in *. cbn [fillbuf_loop]. rewrite bLength_ok by done. cbn [mbind option_bind].
    rewrite (proj2 (Nat.ltb_ge _ _)) by lia. rewrite copy_desc_ok by lia. cbn [mbind option_bind].
    rewrite IH by (rewrite ?length_buf_write; lia).
    rewrite buf_write_app by (rewrite ?length_concat; lia). cbn [concat]. do 3 f_equal. lia.
Qed.

Lemma fillbuf_overflow buf base dest buflen src :
  Forall desc_ok src -> (dest + buflen <= length buf)%nat -> (buflen < total src)%nat ->
  exists bs, (length bs <= buflen)%nat /\
    fillbuf_loop buf base dest buflen src = Some (- EINVAL, buf_write buf dest bs).
Proof.
  intros Hs. revert buf dest buflen. induction Hs as [|d src Hd _ IH]; intros buf dest buflen Hb Ht.
  - cbn in Ht. lia.
  - rewrite total_cons in *. cbn [fillbuf_loop]. rewrite bLength_ok by done. cbn [mbind option_bind].
    case_if; rewrite ?Nat.ltb_lt, ?Nat.ltb_ge in *.
    + exists []. split; [cbn; lia|]. unfold buf_write. cbn. by rewrite Nat.add_0_r, take_drop.
    + rewrite copy_desc_ok by lia. cbn [mbind option_bind].
      destruct (IH (buf_write buf dest d) (dest + length d)%nat (buflen - length d)%nat)
        as (bs & Hl & ->); [rewrite length_buf_write; lia|lia|].
      exists (d ++ bs). rewrite length_app, buf_write_app by lia. split; [lia|done].
Qed.

(** property: [usb_descriptor_fillbuf] copies the descriptors one after the other
    and returns their total length exactly when they fit; otherwise it
    returns -EINVAL; in both cases it writes only inside the part of the
    buffer it was given. *)
Theorem fillbuf_spec buf base buflen src :
  Forall desc_ok src -> (base + buflen <= length buf)%nat ->
  if decide (total src <= buflen)%nat then
    usb_descriptor_fillbuf buf base buflen (Some src) =
      Some (Z.of_nat (total src), buf_write buf base (concat src))
  else exists bs, (length bs <= buflen)%nat /\
    usb_descriptor_fillbuf buf base buflen (Some src) = Some (- EINVAL, buf_write buf base bs).
Proof.
  intros Hs Hb. cbn [usb_descriptor_fillbuf]. case_decide.
  - rewrite fillbuf_ok by done. do 2 f_equal. lia.
  - apply fillbuf_overflow; [done..|lia].
Qed.

(** The header [usb_gadget_config_buf] leaves in front of the descriptors. *)
Definition patched (config : list Z) (l : Z) : list Z :=
  [USB_DT_CONFIG_SIZE; USB_DT_CONFIG] ++ le16 l ++ take 3 (drop 4 config) ++
  [Z.lor (default 0 (config !! 7%nat)) USB_CONFIG_ATT_ONE] ++ drop 8 config.

(** The four patches of the header, on the buffer after the copies. *)
Lemma patch_header config rest l :
  length config = 9%nat -> 0 <= l < 65536 ->
  (buf ← buf_store (config ++ rest) 0 [USB_DT_CONFIG_SIZE; USB_DT_CONFIG];
   buf ← buf_store buf 2 (le16 l);
   att ← buf !! 7%nat;
   buf ← buf_store buf 7 [Z.lor att USB_CONFIG_ATT_ONE];
   Some (l, buf)) = Some (l, patched config l ++ rest).
Proof.
  intros Hc Hl. do 9 (destruct config as [|? config]; [done|]). destruct config; [|done]. done.
Qed.

Lemma config_buf_run config buf len src :
  length config = 9%nat -> Forall desc_ok src -> (9 <= len <= length buf)%nat ->
  usb_gadget_config_buf config buf len (Some src) =
    (r ← fillbuf_loop (buf_write buf 0 config) 9 9 (len - 9) src;
     let '(l, buf) := r in
     if l <? 0 then Some (l, buf)
     else
       let l := l + USB_DT_CONFIG_SIZE in
       if 0xffff <? l then Some (- EINVAL, buf)
       else
         buf ← buf_store buf 0 [USB_DT_CONFIG_SIZE; USB_DT_CONFIG];
         buf ← buf_store buf 2 (le16 l);
         att ← buf !! 7%nat;
         buf ← buf_store buf 7 [Z.lor att USB_CONFIG_ATT_ONE];
         Some (l, buf)).
Proof.
  intros Hc Hs Hb. unfold usb_gadget_config_buf. rewrite orb_false_r.
  rewrite (proj2 (Z.ltb_ge _ _)) by (unfold USB_DT_CONFIG_SIZE; lia).
  pose proof (copy_desc_ok buf 0 config) as Hcp. rewrite Hc in Hcp. by rewrite Hcp by lia.
Qed.

(** property: a complete configuration descriptor is built exactly when the header
    and all descriptors fit in the buffer and in 16 bits: the header with
    length, type, total length and the mandatory attribute bit patched in and
    its other fields kept, then the descriptors; otherwise -EINVAL. *)
Theorem config_buf_spec config buf len src :
  length config = 9%nat -> Forall desc_ok src -> (len <= length buf)%nat ->
  let l := 9 + Z.of_nat (total src) in
  if decide (l <= Z.of_nat len /\ l <= 0xffff) then
    usb_gadget_config_buf config buf len (Some src) =
      Some (l, buf_write buf 0 (patched config l ++ concat src))
  else exists buf', usb_gadget_config_buf config buf len (Some src) = Some (- EINVAL, buf').
Proof.
  intros Hc Hs Hb l. pose proof (length_concat src) as Lc.
  pose proof (length_buf_write buf 0 config) as L1.
  case_decide as Hd.
  - rewrite config_buf_run, fillbuf_ok by (done || lia). cbn [mbind option_bind].
    rewrite (proj2 (Z.ltb_ge _ 0)) by lia. cbv zeta.
    replace (Z.of_nat (9 + total src) - Z.of_nat 9 + USB_DT_CONFIG_SIZE) with l
      by (unfold USB_DT_CONFIG_SIZE; lia).
    rewrite (proj2 (Z.ltb_ge _ _)) by lia.
    pose proof (buf_write_app buf 0 config (concat src)) as Ha.
    rewrite Hc in Ha. change (0 + 9)%nat with 9%nat in Ha. rewrite Ha by lia.
    unfold buf_write. rewrite take_0. cbn [app]. rewrite <- app_assoc.
    rewrite patch_header by (done || lia). rewrite <- app_assoc. do 4 f_equal.
    rewrite !length_app. do 2 f_equal. rewrite Hc. unfold patched.
    rewrite !length_app, length_take, !length_drop, Hc. reflexivity.
  - destruct (decide (9 <= len)%nat) as [H9|H9].
    2: { unfold usb_gadget_config_buf. rewrite (proj2 (Z.ltb_lt _ _)); [cbn; eauto|].
         unfold USB_DT_CONFIG_SIZE. lia. }
    rewrite config_buf_run by (done || lia).
    destruct (decide (total src <= len - 9)%nat) as [Ht|Ht].
    + rewrite fillbuf_ok by (done || lia). cbn [mbind option_bind].
      rewrite (proj2 (Z.ltb_ge _ 0)) by lia. cbv zeta. rewrite (proj2 (Z.ltb_lt _ _)); [eauto|].
      unfold USB_DT_CONFIG_SIZE. lia.
    + destruct (fillbuf_overflow (buf_write buf 0 config) 9 9 (len - 9) src Hs) as (bs & _ & ->);
        [lia|lia|]. cbn. eauto.
Qed.

Lemma sum_bytes_ok src : Forall desc_ok src -> sum_bytes src = Some (total src).
Proof.
  induction 1 as [|d src Hd _ IH]; [done|]. cbn [sum_bytes foldr].
  change (foldr _ (Some 0%nat) src) with (sum_bytes src). rewrite IH, bLength_ok by done. done.
Qed.

(** The offsets of consecutive descriptors. *)
Fixpoint offsets (mem : nat) (src : list (list Z)) : list nat :=
  match src with [] => [] | d :: src => mem :: offsets (mem + length d) src end.

Lemma copy_loop_ok block mem src :
  Forall desc_ok src -> (mem + total src <= length block)%nat ->
  copy_loop block mem src = Some (buf_write block mem (concat src), offsets mem src).
Proof.
  intros Hs. revert block mem. induction Hs as [|d src Hd _ IH]; intros block mem Hb.
  - cbn. unfold buf_write. cbn. by rewrite Nat.add_0_r, take_drop.
  - rewrite total_cons in Hb. cbn [copy_loop]. rewrite bLength_ok by done. cbn [mbind option_bind].
    rewrite copy_desc_ok by lia. cbn [mbind option_bind].
    rewrite IH by (rewrite length_buf_write; lia). cbn [mbind option_bind].
    rewrite buf_write_app by (rewrite ?length_concat; lia). done.
Qed.

Lemma offsets_read pre block src i d o :
  src !! i = Some d -> offsets (length pre) src !! i = Some o ->
  (length pre <= o)%nat /\ take (length d) (drop o (pre ++ concat src ++ block)) = d.
Proof.
  revert pre i. induction src as [|e src IH]; intros pre i Hi Ho; [done|].
  destruct i as [|i]; cbn in Hi, Ho.
  - simplify_eq. rewrite drop_app_length. cbn [concat]. rewrite <- app_assoc, take_app_length.
    done.
  - rewrite <- length_app in Ho. destruct (IH (pre ++ e) i Hi Ho) as [Hle Ht].
    rewrite length_app in Hle. split; [lia|]. cbn [concat]. by rewrite <- !app_assoc in *.
Qed.

Lemma length_offsets mem src : length (offsets mem src) = length src.
Proof. revert mem. induction src; intros; cbn; auto. Qed.

(** property: if the allocator returns a block of the requested size, the copy of
    a descriptor vector fits in it, starts after the pointer vector and every
    pointer of the new vector points at a copy of the original descriptor. *)
Theorem copy_descriptors_spec kmalloc psize src :
  Forall desc_ok src ->
  (forall n mem, kmalloc n = Some mem -> Z.of_nat (length mem) = n) ->
  Z.of_nat (total src + (length src + 1) * psize) < 2 ^ 32 ->
  match kmalloc (Z.of_nat (total src + (length src + 1) * psize)) with
  | None => usb_copy_descriptors kmalloc psize src = Some None
  | Some _ =>
      exists block vec,
        usb_copy_descriptors kmalloc psize src = Some (Some (block, vec)) /\
        length vec = length src /\
        forall i d, src !! i = Some d -> exists o, vec !! i = Some o /\
          ((length src + 1) * psize <= o)%nat /\ take (length d) (drop o block) = d
  end.
Proof.
  intros Hs Hk Hb. unfold usb_copy_descriptors. rewrite sum_bytes_ok by done.
  cbn [mbind option_bind]. cbv zeta. rewrite u32_small by lia. rewrite <- Nat2Z.inj_add.
  destruct (kmalloc _) as [mem|] eqn:E; [|done]. apply Hk in E.
  rewrite decide_True by lia. rewrite copy_loop_ok by (done || lia). cbn [mbind option_bind].
  do 2 eexists. split; [reflexivity|]. rewrite length_offsets. split; [done|].
  intros i d Hi. set (m := ((length src + 1) * psize)%nat) in *.
  destruct (lookup_lt_is_Some_2 (offsets m src) i) as [o Ho].
  { rewrite length_offsets. by eapply lookup_lt_Some. }
  exists o. split; [done|].
  assert (length (take m mem) = m) as Lm by (rewrite length_take; lia).
  pose proof (offsets_read (take m mem) (drop (m + length (concat src)) mem) src i d o Hi) as H.
  rewrite Lm in H. by apply H.
Qed.

(** property: [usb_find_endpoint] returns the copy at the first position of the
    matching pointer, and NULL when there is none. *)
Theorem find_endpoint_spec src copy m :
  length src = length copy ->
  usb_find_endpoint src copy m =
    Some (match list_find (fun s => s = m) src with
          | Some (i, _) => copy !! i
          | None => None
          end).
Proof.
  revert copy. induction src as [|s src IH]; intros [|c copy] Hl; try done.
  cbn [usb_find_endpoint list_find]. destruct (decide (s = m)) as [->|Hn].
  - by rewrite Z.eqb_refl.
  - rewrite (proj2 (Z.eqb_neq s m) Hn), IH by (cbn in Hl; lia).
    by destruct (list_find _ src) as [[i x]|].
Qed.

(** An interface and an endpoint descriptor, a configuration header. *)
Definition demo_descs : list (list Z) := [[9; 4; 0; 0; 1; 255; 0; 0; 0]; [7; 5; 0x81; 2; 64; 0; 0]].
Definition demo_config : list Z := [9; 2; 0; 0; 1; 1; 0; 0x40; 50].

Lemma demo_descs_ok : Forall desc_ok demo_descs.
Proof. by repeat constructor. Qed.

Lemma fillbuf_spec_witness :
  usb_descriptor_fillbuf (replicate 20 0) 2 16 (Some demo_descs) =
    Some (16, buf_write (replicate 20 0) 2 (concat demo_descs)).
Proof. exact (fillbuf_spec (replicate 20 0) 2 16 demo_descs demo_descs_ok ltac:(cbn; lia)). Defined.

Lemma config_buf_spec_witness :
  usb_gadget_config_buf demo_config (replicate 64 0) 25 (Some demo_descs) =
    Some (25, buf_write (replicate 64 0) 0
                ([9; 2; 25; 0; 1; 1; 0; 0xc0; 50] ++ concat demo_descs)).
Proof.
  exact (config_buf_spec demo_config (replicate 64 0) 25 demo_descs eq_refl demo_descs_ok
    ltac:(cbn; lia)).
Defined.

Definition demo_kmalloc (n : Z) : option (list Z) :=
  if 0 <=? n then Some (replicate (Z.to_nat n) 0) else None.

Lemma copy_descriptors_spec_witness :
  exists block vec,
    usb_copy_descriptors demo_kmalloc 8 demo_descs = Some (Some (block, vec)) /\
    length vec = 2%nat.
Proof.
  destruct (copy_descriptors_spec demo_kmalloc 8 demo_descs) as (block & vec & H1 & H2 & _).
  - exact demo_descs_ok.
  - intros n mem. unfold demo_kmalloc. destruct (Z.leb_spec 0 n); [|discriminate].
    intros [= <-]. rewrite length_replicate. lia.
  - cbn. lia.
  - exists block, vec. split; [exact H1|exact H2].
Defined.

Lemma find_endpoint_spec_witness : usb_find_endpoint [10; 11; 12] [20; 21; 22] 11 = Some (Some 21).
Proof. rewrite (find_endpoint_spec [10; 11; 12] [20; 21; 22] 11); reflexivity. Defined.
