(* ===== verification/EpAutoconf.v ===== *)
(** * USB gadget: endpoint autoconfiguration (test_gadget/epautoconf.c, gadget_chips.h)

    [ep_matches] with its effects on the endpoint descriptor and on the
    static counter [epnum] (also when it fails), [usb_ep_autoconfig] and
    [usb_ep_autoconfig_reset].  The build configuration (which controller
    drivers are enabled, CONFIG_BLACKFIN) is a parameter.  Names are lists of
    characters; a read past the terminator of a name is [None]. *)

From Stdlib Require Import ZArith Ascii.
From stdpp Require Import base list strings pretty.
From S2P Require Import Prelude.

(** ** Controllers (gadget_chips.h) *)
Record build_config := mkBuild {
  enabled : string -> bool;      (** the CONFIG_USB_* option of a controller *)
  blackfin : bool;               (** CONFIG_BLACKFIN *)
}.

Record usb_ep := mkEp {
  ep_name : list ascii;
  maxpacket : Z;
  driver_data : option Z;
}.

Record usb_gadget := mkGadget {
  gadget_name : string;
  is_dualspeed : bool;
  ep_list : list usb_ep;
}.

(** [gadget_is_xxx(g)]: [!strcmp("xxx", (g)->name)] when the controller is
    enabled, 0 otherwise. *)
Definition gadget_is (cfg : build_config) (chip : string) (g : usb_gadget) : bool :=
  enabled cfg chip && bool_decide (gadget_name g = chip).

(** The controllers in the order of the tests, with their numbers. *)
Definition controller_numbers : list (string * Z) :=
  [("net2280", 0x01); ("dummy_udc", 0x02); ("pxa25x_udc", 0x03); ("goku_udc", 0x06);
   ("omap_udc", 0x08); ("pxa27x_udc", 0x11); ("s3c2410_udc", 0x12); ("at91_udc", 0x13);
   ("imx_udc", 0x14); ("musb-hdrc", 0x16); ("atmel_usba_udc", 0x18); ("fsl-usb2-udc", 0x19);
   ("amd5536udc", 0x20); ("m66592_udc", 0x21); ("fsl_qe_udc", 0x22); ("ci13xxx_pci", 0x23);
   ("langwell_udc", 0x24); ("r8a66597_udc", 0x25); ("s3c-hsotg", 0x26); ("pch_udc", 0x27);
   ("ci13xxx_msm", 0x28); ("renesas_usbhs_udc", 0x29); ("s3c-hsudc", 0x30)].

Fixpoint first_controller (cfg : build_config) (g : usb_gadget) (l : list (string * Z)) : Z :=
  match l with
  | [] => - ENOENT
  | (chip, n) :: l => if gadget_is cfg chip g then n else first_controller cfg g l
  end.

Definition usb_gadget_controller_number (cfg : build_config) (g : usb_gadget) : Z :=
  first_controller cfg g controller_numbers.

Definition gadget_supports_altsettings (cfg : build_config) (g : usb_gadget) : bool :=
  if gadget_is cfg "pxa25x_udc" g then false
  else if gadget_is cfg "pxa27x_udc" g then false
  else true.

(** ** Endpoints *)
Definition USB_ENDPOINT_XFERTYPE_MASK : Z := 0x03.
Definition USB_ENDPOINT_XFER_CONTROL : Z := 0.
Definition USB_ENDPOINT_XFER_ISOC : Z := 1.
Definition USB_ENDPOINT_XFER_BULK : Z := 2.
Definition USB_ENDPOINT_XFER_INT : Z := 3.
Definition USB_DIR_IN : Z := 0x80.

Record usb_endpoint_descriptor := mkDesc {
  bEndpointAddress : Z;
  bmAttributes : Z;
  wMaxPacketSize : Z;
}.

Definition set_addr (a : Z) (d : usb_endpoint_descriptor) :=
  mkDesc a (bmAttributes d) (wMaxPacketSize d).
Definition set_max (m : Z) (d : usb_endpoint_descriptor) :=
  mkDesc (bEndpointAddress d) (bmAttributes d) m.

(** [name[i]]: the terminator is at the length. *)
Definition char_at (name : list ascii) (i : nat) : option ascii :=
  if (i =? length name)%nat then Some "000"%char else name !! i.

(** [strrchr(name, c)] as an index. *)
Fixpoint strrchr (name : list ascii) (c : ascii) : option nat :=
  match name with
  | [] => None
  | x :: name =>
      match strrchr name c with
      | Some i => Some (S i)
      | None => if ascii_dec x c then Some 0%nat else None
      end
  end.

Definition isdigit (c : ascii) : bool :=
  match digit_val c with Some _ => true | None => false end.
Definition is_char (c x : ascii) : bool := bool_decide (c = x).

(** [simple_strtoul(&name[i], NULL, 10)] *)
Definition strtoul_at (name : list ascii) (i : nat) : Z :=
  digits 0 (String.string_of_list_ascii (drop i name)).

(** The descriptor and [epnum]. *)
Definition ep_state : Type := usb_endpoint_descriptor * Z.

(** The restrictions in the name: [Some true] when the code goes on. *)
Definition name_allows (cfg : build_config) (g : usb_gadget) (name : list ascii)
    (desc : usb_endpoint_descriptor) : option bool :=
  let type := Z.land (bmAttributes desc) USB_ENDPOINT_XFERTYPE_MASK in
  c2 ← char_at name 2;
  if is_char "-" c2 then Some true
  else
    t ← (match strrchr name "-" with
         | Some tmp =>
             ok ← (if type =? USB_ENDPOINT_XFER_INT then
                     t2 ← char_at name (tmp + 2);
                     if is_char "s" t2 then Some false
                     else
                       t1 ← char_at name (tmp + 1);
                       Some (negb (gadget_is cfg "pxa25x_udc" g && is_char "i" t1))
                   else if type =? USB_ENDPOINT_XFER_BULK then
                     t1 ← char_at name (tmp + 1); Some (is_char "b" t1)
                   else if type =? USB_ENDPOINT_XFER_ISOC then
                     t2 ← char_at name (tmp + 2); Some (is_char "s" t2)
                   else Some true);
             Some (ok, tmp)
         | None => Some (true, length name)
         end);
    let '(ok, tmp) := t in
    if negb ok then Some false
    else
      c ← (match tmp with O => None | S i => char_at name i end);
      if isdigit c then Some true
      else if truthy (Z.land (bEndpointAddress desc) USB_DIR_IN)
      then Some (is_char "n" c)
      else Some (is_char "t" c).

(** The packet size limits; [max] is [0x7ff & wMaxPacketSize]. *)
Definition size_allows (g : usb_gadget) (ep : usb_ep) (desc : usb_endpoint_descriptor) : bool :=
  let type := Z.land (bmAttributes desc) USB_ENDPOINT_XFERTYPE_MASK in
  let max := Z.land 0x7ff (wMaxPacketSize desc) in
  let iso :=
    if maxpacket ep <? max then false
    else if negb (is_dualspeed g) && (1023 <? max) then false
    else if truthy (Z.land (wMaxPacketSize desc) (Z.shiftl 3 11)) && negb (is_dualspeed g)
    then false
    else true in
  if type =? USB_ENDPOINT_XFER_INT then
    if negb (is_dualspeed g) && (64 <? max) then false else iso
  else if type =? USB_ENDPOINT_XFER_ISOC then iso
  else true.

(** Reporting the address number and the bulk packet size. *)
Definition report (ep : usb_ep) (num : Z) (desc : usb_endpoint_descriptor) :
    usb_endpoint_descriptor :=
  let type := Z.land (bmAttributes desc) USB_ENDPOINT_XFERTYPE_MASK in
  let desc := set_addr (u8 (Z.lor (bEndpointAddress desc) num)) desc in
  if type =? USB_ENDPOINT_XFER_BULK then
    let size := maxpacket ep in
    set_max (if 64 <? size then 64 else size) desc
  else desc.

(** [ep_matches]: the result, the descriptor and [epnum]. *)
Definition ep_matches (cfg : build_config) (g : usb_gadget) (ep : usb_ep) (s : ep_state) :
    option (bool * ep_state) :=
  let '(desc, epnum) := s in
  let type := Z.land (bmAttributes desc) USB_ENDPOINT_XFERTYPE_MASK in
  match driver_data ep with
  | Some _ => Some (false, s)
  | None =>
      if type =? USB_ENDPOINT_XFER_CONTROL then Some (false, s)
      else
        c0 ← char_at (ep_name ep) 0;
        if negb (is_char "e" c0) then Some (false, s)
        else
          ok ← name_allows cfg g (ep_name ep) desc;
          if negb ok then Some (false, s)
          else
            let desc := if wMaxPacketSize desc =? 0 then set_max (maxpacket ep) desc else desc in
            if negb (size_allows g ep desc) then Some (false, (desc, epnum))
            else
              let desc := set_addr (Z.land (bEndpointAddress desc) USB_DIR_IN) desc in
              c2 ← char_at (ep_name ep) 2;
              if isdigit c2 then
                Some (true, (report ep (u8 (strtoul_at (ep_name ep) 2)) desc, epnum))
              else
                let epnum := u32 (epnum + 1) in
                if 15 <? epnum then Some (false, (desc, epnum))
                else Some (true, (report ep epnum desc, epnum))
  end.

(** [find_ep]: the index of the endpoint with the name. *)
Fixpoint find_ep (l : list usb_ep) (name : list ascii) : option nat :=
  match l with
  | [] => None
  | ep :: l => if decide (ep_name ep = name) then Some 0%nat else S <$> find_ep l name
  end.

Definition chars (s : string) : list ascii := String.list_ascii_of_string s.

(** [ep = find_ep(gadget, name); if (ep && ep_matches(gadget, ep, desc)) return ep;] *)
Definition try_named (cfg : build_config) (g : usb_gadget) (name : string) (s : ep_state) :
    option (option nat * ep_state) :=
  match find_ep (ep_list g) (chars name) with
  | None => Some (None, s)
  | Some i =>
      ep ← ep_list g !! i;
      r ← ep_matches cfg g ep s;
      let '(b, s) := r in
      Some (if b : bool then Some i else None, s)
  end.

(** [list_for_each_entry (ep, ...) if (ep_matches(...)) return ep;] *)
Fixpoint try_all (cfg : build_config) (g : usb_gadget) (i : nat) (l : list usb_ep) (s : ep_state) :
    option (option nat * ep_state) :=
  match l with
  | [] => Some (None, s)
  | ep :: l =>
      r ← ep_matches cfg g ep s;
      let '(b, s) := r in
      if b : bool then Some (Some i, s) else try_all cfg g (S i) l s
  end.

(** [a], and if it returns no endpoint, [b]. *)
Definition or_else (a : option (option nat * ep_state))
    (b : ep_state -> option (option nat * ep_state)) : option (option nat * ep_state) :=
  r ← a;
  let '(e, s) := r in
  match e with Some _ => Some (e, s) | None => b s end.

(** The chip-specific choices. *)
Definition preferred (cfg : build_config) (g : usb_gadget) (s : ep_state) :
    option (option nat * ep_state) :=
  let desc := fst s in
  let type := Z.land (bmAttributes desc) USB_ENDPOINT_XFERTYPE_MASK in
  let dir_in := truthy (Z.land USB_DIR_IN (bEndpointAddress desc)) in
  if gadget_is cfg "net2280" g && (type =? USB_ENDPOINT_XFER_INT) then
    or_else (try_named cfg g "ep-e" s) (try_named cfg g "ep-f")
  else if gadget_is cfg "goku_udc" g then
    if type =? USB_ENDPOINT_XFER_INT then try_named cfg g "ep3-bulk" s
    else if (type =? USB_ENDPOINT_XFER_BULK) && dir_in then try_named cfg g "ep2-bulk" s
    else Some (None, s)
  else if blackfin cfg && gadget_is cfg "musb-hdrc" g then
    if (type =? USB_ENDPOINT_XFER_BULK) || (type =? USB_ENDPOINT_XFER_ISOC) then
      try_named cfg g (if dir_in then "ep5in" else "ep6out") s
    else if type =? USB_ENDPOINT_XFER_INT then
      try_named cfg g (if dir_in then "ep1in" else "ep2out") s
    else Some (None, s)
  else Some (None, s).

(** The index of the endpoint returned, [None] for NULL. *)
Definition usb_ep_autoconfig (cfg : build_config) (g : usb_gadget) (s : ep_state) :
    option (option nat * ep_state) :=
  or_else (preferred cfg g s) (try_all cfg g 0 (ep_list g)).

(** The gadget and [epnum] after the reset. *)
Definition usb_ep_autoconfig_reset (g : usb_gadget) : usb_gadget * Z :=
  (mkGadget (gadget_name g) (is_dualspeed g)
     ((fun ep => mkEp (ep_name ep) (maxpacket ep) None) <$> ep_list g), 0).

(** ** Lemmas *)
Definition xfer_type (d : usb_endpoint_descriptor) : Z :=
  Z.land (bmAttributes d) USB_ENDPOINT_XFERTYPE_MASK.
Definition direction (d : usb_endpoint_descriptor) : Z := Z.land (bEndpointAddress d) USB_DIR_IN.

(** What every call of [ep_matches] keeps. *)
Definition kept (s s' : ep_state) : Prop :=
  bmAttributes (fst s') = bmAttributes (fst s) /\ direction (fst s') = direction (fst s).

(** *** The naming convention of the comment in the source: [ep1], [ep1in],
    [ep1-bulk], [ep1in-bulk], and [ep-a] *)
Inductive ep_dir := AnyDir | OnlyIn | OnlyOut.
Inductive ep_kind := AnyKind | OnlyBulk | OnlyIso | OnlyInt.
Inductive shape := Configurable (c : ascii) | Fixed (n : nat) (dir : ep_dir) (kind : ep_kind).

Definition name_of (sh : shape) : list ascii :=
  match sh with
  | Configurable c => chars "ep-" ++ [c]
  | Fixed n dir kind =>
      chars "ep" ++ chars (pretty n) ++
      chars (match dir with AnyDir => "" | OnlyIn => "in" | OnlyOut => "out" end) ++
      chars (match kind with AnyKind => "" | OnlyBulk => "-bulk" | OnlyIso => "-iso" | OnlyInt => "-int" end)
  end.

(** Whether an endpoint serves a transfer type and a direction.  A bulk
    endpoint serves interrupt transfers too; the interrupt endpoints of the
    PXA 25x are avoided. *)
Definition serves_request (pxa25x : bool) (sh : shape) (type : Z) (dir_in : bool) : bool :=
  match sh with
  | Configurable _ => true
  | Fixed _ dir kind =>
      match dir with AnyDir => true | OnlyIn => dir_in | OnlyOut => negb dir_in end &&
      match kind with
      | AnyKind => true
      | OnlyBulk => (type =? USB_ENDPOINT_XFER_BULK) || (type =? USB_ENDPOINT_XFER_INT)
      | OnlyIso => type =? USB_ENDPOINT_XFER_ISOC
      | OnlyInt => (type =? USB_ENDPOINT_XFER_INT) && negb pxa25x
      end
  end.

(** The number of an endpoint; [epnum] is the counter after the match. *)
Definition number_of (sh : shape) (epnum : Z) : Z :=
  match sh with Configurable _ => epnum | Fixed n _ _ => Z.of_nat n end.
Definition shape_ok (sh : shape) : Prop :=
  match sh with Configurable _ => True | Fixed n _ _ => (n <= 15)%nat end.

(** The descriptor and [epnum] of a successful match on [ep]. *)
Definition configured (cfg : build_config) (g : usb_gadget) (ep : usb_ep) (d : usb_endpoint_descriptor)
    (epnum : Z) : Prop :=
  driver_data ep = None /\ xfer_type d <> USB_ENDPOINT_XFER_CONTROL /\
  0 <= Z.land (bEndpointAddress d) 0x7f <= 15 /\
  (xfer_type d = USB_ENDPOINT_XFER_BULK -> wMaxPacketSize d = Z.min 64 (maxpacket ep)) /\
  (xfer_type d = USB_ENDPOINT_XFER_INT \/ xfer_type d = USB_ENDPOINT_XFER_ISOC ->
     Z.land 0x7ff (wMaxPacketSize d) <= maxpacket ep) /\
  (forall sh, shape_ok sh -> ep_name ep = name_of sh ->
     serves_request (gadget_is cfg "pxa25x_udc" g) sh (xfer_type d) (truthy (direction d)) = true /\
     Z.land (bEndpointAddress d) 0x7f = number_of sh epnum).

(** The number in the name of an endpoint is a USB endpoint number. *)
Definition ep_number_ok (ep : usb_ep) : Prop := 0 <= strtoul_at (ep_name ep) 2 <= 15.

(** The addresses [ep_matches] composes: the direction and a number up to 15. *)
Lemma address_ok a num :
  0 <= num <= 15 ->
  let a' := Z.lor (Z.land a USB_DIR_IN) num in
  Z.land a' USB_DIR_IN = Z.land a USB_DIR_IN /\ Z.land a' 0x7f = num /\ u8 a' = a'.
Proof.
  intros Hn. cbv zeta.
  assert (Z.land a USB_DIR_IN = 0 \/ Z.land a USB_DIR_IN = 128) as Ha.
  { change USB_DIR_IN with (2 ^ 7). destruct (Z.testbit a 7) eqn:E; [right|left];
      apply Z.bits_inj_iff'; intros i Hi; rewrite Z.land_spec.
    - change 128 with (2 ^ 7). rewrite Z.pow2_bits_eqb by lia.
      destruct (Z.eqb_spec 7 i) as [<-|]; [by rewrite E|by rewrite andb_false_r].
    - rewrite Z.pow2_bits_eqb, Z.bits_0 by lia.
      destruct (Z.eqb_spec 7 i) as [<-|]; [by rewrite E|by rewrite andb_false_r]. }
  set (f x num := (Z.land (Z.lor x num) 0x80 =? x) && (Z.land (Z.lor x num) 0x7f =? num) &&
                  (u8 (Z.lor x num) =? Z.lor x num)).
  assert (f (Z.land a USB_DIR_IN) num = true) as H.
  { destruct Ha as [-> | ->]; apply (forall_below (f _) 16); [reflexivity|lia|reflexivity|lia]. }
  unfold f in H. rewrite !andb_true_iff, !Z.eqb_eq in H. tauto.
Qed.

Lemma size_allows_max g ep d :
  size_allows g ep d = true ->
  xfer_type d = USB_ENDPOINT_XFER_INT \/ xfer_type d = USB_ENDPOINT_XFER_ISOC ->
  Z.land 0x7ff (wMaxPacketSize d) <= maxpacket ep.
Proof.
  unfold size_allows. fold (xfer_type d). cbv zeta. intros H [Ht|Ht]; rewrite Ht in H; cbn in H;
    destruct (Z.ltb_spec (maxpacket ep) (Z.land 0x7ff (wMaxPacketSize d)));
    try done; by repeat case_match.
Qed.

Lemma land_dir_idem a : Z.land (Z.land a USB_DIR_IN) USB_DIR_IN = Z.land a USB_DIR_IN.
Proof. by rewrite <- Z.land_assoc. Qed.

Lemma report_ok cfg g ep num d n m :
  0 <= num <= 15 -> driver_data ep = None -> xfer_type d <> USB_ENDPOINT_XFER_CONTROL ->
  (xfer_type d = USB_ENDPOINT_XFER_INT \/ xfer_type d = USB_ENDPOINT_XFER_ISOC ->
     Z.land 0x7ff (wMaxPacketSize d) <= maxpacket ep) ->
  (forall sh, shape_ok sh -> ep_name ep = name_of sh ->
     serves_request (gadget_is cfg "pxa25x_udc" g) sh (xfer_type d) (truthy (direction d)) = true /\
     num = number_of sh m) ->
  let d' := report ep num (set_addr (Z.land (bEndpointAddress d) USB_DIR_IN) d) in
  kept (d, n) (d', m) /\ configured cfg g ep d' m.
Proof.
  intros Hnum Hd Ht Hs Hsh. destruct (address_ok (bEndpointAddress d) num Hnum) as (A1 & A2 & A3).
  cbv zeta. unfold report. cbn [bmAttributes bEndpointAddress set_addr]. fold (xfer_type d).
  rewrite A3. unfold kept, configured, direction.
  destruct (Z.eqb_spec (xfer_type d) USB_ENDPOINT_XFER_BULK) as [E|E];
    cbn [fst bmAttributes bEndpointAddress wMaxPacketSize set_addr set_max];
    unfold xfer_type in *; cbn [bmAttributes set_addr set_max]; rewrite A2.
  - split; [done|]. split_and!; [done..|lia|lia| | |].
    + intros _. destruct (Z.ltb_spec 64 (maxpacket ep)); lia.
    + rewrite E. by intros [|].
    + unfold direction in Hsh. by rewrite A1.
  - split; [done|]. split_and!; [done..|lia|lia|done|done|]. unfold direction in Hsh. by rewrite A1.
Qed.

(** The tests of the name against the convention: all cases by evaluation. *)
Definition dirs : list ep_dir := [AnyDir; OnlyIn; OnlyOut].
Definition ep_kinds : list ep_kind := [AnyKind; OnlyBulk; OnlyIso; OnlyInt].
Definition name_check (pxa : bool) (n : nat) (dir : ep_dir) (kind : ep_kind) (type : Z) (dir_in : bool) : bool :=
  let sh := Fixed n dir kind in
  bool_decide (name_allows (mkBuild (fun _ => pxa) false) (mkGadget "pxa25x_udc" false []) (name_of sh)
      (mkDesc (if dir_in then USB_DIR_IN else 0) type 0) = Some (serves_request pxa sh type dir_in)) &&
  (strtoul_at (name_of sh) 2 =? Z.of_nat n) && isdigit (default "0"%char (char_at (name_of sh) 2)).
Lemma name_check_all :
  forallb (fun pxa => forallb (fun dir => forallb (fun kind => forallb (fun dir_in => forallb (fun type =>
    forallb (fun n => name_check pxa n dir kind type dir_in) (seq 0 16)) [1; 2; 3]) [true; false])
    ep_kinds) dirs) [true; false] = true.
Proof. by vm_compute. Qed.

Lemma name_allows_desc cfg g name d :
  name_allows cfg g name d =
  name_allows (mkBuild (fun _ => gadget_is cfg "pxa25x_udc" g) false) (mkGadget "pxa25x_udc" false []) name
    (mkDesc (if truthy (direction d) then USB_DIR_IN else 0) (xfer_type d) 0).
Proof.
  unfold name_allows. cbn [bmAttributes bEndpointAddress].
  assert (Z.land (xfer_type d) USB_ENDPOINT_XFERTYPE_MASK = xfer_type d) as ->
    by (unfold xfer_type; by rewrite <- Z.land_assoc).
  assert (truthy (Z.land (if truthy (direction d) then USB_DIR_IN else 0) USB_DIR_IN) = truthy (direction d)) as ->
    by (by destruct (truthy (direction d))).
  assert (gadget_is (mkBuild (fun _ => gadget_is cfg "pxa25x_udc" g) false) "pxa25x_udc"
    (mkGadget "pxa25x_udc" false []) = gadget_is cfg "pxa25x_udc" g) as ->
    by (unfold gadget_is at 1; cbn; by rewrite andb_true_r).
  done.
Qed.

Lemma xfer_type_cases d : xfer_type d <> USB_ENDPOINT_XFER_CONTROL -> In (xfer_type d) [1; 2; 3].
Proof.
  intros H. unfold xfer_type in *. change USB_ENDPOINT_XFERTYPE_MASK with (Z.ones 2) in *.
  rewrite Z.land_ones in * by lia. pose proof (Z.mod_pos_bound (bmAttributes d) (2 ^ 2)).
  unfold USB_ENDPOINT_XFER_CONTROL in H. cbn [In]. lia.
Qed.

Lemma name_allows_shape cfg g sh d :
  shape_ok sh -> xfer_type d <> USB_ENDPOINT_XFER_CONTROL ->
  name_allows cfg g (name_of sh) d =
    Some (serves_request (gadget_is cfg "pxa25x_udc" g) sh (xfer_type d) (truthy (direction d))) /\
  match sh with
  | Configurable _ => char_at (name_of sh) 2 = Some "-"%char
  | Fixed n _ _ => strtoul_at (name_of sh) 2 = Z.of_nat n /\
                   isdigit (default "0"%char (char_at (name_of sh) 2)) = true
  end.
Proof.
  intros Hok Ht. destruct sh as [c|n dir kind]; [done|]. rewrite name_allows_desc.
  assert (name_check (gadget_is cfg "pxa25x_udc" g) n dir kind (xfer_type d) (truthy (direction d)) = true) as H.
  { pose proof name_check_all as H. rewrite forallb_forall in H.
    specialize (H (gadget_is cfg "pxa25x_udc" g) ltac:(destruct (gadget_is _ _ _); cbn; tauto)).
    cbv beta in H. rewrite forallb_forall in H. specialize (H dir ltac:(destruct dir; cbn; tauto)).
    cbv beta in H. rewrite forallb_forall in H. specialize (H kind ltac:(destruct kind; cbn; tauto)).
    cbv beta in H. rewrite forallb_forall in H.
    specialize (H (truthy (direction d)) ltac:(destruct (truthy _); cbn; tauto)).
    cbv beta in H. rewrite forallb_forall in H. specialize (H (xfer_type d) (xfer_type_cases d Ht)).
    cbv beta in H. rewrite forallb_forall in H. apply H. apply in_seq. cbn in Hok. lia. }
  unfold name_check in H. cbv zeta in H. rewrite !andb_true_iff in H. destruct H as ((H1 & H2) & H3).
  apply bool_decide_eq_true_1 in H1. split; [done|]. split; [lia|done].
Qed.

Lemma ep_matches_spec cfg g ep d n b d' n' :
  ep_number_ok ep -> 0 <= n ->
  ep_matches cfg g ep (d, n) = Some (b, (d', n')) ->
  kept (d, n) (d', n') /\ 0 <= n' /\ (b = true -> configured cfg g ep d' n').
Proof.
  intros Hok Hn H. unfold ep_matches in H. fold (xfer_type d) in H.
  destruct (driver_data ep) eqn:Ed; [by simplify_eq|].
  destruct (Z.eqb_spec (xfer_type d) USB_ENDPOINT_XFER_CONTROL) as [|Et]; [by simplify_eq|].
  destruct (char_at (ep_name ep) 0) as [c0|]; [|done]. cbn [mbind option_bind] in H.
  destruct (negb (is_char "e" c0)); [by simplify_eq|].
  destruct (name_allows cfg g (ep_name ep) d) as [ok|] eqn:Ena; [|done]. cbn [mbind option_bind] in H.
  destruct ok; cbn [negb] in H; [|by simplify_eq]. cbv zeta in H.
  set (d1 := if wMaxPacketSize d =? 0 then _ else _) in H.
  assert (bmAttributes d1 = bmAttributes d /\ bEndpointAddress d1 = bEndpointAddress d) as [Hm Ha]
    by (unfold d1; by destruct (wMaxPacketSize d =? 0)).
  assert (xfer_type d1 = xfer_type d) as Hx by (unfold xfer_type; by rewrite Hm).
  destruct (size_allows g ep d1) eqn:Es; cbn [negb] in H;
    [|simplify_eq; unfold kept, direction; cbn; by rewrite Hm, Ha].
  destruct (char_at (ep_name ep) 2) as [c2|] eqn:Ec2; [|done]. cbn [mbind option_bind] in H.
  assert (direction d1 = direction d) as Hdir by (unfold direction; by rewrite Ha).
  assert (forall num m, 0 <= num <= 15 ->
    (forall sh, shape_ok sh -> ep_name ep = name_of sh -> num = number_of sh m) ->
    let d' := report ep num (set_addr (Z.land (bEndpointAddress d1) USB_DIR_IN) d1) in
    kept (d, n) (d', m) /\ configured cfg g ep d' m) as Hrep.
  { intros num m Hnum Hsh. destruct (report_ok cfg g ep num d1 n m Hnum) as [[K1 K2] C]; try done.
    - by rewrite Hx.
    - rewrite Hx. rewrite <- Hx. apply size_allows_max with g. done.
    - intros sh Hok' Hname. split; [|by apply Hsh]. rewrite Hx, Hdir.
      destruct (name_allows_shape cfg g sh d Hok' Et) as [E _]. rewrite <- Hname, Ena in E. by injection E.
    - split; [|done]. unfold kept, direction in *. cbn [fst] in *. by rewrite K1, K2, Hm, Ha. }
  destruct (isdigit c2) eqn:Edg; [|destruct (15 <? u32 (n + 1)) eqn:E15]; simplify_eq.
  - destruct (Hrep (u8 (strtoul_at (ep_name ep) 2)) n'); [|clear Hrep|done].
    + rewrite u8_small; unfold ep_number_ok in *; lia.
    + intros sh Hok' Hname. rewrite u8_small by (unfold ep_number_ok in *; lia).
      destruct (name_allows_shape cfg g sh d Hok' Et) as [_ E]. rewrite <- Hname in E.
      destruct sh; [|by destruct E]. rewrite Ec2 in E. injection E as ->. discriminate Edg.
  - unfold kept, direction. cbn. rewrite Hm, Ha, land_dir_idem. split; [done|].
    split; [apply u32_range|done].
  - bool_to_prop. pose proof (u32_range (n + 1)).
    destruct (Hrep (u32 (n + 1)) (u32 (n + 1))); [lia| |split; [done|]; split; [lia|done]].
    intros sh Hok' Hname. destruct (name_allows_shape cfg g sh d Hok' Et) as [_ E]. rewrite <- Hname in E.
    destruct sh; [done|]. destruct E as [_ E]. rewrite Ec2 in E. cbn in E. congruence.
Qed.

Lemma kept_trans s1 s2 s3 : kept s1 s2 -> kept s2 s3 -> kept s1 s3.
Proof. unfold kept. intros [] []. split; congruence. Qed.

(** An outcome of the search: what it keeps, and the endpoint it found. *)
Definition found (cfg : build_config) (g : usb_gadget) (s : ep_state) (r : option (option nat * ep_state)) : Prop :=
  forall e s', r = Some (e, s') ->
    kept s s' /\ 0 <= snd s' /\
    forall i, e = Some i -> exists ep, ep_list g !! i = Some ep /\ configured cfg g ep (fst s') (snd s').

Lemma found_or_else cfg g s a b :
  found cfg g s a -> (forall s', 0 <= snd s' -> found cfg g s' (b s')) -> found cfg g s (or_else a b).
Proof.
  intros Ha Hb e s' H. unfold or_else in H. destruct a as [[e1 s1]|]; [|done]. cbn in H.
  destruct (Ha e1 s1 eq_refl) as (K1 & N1 & F1).
  destruct e1; [by simplify_eq|]. destruct (Hb s1 N1 e s' H) as (K2 & N2 & F2).
  split; [by eapply kept_trans|done].
Qed.

Lemma found_none cfg g s : 0 <= snd s -> found cfg g s (Some (None, s)).
Proof. intros Hn e s' [= <- <-]. by split. Qed.

Section Search.
Context (cfg : build_config) (g : usb_gadget).
Context (Hg : Forall ep_number_ok (ep_list g)).

Lemma found_named name s : 0 <= snd s -> found cfg g s (try_named cfg g name s).
Proof using Hg.
  intros Hn e s' H. unfold try_named in H.
  destruct (find_ep (ep_list g) (chars name)) as [i|]; [|by apply (found_none cfg g s Hn)].
  destruct (ep_list g !! i) as [ep|] eqn:El; [|done]. cbn [mbind option_bind] in H.
  destruct (ep_matches cfg g ep s) as [[b [d' n']]|] eqn:Em; [|done]. cbn in H.
  destruct s as [d n]. injection H as <- <-.
  destruct (ep_matches_spec cfg g ep d n b d' n') as (K & N & C); [|done..|].
  { by eapply Forall_lookup_1. }
  split; [done|]. split; [done|]. intros j Hj. destruct b; [|done]. injection Hj as <-. eauto.
Qed.

Lemma found_all i l s :
  0 <= snd s -> (forall j ep, l !! j = Some ep -> ep_list g !! (i + j)%nat = Some ep) ->
  found cfg g s (try_all cfg g i l s).
Proof using Hg.
  revert i s. induction l as [|ep l IH]; intros i s Hn Hl e s' H; [by apply (found_none cfg g s Hn)|].
  cbn in H. destruct (ep_matches cfg g ep s) as [[b [d' n']]|] eqn:Em; [|done]. cbn in H.
  pose proof (Hl 0%nat ep eq_refl) as He. rewrite Nat.add_0_r in He. destruct s as [d n].
  destruct (ep_matches_spec cfg g ep d n b d' n') as (K & N & C); [by eapply Forall_lookup_1|done..|].
  destruct b.
  - injection H as <- <-. split; [done|]. split; [done|]. intros j [= <-]. eauto.
  - destruct (IH (S i) (d', n') N) with (e := e) (s' := s') as (K' & N' & F); [|done|].
    + intros j ep' Hj. rewrite <- (Hl (S j) ep' Hj). f_equal. lia.
    + split; [by eapply kept_trans|done].
Qed.

Lemma found_preferred s : 0 <= snd s -> found cfg g s (preferred cfg g s).
Proof using Hg.
  intros Hn. unfold preferred. cbv zeta.
  repeat case_if; auto using found_none, found_named. apply found_or_else; auto using found_named.
Qed.
End Search.

(** C30: an endpoint returned by the autoconfiguration, on a gadget whose
    endpoint names carry numbers of at most 15, is an unclaimed endpoint of
    the gadget for a non-control transfer.  If its name follows the naming
    convention it serves the direction and the type of transfer of the
    descriptor: a name with a direction only that direction, one with a type
    only that type (a bulk one interrupt transfers as well).  The descriptor
    keeps its direction and attributes and gets the number in the name, or
    for a configurable endpoint the next free number, of at most 15; a bulk
    packet size of at most 64 and the endpoint's own; for interrupt and
    isochronous transfers its packet size is one the endpoint can take. *)
Theorem autoconfig_sound cfg g d n e d' n' :
  Forall ep_number_ok (ep_list g) -> 0 <= n ->
  usb_ep_autoconfig cfg g (d, n) = Some (e, (d', n')) ->
  bmAttributes d' = bmAttributes d /\ direction d' = direction d /\
  forall i, e = Some i -> exists ep, ep_list g !! i = Some ep /\ configured cfg g ep d' n'.
Proof.
  intros Hg Hn H. apply (found_or_else cfg g (d, n)) in H as ([K1 K2] & _ & F); [done|..].
  - by apply found_preferred.
  - intros s' Hs. by apply found_all.
Qed.

(** A successful match on an endpoint without a fixed number. *)
Lemma assigned_number cfg g ep d n d' n' :
  isdigit (default "0"%char (char_at (ep_name ep) 2)) = false -> 0 <= n < 2 ^ 32 - 1 ->
  ep_matches cfg g ep (d, n) = Some (true, (d', n')) ->
  n' = n + 1 /\ n' <= 15 /\ Z.land (bEndpointAddress d') 0x7f = n'.
Proof.
  intros Hnd Hn H. unfold ep_matches in H. cbv zeta in H.
  destruct (driver_data ep); [done|]. destruct (_ =? USB_ENDPOINT_XFER_CONTROL); [done|].
  destruct (char_at (ep_name ep) 0) as [c0|]; [|done]. cbn [mbind option_bind] in H.
  destruct (negb (is_char "e" c0)); [done|].
  destruct (name_allows cfg g (ep_name ep) d) as [ok|]; [|done]. cbn [mbind option_bind] in H.
  destruct (negb ok); [done|]. destruct (negb (size_allows _ _ _)); [done|].
  destruct (char_at (ep_name ep) 2) as [c2|]; [|done]. cbn [mbind option_bind default from_option id] in H, Hnd.
  rewrite Hnd, u32_small in H by lia.
  destruct (Z.ltb_spec 15 (n + 1)); [done|]. injection H as <- <-.
  split; [done|]. split; [done|].
  match goal with |- context [report ep _ (set_addr _ ?d1)] =>
    destruct (address_ok (bEndpointAddress d1) (n + 1)) as (_ & A2 & A3); [lia|] end.
  unfold report. cbn [bEndpointAddress set_addr].
  case_if; cbn [bEndpointAddress set_addr set_max]; by rewrite A3, A2.
Qed.

(** property: the numbers given to endpoints without a fixed number are pairwise
    different: a second successful match on such an endpoint, without a
    reset in between, reports another address. *)
Theorem assigned_numbers_differ cfg g ep1 ep2 d1 d2 n d1' n1 n1' d2' n2 :
  isdigit (default "0"%char (char_at (ep_name ep1) 2)) = false ->
  isdigit (default "0"%char (char_at (ep_name ep2) 2)) = false ->
  0 <= n -> n1 <= n1' < 2 ^ 32 - 1 ->
  ep_matches cfg g ep1 (d1, n) = Some (true, (d1', n1)) ->
  ep_matches cfg g ep2 (d2, n1') = Some (true, (d2', n2)) ->
  n < 2 ^ 32 - 1 -> n < n1 /\ n1' < n2 <= 15 /\ bEndpointAddress d1' <> bEndpointAddress d2'.
Proof.
  intros Hd1 Hd2 Hn Hle H1 H2 Hlt.
  destruct (assigned_number _ _ _ _ n _ _ Hd1 ltac:(lia) H1) as (-> & ? & E1).
  destruct (assigned_number _ _ _ _ n1' _ _ Hd2 ltac:(lia) H2) as (-> & ? & E2).
  split; [lia|]. split; [lia|]. intros E. rewrite E in E1. lia.
Qed.

(** property: after the reset every endpoint of the gadget is unclaimed again and
    keeps its name and packet size, and the numbers start again at 1. *)
Theorem autoconfig_reset_spec cfg g ep d d' n' i :
  ep_list (fst (usb_ep_autoconfig_reset g)) !! i = Some ep ->
  driver_data ep = None /\
  (exists ep0, ep_list g !! i = Some ep0 /\ ep_name ep = ep_name ep0 /\ maxpacket ep = maxpacket ep0) /\
  (isdigit (default "0"%char (char_at (ep_name ep) 2)) = false ->
   ep_matches cfg g ep (d, snd (usb_ep_autoconfig_reset g)) = Some (true, (d', n')) -> n' = 1).
Proof.
  cbn [usb_ep_autoconfig_reset fst snd ep_list]. rewrite list_lookup_fmap.
  destruct (ep_list g !! i) as [ep0|]; [|done]. intros [= <-]. split; [done|].
  split; [by exists ep0|]. intros Hnd Hm.
  destruct (assigned_number _ _ _ _ 0 _ _ Hnd ltac:(lia) Hm) as (-> & _). done.
Qed.

(** property: the controller numbers are two binary-coded decimal digits and tell
    the enabled controllers apart. *)
Theorem controller_number_spec cfg g1 g2 :
  let n1 := usb_gadget_controller_number cfg g1 in
  let n2 := usb_gadget_controller_number cfg g2 in
  (n1 = - ENOENT \/ 0x01 <= n1 <= 0x30 /\ Z.land n1 0x0f <= 9) /\
  (n1 = n2 -> 0 <= n1 -> gadget_name g1 = gadget_name g2).
Proof.
  cbv zeta. unfold usb_gadget_controller_number.
  assert (forall l g, first_controller cfg g l = - ENOENT \/
    (gadget_name g, first_controller cfg g l) ∈ l) as Hin.
  { induction l as [|[chip n] l IH]; intros g; [by left|]. cbn [first_controller].
    unfold gadget_is. case_if; [|destruct (IH g) as [->|?]; [by left|right; by constructor]].
    bool_to_prop. right. rewrite bool_decide_eq_true in *. subst. constructor. }
  assert (forall x y, x ∈ controller_numbers -> y ∈ controller_numbers -> snd x = snd y -> x = y)
    as Hinj.
  { assert (NoDup (snd <$> controller_numbers)) as Hnd by (by apply (bool_decide_unpack _)).
    intros x y Hx Hy E. apply list_elem_of_lookup in Hx as [i Hx], Hy as [j Hy].
    assert (i = j) as ->.
    { eapply NoDup_lookup; [exact Hnd| |]; rewrite list_lookup_fmap; [by rewrite Hx|].
      rewrite Hy, E. done. }
    congruence. }
  assert (Forall (fun x => 0x01 <= snd x <= 0x30 /\ Z.land (snd x) 0x0f <= 9) controller_numbers)
    as Hr by (by apply (bool_decide_unpack _)).
  split.
  - destruct (Hin controller_numbers g1) as [->|H]; [by left|right].
    rewrite Forall_forall in Hr. by apply Hr in H.
  - intros E H0. destruct (Hin controller_numbers g1) as [E1|H1]; [rewrite E1 in H0; by destruct H0|].
    destruct (Hin controller_numbers g2) as [E2|H2]; [rewrite E, E2 in H0; by destruct H0|].
    pose proof (Hinj _ _ H1 H2 E) as Hp. congruence.
Qed.

(** ** Concrete gadgets *)
Definition demo_cfg : build_config := mkBuild (fun s => bool_decide (s = "net2280")) false.
Definition demo_ep (name : string) (max : Z) : usb_ep := mkEp (chars name) max None.
(** A full speed controller: a large endpoint before a small one. *)
Definition demo_gadget : usb_gadget :=
  mkGadget "net2280" false [demo_ep "ep-a" 512; demo_ep "ep-b" 64; demo_ep "ep3out-bulk" 128].
Definition demo_int_in : usb_endpoint_descriptor := mkDesc 0x80 3 0.
Definition demo_bulk_out : usb_endpoint_descriptor := mkDesc 0 2 0.

(** property: the search is not a pure choice: an interrupt descriptor that leaves
    the packet size open is given the size of the first endpoint tried and
    keeps it when that endpoint turns out not to fit, so that an endpoint
    which alone would have been accepted is rejected and the call fails with
    a modified descriptor. *)
Theorem failed_search_modifies :
  usb_ep_autoconfig demo_cfg demo_gadget (demo_int_in, 0) = Some (None, (mkDesc 0x80 3 512, 0)) /\
  usb_ep_autoconfig demo_cfg (mkGadget "net2280" false [demo_ep "ep-b" 64]) (demo_int_in, 0) =
    Some (Some 0%nat, (mkDesc 0x81 3 64, 1)).
Proof. split; reflexivity. Qed.

Lemma demo_numbers : Forall ep_number_ok (ep_list demo_gadget).
Proof. unfold demo_gadget, ep_number_ok. cbn [ep_list]. repeat constructor; vm_compute; congruence. Qed.

Lemma autoconfig_sound_witness :
  usb_ep_autoconfig demo_cfg demo_gadget (demo_bulk_out, 0) = Some (Some 0%nat, (mkDesc 1 2 64, 1)) /\
  configured demo_cfg demo_gadget (demo_ep "ep-a" 512) (mkDesc 1 2 64) 1.
Proof.
  split; [reflexivity|].
  destruct (autoconfig_sound demo_cfg demo_gadget demo_bulk_out 0 (Some 0%nat) (mkDesc 1 2 64) 1
    demo_numbers) as (_ & _ & H); [lia|reflexivity|].
  destruct (H 0%nat eq_refl) as (ep & [= <-] & HC). exact HC.
Defined.

Lemma assigned_numbers_differ_witness : (1 : Z) <> 2.
Proof.
  apply (assigned_numbers_differ demo_cfg demo_gadget (demo_ep "ep-a" 512) (demo_ep "ep-b" 64)
    demo_bulk_out demo_bulk_out 0 (mkDesc 1 2 64) 1 1 (mkDesc 2 2 64) 2); reflexivity || lia.
Defined.

Lemma autoconfig_reset_spec_witness :
  driver_data (demo_ep "ep-b" 64) = None.
Proof.
  apply (autoconfig_reset_spec demo_cfg demo_gadget (demo_ep "ep-b" 64) demo_bulk_out
    demo_bulk_out 0 1). reflexivity.
Defined.

Lemma controller_number_spec_witness :
  usb_gadget_controller_number demo_cfg demo_gadget = 0x01 /\
  gadget_name demo_gadget = gadget_name (mkGadget "net2280" true []).
Proof.
  split; [reflexivity|].
  apply (controller_number_spec demo_cfg demo_gadget (mkGadget "net2280" true []));
    [reflexivity|vm_compute; discriminate].
Defined.
