(* ===== verification/Composite.v ===== *)
(** * USB gadget: the composite framework, data and descriptors (test_gadget/composite.c)

    Configurations, functions and the composite device; adding functions and
    configurations, interface and string identifiers; the descriptors the
    device reports (configuration, device qualifier, strings).  Functions are
    immutable records with an identity [f_id]; the endpoint bitmap they share
    between the function list and the interface table is kept in the device,
    indexed by that identity.  A NULL dereference or an access outside a
    buffer is [None]. *)

From Stdlib Require Import ZArith.
From stdpp Require Import base list gmap.
From S2P Require Import Prelude UsbString UsbConfig.

Definition USB_BUFSIZ : nat := 1024.
Definition MAX_CONFIG_INTERFACES : nat := 16.
Definition USB_DT_DEVICE : Z := 0x01.
Definition USB_DT_ENDPOINT : Z := 0x05.
Definition USB_DT_DEVICE_QUALIFIER : Z := 0x06.
Definition USB_DT_OTHER_SPEED_CONFIG : Z := 0x07.

Inductive usb_device_speed := USB_SPEED_UNKNOWN | USB_SPEED_LOW | USB_SPEED_FULL | USB_SPEED_HIGH.
#[export] Instance usb_device_speed_eq_dec : EqDecision usb_device_speed.
Proof. solve_decision. Defined.

Definition descs : Type := option (list (list Z)).

(** [struct usb_function]: the flags say which callbacks are not NULL. *)
Record usb_function := mkFun {
  f_id : Z;
  f_descriptors : descs;
  f_hs_descriptors : descs;
  f_strings : option (list usb_gadget_strings);
  has_bind : bool;
  has_unbind : bool;
  has_set_alt : bool;
  has_get_alt : bool;
  has_disable : bool;
  has_setup : bool;
  has_suspend : bool;
  has_resume : bool;
}.

Record usb_configuration := mkConfig {
  bConfigurationValue : Z;
  iConfiguration : Z;
  c_bmAttributes : Z;
  bMaxPower : Z;
  c_descriptors : descs;
  c_strings : option (list usb_gadget_strings);
  c_has_setup : bool;
  c_has_unbind : bool;
  functions : list usb_function;
  next_interface_id : Z;
  interface : list (option usb_function);
  fullspeed : bool;
  highspeed : bool;
}.

Definition set_functions (l : list usb_function) (c : usb_configuration) :=
  mkConfig (bConfigurationValue c) (iConfiguration c) (c_bmAttributes c) (bMaxPower c)
    (c_descriptors c) (c_strings c) (c_has_setup c) (c_has_unbind c) l
    (next_interface_id c) (interface c) (fullspeed c) (highspeed c).
Definition set_interfaces (n : Z) (l : list (option usb_function)) (c : usb_configuration) :=
  mkConfig (bConfigurationValue c) (iConfiguration c) (c_bmAttributes c) (bMaxPower c)
    (c_descriptors c) (c_strings c) (c_has_setup c) (c_has_unbind c) (functions c)
    n l (fullspeed c) (highspeed c).
Definition set_speeds (fs hs : bool) (c : usb_configuration) :=
  mkConfig (bConfigurationValue c) (iConfiguration c) (c_bmAttributes c) (bMaxPower c)
    (c_descriptors c) (c_strings c) (c_has_setup c) (c_has_unbind c) (functions c)
    (next_interface_id c) (interface c) fs hs.

(** ** Interface identifiers and functions *)
Definition usb_interface_id (config : usb_configuration) (function : usb_function) :
    Z * usb_configuration :=
  let id := next_interface_id config in
  if id <? Z.of_nat MAX_CONFIG_INTERFACES then
    (id, set_interfaces (id + 1) (<[Z.to_nat id := Some function]> (interface config)) config)
  else (- ENODEV, config).

(** [bind]: the function's bind callback; it may allocate interface
    identifiers and change anything else of the configuration but its list of
    functions. *)
Definition usb_add_function (bind : usb_configuration -> Z * usb_configuration)
    (config : usb_configuration) (function : usb_function) : Z * usb_configuration :=
  if negb (has_set_alt function) || negb (has_disable function) then (- EINVAL, config)
  else
    let config := set_functions (functions config ++ [function]) config in
    let '(value, config) :=
      if has_bind function then
        let '(value, config) := bind config in
        if value <? 0
        then (value, set_functions (filter (fun f => f_id f <> f_id function) (functions config)) config)
        else (value, config)
      else (0, config) in
    let fs := if negb (fullspeed config) && (match f_descriptors function with Some _ => true | None => false end)
              then true else fullspeed config in
    let hs := if negb (highspeed config) && (match f_hs_descriptors function with Some _ => true | None => false end)
              then true else highspeed config in
    (value, set_speeds fs hs config).

(** ** The device *)
Record usb_device_descriptor := mkDevDesc {
  bcdUSB : Z;
  bDeviceClass : Z;
  bDeviceSubClass : Z;
  bDeviceProtocol : Z;
  bMaxPacketSize0 : Z;
  idVendor : Z;
  idProduct : Z;
  bcdDevice : Z;
  iManufacturer : Z;
  iProduct : Z;
  iSerialNumber : Z;
  bNumConfigurations : Z;
}.

(** The 18 bytes of [struct usb_device_descriptor]. *)
Definition dev_bytes (d : usb_device_descriptor) : list Z :=
  [18; USB_DT_DEVICE] ++ le16 (bcdUSB d) ++
  [bDeviceClass d; bDeviceSubClass d; bDeviceProtocol d; bMaxPacketSize0 d] ++
  le16 (idVendor d) ++ le16 (idProduct d) ++ le16 (bcdDevice d) ++
  [iManufacturer d; iProduct d; iSerialNumber d; bNumConfigurations d].

Record usb_gadget := mkGadget {
  speed : usb_device_speed;
  gadget_is_dualspeed : bool;
  gadget_is_otg : bool;
  ep0_maxpacket : Z;
}.

(** [struct usb_request] of endpoint 0. *)
Record usb_request := mkReq { r_buf : list Z; r_length : Z; r_zero : bool }.

Record usb_composite_dev := mkCdev {
  gadget : usb_gadget;
  configs : list usb_configuration;
  config : option usb_configuration;
  endpoints : gmap Z Z;             (** bitmap of each function, by [f_id] *)
  deactivations : Z;
  delayed_status : Z;
  next_string_id : Z;
  desc : usb_device_descriptor;
  req : usb_request;
  suspended : Z;
  manufacturer_override : Z;
  product_override : Z;
  serial_override : Z;
}.

(** The static module data: parameters and the registered driver's strings;
    strings are NUL-terminated byte lists. *)
Record usb_composite_driver := mkDriver {
  d_strings : option (list usb_gadget_strings);
  d_iManufacturer : option (list Z);
  d_iProduct : option (list Z);
  p_iManufacturer : option (list Z);
  p_iProduct : option (list Z);
  p_iSerialNumber : option (list Z);
  composite_manufacturer : list Z;
}.

Definition set_config_ptr (c : option usb_configuration) (d : usb_composite_dev) :=
  mkCdev (gadget d) (configs d) c (endpoints d) (deactivations d) (delayed_status d)
    (next_string_id d) (desc d) (req d) (suspended d) (manufacturer_override d)
    (product_override d) (serial_override d).
Definition set_configs (l : list usb_configuration) (d : usb_composite_dev) :=
  mkCdev (gadget d) l (config d) (endpoints d) (deactivations d) (delayed_status d)
    (next_string_id d) (desc d) (req d) (suspended d) (manufacturer_override d)
    (product_override d) (serial_override d).
Definition set_endpoints (m : gmap Z Z) (d : usb_composite_dev) :=
  mkCdev (gadget d) (configs d) (config d) m (deactivations d) (delayed_status d)
    (next_string_id d) (desc d) (req d) (suspended d) (manufacturer_override d)
    (product_override d) (serial_override d).
Definition set_deactivations (n : Z) (d : usb_composite_dev) :=
  mkCdev (gadget d) (configs d) (config d) (endpoints d) n (delayed_status d)
    (next_string_id d) (desc d) (req d) (suspended d) (manufacturer_override d)
    (product_override d) (serial_override d).
Definition set_delayed (n : Z) (d : usb_composite_dev) :=
  mkCdev (gadget d) (configs d) (config d) (endpoints d) (deactivations d) n
    (next_string_id d) (desc d) (req d) (suspended d) (manufacturer_override d)
    (product_override d) (serial_override d).
Definition set_next_string_id (n : Z) (d : usb_composite_dev) :=
  mkCdev (gadget d) (configs d) (config d) (endpoints d) (deactivations d) (delayed_status d)
    n (desc d) (req d) (suspended d) (manufacturer_override d)
    (product_override d) (serial_override d).
Definition set_desc (x : usb_device_descriptor) (d : usb_composite_dev) :=
  mkCdev (gadget d) (configs d) (config d) (endpoints d) (deactivations d) (delayed_status d)
    (next_string_id d) x (req d) (suspended d) (manufacturer_override d)
    (product_override d) (serial_override d).
Definition set_req (r : usb_request) (d : usb_composite_dev) :=
  mkCdev (gadget d) (configs d) (config d) (endpoints d) (deactivations d) (delayed_status d)
    (next_string_id d) (desc d) r (suspended d) (manufacturer_override d)
    (product_override d) (serial_override d).
Definition set_suspended (n : Z) (d : usb_composite_dev) :=
  mkCdev (gadget d) (configs d) (config d) (endpoints d) (deactivations d) (delayed_status d)
    (next_string_id d) (desc d) (req d) n (manufacturer_override d)
    (product_override d) (serial_override d).
Definition set_overrides (m p s : Z) (d : usb_composite_dev) :=
  mkCdev (gadget d) (configs d) (config d) (endpoints d) (deactivations d) (delayed_status d)
    (next_string_id d) (desc d) (req d) (suspended d) m p s.

Definition with_buf (b : list Z) (d : usb_composite_dev) : usb_composite_dev :=
  set_req (mkReq b (r_length (req d)) (r_zero (req d))) d.

(** ** Configuration descriptors *)

(** One call of [usb_descriptor_fillbuf] of [config_buf], at [next] with
    [len] bytes left: a negative status and the buffer, or the buffer and the new
    [next] and [len]. *)
Definition add_descs (src : descs) (st : list Z * nat * nat) :
    option (Z * list Z + list Z * nat * nat) :=
  let '(buf, next, len) := st in
  match src with
  | None => Some (inr st)
  | Some _ =>
      r ← usb_descriptor_fillbuf buf next len src;
      let '(status, buf) := r in
      if status <? 0 then Some (inl (status, buf))
      else Some (inr (buf, next + Z.to_nat status, len - Z.to_nat status)%nat)
  end.

Definition speed_descs (speed : usb_device_speed) (f : usb_function) : descs :=
  if decide (speed = USB_SPEED_HIGH) then f_hs_descriptors f else f_descriptors f.

(** The loop over the functions. *)
Fixpoint add_functions (speed : usb_device_speed) (fs : list usb_function)
    (st : list Z * nat * nat) : option (Z * list Z + list Z * nat * nat) :=
  match fs with
  | [] => Some (inr st)
  | f :: fs =>
      r ← add_descs (speed_descs speed f) st;
      match r with
      | inl e => Some (inl e)
      | inr st => add_functions speed fs st
      end
  end.

Section Descriptors.
(** CONFIG_USB_GADGET_VBUS_DRAW. *)
Variable VBUS_DRAW : Z.

(** The return value and the buffer. *)
Definition config_buf (config : usb_configuration) (speed : usb_device_speed) (buf : list Z)
    (type : Z) : option (Z * list Z) :=
  buf ← buf_store buf 0 [USB_DT_CONFIG_SIZE; type];
  buf ← buf_store buf 4
    [u8 (next_interface_id config); bConfigurationValue config; iConfiguration config;
     Z.lor USB_CONFIG_ATT_ONE (c_bmAttributes config);
     if bMaxPower config =? 0 then u8 (VBUS_DRAW / 2) else bMaxPower config];
  r ← add_descs (c_descriptors config) (buf, 9, USB_BUFSIZ - 9)%nat;
  match r with
  | inl e => Some e
  | inr st =>
      r ← add_functions speed (functions config) st;
      match r with
      | inl e => Some e
      | inr (buf, next, _) =>
          buf ← buf_store buf 2 (le16 (Z.of_nat next));
          Some (Z.of_nat next, buf)
      end
  end.

(** The speed a descriptor request is answered for. *)
Definition request_speed (g : usb_gadget) (other : bool) : usb_device_speed :=
  if gadget_is_dualspeed g then
    let hs := bool_decide (speed g = USB_SPEED_HIGH) in
    let hs := if other then negb hs else hs in
    if hs then USB_SPEED_HIGH else USB_SPEED_UNKNOWN
  else USB_SPEED_UNKNOWN.

(** Whether a configuration works at the speed. *)
Definition works_at (speed : usb_device_speed) (c : usb_configuration) : bool :=
  if decide (speed = USB_SPEED_HIGH) then highspeed c else fullspeed c.

(** The lookup by index. *)
Fixpoint nth_config (speed : usb_device_speed) (l : list usb_configuration) (index : nat) :
    option usb_configuration :=
  match l with
  | [] => None
  | c :: l =>
      if negb (works_at speed c) then nth_config speed l index
      else match index with O => Some c | S index => nth_config speed l index end
  end.

Definition config_desc (cdev : usb_composite_dev) (w_value : Z) :
    option (Z * usb_composite_dev) :=
  let type := u8 (Z.shiftr w_value 8) in
  let speed := request_speed (gadget cdev) (type =? USB_DT_OTHER_SPEED_CONFIG) in
  match nth_config speed (configs cdev) (Z.to_nat (Z.land w_value 0xff)) with
  | None => Some (- EINVAL, cdev)
  | Some c =>
      r ← config_buf c speed (r_buf (req cdev)) type;
      let '(v, buf) := r in
      Some (v, with_buf buf cdev)
  end.

Fixpoint count_matching (speed : usb_device_speed) (l : list usb_configuration) : Z :=
  match l with
  | [] => 0
  | c :: l => if negb (works_at speed c) then count_matching speed l else 1 + count_matching speed l
  end.

Definition count_configs (cdev : usb_composite_dev) (type : Z) : Z :=
  count_matching (request_speed (gadget cdev) (type =? USB_DT_DEVICE_QUALIFIER)) (configs cdev).

Definition device_qual (cdev : usb_composite_dev) : option usb_composite_dev :=
  let d := desc cdev in
  buf ← buf_store (r_buf (req cdev)) 0
    ([10; USB_DT_DEVICE_QUALIFIER] ++ le16 (bcdUSB d) ++
     [bDeviceClass d; bDeviceSubClass d; bDeviceProtocol d; bMaxPacketSize0 d;
      u8 (count_configs cdev USB_DT_DEVICE_QUALIFIER); 0]);
  Some (with_buf buf cdev).
End Descriptors.

(** ** Strings *)

(** The slot of [buf] for a language: [Some None] when it is already there;
    [None] is a read past the buffer. *)
Fixpoint lang_slot (i : nat) (l : list Z) (language : Z) : option (option nat) :=
  match l with
  | [] => None
  | x :: l =>
      if (x =? 0) || (126 <=? i)%nat then Some (Some i)
      else if x =? language then Some None
      else lang_slot (S i) l language
  end.

(** [buf]: the 16-bit words [wData] of the descriptor. *)
Fixpoint collect_langs (sp : list usb_gadget_strings) (buf : list Z) : option (list Z) :=
  match sp with
  | [] => Some buf
  | s :: sp =>
      slot ← lang_slot 0 buf (u16 (language s));
      match slot with
      | None => collect_langs sp buf
      | Some i =>
          if decide (i < length buf)%nat
          then collect_langs sp (<[i := u16 (language s)]> buf) else None
      end
  end.

Fixpoint lookup_string (sp : list usb_gadget_strings) (buf : list Z) (lang id : Z) :
    option (Z * list Z) :=
  match sp with
  | [] => Some (- EINVAL, buf)
  | s :: sp =>
      if negb (language s =? lang) then lookup_string sp buf lang id
      else
        r ← usb_gadget_get_string s id buf;
        let '(value, buf) := r in
        if 0 <? value then Some (value, buf) else lookup_string sp buf lang id
  end.

(** The string tables of the device, in the order they are searched. *)
Definition string_tables (drv : usb_composite_driver) (cdev : usb_composite_dev) :
    list (list usb_gadget_strings) :=
  let opt (o : option (list usb_gadget_strings)) := match o with Some l => [l] | None => [] end in
  opt (d_strings drv) ++
  (c ← configs cdev; opt (c_strings c) ++ (f ← functions c; opt (f_strings f))).

Fixpoint collect_all (tables : list (list usb_gadget_strings)) (buf : list Z) : option (list Z) :=
  match tables with
  | [] => Some buf
  | sp :: tables => buf ← collect_langs sp buf; collect_all tables buf
  end.

Fixpoint lookup_all (tables : list (list usb_gadget_strings)) (buf : list Z) (lang id : Z) :
    option (Z * list Z) :=
  match tables with
  | [] => Some (- EINVAL, buf)
  | sp :: tables =>
      r ← lookup_string sp buf lang id;
      let '(len, buf) := r in
      if 0 <? len then Some (len, buf) else lookup_all tables buf lang id
  end.

(** [for (len = 0; len <= 126 && s->wData[len]; len++)] *)
Fixpoint count_langs (len : nat) (l : list Z) : nat :=
  match l with
  | [] => len
  | x :: l => if (len <=? 126)%nat && negb (x =? 0) then count_langs (S len) l else len
  end.

Definition get_string (drv : usb_composite_driver) (cdev : usb_composite_dev) (buf : list Z)
    (lang id : Z) : option (Z * list Z) :=
  if id =? 0 then
    buf ← buf_store buf 0 (replicate 256 0);
    buf ← buf_store buf 1 [USB_DT_STRING];
    wData ← collect_all (string_tables drv cdev) (replicate 127 0);
    buf ← buf_store buf 2 (wData ≫= le16);
    let len := count_langs 0 wData in
    if (len =? 0)%nat then Some (- EINVAL, buf)
    else
      let bLength := u8 (2 * (Z.of_nat len + 1)) in
      buf ← buf_store buf 0 [bLength];
      Some (bLength, buf)
  else
    let or (a b : option (list Z)) := match a with Some _ => a | None => b end in
    let str :=
      if manufacturer_override cdev =? id then
        or (p_iManufacturer drv) (or (d_iManufacturer drv) (Some (composite_manufacturer drv)))
      else if product_override cdev =? id then or (p_iProduct drv) (d_iProduct drv)
      else if serial_override cdev =? id then p_iSerialNumber drv
      else None in
    match str with
    | Some str => usb_gadget_get_string (mkStrings lang (Some [(0xff, str)])) 0xff buf
    | None => lookup_all (string_tables drv cdev) buf lang id
    end.

(** ** String identifiers *)
Definition usb_string_id (cdev : usb_composite_dev) : Z * usb_composite_dev :=
  if next_string_id cdev <? 254 then
    let n := u8 (next_string_id cdev + 1) in (n, set_next_string_id n cdev)
  else (- ENODEV, cdev).

(** The loop over the strings of a table: the last identifier used and the
    table with the identifiers assigned so far. *)
Fixpoint assign_ids (next : Z) (str : list (Z * list Z)) : option Z * list (Z * list Z) :=
  match str with
  | [] => (Some next, [])
  | (i, s) :: str =>
      if 254 <=? next then (None, (i, s) :: str)
      else let '(r, str) := assign_ids (next + 1) str in (r, (next + 1, s) :: str)
  end.

Definition usb_string_ids_tab (cdev : usb_composite_dev) (str : list (Z * list Z)) :
    Z * usb_composite_dev * list (Z * list Z) :=
  match assign_ids (next_string_id cdev) str with
  | (Some next, str) => (0, set_next_string_id (u8 next) cdev, str)
  | (None, str) => (- ENODEV, cdev, str)
  end.

Definition usb_string_ids_n (c : usb_composite_dev) (n : Z) : Z * usb_composite_dev :=
  let next := next_string_id c in
  if (254 <? n) || (254 <? u32 (next + n)) then (- ENODEV, c)
  else (next + 1, set_next_string_id (u8 (next + n)) c).

(** [override_id(cdev, &cdev->desc.iXxx)]: the identifier and the device,
    [get]/[put] the field. *)
Definition override_id (get : usb_device_descriptor -> Z)
    (put : Z -> usb_device_descriptor -> usb_device_descriptor) (cdev : usb_composite_dev) :
    Z * usb_composite_dev :=
  if get (desc cdev) =? 0 then
    let '(r, cdev) := usb_string_id cdev in
    if r <? 0 then (get (desc cdev), cdev)
    else (r, set_desc (put r (desc cdev)) cdev)
  else (get (desc cdev), cdev).
