(* ===== verification/CompositeCtl.v ===== *)
(** * USB gadget: the composite framework, control requests (test_gadget/composite.c)

    Selecting a configuration, the control request handler and the other
    entry points of the gadget driver.  The callbacks of the function
    drivers, of the configurations and of the composite driver, and the
    operations of the controller, are the interface [GadgetOps] over an
    abstract world; they do not change the composite device themselves. *)

From Stdlib Require Import ZArith.
From stdpp Require Import base list gmap.
From S2P Require Import Prelude EpAutoconf.
From S2P Require Import UsbString UsbConfig Composite.

Definition USB_GADGET_DELAYED_STATUS : Z := 0x7fff.
Definition USB_DIR_IN : Z := 0x80.
Definition USB_RECIP_MASK : Z := 0x1f.
Definition USB_RECIP_INTERFACE : Z := 0x01.
Definition USB_RECIP_ENDPOINT : Z := 0x02.
Definition USB_REQ_GET_DESCRIPTOR : Z := 0x06.
Definition USB_REQ_GET_CONFIGURATION : Z := 0x08.
Definition USB_REQ_SET_CONFIGURATION : Z := 0x09.
Definition USB_REQ_GET_INTERFACE : Z := 0x0A.
Definition USB_REQ_SET_INTERFACE : Z := 0x0B.

Record usb_ctrlrequest := mkCtrl {
  bRequestType : Z;
  bRequest : Z;
  wValue : Z;
  wIndex : Z;
  wLength : Z;
}.

(** Callbacks (functions are named by [f_id], configurations by
    [bConfigurationValue]) and controller operations. *)
Class GadgetOps (W : Type) := {
  set_alt : Z -> Z -> Z -> M W Z;
  get_alt : Z -> Z -> M W Z;
  disable : Z -> M W unit;
  f_setup : Z -> usb_ctrlrequest -> M W Z;
  c_setup : Z -> usb_ctrlrequest -> M W Z;
  f_suspend : Z -> M W unit;
  f_resume : Z -> M W unit;
  f_unbind : Z -> M W unit;
  c_unbind : Z -> M W unit;
  d_disconnect : M W unit;
  d_suspend : M W unit;
  d_resume : M W unit;
  usb_gadget_vbus_draw : Z -> M W unit;
  usb_gadget_connect : M W Z;
  usb_gadget_disconnect : M W Z;
  usb_ep_queue : usb_request -> M W Z;
}.

Section Ctl.
Context {W : Type} `{!GadgetOps W}.
Context (VBUS_DRAW : Z) (drv : usb_composite_driver).
Abbreviation FX := (FM (usb_composite_dev * W)).

Definition cdev : FX usb_composite_dev := fun s => Some (fst s, s).
Definition upd_cdev (f : usb_composite_dev -> usb_composite_dev) : FX unit :=
  fmodify (fun '(d, w) => (f d, w)).
Definition world {A} (m : M W A) : FX A :=
  fun '(d, w) => let '(a, w') := m w in Some (a, (d, w')).
(** An operation on the device that may touch memory outside its buffer. *)
Definition on_cdev {A} (f : usb_composite_dev -> option (A * usb_composite_dev)) : FX A :=
  fun '(d, w) => match f d with Some (a, d') => Some (a, (d', w)) | None => None end.

Fixpoint for_each {A} (l : list A) (f : A -> FX unit) : FX unit :=
  match l with
  | [] => fret tt
  | x :: l => f x ~;; for_each l f
  end.

(** ** Activation *)
Definition usb_function_deactivate : FX Z :=
  d <~ cdev ;;
  status <~ (if deactivations d =? 0 then world usb_gadget_disconnect else fret 0) ;;
  (if status =? 0 then upd_cdev (fun d => set_deactivations (u32 (deactivations d + 1)) d)
   else fret tt) ~;;
  fret status.

Definition usb_function_activate : FX Z :=
  d <~ cdev ;;
  if deactivations d =? 0 then fret (- EINVAL)
  else
    (upd_cdev (fun d => set_deactivations (deactivations d - 1) d) ~;;
     d <~ cdev ;;
     if deactivations d =? 0 then world usb_gadget_connect else fret 0).

(** ** Configurations *)
Definition reset_function (f : usb_function) : FX unit :=
  (if has_disable f then world (disable (f_id f)) else fret tt) ~;;
  upd_cdev (fun d => set_endpoints (<[f_id f := 0]> (endpoints d)) d).

Definition reset_config : FX unit :=
  d <~ cdev ;;
  match config d with
  | None => fault
  | Some c =>
      for_each (functions c) reset_function ~;;
      upd_cdev (set_config_ptr None)
  end.

(** [((a & 0x80) >> 3) | (a & 0x0f)] *)
Definition ep_index (a : Z) : Z := Z.lor (Z.shiftr (Z.land a 0x80) 3) (Z.land a 0x0f).

(** The endpoints of a descriptor vector, as a bitmap over [bits]. *)
Fixpoint mark_endpoints (ds : list (list Z)) (bits : Z) : option Z :=
  match ds with
  | [] => Some bits
  | d :: ds =>
      type ← d !! 1%nat;
      if negb (type =? USB_DT_ENDPOINT) then mark_endpoints ds bits
      else
        addr ← d !! 2%nat;
        mark_endpoints ds (Z.setbit bits (ep_index addr))
  end.

(** The loop over the interfaces, from interface [tmp]: a negative result has
    reset the configuration. *)
Fixpoint init_interfaces (tmp : Z) (ifs : list (option usb_function)) (result : Z) : FX Z :=
  match ifs with
  | [] => fret result
  | None :: _ => fret result
  | Some f :: ifs =>
      d <~ cdev ;;
      match speed_descs (speed (gadget d)) f with
      | None => fault
      | Some ds =>
          on_cdev (fun d =>
            bits ← mark_endpoints ds (default 0 (endpoints d !! f_id f));
            Some (tt, set_endpoints (<[f_id f := bits]> (endpoints d)) d)) ~;;
          result <~ world (set_alt (f_id f) tmp 0) ;;
          if result <? 0 then (reset_config ~;; fret result)
          else
            ((if result =? USB_GADGET_DELAYED_STATUS
              then upd_cdev (fun d => set_delayed (int_inc (delayed_status d)) d) else fret tt) ~;;
             init_interfaces (tmp + 1) ifs result)
      end
  end.

Definition find_config (number : Z) (l : list usb_configuration) : option usb_configuration :=
  snd <$> list_find (fun c => bConfigurationValue c = number) l.

(** The code from [done:] on. *)
Definition set_config_done (power result : Z) : FX Z :=
  world (usb_gadget_vbus_draw power) ~;;
  d <~ cdev ;;
  if (0 <=? result) && truthy (delayed_status d) then fret USB_GADGET_DELAYED_STATUS
  else fret result.

Definition config_power (c : usb_configuration) : Z :=
  if bMaxPower c =? 0 then VBUS_DRAW else 2 * bMaxPower c.

Definition set_config (number : Z) : FX Z :=
  d <~ cdev ;;
  let power := if gadget_is_otg (gadget d) then 8 else 100 in
  (match config d with Some _ => reset_config | None => fret tt end) ~;;
  if number =? 0 then set_config_done power 0
  else
    match find_config number (configs d) with
    | None => set_config_done power (- EINVAL)
    | Some c =>
        upd_cdev (set_config_ptr (Some c)) ~;;
        result <~ init_interfaces 0 (interface c) 0 ;;
        if result <? 0 then set_config_done power result
        else set_config_done (config_power c) result
    end.

(** Adding a configuration, on the device and the endpoint configuration of
    epautoconf.c; [bind] is the configuration's bind callback, it works on
    the device, in which the configuration is the last one. *)
Definition autoconf_state : Type := EpAutoconf.usb_gadget * Z.

Definition usb_add_config (config : usb_configuration)
    (bind : option (usb_composite_dev * autoconf_state -> Z * (usb_composite_dev * autoconf_state)))
    (s : usb_composite_dev * autoconf_state) : Z * (usb_composite_dev * autoconf_state) :=
  let '(d, ac) := s in
  match bind with
  | None => (- EINVAL, (d, ac))
  | Some bind =>
      if bConfigurationValue config =? 0 then (- EINVAL, (d, ac))
      else
        match find_config (bConfigurationValue config) (configs d) with
        | Some _ => (- EBUSY, (d, ac))
        | None =>
            let config := set_functions [] (set_interfaces 0
                            (replicate MAX_CONFIG_INTERFACES None) config) in
            let '(status, (d, ac)) := bind (set_configs (configs d ++ [config]) d, ac) in
            let d := if status <? 0
                     then set_configs (filter (fun c => bConfigurationValue c <>
                                         bConfigurationValue config) (configs d)) d
                     else d in
            (status, (d, usb_ep_autoconfig_reset (fst ac)))
        end
  end.

Definition unbind_config (config : usb_configuration) : FX unit :=
  for_each (functions config)
    (fun f => if has_unbind f then world (f_unbind (f_id f)) else fret tt) ~;;
  if c_has_unbind config then world (c_unbind (bConfigurationValue config)) else fret tt.

Definition usb_remove_config (c : usb_configuration) : FX Z :=
  d <~ cdev ;;
  (match config d with
   | Some a => if bConfigurationValue a =? bConfigurationValue c then reset_config else fret tt
   | None => fret tt
   end) ~;;
  upd_cdev (fun d => set_configs (filter (fun x => bConfigurationValue x <> bConfigurationValue c)
                                    (configs d)) d) ~;;
  unbind_config c ~;;
  fret 0.

(** ** Control requests *)
Definition store_buf (off : nat) (bs : list Z) : FX unit :=
  on_cdev (fun d => b ← buf_store (r_buf (req d)) off bs; Some (tt, with_buf b d)).

(** [min(w_length, (u16) value)] *)
Definition min_length (w_length value : Z) : Z := Z.min w_length (u16 value).

Definition get_descriptor (ctrl : usb_ctrlrequest) : FX Z :=
  let w_value := wValue ctrl in
  let w_length := wLength ctrl in
  d <~ cdev ;;
  let type := Z.shiftr w_value 8 in
  if type =? USB_DT_DEVICE then
    let n := u8 (count_configs d USB_DT_DEVICE) in
    upd_cdev (fun d =>
      let x := desc d in
      set_desc (mkDevDesc (bcdUSB x) (bDeviceClass x) (bDeviceSubClass x) (bDeviceProtocol x)
                  (bMaxPacketSize0 x) (idVendor x) (idProduct x) (bcdDevice x)
                  (iManufacturer x) (iProduct x) (iSerialNumber x) n) d) ~;;
    d <~ cdev ;;
    let value := min_length w_length 18 in
    store_buf 0 (take (Z.to_nat value) (dev_bytes (desc d))) ~;;
    fret value
  else if type =? USB_DT_DEVICE_QUALIFIER then
    if negb (gadget_is_dualspeed (gadget d)) then fret (- EOPNOTSUPP)
    else
      (on_cdev (fun d => d ← device_qual d; Some (tt, d)) ~;;
       fret (Z.min w_length 10))
  else if (type =? USB_DT_CONFIG) ||
          ((type =? USB_DT_OTHER_SPEED_CONFIG) && gadget_is_dualspeed (gadget d)) then
    value <~ on_cdev (fun d => config_desc VBUS_DRAW d w_value) ;;
    fret (if 0 <=? value then min_length w_length value else value)
  else if type =? USB_DT_STRING then
    value <~ on_cdev (fun d =>
      r ← get_string drv d (r_buf (req d)) (wIndex ctrl) (Z.land w_value 0xff);
      let '(v, b) := r in Some (v, with_buf b d)) ;;
    fret (if 0 <=? value then min_length w_length value else value)
  else fret (- EOPNOTSUPP).

(** The function behind an interface number of the active configuration. *)
Definition active_function (d : usb_composite_dev) (intf : Z) : option usb_function :=
  c ← config d;
  if Z.of_nat MAX_CONFIG_INTERFACES <=? intf then None
  else mjoin (interface c !! Z.to_nat intf).

Definition set_interface (ctrl : usb_ctrlrequest) (intf : Z) : FX Z :=
  d <~ cdev ;;
  match active_function d intf with
  | None => fret (- EOPNOTSUPP)
  | Some f =>
      if negb (has_set_alt f) then
        if truthy (wValue ctrl) then fret (- EOPNOTSUPP) else fault
      else
        value <~ world (set_alt (f_id f) (wIndex ctrl) (wValue ctrl)) ;;
        (if value =? USB_GADGET_DELAYED_STATUS
         then upd_cdev (fun d => set_delayed (int_inc (delayed_status d)) d) else fret tt) ~;;
        fret value
  end.

Definition get_interface (ctrl : usb_ctrlrequest) (intf : Z) : FX Z :=
  d <~ cdev ;;
  match active_function d intf with
  | None => fret (- EOPNOTSUPP)
  | Some f =>
      value <~ (if has_get_alt f then world (get_alt (f_id f) (wIndex ctrl)) else fret 0) ;;
      if value <? 0 then fret value
      else (store_buf 0 [u8 value] ~;; fret (min_length (wLength ctrl) 1))
  end.

(** The requests that are not handled here go to a function or to the
    configuration. *)
Definition delegate (ctrl : usb_ctrlrequest) (intf : Z) : FX Z :=
  d <~ cdev ;;
  let recip := Z.land (bRequestType ctrl) USB_RECIP_MASK in
  f <~ (if recip =? USB_RECIP_INTERFACE then fret (active_function d intf)
        else if recip =? USB_RECIP_ENDPOINT then
          match config d with
          | None => fault
          | Some c =>
              fret (snd <$> list_find (fun f =>
                Z.testbit (default 0 (endpoints d !! f_id f)) (ep_index (wIndex ctrl)) = true)
                (functions c))
          end
        else fret None) ;;
  match f with
  | Some f =>
      if has_setup f then world (f_setup (f_id f) ctrl)
      else match config d with
           | Some c => if c_has_setup c then world (c_setup (bConfigurationValue c) ctrl)
                       else fret (- EOPNOTSUPP)
           | None => fret (- EOPNOTSUPP)
           end
  | None =>
      match config d with
      | Some c => if c_has_setup c then world (c_setup (bConfigurationValue c) ctrl)
                  else fret (- EOPNOTSUPP)
      | None => fret (- EOPNOTSUPP)
      end
  end.

(** The data stage after the requests handled here. *)
Definition respond (ctrl : usb_ctrlrequest) (value : Z) : FX Z :=
  if (0 <=? value) && negb (value =? USB_GADGET_DELAYED_STATUS) then
    upd_cdev (fun d => set_req (mkReq (r_buf (req d)) value (value <? wLength ctrl)) d) ~;;
    d <~ cdev ;;
    world (usb_ep_queue (req d))
  else fret value.

Definition composite_setup (ctrl : usb_ctrlrequest) : FX Z :=
  let intf := Z.land (wIndex ctrl) 0xff in
  upd_cdev (fun d => set_req (mkReq (r_buf (req d)) 0 false) d) ~;;
  if (bRequest ctrl =? USB_REQ_GET_DESCRIPTOR) && (bRequestType ctrl =? USB_DIR_IN) then
    value <~ get_descriptor ctrl ;; respond ctrl value
  else if (bRequest ctrl =? USB_REQ_SET_CONFIGURATION) && (bRequestType ctrl =? 0) then
    value <~ set_config (wValue ctrl) ;; respond ctrl value
  else if (bRequest ctrl =? USB_REQ_GET_CONFIGURATION) && (bRequestType ctrl =? USB_DIR_IN) then
    d <~ cdev ;;
    store_buf 0 [match config d with Some c => u8 (bConfigurationValue c) | None => 0 end] ~;;
    respond ctrl (min_length (wLength ctrl) 1)
  else if (bRequest ctrl =? USB_REQ_SET_INTERFACE) && (bRequestType ctrl =? USB_RECIP_INTERFACE) then
    value <~ set_interface ctrl intf ;; respond ctrl value
  else if (bRequest ctrl =? USB_REQ_GET_INTERFACE) &&
          (bRequestType ctrl =? Z.lor USB_DIR_IN USB_RECIP_INTERFACE) then
    value <~ get_interface ctrl intf ;; respond ctrl value
  else delegate ctrl intf.

(** ** The other entry points *)
Definition composite_disconnect (has_callback : bool) : FX unit :=
  d <~ cdev ;;
  (match config d with Some _ => reset_config | None => fret tt end) ~;;
  if has_callback then world d_disconnect else fret tt.

Definition composite_suspend (has_callback : bool) : FX unit :=
  d <~ cdev ;;
  (match config d with
   | Some c => for_each (functions c)
                 (fun f => if has_suspend f then world (f_suspend (f_id f)) else fret tt)
   | None => fret tt
   end) ~;;
  (if has_callback then world d_suspend else fret tt) ~;;
  upd_cdev (set_suspended 1) ~;;
  world (usb_gadget_vbus_draw 2).

Definition composite_resume (has_callback : bool) : FX unit :=
  (if has_callback then world d_resume else fret tt) ~;;
  d <~ cdev ;;
  (match config d with
   | Some c =>
       for_each (functions c)
         (fun f => if has_resume f then world (f_resume (f_id f)) else fret tt) ~;;
       world (usb_gadget_vbus_draw (config_power c))
   | None => fret tt
   end) ~;;
  upd_cdev (set_suspended 0).

Definition usb_composite_setup_continue : FX unit :=
  d <~ cdev ;;
  if delayed_status d =? 0 then fret tt
  else
    (upd_cdev (fun d => set_delayed (int_dec (delayed_status d)) d) ~;;
     d <~ cdev ;;
     if delayed_status d =? 0 then
       (upd_cdev (fun d => set_req (mkReq (r_buf (req d)) 0 (r_zero (req d))) d) ~;;
        d <~ cdev ;;
        world (usb_ep_queue (req d)) ~;;
        fret tt)
     else fret tt).
End Ctl.
