(* ===== verification/CompositeSpec.v ===== *)
(** * USB gadget: properties of identifiers and descriptors of the composite framework *)

From Stdlib Require Import ZArith.
From stdpp Require Import base list gmap.
From S2P Require Import Prelude UsbString UsbConfig Composite.

(** ** Interface identifiers *)

(** The interface table: the identifiers below [next_interface_id] are in
    use, the others are free. *)
Record config_ok (c : usb_configuration) : Prop := mkConfigOk {
  ok_len : length (interface c) = MAX_CONFIG_INTERFACES;
  ok_next : 0 <= next_interface_id c <= Z.of_nat MAX_CONFIG_INTERFACES;
  ok_used : forall i, (i < Z.to_nat (next_interface_id c))%nat -> exists f, interface c !! i = Some (Some f);
  ok_free : forall i, (Z.to_nat (next_interface_id c) <= i < MAX_CONFIG_INTERFACES)%nat ->
    interface c !! i = Some None;
}.

(** property: an interface identifier is the next free one, is bound to the
    function and leaves the other interfaces alone; when all sixteen are in
    use the answer is -ENODEV and nothing changes; the table stays
    well-formed. *)
Theorem interface_id_spec c f :
  config_ok c ->
  let '(id, c') := usb_interface_id c f in
  config_ok c' /\
  (if next_interface_id c <? Z.of_nat MAX_CONFIG_INTERFACES
   then id = next_interface_id c /\ 0 <= id < Z.of_nat MAX_CONFIG_INTERFACES /\
        interface c !! Z.to_nat id = Some None /\
        interface c' !! Z.to_nat id = Some (Some f) /\
        (forall i, i <> Z.to_nat id -> interface c' !! i = interface c !! i) /\
        functions c' = functions c
   else id = - ENODEV /\ c' = c).
Proof.
  intros [Hl Hn Hu Hf]. unfold usb_interface_id.
  destruct (Z.ltb_spec (next_interface_id c) (Z.of_nat MAX_CONFIG_INTERFACES)) as [Hlt|Hge];
    [|done].
  set (n := Z.to_nat (next_interface_id c)) in *.
  assert (n < MAX_CONFIG_INTERFACES)%nat by lia.
  assert (Z.to_nat (next_interface_id c + 1) = S n) as Hs by lia.
  split; [constructor; cbn; rewrite ?Hs|].
  - by rewrite length_insert.
  - lia.
  - intros i Hi. destruct (decide (i = n)) as [->|Hne].
    + exists f. apply list_lookup_insert_eq. lia.
    + rewrite list_lookup_insert_ne by done. apply Hu. lia.
  - intros i Hi. rewrite list_lookup_insert_ne by lia. apply Hf. lia.
  - cbn. split; [done|]. split; [lia|]. split; [apply Hf; lia|].
    split; [apply list_lookup_insert_eq; lia|].
    split; [|done]. intros i Hi. by rewrite list_lookup_insert_ne.
Qed.

(** ** String identifiers *)
Definition ids_ok (d : usb_composite_dev) : Prop := 0 <= next_string_id d <= 254.

(** property: string identifiers are never handed out twice: one identifier, or
    [n] of them, are the next free ones, between 1 and 254; when they do not
    fit the answer is -ENODEV and none is taken. *)
Theorem string_ids_spec d n :
  ids_ok d -> 0 < n < 2 ^ 32 - 256 ->
  (let '(id, d') := usb_string_id d in
   ids_ok d' /\ (if next_string_id d <? 254
                 then id = next_string_id d + 1 /\ 1 <= id <= 254 /\ next_string_id d' = id
                 else id = - ENODEV /\ d' = d)) /\
  (let '(id, d') := usb_string_ids_n d n in
   ids_ok d' /\ (if next_string_id d + n <=? 254
                 then id = next_string_id d + 1 /\ 1 <= id /\ id + n - 1 <= 254 /\
                      next_string_id d' = id + n - 1
                 else id = - ENODEV /\ d' = d)).
Proof.
  intros Hd Hn. unfold ids_ok in *. split.
  - unfold usb_string_id. case_if; bool_to_prop; [|done].
    rewrite u8_small by lia. cbn. lia.
  - unfold usb_string_ids_n. rewrite u32_small by lia.
    destruct (Z.ltb_spec 254 n), (Z.ltb_spec 254 (next_string_id d + n)); cbn [orb];
      destruct (Z.leb_spec (next_string_id d + n) 254); try lia; try done.
    rewrite u8_small by lia. cbn. lia.
Qed.

Lemma assign_ids_spec next str :
  0 <= next ->
  match assign_ids next str with
  | (Some last, str') =>
      last = next + Z.of_nat (length str) /\ (last <= Z.max 254 next) /\
      str'.*2 = str.*2 /\ str'.*1 = (fun i => next + 1 + Z.of_nat i) <$> seq 0 (length str)
  | (None, str') => 254 < next + Z.of_nat (length str) /\ str'.*2 = str.*2
  end.
Proof.
  revert next. induction str as [|[i s] str IH]; intros next Hn; cbn [assign_ids].
  - cbn. split_and!; try done; lia.
  - case_if; bool_to_prop; [cbn; split; [lia|done]|].
    specialize (IH (next + 1) ltac:(lia)).
    destruct (assign_ids (next + 1) str) as [[last|] str']; cbn [length].
    + destruct IH as (-> & ? & H2 & H1). split_and!; [lia|lia|cbn; by rewrite H2|].
      cbn. f_equal; [lia|]. rewrite H1, <- fmap_S_seq, <- list_fmap_compose.
      apply list_fmap_ext. intros ? x _. cbn. lia.
    + destruct IH as [? H2]. split; [lia|cbn; by rewrite H2].
Qed.

(** property: numbering the strings of a table gives them consecutive identifiers
    after those in use, all at most 254, and keeps the texts; if they do not
    fit the answer is -ENODEV and no identifier is taken. *)
Theorem string_ids_tab_spec d str :
  ids_ok d ->
  let '(r, d', str') := usb_string_ids_tab d str in
  str'.*2 = str.*2 /\ ids_ok d' /\
  (if next_string_id d + Z.of_nat (length str) <=? 254
   then r = 0 /\ next_string_id d' = next_string_id d + Z.of_nat (length str) /\
        str'.*1 = (fun i => next_string_id d + 1 + Z.of_nat i) <$> seq 0 (length str)
   else r = - ENODEV /\ d' = d).
Proof.
  intros Hd. unfold usb_string_ids_tab, ids_ok in *.
  pose proof (assign_ids_spec (next_string_id d) str ltac:(lia)) as H.
  destruct (assign_ids (next_string_id d) str) as [[last|] str'].
  - destruct H as (-> & Hm & H2 & H1). rewrite (proj2 (Z.leb_le _ _)) by lia.
    rewrite u8_small by lia. cbn. split_and!; done || lia.
  - destruct H as [? H2]. rewrite (proj2 (Z.leb_gt _ _)) by lia. done.
Qed.

(** ** Configuration descriptors *)
Definition descs_ok (ds : descs) : Prop := Forall desc_ok (default [] ds).

(** The descriptors of a configuration at a speed, in the order they are
    reported. *)
Definition all_descs (speed : usb_device_speed) (c : usb_configuration) : list (list Z) :=
  default [] (c_descriptors c) ++ (f ← functions c; default [] (speed_descs speed f)).

Lemma total_app a b : total (a ++ b) = (total a + total b)%nat.
Proof. induction a as [|d a IH]; [done|]. cbn [app]. rewrite !total_cons, IH. lia. Qed.

Lemma add_descs_spec src buf next len :
  descs_ok src -> (next + len <= length buf)%nat ->
  let ds := default [] src in
  if decide (total ds <= len)%nat then
    add_descs src (buf, next, len) =
      Some (inr (buf_write buf next (concat ds), next + total ds, len - total ds)%nat)
  else exists buf', add_descs src (buf, next, len) = Some (inl (- EINVAL, buf')) /\
    length buf' = length buf.
Proof.
  intros Hs Hb. destruct src as [ds|]; cbn [default from_option id]; cbv zeta.
  - cbn [add_descs usb_descriptor_fillbuf]. unfold descs_ok in Hs. cbn in Hs. case_decide.
    + rewrite fillbuf_ok by done. cbn [mbind option_bind].
      rewrite (proj2 (Z.ltb_ge _ 0)) by lia. do 3 f_equal; [f_equal|]; lia.
    + destruct (fillbuf_overflow buf next next len ds Hs Hb) as (bs & Hl & ->); [lia|].
      cbn. eexists. split; [reflexivity|]. apply length_buf_write. lia.
  - rewrite decide_True by (cbn; lia). cbn. rewrite buf_write_nil. do 3 f_equal; [f_equal|]; lia.
Qed.

Lemma add_functions_spec speed fs buf next len :
  Forall (fun f => descs_ok (speed_descs speed f)) fs -> (next + len <= length buf)%nat ->
  let ds := f ← fs; default [] (speed_descs speed f) in
  if decide (total ds <= len)%nat then
    add_functions speed fs (buf, next, len) =
      Some (inr (buf_write buf next (concat ds), next + total ds, len - total ds)%nat)
  else exists buf', add_functions speed fs (buf, next, len) = Some (inl (- EINVAL, buf')) /\
    length buf' = length buf.
Proof.
  intros Hs. revert buf next len. induction Hs as [|f fs Hf _ IH]; intros buf next len Hb; cbv zeta.
  - rewrite decide_True by (cbn; lia). cbn. rewrite buf_write_nil. do 3 f_equal; [f_equal|]; lia.
  - rewrite bind_cons. set (d1 := default [] (speed_descs speed f)).
    set (d2 := f ← fs; default [] (speed_descs speed f)). rewrite total_app.
    pose proof (add_descs_spec (speed_descs speed f) buf next len Hf Hb) as H1. cbv zeta in H1.
    fold d1 in H1. cbn [add_functions].
    destruct (decide (total d1 <= len)%nat) as [Ht|Ht].
    2: { rewrite decide_False by lia. destruct H1 as (buf' & -> & Hl). cbn. eauto. }
    rewrite H1. cbn [mbind option_bind]. pose proof (length_concat d1) as L1.
    specialize (IH (buf_write buf next (concat d1)) (next + total d1)%nat (len - total d1)%nat).
    rewrite length_buf_write in IH by lia. specialize (IH ltac:(lia)). cbv zeta in IH. fold d2 in IH.
    destruct (decide (total d2 <= len - total d1)%nat) as [Ht2|Ht2].
    + rewrite decide_True by lia. rewrite IH.
      pose proof (buf_write_app buf next (concat d1) (concat d2)) as Ha.
      rewrite !length_concat in Ha. rewrite Ha, concat_app by lia.
      do 3 f_equal; [f_equal|]; lia.
    + rewrite decide_False by lia. exact IH.
Qed.

(** The nine header bytes. *)
Definition config_header (VBUS_DRAW : Z) (c : usb_configuration) (type l : Z) : list Z :=
  [USB_DT_CONFIG_SIZE; type] ++ le16 l ++
  [u8 (next_interface_id c); bConfigurationValue c; iConfiguration c;
   Z.lor USB_CONFIG_ATT_ONE (c_bmAttributes c);
   if bMaxPower c =? 0 then u8 (VBUS_DRAW / 2) else bMaxPower c].

(** Writing the header in three pieces around the body. *)
Lemma header_pieces buf type l z body :
  (9 + length body <= length buf)%nat -> length z = 5%nat ->
  buf_write (buf_write (buf_write (buf_write buf 0 [USB_DT_CONFIG_SIZE; type]) 4 z) 9 body) 2 (le16 l)
    = buf_write buf 0 ([USB_DT_CONFIG_SIZE; type] ++ le16 l ++ z ++ body).
Proof.
  intros Hb Hz. do 9 (destruct buf as [|? buf]; [cbn in Hb; lia|]).
  do 5 (destruct z as [|? z]; [done|]). destruct z; [|done]. reflexivity.
Qed.

Lemma config_buf_result VBUS_DRAW c speed buf type :
  length buf = USB_BUFSIZ -> descs_ok (c_descriptors c) ->
  Forall (fun f => descs_ok (speed_descs speed f)) (functions c) ->
  let ds := all_descs speed c in
  let l := 9 + Z.of_nat (total ds) in
  if decide (l <= Z.of_nat USB_BUFSIZ) then
    config_buf VBUS_DRAW c speed buf type =
      Some (l, buf_write buf 0 (config_header VBUS_DRAW c type l ++ concat ds))
  else exists buf', config_buf VBUS_DRAW c speed buf type = Some (- EINVAL, buf') /\
    length buf' = USB_BUFSIZ.
Proof.
  intros Hb Hc Hf ds l. unfold config_buf. unfold USB_BUFSIZ in *.
  rewrite buf_store_in by (cbn; lia). cbn [mbind option_bind].
  set (z := [u8 (next_interface_id c); _; _; _; _]).
  rewrite buf_store_in by (rewrite length_buf_write; cbn; lia). cbn [mbind option_bind].
  set (b1 := buf_write (buf_write buf 0 _) 4 z).
  assert (length b1 = 1024%nat) as L1 by
    (unfold b1; rewrite !length_buf_write; rewrite ?length_buf_write; cbn; lia).
  pose proof (add_descs_spec (c_descriptors c) b1 9 (1024 - 9) Hc ltac:(lia)) as H1. cbv zeta in H1.
  set (d1 := default [] (c_descriptors c)) in *.
  set (d2 := f ← functions c; default [] (speed_descs speed f)).
  assert (ds = d1 ++ d2) as Hds by done. assert (total ds = total d1 + total d2)%nat as Ht
    by (rewrite Hds; apply total_app).
  destruct (decide (total d1 <= 1024 - 9)%nat) as [Ht1|Ht1].
  2: { rewrite decide_False by lia. destruct H1 as (buf' & -> & Hl). cbn. rewrite L1 in Hl. eauto. }
  rewrite H1. cbn [mbind option_bind]. pose proof (length_concat d1) as Lc1.
  pose proof (add_functions_spec speed (functions c) (buf_write b1 9 (concat d1)) (9 + total d1)
    (1024 - 9 - total d1) Hf) as H2.
  rewrite length_buf_write in H2 by lia. specialize (H2 ltac:(lia)). cbv zeta in H2. fold d2 in H2.
  destruct (decide (total d2 <= 1024 - 9 - total d1)%nat) as [Ht2|Ht2].
  2: { rewrite decide_False by lia. destruct H2 as (buf' & -> & Hl). cbn.
       exists buf'. split; [done|]. by rewrite Hl, L1. }
  rewrite decide_True by lia. rewrite H2. cbn [mbind option_bind].
  pose proof (buf_write_app b1 9 (concat d1) (concat d2)) as Ha. rewrite !length_concat in Ha.
  rewrite Ha, <- concat_app by lia. rewrite <- Hds. pose proof (length_concat ds) as Lc.
  rewrite buf_store_in by (rewrite length_buf_write; cbn; lia). cbn [mbind option_bind].
  replace (Z.of_nat (9 + total d1 + total d2)) with l by lia. do 2 f_equal.
  unfold b1. rewrite header_pieces by (done || lia). f_equal.
Qed.

(** C24: the configuration descriptor reported for a configuration and a
    speed is its header with the total length, its own descriptors and those
    of its functions, in order, when they fit in the 1024-byte buffer
    (and the length field of the header reads back as the length returned);
    otherwise the answer is -EINVAL; never anything outside the buffer is
    written. *)
Theorem config_buf_report VBUS_DRAW c speed buf type :
  length buf = USB_BUFSIZ -> descs_ok (c_descriptors c) ->
  Forall (fun f => descs_ok (speed_descs speed f)) (functions c) ->
  let ds := all_descs speed c in
  let l := 9 + Z.of_nat (total ds) in
  if decide (l <= Z.of_nat USB_BUFSIZ) then
    exists buf', config_buf VBUS_DRAW c speed buf type = Some (l, buf') /\
      take (Z.to_nat l) buf' = config_header VBUS_DRAW c type l ++ concat ds /\
      drop (Z.to_nat l) buf' = drop (Z.to_nat l) buf /\
      of_le16 (default 0 (buf' !! 2%nat)) (default 0 (buf' !! 3%nat)) = l
  else exists buf', config_buf VBUS_DRAW c speed buf type = Some (- EINVAL, buf') /\
    length buf' = USB_BUFSIZ.
Proof.
  intros Hb Hc Hf ds l. pose proof (config_buf_result VBUS_DRAW c speed buf type Hb Hc Hf) as H.
  cbv zeta in H. fold ds l in H. unfold USB_BUFSIZ in *. case_decide as Hd; [|exact H].
  set (bs := config_header VBUS_DRAW c type l ++ concat ds) in *.
  assert (length bs = Z.to_nat l) as Lb.
  { unfold bs. rewrite length_app, length_concat. unfold l. cbn. lia. }
  eexists. split; [exact H|]. split; [|split].
  - pose proof (take_buf_write_ge buf 0 bs) as Ht. cbn [Nat.add] in Ht. rewrite Lb in Ht.
    by rewrite Ht by lia.
  - pose proof (drop_buf_write buf 0 bs) as Ht. cbn [Nat.add] in Ht. rewrite Lb in Ht.
    by rewrite Ht by lia.
  - unfold buf_write. cbn. apply of_le16_le16. lia.
Qed.

(** The indices of [config_desc] are those below [count_configs]. *)
Lemma nth_config_count speed l i :
  (exists c, nth_config speed l i = Some c /\ works_at speed c = true /\ c ∈ l) /\
    Z.of_nat i < count_matching speed l \/
  nth_config speed l i = None /\ count_matching speed l <= Z.of_nat i.
Proof.
  revert i. induction l as [|c l IH]; intros i; cbn [nth_config count_matching]; [right; split; [done|lia]|].
  destruct (works_at speed c) eqn:Ew; cbn [negb].
  - destruct i as [|i].
    + left. split; [|]. { exists c. split_and!; [done..|constructor]. }
      destruct (IH 0%nat) as [[_ ?]|[_ ?]]; [lia|]. 
      assert (0 <= count_matching speed l) as ?.
      { clear. induction l as [|c l IH]; cbn; [lia|]. destruct (negb _); lia. } lia.
    + destruct (IH i) as [[(c' & -> & ? & ?) ?]|[-> ?]]; [left|right; split; [done|lia]].
      split; [|lia]. exists c'. split_and!; [done..|by constructor].
  - destruct (IH i) as [[(c' & -> & ? & ?) ?]|[-> ?]]; [left|right; split; [done|lia]].
    split; [|lia]. exists c'. split_and!; [done..|by constructor].
Qed.

(** property: [bNumConfigurations] is consistent with what can be asked for: a
    configuration descriptor request for index [i] is answered from a
    configuration of the device that works at the current speed exactly when
    [i] is below the number of configurations the device descriptor reports,
    and with -EINVAL otherwise. *)
Theorem config_index_spec VBUS_DRAW d i :
  0 <= i < 256 ->
  let w_value := USB_DT_CONFIG * 256 + i in
  let speed := request_speed (gadget d) false in
  if decide (i < count_configs d USB_DT_DEVICE) then
    exists c, c ∈ configs d /\ works_at speed c = true /\
      config_desc VBUS_DRAW d w_value =
        (r ← config_buf VBUS_DRAW c speed (r_buf (req d)) USB_DT_CONFIG;
         let '(v, buf) := r in Some (v, with_buf buf d))
  else config_desc VBUS_DRAW d w_value = Some (- EINVAL, d).
Proof.
  intros Hi w_value sp. unfold config_desc.
  assert (u8 (Z.shiftr w_value 8) = USB_DT_CONFIG /\ Z.land w_value 0xff = i) as [-> ->].
  { unfold w_value, USB_DT_CONFIG. split.
    - rewrite Z.shiftr_div_pow2 by lia. change (2 ^ 8) with 256.
      rewrite Z.div_add_l, Z.div_small by lia. done.
    - change 0xff with (Z.ones 8). rewrite Z.land_ones by lia. change (2 ^ 8) with 256.
      rewrite Z.add_comm, Z.mod_add, Z.mod_small by lia. done. }
  change (USB_DT_CONFIG =? USB_DT_OTHER_SPEED_CONFIG) with false.
  unfold count_configs. change (USB_DT_DEVICE =? USB_DT_DEVICE_QUALIFIER) with false. fold sp.
  cbv zeta. pose proof (nth_config_count sp (configs d) (Z.to_nat i)) as H.
  rewrite Z2Nat.id in H by lia. destruct H as [[(c & -> & Hw & Hin) Hlt]|[-> Hge]].
  - rewrite decide_True by done. exists c. done.
  - rewrite decide_False by lia. done.
Qed.

(** ** Languages *)
Definition add_lang (L : list Z) (x : Z) : list Z := if decide (x ∈ L) then L else L ++ [x].

(** The languages of the tables, each at its first occurrence. *)
Definition languages (tables : list (list usb_gadget_strings)) : list Z :=
  foldl add_lang [] (u16 ∘ language <$> concat tables).

Lemma lang_slot_spec L rest x i :
  Forall (fun y => y <> 0) L -> (i + length L <= 126)%nat ->
  lang_slot i (L ++ 0 :: rest) x =
    Some (if decide (x ∈ L) then None else Some (i + length L)%nat).
Proof.
  intros HL. revert i. induction HL as [|y L Hy _ IH]; intros i Hi; cbn [app lang_slot length].
  - cbn. by rewrite Nat.add_0_r.
  - rewrite (proj2 (Z.eqb_neq y 0) Hy), (proj2 (Nat.leb_gt 126 i)) by (cbn in Hi; lia). cbn [orb].
    destruct (Z.eqb_spec y x) as [->|Hne].
    + rewrite decide_True by constructor. done.
    + rewrite IH by (cbn in Hi; lia). f_equal.
      destruct (decide (x ∈ L)), (decide (x ∈ y :: L)) as [H|H]; try done.
      * destruct H. by constructor.
      * apply elem_of_cons in H as [|]; [congruence|done].
      * f_equal. lia.
Qed.

Definition padded (L : list Z) : list Z := L ++ replicate (127 - length L) 0.

Lemma add_lang_keeps L x :
  Forall (fun y => y <> 0) L -> x <> 0 -> Forall (fun y => y <> 0) (add_lang L x).
Proof. intros. unfold add_lang. case_decide; [done|]. apply Forall_app; auto. Qed.

Lemma length_foldl_add L l : (length L <= length (foldl add_lang L l))%nat.
Proof.
  revert L. induction l as [|x l IH]; intros L; [done|]. cbn.
  etrans; [|apply IH]. unfold add_lang. case_decide; [done|]. rewrite length_app. lia.
Qed.

Lemma collect_langs_spec sp L :
  Forall (fun y => y <> 0) L -> Forall (fun s => u16 (language s) <> 0) sp ->
  let L' := foldl add_lang L (u16 ∘ language <$> sp) in
  (length L' <= 126)%nat ->
  collect_langs sp (padded L) = Some (padded L') /\ Forall (fun y => y <> 0) L'.
Proof.
  intros HL Hs. revert L HL. induction Hs as [|s sp Hx _ IH]; intros L HL; cbv zeta;
    cbn [collect_langs fmap list_fmap foldl]; [done|]. fold (u16 ∘ language <$> sp).
  change ((u16 ∘ language) s) with (u16 (language s)). intros Hlen. pose proof (length_foldl_add (add_lang L (u16 (language s))) (u16 ∘ language <$> sp)) as Hm.
  pose proof (length_foldl_add L [u16 (language s)]) as Hm0. cbn in Hm0.
  assert (padded L = L ++ 0 :: replicate (126 - length L) 0) as Hp.
  { unfold padded. replace (127 - length L)%nat with (S (126 - length L)) by lia. done. }
  assert (length (padded L) = 127)%nat as Lp
    by (unfold padded; rewrite length_app, length_replicate; lia).
  rewrite Hp at 1. rewrite lang_slot_spec by (done || lia). cbn [mbind option_bind].
  destruct (IH (add_lang L (u16 (language s)))) as [IH1 IH2]; [by apply add_lang_keeps|done|].
  split; [|done]. rewrite <- IH1. unfold add_lang in *. case_decide; [done|].
  rewrite decide_True by lia. f_equal. cbn [Nat.add]. rewrite Hp.
  unfold padded. rewrite length_app. cbn [length].
  replace (127 - (length L + 1))%nat with (126 - length L)%nat by lia.
  rewrite insert_app_r_alt by lia. rewrite Nat.sub_diag. cbn. by rewrite <- app_assoc.
Qed.

Lemma collect_all_spec tables L :
  Forall (fun y => y <> 0) L -> Forall (Forall (fun s => u16 (language s) <> 0)) tables ->
  let L' := foldl add_lang L (u16 ∘ language <$> concat tables) in
  (length L' <= 126)%nat ->
  collect_all tables (padded L) = Some (padded L') /\ Forall (fun y => y <> 0) L'.
Proof.
  intros HL Hs. revert L HL. induction Hs as [|sp tables Hsp _ IH]; intros L HL; [done|].
  cbv zeta. cbn [concat]. rewrite fmap_app, foldl_app. intros Hlen. cbn [collect_all].
  pose proof (length_foldl_add (foldl add_lang L (u16 ∘ language <$> sp))
    (u16 ∘ language <$> concat tables)).
  destruct (collect_langs_spec sp L HL Hsp) as [-> HL']; [lia|]. cbn [mbind option_bind].
  by apply IH.
Qed.

Lemma count_langs_padded L i :
  Forall (fun y => y <> 0) L -> (i + length L <= 126)%nat ->
  count_langs i (L ++ replicate (127 - (i + length L)) 0) = (i + length L)%nat.
Proof.
  intros HL. revert i. induction HL as [|y L Hy _ IH]; intros i Hi; cbn [app length count_langs].
  - cbn in Hi. destruct (127 - (i + 0))%nat as [|k] eqn:E; [lia|]. cbn [replicate count_langs].
    rewrite andb_false_r. lia.
  - cbn in Hi. rewrite (proj2 (Nat.leb_le i 126)), (proj2 (Z.eqb_neq y 0) Hy) by lia. cbn [andb negb].
    replace (i + S (length L))%nat with (S i + length L)%nat by lia. apply IH. lia.
Qed.

Lemma string_pieces b x t ws :
  (2 <= length b)%nat ->
  buf_write (buf_write (buf_write b 1 [t]) 2 ws) 0 [x] = x :: t :: ws ++ drop (2 + length ws) b.
Proof. intros H. destruct b as [|x0 [|x1 b]]; [cbn in H; lia..|]. reflexivity. Qed.

(** property: string descriptor zero lists the languages of all string tables of
    the driver, its configurations and their functions, each once and in the
    order of its first occurrence, as long as there are at most 126 of them;
    with none the answer is -EINVAL. *)
Theorem get_string_languages drv d buf lang :
  (256 <= length buf)%nat ->
  Forall (Forall (fun s => u16 (language s) <> 0)) (string_tables drv d) ->
  let L := languages (string_tables drv d) in
  (length L <= 126)%nat ->
  exists buf', length buf' = length buf /\
    get_string drv d buf lang 0 =
      Some (if decide (L = []) then - EINVAL else 2 * (Z.of_nat (length L) + 1), buf') /\
    (L <> [] -> take (2 * (length L + 1)) buf' =
       [2 * (Z.of_nat (length L) + 1); USB_DT_STRING] ++ (L ≫= le16)).
Proof.
  intros Hb Hs L HL. unfold get_string. cbn [Z.eqb].
  destruct (collect_all_spec (string_tables drv d) [] ltac:(constructor) Hs HL) as [Hc Hnz].
  change (padded []) with (replicate 127 0) in Hc. fold L in Hc.
  change (foldl add_lang [] (u16 ∘ language <$> concat (string_tables drv d))) with L in Hc, Hnz.
  rewrite buf_store_in by (rewrite length_replicate; lia). cbn [mbind option_bind].
  set (b1 := buf_write buf 0 _).
  assert (length b1 = length buf) as L1 by (apply length_buf_write; rewrite length_replicate; lia).
  rewrite buf_store_in by (cbn; lia). cbn [mbind option_bind]. rewrite Hc. cbn [mbind option_bind].
  set (b2 := buf_write b1 1 [USB_DT_STRING]).
  assert (length b2 = length buf) as L2 by (unfold b2; rewrite length_buf_write; cbn; lia).
  assert (length (padded L ≫= le16) = 254%nat) as Lw.
  { rewrite length_le16s. unfold padded. rewrite length_app, length_replicate. lia. }
  rewrite buf_store_in by lia. cbn [mbind option_bind].
  set (b3 := buf_write b2 2 _).
  assert (length b3 = length buf) as L3 by (unfold b3; rewrite length_buf_write; lia).
  pose proof (count_langs_padded L 0 Hnz) as Hn. cbn [Nat.add] in Hn. fold (padded L) in Hn.
  rewrite Hn by lia. destruct (decide (L = [])) as [HL0|HL0].
  { exists b3. split; [done|]. rewrite HL0. cbn. done. }
  assert (length L <> 0%nat) by (destruct L; done).
  rewrite (proj2 (Nat.eqb_neq _ 0)) by done. rewrite u8_small by lia.
  rewrite buf_store_in by (cbn; lia). cbn [mbind option_bind].
  eexists. split; [|split; [reflexivity|]].
  { rewrite length_buf_write; cbn; lia. }
  intros _. unfold b3, b2. rewrite string_pieces by lia.
  replace (2 * (length L + 1))%nat with (S (S (2 * length L))) by lia.
  rewrite !firstn_cons. cbn [app]. do 2 f_equal.
  unfold padded. rewrite bind_app, <- app_assoc, take_app_le by (rewrite length_le16s; lia).
  apply take_ge. rewrite length_le16s. lia.
Qed.

(** ** Concrete devices *)
Definition demo_fun : usb_function :=
  mkFun 7 (Some demo_descs) (Some demo_descs) None true true true false true true true true.
Definition demo_cfg : usb_configuration :=
  mkConfig 1 0 0x40 0 None None true true [demo_fun] 1
    (Some demo_fun :: replicate 15 None) true true.
Definition demo_driver (langs : list Z) : usb_composite_driver :=
  mkDriver (Some ((fun l => mkStrings l None) <$> langs)) None None None None None [0].
Definition demo_cdev : usb_composite_dev :=
  mkCdev (mkGadget USB_SPEED_HIGH true false 64) [demo_cfg] None ∅ 0 0 0
    (mkDevDesc 0x200 0 0 0 64 0x525 0xa4a0 0 0 0 0 0) (mkReq (replicate 1024 0) 0 false) 0 0 0 0.

(** property: with 127 languages the length of string descriptor zero does not fit
    its byte: the descriptor is reported with length 0. *)
Theorem too_many_languages buf :
  exists tables, length (languages tables) = 127%nat /\
    match get_string (demo_driver ((fun i => Z.of_nat (S i)) <$> seq 0 127)) demo_cdev (replicate 1024 buf) 0 0
    with
    | Some (r, b) => r = 0 /\ b !! 0%nat = Some 0
    | None => False
    end /\ tables = string_tables (demo_driver ((fun i => Z.of_nat (S i)) <$> seq 0 127)) demo_cdev.
Proof. eexists. split; [|split; [|reflexivity]]; vm_compute; auto. Qed.

Lemma demo_cfg_ok : config_ok demo_cfg.
Proof.
  constructor; try done.
  - intros i Hi. cbn in Hi. assert (i = 0)%nat as -> by lia. by exists demo_fun.
  - intros i Hi. cbn in Hi. destruct i as [|i]; [lia|]. cbn [interface demo_cfg lookup].
    apply (lookup_replicate_2 15). unfold MAX_CONFIG_INTERFACES in Hi. lia.
Qed.

Lemma interface_id_spec_witness : fst (usb_interface_id demo_cfg demo_fun) = 1.
Proof. exact (proj1 (proj2 (interface_id_spec demo_cfg demo_fun demo_cfg_ok))). Defined.

Lemma string_ids_spec_witness : fst (usb_string_ids_n demo_cdev 254) = 1.
Proof.
  refine (proj1 (proj2 (proj2 (string_ids_spec demo_cdev 254 _ _)))).
  - split; vm_compute; discriminate.
  - lia.
Defined.

Lemma string_ids_tab_spec_witness :
  fst (fst (usb_string_ids_tab demo_cdev [(0, [65; 0]); (0, [66; 0])])) = 0.
Proof.
  refine (proj1 (proj2 (proj2 (string_ids_tab_spec demo_cdev [(0, [65; 0]); (0, [66; 0])] _)))).
  split; vm_compute; discriminate.
Defined.

Lemma config_buf_report_witness :
  exists buf', config_buf 2 demo_cfg USB_SPEED_HIGH (replicate 1024 0) 2 = Some (25, buf') /\
    take 25 buf' = [9; 2; 25; 0; 1; 1; 0; 0xc0; 1] ++ concat demo_descs.
Proof.
  pose proof (config_buf_report 2 demo_cfg USB_SPEED_HIGH (replicate 1024 0) 2) as H.
  cbv zeta in H. rewrite decide_True in H by (vm_compute; discriminate).
  destruct H as (buf' & H1 & H2 & _).
  - apply length_replicate.
  - constructor.
  - constructor; [exact demo_descs_ok|constructor].
  - exists buf'. split; [exact H1|exact H2].
Defined.

Lemma config_index_spec_witness :
  config_desc 2 demo_cdev (USB_DT_CONFIG * 256 + 1) = Some (- EINVAL, demo_cdev).
Proof. exact (config_index_spec 2 demo_cdev 1 ltac:(lia)). Defined.

Lemma get_string_languages_witness :
  exists buf', get_string (demo_driver [0x409; 0x407; 0x409]) demo_cdev (replicate 256 0) 0 0 =
      Some (6, buf') /\ take 6 buf' = [6; 3; 0x09; 0x04; 0x07; 0x04].
Proof.
  destruct (get_string_languages (demo_driver [0x409; 0x407; 0x409]) demo_cdev (replicate 256 0) 0)
    as (buf' & _ & H1 & H2).
  - rewrite length_replicate. lia.
  - repeat constructor; vm_compute; discriminate.
  - vm_compute. lia.
  - exists buf'. split; [exact H1|]. apply H2. discriminate.
Defined.
