(* ===== verification/CompositeCtlSpec.v ===== *)
(** * USB gadget: properties of the control requests of the composite framework

    The world is a trace of callback and controller calls whose answers come
    from an arbitrary oracle, so the theorems hold for all function drivers
    and controllers. *)

From Stdlib Require Import ZArith.
From stdpp Require Import base list gmap.
From S2P Require Import Prelude UsbString UsbConfig Composite CompositeSpec CompositeCtl.

Inductive call :=
| CSetAlt (f intf alt : Z)
| CGetAlt (f intf : Z)
| CDisable (f : Z)
| CSetup (f : Z) (ctrl : usb_ctrlrequest)
| CConfigSetup (c : Z) (ctrl : usb_ctrlrequest)
| CSuspend (f : Z)
| CResume (f : Z)
| CUnbind (f : Z)
| CConfigUnbind (c : Z)
| CDrvDisconnect
| CDrvSuspend
| CDrvResume
| CVbusDraw (ma : Z)
| CConnect
| CDisconnect
| CQueue (r : usb_request).

(** The calls so far, and the answer to a call after a history. *)
Record tworld := mkT { calls : list call; answer : list call -> call -> Z }.

Definition ext (w : tworld) (cs : list call) : tworld := mkT (calls w ++ cs) (answer w).
Definition ask (c : call) : M tworld Z := fun w => (answer w (calls w) c, ext w [c]).
Definition tell (c : call) : M tworld unit := fun w => (tt, ext w [c]).

#[export] Instance trace_ops : GadgetOps tworld := {|
  set_alt f i a := ask (CSetAlt f i a);
  get_alt f i := ask (CGetAlt f i);
  disable f := tell (CDisable f);
  f_setup f c := ask (CSetup f c);
  c_setup c r := ask (CConfigSetup c r);
  f_suspend f := tell (CSuspend f);
  f_resume f := tell (CResume f);
  f_unbind f := tell (CUnbind f);
  c_unbind c := tell (CConfigUnbind c);
  d_disconnect := tell CDrvDisconnect;
  d_suspend := tell CDrvSuspend;
  d_resume := tell CDrvResume;
  usb_gadget_vbus_draw p := tell (CVbusDraw p);
  usb_gadget_connect := ask CConnect;
  usb_gadget_disconnect := ask CDisconnect;
  usb_ep_queue r := ask (CQueue r);
|}.

Lemma ext_ext w a b : ext (ext w a) b = ext w (a ++ b).
Proof. unfold ext. cbn. by rewrite app_assoc. Qed.
Lemma ext_nil w : ext w [] = w.
Proof. destruct w. unfold ext. cbn. by rewrite app_nil_r. Qed.

(** ** Resetting the configuration *)
Definition disables (fs : list usb_function) : list call :=
  f ← fs; if has_disable f then [CDisable (f_id f)] else [].
Definition cleared (fs : list usb_function) (m : gmap Z Z) : gmap Z Z :=
  foldl (fun m f => <[f_id f := 0]> m) m fs.

Lemma for_each_reset fs d w :
  for_each fs reset_function (d, w) =
    Some (tt, (set_endpoints (cleared fs (endpoints d)) d, ext w (disables fs))).
Proof.
  revert d w. induction fs as [|f fs IH]; intros d w.
  - cbn. rewrite ext_nil. by destruct d.
  - cbn [for_each]. unfold fbind at 1.
    assert (reset_function f (d, w) = Some (tt, (set_endpoints (<[f_id f := 0]> (endpoints d)) d,
      ext w (disables [f])))) as ->.
    { unfold reset_function, disables. cbn. destruct (has_disable f); cbn; by rewrite ?ext_nil. }
    rewrite IH, ext_ext. cbn [endpoints set_endpoints cleared foldl].
    unfold disables. rewrite bind_cons. cbn [mbind list_bind]. rewrite app_nil_r. done.
Qed.

Definition after_reset (c : usb_configuration) (d : usb_composite_dev) : usb_composite_dev :=
  set_config_ptr None (set_endpoints (cleared (functions c) (endpoints d)) d).

Lemma reset_config_run d w c :
  config d = Some c ->
  reset_config (d, w) = Some (tt, (after_reset c d, ext w (disables (functions c)))).
Proof.
  intros Hc. unfold reset_config, fbind, cdev. cbn [fst]. rewrite Hc. by rewrite for_each_reset.
Qed.

(** ** Selecting a configuration *)

(** The functions of the interfaces, up to the first free one. *)
Fixpoint leading (ifs : list (option usb_function)) : list usb_function :=
  match ifs with Some f :: ifs => f :: leading ifs | _ => [] end.

(** One [set_alt] to altsetting zero per interface, in order. *)
Fixpoint alt_calls (tmp : Z) (fs : list usb_function) : list call :=
  match fs with [] => [] | f :: fs => CSetAlt (f_id f) tmp 0 :: alt_calls (tmp + 1) fs end.

(** An endpoint descriptor has an address. *)
Definition ep_desc_ok (d : list Z) : Prop := (3 <= length d)%nat.
Definition usable (sp : usb_device_speed) (f : usb_function) : Prop :=
  exists ds, speed_descs sp f = Some ds /\ Forall ep_desc_ok ds.

(** Every endpoint of [ds] is in the bitmap. *)
Definition marked (ds : list (list Z)) (bits : Z) : Prop :=
  forall d a, d ∈ ds -> d !! 1%nat = Some USB_DT_ENDPOINT -> d !! 2%nat = Some a ->
    Z.testbit bits (ep_index a) = true.

Lemma ep_index_nonneg a : 0 <= ep_index a.
Proof.
  unfold ep_index. apply Z.lor_nonneg. split.
  - apply Z.shiftr_nonneg, Z.land_nonneg. right. lia.
  - apply Z.land_nonneg. right. lia.
Qed.

Lemma mark_endpoints_spec ds bits :
  Forall ep_desc_ok ds ->
  exists bits', mark_endpoints ds bits = Some bits' /\ marked ds bits' /\
    forall i, Z.testbit bits i = true -> Z.testbit bits' i = true.
Proof.
  intros Hd. revert bits. induction Hd as [|d ds Hd _ IH]; intros bits.
  { exists bits. split; [done|]. split; [|done]. intros d a Hin. by apply elem_of_nil in Hin. }
  cbn [mark_endpoints]. unfold ep_desc_ok in Hd.
  destruct (lookup_lt_is_Some_2 d 1) as [t Ht]; [lia|].
  destruct (lookup_lt_is_Some_2 d 2) as [a Ha]; [lia|].
  rewrite Ht. cbn [mbind option_bind]. destruct (Z.eqb_spec t USB_DT_ENDPOINT) as [->|Hne]; cbn [negb].
  - rewrite Ha. cbn [mbind option_bind].
    destruct (IH (Z.setbit bits (ep_index a))) as (bits' & -> & Hm & Hk). exists bits'.
    split; [done|]. split.
    + intros d' a' Hin H1 H2. apply elem_of_cons in Hin as [->|Hin]; [|by eapply Hm].
      rewrite Ha in H2. injection H2 as <-. apply Hk, Z.setbit_eq. apply ep_index_nonneg.
    + intros i Hi. apply Hk. destruct (decide (i < 0)); [by rewrite Z.testbit_neg_r in Hi by lia|].
      rewrite Z.setbit_eqb by apply ep_index_nonneg. by rewrite Hi, orb_true_r.
  - destruct (IH bits) as (bits' & -> & Hm & Hk). exists bits'. split; [done|]. split; [|done].
    intros d' a' Hin H1 H2. apply elem_of_cons in Hin as [->|Hin]; [congruence|by eapply Hm].
Qed.

(** Bitmaps only gain bits. *)
Definition grows (m m' : gmap Z Z) : Prop :=
  forall i b, Z.testbit (default 0 (m !! i)) b = true -> Z.testbit (default 0 (m' !! i)) b = true.

Lemma grows_insert m i bits :
  (forall b, Z.testbit (default 0 (m !! i)) b = true -> Z.testbit bits b = true) ->
  grows m (<[i := bits]> m).
Proof.
  intros H j b Hb. destruct (decide (i = j)) as [->|]; [rewrite lookup_insert_eq; by apply H|].
  by rewrite lookup_insert_ne.
Qed.

(** What selecting a configuration leaves alone. *)
Definition same_but (d d' : usb_composite_dev) : Prop :=
  gadget d' = gadget d /\ configs d' = configs d /\ req d' = req d /\ desc d' = desc d.

(** What the functions answer when they are set to altsetting zero in turn,
    after the history [h]. *)
Fixpoint alt_answers (w : tworld) (h : list call) (tmp : Z) (fs : list usb_function) : list Z :=
  match fs with
  | [] => []
  | f :: fs =>
      answer w h (CSetAlt (f_id f) tmp 0) ::
      alt_answers w (h ++ [CSetAlt (f_id f) tmp 0]) (tmp + 1) fs
  end.

(** The first refusal, with its position. *)
Definition refusal (a : list Z) : option (nat * Z) := list_find (fun r => r < 0) a.

(** The count of outstanding functions after the answers [a]. *)
Definition delayed_after (n : Z) (a : list Z) : Z :=
  foldl (fun n r => if r =? USB_GADGET_DELAYED_STATUS then int_inc n else n) n a.

Lemma alt_answers_ext w cs h tmp fs : alt_answers (ext w cs) h tmp fs = alt_answers w h tmp fs.
Proof. revert h tmp. induction fs as [|f fs IH]; intros h tmp; [done|]. cbn. by rewrite IH. Qed.

Definition init_result (c : usb_configuration) (tmp : Z) (fs : list usb_function) (result : Z)
    (d : usb_composite_dev) (w : tworld) (r : Z) (d' : usb_composite_dev) (cs : list call) : Prop :=
  let a := alt_answers w (calls w) tmp fs in
  same_but d d' /\
  match refusal a with
  | None =>
      r = default result (last a) /\ 0 <= r /\ config d' = Some c /\
      delayed_status d' = delayed_after (delayed_status d) a /\
      cs = alt_calls tmp fs /\ grows (endpoints d) (endpoints d') /\
      (forall f ds, f ∈ fs -> speed_descs (speed (gadget d)) f = Some ds ->
         marked ds (default 0 (endpoints d' !! f_id f)))
  | Some (k, e) =>
      r = e /\ r < 0 /\ config d' = None /\
      delayed_status d' = delayed_after (delayed_status d) (take k a) /\
      cs = take (S k) (alt_calls tmp fs) ++ disables (functions c)
  end.

Lemma init_interfaces_run c ifs tmp result d w :
  config d = Some c -> Forall (usable (speed (gadget d))) (leading ifs) -> 0 <= result ->
  exists r d' cs,
    init_interfaces tmp ifs result (d, w) = Some (r, (d', ext w cs)) /\
    init_result c tmp (leading ifs) result d w r d' cs.
Proof.
  revert tmp result d w. induction ifs as [|[f|] ifs IH]; intros tmp result d w Hc Hu Hr;
    cbn [leading] in *.
  1, 3: exists result, d, []; rewrite ext_nil; split; [done|]; split; [done|];
    cbn; split_and!; [done..|by intros ? ?|intros ? ? Hin; by apply elem_of_nil in Hin].
  apply Forall_cons in Hu as [(ds & Hds & Hok) Hu].
  cbn [init_interfaces]. unfold fbind at 1. cbn [cdev fst]. rewrite Hds.
  destruct (mark_endpoints_spec ds (default 0 (endpoints d !! f_id f)) Hok) as (bits & Hb & Hm & Hk).
  unfold fbind at 1. cbn [on_cdev]. rewrite Hb. cbn [mbind option_bind].
  set (d1 := set_endpoints (<[f_id f := bits]> (endpoints d)) d).
  assert (config d1 = Some c) as Hc1 by done.
  unfold fbind at 1. cbn [world set_alt trace_ops ask].
  unfold init_result. cbn [alt_answers alt_calls].
  set (res := answer w (calls w) (CSetAlt (f_id f) tmp 0)).
  unfold refusal. cbn [list_find].
  destruct (Z.ltb_spec res 0) as [Hneg|Hpos].
  - rewrite decide_True by done.
    unfold fbind. rewrite (reset_config_run _ _ c) by done. cbn [fret].
    exists res, (after_reset c d1), ([CSetAlt (f_id f) tmp 0] ++ disables (functions c)).
    by rewrite ext_ext.
  - rewrite decide_False by lia.
    set (d2 := if res =? USB_GADGET_DELAYED_STATUS then set_delayed (int_inc (delayed_status d1)) d1 else d1).
    assert ((if res =? USB_GADGET_DELAYED_STATUS
             then upd_cdev (fun d => set_delayed (int_inc (delayed_status d)) d) else fret tt)
      (d1, ext w [CSetAlt (f_id f) tmp 0]) = Some (tt, (d2, ext w [CSetAlt (f_id f) tmp 0]))) as Hd2
      by (unfold d2; by destruct (res =? USB_GADGET_DELAYED_STATUS)).
    unfold fbind. rewrite Hd2.
    assert (same_but d d2 /\ config d2 = Some c /\ endpoints d2 = <[f_id f := bits]> (endpoints d) /\
      delayed_status d2 = delayed_after (delayed_status d) [res])
      as ((S1 & S2 & S3 & S4) & Hc2 & He2 & Hn2)
      by (unfold d2; cbn; by destruct (res =? USB_GADGET_DELAYED_STATUS)).
    destruct (IH (tmp + 1) res d2 (ext w [CSetAlt (f_id f) tmp 0]) Hc2) as (r & d' & cs & -> & Hs & Hres);
      [by rewrite S1|done|].
    exists r, d', (CSetAlt (f_id f) tmp 0 :: cs). rewrite ext_ext. split; [done|].
    split; [unfold same_but in *; intuition congruence|].
    change (alt_answers (ext w [CSetAlt (f_id f) tmp 0]) (calls (ext w [CSetAlt (f_id f) tmp 0])))
      with (alt_answers (ext w [CSetAlt (f_id f) tmp 0]) (calls w ++ [CSetAlt (f_id f) tmp 0])) in Hres.
    rewrite alt_answers_ext in Hres. unfold refusal in Hres.
    set (a := alt_answers w (calls w ++ _) (tmp + 1) (leading ifs)) in *.
    destruct (list_find _ a) as [[k e]|]; cbn [fmap option_fmap option_map prod_map fst snd].
    + destruct Hres as (-> & H0 & H1 & H2 & ->). split_and!; try done.
      rewrite H2, Hn2. done.
    + destruct Hres as (-> & H0 & H1 & H2 & -> & Hg & Hmk). split_and!; try done.
      * rewrite last_cons. by destruct (last a).
      * by rewrite H2, Hn2.
      * intros i b Hi. apply Hg. rewrite He2. by apply (grows_insert (endpoints d) (f_id f) bits Hk).
      * intros f' ds' Hin Hf'. apply elem_of_cons in Hin as [->|Hin].
        -- rewrite Hds in Hf'. injection Hf' as <-. intros x a' Hx H3 H4.
           apply Hg. rewrite He2, lookup_insert_eq. by eapply Hm.
        -- apply Hmk; [done|]. by rewrite S1.
Qed.

Definition default_power (d : usb_composite_dev) : Z := if gadget_is_otg (gadget d) then 8 else 100.

Lemma set_config_done_run power result d w :
  set_config_done power result (d, w) =
    Some (if (0 <=? result) && truthy (delayed_status d) then USB_GADGET_DELAYED_STATUS else result,
          (d, ext w [CVbusDraw power])).
Proof.
  unfold set_config_done, fbind. cbn. by destruct ((0 <=? result) && truthy (delayed_status d)).
Qed.

(** The calls that take the old configuration down. *)
Definition takedown (d : usb_composite_dev) : list call :=
  match config d with Some c => disables (functions c) | None => [] end.
Definition after_takedown (d : usb_composite_dev) : usb_composite_dev :=
  match config d with Some c => after_reset c d | None => d end.

Lemma takedown_run d w :
  (match config d with Some _ => reset_config | None => fret tt end) (d, w) =
    Some (tt, (after_takedown d, ext w (takedown d))) /\
  same_but d (after_takedown d) /\ config (after_takedown d) = None /\
  delayed_status (after_takedown d) = delayed_status d.
Proof.
  unfold after_takedown, takedown. destruct (config d) as [c|] eqn:Hc.
  - by rewrite (reset_config_run d w c).
  - by rewrite ext_nil.
Qed.

(** The value a selection returns: a success is delayed while functions are
    outstanding. *)
Definition done_value (d' : usb_composite_dev) (result : Z) : Z :=
  if (0 <=? result) && truthy (delayed_status d') then USB_GADGET_DELAYED_STATUS else result.

(** What follows the search for the configuration: [a] is what its functions
    answered in turn. *)
Definition configure_outcome (VBUS_DRAW : Z) (d : usb_composite_dev) (c : usb_configuration)
    (a : list Z) (r : Z) (d' : usb_composite_dev) (cs : list call) : Prop :=
  match refusal a with
  | None =>
      config d' = Some c /\ r = done_value d' (default 0 (last a)) /\
      delayed_status d' = delayed_after (delayed_status d) a /\
      cs = alt_calls 0 (leading (interface c)) ++ [CVbusDraw (config_power VBUS_DRAW c)] /\
      forall f ds, f ∈ leading (interface c) -> speed_descs (speed (gadget d)) f = Some ds ->
        marked ds (default 0 (endpoints d' !! f_id f))
  | Some (k, e) =>
      config d' = None /\ r = e /\
      delayed_status d' = delayed_after (delayed_status d) (take k a) /\
      cs = take (S k) (alt_calls 0 (leading (interface c))) ++ disables (functions c) ++
           [CVbusDraw (default_power d)]
  end.

(** The outcome of selecting configuration [number]: result, device and the
    calls after the old configuration has been taken down. *)
Definition select_outcome (VBUS_DRAW : Z) (d : usb_composite_dev) (w : tworld) (number r : Z)
    (d' : usb_composite_dev) (cs : list call) : Prop :=
  same_but d d' /\
  match (if number =? 0 then None else find_config number (configs d)) with
  | None =>
      config d' = None /\ delayed_status d' = delayed_status d /\
      r = done_value d' (if number =? 0 then 0 else - EINVAL) /\
      cs = [CVbusDraw (default_power d)]
  | Some c =>
      configure_outcome VBUS_DRAW d c
        (alt_answers w (calls w ++ takedown d) 0 (leading (interface c))) r d' cs
  end.

Lemma find_config_in number l c : find_config number l = Some c -> c ∈ l.
Proof.
  unfold find_config. intros H. destruct (list_find _ l) as [[i x]|] eqn:E; [|done].
  injection H as <-. apply list_find_Some in E as (Hl & _). by eapply list_elem_of_lookup_2.
Qed.

Lemma refusal_neg a k e : refusal a = Some (k, e) -> e < 0.
Proof. unfold refusal. intros H. by apply list_find_Some in H as (_ & H & _). Qed.

Lemma refusal_none_last a : refusal a = None -> 0 <= default 0 (last a).
Proof.
  unfold refusal. intros H. apply list_find_None in H.
  destruct (last a) as [x|] eqn:E; [|done]. apply last_Some in E as [l ->]. cbn.
  apply Forall_app in H as [_ H]. inversion H; subst. lia.
Qed.

Lemma done_value_nonneg d r : 0 <= r -> 0 <= done_value d r.
Proof. intros H. unfold done_value. by case_if. Qed.
Lemma done_value_neg d r : r < 0 -> done_value d r = r.
Proof. intros H. unfold done_value. by rewrite (proj2 (Z.leb_gt 0 r)). Qed.

Lemma set_config_run VBUS_DRAW d w number :
  (forall c, c ∈ configs d -> Forall (usable (speed (gadget d))) (leading (interface c))) ->
  exists r d' cs,
    set_config VBUS_DRAW number (d, w) = Some (r, (d', ext w (takedown d ++ cs))) /\
    select_outcome VBUS_DRAW d w number r d' cs.
Proof.
  intros Hu. unfold select_outcome, set_config. unfold fbind at 1. cbn [cdev fst].
  destruct (takedown_run d w) as (HT & HS & HC & HD). unfold fbind at 1. rewrite HT.
  set (d1 := after_takedown d) in *. set (w1 := ext w (takedown d)). fold (default_power d).
  destruct (Z.eqb_spec number 0) as [->|Hn].
  { rewrite set_config_done_run. unfold w1. rewrite ext_ext.
    do 3 eexists. split; [reflexivity|]. done. }
  destruct (find_config number (configs d)) as [c|] eqn:Hf.
  2: { rewrite set_config_done_run. unfold w1. rewrite ext_ext.
       do 3 eexists. split; [reflexivity|]. done. }
  unfold fbind at 1. cbn [upd_cdev fmodify]. unfold fbind at 1.
  destruct (init_interfaces_run c (interface c) 0 0 (set_config_ptr (Some c) d1) w1)
    as (r & d' & cs & -> & HS' & Hres); [done| |done|].
  { cbn [gadget set_config_ptr]. rewrite (proj1 HS). by eapply Hu, find_config_in. }
  assert (same_but d d') as Hsame.
  { unfold same_but in *. cbn in HS'. intuition congruence. }
  unfold configure_outcome, w1 in *. cbn [calls ext] in Hres. rewrite alt_answers_ext in Hres.
  set (a := alt_answers w _ 0 _) in *. cbn [delayed_status set_config_ptr] in Hres. rewrite HD in Hres.
  destruct (refusal a) as [[k e]|].
  - destruct Hres as (-> & H0 & H1 & H2 & ->).
    rewrite (proj2 (Z.ltb_lt e 0)) by done. rewrite set_config_done_run, !ext_ext.
    fold (done_value d' e). rewrite done_value_neg by done.
    do 3 eexists. split; [rewrite <- ?app_assoc; reflexivity|]. by rewrite <- ?app_assoc.
  - destruct Hres as (-> & H0 & H1 & H2 & -> & Hg & Hm).
    rewrite (proj2 (Z.ltb_ge _ 0)) by done. rewrite set_config_done_run, !ext_ext.
    do 3 eexists. split; [rewrite <- ?app_assoc; reflexivity|]. split_and!; try done.
    intros f ds Hfin Hds. eapply Hm; [done|]. cbn. by rewrite (proj1 HS).
Qed.

(** ** Control requests *)

(** NUL-terminated strings. *)
Definition strings_ok (t : usb_gadget_strings) : Prop :=
  forall l i s, strings t = Some l -> (i, s) ∈ l -> 0 ∈ s.
Definition text_ok (o : option (list Z)) : Prop := forall s, o = Some s -> 0 ∈ s.

Definition table_ok (o : option (list usb_gadget_strings)) : Prop :=
  forall l, o = Some l -> Forall strings_ok l.

Record driver_ok (drv : usb_composite_driver) : Prop := mkDriverOk {
  drv_strings : table_ok (d_strings drv);
  drv_man : text_ok (p_iManufacturer drv);
  drv_man' : text_ok (d_iManufacturer drv);
  drv_man'' : text_ok (Some (composite_manufacturer drv));
  drv_prod : text_ok (p_iProduct drv);
  drv_prod' : text_ok (d_iProduct drv);
  drv_ser : text_ok (p_iSerialNumber drv);
}.

Definition config_usable (d : usb_composite_dev) (c : usb_configuration) : Prop :=
  descs_ok (c_descriptors c) /\
  Forall (fun f => descs_ok (f_descriptors f) /\ descs_ok (f_hs_descriptors f)) (functions c) /\
  Forall (usable (speed (gadget d))) (leading (interface c)) /\
  (forall f, Some f ∈ interface c -> has_set_alt f = true) /\
  table_ok (c_strings c) /\ Forall (fun f => table_ok (f_strings f)) (functions c).

Record cdev_ok (d : usb_composite_dev) : Prop := mkCdevOk {
  cd_buf : length (r_buf (req d)) = USB_BUFSIZ;
  cd_configs : Forall (config_usable d) (configs d);
  cd_config : forall c, config d = Some c -> c ∈ configs d;
}.

Lemma cdev_ok_active d c : cdev_ok d -> config d = Some c -> config_usable d c.
Proof. intros [_ Hc Ha] H. rewrite Forall_forall in Hc. by apply Hc, Ha. Qed.

Lemma cdev_ok_keep d d' :
  cdev_ok d -> gadget d' = gadget d -> configs d' = configs d ->
  length (r_buf (req d')) = USB_BUFSIZ ->
  (forall c, config d' = Some c -> config d = Some c \/ c ∈ configs d) -> cdev_ok d'.
Proof.
  intros [Hb Hc Ha] Hg Hcs Hl Hk. constructor; [done| |].
  - rewrite Hcs. eapply Forall_impl; [exact Hc|]. intros c. unfold config_usable. by rewrite Hg.
  - intros c H. rewrite Hcs. destruct (Hk c H); [by apply Ha|done].
Qed.

Lemma cdev_ok_buf d b : cdev_ok d -> length b = USB_BUFSIZ -> cdev_ok (with_buf b d).
Proof. intros Hd Hl. eapply cdev_ok_keep; [exact Hd|done..|]. intros c Hc. by left. Qed.

Definition not_queue (c : call) : Prop := match c with CQueue _ => False | _ => True end.

(** A handler comes back with a value that can be the length of the data
    stage, without having started it. *)
Definition handles (ctrl : usb_ctrlrequest) (m : FM (usb_composite_dev * tworld) Z)
    (d : usb_composite_dev) (w : tworld) : Prop :=
  exists v d' cs, m (d, w) = Some (v, (d', ext w cs)) /\
    cdev_ok d' /\ Forall not_queue cs /\
    (0 <= v -> v <> USB_GADGET_DELAYED_STATUS -> v <= wLength ctrl /\ v <= Z.of_nat USB_BUFSIZ).

Lemma handles_ret ctrl v d w :
  cdev_ok d ->
  (0 <= v -> v <> USB_GADGET_DELAYED_STATUS -> v <= wLength ctrl /\ v <= Z.of_nat USB_BUFSIZ) ->
  handles ctrl (fret v) d w.
Proof. intros Hb Hv. exists v, d, []. rewrite ext_nil. done. Qed.

Lemma handles_on_cdev ctrl (f : usb_composite_dev -> option (Z * usb_composite_dev)) g d w v d' :
  f d = Some (v, d') -> cdev_ok d' ->
  (0 <= g v -> g v <> USB_GADGET_DELAYED_STATUS -> g v <= wLength ctrl /\ g v <= Z.of_nat USB_BUFSIZ) ->
  handles ctrl (x <~ on_cdev f ;; fret (g x)) d w.
Proof.
  intros Hf Hb Hv. exists (g v), d', []. unfold fbind. cbn. rewrite Hf, ext_nil. done.
Qed.

Lemma min_length_le wl v : 0 <= wl -> 0 <= v < 65536 -> min_length wl v <= wl /\ min_length wl v <= v.
Proof. intros. unfold min_length. rewrite u16_small by lia. lia. Qed.

(** *** Strings *)
Lemma lang_slot_safe i l x :
  length l = (127 - i)%nat -> (i <= 126)%nat ->
  exists slot, lang_slot i l x = Some slot /\ (forall j, slot = Some j -> (j < 127)%nat).
Proof.
  revert i. induction l as [|y l IH]; intros i Hl Hi; [cbn in Hl; lia|]. cbn [lang_slot].
  destruct ((y =? 0) || (126 <=? i)%nat) eqn:E.
  { eexists. split; [reflexivity|]. intros j [= <-]. lia. }
  apply orb_false_iff in E as [_ E]. apply Nat.leb_gt in E.
  destruct (y =? x); [by eexists|]. apply IH; cbn in Hl; lia.
Qed.

Lemma collect_langs_safe sp buf :
  length buf = 127%nat -> exists buf', collect_langs sp buf = Some buf' /\ length buf' = 127%nat.
Proof.
  revert buf. induction sp as [|s sp IH]; intros buf Hl; [by exists buf|]. cbn [collect_langs].
  destruct (lang_slot_safe 0 buf (u16 (language s))) as ([j|] & -> & Hj); [lia|lia| |];
    cbn [mbind option_bind]; [|by apply IH].
  rewrite decide_True by (rewrite Hl; by apply Hj). apply IH. by rewrite length_insert.
Qed.

Lemma collect_all_safe tables buf :
  length buf = 127%nat -> exists buf', collect_all tables buf = Some buf' /\ length buf' = 127%nat.
Proof.
  revert buf. induction tables as [|sp tables IH]; intros buf Hl; [by exists buf|]. cbn [collect_all].
  destruct (collect_langs_safe sp buf Hl) as (b & -> & Hb). by apply IH.
Qed.

(** A string request answers something that fits a descriptor. *)
Definition answers (buf : list Z) (o : option (Z * list Z)) : Prop :=
  exists v b, o = Some (v, b) /\ length b = length buf /\ v <= 255.

Lemma lookup_string_safe sp buf lang id :
  Forall strings_ok sp -> (256 <= length buf)%nat -> answers buf (lookup_string sp buf lang id).
Proof.
  intros Hs. revert buf. induction Hs as [|s sp Hs _ IH]; intros buf Hb; cbn [lookup_string].
  { exists (- EINVAL), buf. by unfold EINVAL. }
  case_if; [by apply IH|].
  destruct (get_string_run s id buf Hs Hb) as (r & b & -> & Hl & _ & Hr). cbn [mbind option_bind].
  case_if; bool_to_prop.
  - exists r, b. split; [done|]. split; [done|]. unfold string_answer, EINVAL in Hr. lia.
  - destruct (IH b) as (v & b' & -> & Hl' & Hv); [lia|]. exists v, b'. split_and!; [done|lia|done].
Qed.

Lemma lookup_all_safe tables buf lang id :
  Forall (Forall strings_ok) tables -> (256 <= length buf)%nat ->
  answers buf (lookup_all tables buf lang id).
Proof.
  intros Hs. revert buf. induction Hs as [|sp tables Hs _ IH]; intros buf Hb; cbn [lookup_all].
  { exists (- EINVAL), buf. by unfold EINVAL. }
  destruct (lookup_string_safe sp buf lang id Hs Hb) as (r & b & -> & Hl & Hr).
  cbn [mbind option_bind]. case_if; bool_to_prop.
  - by exists r, b.
  - destruct (IH b) as (v & b' & -> & Hl' & Hv); [lia|]. exists v, b'. split_and!; [done|lia|done].
Qed.

Lemma opt_table_ok o :
  table_ok o -> Forall (Forall strings_ok) (match o with Some l => [l] | None => [] end).
Proof. intros H. destruct o as [l|]; constructor; [by apply H|constructor]. Qed.

Lemma tables_ok drv d :
  driver_ok drv -> cdev_ok d -> Forall (Forall strings_ok) (string_tables drv d).
Proof.
  intros [Hs _ _ _ _ _ _] [_ Hc _]. unfold string_tables. apply Forall_app. split.
  { by apply opt_table_ok. }
  apply Forall_bind. eapply Forall_impl; [exact Hc|]. intros c (_ & _ & _ & _ & H1 & H2).
  apply Forall_app. split.
  { by apply opt_table_ok. }
  apply Forall_bind. eapply Forall_impl; [exact H2|]. intros f Hf.
  by apply opt_table_ok.
Qed.

Lemma get_string_answers drv d buf lang id :
  driver_ok drv -> cdev_ok d -> (256 <= length buf)%nat -> answers buf (get_string drv d buf lang id).
Proof.
  intros Hdrv Hd Hb. pose proof (tables_ok drv d Hdrv Hd) as Ht. destruct Hdrv.
  unfold get_string. case_if.
  - rewrite buf_store_in by (rewrite length_replicate; lia). cbn [mbind option_bind].
    set (b1 := buf_write buf 0 _).
    assert (length b1 = length buf) as L1 by (apply length_buf_write; rewrite length_replicate; lia).
    rewrite buf_store_in by (cbn; lia). cbn [mbind option_bind].
    destruct (collect_all_safe (string_tables drv d) (replicate 127 0)) as (wd & -> & Hw); [done|].
    cbn [mbind option_bind]. set (b2 := buf_write b1 1 _).
    assert (length b2 = length buf) as L2 by (unfold b2; rewrite length_buf_write; cbn; lia).
    assert (length (wd ≫= le16) = 254%nat) as Lw by (rewrite length_le16s; lia).
    rewrite buf_store_in by lia. cbn [mbind option_bind]. set (b3 := buf_write b2 2 _).
    assert (length b3 = length buf) as L3 by (unfold b3; rewrite length_buf_write; lia).
    case_if; [by exists (- EINVAL), b3; unfold EINVAL|].
    rewrite buf_store_in by (cbn; lia). cbn [mbind option_bind].
    do 2 eexists. split; [reflexivity|]. rewrite length_buf_write by (cbn; lia). split; [done|].
    pose proof (u8_range (2 * (Z.of_nat (count_langs 0 wd) + 1))). lia.
  - cbv zeta. set (str := if manufacturer_override d =? id then _ else _).
    assert (text_ok str) as Hstr.
    { unfold str. repeat case_match; try done; by intros ? ?; simplify_eq; eauto. }
    destruct str as [s|]; [|by apply lookup_all_safe].
    destruct (get_string_run (mkStrings lang (Some [(0xff, s)])) 0xff buf) as (r & b & -> & Hl & _ & Hr).
    + intros l i t [= <-] Hin. apply elem_of_cons in Hin as [[= -> ->]|Hin]; [by apply Hstr|].
      by apply elem_of_nil in Hin.
    + done.
    + exists r, b. split; [done|]. split; [done|]. unfold string_answer, EINVAL in Hr. lia.
Qed.

(** *** Descriptors *)
Lemma speed_descs_ok sp f :
  descs_ok (f_descriptors f) /\ descs_ok (f_hs_descriptors f) -> descs_ok (speed_descs sp f).
Proof. intros []. unfold speed_descs. by case_decide. Qed.

Lemma config_desc_safe VBUS_DRAW d w_value :
  cdev_ok d ->
  exists v d', config_desc VBUS_DRAW d w_value = Some (v, d') /\
    cdev_ok d' /\ v <= Z.of_nat USB_BUFSIZ.
Proof.
  intros Hd. pose proof Hd as [Hb Hc _]. unfold config_desc. cbv zeta.
  set (sp := request_speed _ _). set (i := Z.to_nat _).
  destruct (nth_config_count sp (configs d) i) as [[(c & -> & _ & Hin) _]|[-> _]].
  2: { do 2 eexists. split; [reflexivity|]. done. }
  rewrite Forall_forall in Hc. destruct (Hc c Hin) as (H1 & H2 & _).
  pose proof (config_buf_result VBUS_DRAW c sp (r_buf (req d)) (u8 (Z.shiftr w_value 8)) Hb H1) as H.
  cbv zeta in H. case_decide as Hfit.
  - rewrite H.
    + cbn [mbind option_bind]. do 2 eexists. split; [reflexivity|]. split; [|done].
      apply cdev_ok_buf; [done|]. rewrite length_buf_write; [done|].
      rewrite length_app, length_concat, Hb. unfold USB_BUFSIZ in *.
      change (length (config_header _ _ _ _)) with 9%nat. lia.
    + eapply Forall_impl; [exact H2|]. intros f. apply speed_descs_ok.
  - destruct H as (b & -> & Hl).
    + eapply Forall_impl; [exact H2|]. intros f. apply speed_descs_ok.
    + cbn [mbind option_bind]. do 2 eexists. split; [reflexivity|]. split; [|done].
      apply cdev_ok_buf; [done|]. by rewrite Hl.
Qed.

Lemma store_buf_run off bs d (w : tworld) :
  (off + length bs <= length (r_buf (req d)))%nat ->
  store_buf off bs (d, w) = Some (tt, (with_buf (buf_write (r_buf (req d)) off bs) d, w)).
Proof. intros H. unfold store_buf. cbn [on_cdev]. by rewrite buf_store_in. Qed.

Lemma handles_get_descriptor VBUS_DRAW drv d w ctrl :
  cdev_ok d -> driver_ok drv -> 0 <= wLength ctrl ->
  handles ctrl (get_descriptor VBUS_DRAW drv ctrl) d w.
Proof.
  intros Hd Hdrv Hw. pose proof (cd_buf d Hd) as Hb. unfold USB_BUFSIZ in Hb.
  unfold get_descriptor, handles. unfold fbind at 1. cbn [cdev fst].
  case_if; [|case_if; [|case_if; [|case_if]]].
  - unfold fbind. cbn [upd_cdev fmodify cdev fst].
    set (d1 := set_desc _ d).
    destruct (min_length_le (wLength ctrl) 18) as [? ?]; [lia|lia|].
    remember (min_length (wLength ctrl) 18) as v eqn:Ev.
    rewrite store_buf_run; cycle 1.
    { cbn. rewrite length_take. change (r_buf (req d1)) with (r_buf (req d)). rewrite Hb. cbn. lia. }
    exists v. eexists. exists []. rewrite ext_nil. split; [reflexivity|]. split.
    + apply cdev_ok_buf.
      * eapply cdev_ok_keep; [exact Hd|done|done|exact Hb|]. intros c Hc. by left.
      * rewrite length_buf_write; [done|]. rewrite length_take. cbn. rewrite Hb. lia.
    + split; [done|]. unfold USB_BUFSIZ. lia.
  - case_if; [by apply handles_ret|]. unfold fbind. cbn [on_cdev]. unfold device_qual.
    rewrite buf_store_in by (cbn; lia). cbn [mbind option_bind].
    exists (Z.min (wLength ctrl) 10). eexists. exists []. rewrite ext_nil. split; [reflexivity|].
    split; [|split; [done|unfold USB_BUFSIZ; lia]]. apply cdev_ok_buf; [done|].
    rewrite length_buf_write; [done|cbn; lia].
  - destruct (config_desc_safe VBUS_DRAW d (wValue ctrl) Hd) as (v & d' & Hr & Hl & Hv).
    eapply (handles_on_cdev ctrl _ (fun v => if 0 <=? v then min_length (wLength ctrl) v else v));
      [exact Hr|done|]. case_if; bool_to_prop; [|lia]. intros _ _.
    unfold USB_BUFSIZ in *. destruct (min_length_le (wLength ctrl) v); lia.
  - destruct (get_string_answers drv d (r_buf (req d)) (wIndex ctrl) (Z.land (wValue ctrl) 0xff) Hdrv Hd)
      as (v & b & Hr & Hl & Hv); [lia|].
    eapply (handles_on_cdev ctrl _ (fun v => if 0 <=? v then min_length (wLength ctrl) v else v));
      [by rewrite Hr|apply cdev_ok_buf; [done|]; by rewrite Hl, Hb|]. case_if; bool_to_prop; [|lia]. intros _ _.
    unfold USB_BUFSIZ in *. destruct (min_length_le (wLength ctrl) v); lia.
  - by apply handles_ret.
Qed.

(** *** Interfaces and delegation *)
Lemma active_function_in d i f c :
  active_function d i = Some f -> config d = Some c -> Some f ∈ interface c.
Proof.
  unfold active_function. intros H Hc. rewrite Hc in H. cbn [mbind option_bind] in H.
  destruct (Z.of_nat MAX_CONFIG_INTERFACES <=? i); [done|].
  destruct (interface c !! Z.to_nat i) as [[g|]|] eqn:E; cbn in H; [|done..].
  injection H as ->. by eapply list_elem_of_lookup_2.
Qed.

Definition alt_contract (w : tworld) : Prop :=
  forall h f i a, answer w h (CSetAlt f i a) <= 0 \/
                  answer w h (CSetAlt f i a) = USB_GADGET_DELAYED_STATUS.

Lemma handles_set_interface ctrl intf d w :
  cdev_ok d -> alt_contract w -> 0 <= wLength ctrl -> handles ctrl (set_interface ctrl intf) d w.
Proof.
  intros Hd Ha Hw. unfold set_interface, handles. unfold fbind at 1. cbn [cdev fst].
  destruct (active_function d intf) as [f|] eqn:Ef; [|by apply handles_ret].
  assert (has_set_alt f = true) as ->.
  { unfold active_function in Ef. destruct (config d) as [c|] eqn:Hc; [|done].
    destruct (cdev_ok_active d c Hd Hc) as (_ & _ & _ & Hs & _). apply Hs.
    eapply (active_function_in d intf); [|done].
    unfold active_function. by rewrite Hc. }
  cbn [negb]. unfold fbind. cbn [world set_alt trace_ops ask].
  set (v := answer _ _ _). pose proof (Ha (calls w) (f_id f) (wIndex ctrl) (wValue ctrl)) as Hv. fold v in Hv.
  destruct (v =? USB_GADGET_DELAYED_STATUS) eqn:E; do 3 eexists; (split; [reflexivity|]);
    (split; [by (eapply cdev_ok_keep; [exact Hd|done|done|apply Hd|]; intros c Hc; left)|
             split; [by repeat constructor|]]); unfold USB_BUFSIZ; bool_to_prop; lia.
Qed.

Lemma handles_get_interface ctrl intf d w :
  cdev_ok d -> 0 <= wLength ctrl -> handles ctrl (get_interface ctrl intf) d w.
Proof.
  intros Hd Hw. pose proof (cd_buf d Hd) as Hb. unfold get_interface, handles. unfold fbind at 1. cbn [cdev fst].
  destruct (active_function d intf) as [f|]; [|by apply handles_ret].
  assert (exists v cs, (if has_get_alt f then world (get_alt (f_id f) (wIndex ctrl)) else fret 0) (d, w) =
    Some (v, (d, ext w cs)) /\ Forall not_queue cs) as (v & cs & Hg & Hq).
  { destruct (has_get_alt f); do 2 eexists; (split; [|shelve]); cbn;
      [reflexivity|by rewrite ext_nil]. Unshelve. all: by repeat constructor. }
  unfold fbind at 1. rewrite Hg. unfold USB_BUFSIZ in *.
  case_if; bool_to_prop; [exists v, d, cs; split_and!; try done; lia|].
  unfold fbind. rewrite store_buf_run by (cbn; lia).
  do 3 eexists. split; [reflexivity|]. split; [|split; [exact Hq|]].
  - apply cdev_ok_buf; [done|]. rewrite length_buf_write; [done|cbn; lia].
  - intros _ _. destruct (min_length_le (wLength ctrl) 1); unfold USB_BUFSIZ; lia.
Qed.

Definition stage_value (r : Z) : Prop := r <= 0 \/ r = USB_GADGET_DELAYED_STATUS.

Lemma init_value ifs tmp result d w r d' w' :
  alt_contract w -> stage_value result ->
  init_interfaces tmp ifs result (d, w) = Some (r, (d', w')) -> stage_value r.
Proof.
  revert tmp result d w. induction ifs as [|[f|] ifs IH]; intros tmp result d w Ha Hr H;
    cbn [init_interfaces] in H; [by injection H as <- _ _| |by injection H as <- _ _].
  unfold fbind at 1 in H. cbn [cdev fst] in H.
  destruct (speed_descs (speed (gadget d)) f) as [ds|]; [|done].
  unfold fbind at 1 in H. cbn [on_cdev] in H.
  destruct (mark_endpoints ds _) as [bits|]; [|done]. cbn [mbind option_bind] in H.
  unfold fbind at 1 in H. cbn [world set_alt trace_ops ask] in H.
  pose proof (Ha (calls w) (f_id f) tmp 0) as Hv. set (v := answer _ _ _) in *.
  destruct (v <? 0).
  - unfold fbind in H. destruct (reset_config _) as [[[] [d1 w1]]|]; [|done]. by injection H as <- _ _.
  - unfold fbind in H. destruct (v =? USB_GADGET_DELAYED_STATUS); by eapply IH in H.
Qed.

Lemma set_config_value VBUS_DRAW number d w r d' w' :
  alt_contract w ->
  set_config VBUS_DRAW number (d, w) = Some (r, (d', w')) -> stage_value r.
Proof.
  intros Ha H. unfold set_config in H. unfold fbind at 1 in H. cbn [cdev fst] in H.
  destruct (takedown_run d w) as (HT & _). unfold fbind at 1 in H. rewrite HT in H.
  assert (forall p res d w r d' w', stage_value res ->
    set_config_done p res (d, w) = Some (r, (d', w')) -> stage_value r) as Hdone.
  { intros p res d0 w0 r0 d0' w0' Hres Hr. rewrite set_config_done_run in Hr. injection Hr as <- _ _.
    case_if; [by right|done]. }
  destruct (number =? 0); [eapply Hdone in H; [done|left; lia]|].
  destruct (find_config number (configs d)) as [c|];
    [|eapply Hdone in H; [done|left; unfold EINVAL; lia]].
  unfold fbind at 1 in H. cbn [upd_cdev fmodify] in H. unfold fbind at 1 in H.
  destruct (init_interfaces 0 (interface c) 0 _) as [[res [d1 w1]]|] eqn:Hi; [|done].
  apply init_value in Hi; [|done|left; lia]. by destruct (res <? 0); eapply Hdone in H.
Qed.

Lemma not_queue_disables fs : Forall not_queue (disables fs).
Proof.
  unfold disables. induction fs as [|f fs IH]; [constructor|]. rewrite bind_cons.
  apply Forall_app. split; [|done]. destruct (has_disable f); by repeat constructor.
Qed.
Lemma not_queue_alts tmp fs : Forall not_queue (alt_calls tmp fs).
Proof. revert tmp. induction fs; intros; by constructor. Qed.

Lemma not_queue_take n tmp fs : Forall not_queue (take n (alt_calls tmp fs)).
Proof. apply Forall_take, not_queue_alts. Qed.

Lemma select_outcome_ok VBUS_DRAW d w number r d' cs :
  cdev_ok d -> select_outcome VBUS_DRAW d w number r d' cs -> cdev_ok d' /\ Forall not_queue cs.
Proof.
  intros Hd [(Hg & Hcs & Hr & _) H].
  assert ((forall c, config d' = Some c -> c ∈ configs d) /\ Forall not_queue cs) as [Hc Hq].
  { destruct (if number =? 0 then None else _) as [c|] eqn:Hf; unfold configure_outcome in H;
      [destruct (refusal _) as [[k e]|]|].
    - destruct H as (Hc & _ & _ & ->). rewrite Hc. split; [done|].
      apply Forall_app. split; [apply not_queue_take|].
      apply Forall_app. split; [apply not_queue_disables|by repeat constructor].
    - destruct H as (Hc & _ & _ & -> & _). rewrite Hc. split.
      + intros ? [= <-]. destruct (number =? 0); [done|]. by eapply find_config_in.
      + apply Forall_app. split; [apply not_queue_alts|by repeat constructor].
    - destruct H as (Hc & _ & _ & ->). rewrite Hc. split; [done|by repeat constructor]. }
  split; [|done]. eapply cdev_ok_keep; [exact Hd|done|done|rewrite Hr; apply Hd|].
  intros c H'. right. by apply Hc.
Qed.

Lemma handles_set_config VBUS_DRAW ctrl number d w :
  cdev_ok d -> alt_contract w -> 0 <= wLength ctrl -> handles ctrl (set_config VBUS_DRAW number) d w.
Proof.
  intros Hd Ha Hw. destruct (set_config_run VBUS_DRAW d w number) as (r & d' & cs & Hr & Ho).
  { intros c Hin. destruct Hd as [_ Hc _]. rewrite Forall_forall in Hc. by destruct (Hc c Hin) as (_ & _ & ? & _). }
  pose proof (set_config_value _ _ _ _ _ _ _ Ha Hr) as Hv.
  destruct (select_outcome_ok _ _ _ _ _ _ _ Hd Ho) as [Hok Hq].
  exists r, d', (takedown d ++ cs). split; [done|]. split; [done|]. split.
  - apply Forall_app. split; [|done]. unfold takedown.
    destruct (config d); [apply not_queue_disables|constructor].
  - unfold stage_value, USB_BUFSIZ in *. lia.
Qed.

(** What [composite_setup] makes of a request, in the trace of its calls: at
    most one data or status stage, which is never longer than the host asked
    for nor than the buffer, and which ends in a short packet exactly when
    it is shorter than asked. *)
Definition stage_ok (ctrl : usb_ctrlrequest) (r : usb_request) : Prop :=
  0 <= r_length r <= wLength ctrl /\ r_length r <= Z.of_nat (length (r_buf r)) /\
  length (r_buf r) = USB_BUFSIZ /\ r_zero r = (r_length r <? wLength ctrl).

Definition one_stage (ctrl : usb_ctrlrequest) (cs : list call) : Prop :=
  Forall not_queue cs \/
  exists cs' r, cs = cs' ++ [CQueue r] /\ Forall not_queue cs' /\ stage_ok ctrl r.

Definition setup_result (ctrl : usb_ctrlrequest) (m : FM (usb_composite_dev * tworld) Z)
    (d : usb_composite_dev) (w : tworld) : Prop :=
  exists v d' cs, m (d, w) = Some (v, (d', ext w cs)) /\ cdev_ok d' /\ one_stage ctrl cs.

Lemma respond_run ctrl v d' w cs :
  cdev_ok d' -> Forall not_queue cs ->
  (0 <= v -> v <> USB_GADGET_DELAYED_STATUS -> v <= wLength ctrl /\ v <= Z.of_nat USB_BUFSIZ) ->
  exists r d'' cs', respond ctrl v (d', ext w cs) = Some (r, (d'', ext w cs')) /\
    cdev_ok d'' /\ one_stage ctrl cs'.
Proof.
  intros Hd Hq Hv. unfold respond.
  destruct ((0 <=? v) && negb (v =? USB_GADGET_DELAYED_STATUS)) eqn:E.
  - bool_to_prop. destruct Hv as [Hv1 Hv2]; [lia|lia|]. do 3 eexists. split.
    { unfold fbind. cbn [upd_cdev fmodify cdev fst world usb_ep_queue trace_ops ask req set_req].
      rewrite ext_ext. reflexivity. }
    split; [by (eapply cdev_ok_keep; [exact Hd|done|done|apply Hd|]; intros c Hc; left)|].
    right. do 2 eexists. split; [reflexivity|]. split; [done|].
    unfold stage_ok. cbn [r_buf r_length r_zero]. rewrite (cd_buf d' Hd). done.
  - exists v, d', cs. split; [done|]. split; [done|]. by left.
Qed.

Lemma respond_result ctrl m d w :
  handles ctrl m d w -> setup_result ctrl (v <~ m ;; respond ctrl v) d w.
Proof.
  intros (v & d' & cs & Hm & Hd & Hq & Hv). unfold setup_result, fbind at 1. rewrite Hm.
  by apply respond_run.
Qed.

Lemma delegate_result ctrl intf d w :
  cdev_ok d ->
  (Z.land (bRequestType ctrl) USB_RECIP_MASK = USB_RECIP_ENDPOINT -> config d <> None) ->
  setup_result ctrl (delegate ctrl intf) d w.
Proof.
  intros Hd Hc. unfold setup_result, delegate. unfold fbind at 1. cbn [cdev fst].
  set (pick := if Z.land _ _ =? USB_RECIP_INTERFACE then _ else _).
  assert (exists f, pick (d, w) = Some (f, (d, w))) as [f Hf].
  { unfold pick. destruct (_ =? USB_RECIP_INTERFACE); [by eexists|].
    destruct (Z.eqb_spec (Z.land (bRequestType ctrl) USB_RECIP_MASK) USB_RECIP_ENDPOINT); [|by eexists].
    destruct (config d); [by eexists|]. by destruct Hc. }
  unfold fbind at 1. rewrite Hf.
  assert (forall c, not_queue c -> exists v d' cs, world (ask c) (d, w) = Some (v, (d', ext w cs)) /\
    cdev_ok d' /\ one_stage ctrl cs) as Hask.
  { intros c Hq. exists (answer w (calls w) c), d, [c]. split; [done|]. split; [done|].
    left. by repeat constructor. }
  assert (exists v d' cs, fret (- EOPNOTSUPP) (d, w) = Some (v, (d', ext w cs)) /\
    cdev_ok d' /\ one_stage ctrl cs) as Hret.
  { exists (- EOPNOTSUPP), d, []. rewrite ext_nil. split; [done|]. split; [done|]. left. constructor. }
  destruct f as [f|]; [destruct (has_setup f)|]; [by apply Hask| |];
    (destruct (config d) as [c|]; [destruct (c_has_setup c)|]); (done || by apply Hask).
Qed.

Lemma setup_run VBUS_DRAW drv ctrl d w :
  cdev_ok d -> driver_ok drv -> alt_contract w -> 0 <= wLength ctrl ->
  (Z.land (bRequestType ctrl) USB_RECIP_MASK = USB_RECIP_ENDPOINT -> config d <> None) ->
  setup_result ctrl (composite_setup VBUS_DRAW drv ctrl) d w.
Proof.
  intros Hd Hdrv Ha Hw He. unfold composite_setup, setup_result. unfold fbind at 1.
  cbn [upd_cdev fmodify]. set (d0 := set_req _ d).
  assert (cdev_ok d0) as H0.
  { eapply cdev_ok_keep; [exact Hd|done|done|apply Hd|]. intros c Hc. by left. }
  assert (config d0 = config d) as Hc0 by done.
  destruct (_ && _); [apply respond_result; by apply handles_get_descriptor|].
  destruct (_ && _); [apply respond_result; by apply handles_set_config|].
  destruct (_ && _).
  { pose proof (cd_buf d0 H0) as Hb. unfold USB_BUFSIZ in Hb.
    unfold fbind at 1. cbn [cdev fst]. unfold fbind at 1.
    rewrite store_buf_run by (rewrite Hb; cbn; lia).
    match goal with |- context [respond ctrl ?v (?d1, w)] =>
      assert (exists r d'' cs', respond ctrl v (d1, ext w []) = Some (r, (d'', ext w cs')) /\
        cdev_ok d'' /\ one_stage ctrl cs') as Hr; [|by rewrite ext_nil in Hr] end.
    apply respond_run; [|constructor|].
    - apply cdev_ok_buf; [done|]. rewrite length_buf_write; [done|rewrite Hb; cbn; lia].
    - intros _ _. destruct (min_length_le (wLength ctrl) 1); unfold USB_BUFSIZ; lia. }
  destruct (_ && _); [apply respond_result; by apply handles_set_interface|].
  destruct (_ && _); [apply respond_result; by apply handles_get_interface|].
  apply delegate_result; [done|]. by rewrite Hc0.
Qed.

(** C3: selecting a configuration always comes to an end, on a device
    whose configurations are usable at its speed (every function has
    descriptors for the speed, each at least three bytes long).  First every
    function of the old configuration is disabled.  Number 0 leaves the
    device unconfigured, and so does an unknown number, which answers
    -EINVAL.  Otherwise each interface is set to altsetting zero in order,
    and the outcome is decided by what the functions answer in turn: if none
    refuses, the configuration is active, its power is drawn, every endpoint
    of its functions is recorded for dispatch, and the result is the last
    answer, or the delayed status when one is outstanding; at the first
    refusal - and not before - no further interface is set, all functions of
    the configuration are disabled, the device is unconfigured, and the
    result is that refusal.  Each answer that delays the status is counted
    once. *)
Theorem set_config_spec VBUS_DRAW d w number :
  (forall c, c ∈ configs d -> Forall (usable (speed (gadget d))) (leading (interface c))) ->
  exists r d' cs,
    set_config VBUS_DRAW number (d, w) = Some (r, (d', ext w (takedown d ++ cs))) /\
    select_outcome VBUS_DRAW d w number r d' cs /\
    (alt_contract w -> stage_value r).
Proof.
  intros Hu. destruct (set_config_run VBUS_DRAW d w number Hu) as (r & d' & cs & H & Ho).
  exists r, d', cs. split; [done|]. split; [done|]. intros Ha. by eapply set_config_value.
Qed.

Lemma set_config_spec_witness :
  exists d' cs, set_config 2 1 (demo_cdev, mkT [] (fun _ _ => - ENODEV)) =
    Some (- ENODEV, (d', ext (mkT [] (fun _ _ => - ENODEV)) cs)) /\ config d' = None.
Proof.
  destruct (set_config_spec 2 demo_cdev (mkT [] (fun _ _ => - ENODEV)) 1) as (r & d' & cs & E & Ho & _).
  - intros c Hin. apply elem_of_cons in Hin as [->|Hin]; [|by apply elem_of_nil in Hin].
    constructor; [|constructor]. exists demo_descs. split; [reflexivity|].
    repeat constructor; cbn; unfold ep_desc_ok; cbn; lia.
  - destruct Ho as (_ & Hc & -> & _). exists d', cs. exact (conj E Hc).
Defined.
