(* ===== verification/CompositeRun.v ===== *)
(** * USB gadget: the composite framework as a state machine

    The entry points the controller calls, as a step relation on the device
    and its call trace, and what holds in every state it can reach; the
    activation counter; the delayed status stage. *)

From Stdlib Require Import ZArith.
From stdpp Require Import base list gmap relations strings.
From S2P Require Import Prelude EpAutoconf.
From S2P Require Import UsbString UsbConfig Composite CompositeSpec CompositeCtl CompositeCtlSpec.

Abbreviation gstate := (usb_composite_dev * tworld)%type.

Inductive gstep (VBUS_DRAW : Z) (drv : usb_composite_driver) : gstate -> gstate -> Prop :=
| step_setup ctrl v s s' :
    0 <= wLength ctrl -> composite_setup VBUS_DRAW drv ctrl s = Some (v, s') ->
    gstep VBUS_DRAW drv s s'
| step_disconnect has s s' :
    composite_disconnect has s = Some (tt, s') -> gstep VBUS_DRAW drv s s'
| step_suspend has s s' :
    composite_suspend has s = Some (tt, s') -> gstep VBUS_DRAW drv s s'
| step_resume has s s' :
    composite_resume VBUS_DRAW has s = Some (tt, s') -> gstep VBUS_DRAW drv s s'
| step_continue s s' :
    usb_composite_setup_continue s = Some (tt, s') -> gstep VBUS_DRAW drv s s'.

(** A handler that comes to an end and keeps the device and the functions'
    contract. *)
Definition keeps {A} (m : FM gstate A) (s : gstate) : Prop :=
  exists a d' cs, m s = Some (a, (d', ext (snd s) cs)) /\ cdev_ok d'.

(** ** The entry points without data *)
Definition tells (p : usb_function -> bool) (k : Z -> call) (fs : list usb_function) : list call :=
  f ← fs; if p f then [k (f_id f)] else [].

Lemma for_each_tell (p : usb_function -> bool) (k : Z -> call) fs (d : usb_composite_dev) (w : tworld) :
  for_each fs (fun f => if p f then world (tell (k (f_id f))) else fret tt) (d, w) =
    Some (tt, (d, ext w (tells p k fs))).
Proof.
  revert w. induction fs as [|f fs IH]; intros w; [by cbn; rewrite ext_nil|].
  cbn [for_each]. unfold tells. rewrite bind_cons. unfold fbind at 1.
  destruct (p f); cbn [world tell fret]; rewrite IH; [by rewrite ext_ext|done].
Qed.

Lemma disconnect_run has d w :
  composite_disconnect has (d, w) =
    Some (tt, (after_takedown d, ext w (takedown d ++ if has : bool then [CDrvDisconnect] else []))).
Proof.
  unfold composite_disconnect. unfold fbind at 1. cbn [cdev fst]. unfold fbind at 1.
  rewrite (proj1 (takedown_run d w)). destruct has; cbn; rewrite ?ext_ext, ?app_nil_r; done.
Qed.

Definition suspend_calls (d : usb_composite_dev) : list call :=
  match config d with Some c => tells has_suspend CSuspend (functions c) | None => [] end.
Definition resume_calls (VBUS_DRAW : Z) (d : usb_composite_dev) : list call :=
  match config d with
  | Some c => tells has_resume CResume (functions c) ++ [CVbusDraw (config_power VBUS_DRAW c)]
  | None => []
  end.

Lemma suspend_run has d w :
  composite_suspend has (d, w) =
    Some (tt, (set_suspended 1 d,
      ext w (suspend_calls d ++ (if has : bool then [CDrvSuspend] else []) ++ [CVbusDraw 2]))).
Proof.
  unfold composite_suspend, suspend_calls. unfold fbind at 1. cbn [cdev fst]. unfold fbind at 1.
  destruct (config d) as [c|].
  - cbn [f_suspend trace_ops]. rewrite (for_each_tell has_suspend CSuspend).
    destruct has; cbn; by rewrite !ext_ext, <- ?app_assoc.
  - destruct has; cbn; by rewrite ?ext_ext.
Qed.

Lemma resume_run VBUS_DRAW has d w :
  composite_resume VBUS_DRAW has (d, w) =
    Some (tt, (set_suspended 0 d,
      ext w ((if has : bool then [CDrvResume] else []) ++ resume_calls VBUS_DRAW d))).
Proof.
  unfold composite_resume, resume_calls. unfold fbind at 1.
  assert ((if has then world d_resume else fret tt) (d, w) =
    Some (tt, (d, ext w (if has then [CDrvResume] else [])))) as ->
    by (destruct has; cbn; by rewrite ?ext_nil).
  set (w1 := ext w (if has then [CDrvResume] else [])). unfold fbind at 1. cbn [cdev fst].
  destruct (config d) as [c|].
  - unfold fbind at 1. unfold fbind at 1. cbn [f_resume trace_ops].
    rewrite (for_each_tell has_resume CResume). cbn. unfold w1. by rewrite !ext_ext, <- ?app_assoc.
  - cbn. unfold w1. by rewrite app_nil_r.
Qed.

Definition status_request (d : usb_composite_dev) : usb_request :=
  mkReq (r_buf (req d)) 0 (r_zero (req d)).

Lemma continue_run d w :
  usb_composite_setup_continue (d, w) =
    Some (tt,
      if delayed_status d =? 0 then (d, w)
      else
        let d1 := set_delayed (int_dec (delayed_status d)) d in
        if delayed_status d =? 1 then
          (set_req (status_request d) d1, ext w [CQueue (status_request d)])
        else (d1, w)).
Proof.
  unfold usb_composite_setup_continue. unfold fbind at 1. cbn [cdev fst].
  destruct (Z.eqb_spec (delayed_status d) 0) as [|Hn]; [done|].
  unfold fbind at 1. cbn [upd_cdev fmodify]. unfold fbind at 1. cbn [cdev fst delayed_status set_delayed].
  destruct (Z.eqb_spec (delayed_status d) 1) as [E|E].
  - rewrite E. cbn. done.
  - rewrite (proj2 (Z.eqb_neq (int_dec (delayed_status d)) 0)); [done|]. unfold int_dec. case_if; bool_to_prop; lia.
Qed.

Lemma cdev_ok_takedown d : cdev_ok d -> cdev_ok (after_takedown d).
Proof.
  intros Hd. unfold after_takedown. destruct (config d) as [c|] eqn:Hc; [|done].
  eapply cdev_ok_keep; [exact Hd|done|done|apply Hd|]. by intros.
Qed.

Lemma cdev_ok_same d d' :
  cdev_ok d -> gadget d' = gadget d -> configs d' = configs d -> config d' = config d ->
  r_buf (req d') = r_buf (req d) -> cdev_ok d'.
Proof.
  intros Hd Hg Hcs Hc Hb. eapply cdev_ok_keep; [exact Hd|done|done|rewrite Hb; apply Hd|].
  intros c. rewrite Hc. by left.
Qed.

Lemma quiet_keeps d w :
  cdev_ok d ->
  (forall has, keeps (composite_disconnect has) (d, w)) /\
  (forall has, keeps (composite_suspend has) (d, w)) /\
  (forall VBUS_DRAW has, keeps (composite_resume VBUS_DRAW has) (d, w)) /\
  keeps usb_composite_setup_continue (d, w).
Proof.
  intros Hd. unfold keeps. cbn [snd]. split_and!.
  - intros has. rewrite disconnect_run. do 3 eexists. split; [reflexivity|]. by apply cdev_ok_takedown.
  - intros has. rewrite suspend_run. do 3 eexists. split; [reflexivity|].
    by eapply (cdev_ok_same d).
  - intros V has. rewrite resume_run. do 3 eexists. split; [reflexivity|]. by eapply (cdev_ok_same d).
  - rewrite continue_run. destruct (_ =? 0).
    + exists tt, d, []. by rewrite ext_nil.
    + cbv zeta. destruct (_ =? 1).
      * do 3 eexists. split; [reflexivity|]. by eapply (cdev_ok_same d).
      * do 3 eexists. split; [rewrite <- (ext_nil w) at 1; reflexivity|]. by eapply (cdev_ok_same d).
Qed.

(** ** Requests to an endpoint of an unconfigured device *)
Lemma endpoint_delegates VBUS_DRAW drv ctrl d (w : tworld) :
  Z.land (bRequestType ctrl) USB_RECIP_MASK = USB_RECIP_ENDPOINT ->
  composite_setup VBUS_DRAW drv ctrl (d, w) =
    delegate ctrl (Z.land (wIndex ctrl) 0xff) (set_req (mkReq (r_buf (req d)) 0 false) d, w).
Proof.
  intros Hr. unfold composite_setup. unfold fbind at 1. cbn [upd_cdev fmodify].
  assert (forall t, t = USB_DIR_IN \/ t = 0 \/ t = USB_RECIP_INTERFACE \/
    t = Z.lor USB_DIR_IN USB_RECIP_INTERFACE -> (bRequestType ctrl =? t) = false) as Ht.
  { intros t Ht. apply Z.eqb_neq. intros E. rewrite E in Hr.
    by destruct Ht as [->|[->|[->| ->]]]; vm_compute in Hr. }
  rewrite !Ht by tauto. by rewrite !andb_false_r.
Qed.

Lemma endpoint_request_delegated VBUS_DRAW drv ctrl d (w : tworld) :
  Z.land (bRequestType ctrl) USB_RECIP_MASK = USB_RECIP_ENDPOINT -> config d = None ->
  composite_setup VBUS_DRAW drv ctrl (d, w) = None.
Proof.
  intros Hr Hc. rewrite endpoint_delegates by done. unfold delegate, fbind. cbn [cdev fst].
  rewrite Hr. cbn [config set_req]. by rewrite Hc.
Qed.

Lemma step_ok VBUS_DRAW drv d w d' w' :
  driver_ok drv -> cdev_ok d /\ alt_contract w ->
  gstep VBUS_DRAW drv (d, w) (d', w') -> cdev_ok d' /\ alt_contract w'.
Proof.
  intros Hdrv [Hd Ha] H.
  assert (exists a d1 cs, (d', w') = snd (a : Z, (d1, ext w cs)) /\ cdev_ok d1) as (a & d1 & cs & E & Hd1);
    [|by injection E as -> ->].
  destruct (quiet_keeps d w Hd) as (Q1 & Q2 & Q3 & Q4).
  inversion H as [ctrl v s s' Hw Hs|has s s' Hs|has s s' Hs|has s s' Hs|s s' Hs]; subst.
  - destruct (decide (Z.land (bRequestType ctrl) USB_RECIP_MASK = USB_RECIP_ENDPOINT)) as [Hr|Hr];
      [destruct (config d) eqn:Hc; [|by rewrite endpoint_request_delegated in Hs]|];
    (destruct (setup_run VBUS_DRAW drv ctrl d w Hd Hdrv Ha Hw) as (r & d1 & cs & E & Hok & _);
      [by rewrite ?Hc|]); rewrite E in Hs; injection Hs as _ <- <-; by exists r, d1, cs.
  - destruct (Q1 has) as (x & d1 & cs & E & Hok). rewrite E in Hs. injection Hs as _ <- <-. by exists 0, d1, cs.
  - destruct (Q2 has) as (x & d1 & cs & E & Hok). rewrite E in Hs. injection Hs as _ <- <-. by exists 0, d1, cs.
  - destruct (Q3 VBUS_DRAW has) as (x & d1 & cs & E & Hok). rewrite E in Hs. injection Hs as _ <- <-. by exists 0, d1, cs.
  - destruct Q4 as (x & d1 & cs & E & Hok). rewrite E in Hs. injection Hs as _ <- <-. by exists 0, d1, cs.
Qed.

Lemma reachable_ok VBUS_DRAW drv s s' :
  driver_ok drv -> rtc (gstep VBUS_DRAW drv) s s' ->
  cdev_ok (fst s) /\ alt_contract (snd s) -> cdev_ok (fst s') /\ alt_contract (snd s').
Proof.
  intros Hdrv H. induction H as [|[d w] [d1 w1] s3 Hs _ IH]; [done|]. intros Hok. apply IH.
  by eapply step_ok.
Qed.

Lemma find_config_value number l c : find_config number l = Some c -> bConfigurationValue c = number.
Proof.
  unfold find_config. intros H. destruct (list_find _ l) as [[i x]|] eqn:E; [|done].
  injection H as <-. by apply list_find_Some in E as (_ & Hv & _).
Qed.

Lemma selected_value VBUS_DRAW d w number r d' cs :
  0 <= number < 256 -> select_outcome VBUS_DRAW d w number r d' cs ->
  match config d' with Some c => u8 (bConfigurationValue c) | None => 0 end =
    if 0 <=? r then number else 0.
Proof.
  intros Hn [_ H]. unfold configure_outcome in H. destruct (Z.eqb_spec number 0) as [->|H0].
  { destruct H as (-> & _). by case_if. }
  destruct (find_config number (configs d)) as [c|] eqn:Hf; [destruct (refusal _) as [[k e]|] eqn:E|].
  - destruct H as (-> & -> & _). by rewrite (proj2 (Z.leb_gt _ _)) by by eapply refusal_neg.
  - destruct H as (-> & -> & _). rewrite (find_config_value _ _ _ Hf), u8_small by lia.
    rewrite (proj2 (Z.leb_le _ _)); [done|]. by apply done_value_nonneg, refusal_none_last.
  - destruct H as (-> & _ & -> & _). rewrite done_value_neg by (unfold EINVAL; lia). done.
Qed.

(** C1: take a gadget driver whose texts end in NUL and whose string tables
    are well-formed, a device whose request buffer has its 1024 bytes and whose
    configurations and functions have usable descriptors, and function
    drivers whose [set_alt] answers zero, an error or the delayed status, but
    which otherwise answer anything.  In every state the device can reach - by
    control requests, disconnects, suspends, resumes and completed delayed
    statuses - a control request to an endpoint while no configuration is
    active dereferences a null pointer; every other control request is
    handled to its end without touching memory outside its buffers, with at
    most one data or status stage, of a length that neither exceeds what the
    host asked for nor the request buffer, and that is marked to end in a
    short packet exactly when it is shorter than asked.  The other entry
    points never fail. *)
Theorem setup_always_answered VBUS_DRAW drv d w d' w' ctrl :
  driver_ok drv -> cdev_ok d -> alt_contract w ->
  rtc (gstep VBUS_DRAW drv) (d, w) (d', w') -> 0 <= wLength ctrl ->
  (if bool_decide (Z.land (bRequestType ctrl) USB_RECIP_MASK = USB_RECIP_ENDPOINT /\ config d' = None)
   then composite_setup VBUS_DRAW drv ctrl (d', w') = None
   else exists v d'' cs, composite_setup VBUS_DRAW drv ctrl (d', w') = Some (v, (d'', ext w' cs)) /\
     one_stage ctrl cs) /\
  (forall has, is_Some (composite_disconnect has (d', w'))) /\
  (forall has, is_Some (composite_suspend has (d', w'))) /\
  (forall has, is_Some (composite_resume VBUS_DRAW has (d', w'))) /\
  is_Some (usb_composite_setup_continue (d', w')).
Proof.
  intros Hdrv Hd Ha Hr Hw.
  destruct (reachable_ok VBUS_DRAW drv (d, w) (d', w') Hdrv Hr (conj Hd Ha)) as [Hd' Ha'].
  cbn [fst snd] in *. split.
  { case_bool_decide as He; [destruct He; by apply endpoint_request_delegated|].
    destruct (setup_run VBUS_DRAW drv ctrl d' w' Hd' Hdrv Ha' Hw) as (v & d'' & cs & E & _ & Hs);
      [tauto|by exists v, d'', cs]. }
  destruct (quiet_keeps d' w' Hd') as (Q1 & Q2 & Q3 & Q4).
  split_and!; [intros has; destruct (Q1 has) as (? & ? & ? & -> & _)|
    intros has; destruct (Q2 has) as (? & ? & ? & -> & _)|
    intros has; destruct (Q3 VBUS_DRAW has) as (? & ? & ? & -> & _)|
    destruct Q4 as (? & ? & ? & -> & _)]; by eexists.
Qed.

(** property: a request to an endpoint is never one of the core requests: it
    goes to the function the endpoint belongs to.  The code reads the
    function list of the active configuration without testing that there is
    one, so exactly when no configuration is active it dereferences a null
    pointer. *)
Theorem endpoint_request_faults VBUS_DRAW drv ctrl d w :
  Z.land (bRequestType ctrl) USB_RECIP_MASK = USB_RECIP_ENDPOINT ->
  composite_setup VBUS_DRAW drv ctrl (d, w) = None <-> config d = None.
Proof.
  intros Hr. rewrite endpoint_delegates by done. unfold delegate, fbind. cbn [cdev fst].
  rewrite Hr. cbn [Z.eqb Pos.eqb USB_RECIP_ENDPOINT USB_RECIP_INTERFACE config set_req].
  destruct (config d) as [c|]; [|done]. split; [|done]. intros H. cbn [fret] in H.
  by destruct (snd <$> _) as [f|]; [destruct (has_setup f)|]; try destruct (c_has_setup c).
Qed.

(** ** Activation *)

(** The state of the pull-up after a history, initially on. *)
Definition pullup (cs : list call) : bool :=
  foldl (fun b c => match c with CConnect => true | CDisconnect => false | _ => b end) true cs.

Inductive activation := Deactivate | Activate.

Definition run_activation (a : activation) : FM gstate Z :=
  match a with Deactivate => usb_function_deactivate | Activate => usb_function_activate end.

Fixpoint run_activations (l : list activation) : FM gstate (list Z) :=
  match l with
  | [] => fret []
  | a :: l => r <~ run_activation a ;; rs <~ run_activations l ;; fret (r :: rs)
  end.

(** The specification: a counter, -EINVAL below zero. *)
Fixpoint count_activations (n : Z) (l : list activation) : list Z * Z :=
  match l with
  | [] => ([], n)
  | Deactivate :: l => let '(rs, m) := count_activations (n + 1) l in (0 :: rs, m)
  | Activate :: l =>
      if n =? 0 then let '(rs, m) := count_activations 0 l in (- EINVAL :: rs, m)
      else let '(rs, m) := count_activations (n - 1) l in (0 :: rs, m)
  end.

Definition pullup_works (w : tworld) : Prop :=
  forall h, answer w h CConnect = 0 /\ answer w h CDisconnect = 0.

Lemma run_activation_step a d w :
  pullup_works w -> 0 <= deactivations d < 2 ^ 32 - 1 ->
  exists r n cs, run_activation a (d, w) = Some (r, (set_deactivations n d, ext w cs)) /\
    count_activations (deactivations d) [a] = ([r], n) /\ 0 <= n <= deactivations d + 1 /\
    (pullup (calls w) = (deactivations d =? 0) -> pullup (calls w ++ cs) = (n =? 0)).
Proof.
  intros Hw Hd. destruct a; cbn [run_activation count_activations].
  - unfold usb_function_deactivate. unfold fbind at 1. cbn [cdev fst].
    exists 0, (deactivations d + 1), (if deactivations d =? 0 then [CDisconnect] else []).
    assert (u32 (deactivations d + 1) = deactivations d + 1) as E by (apply u32_small; lia).
    destruct (Z.eqb_spec (deactivations d) 0) as [H0|H0];
      unfold fbind; cbn [world usb_gadget_disconnect trace_ops ask fret];
      [rewrite (proj2 (Hw (calls w)))|]; cbn [Z.eqb upd_cdev fmodify]; rewrite E.
    + split; [done|]. split; [done|]. split; [lia|]. intros _. unfold pullup. rewrite foldl_app. cbn.
      symmetry. apply Z.eqb_neq. lia.
    + rewrite ext_nil, app_nil_r. split; [done|]. split; [done|]. split; [lia|]. intros ->.
      symmetry. apply Z.eqb_neq. lia.
  - unfold usb_function_activate. unfold fbind at 1. cbn [cdev fst].
    destruct (Z.eqb_spec (deactivations d) 0) as [H0|H0].
    + exists (- EINVAL), 0, []. rewrite ext_nil, app_nil_r. split; [by destruct d; cbn in H0; subst|].
      split; [done|]. split; [lia|]. done.
    + exists 0, (deactivations d - 1), (if deactivations d =? 1 then [CConnect] else []).
      unfold fbind. cbn [upd_cdev fmodify cdev fst deactivations set_deactivations].
      destruct (Z.eqb_spec (deactivations d) 1) as [H1|H1].
      * rewrite H1. change (1 - 1) with 0. cbn. rewrite (proj1 (Hw (calls w))). split; [done|]. split; [done|]. split; [lia|].
        intros _. unfold pullup. by rewrite foldl_app.
      * rewrite (proj2 (Z.eqb_neq (deactivations d - 1) 0)) by lia.
        rewrite ext_nil, app_nil_r. split; [done|]. split; [done|]. split; [lia|]. done.
Qed.

Lemma count_activations_cons a l n r m :
  count_activations n [a] = ([r], m) ->
  count_activations n (a :: l) = (r :: fst (count_activations m l), snd (count_activations m l)).
Proof.
  destruct a; cbn [count_activations]; [|destruct (n =? 0)]; intros [= <- <-];
    by destruct (count_activations _ l).
Qed.

(** property: functions that hold back the device are counted, and the
    pull-up follows the count: after any sequence of deactivations and
    activations the device is visible to the host exactly when all
    deactivations were undone, and an activation too many is refused with
    -EINVAL and changes nothing. *)
Theorem activations_spec l d w :
  pullup_works w -> 0 <= deactivations d -> deactivations d + Z.of_nat (length l) < 2 ^ 32 ->
  pullup (calls w) = (deactivations d =? 0) ->
  exists cs,
    run_activations l (d, w) =
      Some (fst (count_activations (deactivations d) l),
            (set_deactivations (snd (count_activations (deactivations d) l)) d, ext w cs)) /\
    pullup (calls w ++ cs) = (snd (count_activations (deactivations d) l) =? 0).
Proof.
  revert d w. induction l as [|a l IH]; intros d w Hw H0 Hn Hp.
  { exists []. rewrite ext_nil, app_nil_r. split; [by destruct d|done]. }
  cbn [length] in Hn.
  destruct (run_activation_step a d w Hw) as (r & n & cs & E & Hc & Hr & Hpp); [lia|].
  rewrite (count_activations_cons _ _ _ _ _ Hc). cbn [fst snd run_activations].
  destruct (IH (set_deactivations n d) (ext w cs)) as (cs' & E' & Hp').
  - done.
  - cbn. lia.
  - cbn. lia.
  - cbn. by apply Hpp.
  - exists (cs ++ cs'). unfold fbind. rewrite E, E'. rewrite ext_ext. split; [done|].
    cbn [ext calls deactivations set_deactivations] in Hp'. by rewrite app_assoc.
Qed.

(** ** Delayed status *)
Fixpoint times (n : nat) (m : FM gstate unit) : FM gstate unit :=
  match n with O => fret tt | S n => m ~;; times n m end.

(** C32: when [n] functions have asked to delay the status stage, the
    first [n - 1] reports that they are done change nothing but the count,
    and the [n]-th starts the status stage, once, with length zero. *)
Theorem delayed_status_spec n k d w :
  delayed_status d = Z.of_nat n -> (k <= n)%nat ->
  exists d', times k usb_composite_setup_continue (d, w) =
    Some (tt, (d', ext w (if ((0 <? k) && (k =? n))%nat then [CQueue (status_request d)] else []))) /\
    delayed_status d' = Z.of_nat (n - k).
Proof.
  revert n d w. induction k as [|k IH]; intros n d w Hn Hk.
  { exists d. cbn. rewrite ext_nil, Nat.sub_0_r. done. }
  cbn [times]. unfold fbind. rewrite continue_run.
  rewrite (proj2 (Z.eqb_neq (delayed_status d) 0)) by lia. cbv zeta.
  destruct n as [|n]; [lia|]. destruct (Z.eqb_spec (delayed_status d) 1) as [H1|H1].
  - assert (n = 0 /\ k = 0)%nat as [-> ->] by lia. cbn [times fret].
    eexists. split; [reflexivity|]. cbn [delayed_status set_req set_delayed]. by rewrite H1.
  - destruct (IH n (set_delayed (int_dec (delayed_status d)) d) w) as (d' & E & Hd'); [|lia|].
    { cbn [delayed_status set_delayed]. unfold int_dec. rewrite (proj2 (Z.eqb_neq _ _)) by lia. lia. }
    exists d'. split; [|by rewrite Hd'].
    assert (((0 <? k) && (k =? n))%nat = (k =? n)%nat) as Ek.
    { destruct k; [|done]. cbn. destruct n; [lia|done]. }
    rewrite E, Ek. done.
Qed.

(** property: taking a configuration down does not forget the functions that
    still delay its status stage: with such a function outstanding, selecting
    configuration 0 - which asks no function - is answered as delayed, and
    its status stage is not started. *)
Theorem deconfigure_still_delayed VBUS_DRAW drv d w ctrl :
  delayed_status d <> 0 -> bRequest ctrl = USB_REQ_SET_CONFIGURATION -> bRequestType ctrl = 0 ->
  wValue ctrl = 0 ->
  exists d' cs, composite_setup VBUS_DRAW drv ctrl (d, w) =
    Some (USB_GADGET_DELAYED_STATUS, (d', ext w cs)) /\
    config d' = None /\ delayed_status d' = delayed_status d /\ Forall not_queue cs.
Proof.
  intros Hs Hr Ht Hv. unfold composite_setup. rewrite Hr, Ht, Hv. unfold fbind at 1.
  cbn [upd_cdev fmodify Z.eqb Pos.eqb USB_REQ_SET_CONFIGURATION USB_REQ_GET_DESCRIPTOR USB_DIR_IN andb].
  set (d0 := set_req _ d). unfold fbind at 1. unfold set_config. unfold fbind at 1. cbn [cdev fst].
  destruct (takedown_run d0 w) as (HT & _ & HC & HD). unfold fbind at 1. rewrite HT. cbn [Z.eqb].
  rewrite set_config_done_run, HD. change (delayed_status d0) with (delayed_status d).
  cbn [Z.leb Z.compare andb]. unfold truthy. rewrite (proj2 (Z.eqb_neq _ 0)) by done. cbn [negb].
  do 2 eexists. split; [cbn [respond fret]; rewrite ext_ext; reflexivity|]. split; [done|]. split; [done|].
  apply Forall_app. split; [|by repeat constructor]. unfold takedown.
  destruct (config d0); [apply not_queue_disables|constructor].
Qed.

(** property: the host reads back the configuration it selected: after a
    selection that succeeded GET_CONFIGURATION answers the number that was
    selected, after one that failed 0. *)
Theorem get_configuration_after_set VBUS_DRAW drv d w number r d' w' ctrl w'' :
  cdev_ok d -> 0 <= number < 256 ->
  set_config VBUS_DRAW number (d, w) = Some (r, (d', w')) ->
  bRequest ctrl = USB_REQ_GET_CONFIGURATION -> bRequestType ctrl = USB_DIR_IN -> 0 < wLength ctrl ->
  exists v d'' b, composite_setup VBUS_DRAW drv ctrl (d', w'') =
    Some (v, (d'', ext w'' [CQueue (mkReq b 1 (1 <? wLength ctrl))])) /\
    b !! 0%nat = Some (if 0 <=? r then number else 0).
Proof.
  intros Hd Hn Hs Hr Ht Hw.
  destruct (set_config_run VBUS_DRAW d w number) as (r1 & d1 & cs & Hs1 & Ho).
  { intros c Hin. destruct Hd as [_ Hc _]. rewrite Forall_forall in Hc.
    by destruct (Hc c Hin) as (_ & _ & ? & _). }
  rewrite Hs in Hs1. injection Hs1 as <- <- _.
  assert (match config d' with Some c => u8 (bConfigurationValue c) | None => 0 end =
    if 0 <=? r then number else 0) as Hval by (by apply (selected_value VBUS_DRAW d w number r d' cs)).
  pose proof (cd_buf d' (proj1 (select_outcome_ok _ _ _ _ _ _ _ Hd Ho))) as Hb. unfold USB_BUFSIZ in Hb.
  unfold composite_setup. rewrite Hr, Ht. unfold fbind at 1.
  cbn [upd_cdev fmodify Z.eqb Pos.eqb USB_REQ_SET_CONFIGURATION USB_REQ_GET_DESCRIPTOR
       USB_REQ_GET_CONFIGURATION USB_DIR_IN andb].
  unfold fbind at 1. cbn [cdev fst config set_req]. rewrite Hval. unfold fbind at 1.
  rewrite store_buf_run by (cbn; lia).
  assert (min_length (wLength ctrl) 1 = 1) as -> by (unfold min_length; rewrite u16_small; lia).
  do 3 eexists. split; [reflexivity|]. cbn. unfold buf_write. cbn. done.
Qed.

(** ** Adding configurations *)
Definition ids (d : usb_composite_dev) : list Z := bConfigurationValue <$> configs d.

Lemma find_config_none number l :
  find_config number l = None <-> number ∉ (bConfigurationValue <$> l).
Proof.
  unfold find_config. rewrite fmap_None, list_find_None, list_elem_of_fmap, Forall_forall. split.
  - intros H (c & -> & Hin). by apply (H c Hin).
  - intros H c Hin E. apply H. by exists c.
Qed.

Lemma filter_last n (l : list usb_configuration) k :
  bConfigurationValue <$> l = k ++ [n] -> n ∉ k ->
  bConfigurationValue <$> filter (fun c => bConfigurationValue c <> n) l = k.
Proof.
  revert k. induction l as [|c l IH]; intros k H Hk; [by destruct k|].
  destruct k as [|x k]; cbn [fmap list_fmap app] in H.
  - injection H as Hc Hl. rewrite filter_cons_False by congruence. by destruct l.
  - injection H as Hc Hl. apply not_elem_of_cons in Hk as [Hx Hk].
    rewrite filter_cons_True by congruence. cbn [fmap list_fmap]. f_equal; [done|]. by apply IH.
Qed.

(** property: configuration numbers stay distinct and non-zero: zero and a
    number in use are refused without any change; otherwise, whatever the
    configuration's bind callback does as long as it keeps the registered
    numbers, the new number is there exactly when the callback succeeded, and
    all endpoints are free again with their numbering restarted. *)
Theorem add_config_spec config bind d ac :
  (forall d ac, ids (fst (snd (bind (d, ac)))) = ids d) -> NoDup (ids d) -> 0 ∉ ids d ->
  let '(status, (d', ac')) := usb_add_config config (Some bind) (d, ac) in
  let n := bConfigurationValue config in
  NoDup (ids d') /\ (0 ∉ ids d') /\
  if bool_decide (n = 0) then status = - EINVAL /\ (d', ac') = (d, ac)
  else if bool_decide (n ∈ ids d) then status = - EBUSY /\ (d', ac') = (d, ac)
  else ids d' = (if status <? 0 then ids d else ids d ++ [n]) /\
       snd ac' = 0 /\ Forall (fun ep => driver_data ep = None) (ep_list (fst ac')).
Proof.
  intros Hb Hnd H0. unfold usb_add_config. set (n := bConfigurationValue config).
  destruct (Z.eqb_spec n 0) as [E|E]; [by rewrite bool_decide_true by done|].
  rewrite (bool_decide_false (n = 0)) by done.
  destruct (find_config n (configs d)) as [c|] eqn:Hf.
  { rewrite bool_decide_true; [done|]. apply list_elem_of_fmap. exists c.
    split; [symmetry; by eapply find_config_value|by eapply find_config_in]. }
  apply find_config_none in Hf. fold (ids d) in Hf. rewrite (bool_decide_false (n ∈ ids d)) by done.
  set (c := set_functions _ _). specialize (Hb (set_configs (configs d ++ [c]) d) ac).
  destruct (bind _) as [status [d1 ac1]]. cbn [fst snd] in Hb.
  assert (ids d1 = ids d ++ [n]) as Hi by (rewrite Hb; unfold ids; cbn; by rewrite fmap_app).
  change (bConfigurationValue c) with n.
  assert (ids (if status <? 0 then set_configs (filter (fun x => bConfigurationValue x <> n) (configs d1)) d1
               else d1) = if status <? 0 then ids d else ids d ++ [n]) as Hids.
  { destruct (status <? 0); [|done]. by apply filter_last. }
  rewrite Hids. split; [|split; [|split; [done|split; [done|]]]].
  - destruct (status <? 0); [done|]. apply NoDup_app. split; [done|].
    split; [|apply NoDup_singleton]. intros x Hx Hx'. apply list_elem_of_singleton in Hx' as ->. done.
  - destruct (status <? 0); [done|]. rewrite elem_of_app, list_elem_of_singleton. intros [?| ?]; [done|congruence].
  - cbn. apply Forall_fmap, Forall_true. done.
Qed.

(** ** Concrete devices *)
Lemma add_config_spec_witness :
  ids (fst (snd (usb_add_config demo_cfg (Some (fun s => (0, s)))
    (set_configs [] demo_cdev, (EpAutoconf.mkGadget "net2280" true [], 3))))) = [1].
Proof.
  pose proof (add_config_spec demo_cfg (fun s => (0, s)) (set_configs [] demo_cdev)
    (EpAutoconf.mkGadget "net2280" true [], 3) (fun _ _ => eq_refl) (NoDup_nil_2) (not_elem_of_nil 0)) as H.
  exact (proj1 (proj2 (proj2 H))).
Defined.

Definition quiet_world : tworld := mkT [] (fun _ _ => 0).

Lemma quiet_alt : alt_contract quiet_world.
Proof. intros h f i a. left. cbn. lia. Qed.

Lemma demo_driver_ok : driver_ok (demo_driver [0x409]).
Proof.
  constructor; try (by intros s H).
  - intros l [= <-]. constructor; [by intros l i s H|constructor].
  - intros s [= <-]. by constructor.
Qed.

Lemma demo_usable d : speed (gadget d) = USB_SPEED_HIGH -> config_usable d demo_cfg.
Proof.
  intros Hs. unfold config_usable. split_and!.
  - constructor.
  - constructor; [|constructor]. split; exact demo_descs_ok.
  - rewrite Hs. cbn [interface demo_cfg leading]. constructor; [|constructor].
    exists demo_descs. split; [done|]. by repeat constructor; cbn; unfold ep_desc_ok; cbn; lia.
  - intros f H. apply elem_of_cons in H as [[= ->]|H]; [done|]. by apply elem_of_replicate in H as [? _].
  - done.
  - constructor; [done|constructor].
Qed.

Lemma demo_cdev_ok : cdev_ok demo_cdev.
Proof.
  constructor; [apply length_replicate| |done]. constructor; [by apply demo_usable|constructor].
Qed.

Definition get_device : usb_ctrlrequest := mkCtrl USB_DIR_IN USB_REQ_GET_DESCRIPTOR 0x100 0 64.
Definition get_configuration : usb_ctrlrequest := mkCtrl USB_DIR_IN USB_REQ_GET_CONFIGURATION 0 0 1.
Definition get_ep_status : usb_ctrlrequest := mkCtrl 0x82 0 0 1 2.

Lemma setup_always_answered_witness :
  exists v d cs, composite_setup 2 (demo_driver [0x409]) get_device (demo_cdev, quiet_world) =
    Some (v, (d, ext quiet_world cs)) /\ one_stage get_device cs.
Proof.
  refine (proj1 (setup_always_answered 2 (demo_driver [0x409]) demo_cdev quiet_world demo_cdev
    quiet_world get_device demo_driver_ok demo_cdev_ok quiet_alt _ _)).
  - constructor.
  - cbn. lia.
Defined.

Lemma endpoint_request_faults_witness :
  composite_setup 2 (demo_driver [0x409]) get_ep_status (demo_cdev, quiet_world) = None.
Proof.
  apply (endpoint_request_faults 2 (demo_driver [0x409]) get_ep_status demo_cdev quiet_world);
    reflexivity.
Defined.

Lemma activations_spec_witness :
  exists cs, run_activations [Deactivate; Deactivate; Activate; Activate; Activate] (demo_cdev, quiet_world) =
    Some ([0; 0; 0; 0; - EINVAL], (demo_cdev, ext quiet_world cs)) /\ pullup cs = true.
Proof.
  apply (activations_spec [Deactivate; Deactivate; Activate; Activate; Activate] demo_cdev quiet_world).
  - by intros h.
  - cbn. lia.
  - cbn. lia.
  - reflexivity.
Defined.

Lemma delayed_status_spec_witness :
  exists d', times 2 usb_composite_setup_continue (set_delayed 2 demo_cdev, quiet_world) =
    Some (tt, (d', ext quiet_world [CQueue (status_request demo_cdev)])) /\ delayed_status d' = 0.
Proof.
  apply (delayed_status_spec 2 2 (set_delayed 2 demo_cdev) quiet_world); [reflexivity|lia].
Defined.

Lemma deconfigure_still_delayed_witness :
  exists d' cs, composite_setup 2 (demo_driver []) (mkCtrl 0 USB_REQ_SET_CONFIGURATION 0 0 0)
      (set_delayed 1 demo_cdev, quiet_world) =
    Some (USB_GADGET_DELAYED_STATUS, (d', ext quiet_world cs)) /\ Forall not_queue cs.
Proof.
  destruct (deconfigure_still_delayed 2 (demo_driver []) (set_delayed 1 demo_cdev) quiet_world
    (mkCtrl 0 USB_REQ_SET_CONFIGURATION 0 0 0)) as (d' & cs & E & _ & _ & Hq); [discriminate|reflexivity..|].
  exists d', cs. exact (conj E Hq).
Defined.

Lemma get_configuration_after_set_witness :
  exists v d b, composite_setup 2 (demo_driver []) get_configuration
      (set_config_ptr (Some demo_cfg) (set_endpoints {[7 := Z.setbit 0 (ep_index 0x81)]} demo_cdev), quiet_world) =
    Some (v, (d, ext quiet_world [CQueue (mkReq b 1 false)])) /\ b !! 0%nat = Some 1.
Proof.
  destruct (set_config 2 1 (demo_cdev, quiet_world)) as [[r [d' w']]|] eqn:E;
    [|vm_compute in E; discriminate E].
  pose proof (get_configuration_after_set 2 (demo_driver []) demo_cdev quiet_world 1 r d' w'
    get_configuration quiet_world demo_cdev_ok ltac:(lia) E eq_refl eq_refl ltac:(reflexivity)) as H.
  vm_compute in E. injection E as <- <- <-. exact H.
Defined.
