(* ===== verification/CompositeBind.v ===== *)
(** * USB gadget: binding the composite driver (test_gadget/composite.c)

    [usb_composite_probe], [composite_bind] with its error path,
    [composite_unbind] and [usb_composite_unregister].  Memory is the list of
    the live objects: freeing an object that is not live is a fault.  The
    driver's own bind and unbind callbacks, the allocator and the controller
    core ([usb_gadget_probe_driver], [usb_gadget_unregister_driver]) are
    parameters. *)

From Stdlib Require Import ZArith.
From stdpp Require Import base list gmap strings.
From S2P Require Import Prelude UsbString UsbConfig Composite CompositeCtl EpAutoconf.
From S2P Require Import Composite.

Definition CONFIG_BUS_POWERED_MAX : Z := 100.   (** USB_SELF_POWER_VBUS_MAX_DRAW *)

Inductive obj := OCdev | OReq | OBuf | OFile.
#[export] Instance obj_eq_dec : EqDecision obj.
Proof. solve_decision. Defined.

(** The registered driver, as far as binding uses it. *)
Record bind_driver := mkBindDriver {
  b_dev : option usb_device_descriptor;
  b_name : option (list Z);
  b_iProduct : option (list Z);
  b_iManufacturer : option (list Z);
  b_has_unbind : bool;
}.

(** Module parameters and the surroundings: what the allocations and
    [device_create_file] answer, the kernel's name and release, the name of
    the controller. *)
Record bind_env := mkEnv {
  p_idVendor : Z;
  p_idProduct : Z;
  p_bcdDevice : Z;
  m_iManufacturer : option (list Z);
  m_iProduct : option (list Z);
  m_iSerialNumber : option (list Z);
  cdev_alloc : bool;
  req_alloc : bool;
  buf_alloc : option (list Z);       (** the memory [kmalloc] returns *)
  create_file : Z;
  uts_sysname : list Z;
  uts_release : list Z;
  udc_name : list Z;
}.

Section Bind.
Context {W : Type} `{!GadgetOps W}.
Context (VBUS_DRAW : Z) (env : bind_env).
(** [composite_gadget_bind], on the device, the endpoint configuration and
    the world; the driver's unbind callback; [usb_gadget_set_selfpowered]. *)
Context (d_bind : FM (usb_composite_dev * (EpAutoconf.usb_gadget * Z) * W) Z).
Context (d_unbind : M W unit) (set_selfpowered : M W unit).

Record kernel := mkKernel {
  composite : option bind_driver;
  gdata : option usb_composite_dev;         (** the gadget's driver data *)
  has_req : option bool;                    (** [cdev->req]; whether it has a buffer *)
  live : list obj;
  autoconf : EpAutoconf.usb_gadget * Z;
  manufacturer : list Z;                    (** [composite_manufacturer] *)
  kworld : W;
}.

Definition set_composite c k :=
  mkKernel c (gdata k) (has_req k) (live k) (autoconf k) (manufacturer k) (kworld k).
Definition set_gdata d k :=
  mkKernel (composite k) d (has_req k) (live k) (autoconf k) (manufacturer k) (kworld k).
Definition set_has_req r k :=
  mkKernel (composite k) (gdata k) r (live k) (autoconf k) (manufacturer k) (kworld k).
Definition set_live l k :=
  mkKernel (composite k) (gdata k) (has_req k) l (autoconf k) (manufacturer k) (kworld k).
Definition set_autoconf a k :=
  mkKernel (composite k) (gdata k) (has_req k) (live k) a (manufacturer k) (kworld k).
Definition set_manufacturer m k :=
  mkKernel (composite k) (gdata k) (has_req k) (live k) (autoconf k) m (kworld k).
Definition set_kworld w k :=
  mkKernel (composite k) (gdata k) (has_req k) (live k) (autoconf k) (manufacturer k) w.

Abbreviation KM := (FM kernel).

Definition alloc (o : obj) : KM unit := fmodify (fun k => set_live (o :: live k) k).
Definition free (o : obj) : KM unit := fun k =>
  match list_find (fun x => x = o) (live k) with
  | Some (i, _) => Some (tt, set_live (delete i (live k)) k)
  | None => None
  end.
Definition ext_call {A} (m : M W A) : KM A := fun k =>
  let '(a, w) := m (kworld k) in Some (a, set_kworld w k).

(** An operation on the device behind the gadget. *)
Definition on_dev {A} (m : FM (usb_composite_dev * W) A) : KM A := fun k =>
  match gdata k with
  | None => None
  | Some d =>
      match m (d, kworld k) with
      | None => None
      | Some (a, (d, w)) => Some (a, set_kworld w (set_gdata (Some d) k))
      end
  end.

(** The driver's bind callback. *)
Definition gadget_bind : KM Z := fun k =>
  match gdata k with
  | None => None
  | Some d =>
      match d_bind (d, autoconf k, kworld k) with
      | None => None
      | Some (r, (d, a, w)) => Some (r, set_kworld w (set_autoconf a (set_gdata (Some d) k)))
      end
  end.

Fixpoint unbind_all (l : list usb_configuration) : FM (usb_composite_dev * W) unit :=
  match l with
  | [] => fret tt
  | c :: l => upd_cdev (set_configs l) ~;; unbind_config c ~;; unbind_all l
  end.

Definition composite_unbind : KM unit :=
  on_dev (d <~ cdev ;; unbind_all (configs d)) ~;;
  k <~ fget ;;
  (match composite k with
   | None => fault
   | Some drv => if b_has_unbind drv then ext_call d_unbind else fret tt
   end) ~;;
  k <~ fget ;;
  (match has_req k with
   | Some has_buf => (if has_buf : bool then free OBuf else fret tt) ~;; free OReq
   | None => fret tt
   end) ~;;
  k <~ fget ;;
  (if bool_decide (OFile ∈ live k) then free OFile else fret tt) ~;;
  free OCdev ~;;
  fmodify (set_gdata None) ~;;
  fmodify (set_composite None).

(** The device descriptor with the overrides of the module parameters. *)
Definition override_ids (dev : usb_device_descriptor) (maxpacket : Z) : usb_device_descriptor :=
  mkDevDesc (bcdUSB dev) (bDeviceClass dev) (bDeviceSubClass dev) (bDeviceProtocol dev) (u8 maxpacket)
    (if truthy (p_idVendor env) then p_idVendor env else idVendor dev)
    (if truthy (p_idProduct env) then p_idProduct env else idProduct dev)
    (if truthy (p_bcdDevice env) then p_bcdDevice env else bcdDevice dev)
    (iManufacturer dev) (iProduct dev) (iSerialNumber dev) (bNumConfigurations dev).

Definition put_iManufacturer (i : Z) (x : usb_device_descriptor) :=
  mkDevDesc (bcdUSB x) (bDeviceClass x) (bDeviceSubClass x) (bDeviceProtocol x) (bMaxPacketSize0 x)
    (idVendor x) (idProduct x) (bcdDevice x) i (iProduct x) (iSerialNumber x) (bNumConfigurations x).
Definition put_iProduct (i : Z) (x : usb_device_descriptor) :=
  mkDevDesc (bcdUSB x) (bDeviceClass x) (bDeviceSubClass x) (bDeviceProtocol x) (bMaxPacketSize0 x)
    (idVendor x) (idProduct x) (bcdDevice x) (iManufacturer x) i (iSerialNumber x) (bNumConfigurations x).
Definition put_iSerialNumber (i : Z) (x : usb_device_descriptor) :=
  mkDevDesc (bcdUSB x) (bDeviceClass x) (bDeviceSubClass x) (bDeviceProtocol x) (bMaxPacketSize0 x)
    (idVendor x) (idProduct x) (bcdDevice x) (iManufacturer x) (iProduct x) i (bNumConfigurations x).

(** [snprintf(buf, 50, "%s %s with %s", ...)]: at most 49 characters and the
    terminator. *)
Definition default_manufacturer : list Z :=
  take 49 (uts_sysname env ++ [32] ++ uts_release env ++ [32; 119; 105; 116; 104; 32] ++ udc_name env) ++ [0].

Definition isSome {A} (o : option A) : bool := match o with Some _ => true | None => false end.

Definition override_strings (drv : bind_driver) : KM unit :=
  d <~ on_dev cdev ;;
  (if isSome (m_iManufacturer env) || (iManufacturer (desc d) =? 0) then
     k <~ fget ;;
     (if negb (isSome (m_iManufacturer env)) && negb (isSome (b_iManufacturer drv)) &&
         bool_decide (hd 0 (manufacturer k) = 0)
      then fmodify (set_manufacturer default_manufacturer) else fret tt) ~;;
     on_dev (upd_cdev (fun d =>
       let '(i, d) := override_id iManufacturer put_iManufacturer d in
       set_overrides i (product_override d) (serial_override d) d))
   else fret tt) ~;;
  d <~ on_dev cdev ;;
  (if isSome (m_iProduct env) || ((iProduct (desc d) =? 0) && isSome (b_iProduct drv)) then
     on_dev (upd_cdev (fun d =>
       let '(i, d) := override_id iProduct put_iProduct d in
       set_overrides (manufacturer_override d) i (serial_override d) d))
   else fret tt) ~;;
  if isSome (m_iSerialNumber env) then
    on_dev (upd_cdev (fun d =>
      let '(i, d) := override_id iSerialNumber put_iSerialNumber d in
      set_overrides (manufacturer_override d) (product_override d) i d))
  else fret tt.

Definition fail (status : Z) : KM Z := composite_unbind ~;; fret status.

(** [kzalloc(sizeof *cdev)], before the request and its buffer are there. *)
Definition zero_desc : usb_device_descriptor := mkDevDesc 0 0 0 0 0 0 0 0 0 0 0 0.
Definition new_cdev (g : usb_gadget) (buf : list Z) : usb_composite_dev :=
  mkCdev g [] None ∅ 0 0 0 zero_desc (mkReq buf 0 false) 0 0 0 0.

Definition composite_bind (g : usb_gadget) : KM Z :=
  if negb (cdev_alloc env) then fret (- ENOMEM)
  else
    alloc OCdev ~;;
    fmodify (set_has_req None) ~;;
    fmodify (set_gdata (Some (new_cdev g []))) ~;;
    if negb (req_alloc env) then fail (- ENOMEM)
    else
      alloc OReq ~;;
      fmodify (set_has_req (Some false)) ~;;
      match buf_alloc env with
      | None => fail (- ENOMEM)
      | Some buf =>
          alloc OBuf ~;;
          fmodify (set_has_req (Some true)) ~;;
          on_dev (upd_cdev (with_buf buf)) ~;;
          (if VBUS_DRAW <=? CONFIG_BUS_POWERED_MAX then ext_call set_selfpowered else fret tt) ~;;
          fmodify (fun k => set_autoconf (usb_ep_autoconfig_reset (fst (autoconf k))) k) ~;;
          status <~ gadget_bind ;;
          if status <? 0 then fail status
          else
            k <~ fget ;;
            match composite k with
            | None => fault
            | Some drv =>
                match b_dev drv with
                | None => fault
                | Some dev =>
                    on_dev (upd_cdev (set_desc (override_ids dev (ep0_maxpacket g)))) ~;;
                    override_strings drv ~;;
                    let status := create_file env in
                    if truthy status then fail status
                    else (alloc OFile ~;; fret 0)
                end
            end
      end.

(** [usb_composite_probe]; [probe_driver] is [usb_gadget_probe_driver], which
    calls the bind function it is given. *)
Definition usb_composite_probe (probe_driver : KM Z -> KM Z) (g : usb_gadget)
    (driver : option bind_driver) (has_bind : bool) : KM Z :=
  k <~ fget ;;
  match driver with
  | None => fret (- EINVAL)
  | Some driver =>
      if negb (isSome (b_dev driver)) || negb has_bind || isSome (composite k) then fret (- EINVAL)
      else
        let name := default (map Z.of_nat [99; 111; 109; 112; 111; 115; 105; 116; 101; 0]%nat)
                      (b_name driver) in
        let product := default name (b_iProduct driver) in
        fmodify (set_composite (Some (mkBindDriver (b_dev driver) (Some name) (Some product)
                   (b_iManufacturer driver) (b_has_unbind driver)))) ~;;
        probe_driver (composite_bind g)
  end.

(** [usb_composite_unregister]: [same] tells whether the driver is the
    registered one. *)
Definition usb_composite_unregister (unregister_driver : KM unit) (same : bool) : KM unit :=
  if same then unregister_driver else fret tt.
End Bind.
