(* ===== verification/CompositeBindSpec.v ===== *)
(** * USB gadget: binding and unbinding the composite driver, resources *)

From Stdlib Require Import ZArith.
From stdpp Require Import base list gmap strings.
From S2P Require Import Prelude UsbString UsbConfig Composite CompositeCtl EpAutoconf CompositeBind.
From S2P Require Import Composite CompositeSpec CompositeCtlSpec CompositeRun.

Section Spec.
Context {W : Type} `{!GadgetOps W}.
Context (VBUS_DRAW : Z) (d_unbind set_selfpowered : M W unit).
Abbreviation kern := (@kernel W).

Lemma for_each_total {A} (l : list A) (f : A -> FM (usb_composite_dev * W) unit) s :
  (forall x d w, exists w', f x (d, w) = Some (tt, (d, w'))) ->
  exists w', for_each l f s = Some (tt, (fst s, w')).
Proof.
  intros Hf. revert s. induction l as [|x l IH]; intros [d w]; [by exists w|]. cbn [for_each].
  destruct (Hf x d w) as [w1 E]. unfold fbind. rewrite E. apply (IH (d, w1)).
Qed.

Lemma world_total (m : M W unit) (d : usb_composite_dev) w : exists w', world m (d, w) = Some (tt, (d, w')).
Proof. cbn. destruct (m w) as [[] w']. by exists w'. Qed.

Lemma unbind_config_total c d (w : W) : exists w', unbind_config c (d, w) = Some (tt, (d, w')).
Proof.
  unfold unbind_config. unfold fbind.
  destruct (for_each_total (functions c)
    (fun f => if has_unbind f then world (f_unbind (f_id f)) else fret tt) (d, w)) as [w1 ->].
  { intros f d' w'. destruct (has_unbind f); [apply world_total|by exists w']. }
  destruct (c_has_unbind c); [apply world_total|by exists w1].
Qed.

Lemma unbind_all_total l d (w : W) :
  exists d' w', unbind_all l (d, w) = Some (tt, (d', w')).
Proof.
  revert d w. induction l as [|c l IH]; intros d w; [by exists d, w|]. cbn [unbind_all].
  unfold fbind at 1. cbn [upd_cdev fmodify]. unfold fbind at 1.
  destruct (unbind_config_total c (set_configs l d) w) as [w1 ->]. apply IH.
Qed.

(** The allocations behind a device, as far as binding has come. *)
Inductive holds : option bool -> list obj -> Prop :=
| holds_cdev : holds None [OCdev]
| holds_req : holds (Some false) [OReq; OCdev]
| holds_buf : holds (Some true) [OBuf; OReq; OCdev]
| holds_file : holds (Some true) [OFile; OBuf; OReq; OCdev].

Definition released (k : kern) : Prop :=
  live k = [] /\ composite k = None /\ gdata k = None.

Lemma unbind_run (k : kern) :
  is_Some (composite k) -> is_Some (gdata k) -> holds (has_req k) (live k) ->
  exists k', composite_unbind d_unbind k = Some (tt, k') /\ released k'.
Proof.
  intros [drv Hc] [d Hd] Hh. destruct k as [c g r l a m w]. cbn in *. subst c g.
  unfold composite_unbind. unfold fbind at 1, on_dev at 1. cbn [gdata kworld]. unfold fbind at 1. cbn [cdev fst].
  destruct (unbind_all_total (configs d) d w) as (d1 & w1 & ->).
  unfold fbind at 1, fget at 1. unfold fbind at 1.
  assert (exists w2, (match composite (set_kworld w1 (set_gdata (Some d1) (mkKernel (Some drv) (Some d) r l a m w))) with
    | Some drv => if b_has_unbind drv then ext_call d_unbind else fret tt | None => fault end)
    (set_kworld w1 (set_gdata (Some d1) (mkKernel (Some drv) (Some d) r l a m w))) =
    Some (tt, mkKernel (Some drv) (Some d1) r l a m w2)) as [w2 ->].
  { cbn. destruct (b_has_unbind drv); cbn; [|by exists w1].
    unfold ext_call. cbn. destruct (d_unbind w1) as [[] w2]. by exists w2. }
  inversion Hh; subst; (eexists; split; [reflexivity|done]).
Qed.

Lemma fail_run st (k : kern) :
  is_Some (composite k) -> is_Some (gdata k) -> holds (has_req k) (live k) ->
  exists k', fail d_unbind st k = Some (st, k') /\ released k'.
Proof.
  intros Hc Hd Hh. destruct (unbind_run k Hc Hd Hh) as (k' & E & Hr). exists k'.
  unfold fail, fbind. by rewrite E.
Qed.

(** *** Success *)
Definition ids_of (x : usb_device_descriptor) : Z * Z * Z * Z :=
  (bMaxPacketSize0 x, idVendor x, idProduct x, bcdDevice x).

Lemma override_id_keeps get put d i d' :
  (forall i x, ids_of (put i x) = ids_of x) ->
  override_id get put d = (i, d') -> ids_of (desc d') = ids_of (desc d).
Proof.
  intros Hp. unfold override_id, usb_string_id. repeat case_if; intros [= <- <-]; try done.
  cbn. apply Hp.
Qed.

(** Binding has come as far as [k] with the device [d]. *)
Definition bound (k : kern) (drv : bind_driver) (hr : option bool) (l : list obj)
    (P : usb_composite_dev -> Prop) : Prop :=
  composite k = Some drv /\ has_req k = hr /\ live k = l /\ exists d, gdata k = Some d /\ P d.

Lemma on_dev_bound f k drv hr l (P Q : usb_composite_dev -> Prop) :
  bound k drv hr l P -> (forall d, P d -> Q (f d)) ->
  exists k', on_dev (upd_cdev f) k = Some (tt, k') /\ bound k' drv hr l Q.
Proof.
  intros (H1 & H2 & H3 & d & H4 & H5) Hf. unfold on_dev. rewrite H4. cbn.
  eexists. split; [reflexivity|]. split_and!; try done. exists (f d). split; [done|by apply Hf].
Qed.

Lemma override_strings_run env drv' k drv hr l ids :
  bound k drv hr l (fun d => ids_of (desc d) = ids) ->
  exists k', override_strings env drv' k = Some (tt, k') /\
    bound k' drv hr l (fun d => ids_of (desc d) = ids).
Proof.
  intros Hb. unfold override_strings.
  assert (forall get put (h : Z -> usb_composite_dev -> usb_composite_dev) k,
    (forall i x, ids_of (put i x) = ids_of x) -> (forall i d, desc (h i d) = desc d) ->
    bound k drv hr l (fun d => ids_of (desc d) = ids) ->
    exists k', on_dev (upd_cdev (fun d => let '(i, d) := override_id get put d in h i d)) k = Some (tt, k') /\
      bound k' drv hr l (fun d => ids_of (desc d) = ids)) as Hov.
  { intros get put h k0 Hp Hh Hk. eapply on_dev_bound; [exact Hk|]. intros d Hd. cbn beta in *.
    destruct (override_id get put d) as [i d'] eqn:E. rewrite Hh, <- Hd.
    by eapply override_id_keeps. }
  assert (forall k, bound k drv hr l (fun d => ids_of (desc d) = ids) ->
    exists d, on_dev cdev k = Some (d, k)) as Hget.
  { intros [c g r lv a m w] (_ & _ & _ & d & H4 & _). cbn in H4. subst g. exists d. done. }
  destruct (Hget k Hb) as [d0 E0]. unfold fbind at 1. rewrite E0.
  assert (forall (c : bool) (m : FM kern unit),
    (forall k, bound k drv hr l (fun d => ids_of (desc d) = ids) ->
       exists k', m k = Some (tt, k') /\ bound k' drv hr l (fun d => ids_of (desc d) = ids)) ->
    forall k, bound k drv hr l (fun d => ids_of (desc d) = ids) ->
      exists k', (if c then m else fret tt) k = Some (tt, k') /\
        bound k' drv hr l (fun d => ids_of (desc d) = ids)) as Hif.
  { intros [] m Hm k0 Hk0; [by apply Hm|]. by exists k0. }
  unfold fbind at 1. edestruct (Hif (isSome (m_iManufacturer env) || (iManufacturer (desc d0) =? 0)))
    as (k1 & -> & Hb1); [|exact Hb|].
  { intros k0 Hk0. unfold fbind at 1, fget. unfold fbind at 1.
    edestruct Hif as (k2 & -> & Hk2); [|exact Hk0|].
    - intros k3 (H1 & H2 & H3 & H4). eexists. split; [reflexivity|]. done.
    - by apply (Hov iManufacturer put_iManufacturer
        (fun i d => set_overrides i (product_override d) (serial_override d) d)). }
  destruct (Hget k1 Hb1) as [d1 E1]. unfold fbind at 1. rewrite E1. unfold fbind at 1.
  edestruct Hif as (k2 & -> & Hb2); [|exact Hb1|].
  { intros k0 Hk0. by apply (Hov iProduct put_iProduct
        (fun i d => set_overrides (manufacturer_override d) i (serial_override d) d)). }
  apply Hif; [|done]. intros k0 Hk0. by apply (Hov iSerialNumber put_iSerialNumber
    (fun i d => set_overrides (manufacturer_override d) (product_override d) i d)).
Qed.

Lemma fail_bound st k drv hr l P :
  bound k drv hr l P -> holds hr l -> exists k', fail d_unbind st k = Some (st, k') /\ released k'.
Proof.
  intros (H1 & H2 & H3 & d & H4 & _) Hh. apply fail_run; [by eexists..|]. by rewrite H2, H3.
Qed.

Lemma unbind_bound k drv hr l P :
  bound k drv hr l P -> holds hr l -> exists k', composite_unbind d_unbind k = Some (tt, k') /\ released k'.
Proof.
  intros (H1 & H2 & H3 & d & H4 & _) Hh. apply unbind_run; [by eexists..|]. by rewrite H2, H3.
Qed.

Section Bind.
Context (d_bind : FM (usb_composite_dev * (EpAutoconf.usb_gadget * Z) * W) Z).
Hypothesis d_bind_returns : forall s, is_Some (d_bind s).

Definition expected_ids (env : bind_env) (dev : usb_device_descriptor) (g : usb_gadget) : Z * Z * Z * Z :=
  (u8 (ep0_maxpacket g), if truthy (p_idVendor env) then p_idVendor env else idVendor dev,
   if truthy (p_idProduct env) then p_idProduct env else idProduct dev,
   if truthy (p_bcdDevice env) then p_bcdDevice env else bcdDevice dev).

Definition bind_outcome (env : bind_env) (g : usb_gadget) (drv : bind_driver)
    (dev : usb_device_descriptor) (k : kern) (r : Z) (k' : kern) : Prop :=
  (cdev_alloc env = false /\ r = - ENOMEM /\ k' = k) \/
  (cdev_alloc env = true /\ r <> 0 /\ released k') \/
  (r = 0 /\ bound k' drv (Some true) [OFile; OBuf; OReq; OCdev]
              (fun d => ids_of (desc d) = expected_ids env dev g)).

Lemma gadget_bind_run k drv hr l :
  bound k drv hr l (fun _ => True) ->
  exists r k', gadget_bind d_bind k = Some (r, k') /\ bound k' drv hr l (fun _ => True).
Proof.
  intros (H1 & H2 & H3 & d & H4 & _). unfold gadget_bind. rewrite H4.
  destruct (d_bind_returns (d, autoconf k, kworld k)) as [[r [[d' a] w]] ->].
  do 2 eexists. split; [reflexivity|]. split_and!; try done. by exists d'.
Qed.

(** The second half of [composite_bind], from the driver's bind callback on. *)
Lemma bind_finish env g drv dev k0 k :
  cdev_alloc env = true -> b_dev drv = Some dev ->
  bound k drv (Some true) [OBuf; OReq; OCdev] (fun _ => True) ->
  exists r k',
    (status <~ gadget_bind d_bind ;;
     if status <? 0 then fail d_unbind status
     else
       k <~ fget ;;
       match composite k with
       | None => fault
       | Some drv =>
           match b_dev drv with
           | None => fault
           | Some dev =>
               on_dev (upd_cdev (set_desc (override_ids env dev (ep0_maxpacket g)))) ~;;
               override_strings env drv ~;;
               let status := create_file env in
               if truthy status then fail d_unbind status
               else (alloc OFile ~;; fret 0)
           end
       end) k = Some (r, k') /\ bind_outcome env g drv dev k0 r k'.
Proof.
  intros Ha Hdev Hk. unfold fbind at 1.
  destruct (gadget_bind_run _ _ _ _ Hk) as (r & k1 & -> & Hk1).
  destruct (Z.ltb_spec r 0) as [Hr|Hr].
  { destruct (fail_bound r _ _ _ _ _ Hk1) as (k2 & -> & Hrel); [constructor|].
    exists r, k2. split; [done|]. right. left. split; [done|]. split; [lia|done]. }
  unfold fbind at 1, fget. rewrite (proj1 Hk1), Hdev. unfold fbind at 1.
  destruct (on_dev_bound (set_desc (override_ids env dev (ep0_maxpacket g))) k1 drv _ _ _
    (fun d => ids_of (desc d) = expected_ids env dev g) Hk1) as (k2 & -> & Hk2); [done|].
  unfold fbind at 1. destruct (override_strings_run env drv k2 _ _ _ _ Hk2) as (k3 & -> & Hk3).
  cbv zeta. destruct (truthy (create_file env)) eqn:Ht.
  - destruct (fail_bound (create_file env) _ _ _ _ _ Hk3) as (k4 & -> & Hrel); [constructor|].
    do 2 eexists. split; [reflexivity|]. right. left. split; [done|]. split; [|done].
    intros E. by rewrite E in Ht.
  - do 2 eexists. split; [reflexivity|]. right. right. split; [done|].
    destruct Hk3 as (H1 & H2 & H3 & H4). split; [done|]. split; [done|]. split; [cbn; by rewrite H3|done].
Qed.

Lemma composite_bind_run env g drv dev (k : kern) :
  composite k = Some drv -> b_dev drv = Some dev -> live k = [] ->
  exists r k', composite_bind VBUS_DRAW env d_bind d_unbind set_selfpowered g k = Some (r, k') /\
    bind_outcome env g drv dev k r k'.
Proof.
  intros Hc Hdev Hl. unfold composite_bind. destruct (cdev_alloc env) eqn:Ha; cbn [negb].
  2: { do 2 eexists. split; [reflexivity|]. by left. }
  unfold fbind at 1. cbn [alloc fmodify]. unfold fbind at 1. cbn [fmodify]. unfold fbind at 1. cbn [fmodify].
  set (k1 := set_gdata _ _).
  assert (bound k1 drv None [OCdev] (fun _ => True)) as H1.
  { split; [done|]. split; [done|]. split; [cbn; by rewrite Hl|]. by eexists. }
  destruct (req_alloc env); cbn [negb].
  2: { destruct (fail_bound (- ENOMEM) _ _ _ _ _ H1) as (k2 & -> & Hrel); [constructor|].
       do 2 eexists. split; [reflexivity|]. right. left. done. }
  unfold fbind at 1. cbn [alloc fmodify]. unfold fbind at 1. cbn [fmodify].
  set (k2 := set_has_req (Some false) _).
  assert (bound k2 drv (Some false) [OReq; OCdev] (fun _ => True)) as H2.
  { split; [done|]. split; [done|]. split; [cbn; by rewrite Hl|]. by eexists. }
  destruct (buf_alloc env) as [buf|].
  2: { destruct (fail_bound (- ENOMEM) _ _ _ _ _ H2) as (k3 & -> & Hrel); [constructor|].
       do 2 eexists. split; [reflexivity|]. right. left. done. }
  unfold fbind at 1. cbn [alloc fmodify]. unfold fbind at 1. cbn [fmodify].
  set (k3 := set_has_req (Some true) _).
  assert (bound k3 drv (Some true) [OBuf; OReq; OCdev] (fun _ => True)) as H3.
  { split; [done|]. split; [done|]. split; [cbn; by rewrite Hl|]. by eexists. }
  unfold fbind at 1. destruct (on_dev_bound (with_buf buf) k3 drv _ _ _ (fun _ => True) H3)
    as (k4 & -> & H4); [done|].
  unfold fbind at 1.
  assert (exists k5, (if VBUS_DRAW <=? CONFIG_BUS_POWERED_MAX then ext_call set_selfpowered else fret tt) k4 =
    Some (tt, k5) /\ bound k5 drv (Some true) [OBuf; OReq; OCdev] (fun _ => True)) as (k5 & -> & H5).
  { case_if; [|by exists k4]. unfold ext_call. destruct (set_selfpowered (kworld k4)) as [[] w].
    eexists. split; [reflexivity|]. done. }
  unfold fbind at 1. cbn [fmodify]. apply bind_finish; [done|done|]. done.
Qed.

(** C10: binding the composite driver either succeeds or leaves nothing
    behind, whichever allocation, callback or registration fails: on an
    error every object that was allocated has been freed exactly once and no
    driver is registered - except that when the very first allocation fails
    nothing at all is done, so the driver stays registered.  On success the
    device, its request, the buffer and the attribute file are there, the
    device descriptor carries the overridden identifiers, and unbinding later
    releases all of it. *)
Theorem bind_resources env g drv dev (k : kern) :
  composite k = Some drv -> b_dev drv = Some dev -> live k = [] ->
  exists r k', composite_bind VBUS_DRAW env d_bind d_unbind set_selfpowered g k = Some (r, k') /\
    bind_outcome env g drv dev k r k' /\
    (r = 0 -> exists k'', composite_unbind d_unbind k' = Some (tt, k'') /\ released k'').
Proof.
  intros Hc Hdev Hl. destruct (composite_bind_run env g drv dev k Hc Hdev Hl) as (r & k' & E & Ho).
  exists r, k'. split; [done|]. split; [done|]. intros ->.
  destruct Ho as [(_ & ? & _)|[(_ & ? & _)|(_ & Hb)]]; [done..|].
  eapply unbind_bound; [exact Hb|constructor].
Qed.

(** property: after a probe whose first allocation failed the driver is
    still taken to be registered: every later probe is refused with
    -EINVAL, although nothing is bound. *)
Theorem probe_after_enomem env g driver (k : kern) :
  cdev_alloc env = false -> composite k = None -> is_Some (b_dev driver) ->
  exists k', usb_composite_probe VBUS_DRAW env d_bind d_unbind set_selfpowered (fun bind => bind) g
      (Some driver) true k = Some (- ENOMEM, k') /\ live k' = live k /\
    forall env' g' driver', usb_composite_probe VBUS_DRAW env' d_bind d_unbind set_selfpowered
      (fun bind => bind) g' driver' true k' = Some (- EINVAL, k').
Proof.
  intros Ha Hc [dev Hd]. unfold usb_composite_probe at 1. unfold fbind at 1, fget.
  rewrite Hd, Hc. cbn [isSome negb orb]. unfold fbind at 1. cbn [fmodify].
  unfold composite_bind. rewrite Ha. cbn [negb fret]. eexists. split; [reflexivity|]. split; [done|].
  intros env' g' [driver'|]; [|done]. unfold usb_composite_probe, fbind, fget.
  cbn [composite set_composite isSome]. by rewrite !orb_true_r.
Qed.
End Bind.
End Spec.

(** ** A concrete binding *)
Definition demo_env (cdev_ok req_ok : bool) (file : Z) : bind_env :=
  mkEnv 0x1234 0 0 None None None cdev_ok req_ok (Some (replicate 1024 0)) file [76] [52] [117].
Definition demo_bind_driver : bind_driver :=
  mkBindDriver (Some (mkDevDesc 0x200 0 0 0 0 0x525 0xa4a0 1 0 0 0 0)) None None None false.
Definition demo_kernel (c : option bind_driver) : @kernel tworld :=
  mkKernel c None None [] (EpAutoconf.mkGadget "net2280" true [], 0) (replicate 50 0) quiet_world.
Definition no_effect : M tworld unit := fun w => (tt, w).
Definition bind_nothing : FM (usb_composite_dev * (EpAutoconf.usb_gadget * Z) * tworld) Z := fret 0.

Lemma bind_resources_witness :
  exists r k', composite_bind 2 (demo_env true true (- ENOMEM)) bind_nothing no_effect no_effect
      (gadget demo_cdev) (demo_kernel (Some demo_bind_driver)) = Some (r, k') /\ released k'.
Proof.
  destruct (bind_resources 2 no_effect no_effect bind_nothing (fun s => mk_is_Some _ _ eq_refl)
    (demo_env true true (- ENOMEM)) (gadget demo_cdev) demo_bind_driver
    (mkDevDesc 0x200 0 0 0 0 0x525 0xa4a0 1 0 0 0 0) (demo_kernel (Some demo_bind_driver))
    eq_refl eq_refl eq_refl) as (r & k' & E & Ho & _).
  exists r, k'. split; [exact E|]. destruct Ho as [(H & _)|[(_ & _ & H)|(Hr & _)]]; [discriminate|exact H|].
  subst r. vm_compute in E. discriminate E.
Defined.

Lemma probe_after_enomem_witness :
  exists k', usb_composite_probe 2 (demo_env false true 0) bind_nothing no_effect no_effect
      (fun bind => bind) (gadget demo_cdev) (Some demo_bind_driver) true (demo_kernel None) =
    Some (- ENOMEM, k') /\ live k' = [].
Proof.
  destruct (probe_after_enomem 2 no_effect no_effect bind_nothing (demo_env false true 0)
    (gadget demo_cdev) demo_bind_driver (demo_kernel None) eq_refl eq_refl
    (mk_is_Some _ _ eq_refl)) as (k' & E & L & _).
  exists k'. exact (conj E L).
Defined.
