(* ===== verification/Spi2Apb.v ===== *)
(** * The SPI to APB bridge driver (test_spi/spi2apb.c, spi2apb.h)

    Every function builds one SPI message - a list of transfers - and hands it
    to [spi_sync].  The bus is the interface [SpiBus]: [spi_sync] answers a
    status and, when something was received, the bytes for the receive
    buffer; [None] leaves the buffer as it was.  Words are 32-bit patterns,
    stored little-endian as on the processors the driver is for; buffers are
    lists of bytes. *)

From Stdlib Require Import ZArith.
From stdpp Require Import base list.
From S2P Require Import Prelude.

Definition APB_CMD_WRITE : Z := 0x00000011.
Definition APB_CMD_WRITE_REG1 : Z := 0x00020011.
Definition APB_CMD_READ : Z := 0x00000077.
Definition APB_CMD_READ_BEGIN : Z := 0x000000AA.
Definition APB_CMD_QUERY : Z := 0x000000FF.
Definition APB_CMD_QUERY_REG2 : Z := 0x000001FF.
Definition APB_OP_STATE_ID_MASK : Z := 0xffff0000.
Definition APB_OP_STATE_ID : Z := 0x16080000.
Definition APB_OP_STATE_MASK : Z := 0x0000ffff.
Definition APB_MAX_OP_BYTES : nat := Z.to_nat 60000.
Definition APB_SAFE_OPERATION_TRY_MAX : nat := 3.
Definition APB_SAFE_OPERATION_TRY_DELAY_US : Z := 10.
Definition SPI_CTRL0 : Z := 0x11060000.
Definition SPI_ENR : Z := 0x11060008.

Definition le32 (x : Z) : list Z :=
  [u8 x; u8 (Z.shiftr x 8); u8 (Z.shiftr x 16); u8 (Z.shiftr x 24)].
Definition of_le32 (bs : list Z) : Z := foldr (fun b acc => b + 256 * acc) 0 bs.

(** ** Bit order *)
Definition int8_msb2lsb (src : Z) : Z :=
  foldl (fun dst i => Z.lor dst (Z.shiftl (Z.land (Z.shiftr src (Z.of_nat i)) 1) (7 - Z.of_nat i)))
    0 (seq 0 8).

Definition int32_msb2lsb (src : Z) : Z :=
  foldl (fun dst i =>
      let shift := Z.of_nat i * 8 in
      u32 (Z.lor dst (Z.shiftl (int8_msb2lsb (Z.land (Z.shiftr src shift) 0xff)) shift)))
    0 (seq 0 4).

(** ** The bus *)
Inductive transfer := Tx (bytes : list Z) | Rx (len : nat).
#[export] Instance transfer_eq_dec : EqDecision transfer.
Proof. solve_decision. Defined.

Class SpiBus (W : Type) := {
  spi_sync : list transfer -> M W (Z * option (list Z));
  udelay : Z -> M W unit;
}.

Section Driver.
Context {W : Type} `{!SpiBus W}.

Definition spi2apb_lsb_w32 (addr data : Z) : M W Z :=
  let write_cmd := int32_msb2lsb APB_CMD_WRITE in
  let addr := int32_msb2lsb addr in
  let data := int32_msb2lsb data in
  r <- spi_sync [Tx (le32 write_cmd); Tx (le32 addr); Tx (le32 data)] ;;
  ret (fst r).

Definition spi2apb_switch_to_msb : M W unit :=
  spi2apb_lsb_w32 SPI_ENR 0 ;;
  spi2apb_lsb_w32 SPI_CTRL0 0x108002 ;;
  ret tt.

Definition spi2apb_write (addr : Z) (data : list Z) : M W Z :=
  r <- spi_sync [Tx (le32 APB_CMD_WRITE); Tx (le32 addr); Tx data] ;;
  ret (fst r).

Definition spi2apb_w32 (addr data : Z) : M W Z := spi2apb_write addr (le32 data).

(** [APB_CMD_READ | (real_len << 14 & 0xffff0000)] *)
Definition read_cmd (data_len : nat) : Z :=
  let real_len := Z.of_nat (Nat.min data_len APB_MAX_OP_BYTES) in
  Z.lor APB_CMD_READ (Z.land (Z.shiftl real_len 14) 0xffff0000).

(** The status and the receive buffer after a message that receives into
    [old]. *)
Definition received (r : Z * option (list Z)) (old : list Z) : Z * list Z :=
  (fst r, default old (snd r)).

Definition spi2apb_read (addr : Z) (data : list Z) : M W (Z * list Z) :=
  r <- spi_sync [Tx (le32 (read_cmd (length data))); Tx (le32 addr); Tx (le32 0);
                 Tx (le32 APB_CMD_READ_BEGIN); Rx (length data)] ;;
  ret (received r data).

Definition spi2apb_r32 (addr : Z) (data : list Z) : M W (Z * list Z) := spi2apb_read addr data.

Definition spi2apb_operation_query (state : Z) : M W (Z * Z) :=
  r <- spi_sync [Tx (le32 APB_CMD_QUERY); Rx 4] ;;
  let state := match snd r with Some b => of_le32 b | None => state end in
  ret (if Z.land state APB_OP_STATE_ID_MASK =? APB_OP_STATE_ID then 0 else -1, state).

Definition spi2apb_state_query (state : Z) : M W (Z * Z) :=
  r <- spi_sync [Tx (le32 APB_CMD_QUERY_REG2); Rx 4] ;;
  ret (fst r, match snd r with Some b => of_le32 b | None => state end).

Definition spi2apb_interrupt_request (interrupt_num : Z) : M W Z :=
  r <- spi_sync [Tx (le32 APB_CMD_WRITE_REG1); Tx (le32 interrupt_num)] ;;
  ret (fst r).

(** The loops with state check; [tries] is
    [APB_SAFE_OPERATION_TRY_MAX - try]. *)
Fixpoint safe_write_loop (tries : nat) (state addr : Z) (data : list Z) : M W Z :=
  spi2apb_write addr data ;;
  q <- spi2apb_operation_query state ;;
  let state := snd q in
  if negb (fst q =? 0) then ret (-1)
  else if Z.land state APB_OP_STATE_MASK =? 0 then ret (Z.land state APB_OP_STATE_MASK)
  else
    match tries with
    | O => ret (Z.land state APB_OP_STATE_MASK)
    | S tries => udelay APB_SAFE_OPERATION_TRY_DELAY_US ;; safe_write_loop tries state addr data
    end.

Definition _spi2apb_safe_write (addr : Z) (data : list Z) : M W Z :=
  safe_write_loop APB_SAFE_OPERATION_TRY_MAX 0 addr data.

(** The loop over the blocks of at most [APB_MAX_OP_BYTES] bytes; every block
    has at least one byte, so [length data] rounds are enough. *)
Fixpoint safe_write_blocks (fuel : nat) (addr : Z) (data : list Z) : M W Z :=
  match fuel with
  | O => ret 0
  | S fuel =>
      if (length data =? 0)%nat then ret 0
      else
        let slen := Nat.min (length data) APB_MAX_OP_BYTES in
        r <- _spi2apb_safe_write addr (take slen data) ;;
        if negb (r =? 0) then ret r
        else safe_write_blocks fuel (u32 (addr + Z.of_nat slen)) (drop slen data)
  end.

Definition spi2apb_safe_write (addr : Z) (data : list Z) : M W Z :=
  safe_write_blocks (length data) addr data.

Definition spi2apb_safe_w32 (addr data : Z) : M W Z := spi2apb_safe_write addr (le32 data).

Fixpoint safe_read_loop (tries : nat) (state addr : Z) (data : list Z) : M W (Z * list Z) :=
  r <- spi2apb_read addr data ;;
  let data := snd r in
  q <- spi2apb_operation_query state ;;
  let state := snd q in
  if negb (fst q =? 0) then ret (-1, data)
  else if Z.land state APB_OP_STATE_MASK =? 0 then ret (Z.land state APB_OP_STATE_MASK, data)
  else
    match tries with
    | O => ret (Z.land state APB_OP_STATE_MASK, data)
    | S tries => udelay APB_SAFE_OPERATION_TRY_DELAY_US ;; safe_read_loop tries state addr data
    end.

Definition spi2apb_safe_read (addr : Z) (data : list Z) : M W (Z * list Z) :=
  safe_read_loop APB_SAFE_OPERATION_TRY_MAX 0 addr data.

Definition spi2apb_safe_r32 (addr : Z) (data : list Z) : M W (Z * list Z) := spi2apb_safe_read addr data.
End Driver.

(** ** A bus that records what it is asked, with arbitrary answers *)
Inductive sevent :=
| EMsg (m : list transfer) (status : Z) (rx : option (list Z))
| EDelay (us : Z).

Record spi_log := mkLog {
  log : list sevent;
  reply : list sevent -> list transfer -> Z * option (list Z);
}.
Definition record (w : spi_log) (l : list sevent) : spi_log := mkLog (log w ++ l) (reply w).

#[export] Instance log_bus : SpiBus spi_log := {|
  spi_sync m w := let r := reply w (log w) m in (r, record w [EMsg m (fst r) (snd r)]);
  udelay us w := (tt, record w [EDelay us]);
|}.

Lemma record_record w a b : record (record w a) b = record w (a ++ b).
Proof. unfold record. cbn. by rewrite app_assoc. Qed.

(** ** Bit order *)
Lemma int8_msb2lsb_low x : 0 <= x < 256 ->
  0 <= int8_msb2lsb x < 256 /\ int8_msb2lsb (int8_msb2lsb x) = x /\
  forall i, 0 <= i < 8 -> Z.testbit (int8_msb2lsb x) i = Z.testbit x (7 - i).
Proof.
  intros Hx.
  pose proof (forall_below (fun x => (0 <=? int8_msb2lsb x) && (int8_msb2lsb x <? 256) &&
    (int8_msb2lsb (int8_msb2lsb x) =? x) &&
    forallb (fun i => Bool.eqb (Z.testbit (int8_msb2lsb x) (Z.of_nat i)) (Z.testbit x (7 - Z.of_nat i)))
      (seq 0 8)) 256) as H.
  specialize (H ltac:(by vm_compute) x Hx). cbn beta in H.
  apply andb_prop in H as [H Hb]. apply andb_prop in H as [H Hi]. apply andb_prop in H as [Hl Hu].
  bool_to_prop. split; [lia|]. split; [done|]. intros i Hi'. rewrite forallb_forall in Hb.
  specialize (Hb (Z.to_nat i)). rewrite Z2Nat.id in Hb by lia. apply Bool.eqb_prop, Hb.
  apply list_elem_of_In, elem_of_seq. lia.
Qed.

Lemma land_255 x : Z.land x 0xff = u8 x.
Proof. change 0xff with (Z.ones 8). by rewrite Z.land_ones. Qed.

Lemma of_le32_bound a b c d :
  0 <= a < 256 -> 0 <= b < 256 -> 0 <= c < 256 -> 0 <= d < 256 ->
  0 <= of_le32 [a; b; c; d] < 2 ^ 32 /\ le32 (of_le32 [a; b; c; d]) = [a; b; c; d].
Proof.
  intros Ha Hb Hc Hd. cbn [of_le32 foldr]. rewrite Z.mul_0_r, Z.add_0_r.
  split; [lia|]. unfold le32, u8, wrap. rewrite !Z.shiftr_div_pow2 by lia.
  repeat f_equal; Z.div_mod_to_equations; lia.
Qed.

Lemma of_le32_le32 x : 0 <= x < 2 ^ 32 -> of_le32 (le32 x) = x.
Proof.
  intros Hx. cbn [of_le32 le32 foldr]. unfold u8, wrap. rewrite !Z.shiftr_div_pow2 by lia.
  Z.div_mod_to_equations. lia.
Qed.

Lemma rev_byte x n :
  0 <= n -> 0 <= int8_msb2lsb (Z.land (Z.shiftr x n) 0xff) < 256 /\
  int8_msb2lsb (Z.land (Z.shiftr x n) 0xff) = int8_msb2lsb (u8 (Z.shiftr x n)).
Proof. intros Hn. rewrite land_255. split; [|done]. apply int8_msb2lsb_low, u8_range. Qed.

Lemma int32_msb2lsb_bytes x :
  int32_msb2lsb x = of_le32 (int8_msb2lsb <$> le32 x).
Proof.
  unfold int32_msb2lsb. cbn [foldl seq].
  change (Z.of_nat 0 * 8) with 0. change (Z.of_nat 1 * 8) with 8.
  change (Z.of_nat 2 * 8) with 16. change (Z.of_nat 3 * 8) with 24.
  destruct (rev_byte x 0) as [B0 E0]; [lia|]. destruct (rev_byte x 8) as [B1 E1]; [lia|].
  destruct (rev_byte x 16) as [B2 E2]; [lia|]. destruct (rev_byte x 24) as [B3 E3]; [lia|].
  rewrite E0, E1, E2, E3 in *.
  cbn [le32 fmap list_fmap of_le32 foldr]. rewrite Z.shiftr_0_r in *.
  set (b0 := int8_msb2lsb (u8 x)) in *. set (b1 := int8_msb2lsb (u8 (Z.shiftr x 8))) in *.
  set (b2 := int8_msb2lsb (u8 (Z.shiftr x 16))) in *. set (b3 := int8_msb2lsb (u8 (Z.shiftr x 24))) in *.
  rewrite Z.lor_0_l, Z.shiftl_0_r, (u32_small b0) by lia.
  rewrite (Z.lor_comm b0), (lor_shiftl b1), (u32_small (b1 * 2 ^ 8 + b0)) by lia.
  rewrite (Z.lor_comm (b1 * _ + b0)), (lor_shiftl b2), (u32_small (b2 * _ + _)) by lia.
  rewrite (Z.lor_comm (b2 * _ + _)), (lor_shiftl b3), u32_small by lia. lia.
Qed.

Lemma le32_range x : Forall (fun b => 0 <= b < 256) (le32 x).
Proof. repeat constructor; apply u8_range. Qed.

Lemma le32_reversed x : le32 (int32_msb2lsb x) = int8_msb2lsb <$> le32 x.
Proof.
  rewrite int32_msb2lsb_bytes. cbn [le32 fmap list_fmap].
  apply of_le32_bound; apply int8_msb2lsb_low, u8_range.
Qed.

Lemma testbit_le32 bs b i k :
  bs !! k = Some b -> Forall (fun b => 0 <= b < 256) bs -> 0 <= i < 8 ->
  Z.testbit (of_le32 bs) (8 * Z.of_nat k + i) = Z.testbit b i.
Proof.
  intros Hk Hb Hi. revert k Hk. induction Hb as [|x bs Hx _ IH]; intros k Hk; [done|].
  cbn [of_le32 foldr]. change (foldr _ 0 bs) with (of_le32 bs).
  replace (x + 256 * of_le32 bs) with (Z.lor (Z.shiftl (of_le32 bs) 8) x)
    by (rewrite lor_shiftl by lia; lia).
  rewrite Z.lor_spec, Z.shiftl_spec by lia. destruct k as [|k].
  - injection Hk as ->. rewrite Z.testbit_neg_r by lia. cbn [orb]. f_equal.
  - rewrite <- (IH k Hk). replace (8 * Z.of_nat (S k) + i - 8) with (8 * Z.of_nat k + i) by lia.
    destruct (decide (x = 0)) as [->|]; [by rewrite Z.bits_0, orb_false_r|].
    rewrite (Z.bits_above_log2 x), orb_false_r; [done|lia|].
    assert (Z.log2 x < 8) by (apply Z.log2_lt_pow2; lia). lia.
Qed.

Lemma int32_testbit x i :
  0 <= x < 2 ^ 32 -> 0 <= i < 32 ->
  Z.testbit (int32_msb2lsb x) i = Z.testbit x (8 * (i / 8) + (7 - i mod 8)).
Proof.
  intros Hx Hi. rewrite int32_msb2lsb_bytes. rewrite <- (of_le32_le32 x) at 2 by done.
  assert (0 <= i mod 8 < 8) as Hm by (apply Z.mod_pos_bound; lia).
  assert (0 <= i / 8 < 4) as Hd by (Z.div_mod_to_equations; lia).
  destruct (lookup_lt_is_Some_2 (le32 x) (Z.to_nat (i / 8))) as [b Hb]; [cbn; lia|].
  assert (0 <= b < 256) as Hr by (eapply Forall_lookup_1 in Hb; [|apply le32_range]; done).
  rewrite (Z.div_mod i 8) at 1 by lia. rewrite <- (Z2Nat.id (i / 8)) at 1 2 by lia.
  rewrite (testbit_le32 _ (int8_msb2lsb b)), (testbit_le32 _ b); [|done|apply le32_range|lia|..|lia].
  - by apply int8_msb2lsb_low.
  - by rewrite list_lookup_fmap, Hb.
  - apply Forall_fmap. eapply Forall_impl; [apply le32_range|]. intros y Hy. by apply int8_msb2lsb_low.
Qed.

Definition reverse_bits (t : transfer) : transfer :=
  match t with Tx bs => Tx (int8_msb2lsb <$> bs) | Rx n => Rx n end.

(** property: the bit order conversion mirrors the bits of every byte, it is
    its own inverse, and the write for a bridge that still shifts in the
    least significant bit first puts the message of the ordinary 32-bit write
    on the bus with every byte mirrored - so the bridge reads the same
    command, address and data. *)
Theorem lsb_write_mirrors (addr data : Z) (w : spi_log) :
  0 <= addr < 2 ^ 32 ->
  (forall i, 0 <= i < 32 ->
     Z.testbit (int32_msb2lsb addr) i = Z.testbit addr (8 * (i / 8) + (7 - i mod 8))) /\
  int32_msb2lsb (int32_msb2lsb addr) = addr /\
  exists m, snd (spi2apb_w32 addr data w) =
      record w [EMsg m (fst (reply w (log w) m)) (snd (reply w (log w) m))] /\
    let m' := reverse_bits <$> m in
    snd (spi2apb_lsb_w32 addr data w) =
      record w [EMsg m' (fst (reply w (log w) m')) (snd (reply w (log w) m'))].
Proof.
  intros Ha. split; [|split].
  - intros i Hi. by apply int32_testbit.
  - rewrite int32_msb2lsb_bytes, le32_reversed, <- list_fmap_compose.
    rewrite (list_fmap_ext _ id) by (intros j b Hb; eapply Forall_lookup_1 in Hb;
      [|apply le32_range]; by apply int8_msb2lsb_low).
    rewrite list_fmap_id. by apply of_le32_le32.
  - eexists. split; [reflexivity|]. cbv zeta. cbn [fmap list_fmap reverse_bits].
    unfold spi2apb_lsb_w32. by rewrite <- !le32_reversed.
Qed.

Lemma lsb_write_mirrors_witness :
  int32_msb2lsb (int32_msb2lsb 0x11060008) = 0x11060008.
Proof.
  exact (proj1 (proj2 (lsb_write_mirrors 0x11060008 0 (mkLog [] (fun _ _ => (0, None))) ltac:(lia)))).
Defined.

(** ** Reading *)
Lemma read_cmd_value n :
  read_cmd n = APB_CMD_READ + 65536 * (Z.of_nat (Nat.min n APB_MAX_OP_BYTES) / 4).
Proof.
  unfold read_cmd. set (l := Z.of_nat (Nat.min n APB_MAX_OP_BYTES)).
  assert (0 <= l <= 60000) as Hl by (unfold l, APB_MAX_OP_BYTES; lia).
  assert (Z.land (Z.shiftl l 14) 0xffff0000 = Z.shiftl (l / 4) 16) as ->.
  { change 0xffff0000 with (Z.shiftl (Z.ones 16) 16). change (l / 4) with (l / 2 ^ 2).
    rewrite <- (Z.shiftr_div_pow2 l 2) by lia.
    apply Z.bits_inj_iff'. intros i Hi. rewrite Z.land_spec, !Z.shiftl_spec by lia.
    destruct (decide (i < 16)).
    - rewrite (Z.testbit_neg_r (Z.ones 16)), (Z.testbit_neg_r (Z.shiftr l 2)) by lia. by rewrite andb_false_r.
    - rewrite Z.shiftr_spec by lia. replace (i - 16 + 2) with (i - 14) by lia.
      destruct (decide (i < 32)); [rewrite Z.ones_spec_low by lia; by rewrite andb_true_r|].
      rewrite Z.ones_spec_high, andb_false_r by lia.
      destruct (decide (l = 0)) as [->|]; [by rewrite Z.bits_0|].
      rewrite Z.bits_above_log2; [done|lia|].
      assert (Z.log2 l < 16) by (apply Z.log2_lt_pow2; lia). lia. }
  rewrite Z.lor_comm, lor_shiftl; unfold APB_CMD_READ; lia.
Qed.

(** property: the read command asks for the number of 32-bit words of the
    buffer, at most 15000; the bridge is then clocked for the whole buffer,
    so for a longer buffer - or one that is not a whole number of words -
    more bytes are clocked in than were asked for. *)
Theorem read_requests_words addr data (w : spi_log) :
  exists words,
    snd (spi2apb_read addr data w) = record w
      [let m := [Tx (le32 (APB_CMD_READ + 65536 * words)); Tx (le32 addr); Tx (le32 0);
                 Tx (le32 APB_CMD_READ_BEGIN); Rx (length data)] in
       EMsg m (fst (reply w (log w) m)) (snd (reply w (log w) m))] /\
    0 <= words <= 15000 /\ of_le32 (le32 (APB_CMD_READ + 65536 * words)) / 65536 = words /\
    (4 * words = Z.of_nat (length data) <->
       (Z.of_nat (length data) <= 60000 /\ Z.of_nat (length data) mod 4 = 0)).
Proof.
  exists (Z.of_nat (Nat.min (length data) APB_MAX_OP_BYTES) / 4). split.
  { unfold spi2apb_read. cbn [bind spi_sync log_bus snd]. unfold bind. cbn. by rewrite read_cmd_value. }
  set (n := length data). unfold APB_MAX_OP_BYTES, APB_CMD_READ.
  assert (0 <= Z.of_nat (Nat.min n (Z.to_nat 60000)) / 4 <= 15000) as Hb by (Z.div_mod_to_equations; lia).
  split; [done|]. split.
  - rewrite of_le32_le32 by lia. Z.div_mod_to_equations. lia.
  - split; [intros H|intros [H1 H2]]; Z.div_mod_to_equations; lia.
Qed.

(** ** Writing with state check *)
Definition state_ok (b : list Z) : bool :=
  (Z.land (of_le32 b) APB_OP_STATE_ID_MASK =? APB_OP_STATE_ID) &&
  (Z.land (of_le32 b) APB_OP_STATE_MASK =? 0).

Definition write_msg (addr : Z) (data : list Z) : list transfer :=
  [Tx (le32 APB_CMD_WRITE); Tx (le32 addr); Tx data].
Definition query_msg : list transfer := [Tx (le32 APB_CMD_QUERY); Rx 4].

(** The writes on the bus that were transferred and that the following query,
    transferred too, reported as done. *)
Fixpoint accepted (l : list sevent) : list (Z * list Z) :=
  match l with
  | EMsg [Tx c; Tx a; Tx d] s _ :: (EMsg m s' rx :: l') as rest =>
      if bool_decide (c = le32 APB_CMD_WRITE) && bool_decide (m = query_msg) &&
         (s =? 0) && (s' =? 0) && (match rx with Some b => state_ok b | None => false end)
      then (of_le32 a, d) :: accepted l' else accepted l'
  | _ :: l' => accepted l'
  | [] => []
  end.

(** A bus on which every message is transferred. *)
Definition bus_ok (w : spi_log) : Prop := forall h m, fst (reply w h m) = 0.

(** Whether a state left over from an earlier query could pass the test. *)
Definition stale (state : Z) : Prop :=
  Z.land state APB_OP_STATE_ID_MASK <> APB_OP_STATE_ID \/ Z.land state APB_OP_STATE_MASK <> 0.

Lemma mask_range s : 0 <= Z.land s APB_OP_STATE_MASK <= 0xffff.
Proof.
  change APB_OP_STATE_MASK with (Z.ones 16). rewrite Z.land_ones by lia.
  pose proof (Z.mod_pos_bound s (2 ^ 16)). lia.
Qed.

(** One write and one query, as events. *)
Definition round (w : spi_log) (addr : Z) (data : list Z) : list sevent :=
  let r1 := reply w (log w) (write_msg addr data) in
  let e1 := EMsg (write_msg addr data) (fst r1) (snd r1) in
  let r2 := reply w (log w ++ [e1]) query_msg in
  [e1; EMsg query_msg (fst r2) (snd r2)].

Definition queried (w : spi_log) (addr : Z) (data : list Z) (state : Z) : Z :=
  let r1 := reply w (log w) (write_msg addr data) in
  match snd (reply w (log w ++ [EMsg (write_msg addr data) (fst r1) (snd r1)]) query_msg) with
  | Some b => of_le32 b | None => state end.

Lemma safe_write_loop_eq n state addr data w :
  safe_write_loop n state addr data w =
    let st := queried w addr data state in
    let w' := record w (round w addr data) in
    if negb (Z.land st APB_OP_STATE_ID_MASK =? APB_OP_STATE_ID) then (-1, w')
    else if Z.land st APB_OP_STATE_MASK =? 0 then (0, w')
    else match n with
         | O => (Z.land st APB_OP_STATE_MASK, w')
         | S n => safe_write_loop n st addr data
                    (record w' [EDelay APB_SAFE_OPERATION_TRY_DELAY_US])
         end.
Proof.
  destruct n; cbn [safe_write_loop]; unfold spi2apb_write, spi2apb_operation_query, bind;
    cbn -[write_msg query_msg]; unfold round, queried; fold (write_msg addr data); fold query_msg;
    rewrite !record_record; cbn [record log reply app];
    set (st := match snd _ with Some b => of_le32 b | None => state end);
    destruct (Z.land st APB_OP_STATE_ID_MASK =? APB_OP_STATE_ID); try done; cbn [negb Z.eqb];
    destruct (Z.eqb_spec (Z.land st APB_OP_STATE_MASK) 0) as [E|E];
    rewrite ?E, ?record_record; done.
Qed.

Lemma accepted_round w addr data st0 rest :
  bus_ok w -> 0 <= addr < 2 ^ 32 -> stale st0 ->
  accepted (round w addr data ++ rest) =
    (if (Z.land (queried w addr data st0) APB_OP_STATE_ID_MASK =? APB_OP_STATE_ID) &&
        (Z.land (queried w addr data st0) APB_OP_STATE_MASK =? 0)
     then [(addr, data)] else []) ++ accepted rest.
Proof.
  intros Hb Ha Hs. unfold round. cbn [app write_msg accepted]. unfold queried. fold (write_msg addr data).
  rewrite !bool_decide_true, !Hb by done. cbn [andb Z.eqb]. destruct (snd (reply _ _ query_msg)) as [b|].
  - unfold state_ok. rewrite of_le32_le32 by done. by destruct (_ && _).
  - unfold stale in Hs. destruct (_ && _) eqn:E; [|done]. bool_to_prop. tauto.
Qed.

(** One attempt: the write and the query after it. *)
Definition attempt (addr : Z) (data : list Z) (s : Z) (x : option (list Z)) (s' : Z)
    (rx : option (list Z)) : list sevent := [EMsg (write_msg addr data) s x; EMsg query_msg s' rx].

(** The state after a query, and a state to be waited out. *)
Definition report (st : Z) (rx : option (list Z)) : Z :=
  match rx with Some b => of_le32 b | None => st end.
Definition busy (st : Z) : Prop :=
  Z.land st APB_OP_STATE_ID_MASK = APB_OP_STATE_ID /\ Z.land st APB_OP_STATE_MASK <> 0.

(** Writing one block, with [n] attempts to go and [st] the state the last
    query reported: a query that reports success ends with 0, one without the
    bridge's identification with -1, any other state is waited out while
    there are attempts, and is the answer of the last one. *)
Inductive block_run (addr : Z) (data : list Z) : nat -> Z -> Z -> list sevent -> Prop :=
| br_done n st s x s' b :
    state_ok b = true -> block_run addr data (S n) st 0 (attempt addr data s x s' (Some b))
| br_foreign n st s x s' rx :
    Z.land (report st rx) APB_OP_STATE_ID_MASK <> APB_OP_STATE_ID ->
    block_run addr data (S n) st (-1) (attempt addr data s x s' rx)
| br_last st s x s' rx :
    busy (report st rx) ->
    block_run addr data 1 st (Z.land (report st rx) APB_OP_STATE_MASK) (attempt addr data s x s' rx)
| br_again n st s x s' rx r evs :
    busy (report st rx) -> block_run addr data (S n) (report st rx) r evs ->
    block_run addr data (S (S n)) st r
      (attempt addr data s x s' rx ++ EDelay APB_SAFE_OPERATION_TRY_DELAY_US :: evs).

(** What a write with state check can answer. *)
Definition write_status (r : Z) : Prop := r = -1 \/ 0 <= r <= 0xffff.

Lemma round_attempt w addr data st :
  exists s x s' rx, round w addr data = attempt addr data s x s' rx /\
    queried w addr data st = report st rx.
Proof. by do 4 eexists. Qed.

Lemma safe_write_loop_run n state addr data w :
  0 <= addr < 2 ^ 32 -> stale state ->
  exists r evs, safe_write_loop n state addr data w = (r, record w evs) /\
    block_run addr data (S n) state r evs /\ write_status r /\
    (bus_ok w -> forall rest, accepted (evs ++ rest) =
       (if r =? 0 then [(addr, data)] else []) ++ accepted rest).
Proof.
  intros Ha. revert state w. induction n as [|n IH]; intros state w Hs; rewrite safe_write_loop_eq;
    cbv zeta;
    pose proof (fun Hb rest => accepted_round w addr data state rest Hb Ha Hs) as Hacc;
    destruct (round_attempt w addr data state) as (s & x & s' & rx & Er & Eq); rewrite Er, Eq in *;
    (destruct (Z.eqb_spec (Z.land (report state rx) APB_OP_STATE_ID_MASK) APB_OP_STATE_ID) as [E1|E1];
      cbn [negb andb] in *;
      [|by exists (-1), (attempt addr data s x s' rx); split_and!; [| apply br_foreign|left|]]);
    (destruct (Z.eqb_spec (Z.land (report state rx) APB_OP_STATE_MASK) 0) as [E2|E2];
      [exists 0, (attempt addr data s x s' rx); split_and!; [done| |by right|done];
       destruct rx as [b|]; [|by destruct Hs];
       apply br_done; unfold state_ok; cbn in E1, E2; by rewrite E1, E2|]).
  - exists (Z.land (report state rx) APB_OP_STATE_MASK), (attempt addr data s x s' rx).
    rewrite (proj2 (Z.eqb_neq _ 0)) by done.
    split_and!; [done|by apply br_last|right; apply mask_range|done].
  - destruct (IH (report state rx)
      (record (record w (attempt addr data s x s' rx)) [EDelay APB_SAFE_OPERATION_TRY_DELAY_US]))
      as (r & evs & -> & Hr & Hw & Hc); [by right|].
    exists r, (attempt addr data s x s' rx ++ EDelay APB_SAFE_OPERATION_TRY_DELAY_US :: evs).
    rewrite !record_record. split_and!; [done|by apply br_again|done|].
    intros Hb rest. rewrite <- app_assoc, Hacc by done. cbn [app accepted]. by apply Hc.
Qed.

(** The accepted writes [ws] put the bytes [data] at [addr] and upwards. *)
Fixpoint placed (addr : Z) (ws : list (Z * list Z)) (data : list Z) : Prop :=
  match ws with
  | [] => data = []
  | (a, d) :: ws =>
      a = u32 addr /\ (0 < length d <= APB_MAX_OP_BYTES)%nat /\
      exists rest, data = d ++ rest /\ placed (u32 (addr + Z.of_nat (length d))) ws rest
  end.

(** Writing all of [data]: blocks of at most 60000 bytes, each full but the
    last, of at most four attempts each, at consecutive addresses, up to the
    first block that is not done. *)
Inductive write_run : Z -> list Z -> Z -> list sevent -> Prop :=
| wr_end addr : write_run addr [] 0 []
| wr_block addr d rest r evs evs' :
    (0 < length d <= APB_MAX_OP_BYTES)%nat -> (rest <> [] -> length d = APB_MAX_OP_BYTES) ->
    block_run addr d 4 0 0 evs -> write_run (u32 (addr + Z.of_nat (length d))) rest r evs' ->
    write_run addr (d ++ rest) r (evs ++ evs')
| wr_stop addr d rest r evs :
    (0 < length d <= APB_MAX_OP_BYTES)%nat -> (rest <> [] -> length d = APB_MAX_OP_BYTES) ->
    block_run addr d 4 0 r evs -> r <> 0 -> write_run addr (d ++ rest) r evs.

Lemma record_nil w : record w [] = w.
Proof. destruct w. unfold record. cbn. by rewrite app_nil_r. Qed.

Lemma max_op_pos : (0 < APB_MAX_OP_BYTES)%nat.
Proof. unfold APB_MAX_OP_BYTES. lia. Qed.

Lemma safe_write_run fuel addr data w :
  (length data <= fuel)%nat -> 0 <= addr < 2 ^ 32 ->
  exists r evs, safe_write_blocks fuel addr data w = (r, record w evs) /\ write_status r /\
    write_run addr data r evs /\
    (bus_ok w -> exists written rest, data = written ++ rest /\ placed addr (accepted evs) written /\
      (r = 0 <-> rest = [])).
Proof.
  revert addr data w. induction fuel as [|fuel IH]; intros addr data w Hf Ha.
  { destruct data; [|cbn in Hf; lia]. exists 0, []. rewrite record_nil.
    split_and!; [done|by right|constructor|]. intros _. by exists [], []. }
  cbn [safe_write_blocks]. destruct (Nat.eqb_spec (length data) 0) as [E|E].
  { destruct data; [|done]. exists 0, []. rewrite record_nil.
    split_and!; [done|by right|constructor|]. intros _. by exists [], []. }
  pose proof max_op_pos as Hpos. set (slen := Nat.min (length data) APB_MAX_OP_BYTES).
  assert (length (take slen data) = slen) as Hlt by (rewrite length_take; lia).
  assert (0 < length (take slen data) <= APB_MAX_OP_BYTES)%nat as Hd1 by lia.
  assert (drop slen data <> [] -> length (take slen data) = APB_MAX_OP_BYTES) as Hd2.
  { intros Hne. destruct (decide (slen < length data)%nat); [lia|]. by rewrite drop_ge in Hne by lia. }
  destruct (safe_write_loop_run APB_SAFE_OPERATION_TRY_MAX 0 addr (take slen data) w Ha)
    as (r & evs & Hrun & Hblk & Hr & Hacc); [by left|].
  unfold bind. unfold _spi2apb_safe_write. rewrite Hrun.
  destruct (Z.eqb_spec r 0) as [->|Hr0]; cbn [negb].
  - destruct (IH (u32 (addr + Z.of_nat slen)) (drop slen data) (record w evs))
      as (r' & evs' & -> & Hr' & Hw' & Hp); [rewrite length_drop; lia|apply u32_range|].
    exists r', (evs ++ evs'). rewrite record_record. split_and!; [done|done| |].
    + rewrite <- (take_drop slen data). apply wr_block; [done|done|done|]. by rewrite Hlt.
    + intros Hb. destruct (Hp Hb) as (wr & rest & Hd & Hpl & Hiff).
      exists (take slen data ++ wr), rest. split; [by rewrite <- app_assoc, <- Hd, take_drop|].
      split; [|done]. rewrite Hacc by done. cbn [app placed]. rewrite u32_small by done.
      split; [done|]. split; [done|]. exists wr. by rewrite Hlt.
  - exists r, evs. split_and!; [done|done| |].
    + rewrite <- (take_drop slen data). by apply wr_stop.
    + intros Hb. exists [], data. pose proof (Hacc Hb []) as H0. rewrite app_nil_r in H0.
      split; [done|]. rewrite H0. split; [done|]. split; [done|]. by intros ->.
Qed.

(** C9: a write with state check always comes to an end with 0, -1 or the
    operation state, after a run of the protocol: full blocks of 60000 bytes
    and a last shorter one, in order and at consecutive addresses; each block
    is written at most four times, each time followed by a query, until the
    query reports success, up to the first block that is not confirmed.  On a
    bus that transfers every message - the code looks at no transfer's
    result - the writes the bridge received and confirmed put a prefix of
    the data at the address given, and 0 is answered exactly when that
    prefix is all of the data. *)
Theorem safe_write_spec addr data (w : spi_log) :
  0 <= addr < 2 ^ 32 ->
  exists r evs, spi2apb_safe_write addr data w = (r, record w evs) /\ write_status r /\
    write_run addr data r evs /\
    (bus_ok w -> exists written rest, data = written ++ rest /\
      placed addr (accepted evs) written /\ (r = 0 <-> rest = [])).
Proof. intros Ha. by apply safe_write_run. Qed.

Definition good_bus : spi_log :=
  mkLog [] (fun _ m => if bool_decide (m = query_msg) then (0, Some (le32 APB_OP_STATE_ID)) else (0, None)).

Lemma good_bus_ok : bus_ok good_bus.
Proof. intros h m. cbn. by case_bool_decide. Qed.

Lemma safe_write_spec_witness :
  exists r evs, spi2apb_safe_write 0x1000 [1; 2; 3; 4] good_bus = (r, record good_bus evs) /\
    exists written rest, [1; 2; 3; 4] = written ++ rest /\ placed 0x1000 (accepted evs) written /\
      (r = 0 <-> rest = []).
Proof.
  destruct (safe_write_spec 0x1000 [1; 2; 3; 4] good_bus) as (r & evs & E & _ & _ & Hp); [lia|].
  exists r, evs. exact (conj E (Hp good_bus_ok)).
Defined.

(** property: only the query decides: a bridge that still reports the state
    of an earlier operation makes a write with state check answer 0 even
    when every transfer of the data failed on the bus. *)
Theorem safe_write_ignores_bus_errors addr data (w : spi_log) :
  (forall h, reply w h query_msg = (0, Some (le32 APB_OP_STATE_ID))) ->
  (forall h a d, fst (reply w h (write_msg a d)) = - EIO) ->
  fst (spi2apb_safe_write addr data w) = 0 /\ fst (spi2apb_write addr data w) = - EIO.
Proof.
  intros Hq Hw. split.
  - unfold spi2apb_safe_write. generalize (length data) at 1. intros fuel. revert addr data w Hq Hw.
    induction fuel as [|fuel IH]; intros addr data w Hq Hw; cbn [safe_write_blocks]; [done|].
    destruct (_ =? 0)%nat; [done|]. unfold bind, _spi2apb_safe_write.
    rewrite safe_write_loop_eq. unfold queried. rewrite Hq. cbv zeta. cbn [snd].
    rewrite of_le32_le32 by (unfold APB_OP_STATE_ID; lia). cbn -[safe_write_blocks round].
    by apply IH.
  - unfold spi2apb_write, bind. cbn. apply Hw.
Qed.

Lemma safe_write_ignores_bus_errors_witness :
  let w := mkLog [] (fun _ m => if bool_decide (m = query_msg)
                                then (0, Some (le32 APB_OP_STATE_ID)) else (- EIO, None)) in
  fst (spi2apb_safe_write 0 [1; 2; 3; 4] w) = 0.
Proof.
  intros w. refine (proj1 (safe_write_ignores_bus_errors 0 [1; 2; 3; 4] w _ _)).
  - intros h. reflexivity.
  - intros h a d. reflexivity.
Defined.

(** ** Reading with state check *)
Definition read_msg (addr : Z) (n : nat) : list transfer :=
  [Tx (le32 (read_cmd n)); Tx (le32 addr); Tx (le32 0); Tx (le32 APB_CMD_READ_BEGIN); Rx n].

(** The bus fills a receive buffer or leaves it. *)
Definition sized (w : spi_log) : Prop :=
  forall h addr n b, snd (reply w h (read_msg addr n)) = Some b -> length b = n.

Fixpoint count_reads (l : list sevent) : Z :=
  match l with
  | EMsg [Tx _; Tx _; Tx _; Tx _; Rx _] _ _ :: l => 1 + count_reads l
  | _ :: l => count_reads l
  | [] => 0
  end.

(** The last read on the bus was confirmed, and [data] is what it received. *)
Definition confirmed (addr : Z) (evs : list sevent) (data : list Z) : Prop :=
  exists evs0 s1 rx s2 b,
    evs = evs0 ++ [EMsg (read_msg addr (length data)) s1 rx; EMsg query_msg s2 (Some b)] /\
    state_ok b = true /\ (forall d, rx = Some d -> data = d).

Lemma safe_read_loop_run n state addr data w :
  sized w -> stale state ->
  exists r data' evs, safe_read_loop n state addr data w = ((r, data'), record w evs) /\
    length data' = length data /\ write_status r /\ count_reads evs <= Z.of_nat n + 1 /\
    (r = 0 -> confirmed addr evs data').
Proof.
  intros Hs. revert state data w Hs. induction n as [|n IH]; intros state data w Hs Hst;
    cbn [safe_read_loop]; unfold bind at 1, spi2apb_read, bind at 1; cbn [spi_sync log_bus ret];
    fold (read_msg addr (length data)); set (r1 := reply w (log w) (read_msg addr (length data)));
    set (e1 := EMsg _ (fst r1) (snd r1)); cbn [received fst snd];
    (assert (length (default data (snd r1)) = length data) as Hl
       by (destruct (snd r1) as [b|] eqn:E; [by eapply Hs|done]));
    unfold bind at 1, spi2apb_operation_query, bind at 1; cbn [spi_sync log_bus ret]; fold query_msg;
    cbn [record log reply]; rewrite record_record; set (r2 := reply w (log w ++ [e1]) query_msg);
    set (e2 := EMsg query_msg (fst r2) (snd r2)); cbn [fst snd app];
    set (st := match snd r2 with Some b => of_le32 b | None => state end);
    (destruct (Z.eqb_spec (Z.land st APB_OP_STATE_ID_MASK) APB_OP_STATE_ID) as [E1|E1]; cbn [negb Z.eqb];
      [|by exists (-1), (default data (snd r1)), [e1; e2]; split; [|split; [|split; [left|split; [cbn; lia|]]]]]);
    (destruct (Z.eqb_spec (Z.land st APB_OP_STATE_MASK) 0) as [E2|E2];
      [exists 0, (default data (snd r1)), [e1; e2]; rewrite E2;
       split; [done|split; [done|split; [by right|split; [cbn; lia|]]]]|]).
  1, 3: intros _; unfold confirmed; rewrite Hl; destruct (snd r2) as [b|] eqn:Eb;
    [|by destruct Hst]; exists [], (fst r1), (snd r1), (fst r2), b; unfold e2; rewrite ?Eb;
    (split; [done|]); (split; [unfold state_ok; unfold st in E1, E2; rewrite E1, E2; done|]);
    by intros d ->.
  - exists (Z.land st APB_OP_STATE_MASK), (default data (snd r1)), [e1; e2].
    split; [done|]. split; [done|]. split; [right; apply mask_range|]. split; [cbn; lia|]. done.
  - destruct (IH st (default data (snd r1))
      (record (record w [e1; e2]) [EDelay APB_SAFE_OPERATION_TRY_DELAY_US]))
      as (r & data' & evs & Hrun & Hl' & Hr & Hc & Hok); [done|by right|].
    exists r, data', (e1 :: e2 :: EDelay APB_SAFE_OPERATION_TRY_DELAY_US :: evs).
    unfold bind. cbn [udelay log_bus]. rewrite Hrun, !record_record. split; [done|]. split; [lia|].
    split; [done|]. split; [cbn [count_reads e1 e2 read_msg query_msg]; lia|]. intros H0.
    destruct (Hok H0) as (evs0 & s1 & rx & s2 & b & -> & ?).
    exists (e1 :: e2 :: EDelay APB_SAFE_OPERATION_TRY_DELAY_US :: evs0), s1, rx, s2, b. done.
Qed.

(** property: a read with state check sends at most four read commands; when
    it answers 0 the last of them was confirmed by the query right after it
    and the buffer holds what it received, otherwise the answer is -1 or the
    operation state. *)
Theorem safe_read_spec addr data (w : spi_log) :
  sized w ->
  exists r data' evs, spi2apb_safe_read addr data w = ((r, data'), record w evs) /\
    length data' = length data /\ write_status r /\ count_reads evs <= 4 /\
    (r = 0 -> confirmed addr evs data').
Proof. intros Hs. apply (safe_read_loop_run APB_SAFE_OPERATION_TRY_MAX 0); [done|by left]. Qed.

Lemma safe_read_spec_witness :
  exists r data' evs, spi2apb_safe_read 0x1000 [0; 0; 0; 0] good_bus = ((r, data'), record good_bus evs) /\
    count_reads evs <= 4.
Proof.
  destruct (safe_read_spec 0x1000 [0; 0; 0; 0] good_bus) as (r & d & evs & E & _ & _ & Hc & _).
  - intros h addr n b H. cbn [good_bus reply] in H. rewrite bool_decide_false in H by done. discriminate H.
  - exists r, d, evs. exact (conj E Hc).
Defined.
