(* ===== verification/QfpFuse.v ===== *)
(** * The QFPROM fuse driver (test_qfp_fuse/qfp_fuse.c, qfp_fuse.h)

    The misc device that reads and blows one-time programmable fuses.  The
    registers, the regulator, the allocator, the semaphore and the copies to
    and from user space are the interface [FuseOps]; an access to the buffer
    outside its allocation is a fault.  Sizes and addresses are 32 bit wide
    with wrap-around, as in the code (the driver is for 32-bit processors). *)

From Stdlib Require Import ZArith.
From stdpp Require Import base list.
From S2P Require Import Prelude.

Definition QFP_FUSE_IOC_MAGIC : Z := 0x92.
Definition QFP_FUSE_IOC_WRITE : Z := 0x9201.      (** [_IO(QFP_FUSE_IOC_MAGIC, 1)] *)
Definition QFP_FUSE_IOC_READ : Z := 0x9202.       (** [_IO(QFP_FUSE_IOC_MAGIC, 2)] *)
Definition QFPROM_BLOW_TIMEOUT_US : nat := 10.
Definition QFPROM_BLOW_TIMER_VALUE : Z := 10 * 83.
Definition QFPROM_BLOW_STATUS_BUSY : Z := 0x01.
Definition QFPROM_BLOW_STATUS_ERROR : Z := 0x02.
Definition QFP_FUSE_READY : Z := 0x01.

Record qfp_fuse_req := mkReq { offset : Z; size : Z }.

(** [struct private], as far as the code looks at it. *)
Record private := mkPrivate { state : Z }.

Class FuseOps (W : Type) := {
  readl : Z -> M W Z;
  writel : Z -> Z -> M W unit;            (** value, address *)
  regulator_get : M W Z;                  (** 0 or the error *)
  regulator_put : M W unit;
  regulator_enable : M W Z;
  regulator_disable : M W Z;
  msleep : Z -> M W unit;
  udelay : Z -> M W unit;
  kmalloc : Z -> M W bool;
  kfree : M W unit;
  copy_req : Z -> M W (option qfp_fuse_req);
  copy_data : Z -> M W (option (list Z)); (** so many bytes, as words *)
  copy_to_user : list Z -> M W bool;      (** true: failed *)
  down_interruptible : M W bool;          (** true: interrupted *)
  up : M W unit;
}.

Section Driver.
Context {W : Type} `{!FuseOps W}.
Context (qfp_qfprom_base qfp_qfprom_end : Z).

Definition QFPROM_BLOW_TIMER_OFFSET : Z := u32 (qfp_qfprom_base + 0x2038).
Definition QFPROM_BLOW_STATUS_OFFSET : Z := u32 (qfp_qfprom_base + 0x204C).

(** ** Opening and closing; the state is [filp->private_data] *)
Definition qfp_fuse_open (priv : option private) : M W (Z * option private) :=
  if match priv with Some p => state p =? QFP_FUSE_READY | None => false end then ret (0, priv)
  else
    ok <- kmalloc 16 ;;
    if negb ok then ret (- ENOMEM, priv)
    else
      r <- regulator_get ;;
      if r <? 0 then ret (r, priv)
      else ret (0, Some (mkPrivate QFP_FUSE_READY)).

Definition qfp_fuse_release (priv : option private) : M W (Z * option private) :=
  match priv with
  | Some _ => regulator_put ;; kfree ;; ret (0, None)
  | None => ret (0, None)
  end.

(** ** Blowing one word *)
Fixpoint wait_loop (timeout : nat) : M W (Z * Z) :=
  status <- readl QFPROM_BLOW_STATUS_OFFSET ;;
  if Z.land status QFPROM_BLOW_STATUS_BUSY =? 0 then ret (0, status)
  else
    udelay 1 ;;
    match timeout with
    | O | S O => ret (- ETIMEDOUT, status)
    | S timeout => wait_loop timeout
    end.

Definition qfp_fuse_wait_for_fuse_blow : M W (Z * Z) := wait_loop QFPROM_BLOW_TIMEOUT_US.

Definition qfp_fuse_write_word (addr data : Z) : M W Z :=
  writel QFPROM_BLOW_TIMER_VALUE QFPROM_BLOW_TIMER_OFFSET ;;
  err <- regulator_enable ;;
  if negb (err =? 0) then ret (- EFAULT)
  else
    msleep 1 ;;
    writel data addr ;;
    err <- regulator_disable ;;
    if negb (err =? 0) then ret (- EFAULT)
    else
      msleep 1 ;;
      s <- qfp_fuse_wait_for_fuse_blow ;;
      if negb (fst s =? 0) then ret (fst s)
      else if negb (Z.land (snd s) QFPROM_BLOW_STATUS_ERROR =? 0) then ret (- EFAULT)
      else
        read_data <- readl addr ;;
        if negb (read_data =? data) then ret (- EFAULT) else ret 0.

(** ** The ioctl *)

(** The address of word [i] of a request, on pointers to 32-bit words. *)
Definition word_addr (req : qfp_fuse_req) (i : nat) : Z :=
  u32 (qfp_qfprom_base + offset req + 4 * Z.of_nat i).

(** [qfp_qfprom_base + req.offset + (req.size) * 4 > qfp_qfprom_end] *)
Definition exceeds (req : qfp_fuse_req) : bool :=
  qfp_qfprom_end <? u32 (qfp_qfprom_base + offset req + size req * 4).

Fixpoint read_words (req : qfp_fuse_req) (n i : nat) (buf : list Z) : FM W (list Z) :=
  match n with
  | O => fret buf
  | S n =>
      v <~ total_ (readl (word_addr req i)) ;;
      if decide (i < length buf)%nat then read_words req n (S i) (<[i := v]> buf) else fault
  end.

Fixpoint write_words (req : qfp_fuse_req) (n i : nat) (buf : list Z) : FM W Z :=
  match n with
  | O => fret 0
  | S n =>
      match buf !! i with
      | None => fault
      | Some data =>
          err <~ total_ (qfp_fuse_write_word (word_addr req i) data) ;;
          if err =? 0 then write_words req n (S i) buf else fret err
      end
  end.

(** [kfree(buf); return err], for a buffer that was or was not allocated. *)
Definition finish (allocated : bool) (err : Z) : FM W Z :=
  (if allocated then total_ kfree else fret tt) ~;; fret err.

(** The tests both requests share: the request, or the answer. *)
Definition checked_req (arg : Z) : M W (Z + qfp_fuse_req) :=
  if arg =? 0 then ret (inl (- EFAULT))
  else
    req <- copy_req arg ;;
    match req with
    | None => ret (inl (- EFAULT))
    | Some req =>
        if size req =? 0 then ret (inl (- EFAULT))
        else if exceeds req then ret (inl (- EFAULT))
        else ret (inr req)
    end.

(** [kzalloc(req.size * 4)] *)
Definition alloc_bytes (req : qfp_fuse_req) : Z := u32 (size req * 4).

Definition ioctl_read (arg : Z) : FM W Z :=
  c <~ total_ (checked_req arg) ;;
  match c with
  | inl err => finish false err
  | inr req =>
      ok <~ total_ (kmalloc (alloc_bytes req)) ;;
      if negb ok then finish false (- ENOMEM)
      else
        intr <~ total_ down_interruptible ;;
        if intr : bool then finish true (- ERESTARTSYS)
        else
          buf <~ read_words req (Z.to_nat (size req)) 0 (replicate (Z.to_nat (alloc_bytes req / 4)) 0) ;;
          failed <~ total_ (copy_to_user buf) ;;
          total_ up ~;;
          finish true (if failed : bool then - EFAULT else 0)
  end.

Definition ioctl_write (arg : Z) : FM W Z :=
  c <~ total_ (checked_req arg) ;;
  match c with
  | inl err => finish false err
  | inr req =>
      ok <~ total_ (kmalloc (alloc_bytes req)) ;;
      if negb ok then finish false (- ENOMEM)
      else
        data <~ total_ (copy_data (alloc_bytes req)) ;;
        match data with
        | None => finish true (- EFAULT)
        | Some buf =>
            intr <~ total_ down_interruptible ;;
            if intr : bool then finish true (- ERESTARTSYS)
            else
              err <~ write_words req (Z.to_nat (size req)) 0 buf ;;
              total_ up ~;;
              finish true err
        end
  end.

Definition qfp_fuse_ioctl (cmd arg : Z) : FM W Z :=
  if negb (Z.land (Z.shiftr cmd 8) 0xff =? QFP_FUSE_IOC_MAGIC) then fret (- ENOTTY)
  else if cmd =? QFP_FUSE_IOC_READ then ioctl_read arg
  else if cmd =? QFP_FUSE_IOC_WRITE then ioctl_write arg
  else fret (- ENOTTY).
End Driver.

(** The probe sets the limits: [res] is the memory resource, [end] inclusive. *)
Definition qfp_fuse_probe {W} (misc_register : M W Z) (res : option (Z * Z)) (limits : Z * Z) :
    M W (Z * (Z * Z)) :=
  match res with
  | None => ret (- ENODEV, limits)
  | Some (start, end_) =>
      r <- misc_register ;;
      ret (if r <? 0 then r else 0, (u32 start, u32 end_))
  end.

(** ** A world that records the calls, with arbitrary answers *)
Inductive fevent :=
| FRead (addr v : Z)
| FWrite (v addr : Z)
| FGet (r : Z)
| FPut
| FEnable (r : Z)
| FDisable (r : Z)
| FSleep (ms : Z)
| FDelay (us : Z)
| FAlloc (bytes : Z) (ok : bool)
| FFree
| FCopyReq
| FCopyData (bytes : Z)
| FToUser (words : list Z)
| FDown (interrupted : bool)
| FUp.

Record fuse_log := mkFuse {
  events : list fevent;
  o_read : list fevent -> Z -> Z;
  o_regulator : list fevent -> Z;
  o_alloc : list fevent -> bool;
  o_req : list fevent -> option qfp_fuse_req;
  o_data : list fevent -> Z -> option (list Z);
  o_fails : list fevent -> bool;
}.
Definition note (w : fuse_log) (l : list fevent) : fuse_log :=
  mkFuse (events w ++ l) (o_read w) (o_regulator w) (o_alloc w) (o_req w) (o_data w) (o_fails w).

#[export] Instance fuse_trace : FuseOps fuse_log := {|
  readl a w := let v := o_read w (events w) a in (v, note w [FRead a v]);
  writel v a w := (tt, note w [FWrite v a]);
  regulator_get w := let r := o_regulator w (events w) in (r, note w [FGet r]);
  regulator_put w := (tt, note w [FPut]);
  regulator_enable w := let r := o_regulator w (events w) in (r, note w [FEnable r]);
  regulator_disable w := let r := o_regulator w (events w) in (r, note w [FDisable r]);
  msleep t w := (tt, note w [FSleep t]);
  udelay t w := (tt, note w [FDelay t]);
  kmalloc n w := let ok := o_alloc w (events w) in (ok, note w [FAlloc n ok]);
  kfree w := (tt, note w [FFree]);
  copy_req _ w := (o_req w (events w), note w [FCopyReq]);
  copy_data n w := (o_data w (events w) n, note w [FCopyData n]);
  copy_to_user l w := (o_fails w (events w), note w [FToUser l]);
  down_interruptible w := let b := o_fails w (events w) in (b, note w [FDown b]);
  up w := (tt, note w [FUp]);
|}.

Lemma note_note w a b : note (note w a) b = note w (a ++ b).
Proof. unfold note. cbn. by rewrite app_assoc. Qed.
Lemma note_nil w : note w [] = w.
Proof. destruct w. unfold note. cbn. by rewrite app_nil_r. Qed.
