(* ===== verification/QfpFuseSpec.v ===== *)
(** * The QFPROM fuse driver: properties

    The dialogue that blows a word, the ioctl on every path, its resources,
    and the limits of the range check. *)

From Stdlib Require Import ZArith.
From stdpp Require Import base list.
From S2P Require Import Prelude QfpFuse.

Section Spec.
Context (base end_ : Z).

Abbreviation timer := (FWrite QFPROM_BLOW_TIMER_VALUE (QFPROM_BLOW_TIMER_OFFSET base)).
Abbreviation status_reg := (QFPROM_BLOW_STATUS_OFFSET base).

(** Reads of the status register that found the fuse block busy. *)
Inductive busy_polls : nat -> list fevent -> Prop :=
| busy_none : busy_polls 0 []
| busy_more n s l :
    Z.land s QFPROM_BLOW_STATUS_BUSY <> 0 -> busy_polls n l ->
    busy_polls (S n) (FRead status_reg s :: FDelay 1 :: l).

(** The fuse word is written between switching the programming voltage on and
    off, once. *)
Definition programmed (addr data : Z) : list fevent :=
  [timer; FEnable 0; FSleep 1; FWrite data addr; FDisable 0; FSleep 1].

(** The dialogues of blowing [data] at [addr], with their results. *)
Inductive word_dialogue (addr data : Z) : Z -> list fevent -> Prop :=
| wd_no_power e : e <> 0 -> word_dialogue addr data (- EFAULT) [timer; FEnable e]
| wd_power_stuck e :
    e <> 0 ->
    word_dialogue addr data (- EFAULT) [timer; FEnable 0; FSleep 1; FWrite data addr; FDisable e]
| wd_timeout l :
    busy_polls 10 l -> word_dialogue addr data (- ETIMEDOUT) (programmed addr data ++ l)
| wd_blow_error n l s :
    (n < 10)%nat -> busy_polls n l -> Z.land s QFPROM_BLOW_STATUS_BUSY = 0 ->
    Z.land s QFPROM_BLOW_STATUS_ERROR <> 0 ->
    word_dialogue addr data (- EFAULT) (programmed addr data ++ l ++ [FRead status_reg s])
| wd_mismatch n l s v :
    (n < 10)%nat -> busy_polls n l -> Z.land s QFPROM_BLOW_STATUS_BUSY = 0 ->
    Z.land s QFPROM_BLOW_STATUS_ERROR = 0 -> v <> data ->
    word_dialogue addr data (- EFAULT)
      (programmed addr data ++ l ++ [FRead status_reg s; FRead addr v])
| wd_blown n l s :
    (n < 10)%nat -> busy_polls n l -> Z.land s QFPROM_BLOW_STATUS_BUSY = 0 ->
    Z.land s QFPROM_BLOW_STATUS_ERROR = 0 ->
    word_dialogue addr data 0 (programmed addr data ++ l ++ [FRead status_reg s; FRead addr data]).

Lemma wait_loop_eq n (w : fuse_log) :
  wait_loop base (S n) w =
    let s := o_read w (events w) status_reg in
    if Z.land s QFPROM_BLOW_STATUS_BUSY =? 0 then ((0, s), note w [FRead status_reg s])
    else
      let w' := note w [FRead status_reg s; FDelay 1] in
      match n with O => ((- ETIMEDOUT, s), w') | S _ => wait_loop base n w' end.
Proof.
  cbn [wait_loop]. unfold bind. cbn [readl udelay fuse_trace]. cbv zeta.
  destruct (_ =? 0); [done|]. rewrite note_note. by destruct n.
Qed.

Lemma wait_loop_run n w :
  exists r s evs, wait_loop base (S n) w = ((r, s), note w evs) /\
    ((r = - ETIMEDOUT /\ busy_polls (S n) evs) \/
     (r = 0 /\ exists k l, (k < S n)%nat /\ busy_polls k l /\ evs = l ++ [FRead status_reg s] /\
        Z.land s QFPROM_BLOW_STATUS_BUSY = 0)).
Proof.
  revert w. induction n as [|n IH]; intros w; rewrite wait_loop_eq; cbv zeta;
    set (s := o_read w (events w) _);
    (destruct (Z.eqb_spec (Z.land s QFPROM_BLOW_STATUS_BUSY) 0) as [E|E];
      [exists 0, s, [FRead status_reg s]; split; [done|]; right; split; [done|];
       exists 0%nat, []; split; [lia|]; by split; [constructor|]|]).
  - exists (- ETIMEDOUT), s, [FRead status_reg s; FDelay 1]. split; [done|].
    left. split; [done|]. by repeat constructor.
  - destruct (IH (note w [FRead status_reg s; FDelay 1])) as (r & s' & evs & -> & H).
    exists r, s', ([FRead status_reg s; FDelay 1] ++ evs). rewrite note_note. split; [done|].
    destruct H as [[-> H]|[-> (k & l & Hk & Hl & -> & Hs)]]; [left|right]; (split; [done|]).
    + by constructor.
    + exists (S k), (FRead status_reg s :: FDelay 1 :: l). split; [lia|]. split; [by constructor|]. done.
Qed.

Lemma write_word_run addr data w :
  exists r evs, qfp_fuse_write_word base addr data w = (r, note w evs) /\
    word_dialogue addr data r evs.
Proof.
  unfold qfp_fuse_write_word. unfold bind at 1. cbn [writel fuse_trace]. unfold bind at 1.
  cbn [regulator_enable fuse_trace]. rewrite note_note. set (e1 := o_regulator _ _).
  destruct (Z.eqb_spec e1 0) as [->|E1]; cbn [negb]; [|do 2 eexists; split; [reflexivity|by constructor]].
  unfold bind at 1. cbn [msleep fuse_trace]. unfold bind at 1. cbn [writel fuse_trace].
  unfold bind at 1. cbn [regulator_disable fuse_trace]. rewrite !note_note. set (e2 := o_regulator _ _).
  destruct (Z.eqb_spec e2 0) as [->|E2]; cbn [negb app];
    [|do 2 eexists; split; [reflexivity|by constructor]].
  unfold bind at 1. cbn [msleep fuse_trace]. rewrite note_note. cbn [app].
  fold (programmed addr data). unfold bind at 1, qfp_fuse_wait_for_fuse_blow.
  destruct (wait_loop_run 9 (note w (programmed addr data))) as (r & s & evs & Hrun & H).
  change QFPROM_BLOW_TIMEOUT_US with 10%nat. rewrite Hrun. cbn [fst snd]. rewrite note_note.
  destruct H as [[-> H]|[-> (k & l & Hk & Hl & -> & Hs)]].
  { do 2 eexists. split; [reflexivity|]. by constructor. }
  cbn [Z.eqb negb]. destruct (Z.eqb_spec (Z.land s QFPROM_BLOW_STATUS_ERROR) 0) as [E3|E3]; cbn [negb].
  2: { do 2 eexists. split; [reflexivity|]. by econstructor. }
  unfold bind. cbn [readl fuse_trace]. rewrite note_note, <- !app_assoc. cbn [app].
  set (v := o_read _ _ _). destruct (Z.eqb_spec v data) as [->|E4]; cbn [negb];
    do 2 eexists; (split; [reflexivity|]); by econstructor.
Qed.

(** ** The words of a request *)

(** The address of word [i] of a request, in unbounded arithmetic. *)
Definition fuse_word (req : qfp_fuse_req) (i : nat) : Z := base + offset req + 4 * Z.of_nat i.

Inductive words_dialogue (req : qfp_fuse_req) : nat -> list Z -> Z -> list fevent -> Prop :=
| wds_done i : words_dialogue req i [] 0 []
| wds_next i d l r evs evs' :
    word_dialogue (fuse_word req i) d 0 evs -> words_dialogue req (S i) l r evs' ->
    words_dialogue req i (d :: l) r (evs ++ evs')
| wds_fail i d l r evs :
    word_dialogue (fuse_word req i) d r evs -> r <> 0 -> words_dialogue req i (d :: l) r evs.

Lemma write_words_run req buf n i w :
  (forall j, (j < i + n)%nat -> word_addr base req j = fuse_word req j) ->
  (i + n = length buf)%nat ->
  exists r evs, write_words base req n i buf w = Some (r, note w evs) /\
    words_dialogue req i (drop i buf) r evs.
Proof.
  revert i w. induction n as [|n IH]; intros i w Ha Hi; cbn [write_words].
  { exists 0, []. rewrite note_nil, drop_ge by lia. split; [done|constructor]. }
  destruct (lookup_lt_is_Some_2 buf i) as [d Hd]; [lia|]. rewrite Hd, (drop_S buf d i Hd).
  rewrite Ha by lia.
  destruct (write_word_run (fuse_word req i) d w) as (r & evs & E & Hw).
  unfold fbind, total_. rewrite E. destruct (Z.eqb_spec r 0) as [->|Hr].
  - destruct (IH (S i) (note w evs)) as (r & evs' & -> & Hws); [intros j Hj; apply Ha; lia|lia|].
    exists r, (evs ++ evs'). rewrite note_note. split; [done|]. by constructor.
  - exists r, evs. split; [done|]. by constructor.
Qed.

(** The values of consecutive reads. *)
Definition reads (req : qfp_fuse_req) (i : nat) (vs : list Z) : list fevent :=
  imap (fun j v => FRead (fuse_word req (i + j)) v) vs.

Lemma reads_cons req i v vs :
  reads req i (v :: vs) = FRead (fuse_word req i) v :: reads req (S i) vs.
Proof.
  unfold reads. cbn [imap]. rewrite Nat.add_0_r. f_equal. apply imap_ext. intros j x _. cbn.
  by rewrite Nat.add_succ_r.
Qed.

Lemma read_words_run req n i buf w :
  (forall j, (j < i + n)%nat -> word_addr base req j = fuse_word req j) ->
  (i + n = length buf)%nat ->
  exists vs, length vs = n /\
    read_words base req n i buf w = Some (take i buf ++ vs, note w (reads req i vs)).
Proof.
  revert i buf w. induction n as [|n IH]; intros i buf w Ha Hi; cbn [read_words].
  { exists []. split; [done|]. unfold reads. cbn [imap]. by rewrite note_nil, take_ge, app_nil_r by lia. }
  unfold fbind at 1, total_. cbn [readl fuse_trace]. rewrite Ha by lia. set (v := o_read _ _ _).
  rewrite decide_True by lia.
  destruct (IH (S i) (<[i := v]> buf) (note w [FRead (fuse_word req i) v])) as (vs & Hl & E).
  { intros j Hj. apply Ha. lia. }
  { rewrite length_insert. lia. }
  exists (v :: vs). split; [cbn; lia|]. rewrite E, note_note, reads_cons. cbn [app]. do 2 f_equal.
  rewrite (take_S_r _ _ v) by (apply list_lookup_insert_eq; lia).
  rewrite take_insert_ge by lia. by rewrite <- app_assoc.
Qed.

(** ** Resources and addresses *)

(** Locks held and buffers allocated after a dialogue. *)
Fixpoint balance (l : list fevent) : Z * Z :=
  match l with
  | [] => (0, 0)
  | e :: l =>
      let '(locks, bufs) := balance l in
      match e with
      | FDown false => (locks + 1, bufs)
      | FUp => (locks - 1, bufs)
      | FAlloc _ true => (locks, bufs + 1)
      | FFree => (locks, bufs - 1)
      | _ => (locks, bufs)
      end
  end.

Definition in_range (a : Z) : Prop :=
  a = QFPROM_BLOW_TIMER_OFFSET base \/ a = status_reg \/ (base <= a /\ a + 4 <= end_).

(** An access to a register, or a wait. *)
Definition hardware (e : fevent) : Prop :=
  match e with
  | FRead a _ | FWrite _ a => in_range a
  | FEnable _ | FDisable _ | FSleep _ | FDelay _ => True
  | _ => False
  end.

Lemma balance_hardware l l' : Forall hardware l -> balance (l ++ l') = balance l'.
Proof.
  induction 1 as [|e l He _ IH]; [done|]. rewrite <- app_comm_cons. cbn [balance]. rewrite IH.
  destruct (balance l'). by destruct e.
Qed.

Lemma hardware_polls n l : busy_polls n l -> Forall hardware l.
Proof.
  induction 1; [constructor|]. constructor; [right; by left|]. by constructor.
Qed.

Ltac hardware_list :=
  unfold programmed; repeat (apply Forall_cons_2; [done|]); apply Forall_nil_2.

Lemma hardware_word addr data r evs :
  in_range addr -> word_dialogue addr data r evs -> Forall hardware evs.
Proof.
  intros Ha H.
  assert (in_range (QFPROM_BLOW_TIMER_OFFSET base)) as Ht by (by left).
  assert (in_range status_reg) as Hs by (right; by left).
  assert (Forall hardware (programmed addr data)) as Hp by hardware_list.
  destruct H; try hardware_list; apply Forall_app; (split; [done|]);
    try (apply Forall_app; split); try (by eapply hardware_polls); hardware_list.
Qed.

(** A request inside the address space. *)
Definition req_ok (req : qfp_fuse_req) : Prop :=
  0 <= offset req /\ 0 <= size req /\ base + offset req + 4 * size req < 2 ^ 32.

(** The range check, in unbounded arithmetic. *)
Definition beyond (req : qfp_fuse_req) : bool := end_ <? base + offset req + 4 * size req.

Lemma exceeds_beyond req : 0 <= base -> req_ok req -> exceeds base end_ req = beyond req.
Proof.
  intros Hb (Ho & Hs & Hw). unfold exceeds, beyond. rewrite u32_small by lia. f_equal. lia.
Qed.

Lemma word_addr_exact req i :
  0 <= base -> req_ok req -> (i < Z.to_nat (size req))%nat -> word_addr base req i = fuse_word req i.
Proof. intros Hb (Ho & Hs & Hw) Hi. unfold word_addr, fuse_word. rewrite u32_small; lia. Qed.

Lemma word_addr_range req i :
  0 <= base -> req_ok req -> beyond req = false -> (i < Z.to_nat (size req))%nat ->
  in_range (fuse_word req i).
Proof.
  intros Hb (Ho & Hs & Hw) He Hi. unfold beyond in He. unfold fuse_word. bool_to_prop.
  right. right. lia.
Qed.

Lemma hardware_words req i l r evs :
  0 <= base -> req_ok req -> beyond req = false ->
  (i + length l <= Z.to_nat (size req))%nat -> words_dialogue req i l r evs -> Forall hardware evs.
Proof.
  intros Hb Hr He Hl H. induction H as [|i d l r evs evs' Hw _ IH|i d l r evs Hw Hne]; [constructor| |].
  - apply Forall_app. cbn in Hl. split; [|apply IH; lia].
    eapply hardware_word; [|exact Hw]. apply word_addr_range; [done..|lia].
  - cbn in Hl. eapply hardware_word; [|exact Hw]. apply word_addr_range; [done..|lia].
Qed.

Lemma hardware_reads req i vs :
  0 <= base -> req_ok req -> beyond req = false ->
  (i + length vs <= Z.to_nat (size req))%nat -> Forall hardware (reads req i vs).
Proof.
  intros Hb Hr He. revert i. induction vs as [|v vs IH]; intros i Hl; [constructor|].
  rewrite reads_cons. cbn in Hl. constructor; [apply word_addr_range; [done..|lia]|]. apply IH. lia.
Qed.

(** ** The ioctl *)
Definition reqs_ok (w : fuse_log) : Prop := forall h req, o_req w h = Some req -> req_ok req.
Definition copies_all (w : fuse_log) : Prop :=
  forall h n l, o_data w h n = Some l -> length l = Z.to_nat (n / 4).

(** What the ioctl is to do before it touches a register: refuse, with a
    result and the calls made; read a range; or blow the user's words. *)
Inductive verdict :=
| Refuse (r : Z) (evs : list fevent)
| Reads (req : qfp_fuse_req)
| Blows (req : qfp_fuse_req) (buf : list Z).

Definition judge (cmd arg : Z) (w : fuse_log) : verdict :=
  if bool_decide (cmd <> QFP_FUSE_IOC_READ /\ cmd <> QFP_FUSE_IOC_WRITE) then Refuse (- ENOTTY) []
  else if arg =? 0 then Refuse (- EFAULT) []
  else
    match o_req w (events w) with
    | None => Refuse (- EFAULT) [FCopyReq]
    | Some req =>
        let n := 4 * size req in
        let got := [FCopyReq; FAlloc n true] in
        if (size req =? 0) || beyond req then Refuse (- EFAULT) [FCopyReq]
        else if negb (o_alloc w (events w ++ [FCopyReq])) then
          Refuse (- ENOMEM) [FCopyReq; FAlloc n false]
        else if cmd =? QFP_FUSE_IOC_READ then
          if o_fails w (events w ++ got) then Refuse (- ERESTARTSYS) (got ++ [FDown true; FFree])
          else Reads req
        else
          match o_data w (events w ++ got) n with
          | None => Refuse (- EFAULT) (got ++ [FCopyData n; FFree])
          | Some buf =>
              if o_fails w (events w ++ got ++ [FCopyData n])
              then Refuse (- ERESTARTSYS) (got ++ [FCopyData n; FDown true; FFree])
              else Blows req buf
          end
    end.

Definition ioctl_outcome (w : fuse_log) (v : verdict) (r : Z) (evs : list fevent) : Prop :=
  match v with
  | Refuse r0 evs0 => r = r0 /\ evs = evs0
  | Reads req =>
      exists vs, length vs = Z.to_nat (size req) /\
        let evs1 := [FCopyReq; FAlloc (4 * size req) true; FDown false] ++ reads req 0 vs in
        evs = evs1 ++ [FToUser vs; FUp; FFree] /\
        r = if o_fails w (events w ++ evs1) then - EFAULT else 0
  | Blows req buf =>
      exists evs', length buf = Z.to_nat (size req) /\ words_dialogue req 0 buf r evs' /\
        evs = [FCopyReq; FAlloc (4 * size req) true; FCopyData (4 * size req); FDown false] ++ evs' ++
              [FUp; FFree]
  end.

(** A range that may be touched. *)
Definition granted (v : verdict) : Prop :=
  match v with
  | Refuse _ _ => True
  | Reads req | Blows req _ => req_ok req /\ size req <> 0 /\ beyond req = false
  end.

Lemma checked_req_run arg w :
  0 <= base -> reqs_ok w ->
  checked_req base end_ arg w =
    if arg =? 0 then (inl (- EFAULT), w)
    else (match o_req w (events w) with
          | None => inl (- EFAULT)
          | Some req => if (size req =? 0) || beyond req then inl (- EFAULT) else inr req
          end, note w [FCopyReq]).
Proof.
  intros Hb Hw. unfold checked_req. destruct (arg =? 0); [done|].
  unfold bind. cbn [copy_req fuse_trace]. pose proof (Hw (events w)) as Hr.
  destruct (o_req w (events w)) as [req|]; [|done].
  rewrite exceeds_beyond by (done || by apply Hr).
  destruct (size req =? 0); [done|]. by destruct (beyond req).
Qed.

Lemma alloc_bytes_small req : 0 <= base -> req_ok req -> alloc_bytes req = 4 * size req.
Proof. intros Hb (? & ? & ?). unfold alloc_bytes. rewrite u32_small; lia. Qed.

Lemma finish_run b r (w : fuse_log) :
  finish b r w = Some (r, note w (if b : bool then [FFree] else [])).
Proof. unfold finish, fbind, total_. destruct b; cbn; by rewrite ?note_nil. Qed.

Lemma ioctl_read_run arg w :
  0 <= base -> reqs_ok w ->
  exists r evs, ioctl_read base end_ arg w = Some (r, note w evs) /\
    ioctl_outcome w (judge QFP_FUSE_IOC_READ arg w) r evs /\ granted (judge QFP_FUSE_IOC_READ arg w).
Proof.
  intros Hb Hw. unfold ioctl_read, judge. rewrite bool_decide_false by tauto.
  unfold fbind at 1, total_ at 1. rewrite checked_req_run by done.
  destruct (arg =? 0); [by exists (- EFAULT), []; rewrite finish_run, note_nil|].
  pose proof (Hw (events w)) as Hr. destruct (o_req w (events w)) as [req|];
    [|by exists (- EFAULT), [FCopyReq]; rewrite finish_run, note_nil].
  specialize (Hr req eq_refl). destruct ((size req =? 0) || beyond req) eqn:Ex;
    [by exists (- EFAULT), [FCopyReq]; rewrite finish_run, note_nil|].
  apply orb_false_iff in Ex as [Es Ex]. apply Z.eqb_neq in Es.
  unfold fbind at 1, total_ at 1. cbn [kmalloc fuse_trace].
  rewrite note_note, alloc_bytes_small by done. cbn [app].
  cbn [note o_alloc events]. destruct (o_alloc w _); cbn [negb];
    [|by exists (- ENOMEM), [FCopyReq; FAlloc (4 * size req) false]; rewrite finish_run, note_note].
  rewrite Z.eqb_refl. unfold fbind at 1, total_ at 1. cbn [down_interruptible fuse_trace]. rewrite note_note.
  cbn [app]. cbn [note o_fails events]. destruct (o_fails w _).
  { eexists _, _. rewrite finish_run, note_note. done. }
  unfold fbind at 1. rewrite (Z.mul_comm 4 (size req)), Z.div_mul, (Z.mul_comm (size req) 4) by lia.
  destruct (read_words_run req (Z.to_nat (size req)) 0 (replicate (Z.to_nat (size req)) 0)
    (note w [FCopyReq; FAlloc (4 * size req) true; FDown false])) as (vs & Hl & Erun);
    [intros j Hj; by apply word_addr_exact|by rewrite length_replicate|].
  rewrite Erun. cbn [take app]. unfold fbind at 1, total_ at 1. cbn [copy_to_user fuse_trace].
  unfold fbind at 1, total_ at 1. cbn [up fuse_trace]. rewrite finish_run, !note_note.
  do 2 eexists. split; [reflexivity|]. split; [|done]. exists vs. split; [done|].
  cbn [app]. rewrite <- ?app_assoc. cbn [app]. split; [done|].
  cbn [note o_fails events]. done.
Qed.

Lemma ioctl_write_run arg w :
  0 <= base -> reqs_ok w -> copies_all w ->
  exists r evs, ioctl_write base end_ arg w = Some (r, note w evs) /\
    ioctl_outcome w (judge QFP_FUSE_IOC_WRITE arg w) r evs /\ granted (judge QFP_FUSE_IOC_WRITE arg w).
Proof.
  intros Hb Hw Hd. unfold ioctl_write, judge. rewrite bool_decide_false by tauto.
  unfold fbind at 1, total_ at 1. rewrite checked_req_run by done.
  destruct (arg =? 0); [by exists (- EFAULT), []; rewrite finish_run, note_nil|].
  pose proof (Hw (events w)) as Hr. destruct (o_req w (events w)) as [req|];
    [|by exists (- EFAULT), [FCopyReq]; rewrite finish_run, note_nil].
  specialize (Hr req eq_refl). destruct ((size req =? 0) || beyond req) eqn:Ex;
    [by exists (- EFAULT), [FCopyReq]; rewrite finish_run, note_nil|].
  apply orb_false_iff in Ex as [Es Ex]. apply Z.eqb_neq in Es.
  unfold fbind at 1, total_ at 1. cbn [kmalloc fuse_trace].
  rewrite note_note, !alloc_bytes_small by done. cbn [app].
  cbn [note o_alloc events]. destruct (o_alloc w _); cbn [negb];
    [|by exists (- ENOMEM), [FCopyReq; FAlloc (4 * size req) false]; rewrite finish_run, note_note].
  change (QFP_FUSE_IOC_WRITE =? QFP_FUSE_IOC_READ) with false.
  unfold fbind at 1, total_ at 1. cbn [copy_data fuse_trace]. rewrite note_note.
  cbn [app]. cbn [note o_data events]. destruct (o_data w _ _) as [buf|] eqn:Ed;
    [|by eexists _, _; rewrite finish_run, note_note].
  apply Hd in Ed. replace (4 * size req / 4) with (size req) in Ed by (rewrite Z.mul_comm, Z.div_mul; lia).
  unfold fbind at 1, total_ at 1. cbn [down_interruptible fuse_trace]. rewrite note_note. cbn [app].
  cbn [note o_fails events]. destruct (o_fails w _); [by eexists _, _; rewrite finish_run, note_note|].
  unfold fbind at 1.
  destruct (write_words_run req buf (Z.to_nat (size req)) 0
    (note w [FCopyReq; FAlloc (4 * size req) true; FCopyData (4 * size req); FDown false]))
    as (r & evs & -> & Hws); [intros j Hj; by apply word_addr_exact|done|]. rewrite drop_0 in Hws.
  unfold fbind at 1, total_ at 1. cbn [up fuse_trace]. rewrite finish_run, !note_note.
  do 2 eexists. split; [reflexivity|]. split; [|done]. exists evs. split; [done|]. split; [done|].
  cbn [app]. by rewrite <- ?app_assoc.
Qed.

(** The registers and the bookkeeping of an outcome. *)
Lemma outcome_accesses cmd arg w r evs :
  0 <= base -> granted (judge cmd arg w) -> ioctl_outcome w (judge cmd arg w) r evs ->
  balance evs = (0, 0) /\
  forall e, e ∈ evs -> match e with FRead a _ | FWrite _ a => in_range a | _ => True end.
Proof.
  intros Hb Hg H.
  assert (forall l, Forall hardware l -> forall e, e ∈ l -> match e with FRead a _ | FWrite _ a => in_range a | _ => True end)
    as Hhw by (intros l Hl e Hin; rewrite Forall_forall in Hl; specialize (Hl e Hin); by destruct e).
  destruct (judge cmd arg w) as [r0 evs0|req|req buf] eqn:Ej.
  - destruct H as [-> ->]. clear Hhw Hg. unfold judge in Ej.
    repeat match type of Ej with
      | context [if ?b then _ else _] => destruct b
      | context [match ?o with None => _ | Some _ => _ end] => destruct o
      end; try discriminate Ej; injection Ej as <- <-; (split; [done|]); intros e He;
      by repeat (apply elem_of_cons in He as [->|He]; [done|]); apply elem_of_nil in He.
  - destruct Hg as (Hr & _ & Hx), H as (vs & Hl & -> & _).
    pose proof (hardware_reads req 0 vs Hb Hr Hx ltac:(lia)) as Hv. split.
    { rewrite <- app_assoc. cbn [balance app]. by rewrite balance_hardware. }
    intros e He. rewrite !elem_of_app in He. destruct He as [[He|He]|He]; [|by apply (Hhw _ Hv)|];
      by repeat (apply elem_of_cons in He as [->|He]; [done|]); apply elem_of_nil in He.
  - destruct Hg as (Hr & _ & Hx), H as (evs' & Hl & Hw & ->).
    pose proof (hardware_words req 0 buf r evs' Hb Hr Hx ltac:(lia) Hw) as Hv. split.
    { cbn [balance app]. by rewrite balance_hardware. }
    intros e He. rewrite !elem_of_app in He. destruct He as [He|[He|He]]; [|by apply (Hhw _ Hv)|];
      by repeat (apply elem_of_cons in He as [->|He]; [done|]); apply elem_of_nil in He.
Qed.

(** C31: blowing a word always comes to an end with one of the listed
    dialogues: the word is written only while the programming voltage is on,
    and at most once; 0 is answered only when the block stopped being busy
    within ten polls, reported no error, and the word read back is the one
    written. *)
Theorem blow_word_spec addr data w :
  exists r evs, qfp_fuse_write_word base addr data w = (r, note w evs) /\
    word_dialogue addr data r evs /\
    (r = 0 -> exists evs', evs = evs' ++ [FRead addr data]).
Proof.
  destruct (write_word_run addr data w) as (r & evs & E & H). exists r, evs. split; [done|].
  split; [done|]. intros Hr. destruct H; try done.
  exists (programmed addr data ++ l ++ [FRead status_reg s]). by rewrite <- !app_assoc.
Qed.

(** C8: for a user whose requests end below 2^32 (otherwise the check
    wraps) and whose data copies give the bytes asked for, the ioctl comes to
    an end without leaving its buffer, with the outcome the request has:
    -ENOTTY for another command; -EFAULT for a null argument, a request that
    cannot be copied, that is empty or that ends behind the area, and for
    data that cannot be copied; -ENOMEM without a buffer; -ERESTARTSYS when
    interrupted - each before any register is touched; otherwise a read hands
    the user exactly the words at the requested offset, and a write blows the
    user's own words there in order up to the first failure, which is the
    result.  On every path the lock is released and the buffer freed, and no
    register outside the fuse area and the two control registers is touched. *)
Theorem ioctl_spec cmd arg w :
  0 <= base -> reqs_ok w -> copies_all w ->
  exists r evs, qfp_fuse_ioctl base end_ cmd arg w = Some (r, note w evs) /\
    ioctl_outcome w (judge cmd arg w) r evs /\ balance evs = (0, 0) /\
    forall e, e ∈ evs -> match e with FRead a _ | FWrite _ a => in_range a | _ => True end.
Proof.
  intros Hb Hw Hd.
  assert (exists r evs, qfp_fuse_ioctl base end_ cmd arg w = Some (r, note w evs) /\
    ioctl_outcome w (judge cmd arg w) r evs /\ granted (judge cmd arg w)) as (r & evs & E & Ho & Hg).
  { assert (cmd <> QFP_FUSE_IOC_READ /\ cmd <> QFP_FUSE_IOC_WRITE ->
      exists r evs, fret (- ENOTTY) w = Some (r, note w evs) /\
      ioctl_outcome w (judge cmd arg w) r evs /\ granted (judge cmd arg w)) as Hno.
    { intros Hc. exists (- ENOTTY), []. unfold judge. by rewrite note_nil, bool_decide_true. }
    unfold qfp_fuse_ioctl. destruct (negb _) eqn:Em.
    { apply Hno. split; intros ->; by vm_compute in Em. }
    destruct (Z.eqb_spec cmd QFP_FUSE_IOC_READ) as [->|N1]; [by apply ioctl_read_run|].
    destruct (Z.eqb_spec cmd QFP_FUSE_IOC_WRITE) as [->|N2]; [by apply ioctl_write_run|]. by apply Hno. }
  exists r, evs. split; [done|]. split; [done|]. by eapply outcome_accesses.
Qed.

(** property: the size of a request is multiplied by four in 32 bits: a
    request for 2^30 + 1 words passes the range check, gets a buffer of four
    bytes, and reading it writes behind that buffer. *)
Theorem size_wraps_and_overruns arg w off :
  0 <= base -> 0 <= off -> base + off + 4 <= end_ < 2 ^ 32 -> arg <> 0 ->
  (forall h, o_req w h = Some (mkReq off (2 ^ 30 + 1))) ->
  (forall h, o_alloc w h = true) -> (forall h, o_fails w h = false) ->
  exceeds base end_ (mkReq off (2 ^ 30 + 1)) = false /\
  alloc_bytes (mkReq off (2 ^ 30 + 1)) = 4 /\
  qfp_fuse_ioctl base end_ QFP_FUSE_IOC_READ arg w = None.
Proof.
  intros Hb Ho He Ha Hr Hal Hf. set (req := mkReq off (2 ^ 30 + 1)).
  assert (alloc_bytes req = 4) as Hbytes by done.
  assert (exceeds base end_ req = false) as Hx.
  { unfold exceeds, req. cbn [offset size]. apply Z.ltb_ge. unfold u32, wrap.
    replace (base + off + (2 ^ 30 + 1) * 4) with (base + off + 4 + 1 * 2 ^ 32) by lia.
    rewrite Z.mod_add, Z.mod_small by lia. lia. }
  split; [done|]. split; [done|]. unfold qfp_fuse_ioctl. cbn [Z.shiftr].
  change (Z.land (Z.shiftr QFP_FUSE_IOC_READ 8) 0xff =? QFP_FUSE_IOC_MAGIC) with true.
  rewrite Z.eqb_refl. cbn [negb]. unfold ioctl_read. unfold fbind at 1, total_ at 1, checked_req.
  rewrite (proj2 (Z.eqb_neq arg 0)) by done. unfold bind. cbn [copy_req fuse_trace]. rewrite Hr. fold req.
  change (size req =? 0) with false. rewrite Hx. cbn [ret].
  unfold fbind at 1, total_ at 1. cbn [kmalloc fuse_trace note o_alloc events]. rewrite Hal. cbn [negb].
  unfold fbind at 1, total_ at 1. cbn [down_interruptible fuse_trace note o_fails events]. rewrite Hf.
  rewrite Hbytes. change (Z.to_nat (4 / 4)) with 1%nat. cbn [replicate].
  replace (Z.to_nat (size req)) with (S (S (Z.to_nat (2 ^ 30 - 1)))) by (unfold req; cbn [size]; lia).
  unfold fbind at 1. cbn [read_words]. unfold fbind at 1, total_ at 1. cbn [readl fuse_trace].
  rewrite decide_True by (cbn; lia). unfold fbind at 1, total_ at 1. cbn [readl fuse_trace].
  rewrite decide_False; [done|]. cbn. lia.
Qed.

(** property: the end of the resource is its last byte, but the check treats
    it as the first byte behind: the last word of the fuse area is refused. *)
Theorem last_word_refused words :
  0 <= base -> 0 < words -> end_ = base + 4 * words - 1 -> end_ < 2 ^ 32 - 1 ->
  exceeds base end_ (mkReq (4 * (words - 1)) 1) = true /\
  forall i, 0 <= i < words - 1 -> exceeds base end_ (mkReq (4 * i) 1) = false.
Proof.
  intros Hb Hw -> He. unfold exceeds. cbn [offset size]. split; [|intros i Hi].
  - apply Z.ltb_lt. rewrite u32_small; lia.
  - apply Z.ltb_ge. rewrite u32_small; lia.
Qed.
End Spec.

(** property: a file that is opened and closed gives back its memory and the
    regulator; when the regulator cannot be had, open answers the error but
    the memory for the file's state stays allocated, and nothing refers to
    it any more. *)
Theorem open_release_resources (w : fuse_log) :
  o_alloc w (events w) = true ->
  let '((r, priv), w1) := qfp_fuse_open None w in
  let e := o_regulator w (events w ++ [FAlloc 16 true]) in
  if e <? 0 then r = e /\ priv = None /\ w1 = note w [FAlloc 16 true; FGet e]
  else r = 0 /\ w1 = note w [FAlloc 16 true; FGet e] /\
       qfp_fuse_release priv w1 = ((0, None), note w [FAlloc 16 true; FGet e; FPut; FFree]).
Proof.
  intros Ha. unfold qfp_fuse_open, bind. cbn [kmalloc fuse_trace]. rewrite Ha. cbn [negb].
  cbn [regulator_get fuse_trace]. rewrite note_note.
  change (o_regulator (note w [FAlloc 16 true]) (events (note w [FAlloc 16 true])))
    with (o_regulator w (events w ++ [FAlloc 16 true])). set (e := o_regulator _ _).
  destruct (e <? 0); cbn [ret app]; [done|]. split; [done|]. split; [done|].
  unfold qfp_fuse_release, bind. cbn [regulator_put kfree fuse_trace ret]. by rewrite !note_note.
Qed.

(** ** Concrete devices *)
Definition fuse_world (size : Z) : fuse_log :=
  mkFuse [] (fun _ _ => 0) (fun _ => 0) (fun _ => true) (fun _ => Some (mkReq 0 size))
    (fun _ n => Some (replicate (Z.to_nat (n / 4)) 0)) (fun _ => false).

Lemma ioctl_spec_witness :
  exists r evs evs', qfp_fuse_ioctl 0x700000 0x707fff QFP_FUSE_IOC_WRITE 1 (fuse_world 2) =
    Some (r, note (fuse_world 2) evs) /\ words_dialogue 0x700000 (mkReq 0 2) 0 [0; 0] r evs' /\
    balance evs = (0, 0).
Proof.
  destruct (ioctl_spec 0x700000 0x707fff QFP_FUSE_IOC_WRITE 1 (fuse_world 2)) as (r & evs & E & Ho & Hb & _).
  - lia.
  - intros h req [= <-]. unfold req_ok. cbn. lia.
  - intros h n l [= <-]. apply length_replicate.
  - destruct Ho as (evs' & _ & Hw & _). exists r, evs, evs'. exact (conj E (conj Hw Hb)).
Defined.

Lemma size_wraps_and_overruns_witness :
  qfp_fuse_ioctl 0x700000 0x707fff QFP_FUSE_IOC_READ 1 (fuse_world (2 ^ 30 + 1)) = None.
Proof.
  refine (proj2 (proj2 (size_wraps_and_overruns 0x700000 0x707fff 1 (fuse_world (2 ^ 30 + 1)) 0
    _ _ _ _ _ _ _))); try lia; reflexivity.
Defined.

Lemma last_word_refused_witness :
  exceeds 0x700000 0x707fff (mkReq 0x7ffc 1) = true.
Proof. exact (proj1 (last_word_refused 0x700000 0x707fff 0x2000 ltac:(lia) ltac:(lia) eq_refl ltac:(lia))). Defined.

Lemma open_release_resources_witness :
  exists w1 w2, qfp_fuse_open None (fuse_world 1) = ((0, Some (mkPrivate QFP_FUSE_READY)), w1) /\
    qfp_fuse_release (Some (mkPrivate QFP_FUSE_READY)) w1 = ((0, None), w2).
Proof.
  pose proof (open_release_resources (fuse_world 1) eq_refl) as H.
  cbn in H. destruct H as (_ & _ & H). do 2 eexists. split; [reflexivity|]. exact H.
Defined.
