(* ===== verification/ScaleUsb.v ===== *)
(** * USB gadget: the character device of the scale gadget (test_gadget/scale_usb.c)

    The request queues behind the character device: [scale_open],
    [scale_close], [scale_read], [scale_write], [scale_fsync], [scale_poll],
    [scale_ioctl], the completion routines, interface selection and the soft
    reset.  A request is a number; a received request carries its bytes.
    While the spinlock is released, completions and resets happen: the
    operation [window] of [ScaleOps] says which, from the requests that are
    queued; one window is all that happens until the lock is taken again,
    during a copy or during a wait, which ends with its condition or with a
    signal.  The monad is [FM]: [None]
    is a call that does not return - it waits for a mutex it holds itself,
    follows a list head as if it were a request, or is out of fuel. *)

From Stdlib Require Import ZArith.
From stdpp Require Import base list.
From S2P Require Import Prelude.

Definition QLEN : nat := 10.
Definition USB_BUFSIZE : nat := 512.
Definition SCALE_USB_SELECTED : Z := 0x10.
Definition SCALE_INTERFACE : Z := 0.
Definition DEV_CONFIG_VALUE : Z := 1.
Definition EAGAIN : Z := 11.
Definition ESHUTDOWN : Z := 108.
Definition POLLIN_RDNORM : Z := 0x41.     (** POLLIN | POLLRDNORM *)
Definition POLLOUT_WRNORM : Z := 0x104.   (** POLLOUT | POLLWRNORM *)
Definition GET_SCALE_USB_STATUS : Z := 0x80046721.
Definition SET_SCALE_USB_STATUS : Z := 0xc0046722.

Record scale_dev := mkScale {
  rx_reqs : list nat;
  rx_reqs_active : list nat;
  rx_buffers : list (nat * list Z);
  current_rx_req : option nat;
  current_rx_buf : list Z;           (** the bytes left; [current_rx_bytes] is its length *)
  tx_reqs : list nat;
  tx_reqs_active : list nat;
  scale_status : Z;
  reset_scale : bool;
  scale_cdev_open : bool;
  config : Z;
  interface : Z;
  has_in : bool;                     (** [dev->in != NULL] *)
  has_out : bool;
  lock_scale_io : bool;              (** the mutex is held *)
}.

Definition set_rx (r a : list nat) (b : list (nat * list Z)) (d : scale_dev) : scale_dev :=
  mkScale r a b (current_rx_req d) (current_rx_buf d) (tx_reqs d) (tx_reqs_active d) (scale_status d)
    (reset_scale d) (scale_cdev_open d) (config d) (interface d) (has_in d) (has_out d) (lock_scale_io d).
Definition set_current (q : option nat) (b : list Z) (d : scale_dev) : scale_dev :=
  mkScale (rx_reqs d) (rx_reqs_active d) (rx_buffers d) q b (tx_reqs d) (tx_reqs_active d)
    (scale_status d) (reset_scale d) (scale_cdev_open d) (config d) (interface d) (has_in d) (has_out d)
    (lock_scale_io d).
Definition set_tx (r a : list nat) (d : scale_dev) : scale_dev :=
  mkScale (rx_reqs d) (rx_reqs_active d) (rx_buffers d) (current_rx_req d) (current_rx_buf d) r a
    (scale_status d) (reset_scale d) (scale_cdev_open d) (config d) (interface d) (has_in d) (has_out d)
    (lock_scale_io d).
Definition set_reset (b : bool) (d : scale_dev) : scale_dev :=
  mkScale (rx_reqs d) (rx_reqs_active d) (rx_buffers d) (current_rx_req d) (current_rx_buf d) (tx_reqs d)
    (tx_reqs_active d) (scale_status d) b (scale_cdev_open d) (config d) (interface d) (has_in d)
    (has_out d) (lock_scale_io d).
Definition set_status (s : Z) (o : bool) (d : scale_dev) : scale_dev :=
  mkScale (rx_reqs d) (rx_reqs_active d) (rx_buffers d) (current_rx_req d) (current_rx_buf d) (tx_reqs d)
    (tx_reqs_active d) s (reset_scale d) o (config d) (interface d) (has_in d) (has_out d)
    (lock_scale_io d).
Definition set_intf (c i : Z) (hi ho : bool) (d : scale_dev) : scale_dev :=
  mkScale (rx_reqs d) (rx_reqs_active d) (rx_buffers d) (current_rx_req d) (current_rx_buf d) (tx_reqs d)
    (tx_reqs_active d) (scale_status d) (reset_scale d) (scale_cdev_open d) c i hi ho (lock_scale_io d).
Definition set_mutex (b : bool) (d : scale_dev) : scale_dev :=
  mkScale (rx_reqs d) (rx_reqs_active d) (rx_buffers d) (current_rx_req d) (current_rx_buf d) (tx_reqs d)
    (tx_reqs_active d) (scale_status d) (reset_scale d) (scale_cdev_open d) (config d) (interface d)
    (has_in d) (has_out d) b.

(** ** Completions *)

(** [list_del_init]: off whatever list it is on. *)
Definition unlink_rx (req : nat) (d : scale_dev) : scale_dev :=
  set_rx (filter (fun x => x <> req) (rx_reqs d)) (filter (fun x => x <> req) (rx_reqs_active d))
    (filter (fun b => fst b <> req) (rx_buffers d)) d.

Definition rx_complete (req : nat) (status : Z) (bytes : list Z) (d : scale_dev) : scale_dev :=
  let d := unlink_rx req d in
  if (status =? 0) && (0 <? length bytes)%nat
  then set_rx (rx_reqs d) (rx_reqs_active d) (rx_buffers d ++ [(req, bytes)]) d
  else set_rx (req :: rx_reqs d) (rx_reqs_active d) (rx_buffers d) d.

Definition tx_complete (req : nat) (d : scale_dev) : scale_dev :=
  set_tx (req :: filter (fun x => x <> req) (tx_reqs d)) (filter (fun x => x <> req) (tx_reqs_active d)) d.

(** What can happen while the lock is released: the controller completes a
    request that is queued, or the host resets the device.  [given] are the
    requests the controller gives back when its endpoints are disabled. *)
Inductive irq :=
| IRx (req : nat) (status : Z) (bytes : list Z)
| ITx (req : nat)
| IReset (given_tx given_rx : list nat).

Inductive ep := InEp | OutEp | TestIn (i : nat) | TestOut (i : nat).

Class ScaleOps (W : Type) := {
  queue_out : nat -> M W Z;
  queue_in : nat -> list Z -> bool -> M W Z;   (** request, data, zero flag *)
  copy_to_user : list Z -> M W nat;            (** how many bytes were not copied *)
  copy_from_user : list Z -> M W bool;         (** true: failed *)
  window : list nat -> list nat -> M W (list irq);  (** queued for receiving, for sending *)
  usb_ep_enable : ep -> M W Z;
  usb_ep_disable : ep -> M W unit;
  vbus_draw : Z -> M W unit;
}.

(** Moving the active requests: the second loop tests [rx_reqs_active] but
    takes the requests from [rx_buffers]. *)
Definition drain_tx (d : scale_dev) : scale_dev :=
  set_tx (rev (tx_reqs_active d) ++ tx_reqs d) [] d.
Fixpoint drain_rx (active : list nat) (buffers : list (nat * list Z)) (reqs : list nat) :
    option (list nat * list (nat * list Z)) :=
  match active with
  | [] => Some (reqs, buffers)
  | _ => match buffers with
         | [] => None
         | (q, _) :: buffers => drain_rx active buffers (q :: reqs)
         end
  end.

(** [scale_soft_reset] on the queues; disabling the endpoints completes the
    requests given back with [-ESHUTDOWN]. *)
Definition soft_reset_queues (given_tx given_rx : list nat) (d : scale_dev) : option scale_dev :=
  let d := foldl (fun d q => tx_complete q d) d given_tx in
  let d := foldl (fun d q => rx_complete q (- ESHUTDOWN) [] d) d given_rx in
  let d := match current_rx_req d with
           | Some q => set_rx (q :: rx_reqs d) (rx_reqs_active d) (rx_buffers d) d
           | None => d
           end in
  let d := set_reset true (set_current None [] d) in
  let d := drain_tx d in
  r ← drain_rx (rx_reqs_active d) (rx_buffers d) (rx_reqs d);
  Some (drain_tx (set_rx (fst r) (rx_reqs_active d) (snd r) d)).

Definition apply_irq (i : irq) (d : scale_dev) : option scale_dev :=
  match i with
  | IRx q st bytes => Some (if bool_decide (q ∈ rx_reqs_active d) then rx_complete q st bytes d else d)
  | ITx q => Some (if bool_decide (q ∈ tx_reqs_active d) then tx_complete q d else d)
  | IReset gt gr => soft_reset_queues gt gr d
  end.

Fixpoint apply_irqs (l : list irq) (d : scale_dev) : option scale_dev :=
  match l with [] => Some d | i :: l => d ← apply_irq i d; apply_irqs l d end.

Section Ops.
Context {W : Type} `{!ScaleOps W}.
Abbreviation SX := (FM (scale_dev * W)).

Definition dev : SX scale_dev := fun s => Some (fst s, s).
Definition upd (f : scale_dev -> scale_dev) : SX unit := fmodify (fun '(d, w) => (f d, w)).
Definition outside {A} (m : M W A) : SX A := fun '(d, w) => let '(a, w') := m w in Some (a, (d, w')).

(** The lock is released and taken again. *)
Definition unlocked : SX unit := fun '(d, w) =>
  let '(l, w) := window (rx_reqs_active d) (tx_reqs_active d) w in
  match apply_irqs l d with Some d => Some (tt, (d, w)) | None => None end.

Definition mutex_lock : SX unit :=
  d <~ dev ;; if lock_scale_io d then fault else upd (set_mutex true).
Definition mutex_unlock : SX unit := upd (set_mutex false).

(** ** Open, close *)
Definition scale_open : SX Z :=
  d <~ dev ;;
  if scale_cdev_open d then fret (- EBUSY)
  else (upd (fun d => set_status (Z.lor (scale_status d) SCALE_USB_SELECTED) true d) ~;; fret 0).

Definition scale_close : SX Z :=
  upd (fun d => set_status (Z.ldiff (scale_status d) SCALE_USB_SELECTED) false d) ~;; fret 0.

(** ** Receiving *)
Fixpoint setup_rx_loop (reqs : list nat) : SX unit :=
  match reqs with
  | [] => fret tt
  | req :: reqs =>
      upd (fun d => set_rx reqs (rx_reqs_active d) (rx_buffers d) d) ~;;
      error <~ outside (queue_out req) ;;
      if negb (error =? 0) then upd (fun d => set_rx (req :: reqs) (rx_reqs_active d) (rx_buffers d) d)
      else
        upd (fun d => set_rx reqs (req :: rx_reqs_active d) (rx_buffers d) d) ~;;
        setup_rx_loop reqs
  end.

Definition setup_rx_reqs : SX unit := d <~ dev ;; setup_rx_loop (rx_reqs d).

(** The copy loop of [scale_read]: [len] bytes are still wanted, [out] have
    been copied, [cur] and [buf] are the local [current_rx_req] and
    [current_rx_buf].  [inl] is the return from inside the loop. *)
Fixpoint read_loop (fuel len : nat) (cur : option nat) (buf out : list Z) :
    SX ((Z + option nat * list Z) * list Z) :=
  match fuel with
  | O => fault
  | S fuel =>
      d <~ dev ;;
      if negb (((0 <? length buf) || (0 <? length (rx_buffers d))) && (0 <? len))%nat
      then fret (inr (cur, buf), out)
      else
        let copy (cur : option nat) (buf : list Z) :=
          let size := Nat.min len (length buf) in
          n <~ outside (copy_to_user (take size buf)) ;;
          let size := (size - n)%nat in
          let out := out ++ take size buf in
          unlocked ~;;
          d <~ dev ;;
          match cur with
          | None => fault
          | Some q =>
              if reset_scale d then
                (upd (fun d => set_rx (q :: rx_reqs d) (rx_reqs_active d) (rx_buffers d) d) ~;;
                 mutex_unlock ~;; fret (inl (- EAGAIN), out))
              else if (size <? length buf)%nat then read_loop fuel (len - size) cur (drop size buf) out
              else
                (upd (fun d => set_rx (q :: rx_reqs d) (rx_reqs_active d) (rx_buffers d) d) ~;;
                 read_loop fuel (len - size) None [] out)
          end in
        if (length buf =? 0)%nat then
          match rx_buffers d with
          | [] => fault
          | (q, bytes) :: rest =>
              upd (fun d => set_rx (rx_reqs d) (rx_reqs_active d) rest d) ~;;
              if (0 <? length bytes)%nat then copy (Some q) bytes
              else
                (upd (fun d => set_rx (q :: rx_reqs d) (rx_reqs_active d) (rx_buffers d) d) ~;;
                 read_loop fuel len cur buf out)
          end
        else copy cur buf
  end.

(** The result and the bytes copied to the caller. *)
Definition scale_read (fuel : nat) (nonblock : bool) (len : nat) : SX (Z * list Z) :=
  if (len =? 0)%nat then fret (- EINVAL, [])
  else
    mutex_lock ~;;
    upd (set_reset false) ~;;
    setup_rx_reqs ~;;
    d <~ dev ;;
    let cur := current_rx_req d in
    let buf := current_rx_buf d in
    upd (set_current None []) ~;;
    d <~ dev ;;
    let empty := (length buf =? 0)%nat && (length (rx_buffers d) =? 0)%nat in
    if empty && nonblock then (mutex_unlock ~;; fret (- EAGAIN, []))
    else
      (if empty then unlocked else fret tt) ~;;
      r <~ read_loop fuel len cur buf [] ;;
      match r with
      | (inl ret, out) => fret (ret, out)
      | (inr (cur, buf), out) =>
          upd (set_current cur buf) ~;;
          mutex_unlock ~;;
          fret (if (0 <? length out)%nat then Z.of_nat (length out) else - EAGAIN, out)
      end.

(** ** Sending *)

(** The loop of [scale_write] on the bytes that are left; the result, and
    the transfers that were queued. *)
Fixpoint write_loop (fuel : nat) (maxpacket : Z) (data : list Z) (copied : nat)
    (sent : list (nat * list Z * bool)) : SX ((Z + nat) * list (nat * list Z * bool)) :=
  match fuel with
  | O => fault
  | S fuel =>
      d <~ dev ;;
      match tx_reqs d with
      | [] => fret (inr copied, sent)
      | req :: rest =>
          if (length data =? 0)%nat then fret (inr copied, sent)
          else
            let len := length data in
            let size := Nat.min len USB_BUFSIZE in
            let chunk := take size data in
            let zero := if (size <? len)%nat then false else Z.of_nat len mod maxpacket =? 0 in
            upd (fun d => set_tx rest (tx_reqs_active d) d) ~;;
            failed <~ outside (copy_from_user chunk) ;;
            unlocked ~;;
            if failed : bool then
              (upd (fun d => set_tx (req :: tx_reqs d) (tx_reqs_active d) d) ~;;
               mutex_unlock ~;; fret (inl (Z.of_nat copied), sent))
            else
              d <~ dev ;;
              if reset_scale d then
                (upd (fun d => set_tx (req :: tx_reqs d) (tx_reqs_active d) d) ~;;
                 mutex_unlock ~;; fret (inl (- EAGAIN), sent))
              else
                error <~ outside (queue_in req chunk zero) ;;
                if negb (error =? 0) then
                  (upd (fun d => set_tx (req :: tx_reqs d) (tx_reqs_active d) d) ~;;
                   mutex_unlock ~;; fret (inl (- EAGAIN), sent))
                else
                  (upd (fun d => set_tx (tx_reqs d) (req :: tx_reqs_active d) d) ~;;
                   write_loop fuel maxpacket (drop size data) (copied + size)
                     (sent ++ [(req, chunk, zero)]))
      end
  end.

(** Every round sends at least one byte: one more round than bytes is
    enough. *)
Definition scale_write (maxpacket : Z) (nonblock : bool) (data : list Z) :
    SX (Z * list (nat * list Z * bool)) :=
  d <~ dev ;;
  if interface d <? 0 then fret (- EINVAL, [])
  else if (length data =? 0)%nat then fret (- EINVAL, [])
  else
    mutex_lock ~;;
    upd (set_reset false) ~;;
    d <~ dev ;;
    let empty := (length (tx_reqs d) =? 0)%nat in
    if empty && nonblock then (mutex_lock ~;; fret (- EAGAIN, []))
    else
      (if empty then unlocked else fret tt) ~;;
      r <~ write_loop (S (length data)) maxpacket data 0 [] ;;
      match r with
      | (inl ret, sent) => fret (ret, sent)
      | (inr copied, sent) =>
          mutex_unlock ~;;
          fret (if (0 <? copied)%nat then Z.of_nat copied else - EAGAIN, sent)
      end.

(** ** The other file operations *)

(** Whether [scale_fsync] waits, and then its result. *)
Definition scale_fsync : SX Z :=
  d <~ dev ;;
  (if negb (length (tx_reqs d) =? 0)%nat then unlocked else fret tt) ~;;
  fret 0.

Definition scale_poll : SX Z :=
  mutex_lock ~;; setup_rx_reqs ~;; mutex_unlock ~;;
  d <~ dev ;;
  let status := if (0 <? length (tx_reqs d))%nat then POLLOUT_WRNORM else 0 in
  fret (if ((0 <? length (current_rx_buf d)) || (0 <? length (rx_buffers d)))%nat
        then Z.lor status POLLIN_RDNORM else status).

(** The result, and what is stored at the user's address; [arg] is the byte
    read from there. *)
Definition scale_ioctl (code arg : Z) : SX (Z * option Z) :=
  d <~ dev ;;
  if code =? GET_SCALE_USB_STATUS then
    let connected := if 0 <=? interface d then 1 else 0 in
    let status := scale_status d + Z.shiftl connected 8 in
    fret (status, Some status)
  else if code =? SET_SCALE_USB_STATUS then
    (upd (fun d => set_status (u8 arg) (scale_cdev_open d) d) ~;; fret (0, None))
  else fret (u32 (- ENOTTY), None).

(** ** Interface and configuration *)
Definition set_scale_interface : SX Z :=
  upd (fun d => set_intf (config d) (interface d) true true d) ~;;
  let failed (result : Z) : SX Z :=
    outside (usb_ep_disable InEp) ~;;
    outside (usb_ep_disable OutEp) ~;;
    upd (fun d => set_intf (config d) (interface d) false false d) ~;;
    fret result in
  result <~ outside (usb_ep_enable InEp) ;;
  if negb (result =? 0) then failed result
  else
    result <~ outside (usb_ep_enable OutEp) ;;
    if negb (result =? 0) then failed result else fret 0.

Definition scale_reset_interface : SX unit :=
  d <~ dev ;;
  if interface d <? 0 then fret tt
  else
    (if has_in d then outside (usb_ep_disable InEp) else fret tt) ~;;
    (if has_out d then outside (usb_ep_disable OutEp) else fret tt) ~;;
    upd (fun d => set_intf (config d) (-1) (has_in d) (has_out d) d).

Definition scale_set_config (is_otg : bool) (number : Z) : SX Z :=
  let result := if (number =? DEV_CONFIG_VALUE) || (number =? 0) then 0 else - EINVAL in
  (if negb (result =? 0) then outside (vbus_draw (if is_otg then 8 else 100))
   else
     (outside (vbus_draw 50) ~;;
      upd (fun d => set_intf (u8 number) (interface d) (has_in d) (has_out d) d))) ~;;
  set_scale_interface ~;;
  fret result.

Definition set_interface (number : Z) : SX Z :=
  d <~ dev ;;
  (if interface d =? SCALE_INTERFACE then scale_reset_interface else fret tt) ~;;
  if number =? SCALE_INTERFACE then
    result <~ set_scale_interface ;;
    if negb (result =? 0) then (scale_reset_interface ~;; fret result)
    else (upd (fun d => set_intf (config d) SCALE_INTERFACE (has_in d) (has_out d) d) ~;; fret 0)
  else fret (- EINVAL).

(** ** Soft reset; [given_tx] and [given_rx] are the requests the controller
    gives back while its endpoints are disabled. *)
Fixpoint enable_tests (n i : nat) : SX unit :=
  match n with
  | O => fret tt
  | S n => outside (usb_ep_enable (TestIn i)) ~;; outside (usb_ep_enable (TestOut i)) ~;;
           enable_tests n (S i)
  end.

Definition scale_soft_reset (given_tx given_rx : list nat) : SX unit :=
  outside (usb_ep_disable InEp) ~;;
  outside (usb_ep_disable OutEp) ~;;
  (fun '(d, w) => match soft_reset_queues given_tx given_rx d with
                  | Some d => Some (tt, (d, w)) | None => None end) ~;;
  outside (usb_ep_enable InEp) ~;;
  outside (usb_ep_enable OutEp) ~;;
  enable_tests 4 0.

Definition scale_disconnect : SX unit := scale_reset_interface.
End Ops.
