(* ===== verification/ScaleUsbSpec.v ===== *)
(** * USB gadget: the scale gadget as a byte stream

    Receiving: the bytes the host has sent and that were not read yet are a
    stream; reading takes from its front whatever is there, and no request
    is lost on the way.  Sending: the chunks of a write.  The loops that do
    not end. *)

From Stdlib Require Import ZArith.
From stdpp Require Import base list.
From S2P Require Import Prelude ScaleUsb.

(** ** The receive queues *)

(** All receive requests, with [cur] in the hands of a reader. *)
Definition rx_all (d : scale_dev) (cur : option nat) : list nat :=
  rx_reqs d ++ rx_reqs_active d ++ (fst <$> rx_buffers d) ++ option_list cur.

(** Every request of [R] is in exactly one place, and completed requests have
    data. *)
Record rx_ok (R : list nat) (cur : option nat) (d : scale_dev) : Prop := mkRxOk {
  rx_perm : rx_all d cur ≡ₚ R;
  rx_data : Forall (fun b => snd b <> []) (rx_buffers d);
}.

Definition stream (d : scale_dev) (buf : list Z) : list Z :=
  buf ++ concat (snd <$> rx_buffers d).

Lemma filter_absent (q : nat) (l : list nat) : q ∉ l -> filter (fun x => x <> q) l = l.
Proof.
  induction l as [|x l IH]; [done|]. rewrite not_elem_of_cons. intros [Hx Hl].
  rewrite filter_cons_True by congruence. by rewrite IH.
Qed.
Lemma filter_absent_fst (q : nat) (l : list (nat * list Z)) :
  q ∉ (fst <$> l) -> filter (fun b => fst b <> q) l = l.
Proof.
  induction l as [|[x b] l IH]; [done|]. cbn [fmap list_fmap fst]. rewrite not_elem_of_cons. intros [Hx Hl].
  rewrite filter_cons_True by (cbn; congruence). by rewrite IH.
Qed.
Lemma filter_present (q : nat) (l : list nat) :
  q ∈ l -> NoDup l -> q :: filter (fun x => x <> q) l ≡ₚ l.
Proof.
  intros Hq Hn. induction l as [|x l IH]; [by apply elem_of_nil in Hq|].
  apply NoDup_cons in Hn as [Hx Hn]. apply elem_of_cons in Hq as [->|Hq].
  - rewrite filter_cons_False by (intros H; by apply H). by rewrite filter_absent.
  - rewrite filter_cons_True by (intros ->; done). rewrite Permutation_swap. by rewrite IH.
Qed.

(** The data a completion brings, the requests that are completed, and the
    bytes that arrive with a series of events. *)
Definition packet (i : irq) : list (nat * list Z) :=
  match i with
  | IRx q st bytes => if (st =? 0) && (0 <? length bytes)%nat then [(q, bytes)] else []
  | _ => []
  end.
Definition packets (l : list irq) : list (nat * list Z) := concat (packet <$> l).
Definition received (l : list irq) : list Z := concat (snd <$> packets l).
Definition done_rx (l : list irq) : list nat :=
  omap (fun i => match i with IRx q _ _ => Some q | _ => None end) l.

Lemma received_app a b : received (a ++ b) = received a ++ received b.
Proof. unfold received, packets. by rewrite fmap_app, concat_app, fmap_app, concat_app. Qed.

(** Completing an active request. *)
Lemma rx_complete_ok R cur d q st bytes :
  NoDup R -> rx_ok R cur d -> q ∈ rx_reqs_active d ->
  rx_ok R cur (rx_complete q st bytes d) /\
  rx_buffers (rx_complete q st bytes d) = rx_buffers d ++ packet (IRx q st bytes).
Proof.
  intros Hn [Hp Hd] Hq. rewrite <- Hp in Hn. unfold rx_all in Hn.
  apply NoDup_app in Hn as (N1 & N2 & Hn). apply NoDup_app in Hn as (N3 & N4 & Hn).
  assert (q ∉ rx_reqs d) as A1 by (intros H; apply (N2 q H); rewrite elem_of_app; by left).
  assert (q ∉ (fst <$> rx_buffers d)) as A2 by (intros H; apply (N4 q Hq); rewrite elem_of_app; by left).
  unfold rx_complete, unlink_rx, packet. cbn [set_rx rx_reqs rx_reqs_active rx_buffers].
  rewrite (filter_absent q (rx_reqs d)), (filter_absent_fst q (rx_buffers d)) by done.
  pose proof (filter_present q (rx_reqs_active d) Hq N3) as Hf.
  set (F := filter (fun x => x <> q) (rx_reqs_active d)) in *. clearbody F.
  destruct ((st =? 0) && (0 <? length bytes)%nat) eqn:E; cbn [set_rx rx_reqs rx_reqs_active rx_buffers].
  - split; [constructor|done].
    + rewrite <- Hp. unfold rx_all. cbn [set_rx rx_reqs rx_reqs_active rx_buffers].
      rewrite fmap_app. cbn [fmap list_fmap fst]. rewrite <- Hf. solve_Permutation.
    + cbn [set_rx rx_buffers]. apply Forall_app. split; [done|]. constructor; [|constructor]. cbn.
      apply andb_prop in E as [_ E]. by destruct bytes.
  - split; [constructor; [|done]|by rewrite app_nil_r].
    rewrite <- Hp. unfold rx_all. cbn [set_rx rx_reqs rx_reqs_active rx_buffers].
    rewrite <- Hf. solve_Permutation.
Qed.

Definition no_reset (i : irq) : Prop := match i with IReset _ _ => False | _ => True end.

(** What a window without a reset leaves alone. *)
Definition same_ctl (d d' : scale_dev) : Prop :=
  reset_scale d' = reset_scale d /\ lock_scale_io d' = lock_scale_io d /\
  current_rx_req d' = current_rx_req d /\ current_rx_buf d' = current_rx_buf d.

Lemma done_rx_cons i l :
  done_rx (i :: l) = match i with IRx q _ _ => q :: done_rx l | _ => done_rx l end.
Proof. by destruct i. Qed.

(** Events that complete distinct queued requests: all their data arrives. *)
Lemma apply_irqs_ok R cur l d :
  NoDup R -> rx_ok R cur d -> Forall no_reset l -> NoDup (done_rx l) -> done_rx l ⊆ rx_reqs_active d ->
  exists d', apply_irqs l d = Some d' /\ rx_ok R cur d' /\
    rx_buffers d' = rx_buffers d ++ packets l /\ same_ctl d d'.
Proof.
  intros Hn Hd Hl. revert d Hd. induction Hl as [|i l Hi _ IH]; intros d Hd Hnd Hsub.
  { exists d. by rewrite app_nil_r. }
  cbn [apply_irqs]. rewrite done_rx_cons in Hnd, Hsub.
  assert (exists d1, apply_irq i d = Some d1 /\ rx_ok R cur d1 /\
    rx_buffers d1 = rx_buffers d ++ packet i /\ same_ctl d d1 /\
    NoDup (done_rx l) /\ done_rx l ⊆ rx_reqs_active d1) as (d1 & -> & Hd1 & Hb1 & Hs1 & Hnd1 & Hsub1).
  { destruct i as [q st bytes|q|]; [| |done]; cbn [apply_irq].
    - assert (q ∈ rx_reqs_active d) as Hq by (apply Hsub, elem_of_cons; by left).
      apply NoDup_cons in Hnd as [Hql Hnd]. rewrite bool_decide_true by done.
      destruct (rx_complete_ok R cur d q st bytes Hn Hd Hq) as [Ho Ha].
      exists (rx_complete q st bytes d). split; [done|]. split; [done|]. split; [done|].
      assert (rx_reqs_active (rx_complete q st bytes d) = filter (fun x => x <> q) (rx_reqs_active d)) as ->
        by (unfold rx_complete; by destruct (_ && _)).
      split; [unfold rx_complete, same_ctl; by destruct (_ && _)|]. split; [done|].
      intros x Hx. apply list_elem_of_filter. split; [by intros ->|]. apply Hsub, elem_of_cons. by right.
    - cbn [packet]. rewrite app_nil_r. case_bool_decide as Hq; [|by exists d].
      exists (tx_complete q d). split; [done|]. split; [|done]. destruct Hd. by constructor. }
  cbn [mbind option_bind]. destruct (IH d1 Hd1 Hnd1 Hsub1) as (d2 & -> & Hd2 & Hb2 & Hs2).
  exists d2. split; [done|]. split; [done|].
  split; [by unfold packets; cbn [fmap list_fmap concat]; rewrite Hb2, Hb1, app_assoc|].
  unfold same_ctl in *. intuition congruence.
Qed.

Section Read.
Context {W : Type} `{!ScaleOps W}.

(** The user's buffer is good; while the lock is released the controller
    completes requests that are queued, each once, and the host does not
    reset the device. *)
Definition copies : Prop := forall l (w : W), fst (copy_to_user l w) = 0%nat.
Definition undisturbed : Prop := forall rx tx (w : W),
  let l := fst (window rx tx w) in Forall no_reset l /\ NoDup (done_rx l) /\ done_rx l ⊆ rx.

(** [heard] keeps what happened while the lock was released. *)
Context (heard : W -> list irq).
Record hears : Prop := {
  h_window : forall rx tx w, heard (snd (window rx tx w)) = heard w ++ fst (window rx tx w);
  h_queue : forall q w, heard (snd (queue_out q w)) = heard w;
  h_copy : forall l w, heard (snd (copy_to_user l w)) = heard w;
}.

Lemma setup_rx_ok R cur reqs d (w : W) :
  rx_ok R cur d -> rx_reqs d = reqs ->
  exists d' w', setup_rx_loop reqs (d, w) = Some (tt, (d', w')) /\ rx_ok R cur d' /\
    rx_buffers d' = rx_buffers d /\ same_ctl d d' /\ (hears -> heard w' = heard w).
Proof.
  revert d w. induction reqs as [|q reqs IH]; intros d w Hd Hr; cbn [setup_rx_loop].
  { by exists d, w. }
  unfold fbind at 1. cbn [upd fmodify]. unfold fbind at 1. cbn [outside].
  assert (hears -> heard (snd (queue_out q w)) = heard w) as Hh1 by (intros H; by apply h_queue).
  destruct (queue_out q w) as [e w1]. cbn [snd] in Hh1. destruct (negb (e =? 0)); cbn [upd fmodify].
  - eexists _, w1. split; [reflexivity|]. split; [|done]. destruct Hd as [Hp Hf]. constructor; [|done].
    rewrite <- Hp. unfold rx_all. cbn [set_rx rx_reqs rx_reqs_active rx_buffers]. by rewrite Hr.
  - unfold fbind. destruct (IH (set_rx reqs (q :: rx_reqs_active d) (rx_buffers d) d) w1)
      as (d' & w' & E & Hd' & Hb & Hs & Hh); [|done|].
    { destruct Hd as [Hp Hf]. constructor; [|done]. rewrite <- Hp. unfold rx_all.
      cbn [set_rx rx_reqs rx_reqs_active rx_buffers]. rewrite Hr. solve_Permutation. }
    exists d', w'. split; [exact E|]. split; [done|]. split; [done|]. split; [exact Hs|].
    intros H. by rewrite Hh, Hh1.
Qed.

Lemma unlocked_ok R cur d (w : W) :
  undisturbed -> NoDup R -> rx_ok R cur d ->
  exists d' w' l, unlocked (d, w) = Some (tt, (d', w')) /\ rx_ok R cur d' /\
    rx_buffers d' = rx_buffers d ++ packets l /\ same_ctl d d' /\ (hears -> heard w' = heard w ++ l).
Proof.
  intros Hu Hn Hd. unfold unlocked. pose proof (Hu (rx_reqs_active d) (tx_reqs_active d) w) as Hw.
  pose proof (fun H => h_window H (rx_reqs_active d) (tx_reqs_active d) w) as Hh.
  destruct (window _ _ w) as [l w1]. cbn in Hw, Hh. destruct Hw as (H1 & H2 & H3).
  destruct (apply_irqs_ok R cur l d Hn Hd H1 H2 H3) as (d' & -> & H). exists d', w1, l.
  destruct H as (? & ? & ?). by split_and!.
Qed.

(** What a run of the copy loop leaves: [new] was copied. *)
Definition loop_result (R : list nat) (len : nat) (d : scale_dev) (w : W) (buf out : list Z)
    (r : option (((Z + option nat * list Z) * list Z) * (scale_dev * W))) : Prop :=
  exists cur' buf' new d' w' l,
    r = Some ((inr (cur', buf'), out ++ new), (d', w')) /\ rx_ok R cur' d' /\
    (cur' = None <-> buf' = []) /\ lock_scale_io d' = lock_scale_io d /\
    new ++ stream d' buf' = stream d buf ++ received l /\ (length new <= len)%nat /\
    (length new = len \/ stream d' buf' = []) /\ (hears -> heard w' = heard w ++ l).

(** One copy of the loop, from a request with bytes. *)
Lemma copy_ok R fuel len q buf out d (w : W) :
  copies -> undisturbed -> NoDup R -> rx_ok R (Some q) d -> buf <> [] -> (0 < len)%nat ->
  reset_scale d = false ->
  (forall len' cur' buf' out' d' w', (len' < len)%nat -> rx_ok R cur' d' -> (cur' = None <-> buf' = []) ->
     reset_scale d' = false -> loop_result R len' d' w' buf' out' (read_loop fuel len' cur' buf' out' (d', w'))) ->
  loop_result R len d w buf out
    ((let size := Nat.min len (length buf) in
      n <~ outside (copy_to_user (take size buf)) ;;
      let size := (size - n)%nat in
      let out := out ++ take size buf in
      unlocked ~;;
      d <~ dev ;;
      match Some q with
      | None => fault
      | Some q =>
          if reset_scale d then
            (upd (fun d => set_rx (q :: rx_reqs d) (rx_reqs_active d) (rx_buffers d) d) ~;;
             mutex_unlock ~;; fret (inl (- EAGAIN), out))
          else if (size <? length buf)%nat then read_loop fuel (len - size) (Some q) (drop size buf) out
          else
            (upd (fun d => set_rx (q :: rx_reqs d) (rx_reqs_active d) (rx_buffers d) d) ~;;
             read_loop fuel (len - size) None [] out)
      end) (d, w)).
Proof.
  intros Hc Hu Hn Hd Hb Hl Hr IH. cbv zeta. set (size := Nat.min len (length buf)).
  assert (0 < length buf)%nat as Hb0 by (destruct buf; [done|cbn; lia]).
  unfold fbind at 1. cbn [outside]. pose proof (Hc (take size buf) w) as Hn0.
  pose proof (fun H => h_copy H (take size buf) w) as Hh1.
  destruct (copy_to_user (take size buf) w) as [n w1]. cbn in Hn0, Hh1. subst n. rewrite Nat.sub_0_r.
  unfold fbind at 1.
  destruct (unlocked_ok R (Some q) d w1 Hu Hn Hd) as (d1 & w2 & l & -> & Hd1 & Hb1 & Hs1 & Hh2).
  assert (hears -> heard w2 = heard w ++ l) as Hhw by (intros H; by rewrite Hh2, Hh1).
  destruct Hs1 as (R1 & L1 & _ & _). unfold fbind at 1. cbn [dev fst]. rewrite R1, Hr.
  destruct (Nat.ltb_spec size (length buf)) as [Hlt|Hge].
  - destruct (IH (len - size)%nat (Some q) (drop size buf) (out ++ take size buf) d1 w2)
      as (c' & b' & new & d' & w' & l' & -> & Hd' & Hcb & Hlk & Hst & Hle & Hmax & Hh'); [lia|done| |by rewrite R1|].
    { split; [done|]. intros H. apply (f_equal length) in H. rewrite length_drop in H. cbn in H. lia. }
    exists c', b', (take size buf ++ new), d', w', (l ++ l').
    rewrite <- app_assoc. split; [done|]. split; [done|]. split; [done|]. split; [congruence|].
    rewrite length_app, length_take. split; [|split; [lia|split]].
    + rewrite <- app_assoc, Hst, received_app. unfold stream. rewrite Hb1, fmap_app, concat_app, <- !app_assoc.
      by rewrite (app_assoc (take size buf)), take_drop.
    + destruct Hmax; [left; lia|by right].
    + intros H. by rewrite Hh', Hhw, app_assoc.
  - assert (size = length buf) as Hsz by lia.
    unfold fbind. cbn [upd fmodify].
    destruct (IH (len - size)%nat None [] (out ++ take size buf)
      (set_rx (q :: rx_reqs d1) (rx_reqs_active d1) (rx_buffers d1) d1) w2)
      as (c' & b' & new & d' & w' & l' & -> & Hd' & Hcb & Hlk & Hst & Hle & Hmax & Hh'); [lia| |done|by cbn; rewrite R1|].
    { destruct Hd1 as [Hp Hf]. constructor; [|done]. rewrite <- Hp. unfold rx_all.
      cbn [set_rx rx_reqs rx_reqs_active rx_buffers option_list]. solve_Permutation. }
    exists c', b', (take size buf ++ new), d', w', (l ++ l').
    rewrite <- app_assoc. split; [done|]. split; [done|]. split; [done|]. split; [cbn in Hlk; congruence|].
    rewrite length_app, length_take. split; [|split; [lia|split]].
    + rewrite <- app_assoc, Hst, received_app. unfold stream. cbn [set_rx rx_buffers].
      rewrite Hb1, fmap_app, concat_app, <- !app_assoc. rewrite take_ge by lia. done.
    + destruct Hmax; [left; lia|by right].
    + intros H. by rewrite Hh', Hhw, app_assoc.
Qed.

Lemma read_loop_ok R fuel len cur buf out d (w : W) :
  copies -> undisturbed -> NoDup R -> (len < fuel)%nat -> rx_ok R cur d -> (cur = None <-> buf = []) ->
  reset_scale d = false ->
  loop_result R len d w buf out (read_loop fuel len cur buf out (d, w)).
Proof.
  intros Hc Hu Hn. revert len cur buf out d w.
  induction fuel as [|fuel IH]; intros len cur buf out d w Hf Hd Hcb Hr; [lia|].
  cbn [read_loop]. unfold fbind at 1. cbn [dev fst].
  destruct (negb _) eqn:E.
  { exists cur, buf, [], d, w, []. rewrite !app_nil_r. split; [done|]. split; [done|]. split; [done|].
    split; [done|]. split; [done|]. split; [cbn; lia|]. split; [|done].
    apply negb_true_iff, andb_false_iff in E as [E|E].
    - right. apply orb_false_iff in E as [E1 E2]. apply Nat.ltb_ge in E1, E2. unfold stream.
      destruct buf; [|cbn in E1; lia]. destruct (rx_buffers d); [done|cbn in E2; lia].
    - left. apply Nat.ltb_ge in E. cbn. lia. }
  apply negb_false_iff, andb_prop in E as [E El]. apply Nat.ltb_lt in El.
  assert (forall len' cur' buf' out' d' w', (len' < len)%nat -> rx_ok R cur' d' -> (cur' = None <-> buf' = []) ->
     reset_scale d' = false ->
     loop_result R len' d' w' buf' out' (read_loop fuel len' cur' buf' out' (d', w'))) as IH'.
  { intros. apply IH; [lia|done..]. }
  destruct (Nat.eqb_spec (length buf) 0) as [Eb|Eb].
  - destruct buf; [|done]. destruct (rx_buffers d) as [|[q bytes] rest] eqn:Hb; [done|].
    assert (cur = None) as -> by (by apply Hcb).
    pose proof (rx_data R None d Hd) as Hdat. rewrite Hb in Hdat. apply Forall_cons in Hdat as [Hne Hdat].
    cbn in Hne. unfold fbind at 1. cbn [upd fmodify].
    assert (0 < length bytes)%nat as Hbl by (destruct bytes; [done|cbn; lia]).
    rewrite (proj2 (Nat.ltb_lt _ _) Hbl).
    set (d1 := set_rx (rx_reqs d) (rx_reqs_active d) rest d).
    assert (rx_ok R (Some q) d1) as Hd1.
    { constructor; [|done]. rewrite <- (rx_perm R None d Hd). unfold rx_all, d1. rewrite Hb.
      cbn [set_rx rx_reqs rx_reqs_active rx_buffers option_list fmap list_fmap fst]. solve_Permutation. }
    destruct (copy_ok R fuel len q bytes out d1 w Hc Hu Hn Hd1 Hne El Hr IH')
      as (c' & b' & new & d' & w' & a & Hrun & H1 & H2 & H3 & H4 & H5).
    exists c', b', new, d', w', a. split; [exact Hrun|]. split; [done|]. split; [done|]. split; [done|].
    split; [|done]. rewrite H4. unfold stream, d1. cbn [set_rx rx_buffers app]. rewrite Hb.
    cbn [fmap list_fmap snd concat]. done.
  - destruct cur as [q|]; [|by destruct Eb; rewrite (proj1 Hcb)].
    apply copy_ok; try done. by intros ->.
Qed.

(** A device between calls. *)
Record dev_ok (R : list nat) (d : scale_dev) : Prop := mkDevOk {
  dev_rx : rx_ok R (current_rx_req d) d;
  dev_cur : current_rx_req d = None <-> current_rx_buf d = [];
  dev_unlocked : lock_scale_io d = false;
}.

(** The bytes a reader has not seen yet. *)
Definition pending (d : scale_dev) : list Z := stream d (current_rx_buf d).

(** The start of [scale_read], up to the copy loop. *)
Lemma read_start R d (w : W) :
  dev_ok R d ->
  exists d1 w1, (mutex_lock ~;; upd (set_reset false) ~;; setup_rx_reqs) (d, w) = Some (tt, (d1, w1)) /\
    rx_ok R (current_rx_req d) d1 /\ rx_buffers d1 = rx_buffers d /\
    reset_scale d1 = false /\ lock_scale_io d1 = true /\
    current_rx_req d1 = current_rx_req d /\ current_rx_buf d1 = current_rx_buf d /\
    (hears -> heard w1 = heard w).
Proof.
  intros [Hr Hc Hl]. unfold mutex_lock. unfold fbind at 1. unfold fbind at 1. cbn [dev fst]. rewrite Hl.
  cbn [upd fmodify]. unfold fbind at 1. unfold setup_rx_reqs, fbind. cbn [dev fst upd fmodify].
  set (d0 := set_reset false (set_mutex true d)).
  destruct (setup_rx_ok R (current_rx_req d) (rx_reqs d0) d0 w) as (d1 & w1 & E & Hd1 & Hb & (S1 & S2 & S3 & S4) & Hh);
    [by destruct Hr; constructor|done|].
  exists d1, w1. rewrite E, S1, S2, S3, S4. by split_and!.
Qed.

Lemma read_unfold fuel nonblock len d (w : W) d1 w1 :
  (0 < len)%nat ->
  (mutex_lock ~;; upd (set_reset false) ~;; setup_rx_reqs) (d, w) = Some (tt, (d1, w1)) ->
  scale_read fuel nonblock len (d, w) =
    (let cur := current_rx_req d1 in
     let buf := current_rx_buf d1 in
     upd (set_current None []) ~;;
     d <~ dev ;;
     let empty := (length buf =? 0)%nat && (length (rx_buffers d) =? 0)%nat in
     if empty && nonblock then (mutex_unlock ~;; fret (- EAGAIN, []))
     else
       (if empty then unlocked else fret tt) ~;;
       r <~ read_loop fuel len cur buf [] ;;
       match r with
       | (inl ret, out) => fret (ret, out)
       | (inr (cur, buf), out) =>
           upd (set_current cur buf) ~;;
           mutex_unlock ~;;
           fret (if (0 <? length out)%nat then Z.of_nat (length out) else - EAGAIN, out)
       end) (d1, w1).
Proof.
  intros Hl E. unfold scale_read. rewrite (proj2 (Nat.eqb_neq len 0)) by lia. unfold fbind in E.
  destruct (mutex_lock (d, w)) as [[[] s1]|] eqn:E1; [|done].
  destruct (upd (set_reset false) s1) as [[[] s2]|] eqn:E2; [|done].
  unfold fbind at 1. rewrite E1. unfold fbind at 1. rewrite E2. unfold fbind at 1. by rewrite E.
Qed.

(** The outcome of a read of [len] bytes; [l] is what happened meanwhile. *)
Definition read_outcome (R : list nat) (len : nat) (d : scale_dev) (w : W) (l : list irq)
    (r : Z) (out : list Z) (d' : scale_dev) (w' : W) : Prop :=
  heard w' = heard w ++ l /\ dev_ok R d' /\ out ++ pending d' = pending d ++ received l /\
  (length out = len \/ ((length out < len)%nat /\ pending d' = [])) /\
  r = (if (0 <? length out)%nat then Z.of_nat (length out) else - EAGAIN).

Lemma scale_read_run R nonblock len d (w : W) :
  hears -> copies -> undisturbed -> NoDup R -> dev_ok R d -> (0 < len)%nat ->
  exists r out d' w' l,
    scale_read (S len) nonblock len (d, w) = Some ((r, out), (d', w')) /\
    read_outcome R len d w l r out d' w'.
Proof.
  intros Hh Hc Hu Hn Hd Hlen.
  destruct (read_start R d w Hd) as (d1 & w1 & E & Hr1 & Hb1 & Hrs & Hlk & Hq & Hbf & Hh1). specialize (Hh1 Hh).
  rewrite (read_unfold _ _ _ _ _ _ _ Hlen E). cbv zeta. rewrite Hq, Hbf.
  unfold fbind at 1. cbn [upd fmodify]. unfold fbind at 1. cbn [dev fst set_current rx_buffers]. rewrite Hb1.
  set (d2 := set_current None [] d1). pose proof (dev_cur R d Hd) as Hcur.
  assert (rx_ok R (current_rx_req d) d2) as Hd2 by (destruct Hr1; by constructor).
  destruct ((length (current_rx_buf d) =? 0)%nat && (length (rx_buffers d) =? 0)%nat) eqn:Ee.
  - apply andb_prop in Ee as [E1 E2]. apply Nat.eqb_eq in E1, E2.
    destruct (current_rx_buf d) eqn:Ecb; [|done]. destruct (rx_buffers d) eqn:Erb; [|done].
    assert (current_rx_req d = None) as Ecr by (by apply Hcur).
    assert (pending d = []) as Hp0 by (unfold pending, stream; by rewrite Ecb, Erb).
    destruct nonblock; cbn [andb].
    + unfold fbind. cbn [mutex_unlock upd fmodify fret].
      exists (- EAGAIN), [], (set_mutex false d2), w1, []. split; [done|]. split; [by rewrite app_nil_r|]. split.
      { constructor; [|done|done]. rewrite Ecr in Hd2. destruct Hd2. by constructor. }
      assert (pending (set_mutex false d2) = []) as Hp2 by (unfold pending, stream; cbn; by rewrite Hb1).
      rewrite Hp0, Hp2. split; [done|]. split; [right; split; [cbn; lia|done]|done].
    + unfold fbind at 1.
      destruct (unlocked_ok R None d2 w1 Hu Hn) as (d3 & w3 & l & -> & Hd3 & Hb3 & (R3 & L3 & _) & Hh3);
        [by rewrite <- Ecr|].
      unfold fbind at 1. rewrite Ecr.
      destruct (read_loop_ok R (S len) len None [] [] d3 w3 Hc Hu Hn)
        as (c' & b' & new & d' & w' & l' & -> & Hd' & Hcb & Hl' & Hst & Hle & Hmax & Hh');
        [lia|done|done|by rewrite R3|].
      unfold fbind. cbn [upd fmodify mutex_unlock fret app].
      do 2 eexists. exists (set_mutex false (set_current c' b' d')), w', (l ++ l').
      split; [reflexivity|]. split; [by rewrite Hh', Hh3, Hh1, app_assoc|].
      split; [by constructor; [destruct Hd'; constructor|..]|].
      change (pending (set_mutex false (set_current c' b' d'))) with (stream d' b').
      split; [rewrite Hst, Hp0, received_app; unfold stream; rewrite Hb3; cbn; by rewrite Hb1|].
      split; [|done]. destruct (decide (length new = len)); [by left|right]. split; [lia|]. by destruct Hmax.
  - cbn [andb]. unfold fbind at 1. cbn [fret]. unfold fbind at 1.
    destruct (read_loop_ok R (S len) len (current_rx_req d) (current_rx_buf d) [] d2 w1 Hc Hu Hn)
      as (c' & b' & new & d' & w' & l' & -> & Hd' & Hcb & Hl' & Hst & Hle & Hmax & Hh'); [lia|done..|].
    unfold fbind. cbn [upd fmodify mutex_unlock fret app].
    do 2 eexists. exists (set_mutex false (set_current c' b' d')), w', l'.
    split; [reflexivity|]. split; [by rewrite Hh', Hh1|].
    split; [by constructor; [destruct Hd'; constructor|..]|].
    change (pending (set_mutex false (set_current c' b' d'))) with (stream d' b').
    split; [rewrite Hst; unfold pending, stream; cbn; by rewrite Hb1|].
    split; [|done]. destruct (decide (length new = len)); [by left|right]. split; [lia|]. by destruct Hmax.
Qed.

(** C17: the receiving side of the device is a byte stream.  With a user
    buffer that can be written, a controller that completes each queued
    request at most once, and no reset meanwhile, a read of a positive length
    always returns.  It hands out the next bytes of the stream - those that
    were pending, then those of the packets that arrive while it runs, in
    order and each once -, as many as it was asked for or all there were;
    answers their number (-EAGAIN when there were none); leaves the rest for
    the next read, and releases the mutex; no receive request is lost or
    duplicated. *)
Theorem scale_read_stream R nonblock len d (w : W) :
  hears -> copies -> undisturbed -> NoDup R -> dev_ok R d -> (0 < len)%nat ->
  exists r out d' w' l,
    scale_read (S len) nonblock len (d, w) = Some ((r, out), (d', w')) /\
    heard w' = heard w ++ l /\ dev_ok R d' /\
    out ++ pending d' = pending d ++ received l /\
    (length out = len \/ ((length out < len)%nat /\ pending d' = [])) /\
    r = (if (0 <? length out)%nat then Z.of_nat (length out) else - EAGAIN).
Proof. apply scale_read_run. Qed.

End Read.

(** *** A bad user buffer *)
Section BadBuffer.
Context {W : Type} `{!ScaleOps W}.
Definition copies_nothing : Prop := forall l (w : W), fst (copy_to_user l w) = length l.

Lemma read_loop_hangs R fuel len cur buf out d (w : W) :
  copies_nothing -> undisturbed -> NoDup R -> (0 < len)%nat -> rx_ok R cur d -> (cur = None <-> buf = []) ->
  reset_scale d = false -> stream d buf <> [] -> read_loop fuel len cur buf out (d, w) = None.
Proof.
  intros Hc Hu Hn Hl. revert cur buf out d w.
  induction fuel as [|fuel IH]; intros cur buf out d w Hd Hcb Hr Hs; [done|].
  cbn [read_loop]. unfold fbind at 1. cbn [dev fst].
  assert (forall q b d1 w1, rx_ok R (Some q) d1 -> b <> [] -> reset_scale d1 = false ->
    (let size := Nat.min len (length b) in
     n <~ outside (copy_to_user (take size b)) ;;
     let size := (size - n)%nat in
     let out := out ++ take size b in
     unlocked ~;;
     d <~ dev ;;
     if reset_scale d then
       (upd (fun d => set_rx (q :: rx_reqs d) (rx_reqs_active d) (rx_buffers d) d) ~;;
        mutex_unlock ~;; fret (inl (- EAGAIN), out))
     else if (size <? length b)%nat then read_loop fuel (len - size) (Some q) (drop size b) out
     else
       (upd (fun d => set_rx (q :: rx_reqs d) (rx_reqs_active d) (rx_buffers d) d) ~;;
        read_loop fuel (len - size) None [] out)) (d1, w1) = None) as Hcopy.
  { intros q b d1 w1 Hd1 Hb Hr1. cbv zeta. unfold fbind at 1. cbn [outside].
    pose proof (Hc (take (Nat.min len (length b)) b) w1) as Hn1. rewrite length_take in Hn1.
    destruct (copy_to_user _ w1) as [n w2]. cbn in Hn1. subst n.
    replace (Nat.min len (length b) - Nat.min (Nat.min len (length b)) (length b))%nat with 0%nat by lia.
    unfold fbind at 1. destruct (unlocked_ok (fun _ => []) R (Some q) d1 w2 Hu Hn Hd1) as (d3 & w3 & l & -> & Hd3 & Hb3 & (R3 & _) & _).
    unfold fbind at 1. cbn [dev fst]. rewrite R3, Hr1. rewrite (proj2 (Nat.ltb_lt 0 (length b)))
      by (destruct b; [done|cbn; lia]). rewrite Nat.sub_0_r, drop_0.
    apply IH; [done|done|by rewrite R3|]. unfold stream. by destruct b. }
  assert ((((0 <? length buf) || (0 <? length (rx_buffers d))) && (0 <? len))%nat = true) as ->.
  { rewrite (proj2 (Nat.ltb_lt 0 len)) by done. rewrite andb_true_r. unfold stream in Hs.
    destruct buf as [|x buf]; [|done]. destruct (rx_buffers d); [done|]. done. }
  cbn [negb]. destruct (Nat.eqb_spec (length buf) 0) as [Eb|Eb].
  - destruct buf; [|done]. destruct (rx_buffers d) as [|[q bytes] rest] eqn:Hb; [done|].
    pose proof (rx_data R cur d Hd) as Hdat. rewrite Hb in Hdat. apply Forall_cons in Hdat as [Hne Hdat].
    cbn in Hne. unfold fbind at 1. cbn [upd fmodify].
    rewrite (proj2 (Nat.ltb_lt 0 (length bytes))) by (destruct bytes; [done|cbn; lia]).
    apply Hcopy; [|done|done]. assert (cur = None) as -> by (by apply Hcb).
    constructor; [|done]. rewrite <- (rx_perm R None d Hd). unfold rx_all. rewrite Hb.
    cbn [set_rx rx_reqs rx_reqs_active rx_buffers option_list fmap list_fmap fst]. solve_Permutation.
  - destruct cur as [q|]; [|by destruct Eb; rewrite (proj1 Hcb)]. apply Hcopy; [done|by intros ->|done].
Qed.

(** property: a read into an address that cannot be written does not fail: the
    copy loop makes no progress and starts over, so the call never returns,
    however long it runs. *)
Theorem scale_read_bad_buffer_hangs R fuel nonblock len d (w : W) :
  copies_nothing -> undisturbed -> NoDup R -> dev_ok R d -> (0 < len)%nat -> pending d <> [] ->
  scale_read fuel nonblock len (d, w) = None.
Proof.
  intros Hc Hu Hn Hd Hlen Hp.
  destruct (read_start (fun _ => []) R d w Hd) as (d1 & w1 & E & Hr1 & Hb1 & Hrs & Hlk & Hq & Hbf & _).
  rewrite (read_unfold _ _ _ _ _ _ _ Hlen E). cbv zeta. rewrite Hq, Hbf.
  unfold fbind at 1. cbn [upd fmodify]. unfold fbind at 1. cbn [dev fst set_current rx_buffers]. rewrite Hb1.
  assert ((length (current_rx_buf d) =? 0)%nat && (length (rx_buffers d) =? 0)%nat = false) as ->.
  { unfold pending, stream in Hp. apply andb_false_iff. destruct (current_rx_buf d); [right|by left].
    by destruct (rx_buffers d). }
  cbn [andb]. unfold fbind at 1. cbn [fret]. unfold fbind at 1.
  rewrite (read_loop_hangs R); [done|done|done|done|done| |apply (dev_cur R d Hd)|done|].
  - destruct Hr1. by constructor.
  - unfold pending, stream in *. cbn. by rewrite Hb1.
Qed.
End BadBuffer.

(** ** Sending *)
Definition tx_all (d : scale_dev) (held : list nat) : list nat := tx_reqs d ++ tx_reqs_active d ++ held.

Lemma tx_complete_ok T held d q :
  NoDup T -> tx_all d held ≡ₚ T -> q ∈ tx_reqs_active d -> tx_all (tx_complete q d) held ≡ₚ T.
Proof.
  intros Hn Hp Hq. rewrite <- Hp in Hn. unfold tx_all in Hn.
  apply NoDup_app in Hn as (N1 & N2 & Hn). apply NoDup_app in Hn as (N3 & _ & _).
  assert (q ∉ tx_reqs d) as A by (intros H; apply (N2 q H); rewrite elem_of_app; by left).
  pose proof (filter_present q (tx_reqs_active d) Hq N3) as Hf. rewrite <- Hp.
  unfold tx_all, tx_complete. cbn [set_tx tx_reqs tx_reqs_active]. rewrite (filter_absent q (tx_reqs d)) by done.
  set (F := filter (fun x => x <> q) (tx_reqs_active d)) in *. clearbody F. rewrite <- Hf. solve_Permutation.
Qed.

Lemma apply_irqs_tx T held l d :
  NoDup T -> tx_all d held ≡ₚ T -> Forall no_reset l ->
  exists d', apply_irqs l d = Some d' /\ tx_all d' held ≡ₚ T /\ same_ctl d d' /\
    (length (tx_reqs d) <= length (tx_reqs d'))%nat.
Proof.
  intros Hn Hp Hl. revert d Hp. induction Hl as [|i l Hi _ IH]; intros d Hp; [by exists d|].
  cbn [apply_irqs].
  assert (exists d1, apply_irq i d = Some d1 /\ tx_all d1 held ≡ₚ T /\ same_ctl d d1 /\
    (length (tx_reqs d) <= length (tx_reqs d1))%nat) as (d1 & -> & Hp1 & Hs1 & Hl1).
  { destruct i as [q st bytes|q|]; [| |done]; cbn [apply_irq]; case_bool_decide as Hq; eexists;
      (split; [reflexivity|]); try done.
    - unfold rx_complete, same_ctl. by destruct (_ && _).
    - split; [by apply tx_complete_ok|]. split; [done|]. cbn [tx_complete set_tx tx_reqs].
      rewrite filter_absent; [cbn; lia|]. intros H. rewrite <- Hp in Hn. unfold tx_all in Hn.
      apply NoDup_app in Hn as (_ & N2 & _). apply (N2 q H). rewrite elem_of_app. by left. }
  cbn [mbind option_bind]. destruct (IH d1 Hp1) as (d2 & -> & Hp2 & Hs2 & Hl2). exists d2. split; [done|].
  split; [done|]. split; [unfold same_ctl in *; intuition congruence|lia].
Qed.

(** The chunks of [data]: full buffers, the last one with the zero flag when
    it ends on a packet boundary. *)
Fixpoint chunked (maxpacket : Z) (data : list Z) (sent : list (nat * list Z * bool)) : Prop :=
  match sent with
  | [] => True
  | (_, chunk, zero) :: sent =>
      let size := Nat.min (length data) USB_BUFSIZE in
      chunk = take size data /\ chunk <> [] /\
      zero = (if (size <? length data)%nat then false else Z.of_nat (length data) mod maxpacket =? 0) /\
      chunked maxpacket (drop size data) sent
  end.

Definition payload (sent : list (nat * list Z * bool)) : list Z :=
  concat ((fun x => snd (fst x)) <$> sent).

Section Write.
Context {W : Type} `{!ScaleOps W}.

(** [queued] keeps the transfers the controller has accepted. *)
Context (queued : W -> list (nat * list Z * bool)).
Record sends : Prop := {
  s_queue : forall q c z w, queued (snd (queue_in q c z w)) =
    queued w ++ (if fst (queue_in q c z w) =? 0 then [(q, c, z)] else []);
  s_copy : forall c w, queued (snd (copy_from_user c w)) = queued w;
  s_window : forall rx tx w, queued (snd (window rx tx w)) = queued w;
}.

(** Why a write stops early, with [n] bytes queued: the user's buffer cannot
    be read, or the controller refuses a transfer. *)
Definition stopped (e : Z) (n : nat) : Prop :=
  (exists c (w : W), fst (copy_from_user c w) = true) /\ e = Z.of_nat n \/
  (exists q c z (w : W), fst (queue_in q c z w) <> 0) /\ e = - EAGAIN.

(** As much as fits the requests that are free. *)
Definition capacity (d : scale_dev) (data : list Z) : nat :=
  Nat.min (length data) (USB_BUFSIZE * length (tx_reqs d)).

Definition write_result (T : list nat) (maxpacket : Z) (data : list Z) (copied : nat)
    (sent : list (nat * list Z * bool)) (d : scale_dev) (w : W)
    (r : option (((Z + nat) * list (nat * list Z * bool)) * (scale_dev * W))) : Prop :=
  exists res new rest d' w',
    r = Some ((res, sent ++ new), (d', w')) /\ queued w' = queued w ++ new /\
    chunked maxpacket data new /\ data = payload new ++ rest /\ tx_all d' [] ≡ₚ T /\
    match res with
    | inr n => n = (copied + length (payload new))%nat /\ (rest = [] \/ tx_reqs d' = []) /\
               lock_scale_io d' = lock_scale_io d /\ (capacity d data <= length (payload new))%nat
    | inl e => stopped e (copied + length (payload new)) /\ rest <> [] /\ lock_scale_io d' = false
    end.

Lemma write_stop T maxpacket data copied sent d w d' (w' : W) req e :
  data <> [] -> tx_all d' [req] ≡ₚ T -> stopped e copied -> queued w' = queued w ->
  write_result T maxpacket data copied sent d w
    ((upd (fun d => set_tx (req :: tx_reqs d) (tx_reqs_active d) d) ~;;
      mutex_unlock ~;; fret (inl e, sent)) (d', w')).
Proof.
  intros Hne Hp He Hq. unfold fbind. cbn [upd fmodify mutex_unlock fret].
  exists (inl e), [], data. do 2 eexists. rewrite !app_nil_r. split; [reflexivity|]. split; [done|].
  split; [done|]. split; [done|]. split; [|cbn; by rewrite Nat.add_0_r].
  rewrite <- Hp. unfold tx_all. cbn. solve_Permutation.
Qed.

Lemma write_loop_ok T fuel maxpacket data copied sent d (w : W) :
  sends -> undisturbed -> NoDup T -> (length data < fuel)%nat -> tx_all d [] ≡ₚ T -> reset_scale d = false ->
  write_result T maxpacket data copied sent d w (write_loop fuel maxpacket data copied sent (d, w)).
Proof.
  intros Hs Hu Hn. revert data copied sent d w.
  induction fuel as [|fuel IH]; intros data copied sent d w Hf Hp Hrs; [lia|].
  cbn [write_loop]. unfold fbind at 1. cbn [dev fst].
  destruct (tx_reqs d) as [|req rest] eqn:Hr.
  { exists (inr copied), [], data, d, w. rewrite !app_nil_r. split_and!; try done; [by right|].
    unfold capacity. rewrite Hr. cbn [length]. lia. }
  destruct (Nat.eqb_spec (length data) 0) as [E|E].
  { destruct data; [|done]. exists (inr copied), [], [], d, w. rewrite !app_nil_r.
    split_and!; try done; by left. }
  assert (data <> []) as Hne by (by intros ->).
  set (size := Nat.min (length data) USB_BUFSIZE). set (chunk := take size data).
  set (zero := if (size <? length data)%nat then false else _).
  assert (0 < size <= length data)%nat as Hsz by (unfold size, USB_BUFSIZE; lia).
  assert (length chunk = size) as Hcl by (unfold chunk; rewrite length_take; lia).
  unfold fbind at 1. cbn [upd fmodify]. set (d1 := set_tx rest (tx_reqs_active d) d).
  assert (tx_all d1 [req] ≡ₚ T) as Hp1.
  { rewrite <- Hp. unfold tx_all, d1. rewrite Hr. cbn. solve_Permutation. }
  unfold fbind at 1. cbn [outside]. pose proof (s_copy Hs chunk w) as Q1.
  destruct (copy_from_user chunk w) as [failed w1] eqn:Ec. cbn [snd] in Q1.
  unfold fbind at 1, unlocked at 1. pose proof (Hu (rx_reqs_active d1) (tx_reqs_active d1) w1) as [Hw _].
  pose proof (s_window Hs (rx_reqs_active d1) (tx_reqs_active d1) w1) as Q2.
  destruct (window _ _ w1) as [l w2]. cbn in Hw, Q2.
  destruct (apply_irqs_tx T [req] l d1 Hn Hp1 Hw) as (d2 & -> & Hp2 & (R2 & L2 & _) & Ht2).
  destruct failed.
  { apply write_stop; [done|exact Hp2| |congruence]. left. split; [|done]. exists chunk, w. by rewrite Ec. }
  unfold fbind at 1. cbn [dev fst]. rewrite R2. change (reset_scale d1) with (reset_scale d). rewrite Hrs.
  unfold fbind at 1. cbn [outside]. pose proof (s_queue Hs req chunk zero w2) as Q3.
  destruct (queue_in req chunk zero w2) as [e w3] eqn:Eq. cbn [fst snd] in Q3.
  destruct (Z.eqb_spec e 0) as [He|He]; cbn [negb].
  2: { apply write_stop; [done|exact Hp2| |rewrite Q3, app_nil_r; congruence]. right. split; [|done].
       exists req, chunk, zero, w2. by rewrite Eq. }
  unfold fbind. cbn [upd fmodify].
  destruct (IH (drop size data) (copied + size)%nat (sent ++ [(req, chunk, zero)])
    (set_tx (tx_reqs d2) (req :: tx_reqs_active d2) d2) w3)
    as (res & new & rst & d' & w' & -> & Hq' & Hch & Hdat & Hp' & Hres).
  { rewrite length_drop. lia. }
  { rewrite <- Hp2. unfold tx_all. cbn. solve_Permutation. }
  { cbn. by rewrite R2. }
  assert (payload ((req, chunk, zero) :: new) = chunk ++ payload new) as Hpay by done.
  exists res, ((req, chunk, zero) :: new), rst, d', w'. rewrite <- app_assoc. split; [done|].
  split; [by rewrite Hq', Q3, Q2, Q1, <- app_assoc|].
  split. { cbn [chunked]. split; [done|]. split; [intros H; rewrite H in Hcl; cbn in Hcl; lia|]. done. }
  rewrite Hpay, length_app, Hcl. split; [by rewrite <- app_assoc, <- Hdat; unfold chunk; rewrite take_drop|].
  split; [done|]. destruct res as [e'|n].
  - destruct Hres as (He' & Hr' & Hl'). split; [|done]. by rewrite Nat.add_assoc.
  - destruct Hres as (-> & Hr' & Hl' & Hcap). split; [lia|]. split; [done|].
    change (lock_scale_io d1) with (lock_scale_io d) in L2. cbn in Hl'. split; [congruence|].
    unfold capacity in *. rewrite Hr. cbn [length set_tx tx_reqs] in *. rewrite length_drop in Hcap.
    change (length (tx_reqs d1)) with (length rest) in Ht2. unfold size, USB_BUFSIZE in *. lia.
Qed.

(** C18: unless the host resets the device, and with a free request or in
    blocking mode (in non-blocking mode without one the call deadlocks), a
    write of data always returns.  The transfers it has queued with the
    controller are a prefix of the data, in buffers of at most 512 bytes, the
    last of the data flagged for a zero length packet exactly when the data
    ends on a packet boundary.  With a user buffer that can be read and a
    controller that accepts the transfers, they hold at least as much of the
    data as fits the requests that were free, it goes on until all is queued
    or no request is free, and it answers the number of bytes queued, -EAGAIN
    when there are none; a bad user buffer is answered with the number of
    bytes queued before, a refused transfer with -EAGAIN.  The mutex is
    released, and no request is lost or duplicated. *)
Theorem scale_write_spec T maxpacket nonblock data d (w : W) :
  sends -> undisturbed -> NoDup T -> tx_all d [] ≡ₚ T -> lock_scale_io d = false ->
  0 <= interface d -> data <> [] -> nonblock = false \/ tx_reqs d <> [] ->
  exists r sent rest d' w',
    scale_write maxpacket nonblock data (d, w) = Some ((r, sent), (d', w')) /\
    queued w' = queued w ++ sent /\ chunked maxpacket data sent /\ data = payload sent ++ rest /\
    tx_all d' [] ≡ₚ T /\ lock_scale_io d' = false /\
    (stopped r (length (payload sent)) /\ rest <> [] \/
     (capacity d data <= length (payload sent))%nat /\ (rest = [] \/ tx_reqs d' = []) /\
     r = if (0 <? length (payload sent))%nat then Z.of_nat (length (payload sent)) else - EAGAIN).
Proof.
  intros Hs Hu Hn Hp Hl Hi Hne Hb. unfold scale_write. unfold fbind at 1. cbn [dev fst].
  rewrite (proj2 (Z.ltb_ge _ _) Hi). rewrite (proj2 (Nat.eqb_neq (length data) 0)) by (by destruct data).
  unfold fbind at 1, mutex_lock at 1. unfold fbind at 1. cbn [dev fst]. rewrite Hl. cbn [upd fmodify].
  unfold fbind at 1. cbn [upd fmodify]. unfold fbind at 1. cbn [dev fst].
  set (d1 := set_reset false (set_mutex true d)). change (tx_reqs d1) with (tx_reqs d).
  assert (((length (tx_reqs d) =? 0)%nat && nonblock) = false) as ->.
  { destruct Hb as [->|Hb]; [by rewrite andb_false_r|]. by destruct (tx_reqs d). }
  assert (exists d2 w2, (if (length (tx_reqs d) =? 0)%nat then unlocked else fret tt) (d1, w) =
    Some (tt, (d2, w2)) /\ tx_all d2 [] ≡ₚ T /\ reset_scale d2 = false /\ queued w2 = queued w /\
    (length (tx_reqs d) <= length (tx_reqs d2))%nat) as (d2 & w2 & E2 & Hp2 & R2 & Q2 & T2).
  { destruct (_ =? 0)%nat; [|by exists d1, w]. unfold unlocked.
    pose proof (Hu (rx_reqs_active d1) (tx_reqs_active d1) w) as [Hw _].
    pose proof (s_window Hs (rx_reqs_active d1) (tx_reqs_active d1) w) as Q.
    destruct (window _ _ w) as [l w1]. cbn in Hw, Q.
    destruct (apply_irqs_tx T [] l d1 Hn Hp Hw) as (d2 & -> & Hp2 & (R2 & _) & T2). by exists d2, w1. }
  unfold fbind at 1. rewrite E2. unfold fbind at 1.
  destruct (write_loop_ok T (S (length data)) maxpacket data 0 [] d2 w2 Hs Hu Hn)
    as (res & new & rest & d' & w' & -> & Hq & Hch & Hdat & Hp' & Hres); [lia|done|done|].
  rewrite Q2 in Hq. cbn [app Nat.add] in *. destruct res as [e|n].
  - destruct Hres as (He & Hr & Hlk). exists e, new, rest, d', w'. split_and!; try done. by left.
  - destruct Hres as (-> & Hr & Hlk & Hcap). unfold fbind. cbn [mutex_unlock upd fmodify fret].
    do 2 eexists. exists rest. do 2 eexists. split; [reflexivity|]. split_and!; try done. right.
    split; [|done]. unfold capacity, USB_BUFSIZE in *. lia.
Qed.

End Write.

(** property: in non-blocking mode, with no free request, a write takes the
    mutex a second time instead of releasing it: the call never returns. *)
Theorem scale_write_nonblock_deadlocks {W : Type} `{!ScaleOps W} maxpacket data d (w : W) :
  lock_scale_io d = false -> 0 <= interface d -> data <> [] -> tx_reqs d = [] ->
  scale_write maxpacket true data (d, w) = None.
Proof.
  intros Hl Hi Hne Ht. unfold scale_write. unfold fbind at 1. cbn [dev fst].
  rewrite (proj2 (Z.ltb_ge _ _) Hi). rewrite (proj2 (Nat.eqb_neq (length data) 0)) by (by destruct data).
  unfold fbind at 1, mutex_lock at 1. unfold fbind at 1. cbn [dev fst]. rewrite Hl. cbn [upd fmodify].
  unfold fbind at 1. cbn [upd fmodify]. unfold fbind at 1. cbn [dev fst].
  change (tx_reqs (set_reset false (set_mutex true d))) with (tx_reqs d). rewrite Ht. done.
Qed.

(** ** Soft reset *)
Lemma give_back_rx R cur gr d :
  NoDup R -> rx_ok R cur d -> gr ≡ₚ rx_reqs_active d ->
  let d' := foldl (fun d q => rx_complete q (- ESHUTDOWN) [] d) d gr in
  rx_ok R cur d' /\ rx_reqs_active d' = [] /\ rx_buffers d' = rx_buffers d /\ same_ctl d d' /\
  tx_reqs d' = tx_reqs d /\ tx_reqs_active d' = tx_reqs_active d.
Proof.
  intros Hn. revert d. induction gr as [|q gr IH]; intros d Hd Hp.
  { symmetry in Hp. apply Permutation_nil_r in Hp. cbn [foldl]. done. }
  assert (q ∈ rx_reqs_active d) as Hq by (rewrite <- Hp; apply elem_of_cons; by left).
  assert (NoDup (rx_reqs_active d)) as Hna.
  { rewrite <- (rx_perm R cur d Hd) in Hn. unfold rx_all in Hn. apply NoDup_app in Hn as (_ & _ & Hn).
    by apply NoDup_app in Hn as (? & _ & _). }
  cbn [foldl]. set (d1 := rx_complete q (- ESHUTDOWN) [] d).
  destruct (rx_complete_ok R cur d q (- ESHUTDOWN) [] Hn Hd Hq) as [Hd1 _]. fold d1 in Hd1.
  assert (rx_reqs_active d1 = filter (fun x => x <> q) (rx_reqs_active d)) as Ha by done.
  assert (rx_buffers d1 = rx_buffers d) as Hb.
  { apply filter_absent_fst. rewrite <- (rx_perm R cur d Hd) in Hn. unfold rx_all in Hn.
    apply NoDup_app in Hn as (_ & _ & Hn). apply NoDup_app in Hn as (_ & Hn & _). intros H.
    apply (Hn q Hq). rewrite elem_of_app. by left. }
  destruct (IH d1 Hd1) as (H1 & H2 & H3 & H4 & H5 & H6).
  { rewrite Ha. apply (Permutation_cons_inv (a := q)). by rewrite filter_present. }
  split; [done|]. split; [done|]. split; [congruence|]. split; [|done]. exact H4.
Qed.

Lemma give_back_tx T gt d :
  NoDup T -> tx_all d [] ≡ₚ T -> gt ≡ₚ tx_reqs_active d ->
  let d' := foldl (fun d q => tx_complete q d) d gt in
  tx_all d' [] ≡ₚ T /\ tx_reqs_active d' = [] /\
  rx_reqs d' = rx_reqs d /\ rx_reqs_active d' = rx_reqs_active d /\ rx_buffers d' = rx_buffers d /\ same_ctl d d'.
Proof.
  intros Hn. revert d. induction gt as [|q gt IH]; intros d Hd Hp.
  { symmetry in Hp. apply Permutation_nil_r in Hp. cbn [foldl]. done. }
  assert (q ∈ tx_reqs_active d) as Hq by (rewrite <- Hp; apply elem_of_cons; by left).
  assert (NoDup (tx_reqs_active d)) as Hna.
  { rewrite <- Hd in Hn. unfold tx_all in Hn. apply NoDup_app in Hn as (_ & _ & Hn).
    by apply NoDup_app in Hn as (? & _ & _). }
  cbn [foldl]. destruct (IH (tx_complete q d)) as (H1 & H2 & H3 & H4 & H5 & H6).
  - by apply tx_complete_ok.
  - unfold tx_complete. cbn [set_tx tx_reqs_active]. apply (Permutation_cons_inv (a := q)).
    by rewrite filter_present.
  - split; [done|]. split; [done|]. split; [done|]. split; [done|]. split; [done|]. exact H6.
Qed.

Lemma drain_rx_nil buffers reqs : drain_rx [] buffers reqs = Some (reqs, buffers).
Proof. by destruct buffers. Qed.

Lemma drain_rx_stuck active buffers reqs : active <> [] -> drain_rx active buffers reqs = None.
Proof.
  intros Ha. revert reqs. induction buffers as [|[q b] buffers IH]; intros reqs; destruct active; try done.
  cbn [drain_rx]. apply IH.
Qed.

(** property: a soft reset with a controller that gives back every queued
    request when its endpoints are disabled (as it is documented to) ends
    with no request in flight: all of them are free, or hold data the host
    had sent before; none is lost.  The loop over the active receive requests
    itself takes the requests from another list: if the controller gives none
    back and one is active, it ends up treating the head of the list as a
    request. *)
Theorem soft_reset_spec R T gt gr d :
  NoDup R -> NoDup T -> dev_ok R d -> tx_all d [] ≡ₚ T ->
  (gt ≡ₚ tx_reqs_active d -> gr ≡ₚ rx_reqs_active d ->
   exists d', soft_reset_queues gt gr d = Some d' /\ dev_ok R d' /\ tx_all d' [] ≡ₚ T /\
     rx_reqs_active d' = [] /\ tx_reqs_active d' = [] /\ current_rx_req d' = None /\
     rx_buffers d' = rx_buffers d /\ reset_scale d' = true) /\
  (rx_reqs_active d <> [] -> soft_reset_queues [] [] d = None).
Proof.
  intros HR HT [Hd Hc Hl] Ht. split.
  - intros Hgt Hgr. unfold soft_reset_queues.
    pose proof (give_back_tx T gt d HT Ht Hgt) as H. cbv zeta in H.
    set (d1 := foldl (fun d q => tx_complete q d) d gt) in *.
    destruct H as (H1 & H2 & H3 & H4 & H5 & (S1 & S2 & S3 & S4)).
    assert (rx_ok R (current_rx_req d1) d1) as Hd1.
    { rewrite S3. destruct Hd as [Hp Hf]. constructor; [|by rewrite H5]. rewrite <- Hp. unfold rx_all.
      by rewrite H3, H4, H5. }
    pose proof (give_back_rx R (current_rx_req d1) gr d1 HR Hd1) as G. cbv zeta in G. rewrite H4 in G.
    specialize (G Hgr). set (d2 := foldl (fun d q => rx_complete q (- ESHUTDOWN) [] d) d1 gr) in *.
    destruct G as (G1 & G2 & G3 & (_ & L2 & C2 & _) & G5 & G6).
    set (d3 := match current_rx_req d2 with Some q => _ | None => d2 end).
    assert (rx_ok R None d3 /\ rx_reqs_active d3 = [] /\ rx_buffers d3 = rx_buffers d /\
      tx_reqs d3 = tx_reqs d1 /\ tx_reqs_active d3 = [] /\ lock_scale_io d3 = false) as (K1 & K2 & K3 & K4 & K5 & K6).
    { unfold d3. rewrite <- C2 in G1. destruct (current_rx_req d2) as [q|].
      - split; [|cbn; rewrite G2, G3, G5, G6, L2, S2; done].
        destruct G1 as [Hp Hf]. constructor; [|done]. rewrite <- Hp. unfold rx_all. cbn.
        rewrite G2. solve_Permutation.
      - split; [done|]. rewrite G2, G3, G5, G6, L2, S2. done. }
    cbn [drain_tx set_tx set_reset set_current rx_reqs_active rx_buffers rx_reqs tx_reqs_active rev app].
    rewrite K2, drain_rx_nil. cbn [mbind option_bind fst snd]. eexists. split; [reflexivity|].
    split; [|split; [|cbn; done]].
    + constructor; [|done|done]. destruct K1 as [Hp Hf]. constructor; [|done]. rewrite <- Hp. unfold rx_all.
      cbn. by rewrite K2.
    + rewrite <- H1. unfold tx_all. cbn. rewrite K5, K4, H2. cbn. by rewrite !app_nil_r.
  - intros Ha. unfold soft_reset_queues. cbn [foldl].
    set (d3 := match current_rx_req d with Some q => _ | None => d end).
    assert (rx_reqs_active d3 <> []) as H3 by (unfold d3; by destruct (current_rx_req d)).
    cbn [drain_tx set_tx set_reset set_current rx_reqs_active rx_buffers rx_reqs].
    by rewrite drain_rx_stuck.
Qed.

(** property: [scale_fsync] decides whether to wait by looking at the free
    requests: with every request in flight it reports success at once. *)
Theorem fsync_does_not_wait {W} `{!ScaleOps W} d (w : W) :
  tx_reqs d = [] -> scale_fsync (d, w) = Some (0, (d, w)).
Proof. intros H. unfold scale_fsync, fbind. cbn [dev fst]. by rewrite H. Qed.

(** ** A concrete device *)
#[export] Instance calm_ops : ScaleOps unit := {|
  queue_out _ w := (0, w);
  queue_in _ _ _ w := (0, w);
  copy_to_user _ w := (0%nat, w);
  copy_from_user _ w := (false, w);
  window _ _ w := ([], w);
  usb_ep_enable _ w := (0, w);
  usb_ep_disable _ w := (tt, w);
  vbus_draw _ w := (tt, w);
|}.
Definition faulty_ops : ScaleOps unit := {|
  queue_out _ w := (0, w);
  queue_in _ _ _ w := (0, w);
  copy_to_user l w := (length l, w);
  copy_from_user _ w := (true, w);
  window _ _ w := ([], w);
  usb_ep_enable _ w := (0, w);
  usb_ep_disable _ w := (tt, w);
  vbus_draw _ w := (tt, w);
|}.

Definition demo_scale : scale_dev :=
  mkScale [0%nat] [1%nat] [(2%nat, [1; 2; 3]); (3%nat, [4; 5])] None [] [4%nat; 5%nat] [6%nat] 0 false true 1 0
    true true false.

Lemma demo_scale_ok : dev_ok [0%nat; 1%nat; 2%nat; 3%nat] demo_scale.
Proof. constructor; [constructor|done|done]; [done|]. by repeat constructor. Qed.
Lemma demo_scale_nodup : NoDup [0%nat; 1%nat; 2%nat; 3%nat].
Proof. by apply (bool_decide_unpack _). Qed.
Lemma demo_scale_tx : NoDup [4%nat; 5%nat; 6%nat].
Proof. by apply (bool_decide_unpack _). Qed.

Lemma calm_undisturbed : @undisturbed unit calm_ops.
Proof. intros rx tx w. cbn. split; [constructor|]. split; [constructor|]. intros x H. by apply elem_of_nil in H. Qed.

Lemma scale_read_stream_witness :
  exists r out d' w' l,
    scale_read 5 true 4 (demo_scale, tt) = Some ((r, out), (d', w')) /\
    [] = [] ++ l /\ out ++ pending d' = [1; 2; 3; 4; 5] ++ received l.
Proof.
  destruct (scale_read_stream (fun _ => []) [0; 1; 2; 3]%nat true 4 demo_scale tt)
    as (r & out & d' & w' & l & E & Hl & _ & H & _).
  - by constructor.
  - intros l w. reflexivity.
  - exact calm_undisturbed.
  - exact demo_scale_nodup.
  - exact demo_scale_ok.
  - lia.
  - exists r, out, d', w', l. exact (conj E (conj Hl H)).
Defined.

Lemma scale_read_bad_buffer_hangs_witness :
  @scale_read unit faulty_ops 1000 true 4 (demo_scale, tt) = None.
Proof.
  apply (@scale_read_bad_buffer_hangs unit faulty_ops [0; 1; 2; 3]%nat).
  - intros l w. reflexivity.
  - intros rx tx w. split; [constructor|]. split; [constructor|]. intros x H. by apply elem_of_nil in H.
  - exact demo_scale_nodup.
  - exact demo_scale_ok.
  - lia.
  - discriminate.
Defined.

(** A world that keeps the transfers. *)
Definition keeping_ops : ScaleOps (list (nat * list Z * bool)) := {|
  queue_out _ w := (0, w);
  queue_in q c z w := (0, w ++ [(q, c, z)]);
  copy_to_user _ w := (0%nat, w);
  copy_from_user _ w := (false, w);
  window _ _ w := ([], w);
  usb_ep_enable _ w := (0, w);
  usb_ep_disable _ w := (tt, w);
  vbus_draw _ w := (tt, w);
|}.

Lemma scale_write_spec_witness :
  exists r sent d' w',
    @scale_write _ keeping_ops 64 false [7; 8; 9] (demo_scale, []) = Some ((r, sent), (d', w')) /\
    w' = [] ++ sent /\ chunked 64 [7; 8; 9] sent.
Proof.
  destruct (@scale_write_spec _ keeping_ops (fun w => w) [4; 5; 6]%nat 64 false [7; 8; 9] demo_scale [])
    as (r & sent & rest & d' & w' & E & Hq & H & _).
  - constructor; [reflexivity|reflexivity|reflexivity].
  - intros rx tx w. split; [constructor|]. split; [constructor|]. intros x H. by apply elem_of_nil in H.
  - exact demo_scale_tx.
  - reflexivity.
  - reflexivity.
  - cbn. lia.
  - discriminate.
  - left. reflexivity.
  - exists r, sent, d', w'. exact (conj E (conj Hq H)).
Defined.

Lemma scale_write_nonblock_deadlocks_witness :
  scale_write 64 true [7] (set_tx [] [4%nat; 5%nat; 6%nat] demo_scale, tt) = None.
Proof.
  apply (scale_write_nonblock_deadlocks 64 [7] (set_tx [] [4%nat; 5%nat; 6%nat] demo_scale) tt);
    [reflexivity|cbn; lia|discriminate|reflexivity].
Defined.

Lemma soft_reset_spec_witness :
  soft_reset_queues [] [] demo_scale = None.
Proof.
  apply (soft_reset_spec [0; 1; 2; 3]%nat [4; 5; 6]%nat [] [] demo_scale demo_scale_nodup demo_scale_tx
    demo_scale_ok); [reflexivity|discriminate].
Defined.

Lemma fsync_does_not_wait_witness :
  scale_fsync (set_tx [] [4%nat; 5%nat; 6%nat] demo_scale, tt) =
    Some (0, (set_tx [] [4%nat; 5%nat; 6%nat] demo_scale, tt)).
Proof. apply fsync_does_not_wait. reflexivity. Defined.
