(* ===== verification/ScaleSetup.v ===== *)
(** * USB gadget: control requests of the scale gadget (test_gadget/scale_usb.c)

    The descriptors of the gadget, [config_buf1] and the whole of
    [scale_setup], on the device of [ScaleUsb] and the 256 byte buffer of the
    control request.  Reading past the end of an answer, writing past the end
    of the buffer and clearing a negative number of bytes are faults ([None]).
    What the controller is handed is the buffer, the length it is told to
    send and the zero flag. *)

From Stdlib Require Import ZArith.
From stdpp Require Import base list strings.
From S2P Require Import Prelude UsbString UsbConfig EpAutoconf Composite CompositeCtl ScaleUsb.

Definition USB_DESC_BUFSIZE : nat := 256.
Definition PRINTER_VENDOR_NUM : Z := 0x6244.
Definition PRINTER_PRODUCT_NUM : Z := 0x0431.
Definition SCALE_USB_NOT_ERROR : Z := 0x08.
Definition STRING_MANUFACTURER : nat := 1.
Definition STRING_PRODUCT : nat := 2.
Definition STRING_SERIALNUM : nat := 3.
Definition USB_TYPE_MASK : Z := 0x60.
Definition USB_TYPE_STANDARD : Z := 0x00.
Definition USB_TYPE_CLASS : Z := 0x20.
Definition USB_TYPE_VENDOR : Z := 0x40.

(** ** Descriptors *)
Definition device_desc0 : usb_device_descriptor :=
  mkDevDesc 0x0110 0 0 0 0x40 PRINTER_VENDOR_NUM PRINTER_PRODUCT_NUM 0x0108
    (Z.of_nat STRING_MANUFACTURER) (Z.of_nat STRING_PRODUCT) (Z.of_nat STRING_SERIALNUM) 1.

Definition report_desc : list Z :=
  [0x05; 0x01; 0x09; 0x02; 0xa1; 0x01; 0x09; 0x01; 0xa1; 0x00; 0x05; 0x09; 0x19; 0x01; 0x29; 0x03;
   0x15; 0x00; 0x25; 0x01; 0x95; 0x03; 0x75; 0x01; 0x81; 0x02; 0x95; 0x01; 0x75; 0x05; 0x81; 0x01;
   0x05; 0x01; 0x09; 0x30; 0x09; 0x31; 0x09; 0x38; 0x15; 0x81; 0x25; 0x7f; 0x75; 0x08; 0x95; 0x03;
   0x81; 0x06; 0xc0; 0xc0].

Definition otg_desc : list Z := [3; 9; 1].
Definition config_desc1 : list Z :=
  [9; USB_DT_CONFIG; 9; 0; 1; DEV_CONFIG_VALUE; 0; USB_CONFIG_ATT_ONE; 50].
Definition dmx_intf_desc : list Z := [9; 4; 0; 0; 6; 0xff; 0; 0; 0].

(** Endpoint descriptors: what autoconfiguration changes is the record of
    [EpAutoconf]; the bytes add the interval. *)
Definition bulk_desc (addr : Z) : usb_endpoint_descriptor := mkDesc addr USB_ENDPOINT_XFER_BULK 64.
Definition ep_bytes (d : usb_endpoint_descriptor) (bInterval : Z) : list Z :=
  [7; USB_DT_ENDPOINT; bEndpointAddress d; bmAttributes d] ++ le16 (wMaxPacketSize d) ++ [bInterval].

Record scale_eps := mkEps {
  dmx_ep2_in_desc : usb_endpoint_descriptor;
  dmx_ep5_in_desc : usb_endpoint_descriptor;
  dmx_ep8_in_desc : usb_endpoint_descriptor;
  dmx_ep2_out_desc : usb_endpoint_descriptor;
  dmx_ep5_out_desc : usb_endpoint_descriptor;
  dmx_ep8_out_desc : usb_endpoint_descriptor;
  fs_ep_in_desc : usb_endpoint_descriptor;
  fs_ep_out_desc : usb_endpoint_descriptor;
}.
Definition scale_eps0 : scale_eps :=
  mkEps (bulk_desc 0x82) (bulk_desc 0x85) (bulk_desc 0x88) (bulk_desc 0x02) (bulk_desc 0x05)
    (bulk_desc 0x08) (bulk_desc 0x80) (bulk_desc 0x00).

(** [fs_dmx_scale_function], without the terminating NULL. *)
Definition fs_dmx_scale_function (e : scale_eps) : list (list Z) :=
  [otg_desc; config_desc1; dmx_intf_desc;
   ep_bytes (dmx_ep2_out_desc e) 1; ep_bytes (dmx_ep5_out_desc e) 1; ep_bytes (dmx_ep8_out_desc e) 0;
   ep_bytes (dmx_ep2_in_desc e) 1; ep_bytes (dmx_ep5_in_desc e) 1; ep_bytes (dmx_ep8_in_desc e) 1].

(** ** Strings: the tables of characters with their terminators *)
Definition cstr (size : nat) (s : String.string) : list Z :=
  let l := (fun c => Z.of_nat (Ascii.nat_of_ascii c)) <$> String.list_ascii_of_string s in
  l ++ replicate (size - length l) 0.
Definition manufacturer : list Z := cstr 50 "SIUDI8A".
(** A quote, 0000000279A8, two spaces. *)
Definition product_desc : list Z := 34 :: cstr 39 "0000000279A8  ".
Definition serial_num : list Z := cstr 40 "162216".
Definition strings0 : list (Z * list Z) :=
  [(0, cstr 17 "joy string test!"); (0, manufacturer); (0, product_desc); (0, serial_num)].
Definition pnp_string0 : list Z := cstr 1024 "XXMFG:linux;MDL:scale;CLS:COMM;SN:1;".

(** The module's static data. *)
Record scale_static := mkStatic {
  device_desc : usb_device_descriptor;
  strtab : list (Z * list Z);
  pnp_string : list Z;
  eps : scale_eps;
}.
Definition static0 : scale_static := mkStatic device_desc0 strings0 pnp_string0 scale_eps0.
Definition stringtab (s : scale_static) : usb_gadget_strings := mkStrings 0x0409 (Some (strtab s)).

(** ** [config_buf1], on the request's buffer: the length and the buffer *)
Definition config_buf1 (s : scale_static) (buf : list Z) (type : Z) (index : Z) : option (Z * list Z) :=
  if bNumConfigurations (device_desc s) <=? index then Some (- EINVAL, buf)
  else
    let function := drop 1 (fs_dmx_scale_function (eps s)) in
    buf ← buf_store buf 0 (replicate USB_DESC_BUFSIZE 0);
    r ← usb_gadget_config_buf config_desc1 buf USB_DESC_BUFSIZE (Some (drop 1 function));
    let '(len, buf) := r in
    if len <? 0 then Some (len, buf)
    else
      buf ← buf_store buf 1 [type];
      Some (len, buf).

(** ** Vendor requests

    A case of the switch is a sequence of tests of [wValue] and [wIndex],
    each with an answer: [v_limit] is the bound in [min(wLength, _)], [None]
    where the code takes [wLength] itself. *)
Record vendor_rule := mkRule {
  v_value : Z;
  v_index : Z;
  v_answer : list Z;
  v_limit : option Z;
  v_test : Z;                (** what it sets [test_vendor] to; 0 leaves it *)
}.

Definition answer_31 : list Z := [0x05; 0; 0; 0; 0].
Definition answer_25 : list Z := [0x45; 0xb5; 0xf8; 0x52; 0; 0; 0; 0; 0].
Definition answer_02_1 : list Z :=
  [0x3c; 0; 0; 0; 0; 0; 0; 0; 0xcd; 0xcc; 0xcc; 0xcc; 0xcc; 0xcc; 0x45; 0x40;
   0xaa; 0xf1; 0xd2; 0x4d; 0x62; 0x10; 0x0f; 0x40; 0; 0; 0; 0; 0x01; 0; 0; 0; 0].
Definition answer_02_0 : list Z :=
  [0xa8; 0x79; 0x02; 0x00; 0x87; 0x00; 0x00; 0x02; 0x00; 0x00; 0x00; 0x00; 0x53; 0x49; 0x55; 0x44;
   0x49; 0x38; 0x41; 0x00; 0x00; 0x00; 0x44; 0x45; 0x46; 0x41; 0x55; 0x4c; 0x54; 0x00; 0x00; 0x00;
   0x1f; 0x03; 0x1b; 0x0a; 0xb0; 0x04; 0x12; 0x00; 0x03; 0x00; 0x03; 0x00; 0x64; 0x00; 0x12; 0x00;
   0x02; 0x00; 0x01; 0x00; 0x64; 0x00; 0x12; 0x00; 0x02; 0x00; 0x01; 0x00; 0x57; 0x86; 0xfd; 0xff; 0].
Definition answer_21_00 : list Z :=
  [0x7b; 0xef; 0x19; 0x4f; 0x1e; 0xb1; 0xe8; 0x08; 0x68; 0xc4; 0xa2; 0x94; 0xdf; 0xda; 0x8e; 0x6b;
   0x13; 0x41; 0x02; 0xdb; 0x2c; 0x35; 0x82; 0x22; 0x9a; 0xb6; 0x80; 0x95; 0x6e; 0x0f; 0xf2; 0x21;
   0x7e; 0x0f; 0xf6; 0xa8; 0xb8; 0x86; 0x4d; 0x47; 0x65; 0x4a; 0xcd; 0x50; 0xda; 0xf1; 0x59; 0x92;
   0x73; 0xef; 0xfb; 0x8e; 0xda; 0xbd; 0xca; 0xc2; 0xfd; 0xc6; 0x75; 0x5c; 0x83; 0x4f; 0xea; 0x46; 0].
(** [response[64+1]] with 32 initialisers and NULL: the rest is 0. *)
Definition answer_21_10 : list Z :=
  [0xe8; 0xc2; 0xf6; 0xd4; 0xe6; 0x8d; 0x94; 0x20; 0x54; 0xf8; 0x8b; 0xbb; 0x34; 0xac; 0xcf; 0x0b;
   0xef; 0xef; 0x66; 0x2c; 0xfc; 0x2d; 0x14; 0x57; 0xa8; 0xfb; 0x5d; 0xb0; 0x00; 0x4e; 0xa9; 0x9d] ++
  replicate 33 0.

Definition rules_31 : list vendor_rule := [mkRule 0x0008 0x0000 answer_31 None 0].
Definition rules_25 : list vendor_rule := [mkRule 0x0000 0x0000 answer_25 None 0].
Definition rules_02 : list vendor_rule :=
  [mkRule 0x0001 0x0000 answer_02_1 None 0; mkRule 0x0000 0x0000 answer_02_0 (Some 0x40) 1].
Definition rules_21 : list vendor_rule :=
  [mkRule 0x0000 0x0001 [0x01; 0] (Some 0x1) 0; mkRule 0x0000 0x0000 answer_21_00 (Some 0x40) 0;
   mkRule 0x0001 0x0000 answer_21_10 (Some 0x40) 0].
Definition rules_06 : list vendor_rule := [mkRule 0x0002 0x0000 [0x00; 0] (Some 0x01) 0].
Definition rules_20 : list vendor_rule :=
  [mkRule 0x0000 0x0001 [0x12; 0; 0] (Some 2) 0; mkRule 0x0000 0x0002 [0x03; 0; 0] (Some 2) 0;
   mkRule 0x0000 0x0000 [0xb0; 0x04; 0] (Some 2) 0; mkRule 0x0000 0x0003 [0x03; 0; 0] (Some 2) 0;
   mkRule 0x0000 0x0101 [0x12; 0; 0] (Some 2) 0; mkRule 0x0000 0x0102 [0x02; 0; 0] (Some 2) 0;
   mkRule 0x0000 0x0100 [0x64; 0; 0] (Some 2) 0; mkRule 0x0000 0x0103 [0x01; 0; 0] (Some 2) 0].
Definition rules_30 : list vendor_rule :=
  [mkRule 0xffff 0x0000 [0x01; 0; 0] (Some 0) 0; mkRule 0x0000 0x0001 [0x01; 0; 0] (Some 0) 0;
   mkRule 0x0000 0x0000 [0x01; 0; 0] (Some 0) 0].

(** The cases of the switch; [None] is its [default]. *)
Definition vendor_rules (req : Z) : option (list vendor_rule) :=
  if req =? 0x31 then Some rules_31 else if req =? 0x25 then Some rules_25
  else if req =? 0x02 then Some rules_02 else if req =? 0x21 then Some rules_21
  else if req =? 0x06 then Some rules_06 else if req =? 0x20 then Some rules_20
  else if req =? 0x30 then Some rules_30 else None.

(** The string the switch answers for [wValue] 0x0301 and 0x0302. *)
Definition dmx_string : list Z :=
  [0x22; 0x03; 0x30; 0; 0x30; 0; 0x30; 0; 0x30; 0; 0x30; 0; 0x30; 0; 0x30; 0;
   0x32; 0; 0x37; 0; 0x39; 0; 0x41; 0; 0x38; 0; 0; 0; 0; 0; 0; 0; 0].

(** ** The handler *)
Class SetupOps (W : Type) := {
  ep0_queue : list Z -> Z -> bool -> M W Z;    (** buffer, [req->length], [req->zero] *)
}.

Record gstate := mkG { g_dev : scale_dev; g_buf : list Z; g_static : scale_static }.

Section Setup.
Context {W : Type} `{!ScaleOps W} `{!SetupOps W}.
Abbreviation GX := (FM (gstate * W)).

Definition on_dev {A} (m : FM (scale_dev * W) A) : GX A := fun '(g, w) =>
  match m (g_dev g, w) with
  | Some (a, (d, w)) => Some (a, (mkG d (g_buf g) (g_static g), w))
  | None => None
  end.
Definition on_buf {A} (f : scale_static -> list Z -> option (A * list Z)) : GX A := fun '(g, w) =>
  match f (g_static g) (g_buf g) with
  | Some (a, buf) => Some (a, (mkG (g_dev g) buf (g_static g), w))
  | None => None
  end.
Definition gdev : GX scale_dev := on_dev dev.
Definition store (bs : list Z) (off : nat) : GX unit :=
  on_buf (fun _ buf => buf ← buf_store buf off bs; Some (tt, buf)).
(** [memcpy(req->buf, src, n)] *)
Definition memcpy (src : list Z) (n : Z) : GX unit :=
  if (0 <=? n) && (n <=? Z.of_nat (length src)) then store (take (Z.to_nat n) src) 0 else fault.

(** The result of a case: [value] and [test_vendor]. *)
Definition stalled : Z * Z := (- EOPNOTSUPP, 0).

Definition setup_string (c : usb_ctrlrequest) : GX (Z * Z) :=
  value <~ on_buf (fun s buf => usb_gadget_get_string (stringtab s) (Z.land (wValue c) 0xff) buf) ;;
  value <~ (if (wIndex c =? 0x0409) && (wValue c =? 0x0301)
            then memcpy dmx_string 32 ~;; fret 32 else fret value) ;;
  r <~ (if (wIndex c =? 0x0409) && (wValue c =? 0x0302)
        then memcpy dmx_string 32 ~;; fret (32, 2) else fret (value, 0)) ;;
  let '(value, test) := r in
  fret (if 0 <=? value then Z.min (wLength c) (u16 value) else value, test).

Definition setup_get_descriptor (c : usb_ctrlrequest) : GX (Z * Z) :=
  if negb (bRequestType c =? USB_DIR_IN) then
    memcpy report_desc (Z.of_nat (length report_desc)) ~;;
    fret (Z.min (wLength c) (Z.of_nat (length report_desc)), 0)
  else if Z.shiftr (wValue c) 8 =? USB_DT_DEVICE then
    let value := Z.min (wLength c) 18 in
    (fun gw => memcpy (dev_bytes (device_desc (g_static (fst gw)))) value gw) ~;;
    fret (value, 0)
  else if Z.shiftr (wValue c) 8 =? USB_DT_CONFIG then
    value <~ on_buf (fun s buf =>
      config_buf1 s buf (u8 (Z.shiftr (wValue c) 8)) (Z.land (wValue c) 0xff)) ;;
    fret (if 0 <=? value then Z.min (wLength c) (u16 value) else value, 0)
  else if Z.shiftr (wValue c) 8 =? USB_DT_STRING then setup_string c
  else fret stalled.

Definition setup_standard (is_otg : bool) (c : usb_ctrlrequest) : GX (Z * Z) :=
  d <~ gdev ;;
  if bRequest c =? USB_REQ_GET_DESCRIPTOR then setup_get_descriptor c
  else if bRequest c =? USB_REQ_SET_CONFIGURATION then
    if negb (bRequestType c =? 0) then fret stalled
    else (value <~ on_dev (scale_set_config is_otg (wValue c)) ;; fret (value, 0))
  else if bRequest c =? USB_REQ_GET_CONFIGURATION then
    if negb (bRequestType c =? USB_DIR_IN) then fret stalled
    else (store [config d] 0 ~;; fret (Z.min (wLength c) 1, 0))
  else if bRequest c =? USB_REQ_SET_INTERFACE then
    if negb (bRequestType c =? USB_RECIP_INTERFACE) || (config d =? 0) then fret stalled
    else (value <~ on_dev (ScaleUsb.set_interface SCALE_INTERFACE) ;; fret (value, 0))
  else if bRequest c =? USB_REQ_GET_INTERFACE then
    if negb (bRequestType c =? Z.lor USB_DIR_IN USB_RECIP_INTERFACE) || (config d =? 0) then fret stalled
    else (store [u8 (interface d)] 0 ~;; fret (Z.min (wLength c) 1, 0))
  else fret stalled.

(** [given]: the requests the controller gives back during a soft reset.  The
    module is built for ARM, where the elements of [pnp_string] are unsigned. *)
Definition setup_class (given : list nat * list nat) (c : usb_ctrlrequest) : GX (Z * Z) :=
  if bRequest c =? 0 then
    if negb (Z.shiftr (wIndex c) 8 =? SCALE_INTERFACE) then fret stalled
    else fun gw =>
      let pnp := pnp_string (g_static (fst gw)) in
      let value := Z.lor (Z.shiftl (nth 0 pnp 0) 8) (nth 1 pnp 0) in
      (memcpy pnp value ~;; fret (value, 0)) gw
  else if bRequest c =? 1 then
    if negb (wIndex c =? SCALE_INTERFACE) then fret stalled
    else (d <~ gdev ;; store [scale_status d] 0 ~;; fret (Z.min (wLength c) 1, 0))
  else if bRequest c =? 2 then
    if negb (wIndex c =? SCALE_INTERFACE) then fret stalled
    else (on_dev (scale_soft_reset (fst given) (snd given)) ~;; fret (0, 0))
  else fret stalled.

Fixpoint run_rules (l : list vendor_rule) (c : usb_ctrlrequest) (r : Z * Z) : GX (Z * Z) :=
  match l with
  | [] => fret r
  | x :: l =>
      if (wValue c =? v_value x) && (wIndex c =? v_index x) then
        let value := match v_limit x with None => wLength c | Some n => Z.min (wLength c) n end in
        memcpy (v_answer x) value ~;;
        run_rules l c (value, if v_test x =? 0 then snd r else v_test x)
      else run_rules l c r
  end.

Definition setup_vendor (c : usb_ctrlrequest) : GX (Z * Z) :=
  match vendor_rules (bRequest c) with
  | Some l => run_rules l c stalled
  | None => fret stalled
  end.

Definition setup_switch (is_otg : bool) (given : list nat * list nat) (c : usb_ctrlrequest) : GX (Z * Z) :=
  let type := Z.land (bRequestType c) USB_TYPE_MASK in
  if type =? USB_TYPE_STANDARD then setup_standard is_otg c
  else if type =? USB_TYPE_CLASS then setup_class given c
  else if type =? USB_TYPE_VENDOR then setup_vendor c
  else fret stalled.

(** Queuing the answer: [memset] from [value] to the end of the buffer. *)
Definition respond (c : usb_ctrlrequest) (value test : Z) : GX Z :=
  let len := if test =? 1 then 64 else if test =? 2 then 32 else wLength c in
  let zero := if test =? 1 then true else value <? wLength c in
  (if Z.of_nat USB_DESC_BUFSIZE <? value then fault
   else store (replicate (USB_DESC_BUFSIZE - Z.to_nat value) 0) (Z.to_nat value)) ~;;
  fun '(g, w) => let '(r, w) := ep0_queue (g_buf g) len zero w in Some (r, (g, w)).

Definition scale_setup (is_otg : bool) (given : list nat * list nat) (c : usb_ctrlrequest) : GX Z :=
  r <~ setup_switch is_otg given c ;;
  let '(value, test) := r in
  value <~ (if 0 <=? value then respond c value test else fret value) ;;
  on_dev (upd (fun d => set_intf (config d) SCALE_INTERFACE (has_in d) (has_out d) d)) ~;;
  fret (if 0 <=? value then wLength c else value).
End Setup.
