(* ===== verification/ScaleSetupSpec.v ===== *)
(** * USB gadget: what the scale gadget answers

    The answers of [scale_setup] as a function of the request ([reply]), and
    the theorem that this is what the controller is told to send, whatever
    length the host asks for; requests that change the configuration or are
    refused; the answers that leave the buffer or the array they are copied
    from. *)

From Stdlib Require Import ZArith.
From stdpp Require Import base list strings.
From S2P Require Import Prelude UsbString UsbConfig EpAutoconf Composite CompositeCtl ScaleUsb ScaleSetup.

(** ** A world that records what the controller is asked to do *)
Inductive sev :=
| EvEnable (e : ep)
| EvDisable (e : ep)
| EvVbus (mA : Z)
| EvQueue0 (buf : list Z) (len : Z) (zero : bool).

(** [ans] answers from the calls made so far, the latest first. *)
Section Trace.
Context (ans : list sev -> Z).
Definition call (e : sev) : M (list sev) Z := fun l => (ans l, e :: l).

#[export] Instance scale_trace : ScaleOps (list sev) := {|
  queue_out := fun _ => ret 0;
  queue_in := fun _ _ _ => ret 0;
  copy_to_user := fun _ => ret 0%nat;
  copy_from_user := fun _ => ret false;
  window := fun _ _ => ret [];
  usb_ep_enable := fun e => call (EvEnable e);
  usb_ep_disable := fun e l => (tt, EvDisable e :: l);
  vbus_draw := fun n l => (tt, EvVbus n :: l);
|}.
#[export] Instance setup_trace : SetupOps (list sev) := {|
  ep0_queue := fun buf len zero => call (EvQueue0 buf len zero);
|}.

(** ** The answers *)
Definition pnp_len (s : scale_static) : Z :=
  Z.lor (Z.shiftl (nth 0 (pnp_string s) 0) 8) (nth 1 (pnp_string s) 0).

(** The static data once the gadget is bound. *)
Record static_ok (s : scale_static) : Prop := {
  strings_terminated : forall i x, (i, x) ∈ strtab s -> 0 ∈ x;
  one_config : bNumConfigurations (device_desc s) = 1;
  pnp_fits : 0 <= pnp_len s <= 256 /\ pnp_len s <= Z.of_nat (length (pnp_string s));
}.
Definition g_ok (g : gstate) : Prop := length (g_buf g) = USB_DESC_BUFSIZE /\ static_ok (g_static g).

Definition config_bytes (e : scale_eps) : list Z :=
  [9; 2; 60; 0; 1; 1; 0; 0x80; 50] ++ concat (drop 2 (fs_dmx_scale_function e)).

Definition string_reply (g : gstate) (c : usb_ctrlrequest) : option (list Z * Z) :=
  if (wIndex c =? 0x0409) && (wValue c =? 0x0301) then Some (take 32 dmx_string, 0)
  else if (wIndex c =? 0x0409) && (wValue c =? 0x0302) then Some (take 32 dmx_string, 2)
  else match usb_gadget_get_string (stringtab (g_static g)) (Z.land (wValue c) 0xff) (g_buf g) with
       | Some (r, buf) => if 0 <=? r then Some (take (Z.to_nat r) buf, 0) else None
       | None => None
       end.

Definition descriptor_reply (g : gstate) (c : usb_ctrlrequest) : option (list Z * Z) :=
  if negb (bRequestType c =? USB_DIR_IN) then Some (report_desc, 0)
  else if Z.shiftr (wValue c) 8 =? USB_DT_DEVICE then Some (dev_bytes (device_desc (g_static g)), 0)
  else if Z.shiftr (wValue c) 8 =? USB_DT_CONFIG then
    if Z.land (wValue c) 0xff =? 0 then Some (config_bytes (eps (g_static g)), 0) else None
  else if Z.shiftr (wValue c) 8 =? USB_DT_STRING then string_reply g c
  else None.

Definition matches (c : usb_ctrlrequest) (x : vendor_rule) : bool :=
  (wValue c =? v_value x) && (wIndex c =? v_index x).
Definition rule_bytes (x : vendor_rule) : list Z :=
  match v_limit x with None => v_answer x | Some n => take (Z.to_nat n) (v_answer x) end.

(** The rule a vendor request selects. *)
Definition vendor_rule_of (c : usb_ctrlrequest) : option vendor_rule :=
  l ← vendor_rules (bRequest c); snd <$> list_find (fun x => matches c x = true) l.

Definition req_type (c : usb_ctrlrequest) : Z := Z.land (bRequestType c) USB_TYPE_MASK.

(** The bytes of the answer, and the length override ([test_vendor]). *)
Definition reply (g : gstate) (c : usb_ctrlrequest) : option (list Z * Z) :=
  let d := g_dev g in
  if req_type c =? USB_TYPE_STANDARD then
    if bRequest c =? USB_REQ_GET_DESCRIPTOR then descriptor_reply g c
    else if (bRequest c =? USB_REQ_GET_CONFIGURATION) && (bRequestType c =? USB_DIR_IN)
    then Some ([config d], 0)
    else if (bRequest c =? USB_REQ_GET_INTERFACE) && (bRequestType c =? 0x81) && negb (config d =? 0)
    then Some ([u8 (interface d)], 0)
    else None
  else if req_type c =? USB_TYPE_CLASS then
    if (bRequest c =? 0) && (Z.shiftr (wIndex c) 8 =? 0)
    then Some (take (Z.to_nat (pnp_len (g_static g))) (pnp_string (g_static g)), 0)
    else if (bRequest c =? 1) && (wIndex c =? 0) then Some ([scale_status d], 0)
    else None
  else if req_type c =? USB_TYPE_VENDOR then
    (fun x => (rule_bytes x, v_test x)) <$> vendor_rule_of c
  else None.

(** The vendor answers whose length is the one the host asks for. *)
Definition fits (c : usb_ctrlrequest) : Prop :=
  req_type c = USB_TYPE_VENDOR ->
  forall x, vendor_rule_of c = Some x -> v_limit x = None ->
    wLength c <= Z.of_nat (length (v_answer x)).

(** ** Lemmas: the buffer *)
Definition pad (bs : list Z) : list Z := bs ++ replicate (USB_DESC_BUFSIZE - length bs) 0.

Lemma length_pad bs : (length bs <= USB_DESC_BUFSIZE)%nat -> length (pad bs) = USB_DESC_BUFSIZE.
Proof. intros. unfold pad. rewrite length_app, length_replicate. lia. Qed.

(** Clearing the buffer from [n] on leaves its first [n] bytes, padded. *)
Lemma clear_tail buf n :
  length buf = USB_DESC_BUFSIZE -> (n <= USB_DESC_BUFSIZE)%nat ->
  buf_store buf n (replicate (USB_DESC_BUFSIZE - n) 0) = Some (pad (take n buf)).
Proof.
  intros Hb Hn. rewrite buf_store_in by (rewrite length_replicate; lia). unfold buf_write, pad.
  rewrite drop_ge by (rewrite length_replicate; lia). by rewrite app_nil_r, length_take, Nat.min_l by lia.
Qed.

Lemma take_pad (n m : nat) bs :
  (Nat.min m (length bs) <= n)%nat -> (length bs <= USB_DESC_BUFSIZE)%nat ->
  take m (pad (take n bs)) = take m (pad (take m bs)).
Proof.
  intros Hn Hb. unfold pad. rewrite !length_take. destruct (decide (m <= length bs)%nat) as [Hm|Hm].
  - rewrite !take_app_le by (rewrite length_take; lia). rewrite !take_take. f_equal. lia.
  - rewrite !(take_ge bs) by lia. by rewrite !Nat.min_r by lia.
Qed.

Lemma memcpy_run {W} `{!ScaleOps W} src n g (w : W) :
  0 <= n <= Z.of_nat (length src) -> n <= 256 -> length (g_buf g) = USB_DESC_BUFSIZE ->
  exists buf, memcpy src n (g, w) = Some (tt, (mkG (g_dev g) buf (g_static g), w)) /\
    length buf = USB_DESC_BUFSIZE /\ take (Z.to_nat n) buf = take (Z.to_nat n) src.
Proof.
  intros Hn Hm Hb. unfold memcpy. rewrite (proj2 (Z.leb_le 0 n)), (proj2 (Z.leb_le n _)) by lia. cbn [andb].
  unfold store, on_buf.
  assert (length (take (Z.to_nat n) src) = Z.to_nat n) as Hl by (rewrite length_take; lia).
  unfold USB_DESC_BUFSIZE in *.
  rewrite buf_store_in by lia. cbn [mbind option_bind]. eexists. split; [done|].
  rewrite length_buf_write by lia. split; [done|]. unfold buf_write.
  rewrite take_0, app_nil_l, take_app_le by lia. by rewrite take_take, Nat.min_id.
Qed.

(** What a case of the switch leaves: the first [value] bytes of the buffer
    are those of the answer. *)
Definition answered (c : usb_ctrlrequest) (bytes : list Z) (test : Z) (g : gstate)
    (r : option (Z * Z * (gstate * list sev))) (w : list sev) : Prop :=
  exists value buf, r = Some ((value, test), (mkG (g_dev g) buf (g_static g), w)) /\
    length buf = USB_DESC_BUFSIZE /\ (length bytes <= USB_DESC_BUFSIZE)%nat /\
    take (Z.to_nat value) buf = take (Z.to_nat value) bytes /\
    (value = Z.min (wLength c) (Z.of_nat (length bytes)) \/ test = 0 /\ value = Z.of_nat (length bytes)).

Lemma take_min_eq a n (b1 b2 : list Z) :
  take (Z.to_nat n) b1 = take (Z.to_nat n) b2 ->
  take (Z.to_nat (Z.min a n)) b1 = take (Z.to_nat (Z.min a n)) b2.
Proof.
  intros H. replace (Z.to_nat (Z.min a n)) with (Nat.min (Z.to_nat a) (Z.to_nat n)) by lia.
  by rewrite <- !take_take, H.
Qed.

(** Copying a prefix of the answer. *)
Lemma answered_copy c src bytes n test g w (k : unit -> FM (gstate * list sev) (Z * Z)) :
  length (g_buf g) = USB_DESC_BUFSIZE -> 0 <= wLength c ->
  bytes = take n src -> (n <= length src)%nat -> (n <= USB_DESC_BUFSIZE)%nat ->
  (forall s, k tt s = Some ((Z.min (wLength c) (Z.of_nat n), test), s)) ->
  answered c bytes test g (fbind (memcpy src (Z.min (wLength c) (Z.of_nat n))) k (g, w)) w.
Proof.
  intros Hb Hw -> Hn Hm Hk. unfold USB_DESC_BUFSIZE in *.
  destruct (memcpy_run src (Z.min (wLength c) (Z.of_nat n)) g w) as (buf & E & Hl & Ht); [lia|lia|done|].
  unfold fbind. rewrite E, Hk. exists (Z.min (wLength c) (Z.of_nat n)), buf.
  rewrite length_take, Nat.min_l by lia. split_and!; [done|done|unfold USB_DESC_BUFSIZE; lia| |by left].
  rewrite Ht, take_take. f_equal. lia.
Qed.

Lemma store1_run b g (w : list sev) :
  length (g_buf g) = USB_DESC_BUFSIZE ->
  store [b] 0 (g, w) = Some (tt, (mkG (g_dev g) (b :: drop 1 (g_buf g)) (g_static g), w)).
Proof.
  intros Hb. unfold store, on_buf. rewrite buf_store_in by (rewrite Hb; unfold USB_DESC_BUFSIZE; cbn; lia). done.
Qed.

Lemma answered_byte c b g w :
  length (g_buf g) = USB_DESC_BUFSIZE -> 0 <= wLength c ->
  answered c [b] 0 g ((store [b] 0 ~;; fret (Z.min (wLength c) 1, 0)) (g, w)) w.
Proof.
  intros Hb Hw. unfold fbind. rewrite store1_run by done.
  exists (Z.min (wLength c) 1), (b :: drop 1 (g_buf g)).
  unfold USB_DESC_BUFSIZE in *. split_and!; [done| |cbn; lia| |left; cbn; lia].
  - cbn [length]. rewrite length_drop, Hb. done.
  - destruct (decide (wLength c = 0)) as [->|]; [done|]. by replace (Z.min (wLength c) 1) with 1 by lia.
Qed.

(** The answer 0x22, 0x03, ... copied over what [usb_gadget_get_string] left. *)
Lemma dmx_string_ok c test g w (k : unit -> FM (gstate * list sev) (Z * Z)) :
  length (g_buf g) = USB_DESC_BUFSIZE ->
  (forall s, k tt s = Some ((Z.min (wLength c) 32, test), s)) ->
  answered c (take 32 dmx_string) test g (fbind (memcpy dmx_string 32) k (g, w)) w.
Proof.
  intros Hb Hk. destruct (memcpy_run dmx_string 32 g w) as (buf & E & Hl & Ht); [cbn; lia|lia|done|].
  unfold fbind. rewrite E, Hk. exists (Z.min (wLength c) 32), buf.
  split_and!; [done|done|by vm_compute; lia| |by left]. by apply take_min_eq.
Qed.

Lemma answered_buf c bytes test g buf r w :
  answered c bytes test (mkG (g_dev g) buf (g_static g)) r w -> answered c bytes test g r w.
Proof. done. Qed.

Lemma string_reply_ok c g w bytes test :
  g_ok g -> 0 <= wLength c < 65536 ->
  string_reply g c = Some (bytes, test) -> answered c bytes test g (setup_string c (g, w)) w.
Proof.
  intros [Hb Hs] Hw. unfold string_reply, setup_string. intros Hr.
  destruct (get_string_run (stringtab (g_static g)) (Z.land (wValue c) 0xff) (g_buf g))
    as (r & buf & E & Hl & _ & Hans).
  { intros l i s [= <-]. apply Hs. }
  { by rewrite Hb. }
  unfold fbind at 1, on_buf at 1. rewrite E in Hr |- *. cbv beta iota in Hr |- *.
  assert (length buf = USB_DESC_BUFSIZE) as Hlb by congruence.
  apply (answered_buf _ _ _ _ buf).
  destruct ((wIndex c =? 0x0409) && (wValue c =? 0x0301)) eqn:E1.
  { injection Hr as <- <-. rewrite fbind_assoc. apply dmx_string_ok; [done|]. intros s.
    bool_to_prop. rewrite H, H0. reflexivity. }
  rewrite fbind_ret. destruct ((wIndex c =? 0x0409) && (wValue c =? 0x0302)) eqn:E2.
  { injection Hr as <- <-. rewrite fbind_assoc. by apply dmx_string_ok. }
  destruct (Z.leb_spec 0 r) as [H0|H0]; [|done]. injection Hr as <- <-.
  destruct Hans as [->|(Hr & _)]; [done|]. rewrite fbind_ret. cbv beta iota.
  rewrite (proj2 (Z.leb_le 0 r)), u16_small by lia.
  exists (Z.min (wLength c) r), buf. unfold USB_DESC_BUFSIZE in *.
  rewrite length_take, Hlb, Nat.min_l, Z2Nat.id by lia. split_and!; [done|done|unfold USB_DESC_BUFSIZE; lia| |by left].
  apply take_min_eq. by rewrite take_take, Nat.min_id.
Qed.

Lemma config_buf1_run s buf index :
  length buf = USB_DESC_BUFSIZE -> bNumConfigurations (device_desc s) = 1 -> 0 <= index ->
  config_buf1 s buf 2 index =
    if index =? 0 then Some (60, pad (config_bytes (eps s))) else Some (- EINVAL, buf).
Proof.
  intros Hb Hn Hi. unfold config_buf1. rewrite Hn.
  destruct (Z.eqb_spec index 0) as [->|Hx]; [|by rewrite (proj2 (Z.leb_le _ _)) by lia].
  change (1 <=? 0) with false. cbv iota.
  pose proof (clear_tail buf 0 Hb) as Hc. rewrite Nat.sub_0_r in Hc. rewrite Hc by lia.
  cbn [mbind option_bind]. reflexivity.
Qed.

Lemma descriptor_reply_ok c g w bytes test :
  g_ok g -> 0 <= wLength c < 65536 -> 0 <= wValue c < 65536 ->
  descriptor_reply g c = Some (bytes, test) ->
  answered c bytes test g (setup_get_descriptor c (g, w)) w.
Proof.
  intros [Hb Hs] Hw Hv. unfold descriptor_reply, setup_get_descriptor.
  case_if; [intros [= <- <-]|].
  { destruct (memcpy_run report_desc 52 g w) as (buf & E & Hl & Ht); [cbn; lia|lia|done|].
    change (Z.of_nat (length report_desc)) with 52. unfold fbind. rewrite E.
    exists (Z.min (wLength c) 52), buf. unfold USB_DESC_BUFSIZE in *. split_and!; [done|done|cbn; lia| |left; done].
    by apply take_min_eq. }
  case_if; [intros [= <- <-]|].
  { change 18 with (Z.of_nat 18). apply answered_copy; [done|lia|done|by cbn|by vm_compute; lia|done]. }
  case_if; bool_to_prop.
  { case_if; [|done]. intros [= <- <-]. bool_to_prop. unfold fbind, on_buf. rewrite Heqb1, Heqb2.
    change (u8 USB_DT_CONFIG) with 2. rewrite config_buf1_run by (done || lia || apply Hs).
    cbv beta iota. change (0 =? 0) with true. cbv iota beta.
    exists (Z.min (wLength c) 60), (pad (config_bytes (eps (g_static g)))).
    split_and!; [done|done|by vm_compute; lia| |left; done].
    unfold pad. rewrite take_app_le; [done|]. change (length (config_bytes _)) with 60%nat. lia. }
  case_if; [|done]. by apply string_reply_ok.
Qed.

(** ** Vendor requests: at most one rule of a case matches *)
Definition rule_key (x : vendor_rule) : Z * Z := (v_value x, v_index x).
Definition rule_ok (x : vendor_rule) : Prop :=
  (length (v_answer x) <= USB_DESC_BUFSIZE)%nat /\
  match v_limit x with Some n => 0 <= n <= Z.of_nat (length (v_answer x)) | None => True end.

Lemma vendor_rules_ok b l :
  vendor_rules b = Some l -> NoDup (rule_key <$> l) /\ Forall rule_ok l.
Proof.
  unfold vendor_rules. intros H. repeat case_match; try done; injection H as <-;
    (split; [apply (bool_decide_unpack _); by vm_compute|]);
    repeat (apply Forall_cons; split; [split; vm_compute; try done; repeat constructor; done|]);
    by apply Forall_nil.
Qed.

Lemma run_rules_none l c r (s : gstate * list sev) :
  Forall (fun x => matches c x = false) l -> run_rules l c r s = Some (r, s).
Proof. induction 1 as [|x l Hx _ IH]; [done|]. cbn [run_rules]. unfold matches in Hx. by rewrite Hx. Qed.

Lemma matches_key c x y : matches c x = true -> rule_key y <> rule_key x -> matches c y = false.
Proof.
  unfold matches, rule_key. intros H Hn. bool_to_prop. rewrite H, H0.
  apply andb_false_iff. destruct (Z.eqb_spec (v_value x) (v_value y)); [|by left].
  right. apply Z.eqb_neq. congruence.
Qed.

Lemma run_rules_one l c g w i x :
  length (g_buf g) = USB_DESC_BUFSIZE -> 0 <= wLength c ->
  NoDup (rule_key <$> l) -> Forall rule_ok l ->
  list_find (fun x => matches c x = true) l = Some (i, x) ->
  (v_limit x = None -> wLength c <= Z.of_nat (length (v_answer x))) ->
  answered c (rule_bytes x) (v_test x) g (run_rules l c stalled (g, w)) w.
Proof.
  intros Hb Hw. revert i. induction l as [|y l IH]; intros i Hn Hok Hf Hl; [done|].
  apply NoDup_cons in Hn as [Hy Hn]. apply Forall_cons in Hok as [Hoky Hok].
  cbn [run_rules]. fold (matches c y). cbn [list_find] in Hf. case_decide as Hm.
  - injection Hf as <- <-. rewrite Hm. destruct Hoky as [Ha Hlim].
    assert (Forall (fun x => matches c x = false) l) as Hrest.
    { apply Forall_forall. intros z Hz. apply (matches_key c y); [done|]. intros E. apply Hy.
      rewrite <- E. by apply list_elem_of_fmap_2. }
    unfold rule_bytes. destruct (v_limit y) as [n|].
    + destruct (Z_of_nat_complete n) as [m ->]; [lia|]. rewrite Nat2Z.id.
      apply answered_copy; [done|done|done|lia|unfold USB_DESC_BUFSIZE in *; lia|].
      intros s. rewrite run_rules_none by done. do 3 f_equal. case_if; bool_to_prop; done.
    + assert (Z.min (wLength c) (Z.of_nat (length (v_answer y))) = wLength c) as Ew
        by (specialize (Hl eq_refl); lia).
      pose proof (answered_copy c (v_answer y) (v_answer y) (length (v_answer y)) (v_test y) g w
        (fun _ => run_rules l c (wLength c, if v_test y =? 0 then 0 else v_test y)) Hb Hw) as H.
      rewrite Ew in H. apply H; [by rewrite firstn_all|lia|done|].
      intros s. rewrite run_rules_none by done. do 3 f_equal. case_if; bool_to_prop; done.
  - rewrite (not_true_is_false _ Hm). destruct (list_find _ l) as [[j z]|] eqn:E; [|done].
    cbn in Hf. injection Hf as _ ->. by apply (IH j).
Qed.

(** ** The switch as a whole *)
Definition ctrl_ok (c : usb_ctrlrequest) : Prop :=
  0 <= wLength c < 65536 /\ 0 <= wValue c < 65536 /\ 0 <= wIndex c < 65536.

Lemma switch_reply is_otg given c g w bytes test :
  g_ok g -> ctrl_ok c -> fits c -> reply g c = Some (bytes, test) ->
  answered c bytes test g (setup_switch is_otg given c (g, w)) w.
Proof.
  intros Hg (Hw & Hv & _) Hfit. pose proof Hg as [Hb Hs].
  unfold reply, setup_switch. fold (req_type c). cbv zeta.
  destruct (req_type c =? USB_TYPE_STANDARD) eqn:Et.
  { unfold setup_standard, fbind at 1, gdev, on_dev at 1, dev at 1. cbn [fst].
    destruct g as [d buf s]. cbn [g_dev g_buf g_static] in *.
    destruct (bRequest c =? USB_REQ_GET_DESCRIPTOR) eqn:E1; [by apply descriptor_reply_ok|].
    destruct (bRequest c =? USB_REQ_GET_CONFIGURATION) eqn:E2.
    { destruct (bRequestType c =? USB_DIR_IN) eqn:E3; cbn [andb negb].
      - intros [= <- <-]. bool_to_prop. rewrite E2. cbn. by apply answered_byte; [|lia].
      - bool_to_prop. rewrite E2. done. }
    destruct (bRequest c =? USB_REQ_GET_INTERFACE) eqn:E4; [|done]. cbn [andb].
    destruct (bRequestType c =? 0x81) eqn:E5; [|done]. destruct (config d =? 0) eqn:E6; [done|].
    intros [= <- <-]. bool_to_prop. rewrite E4, E5. cbn. by apply answered_byte; [|lia]. }
  destruct (req_type c =? USB_TYPE_CLASS) eqn:Ec.
  { unfold setup_class. destruct (bRequest c =? 0) eqn:E1; cbn [andb].
    - destruct (Z.shiftr (wIndex c) 8 =? 0) eqn:E2.
      + intros [= <- <-]. unfold SCALE_INTERFACE. rewrite E2. cbn [negb fst].
        destruct Hs as [_ _ Hp]. fold (pnp_len (g_static g)).
        destruct (memcpy_run (pnp_string (g_static g)) (pnp_len (g_static g)) g w) as (buf & E & Hl & Ht);
          [lia|lia|done|].
        unfold fbind. rewrite E. exists (pnp_len (g_static g)), buf. unfold USB_DESC_BUFSIZE in *.
        rewrite length_take. split_and!; [done|done|unfold USB_DESC_BUFSIZE; lia| |right; split; [done|lia]].
        by rewrite Ht, take_take, Nat.min_id.
      + bool_to_prop. rewrite E1. done.
    - destruct (bRequest c =? 1) eqn:E2; [|done]. destruct (wIndex c =? 0) eqn:E3; [|done].
      intros [= <- <-]. unfold SCALE_INTERFACE. rewrite E3. cbn [negb].
      unfold fbind at 1, gdev, on_dev, dev. cbn [fst]. destruct g as [d buf s]. by apply answered_byte; [|lia]. }
  destruct (req_type c =? USB_TYPE_VENDOR) eqn:Ev; [|done].
  intros Hr. bool_to_prop. specialize (Hfit Ev). unfold setup_vendor, vendor_rule_of in *.
  destruct (vendor_rules (bRequest c)) as [l|] eqn:El; [|done]. cbn [mbind option_bind] in *.
  destruct (list_find _ l) as [[i x]|] eqn:Ef; [|done]. injection Hr as <- <-.
  destruct (vendor_rules_ok _ _ El). by apply (run_rules_one l c g w i x); [|lia|..|apply Hfit].
Qed.

(** ** The handler *)
Definition sent_length (c : usb_ctrlrequest) (test : Z) : Z :=
  if test =? 1 then 64 else if test =? 2 then 32 else wLength c.

(** The state after any request: the interface is set, whatever it was. *)
Definition after (g : gstate) (d : scale_dev) (buf : list Z) : gstate :=
  mkG (set_intf (config d) SCALE_INTERFACE (has_in d) (has_out d) d) buf (g_static g).

Lemma scale_respond_run c value test g w :
  length (g_buf g) = USB_DESC_BUFSIZE -> 0 <= value <= 256 ->
  respond c value test (g, w) =
    let buf := pad (take (Z.to_nat value) (g_buf g)) in
    Some (ans w, (mkG (g_dev g) buf (g_static g),
      EvQueue0 buf (sent_length c test) (if test =? 1 then true else value <? wLength c) :: w)).
Proof.
  intros Hb Hv. unfold respond, fbind. change (Z.of_nat USB_DESC_BUFSIZE) with 256.
  rewrite (proj2 (Z.ltb_ge _ _)) by lia. unfold store, on_buf.
  rewrite clear_tail by (done || unfold USB_DESC_BUFSIZE; lia). done.
Qed.

Lemma scale_setup_run is_otg given c g w bytes test :
  g_ok g -> ctrl_ok c -> fits c -> reply g c = Some (bytes, test) ->
  let len := sent_length c test in
  exists buf,
    scale_setup is_otg given c (g, w) =
      Some (if 0 <=? ans w then wLength c else ans w,
            (after g (g_dev g) buf,
             EvQueue0 buf len ((test =? 1) || (Z.of_nat (length bytes) <? wLength c)) :: w)) /\
    length buf = USB_DESC_BUFSIZE /\
    take (Z.to_nat len) buf = take (Z.to_nat len) (pad (take (Z.to_nat (wLength c)) bytes)).
Proof.
  intros Hg Hc Hf Hr len. destruct (switch_reply is_otg given c g w bytes test Hg Hc Hf Hr)
    as (value & buf & E & Hb & Hl & Ht & Hv).
  destruct Hc as (Hw & _). unfold USB_DESC_BUFSIZE in Hl.
  assert (0 <= value <= 256) as Hv2 by lia.
  exists (pad (take (Z.to_nat value) bytes)).
  assert ((if test =? 1 then true else value <? wLength c) =
          (test =? 1) || (Z.of_nat (length bytes) <? wLength c)) as Hz.
  { destruct (test =? 1); [done|]. cbn [orb]. apply eq_iff_eq_true. rewrite !Z.ltb_lt. lia. }
  unfold scale_setup, fbind at 1. rewrite E. rewrite (proj2 (Z.leb_le 0 value)) by lia.
  unfold fbind at 1. rewrite scale_respond_run by (done || cbn; lia). cbn [g_buf g_dev g_static].
  rewrite Ht, Hz. split; [done|]. split.
  { rewrite length_pad; [done|]. rewrite length_take. unfold USB_DESC_BUFSIZE. lia. }
  destruct Hv as [->|[-> ->]].
  - f_equal. f_equal. rewrite Z2Nat.inj_min, Nat2Z.id, <- take_take, (take_ge bytes (length bytes)); done.
  - unfold len. cbn [sent_length Z.eqb]. apply take_pad; [lia|unfold USB_DESC_BUFSIZE; lia].
Qed.

(** C11: a request that has an answer is answered with it, for static data
    as it is once the gadget is bound, unless it is a vendor request for more
    bytes than the array of its answer has (the code then reads past the
    array): [scale_setup] faults nowhere, hands exactly one transfer to the
    controller and keeps the device as it was except that the interface is
    marked as set.  The controller is told to send 64 or 32 bytes for two
    special answers and otherwise as many as the host asked for; they are
    those of the answer, cut to the length the host asked for and padded with
    zeros, as far as the 256 bytes of the buffer go.  They lie in the buffer
    exactly for the two special answers and for requests of at most 256
    bytes; for longer ones the transfer reaches past the buffer. *)
Theorem scale_setup_answers is_otg given c g w bytes test :
  g_ok g -> ctrl_ok c -> fits c -> reply g c = Some (bytes, test) ->
  let len := sent_length c test in
  exists buf,
    scale_setup is_otg given c (g, w) =
      Some (if 0 <=? ans w then wLength c else ans w,
            (after g (g_dev g) buf,
             EvQueue0 buf len ((test =? 1) || (Z.of_nat (length bytes) <? wLength c)) :: w)) /\
    length buf = USB_DESC_BUFSIZE /\
    take (Z.to_nat len) buf = take (Z.to_nat len) (pad (take (Z.to_nat (wLength c)) bytes)) /\
    (len <= Z.of_nat (length buf) <-> test = 1 \/ test = 2 \/ wLength c <= 256).
Proof.
  intros Hg Hc Hf Hr len. destruct (scale_setup_run is_otg given c g w bytes test Hg Hc Hf Hr)
    as (buf & E & Hl & Ht). exists buf. split; [done|]. split; [done|]. split; [done|].
  rewrite Hl. change (Z.of_nat USB_DESC_BUFSIZE) with 256. unfold len, sent_length.
  repeat case_if; bool_to_prop; lia.
Qed.

(** ** Selecting a configuration *)

(** Enabling the two endpoints: the calls, and whether both succeeded. *)
Definition enable_both (w : list sev) : list sev * bool :=
  let w1 := EvEnable InEp :: w in
  if negb (ans w =? 0) then (EvDisable OutEp :: EvDisable InEp :: w1, false)
  else
    let w2 := EvEnable OutEp :: w1 in
    if negb (ans w1 =? 0) then (EvDisable OutEp :: EvDisable InEp :: w2, false) else (w2, true).

Definition set_configuration (n len : Z) : usb_ctrlrequest :=
  mkCtrl 0 USB_REQ_SET_CONFIGURATION n 0 len.

Lemma scale_set_config_run is_otg n d w :
  scale_set_config is_otg n (d, w) =
    let ok := (n =? 0) || (n =? 1) in
    let '(w', en) := enable_both (EvVbus (if ok then 50 else if is_otg then 8 else 100) :: w) in
    Some (if ok then 0 else - EINVAL,
          (set_intf (if ok then u8 n else config d) (interface d) en en d, w')).
Proof.
  unfold scale_set_config, set_scale_interface, enable_both, DEV_CONFIG_VALUE, fbind, outside, upd, fmodify, fret.
  rewrite (orb_comm (n =? 1)). cbv zeta.
  destruct ((n =? 0) || (n =? 1)) eqn:E; change (- EINVAL =? 0) with false; cbn -[u8];
    repeat (match goal with |- context [ans ?l =? 0] => destruct (ans l =? 0) end; cbn -[u8]); done.
Qed.

(** property: SET_CONFIGURATION draws the current of the configuration and enables
    the bulk endpoints for every configuration number: also for numbers the
    device does not have (the request is then stalled with -EINVAL, the
    configuration stays, the endpoints are enabled all the same) and for 0,
    which should leave the device unconfigured; and that the endpoints could
    not be enabled does not change the answer to the host. *)
Theorem set_configuration_spec (is_otg : bool) given n len g w :
  g_ok g -> 0 <= len < 65536 ->
  let ok := (n =? 0) || (n =? 1) in
  let '(w', en) := enable_both (EvVbus (if ok then 50 else if is_otg then 8 else 100) :: w) in
  let d' := set_intf (if ok then n else config (g_dev g)) SCALE_INTERFACE en en (g_dev g) in
  scale_setup is_otg given (set_configuration n len) (g, w) =
    if ok then
      let zeros := replicate USB_DESC_BUFSIZE 0 in
      Some (if 0 <=? ans w' then len else ans w',
            (mkG d' zeros (g_static g), EvQueue0 zeros len (0 <? len) :: w'))
    else Some (- EINVAL, (mkG d' (g_buf g) (g_static g), w')).
Proof.
  intros [Hb _] Hl ok. destruct (enable_both _) as [w' en] eqn:Een. intros d'.
  assert (setup_switch is_otg given (set_configuration n len) (g, w) =
    Some ((if ok then 0 else - EINVAL, 0),
      (mkG (set_intf (if ok then u8 n else config (g_dev g)) (interface (g_dev g)) en en (g_dev g))
         (g_buf g) (g_static g), w'))) as E.
  { destruct g as [d buf s].
    unfold setup_switch. change (Z.land _ USB_TYPE_MASK =? USB_TYPE_STANDARD) with true.
    unfold setup_standard, set_configuration, fbind, gdev, on_dev, dev. cbn -[scale_set_config u8].
    rewrite scale_set_config_run. fold ok. cbv zeta. by rewrite Een. }
  unfold scale_setup. unfold fbind at 1. rewrite E. clear E. unfold d'.
  destruct ok eqn:Eok; [|done].
  assert (u8 n = n) as ->.
  { apply u8_small. unfold ok in Eok. apply orb_true_iff in Eok as [?|?]; bool_to_prop; lia. }
  change (0 <=? 0) with true. cbv iota. unfold fbind at 1. rewrite scale_respond_run by (done || lia). done.
Qed.

(** ** Requests that are refused *)
Definition known_standard (c : usb_ctrlrequest) : bool :=
  bool_decide (bRequest c ∈ [USB_REQ_GET_DESCRIPTOR; USB_REQ_SET_CONFIGURATION;
    USB_REQ_GET_CONFIGURATION; USB_REQ_SET_INTERFACE; USB_REQ_GET_INTERFACE]).

(** property: requests the gadget does not know - a reserved type, a class request
    above 2, a vendor request outside its tables, a standard request other
    than the five it handles - are stalled with -EOPNOTSUPP and nothing is
    queued; they still mark the interface as set. *)
Theorem unknown_requests_stall is_otg given c g w :
  (req_type c = 0x60 \/
   req_type c = USB_TYPE_CLASS /\ 2 < bRequest c \/
   req_type c = USB_TYPE_VENDOR /\ vendor_rule_of c = None \/
   req_type c = USB_TYPE_STANDARD /\ known_standard c = false) ->
  scale_setup is_otg given c (g, w) = Some (- EOPNOTSUPP, (after g (g_dev g) (g_buf g), w)).
Proof.
  intros H.
  assert (setup_switch is_otg given c (g, w) = Some (stalled, (g, w))) as E.
  { destruct g as [d buf s]. unfold setup_switch. fold (req_type c). cbv zeta.
    destruct H as [->|[[-> H]|[[-> H]|[-> H]]]]; cbn -[setup_standard setup_class setup_vendor].
    - done.
    - unfold setup_class. rewrite !(proj2 (Z.eqb_neq _ _)) by lia. done.
    - unfold setup_vendor, vendor_rule_of in *. destruct (vendor_rules _) as [l|]; [|done].
      cbn [mbind option_bind] in H. apply run_rules_none. apply Forall_forall. intros x Hx.
      destruct (list_find _ l) as [[]|] eqn:Ef; [done|]. apply list_find_None in Ef.
      rewrite Forall_forall in Ef. by apply not_true_is_false, Ef.
    - unfold known_standard in H. apply bool_decide_eq_false in H.
      rewrite !not_elem_of_cons in H. destruct H as (H1 & H2 & H3 & H4 & H5 & _).
      unfold setup_standard, fbind, gdev, on_dev, dev. cbn [fst].
      by rewrite !(proj2 (Z.eqb_neq _ _)) by done. }
  unfold scale_setup, fbind. rewrite E. by destruct g.
Qed.

(** ** Answers that leave their memory *)

(** property: the three vendor requests that copy as many bytes as the host asks
    for read past the end of the answer on the stack as soon as the host asks
    for more than it has (5, 9 and 33 bytes). *)
Theorem vendor_overread is_otg given c x g w :
  req_type c = USB_TYPE_VENDOR -> vendor_rule_of c = Some x -> v_limit x = None ->
  Z.of_nat (length (v_answer x)) < wLength c ->
  scale_setup is_otg given c (g, w) = None.
Proof.
  intros Ht Hx Hl Hw. unfold scale_setup, fbind, setup_switch. fold (req_type c). rewrite Ht.
  cbn -[setup_vendor]. unfold setup_vendor, vendor_rule_of in *.
  destruct (vendor_rules _) as [l|] eqn:E; [|done]. cbn [mbind option_bind] in Hx.
  destruct (list_find _ l) as [[i y]|] eqn:Ef; [|done]. injection Hx as ->. clear E.
  enough (forall r s, run_rules l c r s = None) as -> by done.
  revert i Ef. induction l as [|y l IH]; intros i Ef r s; [done|].
  cbn [run_rules list_find] in *. fold (matches c y). case_decide as Hm.
  - injection Ef as <- <-. rewrite Hm, Hl. unfold fbind, memcpy.
    rewrite (proj2 (Z.leb_gt (wLength c) _)) by lia. by rewrite andb_false_r.
  - rewrite (not_true_is_false _ Hm). destruct (list_find _ l) as [[j z]|]; [|done].
    injection Ef as _ ->. by apply (IH j).
Qed.

Definition get_device (len : Z) : usb_ctrlrequest :=
  mkCtrl USB_DIR_IN USB_REQ_GET_DESCRIPTOR 0x0100 0 len.

(** property: the length handed to the controller is the host's, not the buffer's:
    asked for more than 256 bytes of the device descriptor the gadget tells
    the controller to send that many from its 256 byte buffer. *)
Theorem descriptor_overruns_buffer is_otg given len g w :
  g_ok g -> 256 < len < 65536 ->
  exists buf r g', scale_setup is_otg given (get_device len) (g, w) = Some (r, (g', EvQueue0 buf len true :: w)) /\
    Z.of_nat (length buf) < len.
Proof.
  intros Hg Hl.
  destruct (scale_setup_run is_otg given (get_device len) g w (dev_bytes (device_desc (g_static g))) 0)
    as (buf & E & Hb & _); [done|by repeat split; cbn; lia| |done|].
  { intros Ht. by vm_compute in Ht. }
  rewrite E. cbn [sent_length Z.eqb orb].
  change (Z.of_nat (length (dev_bytes _))) with 18. change (wLength (get_device len)) with len.
  rewrite (proj2 (Z.ltb_lt 18 len)) by lia. do 3 eexists. split; [done|]. rewrite Hb.
  change (Z.of_nat USB_DESC_BUFSIZE) with 256. lia.
Qed.
End Trace.

(** ** The configuration descriptor as the host reads it *)

(** Cutting bytes into descriptors by their length bytes. *)
Fixpoint walk (fuel : nat) (bs : list Z) : option (list (list Z)) :=
  match fuel, bs with
  | _, [] => Some []
  | S fuel, n :: _ =>
      if (2 <=? n) && (n <=? Z.of_nat (length bs))
      then cons (take (Z.to_nat n) bs) <$> walk fuel (drop (Z.to_nat n) bs)
      else None
  | O, _ => None
  end.

Definition is_endpoint (d : list Z) : bool := bool_decide (d !! 1%nat = Some USB_DT_ENDPOINT).

(** C26: the configuration descriptor can be parsed back: cut by the length
    bytes it is the configuration header, whose total length is the number of
    bytes, the interface descriptor and the endpoint descriptors as
    autoconfiguration left them, as many as the interface announces. *)
Theorem config_buf1_parses s buf :
  length buf = USB_DESC_BUFSIZE -> bNumConfigurations (device_desc s) = 1 ->
  exists len buf' header, config_buf1 s buf USB_DT_CONFIG 0 = Some (len, buf') /\
    length buf' = USB_DESC_BUFSIZE /\
    walk 16 (take (Z.to_nat len) buf') = Some (header :: drop 2 (fs_dmx_scale_function (eps s))) /\
    take 4 header = [9; USB_DT_CONFIG] ++ le16 len /\
    dmx_intf_desc !! 4%nat =
      Some (Z.of_nat (length (filter (fun d => is_endpoint d = true) (drop 2 (fs_dmx_scale_function (eps s)))))).
Proof.
  intros Hb Hn. rewrite config_buf1_run by (done || lia). do 3 eexists. split; [reflexivity|].
  split; [reflexivity|]. split; [reflexivity|]. split; reflexivity.
Qed.

(** ** Witnesses *)
Definition demo_static : scale_static :=
  mkStatic device_desc0
    [(0, cstr 17 "joy string test!"); (1, manufacturer); (2, product_desc); (3, serial_num)]
    ([0; 36] ++ drop 2 pnp_string0) scale_eps0.
Definition demo_scale : scale_dev :=
  mkScale [] [] [] None [] [] [] SCALE_USB_NOT_ERROR false false 1 0 true true false.
Definition demo_g : gstate := mkG demo_scale (replicate USB_DESC_BUFSIZE 0xff) demo_static.

Lemma demo_g_ok : g_ok demo_g.
Proof.
  split; [reflexivity|]. split; [|reflexivity|vm_compute; split; [split|]; discriminate].
  assert (Forall (fun p => 0 ∈ snd p) (strtab demo_static)) as H
    by (apply (bool_decide_unpack _); by vm_compute).
  rewrite Forall_forall in H. intros i x Hx. exact (H (i, x) Hx).
Qed.

(** The first request of an enumeration: 64 bytes of the device descriptor. *)
Lemma scale_setup_answers_witness :
  exists buf, scale_setup (ScaleOps0 := scale_trace (fun _ => 0)) (SetupOps0 := setup_trace (fun _ => 0))
      false ([], []) (get_device 64) (demo_g, []) =
    Some (64, (after demo_g demo_scale buf, [EvQueue0 buf 64 true])) /\
    length buf = USB_DESC_BUFSIZE /\
    take 64 buf = take 64 (pad (take 64 (dev_bytes device_desc0))) /\
    (64 <= Z.of_nat (length buf) <-> 0 = 1 \/ 0 = 2 \/ 64 <= 256).
Proof.
  apply (scale_setup_answers (fun _ => 0) false ([], []) (get_device 64) demo_g [] (dev_bytes device_desc0) 0).
  - exact demo_g_ok.
  - vm_compute. repeat split; discriminate.
  - intros H. vm_compute in H. discriminate.
  - reflexivity.
Defined.

Lemma set_configuration_spec_witness :
  scale_setup (ScaleOps0 := scale_trace (fun _ => 0)) (SetupOps0 := setup_trace (fun _ => 0))
      false ([], []) (set_configuration 5 0) (demo_g, []) =
    Some (- EINVAL, (demo_g, [EvEnable OutEp; EvEnable InEp; EvVbus 100])).
Proof. apply (set_configuration_spec (fun _ => 0) false ([], []) 5 0 demo_g []); [exact demo_g_ok|lia]. Defined.

Lemma unknown_requests_stall_witness :
  scale_setup (ScaleOps0 := scale_trace (fun _ => 0)) (SetupOps0 := setup_trace (fun _ => 0))
      false ([], []) (mkCtrl 0xc0 0x11 1 0 2) (demo_g, []) =
    Some (- EOPNOTSUPP, (demo_g, [])).
Proof.
  apply (unknown_requests_stall (fun _ => 0) false ([], []) (mkCtrl 0xc0 0x11 1 0 2) demo_g []).
  right. right. left. split; reflexivity.
Defined.

Lemma vendor_overread_witness :
  scale_setup (ScaleOps0 := scale_trace (fun _ => 0)) (SetupOps0 := setup_trace (fun _ => 0))
      false ([], []) (mkCtrl 0xc0 0x31 8 0 64) (demo_g, []) = None.
Proof.
  apply (vendor_overread (fun _ => 0) false ([], []) (mkCtrl 0xc0 0x31 8 0 64)
    (mkRule 0x0008 0x0000 answer_31 None 0) demo_g []); reflexivity.
Defined.

Lemma descriptor_overruns_buffer_witness :
  exists buf r g', scale_setup (ScaleOps0 := scale_trace (fun _ => 0)) (SetupOps0 := setup_trace (fun _ => 0))
      false ([], []) (get_device 4096) (demo_g, []) = Some (r, (g', [EvQueue0 buf 4096 true])) /\
    Z.of_nat (length buf) < 4096.
Proof. apply (descriptor_overruns_buffer (fun _ => 0) false ([], []) 4096 demo_g []); [exact demo_g_ok|lia]. Defined.

Lemma config_buf1_parses_witness :
  exists len buf' header, config_buf1 demo_static (g_buf demo_g) USB_DT_CONFIG 0 = Some (len, buf') /\
    length buf' = USB_DESC_BUFSIZE /\
    walk 16 (take (Z.to_nat len) buf') = Some (header :: drop 2 (fs_dmx_scale_function scale_eps0)) /\
    take 4 header = [9; USB_DT_CONFIG] ++ le16 len /\
    dmx_intf_desc !! 4%nat =
      Some (Z.of_nat (length (filter (fun d => is_endpoint d = true) (drop 2 (fs_dmx_scale_function scale_eps0))))).
Proof. apply (config_buf1_parses demo_static (g_buf demo_g)); reflexivity. Defined.
