(* ===== verification/ScaleBind.v ===== *)
(** * USB gadget: binding the scale gadget (test_gadget/scale_usb.c)

    [scale_bind] with its helpers, [scale_unbind], module entry and exit.
    Requests are numbers; [live] are those that were allocated and not freed,
    with the endpoint they belong to.  [gdata] is what the gadget's driver
    data points to: the composite framework's device when [scale_bind] is
    called, the scale device when it has succeeded.  Using one as the other,
    or a NULL endpoint or request, is a fault ([None]).  The driver core, the
    allocator and the composite framework's probe are the class [BindOps]. *)

From Stdlib Require Import ZArith.
From stdpp Require Import base list strings.
From S2P Require Import Prelude UsbString UsbConfig EpAutoconf Composite ScaleUsb ScaleSetup.

Inductive epref := Ep0 | EpN (i : nat).
#[export] Instance epref_eq_dec : EqDecision epref.
Proof. solve_decision. Defined.

Inductive gadget_data := GNull | GComposite | GScale.
#[export] Instance gadget_data_eq_dec : EqDecision gadget_data.
Proof. solve_decision. Defined.

Record bstate := mkB {
  b_dev : scale_dev;
  b_static : scale_static;
  b_udc : EpAutoconf.usb_gadget * Z;            (** the controller's endpoints, [epnum] *)
  b_cdev : usb_composite_dev;
  in_ep : option nat;
  out_ep : option nat;
  testin_ep : list (option nat);
  testout_ep : list (option nat);
  tx_idle : list nat;
  rx_req : option nat;
  ctl_req : option nat;                         (** [dev->req] *)
  live : list (nat * epref);
  fresh : nat;
  dev_file : bool;                              (** [device_create] *)
  cdev_live : bool;                             (** [cdev_add] *)
  mutex_ready : bool;                           (** [mutex_init(&dev->lock_scale_io)] *)
  gdata : gadget_data;
}.

Definition set_b_dev x b := mkB x (b_static b) (b_udc b) (b_cdev b) (in_ep b) (out_ep b) (testin_ep b)
  (testout_ep b) (tx_idle b) (rx_req b) (ctl_req b) (live b) (fresh b) (dev_file b) (cdev_live b) (mutex_ready b) (gdata b).
Definition set_b_static x b := mkB (b_dev b) x (b_udc b) (b_cdev b) (in_ep b) (out_ep b) (testin_ep b)
  (testout_ep b) (tx_idle b) (rx_req b) (ctl_req b) (live b) (fresh b) (dev_file b) (cdev_live b) (mutex_ready b) (gdata b).
Definition set_b_udc x b := mkB (b_dev b) (b_static b) x (b_cdev b) (in_ep b) (out_ep b) (testin_ep b)
  (testout_ep b) (tx_idle b) (rx_req b) (ctl_req b) (live b) (fresh b) (dev_file b) (cdev_live b) (mutex_ready b) (gdata b).
Definition set_b_cdev x b := mkB (b_dev b) (b_static b) (b_udc b) x (in_ep b) (out_ep b) (testin_ep b)
  (testout_ep b) (tx_idle b) (rx_req b) (ctl_req b) (live b) (fresh b) (dev_file b) (cdev_live b) (mutex_ready b) (gdata b).
Definition set_eps i o b := mkB (b_dev b) (b_static b) (b_udc b) (b_cdev b) i o (testin_ep b)
  (testout_ep b) (tx_idle b) (rx_req b) (ctl_req b) (live b) (fresh b) (dev_file b) (cdev_live b) (mutex_ready b) (gdata b).
Definition set_test i o b := mkB (b_dev b) (b_static b) (b_udc b) (b_cdev b) (in_ep b) (out_ep b) i
  o (tx_idle b) (rx_req b) (ctl_req b) (live b) (fresh b) (dev_file b) (cdev_live b) (mutex_ready b) (gdata b).
Definition set_reqs t r c b := mkB (b_dev b) (b_static b) (b_udc b) (b_cdev b) (in_ep b) (out_ep b) (testin_ep b)
  (testout_ep b) t r c (live b) (fresh b) (dev_file b) (cdev_live b) (mutex_ready b) (gdata b).
Definition set_heap l n b := mkB (b_dev b) (b_static b) (b_udc b) (b_cdev b) (in_ep b) (out_ep b) (testin_ep b)
  (testout_ep b) (tx_idle b) (rx_req b) (ctl_req b) l n (dev_file b) (cdev_live b) (mutex_ready b) (gdata b).
Definition set_files f c b := mkB (b_dev b) (b_static b) (b_udc b) (b_cdev b) (in_ep b) (out_ep b) (testin_ep b)
  (testout_ep b) (tx_idle b) (rx_req b) (ctl_req b) (live b) (fresh b) f c (mutex_ready b) (gdata b).
Definition set_mutex_ready m b := mkB (b_dev b) (b_static b) (b_udc b) (b_cdev b) (in_ep b) (out_ep b) (testin_ep b)
  (testout_ep b) (tx_idle b) (rx_req b) (ctl_req b) (live b) (fresh b) (dev_file b) (cdev_live b) m (gdata b).
Definition set_gdata g b := mkB (b_dev b) (b_static b) (b_udc b) (b_cdev b) (in_ep b) (out_ep b) (testin_ep b)
  (testout_ep b) (tx_idle b) (rx_req b) (ctl_req b) (live b) (fresh b) (dev_file b) (cdev_live b) (mutex_ready b) g.

Class BindOps (W : Type) := {
  device_create : M W bool;              (** false: an error pointer *)
  cdev_add : M W Z;
  usb_ep_alloc_request : M W bool;       (** false: NULL *)
  kmalloc : M W bool;
  set_selfpowered : M W unit;
}.

Section Bind.
Context {W : Type} `{!BindOps W} (cfg : build_config).
Abbreviation BX := (FM (bstate * W)).

Definition bst : BX bstate := fun s => Some (fst s, s).
Definition bupd (f : bstate -> bstate) : BX unit := fmodify (fun '(b, w) => (f b, w)).
Definition bout {A} (m : M W A) : BX A := fun '(b, w) => let '(a, w) := m w in Some (a, (b, w)).
Definition dupd (f : scale_dev -> scale_dev) : BX unit := bupd (fun b => set_b_dev (f (b_dev b)) b).

(** ** Requests *)
Definition new_request (e : epref) : BX nat := fun '(b, w) =>
  Some (fresh b, (set_heap ((fresh b, e) :: live b) (S (fresh b)) b, w)).
(** [usb_ep_free_request]: a request that is not live is freed twice. *)
Definition usb_ep_free_request (req : nat) : BX unit := fun '(b, w) =>
  if decide (req ∈ fst <$> live b)
  then Some (tt, (set_heap (filter (fun x => fst x <> req) (live b)) (fresh b) b, w)) else None.

Definition scale_req_alloc (e : epref) : BX (option nat) :=
  ok <~ bout usb_ep_alloc_request ;;
  if negb ok then fret None
  else
    req <~ new_request e ;;
    ok <~ bout kmalloc ;;
    if negb ok then (usb_ep_free_request req ~;; fret None) else fret (Some req).

Definition scale_req_free (ep : option epref) (req : option nat) : BX unit :=
  match ep, req with
  | Some _, Some req => usb_ep_free_request req
  | _, _ => fret tt
  end.

Definition scale_request_new (e : epref) : BX (option nat) :=
  ok <~ bout usb_ep_alloc_request ;;
  if negb ok then fret None
  else
    req <~ new_request e ;;
    ok <~ bout kmalloc ;;
    if negb ok then (usb_ep_free_request req ~;; fret None) else fret (Some req).

(** On the list [tx_idle]. *)
Definition adb_req_put (req : nat) : BX unit :=
  bupd (fun b => set_reqs (tx_idle b ++ [req]) (rx_req b) (ctl_req b) b).
Definition adb_req_get : BX (option nat) :=
  b <~ bst ;;
  match tx_idle b with
  | [] => fret None
  | req :: l => bupd (set_reqs l (rx_req b) (ctl_req b)) ~;; fret (Some req)
  end.

(** ** Endpoints *)

(** [usb_ep_autoconfig] on the descriptor [get] reads and [put] writes. *)
Definition autoconfig (get : scale_eps -> usb_endpoint_descriptor)
    (put : usb_endpoint_descriptor -> scale_eps -> scale_eps) : BX (option nat) := fun '(b, w) =>
  let s := b_static b in
  match usb_ep_autoconfig cfg (fst (b_udc b)) (get (eps s), snd (b_udc b)) with
  | None => None
  | Some (e, (d, epnum)) =>
      Some (e, (set_b_udc (fst (b_udc b), epnum)
        (set_b_static (mkStatic (device_desc s) (strtab s) (pnp_string s) (put d (eps s))) b), w))
  end.

(** [ep->driver_data = data] *)
Definition claim (i : nat) (data : Z) : BX unit := bupd (fun b =>
  let g := fst (b_udc b) in
  set_b_udc (EpAutoconf.mkGadget (gadget_name g) (is_dualspeed g)
    (alter (fun e => mkEp (ep_name e) (EpAutoconf.maxpacket e) (Some data)) i (ep_list g)), snd (b_udc b)) b).
(** The values stored there: the endpoint itself, the device. *)
Definition SELF : Z := 1.
Definition DEV : Z := 2.

Definition put_in (index : nat) (d : usb_endpoint_descriptor) (e : scale_eps) : scale_eps :=
  let set_ (i : nat) (old : usb_endpoint_descriptor) := if (index =? i)%nat then d else old in
  mkEps (set_ 0%nat (dmx_ep2_in_desc e)) (set_ 1%nat (dmx_ep5_in_desc e)) (set_ 2%nat (dmx_ep8_in_desc e))
    (dmx_ep2_out_desc e) (dmx_ep5_out_desc e) (dmx_ep8_out_desc e)
    (set_ 3%nat (fs_ep_in_desc e)) (fs_ep_out_desc e).
Definition put_out (index : nat) (d : usb_endpoint_descriptor) (e : scale_eps) : scale_eps :=
  let set_ (i : nat) (old : usb_endpoint_descriptor) := if (index =? i)%nat then d else old in
  mkEps (dmx_ep2_in_desc e) (dmx_ep5_in_desc e) (dmx_ep8_in_desc e)
    (set_ 0%nat (dmx_ep2_out_desc e)) (set_ 1%nat (dmx_ep5_out_desc e)) (set_ 2%nat (dmx_ep8_out_desc e))
    (fs_ep_in_desc e) (set_ 3%nat (fs_ep_out_desc e)).
Definition get_in (index : nat) (e : scale_eps) : usb_endpoint_descriptor :=
  match index with 0%nat => dmx_ep2_in_desc e | 1%nat => dmx_ep5_in_desc e
                 | 2%nat => dmx_ep8_in_desc e | _ => fs_ep_in_desc e end.
Definition get_out (index : nat) (e : scale_eps) : usb_endpoint_descriptor :=
  match index with 0%nat => dmx_ep2_out_desc e | 1%nat => dmx_ep5_out_desc e
                 | 2%nat => dmx_ep8_out_desc e | _ => fs_ep_out_desc e end.

(** The loop over the transmit requests, [n] left. *)
Fixpoint create_tx (n : nat) (e : epref) : BX Z :=
  match n with
  | O => fret 0
  | S n =>
      req <~ scale_request_new e ;;
      match req with
      | None => fret (-1)
      | Some req => adb_req_put req ~;; create_tx n e
      end
  end.

(** The descriptor pair is number [index] of the three. *)
Definition adb_create_bulk_endpoints (index : nat) : BX Z :=
  ep <~ autoconfig (get_in index) (put_in index) ;;
  match ep with
  | None => fret (- ENODEV)
  | Some i =>
      claim i DEV ~;;
      bupd (fun b => set_test (<[index := Some i]> (testin_ep b)) (testout_ep b) b) ~;;
      ep <~ autoconfig (get_out index) (put_out index) ;;
      match ep with
      | None => fret (- ENODEV)
      | Some o =>
          claim o DEV ~;;
          bupd (fun b => set_test (testin_ep b) (<[index := Some o]> (testout_ep b)) b) ~;;
          req <~ scale_request_new (EpN o) ;;
          match req with
          | None => fret (-1)
          | Some req =>
              bupd (fun b => set_reqs (tx_idle b) (Some req) (ctl_req b) b) ~;;
              create_tx 4 (EpN i)
          end
      end
  end.

(** ** Unbinding *)

(** The loops that take the requests off a list and free them. *)
Fixpoint free_tx (ep : option epref) (l : list nat) : BX unit :=
  match l with
  | [] => fret tt
  | req :: l =>
      dupd (fun d => set_tx l (tx_reqs_active d) d) ~;; scale_req_free ep (Some req) ~;; free_tx ep l
  end.
Fixpoint free_rx (ep : option epref) (l : list nat) : BX unit :=
  match l with
  | [] => fret tt
  | req :: l =>
      dupd (fun d => set_rx l (rx_reqs_active d) (rx_buffers d) d) ~;;
      scale_req_free ep (Some req) ~;; free_rx ep l
  end.
Fixpoint free_buffers (ep : option epref) (l : list (nat * list Z)) : BX unit :=
  match l with
  | [] => fret tt
  | (req, _) :: l =>
      dupd (fun d => set_rx (rx_reqs d) (rx_reqs_active d) l d) ~;;
      scale_req_free ep (Some req) ~;; free_buffers ep l
  end.

Definition scale_unbind : BX unit :=
  b <~ bst ;;
  if negb (bool_decide (gdata b = GScale)) then fault
  else
    let d := b_dev b in
    let in_ := EpN <$> in_ep b in
    let out := EpN <$> out_ep b in
    bupd (set_files false false) ~;;
    free_tx in_ (tx_reqs d) ~;;
    scale_req_free (Some Ep0) (ctl_req b) ~;;
    bupd (fun b => set_reqs (tx_idle b) (rx_req b) None b) ~;;
    scale_req_free out (current_rx_req d) ~;;
    free_rx out (rx_reqs d) ~;;
    free_buffers out (rx_buffers d) ~;;
    bupd (set_gdata GNull).

(** ** Binding *)

(** One of the three string identifiers: stored in the table and in the
    device descriptor by [put]. *)
Definition string_id (index : nat) (put : Z -> usb_device_descriptor -> usb_device_descriptor) :
    BX Z := fun '(b, w) =>
  let '(id, c) := usb_string_id (b_cdev b) in
  let b := set_b_cdev c b in
  if id <? 0 then Some (id, (b, w))
  else
    let s := b_static b in
    Some (id, (set_b_static (mkStatic (put id (device_desc s))
      (alter (fun x => (id, snd x)) index (strtab s)) (pnp_string s) (eps s)) b, w)).

Definition put_iM (i : Z) (x : usb_device_descriptor) :=
  mkDevDesc (bcdUSB x) (bDeviceClass x) (bDeviceSubClass x) (bDeviceProtocol x) (bMaxPacketSize0 x)
    (idVendor x) (idProduct x) (bcdDevice x) i (iProduct x) (iSerialNumber x) (bNumConfigurations x).
Definition put_iP (i : Z) (x : usb_device_descriptor) :=
  mkDevDesc (bcdUSB x) (bDeviceClass x) (bDeviceSubClass x) (bDeviceProtocol x) (bMaxPacketSize0 x)
    (idVendor x) (idProduct x) (bcdDevice x) (iManufacturer x) i (iSerialNumber x) (bNumConfigurations x).
Definition put_iS (i : Z) (x : usb_device_descriptor) :=
  mkDevDesc (bcdUSB x) (bDeviceClass x) (bDeviceSubClass x) (bDeviceProtocol x) (bMaxPacketSize0 x)
    (idVendor x) (idProduct x) (bcdDevice x) (iManufacturer x) (iProduct x) i (bNumConfigurations x).
Definition put_ids (bcd : Z) (x : usb_device_descriptor) :=
  mkDevDesc (bcdUSB x) (bDeviceClass x) (bDeviceSubClass x) (bDeviceProtocol x) (bMaxPacketSize0 x)
    PRINTER_VENDOR_NUM PRINTER_PRODUCT_NUM bcd (iManufacturer x) (iProduct x) (iSerialNumber x)
    (bNumConfigurations x).

(** Release number, vendor, product and the length bytes of the PNP string. *)
Definition identify : BX unit := fun '(b, w) =>
  let s := b_static b in
  let gcnum := usb_gadget_controller_number cfg (fst (b_udc b)) in
  let bcd := if 0 <=? gcnum then u16 (0x0200 + gcnum) else 0x0108 in
  match strlen (pnp_string s) with
  | None => None
  | Some n =>
      let len := Z.of_nat n in
      let pnp := <[1%nat := Z.land len 0xff]> (<[0%nat := Z.land (Z.shiftr len 8) 0xff]> (pnp_string s)) in
      Some (tt, (set_b_static (mkStatic (put_ids bcd (device_desc s)) (strtab s) pnp (eps s)) b, w))
  end.

(** The device structure: empty lists, no configuration, no interface.  Its
    endpoint descriptors [in], [out], its flag [reset_scale] and the received
    bytes are as they were; [mutex_init] releases the mutex. *)
Definition init_dev (d : scale_dev) : scale_dev :=
  mkScale [] [] [] None [] [] [] SCALE_USB_NOT_ERROR (reset_scale d) false 0 (-1) (has_in d) (has_out d) false.

(** One of the two allocation loops, [n] requests left; on failure the
    requests on the list are freed. *)
Fixpoint alloc_tx (n : nat) (e : epref) : BX bool :=
  match n with
  | O => fret true
  | S n =>
      req <~ scale_req_alloc e ;;
      match req with
      | None =>
          b <~ bst ;; free_tx (Some e) (tx_reqs (b_dev b)) ~;; fret false
      | Some req => dupd (fun d => set_tx (req :: tx_reqs d) (tx_reqs_active d) d) ~;; alloc_tx n e
      end
  end.
Fixpoint alloc_rx (n : nat) (e : epref) : BX bool :=
  match n with
  | O => fret true
  | S n =>
      req <~ scale_req_alloc e ;;
      match req with
      | None =>
          b <~ bst ;; free_rx (Some e) (rx_reqs (b_dev b)) ~;; fret false
      | Some req => dupd (fun d => set_rx (req :: rx_reqs d) (rx_reqs_active d) (rx_buffers d) d) ~;; alloc_rx n e
      end
  end.

(** The last part: the three pairs of endpoints and the hookup. *)
Definition bind_finish : BX Z :=
  adb_create_bulk_endpoints 0 ~;;
  adb_create_bulk_endpoints 1 ~;;
  adb_create_bulk_endpoints 2 ~;;
  b <~ bst ;;
  let i := nth 0 (testin_ep b) None in
  let o := nth 0 (testout_ep b) None in
  bupd (set_eps i o) ~;;
  bupd (set_gdata GScale) ~;;
  match i, o with Some _, Some _ => fret 0 | _, _ => fault end.

(** The requests. *)
Definition bind_requests (i o : nat) : BX Z :=
  req <~ scale_req_alloc Ep0 ;;
  bupd (fun b => set_reqs (tx_idle b) (rx_req b) req b) ~;;
  match req with
  | None => scale_unbind ~;; fret (- ENOMEM)
  | Some _ =>
      ok <~ alloc_tx QLEN (EpN i) ;;
      if negb ok then fret (- ENOMEM)
      else
        ok <~ alloc_rx QLEN (EpN o) ;;
        if negb ok then fret (- ENOMEM) else bind_finish
  end.

(** The two endpoints and the device structure. *)
Definition bind_endpoints : BX Z :=
  bupd (fun b => set_b_udc (usb_ep_autoconfig_reset (fst (b_udc b))) b) ~;;
  bupd (fun b => set_reqs [] (rx_req b) (ctl_req b) b) ~;;
  ep <~ autoconfig (get_in 3) (put_in 3) ;;
  match ep with
  | None => fret (- ENODEV)
  | Some i =>
      claim i SELF ~;;
      ep <~ autoconfig (get_out 3) (put_out 3) ;;
      match ep with
      | None => fret (- ENODEV)
      | Some o =>
          claim o SELF ~;;
          bout set_selfpowered ~;;
          dupd init_dev ~;;
          bupd (set_mutex_ready true) ~;;
          bupd (set_eps (Some i) (Some o)) ~;;
          bind_requests i o
      end
  end.

Definition scale_bind : BX Z :=
  ok <~ bout device_create ;;
  if negb ok then (scale_unbind ~;; fret (- ENOMEM))
  else
    bupd (fun b => set_files true (cdev_live b) b) ~;;
    status <~ bout cdev_add ;;
    if negb (status =? 0) then (scale_unbind ~;; fret status)
    else
      bupd (fun b => set_files (dev_file b) true b) ~;;
      id <~ string_id STRING_MANUFACTURER put_iM ;;
      if id <? 0 then fret id
      else
        id <~ string_id STRING_PRODUCT put_iP ;;
        if id <? 0 then fret id
        else
          id <~ string_id STRING_SERIALNUM put_iS ;;
          if id <? 0 then fret id
          else identify ~;; bind_endpoints.

(** The callbacks registered with the composite framework. *)
Definition scale_mul_unbind : BX Z := fret 0.
Definition scale_mul_disconnect : BX unit := fret tt.
End Bind.

(** ** Module entry and exit *)
Class ModuleOps (W : Type) := {
  class_create : M W Z;                       (** 0, or the error of the error pointer *)
  class_destroy : M W unit;
  alloc_chrdev_region : Z -> M W Z;           (** how many numbers *)
  unregister_chrdev_region : Z -> M W unit;
  set_hooks : M W unit;                       (** setup and disconnect of [composite_driver] *)
  usb_composite_probe : M W Z;
  usb_composite_unregister : M W unit;
}.

Section Module_.
Context {W : Type} `{!ModuleOps W}.

Definition init : M W Z :=
  status <- class_create ;;
  if negb (status =? 0) then ret status
  else
    status <- alloc_chrdev_region 1 ;;
    if negb (status =? 0) then class_destroy ;; ret status
    else set_hooks ;; usb_composite_probe ;; ret 0.

(** [ready]: the mutex has been initialised; a mutex that is all zeros is a
    locked one. *)
Definition cleanup (ready : bool) : FM W unit :=
  if negb ready then fault
  else
    total_ (unregister_chrdev_region 2) ~;;
    total_ usb_composite_unregister ~;;
    total_ class_destroy.
End Module_.
