(* ===== verification/ScaleBindSpec.v ===== *)
(** * USB gadget: what binding the scale gadget leaves

    The ownership of the requests on every path of [scale_bind], the state
    after a successful bind, and that it is one [scale_setup] can work with;
    the error paths; what is left behind. *)

From Stdlib Require Import ZArith.
From stdpp Require Import base list strings.
From S2P Require Import Prelude UsbString UsbConfig EpAutoconf Composite CompositeCtl ScaleUsb ScaleUsbSpec ScaleSetup ScaleSetupSpec ScaleBind.

Section Inv.
Context {W : Type} `{!BindOps W} (cfg : build_config).
Abbreviation BX := (FM (bstate * W)).

(** ** Ownership: requests in a list or field of the device are live, in one
    place only, and numbers are used once. *)
Definition owned (b : bstate) : list nat :=
  tx_reqs (b_dev b) ++ rx_reqs (b_dev b) ++ tx_idle b ++ option_list (rx_req b) ++ option_list (ctl_req b).

Record inv (b : bstate) : Prop := {
  inv_owned : NoDup (owned b);
  inv_live : owned b ⊆ fst <$> live b;
  inv_nodup : NoDup (fst <$> live b);
  inv_fresh : Forall (fun x => (fst x < fresh b)%nat) (live b);
}.

(** ** Triples: what a return leaves, whatever the world answers *)
Definition triple {A} (P : bstate -> Prop) (m : BX A) (Q : A -> bstate -> Prop) : Prop :=
  forall b w a b' w', P b -> m (b, w) = Some (a, (b', w')) -> Q a b'.

Lemma triple_ret {A} (P : bstate -> Prop) (Q : A -> bstate -> Prop) a :
  (forall b, P b -> Q a b) -> triple P (fret a) Q.
Proof. intros H b w a' b' w' HP [= <- <- _]. by apply H. Qed.
Lemma triple_fault {A} P (Q : A -> bstate -> Prop) : triple P fault Q.
Proof. intros b w a b' w' _ [=]. Qed.
Lemma triple_bind {A B} P (R : A -> bstate -> Prop) (Q : B -> bstate -> Prop) (m : BX A) (k : A -> BX B) :
  triple P m R -> (forall a, triple (R a) (k a) Q) -> triple P (fbind m k) Q.
Proof.
  intros Hm Hk b w a b' w' HP. unfold fbind. destruct (m (b, w)) as [[x [b1 w1]]|] eqn:E; [|done].
  apply Hk. by apply (Hm b w x b1 w1).
Qed.
Lemma triple_bout {A} (P : bstate -> Prop) (Q : A -> bstate -> Prop) (m : M W A) :
  (forall a b, P b -> Q a b) -> triple P (bout m) Q.
Proof. intros H b w a b' w' HP. unfold bout. destruct (m w). intros [= <- <- _]. by apply H. Qed.
Lemma triple_bst (P : bstate -> Prop) : triple P bst (fun a b => a = b /\ P b).
Proof. intros b w a b' w' HP [= <- <- _]. done. Qed.
Lemma triple_bupd (P Q : bstate -> Prop) f : (forall b, P b -> Q (f b)) -> triple P (bupd f) (fun _ => Q).
Proof. intros Hf b w a b' w' HP [= _ <- _]. by apply Hf. Qed.
Lemma triple_pre {A} (P P' : bstate -> Prop) (m : BX A) Q :
  triple P' m Q -> (forall b, P b -> P' b) -> triple P m Q.
Proof. intros Hm H b w a b' w' HP. apply Hm. by apply H. Qed.
Lemma triple_post {A} P (m : BX A) (Q Q' : A -> bstate -> Prop) :
  triple P m Q' -> (forall a b, Q' a b -> Q a b) -> triple P m Q.
Proof. intros Hm H b w a b' w' HP E. apply H. by apply (Hm b w a b' w'). Qed.
Lemma triple_if {A} P (c : bool) (m n : BX A) Q :
  triple P m Q -> triple P n Q -> triple P (if c then m else n) Q.
Proof. by destruct c. Qed.

(** An early return of a negative result. *)
Lemma triple_if_neg P (id : Z) (m : BX Z) (Q : Z -> bstate -> Prop) :
  (forall b, P b -> id < 0 -> Q id b) -> triple P m Q -> triple P (if id <? 0 then fret id else m) Q.
Proof.
  intros H Hm. destruct (Z.ltb_spec id 0); [|done]. apply triple_ret. auto.
Qed.

(** ** Requests *)

(** What does not look at the heap; [F] is the rest of an assertion. *)
Definition heap_blind (F : bstate -> Prop) : Prop := forall l n b, F b -> F (set_heap l n b).

(** A request in the hands of the caller. *)
Definition holds (q : nat) (b : bstate) : Prop := inv b /\ q ∈ fst <$> live b /\ (q ∉ owned b).

Lemma owned_heap l n b : owned (set_heap l n b) = owned b.
Proof. done. Qed.

Lemma new_request_ok F e :
  heap_blind F -> triple (fun b => inv b /\ F b) (new_request e) (fun q b => holds q b /\ F b).
Proof.
  intros HF b w a b' w' [[Ho Hl Hn Hf] HFb] [= <- <- _]. split; [|by apply HF].
  assert (fresh b ∉ fst <$> live b) as Hfr.
  { rewrite list_elem_of_fmap. intros (x & E & Hx). rewrite Forall_forall in Hf. specialize (Hf x Hx). lia. }
  split; [|split].
  - constructor.
    + done.
    + rewrite owned_heap. intros x Hx. cbn. apply list_elem_of_further. by apply Hl.
    + cbn. by apply NoDup_cons.
    + cbn. constructor; [cbn; lia|]. eapply Forall_impl; [done|]. cbn. lia.
  - cbn. apply list_elem_of_here.
  - rewrite owned_heap. intros H. by apply Hfr, Hl.
Qed.

Lemma fst_filter (q : nat) (l : list (nat * epref)) :
  fst <$> filter (fun x => fst x <> q) l = filter (fun x => x <> q) (fst <$> l).
Proof.
  induction l as [|[x e] l IH]; [done|]. rewrite filter_cons. cbn [fmap list_fmap fst]. rewrite filter_cons.
  destruct (decide (x <> q)); cbn [fmap list_fmap fst]; [by f_equal|done].
Qed.

Lemma free_request_ok F q :
  heap_blind F ->
  triple (fun b => holds q b /\ F b) (usb_ep_free_request q) (fun _ b => inv b /\ F b).
Proof.
  intros HF b w a b' w' [[[Ho Hl Hn Hf] [Hq Hqo]] HFb]. unfold usb_ep_free_request.
  case_decide; [|done]. intros [= _ <- _]. split; [|by apply HF]. constructor.
  - done.
  - rewrite owned_heap. cbn [live set_heap]. rewrite fst_filter. intros x Hx.
    apply list_elem_of_filter. split; [intros ->; done|by apply Hl].
  - cbn [live set_heap]. rewrite fst_filter. by apply NoDup_filter.
  - cbn [live set_heap fresh]. rewrite Forall_forall in Hf |- *. intros x Hx.
    apply list_elem_of_filter in Hx as [_ Hx]. by apply Hf.
Qed.

Lemma req_alloc_ok F e :
  heap_blind F ->
  triple (fun b => inv b /\ F b) (scale_req_alloc e)
    (fun r b => match r with Some q => holds q b | None => inv b end /\ F b).
Proof.
  intros HF. unfold scale_req_alloc.
  eapply triple_bind; [apply (triple_bout _ (fun _ b => inv b /\ F b)); done|]. intros ok.
  apply triple_if; [by apply triple_ret|].
  eapply triple_bind; [by apply new_request_ok|]. intros q.
  eapply triple_bind; [apply (triple_bout _ (fun _ b => holds q b /\ F b)); done|]. intros ok2.
  apply triple_if; [|by apply triple_ret].
  eapply triple_bind; [by apply free_request_ok|]. intros []. by apply triple_ret.
Qed.
Lemma request_new_ok F e :
  heap_blind F ->
  triple (fun b => inv b /\ F b) (scale_request_new e)
    (fun r b => match r with Some q => holds q b | None => inv b end /\ F b).
Proof. apply req_alloc_ok. Qed.

(** Moving requests between the lists of the device. *)
Definition same_heap (b b' : bstate) : Prop := live b' = live b /\ fresh b' = fresh b.

Lemma inv_submseteq b b' : inv b -> owned b' ⊆+ owned b -> same_heap b b' -> inv b'.
Proof.
  intros [Ho Hl Hn Hf] Hs [El Ef]. constructor; rewrite ?El, ?Ef; [| |done..].
  - apply submseteq_Permutation in Hs as [k Hk]. rewrite Hk in Ho. by apply NoDup_app in Ho as [? _].
  - intros x Hx. apply Hl. by eapply elem_of_submseteq.
Qed.
Lemma holds_put q b b' : holds q b -> owned b' ≡ₚ q :: owned b -> same_heap b b' -> inv b'.
Proof.
  intros [[Ho Hl Hn Hf] [Hq Hqo]] Hp [El Ef]. constructor; rewrite ?El, ?Ef; [| |done..].
  - rewrite Hp. by apply NoDup_cons.
  - intros x Hx. rewrite Hp in Hx. apply elem_of_cons in Hx as [->|Hx]; [done|by apply Hl].
Qed.
Lemma inv_take q b b' : inv b -> owned b ≡ₚ q :: owned b' -> same_heap b b' -> holds q b'.
Proof.
  intros Hi Hp Hs. pose proof Hi as [Ho Hl Hn Hf]. rewrite Hp in Ho. apply NoDup_cons in Ho as [Hq Ho].
  split; [|split; [|done]].
  - apply (inv_submseteq b); [done| |done]. rewrite Hp. by apply submseteq_cons.
  - destruct Hs as [-> _]. apply Hl. rewrite Hp. apply list_elem_of_here.
Qed.

(** What does not look at the heap or at [tx_reqs], at the heap or at [rx_reqs]. *)
Definition tx_blind (F : bstate -> Prop) : Prop :=
  heap_blind F /\ forall r b, F b -> F (set_b_dev (set_tx r (tx_reqs_active (b_dev b)) (b_dev b)) b).
Definition rx_blind (F : bstate -> Prop) : Prop :=
  heap_blind F /\
  forall r b, F b -> F (set_b_dev (set_rx r (rx_reqs_active (b_dev b)) (rx_buffers (b_dev b)) (b_dev b)) b).

Lemma free_tx_ok F ep l :
  tx_blind F ->
  triple (fun b => (inv b /\ tx_reqs (b_dev b) = l) /\ F b) (free_tx ep l)
    (fun _ b => (inv b /\ tx_reqs (b_dev b) = []) /\ F b).
Proof.
  intros HF. pose proof HF as (Hh & Ht).
  induction l as [|q l IH]; cbn [free_tx]; [by apply triple_ret|].
  apply (triple_bind _ (fun _ b => holds q b /\ tx_reqs (b_dev b) = l /\ F b)); [|intros _;
    apply (triple_bind _ (fun _ b => (inv b /\ tx_reqs (b_dev b) = l) /\ F b)); [|intros _; exact IH]].
  - apply (triple_bupd _ (fun b => holds q b /\ tx_reqs (b_dev b) = l /\ F b)). intros b [[Hi El] HFb].
    split; [|split; [done|by apply Ht]]. apply (inv_take q b); [done| |done].
    unfold owned. cbn. by rewrite El.
  - destruct ep as [e|]; cbn [scale_req_free].
    + eapply triple_post; [apply (free_request_ok (fun b => tx_reqs (b_dev b) = l /\ F b))|].
      * intros l' n b [? ?]. split; [done|by apply Hh].
      * cbn. tauto.
    + apply triple_ret. intros b [[Hi _] [? ?]]. tauto.
Qed.
Lemma free_rx_ok F ep l :
  rx_blind F ->
  triple (fun b => (inv b /\ rx_reqs (b_dev b) = l) /\ F b) (free_rx ep l)
    (fun _ b => (inv b /\ rx_reqs (b_dev b) = []) /\ F b).
Proof.
  intros HF. pose proof HF as (Hh & Ht).
  induction l as [|q l IH]; cbn [free_rx]; [by apply triple_ret|].
  apply (triple_bind _ (fun _ b => holds q b /\ rx_reqs (b_dev b) = l /\ F b)); [|intros _;
    apply (triple_bind _ (fun _ b => (inv b /\ rx_reqs (b_dev b) = l) /\ F b)); [|intros _; exact IH]].
  - apply (triple_bupd _ (fun b => holds q b /\ rx_reqs (b_dev b) = l /\ F b)). intros b [[Hi El] HFb].
    split; [|split; [done|by apply Ht]]. apply (inv_take q b); [done| |done].
    unfold owned. cbn. rewrite El. solve_Permutation.
  - destruct ep as [e|]; cbn [scale_req_free].
    + eapply triple_post; [apply (free_request_ok (fun b => rx_reqs (b_dev b) = l /\ F b))|].
      * intros l' n b [? ?]. split; [done|by apply Hh].
      * cbn. tauto.
    + apply triple_ret. intros b [[Hi _] [? ?]]. tauto.
Qed.

(** The allocation loops: [n] more requests, or none at all. *)
Lemma alloc_tx_ok F e n m :
  tx_blind F ->
  triple (fun b => (inv b /\ length (tx_reqs (b_dev b)) = m) /\ F b) (alloc_tx n e)
    (fun ok b => (inv b /\ length (tx_reqs (b_dev b)) = if ok then (n + m)%nat else 0%nat) /\ F b).
Proof.
  intros HF. pose proof HF as (Hh & Ht). revert m. induction n as [|n IH]; intros m; cbn [alloc_tx];
    [by apply triple_ret|].
  eapply triple_bind.
  { eapply triple_pre; [apply (req_alloc_ok (fun b => length (tx_reqs (b_dev b)) = m /\ F b) e)|cbn; tauto].
    intros l k b [? ?]. split; [done|by apply Hh]. }
  intros [q|].
  - apply (triple_bind _ (fun _ b => (inv b /\ length (tx_reqs (b_dev b)) = S m) /\ F b));
      [|intros _; eapply triple_post; [apply (IH (S m))|]].
    + apply triple_bupd. intros b [Hq [El HFb]]. split; [|by apply Ht]. cbn. split; [|by f_equal].
      apply (holds_put q b); [done|done|done].
    + intros [] b H; [|done]. by rewrite Nat.add_succ_r in H.
  - eapply triple_bind; [apply triple_bst|]. intros b0.
    apply (triple_bind _ (fun _ b => (inv b /\ length (tx_reqs (b_dev b)) = 0%nat) /\ F b));
      [|intros _; by apply triple_ret].
    eapply triple_post; [eapply triple_pre; [by apply (free_tx_ok F (Some e) (tx_reqs (b_dev b0)))|]|].
    + intros b [-> [Hi [_ HFb]]]. done.
    + intros [] b [[Hi El] HFb]. by rewrite El.
Qed.
Lemma alloc_rx_ok F e n m :
  rx_blind F ->
  triple (fun b => (inv b /\ length (rx_reqs (b_dev b)) = m) /\ F b) (alloc_rx n e)
    (fun ok b => (inv b /\ length (rx_reqs (b_dev b)) = if ok then (n + m)%nat else 0%nat) /\ F b).
Proof.
  intros HF. pose proof HF as (Hh & Ht). revert m. induction n as [|n IH]; intros m; cbn [alloc_rx];
    [by apply triple_ret|].
  eapply triple_bind.
  { eapply triple_pre; [apply (req_alloc_ok (fun b => length (rx_reqs (b_dev b)) = m /\ F b) e)|cbn; tauto].
    intros l k b [? ?]. split; [done|by apply Hh]. }
  intros [q|].
  - apply (triple_bind _ (fun _ b => (inv b /\ length (rx_reqs (b_dev b)) = S m) /\ F b));
      [|intros _; eapply triple_post; [apply (IH (S m))|]].
    + apply triple_bupd. intros b [Hq [El HFb]]. split; [|by apply Ht]. cbn. split; [|by f_equal].
      apply (holds_put q b); [done| |done]. unfold owned. cbn. solve_Permutation.
    + intros [] b H; [|done]. by rewrite Nat.add_succ_r in H.
  - eapply triple_bind; [apply triple_bst|]. intros b0.
    apply (triple_bind _ (fun _ b => (inv b /\ length (rx_reqs (b_dev b)) = 0%nat) /\ F b));
      [|intros _; by apply triple_ret].
    eapply triple_post; [eapply triple_pre; [by apply (free_rx_ok F (Some e) (rx_reqs (b_dev b0)))|]|].
    + intros b [-> [Hi [_ HFb]]]. done.
    + intros [] b [[Hi El] HFb]. by rewrite El.
Qed.

(** ** The state binding works towards *)

(** Endpoint slots 0 to 2 are filled by [scale_bind]; nothing fills the
    fourth. *)
Definition slots_ok (b : bstate) : Prop :=
  length (testin_ep b) = 4%nat /\ length (testout_ep b) = 4%nat /\
  testin_ep b !! 3%nat = Some None /\ testout_ep b !! 3%nat = Some None.

(** Before the allocations. *)
Record started (b : bstate) : Prop := {
  st_static : static_ok (b_static b);
  st_slots : slots_ok b;
  st_files : dev_file b = true /\ cdev_live b = true;
  st_mutex : mutex_ready b = true;
  st_dev : config (b_dev b) = 0 /\ interface (b_dev b) = -1 /\ scale_cdev_open (b_dev b) = false /\
           rx_reqs_active (b_dev b) = [] /\ tx_reqs_active (b_dev b) = [] /\ rx_buffers (b_dev b) = [] /\
           current_rx_req (b_dev b) = None /\ current_rx_buf (b_dev b) = [] /\ lock_scale_io (b_dev b) = false;
}.
(** After them. *)
Record ready (b : bstate) : Prop := {
  rd_started : started b;
  rd_tx : length (tx_reqs (b_dev b)) = QLEN;
  rd_rx : length (rx_reqs (b_dev b)) = QLEN;
  rd_ctl : is_Some (ctl_req b);
}.

Lemma ready_blind : heap_blind ready.
Proof. intros l n b [[] ? ? ?]. by constructor; [constructor|..]. Qed.

Lemma static_ok_eps s e : static_ok s -> static_ok (mkStatic (device_desc s) (strtab s) (pnp_string s) e).
Proof. intros []. by constructor. Qed.

(** ** The three pairs of endpoints *)

(** What does not look at the controller's endpoints or their descriptors. *)
Definition ep_blind (F : bstate -> Prop) : Prop :=
  (forall x b, F b -> F (set_b_udc x b)) /\
  (forall e b, F b -> F (set_b_static (mkStatic (device_desc (b_static b)) (strtab (b_static b))
                                        (pnp_string (b_static b)) e) b)).

Lemma autoconfig_keeps F get put :
  ep_blind F -> triple (fun b => inv b /\ F b) (autoconfig cfg get put) (fun _ b => inv b /\ F b).
Proof.
  intros [H1 H2] b w a b' w' [Hi HF]. unfold autoconfig.
  destruct (usb_ep_autoconfig cfg _ _) as [[e [d n]]|]; [|done]. intros [= _ <- _].
  split; [by apply (inv_submseteq b)|]. by apply H1, H2.
Qed.
Lemma claim_keeps F i v :
  ep_blind F -> triple (fun b => inv b /\ F b) (claim i v) (fun _ b => inv b /\ F b).
Proof.
  intros [H1 _]. apply triple_bupd. intros b [Hi HF]. split; [by apply (inv_submseteq b)|by apply H1].
Qed.

Lemma ready_ep_blind : ep_blind ready.
Proof.
  split; [intros x b|intros e b]; intros [[] ? ? ?]; (constructor; [constructor|..]); try done.
  by apply static_ok_eps.
Qed.
Definition autoconfig_ok get put := autoconfig_keeps ready get put ready_ep_blind.
Definition claim_ok i v := claim_keeps ready i v ready_ep_blind.

Lemma slot_in_ok i o b :
  (i < 3)%nat -> inv b /\ ready b ->
  inv (set_test (<[i := o]> (testin_ep b)) (testout_ep b) b) /\
  ready (set_test (<[i := o]> (testin_ep b)) (testout_ep b) b).
Proof.
  intros Hi [Hb [[? [? [? [? ?]]] ? ? ?] ? ? ?]]. split; [by apply (inv_submseteq b)|].
  constructor; [constructor|..]; try done. unfold slots_ok. cbn.
  rewrite length_insert, list_lookup_insert_ne by lia. done.
Qed.
Lemma slot_out_ok i o b :
  (i < 3)%nat -> inv b /\ ready b ->
  inv (set_test (testin_ep b) (<[i := o]> (testout_ep b)) b) /\
  ready (set_test (testin_ep b) (<[i := o]> (testout_ep b)) b).
Proof.
  intros Hi [Hb [[? [? [? [? ?]]] ? ? ?] ? ? ?]]. split; [by apply (inv_submseteq b)|].
  constructor; [constructor|..]; try done. unfold slots_ok. cbn.
  rewrite length_insert, list_lookup_insert_ne by lia. done.
Qed.

Lemma create_tx_ok n e :
  triple (fun b => inv b /\ ready b) (create_tx n e) (fun _ b => inv b /\ ready b).
Proof.
  induction n as [|n IH]; cbn [create_tx]; [by apply triple_ret|].
  eapply triple_bind; [apply request_new_ok, ready_blind|]. intros [q|]; [|by apply triple_ret].
  apply (triple_bind _ (fun _ b => inv b /\ ready b)); [|intros _; exact IH].
  apply triple_bupd. intros b [Hq [[] ? ? ?]]. split; [|by constructor; [constructor|..]].
  apply (holds_put q b); [done| |done]. unfold owned. cbn. solve_Permutation.
Qed.

Lemma create_endpoints_ok i :
  (i < 3)%nat ->
  triple (fun b => inv b /\ ready b) (adb_create_bulk_endpoints cfg i) (fun _ b => inv b /\ ready b).
Proof.
  intros Hi. unfold adb_create_bulk_endpoints.
  eapply triple_bind; [apply autoconfig_ok|]. intros [ei|]; [|by apply triple_ret].
  eapply triple_bind; [apply claim_ok|]. intros [].
  apply (triple_bind _ (fun _ b => inv b /\ ready b)); [apply triple_bupd; intros b; by apply slot_in_ok|intros _].
  eapply triple_bind; [apply autoconfig_ok|]. intros [eo|]; [|by apply triple_ret].
  eapply triple_bind; [apply claim_ok|]. intros [].
  apply (triple_bind _ (fun _ b => inv b /\ ready b)); [apply triple_bupd; intros b; by apply slot_out_ok|intros _].
  eapply triple_bind; [apply request_new_ok, ready_blind|]. intros [q|]; [|by apply triple_ret].
  apply (triple_bind _ (fun _ b => inv b /\ ready b)); [|intros _; apply create_tx_ok].
  apply triple_bupd. intros b [[Hv [Hq Hqo]] [[] ? ? ?]]. split; [|by constructor; [constructor|..]].
  apply (holds_put q (set_reqs (tx_idle b) None (ctl_req b) b)); [| |done].
  - split; [|split; [done|]].
    + apply (inv_submseteq b); [done| |done]. unfold owned. cbn.
      do 3 apply submseteq_skips_l. by apply submseteq_inserts_l.
    + intros H. apply Hqo. unfold owned in *. cbn in H. rewrite !elem_of_app in *. tauto.
  - unfold owned. cbn. solve_Permutation.
Qed.

(** What a successful bind leaves. *)
Definition bound (b : bstate) : Prop :=
  ready b /\ gdata b = GScale /\ is_Some (in_ep b) /\ is_Some (out_ep b) /\
  in_ep b = nth 0 (testin_ep b) None /\ out_ep b = nth 0 (testout_ep b) None.

Lemma bind_finish_ok :
  triple (fun b => inv b /\ ready b) (bind_finish cfg) (fun r b => r = 0 /\ inv b /\ bound b).
Proof.
  unfold bind_finish.
  do 3 (eapply triple_bind; [apply create_endpoints_ok; lia|intros ?]).
  eapply triple_bind; [apply triple_bst|]. intros b0. cbv zeta.
  set (i := nth 0 (testin_ep b0) None). set (o := nth 0 (testout_ep b0) None).
  set (eps_are := fun b => (in_ep b = i /\ nth 0 (testin_ep b) None = i) /\
                           (out_ep b = o /\ nth 0 (testout_ep b) None = o)).
  apply (triple_bind _ (fun _ b => inv b /\ ready b /\ eps_are b)).
  { apply triple_bupd. intros b [<- [Hi [[] ? ? ?]]]. split; [by apply (inv_submseteq b0)|].
    split; [|done]. by constructor; [constructor|..]. }
  intros _. apply (triple_bind _ (fun _ b => inv b /\ ready b /\ eps_are b /\ gdata b = GScale)).
  { apply triple_bupd. intros b [Hi [[[] ? ? ?] He]]. split; [by apply (inv_submseteq b)|].
    split; [|done]. by constructor; [constructor|..]. }
  intros _. destruct i as [i|], o as [o|]; try apply triple_fault. apply triple_ret.
  intros b (Hi & Hr & [[Ei Ti] [Eo To]] & Eg). split; [done|]. split; [done|]. split; [done|]. split; [done|].
  rewrite Ei, Eo, Ti, To. split_and!; [by eexists|by eexists|done|done].
Qed.

(** [scale_unbind] on the composite framework's data. *)
Lemma unbind_faults P Q : (forall b, P b -> gdata b <> GScale) -> triple P scale_unbind Q.
Proof.
  intros H b w a b' w' HP. unfold scale_unbind, fbind, bst. cbn [fst].
  rewrite bool_decide_false by auto. done.
Qed.

(** While binding, the gadget's data is the composite device. *)
Definition starting (b : bstate) : Prop := started b /\ gdata b = GComposite.
Definition outcome (r : Z) (b : bstate) : Prop := inv b /\ (r = 0 -> bound b).

(** Either list is empty or full; the control request is there. *)
Definition with_rx (n : nat) (b : bstate) : Prop :=
  starting b /\ is_Some (ctl_req b) /\ length (rx_reqs (b_dev b)) = n.
Definition with_tx (n : nat) (b : bstate) : Prop :=
  starting b /\ is_Some (ctl_req b) /\ length (tx_reqs (b_dev b)) = n.
Lemma with_rx_blind n : tx_blind (with_rx n).
Proof. split; [intros l m b|intros r b]; intros ([[] ?] & ? & ?); (split; [by split; [constructor|]|done]). Qed.
Lemma with_tx_blind n : rx_blind (with_tx n).
Proof. split; [intros l m b|intros r b]; intros ([[] ?] & ? & ?); (split; [by split; [constructor|]|done]). Qed.

(** The control request replaces the one before it. *)
Lemma holds_put_ctl q b : holds q b -> inv (set_reqs (tx_idle b) (rx_req b) (Some q) b).
Proof.
  intros (Hi & Hq & Hqo).
  assert (owned (set_reqs (tx_idle b) (rx_req b) None b) ⊆+ owned b) as Hs.
  { unfold owned. cbn. do 4 apply submseteq_skips_l. apply submseteq_nil_l. }
  apply (holds_put q (set_reqs (tx_idle b) (rx_req b) None b)); [|unfold owned; cbn; solve_Permutation|done].
  split; [by apply (inv_submseteq b)|]. split; [done|]. intros H. apply Hqo. by eapply elem_of_submseteq.
Qed.

Lemma bind_requests_ok i o :
  triple (fun b => inv b /\ starting b /\ tx_reqs (b_dev b) = [] /\ rx_reqs (b_dev b) = [])
    (bind_requests cfg i o) outcome.
Proof.
  unfold bind_requests.
  eapply triple_bind; [apply req_alloc_ok|].
  { intros l n b ([[] ?] & Hl). split; [by split; [constructor|]|done]. }
  intros [q|].
  2: { apply (triple_bind _ (fun _ b => gdata b <> GScale));
         [apply triple_bupd; intros b (_ & (_ & E) & _); cbn; by rewrite E|intros _].
       apply (triple_bind _ (fun _ _ => False)); [by apply unbind_faults|intros _]. by apply triple_ret. }
  apply (triple_bind _ (fun _ b => (inv b /\ length (tx_reqs (b_dev b)) = 0%nat) /\ with_rx 0 b)).
  { apply triple_bupd. intros b (Hq & [[] ?] & Et & Er). split.
    - split; [|by cbn; rewrite Et]. by apply holds_put_ctl.
    - split; [by split; [constructor|]|]. cbn. rewrite Er. by split; [eexists|]. }
  intros _. eapply triple_bind; [apply alloc_tx_ok, with_rx_blind|].
  intros [|]; cbn [negb]; [|apply triple_ret; by intros b [[? _] _]].
  eapply triple_bind.
  { eapply triple_pre; [apply (alloc_rx_ok (with_tx QLEN) (EpN o) QLEN 0), with_tx_blind|].
    intros b [[Hi Hl] (Hs & Hc & Hr)]. done. }
  intros [|]; cbn [negb]; [|apply triple_ret; by intros b [[? _] _]].
  eapply triple_post; [eapply triple_pre; [apply bind_finish_ok|]|].
  - intros b [[Hi Hl] ([? _] & Hc & Ht)]. done.
  - intros r b (-> & Hi & Hb). done.
Qed.

(** ** Before the device structure is set up *)
Record prepared (b : bstate) : Prop := {
  pr_static : static_ok (b_static b);
  pr_slots : slots_ok b;
  pr_files : dev_file b = true /\ cdev_live b = true;
  pr_gdata : gdata b = GComposite;
}.
Lemma prepared_blind : ep_blind prepared.
Proof.
  split; [intros x b|intros e b]; intros []; constructor; try done. by apply static_ok_eps.
Qed.

Lemma bind_endpoints_ok : triple (fun b => inv b /\ prepared b) (bind_endpoints cfg) outcome.
Proof.
  unfold bind_endpoints.
  apply (triple_bind _ (fun _ b => inv b /\ prepared b)).
  { apply triple_bupd. intros b [Hi []]. split; [by apply (inv_submseteq b)|by constructor]. }
  intros _. apply (triple_bind _ (fun _ b => inv b /\ prepared b)).
  { apply triple_bupd. intros b [Hi []]. split; [|by constructor]. apply (inv_submseteq b); [done| |done].
    unfold owned. cbn. do 2 apply submseteq_skips_l. by apply submseteq_inserts_l. }
  intros _. eapply triple_bind; [apply autoconfig_keeps, prepared_blind|].
  intros [i|]; [|by apply triple_ret; intros b [? _]].
  eapply triple_bind; [apply claim_keeps, prepared_blind|]. intros [].
  eapply triple_bind; [apply autoconfig_keeps, prepared_blind|].
  intros [o|]; [|by apply triple_ret; intros b [? _]].
  eapply triple_bind; [apply claim_keeps, prepared_blind|]. intros [].
  eapply triple_bind; [apply (triple_bout _ (fun _ b => inv b /\ prepared b)); done|]. intros ?.
  apply (triple_bind _ (fun _ b => (inv b /\ prepared b) /\ b_dev b = init_dev (b_dev b))).
  { apply triple_bupd. intros b [Hi []]. split; [|done]. split; [|by constructor].
    apply (inv_submseteq b); [done| |done]. unfold owned. cbn. do 2 apply submseteq_inserts_l. done. }
  intros _. apply (triple_bind _ (fun _ b =>
    ((inv b /\ prepared b) /\ b_dev b = init_dev (b_dev b)) /\ mutex_ready b = true)).
  { apply triple_bupd. intros b [[Hi []] Hd]. split; [|done]. split; [|done].
    split; [by apply (inv_submseteq b)|by constructor]. }
  intros _. apply (triple_bind _ (fun _ b =>
    inv b /\ starting b /\ tx_reqs (b_dev b) = [] /\ rx_reqs (b_dev b) = [])); [|intros _; apply bind_requests_ok].
  apply triple_bupd. intros b [[[Hi []] Hd] Hm].
  split; [by apply (inv_submseteq b)|]. cbn [b_dev set_eps]. rewrite Hd. cbn.
  split; [|done]. split; [|done]. constructor; try done. cbn. by rewrite Hd.
Qed.

(** ** The whole of [scale_bind] *)
Record bindable (b : bstate) : Prop := {
  bi_strings : Forall (fun p => 0 ∈ snd p) (strtab (b_static b));
  bi_config : bNumConfigurations (device_desc (b_static b)) = 1;
  bi_pnp : exists n, strlen (pnp_string (b_static b)) = Some n /\ (n <= 256)%nat;
  bi_room : (2 <= length (pnp_string (b_static b)))%nat;
  bi_slots : slots_ok b;
  bi_gdata : gdata b = GComposite;
}.

Lemma strlen_length s n : strlen s = Some n -> (n < length s)%nat.
Proof.
  revert n. induction s as [|c s IH]; intros n; cbn; [done|]. case_if; [intros [= <-]; lia|].
  destruct (strlen s) as [m|]; [|done]. intros [= <-]. specialize (IH m eq_refl). lia.
Qed.

Lemma pnp_bytes n :
  (n <= 256)%nat ->
  Z.lor (Z.shiftl (Z.land (Z.shiftr (Z.of_nat n) 8) 0xff) 8) (Z.land (Z.of_nat n) 0xff) = Z.of_nat n.
Proof.
  intros Hn. apply Z.eqb_eq.
  apply (forall_below (fun x => Z.lor (Z.shiftl (Z.land (Z.shiftr x 8) 0xff) 8) (Z.land x 0xff) =? x) 257);
    [by vm_compute|lia].
Qed.

Definition keeps_desc (put : Z -> usb_device_descriptor -> usb_device_descriptor) : Prop :=
  forall i x, bNumConfigurations (put i x) = bNumConfigurations x.

Lemma string_id_ok F i put :
  (forall s c b, F b -> F (set_b_static s (set_b_cdev c b))) -> keeps_desc put ->
  triple (fun b => inv b /\ bindable b /\ F b) (string_id i put) (fun _ b => inv b /\ bindable b /\ F b).
Proof.
  intros HF Hp b w a b' w' (Hi & [Hs Hc Hn Hr Hl Hg] & HFb). unfold string_id.
  destruct (usb_string_id (b_cdev b)) as [id c]. case_if; intros [= _ <- _].
  - split; [by apply (inv_submseteq b)|]. split; [by constructor|]. by apply (HF (b_static b) c b).
  - split; [by apply (inv_submseteq b)|]. split; [|by apply HF]. constructor; try done.
    + cbn. apply Forall_alter; [done|]. by intros [] _ ?.
    + cbn. by rewrite Hp.
Qed.

Definition files_up (b : bstate) : Prop := dev_file b = true /\ cdev_live b = true.

Lemma identify_ok :
  triple (fun b => inv b /\ bindable b /\ files_up b) (identify cfg) (fun _ b => inv b /\ prepared b).
Proof.
  intros b w a b' w' (Hi & [Hs Hc (n & Hn & Hb) Hr Hl Hg] & Hf). unfold identify. rewrite Hn.
  intros [= _ <- _]. split; [by apply (inv_submseteq b)|]. constructor; try done.
  pose proof (strlen_length _ _ Hn). cbn [b_static set_b_static].
  destruct (pnp_string (b_static b)) as [|c0 [|c1 l]]; [by cbn in Hr; lia..|].
  constructor; cbn [strtab device_desc pnp_string].
  - intros i x Hx. rewrite Forall_forall in Hs. by apply (Hs (i, x)).
  - done.
  - unfold pnp_len. cbn [pnp_string insert list_insert nth length] in *. rewrite pnp_bytes by done. lia.
Qed.

Lemma bind_done_outcome b w r b' w' :
  inv b -> bindable b -> scale_bind cfg (b, w) = Some (r, (b', w')) -> outcome r b'.
Proof.
  intros Hi Hb. revert b w r b' w' Hi Hb.
  enough (triple (fun b => inv b /\ bindable b) (scale_bind cfg) outcome) as H.
  { intros b w r b' w' Hi Hb. by apply H. }
  unfold scale_bind.
  assert (triple (fun b => inv b /\ bindable b) (scale_unbind ~;; fret (- ENOMEM)) outcome) as Hfail.
  { eapply triple_bind; [apply (unbind_faults _ (fun _ _ => False))|by intros ?; apply triple_ret].
    intros b [_ []]. congruence. }
  eapply triple_bind; [apply (triple_bout _ (fun _ b => inv b /\ bindable b)); done|].
  intros ok. destruct ok; cbn [negb]; [|done].
  apply (triple_bind _ (fun _ b => inv b /\ bindable b /\ dev_file b = true)).
  { apply triple_bupd. intros b [Hi []]. split; [by apply (inv_submseteq b)|]. by split; [constructor|]. }
  intros _. eapply triple_bind; [apply (triple_bout _ (fun _ b => inv b /\ bindable b /\ dev_file b = true)); done|].
  intros st. destruct (st =? 0); cbn [negb].
  2: { eapply triple_bind; [apply (unbind_faults _ (fun _ _ => False))|by intros ?; apply triple_ret].
       intros b (_ & [] & _). congruence. }
  apply (triple_bind _ (fun _ b => inv b /\ bindable b /\ files_up b)).
  { apply triple_bupd. intros b (Hi & [] & Hf). split; [by apply (inv_submseteq b)|]. by split; [constructor|]. }
  intros _.
  do 3 (eapply triple_bind; [by apply string_id_ok|]; intros ?;
        apply triple_if_neg; [intros b (? & _) ?; split; [done|lia]|]).
  eapply triple_bind; [apply identify_ok|intros ?]. apply bind_endpoints_ok.
Qed.


(** C12: whatever the driver core, the allocator and the choice of endpoints
    answer, when [scale_bind] returns every request that is on a list or in a
    field of the device is allocated, in one place only; and when it returns
    success the device has ten transmit and ten receive requests and a
    control request, two bulk endpoints, which are the first pair of test
    endpoints, no configuration and no interface, its files exist, the
    gadget's data is the scale device, and its static data is what the
    control requests need.  The results of [adb_create_bulk_endpoints] are
    ignored, so nothing is promised of the second and third pair of test
    endpoints and of the requests made with them; the fourth pair, which the
    soft reset enables too, is NULL. *)
Theorem scale_bind_spec b w r b' w' :
  inv b -> bindable b -> scale_bind cfg (b, w) = Some (r, (b', w')) -> inv b' /\ (r = 0 -> bound b').
Proof. apply bind_done_outcome. Qed.



(** ** Error paths *)

(** property: the error path of [scale_bind] is never survived: when the device
    node or the character device cannot be created it calls [scale_unbind],
    which takes the gadget's data for the scale device while it still is the
    composite framework's. *)
Theorem bind_failure_faults b w :
  gdata b = GComposite ->
  (fst (device_create w) = false \/
   fst (device_create w) = true /\ fst (cdev_add (snd (device_create w))) <> 0) ->
  scale_bind cfg (b, w) = None.
Proof.
  intros Hg H. unfold scale_bind, fbind, bout. destruct (device_create w) as [ok w1]. cbn [fst snd] in H.
  assert (forall b w, gdata b = GComposite -> @scale_unbind W (b, w) = None) as Hu.
  { intros b0 w0 E. unfold scale_unbind, fbind, bst. cbn [fst]. by rewrite E. }
  destruct H as [->|[-> H]]; cbn [negb]; [by rewrite Hu|].
  cbn [bupd fmodify]. destruct (cdev_add w1) as [st w2]. cbn [fst] in H.
  rewrite (proj2 (Z.eqb_neq _ _) H). cbn [negb]. by rewrite Hu.
Qed.

(** property: the length of the PNP string is stored over its own first bytes: a
    second bind measures the string again, finds it empty, and from then on
    the request for it is answered with no bytes. *)
Theorem rebind_loses_pnp b (w : W) b1 (w1 : W) b2 (w2 : W) n :
  strlen (pnp_string (b_static b)) = Some n -> (2 <= n < 256)%nat ->
  identify cfg (b, w) = Some (tt, (b1, w1)) -> identify cfg (b1, w1) = Some (tt, (b2, w2)) ->
  pnp_len (b_static b1) = Z.of_nat n /\ pnp_len (b_static b2) = 0.
Proof.
  intros Hn Hb. unfold identify. rewrite Hn. intros [= <- <-].
  pose proof (strlen_length _ _ Hn) as Hl. cbn [b_static set_b_static pnp_string].
  destruct (pnp_string (b_static b)) as [|c0 [|c1 l]]; [by cbn in Hl; lia..|].
  cbn [insert list_insert].
  assert (Z.land (Z.shiftr (Z.of_nat n) 8) 0xff = 0) as E.
  { rewrite Z.shiftr_div_pow2, Z.div_small by lia. done. }
  rewrite E. cbn [strlen Z.eqb]. intros [= <- _]. unfold pnp_len. cbn [b_static set_b_static pnp_string nth].
  split; [|done]. rewrite <- (pnp_bytes n) at 2 by lia. by rewrite E.
Qed.
End Inv.

(** ** Module entry and exit *)
Inductive mev := EClassCreate | EClassDestroy | EAlloc (n : Z) | EUnregister (n : Z) | EHooks | EProbe | EUnprobe.
Section ModTrace.
Context (ans : list mev -> Z).
#[export] Instance module_trace : ModuleOps (list mev) := {|
  class_create := fun l => (ans l, EClassCreate :: l);
  class_destroy := fun l => (tt, EClassDestroy :: l);
  alloc_chrdev_region := fun n l => (ans l, EAlloc n :: l);
  unregister_chrdev_region := fun n l => (tt, EUnregister n :: l);
  set_hooks := fun l => (tt, EHooks :: l);
  usb_composite_probe := fun l => (ans l, EProbe :: l);
  usb_composite_unregister := fun l => (tt, EUnprobe :: l);
|}.

(** property: loading the module undoes what it did when a device number cannot be
    had, and succeeds whatever the probe of the composite driver answers;
    unloading it gives back two device numbers where one was taken, and waits
    forever if no controller was ever bound. *)
Theorem module_spec :
  (forall e, ans [] = e -> e <> 0 -> init [] = (e, [EClassCreate])) /\
  (forall e, ans [] = 0 -> ans [EClassCreate] = e -> e <> 0 ->
     init [] = (e, [EClassDestroy; EAlloc 1; EClassCreate])) /\
  (ans [] = 0 -> ans [EClassCreate] = 0 ->
     init [] = (0, [EProbe; EHooks; EAlloc 1; EClassCreate])) /\
  (forall l, cleanup true l = Some (tt, EClassDestroy :: EUnprobe :: EUnregister 2 :: l)) /\
  (forall l, cleanup false l = None).
Proof.
  split; [|split; [|split]].
  - intros e H Hn. unfold init, bind. cbn. rewrite H. by rewrite (proj2 (Z.eqb_neq e 0) Hn).
  - intros e H1 H2 Hn. unfold init, bind. cbn. rewrite H1. cbn. rewrite H2.
    by rewrite (proj2 (Z.eqb_neq e 0) Hn).
  - intros H1 H2. unfold init, bind. cbn. rewrite H1. cbn. by rewrite H2.
  - done.
Qed.
End ModTrace.

(** ** Witnesses: a controller with four bulk endpoints in each direction *)
#[export] Instance all_succeeds : BindOps unit := {|
  device_create := ret true;
  cdev_add := ret 0;
  usb_ep_alloc_request := ret true;
  kmalloc := ret true;
  set_selfpowered := ret tt;
|}.
Definition demo_cfg : build_config := mkBuild (fun _ => false) false.
Definition demo_udc : EpAutoconf.usb_gadget :=
  EpAutoconf.mkGadget "demo_udc" false
    ((fun n => mkEp (chars n) 512 None) <$>
       ["ep1in"; "ep1out"; "ep2in"; "ep2out"; "ep5in"; "ep5out"; "ep8in"; "ep8out"]).
Definition demo_cdev : usb_composite_dev :=
  mkCdev (mkGadget USB_SPEED_FULL false false 64) [] None ∅ 0 0 0 device_desc0 (mkReq [] 0 false) 0 0 0 0.
Definition unbound : bstate :=
  mkB (mkScale [] [] [] None [] [] [] 0 false false 0 0 false false false) static0 (demo_udc, 0) demo_cdev
    None None (replicate 4 None) (replicate 4 None) [] None None [] 0 false false false GComposite.

Lemma unbound_inv : inv unbound.
Proof. constructor; cbn; [constructor|done|constructor|constructor]. Qed.
Lemma unbound_bindable : bindable unbound.
Proof.
  constructor; [|reflexivity| |vm_compute; lia|repeat split; reflexivity|reflexivity].
  - apply (bool_decide_unpack _). by vm_compute.
  - exists 36%nat. split; [by vm_compute|lia].
Qed.

Definition bound_result : option (Z * bstate) :=
  '(r, (b, _)) ← scale_bind demo_cfg (unbound, tt); Some (r, b).

(** The bind succeeds; it leaves 36 requests: 20 for the character device, 12
    idle ones, the control request and the three receive requests of the test
    endpoints, of which the device remembers the last. *)
Lemma scale_bind_spec_witness :
  exists b, bound_result = Some (0, b) /\ (inv b /\ (0 = 0 -> bound b)) /\ length (live b) = 36%nat /\ length (owned b) = 34%nat.
Proof.
  destruct (scale_bind demo_cfg (unbound, tt)) as [[r [b w]]|] eqn:E; [|by vm_compute in E].
  pose proof (scale_bind_spec demo_cfg unbound tt r b w unbound_inv unbound_bindable E) as H.
  exists b. unfold bound_result. rewrite E.
  assert ((r, length (live b), length (owned b)) = (0, 36%nat, 34%nat)) as E2.
  { transitivity (match scale_bind demo_cfg (unbound, tt) with
                  | Some (r, (b, _)) => (r, length (live b), length (owned b)) | None => (1, 0%nat, 0%nat) end);
      [by rewrite E|by vm_compute]. }
  injection E2 as -> E3 E4. split; [reflexivity|]. split; [exact H|]. by split.
Defined.


Lemma bind_failure_faults_witness :
  @scale_bind unit {| device_create := ret false; cdev_add := ret 0; usb_ep_alloc_request := ret true;
                      kmalloc := ret true; set_selfpowered := ret tt |} demo_cfg (unbound, tt) = None.
Proof. apply (bind_failure_faults demo_cfg unbound tt); [reflexivity|]. left. reflexivity. Defined.

Lemma rebind_loses_pnp_witness :
  exists b1 b2, identify demo_cfg (unbound, tt) = Some (tt, (b1, tt)) /\
    identify demo_cfg (b1, tt) = Some (tt, (b2, tt)) /\
    pnp_len (b_static b1) = 36 /\ pnp_len (b_static b2) = 0.
Proof.
  destruct (identify demo_cfg (unbound, tt)) as [[[] [b1 []]]|] eqn:E1; [|by vm_compute in E1].
  destruct (identify demo_cfg (b1, tt)) as [[[] [b2 []]]|] eqn:E2.
  - exists b1, b2. split; [done|]. split; [done|].
    apply (rebind_loses_pnp demo_cfg unbound tt b1 tt b2 tt 36); [reflexivity|lia|exact E1|exact E2].
  - exfalso. injection E1 as <-. by vm_compute in E2.
Defined.
