(* ===== verification/TimedGpio.v ===== *)
(** * Timed GPIO (test_timedgpio: timed_output.c, timed_gpio.c, timed_gpiodev.c)

    The class of timed outputs (timed_output.c) and the GPIO driver behind it
    (timed_gpio.c): its timer function, get_time and enable callbacks, probe
    with its error path and remove; the sysfs attribute.  GPIO lines, timers
    and the driver core are the class [TimedOps]; timers and devices are
    named by their index.  [None] is the use of an error pointer as a class. *)

From Stdlib Require Import ZArith Ascii.
From stdpp Require Import base list strings.
From S2P Require Import Prelude KernelText.

(** ** Data (timed_gpio.h, timed_output.h) *)
Record timed_gpio := mkTimed {
  name : bool;                 (** [name != NULL] *)
  gpio : Z;
  max_timeout : Z;
  active_low : Z;
}.

(** [struct timed_gpio_data]; the callbacks are those of this driver. *)
Record timed_gpio_data := mkData {
  g_name : bool;
  g_gpio : Z;
  g_max : Z;
  g_low : Z;
  g_index : Z;
  g_state : Z;
}.
(** [kzalloc] *)
Definition zero_data : timed_gpio_data := mkData false 0 0 0 0 0.

(** [timed_output_class]: NULL, a class, or an error pointer. *)
Inductive class_ptr := CNull | CClass | CErr.

Record tstate := mkT {
  timed_output_class : class_ptr;
  device_count : Z;
  datas : list timed_gpio_data;
  drvdata : bool;              (** the driver data of the platform device is set *)
}.
Definition set_class c n s := mkT c n (datas s) (drvdata s).
Definition set_datas l s := mkT (timed_output_class s) (device_count s) l (drvdata s).
Definition set_drvdata b s := mkT (timed_output_class s) (device_count s) (datas s) b.

Class TimedOps (W : Type) := {
  gpio_request : Z -> M W Z;
  gpio_free : Z -> M W unit;
  gpio_direction_output : Z -> Z -> M W unit;
  hrtimer_init : nat -> M W unit;
  hrtimer_cancel : nat -> M W unit;
  hrtimer_start : nat -> Z -> M W unit;         (** in nanoseconds from now *)
  hrtimer_active : nat -> M W bool;
  hrtimer_get_remaining : nat -> M W Z;
  kzalloc : M W bool;
  kfree : M W unit;
  class_create : M W Z;                         (** 0, or the error *)
  class_destroy : M W unit;
  device_create : Z -> M W Z;
  device_create_file : Z -> M W Z;
  device_remove_file : Z -> M W unit;
  device_destroy : Z -> M W unit;
  dev_set_drvdata : Z -> bool -> M W unit;
}.

Section Driver.
Context {W : Type} `{!TimedOps W}.
Abbreviation TX := (FM (tstate * W)).

Definition tst : TX tstate := fun s => Some (fst s, s).
Definition tupd (f : tstate -> tstate) : TX unit := fmodify (fun '(t, w) => (f t, w)).
Definition tout {A} (m : M W A) : TX A := fun '(t, w) => let '(a, w) := m w in Some (a, (t, w)).
Definition data (i : nat) : TX timed_gpio_data := fun s =>
  match datas (fst s) !! i with Some d => Some (d, s) | None => None end.

(** ** The callbacks of the GPIO driver *)
Definition gpio_timer_func (i : nat) : TX unit :=
  d <~ data i ;; tout (gpio_direction_output (g_gpio d) (if truthy (g_low d) then 1 else 0)).

(** [ktime_to_timeval]: whole seconds, and microseconds of the rest. *)
Definition tv_sec (r : Z) : Z := r / 1000000000.
Definition tv_usec (r : Z) : Z := r mod 1000000000 / 1000.

Definition gpio_get_time (i : nat) : TX Z :=
  active <~ tout (hrtimer_active i) ;;
  if active : bool then
    r <~ tout (hrtimer_get_remaining i) ;;
    fret (s32 (tv_sec r * 1000 + tv_usec r / 1000))
  else fret 0.

(** [ktime_set(secs, nsecs)] in nanoseconds. *)
Definition ktime_set (secs nsecs : Z) : Z := secs * 1000000000 + nsecs.

Definition gpio_enable (i : nat) (value : Z) : TX unit :=
  d <~ data i ;;
  tout (hrtimer_cancel i) ~;;
  tout (gpio_direction_output (g_gpio d)
          (if truthy (g_low d) then c_not value else c_not (c_not value))) ~;;
  if 0 <? value then
    let value := if g_max d <? value then g_max d else value in
    tout (hrtimer_start i (ktime_set (Z.quot value 1000) (Z.rem value 1000 * 1000000)))
  else fret tt.

(** ** The class of timed outputs *)
Definition create_timed_output_class : TX Z :=
  s <~ tst ;;
  match timed_output_class s with
  | CNull =>
      e <~ tout class_create ;;
      if e <? 0 then (tupd (fun s => set_class CErr (device_count s) s) ~;; fret e)
      else (tupd (set_class CClass 0) ~;; fret 0)
  | _ => fret 0
  end.

Definition put_index (n : Z) (d : timed_gpio_data) :=
  mkData (g_name d) (g_gpio d) (g_max d) (g_low d) n (g_state d).
Definition put_state (n : Z) (d : timed_gpio_data) :=
  mkData (g_name d) (g_gpio d) (g_max d) (g_low d) (g_index d) n.
Definition upd_data (i : nat) (f : timed_gpio_data -> timed_gpio_data) : TX unit :=
  tupd (fun s => set_datas (alter f i (datas s)) s).

(** A call of the driver core that takes the class. *)
Definition with_class {A} (m : M W A) : TX A :=
  s <~ tst ;; match timed_output_class s with CErr => fault | _ => tout m end.

Definition timed_output_dev_register (i : nat) : TX Z :=
  d <~ data i ;;
  if negb (g_name d) then fret (- EINVAL)
  else
    ret_ <~ create_timed_output_class ;;
    if ret_ <? 0 then fret ret_
    else
      tupd (fun s => set_class (timed_output_class s) (s32 (device_count s + 1)) s) ~;;
      s <~ tst ;;
      let index := device_count s in
      upd_data i (put_index index) ~;;
      e <~ with_class (device_create index) ;;
      if e <? 0 then fret e
      else
        ret_ <~ tout (device_create_file index) ;;
        if ret_ <? 0 then (with_class (device_destroy index) ~;; fret ret_)
        else (tout (dev_set_drvdata index true) ~;; upd_data i (put_state 0) ~;; fret 0).

Definition timed_output_dev_unregister (i : nat) : TX unit :=
  gpio_enable i 0 ~;;
  d <~ data i ;;
  tout (device_remove_file (g_index d)) ~;;
  with_class (device_destroy (g_index d)) ~;;
  tout (dev_set_drvdata (g_index d) false).

Definition timed_output_init : TX Z := create_timed_output_class.
Definition timed_output_exit : TX unit := with_class class_destroy.

(** *** The attribute *)
Definition enable_show (i : nat) : TX (Z * string) :=
  remaining <~ gpio_get_time i ;; fret (show_int remaining).

Definition enable_store (i : nat) (buf : string) (size : Z) : TX Z :=
  match sscanf_d buf with
  | None => fret (- EINVAL)
  | Some value => gpio_enable i value ~;; fret size
  end.

(** ** Probe and remove *)
Definition put_config (p : timed_gpio) (d : timed_gpio_data) :=
  mkData (g_name d) (gpio p) (max_timeout p) (active_low p) (g_index d) (g_state d).
Definition put_name (b : bool) (d : timed_gpio_data) :=
  mkData b (g_gpio d) (g_max d) (g_low d) (g_index d) (g_state d).

(** [err_out]: the devices before the one that failed, last first. *)
Fixpoint unwind (i : nat) : TX unit :=
  match i with
  | O => fret tt
  | S i =>
      timed_output_dev_unregister i ~;;
      d <~ data i ;;
      tout (gpio_free (g_gpio d)) ~;;
      unwind i
  end.

Definition err_out (i : nat) (ret_ : Z) : TX Z := unwind i ~;; tout kfree ~;; fret ret_.

Fixpoint probe_loop (l : list timed_gpio) (i : nat) : TX Z :=
  match l with
  | [] => tupd (set_drvdata true) ~;; fret 0
  | cur :: l =>
      tout (hrtimer_init i) ~;;
      upd_data i (put_name (name cur)) ~;;
      ret_ <~ tout (gpio_request (gpio cur)) ;;
      if ret_ <? 0 then err_out i ret_
      else
        ret_ <~ timed_output_dev_register i ;;
        if ret_ <? 0 then (tout (gpio_free (gpio cur)) ~;; err_out i ret_)
        else
          upd_data i (put_config cur) ~;;
          d <~ data i ;;
          tout (gpio_direction_output (g_gpio d) (g_low d)) ~;;
          probe_loop l (S i)
  end.

(** [pdata]: [None] is NULL; [num_gpios] is the length of the array. *)
Definition timed_gpio_probe (pdata : option (list timed_gpio)) : TX Z :=
  match pdata with
  | None => fret (- EBUSY)
  | Some gpios =>
      ok <~ tout kzalloc ;;
      if negb ok then fret (- ENOMEM)
      else tupd (set_datas (replicate (length gpios) zero_data)) ~;; probe_loop gpios 0
  end.

Fixpoint remove_loop (n i : nat) : TX unit :=
  match n with
  | O => fret tt
  | S n =>
      timed_output_dev_unregister i ~;;
      d <~ data i ;;
      tout (gpio_free (g_gpio d)) ~;;
      remove_loop n (S i)
  end.
Definition timed_gpio_remove (gpios : list timed_gpio) : TX Z :=
  remove_loop (length gpios) 0 ~;; tout kfree ~;; fret 0.
End Driver.

(** ** The platform device (timed_gpiodev.c) *)
Definition tgpios : list timed_gpio := [mkTimed true 7 100000000 0; mkTimed true 8 100000000 0].

Class PlatformOps (W : Type) := {
  platform_device_register : list timed_gpio -> M W Z;
  platform_device_unregister : list timed_gpio -> M W unit;
}.
Section Platform.
Context {W : Type} `{!PlatformOps W}.
Definition test_platform_init : M W Z := platform_device_register tgpios.
Definition test_platform_exit : M W unit := platform_device_unregister tgpios.
End Platform.
