(* ===== verification/TimedGpioSpec.v ===== *)
(** * Timed GPIO: pulses, and the resources of the driver

    The operations of the kernel as a board: lines with a level, timers with
    the nanoseconds that are left, and what the driver holds of GPIO lines,
    devices and files.  Allocation and registration succeed or fail as [ans]
    says. *)

From Stdlib Require Import ZArith Ascii.
From stdpp Require Import base list gmap strings relations.
From S2P Require Import Prelude KernelText TimedGpio.

Record board := mkBoard {
  pins : gmap Z Z;
  timers : gmap nat Z;
  gpios : list Z;
  devs : list Z;
  files : list Z;
  memory : Z;                   (** blocks allocated *)
  bad : list Z;                 (** lines freed that were not held *)
  dead : list Z;                (** destroyed devices that were written to *)
  asked : nat;                  (** questions answered so far *)
}.

Definition set_pins p b := mkBoard p (timers b) (gpios b) (devs b) (files b) (memory b) (bad b) (dead b) (asked b).
Definition set_timers t b := mkBoard (pins b) t (gpios b) (devs b) (files b) (memory b) (bad b) (dead b) (asked b).
Definition set_res g d f m x b := mkBoard (pins b) (timers b) g d f m x (dead b) (asked b).
Definition set_dead l b := mkBoard (pins b) (timers b) (gpios b) (devs b) (files b) (memory b) (bad b) l (asked b).
Definition tick_asked b := mkBoard (pins b) (timers b) (gpios b) (devs b) (files b) (memory b) (bad b) (dead b) (S (asked b)).

(** The list without the first [x]. *)
Fixpoint remove1 (x : Z) (l : list Z) : list Z :=
  match l with [] => [] | y :: l => if x =? y then l else y :: remove1 x l end.

Lemma remove1_perm x l k : l ≡ₚ x :: k -> remove1 x l ≡ₚ k.
Proof.
  intros H. assert (x ∈ l) as Hx by (rewrite H; apply list_elem_of_here).
  apply (inj (cons x)). rewrite <- H. clear k H.
  induction l as [|y l IH]; [by apply elem_of_nil in Hx|]. cbn [remove1].
  destruct (Z.eqb_spec x y) as [->|Hn]; [done|].
  apply elem_of_cons in Hx as [?|Hx]; [done|]. rewrite Permutation_swap. by rewrite IH.
Qed.

Section Board.
Context (ans : nat -> Z).

Definition ask (f : board -> board) : M board Z := fun b =>
  let a := ans (asked b) in (a, tick_asked (if a <? 0 then b else f b)).

#[export] Instance board_ops : TimedOps board := {|
  gpio_request := fun g => ask (fun b => set_res (g :: gpios b) (devs b) (files b) (memory b) (bad b) b);
  gpio_free := fun g => modify (fun b =>
    set_res (remove1 g (gpios b)) (devs b) (files b) (memory b)
      (if decide (g ∈ gpios b) then bad b else g :: bad b) b);
  gpio_direction_output := fun g v => modify (fun b => set_pins (<[g := v]> (pins b)) b);
  hrtimer_init := fun i => modify (fun b => set_timers (delete i (timers b)) b);
  hrtimer_cancel := fun i => modify (fun b => set_timers (delete i (timers b)) b);
  hrtimer_start := fun i ns => modify (fun b => set_timers (<[i := ns]> (timers b)) b);
  hrtimer_active := fun i b => (bool_decide (is_Some (timers b !! i)), b);
  hrtimer_get_remaining := fun i b => (default 0 (timers b !! i), b);
  kzalloc := fun b => let '(a, b) := ask (fun b => set_res (gpios b) (devs b) (files b) (memory b + 1) (bad b) b) b in
                      (0 <=? a, b);
  kfree := modify (fun b => set_res (gpios b) (devs b) (files b) (memory b - 1) (bad b) b);
  class_create := ask id;
  class_destroy := ret tt;
  device_create := fun n => ask (fun b => set_res (gpios b) (n :: devs b) (files b) (memory b) (bad b) b);
  device_create_file := fun n => ask (fun b => set_res (gpios b) (devs b) (n :: files b) (memory b) (bad b) b);
  device_remove_file := fun n => modify (fun b =>
    set_res (gpios b) (devs b) (remove1 n (files b)) (memory b) (bad b) b);
  device_destroy := fun n => modify (fun b =>
    set_res (gpios b) (remove1 n (devs b)) (files b) (memory b) (bad b) b);
  dev_set_drvdata := fun n _ => modify (fun b => if decide (n ∈ devs b) then b else set_dead (n :: dead b) b);
|}.

(** ** Pulses *)

(** Milliseconds as the driver passes them to the timer. *)
Lemma ktime_ms v : ktime_set (Z.quot v 1000) (Z.rem v 1000 * 1000000) = v * 1000000.
Proof. unfold ktime_set. pose proof (Z.quot_rem' v 1000). lia. Qed.

(** The levels of an output that is on and off. *)
Definition on (d : timed_gpio_data) : Z := if truthy (g_low d) then 0 else 1.
Definition off (d : timed_gpio_data) : Z := if truthy (g_low d) then 1 else 0.

Definition level (v : Z) (d : timed_gpio_data) : Z := if v =? 0 then off d else on d.
Lemma enable_level v d :
  (if truthy (g_low d) then c_not v else c_not (c_not v)) = level v d.
Proof. unfold level, on, off, c_not. destruct (truthy (g_low d)), (v =? 0); done. Qed.

(** [gpio_enable] on the board. *)
Definition enabled (i : nat) (d : timed_gpio_data) (v : Z) (b : board) : board :=
  let b := set_pins (<[g_gpio d := level v d]> (pins b)) (set_timers (delete i (timers b)) b) in
  if 0 <? v then set_timers (<[i := Z.min v (g_max d) * 1000000]> (timers b)) b else b.

Lemma gpio_enable_run i d v t b :
  datas t !! i = Some d -> gpio_enable i v (t, b) = Some (tt, (t, enabled i d v b)).
Proof.
  intros Hd. unfold gpio_enable, fbind, data, enabled. cbn [fst]. rewrite Hd. cbn.
  rewrite enable_level. destruct (Z.ltb_spec 0 v); [|done].
  unfold tout. cbn. rewrite ktime_ms.
  destruct (Z.ltb_spec (g_max d) v); [rewrite Z.min_r by lia|rewrite Z.min_l by lia]; done.
Qed.

(** Time: [dt] nanoseconds pass for timer [i]. *)
Definition pass (i : nat) (dt : Z) : FM (tstate * board) unit := fun '(t, b) =>
  match timers b !! i with
  | None => Some (tt, (t, b))
  | Some r =>
      if r <=? dt then gpio_timer_func i (t, set_timers (delete i (timers b)) b)
      else Some (tt, (t, set_timers (<[i := r - dt]> (timers b)) b))
  end.

Definition after_pass (i : nat) (d : timed_gpio_data) (dt : Z) (b : board) : board :=
  match timers b !! i with
  | None => b
  | Some r =>
      if r <=? dt then set_pins (<[g_gpio d := off d]> (pins b)) (set_timers (delete i (timers b)) b)
      else set_timers (<[i := r - dt]> (timers b)) b
  end.
Lemma pass_run i d dt t b :
  datas t !! i = Some d -> pass i dt (t, b) = Some (tt, (t, after_pass i d dt b)).
Proof.
  intros Hd. unfold pass, after_pass. destruct (timers b !! i) as [r|]; [|done]. case_if; [|done].
  unfold gpio_timer_func, fbind, data. cbn [fst]. by rewrite Hd.
Qed.

(** Seconds and microseconds make whole milliseconds. *)
Lemma timeval_ms r : tv_sec r * 1000 + tv_usec r / 1000 = r / 1000000.
Proof.
  unfold tv_sec, tv_usec. rewrite Z.div_div by lia. change (1000 * 1000) with 1000000.
  set (q := r / 1000000000). set (m := r mod 1000000000).
  assert (r = m + q * 1000 * 1000000) as E by (pose proof (Z.div_mod r 1000000000); lia).
  transitivity ((m + q * 1000 * 1000000) / 1000000); [rewrite Z.div_add by lia; lia|by rewrite <- E].
Qed.

Lemma get_time_run i t b :
  gpio_get_time i (t, b) =
    Some (match timers b !! i with Some r => s32 (r / 1000000) | None => 0 end, (t, b)).
Proof.
  unfold gpio_get_time, fbind, tout. cbn [hrtimer_active hrtimer_get_remaining board_ops].
  destruct (timers b !! i) as [r|] eqn:E.
  - rewrite bool_decide_true by done. rewrite E. cbn [default]. by rewrite timeval_ms.
  - rewrite bool_decide_false; [done|]. apply is_Some_None.
Qed.

(** property: a pulse: enabling an output for [v] milliseconds switches it on for
    exactly that long, or for the board's maximum if that is shorter; while it
    is on the attribute shows the milliseconds that are left (the text reads
    back as that number), then it is off and shows 0. *)
Theorem pulse_spec i d v dt t b :
  datas t !! i = Some d -> 0 < v < 2 ^ 31 -> 0 < g_max d -> 0 <= dt ->
  let total := Z.min v (g_max d) * 1000000 in
  exists b', (gpio_enable i v ~;; pass i dt) (t, b) = Some (tt, (t, b')) /\
    pins b' !! g_gpio d = Some (if dt <? total then on d else off d) /\
    exists txt, enable_show i (t, b') = Some (txt, (t, b')) /\
      sscanf_d (snd txt) = Some (if dt <? total then (total - dt) / 1000000 else 0).
Proof.
  intros Hd Hv Hm Ht total.
  exists (after_pass i d dt (enabled i d v b)).
  unfold fbind at 1. rewrite (gpio_enable_run i d) by done. rewrite (pass_run i d) by done.
  split; [done|]. unfold enable_show, fbind. rewrite get_time_run.
  unfold enabled, after_pass. rewrite (proj2 (Z.ltb_lt 0 v)) by lia. cbn [timers set_timers set_pins pins].
  rewrite lookup_insert_eq. fold total.
  assert (level v d = on d) as El.
  { unfold level. by rewrite (proj2 (Z.eqb_neq _ _)) by lia. }
  destruct (Z.ltb_spec dt total) as [Hl|Hl].
  - rewrite (proj2 (Z.leb_gt total dt)) by lia. cbn [timers set_timers set_pins pins].
    rewrite !lookup_insert_eq, El. split; [done|]. eexists. split; [done|].
    assert (0 <= (total - dt) / 1000000 <= v).
    { split; [apply Z.div_pos; lia|]. apply Z.div_le_upper_bound; lia. }
    rewrite s32_small by lia. apply scan_show. lia.
  - rewrite (proj2 (Z.leb_le total dt)) by lia. cbn [timers set_timers set_pins pins].
    rewrite lookup_insert_eq, lookup_delete_eq. split; [done|]. by eexists.
Qed.

(** property: a negative number switches the output on and starts no timer: it
    stays on however long one waits, and the attribute shows 0. *)
Theorem negative_stays_on i d v dts t b :
  datas t !! i = Some d -> v < 0 ->
  exists b', foldl (fun m dt => m ~;; pass i dt) (gpio_enable i v) dts (t, b) = Some (tt, (t, b')) /\
    pins b' !! g_gpio d = Some (on d) /\ timers b' !! i = None.
Proof.
  intros Hd Hv. induction dts as [|dt dts IH] using rev_ind.
  - exists (enabled i d v b). cbn [foldl]. rewrite (gpio_enable_run i d) by done. split; [done|].
    unfold enabled, level. rewrite (proj2 (Z.ltb_ge 0 v)), (proj2 (Z.eqb_neq v 0)) by lia. cbn.
    by rewrite lookup_insert_eq, lookup_delete_eq.
  - rewrite foldl_app. cbn [foldl]. destruct IH as (b' & E & Hp & Hn). exists b'. unfold fbind at 1.
    rewrite E, (pass_run i d) by done. unfold after_pass. by rewrite Hn.
Qed.

(** ** What users do: writes to the attribute and time that passes *)
Inductive ustep (i : nat) : tstate * board -> tstate * board -> Prop :=
| u_store buf size r s s' :
    (forall v, sscanf_d buf = Some v -> 0 <= v) ->
    enable_store i buf size s = Some (r, s') -> ustep i s s'
| u_pass dt s s' : 0 <= dt -> pass i dt s = Some (tt, s') -> ustep i s s'.

(** The output is on exactly while its timer runs, and the timer never runs
    longer than the maximum. *)
Definition timed (i : nat) (d : timed_gpio_data) (b : board) : Prop :=
  match timers b !! i with
  | Some r => pins b !! g_gpio d = Some (on d) /\ 0 < r <= g_max d * 1000000
  | None => pins b !! g_gpio d = Some (off d)
  end.

Lemma enabled_timed i d v b : 0 <= v -> 0 < g_max d -> timed i d (enabled i d v b).
Proof.
  intros Hv Hm. unfold timed, enabled, level. destruct (Z.ltb_spec 0 v).
  - rewrite (proj2 (Z.eqb_neq v 0)) by lia. cbn. rewrite !lookup_insert_eq. split; [done|lia].
  - rewrite (proj2 (Z.eqb_eq v 0)) by lia. cbn. by rewrite lookup_delete_eq, lookup_insert_eq.
Qed.
Lemma pass_timed i d dt b : 0 <= dt -> timed i d b -> timed i d (after_pass i d dt b).
Proof.
  intros Ht H. unfold timed, after_pass in *. destruct (timers b !! i) as [r|] eqn:E; [|by rewrite E].
  destruct H as [Hp Hr]. destruct (Z.leb_spec r dt); cbn.
  - by rewrite lookup_delete_eq, lookup_insert_eq.
  - rewrite lookup_insert_eq. split; [done|lia].
Qed.

(** C19: as long as only numbers that are not negative are written, the output
    is on exactly while its timer runs, and never for longer than the maximum
    of the board, in every reachable state. *)
Theorem output_timed i d s s' :
  datas (fst s) !! i = Some d -> 0 < g_max d -> timed i d (snd s) -> rtc (ustep i) s s' ->
  timed i d (snd s') /\ datas (fst s') !! i = Some d.
Proof.
  intros Hd Hm Ht Hr. induction Hr as [s|s1 s2 s3 Hs _ IH]; [done|].
  destruct s1 as [t1 b1]. cbn [fst snd] in *. apply IH.
  - inversion Hs as [buf size r ? ? Hv E|dt ? ? Hdt E]; subst.
    + unfold enable_store in E. destruct (sscanf_d buf) as [v|]; [|by injection E as _ <-].
      unfold fbind in E. rewrite (gpio_enable_run i d) in E by done. by injection E as _ <-.
    + rewrite (pass_run i d) in E by done. by injection E as <-.
  - inversion Hs as [buf size r ? ? Hv E|dt ? ? Hdt E]; subst.
    + unfold enable_store in E. destruct (sscanf_d buf) as [v|]; [|by injection E as _ <-].
      unfold fbind in E. rewrite (gpio_enable_run i d) in E by done. injection E as _ <-.
      by apply enabled_timed; [apply Hv|].
    + rewrite (pass_run i d) in E by done. injection E as <-. by apply pass_timed.
Qed.

(** ** Resources *)

(** Unregistering a device and freeing its line. *)
Definition unregistered (i : nat) (d : timed_gpio_data) (b : board) : board :=
  let b := enabled i d 0 b in
  let b := set_res (gpios b) (remove1 (g_index d) (devs b)) (remove1 (g_index d) (files b)) (memory b) (bad b) b in
  if decide (g_index d ∈ devs b) then b else set_dead (g_index d :: dead b) b.
Definition released (i : nat) (d : timed_gpio_data) (b : board) : board :=
  let b := unregistered i d b in
  set_res (remove1 (g_gpio d) (gpios b)) (devs b) (files b) (memory b)
    (if decide (g_gpio d ∈ gpios b) then bad b else g_gpio d :: bad b) b.

Lemma unregister_run i d t b :
  datas t !! i = Some d -> timed_output_class t = CClass ->
  timed_output_dev_unregister i (t, b) = Some (tt, (t, unregistered i d b)).
Proof.
  intros Hd Hc. unfold timed_output_dev_unregister, fbind at 1. rewrite (gpio_enable_run i d) by done.
  unfold fbind, data, with_class, tst, tout, unregistered. cbn [fst]. rewrite Hd. cbn. by rewrite Hc.
Qed.

(** What is held beyond [G0], [D0], [F0] by the devices [l]. *)
Context (G0 D0 F0 : list Z).
Definition res (l : list timed_gpio_data) (m : Z) (b : board) : Prop :=
  gpios b ≡ₚ (g_gpio <$> l) ++ G0 /\ devs b ≡ₚ (g_index <$> l) ++ D0 /\
  files b ≡ₚ (g_index <$> l) ++ F0 /\ memory b = m /\ bad b = [].

Lemma res_perm l l' m b : l ≡ₚ l' -> res l m b -> res l' m b.
Proof. intros Hl. unfold res. by rewrite Hl. Qed.

Lemma released_res i d l m b : res (d :: l) m b -> res l m (released i d b).
Proof.
  intros (Hg & Hdv & Hf & Hm & Hb). unfold released, unregistered, enabled. cbn [Z.ltb].
  change (0 <? 0) with false. cbv iota.
  assert (forall b', res l m (set_res (remove1 (g_gpio d) (gpios b)) (remove1 (g_index d) (devs b))
            (remove1 (g_index d) (files b)) (memory b) [] b')) as H.
  { intros b'. unfold res. cbn. split_and!; [by apply remove1_perm..|done|done]. }
  assert (g_gpio d ∈ gpios b) as Hin by (rewrite Hg; cbn; apply list_elem_of_here).
  destruct (decide (g_index d ∈ _)); cbn [gpios devs files memory bad set_res set_dead set_pins set_timers];
    rewrite decide_True, Hb by done; apply H.
Qed.

(** One step of the two loops that give everything back. *)
Lemma release_step i d l m t b (k : FM (tstate * board) unit) :
  datas t !! i = Some d -> timed_output_class t = CClass -> res (d :: l) m b ->
  (timed_output_dev_unregister i ~;; d <~ data i ;; tout (gpio_free (g_gpio d)) ~;; k) (t, b) =
    k (t, released i d b) /\ res l m (released i d b).
Proof.
  intros Hd Hc Hr. split; [|by apply released_res].
  unfold fbind at 1. rewrite (unregister_run i d) by done. unfold fbind, data. cbn [fst]. by rewrite Hd.
Qed.

Lemma unwind_run i m t b :
  (i <= length (datas t))%nat -> ((0 < i)%nat -> timed_output_class t = CClass) ->
  res (take i (datas t)) m b ->
  exists b', unwind i (t, b) = Some (tt, (t, b')) /\ res [] m b'.
Proof.
  revert b. induction i as [|i IH]; intros b Hi Hc Hr; [by exists b|]. cbn [unwind].
  destruct (lookup_lt_is_Some_2 (datas t) i) as [d Hd]; [lia|].
  rewrite (take_S_r _ _ d) in Hr by done.
  destruct (release_step i d (take i (datas t)) m t b (unwind i) Hd) as [E Hr']; [apply Hc; lia| |].
  { eapply res_perm; [|exact Hr]. by rewrite Permutation_app_comm. }
  rewrite E. apply IH; [lia|intros; apply Hc; lia|done].
Qed.

Lemma remove_loop_run n i m t b :
  length (datas t) = (i + n)%nat -> (n <> 0%nat -> timed_output_class t = CClass) ->
  res (drop i (datas t)) m b ->
  exists b', remove_loop n i (t, b) = Some (tt, (t, b')) /\ res [] m b'.
Proof.
  revert i b. induction n as [|n IH]; intros i b Hn Hc Hr.
  - exists b. split; [done|]. by rewrite drop_ge in Hr by lia.
  - cbn [remove_loop]. destruct (lookup_lt_is_Some_2 (datas t) i) as [d Hd]; [lia|].
    rewrite (drop_S _ d) in Hr by done.
    destruct (release_step i d (drop (S i) (datas t)) m t b (remove_loop n (S i)) Hd) as [E Hr'];
      [by apply Hc|done|].
    rewrite E. apply IH; [lia|by intros; apply Hc|done].
Qed.

(** Same holdings. *)
Definition same_res (b b' : board) : Prop :=
  gpios b' = gpios b /\ devs b' = devs b /\ files b' = files b /\ memory b' = memory b /\ bad b' = bad b.
Lemma same_res_res l m b b' : same_res b b' -> res l m b -> res l m b'.
Proof. unfold same_res, res. intros (-> & -> & -> & -> & ->). done. Qed.

(** The class after [create_timed_output_class]. *)
Lemma create_class_run t b :
  timed_output_class t <> CErr ->
  exists r t' b', create_timed_output_class (t, b) = Some (r, (t', b')) /\ same_res b b' /\
    datas t' = datas t /\ drvdata t' = drvdata t /\
    (r = 0 /\ timed_output_class t' = CClass \/ r < 0 /\ timed_output_class t = CNull).
Proof.
  intros Hc. unfold create_timed_output_class, fbind, tst. cbn [fst].
  destruct (timed_output_class t) eqn:E; [| |done].
  - unfold tout, tupd, fmodify. cbn [class_create board_ops]. unfold ask.
    destruct (Z.ltb_spec (ans (asked b)) 0); do 3 eexists; split; try done;
      (split; [done|]); (split; [done|]); (split; [done|]); [right|left]; split; done || lia.
  - do 3 eexists. split; [done|]. split; [done|]. split; [done|]. split; [done|]. by left.
Qed.

Lemma remove1_head x l : remove1 x (x :: l) = l.
Proof. cbn. by rewrite Z.eqb_refl. Qed.

Lemma alter_alter {A} (f g : A -> A) (i : nat) (l : list A) x :
  l !! i = Some x -> alter f i (alter g i l) = <[i := f (g x)]> l.
Proof.
  revert i. induction l as [|y l IH]; intros [|i] H; try done; cbn in *; [by simplify_eq|]. f_equal. by apply IH.
Qed.

(** Registering one device: it exists with its file, or nothing has changed
    but its number. *)
Lemma register_run i d t b :
  datas t !! i = Some d -> timed_output_class t <> CErr ->
  exists r t' b', timed_output_dev_register i (t, b) = Some (r, (t', b')) /\
    gpios b' = gpios b /\ memory b' = memory b /\ bad b' = bad b /\ drvdata t' = drvdata t /\
    (timed_output_class t = CClass -> timed_output_class t' = CClass) /\
    ((r = 0 /\ timed_output_class t' = CClass /\
       exists n, devs b' = n :: devs b /\ files b' = n :: files b /\
         datas t' = <[i := put_state 0 (put_index n d)]> (datas t)) \/
     r < 0 /\ devs b' = devs b /\ files b' = files b /\ length (datas t') = length (datas t) /\
       take i (datas t') = take i (datas t)).
Proof.
  intros Hd Hc. unfold timed_output_dev_register, fbind at 1, data. cbn [fst]. rewrite Hd.
  destruct (g_name d); cbn [negb].
  2: { do 3 eexists. split; [done|]. do 5 (split; [done|]). right. split; [done|].
       by repeat split. }
  destruct (create_class_run t b Hc) as (r & t1 & b1 & E & (S1 & S2 & S3 & S4 & S5) & Hdt & Hdr & Hr).
  unfold fbind at 1. rewrite E. destruct Hr as [[-> Hcl]|[Hr Hcl]].
  2: { rewrite (proj2 (Z.ltb_lt r 0)) by lia. do 3 eexists. split; [done|].
       do 4 (split; [done|]). split; [by rewrite Hcl|]. right. rewrite Hdt. by repeat split. }
  change (0 <? 0) with false. cbv iota.
  set (n := s32 (device_count t1 + 1)).
  unfold fbind, tupd, fmodify, tst, upd_data, with_class, tout.
  cbn -[s32 decide remove1]. fold n. unfold fbind, tst, tupd, fmodify. cbn -[s32 decide remove1]. fold n.
  rewrite Hcl. cbn -[s32 decide remove1]. unfold ask.
  destruct (Z.ltb_spec (ans (asked b1)) 0) as [H1|H1].
  { do 3 eexists. split; [done|]. cbn. do 4 (split; [done|]). split; [done|]. right.
    split; [lia|]. split; [done|]. split; [done|]. rewrite Hdt. by rewrite length_alter, take_alter_ge by lia. }
  cbn -[s32 decide remove1].
  destruct (Z.ltb_spec (ans (S (asked b1))) 0) as [H2|H2].
  { cbn -[s32 decide remove1]. do 3 eexists. split; [done|]. cbn -[remove1].
    do 4 (split; [done|]). split; [done|]. right. split; [lia|]. rewrite remove1_head.
    split; [done|]. split; [done|]. rewrite Hdt. by rewrite length_alter, take_alter_ge by lia. }
  cbn -[s32 decide]. rewrite decide_True by apply list_elem_of_here.
  do 3 eexists. split; [done|]. cbn. do 4 (split; [done|]). split; [done|]. left. split; [done|].
  split; [done|]. exists n. rewrite S2, S3. split; [done|]. split; [done|].
  rewrite Hdt. by apply alter_alter.
Qed.

(** The outcome of the loop of [timed_gpio_probe]. *)
Definition probed (m : Z) (r : Z) (t : tstate) (b : board) : Prop :=
  (r = 0 /\ drvdata t = true /\ res (datas t) m b) \/ (r < 0 /\ res [] (m - 1) b).

Lemma err_out_run i r m t b :
  (i <= length (datas t))%nat -> ((0 < i)%nat -> timed_output_class t = CClass) -> r < 0 ->
  res (take i (datas t)) m b ->
  exists b', err_out i r (t, b) = Some (r, (t, b')) /\ probed m r t b'.
Proof.
  intros Hi Hc Hr0 Hr. destruct (unwind_run i m t b Hi Hc Hr) as (b' & E & Hr').
  unfold err_out, fbind at 1. rewrite E. eexists. split; [done|]. right. split; [done|].
  destruct Hr' as (? & ? & ? & ? & ?). unfold res. cbn. by split_and!; [..|lia|].
Qed.

Lemma probe_loop_run l i m t b :
  length (datas t) = (i + length l)%nat -> timed_output_class t <> CErr ->
  ((0 < i)%nat -> timed_output_class t = CClass) -> res (take i (datas t)) m b ->
  exists r t' b', probe_loop l i (t, b) = Some (r, (t', b')) /\ probed m r t' b' /\
    (r = 0 -> length (datas t') = length (datas t) /\ (l <> [] -> timed_output_class t' = CClass) /\
       g_gpio <$> drop i (datas t') = gpio <$> l /\ take i (datas t') = take i (datas t)).
Proof.
  revert i t b. induction l as [|cur l IH]; intros i t b Hl Hce Hc Hr.
  - cbn in Hl. do 3 eexists. split; [reflexivity|]. split.
    + left. split; [done|]. split; [done|]. cbn. by rewrite take_ge in Hr by lia.
    + intros _. split; [done|]. split; [done|]. split; [|done]. cbn. by rewrite drop_ge by lia.
  - cbn [length] in Hl. cbn [probe_loop].
    destruct (lookup_lt_is_Some_2 (datas t) i) as [d Hd]; [lia|].
    unfold fbind at 1 2, tout at 1, upd_data, tupd, fmodify. cbn [hrtimer_init board_ops modify].
    set (t1 := set_datas (alter (put_name (name cur)) i (datas t)) t).
    set (b1 := set_timers (delete i (timers b)) b).
    assert (res (take i (datas t1)) m b1) as Hr1.
    { unfold t1. cbn. by rewrite take_alter_ge by lia. }
    assert (datas t1 !! i = Some (put_name (name cur) d)) as Hd1.
    { unfold t1. cbn. by rewrite list_lookup_alter_eq, Hd. }
    assert (length (datas t1) = length (datas t)) as Hl1 by (unfold t1; cbn; by rewrite length_alter).
    assert (take i (datas t1) = take i (datas t)) as Ht1 by (unfold t1; cbn; by rewrite take_alter_ge by lia).
    assert (timed_output_class t1 = timed_output_class t) as Hc1 by done.
    rewrite <- Hc1 in Hce, Hc. clearbody t1 b1.
    unfold fbind at 1, tout at 1. cbn [gpio_request board_ops]. unfold ask.
    destruct (Z.ltb_spec (ans (asked b1)) 0) as [Ha|Ha].
    { destruct (err_out_run i (ans (asked b1)) m t1 (tick_asked b1)) as (b' & E & Hp); [lia|done|done|done|].
      do 3 eexists. split; [exact E|]. split; [done|]. lia. }
    set (b2 := tick_asked _).
    destruct (register_run i (put_name (name cur) d) t1 b2 Hd1 Hce)
      as (r & t3 & b3 & E & G1 & M1 & B1 & Dr & Hcl & Hcase).
    unfold fbind at 1. rewrite E. destruct Hr1 as (R1 & R2 & R3 & R4 & R5).
    destruct Hcase as [(-> & Hc3 & n & D3 & F3 & Dt)|(Hneg & D3 & F3 & Lt & Tk)].
    2: { rewrite (proj2 (Z.ltb_lt r 0)) by lia. unfold fbind at 1, tout. cbn [gpio_free board_ops modify].
         destruct (err_out_run i r m t3
           (set_res (remove1 (gpio cur) (gpios b3)) (devs b3) (files b3) (memory b3)
             (if decide (gpio cur ∈ gpios b3) then bad b3 else gpio cur :: bad b3) b3)) as (b' & E' & Hp);
           [lia|intros; by apply Hcl, Hc|done| |].
         { rewrite Tk. unfold res. cbn -[remove1 decide]. rewrite G1. cbn [gpios b2 tick_asked set_res].
           rewrite remove1_head, decide_True by apply list_elem_of_here. rewrite D3, F3, M1, B1. by split_and!. }
         do 3 eexists. split; [exact E'|]. split; [done|]. lia. }
    change (0 <? 0) with false. cbv iota. unfold fbind at 1 2, data. cbn [fst datas set_datas].
    set (d' := put_config cur (put_state 0 (put_index n (put_name (name cur) d)))).
    assert (alter (put_config cur) i (datas t3) = <[i := d']> (datas t1)) as Ed.
    { rewrite Dt. apply list_eq. intros j. destruct (decide (i = j)) as [<-|Hj].
      - rewrite list_lookup_alter_eq, !list_lookup_insert_eq by lia. done.
      - by rewrite list_lookup_alter_ne, !list_lookup_insert_ne by done. }
    rewrite Ed, list_lookup_insert_eq by lia. unfold fbind at 1, tout. cbn [gpio_direction_output board_ops modify].
    set (t4 := set_datas _ t3). set (b4 := set_pins _ b3).
    destruct (IH (S i) t4 b4) as (r & t5 & b5 & E5 & Hp & Hok).
    + cbn. rewrite length_insert. lia.
    + cbn. by rewrite Hc3.
    + done.
    + cbn. rewrite (take_S_r _ _ d') by (rewrite list_lookup_insert_eq by lia; done).
      rewrite take_insert_ge by lia. unfold res. rewrite !fmap_app. cbn -[remove1].
      rewrite G1, D3, F3, M1, B1. cbn [gpios devs files memory bad b2 tick_asked set_res].
      rewrite R1, R2, R3. split_and!; [solve_Permutation..|done|done].
    + do 3 eexists. split; [exact E5|]. split; [done|]. intros ->. destruct (Hok eq_refl) as (L5 & C5 & G5 & T5).
      cbn in L5, T5. rewrite length_insert in L5. split; [lia|]. split.
      { intros _. destruct l; [|by apply C5]. cbn in E5. injection E5 as <- _. done. }
      assert (datas t5 !! i = Some d') as Hd5.
      { rewrite <- (lookup_take_lt _ (S i) i) by lia. rewrite T5, lookup_take_lt by lia. by rewrite list_lookup_insert_eq by lia. }
      split; [rewrite (drop_S _ d') by done; cbn; by f_equal|].
      transitivity (take i (take (S i) (datas t5))); [by rewrite take_take, Nat.min_l by lia|].
      rewrite T5, take_take, Nat.min_l, take_insert_ge by lia. done.
Qed.

Lemma probe_run l t b m :
  timed_output_class t <> CErr -> res [] m b ->
  exists r t' b', timed_gpio_probe (Some l) (t, b) = Some (r, (t', b')) /\
    (r = 0 /\ drvdata t' = true /\ res (datas t') (m + 1) b' /\ g_gpio <$> datas t' = gpio <$> l /\
       (l <> [] -> timed_output_class t' = CClass) \/
     r < 0 /\ res [] m b').
Proof.
  intros Hc Hr. unfold timed_gpio_probe, fbind at 1, tout at 1. cbn [kzalloc board_ops]. unfold ask.
  destruct (Z.ltb_spec (ans (asked b)) 0) as [Ha|Ha].
  - rewrite (proj2 (Z.leb_gt 0 _)) by lia. do 3 eexists. split; [done|]. by right.
  - rewrite (proj2 (Z.leb_le 0 _)) by lia. cbn [negb]. unfold fbind at 1, tupd, fmodify.
    set (t1 := set_datas _ t). set (b1 := tick_asked _).
    destruct (probe_loop_run l 0 (m + 1) t1 b1) as (r & t' & b' & E & Hp & Hok).
    + cbn. by rewrite length_replicate.
    + done.
    + lia.
    + destruct Hr as (? & ? & ? & ? & ?). unfold res. cbn. by split_and!; [..|lia|].
    + do 3 eexists. split; [exact E|]. destruct Hp as [(-> & Hd & Hr')|(Hn & Hr')].
      * left. destruct (Hok eq_refl) as (_ & Hcl & Hg & _). rewrite drop_0 in Hg. done.
      * right. split; [done|]. by replace (m + 1 - 1) with m in Hr' by lia.
Qed.

(** C20: probing returns, whichever call of the driver core fails: on success
    it holds one line, one device and one file per GPIO and the memory block;
    on an error it holds exactly what it held before - nothing is leaked and
    nothing is freed that was not held.  Removing the driver gives everything
    back. *)
Theorem probe_resources l t b m :
  timed_output_class t <> CErr -> res [] m b ->
  exists r t' b', timed_gpio_probe (Some l) (t, b) = Some (r, (t', b')) /\
    (r < 0 /\ res [] m b' \/
     r = 0 /\ drvdata t' = true /\ res (datas t') (m + 1) b' /\ g_gpio <$> datas t' = gpio <$> l /\
       exists b'', timed_gpio_remove l (t', b') = Some (0, (t', b'')) /\ res [] m b'').
Proof.
  intros Hc Hr. destruct (probe_run l t b m Hc Hr) as (r & t' & b' & E & H).
  do 3 eexists. split; [exact E|]. destruct H as [(-> & Hd & Hr' & Hg & Hcl)|H]; [right|by left].
  split; [done|]. split; [done|]. split; [done|]. split; [done|].
  assert (length (datas t') = length l) as Hl.
  { transitivity (length (g_gpio <$> datas t')); [by rewrite length_fmap|by rewrite Hg, length_fmap]. }
  destruct (remove_loop_run (length l) 0 (m + 1) t' b') as (b2 & E2 & Hr2);
    [done|intros; apply Hcl; by destruct l|done|].
  unfold timed_gpio_remove, fbind at 1. rewrite E2. eexists. split; [done|].
  destruct Hr2 as (? & ? & ? & ? & ?). unfold res. cbn. by split_and!; [..|lia|].
Qed.

(** property: the error pointer of a failed [class_create] is kept and taken for a
    class by the next registration: a driver that is probed again uses it. *)
Theorem class_error_sticks p l t b :
  timed_output_class t = CNull -> name p = true ->
  ans (asked b) < 0 -> 0 <= ans (S (asked b)) -> 0 <= ans (S (S (asked b))) ->
  exists t1 b1, timed_output_init (t, b) = Some (ans (asked b), (t1, b1)) /\
    timed_gpio_probe (Some (p :: l)) (t1, b1) = None.
Proof.
  intros Hc Hn H1 H2 H3. unfold timed_output_init, create_timed_output_class, fbind at 1, tst. cbn [fst].
  rewrite Hc. unfold fbind at 1, tout at 1. cbn [class_create board_ops]. unfold ask.
  rewrite (proj2 (Z.ltb_lt _ 0)) by lia. do 2 eexists. split; [done|].
  unfold timed_gpio_probe, fbind at 1, tout at 1. cbn [kzalloc board_ops]. unfold ask. cbn [asked tick_asked].
  rewrite (proj2 (Z.ltb_ge _ 0)), (proj2 (Z.leb_le 0 _)) by lia. cbn [negb].
  cbn -[Z.ltb]. unfold fbind, tout, tupd, fmodify, upd_data. cbn -[Z.ltb].
  rewrite (proj2 (Z.ltb_ge _ 0)) by lia. unfold ask. cbn -[Z.ltb]. by rewrite Hn.
Qed.

(** property: unregistering writes to the device after destroying it. *)
Theorem unregister_writes_destroyed i d t b k :
  datas t !! i = Some d -> timed_output_class t = CClass -> devs b ≡ₚ g_index d :: k -> (g_index d ∉ k) ->
  exists b', timed_output_dev_unregister i (t, b) = Some (tt, (t, b')) /\
    (g_index d ∉ devs b') /\ dead b' = g_index d :: dead b.
Proof.
  intros Hd Hc Hp Hk. rewrite (unregister_run i d) by done. eexists. split; [done|].
  unfold unregistered, enabled. change (0 <? 0) with false. cbv iota. cbn [devs set_res gpios files memory bad set_pins set_timers].
  assert (g_index d ∉ remove1 (g_index d) (devs b)) as Hn by (by rewrite (remove1_perm _ _ k)).
  by rewrite decide_False.
Qed.
End Board.

(** ** Witnesses *)
Definition demo_gpio : timed_gpio_data := mkData true 7 100000000 0 1 0.
Definition demo_t : tstate := mkT CClass 1 [demo_gpio] true.
Definition demo_board : board := mkBoard {[7 := 0]} ∅ [7] [1] [1] 1 [] [] 0.
Definition clean_board : board := mkBoard ∅ ∅ [] [] [] 0 [] [] 0.
Definition fresh_t : tstate := mkT CNull 0 [] false.

(** 1500 milliseconds, 400.5 of them have passed. *)
Lemma pulse_spec_witness :
  exists b', (gpio_enable (TimedOps0 := board_ops (fun _ => 0)) 0 1500 ~;;
              pass (fun _ => 0) 0 400500000) (demo_t, demo_board) = Some (tt, (demo_t, b')) /\
    pins b' !! 7 = Some 1 /\
    exists txt, enable_show (TimedOps0 := board_ops (fun _ => 0)) 0 (demo_t, b') = Some (txt, (demo_t, b')) /\
      sscanf_d (snd txt) = Some 1099.
Proof.
  apply (pulse_spec (fun _ => 0) 0 demo_gpio 1500 400500000 demo_t demo_board); [reflexivity|lia|cbn; lia|lia].
Defined.

Lemma negative_stays_on_witness :
  exists b', foldl (fun m dt => m ~;; pass (fun _ => 0) 0 dt) (gpio_enable (TimedOps0 := board_ops (fun _ => 0)) 0 (-1))
      [1000000000; 1000000000] (demo_t, demo_board) = Some (tt, (demo_t, b')) /\
    pins b' !! 7 = Some 1 /\ timers b' !! 0%nat = None.
Proof.
  apply (negative_stays_on (fun _ => 0) 0 demo_gpio (-1) [1000000000; 1000000000] demo_t demo_board); [reflexivity|lia].
Defined.

Lemma output_timed_witness :
  timed 0 demo_gpio (enabled 0 demo_gpio 5 demo_board) /\ datas demo_t !! 0%nat = Some demo_gpio.
Proof.
  apply (output_timed (fun _ => 0) 0 demo_gpio (demo_t, demo_board) (demo_t, enabled 0 demo_gpio 5 demo_board));
    [reflexivity|cbn; lia|reflexivity|].
  apply rtc_once, (u_store _ 0 "5" 1 1); [|reflexivity].
  intros v E. vm_compute in E. injection E as <-. lia.
Defined.

Lemma probe_resources_witness :
  exists r t' b', timed_gpio_probe (TimedOps0 := board_ops (fun n => if (n =? 5)%nat then -12 else 0))
      (Some tgpios) (fresh_t, clean_board) = Some (r, (t', b')) /\
    (r < 0 /\ res [] [] [] [] 0 b' \/
     r = 0 /\ drvdata t' = true /\ res [] [] [] (datas t') 1 b' /\ g_gpio <$> datas t' = [7; 8] /\
       exists b'', timed_gpio_remove (TimedOps0 := board_ops (fun n => if (n =? 5)%nat then -12 else 0))
         tgpios (t', b') = Some (0, (t', b'')) /\ res [] [] [] [] 0 b'').
Proof.
  apply (probe_resources (fun n => if (n =? 5)%nat then -12 else 0) [] [] [] tgpios fresh_t clean_board 0);
    [discriminate|]. vm_compute. repeat split; constructor.
Defined.

Lemma class_error_sticks_witness :
  exists t1 b1, timed_output_init (TimedOps0 := board_ops (fun n => if (n =? 0)%nat then -12 else 0))
      (fresh_t, clean_board) = Some (-12, (t1, b1)) /\
    timed_gpio_probe (TimedOps0 := board_ops (fun n => if (n =? 0)%nat then -12 else 0))
      (Some tgpios) (t1, b1) = None.
Proof.
  apply (class_error_sticks (fun n => if (n =? 0)%nat then -12 else 0) (mkTimed true 7 100000000 0)
    [mkTimed true 8 100000000 0] fresh_t clean_board); [reflexivity|reflexivity|cbn; lia|cbn; lia|cbn; lia].
Defined.

Lemma unregister_writes_destroyed_witness :
  exists b', timed_output_dev_unregister (TimedOps0 := board_ops (fun _ => 0)) 0 (demo_t, demo_board) =
      Some (tt, (demo_t, b')) /\ (1 ∉ devs b') /\ dead b' = [1].
Proof.
  apply (unregister_writes_destroyed (fun _ => 0) 0 demo_gpio demo_t demo_board []);
    [reflexivity|reflexivity|reflexivity|apply not_elem_of_nil].
Defined.
