(* ===== verification/FbGrab.v ===== *)
(** * Framebuffer grabber (test_framebuffer/fbgrab-1.3/fbgrab.c)

    The program that reads a framebuffer, converts its pixels and writes a
    PNG file: the four conversions, [convert_and_write], [write_PNG] and
    [main] after [getopt] has split the command line.  Buffers are lists of
    bytes and an access outside them is [None]; [inl] is [exit] or [return]
    with a code.  Files, ioctls, the allocator and libpng are the class
    [FbOps]. *)

From Stdlib Require Import ZArith Ascii.
From stdpp Require Import base list strings.
From S2P Require Import Prelude KernelText.

Definition MAX_LEN : nat := 512.
Definition UNDEFINED : Z := -1.
Definition DEFAULT_FB : string := "/dev/fb0".
Definition EXIT_FAILURE : Z := 1.
Definition PNG_INTERLACE_NONE : Z := 0.
Definition PNG_INTERLACE_ADAM7 : Z := 1.
Definition Z_DEFAULT_COMPRESSION : Z := -1.
Definition Z_BEST_COMPRESSION : Z := 9.

(** The positions in a pixel written. *)
Definition Blue : Z := 0.
Definition Green : Z := 1.
Definition Red : Z := 2.
Definition Alpha : Z := 3.

(** The positions in a pixel read: [srcBlue], [srcGreen], [srcRed], [srcAlpha]. *)
Record src_pos := mkSrc { srcBlue : Z; srcGreen : Z; srcRed : Z; srcAlpha : Z }.
Definition src0 : src_pos := mkSrc 0 1 2 3.

(** ** Bytes of buffers at unsigned indices *)
Definition rd (buf : list Z) (i : Z) : option Z := buf !! Z.to_nat (u32 i).
Definition wr (buf : list Z) (i : Z) (v : Z) : option (list Z) :=
  if decide (Z.to_nat (u32 i) < length buf)%nat then Some (<[Z.to_nat (u32 i) := u8 v]> buf) else None.

(** The four bytes of a pixel, in the order of the code. *)
Definition put_pixel (out : list Z) (base b g r a : Z) : option (list Z) :=
  out ← wr out (base + Blue) b; out ← wr out (base + Green) g;
  out ← wr out (base + Red) r; wr out (base + Alpha) a.

(** ** The conversions: [i] is the index of the code, [n] rounds are left *)
Definition pixel1555 (inb out : list Z) (i : Z) : option (list Z) :=
  x0 ← rd inb i; x1 ← rd inb (i + 1);
  put_pixel out (u32 (Z.shiftl i 1))
    (Z.shiftl (Z.land x1 0x7c) 1)
    (Z.shiftl (Z.lor (Z.shiftl (Z.land x1 0x3) 3) (Z.shiftr (Z.land x0 0xe0) 5)) 3)
    (Z.shiftl (Z.land x0 0x1f) 3) 0.
Definition pixel565 (inb out : list Z) (i : Z) : option (list Z) :=
  x0 ← rd inb i; x1 ← rd inb (i + 1);
  put_pixel out (u32 (Z.shiftl i 1))
    (Z.shiftl (Z.land x0 0x1f) 3)
    (Z.shiftl (Z.lor (Z.shiftl (Z.land x1 0x7) 3) (Z.shiftr (Z.land x0 0xe0) 5)) 2)
    (Z.land x1 0xf8) 0.
Definition pixel888 (s : src_pos) (inb out : list Z) (i : Z) : option (list Z) :=
  b ← rd inb (i * 3 + srcBlue s); g ← rd inb (i * 3 + srcGreen s); r ← rd inb (i * 3 + srcRed s);
  put_pixel out (u32 (Z.shiftl i 2)) b g r 0.
Definition pixel8888 (s : src_pos) (inb out : list Z) (i : Z) : option (list Z) :=
  b ← rd inb (i * 4 + srcBlue s); g ← rd inb (i * 4 + srcGreen s); r ← rd inb (i * 4 + srcRed s);
  a ← (if 0 <=? srcAlpha s then rd inb (i * 4 + srcAlpha s) else Some 0xff);
  put_pixel out (u32 (Z.shiftl i 2)) b g r a.

Fixpoint convert_loop (pixel : list Z -> Z -> option (list Z)) (step : Z) (n : nat) (i : Z) (out : list Z) :
    option (list Z) :=
  match n with
  | O => Some out
  | S n => out ← pixel out i; convert_loop pixel step n (i + step) out
  end.

(** [for (i=0; i < (unsigned int) height*width*2; i+=2)]: the rounds *)
Definition rounds2 (width height : Z) : nat := Z.to_nat ((u32 (height * width * 2) + 1) / 2).
Definition rounds1 (width height : Z) : nat := Z.to_nat (u32 (height * width)).

Definition convert1555to32 (width height : Z) (inb out : list Z) : option (list Z) :=
  convert_loop (pixel1555 inb) 2 (rounds2 width height) 0 out.
Definition convert565to32 (width height : Z) (inb out : list Z) : option (list Z) :=
  convert_loop (pixel565 inb) 2 (rounds2 width height) 0 out.
Definition convert888to32 (s : src_pos) (width height : Z) (inb out : list Z) : option (list Z) :=
  convert_loop (pixel888 s inb) 1 (rounds1 width height) 0 out.
Definition convert8888to32 (s : src_pos) (width height : Z) (inb out : list Z) : option (list Z) :=
  convert_loop (pixel8888 s inb) 1 (rounds1 width height) 0 out.

(** ** The program *)
Record fb_var_screeninfo := mkVar {
  xres : Z; yres : Z; yoffset : Z; bits_per_pixel : Z;
  red_offset : Z; green_offset : Z; blue_offset : Z; transp_offset : Z; transp_length : Z;
}.

Definition CONSOLE : string := "/dev/console".

(** The system: descriptors are integers, [-1] from [open] and [None] or
    [false] from an [ioctl] are failures. *)
Class FbOps (W : Type) := {
  open : string -> M W Z;
  close : Z -> M W unit;
  ioctl_vscreeninfo : Z -> M W (option fb_var_screeninfo);
  ioctl_fscreeninfo : Z -> M W bool;
  ioctl_vt_getstate : Z -> M W (option Z);                  (** [v_active] *)
  ioctl_vt_activate : Z -> Z -> M W bool;
  ioctl_vt_waitactive : Z -> Z -> M W bool;
  lseek : Z -> Z -> M W unit;
  read : Z -> Z -> M W (Z * list Z);                        (** the result, the bytes written to the buffer *)
  malloc : Z -> M W bool;
  sleep : Z -> M W unit;
  getenv_framebuffer : M W (option string);
  fopen : string -> M W bool;
  png_create_write_struct : M W bool;
  png_create_info_struct : M W bool;
  png_write_image : Z -> Z -> Z -> Z -> list (list Z) -> M W unit; (** width, height, interlace, level, rows *)
}.

Section Program.
Context {W : Type} `{!FbOps W}.
Definition PX (A : Type) : Type := FM W (Z + A).
Definition pret {A} (a : A) : PX A := fret (inr a).
Definition pexit {A} (code : Z) : PX A := fret (inl code).
Definition pbind {A B} (m : PX A) (k : A -> PX B) : PX B :=
  fbind m (fun r => match r with inl c => fret (inl c) | inr a => k a end).
Definition pcall {A} (m : M W A) : PX A := fun w => let '(a, w) := m w in Some (inr a, w).
(** A step on memory alone. *)
Definition pmem {A} (o : option A) : PX A := fun w => match o with Some a => Some (inr a, w) | None => None end.

Notation "x <<- m ;; k" := (pbind m (fun x => k)) (at level 100, m at next level, right associativity).
Notation "m ;;- k" := (pbind m (fun _ => k)) (at level 100, right associativity).

(** [if (ioctl(...) != 0) fatal_error(...)] *)
Definition must (m : M W bool) : PX unit :=
  ok <<- pcall m ;; if ok then pret tt else pexit EXIT_FAILURE.
Definition must_get {A} (m : M W (option A)) : PX A :=
  r <<- pcall m ;; match r with Some a => pret a | None => pexit EXIT_FAILURE end.
Definition must_open (path : string) : PX Z :=
  fd <<- pcall (open path) ;; if fd =? -1 then pexit EXIT_FAILURE else pret fd.

Definition chvt (num : Z) : PX unit :=
  fd <<- must_open CONSOLE ;;
  must (ioctl_vt_activate fd num) ;;-
  must (ioctl_vt_waitactive fd num) ;;-
  pcall (close fd).

Definition change_to_vt (vt_num : Z) : PX Z :=
  fd <<- must_open CONSOLE ;;
  v_active <<- must_get (ioctl_vt_getstate fd) ;;
  pcall (close fd) ;;-
  chvt vt_num ;;-
  pret (u16 v_active).

(** With -v the line length is printed in pixels too: [line_length] divided by
    [bits_per_pixel/8]. *)
Definition get_framebufferdata (device : string) (verbose : bool) : PX (fb_var_screeninfo * src_pos) :=
  fd <<- must_open device ;;
  v <<- must_get (ioctl_vscreeninfo fd) ;;
  must (ioctl_fscreeninfo fd) ;;-
  pmem (if verbose && (bits_per_pixel v / 8 =? 0) then None else Some tt) ;;-
  let pos := mkSrc (Z.shiftr (blue_offset v) 3) (Z.shiftr (green_offset v) 3) (Z.shiftr (red_offset v) 3)
               (if 0 <? transp_length v then Z.shiftr (transp_offset v) 3 else -1) in
  pcall (close fd) ;;-
  pret (v, pos).

(** The bytes read fill the buffer, or the program ends. *)
Definition read_framebuffer (device : string) (bytes skip_bytes : Z) : PX (list Z) :=
  fd <<- must_open device ;;
  (if negb (skip_bytes =? 0) then pcall (lseek fd skip_bytes) else pret tt) ;;-
  r <<- pcall (read fd bytes) ;;
  if fst r =? bytes then pret (snd r) else pexit EXIT_FAILURE.

(** [row_pointers[i] = outbuffer + i * 4 * width], each read up to its width. *)
Fixpoint rows (n : nat) (width : nat) (out : list Z) : option (list (list Z)) :=
  match n with
  | O => Some []
  | S n =>
      if decide (4 * width <= length out)%nat
      then cons (take (4 * width) out) <$> rows n width (drop (4 * width) out)
      else None
  end.

Definition write_PNG (outbuffer : list Z) (filename : string) (width height interlace compression : Z) : PX unit :=
  (if bool_decide (filename = "-") then pret tt else must (fopen filename)) ;;-
  must png_create_write_struct ;;-
  must png_create_info_struct ;;-
  r <<- pmem (rows (Z.to_nat height) (Z.to_nat width) outbuffer) ;;
  pcall (png_write_image width height interlace Z_BEST_COMPRESSION r).

Definition convert_and_write (s : src_pos) (inbuffer : list Z) (filename : string)
    (width height bits interlace compression : Z) : PX unit :=
  let bufsize := wrap 64 (width * height * 4) in
  must (malloc bufsize) ;;-
  let outbuffer := replicate (Z.to_nat bufsize) 0 in
  let finish (o : option (list Z)) : PX unit :=
    outbuffer <<- pmem o ;; write_PNG outbuffer filename width height interlace compression in
  if bits =? 15 then finish (convert1555to32 width height inbuffer outbuffer)
  else if bits =? 16 then finish (convert565to32 width height inbuffer outbuffer)
  else if bits =? 24 then finish (convert888to32 s width height inbuffer outbuffer)
  else if bits =? 32 then finish (convert8888to32 s width height inbuffer outbuffer)
  else pexit EXIT_FAILURE.

(** *** The command line *)
Record options := mkOpt {
  o_device : option string;
  o_vt : Z;
  o_bitdepth : Z;
  o_height : Z;
  o_width : Z;
  o_infile : list ascii;         (** [char infile[MAX_LEN]] *)
  o_wait : bool;
  o_interlace : Z;
  o_compression : Z;
  o_verbose : bool;
}.
Definition opt0 : options :=
  mkOpt None UNDEFINED UNDEFINED UNDEFINED UNDEFINED (replicate MAX_LEN NUL) false
    PNG_INTERLACE_NONE Z_DEFAULT_COMPRESSION false.

(** [strncpy(infile, s, n)]: at most [n] characters, the rest of the [n] is
    NUL. *)
Definition strncpy (n : nat) (s : string) (buf : list ascii) : list ascii :=
  let l := take n (String.list_ascii_of_string s) in
  l ++ replicate (n - length l) NUL ++ drop n buf.

(** The loop over the options: [inl] returns from [main]. *)
Fixpoint getopts (l : list (ascii * string)) (o : options) : PX options :=
  match l with
  | [] => pret o
  | (c, arg) :: l =>
      if bool_decide (c = "b"%char) then
        getopts l (mkOpt (o_device o) (o_vt o) (atoi arg) (o_height o) (o_width o) (o_infile o) (o_wait o) (o_interlace o) (o_compression o) (o_verbose o))
      else if bool_decide (c = "C"%char) then
        getopts l (mkOpt (o_device o) (atoi arg) (o_bitdepth o) (o_height o) (o_width o) (o_infile o) true (o_interlace o) (o_compression o) (o_verbose o))
      else if bool_decide (c = "c"%char) then
        getopts l (mkOpt (o_device o) (atoi arg) (o_bitdepth o) (o_height o) (o_width o) (o_infile o) (o_wait o) (o_interlace o) (o_compression o) (o_verbose o))
      else if bool_decide (c = "d"%char) then
        getopts l (mkOpt (Some arg) (o_vt o) (o_bitdepth o) (o_height o) (o_width o) (o_infile o) (o_wait o) (o_interlace o) (o_compression o) (o_verbose o))
      else if bool_decide (c = "f"%char) then
        getopts l (mkOpt (o_device o) (o_vt o) (o_bitdepth o) (o_height o) (o_width o) (strncpy MAX_LEN arg (o_infile o)) (o_wait o) (o_interlace o) (o_compression o) (o_verbose o))
      else if bool_decide (c = "h"%char) then
        getopts l (mkOpt (o_device o) (o_vt o) (o_bitdepth o) (atoi arg) (o_width o) (o_infile o) (o_wait o) (o_interlace o) (o_compression o) (o_verbose o))
      else if bool_decide (c = "?"%char) then pexit 1
      else if bool_decide (c = "i"%char) then
        getopts l (mkOpt (o_device o) (o_vt o) (o_bitdepth o) (o_height o) (o_width o) (o_infile o) (o_wait o) PNG_INTERLACE_ADAM7 (o_compression o) (o_verbose o))
      else if bool_decide (c = "v"%char) then
        getopts l (mkOpt (o_device o) (o_vt o) (o_bitdepth o) (o_height o) (o_width o) (o_infile o) (o_wait o) (o_interlace o) (o_compression o) true)
      else if bool_decide (c = "s"%char) then
        pcall (sleep (u32 (atoi arg))) ;;- getopts l o
      else if bool_decide (c = "w"%char) then
        getopts l (mkOpt (o_device o) (o_vt o) (o_bitdepth o) (o_height o) (atoi arg) (o_infile o) (o_wait o) (o_interlace o) (o_compression o) (o_verbose o))
      else if bool_decide (c = "z"%char) then
        getopts l (mkOpt (o_device o) (o_vt o) (o_bitdepth o) (o_height o) (o_width o) (o_infile o) (o_wait o) (o_interlace o) (atoi arg) (o_verbose o))
      else getopts l o                (** [usage] *)
  end.

(** What to read: the file, the offset, the geometry and the positions. *)
Record source := mkSource {
  s_file : string; s_skip : Z; s_width : Z; s_height : Z; s_bits : Z; s_pos : src_pos;
}.
Definition or_default (x d : Z) : Z := if x =? UNDEFINED then d else x.

Definition locate (o : options) : PX source :=
  infile <<- pmem (c_str (o_infile o)) ;;
  if (0 <? Z.of_nat (String.length infile)) then
    if (o_bitdepth o =? UNDEFINED) || (o_width o =? UNDEFINED) || (o_height o =? UNDEFINED)
    then pexit EXIT_FAILURE
    else pret (mkSource infile 0 (o_width o) (o_height o) (o_bitdepth o) src0)
  else
    device <<- (match o_device o with
                | Some d => pret d
                | None => e <<- pcall getenv_framebuffer ;; pret (default DEFAULT_FB e)
                end) ;;
    r <<- get_framebufferdata device (o_verbose o) ;;
    let '(v, pos) := r in
    let skip := s32 (u32 (yoffset v * xres v) * Z.shiftr (bits_per_pixel v) 3) in
    file <<- pmem (c_str (strncpy (MAX_LEN - 1) device (o_infile o))) ;;
    pret (mkSource file skip (or_default (o_width o) (s32 (xres v))) (or_default (o_height o) (s32 (yres v)))
            (or_default (o_bitdepth o) (s32 (bits_per_pixel v))) pos).

(** [main]: the options [getopt] finds, the number of arguments after them
    and the last one. *)
Definition main (opts : list (ascii * string)) (nargs : Z) (outfile : string) : PX Z :=
  o <<- getopts opts opt0 ;;
  if negb (nargs =? 1) then pexit 1
  else
    old_vt <<- (if negb (o_vt o =? UNDEFINED) then
                  old <<- change_to_vt (u16 (o_vt o)) ;;
                  (if o_wait o then pcall (sleep 3) else pret tt) ;;-
                  pret old
                else pret UNDEFINED) ;;
    s <<- locate o ;;
    let buf_size := u32 (s_width s * s_height s * Z.shiftr (u32 (s_bits s)) 3) in
    must (malloc buf_size) ;;-
    buf <<- read_framebuffer (s_file s) buf_size (s_skip s) ;;
    (if negb (old_vt =? UNDEFINED) then change_to_vt (u16 old_vt) ;;- pret tt else pret tt) ;;-
    convert_and_write (s_pos s) buf outfile (s_width s) (s_height s) (s_bits s)
      (o_interlace o) (o_compression o) ;;-
    pret 0.
End Program.
