(* ===== verification/FbGrabSpec.v ===== *)
(** * Framebuffer grabber: the pixels of the image

    Each conversion is the map of one pixel function over the pixels of the
    framebuffer, and the pixel functions are those of the formats, but in the
    15 bit format red and blue are exchanged; the program as a whole writes
    the rows of that image. *)

From Stdlib Require Import ZArith Ascii.
From stdpp Require Import base list strings.
From S2P Require Import Prelude KernelText FbGrab.

(** ** Pixels *)
Definition byte (x : Z) : Prop := 0 <= x < 256.

(** The fields of the two 16 bit formats, blue in the low bits, as the bytes
    blue, green, red and alpha. *)
Definition field (p off len : Z) : Z := p / 2 ^ off mod 2 ^ len.
Definition px565 (p : Z) : list Z := [field p 0 5 * 8; field p 5 6 * 4; field p 11 5 * 8; 0].
Definition px1555 (p : Z) : list Z := [field p 0 5 * 8; field p 5 5 * 8; field p 10 5 * 8; 0].
(** A pixel with its blue and red bytes exchanged. *)
Definition swap_rb (l : list Z) : list Z := [nth 2 l 0; nth 1 l 0; nth 0 l 0; nth 3 l 0].
Definition px888 (s : src_pos) (c : list Z) : list Z :=
  [nth (Z.to_nat (srcBlue s)) c 0; nth (Z.to_nat (srcGreen s)) c 0; nth (Z.to_nat (srcRed s)) c 0; 0].
Definition px8888 (s : src_pos) (c : list Z) : list Z :=
  [nth (Z.to_nat (srcBlue s)) c 0; nth (Z.to_nat (srcGreen s)) c 0; nth (Z.to_nat (srcRed s)) c 0;
   if 0 <=? srcAlpha s then nth (Z.to_nat (srcAlpha s)) c 0 else 0xff].

(** The buffer cut into pixels of [k] bytes. *)
Definition cell (k : nat) (inb : list Z) (j : nat) : list Z := take k (drop (k * j) inb).
Definition word16 (c : list Z) : Z := of_le16 (nth 0 c 0) (nth 1 c 0).

(** Byte expressions of the code against the fields, by evaluation. *)
Lemma forall_below2 (f : Z -> Z -> bool) (n m : nat) :
  forallb (fun x => forallb (f x) (Z.of_nat <$> seq 0 m)) (Z.of_nat <$> seq 0 n) = true ->
  forall x y, 0 <= x < Z.of_nat n -> 0 <= y < Z.of_nat m -> f x y = true.
Proof.
  intros H x y Hx Hy. apply (forall_below (f x) m); [|done].
  apply (forall_below (fun x => forallb (f x) (Z.of_nat <$> seq 0 m)) n); done.
Qed.

Definition eq565 (x0 x1 : Z) : bool :=
  bool_decide (px565 (of_le16 x0 x1) =
    [u8 (Z.shiftl (Z.land x0 0x1f) 3);
     u8 (Z.shiftl (Z.lor (Z.shiftl (Z.land x1 0x7) 3) (Z.shiftr (Z.land x0 0xe0) 5)) 2);
     u8 (Z.land x1 0xf8); 0]).
Definition eq1555 (x0 x1 : Z) : bool :=
  bool_decide (swap_rb (px1555 (of_le16 x0 x1)) =
    [u8 (Z.shiftl (Z.land x1 0x7c) 1);
     u8 (Z.shiftl (Z.lor (Z.shiftl (Z.land x1 0x3) 3) (Z.shiftr (Z.land x0 0xe0) 5)) 3);
     u8 (Z.shiftl (Z.land x0 0x1f) 3); 0]).
Lemma eq565_all x0 x1 : byte x0 -> byte x1 -> eq565 x0 x1 = true.
Proof. intros. apply (forall_below2 eq565 256 256); [by vm_compute|done|done]. Qed.
Lemma eq1555_all x0 x1 : byte x0 -> byte x1 -> eq1555 x0 x1 = true.
Proof. intros. apply (forall_below2 eq1555 256 256); [by vm_compute|done|done]. Qed.

(** ** The loops *)
Lemma wr_run buf i v :
  (i < length buf)%nat -> Z.of_nat (length buf) <= 2 ^ 32 ->
  wr buf (Z.of_nat i) v = Some (<[i := u8 v]> buf).
Proof.
  intros Hi Hb. unfold wr. rewrite u32_small, Nat2Z.id by lia. by rewrite decide_True.
Qed.
Lemma rd_run buf i :
  (i < length buf)%nat -> Z.of_nat (length buf) <= 2 ^ 32 -> rd buf (Z.of_nat i) = Some (nth i buf 0).
Proof.
  intros Hi Hb. unfold rd. rewrite u32_small, Nat2Z.id by lia.
  destruct (lookup_lt_is_Some_2 buf i Hi) as [x Hx]. rewrite Hx. f_equal. symmetry. by apply nth_lookup_Some.
Qed.

Lemma put_pixel_run out k b g r a :
  (4 * k + 4 <= length out)%nat -> Z.of_nat (length out) <= 2 ^ 32 ->
  put_pixel out (Z.of_nat (4 * k)) b g r a = Some (buf_write out (4 * k) [u8 b; u8 g; u8 r; u8 a]).
Proof.
  intros Hk Hl. unfold put_pixel, Blue, Green, Red, Alpha.
  rewrite Z.add_0_r.
  replace (Z.of_nat (4 * k) + 1) with (Z.of_nat (4 * k + 1)) by lia.
  replace (Z.of_nat (4 * k) + 2) with (Z.of_nat (4 * k + 2)) by lia.
  replace (Z.of_nat (4 * k) + 3) with (Z.of_nat (4 * k + 3)) by lia.
  do 4 (rewrite wr_run by (rewrite ?length_insert; lia); cbn [mbind option_bind]). f_equal.
  unfold buf_write. rewrite <- (take_drop (4 * k) out) at 1.
  assert (length (take (4 * k) out) = 4 * k)%nat as Ht by (rewrite length_take; lia).
  pose proof (length_drop out (4 * k)) as Hd.
  destruct (drop (4 * k) out) as [|x0 [|x1 [|x2 [|x3 l]]]] eqn:E; [cbn in Hd; lia..|].
  assert (drop (4 * k + length [u8 b; u8 g; u8 r; u8 a]) out = l) as ->.
  { cbn [length]. rewrite <- drop_drop, E. done. }
  rewrite !insert_app_r_alt by (rewrite ?length_app, ?length_insert, ?Ht; lia).
  rewrite !Ht. by replace (4 * k - 4 * k)%nat with 0%nat by lia;
    replace (4 * k + 1 - 4 * k)%nat with 1%nat by lia; replace (4 * k + 2 - 4 * k)%nat with 2%nat by lia;
    replace (4 * k + 3 - 4 * k)%nat with 3%nat by lia.
Qed.

(** A loop that writes pixel [px j] in round [j]. *)
Lemma convert_loop_run pixel px step n m k out :
  (forall j out, (j < n)%nat -> length out = (4 * n)%nat ->
     pixel out (step * Z.of_nat j) = Some (buf_write out (4 * j) (px j)) /\ length (px j) = 4%nat) ->
  (k + m = n)%nat -> length out = (4 * n)%nat ->
  convert_loop pixel step m (step * Z.of_nat k) out = Some (take (4 * k) out ++ concat (px <$> seq k m)).
Proof.
  intros Hp. revert k out. induction m as [|m IH]; intros k out Hn Hl.
  - cbn. by rewrite app_nil_r, take_ge by lia.
  - cbn [convert_loop seq fmap list_fmap concat].
    destruct (Hp k out) as [-> Hpl]; [lia|done|]. cbn [mbind option_bind].
    replace (step * Z.of_nat k + step) with (step * Z.of_nat (S k)) by lia.
    rewrite IH by (rewrite ?length_buf_write; lia).
    replace (4 * S k)%nat with (4 * k + length (px k))%nat by lia.
    rewrite take_buf_write_ge by lia. by rewrite <- app_assoc.
Qed.

Lemma nth_cell k inb j i : (i < k)%nat -> nth i (cell k inb j) 0 = nth (k * j + i) inb 0.
Proof.
  intros Hi. rewrite !nth_lookup. unfold cell. by rewrite lookup_take_lt, lookup_drop by done.
Qed.
Lemma byte_nth inb i : Forall byte inb -> byte (nth i inb 0).
Proof.
  intros H. rewrite nth_lookup. destruct (inb !! i) eqn:E; cbn; [|unfold byte; lia].
  by eapply Forall_lookup_1.
Qed.
Lemma base16 j n : (j < n)%nat -> Z.of_nat (4 * n) <= 2 ^ 32 -> u32 (Z.shiftl (2 * Z.of_nat j) 1) = Z.of_nat (4 * j).
Proof. intros. rewrite Z.shiftl_mul_pow2 by lia. rewrite u32_small by lia. lia. Qed.
Lemma base32 j n : (j < n)%nat -> Z.of_nat (4 * n) <= 2 ^ 32 -> u32 (Z.shiftl (1 * Z.of_nat j) 2) = Z.of_nat (4 * j).
Proof. intros. rewrite Z.shiftl_mul_pow2 by lia. rewrite u32_small by lia. lia. Qed.

(** The two bytes of a 16 bit pixel. *)
Lemma read16 inb n j :
  (j < n)%nat -> length inb = (2 * n)%nat -> Z.of_nat (4 * n) <= 2 ^ 32 ->
  rd inb (2 * Z.of_nat j) = Some (nth 0 (cell 2 inb j) 0) /\
  rd inb (2 * Z.of_nat j + 1) = Some (nth 1 (cell 2 inb j) 0).
Proof.
  intros Hj Hl Hn. rewrite !nth_cell by lia.
  replace (2 * Z.of_nat j) with (Z.of_nat (2 * j + 0)) by lia.
  replace (Z.of_nat (2 * j + 0) + 1) with (Z.of_nat (2 * j + 1)) by lia.
  by rewrite !rd_run by lia.
Qed.

Lemma pixel565_run inb n j out :
  Forall byte inb -> length inb = (2 * n)%nat -> Z.of_nat (4 * n) <= 2 ^ 32 -> (j < n)%nat ->
  length out = (4 * n)%nat ->
  pixel565 inb out (2 * Z.of_nat j) = Some (buf_write out (4 * j) (px565 (word16 (cell 2 inb j)))).
Proof.
  intros Hb Hl Hn Hj Ho. unfold pixel565. destruct (read16 inb n j Hj Hl Hn) as [-> ->].
  cbn [mbind option_bind]. rewrite (base16 j n), put_pixel_run by lia. do 2 f_equal.
  assert (eq565 (nth 0 (cell 2 inb j) 0) (nth 1 (cell 2 inb j) 0) = true) as E.
  { apply eq565_all; rewrite nth_cell by lia; by apply byte_nth. }
  apply bool_decide_eq_true_1 in E. exact (eq_sym E).
Qed.
Lemma pixel1555_run inb n j out :
  Forall byte inb -> length inb = (2 * n)%nat -> Z.of_nat (4 * n) <= 2 ^ 32 -> (j < n)%nat ->
  length out = (4 * n)%nat ->
  pixel1555 inb out (2 * Z.of_nat j) = Some (buf_write out (4 * j) (swap_rb (px1555 (word16 (cell 2 inb j))))).
Proof.
  intros Hb Hl Hn Hj Ho. unfold pixel1555. destruct (read16 inb n j Hj Hl Hn) as [-> ->].
  cbn [mbind option_bind]. rewrite (base16 j n), put_pixel_run by lia. do 2 f_equal.
  assert (eq1555 (nth 0 (cell 2 inb j) 0) (nth 1 (cell 2 inb j) 0) = true) as E.
  { apply eq1555_all; rewrite nth_cell by lia; by apply byte_nth. }
  apply bool_decide_eq_true_1 in E. exact (eq_sym E).
Qed.

(** A byte of a pixel of [k] bytes. *)
Lemma read_pos inb k n j p :
  (j < n)%nat -> length inb = (k * n)%nat -> (k <= 4)%nat -> Z.of_nat (4 * n) <= 2 ^ 32 ->
  0 <= p < Z.of_nat k -> Forall byte inb ->
  exists x, rd inb (1 * Z.of_nat j * Z.of_nat k + p) = Some x /\ x = nth (Z.to_nat p) (cell k inb j) 0 /\ u8 x = x.
Proof.
  intros Hj Hl Hk Hn Hp Hb. eexists. split; [|split; [reflexivity|]].
  - rewrite nth_cell by lia.
    replace (1 * Z.of_nat j * Z.of_nat k + p) with (Z.of_nat (k * j + Z.to_nat p)) by lia.
    apply rd_run; nia.
  - rewrite nth_cell by lia. apply u8_small. by apply byte_nth.
Qed.

Definition pos_ok (s : src_pos) (k : Z) : Prop :=
  0 <= srcBlue s < k /\ 0 <= srcGreen s < k /\ 0 <= srcRed s < k.

Lemma pixel888_run s inb n j out :
  Forall byte inb -> pos_ok s 3 -> length inb = (3 * n)%nat -> Z.of_nat (4 * n) <= 2 ^ 32 -> (j < n)%nat ->
  length out = (4 * n)%nat ->
  pixel888 s inb out (1 * Z.of_nat j) = Some (buf_write out (4 * j) (px888 s (cell 3 inb j))).
Proof.
  intros Hb (H1 & H2 & H3) Hl Hn Hj Ho. unfold pixel888. change 3 with (Z.of_nat 3).
  destruct (read_pos inb 3 n j (srcBlue s)) as (b & -> & Eb & Ub); [done|done|lia..|done|].
  destruct (read_pos inb 3 n j (srcGreen s)) as (g & -> & Eg & Ug); [done|done|lia..|done|].
  destruct (read_pos inb 3 n j (srcRed s)) as (r & -> & Er & Ur); [done|done|lia..|done|].
  cbn [mbind option_bind]. rewrite (base32 j n), put_pixel_run by lia. rewrite Ub, Ug, Ur, Eb, Eg, Er. done.
Qed.
Lemma pixel8888_run s inb n j out :
  Forall byte inb -> pos_ok s 4 -> srcAlpha s < 4 -> length inb = (4 * n)%nat -> Z.of_nat (4 * n) <= 2 ^ 32 ->
  (j < n)%nat -> length out = (4 * n)%nat ->
  pixel8888 s inb out (1 * Z.of_nat j) = Some (buf_write out (4 * j) (px8888 s (cell 4 inb j))).
Proof.
  intros Hb (H1 & H2 & H3) Ha Hl Hn Hj Ho. unfold pixel8888, px8888. change 4 with (Z.of_nat 4).
  destruct (read_pos inb 4 n j (srcBlue s)) as (b & -> & Eb & Ub); [done|done|lia..|done|].
  destruct (read_pos inb 4 n j (srcGreen s)) as (g & -> & Eg & Ug); [done|done|lia..|done|].
  destruct (read_pos inb 4 n j (srcRed s)) as (r & -> & Er & Ur); [done|done|lia..|done|].
  cbn [mbind option_bind]. rewrite (base32 j n) by lia. destruct (Z.leb_spec 0 (srcAlpha s)).
  - destruct (read_pos inb 4 n j (srcAlpha s)) as (a & -> & Ea & Ua); [done|done|lia..|done|].
    cbn [mbind option_bind]. rewrite put_pixel_run by lia. rewrite Ub, Ug, Ur, Ua, Eb, Eg, Er, Ea. done.
  - cbn [mbind option_bind]. rewrite put_pixel_run by lia. rewrite Ub, Ug, Ur, Eb, Eg, Er. done.
Qed.

(** ** The conversions *)
Definition image (px : list Z -> list Z) (k n : nat) (inb : list Z) : list Z :=
  concat ((fun j => px (cell k inb j)) <$> seq 0 n).

Lemma rounds2_eq w h : 0 <= w * h -> w * h * 4 <= 2 ^ 32 -> rounds2 w h = Z.to_nat (w * h).
Proof.
  intros. unfold rounds2. rewrite (Z.mul_comm h w), u32_small by lia.
  by rewrite Z.div_add_l, Z.add_0_r by lia.
Qed.
Lemma rounds1_eq w h : 0 <= w * h -> w * h * 4 <= 2 ^ 32 -> rounds1 w h = Z.to_nat (w * h).
Proof. intros. unfold rounds1. by rewrite (Z.mul_comm h w), u32_small by lia. Qed.

(** What the code makes of a depth: bytes per pixel and the pixel function,
    that of the format or, for 15 bits, with blue and red exchanged. *)
Definition format (s : src_pos) (bits : Z) : option (nat * (list Z -> list Z)) :=
  if bits =? 15 then Some (2%nat, fun c => swap_rb (px1555 (word16 c)))
  else if bits =? 16 then Some (2%nat, fun c => px565 (word16 c))
  else if bits =? 24 then Some (3%nat, px888 s)
  else if bits =? 32 then Some (4%nat, px8888 s)
  else None.
Definition convert (s : src_pos) (bits w h : Z) (inb out : list Z) : option (list Z) :=
  if bits =? 15 then convert1555to32 w h inb out else if bits =? 16 then convert565to32 w h inb out
  else if bits =? 24 then convert888to32 s w h inb out else convert8888to32 s w h inb out.
Definition positions_fit (s : src_pos) (k : nat) : Prop :=
  match k with 2%nat => True | 3%nat => pos_ok s 3 | _ => pos_ok s 4 /\ srcAlpha s < 4 end.

Lemma convert_run s bits k px w h inb out :
  format s bits = Some (k, px) -> positions_fit s k -> Forall byte inb ->
  0 <= w * h -> w * h * 4 <= 2 ^ 32 ->
  let n := Z.to_nat (w * h) in
  length inb = (k * n)%nat -> length out = (4 * n)%nat ->
  convert s bits w h inb out = Some (image px k n inb).
Proof.
  intros Hf Hs Hb Hn Hm n Hl Ho. assert (Z.of_nat (4 * n) <= 2 ^ 32) as Hn4 by (unfold n; lia).
  unfold format, convert in *.
  destruct (bits =? 15); [|destruct (bits =? 16); [|destruct (bits =? 24); [|destruct (bits =? 32); [|done]]]];
    injection Hf as <- <-.
  - unfold convert1555to32. rewrite rounds2_eq by done.
    rewrite (convert_loop_run _ (fun j => swap_rb (px1555 (word16 (cell 2 inb j)))) 2 n n 0); [done| |lia|done].
    intros j o Hj Hlo. split; [by apply (pixel1555_run inb n)|done].
  - unfold convert565to32. rewrite rounds2_eq by done.
    rewrite (convert_loop_run _ (fun j => px565 (word16 (cell 2 inb j))) 2 n n 0); [done| |lia|done].
    intros j o Hj Hlo. split; [by apply (pixel565_run inb n)|done].
  - unfold convert888to32. rewrite rounds1_eq by done.
    rewrite (convert_loop_run _ (fun j => px888 s (cell 3 inb j)) 1 n n 0); [done| |lia|done].
    intros j o Hj Hlo. split; [by apply (pixel888_run s inb n)|done].
  - unfold convert8888to32. rewrite rounds1_eq by done.
    rewrite (convert_loop_run _ (fun j => px8888 s (cell 4 inb j)) 1 n n 0); [done| |lia|done].
    intros j o Hj Hlo. destruct Hs. split; [by apply (pixel8888_run s inb n)|done].
Qed.

(** C16: each conversion, on an input of bytes with all its pixels, an output
    of four bytes per pixel, at most 2^32 bytes in all, and - for 24 and 32
    bits - colour positions inside the pixel, stays inside both buffers and
    writes exactly the image of a pixel function: for 16 bits that of the 565
    format, with blue, green and red expanded to eight bits; for 24 and 32
    bits the bytes at the positions the framebuffer reports; and for 15 bits
    that of the 1555 format with the blue and the red byte exchanged. *)
Theorem convert_spec s bits k px w h inb out :
  format s bits = Some (k, px) -> positions_fit s k -> Forall byte inb ->
  0 <= w * h -> w * h * 4 <= 2 ^ 32 ->
  let n := Z.to_nat (w * h) in
  length inb = (k * n)%nat -> length out = (4 * n)%nat ->
  (if bits =? 15 then convert1555to32 w h inb out else if bits =? 16 then convert565to32 w h inb out
   else if bits =? 24 then convert888to32 s w h inb out else convert8888to32 s w h inb out) =
    Some (image px k n inb).
Proof. apply convert_run. Qed.

(** ** Rows *)
Lemma rows_run n w out :
  length out = (n * (4 * w))%nat ->
  exists r, rows n w out = Some r /\ concat r = out /\ length r = n /\ Forall (fun l => length l = (4 * w)%nat) r.
Proof.
  revert out. induction n as [|n IH]; intros out Hl.
  - destruct out; [|done]. by exists [].
  - cbn [rows]. rewrite decide_True by lia.
    destruct (IH (drop (4 * w) out)) as (r & -> & Hc & Hn & Hf); [rewrite length_drop; lia|].
    exists (take (4 * w) out :: r). split; [done|]. cbn [concat length]. rewrite Hc, take_drop, Hn.
    split; [done|]. split; [done|]. constructor; [rewrite length_take; lia|done].
Qed.

Lemma length_image px k n inb : (forall c, length (px c) = 4%nat) -> length (image px k n inb) = (4 * n)%nat.
Proof.
  intros H. unfold image. generalize 0%nat at 1. induction n as [|n IH]; intros m; [done|].
  cbn [seq fmap list_fmap concat]. rewrite length_app, H, IH. lia.
Qed.
Lemma format_px4 s bits k px : format s bits = Some (k, px) -> forall c, length (px c) = 4%nat.
Proof.
  unfold format. intros H c.
  destruct (bits =? 15); [|destruct (bits =? 16); [|destruct (bits =? 24); [|destruct (bits =? 32); [|done]]]];
    injection H as <- <-; done.
Qed.

(** ** Names *)
Lemma c_str_strncpy n s buf :
  c_string s -> (String.length s < n)%nat -> c_str (strncpy n s buf) = Some s.
Proof.
  intros Hs Hl. unfold strncpy.
  pose proof (length_ascii s) as Hn.
  rewrite take_ge by lia. rewrite Hn.
  destruct (n - String.length s)%nat as [|m] eqn:E; [lia|]. cbn [replicate app].
  rewrite c_str_app by done. by rewrite String.string_of_list_ascii_of_string.
Qed.
Lemma c_str_zeros n buf : (0 < n)%nat -> c_str (replicate n NUL ++ buf) = Some "".
Proof. destruct n; [lia|done]. Qed.

Lemma format_k s bits k px : format s bits = Some (k, px) -> (k = 2 \/ k = 3 \/ k = 4)%nat.
Proof.
  unfold format. intros H.
  destruct (bits =? 15); [|destruct (bits =? 16); [|destruct (bits =? 24); [|destruct (bits =? 32); [|done]]]];
    injection H as <- <-; auto.
Qed.

(** A loop that ends has run every round. *)
Lemma convert_loop_rounds pixel step m i out out' j :
  convert_loop pixel step m i out = Some out' -> (j < m)%nat -> exists o, is_Some (pixel o (i + step * Z.of_nat j)).
Proof.
  revert i out j. induction m as [|m IH]; intros i out j H Hj; [lia|]. cbn [convert_loop] in H.
  destruct (pixel out i) as [o1|] eqn:E; [|done]. cbn [mbind option_bind] in H.
  destruct j as [|j].
  - exists out. rewrite Z.mul_0_r, Z.add_0_r, E. by eexists.
  - destruct (IH _ _ j H) as [o Ho]; [lia|]. exists o.
    by replace (i + step * Z.of_nat (S j)) with (i + step + step * Z.of_nat j) by lia.
Qed.
(** With one byte per pixel the last round of the 15 bit conversion reads
    outside the input. *)
Lemma convert1555_short wd ht inb out :
  0 < wd * ht -> wd * ht * 4 <= 2 ^ 32 -> length inb = Z.to_nat (wd * ht) -> convert1555to32 wd ht inb out = None.
Proof.
  intros Hn Hm Hl. unfold convert1555to32. rewrite rounds2_eq by lia.
  destruct (convert_loop _ _ _ _ _) as [o|] eqn:E; [exfalso|done].
  destruct (convert_loop_rounds _ _ _ _ _ _ (Z.to_nat (wd * ht) - 1) E) as [o' [x Hx]]; [lia|].
  unfold pixel1555, rd in Hx. destruct (inb !! Z.to_nat (u32 (0 + 2 * _))); cbn [mbind option_bind] in Hx; [|done].
  rewrite lookup_ge_None_2 in Hx; [done|]. rewrite u32_small by lia. lia.
Qed.

(** ** The system the program runs on *)
(** [Q] holds of the result of a system call. *)
Definition call {W A} (m : M W A) (w : W) (Q : A -> W -> Prop) : Prop := Q (fst (m w)) (snd (m w)).

Record picture := mkPicture {
  pic_width : Z; pic_height : Z; pic_interlace : Z; pic_level : Z; pic_rows : list (list Z);
}.

(** What the program relies on: every call succeeds, [active] is the console
    shown, a file read on the framebuffer at an offset gives the bytes of that
    console, and libpng appends a picture. *)
Class FbMachine (W : Type) `{!FbOps W} (dev : string) (v : fb_var_screeninfo) := {
  good : W -> Prop;
  active : W -> Z;
  shots : W -> list picture;
  file_at : W -> Z -> option (string * Z);
  pixels : Z -> Z -> Z -> list Z;                (** console, offset, count *)
  keeps (w w' : W) : Prop := good w' /\ active w' = active w /\ shots w' = shots w;
  active_range : forall w, good w -> 0 <= active w < 65536;
  length_pixels : forall c o n, 0 <= n -> length (pixels c o n) = Z.to_nat n;
  byte_pixels : forall c o n, Forall byte (pixels c o n);
  open_law : forall path w, good w ->
    call (open path) w (fun fd w' => fd <> -1 /\ keeps w w' /\ file_at w' fd = Some (path, 0));
  close_law : forall fd w, good w -> call (close fd) w (fun _ w' => keeps w w');
  vscreeninfo_law : forall fd w, good w -> file_at w fd = Some (dev, 0) ->
    call (ioctl_vscreeninfo fd) w (fun r w' => r = Some v /\ keeps w w');
  fscreeninfo_law : forall fd w, good w -> call (ioctl_fscreeninfo fd) w (fun r w' => r = true /\ keeps w w');
  getstate_law : forall fd w, good w ->
    call (ioctl_vt_getstate fd) w (fun r w' => r = Some (active w) /\ keeps w w');
  activate_law : forall fd n w, good w -> 0 <= n < 65536 ->
    call (ioctl_vt_activate fd n) w (fun r w' => r = true /\ good w' /\ active w' = n /\ shots w' = shots w);
  waitactive_law : forall fd n w, good w ->
    call (ioctl_vt_waitactive fd n) w (fun r w' => r = true /\ keeps w w');
  lseek_law : forall fd path o p w, good w -> file_at w fd = Some (path, o) -> 0 <= p ->
    call (lseek fd p) w (fun _ w' => keeps w w' /\ file_at w' fd = Some (path, p));
  read_law : forall fd o n w, good w -> file_at w fd = Some (dev, o) -> 0 <= n ->
    call (read fd n) w (fun r w' => r = (n, pixels (active w) o n) /\ keeps w w');
  malloc_law : forall n w, good w -> call (malloc n) w (fun r w' => r = true /\ keeps w w');
  sleep_law : forall n w, good w -> call (sleep n) w (fun _ w' => keeps w w');
  getenv_law : forall w, good w -> call getenv_framebuffer w (fun r w' => r = Some dev /\ keeps w w');
  fopen_law : forall path w, good w -> call (fopen path) w (fun r w' => r = true /\ keeps w w');
  write_struct_law : forall w, good w -> call png_create_write_struct w (fun r w' => r = true /\ keeps w w');
  info_struct_law : forall w, good w -> call png_create_info_struct w (fun r w' => r = true /\ keeps w w');
  write_image_law : forall wd ht il lv r w, good w ->
    call (png_write_image wd ht il lv r) w
      (fun _ w' => good w' /\ active w' = active w /\ shots w' = shots w ++ [mkPicture wd ht il lv r]);
}.

Section Runs.
Context {W : Type} `{!FbOps W} (dev : string) (v : fb_var_screeninfo) `{!FbMachine W dev v}.

Lemma keeps_refl w : good w -> keeps w w.
Proof. by repeat split. Qed.
Lemma keeps_trans w1 w2 w3 : keeps w1 w2 -> keeps w2 w3 -> keeps w1 w3.
Proof. intros (? & E1 & E2) (? & E3 & E4). split; [done|]. by rewrite E3, E4. Qed.
Lemma keeps_good w w' : keeps w w' -> good w'.
Proof. by intros (? & _). Qed.

(** [P] holds of the outcome of [m]; [wp]: it returns, and [Q] holds. *)
Definition wpx {A} (m : PX A) (w : W) (P : option ((Z + A) * W) -> Prop) : Prop := P (m w).
Definition wp {A} (m : PX A) (w : W) (Q : A -> W -> Prop) : Prop :=
  wpx m w (fun r => exists a w', r = Some (inr a, w') /\ Q a w').

Lemma wpx_bind {A B} (m : PX A) (k : A -> PX B) w P :
  wp m w (fun a w' => wpx (k a) w' P) -> wpx (pbind m k) w P.
Proof. unfold wpx, pbind, fbind. intros (a & w' & E & H). by rewrite E. Qed.
Lemma pbind_None {A B} (m : PX A) (k : A -> PX B) (w : W) : m w = None -> pbind m k w = None.
Proof. unfold pbind, fbind. by intros ->. Qed.
Lemma wp_call {A} (m : M W A) w Q : call m w Q -> wp (pcall m) w Q.
Proof. unfold call, wp, wpx, pcall. destruct (m w) as [a w']. intros H. by exists a, w'. Qed.
Lemma wp_ret {A} (a : A) w (Q : A -> W -> Prop) : Q a w -> wp (pret a) w Q.
Proof. intros. by exists a, w. Qed.
Lemma wp_mem {A} (o : option A) a w (Q : A -> W -> Prop) : o = Some a -> Q a w -> wp (pmem o) w Q.
Proof. intros -> ?. by exists a, w. Qed.
Lemma wp_mono {A} (m : PX A) w (Q Q' : A -> W -> Prop) :
  wp m w Q -> (forall a w', Q a w' -> Q' a w') -> wp m w Q'.
Proof. intros (a & w' & E & H) HQ. exists a, w'. auto. Qed.
Lemma call_mono {A} (m : M W A) w (Q Q' : A -> W -> Prop) :
  call m w Q -> (forall a w', Q a w' -> Q' a w') -> call m w Q'.
Proof. unfold call. auto. Qed.

Lemma wp_must (m : M W bool) w Q :
  call m w (fun r w' => r = true /\ Q tt w') -> wp (must m) w Q.
Proof.
  intros H. apply wpx_bind, wp_call. eapply call_mono; [exact H|]. intros r w' [-> HQ]. by apply wp_ret.
Qed.
Lemma wp_must_get {A} (m : M W (option A)) a w (Q : A -> W -> Prop) :
  call m w (fun r w' => r = Some a /\ Q a w') -> wp (must_get m) w Q.
Proof.
  intros H. apply wpx_bind, wp_call. eapply call_mono; [exact H|]. intros r w' [-> HQ]. by apply wp_ret.
Qed.
Lemma wp_open path w Q :
  good w -> (forall fd w', keeps w w' -> file_at w' fd = Some (path, 0) -> Q fd w') -> wp (must_open path) w Q.
Proof.
  intros Hg HQ. apply wpx_bind, wp_call. eapply call_mono; [by apply open_law|].
  intros fd w' (Hfd & Hk & Hat). rewrite (proj2 (Z.eqb_neq fd (-1))) by done. apply wp_ret. by apply HQ.
Qed.

Ltac law L := eapply call_mono; [by eapply L; eauto using keeps_good|]; cbv beta.

(** *** The console *)
Lemma change_to_vt_run n w (Q : Z -> W -> Prop) :
  good w -> 0 <= n < 65536 ->
  (forall w', good w' -> active w' = n -> shots w' = shots w -> Q (active w) w') ->
  wp (change_to_vt n) w Q.
Proof.
  intros Hg Hn HQ. apply wpx_bind, wp_open; [done|]. intros fd w1 K1 _.
  apply wpx_bind, (wp_must_get _ (active w1)). law getstate_law. intros r w2 [-> K2]. split; [done|].
  apply wpx_bind, wp_call. law close_law. intros _ w3 K3.
  assert (keeps w w3) as K by eauto using keeps_trans. destruct K as (G3 & A3 & S3).
  apply wpx_bind. unfold chvt. apply wpx_bind, wp_open; [done|]. intros fd' w4 K4 _.
  apply wpx_bind, wp_must. law (activate_law fd' n). intros r w5 (-> & G5 & A5 & S5). split; [done|].
  apply wpx_bind, wp_must. law waitactive_law. intros r w6 [-> K6]. split; [done|].
  apply wp_call. law close_law. intros [] w7 K7.
  destruct (keeps_trans _ _ _ K6 K7) as (G7 & A7 & S7), K4 as (G4 & A4 & S4), K1 as (G1 & A1 & S1).
  apply wp_ret. rewrite A1, u16_small by (by apply active_range). apply HQ; [done|congruence|congruence].
Qed.

(** *** The framebuffer *)
Definition pos_of : src_pos :=
  mkSrc (Z.shiftr (blue_offset v) 3) (Z.shiftr (green_offset v) 3) (Z.shiftr (red_offset v) 3)
    (if 0 <? transp_length v then Z.shiftr (transp_offset v) 3 else -1).

Lemma get_framebufferdata_run verbose w (Q : _ -> W -> Prop) :
  8 <= bits_per_pixel v -> good w -> (forall w', keeps w w' -> Q (v, pos_of) w') ->
  wp (get_framebufferdata dev verbose) w Q.
Proof.
  intros Hv Hg HQ. apply wpx_bind, wp_open; [done|]. intros fd w1 K1 At.
  apply wpx_bind, (wp_must_get _ v). law vscreeninfo_law. intros r w2 [-> K2]. split; [done|].
  apply wpx_bind, wp_must. law fscreeninfo_law. intros r w3 [-> K3]. split; [done|].
  apply wpx_bind, (wp_mem _ tt).
  { rewrite (proj2 (Z.eqb_neq _ 0)) by (Z.div_mod_to_equations; lia). by rewrite andb_false_r. }
  apply wpx_bind, wp_call. law close_law. intros _ w4 K4. apply wp_ret, HQ. eauto using keeps_trans.
Qed.
Lemma read_framebuffer_run bytes skip w (Q : _ -> W -> Prop) :
  good w -> 0 <= bytes -> 0 <= skip ->
  (forall w', keeps w w' -> Q (pixels (active w) skip bytes) w') -> wp (read_framebuffer dev bytes skip) w Q.
Proof.
  intros Hg Hb Hs HQ. apply wpx_bind, wp_open; [done|]. intros fd w1 K1 At.
  apply wpx_bind.
  apply (wp_mono _ _ (fun _ w' => keeps w w' /\ file_at w' fd = Some (dev, skip))).
  { destruct (Z.eqb_spec skip 0) as [->|Hne]; cbn [negb].
    - by apply wp_ret.
    - apply wp_call. law lseek_law. intros _ w2 [K2 At2]. eauto using keeps_trans. }
  intros _ w2 [K2 At2]. apply wpx_bind, wp_call. law read_law. intros r w3 [-> K3].
  cbn [fst snd]. rewrite Z.eqb_refl. apply wp_ret. destruct K2 as (G2 & A2 & S2). rewrite A2.
  apply HQ. eapply keeps_trans; [|exact K3]. done.
Qed.

(** *** The picture *)
(** The picture has [h] rows of [w] pixels, and their bytes in order are [img]. *)
Definition shows (p : picture) (wd ht il : Z) (img : list Z) : Prop :=
  pic_width p = wd /\ pic_height p = ht /\ pic_interlace p = il /\ pic_level p = Z_BEST_COMPRESSION /\
  length (pic_rows p) = Z.to_nat ht /\ Forall (fun r => length r = (4 * Z.to_nat wd)%nat) (pic_rows p) /\
  concat (pic_rows p) = img.

Lemma write_PNG_run out file wd ht il c w (Q : unit -> W -> Prop) :
  good w -> 0 <= wd -> 0 <= ht -> length out = (4 * Z.to_nat (wd * ht))%nat ->
  (forall p w', good w' -> active w' = active w -> shots w' = shots w ++ [p] -> shows p wd ht il out -> Q tt w') ->
  wp (write_PNG out file wd ht il c) w Q.
Proof.
  intros Hg Hw Hh Hl HQ. unfold write_PNG. apply wpx_bind.
  apply (wp_mono _ _ (fun _ w' => keeps w w')).
  { case_bool_decide; [by apply wp_ret, keeps_refl|]. apply wp_must. law fopen_law. by intros r w' [-> K]. }
  intros _ w1 K1. apply wpx_bind, wp_must. law write_struct_law. intros r w2 [-> K2]. split; [done|].
  apply wpx_bind, wp_must. law info_struct_law. intros r w3 [-> K3]. split; [done|].
  destruct (rows_run (Z.to_nat ht) (Z.to_nat wd) out) as (rs & Hr & Hc & Hn & Hf).
  { rewrite Hl, Z2Nat.inj_mul by done. lia. }
  apply wpx_bind, (wp_mem _ rs); [done|]. apply wp_call. law write_image_law.
  intros [] w4 (G4 & A4 & S4).
  destruct (keeps_trans _ _ _ (keeps_trans _ _ _ K1 K2) K3) as (G3 & A3 & S3).
  eapply HQ; [done|congruence|by rewrite S4, S3|done].
Qed.

Lemma convert_and_write_eq s inb file wd ht bits k px il c w :
  format s bits = Some (k, px) ->
  convert_and_write s inb file wd ht bits il c w =
    pbind (must (malloc (wrap 64 (wd * ht * 4))))
      (fun _ => pbind (pmem (convert s bits wd ht inb (replicate (Z.to_nat (wrap 64 (wd * ht * 4))) 0)))
         (fun out => write_PNG out file wd ht il c)) w.
Proof.
  unfold format, convert, convert_and_write. intros H. unfold pbind, fbind.
  destruct (must _ w) as [[[?|?] ?]|]; [done| |done].
  destruct (bits =? 15); [done|destruct (bits =? 16); [done|destruct (bits =? 24); [done|destruct (bits =? 32); done]]].
Qed.

Lemma convert_and_write_run s inb file wd ht bits k px il c w (Q : unit -> W -> Prop) :
  format s bits = Some (k, px) -> positions_fit s k -> Forall byte inb -> good w ->
  0 <= wd -> 0 <= ht -> wd * ht * 4 <= 2 ^ 32 -> length inb = (k * Z.to_nat (wd * ht))%nat ->
  (forall p w', good w' -> active w' = active w -> shots w' = shots w ++ [p] ->
     shows p wd ht il (image px k (Z.to_nat (wd * ht)) inb) -> Q tt w') ->
  wp (convert_and_write s inb file wd ht bits il c) w Q.
Proof.
  intros Hf Hp Hb Hg Hw Hh Hm Hl HQ. unfold wp, wpx. rewrite (convert_and_write_eq _ _ _ _ _ _ k px) by done.
  pose proof (Z.mul_nonneg_nonneg _ _ Hw Hh).
  apply wpx_bind, wp_must. law malloc_law. intros r w1 [-> (G1 & A1 & S1)]. split; [done|].
  apply wpx_bind. rewrite wrap_small by lia.
  eapply wp_mem.
  { apply (convert_run s bits k px); try done. rewrite length_replicate. lia. }
  apply write_PNG_run; [done..| |].
  { apply length_image. eauto using format_px4. }
  intros p w2 G2 A2 S2 Hs. apply (HQ p); [done|congruence|by rewrite S2, S1|done].
Qed.

(** *** The program *)
(** The options leave the geometry to the framebuffer. *)
Definition plain (o : options) : Prop :=
  o_infile o = replicate MAX_LEN NUL /\ o_bitdepth o = UNDEFINED /\ o_width o = UNDEFINED /\
  o_height o = UNDEFINED /\ (o_device o = None \/ o_device o = Some dev).
Definition skip_of : Z := yoffset v * xres v * Z.shiftr (bits_per_pixel v) 3.
(** A framebuffer of at least eight bits per pixel whose image and offset fit
    31 bits. *)
Definition fits : Prop :=
  0 < xres v /\ 0 < yres v /\ 0 <= yoffset v /\ 8 <= bits_per_pixel v < 2 ^ 31 /\ xres v * yres v * 4 < 2 ^ 31 /\
  yoffset v * xres v < 2 ^ 31 /\ skip_of < 2 ^ 31.
Definition dev_name : Prop := c_string dev /\ (String.length dev < 511)%nat.

Lemma locate_run o w (Q : source -> W -> Prop) :
  plain o -> fits -> dev_name -> good w ->
  (forall w', keeps w w' ->
     Q (mkSource dev skip_of (xres v) (yres v) (bits_per_pixel v) pos_of) w') ->
  wp (locate o) w Q.
Proof.
  intros (Hi & Hb & Hw & Hh & Hd) (X & Y & O & B & N & S1 & S2) [Hc Hl] Hg HQ. unfold locate. rewrite Hi.
  apply wpx_bind, (wp_mem _ ""); [done|]. cbn [String.length Z.of_nat Z.ltb Z.compare].
  apply wpx_bind. apply (wp_mono _ _ (fun d w' => d = dev /\ keeps w w')).
  { destruct Hd as [->| ->]; [|by apply wp_ret].
    apply wpx_bind, wp_call. law getenv_law. intros r w1 [-> K]. by apply wp_ret. }
  intros d w1 [-> K1]. apply wpx_bind, get_framebufferdata_run; [lia|by eapply keeps_good|].
  intros w2 K2. apply wpx_bind.
  eapply (wp_mem _ dev); [by apply c_str_strncpy|]. apply wp_ret.
  unfold or_default. rewrite Hb, Hw, Hh. cbn [Z.eqb UNDEFINED Pos.eqb].
  assert (xres v < 2 ^ 31 /\ yres v < 2 ^ 31) as [] by nia.
  rewrite u32_small, !s32_small by (fold skip_of; unfold skip_of in *; pose proof (Z.shiftr_nonneg (bits_per_pixel v) 3); nia).
  eapply HQ, keeps_trans; done.
Qed.

(** The bytes per pixel. *)
Lemma format_bytes s bits k px :
  format s bits = Some (k, px) -> bits <> 15 -> Z.shiftr (u32 bits) 3 = Z.of_nat k.
Proof.
  unfold format. intros H Hb. destruct (Z.eqb_spec bits 15); [done|].
  destruct (Z.eqb_spec bits 16) as [->|]; [by injection H as <- <-|].
  destruct (Z.eqb_spec bits 24) as [->|]; [by injection H as <- <-|].
  destruct (Z.eqb_spec bits 32) as [->|]; [by injection H as <- <-|done].
Qed.

(** The console the picture is of. *)
Definition console (o : options) (w : W) : Z := if o_vt o =? UNDEFINED then active w else u16 (o_vt o).

(** [main] up to the bytes of the framebuffer. *)
Lemma main_reads opts o file w P :
  (forall w, getopts opts opt0 w = Some (inr o, w)) -> plain o -> fits -> dev_name -> good w ->
  let size := u32 (xres v * yres v * Z.shiftr (u32 (bits_per_pixel v)) 3) in
  (forall w', good w' -> active w' = active w -> shots w' = shots w ->
     wpx (pbind (convert_and_write pos_of (pixels (console o w) skip_of size) file (xres v) (yres v)
            (bits_per_pixel v) (o_interlace o) (o_compression o)) (fun _ => pret 0)) w' P) ->
  wpx (main opts 1 file) w P.
Proof.
  intros Ho Hp Hf Hd Hg size HP. unfold main. apply wpx_bind. exists o, w. split; [apply Ho|].
  change (negb (1 =? 1)) with false. cbv iota.
  apply wpx_bind.
  apply (wp_mono _ _ (fun r w' => r = (if o_vt o =? UNDEFINED then UNDEFINED else active w) /\ good w' /\
     active w' = console o w /\ shots w' = shots w)).
  { unfold console. destruct (o_vt o =? UNDEFINED); cbn [negb]; [by apply wp_ret|].
    apply wpx_bind, change_to_vt_run; [done|apply u16_range|]. intros w1 G1 A1 S1.
    apply wpx_bind. apply (wp_mono _ _ (fun _ w' => keeps w1 w')).
    { destruct (o_wait o); [|by apply wp_ret, keeps_refl]. apply wp_call. law sleep_law. done. }
    intros _ w2 (G2 & A2 & S2). apply wp_ret. by rewrite A2, S2. }
  intros old w1 (-> & G1 & A1 & S1). apply wpx_bind, locate_run; [done..|]. intros w2 (G2 & A2 & S2).
  cbn [s_width s_height s_bits s_file s_skip s_pos]. fold size.
  apply wpx_bind, wp_must. law malloc_law. intros r w3 [-> (G3 & A3 & S3)]. split; [done|].
  assert (0 <= skip_of).
  { destruct Hf as (X & Y & O & B & _). unfold skip_of.
    pose proof (proj2 (Z.shiftr_nonneg (bits_per_pixel v) 3) ltac:(lia)). nia. }
  apply wpx_bind, read_framebuffer_run; [done|apply u32_range|done|]. intros w4 (G4 & A4 & S4).
  apply wpx_bind.
  apply (wp_mono _ _ (fun _ w' => good w' /\ active w' = active w /\ shots w' = shots w)).
  { assert (shots w4 = shots w) as S by congruence. assert (active w4 = console o w) as A by congruence.
    unfold console in A. destruct (o_vt o =? UNDEFINED); cbn [negb Z.eqb UNDEFINED Pos.eqb].
    - by apply wp_ret.
    - pose proof (active_range w Hg). rewrite (proj2 (Z.eqb_neq (active w) (-1))) by lia. cbn [negb].
      apply wpx_bind, change_to_vt_run; [done|apply u16_range|]. intros w5 G5 A5 S5. apply wp_ret.
      rewrite A5, S5, u16_small by done. done. }
  intros _ w5 (G5 & A5 & S5). rewrite A3, A2, A1. by apply HP.
Qed.

Lemma main_grabs_run opts o file w k px :
  (forall w, getopts opts opt0 w = Some (inr o, w)) -> plain o -> fits -> dev_name -> good w ->
  format pos_of (bits_per_pixel v) = Some (k, px) -> bits_per_pixel v <> 15 -> positions_fit pos_of k ->
  let n := Z.to_nat (xres v * yres v) in
  exists p w', main opts 1 file w = Some (inr 0, w') /\ active w' = active w /\ shots w' = shots w ++ [p] /\
    shows p (xres v) (yres v) (o_interlace o)
      (image px k n (pixels (console o w) skip_of (Z.of_nat k * (xres v * yres v)))).
Proof.
  intros Ho Hp Hf Hd Hg Hfm H15 Hpos n.
  apply (main_reads opts o file w (fun r => exists p w', r = Some (inr 0, w') /\ active w' = active w /\
    shots w' = shots w ++ [p] /\ shows p (xres v) (yres v) (o_interlace o)
      (image px k n (pixels (console o w) skip_of (Z.of_nat k * (xres v * yres v)))))); [done..|].
  rewrite (format_bytes _ _ _ _ Hfm H15). destruct Hf as (X & Y & O & B & N & _).
  assert (0 <= k <= 4)%nat as Hk by (destruct (format_k _ _ _ _ Hfm) as [->|[->| ->]]; lia).
  rewrite (Z.mul_comm (xres v * yres v)), u32_small by nia.
  intros w1 G1 A1 S1. apply wpx_bind, (convert_and_write_run _ _ _ _ _ _ k px); try done; try lia.
  - apply byte_pixels.
  - rewrite length_pixels by nia. lia.
  - intros p w2 G2 A2 S2 Hs. exists p, w2. split; [done|]. split; [congruence|]. split; [by rewrite S2, S1|done].
Qed.

(** *** 15 bits per pixel *)
Lemma main_15bpp_run opts o file w :
  (forall w, getopts opts opt0 w = Some (inr o, w)) -> plain o -> fits -> dev_name -> good w ->
  bits_per_pixel v = 15 -> main opts 1 file w = None.
Proof.
  intros Ho Hp Hf Hd Hg H15.
  apply (main_reads opts o file w (fun r => r = None)); [done..|]. rewrite H15.
  destruct Hf as (X & Y & O & B & N & _).
  change (Z.shiftr (u32 15) 3) with 1. rewrite Z.mul_1_r, u32_small by nia.
  intros w1 G1 A1 S1. apply pbind_None.
  rewrite (convert_and_write_eq _ _ _ _ _ _ 2 (fun c => swap_rb (px1555 (word16 c)))) by done.
  apply (wpx_bind _ _ _ (fun r => r = None)).
  apply wp_must. law malloc_law. intros r w2 [-> _]. split; [done|].
  apply pbind_None. unfold pmem, convert. rewrite Z.eqb_refl.
  rewrite convert1555_short; [done|nia..|]. rewrite length_pixels by nia. lia.
Qed.
End Runs.

(** *** Reading from a file *)
Lemma getopts_f s (W : Type) `{!FbOps W} (w : W) :
  getopts [("f"%char, s)] opt0 w =
    Some (inr (mkOpt None UNDEFINED UNDEFINED UNDEFINED UNDEFINED (strncpy MAX_LEN s (replicate MAX_LEN NUL)) false
                 PNG_INTERLACE_NONE Z_DEFAULT_COMPRESSION false), w).
Proof. done. Qed.

Lemma c_str_strncpy_long n s buf :
  c_string s -> (n <= String.length s)%nat -> length buf = n -> c_str (strncpy n s buf) = None.
Proof.
  intros Hs Hl Hb. unfold strncpy. rewrite length_take, length_ascii, Nat.min_l, Nat.sub_diag by lia.
  cbn [replicate app]. rewrite drop_ge, app_nil_r by lia. apply c_str_no_nul.
  intros H. apply Hs. by eapply elem_of_take in H as (i & H & _); eapply list_elem_of_lookup_2.
Qed.

(** ** Properties *)

(** C15: the screenshot.  On a machine where every system and library call
    succeeds, with options that leave the file, the geometry and the depth to
    the framebuffer and do not sleep, and a framebuffer of 16, 24 or 32 bits
    per pixel (15 is read outside the buffer) whose sizes and offset fit 31
    bits and whose colour positions lie inside the pixel, the program returns
    0 and has written exactly one picture: the bytes of the device from the
    panning offset, of the console the -c option names, taken as rows of
    [xres] pixels without padding between them - which are the rows on the
    screen when the line length is that of [xres] pixels -, each pixel
    converted; interlaced exactly with -i, always at the best compression.
    The console shown is again the one it found. *)
Theorem main_grabs {W} `{!FbOps W} dev v `{!FbMachine W dev v} opts o file w k px :
  (forall w, getopts opts opt0 w = Some (inr o, w)) -> plain dev o -> fits v -> dev_name dev -> good w ->
  format (pos_of v) (bits_per_pixel v) = Some (k, px) -> bits_per_pixel v <> 15 -> positions_fit (pos_of v) k ->
  let n := Z.to_nat (xres v * yres v) in
  exists p w', main opts 1 file w = Some (inr 0, w') /\ active w' = active w /\ shots w' = shots w ++ [p] /\
    shows p (xres v) (yres v) (o_interlace o)
      (image px k n (pixels (console dev v o w) (skip_of v) (Z.of_nat k * (xres v * yres v)))).
Proof. apply main_grabs_run. Qed.

(** property: on a framebuffer of 15 bits per pixel the buffer holds one byte
    per pixel ([15 >> 3]) and the conversion reads two: the program reads
    outside its buffer, whatever the resolution. *)
Theorem main_15bpp_overreads {W} `{!FbOps W} dev v `{!FbMachine W dev v} opts o file w :
  (forall w, getopts opts opt0 w = Some (inr o, w)) -> plain dev o -> fits v -> dev_name dev -> good w ->
  bits_per_pixel v = 15 -> main opts 1 file w = None.
Proof. apply main_15bpp_run. Qed.

(** property: the file name of -f: with 1 to 511 characters and no geometry the
    program exits with failure before any system call; with 512 or more the
    copy has no terminator and the length is read outside the buffer. *)
Theorem file_name_limit {W} `{!FbOps W} s file (w : W) :
  c_string s -> (0 < String.length s)%nat ->
  main [("f"%char, s)] 1 file w = if decide (String.length s < MAX_LEN)%nat then Some (inl EXIT_FAILURE, w) else None.
Proof.
  intros Hs Hl. unfold main, pbind at 1, fbind at 1. rewrite getopts_f.
  change (negb (1 =? 1)) with false. cbv iota. cbn [o_vt]. change (negb (UNDEFINED =? UNDEFINED)) with false. cbv iota.
  unfold pbind at 1, fbind at 1. unfold pret at 1, fret at 1. unfold pbind at 1, fbind at 1.
  unfold locate. cbn [o_infile]. unfold pbind at 1, fbind at 1. unfold pmem at 1.
  case_decide as Hd.
  - rewrite c_str_strncpy by done. destruct (Z.ltb_spec 0 (Z.of_nat (String.length s))); [|lia]. done.
  - rewrite c_str_strncpy_long; [done|done|lia|done].
Qed.

(** ** A machine, and the properties on it *)
Module Sim.
(** One descriptor table, by number; the pixels of console [c] count up from
    [c]. *)
Record sim := mkSim { sim_files : list (string * Z); sim_active : Z; sim_shots : list picture }.
Definition dev : string := "/dev/fb1".
Definition pix (c o n : Z) : list Z := (fun i => u8 (c + o + Z.of_nat i)) <$> seq 0 (Z.to_nat n).
Definition v16 : fb_var_screeninfo := mkVar 2 1 3 16 11 5 0 0 0.
Definition v15 : fb_var_screeninfo := mkVar 2 1 0 15 10 5 0 0 0.

#[export] Instance ops (v : fb_var_screeninfo) : FbOps sim := {|
  open path := fun w => (Z.of_nat (length (sim_files w)), mkSim (sim_files w ++ [(path, 0)]) (sim_active w) (sim_shots w));
  close _ := ret tt;
  ioctl_vscreeninfo _ := ret (Some v);
  ioctl_fscreeninfo _ := ret true;
  ioctl_vt_getstate _ := fun w => (Some (sim_active w), w);
  ioctl_vt_activate _ n := fun w => (true, mkSim (sim_files w) n (sim_shots w));
  ioctl_vt_waitactive _ _ := ret true;
  lseek fd p := fun w => (tt, mkSim (alter (fun f => (fst f, p)) (Z.to_nat fd) (sim_files w)) (sim_active w) (sim_shots w));
  read fd n := fun w =>
    ((n, pix (sim_active w) (default 0 (snd <$> sim_files w !! Z.to_nat fd)) n), w);
  malloc _ := ret true;
  sleep _ := ret tt;
  getenv_framebuffer := ret (Some dev);
  fopen _ := ret true;
  png_create_write_struct := ret true;
  png_create_info_struct := ret true;
  png_write_image wd ht il lv r := fun w =>
    (tt, mkSim (sim_files w) (sim_active w) (sim_shots w ++ [mkPicture wd ht il lv r]));
|}.

#[export] Instance machine (v : fb_var_screeninfo) : FbMachine (FbOps0 := ops v) sim dev v.
Proof.
  refine {| good w := 0 <= sim_active w < 65536; active := sim_active; shots := sim_shots;
            file_at w fd := sim_files w !! Z.to_nat fd; pixels := pix |};
    try (intros; unfold call; cbn; tauto).
  - intros c o n _. unfold pix. by rewrite length_fmap, length_seq.
  - intros c o n. apply Forall_fmap, Forall_forall. intros i _. apply u8_range.
  - intros path w G. unfold call. cbn. split; [lia|]. split; [done|].
    rewrite Nat2Z.id. by rewrite lookup_app_r, Nat.sub_diag by lia.
  - intros fd path o p w G H Hp. unfold call. cbn. split; [done|]. by rewrite list_lookup_alter, decide_True, H.
  - intros fd o n w G H Hn. unfold call. cbn. by rewrite H.
Defined.
End Sim.

Definition flags : list (ascii * string) := [("c"%char, "3"); ("i"%char, ""); ("z"%char, "0")].
Definition flags_o : options :=
  mkOpt None 3 UNDEFINED UNDEFINED UNDEFINED (replicate MAX_LEN NUL) false PNG_INTERLACE_ADAM7 0 false.

(** [-c 3 -i -z 0] on console 7: the picture is of console 3, interlaced, and
    at the best compression all the same. *)
Lemma main_grabs_witness :
  exists p w', @main _ (Sim.ops Sim.v16) flags 1 "shot.png" (Sim.mkSim [] 7 []) = Some (inr 0, w') /\
    Sim.sim_active w' = 7 /\ Sim.sim_shots w' = [p] /\
    shows p 2 1 PNG_INTERLACE_ADAM7 (image (fun c => px565 (word16 c)) 2 2 (Sim.pix 3 12 4)).
Proof.
  apply (main_grabs (FbMachine0 := Sim.machine Sim.v16) Sim.dev Sim.v16 flags flags_o "shot.png" (Sim.mkSim [] 7 []) 2
           (fun c => px565 (word16 c))); try done.
  - repeat split. by left.
  - split; [|cbn; lia]. apply (bool_decide_unpack _). by vm_compute.
Defined.

Lemma main_15bpp_overreads_witness :
  @main _ (Sim.ops Sim.v15) [] 1 "shot.png" (Sim.mkSim [] 7 []) = None.
Proof.
  apply (main_15bpp_overreads (FbMachine0 := Sim.machine Sim.v15) Sim.dev Sim.v15 [] opt0); try done.
  - repeat split. by left.
  - split; [|cbn; lia]. apply (bool_decide_unpack _). by vm_compute.
Defined.

Lemma file_name_limit_witness :
  @main _ (Sim.ops Sim.v15) [("f"%char, "a")] 1 "shot.png" (Sim.mkSim [] 7 []) = Some (inl 1, Sim.mkSim [] 7 []).
Proof.
  apply (file_name_limit (FbOps0 := Sim.ops Sim.v15) "a"); [|cbn; lia]. apply (bool_decide_unpack _). by vm_compute.
Defined.

Lemma convert_spec_witness : convert565to32 1 1 [0x1f; 0xf8] [0; 0; 0; 0] = Some [0xf8; 0; 0xf8; 0].
Proof.
  apply (convert_spec src0 16 2 (fun c => px565 (word16 c)) 1 1 [0x1f; 0xf8] [0; 0; 0; 0]); try done.
  repeat constructor; cbn; lia.
Defined.
