(* ===== verification/Mirror.v ===== *)
(** * Packet mirror (net/mirror.c)

    The module that copies the packets of some interfaces to another one: the
    parser of its parameter, which works in place in the buffer [config], the
    test on the interface's bit, the packet handler and the module's entry
    points.  References on devices and packets are counted in the state, so
    that a reference dropped too often is a fault and one kept is visible.
    The interfaces of the machine are a parameter, and so is the value of a
    shift by 32 or more, which C leaves undefined. *)

From Stdlib Require Import ZArith Ascii.
From stdpp Require Import base list strings.
From S2P Require Import Prelude KernelText.

Definition MAX_PORTS : nat := 32.
Definition NET_RX_SUCCESS : Z := 0.

Record net_device := mkNet { dev_name_ : string; ifindex : Z }.
#[export] Instance net_device_eq : EqDecision net_device.
Proof. solve_decision. Defined.

(** A packet: its memory, where [data] points in it, [len] and [mac_len]. *)
Record sk_buff := mkSkb { skb_mem : list Z; skb_data : Z; skb_len : Z; skb_mac_len : Z }.

Record mirror_st := mkMs {
  mirror : option net_device;
  ports_dev : list (option net_device);
  config : list ascii;
  ifindex_bits : Z;
  proto_added : bool;                       (** [mirror_proto] is registered *)
  held : list net_device;                   (** references on devices, one entry each *)
  skbs : Z;                                 (** references on packets *)
  sent : list (net_device * list Z);        (** frames given to [dev_queue_xmit] *)
}.
Definition set_mirror v s := mkMs v (ports_dev s) (config s) (ifindex_bits s) (proto_added s) (held s) (skbs s) (sent s).
Definition set_port_ n v s :=
  mkMs (mirror s) (<[n := v]> (ports_dev s)) (config s) (ifindex_bits s) (proto_added s) (held s) (skbs s) (sent s).
Definition set_config v s := mkMs (mirror s) (ports_dev s) v (ifindex_bits s) (proto_added s) (held s) (skbs s) (sent s).
Definition set_bits v s := mkMs (mirror s) (ports_dev s) (config s) v (proto_added s) (held s) (skbs s) (sent s).
Definition set_proto v s := mkMs (mirror s) (ports_dev s) (config s) (ifindex_bits s) v (held s) (skbs s) (sent s).
Definition set_held v s := mkMs (mirror s) (ports_dev s) (config s) (ifindex_bits s) (proto_added s) v (skbs s) (sent s).
Definition set_skbs v s := mkMs (mirror s) (ports_dev s) (config s) (ifindex_bits s) (proto_added s) (held s) v (sent s).
Definition set_sent v s := mkMs (mirror s) (ports_dev s) (config s) (ifindex_bits s) (proto_added s) (held s) (skbs s) v.

(** The module as it is loaded, with its parameter. *)
Definition loaded (cfg : list ascii) : mirror_st :=
  mkMs None (replicate MAX_PORTS None) cfg 0 false [] 0 [].

Section Module.
(** [dev_get_by_name]'s table and [1 << i] for [i] of 32 or more. *)
Variable find : string -> option net_device.
Variable wide : Z -> Z.
Definition MF (A : Type) : Type := FM mirror_st A.

(** ** The kernel's reference counts *)
Fixpoint remove_one (d : net_device) (l : list net_device) : option (list net_device) :=
  match l with
  | [] => None
  | x :: l => if decide (x = d) then Some l else cons x <$> remove_one d l
  end.
Definition dev_get_by_name (n : string) : MF (option net_device) :=
  match find n with
  | None => fret None
  | Some d => fmodify (fun s => set_held (d :: held s) s) ~;; fret (Some d)
  end.
Definition dev_put (d : net_device) : MF unit :=
  s <~ fget ;;
  match remove_one d (held s) with
  | Some l => fmodify (set_held l)
  | None => fault
  end.

(** ** Interfaces *)
Definition ifindex_bit (d : net_device) : Z :=
  if ifindex d <? 32 then u32 (Z.shiftl 1 (ifindex d)) else u32 (wide (ifindex d)).

Definition is_ports (d : net_device) : MF bool :=
  s <~ fget ;; fret (truthy (Z.land (ifindex_bits s) (ifindex_bit d))).

Fixpoint free_ports_loop (l : list (option net_device)) : MF unit :=
  match l with
  | [] => fret tt
  | None :: l => free_ports_loop l
  | Some d :: l => dev_put d ~;; free_ports_loop l
  end.
Definition free_ports : MF unit :=
  s <~ fget ;; free_ports_loop (ports_dev s).

(** ** The packet handler *)
(** [len] bytes from [data]: [None] outside the packet's memory. *)
Definition skb_bytes (k : sk_buff) : option (list Z) :=
  if (0 <=? skb_data k) && (skb_data k + skb_len k <=? Z.of_nat (length (skb_mem k)))
  then Some (take (Z.to_nat (skb_len k)) (drop (Z.to_nat (skb_data k)) (skb_mem k)))
  else None.
(** The packet loses a reference. *)
Definition skb_put : MF unit := fmodify (fun s => set_skbs (skbs s - 1) s).

Definition mirror_func (cloned : bool) (skb : sk_buff) (dev : net_device) : MF Z :=
  p <~ is_ports dev ;;
  (if p then
     if cloned then
       fmodify (fun s => set_skbs (skbs s + 1) s) ~;;
       let nskb := mkSkb (skb_mem skb) (skb_data skb - skb_mac_len skb)
                     (u32 (skb_len skb + skb_mac_len skb)) (skb_mac_len skb) in
       s <~ fget ;;
       match skb_bytes nskb, mirror s with
       | Some bytes, Some m => fmodify (fun s => set_sent (sent s ++ [(m, bytes)]) s) ~;; skb_put
       | _, _ => fault
       end
     else fret tt
   else fret tt) ~;;
  skb_put ~;;
  fret NET_RX_SUCCESS.

(** ** The parameter *)
Definition is_sep (c : ascii) : bool :=
  bool_decide (c = "/"%char) || bool_decide (c = "@"%char) || bool_decide (c = ","%char) || bool_decide (c = NUL).
(** The string at an index of [config]. *)
Definition str_at (i : nat) : MF string :=
  s <~ fget ;; match c_str (drop i (config s)) with Some x => fret x | None => fault end.
Definition char_at (i : nat) : MF ascii :=
  s <~ fget ;; match config s !! i with Some c => fret c | None => fault end.
Definition put_char (i : nat) (c : ascii) : MF unit :=
  fmodify (fun s => set_config (<[i := c]> (config s)) s).

(** [ports_dev[count] = dev] *)
Definition store_port (count : nat) (d : net_device) : MF unit :=
  if decide (count < MAX_PORTS)%nat then fmodify (set_port_ count (Some d)) else fault.

(** The loop over the data ports; a value other than 0 is returned. *)
Fixpoint ports_loop (fuel : nat) (to from cur count : nat) : MF Z :=
  match fuel with
  | O => fault
  | S fuel =>
      opt <~ str_at 0 ;;
      if decide (cur <= String.length opt)%nat then
        c <~ char_at cur ;;
        if is_sep c then
          put_char cur NUL ~;;
          t <~ str_at to ;; f <~ str_at from ;;
          if bool_decide (t = f) then free_ports ~;; fret (- EBUSY)
          else
            dev <~ dev_get_by_name f ;;
            match dev with
            | None => free_ports ~;; fret (- ENODEV)
            | Some d =>
                store_port count d ~;;
                fmodify (fun s => set_bits (Z.lor (ifindex_bits s) (ifindex_bit d)) s) ~;;
                put_char cur c ~;;
                ports_loop fuel to (S cur) (S cur) (S count)
            end
        else ports_loop fuel to from (S cur) count
      else fret 0
  end.

(** [strchr(opt, '@')] *)
Fixpoint strchr (l : list ascii) (c : ascii) : option nat :=
  match l with
  | [] => None
  | x :: l => if bool_decide (x = c) then Some 0%nat else if bool_decide (x = NUL) then None else S <$> strchr l c
  end.

Definition option_setup : MF Z :=
  s <~ fget ;;
  match strchr (config s) "@" with
  | None => fret (- EINVAL)
  | Some at_ =>
      put_char at_ NUL ~;;
      let to := S at_ in
      r <~ ports_loop (S (length (config s))) to 0 0 0 ;;
      if truthy r then fret r
      else
        t <~ str_at to ;;
        m <~ dev_get_by_name t ;;
        fmodify (set_mirror m) ~;;
        match m with
        | None => fret (- ENODEV)
        | Some _ => fmodify (set_proto true) ~;; fret 0
        end
  end.

Definition ainit_module : MF Z :=
  c <~ str_at 0 ;;
  if truthy (Z.of_nat (String.length c)) then option_setup else fret (- EINVAL).

Definition acleanup_module : MF unit :=
  fmodify (set_proto false) ~;;
  s <~ fget ;;
  match mirror s with
  | None => fault
  | Some m => dev_put m ~;; free_ports
  end.
End Module.
