(* ===== verification/MirrorSpec.v ===== *)
(** * Packet mirror: the parameter, the references and the packets

    The parser that works in place refines a reading of the list of names;
    the devices are held exactly while they are used, except when the mirror
    port is missing; a packet is sent on exactly if its interface is
    configured, for interface indices below 32. *)

From Stdlib Require Import ZArith Ascii.
From stdpp Require Import base list strings.
From S2P Require Import Prelude KernelText Mirror.

Abbreviation la := String.list_ascii_of_string.

(** ** References *)
Lemma remove_one_perm d l l' : l ≡ₚ d :: l' -> exists l'', remove_one d l = Some l'' /\ l'' ≡ₚ l'.
Proof.
  revert l'. induction l as [|x l IH]; intros l' H.
  { by apply Permutation_nil_cons in H. }
  cbn [remove_one]. case_decide as E.
  - subst. exists l. split; [done|]. by eapply Permutation_cons_inv.
  - assert (x ∈ l') as Hx.
    { assert (x ∈ d :: l') as Hx by (rewrite <- H; apply list_elem_of_here).
      by apply elem_of_cons in Hx as [|]. }
    apply elem_of_Permutation in Hx as [k Hk].
    destruct (IH k) as (l'' & -> & Hp).
    { apply (Permutation_cons_inv (a := x)). rewrite H, Hk. apply perm_swap. }
    exists (x :: l''). split; [done|]. by rewrite Hp, Hk.
Qed.

(** [free_ports] drops one reference of each port. *)
Lemma free_ports_loop_run ps rest s :
  held s ≡ₚ omap id ps ++ rest ->
  exists l, free_ports_loop ps s = Some (tt, set_held l s) /\ l ≡ₚ rest.
Proof.
  revert s. induction ps as [|[d|] ps IH]; intros s H; cbn [free_ports_loop].
  - exists (held s). split; [by destruct s|done].
  - cbn in H. destruct (remove_one_perm _ _ _ H) as (l & Hl & Hp).
    unfold dev_put, fbind, fget. rewrite Hl. cbn [fmodify].
    destruct (IH (set_held l s)) as (l' & Hr & Hp'); [done|]. exists l'. split; [exact Hr|done].
  - apply IH, H.
Qed.

(** ** The parser *)
Section Parser.
Context (find : string -> option net_device) (wide : Z -> Z).

(** What a port adds to the state. *)
Definition add_port (d : net_device) (n : nat) (s : mirror_st) : mirror_st :=
  set_bits (Z.lor (ifindex_bits s) (ifindex_bit wide d))
    (set_port_ n (Some d) (set_held (d :: held s) s)).

Lemma str_at_run i s x : c_str (drop i (config s)) = Some x -> str_at i s = Some (x, s).
Proof. intros H. unfold str_at, fbind, fget. by rewrite H. Qed.
Lemma char_at_run i s c : config s !! i = Some c -> char_at i s = Some (c, s).
Proof. intros H. unfold char_at, fbind, fget. by rewrite H. Qed.

(** Characters that are no separator are passed over. *)
Lemma loop_skip k fuel to from cur count s opt :
  c_str (config s) = Some opt -> (cur + k <= String.length opt)%nat ->
  (forall i, (cur <= i < cur + k)%nat -> exists c, config s !! i = Some c /\ is_sep c = false) ->
  ports_loop find wide (k + fuel) to from cur count s = ports_loop find wide fuel to from (cur + k) count s.
Proof.
  intros Ho. revert cur. induction k as [|k IH]; intros cur Hk Hc.
  - by rewrite Nat.add_0_r.
  - cbn [Nat.add ports_loop]. unfold fbind at 1. rewrite (str_at_run 0 s opt) by done.
    rewrite decide_True by lia. destruct (Hc cur) as (c & E & Hs); [lia|].
    unfold fbind at 1. rewrite (char_at_run _ _ _ E), Hs, IH by (try lia; intros; apply Hc; lia).
    f_equal. lia.
Qed.

(** A separator ends a name. *)
Lemma loop_sep fuel to pre p c post count s opt m :
  config s = pre ++ la p ++ c :: post -> c_str (config s) = Some opt ->
  (length pre + String.length p <= String.length opt)%nat -> is_sep c = true -> c_string p ->
  c_str (drop to (config s)) = Some m -> (length pre + String.length p < to)%nat ->
  let cur := (length pre + String.length p)%nat in
  let s1 := set_config (<[cur := NUL]> (config s)) s in
  ports_loop find wide (S fuel) to (length pre) cur count s =
    if bool_decide (m = p) then fbind free_ports (fun _ => fret (- EBUSY)) s1
    else match find p with
         | None => fbind free_ports (fun _ => fret (- ENODEV)) s1
         | Some d =>
             if decide (count < MAX_PORTS)%nat
             then ports_loop find wide fuel to (S cur) (S cur) (S count) (add_port d count s) else None
         end.
Proof.
  intros Hb Ho Hl Hs Hp Hm Ht cur s1. cbn [ports_loop]. unfold fbind at 1.
  rewrite (str_at_run 0 s opt), decide_True by done.
  assert (config s !! cur = Some c) as Hc.
  { rewrite Hb. unfold cur. rewrite lookup_app_r by lia.
    rewrite lookup_app_r by (rewrite length_ascii; lia). rewrite length_ascii.
    by replace (length pre + String.length p - length pre - String.length p)%nat with 0%nat by lia. }
  unfold fbind at 1. rewrite (char_at_run _ _ _ Hc), Hs. unfold fbind at 1, put_char at 1. cbn [fmodify].
  fold s1. unfold fbind at 1. rewrite (str_at_run to s1 m).
  2: { cbn. rewrite drop_insert_lt by done. done. }
  unfold fbind at 1. rewrite (str_at_run (length pre) s1 p).
  2: { cbn [s1 set_config config]. rewrite Hb. unfold cur. rewrite insert_app_r, drop_app_length.
       rewrite <- length_ascii, <- (Nat.add_0_r (length (la p))), insert_app_r. cbn.
       rewrite c_str_app by done. by rewrite String.string_of_list_ascii_of_string. }
  case_bool_decide; [done|]. unfold fbind at 1, dev_get_by_name. destruct (find p) as [d|]; [|done].
  unfold fbind at 1. cbn [fmodify fret]. unfold fbind at 1, store_port. case_decide; [|done].
  cbn [fmodify]. unfold fbind at 1. cbn [fmodify]. unfold fbind at 1, put_char. cbn [fmodify].
  f_equal. unfold add_port, set_bits, set_port_, set_held, set_config. cbn. f_equal.
  rewrite list_insert_insert_eq. by apply list_insert_id.
Qed.

(** *** Names and the buffer *)
Definition clean (n : string) : Prop := Forall (fun c => is_sep c = false) (la n).
Fixpoint join (ps : list string) : list ascii :=
  match ps with
  | [] => []
  | [p] => la p
  | p :: ps => la p ++ "/"%char :: join ps
  end.

Lemma sep_NUL : is_sep NUL = true.
Proof. done. Qed.
Lemma clean_c_string n : clean n -> c_string n.
Proof.
  intros H Hn. unfold clean in H. rewrite Forall_forall in H. by specialize (H _ Hn).
Qed.
Lemma join_no_NUL ps : Forall clean ps -> NUL ∉ join ps.
Proof.
  induction ps as [|p [|q ps] IH]; intros H; [apply not_elem_of_nil|..].
  - apply Forall_cons in H as [H _]. by apply clean_c_string.
  - apply Forall_cons in H as [Hp H]. cbn [join]. intros Hin.
    apply elem_of_app in Hin as [Hin|Hin]; [by eapply clean_c_string|].
    apply elem_of_cons in Hin as [?|Hin]; [done|]. by apply IH.
Qed.

(** The state after the ports [ds]. *)
Definition port_array (ds : list net_device) : list (option net_device) :=
  (Some <$> ds) ++ replicate (MAX_PORTS - length ds) None.
Definition bits_of_ports (ds : list net_device) : Z := foldl (fun b d => Z.lor b (ifindex_bit wide d)) 0 ds.
Definition ports_set (ds : list net_device) (cfg : list ascii) : mirror_st :=
  mkMs None (port_array ds) cfg (bits_of_ports ds) false (rev ds) 0 [].

Lemma add_port_set d ds cfg :
  (length ds < MAX_PORTS)%nat ->
  add_port d (length ds) (ports_set ds cfg) = ports_set (ds ++ [d]) cfg.
Proof.
  intros Hl. unfold add_port, ports_set, set_bits, set_port_, set_held. cbn. f_equal.
  - unfold port_array. rewrite insert_app_r_alt by (rewrite length_fmap; lia).
    rewrite length_fmap, Nat.sub_diag, fmap_app, <- app_assoc. f_equal.
    rewrite length_app. destruct (MAX_PORTS - length ds)%nat as [|k] eqn:E; [lia|].
    replace (MAX_PORTS - (length ds + length [d]))%nat with k by (cbn [length]; lia). done.
  - unfold bits_of_ports. by rewrite foldl_app.
  - by rewrite rev_app_distr.
Qed.

Lemma omap_port_array ds : omap id (port_array ds) = ds.
Proof.
  unfold port_array. rewrite omap_app.
  assert (omap id (replicate (MAX_PORTS - length ds) None) = ([] : list net_device)) as ->.
  { generalize (MAX_PORTS - length ds)%nat. intros n. by induction n. }
  rewrite app_nil_r. induction ds; [done|]. cbn. by f_equal.
Qed.

Lemma free_ports_set ds cfg :
  free_ports (ports_set ds cfg) = Some (tt, set_held [] (ports_set ds cfg)).
Proof.
  unfold free_ports, fbind, fget.
  destruct (free_ports_loop_run (port_array ds) [] (ports_set ds cfg)) as (l & H & Hl).
  - cbn. rewrite app_nil_r, omap_port_array.
    symmetry. apply Permutation_rev.
  - symmetry in Hl. apply Permutation_nil in Hl as ->. exact H.
Qed.

(** *** The names read one by one *)
(** [None]: there is no room in [ports_dev]. *)
Fixpoint read_ports (m : string) (ps : list string) (ds : list net_device) : option (Z + list net_device) :=
  match ps with
  | [] => Some (inr ds)
  | p :: ps =>
      if decide (m = p) then Some (inl (- EBUSY))
      else match find p with
           | Some d => if decide (length ds < MAX_PORTS)%nat then read_ports m ps (ds ++ [d]) else None
           | None => Some (inl (- ENODEV))
           end
  end.

(** One name, from its first character to the separator after it. *)
Lemma loop_one p pre c rest m ds fuel to opt :
  let cfg := pre ++ la p ++ c :: rest in
  let cur := (length pre + String.length p)%nat in
  clean p -> is_sep c = true -> c_str cfg = Some opt -> (cur <= String.length opt)%nat ->
  c_str (drop to cfg) = Some m -> (cur < to)%nat ->
  let stop := set_held [] (ports_set ds (<[cur := NUL]> cfg)) in
  ports_loop find wide (String.length p + S fuel) to (length pre) (length pre) (length ds) (ports_set ds cfg) =
    if decide (m = p) then Some (- EBUSY, stop)
    else match find p with
         | None => Some (- ENODEV, stop)
         | Some d =>
             if decide (length ds < MAX_PORTS)%nat
             then ports_loop find wide fuel to (S cur) (S cur) (S (length ds)) (ports_set (ds ++ [d]) cfg) else None
         end.
Proof.
  intros cfg cur Hp Hsep Hs Hl Hm Ht stop.
  rewrite (loop_skip _ _ _ _ _ _ (ports_set ds cfg) _ Hs); [|done|].
  2: { intros i Hi. cbn [config ports_set]. unfold cfg.
       destruct (lookup_lt_is_Some_2 (la p) (i - length pre)) as [x Hx]; [rewrite length_ascii; lia|].
       exists x. rewrite lookup_app_r by lia. rewrite lookup_app_l by (rewrite length_ascii; lia).
       split; [done|]. by eapply (Forall_lookup_1 _ _ _ _ Hp). }
  rewrite (loop_sep _ to pre p c rest _ (ports_set ds cfg) opt m); try done; [|by apply clean_c_string].
  unfold fbind. change (set_config ?x (ports_set ds cfg)) with (ports_set ds x).
  cbn [config ports_set]. fold cur. rewrite free_ports_set.
  destruct (decide (m = p)); [by rewrite bool_decide_eq_true_2|]. rewrite bool_decide_eq_false_2 by done.
  destruct (find p); [|done]. case_decide; [|done]. by rewrite add_port_set.
Qed.

(** The buffer has been read up to [pre]; the ports [ps] are left. *)
Lemma loop_ports ps pre post m ds fuel :
  ps <> [] -> Forall clean ps -> NUL ∉ pre ->
  (S (length (join ps)) < fuel)%nat -> c_str post = Some m ->
  let cfg := pre ++ join ps ++ NUL :: post in
  let to := S (length pre + length (join ps)) in
  match read_ports m ps ds with
  | None => ports_loop find wide fuel to (length pre) (length pre) (length ds) (ports_set ds cfg) = None
  | Some (inl e) => exists s, ports_loop find wide fuel to (length pre) (length pre) (length ds) (ports_set ds cfg) = Some (e, s) /\
      held s = [] /\ proto_added s = false /\ mirror s = None
  | Some (inr ds') => ports_loop find wide fuel to (length pre) (length pre) (length ds) (ports_set ds cfg) =
      Some (0, ports_set ds' cfg)
  end.
Proof.
  revert pre ds fuel. induction ps as [|p ps IH]; intros pre ds fuel Hne Hc Hpre Hf Hm cfg to; [done|].
  assert (exists opt, c_str cfg = Some opt /\ String.length opt = length pre + length (join (p :: ps)))%nat
    as (opt & Hs & Hsl).
  { eexists. split.
    - unfold cfg. rewrite app_assoc. apply c_str_app. rewrite elem_of_app.
      intros [?|?]; [done|]. by eapply join_no_NUL.
    - by rewrite <- length_ascii, String.list_ascii_of_string_of_list_ascii, length_app. }
  assert (c_str (drop to cfg) = Some m) as Hto.
  { unfold cfg, to. rewrite app_assoc.
    replace (S (length pre + length (join (p :: ps)))) with (length (pre ++ join (p :: ps)) + 1)%nat by (rewrite length_app; lia).
    by rewrite drop_app_add. }
  apply Forall_cons in Hc as [Hp Hc].
  assert (length (join (p :: ps)) = String.length p + match ps with [] => 0 | _ => S (length (join ps)) end)%nat as Hjl.
  { destruct ps; cbn [join]; rewrite ?length_app, length_ascii; cbn [length]; lia. }
  assert (exists c rest, cfg = pre ++ la p ++ c :: rest /\ is_sep c = true /\
    (ps <> [] -> c = "/"%char /\ rest = join ps ++ NUL :: post)) as (c & rest & Ecfg & Hsep & Hrest).
  { destruct ps as [|q ps].
    - by exists NUL, post.
    - exists "/"%char, (join (q :: ps) ++ NUL :: post). unfold cfg. cbn [join]. by rewrite <- app_assoc. }
  replace fuel with (String.length p + S (fuel - S (String.length p)))%nat by lia.
  rewrite Ecfg in *. rewrite (loop_one p pre c rest m ds _ to opt); try done; [|lia..].
  cbn [read_ports]. destruct (decide (m = p)); [by eexists|]. destruct (find p) as [d|]; [|by eexists].
  case_decide; [|done].
  destruct ps as [|q ps].
  - cbn [read_ports]. destruct (fuel - S (String.length p))%nat as [|k] eqn:Ek; [lia|].
    cbn [ports_loop]. unfold fbind at 1. rewrite (str_at_run 0 _ opt) by done. rewrite decide_False by lia. done.
  - destruct Hrest as [-> ->]; [done|].
    specialize (IH (pre ++ la p ++ ["/"%char]) (ds ++ [d]) (fuel - S (String.length p))%nat).
    rewrite !length_app, length_ascii in IH. cbn [length] in IH.
    rewrite <- !app_assoc in IH. cbn [app] in IH.
    replace (S (length pre + (String.length p + 1) + length (join (q :: ps))))%nat with to in IH by (unfold to; lia).
    replace (length pre + (String.length p + 1))%nat with (S (length pre + String.length p)) in IH by lia.
    rewrite Nat.add_1_r in IH. apply IH; try done.
    + rewrite !elem_of_app, list_elem_of_singleton. intros [?|[?|?]]; [done|by eapply clean_c_string|done].
    + lia.
Qed.
End Parser.

(** ** Loading *)
Section Load.
Context (find : string -> option net_device) (wide : Z -> Z).

(** The parameter as it is written: names joined by '/', then '@' and the
    mirror port. *)
Definition parameter (ps : list string) (m : string) (rest : list ascii) : list ascii :=
  join ps ++ "@"%char :: la m ++ NUL :: rest.

Lemma strchr_app l rest :
  "@"%char ∉ l -> NUL ∉ l -> strchr (l ++ "@"%char :: rest) "@" = Some (length l).
Proof.
  induction l as [|c l IH]; intros H1 H2; [done|]. apply not_elem_of_cons in H1 as [? ?], H2 as [? ?].
  cbn [app strchr]. rewrite !bool_decide_eq_false_2 by congruence. by rewrite IH.
Qed.
Lemma join_no_at ps : Forall clean ps -> "@"%char ∉ join ps.
Proof.
  assert (forall p, clean p -> "@"%char ∉ la p) as Hp.
  { intros p H Hin. unfold clean in H. rewrite Forall_forall in H. by specialize (H _ Hin). }
  induction ps as [|p [|q ps] IH]; intros H; [apply not_elem_of_nil|..].
  - apply Forall_cons in H as [H _]. by apply Hp.
  - apply Forall_cons in H as [Hc H]. cbn [join]. intros Hin.
    apply elem_of_app in Hin as [Hin|Hin]; [by eapply Hp|].
    apply elem_of_cons in Hin as [?|Hin]; [done|]. by apply IH.
Qed.

Lemma read_ports_error m ps ds e : read_ports find m ps ds = Some (inl e) -> truthy e = true.
Proof.
  revert ds. induction ps as [|p ps IH]; intros ds H; [done|]. cbn [read_ports] in H.
  case_decide; [by injection H as <-|]. destruct (find p); [|by injection H as <-].
  case_decide; [|done]. by eapply IH.
Qed.

(** What loading leaves: [None] is a write past [ports_dev]. *)
Definition load_spec (ps : list string) (m : string) (r : option (Z * mirror_st)) : Prop :=
  match read_ports find m ps [] with
  | None => r = None
  | Some (inl e) => exists s, r = Some (e, s) /\ held s = [] /\ proto_added s = false
  | Some (inr ds) =>
      match find m with
      | None => exists s, r = Some (- ENODEV, s) /\ held s = rev ds /\ proto_added s = false
      | Some d => exists s, r = Some (0, s) /\ mirror s = Some d /\ ports_dev s = port_array ds /\
          ifindex_bits s = bits_of_ports wide ds /\ held s = d :: rev ds /\ proto_added s = true /\
          sent s = [] /\ skbs s = 0
      end
  end.

Lemma option_setup_run ps m rest :
  ps <> [] -> Forall clean ps -> c_string m ->
  load_spec ps m (option_setup find wide (loaded (parameter ps m rest))).
Proof.
  intros Hne Hc Hm. unfold option_setup, fbind at 1, fget at 1. cbn [config loaded]. unfold parameter.
  rewrite strchr_app by auto using join_no_at, join_no_NUL. unfold fbind at 1, put_char. cbn [fmodify].
  pose proof (loop_ports find wide ps [] (la m ++ NUL :: rest) m []
    (S (length (join ps ++ "@"%char :: la m ++ NUL :: rest))) Hne Hc) as H.
  assert (<[length (join ps) := NUL]> (join ps ++ "@"%char :: la m ++ NUL :: rest) =
    join ps ++ NUL :: la m ++ NUL :: rest) as Ei.
  { rewrite <- (Nat.add_0_r (length (join ps))), insert_app_r. done. }
  change (set_config ?x (loaded ?y)) with (ports_set wide [] x). cbn [config loaded]. rewrite Ei.
  cbn [app length Nat.add] in H.
  assert (c_str (la m ++ NUL :: rest) = Some m) as Em.
  { rewrite c_str_app by done. by rewrite String.string_of_list_ascii_of_string. }
  specialize (H (not_elem_of_nil _)). rewrite length_app in H at 1. cbn [length] in H.
  rewrite length_app in H at 1. cbn [length] in H. specialize (H ltac:(lia) Em).
  destruct (read_ports find m ps []) as [[e|ds]|] eqn:E.
  - destruct H as (s & H & Hh & Hp & _). unfold fbind. rewrite H.
    rewrite (read_ports_error _ _ _ _ E). unfold load_spec. rewrite E. by exists s.
  - unfold fbind at 1. rewrite H. change (truthy 0) with false. cbv iota. unfold fbind at 1.
    rewrite (str_at_run _ _ m).
    2: { cbn [config ports_set]. rewrite <- Nat.add_1_r, drop_app_add. done. }
    unfold fbind at 1, dev_get_by_name, load_spec. rewrite E.
    destruct (find m) as [d|]; eexists; (split; [reflexivity|]); done.
  - unfold fbind, load_spec. by rewrite H, E.
Qed.

Lemma ainit_run ps m rest :
  ps <> [] -> Forall clean ps -> c_string m ->
  load_spec ps m (ainit_module find wide (loaded (parameter ps m rest))).
Proof.
  intros Hne Hc Hm. unfold ainit_module, fbind at 1.
  rewrite (str_at_run 0 _ (String.string_of_list_ascii (join ps ++ "@"%char :: la m))).
  2: { cbn [config loaded drop]. unfold parameter.
       replace (join ps ++ "@"%char :: la m ++ NUL :: rest) with ((join ps ++ "@"%char :: la m) ++ NUL :: rest)
         by (by rewrite <- app_assoc).
       apply c_str_app. rewrite elem_of_app, elem_of_cons. intros [?|[?|?]]; [by eapply join_no_NUL|done|done]. }
  rewrite <- length_ascii, String.list_ascii_of_string_of_list_ascii, length_app. cbn [length].
  unfold truthy. destruct (Z.eqb_spec (Z.of_nat (length (join ps) + S (length (la m)))) 0); [lia|]. cbn [negb].
  by apply option_setup_run.
Qed.
End Load.

(** ** Packets *)
Section Packets.
Context (wide : Z -> Z).

Definition index_ok (d : net_device) : Prop := 0 <= ifindex d < 32.
Lemma ifindex_bit_small d : index_ok d -> ifindex_bit wide d = 2 ^ ifindex d.
Proof.
  intros [H1 H2]. unfold ifindex_bit. rewrite (proj2 (Z.ltb_lt _ _)) by done.
  rewrite Z.shiftl_1_l. apply u32_small. split; [by apply Z.pow_nonneg|]. apply Z.pow_lt_mono_r; lia.
Qed.

(** The bits set are those of the ports, given the bit of each device. *)
Lemma testbit_ports (f : net_device -> Z) ds i :
  0 <= i -> Forall (fun d => 0 <= f d /\ ifindex_bit wide d = 2 ^ f d) ds ->
  Z.testbit (bits_of_ports wide ds) i = bool_decide (i ∈ f <$> ds).
Proof.
  intros Hi. unfold bits_of_ports.
  induction ds as [|d ds IH] using rev_ind; intros H; [by rewrite Z.testbit_0_l|].
  apply Forall_app in H as [H Hd]. apply Forall_singleton in Hd as [Hd0 Hd].
  rewrite foldl_app, fmap_app. cbn [foldl fmap list_fmap]. rewrite Z.lor_spec, IH, Hd, Z.pow2_bits_eqb by done.
  apply eq_bool_prop_intro. rewrite orb_True, !bool_decide_spec, elem_of_app, list_elem_of_singleton.
  rewrite Is_true_true, Z.eqb_eq. split; intros [?|?]; auto.
Qed.

Lemma is_ports_run ds d s :
  Forall index_ok ds -> index_ok d -> ifindex_bits s = bits_of_ports wide ds ->
  is_ports wide d s = Some (bool_decide (ifindex d ∈ ifindex <$> ds), s).
Proof.
  intros Hds Hd Hb. unfold is_ports, fbind, fget, fret. rewrite Hb, ifindex_bit_small by done.
  rewrite truthy_land_pow by apply Hd. rewrite (testbit_ports ifindex); [done|apply Hd|].
  eapply Forall_impl; [exact Hds|]. intros x Hx. split; [apply Hx|by apply ifindex_bit_small].
Qed.

(** A packet inside its memory, with the link header in front of it. *)
Definition skb_ok (k : sk_buff) : Prop :=
  0 <= skb_mac_len k <= skb_data k /\ 0 <= skb_len k /\ skb_data k + skb_len k <= Z.of_nat (length (skb_mem k)) /\
  skb_len k + skb_mac_len k < 2 ^ 32.
(** The frame: the header and the packet. *)
Definition frame (k : sk_buff) : list Z :=
  take (Z.to_nat (skb_mac_len k + skb_len k)) (drop (Z.to_nat (skb_data k - skb_mac_len k)) (skb_mem k)).

Lemma mirror_func_run ds m d k cloned s :
  Forall index_ok ds -> index_ok d -> ifindex_bits s = bits_of_ports wide ds -> mirror s = Some m -> skb_ok k ->
  mirror_func wide cloned k d s =
    Some (NET_RX_SUCCESS,
          set_skbs (skbs s - 1)
            (set_sent (sent s ++ (if bool_decide (ifindex d ∈ ifindex <$> ds) && cloned then [(m, frame k)] else [])) s)).
Proof.
  intros Hds Hd Hb Hm (H1 & H2 & H3 & H4). unfold mirror_func, fbind at 1.
  rewrite (is_ports_run ds d s) by done.
  destruct (bool_decide _); cbn [andb]; [destruct cloned|].
  - unfold fbind, fget. cbn [fmodify mirror set_skbs]. rewrite Hm.
    unfold skb_bytes. cbn [skb_mem skb_data skb_len]. rewrite u32_small by lia.
    rewrite (proj2 (Z.leb_le 0 _)), (proj2 (Z.leb_le _ (Z.of_nat _))) by lia. cbn [andb].
    unfold skb_put, fmodify, fret, frame, set_skbs, set_sent. cbn.
    rewrite (Z.add_comm (skb_len k)). do 3 f_equal. lia.
  - unfold fbind, skb_put, fmodify, fret, set_skbs, set_sent. cbn. by rewrite app_nil_r.
  - unfold fbind, skb_put, fmodify, fret, set_skbs, set_sent. cbn. by rewrite app_nil_r.
Qed.
End Packets.

(** Every device read is the one of a name that is not the mirror port's. *)
Lemma read_ports_found find m ps ds ds' x :
  read_ports find m ps ds = Some (inr ds') -> x ∈ ds' -> x ∈ ds \/ exists p, find p = Some x /\ m <> p.
Proof.
  revert ds. induction ps as [|p ps IH]; intros ds H Hx; cbn [read_ports] in H.
  - injection H as <-. by left.
  - case_decide as Hmp; [done|]. destruct (find p) as [d|] eqn:E; [|done]. case_decide; [|done].
    destruct (IH _ H Hx) as [Hin|]; [|by right]. apply elem_of_app in Hin as [|Hin]; [by left|].
    apply list_elem_of_singleton in Hin as ->. right. by exists p.
Qed.

(** ** Properties *)

(** The packets that arrive while the module is loaded. *)
Fixpoint receive (wide : Z -> Z) (l : list (bool * sk_buff * net_device)) : FM mirror_st unit :=
  match l with
  | [] => fret tt
  | (cloned, k, d) :: l => mirror_func wide cloned k d ~;; receive wide l
  end.
Definition packet_ok (p : bool * sk_buff * net_device) : Prop := skb_ok (p.1.2) /\ index_ok p.2.
(** What a packet makes the module send. *)
Definition forwards (ds : list net_device) (m : net_device) (p : bool * sk_buff * net_device) : list (net_device * list Z) :=
  if bool_decide (ifindex p.2 ∈ ifindex <$> ds) && p.1.1 then [(m, frame p.1.2)] else [].

Lemma receive_run wide ds m l s :
  Forall index_ok ds -> Forall packet_ok l -> ifindex_bits s = bits_of_ports wide ds -> mirror s = Some m ->
  receive wide l s =
    Some (tt, set_skbs (skbs s - Z.of_nat (length l)) (set_sent (sent s ++ (l ≫= forwards ds m)) s)).
Proof.
  intros Hds. revert s. induction l as [|[[c k] d] l IH]; intros s Hl Hb Hm.
  - cbn. unfold fret, set_skbs, set_sent. rewrite app_nil_r, Z.sub_0_r. by destruct s.
  - apply Forall_cons in Hl as [[Hk Hd] Hl]. cbn in Hk, Hd. cbn [receive]. unfold fbind.
    rewrite (mirror_func_run wide ds m) by done. rewrite IH by done.
    unfold set_skbs, set_sent. cbn. rewrite <- app_assoc. do 3 f_equal. lia.
Qed.

(** C14: loading with a parameter of names joined by '/' and a mirror port
    does what reading the names one by one does: a port that is the mirror
    port gives -EBUSY and one that does not exist -ENODEV, both with every
    reference given back; if all exist, the array, the bits and one
    reference per device are set and the handler is registered - but when
    the mirror port itself is missing the references of the data ports stay
    held, and with more than 32 ports the array is overrun. *)
Theorem load_refines find wide ps m rest :
  ps <> [] -> Forall clean ps -> c_string m ->
  load_spec find wide ps m (ainit_module find wide (loaded (parameter ps m rest))).
Proof. apply ainit_run. Qed.

(** C27: after a successful load, with the interface indices of the ports
    and of the packets below 32 - larger ones alias - and packets whose header
    and data lie inside their buffers, a packet received is sent to the
    mirror port exactly if it came from a configured interface and its clone
    could be allocated, in order and with its link header, and each packet
    received loses exactly the one reference the handler got. *)
Theorem packets_mirrored find wide ps m rest ds d l s :
  ps <> [] -> Forall clean ps -> c_string m ->
  read_ports find m ps [] = Some (inr ds) -> find m = Some d ->
  ainit_module find wide (loaded (parameter ps m rest)) = Some (0, s) ->
  Forall index_ok ds -> Forall packet_ok l ->
  exists s', receive wide l s = Some (tt, s') /\ sent s' = l ≫= forwards ds d /\ skbs s' = - Z.of_nat (length l) /\
    held s' = held s.
Proof.
  intros Hne Hc Hm Hr Hf Ha Hds Hl. pose proof (ainit_run find wide ps m rest Hne Hc Hm) as H.
  unfold load_spec in H. rewrite Hr, Hf, Ha in H.
  destruct H as (s0 & [= <-] & Hmi & _ & Hb & _ & _ & Hs & Hk).
  eexists. rewrite (receive_run wide ds d) by done. split; [done|].
  unfold set_skbs, set_sent. cbn. rewrite Hs, Hk. done.
Qed.

(** property: loading, any packets and unloading give back every reference on
    every device, and the handler is unregistered. *)
Theorem unload_balanced find wide ps m rest ds d l s :
  ps <> [] -> Forall clean ps -> c_string m ->
  read_ports find m ps [] = Some (inr ds) -> find m = Some d ->
  ainit_module find wide (loaded (parameter ps m rest)) = Some (0, s) ->
  Forall index_ok ds -> Forall packet_ok l ->
  exists s', fbind (receive wide l) (fun _ => acleanup_module) s = Some (tt, s') /\
    held s' = [] /\ proto_added s' = false.
Proof.
  intros Hne Hc Hm Hr Hf Ha Hds Hl. pose proof (ainit_run find wide ps m rest Hne Hc Hm) as H.
  unfold load_spec in H. rewrite Hr, Hf, Ha in H.
  destruct H as (s0 & [= <-] & Hmi & Hp & Hb & Hh & _).
  unfold fbind at 1. rewrite (receive_run wide ds d) by done.
  unfold acleanup_module, fbind at 1. cbn [fmodify]. unfold fbind at 1, fget.
  cbn [mirror set_proto set_skbs set_sent]. rewrite Hmi. unfold fbind at 1, dev_put, fbind at 1, fget.
  cbn [held set_proto set_skbs set_sent]. rewrite Hh. cbn [remove_one]. rewrite decide_True by done. cbn [fmodify].
  unfold free_ports, fbind, fget. cbn [ports_dev set_held set_proto set_skbs set_sent]. rewrite Hp.
  destruct (free_ports_loop_run (port_array ds) [] (set_held (rev ds)
    (set_proto false (set_skbs (skbs s - Z.of_nat (length l)) (set_sent (sent s ++ (l ≫= forwards ds d)) s)))))
    as (l' & Hl' & Hn).
  { cbn [held set_held]. by rewrite app_nil_r, omap_port_array, <- Permutation_rev. }
  rewrite Hl'. symmetry in Hn. apply Permutation_nil in Hn as ->. by eexists.
Qed.

(** property: no feedback: when the interfaces have different indices below 32,
    the frames the module sends, seen again on the mirror port, are not sent
    once more. *)
Theorem no_feedback find wide ps m rest ds d k cloned s :
  ps <> [] -> Forall clean ps -> c_string m ->
  read_ports find m ps [] = Some (inr ds) -> find m = Some d ->
  (forall n1 n2 d1 d2, find n1 = Some d1 -> find n2 = Some d2 -> ifindex d1 = ifindex d2 -> n1 = n2) ->
  ainit_module find wide (loaded (parameter ps m rest)) = Some (0, s) ->
  Forall index_ok ds -> index_ok d -> skb_ok k ->
  exists s', mirror_func wide cloned k d s = Some (NET_RX_SUCCESS, s') /\ sent s' = [].
Proof.
  intros Hne Hc Hm Hr Hf Hinj Ha Hds Hd Hk. pose proof (ainit_run find wide ps m rest Hne Hc Hm) as H.
  unfold load_spec in H. rewrite Hr, Hf, Ha in H.
  destruct H as (s0 & [= <-] & Hmi & _ & Hb & _ & _ & Hs & _).
  rewrite (mirror_func_run wide ds d) by done. eexists. split; [done|].
  unfold set_skbs, set_sent. cbn. rewrite Hs, bool_decide_eq_false_2; [done|].
  intros Hin. apply list_elem_of_fmap in Hin as (x & Hx & Hin).
  destruct (read_ports_found find m ps [] ds x Hr Hin) as [Hx'|(p & Hp & Hpm)]; [by apply not_elem_of_nil in Hx'|].
  apply Hpm. by eapply Hinj.
Qed.

(** property: on a machine that takes the shift modulo 32 the handler takes a
    packet for one of a data port exactly if the indices agree modulo 32: an
    interface 32 above a data port is mirrored too, and the mirror port
    itself, 32 above one, is fed its own frames. *)
Theorem index_aliases ds d s :
  let wide := fun i => Z.shiftl 1 (i mod 32) in
  Forall (fun x => 0 <= ifindex x) ds -> 0 <= ifindex d -> ifindex_bits s = bits_of_ports wide ds ->
  is_ports wide d s = Some (bool_decide (ifindex d mod 32 ∈ (fun x => ifindex x mod 32) <$> ds), s).
Proof.
  intros wide Hds Hd Hb.
  assert (forall x, 0 <= ifindex x -> ifindex_bit wide x = 2 ^ (ifindex x mod 32)) as Hbit.
  { intros x Hx. pose proof (Z.mod_pos_bound (ifindex x) 32 ltac:(lia)). unfold ifindex_bit.
    destruct (Z.ltb_spec (ifindex x) 32) as [|_]; [rewrite Z.mod_small in *|unfold wide];
      rewrite ?Z.shiftl_1_l; try lia; apply u32_small; split; (try by apply Z.pow_nonneg); apply Z.pow_lt_mono_r; lia. }
  pose proof (Z.mod_pos_bound (ifindex d) 32 ltac:(lia)).
  unfold is_ports, fbind, fget, fret. rewrite Hb, Hbit, truthy_land_pow by lia.
  rewrite (testbit_ports wide (fun x => ifindex x mod 32)); [done|lia|].
  eapply Forall_impl; [exact Hds|]. intros x Hx. split; [by apply Z.mod_pos_bound|by apply Hbit].
Qed.

(** ** A machine with three interfaces *)
Definition eth (n : string) : option net_device :=
  if bool_decide (n = "eth0") then Some (mkNet n 2)
  else if bool_decide (n = "eth1") then Some (mkNet n 3)
  else if bool_decide (n = "eth2") then Some (mkNet n 34) else None.
Definition masked (i : Z) : Z := Z.shiftl 1 (i mod 32).
Definition sample_skb : sk_buff := mkSkb [0; 1; 2; 3; 4; 5] 2 3 2.
Definition run_init (ps : list string) (m : string) : option (Z * mirror_st) :=
  ainit_module eth masked (loaded (parameter ps m [])).
Definition up : mirror_st :=
  mkMs (Some (mkNet "eth0" 2)) (port_array [mkNet "eth1" 3]) (la "eth1" ++ NUL :: la "eth0" ++ [NUL]) 8 true
    [mkNet "eth0" 2; mkNet "eth1" 3] 0 [].

Lemma cleans : Forall clean ["eth1"] /\ c_string "eth0".
Proof. split; [repeat constructor|]. apply (bool_decide_unpack _). by vm_compute. Qed.
Lemma eth_inj n1 n2 d1 d2 : eth n1 = Some d1 -> eth n2 = Some d2 -> ifindex d1 = ifindex d2 -> n1 = n2.
Proof. unfold eth. repeat case_bool_decide; intros; simplify_eq/=; done. Qed.
Lemma indices : Forall index_ok [mkNet "eth1" 3] /\ index_ok (mkNet "eth0" 2) /\ skb_ok sample_skb.
Proof. unfold index_ok, skb_ok. split; [repeat constructor; cbn; lia|]. cbn. lia. Qed.

Lemma load_refines_witness :
  exists s, run_init ["eth1"] "wlan0" = Some (- ENODEV, s) /\ held s = [mkNet "eth1" 3] /\ proto_added s = false.
Proof. apply (load_refines eth masked ["eth1"] "wlan0" []); [done|apply cleans|]. apply (bool_decide_unpack _). by vm_compute. Defined.

Lemma packets_mirrored_witness :
  exists s', receive masked [(true, sample_skb, mkNet "eth1" 3); (true, sample_skb, mkNet "eth0" 2)] up = Some (tt, s') /\
    sent s' = [(mkNet "eth0" 2, [0; 1; 2; 3; 4])] /\ skbs s' = -2 /\ held s' = [mkNet "eth0" 2; mkNet "eth1" 3].
Proof.
  apply (packets_mirrored eth masked ["eth1"] "eth0" [] [mkNet "eth1" 3] (mkNet "eth0" 2)
    [(true, sample_skb, mkNet "eth1" 3); (true, sample_skb, mkNet "eth0" 2)] up); try done;
    [apply cleans|apply cleans|apply indices|].
  repeat constructor; cbn; lia.
Defined.

Lemma unload_balanced_witness :
  exists s', fbind (receive masked [(true, sample_skb, mkNet "eth1" 3)]) (fun _ => acleanup_module) up = Some (tt, s') /\
    held s' = [] /\ proto_added s' = false.
Proof.
  apply (unload_balanced eth masked ["eth1"] "eth0" [] [mkNet "eth1" 3] (mkNet "eth0" 2)
    [(true, sample_skb, mkNet "eth1" 3)] up); try done;
    [apply cleans|apply cleans|apply indices|].
  repeat constructor; cbn; lia.
Defined.

Lemma no_feedback_witness :
  exists s', mirror_func masked true sample_skb (mkNet "eth0" 2) up = Some (NET_RX_SUCCESS, s') /\ sent s' = [].
Proof.
  apply (no_feedback eth masked ["eth1"] "eth0" [] [mkNet "eth1" 3] (mkNet "eth0" 2) sample_skb true up); try done;
    [apply cleans|apply cleans|apply eth_inj|apply indices..].
Defined.

(** With eth0 (index 2) mirrored to eth2 (index 34), eth2 counts as a data
    port. *)
Lemma index_aliases_witness : is_ports masked (mkNet "eth2" 34) (ports_set masked [mkNet "eth0" 2] []) =
  Some (true, ports_set masked [mkNet "eth0" 2] []).
Proof. apply (index_aliases [mkNet "eth0" 2] (mkNet "eth2" 34)); [|done..]. repeat constructor. cbn. lia. Defined.
