(* ===== verification/Regulator.v ===== *)
(** * Regulator sample (test_regulator)

    The service (regulator_service.c): a regulator whose operations keep one
    flag, its probe function and its module's entry point.  The client
    (regulator_client.c): a module that switches that regulator on for a
    millisecond when it is loaded.  Between them is the kernel's regulator
    core, the class [RegCore]: the client is proved against what the core
    promises ([RegLaws]), and a core that counts users over the service's
    operations keeps the promise. *)

From Stdlib Require Import ZArith.
From stdpp Require Import base list strings.
From S2P Require Import Prelude.

(** A pointer that may carry an error: [IS_ERR], [PTR_ERR]. *)
Inductive ptr := PNull | PErr (e : Z) | PDev (n : nat).
#[export] Instance ptr_eq : EqDecision ptr.
Proof. solve_decision. Defined.
Definition PTR_ERR (p : ptr) : Z := match p with PErr e => - e | _ => 0 end.
Definition nonnull (p : ptr) : bool := bool_decide (p <> PNull).

(** ** The service *)
Module Service.
Record svc := mkSvc {
  is_enabled : Z;
  rdev : ptr;                 (** [dummy_regulator_rdev] *)
  pdev : bool;                (** [dummy_pdev] is allocated *)
  added : bool;               (** it is on the platform bus *)
  driver : bool;              (** the driver is registered *)
}.
Definition svc0 : svc := mkSvc 0 PNull false false false.
Definition set_enabled v s := mkSvc v (rdev s) (pdev s) (added s) (driver s).
Definition set_rdev v s := mkSvc (is_enabled s) v (pdev s) (added s) (driver s).
Definition set_pdev v s := mkSvc (is_enabled s) (rdev s) v (added s) (driver s).
Definition set_added v s := mkSvc (is_enabled s) (rdev s) (pdev s) v (driver s).
Definition set_driver v s := mkSvc (is_enabled s) (rdev s) (pdev s) (added s) v.

Definition ab3100_enable_regulator : M svc Z := modify (set_enabled 1) ;; ret 0.
Definition ab3100_disable_regulator : M svc Z := modify (set_enabled 0) ;; ret 0.
Definition ab3100_is_enabled_regulator : M svc Z :=
  s <- get ;; ret (if truthy (is_enabled s) then 1 else 0).

(** [struct regulator_ops] *)
Record regulator_ops := mkOps { enable : M svc Z; disable : M svc Z; enabled : M svc Z }.
Definition dummy_ops : regulator_ops :=
  mkOps ab3100_enable_regulator ab3100_disable_regulator ab3100_is_enabled_regulator.

(** [registered] is what [regulator_register] returns. *)
Definition dummy_regulator_probe (registered : ptr) : M svc Z :=
  modify (set_rdev registered) ;;
  match registered with
  | PErr e => ret (PTR_ERR (PErr e))
  | _ => ret 0
  end.

(** The results of the calls into the platform bus; the driver's probe
    function is called by the registration that succeeds. *)
Definition platform_device_add (err : Z) : M svc Z :=
  (if err =? 0 then modify (set_added true) else ret tt) ;; ret err.
Definition platform_device_put : M svc unit := modify (set_pdev false).
Definition platform_device_unregister : M svc unit := modify (set_added false) ;; platform_device_put.
Definition platform_driver_register (err : Z) (registered : ptr) : M svc Z :=
  (if err =? 0 then modify (set_driver true) ;; dummy_regulator_probe registered ;; ret tt else ret tt) ;; ret err.

Definition regulator_dummy_init (alloc : bool) (add drv : Z) (registered : ptr) : M svc Z :=
  modify (set_pdev alloc) ;;
  if negb alloc then ret 0
  else
    err <- platform_device_add add ;;
    if negb (err =? 0) then platform_device_put ;; ret 0
    else
      err <- platform_driver_register drv registered ;;
      (if negb (err =? 0) then platform_device_unregister else ret tt) ;;
      ret 0.
End Service.

(** ** The client *)
Definition PMXXX_REGULATOR : string := "aabbccdd".

Class RegCore (W : Type) := {
  regulator_get : string -> M W ptr;
  regulator_enable_ : nat -> M W Z;
  regulator_disable_ : nat -> M W Z;
  regulator_put_ : nat -> M W unit;
  mdelay : Z -> M W unit;
}.

Section Client.
Context {W : Type} `{!RegCore W}.
(** The static pointer [digital] and the machine. *)
Definition CX (A : Type) : Type := FM (ptr * W) A.
Definition core {A} (m : M W A) : CX A := fun s => let '(a, w) := m s.2 in Some (a, (s.1, w)).

(** Enabling and disabling need a regulator; [regulator_put] ignores NULL and
    error pointers. *)
Definition regulator_enable (p : ptr) : CX Z := match p with PDev n => core (regulator_enable_ n) | _ => fault end.
Definition regulator_disable (p : ptr) : CX Z := match p with PDev n => core (regulator_disable_ n) | _ => fault end.
Definition regulator_put (p : ptr) : CX unit := match p with PDev n => core (regulator_put_ n) | _ => fret tt end.

Definition qfp_fuse_probe : CX Z :=
  digital <~ core (regulator_get PMXXX_REGULATOR) ;;
  fmodify (fun s => (digital, s.2)) ~;;
  if negb (nonnull digital) then fret (PTR_ERR digital)
  else
    err <~ regulator_enable digital ;;
    if negb (err =? 0) then fret (- EFAULT)
    else
      core (mdelay 1) ~;;
      err <~ regulator_disable digital ;;
      if negb (err =? 0) then fret (- EFAULT)
      else fret 0.

Definition qfp_fuse_remove : CX Z :=
  s <~ fget ;;
  (if nonnull s.1 then regulator_put s.1 else fret tt) ~;;
  fret 0.
Definition qfp_fuse_init : CX Z := qfp_fuse_probe.
Definition qfp_fuse_exit : CX unit := qfp_fuse_remove ~;; fret tt.
End Client.

(** ** What the core promises *)
Definition runs {W A} (m : M W A) (w : W) (Q : A -> W -> Prop) : Prop := Q (fst (m w)) (snd (m w)).

Class RegLaws (W : Type) `{!RegCore W} := {
  fine : W -> Prop;
  uses : W -> Z;               (** enables that were not undone *)
  handles : W -> Z;            (** regulators got and not put *)
  power : W -> Z;              (** the service's flag *)
  delays : W -> list (Z * Z);  (** the delays, and the flag while they lasted *)
  power_uses : forall w, fine w -> power w = if 0 <? uses w then 1 else 0;
  uses_nonneg : forall w, fine w -> 0 <= uses w;
  get_law : forall n w, fine w ->
    runs (regulator_get n) w (fun p w' => exists k, p = PDev k /\ fine w' /\ uses w' = uses w /\
      handles w' = handles w + 1 /\ delays w' = delays w);
  enable_law : forall k w, fine w ->
    runs (regulator_enable_ k) w (fun e w' => e = 0 /\ fine w' /\ uses w' = uses w + 1 /\
      handles w' = handles w /\ delays w' = delays w);
  disable_law : forall k w, fine w -> 0 < uses w ->
    runs (regulator_disable_ k) w (fun e w' => e = 0 /\ fine w' /\ uses w' = uses w - 1 /\
      handles w' = handles w /\ delays w' = delays w);
  put_law : forall k w, fine w ->
    runs (regulator_put_ k) w (fun _ w' => fine w' /\ uses w' = uses w /\
      handles w' = handles w - 1 /\ delays w' = delays w);
  mdelay_law : forall n w, fine w ->
    runs (mdelay n) w (fun _ w' => fine w' /\ uses w' = uses w /\ handles w' = handles w /\
      delays w' = delays w ++ [(n, power w)]);
}.

Section ClientSpec.
Context {W : Type} `{!RegCore W}.

Lemma core_eq {A B} (m : M W A) (k : A -> CX B) p w a w' :
  m w = (a, w') -> fbind (core m) k (p, w) = k a (p, w').
Proof. intros H. unfold fbind, core. cbn [snd fst]. by rewrite H. Qed.

(** The result of a call, by its law. *)
Lemma call_result {A} (m : M W A) w Q : runs m w Q -> exists a w', m w = (a, w') /\ Q a w'.
Proof. unfold runs. destruct (m w) as [a w']. by exists a, w'. Qed.

(** The part of the probe function before the regulator is used. *)
Lemma probe_get p w :
  qfp_fuse_init (p, w) =
    let '(d, w1) := regulator_get PMXXX_REGULATOR w in
    match d with
    | PNull => Some (0, (PNull, w1))
    | PErr _ => None
    | PDev k =>
        fbind (core (regulator_enable_ k)) (fun err =>
          if negb (err =? 0) then fret (- EFAULT)
          else fbind (core (mdelay 1)) (fun _ => fbind (core (regulator_disable_ k)) (fun err =>
            if negb (err =? 0) then fret (- EFAULT) else fret 0))) (PDev k, w1)
    end.
Proof.
  unfold qfp_fuse_init, qfp_fuse_probe, fbind at 1, core at 1. cbn [snd fst].
  by destruct (regulator_get PMXXX_REGULATOR w) as [[|e|k] w1].
Qed.

Lemma load_unload_run `{!RegLaws W} p w :
  fine w ->
  exists k w' w'', qfp_fuse_init (p, w) = Some (0, (PDev k, w')) /\
    uses w' = uses w /\ power w' = power w /\ handles w' = handles w + 1 /\ delays w' = delays w ++ [(1, 1)] /\
    qfp_fuse_exit (PDev k, w') = Some (tt, (PDev k, w'')) /\ handles w'' = handles w /\ power w'' = power w.
Proof.
  intros Hf. rewrite probe_get. pose proof (uses_nonneg w Hf) as Hn.
  destruct (call_result _ _ _ (get_law PMXXX_REGULATOR w Hf)) as (d & w1 & -> & k & -> & F1 & U1 & H1 & D1).
  exists k.
  destruct (call_result _ _ _ (enable_law k w1 F1)) as (e & w2 & E & -> & F2 & U2 & H2 & D2).
  rewrite (core_eq _ _ _ _ _ _ E). clear E. cbn [negb Z.eqb].
  destruct (call_result _ _ _ (mdelay_law 1 w2 F2)) as ([] & w3 & E & F3 & U3 & H3 & D3).
  rewrite (core_eq _ _ _ _ _ _ E). clear E.
  destruct (call_result _ _ _ (disable_law k w3 F3 ltac:(lia))) as (e & w4 & E & -> & F4 & U4 & H4 & D4).
  rewrite (core_eq _ _ _ _ _ _ E). clear E. cbn [negb Z.eqb].
  destruct (call_result _ _ _ (put_law k w4 F4)) as ([] & w5 & E & F5 & U5 & H5 & D5).
  exists w4, w5. split; [done|]. split; [lia|]. split; [by rewrite !power_uses, U4, U3, U2, U1, Z.add_simpl_r by done|].
  split; [lia|]. split.
  { rewrite D4, D3, D2, D1, power_uses by done. by rewrite (proj2 (Z.ltb_lt 0 (uses w2))) by lia. }
  split; [|split; [lia|by rewrite !power_uses, U5, U4, U3, U2, U1, Z.add_simpl_r by done]].
  unfold qfp_fuse_exit, qfp_fuse_remove, fbind, fget. cbn [fst].
  change (nonnull (PDev k)) with true. cbn [regulator_put]. unfold core. cbn [snd fst]. by rewrite E.
Qed.
End ClientSpec.

(** ** The core over the service *)
Module Core.
Import Service.
Record machine := mkMach { m_svc : svc; m_uses : Z; m_handles : Z; m_delays : list (Z * Z) }.
(** One of the service's operations. *)
Definition op (f : M svc Z) : M machine Z :=
  fun w => let '(e, s) := f (m_svc w) in (e, mkMach s (m_uses w) (m_handles w) (m_delays w)).
Definition add_uses (n : Z) : M machine unit :=
  modify (fun w => mkMach (m_svc w) (m_uses w + n) (m_handles w) (m_delays w)).

(** The first user enables, the last one disables. *)
#[global] Instance core_ops : RegCore machine := {|
  regulator_get _ := fun w => (PDev 0, mkMach (m_svc w) (m_uses w) (m_handles w + 1) (m_delays w));
  regulator_enable_ _ :=
    w <- get ;; e <- (if m_uses w =? 0 then op (enable dummy_ops) else ret 0) ;;
    if e =? 0 then add_uses 1 ;; ret 0 else ret e;
  regulator_disable_ _ :=
    w <- get ;; e <- (if m_uses w =? 1 then op (disable dummy_ops) else ret 0) ;;
    if e =? 0 then add_uses (-1) ;; ret 0 else ret e;
  regulator_put_ _ := modify (fun w => mkMach (m_svc w) (m_uses w) (m_handles w - 1) (m_delays w));
  mdelay n := modify (fun w =>
    mkMach (m_svc w) (m_uses w) (m_handles w) (m_delays w ++ [(n, fst (enabled dummy_ops (m_svc w)))]));
|}.

#[global] Instance core_laws : RegLaws machine.
Proof.
  refine {| fine w := 0 <= m_uses w /\ is_enabled (m_svc w) = (if 0 <? m_uses w then 1 else 0);
            uses := m_uses; handles := m_handles; delays := m_delays;
            power w := fst (enabled dummy_ops (m_svc w)) |}.
  - intros w [_ H]. cbn. rewrite H. by destruct (0 <? m_uses w).
  - by intros w [].
  - intros n w H. unfold runs. cbn. exists 0%nat. tauto.
  - intros k [s u h d] [H1 H2]. cbn in H1, H2. unfold runs. cbn.
    destruct (Z.eqb_spec u 0) as [->|]; cbn; repeat split; try done; try lia.
    rewrite H2. by rewrite !(proj2 (Z.ltb_lt 0 _)) by lia.
  - intros k [s u h d] [H1 H2] H. cbn in H1, H2, H. unfold runs. cbn.
    destruct (Z.eqb_spec u 1) as [->|]; cbn; repeat split; try done; try lia.
    rewrite H2. by rewrite !(proj2 (Z.ltb_lt 0 _)) by lia.
  - intros k w H. unfold runs. cbn. tauto.
  - intros n w H. unfold runs. cbn. tauto.
Defined.
End Core.

(** ** Properties *)

(** property: over any core that keeps its promises, loading the client
    returns 0 and leaves the regulator as it was, with one delay of a
    millisecond during which the power was on, and one regulator got;
    unloading gives the regulator back. *)
Theorem client_pulse {W} `{!RegCore W} `{!RegLaws W} p w :
  fine w ->
  exists k w' w'', qfp_fuse_init (p, w) = Some (0, (PDev k, w')) /\
    uses w' = uses w /\ power w' = power w /\ handles w' = handles w + 1 /\ delays w' = delays w ++ [(1, 1)] /\
    qfp_fuse_exit (PDev k, w') = Some (tt, (PDev k, w'')) /\ handles w'' = handles w /\ power w'' = power w.
Proof. apply load_unload_run. Qed.

(** On the core over the service, with the regulator off. *)
Lemma client_pulse_witness :
  exists k w' w'', qfp_fuse_init (PNull, Core.mkMach Service.svc0 0 0 []) = Some (0, (PDev k, w')) /\
    Core.m_uses w' = 0 /\ fst (Service.ab3100_is_enabled_regulator (Core.m_svc w')) = 0 /\ Core.m_handles w' = 1 /\
    Core.m_delays w' = [(1, 1)] /\ qfp_fuse_exit (PDev k, w') = Some (tt, (PDev k, w'')) /\
    Core.m_handles w'' = 0 /\ fst (Service.ab3100_is_enabled_regulator (Core.m_svc w'')) = 0.
Proof. apply (client_pulse (RegLaws0 := Core.core_laws) PNull (Core.mkMach Service.svc0 0 0 [])). by repeat split. Defined.

(** property: the errors of the client's probe: a NULL regulator is reported as
    success, an error pointer is used as a regulator, and when enabling
    fails the regulator got is not put back. *)
Theorem client_errors {W} `{!RegCore W} p w d w1 :
  regulator_get PMXXX_REGULATOR w = (d, w1) ->
  match d with
  | PNull => qfp_fuse_init (p, w) = Some (0, (PNull, w1))
  | PErr _ => qfp_fuse_init (p, w) = None
  | PDev k => forall e w2, regulator_enable_ k w1 = (e, w2) -> e <> 0 ->
      qfp_fuse_init (p, w) = Some (- EFAULT, (PDev k, w2))
  end.
Proof.
  intros H. rewrite probe_get, H. destruct d as [|e|k]; [done..|]. intros e w2 He Hne.
  unfold fbind, core. cbn [snd fst]. rewrite He. by rewrite (proj2 (Z.eqb_neq e 0)).
Qed.

(** A core without the regulator. *)
Definition no_core : RegCore unit := {|
  regulator_get _ := ret (PErr ENODEV); regulator_enable_ _ := ret 0; regulator_disable_ _ := ret 0;
  regulator_put_ _ := ret tt; mdelay _ := ret tt |}.
Lemma client_errors_witness : @qfp_fuse_init unit no_core (PNull, tt) = None.
Proof. apply (client_errors (RegCore0 := no_core) PNull tt (PErr ENODEV) tt). reflexivity. Defined.

(** property: the service's entry point returns 0 whatever fails; it leaves
    either nothing - no device, no driver - or the device and the driver,
    and then the regulator pointer is what the registration returned, also
    when that is an error. *)
Theorem service_all_or_nothing alloc add drv registered :
  let '(r, s) := Service.regulator_dummy_init alloc add drv registered Service.svc0 in
  r = 0 /\ s = if alloc && (add =? 0) && (drv =? 0) then Service.mkSvc 0 registered true true true else Service.svc0.
Proof.
  unfold Service.regulator_dummy_init, Service.platform_device_add, Service.platform_driver_register.
  destruct alloc; [|done]. cbn.
  destruct (add =? 0) eqn:E0; cbn; rewrite E0; cbn; [|done].
  destruct (drv =? 0) eqn:E1; [destruct registered|]; cbn; by rewrite E1.
Qed.
