(* ===== verification/TickList.v ===== *)
(** * Readers of a tick (test_list_head/test_list_head.c)

    A driver whose timer counts up a number and flags every open file, and
    whose [read] sleeps until its file is flagged: the per-file data in a
    list, the wait loop written out with its task state, the timer function,
    the two attributes that start and stop the timer, and the module's entry
    points.  Any number of tasks read any of the files; a signal stays
    pending until the task is back in user mode.

    The readers and the timer run at the same time: each is a program counter
    in the state and each action is one atomic step of one of them (the list
    is only touched under its spin lock).  An action gives the next state,
    or is not possible now, or crashes the kernel. *)

From Stdlib Require Import ZArith Ascii.
From stdpp Require Import base list gmap strings pretty.
From S2P Require Import Prelude KernelText.

(** Where a reader is in [reg_read]. *)
Inductive rpc :=
  | Outside                  (** not in [read] *)
  | Entry                    (** [if (!atomic_read(&pri->has_data))] *)
  | Enqueue                  (** [add_wait_queue] *)
  | SetState                 (** [set_current_state(TASK_INTERRUPTIBLE)] *)
  | Test                     (** the tests of the loop *)
  | Schedule                 (** [schedule()] *)
  | Clear                    (** [atomic_set(&pri->has_data, 0)] *)
  | Fetch                    (** [d = gld.data], [sprintf], [copy_to_user] *)
  | Leave (len : Z).         (** [out:] *)
#[export] Instance rpc_eq : EqDecision rpc.
Proof. solve_decision. Defined.
Inductive task_state := TASK_RUNNING | TASK_INTERRUPTIBLE.
#[export] Instance task_state_eq : EqDecision task_state.
Proof. solve_decision. Defined.

(** [struct priv_data] of an open file, with the flag of its [struct file]. *)
Record priv_data := mkF {
  has_data : bool;
  nonblock : bool;           (** [O_NONBLOCK] *)
  seen : Z;                  (** the number when the file was opened or last read *)
}.
Definition set_has_data v f := mkF v (nonblock f) (seen f).
Definition set_seen v f := mkF (has_data f) (nonblock f) v.

(** A task that reads; several may read the same file. *)
Record reader := mkR {
  pc : rpc;
  fd : nat;                  (** the file it reads, while in [read] *)
  queued : bool;             (** [has_queue]: the task is on [gld.wait] *)
  tstate : task_state;
  signal : bool;             (** a signal is pending *)
  results : list (Z * option string);   (** what [read] returned, and the text it had for the user *)
  text : option string;
}.
Definition idle : reader := mkR Outside 0 false TASK_RUNNING false [] None.
Definition set_pc v r := mkR v (fd r) (queued r) (tstate r) (signal r) (results r) (text r).
Definition set_fd v r := mkR (pc r) v (queued r) (tstate r) (signal r) (results r) (text r).
Definition set_queued v r := mkR (pc r) (fd r) v (tstate r) (signal r) (results r) (text r).
Definition set_tstate v r := mkR (pc r) (fd r) (queued r) v (signal r) (results r) (text r).
Definition set_signal v r := mkR (pc r) (fd r) (queued r) (tstate r) v (results r) (text r).
Definition set_results v r := mkR (pc r) (fd r) (queued r) (tstate r) (signal r) v (text r).
Definition set_text v r := mkR (pc r) (fd r) (queued r) (tstate r) (signal r) (results r) v.

(** Where the timer function is. *)
Inductive tpc := TIdle | TFlags | TWake | TRearm.
#[export] Instance tpc_eq : EqDecision tpc.
Proof. solve_decision. Defined.

Record world := mkW {
  data : Z;                  (** [gld.data] *)
  order : list nat;          (** [gld.list_head], by file *)
  files : gmap nat priv_data;
  readers : gmap nat reader; (** the tasks *)
  ref_cnt : Z;
  tp : tpc;
  pending : bool;            (** [my_timer] is on the kernel's list *)
  timeperiod : Z;
  stopping : nat;            (** callers inside [del_timer_sync] *)
}.
Definition world0 : world := mkW 0 [] ∅ ∅ 0 TIdle false 0 0.
Definition set_data v w := mkW v (order w) (files w) (readers w) (ref_cnt w) (tp w) (pending w) (timeperiod w) (stopping w).
Definition set_files v w := mkW (data w) (order w) v (readers w) (ref_cnt w) (tp w) (pending w) (timeperiod w) (stopping w).
Definition set_readers v w := mkW (data w) (order w) (files w) v (ref_cnt w) (tp w) (pending w) (timeperiod w) (stopping w).
Definition set_tp v w := mkW (data w) (order w) (files w) (readers w) (ref_cnt w) v (pending w) (timeperiod w) (stopping w).
Definition set_pending v w := mkW (data w) (order w) (files w) (readers w) (ref_cnt w) (tp w) v (timeperiod w) (stopping w).
Definition set_period v w := mkW (data w) (order w) (files w) (readers w) (ref_cnt w) (tp w) (pending w) v (stopping w).
Definition set_stopping v w := mkW (data w) (order w) (files w) (readers w) (ref_cnt w) (tp w) (pending w) (timeperiod w) v.

(** The outcome of an action. *)
Inductive outcome (A : Type) := Next (a : A) | Blocked | Crash.
Arguments Next {A} _.
Arguments Blocked {A}.
Arguments Crash {A}.

(** ** [reg_read] *)
(** [char str[10]] *)
Definition STR : nat := 10.

(** One step of a reader of the file [f]; [d] is [gld.data]. *)
Definition read_step (d : Z) (f : priv_data) (r : reader) : outcome (priv_data * reader) :=
  match pc r with
  | Outside => Blocked
  | Entry => Next (f, set_pc (if has_data f then Clear else Enqueue) r)
  | Enqueue => Next (f, set_pc SetState (set_queued true r))
  | SetState => Next (f, set_pc Test (set_tstate TASK_INTERRUPTIBLE r))
  | Test =>
      Next (f, set_pc (if has_data f then Clear
                       else if nonblock f then Leave 0
                       else if signal r then Leave 0
                       else Schedule) r)
  | Schedule =>
      if bool_decide (tstate r = TASK_RUNNING) || signal r then Next (f, set_pc SetState r) else Blocked
  | Clear => Next (set_has_data false f, set_pc Fetch r)
  | Fetch =>
      let str := sprintf_d d in
      if decide (S (String.length str) <= STR)%nat
      then Next (set_seen d f, set_pc (Leave (text_len str + 1)) (set_text (Some str) r))
      else Crash
  | Leave len =>
      let r := if queued r then set_queued false (set_tstate TASK_RUNNING r) else r in
      Next (f, set_pc Outside (set_text None (set_results (results r ++ [(len, text r)]) r)))
  end.

(** ** [reg_open], [release] *)
Definition reg_open (i : nat) (alloc nb : bool) (w : world) : outcome world :=
  if alloc then
    match files w !! i with
    | Some _ => Blocked
    | None =>
        Next (mkW (data w) (i :: order w) (<[i := mkF false nb (data w)]> (files w)) (readers w) (ref_cnt w + 1) (tp w)
                (pending w) (timeperiod w) (stopping w))
    end
  else Crash.                (** [list_add(&pri->list_head, ...)] with [pri] NULL *)

(** The kernel calls [release] when no system call uses the file any more. *)
Definition release (i : nat) (w : world) : outcome world :=
  match files w !! i with
  | Some _ =>
      if decide (map_Forall (fun _ r => fd r = i -> pc r = Outside) (readers w))
      then Next (mkW (data w) (filter (fun j => j <> i) (order w)) (delete i (files w)) (readers w) (ref_cnt w - 1) (tp w)
                   (pending w) (timeperiod w) (stopping w))
      else Blocked
  | None => Blocked
  end.

(** ** The timer *)
Definition set_flags (l : list nat) (m : gmap nat priv_data) : gmap nat priv_data :=
  foldl (fun m i => alter (set_has_data true) i m) m l.
Definition wake (r : reader) : reader := if queued r then set_tstate TASK_RUNNING r else r.

Definition timer_func (w : world) : outcome world :=
  match tp w with
  | TIdle =>
      if pending w then Next (set_tp TFlags (set_data (wrap 64 (data w + 1)) (set_pending false w))) else Blocked
  | TFlags => Next (set_tp TWake (set_files (set_flags (order w) (files w)) w))
  | TWake => Next (set_tp TRearm (set_readers (wake <$> readers w) w))
  | TRearm => if pending w then Crash else Next (set_tp TIdle (set_pending true w))  (** [add_timer] *)
  end.

(** ** The attributes *)
Definition sscanf_u (buf : string) : option Z :=
  let s := skip_spaces buf in if starts_digit s then Some (u32 (digits 0 s)) else None.

(** The timer is deleted if it is pending, here and when the module is
    unloaded: the test, and the call of [del_timer_sync], which waits while
    the timer function runs and then takes the timer off the list. *)
Definition stop_timer (w : world) : world := if pending w then set_stopping (S (stopping w)) w else w.
Definition del_timer_sync (w : world) : outcome world :=
  match stopping w with
  | O => Blocked
  | S n => if bool_decide (tp w = TIdle) then Next (set_stopping n (set_pending false w)) else Blocked
  end.

Definition on_show (w : world) : string := (if pending w then "true" else "false") +:+ newline.
Definition on_store (buf : string) (w : world) : world :=
  let flag := default 0 (sscanf_u buf) in
  if flag =? 1 then if negb (timeperiod w =? 0) then set_pending true w else w
  else if flag =? 0 then stop_timer w
  else w.
Definition value_store (HZ : Z) (buf : string) (w : world) : world :=
  let stime := default 0 (sscanf_u buf) in
  let mstime := u32 (stime * HZ) / 1000 in
  set_pending true (set_period mstime w).

(** ** All actions *)
Inductive action :=
  | AOpen (i : nat) (alloc nb : bool)
  | ARelease (i : nat)
  | ARead (k i : nat)         (** task [k] calls [read] on file [i] *)
  | AStep (k : nat)
  | ASignal (k : nat)
  | ADeliver (k : nat)        (** back in user mode the signal is handled *)
  | ATimer
  | AOn (buf : string)
  | ADelete                   (** a caller leaves [del_timer_sync] *)
  | AValue (buf : string)
  | AExit.                    (** the timer part of [example_exit] *)

Definition on_reader (k : nat) (w : world) : outcome world :=
  match readers w !! k with
  | None => Blocked
  | Some r =>
      match files w !! fd r with
      | None => Blocked
      | Some f => match read_step (data w) f r with
                  | Next (f', r') => Next (set_files (<[fd r := f']> (files w)) (set_readers (<[k := r']> (readers w)) w))
                  | Blocked => Blocked
                  | Crash => Crash
                  end
      end
  end.
(** The task, which may not have read before, enters [reg_read]. *)
Definition start_read (k i : nat) (w : world) : outcome world :=
  let r := default idle (readers w !! k) in
  if bool_decide (pc r = Outside) && bool_decide (is_Some (files w !! i))
  then Next (set_readers (<[k := set_fd i (set_pc Entry r)]> (readers w)) w) else Blocked.

Definition act (HZ : Z) (a : action) (w : world) : outcome world :=
  match a with
  | AOpen i alloc nb => reg_open i alloc nb w
  | ARelease i => release i w
  | ARead k i => start_read k i w
  | AStep k => on_reader k w
  | ASignal k => Next (set_readers (alter (set_signal true) k (readers w)) w)
  | ADeliver k =>
      if bool_decide (pc (default idle (readers w !! k)) = Outside)
      then Next (set_readers (alter (set_signal false) k (readers w)) w) else Blocked
  | ATimer => timer_func w
  | AOn buf => Next (on_store buf w)
  | ADelete => del_timer_sync w
  | AValue buf => Next (value_store HZ buf w)
  | AExit => Next (stop_timer w)
  end.

Fixpoint exec (HZ : Z) (l : list action) (w : world) : outcome world :=
  match l with
  | [] => Next w
  | a :: l => match act HZ a w with Next w => exec HZ l w | o => o end
  end.

Inductive reach (HZ : Z) : world -> Prop :=
  | reach0 : reach HZ world0
  | reach_step w a w' : reach HZ w -> act HZ a w = Next w' -> reach HZ w'.

(** ** Loading and unloading *)
Module Init.
(** The objects of the module. *)
Inductive obj := TimerClass | TestDev | AttrGroup | Region | Cdev | HousirClass | HousirDev.
#[global] Instance obj_eq : EqDecision obj.
Proof. solve_decision. Defined.

(** The results of the calls that can fail; what the code does not test is
    taken to succeed.  The state is the objects that exist. *)
Definition example_init (group region : Z) (class : Z) (s : list obj) : Z * list obj :=
  let s := TestDev :: TimerClass :: s in
  let retval := group in
  let s := if group =? 0 then AttrGroup :: s else s in
  if region <? 0 then (region, s)
  else
    let s := Cdev :: Region :: s in
    if class <? 0 then (class, filter (fun o => o <> Region) s)
    else (retval, HousirDev :: HousirClass :: s).

(** [device_del] takes the attributes of the device with it. *)
Definition example_exit (s : list obj) : list obj :=
  filter (fun o => o ∉ [TestDev; AttrGroup; TimerClass; HousirDev; HousirClass; Cdev; Region]) s.
End Init.
