(* ===== verification/TickListSpec.v ===== *)
(** * Readers of a tick: nothing is missed

    Over every interleaving of tasks, timer and attributes: no reader
    sleeps on a file that has data, a file without the flag has been read at
    the latest number, the reference count is the number of open files; a
    sleeping reader returns with the next tick's number.  And what goes
    wrong: error codes that are lost, a text buffer of ten characters, and
    the timer that is armed twice or in spite of having been stopped. *)

From Stdlib Require Import ZArith Ascii.
From stdpp Require Import base list gmap strings pretty.
From S2P Require Import Prelude KernelText TickList.

(** ** The invariant *)
(** A task, given the timer's position and the files. *)
Record reader_ok (t : tpc) (fs : gmap nat priv_data) (r : reader) : Prop := {
  (** on the wait queue exactly inside the loop *)
  ok_queued : match pc r with
              | Outside | Entry | Enqueue => queued r = false
              | SetState | Test | Schedule => queued r = true
              | Clear | Fetch | Leave _ => True
              end;
  ok_running : queued r = false -> tstate r = TASK_RUNNING;
  ok_text : match pc r with Leave _ => True | _ => text r = None end;
  ok_file : pc r <> Outside -> is_Some (fs !! fd r);
  (** no lost wake-up: a sleeper with data is about to be woken *)
  ok_wake : forall f, pc r = Schedule -> tstate r = TASK_INTERRUPTIBLE -> fs !! fd r = Some f ->
            has_data f = true -> t = TWake;
}.

(** No task is about to fetch the number for the file. *)
Definition settled (rs : gmap nat reader) (i : nat) : Prop :=
  forall k r, rs !! k = Some r -> fd r = i -> pc r <> Fetch.
(** A file without the flag is up to date. *)
Definition file_ok (w : world) (i : nat) (f : priv_data) : Prop :=
  has_data f = false -> settled (readers w) i -> tp w <> TFlags -> seen f = data w.

Record world_ok (w : world) : Prop := {
  ok_order : NoDup (order w);
  ok_files : forall i, i ∈ order w <-> is_Some (files w !! i);
  ok_data : 0 <= data w;
  ok_count : ref_cnt w = Z.of_nat (length (order w));
  ok_readers : map_Forall (fun _ r => reader_ok (tp w) (files w) r) (readers w);
  ok_seen : map_Forall (file_ok w) (files w);
}.

(** The file map may change as long as files stay and flags are set only
    with [TWake] ahead. *)
Lemma reader_ok_files t fs fs' r :
  (forall i f', fs' !! i = Some f' -> exists f, fs !! i = Some f /\ (has_data f' = true -> has_data f = true)) ->
  (pc r <> Outside -> is_Some (fs' !! fd r)) -> reader_ok t fs r -> reader_ok t fs' r.
Proof.
  intros H Hf [Hq Hr Ht Hfi Hw]. split; try done.
  intros f' Hp Hts Hl Hd. destruct (H _ _ Hl) as (f & Hl' & Hd'). eauto.
Qed.

(** A step of a reader: the file keeps its place, the flag is not set. *)
Lemma read_step_flag d f r f' r' : read_step d f r = Next (f', r') -> fd r' = fd r /\ (has_data f' = true -> has_data f = true).
Proof.
  unfold read_step. destruct r as [p i q ts sg rs tx]. destruct p; cbn; intros H; repeat case_match; simplify_eq/=; (split; [done|congruence || done]).
Qed.
Lemma read_step_ok t d fs f r f' r' :
  fs !! fd r = Some f -> reader_ok t fs r -> read_step d f r = Next (f', r') -> reader_ok t (<[fd r := f']> fs) r'.
Proof.
  intros Hl [Hq Hr Htx Hfi Hw]. unfold read_step. destruct r as [p i q ts sg rs tx], f as [hd nb sn]. cbn in *.
  destruct p; intros H; try done; repeat case_match; simplify_eq;
    (split; cbn; [try done..| | |]); try done; try (by rewrite lookup_insert_eq; eexists);
    try (intros ?; rewrite lookup_insert_eq); intros; simplify_eq; try naive_solver.
Qed.
(** It leaves the file up to date when it was, or is about to fetch. *)
Lemma read_step_seen d f r f' r' :
  read_step d f r = Next (f', r') -> pc r' <> Fetch -> has_data f' = false ->
  seen f' = d \/ (pc r <> Fetch /\ f' = f).
Proof.
  unfold read_step. destruct r as [p i q ts sg rs tx], f as [hd nb sn]. destruct p; cbn; intros H Hp Hh;
    repeat case_match; simplify_eq; auto; try (by right; split).
Qed.

Lemma lookup_set_flags l m i :
  set_flags l m !! i = (if decide (i ∈ l) then set_has_data true <$> m !! i else m !! i).
Proof.
  revert m. induction l as [|j l IH]; intros m; [done|]. cbn [set_flags foldl]. fold (set_flags l).
  change (foldl (fun m i => alter (set_has_data true) i m) ?x l) with (set_flags l x). rewrite IH.
  destruct (decide (i = j)) as [->|Hne].
  - rewrite lookup_alter_eq. rewrite (decide_True (P := j ∈ j :: l)) by apply list_elem_of_here.
    case_decide; [|done]. by destruct (m !! j).
  - rewrite lookup_alter_ne by done. destruct (decide (i ∈ l)).
    + by rewrite decide_True by (by apply list_elem_of_further).
    + rewrite decide_False; [done|]. rewrite elem_of_cons. tauto.
Qed.

(** With the invariant every file is flagged. *)
Lemma set_flags_all w : world_ok w -> set_flags (order w) (files w) = set_has_data true <$> files w.
Proof.
  intros H. apply map_eq. intros i. rewrite lookup_set_flags, lookup_fmap. case_decide as Hi; [done|].
  destruct (files w !! i) eqn:E; [|done]. destruct Hi. apply (ok_files w H). by eexists.
Qed.

Lemma wake_ok fs r : reader_ok TWake fs r -> reader_ok TRearm fs (wake r).
Proof.
  intros [Hq Hr Htx Hf Hw]. destruct r as [p i q ts sg rs tx]. unfold wake. cbn in *.
  destruct q; split; cbn; try done; destruct p; naive_solver.
Qed.
Lemma settled_wake rs i : settled (wake <$> rs) i -> settled rs i.
Proof.
  intros H k r Hk Hi. specialize (H k (wake r)). rewrite lookup_fmap, Hk in H. specialize (H eq_refl).
  unfold wake in H. destruct (queued r); by apply H.
Qed.

Lemma timer_ok w w' : world_ok w -> timer_func w = Next w' -> world_ok w'.
Proof.
  intros H E. pose proof H as [Ho Hf Hd Hc Hr Hs]. unfold timer_func in E. destruct (tp w) eqn:T.
  - destruct (pending w); [|done]. injection E as <-. split; cbn; try done; [by apply wrap_range| |by intros ? ? ? ? ?].
    eapply map_Forall_impl; [exact Hr|]. intros k r [? ? ? ? Hw]. split; try done.
    intros f ? ? ? ?. by specialize (Hw f ltac:(done) ltac:(done) ltac:(done) ltac:(done)).
  - injection E as <-. split; cbn; try done; rewrite set_flags_all by done.
    + intros i. by rewrite lookup_fmap, fmap_is_Some.
    + eapply map_Forall_impl; [exact Hr|]. intros k r [? ? ? Hfi ?]. split; try done.
      intros Hp. by rewrite lookup_fmap, fmap_is_Some; auto.
    + intros i f Hi. rewrite lookup_fmap in Hi. destruct (files w !! i); [|done]. injection Hi as <-. by intros ?.
  - injection E as <-. split; cbn; try done.
    + intros k r Hk. rewrite lookup_fmap in Hk. destruct (readers w !! k) as [r0|] eqn:E0; [|done].
      injection Hk as <-. apply wake_ok. by eapply Hr.
    + intros i f Hi ? Hse _. apply (Hs i f Hi); [done|by apply settled_wake|by rewrite T].
  - destruct (pending w); [done|]. injection E as <-. split; cbn; try done.
    + eapply map_Forall_impl; [exact Hr|]. intros k r [? ? ? ? Hw]. split; try done.
      intros f ? ? ? ?. by specialize (Hw f ltac:(done) ltac:(done) ltac:(done) ltac:(done)).
    + intros i f Hi ? ? _. apply (Hs i f Hi); [done|done|by rewrite T].
Qed.

(** A change of tasks alone, none of which comes from fetching. *)
Lemma readers_ok w rs :
  world_ok w -> map_Forall (fun _ r => reader_ok (tp w) (files w) r) rs ->
  (forall i, settled rs i -> settled (readers w) i) -> world_ok (set_readers rs w).
Proof.
  intros [Ho Hf Hd Hc Hr Hs] Hrs Hse. split; try done. intros i f Hi ? ? ?. apply (Hs i f Hi); auto.
Qed.
Lemma settled_alter g k rs i :
  (forall r, fd (g r) = fd r /\ pc (g r) = pc r) -> settled (alter g k rs) i -> settled rs i.
Proof.
  intros Hg H j r Hj Hi. destruct (decide (k = j)) as [->|].
  - specialize (H j (g r)). rewrite lookup_alter_eq, Hj in H. destruct (Hg r) as [E1 E2]. rewrite <- E2. apply (H eq_refl). congruence.
  - apply (H j r); [by rewrite lookup_alter_ne|done].
Qed.
Lemma signal_ok v k w : world_ok w -> world_ok (set_readers (alter (set_signal v) k (readers w)) w).
Proof.
  intros H. pose proof H as [Ho Hf Hd Hc Hr Hs]. apply readers_ok; [done| |].
  - intros j r Hj. destruct (decide (k = j)) as [->|].
    + rewrite lookup_alter_eq in Hj. destruct (readers w !! j) as [r0|] eqn:E; [|done]. injection Hj as <-.
      destruct (Hr _ _ E) as [? ? ? ? ?]. by split.
    + rewrite lookup_alter_ne in Hj by done. by eapply Hr.
  - intros i. by apply settled_alter.
Qed.

Lemma start_read_ok k i w w' : world_ok w -> start_read k i w = Next w' -> world_ok w'.
Proof.
  intros H E. unfold start_read in E. cbv zeta in E. case_bool_decide as Hp; [|done]. case_bool_decide as Hf; [|done].
  injection E as <-. apply readers_ok; [done| |].
  - apply map_Forall_insert_2; [|apply (ok_readers w H)].
    destruct (readers w !! k) as [r|] eqn:Ek; cbn [default from_option id] in *; [|by split].
    destruct (ok_readers w H _ _ Ek) as [Hq ? Htx ? ?]. rewrite Hp in Hq, Htx. by split.
  - intros j Hse k' r Hk Hj. destruct (decide (k = k')) as [->|]; [|apply (Hse k' r); [by rewrite lookup_insert_ne|done]].
    rewrite Hk in Hp. cbn in Hp. by rewrite Hp.
Qed.

Lemma on_reader_ok k w w' : world_ok w -> on_reader k w = Next w' -> world_ok w'.
Proof.
  intros H E. pose proof H as [Ho Hf Hd Hc Hr Hs]. unfold on_reader in E.
  destruct (readers w !! k) as [r|] eqn:Ek; [|done]. destruct (files w !! fd r) as [f|] eqn:Ef; [|done].
  destruct (read_step (data w) f r) as [[f' r']| |] eqn:Es; [|done..]. injection E as <-.
  destruct (read_step_flag _ _ _ _ _ Es) as [Hfd Hfl]. split; cbn; try done.
  - intros i. rewrite Hf. destruct (decide (fd r = i)) as [<-|]; [|by rewrite lookup_insert_ne].
    rewrite lookup_insert_eq, Ef. by split; eexists.
  - apply map_Forall_insert_2; [by eapply read_step_ok; [..|apply (Hr _ _ Ek)|]|].
    eapply map_Forall_impl; [exact Hr|]. intros k' r0 Hok. apply (reader_ok_files _ (files w)); [| |done].
    + intros i f0 Hi. destruct (decide (fd r = i)) as [<-|].
      * rewrite lookup_insert_eq in Hi. injection Hi as <-. by exists f.
      * rewrite lookup_insert_ne in Hi by done. by exists f0.
    + intros Hp. destruct (decide (fd r = fd r0)) as [<-|]; [by rewrite lookup_insert_eq|].
      rewrite lookup_insert_ne by done. by apply (ok_file _ _ _ Hok).
  - intros i f0 Hi Hh Hse Ht. cbn in Hse, Ht. destruct (decide (fd r = i)) as [<-|Hne].
    + rewrite lookup_insert_eq in Hi. injection Hi as <-.
      assert (pc r' <> Fetch) as Hp by (apply (Hse k r'); [apply lookup_insert_eq|done]).
      destruct (read_step_seen _ _ _ _ _ Es Hp Hh) as [|[Hp0 ->]]; [done|].
      apply (Hs _ _ Ef Hh); [|done]. intros k' r0 Hk' Hi'. destruct (decide (k = k')) as [->|]; [congruence|].
      apply (Hse k' r0); [by rewrite lookup_insert_ne|done].
    + rewrite lookup_insert_ne in Hi by done. apply (Hs _ _ Hi Hh); [|done]. intros k' r0 Hk' Hi'.
      destruct (decide (k = k')) as [->|]; [congruence|]. apply (Hse k' r0); [by rewrite lookup_insert_ne|done].
Qed.

Lemma length_filter_ne (i : nat) l : NoDup l -> i ∈ l -> length l = S (length (filter (fun j => j <> i) l)).
Proof.
  induction l as [|j l IH]; intros Hn Hi; [by apply not_elem_of_nil in Hi|]. apply NoDup_cons in Hn as [Hj Hn].
  destruct (decide (j = i)) as [->|Hne].
  - rewrite filter_cons_False by tauto. cbn. f_equal.
    assert (filter (fun j => j <> i) l = l) as ->; [|done]. clear IH Hi Hn.
    induction l as [|k l IH]; [done|]. apply not_elem_of_cons in Hj as [? ?].
    rewrite filter_cons_True by congruence. by rewrite IH.
  - rewrite filter_cons_True by done. apply elem_of_cons in Hi as [|Hi]; [congruence|]. cbn. by rewrite IH.
Qed.

Lemma open_ok i alloc nb w w' : world_ok w -> reg_open i alloc nb w = Next w' -> world_ok w'.
Proof.
  intros [Ho Hf Hd Hc Hr Hs] E. unfold reg_open in E. destruct alloc; [|done].
  destruct (files w !! i) eqn:Ei; [done|]. injection E as <-.
  assert (i ∉ order w) by (rewrite Hf, Ei; by intros []). split; cbn; [by apply NoDup_cons| |done|lia| |].
  - intros j. rewrite elem_of_cons, Hf. destruct (decide (i = j)) as [->|].
    + rewrite lookup_insert_eq. split; [by eexists|auto].
    + rewrite lookup_insert_ne by done. split; [intros [?|?]; [congruence|done]|auto].
  - eapply map_Forall_impl; [exact Hr|]. intros k r [Hq Hru Htx Hfi Hw]. split; try done.
    + intros Hp. destruct (decide (i = fd r)) as [->|]; [by rewrite lookup_insert_eq|].
      rewrite lookup_insert_ne by done. auto.
    + intros f Hp Hts Hl Hh. destruct (decide (i = fd r)) as [->|]; [by rewrite lookup_insert_eq in Hl; simplify_eq/=|].
      rewrite lookup_insert_ne in Hl by done. eauto.
  - apply map_Forall_insert_2; [by intros ? ? ?|done].
Qed.
Lemma release_ok i w w' : world_ok w -> release i w = Next w' -> world_ok w'.
Proof.
  intros [Ho Hf Hd Hc Hr Hs] E. unfold release in E. destruct (files w !! i) as [f|] eqn:Ei; [|done].
  case_decide as Hout; [|done]. injection E as <-. assert (i ∈ order w) as Hi by (apply Hf; by eexists).
  split; cbn; [by apply NoDup_filter| |done|rewrite Hc, (length_filter_ne i) by done; lia| |].
  - intros j. rewrite list_elem_of_filter, Hf. destruct (decide (i = j)) as [->|].
    + rewrite lookup_delete_eq. split; [by intros []|by intros []].
    + rewrite lookup_delete_ne by done. split; [by intros []|]. intros. split; [congruence|done].
  - intros k r Hk. destruct (Hr _ _ Hk) as [Hq Hru Htx Hfi Hw]. split; try done.
    + intros Hp. destruct (decide (i = fd r)) as [Hfd|]; [by specialize (Hout _ _ Hk (eq_sym Hfd))|].
      rewrite lookup_delete_ne by done. auto.
    + intros f0 Hp Hts Hl Hh. apply lookup_delete_Some in Hl as [_ Hl]. eauto.
  - intros j f0 Hj. apply lookup_delete_Some in Hj as [_ Hj]. by apply Hs.
Qed.

Lemma act_ok HZ a w w' : world_ok w -> act HZ a w = Next w' -> world_ok w'.
Proof.
  intros H E. destruct a; cbn [act] in E; eauto using open_ok, release_ok, start_read_ok, on_reader_ok, timer_ok.
  - injection E as <-. by apply signal_ok.
  - case_bool_decide; [|done]. injection E as <-. by apply signal_ok.
  - injection E as <-. destruct H. unfold on_store, stop_timer. repeat case_match; by split.
  - unfold del_timer_sync in E. destruct (stopping w); [done|]. case_bool_decide; [|done]. injection E as <-. destruct H. by split.
  - injection E as <-. destruct H. by split.
  - injection E as <-. destruct H. unfold stop_timer. case_match; by split.
Qed.

Lemma world0_ok : world_ok world0.
Proof.
  split; cbn; [constructor| |done|done|apply map_Forall_empty..].
  intros i. rewrite lookup_empty. split; [by intros ?%not_elem_of_nil|by intros []].
Qed.
Lemma reach_ok HZ w : reach HZ w -> world_ok w.
Proof. induction 1 as [|w a w' _ IH E]; [apply world0_ok|by eapply act_ok]. Qed.

(** ** The length of the text *)
Lemma pretty_go_below k x s :
  (x < 10 ^ N.of_nat k)%N -> (String.length (pretty_N_go x s) <= k + String.length s)%nat.
Proof.
  revert x s. induction k as [|k IH]; intros x s H.
  - assert (x = 0%N) as -> by (cbn in H; lia). by rewrite pretty_N_go_0.
  - destruct (N.eq_dec x 0%N) as [->|Hx]; [rewrite pretty_N_go_0; lia|].
    rewrite pretty_N_go_step by lia. rewrite Nat2N.inj_succ, N.pow_succ_r' in H.
    rewrite IH; [cbn; lia|]. apply N.Div0.div_lt_upper_bound. lia.
Qed.
Lemma pretty_go_above k x s :
  (10 ^ N.of_nat k <= x)%N -> (S k + String.length s <= String.length (pretty_N_go x s))%nat.
Proof.
  revert x s. induction k as [|k IH]; intros x s H.
  - rewrite pretty_N_go_step by (cbn in H; lia).
    assert (forall x s, String.length s <= String.length (pretty_N_go x s))%nat as G.
    { clear. intros x. induction (N.lt_wf_0 x) as [x _ IH]. intros s.
      destruct (N.eq_dec x 0%N) as [->|Hx]; [by rewrite pretty_N_go_0|]. rewrite pretty_N_go_step by lia.
      etransitivity; [|apply IH]; [cbn; lia|]. apply N.div_lt; lia. }
    etransitivity; [|apply G]. done.
  - rewrite Nat2N.inj_succ, N.pow_succ_r' in H. pose proof (N.pow_nonzero 10 (N.of_nat k)).
    rewrite pretty_N_go_step by lia. etransitivity; [|apply IH].
    + cbn. lia.
    + apply N.div_le_lower_bound; lia.
Qed.

Lemma length_append s t : String.length (s +:+ t) = (String.length s + String.length t)%nat.
Proof. induction s as [|c s IH]; [done|]. exact (f_equal S IH). Qed.

(** The text fits the buffer exactly for numbers of at most eight digits. *)
Lemma text_fits d : 0 <= d -> (S (String.length (sprintf_d d)) <= STR)%nat <-> d < 10 ^ 8.
Proof.
  intros Hd. unfold sprintf_d. rewrite length_append. change (String.length newline) with 1%nat. unfold STR.
  destruct d as [|p|p]; [cbn; lia| |lia]. change (pretty (Z.pos p)) with (pretty_N_go (N.pos p) "").
  change (10 ^ 8) with (Z.of_N (10 ^ N.of_nat 8)).
  split; intros H.
  - destruct (N.lt_ge_cases (N.pos p) (10 ^ N.of_nat 8)) as [|G]; [lia|].
    pose proof (pretty_go_above 8 _ "" G). cbn [String.length] in *. lia.
  - pose proof (pretty_go_below 8 (N.pos p) ""). cbn [String.length] in *. lia.
Qed.

(** ** Runs of one reader *)
Fixpoint run_reader (n : nat) (d : Z) (f : priv_data) (r : reader) : outcome (priv_data * reader) :=
  match n with
  | O => Next (f, r)
  | S n => match read_step d f r with Next (f, r) => run_reader n d f r | Blocked => Blocked | Crash => Crash end
  end.
Lemma exec_reader HZ n k w f r f' r' :
  readers w !! k = Some r -> files w !! fd r = Some f -> run_reader n (data w) f r = Next (f', r') ->
  exec HZ (replicate n (AStep k)) w =
    Next (set_files (<[fd r := f']> (files w)) (set_readers (<[k := r']> (readers w)) w)).
Proof.
  revert w f r. induction n as [|n IH]; intros w f r Ek Ef H; cbn [replicate exec run_reader] in *.
  - injection H as -> ->. rewrite !insert_id by done. by destruct w.
  - cbn [act]. unfold on_reader. rewrite Ek, Ef.
    destruct (read_step (data w) f r) as [[f1 r1]| |] eqn:Es; [|done..].
    destruct (read_step_flag _ _ _ _ _ Es) as [Hfd _].
    rewrite (IH _ f1 r1); [|apply lookup_insert_eq|rewrite Hfd; apply lookup_insert_eq|done].
    cbn. rewrite Hfd. by rewrite !insert_insert_eq.
Qed.
Lemma exec_app HZ l1 l2 w w1 : exec HZ l1 w = Next w1 -> exec HZ (l1 ++ l2) w = exec HZ l2 w1.
Proof.
  revert w. induction l1 as [|a l1 IH]; intros w H; cbn [exec app] in *; [by injection H as ->|].
  destruct (act HZ a w); [by apply IH|done..].
Qed.

(** A reader that sleeps. *)
Definition asleep (r : reader) : Prop := pc r = Schedule /\ tstate r = TASK_INTERRUPTIBLE /\ signal r = false.

(** The steps from the wake-up to the return. *)
Lemma run_woken d f r :
  pc r = Schedule -> has_data f = true -> tstate r = TASK_RUNNING -> queued r = true -> 0 <= d < 10 ^ 8 ->
  exists f' r', run_reader 6 d f r = Next (f', r') /\ pc r' = Outside /\ has_data f' = false /\ seen f' = d /\
    results r' = results r ++ [(text_len (sprintf_d d) + 1, Some (sprintf_d d))].
Proof.
  intros Hp Hh Ht Hq Hd. destruct r as [p i q ts sg rs tx], f as [hd nb sn]. cbn in *. subst. unfold run_reader.
  unfold read_step. cbn [pc set_pc has_data queued tstate signal set_tstate set_has_data].
  rewrite bool_decide_eq_true_2 by done. cbn [orb pc set_pc has_data queued tstate signal set_tstate set_has_data].
  rewrite decide_True by (apply text_fits; lia). eexists _, _. done.
Qed.

Lemma timer_three HZ w :
  tp w = TIdle -> pending w = true -> world_ok w ->
  exec HZ [ATimer; ATimer; ATimer] w =
    Next (mkW (wrap 64 (data w + 1)) (order w) (set_has_data true <$> files w) (wake <$> readers w) (ref_cnt w) TRearm false
            (timeperiod w) (stopping w)).
Proof.
  intros T P H. cbn [exec act]. unfold timer_func at 1. rewrite T, P. by rewrite <- (set_flags_all w H).
Qed.

(** ** Properties *)

(** C13: over every interleaving of opens, releases, reads by any number
    of tasks on any files, signals, timer interrupts and writes to the
    attributes: a reader that sleeps although its file has data is about to
    be woken (no wake-up is lost); a file whose flag is clear was last read
    at the current number, except while a read of it or a tick is half done;
    and the reference count is the number of open files. *)
Theorem nothing_missed HZ w :
  reach HZ w ->
  (forall k r f, readers w !! k = Some r -> asleep r -> files w !! fd r = Some f -> has_data f = true -> tp w = TWake) /\
  (forall i f, files w !! i = Some f -> has_data f = false ->
     (forall k r, readers w !! k = Some r -> fd r = i -> pc r <> Fetch) -> tp w <> TFlags -> seen f = data w) /\
  ref_cnt w = Z.of_nat (size (files w)).
Proof.
  intros Hw. apply reach_ok in Hw as [Ho Hf Hd Hc Hr Hs].
  split; [intros k r f Hk (? & ? & _) Hl Hh; by eapply (ok_wake _ _ _ (Hr _ _ Hk))|].
  split; [intros i f Hi Hh Hse Ht; by apply (Hs i f Hi)|]. rewrite Hc. f_equal.
  rewrite <- (size_list_to_set (C := gset nat)) by done. rewrite <- (size_dom (D := gset nat)). f_equal.
  apply set_eq. intros j. rewrite elem_of_list_to_set, elem_of_dom. apply Hf.
Qed.

(** C35: liveness, for the schedule in which the timer function runs up to
    its re-arming and then a sleeping reader is left to run: it takes six
    steps and returns the new number as text, with its length, the
    terminating NUL included.  The number has at most eight digits; with
    more the text overruns its buffer. *)
Theorem tick_wakes_reader HZ w k r :
  reach HZ w -> readers w !! k = Some r -> asleep r -> tp w = TIdle -> pending w = true -> data w + 1 < 10 ^ 8 ->
  exists w' f' r', exec HZ ([ATimer; ATimer; ATimer] ++ replicate 6 (AStep k)) w = Next w' /\
    readers w' !! k = Some r' /\ files w' !! fd r = Some f' /\ pc r' = Outside /\ seen f' = data w + 1 /\
    results r' = results r ++ [(text_len (sprintf_d (data w + 1)) + 1, Some (sprintf_d (data w + 1)))].
Proof.
  intros Hw Hk (Hp & Ht & Hsg) T P Hlt. apply reach_ok in Hw as Hok. pose proof Hok as [_ _ Hd _ Hr _].
  destruct (Hr _ _ Hk) as [Hq _ _ Hf _]. rewrite Hp in Hq. destruct Hf as [f Hf]; [by rewrite Hp|].
  rewrite (exec_app _ _ _ _ _ (timer_three HZ w T P Hok)). rewrite wrap_small by lia.
  assert (wake r = set_tstate TASK_RUNNING r) as Hwk by (unfold wake; by rewrite Hq).
  destruct (run_woken (data w + 1) (set_has_data true f) (set_tstate TASK_RUNNING r))
    as (f' & r' & Hrun & Hpc & _ & Hs & Hres); [done..|lia|].
  eexists. exists f', r'. split; [apply (exec_reader _ _ _ _ (set_has_data true f) (wake r)); cbn|].
  - by rewrite lookup_fmap, Hk.
  - rewrite Hwk. cbn. by rewrite lookup_fmap, Hf.
  - by rewrite Hwk.
  - cbn. rewrite Hwk. cbn. rewrite !lookup_insert_eq. done.
Qed.

(** property: a read that finds nothing returns 0, the end of the file,
    instead of -EAGAIN or -ERESTARTSYS: without blocking when the file is
    opened so, and when a signal is pending. *)
Theorem read_errors_lost HZ w k i f r :
  reach HZ w -> files w !! i = Some f -> readers w !! k = Some r -> pc r = Outside -> has_data f = false ->
  nonblock f || signal r = true ->
  exists w' r', exec HZ (ARead k i :: replicate 5 (AStep k)) w = Next w' /\ readers w' !! k = Some r' /\
    pc r' = Outside /\ results r' = results r ++ [(0, None)] /\ tstate r' = TASK_RUNNING /\ queued r' = false.
Proof.
  intros Hw Hi Hk Hp Hh Hn. cbn [exec act]. unfold start_read. rewrite Hk. cbn [default from_option id].
  rewrite !bool_decide_eq_true_2 by (done || by eexists). cbn [andb].
  apply reach_ok in Hw as [_ _ _ _ Hr _]. destruct (Hr _ _ Hk) as [Hq Hru Htx _ _]. rewrite Hp in Hq, Htx.
  assert (exists r', run_reader 5 (data w) f (set_fd i (set_pc Entry r)) = Next (f, r') /\ pc r' = Outside /\
    results r' = results r ++ [(0, None)] /\ tstate r' = TASK_RUNNING /\ queued r' = false) as (r' & Hrun & H).
  { destruct r as [p j q ts sg rs tx], f as [hd nb sn]. cbn in *. subst. destruct nb, sg; try done; eexists; done. }
  eexists. exists r'. split; [|split; [|exact H]].
  - apply (exec_reader _ _ _ (set_readers _ w) f (set_fd i (set_pc Entry r))); [apply lookup_insert_eq|done|done].
  - apply lookup_insert_eq.
Qed.

(** property: the text is written to ten characters: the step that writes it
    crashes exactly when the number has nine digits or more. *)
Theorem fetch_overflow HZ w k r :
  reach HZ w -> readers w !! k = Some r -> pc r = Fetch -> act HZ (AStep k) w = Crash <-> 10 ^ 8 <= data w.
Proof.
  intros Hw Hk Hp. apply reach_ok in Hw as [_ _ Hd _ Hr _]. cbn [act]. unfold on_reader, read_step.
  destruct (ok_file _ _ _ (Hr _ _ Hk)) as [f Hf]; [by rewrite Hp|]. rewrite Hk, Hf, Hp. pose proof (text_fits (data w) Hd). case_decide; split; try done; lia.
Qed.

(** property: the timer function re-arms the timer itself: a write to the
    attribute while it runs arms it twice, which the kernel does not allow;
    stopping it while it runs, by the attribute or by unloading, has no
    effect, since it is not pending; stopping it otherwise waits for the
    function if it has started meanwhile, and stops the ticks. *)
Theorem timer_races HZ w stop buf :
  tp w = TIdle -> pending w = true -> reach HZ w -> stop = AOn "0" \/ stop = AExit ->
  exec HZ ([ATimer; ATimer; ATimer] ++ [AValue buf; ATimer]) w = Crash /\
  (exists w', exec HZ ([ATimer; ATimer; ATimer] ++ [stop; ATimer]) w = Next w' /\ pending w' = true /\ tp w' = TIdle /\
     stopping w' = stopping w) /\
  exec HZ [stop; ATimer; ADelete] w = Blocked /\
  (exists w', exec HZ [stop; ADelete] w = Next w' /\ act HZ ATimer w' = Blocked) /\
  (exists w', exec HZ ([stop] ++ replicate 4 ATimer ++ [ADelete]) w = Next w' /\ act HZ ATimer w' = Blocked).
Proof.
  intros T P Hw Hs. apply reach_ok in Hw as H.
  rewrite !(exec_app _ _ _ _ _ (timer_three HZ w T P H)). split; [reflexivity|].
  split; [destruct Hs as [->| ->]; (eexists; split; [reflexivity|]; by repeat split)|].
  assert (act HZ stop w = Next (set_stopping (S (stopping w)) w)) as Ha.
  { destruct Hs as [->| ->]; cbn [act]; [change (on_store "0" w) with (stop_timer w)|]; unfold stop_timer; by rewrite P. }
  assert (world_ok (set_stopping (S (stopping w)) w)) as Hst by (eapply act_ok; [exact H|exact Ha]).
  assert (forall l, exec HZ (stop :: l) w = exec HZ l (set_stopping (S (stopping w)) w)) as He
    by (intros l; cbn [exec]; by rewrite Ha).
  split; [|split].
  - rewrite He. cbn [exec act]. unfold timer_func. cbn [tp pending set_stopping]. rewrite T, P. reflexivity.
  - rewrite He. cbn [exec act]. unfold del_timer_sync. cbn [stopping tp set_stopping set_pending].
    rewrite bool_decide_eq_true_2 by done. eexists. split; [reflexivity|]. unfold timer_func. cbn. by rewrite T.
  - cbn [app]. rewrite He. change (replicate 4 ATimer ++ [ADelete]) with ([ATimer; ATimer; ATimer] ++ [ATimer; ADelete]).
    rewrite (exec_app _ _ _ _ _ (timer_three HZ (set_stopping (S (stopping w)) w) T P Hst)). cbn [exec act]. unfold timer_func at 1.
    cbn [tp pending set_stopping stopping]. eexists. split; [reflexivity|]. reflexivity.
Qed.

(** property: a failed load keeps what it created: whichever of the calls the
    entry point tests fails, objects of the module stay registered after it
    has returned an error - all of them when only the attributes failed -
    while unloading after a successful load removes every one. *)
Theorem failed_load_leaks group region class :
  let '(r, s) := Init.example_init group region class [] in
  (r < 0 -> Init.TestDev ∈ s /\ Init.TimerClass ∈ s) /\
  (0 <= region -> class < 0 -> Init.Cdev ∈ s /\ Init.Region ∉ s) /\
  (group < 0 -> 0 <= region -> 0 <= class -> r = group /\ Init.HousirDev ∈ s) /\
  (r = 0 -> Init.example_exit s = []).
Proof.
  unfold Init.example_init. destruct (Z.ltb_spec region 0), (Z.ltb_spec class 0), (Z.eqb_spec group 0);
    (repeat split; intros; try lia; try done); try (by apply (bool_decide_unpack _)).
Qed.

(** ** One reader *)
Lemma exec_reach HZ l w w' : reach HZ w -> exec HZ l w = Next w' -> reach HZ w'.
Proof.
  revert w. induction l as [|a l IH]; intros w Hw H; cbn [exec] in H; [by injection H as <-|].
  destruct (act HZ a w) as [w1| |] eqn:E; [|done..]. eapply IH; [|exact H]. by eapply reach_step.
Qed.
Definition after (l : list action) : world := match exec 1000 l world0 with Next w => w | _ => world0 end.
Lemma after_reach l : reach 1000 (after l).
Proof.
  unfold after. destruct (exec 1000 l world0) eqn:E; try apply reach0. by eapply exec_reach; [apply reach0|].
Qed.
(** It has gone to sleep; it is about to write; it is opened without waiting. *)
Definition sleeping : world := after (AOpen 0 true false :: AValue "5" :: ARead 0 0 :: replicate 4 (AStep 0)).
Definition fetching : world :=
  after (AOpen 0 true false :: AValue "5" :: ATimer :: ATimer :: ARead 0 0 :: replicate 2 (AStep 0)).
Definition polling : world := after (AOpen 0 true true :: ARead 0 0 :: replicate 5 (AStep 0)).
Definition sleeper : reader := mkR Schedule 0 true TASK_INTERRUPTIBLE false [] None.
Lemma sleeping_reader : readers sleeping !! 0%nat = Some sleeper /\ asleep sleeper.
Proof. by repeat split. Qed.

Lemma nothing_missed_witness :
  (forall k r f, readers sleeping !! k = Some r -> asleep r -> files sleeping !! fd r = Some f -> has_data f = true ->
     tp sleeping = TWake) /\
  (forall i f, files sleeping !! i = Some f -> has_data f = false ->
     (forall k r, readers sleeping !! k = Some r -> fd r = i -> pc r <> Fetch) -> tp sleeping <> TFlags ->
     seen f = data sleeping) /\
  ref_cnt sleeping = Z.of_nat (size (files sleeping)).
Proof. apply (nothing_missed 1000 sleeping). apply after_reach. Defined.

Lemma tick_wakes_reader_witness :
  exists w' f' r', exec 1000 ([ATimer; ATimer; ATimer] ++ replicate 6 (AStep 0)) sleeping = Next w' /\
    readers w' !! 0%nat = Some r' /\ files w' !! fd sleeper = Some f' /\ pc r' = Outside /\ seen f' = data sleeping + 1 /\
    results r' = results sleeper ++ [(text_len (sprintf_d (data sleeping + 1)) + 1, Some (sprintf_d (data sleeping + 1)))].
Proof.
  apply (tick_wakes_reader 1000 sleeping 0 sleeper);
    [apply after_reach|apply sleeping_reader|apply sleeping_reader|reflexivity|reflexivity|vm_compute; reflexivity].
Defined.

Lemma read_errors_lost_witness :
  exists w' r', exec 1000 (ARead 0 0 :: replicate 5 (AStep 0)) polling = Next w' /\ readers w' !! 0%nat = Some r' /\
    pc r' = Outside /\ results r' = [(0, None); (0, None)] /\ tstate r' = TASK_RUNNING /\ queued r' = false.
Proof.
  apply (read_errors_lost 1000 polling 0 0 (mkF false true 0) (mkR Outside 0 false TASK_RUNNING false [(0, None)] None));
    [apply after_reach|reflexivity..].
Defined.

Lemma fetch_overflow_witness : act 1000 (AStep 0) fetching = Crash <-> 10 ^ 8 <= data fetching.
Proof.
  apply (fetch_overflow 1000 fetching 0 (mkR Fetch 0 false TASK_RUNNING false [] None));
    [apply after_reach|reflexivity..].
Defined.

Lemma timer_races_witness :
  exec 1000 ([ATimer; ATimer; ATimer] ++ [AValue "5"; ATimer]) sleeping = Crash /\
  (exists w', exec 1000 ([ATimer; ATimer; ATimer] ++ [AExit; ATimer]) sleeping = Next w' /\ pending w' = true /\
     tp w' = TIdle /\ stopping w' = stopping sleeping) /\
  exec 1000 [AExit; ATimer; ADelete] sleeping = Blocked /\
  (exists w', exec 1000 [AExit; ADelete] sleeping = Next w' /\ act 1000 ATimer w' = Blocked) /\
  (exists w', exec 1000 ([AExit] ++ replicate 4 ATimer ++ [ADelete]) sleeping = Next w' /\ act 1000 ATimer w' = Blocked).
Proof. apply (timer_races 1000 sleeping AExit "5"); [reflexivity|reflexivity|apply after_reach|right; reflexivity]. Defined.
