(* ===== verification/UbootApp.v ===== *)
(** * U-Boot standalone application (uboot/app)

    The run time the bare program brings along (hello.c): the console output
    over a polled serial port and the heap pointer of [malloc]; and the crash
    handler (boot/armv8/crash.c), which prints the exception class in binary.
    The serial port's registers are the class [Uart] and the processor's
    registers a function. *)

From Stdlib Require Import ZArith Ascii.
From stdpp Require Import base list strings.
From S2P Require Import Prelude KernelText.

(** ** The console *)
Class Uart (W : Type) := {
  read_tsr : M W Z;
  write_thr : Z -> M W unit;
}.
Definition CR : Z := 13.
Definition LF : Z := 10.

Section Console.
Context {W : Type} `{!Uart W}.

(** Polls the status register until its bit 0x20 is set, then writes the
    character: [None] when the fuel is used up. *)
Fixpoint uart_putc_polled (fuel : nat) (c : Z) : FM W unit :=
  match fuel with
  | O => fault
  | S fuel =>
      tsr <~ total_ read_tsr ;;
      if Z.land tsr 0x20 =? 0x20 then total_ (write_thr c) else uart_putc_polled fuel c
  end.

(** The loop of [_write] over the bytes at [ptr]. *)
Fixpoint _write_loop (fuel : nat) (ptr : list Z) : FM W unit :=
  match ptr with
  | [] => fret tt
  | c :: ptr =>
      (if c =? LF then uart_putc_polled fuel CR else fret tt) ~;;
      uart_putc_polled fuel c ~;;
      _write_loop fuel ptr
  end.
(** [_write(file, ptr, len)]: a buffer shorter than [len] is left. *)
Definition _write (fuel : nat) (ptr : list Z) (len : Z) : FM W Z :=
  if Z.of_nat (length ptr) <? len then fault
  else _write_loop fuel (take (Z.to_nat len) ptr) ~;; fret len.
End Console.

(** ** The heap *)
(** [heap_end] starts at the linker's [end]; the result is the old value. *)
Definition _sbrk (increment : Z) : M Z Z :=
  heap_end <- get ;; modify (fun h => wrap 64 (h + increment)) ;; ret heap_end.

(** ** The crash handler *)
Definition MAX_BIN_PRINT : nat := 64.

(** The loop of [hex2binarystr]. *)
Fixpoint bin_loop (fuel : nat) (num mask : Z) (i : nat) (binary : list ascii) : option (list ascii) :=
  if mask =? 0 then Some binary
  else match fuel with
       | O => None
       | S fuel =>
           if decide (i < length binary)%nat then
             bin_loop fuel num (Z.shiftr mask 1) (S i)
               (<[i := if truthy (Z.land num mask) then "1"%char else "0"%char]> binary)
           else None
       end.
(** [1 << (len - 1)] is a shift of an [int]: defined for [len] of 1 to 31, and
    taken as the sign bit for 32. *)
Definition hex2binarystr (num len : Z) : option string :=
  if (1 <=? len) && (len <=? 32) then
    b ← bin_loop MAX_BIN_PRINT (u32 num) (u32 (Z.shiftl 1 (len - 1))) 0 (replicate MAX_BIN_PRINT NUL);
    c_str b
  else None.

(** [do_crash]: what is printed, by the exception level and the registers
    [ESR_ELx] and [ELR_ELx]; at level 0 the code prints variables it has not
    set. *)
Record crash_report := mkCrash { cr_el : Z; cr_elr : Z; cr_esr : Z; cr_ec : Z; cr_text : string }.
Definition do_crash (elx : Z) (esr elr : Z -> Z) : option crash_report :=
  if (elx =? 1) || (elx =? 2) || (elx =? 3) then
    let ESR_ELx := esr elx in
    let ec := Z.land (Z.shiftr ESR_ELx 26) 0x3f in
    text ← hex2binarystr ec 6;
    Some (mkCrash elx (elr elx) ESR_ELx ec text)
  else None.

(** ** Binary text *)
Fixpoint of_binary (acc : Z) (s : string) : Z :=
  match s with
  | EmptyString => acc
  | String c s => of_binary (2 * acc + (if bool_decide (c = "1"%char) then 1 else 0)) s
  end.
(** The characters of the bits below [n], the highest first. *)
Fixpoint bin_chars (n : nat) (x : Z) : list ascii :=
  match n with
  | O => []
  | S n => (if Z.testbit x (Z.of_nat n) then "1"%char else "0"%char) :: bin_chars n x
  end.

Lemma length_bin_chars n x : length (bin_chars n x) = n.
Proof. induction n as [|n IH]; [done|]. cbn. by rewrite IH. Qed.
Lemma bin_chars_no_NUL n x : NUL ∉ bin_chars n x.
Proof.
  induction n as [|n IH]; cbn [bin_chars]; [apply not_elem_of_nil|].
  apply not_elem_of_cons. split; [|done]. by destruct (Z.testbit x _).
Qed.

(** The loop writes the bits from the mask down. *)
Lemma bin_loop_run n fuel x i pre :
  (n <= fuel)%nat -> length pre = i ->
  forall post, bin_loop fuel x (Z.shiftr (2 ^ Z.of_nat n) 1) i (pre ++ replicate n NUL ++ post) =
    Some (pre ++ bin_chars n x ++ post).
Proof.
  revert fuel i pre. induction n as [|n IH]; intros fuel i pre Hf Hp post.
  - by destruct fuel.
  - rewrite Nat2Z.inj_succ, Z.pow_succ_r, Z.shiftr_div_pow2 by lia. change (2 ^ 1) with 2.
    rewrite Z.mul_comm, Z.div_mul by done. destruct fuel as [|fuel]; [lia|]. cbn [bin_loop].
    pose proof (Z.pow_pos_nonneg 2 (Z.of_nat n)). rewrite (proj2 (Z.eqb_neq _ 0)) by lia.
    rewrite decide_True by (rewrite !length_app; cbn; lia).
    rewrite truthy_land_pow by lia.
    rewrite insert_app_r_alt by lia. rewrite Hp, Nat.sub_diag. cbn [replicate app insert list_insert bin_chars].
    specialize (IH fuel (S i) (pre ++ [if Z.testbit x (Z.of_nat n) then "1"%char else "0"%char]) ltac:(lia) ltac:(rewrite length_app; cbn; lia) post).
    rewrite <- !app_assoc in IH. exact IH.
Qed.

Lemma hex2binarystr_run num len :
  1 <= len <= 32 ->
  hex2binarystr num len = Some (String.string_of_list_ascii (bin_chars (Z.to_nat len) (u32 num))).
Proof.
  intros Hl. unfold hex2binarystr. rewrite (proj2 (Z.leb_le 1 len)), (proj2 (Z.leb_le len 32)) by lia. cbn [andb].
  replace (u32 (Z.shiftl 1 (len - 1))) with (Z.shiftr (2 ^ Z.of_nat (Z.to_nat len)) 1).
  2: { rewrite Z.shiftl_1_l, u32_small, Z.shiftr_div_pow2, Z2Nat.id by (lia || (split; [apply Z.pow_nonneg; lia|apply Z.pow_lt_mono_r; lia])).
       replace len with (Z.succ (len - 1)) at 1 by lia. rewrite Z.pow_succ_r by lia.
       change (2 ^ 1) with 2. by rewrite Z.mul_comm, Z.div_mul. }
  replace (replicate MAX_BIN_PRINT NUL) with (replicate (Z.to_nat len) NUL ++ NUL :: replicate (63 - Z.to_nat len) NUL).
  2: { change (NUL :: replicate (63 - Z.to_nat len) NUL) with (replicate (S (63 - Z.to_nat len)) NUL).
       rewrite <- replicate_add. f_equal. unfold MAX_BIN_PRINT. lia. }
  pose proof (bin_loop_run (Z.to_nat len) MAX_BIN_PRINT (u32 num) 0 []) as H.
  cbn [app] in H. rewrite H by (unfold MAX_BIN_PRINT; lia || done). cbn [mbind option_bind].
  apply c_str_app, bin_chars_no_NUL.
Qed.

Lemma of_binary_chars n x acc :
  0 <= x -> of_binary acc (String.string_of_list_ascii (bin_chars n x)) = acc * 2 ^ Z.of_nat n + x mod 2 ^ Z.of_nat n.
Proof.
  intros Hx. revert acc. induction n as [|n IH]; intros acc.
  - cbn. rewrite Z.mod_1_r. lia.
  - cbn [bin_chars String.string_of_list_ascii of_binary]. rewrite IH, Nat2Z.inj_succ, Z.pow_succ_r by lia.
    pose proof (Z.pow_pos_nonneg 2 (Z.of_nat n)).
    assert (x mod (2 * 2 ^ Z.of_nat n) = Z.b2z (Z.testbit x (Z.of_nat n)) * 2 ^ Z.of_nat n + x mod 2 ^ Z.of_nat n) as ->.
    { rewrite Z.mul_comm, Z.rem_mul_r, Z.testbit_spec' by lia. lia. }
    destruct (Z.testbit x (Z.of_nat n)); cbn [Z.b2z]; [rewrite bool_decide_eq_true_2|rewrite bool_decide_eq_false_2]; try done; lia.
Qed.

(** ** The serial port *)
(** A port that becomes ready: the status has the bit, transmit holding
    register empty, after [wait] polls and not before, and then keeps it
    until a character is written.  Only a character written while the register
    is empty is sent; of one written earlier nothing is known. *)
Class UartLaws (W : Type) `{!Uart W} (bound : nat) := {
  wait : W -> nat;
  output : W -> list Z;
  wait_bound : forall w, (wait w <= bound)%nat;
  tsr_law : forall w, let '(t, w') := read_tsr w in
    output w' = output w /\ (if decide (wait w = 0%nat) then Z.land t 0x20 = 0x20 /\ wait w' = 0%nat
                             else Z.land t 0x20 <> 0x20 /\ S (wait w') = wait w);
  thr_law : forall c w, wait w = 0%nat -> output (snd (write_thr c w)) = output w ++ [c];
}.

(** The text on the wire: a line feed has a carriage return in front. *)
Definition crlf (l : list Z) : list Z := l ≫= (fun c => if c =? LF then [CR; c] else [c]).

Section ConsoleSpec.
Context {W : Type} `{!Uart W} (bound : nat) `{!UartLaws W bound}.

Lemma putc_run n fuel c w :
  wait w = n -> (n < fuel)%nat -> exists w', uart_putc_polled fuel c w = Some (tt, w') /\ output w' = output w ++ [c].
Proof.
  revert fuel w. induction n as [|n IH]; intros fuel w Hw Hf; (destruct fuel as [|fuel]; [lia|]);
    cbn [uart_putc_polled]; unfold fbind, total_; pose proof (tsr_law w) as H;
    destruct (read_tsr w) as [t w1]; rewrite Hw in H; destruct H as [Ho H].
  - rewrite decide_True in H by done. destruct H as [-> Hw1]. cbn. pose proof (thr_law c w1 Hw1) as Ht.
    destruct (write_thr c w1) as [[] w2]. exists w2. split; [done|]. by rewrite <- Ho.
  - rewrite decide_False in H by done. destruct H as [H1 H2]. rewrite (proj2 (Z.eqb_neq _ _) H1).
    destruct (IH fuel w1) as (w2 & E & E2); [lia|lia|]. exists w2. by rewrite E, E2, Ho.
Qed.
Lemma putc_bounded fuel c w :
  (bound < fuel)%nat -> exists w', uart_putc_polled fuel c w = Some (tt, w') /\ output w' = output w ++ [c].
Proof. intros H. apply (putc_run (wait w)); [done|]. pose proof (wait_bound w). lia. Qed.

Lemma _write_loop_run fuel l w :
  (bound < fuel)%nat -> exists w', _write_loop fuel l w = Some (tt, w') /\ output w' = output w ++ crlf l.
Proof.
  intros Hf. revert w. induction l as [|c l IH]; intros w; cbn [_write_loop].
  - exists w. by rewrite app_nil_r.
  - unfold fbind. change (crlf (c :: l)) with ((if c =? LF then [CR; c] else [c]) ++ crlf l).
    destruct (c =? LF).
    + destruct (putc_bounded fuel CR w Hf) as (w1 & -> & E1), (putc_bounded fuel c w1 Hf) as (w2 & -> & E2).
      destruct (IH w2) as (w3 & -> & E3). exists w3. split; [done|]. by rewrite E3, E2, E1, <- !app_assoc.
    + cbn. destruct (putc_bounded fuel c w Hf) as (w1 & -> & E1), (IH w1) as (w3 & -> & E3).
      exists w3. split; [done|]. by rewrite E3, E1, <- !app_assoc.
Qed.
End ConsoleSpec.

(** ** Properties *)

(** C36: the console: on a port that is ready again after at most [bound]
    polls and sends what is written while it is ready - only that -, writing
    a buffer ends, returns its length and has put exactly its
    bytes on the wire, with a carriage return before each line feed. *)
Theorem write_crlf {W} `{!Uart W} bound `{!UartLaws W bound} fuel l w :
  (bound < fuel)%nat ->
  exists w', _write fuel l (Z.of_nat (length l)) w = Some (Z.of_nat (length l), w') /\ output w' = output w ++ crlf l.
Proof.
  intros Hf. unfold _write. rewrite Z.ltb_irrefl, Nat2Z.id, take_ge by lia.
  destruct (_write_loop_run bound fuel l w Hf) as (w' & E & Ho). exists w'. unfold fbind. by rewrite E.
Qed.

(** A port that needs three polls for each character and loses one written
    while it is busy. *)
Module Slow.
Record port := mkPort { p_wait : nat; p_le : (p_wait <= 3)%nat; p_out : list Z }.
Lemma le3 n : (S n <= 3 -> n <= 3)%nat.
Proof. lia. Qed.
#[global] Instance uart : Uart port := {|
  read_tsr := fun p =>
    match p_wait p as n return (n <= 3)%nat -> Z * port with
    | O => fun H => (0x60, mkPort 0 H (p_out p))
    | S n => fun H => (0x40, mkPort n (le3 n H) (p_out p))
    end (p_le p);
  write_thr c := fun p => (tt, mkPort 3 (Nat.le_refl 3) (match p_wait p with O => p_out p ++ [c] | S _ => p_out p end));
|}.
#[global] Instance laws : UartLaws port 3.
Proof. refine {| wait := p_wait; output := p_out |}; [apply p_le| |by intros c [[|n] H o]]. intros [[|n] H o]; by repeat split. Defined.
Definition idle : port := mkPort 0 (Nat.le_0_l 3) [].
End Slow.

Lemma write_crlf_witness :
  exists w', _write 4 [104; 105; 10] 3 Slow.idle = Some (3, w') /\ Slow.p_out w' = [104; 105; 13; 10].
Proof. apply (write_crlf (UartLaws0 := Slow.laws) 3 4 [104; 105; 10] Slow.idle). lia. Defined.

(** property: round trip: for one to 32 digits the text has that many
    characters and, read back in binary, is the number modulo two to that
    power. *)
Theorem hex2binarystr_roundtrip num len :
  1 <= len <= 32 ->
  exists s, hex2binarystr num len = Some s /\ String.length s = Z.to_nat len /\ of_binary 0 s = num mod 2 ^ len.
Proof.
  intros H. rewrite hex2binarystr_run by done. eexists. split; [done|]. split.
  - by rewrite <- length_ascii, String.list_ascii_of_string_of_list_ascii, length_bin_chars.
  - rewrite of_binary_chars by apply u32_range. rewrite Z2Nat.id by lia. cbn [Z.mul Z.add].
    unfold u32, wrap. symmetry. rewrite <- (Z.mod_mod_divide num (2 ^ 32) (2 ^ len)); [done|].
    exists (2 ^ (32 - len)). rewrite <- Z.pow_add_r by lia. f_equal. lia.
Qed.
Lemma hex2binarystr_roundtrip_witness :
  exists s, hex2binarystr 0x25 6 = Some s /\ String.length s = 6%nat /\ of_binary 0 s = 37.
Proof. apply (hex2binarystr_roundtrip 0x25 6). lia. Defined.

(** property: the crash handler reports, at levels 1 to 3, the exception class
    of that level's syndrome register - its bits 26 to 31 - as a number and as
    six binary digits that read back to it. *)
Theorem crash_reports_class elx esr elr :
  1 <= elx <= 3 ->
  exists r, do_crash elx esr elr = Some r /\ cr_elr r = elr elx /\ cr_ec r = esr elx / 2 ^ 26 mod 64 /\
    String.length (cr_text r) = 6%nat /\ of_binary 0 (cr_text r) = cr_ec r.
Proof.
  intros H. unfold do_crash. assert (elx = 1 \/ elx = 2 \/ elx = 3) as Hx by lia.
  assert ((elx =? 1) || (elx =? 2) || (elx =? 3) = true) as -> by (destruct Hx as [->|[->| ->]]; done).
  assert (Z.land (Z.shiftr (esr elx) 26) 0x3f = esr elx / 2 ^ 26 mod 64) as ->.
  { change 0x3f with (Z.ones 6). by rewrite Z.land_ones, Z.shiftr_div_pow2. }
  rewrite hex2binarystr_run by lia. cbn [mbind option_bind]. eexists. split; [done|]. cbn [cr_elr cr_ec cr_text].
  split; [done|]. split; [done|]. split.
  - by rewrite <- length_ascii, String.list_ascii_of_string_of_list_ascii, length_bin_chars.
  - pose proof (Z.mod_pos_bound (esr elx / 2 ^ 26) 64). rewrite of_binary_chars by apply u32_range.
    rewrite u32_small by lia. cbn [Z.mul Z.add]. apply Z.mod_small. change (2 ^ Z.of_nat (Z.to_nat 6)) with 64. lia.
Qed.
Lemma crash_reports_class_witness :
  exists r, do_crash 2 (fun _ => 0x96000045) (fun _ => 0x80000) = Some r /\ cr_elr r = 0x80000 /\ cr_ec r = 0x25 /\
    String.length (cr_text r) = 6%nat /\ of_binary 0 (cr_text r) = cr_ec r.
Proof. apply (crash_reports_class 2 (fun _ => 0x96000045) (fun _ => 0x80000)). lia. Defined.

Lemma foldr_add_nonneg reqs : Forall (fun n => 0 <= n) reqs -> 0 <= foldr Z.add 0 reqs.
Proof. induction 1; cbn; lia. Qed.

(** The pointers handed out and the heap's end after a list of requests. *)
Fixpoint sbrk_all (reqs : list Z) (h : Z) : list Z * Z :=
  match reqs with
  | [] => ([], h)
  | n :: reqs => let '(p, h) := _sbrk n h in let '(ps, h) := sbrk_all reqs h in (p :: ps, h)
  end.

(** property: the heap: a sequence of requests for memory gets adjacent,
    disjoint blocks, one after the other from the linker's [end], while the
    pointer does not wrap: nothing limits it. *)
Theorem sbrk_contiguous reqs h :
  Forall (fun n => 0 <= n) reqs -> 0 <= h -> h + foldr Z.add 0 reqs < 2 ^ 64 ->
  sbrk_all reqs h =
    ((fun i => h + foldr Z.add 0 (take i reqs)) <$> seq 0 (length reqs), h + foldr Z.add 0 reqs).
Proof.
  intros Hr. revert h. induction Hr as [|n reqs Hn Hr IH]; intros h Hh Hs; cbn [sbrk_all foldr] in *.
  - by rewrite Z.add_0_r.
  - pose proof (foldr_add_nonneg _ Hr). unfold _sbrk. cbn. rewrite wrap_small, IH by lia. f_equal; [|lia].
    f_equal; [lia|]. rewrite <- fmap_S_seq, <- list_fmap_compose. apply list_fmap_ext. intros i x _. cbn. lia.
Qed.
Lemma sbrk_contiguous_witness : sbrk_all [100; 20; 8] 4096 = ([4096; 4196; 4216], 4224).
Proof. apply (sbrk_contiguous [100; 20; 8] 4096); [repeat constructor; lia|lia|cbn; lia]. Defined.
