(* ===== verification/Bitmap.v ===== *)
(** * Bitmaps of the framebuffer (test_framebuffer: test_fd_app1.c, test_fb_app.c)

    Two programs: one writes the framebuffer to a bitmap file (test_fd_app1.c,
    [main]), the other draws a bitmap file on the framebuffer (test_fb_app.c,
    [show_bmp]).  Files are lists of bytes, the framebuffer is a list of
    bytes, and an access outside a buffer is [None].  The size of the C type
    [long], which the headers use, is a parameter: 4 bytes on the 32 bit
    boards the programs are written for, 8 on others. *)

From Stdlib Require Import ZArith Ascii.
From stdpp Require Import base list strings.
From S2P Require Import Prelude KernelText.

(** ** Writing a bitmap *)
Module Grab.
Record var_info := mkInfo { xres : Z; yres : Z; bits_per_pixel : Z }.

Section Long.
Variable LONG : nat.
Definition FILE_HEAD : Z := 14.
Definition INFO_HEAD : Z := 4 + Z.of_nat LONG * 4 + 2 + 2 + 4 * 4 .

Definition file_head (data_size : Z) : list Z :=
  le_bytes 2 0x4d42 ++ le_bytes 4 (FILE_HEAD + INFO_HEAD + data_size) ++ le_bytes 2 0 ++ le_bytes 2 0 ++
  le_bytes 4 (FILE_HEAD + INFO_HEAD).
Definition info_head (v : var_info) : list Z :=
  le_bytes 4 INFO_HEAD ++ le_bytes LONG (xres v) ++ le_bytes LONG (yres v) ++ le_bytes 2 1 ++
  le_bytes 2 (bits_per_pixel v) ++ le_bytes 4 0 ++ le_bytes 4 0 ++ le_bytes LONG 0 ++ le_bytes LONG 0 ++
  le_bytes 4 0 ++ le_bytes 4 0.

(** The bytes of a pixel and of a row. *)
Definition line (v : var_info) : Z := u32 (xres v * (bits_per_pixel v / 8)).
(** The loop that writes the rows from the last to the first; [n] are left. *)
Fixpoint write_rows (n : nat) (v : var_info) (i : Z) (img_buf : list Z) : option (list Z) :=
  match n with
  | O => Some []
  | S n =>
      let off := u32 (xres v * (yres v - i - 1) * (bits_per_pixel v / 8)) in
      if off + line v <=? Z.of_nat (length img_buf)
      then app (take (Z.to_nat (line v)) (drop (Z.to_nat off) img_buf)) <$> write_rows n v (i + 1) img_buf
      else None
  end.

(** [write] from the start of a file: the open has no O_TRUNC, so what the
    file had behind the bytes written stays. *)
Definition overwrite (bytes before : list Z) : list Z := bytes ++ drop (length bytes) before.

(** [main]: the number of arguments, whether each call succeeds, what is in
    the buffer after [read], and the bytes of the output file before the run,
    none if it does not exist; the result and the bytes of the file after it. *)
Definition main (argc : Z) (fb_open ioctl_ok img_open malloc_ok : bool) (v : var_info) (img_buf before : list Z) :
    option (Z * list Z) :=
  if negb (argc =? 2) then Some (-1, before)
  else if negb fb_open then Some (-1, before)
  else if negb ioctl_ok then Some (0, before)
  else if negb img_open then Some (-1, before)
  else if negb malloc_ok then Some (-1, before)
  else
    let data_size := s32 (xres v * yres v * (bits_per_pixel v / 8)) in
    if negb (Z.of_nat (length img_buf) =? data_size) then None
    else
      rows ← write_rows (Z.to_nat (yres v)) v 0 img_buf;
      Some (0, overwrite (file_head data_size ++ info_head v ++ rows) before).
End Long.
End Grab.

(** ** Drawing a bitmap *)
Module Show.
(** [sizeof(BITMAPFILEHEADER)], [sizeof(BITMAPINFOHEADER)], [char tmp[1024*10]] *)
Definition FILE_HEAD : nat := 14.
Definition INFO_HEAD : nat := 40.
Definition TMP : Z := 10240.

(** [fread(ptr, 1, n, fp)]: the bytes read and the rest of the file. *)
Definition fread (n : nat) (fp : list Z) : list Z * list Z := (take n fp, drop n fp).

(** [chartolong] of four bytes of a header, as an [int]. *)
Definition chartolong (head : list Z) (off : nat) : Z := s32 (of_le_bytes (take 4 (drop off head))).

(** The loop over the rows: [fp] is the rest of the file, [fbp] the screen;
    [eof] says that a read has reached the end. *)
Fixpoint rows_loop (fuel : nat) (xres bits_per_pixel ciHeight BytesPerLine : Z) (line_y : Z) (eof : bool)
    (fp fbp : list Z) : option (Z * list Z) :=
  match fuel with
  | O => None
  | S fuel =>
      if eof then Some (0, fbp)
      else
        let '(tmp, fp') := fread (Z.to_nat (u32 BytesPerLine)) fp in
        let rc := Z.of_nat (length tmp) in
        if rc <=? TMP then
          if negb (rc =? BytesPerLine) then Some (0, fbp)
          else
            let location := Z.quot (s32 (s32 ((ciHeight - line_y - 1) * xres) * bits_per_pixel)) 8 in
            if 0 <=? location then
              fbp ← buf_store fbp (Z.to_nat location) tmp;
              rows_loop fuel xres bits_per_pixel ciHeight BytesPerLine (line_y + 1) (rc <? BytesPerLine) fp' fbp
            else None
        else None
  end.

Definition show_bmp (opened : bool) (xres bits_per_pixel : Z) (fp fbp : list Z) : option (Z * list Z) :=
  if negb opened then Some (-1, fbp)
  else
    let len := length fp in
    let '(FileHead, fp) := fread FILE_HEAD fp in
    if negb (bool_decide (length FileHead = FILE_HEAD)) then Some (-2, fbp)
    else if negb (bool_decide (take 2 FileHead = [66; 77])) then Some (-3, fbp)
    else
      let '(InfoHead, fp) := fread INFO_HEAD fp in
      if negb (bool_decide (length InfoHead = INFO_HEAD)) then Some (-4, fbp)
      else
        let ciWidth := chartolong InfoHead 4 in
        let ciHeight := chartolong InfoHead 8 in
        let ciBitCount := chartolong InfoHead 14 in
        let BytesPerLine := Z.quot (s32 (ciWidth * ciBitCount + 31)) 32 * 4 in
        rows_loop (S (S len)) xres bits_per_pixel ciHeight BytesPerLine 0 false fp fbp.
(** *** The program around it *)
(** [main]: descriptor, results of the two [ioctl] calls and of [mmap]; the
    exit code. *)
Definition main (fbfd fscreeninfo vscreeninfo mapped : Z) : Z :=
  if fbfd =? 0 then 1
  else if negb (fscreeninfo =? 0) then 2
  else if negb (vscreeninfo =? 0) then 3
  else if mapped =? -1 then 4
  else 0.

(** The mode of the console and [tty_mode_was]. *)
Definition KD_TEXT : Z := 0.
Definition KD_GRAPHICS : Z := 1.
Record tty := mkTty { mode : Z; tty_mode_was : Z }.

(** Whether the console opens, and the results of the [ioctl] calls. *)
Definition set_tty_graphics (opened get_ok set_ok : bool) (t : tty) : Z * tty :=
  if negb opened then (0, t)
  else if negb get_ok then (0, t)
  else
    let t := mkTty (mode t) (mode t) in
    if negb (KD_GRAPHICS =? tty_mode_was t) then
      if negb set_ok then (0, t) else (1, mkTty KD_GRAPHICS (tty_mode_was t))
    else (1, t).
Definition set_tty_text (opened set_ok : bool) (t : tty) : Z * tty :=
  if negb opened then (0, t)
  else if negb set_ok then (0, t)
  else (1, mkTty (tty_mode_was t) (tty_mode_was t)).
End Show.

(** ** Bytes of headers *)
Lemma of_le4 x : 0 <= x < 2 ^ 31 -> s32 (of_le_bytes (le_bytes 4 x)) = x.
Proof. intros H. rewrite of_le_bytes_le, Z.mod_small by (cbn; lia). apply s32_small. lia. Qed.

(** ** Rows *)
(** The rows [n - 1] down to 0 of a picture with lines of [L] bytes. *)
Fixpoint flip (n L : nat) (buf : list Z) : list Z :=
  match n with O => [] | S n => take L (drop (n * L) buf) ++ flip n L buf end.

(** A picture with [w] by [h] pixels of [k] bytes. *)
Record fits (v : Grab.var_info) (k : Z) (fb : list Z) : Prop := {
  f_x : 0 < Grab.xres v;
  f_y : 0 < Grab.yres v;
  f_k : 1 <= k <= 4;
  f_bits : Grab.bits_per_pixel v = 8 * k;
  f_size : Grab.xres v * Grab.yres v * k * 8 < 2 ^ 31;
  f_len : Z.of_nat (length fb) = Grab.xres v * Grab.yres v * k;
}.

Section Fits.
Context (v : Grab.var_info) (k : Z) (fb : list Z) (F : fits v k fb).
Abbreviation w := (Grab.xres v).
Abbreviation h := (Grab.yres v).
Definition L : nat := Z.to_nat (w * k).

Lemma L_pos : 0 < w * k /\ Z.of_nat L = w * k.
Proof. destruct F. unfold L. nia. Qed.
Lemma len_L : length fb = (Z.to_nat h * L)%nat.
Proof. destruct F. unfold L. rewrite <- Z2Nat.inj_mul by nia. lia. Qed.
Lemma line_L : Grab.line v = w * k.
Proof. destruct F. unfold Grab.line. rewrite f_bits0, (Z.mul_comm 8), Z.div_mul by lia. apply u32_small. nia. Qed.

Lemma write_rows_run n :
  (n <= Z.to_nat h)%nat -> Grab.write_rows n v (h - Z.of_nat n) fb = Some (flip n L fb).
Proof.
  destruct L_pos as [HL HLn]. pose proof F as [X Y K B S Len].
  induction n as [|n IH]; intros Hn; [done|]. cbn [Grab.write_rows flip].
  replace (h - (h - Z.of_nat (Datatypes.S n)) - 1) with (Z.of_nat n) by lia.
  rewrite B, (Z.mul_comm 8), Z.div_mul, line_L by lia.
  rewrite u32_small by nia.
  assert (w * Z.of_nat n * k = Z.of_nat (n * L)) as -> by nia.
  rewrite (proj2 (Z.leb_le _ _)) by (rewrite Len; nia).
  replace (h - Z.of_nat (Datatypes.S n) + 1) with (h - Z.of_nat n) by lia. rewrite IH by lia. cbn. unfold L at 1.
  by rewrite Nat2Z.id.
Qed.

(** A row drawn in its place. *)
Lemma store_row n old :
  (n < Z.to_nat h)%nat -> length old = length fb ->
  buf_store (take (S n * L) old ++ drop (S n * L) fb) (n * L) (take L (drop (n * L) fb)) =
    Some (take (n * L) old ++ drop (n * L) fb).
Proof.
  intros Hn Ho. pose proof len_L as Hl. assert (S n * L <= Z.to_nat h * L)%nat by (apply Nat.mul_le_mono_r; lia).
  assert (length (take L (drop (n * L) fb)) = L) as Hr by (rewrite length_take, length_drop; lia).
  rewrite buf_store_in by (rewrite Hr, length_app, length_take, length_drop; lia).
  f_equal. unfold buf_write. rewrite Hr.
  replace (n * L + L)%nat with (S n * L)%nat by lia.
  rewrite drop_app_length' by (rewrite length_take; lia).
  rewrite take_app_le, take_take, Nat.min_l by (rewrite ?length_take; lia). f_equal.
  replace (S n * L)%nat with (n * L + L)%nat by lia. rewrite <- drop_drop. apply take_drop.
Qed.

Lemma rows_loop_run n fuel old :
  w * k <= Show.TMP -> (n <= Z.to_nat h)%nat -> length old = length fb -> (n < fuel)%nat ->
  Show.rows_loop fuel w (8 * k) h (w * k) (h - Z.of_nat n) false (flip n L fb) (take (n * L) old ++ drop (n * L) fb) =
    Some (0, fb).
Proof.
  intros Ht. destruct L_pos as [HL HLn]. pose proof F as [X Y K B Sz Len]. pose proof len_L as Hl.
  revert fuel. induction n as [|n IH]; intros fuel Hn Ho Hf; (destruct fuel as [|fuel]; [lia|]);
    cbn [Show.rows_loop flip]; unfold Show.fread; rewrite u32_small by nia; fold L.
  - rewrite take_nil. change (Z.of_nat (length [])) with 0. rewrite (proj2 (Z.eqb_neq 0 (w * k))) by lia. done.
  - assert (S n * L <= Z.to_nat h * L)%nat by (apply Nat.mul_le_mono_r; lia).
    assert (length (take L (drop (n * L) fb)) = L) as Hr by (rewrite length_take, length_drop; lia).
    rewrite take_app_length', drop_app_length', Hr by done. rewrite HLn, (proj2 (Z.leb_le _ _) Ht), Z.eqb_refl, Z.ltb_irrefl.
    cbn [negb]. replace (h - (h - Z.of_nat (S n)) - 1) with (Z.of_nat n) by lia.
    rewrite (s32_small (Z.of_nat n * w)), s32_small by nia.
    replace (Z.of_nat n * w * (8 * k)) with (Z.of_nat (n * L) * 8) by nia. rewrite Z.quot_mul by done.
    rewrite (proj2 (Z.leb_le 0 _)) by lia. rewrite Nat2Z.id, store_row by lia. cbn [mbind option_bind].
    replace (h - Z.of_nat (S n) + 1) with (h - Z.of_nat n) by lia. apply IH; lia.
Qed.

Lemma length_flip n : (n <= Z.to_nat h)%nat -> length (flip n L fb) = (n * L)%nat.
Proof.
  pose proof len_L as Hl. induction n as [|n IH]; intros Hn; [done|]. cbn [flip].
  assert (S n * L <= Z.to_nat h * L)%nat by (apply Nat.mul_le_mono_r; lia).
  rewrite length_app, length_take, length_drop, IH by lia. lia.
Qed.

Definition file : list Z :=
  Grab.file_head 4 (w * h * k) ++ Grab.info_head 4 v ++ flip (Z.to_nat h) L fb.

Lemma grab_run before : Grab.main 4 2 true true true true v fb before = Some (0, Grab.overwrite file before).
Proof.
  pose proof F as [X Y K B Sz Len]. unfold Grab.main. cbn [negb Z.eqb Pos.eqb].
  rewrite B, (Z.mul_comm 8), Z.div_mul by lia. rewrite s32_small by nia. rewrite Len, Z.eqb_refl. cbn [negb].
  pose proof (write_rows_run (Z.to_nat h) (Nat.le_refl _)) as H.
  rewrite Z2Nat.id, Z.sub_diag in H by lia. by rewrite H.
Qed.

Lemma length_file : length file = (54 + length fb)%nat.
Proof.
  unfold file, Grab.file_head, Grab.info_head. rewrite !length_app, !length_le_bytes, length_flip by lia.
  pose proof len_L. lia.
Qed.

Lemma show_run old :
  length old = length fb -> (w * k) mod 4 = 0 -> w * k <= Show.TMP ->
  Show.show_bmp true w (Grab.bits_per_pixel v) file old = Some (0, fb).
Proof.
  intros Ho H4 Ht. pose proof F as [X Y K B Sz Len]. destruct L_pos as [HL HLn]. pose proof len_L as Hl.
  unfold Show.show_bmp, file. cbn [negb]. unfold Show.fread at 1.
  assert (length (Grab.file_head 4 (w * h * k)) = Show.FILE_HEAD) as E1.
  { unfold Grab.file_head. by rewrite !length_app, !length_le_bytes. }
  rewrite take_app_length', drop_app_length', E1 by done. rewrite bool_decide_eq_true_2 by done. cbn [negb].
  change (take 2 (Grab.file_head 4 (w * h * k))) with [66; 77]. rewrite bool_decide_eq_true_2 by done. cbn [negb].
  unfold Show.fread at 1.
  assert (length (Grab.info_head 4 v) = Show.INFO_HEAD) as E2.
  { unfold Grab.info_head. by rewrite !length_app, !length_le_bytes. }
  rewrite take_app_length', drop_app_length', E2 by done. rewrite bool_decide_eq_true_2 by done. cbn [negb].
  change (Show.chartolong (Grab.info_head 4 v) 4) with (s32 (of_le_bytes (le_bytes 4 w))).
  change (Show.chartolong (Grab.info_head 4 v) 8) with (s32 (of_le_bytes (le_bytes 4 h))).
  change (Show.chartolong (Grab.info_head 4 v) 14) with (s32 (of_le_bytes (le_bytes 2 (Grab.bits_per_pixel v) ++ [0; 0]))).
  rewrite !of_le4 by nia.
  assert (s32 (of_le_bytes (le_bytes 2 (Grab.bits_per_pixel v) ++ [0; 0])) = 8 * k) as ->.
  { rewrite B. assert (k = 1 \/ k = 2 \/ k = 3 \/ k = 4) as [->|[->|[->| ->]]] by lia; done. }
  pose proof (Z.div_mod (w * k) 4 ltac:(done)) as E4. rewrite H4, Z.add_0_r in E4.
  unfold Show.TMP in Ht.
  assert (Z.quot (s32 (w * (8 * k) + 31)) 32 * 4 = w * k) as ->.
  { rewrite s32_small by lia. rewrite Z.quot_div_nonneg by lia.
    replace (w * (8 * k) + 31) with (w * k / 4 * 32 + 31) by lia. rewrite Z.div_add_l by lia. change (31 / 32) with 0. rewrite Z.add_0_r, Z.mul_comm. by symmetry. }
  rewrite B. pose proof (rows_loop_run (Z.to_nat h) (S (S (length (Grab.file_head 4 (w * h * k) ++
    Grab.info_head 4 v ++ flip (Z.to_nat h) L fb)))) old) as H.
  rewrite Z2Nat.id, Z.sub_diag in H by lia. rewrite <- len_L, take_ge, drop_ge, app_nil_r in H by lia.
  apply H; try done.
  rewrite !length_app, length_flip by lia. assert (1 <= L)%nat by lia. nia.
Qed.
End Fits.

(** ** Properties *)

(** C40: round trip between the two programs, on boards with a long of
    four bytes: the file the first one writes of a framebuffer, when there was
    none or not a longer one of that name, drawn by the second one on any
    screen of the same geometry, restores every byte - if a line is a
    multiple of four bytes and fits the line buffer of 10240.  (A longer
    file keeps its old bytes behind the new ones, which the second program
    takes for further rows.) *)
Theorem grab_show_roundtrip v k fb old before :
  fits v k fb -> length old = length fb -> (Grab.xres v * k) mod 4 = 0 -> Grab.xres v * k <= Show.TMP ->
  (length before <= 54 + length fb)%nat ->
  exists f, Grab.main 4 2 true true true true v fb before = Some (0, f) /\
    Show.show_bmp true (Grab.xres v) (Grab.bits_per_pixel v) f old = Some (0, fb).
Proof.
  intros F H1 H2 H3 H4. exists (file v k fb). split; [|by apply show_run].
  rewrite (grab_run v k fb F). unfold Grab.overwrite. rewrite drop_ge, app_nil_r; [done|]. by rewrite (length_file v k fb F).
Qed.

Definition small : Grab.var_info := Grab.mkInfo 2 2 16.
Lemma grab_show_roundtrip_witness :
  exists f, Grab.main 4 2 true true true true small [1; 2; 3; 4; 5; 6; 7; 8] [9; 9; 9] = Some (0, f) /\
    Show.show_bmp true 2 16 f [0; 0; 0; 0; 0; 0; 0; 0] = Some (0, [1; 2; 3; 4; 5; 6; 7; 8]).
Proof.
  apply (grab_show_roundtrip small 2 [1; 2; 3; 4; 5; 6; 7; 8] [0; 0; 0; 0; 0; 0; 0; 0] [9; 9; 9]); try done. cbn. lia.
Defined.

(** property: the file itself: on any board the program returns 0 with the
    header, its length fields, and the rows of the framebuffer from the last
    to the first, followed by what a longer file had there before; with a
    long of eight bytes the header has 56 bytes instead of the 40 a bitmap
    has. *)
Theorem grab_file LONG v k fb before :
  fits v k fb ->
  exists f, Grab.main LONG 2 true true true true v fb before = Some (0, f ++ drop (length f) before) /\
    f = Grab.file_head LONG (Grab.xres v * Grab.yres v * k) ++ Grab.info_head LONG v ++
        flip (Z.to_nat (Grab.yres v)) (Z.to_nat (Grab.xres v * k)) fb /\
    Z.of_nat (length (Grab.info_head LONG v)) = 24 + 4 * Z.of_nat LONG /\
    take 4 (drop 2 f) = le_bytes 4 (Z.of_nat (length f)).
Proof.
  intros F. pose proof F as [X Y K B Sz Len].
  pose proof (write_rows_run v k fb F (Z.to_nat (Grab.yres v)) (Nat.le_refl _)) as H.
  rewrite Z2Nat.id, Z.sub_diag in H by lia.
  assert (length (Grab.info_head LONG v) = 24 + 4 * LONG)%nat as Hi.
  { unfold Grab.info_head. rewrite !length_app, !length_le_bytes. lia. }
  eexists. split; [|split; [reflexivity|split; [lia|]]].
  - unfold Grab.main. cbn [negb Z.eqb Pos.eqb]. rewrite B, (Z.mul_comm 8), Z.div_mul by lia.
    rewrite s32_small by nia. rewrite Len, Z.eqb_refl. cbn [negb]. by rewrite H.
  - rewrite !length_app, Hi, (length_flip v k fb F) by lia.
    assert (length (Grab.file_head LONG (Grab.xres v * Grab.yres v * k)) = 14%nat) as ->
      by (unfold Grab.file_head; by rewrite !length_app, !length_le_bytes).
    replace (Z.of_nat _) with (Grab.FILE_HEAD + Grab.INFO_HEAD LONG + Grab.xres v * Grab.yres v * k); [reflexivity|].
    pose proof (len_L v k fb F). unfold Grab.FILE_HEAD, Grab.INFO_HEAD, L in *. lia.
Qed.
Lemma grab_file_witness :
  exists f, Grab.main 8 2 true true true true small [1; 2; 3; 4; 5; 6; 7; 8] [] = Some (0, f ++ drop (length f) []) /\
    f = Grab.file_head 8 8 ++ Grab.info_head 8 small ++ [5; 6; 7; 8; 1; 2; 3; 4] /\
    Z.of_nat (length (Grab.info_head 8 small)) = 56 /\ take 4 (drop 2 f) = le_bytes 4 (Z.of_nat (length f)).
Proof. apply (grab_file 8 small 2 [1; 2; 3; 4; 5; 6; 7; 8] []). by repeat split. Defined.

(** property: a bitmap whose lines have more than 10240 bytes overruns the line
    buffer of the drawing program as soon as the file has that many. *)
Theorem long_lines_overrun fuel x b ht bpl y fp fbp :
  Show.TMP < bpl < 2 ^ 32 -> bpl <= Z.of_nat (length fp) -> Show.rows_loop (S fuel) x b ht bpl y false fp fbp = None.
Proof.
  intros H1 H2. cbn [Show.rows_loop]. unfold Show.fread, Show.TMP in *. rewrite u32_small by lia.
  rewrite length_take, Nat.min_l by lia. rewrite Z2Nat.id by lia. by rewrite (proj2 (Z.leb_gt _ _)) by lia.
Qed.
Lemma long_lines_overrun_witness :
  Show.rows_loop 2 3413 24 1 10241 0 false (replicate (Z.to_nat 10241) 0) [] = None.
Proof. apply (long_lines_overrun 1 3413 24 1 10241 0 (replicate (Z.to_nat 10241) 0) []); [by vm_compute|rewrite length_replicate; lia]. Defined.

(** property: the console: when switching to graphics succeeds the console is
    in graphics mode, and switching back restores the mode it had; when it
    fails the mode is unchanged. *)
Theorem tty_restored opened get_ok set_ok t :
  let '(r, t1) := Show.set_tty_graphics opened get_ok set_ok t in
  (r = 1 -> Show.mode t1 = Show.KD_GRAPHICS /\ Show.mode (snd (Show.set_tty_text true true t1)) = Show.mode t) /\
  (r = 0 -> Show.mode t1 = Show.mode t).
Proof.
  unfold Show.set_tty_graphics. destruct opened; [|done]. destruct get_ok; [|done].
  cbn [negb Show.tty_mode_was Show.mode]. destruct (Z.eqb_spec Show.KD_GRAPHICS (Show.mode t)) as [E|]; cbn [negb];
    [cbn; auto|by destruct set_ok].
Qed.

(** property: the exit code of the drawing program names the step that failed -
    except for the open: its failure, -1, is not 0, and shows as the next
    step's. *)
Theorem open_failure_unseen fbfd f v m :
  (Show.main fbfd f v m = 0 <-> fbfd <> 0 /\ f = 0 /\ v = 0 /\ m <> -1) /\
  (fbfd = -1 -> f <> 0 -> Show.main fbfd f v m = 2).
Proof.
  unfold Show.main. destruct (Z.eqb_spec fbfd 0), (Z.eqb_spec f 0), (Z.eqb_spec v 0), (Z.eqb_spec m (-1));
    cbn; split; lia.
Qed.
