(* ===== verification/Samples.v ===== *)
(** * Kernel sample modules

    The samples that register a character device share the text of their
    entry points; [Chrdev] has it once, with the module's major number, the
    count of its numbers and what it does besides, and each module's entry
    points as instances.  The other modules here hold the file operations
    and attributes with logic: the completion and the wait queue as steps of
    writers and readers, the register reader's buffer, the sysfs number, the
    proc string, and the entry points of the key, input and firmware samples.

    Resources are a list of objects; the results of the kernel's calls are
    arguments. *)

From Stdlib Require Import ZArith Ascii.
From stdpp Require Import base list strings pretty.
From S2P Require Import Prelude KernelText.

(** ** Modules with a character device *)
Module Chrdev.
Inductive obj := Region | Cdev | Class_ | Device | Group | Buffer | Tasklet.
#[global] Instance obj_eq : EqDecision obj.
Proof. solve_decision. Defined.

(** What the kernel answers: the region call, the major number it picks, the
    class, and the call a module makes at the end. *)
Record answers := mkAns { a_region : Z; a_major : Z; a_class : Z; a_last : Z }.
Record st := mkSt { major : Z; objs : list obj }.
Definition add (o : obj) (s : st) : st := mkSt (major s) (o :: objs s).
Definition drop_ (o : obj) (s : st) : st := mkSt (major s) (filter (fun x => x <> o) (objs s)).

(** [reg_init] up to the device; [last] is the module's own end. *)
Definition reg_init (last : answers -> M st Z) (a : answers) : M st Z := fun s =>
  let result := a_region a in
  let s := if major s =? 0 then mkSt (a_major a) (objs s) else s in
  if result <? 0 then (result, s)
  else
    let s := if major s =? 0 then mkSt result (objs s) else s in
    let s := add Cdev (add Region s) in
    if a_class a <? 0 then (a_class a, drop_ Region s)
    else last a (add Device (add Class_ s)).

Definition reg_exit : M st unit := fun s =>
  let s := drop_ Cdev (drop_ Class_ (drop_ Device s)) in
  (tt, if major s =? 0 then s else drop_ Region s).

(** The ends of the modules. *)
Definition no_more (a : answers) : M st Z := ret 0.
(** [result] of the attribute group is not looked at. *)
Definition with_group (a : answers) : M st Z := fun s => (0, if a_last a =? 0 then add Group s else s).
(** Without memory the device and the class go, and so does the region; the
    result is that of the region call. *)
Definition with_buffer (a : answers) : M st Z := fun s =>
  if a_last a =? 0 then (0, add Buffer s)
  else (a_region a, drop_ Region (drop_ Class_ (drop_ Device s))).

Definition completion_init : answers -> M st Z := reg_init no_more.
Definition schedule_init : answers -> M st Z := reg_init no_more.
Definition spinlock1_init : answers -> M st Z := reg_init no_more.
Definition work_struct_init : answers -> M st Z := reg_init no_more.
Definition spi_drv_init : answers -> M st Z := reg_init no_more.
Definition waitqueue_init : answers -> M st Z := reg_init no_more.
Definition blockread_init : answers -> M st Z := reg_init no_more.
Definition tasklet_init (a : answers) : M st Z := modify (add Tasklet) ;; reg_init no_more a.
Definition tasklet_hi_init (a : answers) : M st Z := modify (add Tasklet) ;; reg_init no_more a.
Definition echo_reg_init : answers -> M st Z := reg_init with_group.
Definition mmap_init : answers -> M st Z := reg_init with_buffer.

Definition completion_exit : M st unit := reg_exit.
Definition schedule_exit : M st unit := reg_exit.
Definition spinlock1_exit : M st unit := reg_exit.
Definition work_struct_exit : M st unit := reg_exit.
Definition spi_drv_exit : M st unit := reg_exit.
Definition waitqueue_exit : M st unit := reg_exit.
Definition blockread_exit : M st unit := reg_exit.
Definition tasklet_exit : M st unit := reg_exit ;; modify (drop_ Tasklet).
Definition tasklet_hi_exit : M st unit := reg_exit ;; modify (drop_ Tasklet).
(** The attributes of the device go with it. *)
Definition echo_reg_exit : M st unit := reg_exit ;; modify (drop_ Group).
(** [if (!buffer) kfree(buffer)] *)
Definition mmap_exit : M st unit := fun s =>
  let '(_, s') := reg_exit s in (tt, if decide (Buffer ∈ objs s') then s' else drop_ Buffer s').
End Chrdev.

(** ** The completion *)
Module Completion.
(** [str], the count of the completion, and how often a read has returned. *)
Record st := mkC { str : list Z; done_ : Z; reads : Z; writes : Z }.
Definition SIZE : nat := 100.
Definition st0 : st := mkC (replicate SIZE 0) 0 0 0.
(** "over flow..." with its terminator *)
Definition over_flow : list Z := [111; 118; 101; 114; 32; 102; 108; 111; 119; 46; 46; 46; 0].
Definition UINT_MAX : Z := 2 ^ 32 - 1.
Definition complete (d : Z) : Z := if d =? UINT_MAX then d else d + 1.

Definition reg_write (buf : list Z) (s : st) : Z * st :=
  let count := Z.of_nat (length buf) in
  let str := if count <? 100 then buf_write (str s) 0 buf else buf_write (str s) 0 over_flow in
  (count, mkC str (complete (done_ s)) (reads s) (writes s + 1)).
(** [wait_for_completion]: [None] while it sleeps. *)
Definition reg_read (s : st) : option (Z * st) :=
  if done_ s =? 0 then None else Some (0, mkC (str s) (done_ s - 1) (reads s + 1) (writes s)).

(** Writers and readers in any order; a read that would sleep does not
    happen. *)
Inductive act := Write (buf : list Z) | Read.
Definition step (s : st) (a : act) : st :=
  match a with
  | Write buf => snd (reg_write buf s)
  | Read => match reg_read s with Some (_, s) => s | None => s end
  end.
End Completion.

(** ** The wait queue *)
Module WaitQueue.
Record st := mkQ { ready : bool; test : bool; reads : Z; writes : Z }.
Definition st0 : st := mkQ false true 0 0.
Definition reg_write (count : Z) (s : st) : Z * st :=
  let test := negb (test s) in (count, mkQ test test (reads s) (writes s + 1)).
(** [wait_event(my_waitqueue, ready == true)]: [None] while it sleeps. *)
Definition reg_read (s : st) : option (Z * st) :=
  if ready s then Some (0, mkQ false (test s) (reads s + 1) (writes s)) else None.

Inductive act := Write (count : Z) | Read.
Definition step (s : st) (a : act) : st :=
  match a with
  | Write n => snd (reg_write n s)
  | Read => match reg_read s with Some (_, s) => s | None => s end
  end.
End WaitQueue.

(** ** The register reader *)
Module EchoReg.
(** [struct testdata]; [None] is a NULL [private_data]. *)
Record testdata := mkT { a : Z; b : Z; c : Z }.
Definition reg_open (alloc : bool) : Z * option testdata := (0, if alloc then Some (mkT 0 0 0) else None).
(** [unsigned char bin_content_ascii[100]]; [copied]: all bytes could be read;
    [mapped]: the register could be mapped.  [pri->b = pri->b++] leaves [b]. *)
Definition reg_write (copied mapped : bool) (count : Z) (pri : option testdata) : option (Z * option testdata) :=
  if 100 <? count then None
  else if negb copied then Some (0, pri)
  else if negb mapped then Some (count, pri)
  else match pri with
       | None => None
       | Some p => Some (count, Some (mkT (s32 (a p + 1)) (b p) (c p)))
       end.
Definition reg_read (pri : option testdata) : option Z := match pri with Some _ => Some 0 | None => None end.
End EchoReg.

(** ** The number in sysfs *)
Module Foo.
Definition foo_show (foo : Z) : Z * string := show_int foo.
(** The result and the number; [sscanf] leaves it when there is none. *)
Definition foo_store (buf : string) (count foo : Z) : Z * Z :=
  let foo := default foo (sscanf_d buf) in
  let foo := s32 (foo - 1) in
  if (foo <? 0) || (1 <? foo) then (0, foo) else (count, foo).
End Foo.

(** ** The string in /proc *)
Module Proc.
(** [str] with the terminator [kzalloc] left, and the live allocations. *)
Record st := mkP { str : option (list ascii); live : Z }.
Definition st0 : st := mkP None 0.
Definition my_proc_write (alloc copied : bool) (buf : list ascii) (s : st) : Z * st :=
  if negb alloc then (- ENOMEM, s)
  else if negb copied then (- EFAULT, s)
  else
    let live := live s + 1 in
    let live := match str s with Some _ => live - 1 | None => live end in
    (Z.of_nat (length buf), mkP (Some (buf ++ [NUL])) live).
(** [%s] of a string or of NULL. *)
Definition show_str (s : option (list ascii)) : option string :=
  match s with None => Some "(null)" | Some l => c_str l end.
(** The text, the result and the new offset. *)
Definition my_proc_read (jiffies off : Z) (s : st) : option (string * Z * Z) :=
  if 0 <? off then Some ("", 0, off)
  else
    t ← show_str (str s);
    let text := ("current kernel time is " +:+ pretty jiffies +:+ newline) +:+ ("str is " +:+ t +:+ newline) in
    Some (text, text_len text, off + text_len text).
Definition my_exit (s : st) : st := match str s with Some _ => mkP None (live s - 1) | None => s end.
End Proc.

(** ** Interrupts, input device, firmware *)
Module Misc.
Inductive obj := Irq (n : Z) | InputDev | InputReg | Firmware.
#[global] Instance obj_eq : EqDecision obj.
Proof. solve_decision. Defined.

(** test_key: the errors of the two requests. *)
Definition key_init (irq1 irq2 : Z) (e1 e2 : Z) (s : list obj) : Z * list obj :=
  if negb (e1 =? 0) then (- EBUSY, s)
  else
    let s := Irq irq1 :: s in
    if negb (e2 =? 0) then (- EBUSY, s) else (0, Irq irq2 :: s).
Definition key_exit (irq1 irq2 : Z) (s : list obj) : list obj :=
  filter (fun o => o <> Irq irq2) (filter (fun o => o <> Irq irq1) s).

(** test_input_key: the key events reported. *)
Definition input_init (alloc : bool) (e : Z) (s : list obj) : Z * list obj * list Z :=
  if negb alloc then (- ENOMEM, s, [])
  else
    let s := InputDev :: s in
    if negb (e =? 0) then (e, filter (fun o => o <> InputDev) s, [])
    else (0, InputReg :: s, [1; 1; 1; 0; 1]).
(** Unregistering frees the device. *)
Definition input_exit (s : list obj) : list obj := filter (fun o => o <> InputReg /\ o <> InputDev) s.

(** test_fw: the result of the request and of burning. *)
Definition fw_work (request burn : Z) (s : list obj) : list obj :=
  if request <? 0 then s
  else let s := Firmware :: s in filter (fun o => o <> Firmware) s.
End Misc.

(** ** The entry points *)
Lemma reg_init_eq last m a :
  0 <= m -> 0 < Chrdev.a_major a ->
  exists m', m' <> 0 /\
    Chrdev.reg_init last a (Chrdev.mkSt m []) =
      if Chrdev.a_region a <? 0 then (Chrdev.a_region a, Chrdev.mkSt m' [])
      else if Chrdev.a_class a <? 0 then (Chrdev.a_class a, Chrdev.mkSt m' [Chrdev.Cdev])
      else last a (Chrdev.mkSt m' [Chrdev.Device; Chrdev.Class_; Chrdev.Cdev; Chrdev.Region]).
Proof.
  intros Hm Ha. exists (if m =? 0 then Chrdev.a_major a else m). unfold Chrdev.reg_init. cbn [Chrdev.major Chrdev.objs].
  destruct (Z.eqb_spec m 0); (split; [lia|]); destruct (Chrdev.a_region a <? 0); try done; cbn [Chrdev.major];
    (rewrite (proj2 (Z.eqb_neq _ 0)) by lia); by destruct (Chrdev.a_class a <? 0).
Qed.
Lemma reg_exit_eq s :
  Chrdev.major s <> 0 -> Chrdev.reg_exit s =
    (tt, Chrdev.drop_ Chrdev.Region (Chrdev.drop_ Chrdev.Cdev (Chrdev.drop_ Chrdev.Class_ (Chrdev.drop_ Chrdev.Device s)))).
Proof. intros H. unfold Chrdev.reg_exit. cbn [Chrdev.major Chrdev.drop_]. by rewrite (proj2 (Z.eqb_neq _ 0)). Qed.

(** ** Properties *)

(** property: the life of a module with a character device: a failed region
    call leaves nothing; a failed class leaves the character device
    registered after the module has gone; after a load that succeeded
    unloading removes every object. *)
Theorem chrdev_lifecycle m a :
  0 <= m -> 0 < Chrdev.a_major a ->
  let '(r, s) := Chrdev.completion_init a (Chrdev.mkSt m []) in
  (Chrdev.a_region a < 0 -> r = Chrdev.a_region a /\ Chrdev.objs s = []) /\
  (0 <= Chrdev.a_region a -> Chrdev.a_class a < 0 -> r = Chrdev.a_class a /\ Chrdev.objs s = [Chrdev.Cdev]) /\
  (0 <= Chrdev.a_region a -> 0 <= Chrdev.a_class a -> r = 0 /\ Chrdev.objs (snd (Chrdev.completion_exit s)) = []).
Proof.
  intros Hm Ha. unfold Chrdev.completion_init, Chrdev.completion_exit.
  destruct (reg_init_eq Chrdev.no_more m a Hm Ha) as (m' & Hm' & ->).
  destruct (Z.ltb_spec (Chrdev.a_region a) 0), (Z.ltb_spec (Chrdev.a_class a) 0); cbn [Chrdev.no_more ret];
    rewrite ?reg_exit_eq by done; repeat split; try lia.
Qed.
Lemma chrdev_lifecycle_witness :
  let '(r, s) := Chrdev.completion_init (Chrdev.mkAns 0 250 0 0) (Chrdev.mkSt 227 []) in
  (0 < 0 -> r = 0 /\ Chrdev.objs s = []) /\
  (0 <= 0 -> 0 < 0 -> r = 0 /\ Chrdev.objs s = [Chrdev.Cdev]) /\
  (0 <= 0 -> 0 <= 0 -> r = 0 /\ Chrdev.objs (snd (Chrdev.completion_exit s)) = []).
Proof. apply (chrdev_lifecycle 227 (Chrdev.mkAns 0 250 0 0)); by vm_compute. Defined.

(** property: the mmap sample reports success when it has no memory, although it
    has taken everything down but the character device; and after a load
    that succeeded unloading keeps the buffer. *)
Theorem mmap_buffer m a :
  0 <= m -> 0 < Chrdev.a_major a -> Chrdev.a_region a = 0 -> 0 <= Chrdev.a_class a ->
  let '(r, s) := Chrdev.mmap_init a (Chrdev.mkSt m []) in
  r = 0 /\
  (Chrdev.a_last a <> 0 -> Chrdev.objs s = [Chrdev.Cdev]) /\
  (Chrdev.a_last a = 0 -> Chrdev.objs (snd (Chrdev.mmap_exit s)) = [Chrdev.Buffer]).
Proof.
  intros Hm Ha Hr Hc. unfold Chrdev.mmap_init, Chrdev.mmap_exit.
  destruct (reg_init_eq Chrdev.with_buffer m a Hm Ha) as (m' & Hm' & ->). unfold Chrdev.with_buffer.
  rewrite Hr, (proj2 (Z.ltb_ge (Chrdev.a_class a) 0)) by lia. cbn [Z.ltb Z.compare].
  destruct (Z.eqb_spec (Chrdev.a_last a) 0); cbn [Chrdev.add Chrdev.objs Chrdev.major]; rewrite ?reg_exit_eq by done;
    (split; [done|]); split; intros; first [done|lia|by vm_compute].
Qed.
Lemma mmap_buffer_witness :
  let '(r, s) := Chrdev.mmap_init (Chrdev.mkAns 0 250 0 (- ENOMEM)) (Chrdev.mkSt 0 []) in
  r = 0 /\ (- ENOMEM <> 0 -> Chrdev.objs s = [Chrdev.Cdev]) /\
  (- ENOMEM = 0 -> Chrdev.objs (snd (Chrdev.mmap_exit s)) = [Chrdev.Buffer]).
Proof. apply (mmap_buffer 0 (Chrdev.mkAns 0 250 0 (- ENOMEM))); by vm_compute. Defined.

(** property: the completion counts: in any order of writes and reads, fewer
    than 2^32 - 1 writes, the reads that have returned are at most the
    writes, and a read sleeps exactly when there is one for every write. *)
Theorem completion_counts acts :
  let s := foldl Completion.step Completion.st0 acts in
  Completion.writes s < Completion.UINT_MAX ->
  0 <= Completion.reads s <= Completion.writes s /\
  (Completion.reg_read s = None <-> Completion.reads s = Completion.writes s).
Proof.
  set (inv := fun s => 0 <= Completion.reads s /\ 0 <= Completion.done_ s <= Completion.writes s - Completion.reads s /\
    (Completion.writes s < Completion.UINT_MAX -> Completion.done_ s = Completion.writes s - Completion.reads s)).
  assert (forall acts s, inv s -> inv (foldl Completion.step s acts)) as H.
  { clear acts. induction acts as [|x l IH]; intros s Hs; [done|]. cbn [foldl]. apply IH. destruct Hs as (H1 & H2 & H3).
    destruct x as [buf|]; cbn [Completion.step].
    - unfold inv, Completion.reg_write, Completion.complete. cbn.
      destruct (Z.eqb_spec (Completion.done_ s) Completion.UINT_MAX); lia.
    - unfold Completion.reg_read. destruct (Z.eqb_spec (Completion.done_ s) 0) as [|Hd]; [done|].
      unfold inv. cbn. lia. }
  intros s Hw. destruct (H acts Completion.st0) as (H1 & H2 & H3); [done|]. fold s in H1, H2, H3. split; [lia|].
  unfold Completion.reg_read. destruct (Z.eqb_spec (Completion.done_ s) 0); split; (done || lia).
Qed.
Lemma completion_counts_witness :
  let s := foldl Completion.step Completion.st0 [Completion.Write [65]; Completion.Read; Completion.Read] in
  0 <= Completion.reads s <= Completion.writes s /\
  (Completion.reg_read s = None <-> Completion.reads s = Completion.writes s).
Proof. apply (completion_counts [Completion.Write [65]; Completion.Read; Completion.Read]). by vm_compute. Defined.

(** property: a write is copied without a terminator: of a longer text before it
    the rest stays behind it; from 100 bytes on the text is replaced. *)
Theorem completion_text_kept long short :
  (length short <= length long < 100)%nat ->
  take (length long) (Completion.str (foldl Completion.step Completion.st0 [Completion.Write long; Completion.Write short])) =
    short ++ drop (length short) long.
Proof.
  intros [H1 H2]. cbn [foldl Completion.step]. unfold Completion.reg_write. cbn [snd Completion.str Completion.st0].
  rewrite !(proj2 (Z.ltb_lt _ 100)) by lia. unfold buf_write. rewrite !take_0. cbn [Nat.add app].
  rewrite drop_app_le, take_app_ge by lia.
  rewrite take_app_le by (rewrite length_drop; lia). f_equal. rewrite take_ge; [done|]. rewrite length_drop. lia.
Qed.
Lemma completion_text_kept_witness :
  take 3 (Completion.str (foldl Completion.step Completion.st0 [Completion.Write [97; 98; 99]; Completion.Write [120]])) =
    [120; 98; 99].
Proof. apply (completion_text_kept [97; 98; 99] [120]). cbn. lia. Defined.

(** property: the wait queue sample lets at most one reader through for two
    writes: every other write takes the condition back. *)
Theorem waitqueue_every_other acts :
  let s := foldl WaitQueue.step WaitQueue.st0 acts in
  2 * (WaitQueue.reads s + (if WaitQueue.ready s then 1 else 0)) <= WaitQueue.writes s.
Proof.
  set (inv := fun s => exists k, 0 <= k /\
    WaitQueue.writes s = 2 * k + (if WaitQueue.test s then 0 else 1) /\
    (WaitQueue.ready s = true -> WaitQueue.test s = true) /\
    WaitQueue.reads s + (if WaitQueue.ready s then 1 else 0) <= k).
  assert (forall acts s, inv s -> inv (foldl WaitQueue.step s acts)) as H.
  { clear acts. induction acts as [|x l IH]; intros s Hs; [done|]. cbn [foldl]. apply IH.
    destruct Hs as (k & H0 & H1 & H2 & H3), s as [r t rd w]; cbn in *.
    destruct x as [n|]; cbn [WaitQueue.step].
    - unfold WaitQueue.reg_write, inv. cbn. destruct t; cbn.
      + exists k. destruct r; repeat split; try done; lia.
      + destruct r; [by specialize (H2 eq_refl)|]. exists (k + 1). repeat split; try done; lia.
    - unfold WaitQueue.reg_read, inv. cbn. destruct r; cbn; exists k; repeat split; try done; lia. }
  intros s. destruct (H acts WaitQueue.st0) as (k & H0 & H1 & H2 & H3).
  { exists 0. by repeat split. }
  fold s in H1, H2, H3. destruct (WaitQueue.test s); lia.
Qed.

(** property: the number in sysfs: writing a number keeps it less one - also when
    it is out of range and the write is refused by returning 0, which makes
    the writer try again. *)
Theorem foo_store_spec n count foo :
  - 2 ^ 31 < n < 2 ^ 31 ->
  let '(r, foo') := Foo.foo_store (snd (show_int n)) count foo in
  foo' = n - 1 /\ Foo.foo_show foo' = show_int (n - 1) /\ r = if decide (1 <= n <= 2) then count else 0.
Proof.
  intros H. unfold Foo.foo_store, Foo.foo_show. rewrite scan_show by lia.
  change (default foo (Some n)) with n. rewrite s32_small by lia.
  destruct (Z.ltb_spec (n - 1) 0), (Z.ltb_spec 1 (n - 1)); cbn [orb]; case_decide; repeat split; first [done|lia].
Qed.
Lemma foo_store_spec_witness :
  let '(r, foo') := Foo.foo_store (snd (show_int 7)) 2 0 in
  foo' = 7 - 1 /\ Foo.foo_show foo' = show_int (7 - 1) /\ r = if decide (1 <= 7 <= 2) then 2 else 0.
Proof. apply (foo_store_spec 7 2 0). lia. Defined.

(** property: the string in /proc: a write keeps the text, an error the one
    before; a read at the start shows the last text, the next one the end;
    and there is never more than one allocation. *)
Theorem proc_roundtrip t jiffies s :
  NUL ∉ t -> (Proc.live s = if Proc.str s is Some _ then 1 else 0) ->
  let '(r, s') := Proc.my_proc_write true true t s in
  r = Z.of_nat (length t) /\ Proc.live s' = 1 /\ Proc.live (Proc.my_exit s') = 0 /\
  (exists text off, Proc.my_proc_read jiffies 0 s' = Some (text, off, off) /\ 0 < off /\
     Proc.my_proc_read jiffies off s' = Some ("", 0, off) /\
     text = ("current kernel time is " +:+ pretty jiffies +:+ newline) +:+
            ("str is " +:+ String.string_of_list_ascii t +:+ newline)) /\
  snd (Proc.my_proc_write false true t s) = s /\ snd (Proc.my_proc_write true false t s) = s.
Proof.
  intros Ht Hl. cbn. split; [done|]. split; [destruct (Proc.str s); lia|]. split; [destruct (Proc.str s); lia|].
  split; [|done]. unfold Proc.my_proc_read. cbn [Z.ltb Z.compare Proc.str Proc.show_str]. rewrite c_str_app by done.
  cbn [mbind option_bind]. do 2 eexists. split; [reflexivity|]. split; [done|]. split; [|done]. done.
Qed.
Lemma proc_roundtrip_witness :
  let '(r, s') := Proc.my_proc_write true true ["h"%char; "i"%char] Proc.st0 in
  r = 2 /\ Proc.live s' = 1 /\ Proc.live (Proc.my_exit s') = 0 /\
  (exists text off, Proc.my_proc_read 5 0 s' = Some (text, off, off) /\ 0 < off /\
     Proc.my_proc_read 5 off s' = Some ("", 0, off) /\
     text = ("current kernel time is " +:+ pretty 5 +:+ newline) +:+ ("str is " +:+ "hi" +:+ newline)) /\
  snd (Proc.my_proc_write false true ["h"%char; "i"%char] Proc.st0) = Proc.st0 /\
  snd (Proc.my_proc_write true false ["h"%char; "i"%char] Proc.st0) = Proc.st0.
Proof.
  apply (proc_roundtrip ["h"%char; "i"%char] 5 Proc.st0); [|reflexivity]. apply (bool_decide_unpack _). by vm_compute.
Defined.

(** property: the register reader copies what it is given to 100 bytes: a longer
    write overruns them; without its data - the allocation in open is not
    looked at - a write that maps its register and any read fault; otherwise
    each write counts up. *)
Theorem echo_write copied mapped count pri :
  EchoReg.reg_write copied mapped count pri = None <-> 100 < count \/ (copied = true /\ mapped = true /\ pri = None).
Proof.
  unfold EchoReg.reg_write. destruct (Z.ltb_spec 100 count); [split; auto|].
  destruct copied, mapped, pri; cbn; split; try done; try (by auto); intros [?|(? & ? & ?)]; (lia || done).
Qed.

(** property: the key, input and firmware samples: when the second interrupt
    cannot be requested the first stays requested; the input device and the
    firmware are given back on every path, and a successful load followed by
    an unload leaves nothing. *)
Theorem misc_resources irq1 irq2 e1 e2 alloc e request burn :
  let '(r1, k) := Misc.key_init irq1 irq2 e1 e2 [] in
  let '(r2, i, _) := Misc.input_init alloc e [] in
  (r1 = 0 -> Misc.key_exit irq1 irq2 k = []) /\ (e1 = 0 -> e2 <> 0 -> r1 = - EBUSY /\ k = [Misc.Irq irq1]) /\
  (r2 = 0 -> Misc.input_exit i = []) /\ (r2 <> 0 -> i = []) /\ Misc.fw_work request burn [] = [].
Proof.
  unfold Misc.key_init, Misc.input_init, Misc.fw_work, Misc.key_exit.
  destruct (Z.eqb_spec e1 0), (Z.eqb_spec e2 0), alloc, (Z.eqb_spec e 0), (request <? 0); cbn [negb];
    repeat split; intros; try done; cbn; repeat (case_decide; cbn; try congruence); done.
Qed.
