(* ===== verification/TestDrm.v ===== *)
(** * Pictures through DRM (test_drm/testdrm.c)

    The program reads four raw RGBA pictures, converts them to 24-bit pixels
    in memory of its own ([fill_frame_buffer]), asks the kernel for four dumb
    buffers ([modeset_create_fb]), and then copies a picture to a buffer and
    sets it on a CRTC, for ever.  The kernel, libdrm, the files and [malloc]
    are a [world]: what they answer.  The memory a buffer object maps and the
    memory of a picture are lists of bytes; a pointer that is not valid is
    [None]. *)

From Stdlib Require Import ZArith.
From stdpp Require Import base list strings.
From S2P Require Import Prelude.

(** ** Outcomes: a value, the end of the process, or undefined behaviour *)
Inductive outcome (A : Type) : Type :=
| Ok (a : A)
| Exit (code : Z)
| Aborted
| Undefined.
#[global] Arguments Ok {_} _.
#[global] Arguments Exit {_} _.
#[global] Arguments Aborted {_}.
#[global] Arguments Undefined {_}.
#[export] Instance outcome_ret : MRet outcome := @Ok.
#[export] Instance outcome_bind : MBind outcome := fun A B k m =>
  match m with Ok a => k a | Exit c => Exit c | Aborted => Aborted | Undefined => Undefined end.

(** An array access; a pointer dereferenced. *)
Definition at_ {A} (l : list A) (i : Z) : outcome A :=
  if 0 <=? i then match l !! Z.to_nat i with Some a => Ok a | None => Undefined end else Undefined.
Definition deref {A} (p : option A) : outcome A := match p with Some a => Ok a | None => Undefined end.

(** ** Data *)
Record drmModeModeInfo := Mode {
  m_name : string; hdisplay : Z; hsync_start : Z; hsync_end : Z; htotal : Z;
  vdisplay : Z; vsync_start : Z; vsync_end : Z; vtotal : Z; clock : Z;
}.
Record buffer_object := BO {
  width : Z; height : Z; pitch : Z; handle : Z; size : Z;
  vaddr : option (list Z);   (** [None]: NULL or MAP_FAILED *)
  fb_id : Z;
}.
Definition buf0 : buffer_object := BO 0 0 0 0 0 None 0.

Definition mminfo : list drmModeModeInfo :=
  [Mode "800x480" 800 852 864 916 480 488 538 588 32316;
   Mode "800x480" 800 808 850 861 480 488 558 588 30376;
   Mode "848x480x60x33750vid" 848 864 976 1088 480 486 494 517 33750;
   Mode "1920x1080x60x148500vid" 1920 2008 2052 2200 1080 1084 1089 1125 148500;
   Mode "1920x1080" 1920 2008 2052 2200 1080 1084 1089 1125 148500;
   Mode "600x240" 600 608 658 661 240 288 338 388 33750].

(** ** The world *)
Inductive call :=
| CreateDumb (w h bpp : Z)
| AddFB (w h depth bpp pitch handle : Z)
| MapDumb (handle : Z)
| Mmap (size offset : Z)
| RmFB (fb : Z)
| Munmap (size : Z)
| DestroyDumb (handle : Z)
| SetCrtc (crtc fb conn : Z) (mode : drmModeModeInfo)
| Usleep (us : Z).

Record world := World {
  w_file : option string -> list Z;                  (** what [pread] finds in a file; nothing when [open] fails *)
  w_resources : option (list Z * list Z);            (** CRTCs and connectors *)
  w_connector : Z -> option (list drmModeModeInfo);
  w_malloc : nat -> Z -> option (list Z);            (** the n-th call *)
  w_create : nat -> Z -> Z -> Z -> Z * Z * Z;        (** pitch, size and handle of the n-th dumb buffer *)
  w_addfb : Z -> Z;                                  (** the framebuffer of a handle *)
  w_offset : Z -> Z;
  w_mmap : nat -> Z -> Z -> option (list Z);
}.

(** ** Operations *)

(** [pread(fd, buffer, n, off)]: what the file does not have stays as it is. *)
Definition pread (file buffer : list Z) (n off : nat) : list Z := buf_write buffer 0 (take n (drop off file)).

(** [fill_frame_buffer]: the loop, from pixel [i] on, [n] pixels. *)
Fixpoint fill_pixels (file : list Z) (n i : nat) (buffer fb : list Z) : outcome (list Z) :=
  match n with
  | O => Ok fb
  | S n =>
      let buffer := pread file buffer 4 (i * 4) in
      b ← deref (buffer !! 2%nat); g ← deref (buffer !! 1%nat); r ← deref (buffer !! 0%nat);
      fb ← deref (buf_store fb (i * 3) [b; g; r]);
      fill_pixels file n (S i) buffer fb
  end.
Definition fill_frame_buffer (file : list Z) (fb : option (list Z)) (timing : Z) : outcome (list Z) :=
  t ← at_ mminfo timing;
  fb ← deref fb;
  fill_pixels file (Z.to_nat (hdisplay t * vdisplay t)) 0 [0; 0; 0; 0] fb.

(** [fill_drm] *)
Definition fill_drm (bo : option buffer_object) (frame : list (option (list Z))) (random timing : Z)
  : outcome (Z * option buffer_object) :=
  match bo with
  | None => Ok (-1, None)
  | Some o =>
      t ← at_ mminfo timing;
      src ← at_ frame (Z.rem random 4);
      src ← deref src;
      dst ← deref (vaddr o);
      let n := Z.to_nat (hdisplay t * vdisplay t * 3) in
      if decide (n <= length src)%nat then
        dst ← deref (buf_store dst 0 (take n src));
        Ok (0, Some (BO (width o) (height o) (pitch o) (handle o) (size o) (Some dst) (fb_id o)))
      else Undefined
  end.

(** [modeset_create_fb] of the [n]-th buffer, and the calls it makes. *)
Definition modeset_create_fb (W : world) (n : nat) (bo : buffer_object) : buffer_object * list call :=
  let bpp := if width bo =? 1920 then 24 else 24 in
  let '(p, s, h) := w_create W n (width bo) (height bo) bpp in
  (BO (width bo) (height bo) p h s (w_mmap W n s (w_offset W h)) (w_addfb W h),
   [CreateDumb (width bo) (height bo) bpp; AddFB (width bo) (height bo) 24 bpp p h; MapDumb h; Mmap s (w_offset W h)]).
(** [modeset_destroy_fb] *)
Definition modeset_destroy_fb (bo : buffer_object) : list call :=
  [RmFB (fb_id bo); Munmap (size bo); DestroyDumb (handle bo)].

(** [init_timing]: clock and name stay those of the display. *)
Definition init_timing (id : Z) (p : drmModeModeInfo) : outcome drmModeModeInfo :=
  t ← at_ mminfo id;
  Ok (Mode (m_name p) (hdisplay t) (hsync_start t) (hsync_end t) (htotal t)
    (vdisplay t) (vsync_start t) (vsync_end t) (vtotal t) (clock p)).

(** ** [main] *)
Record drm := Drm {
  d_buf : list buffer_object;
  d_frame : list (option (list Z));
  d_modes : list drmModeModeInfo;
  d_crtc : Z;
  d_conn : Z;
  d_timing : Z;       (** [init_resultion] *)
  d_mode_id : Z;
  d_usleep : Z;
  d_random : Z;
  d_calls : list call;
}.

Section Main.
Variable W : world.

(** [argv[k]]: the element behind the last one is NULL. *)
Definition arg (argv : list string) (k : nat) : outcome (option string) :=
  if decide (k <= length argv)%nat then Ok (argv !! k) else Undefined.
Definition atoi_arg (argv : list string) (k : nat) : outcome Z := s ← arg argv k; s ← deref s; Ok (atoi s).

(** The size of the buffers. *)
Definition dimensions (timing mode_id : Z) (modes : list drmModeModeInfo) : outcome (Z * Z) :=
  t ← at_ mminfo timing;
  if hdisplay t =? 800 then Ok (800, 480)
  else if hdisplay t =? 600 then Ok (600, 240)
  else m ← at_ modes mode_id; Ok (hdisplay m, vdisplay m).

(** The loop that creates and fills the four buffers. *)
Fixpoint create_all (files : list (list Z)) (n : nat) (timing w h : Z)
  : outcome (list buffer_object * list (option (list Z)) * list call) :=
  match files with
  | [] => Ok ([], [], [])
  | file :: files =>
      t ← at_ mminfo timing;
      let frame := w_malloc W n (hdisplay t * vdisplay t * 4) in
      let '(bo, cs) := modeset_create_fb W n (BO w h 0 0 0 None 0) in
      frame ← fill_frame_buffer file frame timing;
      '(bos, frames, cs') ← create_all files (S n) timing w h;
      Ok (bo :: bos, Some frame :: frames, cs ++ cs')
  end.

Definition main_setup (argv : list string) : outcome drm :=
  if decide (length argv < 3)%nat then Exit 2 else
  _ ← arg argv 1;
  us ← atoi_arg argv 3;
  f0 ← arg argv 4; f1 ← arg argv 5; f2 ← arg argv 6; f3 ← arg argv 7;
  timing ← atoi_arg argv 8;
  mode_id ← atoi_arg argv 9;
  match w_resources W with
  | None => Aborted
  | Some (crtcs, connectors) =>
      _ ← at_ crtcs 0;
      conn_id ← at_ connectors 0;
      modes ← deref (w_connector W conn_id);
      '(w, h) ← dimensions timing mode_id modes;
      crtc ← atoi_arg argv 2;
      '(bos, frames, cs) ← create_all (w_file W <$> [f0; f1; f2; f3]) 0 timing w h;
      t ← at_ mminfo timing;
      modes ← (if hdisplay t =? 800
               then m ← at_ modes mode_id; m ← init_timing timing m; Ok (<[Z.to_nat mode_id := m]> modes)
               else Ok modes);
      Ok (Drm bos frames modes crtc conn_id timing mode_id us 0 cs)
  end.

(** One turn of [while (1)]; [random] is never changed. *)
Definition show (d : drm) (bo : buffer_object) (mode : Z) : outcome (list call) :=
  m ← at_ (d_modes d) mode; Ok [SetCrtc (d_crtc d) (fb_id bo) (d_conn d) m].
Definition main_iter (d : drm) : outcome drm :=
  let i := d_random d mod 4 in
  bo ← at_ (d_buf d) i;
  '(_, bo') ← fill_drm (Some bo) (d_frame d) (s32 (d_random d)) (d_timing d);
  bo ← deref bo';
  t ← at_ mminfo (d_timing d);
  c1 ← (if hdisplay t =? 800 then show d bo (d_mode_id d) else Ok []);
  c2 ← (if hdisplay t =? 600 then show d bo 3 else show d bo (d_mode_id d));
  Ok (Drm (<[Z.to_nat i := bo]> (d_buf d)) (d_frame d) (d_modes d) (d_crtc d) (d_conn d) (d_timing d) (d_mode_id d)
    (d_usleep d) (d_random d) (d_calls d ++ c1 ++ c2 ++ if d_usleep d =? 0 then [] else [Usleep (u32 (d_usleep d))])).
Fixpoint main_loop (n : nat) (d : drm) : outcome drm :=
  match n with O => Ok d | S n => d ← main_iter d; main_loop n d end.
(** [main], until the [n]-th turn of the loop. *)
Definition main (n : nat) (argv : list string) : outcome drm := d ← main_setup argv; main_loop n d.
End Main.

(** ** The conversion *)

(** Byte [j] of the pixel buffer after the first [i] reads of the file: that
    of pixel [i - 1], or of the last pixel of the file that has one. *)
Definition held (file : list Z) (i j : nat) : Z :=
  if decide (i = 0 \/ length file <= j)%nat then 0
  else file !!! (4 * Nat.min (i - 1) ((length file - 1 - j) / 4) + j)%nat.
(** The pixel that a picture shows at position [i]: blue, green and red. *)
Definition picture (file : list Z) (i : nat) : list Z := [held file (S i) 2; held file (S i) 1; held file (S i) 0].

Lemma held_step file i j :
  (j < 4)%nat -> held file (S i) j = default (held file i j) (file !! (i * 4 + j)%nat).
Proof.
  intros Hj. unfold held. pose proof (Nat.div_mod_eq (length file - 1 - j) 4) as Hd.
  pose proof (Nat.mod_upper_bound (length file - 1 - j) 4 ltac:(lia)) as Hm.
  destruct (file !! (i * 4 + j)%nat) as [b|] eqn:E; cbn [from_option id].
  - pose proof (lookup_lt_Some _ _ _ E). rewrite decide_False by lia. apply list_lookup_total_correct.
    rewrite <- E. f_equal. lia.
  - apply lookup_ge_None in E. repeat case_decide; try lia.
    f_equal. lia.
Qed.

Lemma pread_lookup file buffer i j :
  length buffer = 4%nat -> (j < 4)%nat -> pread file buffer 4 (i * 4) !! j = 
    match file !! (i * 4 + j)%nat with Some b => Some b | None => buffer !! j end.
Proof.
  intros Hl Hj. unfold pread, buf_write. change (take 0 buffer) with (@nil Z). cbn [app].
  destruct (file !! (i * 4 + j)%nat) as [b|] eqn:E.
  - rewrite lookup_app_l; [by rewrite lookup_take_lt, lookup_drop by lia|].
    apply lookup_lt_Some in E. rewrite length_take, length_drop. lia.
  - apply lookup_ge_None in E. rewrite lookup_app_r by (rewrite length_take, length_drop; lia).
    rewrite lookup_drop. f_equal. cbn. rewrite length_take, length_drop. lia.
Qed.
Lemma length_pread file buffer i : length buffer = 4%nat -> length (pread file buffer 4 (i * 4)) = 4%nat.
Proof. intros. unfold pread. rewrite length_buf_write; [done|]. rewrite length_take. lia. Qed.

Lemma length_pictures file i n : length (seq i n ≫= picture file) = (3 * n)%nat.
Proof. revert i. induction n as [|n IH]; intros i; [done|]. cbn. rewrite IH. lia. Qed.

Lemma mminfo_pos i t : at_ mminfo i = Ok t -> 0 < hdisplay t /\ 0 < vdisplay t.
Proof.
  assert (Forall (fun t => 0 < hdisplay t /\ 0 < vdisplay t) mminfo) as Hp by (by repeat constructor).
  unfold at_. case_if; [|done]. destruct (mminfo !! Z.to_nat i) as [x|] eqn:E; [|done]. intros [= <-].
  by apply (proj1 (Forall_lookup _ _) Hp _ _ E).
Qed.

Lemma drop_pictures file n i rest :
  (i < n)%nat -> take 3 (drop (3 * i) ((seq 0 n ≫= picture file) ++ rest)) = picture file i.
Proof.
  intros Hi. replace n with (i + S (n - i - 1))%nat by lia. rewrite seq_app, bind_app, <- app_assoc.
  rewrite drop_app_length' by (by rewrite length_pictures). done.
Qed.

Lemma fill_pixels_ok file n i buffer fb :
  length buffer = 4%nat -> (forall j, (j < 4)%nat -> buffer !! j = Some (held file i j)) ->
  (3 * (i + n) <= length fb)%nat ->
  fill_pixels file n i buffer fb = Ok (buf_write fb (3 * i) (seq i n ≫= picture file)).
Proof.
  revert i buffer fb. induction n as [|n IH]; intros i buffer fb Hl Hb Hf.
  { unfold buf_write. cbn [fill_pixels seq mbind list_bind length app]. by rewrite Nat.add_0_r, take_drop. }
  cbn [fill_pixels]. set (b := pread file buffer 4 (i * 4)).
  assert (forall j, (j < 4)%nat -> b !! j = Some (held file (S i) j)) as Hb'.
  { intros j Hj. unfold b. rewrite pread_lookup, held_step by done.
    destruct (file !! (i * 4 + j)%nat); [done|]. by rewrite Hb. }
  rewrite !Hb' by lia. cbn [deref mbind outcome_bind].
  rewrite buf_store_in by (cbn; lia). cbn [deref mbind outcome_bind].
  rewrite IH; [|by apply length_pread|done|rewrite length_buf_write; cbn; lia].
  f_equal. cbn [seq list_bind mbind]. fold (mbind (M := list) (picture file)). fold (picture file i).
  replace (i * 3)%nat with (3 * i)%nat by lia.
  replace (3 * S i)%nat with (3 * i + length (picture file i))%nat by (cbn; lia).
  apply buf_write_app. cbn. lia.
Qed.

Lemma fill_frame_buffer_ok file fb timing t :
  at_ mminfo timing = Ok t -> (3 * Z.to_nat (hdisplay t * vdisplay t) <= length fb)%nat ->
  fill_frame_buffer file (Some fb) timing
    = Ok ((seq 0 (Z.to_nat (hdisplay t * vdisplay t)) ≫= picture file) ++ drop (3 * Z.to_nat (hdisplay t * vdisplay t)) fb).
Proof.
  intros Ht Hf. unfold fill_frame_buffer. rewrite Ht. cbn [deref mbind outcome_bind].
  rewrite fill_pixels_ok; [|done| |lia].
  - unfold buf_write. by rewrite Nat.mul_0_r, length_pictures.
  - intros [|[|[|[|j]]]] Hj; [done..|lia].
Qed.

(** property: the conversion of a file of any length: of the memory for the
    picture it writes three bytes for each pixel of the mode - blue, green
    and red of the file's pixel; behind the end of the file those of its last
    pixel (of a last pixel that is cut, the bytes that are there, with the
    rest of the one before), for an empty or unreadable file black - and
    leaves the rest. *)
Theorem fill_frame_buffer_spec file fb timing t :
  at_ mminfo timing = Ok t -> length fb = Z.to_nat (hdisplay t * vdisplay t * 4) ->
  exists fb', fill_frame_buffer file (Some fb) timing = Ok fb' /\ length fb' = length fb /\
  (forall i, (i < Z.to_nat (hdisplay t * vdisplay t))%nat ->
     take 3 (drop (3 * i) fb') = [held file (S i) 2; held file (S i) 1; held file (S i) 0]) /\
  drop (3 * Z.to_nat (hdisplay t * vdisplay t)) fb' = drop (3 * Z.to_nat (hdisplay t * vdisplay t)) fb.
Proof.
  intros Ht Hf. pose proof (mminfo_pos _ _ Ht). eexists. rewrite (fill_frame_buffer_ok file fb timing t Ht) by nia.
  split; [done|split; [|split]].
  - rewrite length_app, length_pictures, length_drop. nia.
  - intros i Hi. by apply drop_pictures.
  - rewrite drop_app_length' by (by rewrite length_pictures). done.
Qed.
Lemma fill_frame_buffer_spec_witness :
  let fb := replicate (Z.to_nat (600 * 240 * 4)) 7 in
  exists fb', fill_frame_buffer [1; 2; 3; 255; 4; 5] (Some fb) 5 = Ok fb' /\ length fb' = length fb /\
  (forall i, (i < Z.to_nat (600 * 240))%nat ->
     take 3 (drop (3 * i) fb') = [held [1; 2; 3; 255; 4; 5] (S i) 2; held [1; 2; 3; 255; 4; 5] (S i) 1; held [1; 2; 3; 255; 4; 5] (S i) 0]) /\
  drop (3 * Z.to_nat (600 * 240)) fb' = drop (3 * Z.to_nat (600 * 240)) fb.
Proof.
  intros fb. apply (fill_frame_buffer_spec [1; 2; 3; 255; 4; 5] fb 5 (Mode "600x240" 600 608 658 661 240 288 338 388 33750)); [done|].
  unfold fb. apply length_replicate.
Defined.

(** ** The loop *)

(** What one turn does when the picture fits: [src] and [mem] are the memory
    of the first picture and of the first buffer. *)
Record steady (d : drm) (t m : drmModeModeInfo) (bo : buffer_object) (src mem : list Z) : Prop := {
  st_random : d_random d = 0;
  st_timing : at_ mminfo (d_timing d) = Ok t;
  st_buf : d_buf d !! 0%nat = Some bo;
  st_frame : d_frame d !! 0%nat = Some (Some src);
  st_src : (Z.to_nat (hdisplay t * vdisplay t * 3) <= length src)%nat;
  st_vaddr : vaddr bo = Some mem;
  st_mode : at_ (d_modes d) (if hdisplay t =? 600 then 3 else d_mode_id d) = Ok m;
}.
Definition with_vaddr (bo : buffer_object) (mem : list Z) : buffer_object :=
  BO (width bo) (height bo) (pitch bo) (handle bo) (size bo) (Some mem) (fb_id bo).
Definition with_buf (d : drm) (bo : buffer_object) (cs : list call) : drm :=
  Drm (<[0%nat := bo]> (d_buf d)) (d_frame d) (d_modes d) (d_crtc d) (d_conn d) (d_timing d) (d_mode_id d)
    (d_usleep d) (d_random d) (d_calls d ++ cs).
(** The calls of a turn: a mode of 800 pixels is set twice. *)
Definition turn (d : drm) (t m : drmModeModeInfo) (bo : buffer_object) : list call :=
  replicate (if hdisplay t =? 800 then 2 else 1) (SetCrtc (d_crtc d) (fb_id bo) (d_conn d) m) ++
  if d_usleep d =? 0 then [] else [Usleep (u32 (d_usleep d))].
Definition pixels (t : drmModeModeInfo) : nat := Z.to_nat (hdisplay t * vdisplay t * 3).

Lemma at_0 {A} (l : list A) a : l !! 0%nat = Some a -> at_ l 0 = Ok a.
Proof. intros H. unfold at_. cbn [Z.leb Z.compare]. change (Z.to_nat 0) with 0%nat. by rewrite H. Qed.

Lemma fill_drm_ok d t m bo src mem :
  steady d t m bo src mem ->
  fill_drm (Some bo) (d_frame d) 0 (d_timing d) =
    if decide (pixels t <= length mem)%nat then Ok (0, Some (with_vaddr bo (take (pixels t) src ++ drop (pixels t) mem))) else Undefined.
Proof.
  intros [H1 H2 H3 H4 H5 H6 H7]. unfold fill_drm. rewrite H2. cbn [mbind outcome_bind].
  change (Z.rem 0 4) with 0. rewrite (at_0 _ _ H4). cbn [deref mbind outcome_bind]. rewrite H6. cbn [deref mbind outcome_bind]. rewrite decide_True by done. fold (pixels t) in *. unfold buf_store.
  assert (length (take (pixels t) src) = pixels t) as Hl by (rewrite length_take; lia).
  rewrite Hl. case_decide; case_decide; try lia; [|done].
  cbn [deref mbind outcome_bind]. unfold buf_write. by rewrite Hl.
Qed.

Lemma iter_ok d t m bo src mem :
  steady d t m bo src mem ->
  main_iter d = if decide (pixels t <= length mem)%nat
                then Ok (with_buf d (with_vaddr bo (take (pixels t) src ++ drop (pixels t) mem)) (turn d t m bo)) else Undefined.
Proof.
  intros H. pose proof (fill_drm_ok _ _ _ _ _ _ H) as Hf. destruct H as [H1 H2 H3 H4 H5 H6 H7]. unfold main_iter.
  rewrite H1. change (0 mod 4) with 0. change (s32 0) with 0. rewrite (at_0 _ _ H3). cbn [mbind outcome_bind]. rewrite Hf.
  case_decide; [|done]. cbn [deref mbind outcome_bind]. rewrite H2. cbn [mbind outcome_bind]. unfold show.
  unfold with_buf, turn. rewrite H1.
  destruct (hdisplay t =? 800) eqn:E8, (hdisplay t =? 600) eqn:E6; try lia; rewrite H7; done.
Qed.

Lemma steady_next d t m bo src mem cs :
  steady d t m bo src mem -> (pixels t <= length mem)%nat ->
  let mem' := take (pixels t) src ++ drop (pixels t) mem in
  steady (with_buf d (with_vaddr bo mem') cs) t m (with_vaddr bo mem') src mem' /\
  (pixels t <= length mem')%nat /\ take (pixels t) src ++ drop (pixels t) mem' = mem'.
Proof.
  intros [H1 H2 H3 H4 H5 H6 H7] Hm mem'. fold (pixels t) in *.
  assert (length (take (pixels t) src) = pixels t) as Hl by (rewrite length_take; lia).
  split; [|split].
  - split; try done. cbn. apply list_lookup_insert_eq. by apply lookup_lt_Some in H3.
  - unfold mem'. rewrite length_app. lia.
  - unfold mem'. by rewrite drop_app_length' by lia.
Qed.

Lemma with_buf_twice d bo cs bo' cs' : with_buf (with_buf d bo cs) bo' cs' = with_buf d bo' (cs ++ cs').
Proof. unfold with_buf. cbn. by rewrite list_insert_insert_eq, <- app_assoc. Qed.

Lemma loop_ok n d t m bo src mem :
  steady d t m bo src mem -> (pixels t <= length mem)%nat ->
  main_loop (S n) d = Ok (with_buf d (with_vaddr bo (take (pixels t) src ++ drop (pixels t) mem))
    (concat (replicate (S n) (turn d t m bo)))).
Proof.
  revert d bo mem. induction n as [|n IH]; intros d bo mem H Hm.
  - cbn [main_loop replicate concat]. rewrite (iter_ok _ _ _ _ _ _ H), decide_True by done. cbn. by rewrite app_nil_r.
  - destruct (steady_next d t m bo src mem (turn d t m bo) H Hm) as (H' & Hm' & He).
    change (main_loop (S (S n)) d) with (d ← main_iter d; main_loop (S n) d).
    rewrite (iter_ok _ _ _ _ _ _ H), decide_True by done. cbn [mbind outcome_bind].
    rewrite (IH _ _ _ H' Hm'), He, with_buf_twice. done.
Qed.

(** ** The whole program *)
Definition fresh (w h : Z) : buffer_object := BO w h 0 0 0 None 0.
(** The memory of the [k]-th picture after the conversion. *)
Definition frame_of (W : world) (t : drmModeModeInfo) (k : nat) (file : list Z) : list Z :=
  (seq 0 (Z.to_nat (hdisplay t * vdisplay t)) ≫= picture file) ++
  drop (3 * Z.to_nat (hdisplay t * vdisplay t)) (default [] (w_malloc W k (hdisplay t * vdisplay t * 4))).

(** Memory has the size that was asked for. *)
Class DrmLaws (W : world) : Prop := {
  law_malloc k n l : w_malloc W k n = Some l -> length l = Z.to_nat n;
  law_mmap k n o l : w_mmap W k n o = Some l -> length l = Z.to_nat n;
}.

Section Whole.
Variable W : world.
Context {LW : DrmLaws W}.
Variables (timing : Z) (t : drmModeModeInfo).
Hypothesis Htiming : at_ mminfo timing = Ok t.

Lemma create_all_ok files n w h :
  (forall k, (n <= k < n + length files)%nat -> is_Some (w_malloc W k (hdisplay t * vdisplay t * 4))) ->
  create_all W files n timing w h =
    Ok ((fun k => (modeset_create_fb W k (fresh w h)).1) <$> seq n (length files),
        imap (fun k file => Some (frame_of W t (n + k) file)) files,
        seq n (length files) ≫= fun k => (modeset_create_fb W k (fresh w h)).2).
Proof using LW Htiming.
  pose proof (mminfo_pos _ _ Htiming) as [Hh Hv].
  revert n. induction files as [|file files IH]; intros n Hm; [done|].
  cbn [create_all]. rewrite Htiming. cbn [mbind outcome_bind]. fold (fresh w h).
  destruct (modeset_create_fb W n (fresh w h)) as [bo cs] eqn:Eb.
  destruct (Hm n ltac:(cbn; lia)) as [l Hl]. pose proof (law_malloc _ _ _ Hl) as Hlen. rewrite Hl.
  rewrite (fill_frame_buffer_ok file l timing t Htiming) by nia. cbn [mbind outcome_bind].
  rewrite IH by (intros k Hk; apply Hm; cbn; lia). cbn [mbind outcome_bind length seq fmap list_fmap list_bind imap].
  rewrite Eb. cbn [fst snd]. do 3 f_equal. f_equal.
  - unfold frame_of. rewrite Nat.add_0_r, Hl. done.
  - apply imap_ext. intros k f _. cbn. do 2 f_equal. lia.
Qed.
End Whole.

(** A command line with all arguments. *)
Record setting := Setting {
  s_prog : string; s_card : string; s_crtc : string; s_us : string;
  s_f0 : string; s_f1 : string; s_f2 : string; s_f3 : string;
  s_timing : string; s_mode : string; s_rest : list string;
}.
Definition argv_of (s : setting) : list string :=
  s_prog s :: s_card s :: s_crtc s :: s_us s :: s_f0 s :: s_f1 s :: s_f2 s :: s_f3 s :: s_timing s :: s_mode s :: s_rest s.

(** The devices are there: a CRTC, a connector with modes, a mode of the
    table and one of the display, memory for the pictures and a mapping of
    the first buffer. *)
Record ready (W : world) (s : setting) (t m : drmModeModeInfo) (modes : list drmModeModeInfo) (conn w h : Z) (mem : list Z) : Prop := {
  rd_res : exists c cs conns, w_resources W = Some (c :: cs, conn :: conns);
  rd_conn : w_connector W conn = Some modes;
  rd_timing : at_ mminfo (atoi (s_timing s)) = Ok t;
  rd_dim : dimensions (atoi (s_timing s)) (atoi (s_mode s)) modes = Ok (w, h);
  rd_malloc : forall k, (k < 4)%nat -> is_Some (w_malloc W k (hdisplay t * vdisplay t * 4));
  rd_mode : at_ modes (if hdisplay t =? 600 then 3 else atoi (s_mode s)) = Ok m;
  rd_mmap : vaddr (modeset_create_fb W 0 (fresh w h)).1 = Some mem;
}.
(** The mode that is set: for 800 pixels the table's timing with the clock of
    the display. *)
Definition mode_set (t m : drmModeModeInfo) : drmModeModeInfo :=
  if hdisplay t =? 800
  then Mode (m_name m) (hdisplay t) (hsync_start t) (hsync_end t) (htotal t) (vdisplay t) (vsync_start t) (vsync_end t) (vtotal t) (clock m)
  else m.
Definition after_setup (W : world) (s : setting) (t m : drmModeModeInfo) (modes : list drmModeModeInfo) (conn w h : Z) : drm :=
  Drm ((fun k => (modeset_create_fb W k (fresh w h)).1) <$> seq 0 4)
    (imap (fun k file => Some (frame_of W t k file)) (w_file W <$> [Some (s_f0 s); Some (s_f1 s); Some (s_f2 s); Some (s_f3 s)]))
    (if hdisplay t =? 800 then <[Z.to_nat (atoi (s_mode s)) := mode_set t m]> modes else modes)
    (atoi (s_crtc s)) conn (atoi (s_timing s)) (atoi (s_mode s)) (atoi (s_us s)) 0
    (seq 0 4 ≫= fun k => (modeset_create_fb W k (fresh w h)).2).

Lemma at_insert {A} (l : list A) i x y : at_ l i = Ok x -> at_ (<[Z.to_nat i := y]> l) i = Ok y.
Proof.
  unfold at_. case_if; [|done]. destruct (l !! Z.to_nat i) eqn:E; [|done]. intros _.
  rewrite list_lookup_insert_eq; [done|]. by apply lookup_lt_Some in E.
Qed.

Section Program.
Variable W : world.
Context {LW : DrmLaws W}.

Lemma setup_ok s t m modes conn w h mem :
  ready W s t m modes conn w h mem -> main_setup W (argv_of s) = Ok (after_setup W s t m modes conn w h).
Proof using LW.
  intros [(c & cs & conns & Hr) Hc Ht Hd Hm Hmode Hv]. unfold main_setup, atoi_arg, arg, argv_of.
  rewrite decide_False by (cbn; lia). repeat rewrite decide_True by (cbn; lia).
  cbn [lookup list_lookup mbind outcome_bind deref]. rewrite Hr. change (at_ (c :: cs) 0) with (Ok c).
  change (at_ (conn :: conns) 0) with (Ok conn). cbn [mbind outcome_bind]. rewrite Hc. cbn [mbind outcome_bind deref].
  rewrite Hd. cbn [mbind outcome_bind].
  rewrite (create_all_ok W _ t Ht) by (intros k Hk; apply Hm; cbn in Hk; lia). cbn [mbind outcome_bind].
  rewrite Ht. cbn [mbind outcome_bind]. unfold after_setup, mode_set. destruct (hdisplay t =? 800) eqn:E; [|done].
  assert ((hdisplay t =? 600) = false) as E6 by lia. rewrite E6 in Hmode. rewrite Hmode. cbn [mbind outcome_bind].
  unfold init_timing. rewrite Ht. done.
Qed.

Lemma setup_steady s t m modes conn w h mem :
  ready W s t m modes conn w h mem ->
  steady (after_setup W s t m modes conn w h) t (mode_set t m) (modeset_create_fb W 0 (fresh w h)).1
    (frame_of W t 0 (w_file W (Some (s_f0 s)))) mem.
Proof using LW.
  intros [_ Hc Ht Hd Hm Hmode Hv]. pose proof (mminfo_pos _ _ Ht). split; try done.
  - unfold frame_of. rewrite length_app, length_pictures, length_drop. nia.
  - cbn [d_modes d_mode_id after_setup]. unfold mode_set. destruct (hdisplay t =? 800) eqn:E; [|done].
    assert ((hdisplay t =? 600) = false) as E6 by lia. rewrite E6 in *. by eapply at_insert.
Qed.

Lemma main_result n s t m modes conn w h mem :
  ready W s t m modes conn w h mem ->
  let d := after_setup W s t m modes conn w h in
  let bo := (modeset_create_fb W 0 (fresh w h)).1 in
  main W (S n) (argv_of s) =
    if decide (pixels t <= length mem)%nat
    then Ok (with_buf d (with_vaddr bo (take (pixels t) (frame_of W t 0 (w_file W (Some (s_f0 s)))) ++ drop (pixels t) mem))
               (concat (replicate (S n) (turn d t (mode_set t m) bo))))
    else Undefined.
Proof using LW.
  intros H d bo. pose proof (setup_steady _ _ _ _ _ _ _ _ H) as Hs. unfold main. rewrite (setup_ok _ _ _ _ _ _ _ _ H).
  cbn [mbind outcome_bind]. fold d. case_decide.
  - by rewrite (loop_ok _ _ _ _ _ _ _ Hs).
  - cbn [main_loop]. fold d bo in Hs. rewrite (iter_ok _ _ _ _ _ _ Hs), decide_False by done. done.
Qed.
End Program.

(** The pixel a CRTC reads at line [y], column [x] of a 24-bit buffer. *)
Definition scanout (bo : buffer_object) (x y : Z) : option (list Z) :=
  (fun mem => take 3 (drop (Z.to_nat (y * pitch bo + 3 * x)) mem)) <$> vaddr bo.

(** C33: what the program shows.  If the setup succeeds ([ready]: a CRTC, a
    connector with the modes asked for, a timing of the table, memory) and
    the first buffer is mapped and large enough for the picture - a smaller
    one is overrun, [drm_overrun] -, the loop runs for any number of turns:
    after the setup every turn sets the first buffer - no other - on the CRTC (twice for a
    mode of 800 pixels) and sleeps if asked.  The screen, with lines of
    [3 * q] bytes, has at (x, y) pixel [y * q + x] of the first file: the
    picture, if the pitch is that of the mode's width, and a skewed one
    otherwise. *)
Theorem drm_shows_first_picture (W : world) {LW : DrmLaws W} n s t m modes conn w h mem :
  ready W s t m modes conn w h mem -> hdisplay t * vdisplay t * 3 <= Z.of_nat (length mem) ->
  let bo := (modeset_create_fb W 0 (fresh w h)).1 in
  exists d bo', main W (S n) (argv_of s) = Ok d /\
    d_calls d = (seq 0 4 ≫= fun k => (modeset_create_fb W k (fresh w h)).2) ++
      concat (replicate (S n) (replicate (if hdisplay t =? 800 then 2 else 1) (SetCrtc (atoi (s_crtc s)) (fb_id bo) conn (mode_set t m)) ++
                               (if atoi (s_us s) =? 0 then [] else [Usleep (u32 (atoi (s_us s)))]))) /\
    d_buf d !! 0%nat = Some bo' /\ fb_id bo' = fb_id bo /\ pitch bo' = pitch bo /\
    forall q x y, pitch bo = 3 * q -> 0 <= x -> 0 <= y * q + x < hdisplay t * vdisplay t ->
      scanout bo' x y = Some (picture (w_file W (Some (s_f0 s))) (Z.to_nat (y * q + x))).
Proof.
  intros H Hl bo. pose proof (mminfo_pos _ _ (rd_timing _ _ _ _ _ _ _ _ _ H)).
  rewrite (main_result W n _ _ _ _ _ _ _ _ H), decide_True by (unfold pixels; lia).
  do 2 eexists. split; [done|]. do 4 (split; [done|]). intros q x y Hq Hx Hp.
  unfold scanout. cbn [with_vaddr vaddr pitch fmap option_fmap option_map]. fold bo. rewrite Hq. f_equal.
  replace (Z.to_nat (y * (3 * q) + 3 * x)) with (3 * Z.to_nat (y * q + x))%nat by lia.
  assert (pixels t = 3 * Z.to_nat (hdisplay t * vdisplay t))%nat as Hpx by (unfold pixels; lia).
  unfold frame_of. rewrite take_app_length' by (by rewrite length_pictures, Hpx). apply drop_pictures. lia.
Qed.

(** property: a buffer that is smaller than the picture is overrun in the
    first turn: the copy has the size of the table's mode, not that of the
    buffer. *)
Theorem drm_overrun (W : world) {LW : DrmLaws W} n s t m modes conn w h mem :
  ready W s t m modes conn w h mem -> Z.of_nat (length mem) < hdisplay t * vdisplay t * 3 ->
  main W (S n) (argv_of s) = Undefined.
Proof. intros H Hl. rewrite (main_result W n _ _ _ _ _ _ _ _ H), decide_False; [done|]. unfold pixels. lia. Qed.

(** property: the arguments: fewer than two end the program with status 2,
    two to eight - which the check lets pass - are undefined behaviour, the
    tenth word of the command line being used. *)
Theorem drm_arguments (W : world) n argv :
  ((length argv < 3)%nat -> main W n argv = Exit 2) /\
  ((3 <= length argv < 10)%nat -> main W n argv = Undefined).
Proof.
  split; intros H; unfold main, main_setup; [by rewrite decide_True|]. rewrite decide_False by lia.
  unfold atoi_arg, arg.
  do 3 (destruct argv as [|? argv]; [cbn in H; lia|]).
  do 7 (destruct argv as [|? argv]; [done|]). cbn in H. lia.
Qed.

(** property: the modes whose buffers have the program's own size, 800x480
    and 600x240, fit every buffer whose lines have room for the pixels. *)
Theorem drm_own_sizes_fit timing mode_id modes t w h p s :
  at_ mminfo timing = Ok t -> hdisplay t = 800 \/ hdisplay t = 600 ->
  dimensions timing mode_id modes = Ok (w, h) -> 3 * w <= p -> p * h <= s -> hdisplay t * vdisplay t * 3 <= s.
Proof.
  assert (Forall (fun t => (hdisplay t = 800 -> vdisplay t = 480) /\ (hdisplay t = 600 -> vdisplay t = 240)) mminfo) as Hp
    by (by repeat constructor).
  unfold dimensions. intros Ht Hc. rewrite Ht. cbn [mbind outcome_bind].
  assert ((hdisplay t = 800 -> vdisplay t = 480) /\ (hdisplay t = 600 -> vdisplay t = 240)) as [H8 H6].
  { unfold at_ in Ht. destruct (0 <=? timing); [|done]. destruct (mminfo !! Z.to_nat timing) as [x|] eqn:E; [|done].
    injection Ht as <-. by apply (proj1 (Forall_lookup _ _) Hp _ _ E). }
  destruct Hc as [Hc|Hc]; rewrite Hc; cbn [Z.eqb Pos.eqb]; intros [= <- <-] Hw Hs; [rewrite H8 by done|rewrite H6 by done]; nia.
Qed.
Lemma drm_own_sizes_fit_witness : 800 * 480 * 3 <= 2432 * 480.
Proof.
  apply (drm_own_sizes_fit 0 0 [] (Mode "800x480" 800 852 864 916 480 488 538 588 32316) 800 480 2432 (2432 * 480));
    [done|by left|done|done|done].
Defined.

(** ** A display *)
Definition hd720 : drmModeModeInfo := Mode "1280x720" 1280 1390 1430 1650 720 725 730 750 74250.
Definition screen : world := World (fun _ => [10; 20; 30; 255; 40; 50; 60; 255]) (Some ([86], [7])) (fun _ => Some [hd720; hd720; hd720; hd720])
  (fun _ n => Some (replicate (Z.to_nat n) 0)) (fun k w h bpp => (w * 3, w * 3 * h, Z.of_nat k + 1)) (fun h => 100 + h) (fun h => h * 4096)
  (fun _ n _ => Some (replicate (Z.to_nat n) 0)).
#[local] Instance screen_laws : DrmLaws screen.
Proof. split; intros; cbn in *; simplify_eq; apply length_replicate. Qed.
Definition cmd (timing : string) : setting := Setting "testdrm" "/dev/dri/card0" "86" "5000" "a" "b" "c" "d" timing "0" [].
Definition m600 : drmModeModeInfo := Mode "600x240" 600 608 658 661 240 288 338 388 33750.
Definition m1080 : drmModeModeInfo := Mode "1920x1080x60x148500vid" 1920 2008 2052 2200 1080 1084 1089 1125 148500.
Lemma screen_ready t timing w h :
  at_ mminfo (atoi timing) = Ok t -> dimensions (atoi timing) 0 [hd720; hd720; hd720; hd720] = Ok (w, h) ->
  ready screen (cmd timing) t hd720 [hd720; hd720; hd720; hd720] 7 w h (replicate (Z.to_nat (w * 3 * h)) 0).
Proof.
  intros Ht Hd. split; cbn [s_timing s_mode cmd]; try done.
  - by exists 86, [], [].
  - by destruct (hdisplay t =? 600).
Qed.
Lemma drm_shows_first_picture_witness :
  exists d bo', main screen 3 (argv_of (cmd "5")) = Ok d /\ d_buf d !! 0%nat = Some bo' /\
    scanout bo' 1 0 = Some [60; 50; 40] /\ scanout bo' 599 239 = Some [60; 50; 40].
Proof.
  destruct (drm_shows_first_picture screen 2 (cmd "5") m600 hd720 [hd720; hd720; hd720; hd720] 7 600 240 (replicate (Z.to_nat (600 * 3 * 240)) 0))
    as (d & bo' & Hm & _ & Hb & _ & _ & Hs).
  - by apply screen_ready.
  - rewrite length_replicate, Z2Nat.id by done. done.
  - exists d, bo'. split; [done|]. split; [done|].
    assert (pitch (modeset_create_fb screen 0 (fresh 600 240)).1 = 3 * 600) as Hp by reflexivity.
    change (hdisplay m600 * vdisplay m600) with 144000 in Hs.
    split; [rewrite (Hs 600 1 0 Hp) by lia|rewrite (Hs 600 599 239 Hp) by lia]; vm_compute; reflexivity.
Defined.
Lemma drm_overrun_witness : main screen 1 (argv_of (cmd "3")) = Undefined.
Proof.
  apply (drm_overrun screen 0 (cmd "3") m1080 hd720 [hd720; hd720; hd720; hd720] 7 1280 720 (replicate (Z.to_nat (1280 * 3 * 720)) 0)).
  - by apply screen_ready.
  - rewrite length_replicate, Z2Nat.id by done. done.
Defined.
Lemma drm_arguments_witness :
  main screen 1 ["testdrm"; "/dev/dri/card0"] = Exit 2 /\ main screen 1 ["testdrm"; "/dev/dri/card0"; "86"; "5000"] = Undefined.
Proof. split; [apply (proj1 (drm_arguments screen 1 ["testdrm"; "/dev/dri/card0"]))|apply (proj2 (drm_arguments screen 1 ["testdrm"; "/dev/dri/card0"; "86"; "5000"]))]; cbn; lia. Defined.
