(* ===== verification/HwRegs.v ===== *)
(** * Registers, bit fields and C structures

    The headers of the device controllers describe hardware by constants: for
    a register its offset, for each of its fields a mask, for a field the
    values it can have; and by C structures laid over the register file.
    This file says when such a description is consistent and what follows
    from that: an update of one field sets it and leaves the others, and the
    members of a structure lie where the compiler puts them, in order and
    without overlap.  The files of the controllers have the tables, and the
    macros and inline functions that use them. *)

From Stdlib Require Import ZArith.
From stdpp Require Import base list strings.
From S2P Require Import Prelude.

(** ** Masks *)

(** All bits of [a] are in [m]; no bit of [a] is in [m]; the bits of [m] are
    neighbours: adding the lowest one carries over all of them. *)
Definition within (a m : Z) : bool := Z.land a m =? a.
Definition apart (a m : Z) : bool := Z.land a m =? 0.
Definition lowest (m : Z) : Z := Z.land m (- m).
Definition contiguous (m : Z) : bool := apart m (m + lowest m).

(** The read-modify-write step: the bits of [pat] replaced by [val]. *)
Definition set_bits (old pat val : Z) : Z := Z.lor (Z.land old (Z.lnot pat)) val.

Ltac bits_by n :=
  apply Z.bits_inj'; intros n ?; 
  repeat first [rewrite Z.lor_spec | rewrite Z.land_spec | rewrite Z.lnot_spec by lia].

Ltac bool_cases := intuition congruence.

Lemma within_bit a m n : within a m = true -> Z.testbit a n = true -> Z.testbit m n = true.
Proof.
  unfold within. intros H%Z.eqb_eq Ha. rewrite <- H, Z.land_spec in Ha. by apply andb_true_iff in Ha as [].
Qed.
Lemma apart_bit a m n : apart a m = true -> Z.testbit a n && Z.testbit m n = false.
Proof. unfold apart. intros H%Z.eqb_eq. rewrite <- Z.land_spec, H. apply Z.bits_0. Qed.
Lemma apart_sym a m : apart a m = apart m a.
Proof. unfold apart. by rewrite Z.land_comm. Qed.
Lemma within_land a m : within (Z.land a m) m = true.
Proof. unfold within. apply Z.eqb_eq. by rewrite <- Z.land_assoc, Z.land_diag. Qed.
Lemma within_0 m : within 0 m = true.
Proof. done. Qed.

(** An update sets its field ... *)
Lemma set_bits_field old pat val : within val pat = true -> Z.land (set_bits old pat val) pat = val.
Proof.
  intros H. unfold set_bits. bits_by n. pose proof (within_bit val pat n H).
  destruct (Z.testbit old n), (Z.testbit pat n), (Z.testbit val n); simpl in *; bool_cases.
Qed.
(** ... and leaves every bit outside it. *)
Lemma set_bits_other old pat val m :
  within val pat = true -> apart m pat = true -> Z.land (set_bits old pat val) m = Z.land old m.
Proof.
  intros H Hm. unfold set_bits. bits_by n. pose proof (within_bit val pat n H). pose proof (apart_bit m pat n Hm).
  destruct (Z.testbit old n), (Z.testbit pat n), (Z.testbit val n), (Z.testbit m n); simpl in *; bool_cases.
Qed.
(** The last update of a field counts. *)
Lemma set_bits_twice old pat v1 v2 :
  within v1 pat = true -> set_bits (set_bits old pat v1) pat v2 = set_bits old pat v2.
Proof.
  intros H. unfold set_bits. bits_by n. pose proof (within_bit v1 pat n H).
  destruct (Z.testbit old n), (Z.testbit pat n), (Z.testbit v1 n), (Z.testbit v2 n); simpl in *; bool_cases.
Qed.
(** Updates of different fields commute. *)
Lemma set_bits_comm old p1 v1 p2 v2 :
  within v1 p1 = true -> within v2 p2 = true -> apart p1 p2 = true ->
  set_bits (set_bits old p1 v1) p2 v2 = set_bits (set_bits old p2 v2) p1 v1.
Proof.
  intros H1 H2 H. unfold set_bits. bits_by n. pose proof (within_bit v1 p1 n H1). pose proof (within_bit v2 p2 n H2).
  pose proof (apart_bit p1 p2 n H).
  destruct (Z.testbit old n), (Z.testbit p1 n), (Z.testbit p2 n), (Z.testbit v1 n), (Z.testbit v2 n); simpl in *; bool_cases.
Qed.

(** Bits above the width of a register. *)
Lemma high_bits w x : 0 <= w -> 0 <= x -> (0 <= x < 2 ^ w <-> forall n, w <= n -> Z.testbit x n = false).
Proof.
  intros Hw Hx. split.
  - intros H n Hn. rewrite <- (Z.mod_small x (2 ^ w)) by lia. by apply Z.mod_pow2_bits_high.
  - intros H. split; [done|]. destruct (Z.eq_dec x 0) as [->|Hx0]; [lia|].
    apply Z.log2_lt_pow2; [lia|]. destruct (Z.lt_ge_cases (Z.log2 x) w) as [|Hl]; [done|].
    pose proof (Z.bit_log2 x). rewrite H in *; [|done]. exfalso. assert (false = true) by (apply H0; lia). done.
Qed.
Lemma within_range w v m : 0 <= w -> 0 <= v -> within v m = true -> 0 <= m < 2 ^ w -> 0 <= v < 2 ^ w.
Proof.
  intros Hw H0 Hv Hm. apply high_bits; [done..|]. intros n Hn.
  pose proof (proj1 (high_bits w m Hw (proj1 Hm)) Hm n Hn) as Hb.
  destruct (Z.testbit v n) eqn:E; [|done]. by rewrite (within_bit v m n Hv E) in Hb.
Qed.
Lemma set_bits_range w old pat val :
  0 <= w -> 0 <= old < 2 ^ w -> 0 <= val < 2 ^ w -> 0 <= set_bits old pat val < 2 ^ w.
Proof.
  intros Hw Ho Hv. assert (0 <= set_bits old pat val) as H0.
  { unfold set_bits. apply Z.lor_nonneg. split; [|lia]. apply Z.land_nonneg. lia. }
  apply high_bits; [done..|]. intros n Hn. unfold set_bits. rewrite Z.lor_spec, Z.land_spec.
  rewrite (proj1 (high_bits w old Hw (proj1 Ho)) Ho n Hn), (proj1 (high_bits w val Hw (proj1 Hv)) Hv n Hn). done.
Qed.

#[export] Hint Resolve within_land within_0 : drv.

(** ** Tables of registers *)
Record field := Fld { f_name : string; f_mask : Z; f_values : list (string * Z) }.
(** The registers of one group have the same fields. *)
Record group := Grp { g_regs : list (string * Z); g_fields : list field }.

Definition field_ok (w : Z) (f : field) : bool :=
  (0 <? f_mask f) && (f_mask f <? 2 ^ w) && contiguous (f_mask f) && forallb (fun v => within (snd v) (f_mask f)) (f_values f).
Fixpoint all_apart (l : list Z) : bool :=
  match l with [] => true | m :: l => forallb (apart m) l && all_apart l end.
Definition group_ok (w : Z) (g : group) : bool :=
  forallb (field_ok w) (g_fields g) && all_apart (f_mask <$> g_fields g).
Definition table_ok (w : Z) (t : list group) : bool := forallb (group_ok w) t.

(** A register file: offsets are multiples of the width, none twice. *)
Definition offsets (t : list group) : list (string * Z) := t ≫= g_regs.
Definition aligned_offsets (bytes : Z) (l : list (string * Z)) : bool :=
  forallb (fun r => (0 <=? snd r) && (snd r mod bytes =? 0)) l.

Lemma all_apart_elem l i j a b :
  all_apart l = true -> l !! i = Some a -> l !! j = Some b -> i <> j -> apart a b = true.
Proof.
  revert i j. induction l as [|m l IH]; intros i j H Hi Hj Hij; [done|].
  cbn in H. apply andb_true_iff in H as [H1 H2]. rewrite forallb_forall in H1.
  destruct i as [|i], j as [|j]; cbn in Hi, Hj; simplify_eq.
  - apply H1. by apply list_elem_of_In, list_elem_of_lookup_2 with j.
  - rewrite apart_sym. apply H1. by apply list_elem_of_In, list_elem_of_lookup_2 with i.
  - apply (IH i j); [done..|congruence].
Qed.

Lemma group_field_ok w t g f : table_ok w t = true -> g ∈ t -> f ∈ g_fields g -> field_ok w f = true.
Proof.
  unfold table_ok. rewrite forallb_forall. intros H Hg Hf. apply list_elem_of_In in Hg, Hf.
  specialize (H g Hg). unfold group_ok in H. apply andb_true_iff in H as [H _]. rewrite forallb_forall in H. by apply H.
Qed.
Lemma group_fields_apart w t g i j f1 f2 :
  table_ok w t = true -> g ∈ t -> g_fields g !! i = Some f1 -> g_fields g !! j = Some f2 -> i <> j ->
  apart (f_mask f1) (f_mask f2) = true.
Proof.
  unfold table_ok. rewrite forallb_forall. intros H Hg Hi Hj Hij. apply list_elem_of_In in Hg.
  specialize (H g Hg). apply andb_true_iff in H as [_ H].
  apply (all_apart_elem _ i j _ _ H); [| |done]; by rewrite list_lookup_fmap, ?Hi, ?Hj.
Qed.
Lemma field_ok_range w f : field_ok w f = true -> 0 < f_mask f < 2 ^ w.
Proof. unfold field_ok. rewrite !andb_true_iff, !Z.ltb_lt. tauto. Qed.
Lemma field_ok_value w f s v : field_ok w f = true -> (s, v) ∈ f_values f -> within v (f_mask f) = true.
Proof.
  unfold field_ok. rewrite !andb_true_iff, !forallb_forall. intros [_ H] Hv. apply list_elem_of_In in Hv. by apply (H _ Hv).
Qed.

(** The update of a field in a table: it has the value, every other field of
    the group has what it had. *)
Lemma table_update w t g i f v old :
  table_ok w t = true -> g ∈ t -> g_fields g !! i = Some f -> within v (f_mask f) = true ->
  Z.land (set_bits old (f_mask f) v) (f_mask f) = v /\
  forall j f', g_fields g !! j = Some f' -> j <> i ->
    Z.land (set_bits old (f_mask f) v) (f_mask f') = Z.land old (f_mask f').
Proof.
  intros H Hg Hi Hv. split; [by apply set_bits_field|]. intros j f' Hj Hij. apply set_bits_other; [done|].
  by apply (group_fields_apart w t g j i).
Qed.

(** The same for a named value of the field. *)
Lemma table_set_value w t g i f s v old :
  table_ok w t = true -> g ∈ t -> g_fields g !! i = Some f -> (s, v) ∈ f_values f ->
  Z.land (set_bits old (f_mask f) v) (f_mask f) = v /\
  forall j f', g_fields g !! j = Some f' -> j <> i ->
    Z.land (set_bits old (f_mask f) v) (f_mask f') = Z.land old (f_mask f').
Proof.
  intros H Hg Hf Hv. apply (table_update w t g i f v old H Hg Hf).
  eapply field_ok_value; [|done]. eapply group_field_ok; [done..|]. by apply list_elem_of_lookup_2 with i.
Qed.

(** ** Fields with a position

    Headers that shift values into place give a field a mask and the position
    of its lowest bit; its values are those before the shift. *)
Record pfield := PF { p_name : string; p_mask : Z; p_ofs : Z; p_values : list (string * Z) }.
Record pgroup := PGrp { pg_regs : list (string * Z); pg_fields : list pfield }.
Definition bit (n : Z) : Z := Z.shiftl 1 n.
(** A field of one bit. *)
Definition B (name : string) (n : Z) : pfield := PF name (bit n) n [].

Definition p_size (f : pfield) : Z := Z.log2 (p_mask f) + 1 - p_ofs f.
Definition pfield_ok (w : Z) (f : pfield) : bool :=
  (0 <=? p_ofs f) && (0 <? p_size f) && (p_ofs f + p_size f <=? w) && (p_mask f =? Z.shiftl (Z.ones (p_size f)) (p_ofs f)) &&
  forallb (fun v => (0 <=? snd v) && (snd v <? 2 ^ p_size f)) (p_values f).
Definition pgroup_ok (w : Z) (g : pgroup) : bool :=
  forallb (pfield_ok w) (pg_fields g) && all_apart (p_mask <$> pg_fields g).
Definition ptable_ok (w : Z) (t : list pgroup) : bool := forallb (pgroup_ok w) t.

(** The value of a field, and a register with a new value in it. *)
Definition pf_get (f : pfield) (v : Z) : Z := Z.shiftr (Z.land v (p_mask f)) (p_ofs f).
Definition pf_set (f : pfield) (v x : Z) : Z := set_bits v (p_mask f) (Z.land (Z.shiftl x (p_ofs f)) (p_mask f)).

Lemma pfield_ok_props w f :
  pfield_ok w f = true -> 0 <= p_ofs f /\ 0 < p_size f /\ p_ofs f + p_size f <= w /\ p_mask f = Z.shiftl (Z.ones (p_size f)) (p_ofs f).
Proof. unfold pfield_ok. rewrite !andb_true_iff, !Z.leb_le, Z.ltb_lt, Z.eqb_eq. tauto. Qed.
Lemma pmask_range w f : pfield_ok w f = true -> 0 <= p_mask f < 2 ^ w.
Proof.
  intros (Ho & Hs & Hw & ->)%pfield_ok_props. rewrite Z.shiftl_mul_pow2, Z.ones_equiv by lia.
  pose proof (Z.pow_pos_nonneg 2 (p_ofs f) ltac:(lia) Ho). pose proof (Z.pow_pos_nonneg 2 (p_size f) ltac:(lia) ltac:(lia)).
  pose proof (Z.pow_le_mono_r 2 (p_ofs f + p_size f) w ltac:(lia) Hw). rewrite Z.pow_add_r in * by lia. nia.
Qed.
Lemma pf_get_set w f v x : pfield_ok w f = true -> pf_get f (pf_set f v x) = x mod 2 ^ p_size f.
Proof.
  intros (Ho & Hs & _ & Hm)%pfield_ok_props. unfold pf_get, pf_set.
  rewrite set_bits_field by apply within_land. rewrite Z.shiftr_land, Hm, !Z.shiftr_shiftl_l, Z.sub_diag, !Z.shiftl_0_r by lia.
  apply Z.land_ones. lia.
Qed.
Lemma pf_get_other f g v x : apart (p_mask g) (p_mask f) = true -> pf_get g (pf_set f v x) = pf_get g v.
Proof. intros H. unfold pf_get, pf_set. by rewrite set_bits_other by (done || apply within_land). Qed.

(** A value that is cut first and shifted then. *)
Definition pf_val (f : pfield) (x : Z) : Z := Z.shiftl (Z.land x (Z.ones (p_size f))) (p_ofs f).
Lemma pf_val_land w f x : pfield_ok w f = true -> pf_val f x = Z.land (Z.shiftl x (p_ofs f)) (p_mask f).
Proof. intros (Ho & Hs & _ & ->)%pfield_ok_props. unfold pf_val. by rewrite Z.shiftl_land. Qed.

Lemma ptable_field w t g i f :
  ptable_ok w t = true -> g ∈ t -> pg_fields g !! i = Some f -> pfield_ok w f = true.
Proof.
  unfold ptable_ok. rewrite forallb_forall. intros H Hg Hf. apply list_elem_of_In in Hg. apply list_elem_of_lookup_2, list_elem_of_In in Hf.
  specialize (H g Hg). apply andb_true_iff in H as [H _]. rewrite forallb_forall in H. by apply H.
Qed.
Lemma ptable_apart w t g i j f1 f2 :
  ptable_ok w t = true -> g ∈ t -> pg_fields g !! i = Some f1 -> pg_fields g !! j = Some f2 -> i <> j ->
  apart (p_mask f1) (p_mask f2) = true.
Proof.
  unfold ptable_ok. rewrite forallb_forall. intros H Hg Hi Hj Hij. apply list_elem_of_In in Hg.
  specialize (H g Hg). apply andb_true_iff in H as [_ H].
  apply (all_apart_elem _ i j _ _ H); [| |done]; by rewrite list_lookup_fmap, ?Hi, ?Hj.
Qed.

(** A value written to a field of a table is read from it, the other fields
    are as they were. *)
Lemma ptable_update w t g i f v x :
  ptable_ok w t = true -> g ∈ t -> pg_fields g !! i = Some f ->
  pf_get f (pf_set f v x) = x mod 2 ^ p_size f /\
  forall j f', pg_fields g !! j = Some f' -> j <> i -> pf_get f' (pf_set f v x) = pf_get f' v.
Proof.
  intros H Hg Hi. split; [by eapply pf_get_set, ptable_field|]. intros j f' Hj Hij. apply pf_get_other.
  by apply (ptable_apart w t g j i).
Qed.

(** Reducing to the width of a register changes nothing under a mask. *)
Lemma land_wrap w a m : 0 <= w -> 0 <= m < 2 ^ w -> Z.land (wrap w a) m = Z.land a m.
Proof.
  intros Hw Hm. unfold wrap. rewrite <- Z.land_ones by done. bits_by n.
  destruct (Z.lt_ge_cases n w) as [Hn|Hn].
  - rewrite Z.ones_spec_low by lia. by rewrite andb_true_r.
  - by rewrite (proj1 (high_bits w m Hw (proj1 Hm)) Hm n Hn), !andb_false_r.
Qed.
Lemma land_wrap_lnot w a m : 0 <= w -> 0 <= a < 2 ^ w -> Z.land a (wrap w (Z.lnot m)) = Z.land a (Z.lnot m).
Proof. intros Hw Ha. rewrite (Z.land_comm a), land_wrap, Z.land_comm by done. done. Qed.

(** A shifted mask cuts out the shifted bits. *)
Lemma land_shiftl a m k : 0 <= k -> Z.land a (Z.shiftl m k) = Z.shiftl (Z.land (Z.shiftr a k) m) k.
Proof.
  intros Hk. bits_by n. rewrite !Z.shiftl_spec by done. rewrite Z.land_spec. destruct (Z.lt_ge_cases n k) as [Hn|Hn].
  - rewrite (Z.testbit_neg_r m), (Z.testbit_neg_r (Z.shiftr a k)) by lia. by rewrite andb_false_r.
  - rewrite Z.shiftr_spec by lia. by replace (n - k + k) with n by lia.
Qed.

(** ** C structures *)
Inductive cty := U8 | U16 | U32 | Ptr | Dma | Arr (n : Z) (t : cty).

Definition align_up (pos a : Z) : Z := (pos + a - 1) / a * a.
Lemma align_up_spec pos a : 0 < a -> pos <= align_up pos a < pos + a /\ align_up pos a mod a = 0.
Proof.
  intros Ha. unfold align_up. split; [|by apply Z.mod_mul; lia].
  pose proof (Z.div_mod (pos + a - 1) a). pose proof (Z.mod_pos_bound (pos + a - 1) a). nia.
Qed.

Section Layout.
(** The sizes of a pointer and of [dma_addr_t]. *)
Variables PTR DMA : Z.

Fixpoint sizeof (t : cty) : Z :=
  match t with U8 => 1 | U16 => 2 | U32 => 4 | Ptr => PTR | Dma => DMA | Arr n t => n * sizeof t end.
Fixpoint alignof (t : cty) : Z :=
  match t with U8 => 1 | U16 => 2 | U32 => 4 | Ptr => PTR | Dma => DMA | Arr _ t => alignof t end.
Fixpoint sane (t : cty) : bool := match t with Arr n t => (0 <=? n) && sane t | _ => true end.

(** The members with their offsets, from a position on. *)
Fixpoint members (pos : Z) (l : list (string * cty)) : list (string * (Z * Z)) :=
  match l with
  | [] => []
  | (n, t) :: l => let o := align_up pos (alignof t) in (n, (o, sizeof t)) :: members (o + sizeof t) l
  end.
Definition offsetof (l : list (string * cty)) (n : string) : option Z :=
  match list_find (fun m => m.1 = n) (members 0 l) with Some (_, (_, (o, _))) => Some o | None => None end.
Definition end_of (l : list (string * cty)) : Z :=
  match last (members 0 l) with Some (_, (o, s)) => o + s | None => 0 end.
Definition struct_align (l : list (string * cty)) : Z := foldr (fun m a => Z.max (alignof m.2) a) 1 l.
Definition struct_size (l : list (string * cty)) : Z := align_up (end_of l) (struct_align l).

Hypothesis PTR_pos : 0 < PTR.
Hypothesis DMA_pos : 0 < DMA.

Lemma alignof_pos t : 0 < alignof t.
Proof using PTR_pos DMA_pos. induction t; simpl; lia. Qed.
Lemma sizeof_nonneg t : sane t = true -> 0 <= sizeof t.
Proof using PTR_pos DMA_pos.
  induction t; simpl; try lia. rewrite andb_true_iff, Z.leb_le. intros [? ?]. specialize (IHt H0). nia.
Qed.

(** Every member is aligned and begins where the ones before it have ended. *)
Lemma members_ok l pos i n o s :
  forallb (fun m => sane m.2) l = true -> members pos l !! i = Some (n, (o, s)) ->
  exists t, l !! i = Some (n, t) /\ s = sizeof t /\ 0 <= s /\ pos <= o /\ o mod alignof t = 0 /\
    forall j n' o' s', (j < i)%nat -> members pos l !! j = Some (n', (o', s')) -> o' + s' <= o.
Proof using PTR_pos DMA_pos.
  revert pos i. induction l as [|[m t] l IH]; intros pos i Hs H; [done|].
  cbn [forallb snd] in Hs. apply andb_true_iff in Hs as [Ht Hs].
  pose proof (align_up_spec pos _ (alignof_pos t)) as [Hu Hm]. pose proof (sizeof_nonneg t Ht) as H0.
  destruct i as [|i]; cbn [members lookup list_lookup] in H.
  - injection H as <- <- <-. exists t. repeat split; [done|lia|done|]. intros. lia.
  - apply IH in H as (t' & ? & ? & ? & Ho & ? & Hb); [|done]. exists t'. repeat split; [done..|lia|done|].
    intros [|j] n' o' s' Hj Hl; cbn [members lookup list_lookup] in Hl.
    + injection Hl as <- <- <-. lia.
    + apply (Hb j n'); [lia|done].
Qed.
End Layout.
