(* ===== verification/Renesas.v ===== *)
(** * The Renesas controllers (test_gadget/m66592-udc.h, r8a66597-udc.h)

    The headers of the M66592 and R8A66597 device controllers: registers with
    their fields ([M66592]), pipes, and the inline functions that access
    registers and move packets through the FIFO ports.

    The bus is the class [Mmio].  A FIFO port is a register: every access
    moves the next bytes.  The repeated accesses of the kernel move words
    between the port and memory as they are, and the processor is
    little-endian, so a word of the port has the bytes [le_bytes].  Buffers
    are lists of bytes; reading or writing outside one is [None].  The
    constants of the kernel's r8a66597.h and the address of a buffer, which
    decides how it is copied, are parameters. *)

From Stdlib Require Import ZArith.
From stdpp Require Import base list strings.
From S2P Require Import Prelude HwRegs.

(** ** The registers of the M66592

    A register that is described in two ways has a group for each: the
    device state with and without the suspend bit, the parts of the setup
    packet.  The widths of a FIFO port have no mask of their own. *)
Module M66592.
Definition SYSCFG : group := Grp
  [("M66592_SYSCFG", 0x00)]
  [Fld "M66592_XTAL" 0xC000 [("M66592_XTAL48", 0x8000); ("M66592_XTAL24", 0x4000); ("M66592_XTAL12", 0x0000)];
   Fld "M66592_XCKE" 0x2000 []; Fld "M66592_RCKE" 0x1000 []; Fld "M66592_PLLC" 0x0800 [];
   Fld "M66592_SCKE" 0x0400 []; Fld "M66592_ATCKM" 0x0100 []; Fld "M66592_HSE" 0x0080 [];
   Fld "M66592_DCFM" 0x0040 []; Fld "M66592_DMRPD" 0x0020 []; Fld "M66592_DPRPU" 0x0010 [];
   Fld "M66592_FSRPC" 0x0004 []; Fld "M66592_PCUT" 0x0002 []; Fld "M66592_USBE" 0x0001 []].

Definition SYSSTS : group := Grp
  [("M66592_SYSSTS", 0x02)]
  [Fld "M66592_LNST" 0x0003 [("M66592_SE1", 0x0003); ("M66592_KSTS", 0x0002); ("M66592_JSTS", 0x0001);
     ("M66592_SE0", 0x0000)]].

Definition DVSTCTR : group := Grp
  [("M66592_DVSTCTR", 0x04)]
  [Fld "M66592_WKUP" 0x0100 []; Fld "M66592_RWUPE" 0x0080 []; Fld "M66592_USBRST" 0x0040 [];
   Fld "M66592_RESUME" 0x0020 []; Fld "M66592_UACT" 0x0010 [];
   Fld "M66592_RHST" 0x0003 [("M66592_HSMODE", 0x0003); ("M66592_FSMODE", 0x0002); ("M66592_HSPROC", 0x0001)]].

Definition TESTMODE : group := Grp
  [("M66592_TESTMODE", 0x06)]
  [Fld "M66592_UTST" 0x000F [("M66592_H_TST_PACKET", 0x000C); ("M66592_H_TST_SE0_NAK", 0x000B);
     ("M66592_H_TST_K", 0x000A); ("M66592_H_TST_J", 0x0009); ("M66592_H_TST_NORMAL", 0x0000);
     ("M66592_P_TST_PACKET", 0x0004); ("M66592_P_TST_SE0_NAK", 0x0003); ("M66592_P_TST_K", 0x0002);
     ("M66592_P_TST_J", 0x0001); ("M66592_P_TST_NORMAL", 0x0000)]].

Definition FBCFG : group := Grp
  [("M66592_CFBCFG", 0x0A); ("M66592_D0FBCFG", 0x0C)]
  [Fld "M66592_LITTLE" 0x0100 []].

Definition PINCFG : group := Grp
  [("M66592_PINCFG", 0x0A)]
  [Fld "M66592_LDRV" 0x8000 []; Fld "M66592_BIGEND" 0x0100 []].

Definition DMACFG : group := Grp
  [("M66592_DMA0CFG", 0x0C); ("M66592_DMA1CFG", 0x0E)]
  [Fld "M66592_DREQA" 0x4000 []; Fld "M66592_BURST" 0x2000 []; Fld "M66592_DACKA" 0x0400 [];
   Fld "M66592_DFORM" 0x0380 [("M66592_CPU_ADR_RD_WR", 0x0000); ("M66592_CPU_DACK_RD_WR", 0x0100);
     ("M66592_CPU_DACK_ONLY", 0x0180); ("M66592_SPLIT_DACK_ONLY", 0x0200); ("M66592_SPLIT_DACK_DSTB", 0x0300)];
   Fld "M66592_DENDA" 0x0040 []; Fld "M66592_PKTM" 0x0020 []; Fld "M66592_DENDE" 0x0010 [];
   Fld "M66592_OBUS" 0x0004 []].

Definition FIFO : group := Grp
  [("M66592_CFIFO", 0x10); ("M66592_D0FIFO", 0x14); ("M66592_D1FIFO", 0x18)]
  [].

Definition FIFOSEL : group := Grp
  [("M66592_CFIFOSEL", 0x1E); ("M66592_D0FIFOSEL", 0x24); ("M66592_D1FIFOSEL", 0x2A)]
  [Fld "M66592_RCNT" 0x8000 []; Fld "M66592_REW" 0x4000 []; Fld "M66592_DCLRM" 0x2000 [];
   Fld "M66592_DREQE" 0x1000 []; Fld "M66592_MBW_16" 0x0400 [("M66592_MBW_8", 0x0000)];
   Fld "M66592_MBW_32" 0x0800 []; Fld "M66592_TRENB" 0x0200 []; Fld "M66592_TRCLR" 0x0100 [];
   Fld "M66592_DEZPM" 0x0080 []; Fld "M66592_ISEL" 0x0020 []; Fld "M66592_CURPIPE" 0x0007 []].

Definition FIFOCTR : group := Grp
  [("M66592_CFIFOCTR", 0x20); ("M66592_D0FIFOCTR", 0x26); ("M66592_D1FIFOCTR", 0x2c)]
  [Fld "M66592_BVAL" 0x8000 []; Fld "M66592_BCLR" 0x4000 []; Fld "M66592_FRDY" 0x2000 [];
   Fld "M66592_DTLN" 0x0FFF []].

Definition FIFOSIE : group := Grp
  [("M66592_CFIFOSIE", 0x22)]
  [Fld "M66592_TGL" 0x8000 []; Fld "M66592_SCLR" 0x4000 []; Fld "M66592_SBUSY" 0x2000 []].

Definition FIFOTRN : group := Grp
  [("M66592_D0FIFOTRN", 0x28); ("M66592_D1FIFOTRN", 0x2E)]
  [Fld "M66592_TRNCNT" 0xFFFF []].

Definition INTENB0 : group := Grp
  [("M66592_INTENB0", 0x30)]
  [Fld "M66592_VBSE" 0x8000 []; Fld "M66592_RSME" 0x4000 []; Fld "M66592_SOFE" 0x2000 [];
   Fld "M66592_DVSE" 0x1000 []; Fld "M66592_CTRE" 0x0800 []; Fld "M66592_BEMPE" 0x0400 [];
   Fld "M66592_NRDYE" 0x0200 []; Fld "M66592_BRDYE" 0x0100 []; Fld "M66592_URST" 0x0080 [];
   Fld "M66592_SADR" 0x0040 []; Fld "M66592_SCFG" 0x0020 []; Fld "M66592_SUSP" 0x0010 [];
   Fld "M66592_WDST" 0x0008 []; Fld "M66592_RDST" 0x0004 []; Fld "M66592_CMPL" 0x0002 [];
   Fld "M66592_SERR" 0x0001 []].

Definition INTENB1 : group := Grp
  [("M66592_INTENB1", 0x32)]
  [Fld "M66592_BCHGE" 0x4000 []; Fld "M66592_DTCHE" 0x1000 []; Fld "M66592_SIGNE" 0x0020 [];
   Fld "M66592_SACKE" 0x0010 []; Fld "M66592_BRDYM" 0x0004 []; Fld "M66592_INTL" 0x0002 [];
   Fld "M66592_PCSE" 0x0001 []].

Definition BRDY : group := Grp
  [("M66592_BRDYENB", 0x36); ("M66592_BRDYSTS", 0x46)]
  [Fld "M66592_BRDY7" 0x0080 []; Fld "M66592_BRDY6" 0x0040 []; Fld "M66592_BRDY5" 0x0020 [];
   Fld "M66592_BRDY4" 0x0010 []; Fld "M66592_BRDY3" 0x0008 []; Fld "M66592_BRDY2" 0x0004 [];
   Fld "M66592_BRDY1" 0x0002 []; Fld "M66592_BRDY0" 0x0001 []].

Definition NRDY : group := Grp
  [("M66592_NRDYENB", 0x38); ("M66592_NRDYSTS", 0x48)]
  [Fld "M66592_NRDY7" 0x0080 []; Fld "M66592_NRDY6" 0x0040 []; Fld "M66592_NRDY5" 0x0020 [];
   Fld "M66592_NRDY4" 0x0010 []; Fld "M66592_NRDY3" 0x0008 []; Fld "M66592_NRDY2" 0x0004 [];
   Fld "M66592_NRDY1" 0x0002 []; Fld "M66592_NRDY0" 0x0001 []].

Definition BEMP : group := Grp
  [("M66592_BEMPENB", 0x3A); ("M66592_BEMPSTS", 0x4A)]
  [Fld "M66592_BEMP7" 0x0080 []; Fld "M66592_BEMP6" 0x0040 []; Fld "M66592_BEMP5" 0x0020 [];
   Fld "M66592_BEMP4" 0x0010 []; Fld "M66592_BEMP3" 0x0008 []; Fld "M66592_BEMP2" 0x0004 [];
   Fld "M66592_BEMP1" 0x0002 []; Fld "M66592_BEMP0" 0x0001 []].

Definition SOFCFG : group := Grp
  [("M66592_SOFCFG", 0x3C)]
  [Fld "M66592_SOFM" 0x000C [("M66592_SOF_125US", 0x0008); ("M66592_SOF_1MS", 0x0004);
     ("M66592_SOF_DISABLE", 0x0000)]].

Definition INTSTS0 : group := Grp
  [("M66592_INTSTS0", 0x40)]
  [Fld "M66592_VBINT" 0x8000 []; Fld "M66592_RESM" 0x4000 []; Fld "M66592_SOFR" 0x2000 [];
   Fld "M66592_DVST" 0x1000 []; Fld "M66592_CTRT" 0x0800 []; Fld "M66592_BEMP" 0x0400 [];
   Fld "M66592_NRDY" 0x0200 []; Fld "M66592_BRDY" 0x0100 []; Fld "M66592_VBSTS" 0x0080 [];
   Fld "M66592_DVSQ" 0x0070 [("M66592_DS_SPD_CNFG", 0x0070); ("M66592_DS_SPD_ADDR", 0x0060);
     ("M66592_DS_SPD_DFLT", 0x0050); ("M66592_DS_SPD_POWR", 0x0040); ("M66592_DS_SUSP", 0x0040);
     ("M66592_DS_CNFG", 0x0030); ("M66592_DS_ADDS", 0x0020); ("M66592_DS_DFLT", 0x0010);
     ("M66592_DS_POWR", 0x0000)];
   Fld "M66592_VALID" 0x0008 [];
   Fld "M66592_CTSQ" 0x0007 [("M66592_CS_SQER", 0x0006); ("M66592_CS_WRND", 0x0005); ("M66592_CS_WRSS", 0x0004);
     ("M66592_CS_WRDS", 0x0003); ("M66592_CS_RDSS", 0x0002); ("M66592_CS_RDDS", 0x0001);
     ("M66592_CS_IDST", 0x0000)]].

Definition INTSTS0_parts : group := Grp
  [("M66592_INTSTS0", 0x40)]
  [Fld "M66592_DVSQS" 0x0030 []].

Definition INTSTS1 : group := Grp
  [("M66592_INTSTS1", 0x42)]
  [Fld "M66592_BCHG" 0x4000 []; Fld "M66592_DTCH" 0x1000 []; Fld "M66592_SIGN" 0x0020 [];
   Fld "M66592_SACK" 0x0010 []].

Definition FRMNUM : group := Grp
  [("M66592_FRMNUM", 0x4C)]
  [Fld "M66592_OVRN" 0x8000 []; Fld "M66592_CRCE" 0x4000 []; Fld "M66592_SOFRM" 0x0800 [];
   Fld "M66592_FRNM" 0x07FF []].

Definition UFRMNUM : group := Grp
  [("M66592_UFRMNUM", 0x4E)]
  [Fld "M66592_UFRNM" 0x0007 []].

Definition RECOVER : group := Grp
  [("M66592_RECOVER", 0x50)]
  [Fld "M66592_STSRECOV" 0x0700 [("M66592_STSR_HI", 0x0400); ("M66592_STSR_DEFAULT", 0x0100);
     ("M66592_STSR_ADDRESS", 0x0200); ("M66592_STSR_CONFIG", 0x0300)];
   Fld "M66592_USBADDR" 0x007F []].

Definition USBREQ : group := Grp
  [("M66592_USBREQ", 0x54)]
  [Fld "M66592_bRequest" 0xFF00 [("M66592_GET_STATUS", 0x0000); ("M66592_CLEAR_FEATURE", 0x0100);
     ("M66592_ReqRESERVED", 0x0200); ("M66592_SET_FEATURE", 0x0300); ("M66592_ReqRESERVED1", 0x0400);
     ("M66592_SET_ADDRESS", 0x0500); ("M66592_GET_DESCRIPTOR", 0x0600); ("M66592_SET_DESCRIPTOR", 0x0700);
     ("M66592_GET_CONFIGURATION", 0x0800); ("M66592_SET_CONFIGURATION", 0x0900); ("M66592_GET_INTERFACE", 0x0A00);
     ("M66592_SET_INTERFACE", 0x0B00); ("M66592_SYNCH_FRAME", 0x0C00)];
   Fld "M66592_bmRequestType" 0x00FF []].

Definition USBREQ_parts : group := Grp
  [("M66592_USBREQ", 0x54)]
  [Fld "M66592_bmRequestTypeDir" 0x0080 [("M66592_HOST_TO_DEVICE", 0x0000); ("M66592_DEVICE_TO_HOST", 0x0080)];
   Fld "M66592_bmRequestTypeType" 0x0060 [("M66592_STANDARD", 0x0000); ("M66592_CLASS", 0x0020);
     ("M66592_VENDOR", 0x0040)];
   Fld "M66592_bmRequestTypeRecip" 0x001F [("M66592_DEVICE", 0x0000); ("M66592_INTERFACE", 0x0001);
     ("M66592_ENDPOINT", 0x0002)]].

Definition USBVAL : group := Grp
  [("M66592_USBVAL", 0x56)]
  [Fld "M66592_wValue" 0xFFFF [("M66592_ENDPOINT_HALT", 0x0000); ("M66592_DEVICE_REMOTE_WAKEUP", 0x0001);
     ("M66592_TEST_MODE", 0x0002)]].

Definition USBVAL_parts : group := Grp
  [("M66592_USBVAL", 0x56)]
  [Fld "M66592_DT_TYPE" 0xFF00 []; Fld "M66592_DT_INDEX" 0x00FF []].

Definition DT_types : list (string * Z) :=
  [("M66592_DT_DEVICE", 0x01); ("M66592_DT_CONFIGURATION", 0x02); ("M66592_DT_STRING", 0x03); ("M66592_DT_INTERFACE", 0x04); ("M66592_DT_ENDPOINT", 0x05); ("M66592_DT_DEVICE_QUALIFIER", 0x06); ("M66592_DT_OTHER_SPEED_CONFIGURATION", 0x07); ("M66592_DT_INTERFACE_POWER", 0x08)].

Definition USBVAL_CONF_NUM : group := Grp
  [("M66592_USBVAL", 0x56)]
  [Fld "M66592_CONF_NUM" 0x00FF []].

Definition USBVAL_ALT_SET : group := Grp
  [("M66592_USBVAL", 0x56)]
  [Fld "M66592_ALT_SET" 0x00FF []].

Definition USBINDEX : group := Grp
  [("M66592_USBINDEX", 0x58)]
  [Fld "M66592_wIndex" 0xFFFF []].

Definition USBINDEX_parts : group := Grp
  [("M66592_USBINDEX", 0x58)]
  [Fld "M66592_TEST_SELECT" 0xFF00 [("M66592_TEST_J", 0x0100); ("M66592_TEST_K", 0x0200);
     ("M66592_TEST_SE0_NAK", 0x0300); ("M66592_TEST_PACKET", 0x0400); ("M66592_TEST_FORCE_ENABLE", 0x0500);
     ("M66592_TEST_STSelectors", 0x0600); ("M66592_TEST_Reserved", 0x4000); ("M66592_TEST_VSTModes", 0xC000)];
   Fld "M66592_EP_DIR" 0x0080 [("M66592_EP_DIR_IN", 0x0080); ("M66592_EP_DIR_OUT", 0x0000)]].

Definition USBLENG : group := Grp
  [("M66592_USBLENG", 0x5A)]
  [Fld "M66592_wLength" 0xFFFF []].

Definition DCPCFG : group := Grp
  [("M66592_DCPCFG", 0x5C)]
  [Fld "M66592_CNTMD" 0x0100 []; Fld "M66592_DIR" 0x0010 []].

Definition DCPMAXP : group := Grp
  [("M66592_DCPMAXP", 0x5E)]
  [Fld "M66592_DEVSEL" 0xC000 [("M66592_DEVICE_0", 0x0000); ("M66592_DEVICE_1", 0x4000);
     ("M66592_DEVICE_2", 0x8000); ("M66592_DEVICE_3", 0xC000)];
   Fld "M66592_MAXP" 0x007F []].

Definition DCPCTR : group := Grp
  [("M66592_DCPCTR", 0x60)]
  [Fld "M66592_BSTS" 0x8000 []; Fld "M66592_SUREQ" 0x4000 []; Fld "M66592_SQCLR" 0x0100 [];
   Fld "M66592_SQSET" 0x0080 []; Fld "M66592_SQMON" 0x0040 []; Fld "M66592_CCPL" 0x0004 [];
   Fld "M66592_PID" 0x0003 [("M66592_PID_STALL", 0x0002); ("M66592_PID_BUF", 0x0001); ("M66592_PID_NAK", 0x0000)]].

Definition PIPESEL : group := Grp
  [("M66592_PIPESEL", 0x64)]
  [Fld "M66592_PIPENM" 0x0007 [("M66592_PIPE0", 0x0000); ("M66592_PIPE1", 0x0001); ("M66592_PIPE2", 0x0002);
     ("M66592_PIPE3", 0x0003); ("M66592_PIPE4", 0x0004); ("M66592_PIPE5", 0x0005); ("M66592_PIPE6", 0x0006);
     ("M66592_PIPE7", 0x0007)]].

Definition PIPECFG : group := Grp
  [("M66592_PIPECFG", 0x66)]
  [Fld "M66592_TYP" 0xC000 [("M66592_ISO", 0xC000); ("M66592_INT", 0x8000); ("M66592_BULK", 0x4000)];
   Fld "M66592_BFRE" 0x0400 []; Fld "M66592_DBLB" 0x0200 []; Fld "M66592_CNTMD" 0x0100 [];
   Fld "M66592_SHTNAK" 0x0080 [];
   Fld "M66592_DIR" 0x0010 [("M66592_DIR_H_OUT", 0x0010); ("M66592_DIR_P_IN", 0x0010); ("M66592_DIR_H_IN", 0x0000);
     ("M66592_DIR_P_OUT", 0x0000)];
   Fld "M66592_EPNUM" 0x000F [("M66592_EP1", 0x0001); ("M66592_EP2", 0x0002); ("M66592_EP3", 0x0003);
     ("M66592_EP4", 0x0004); ("M66592_EP5", 0x0005); ("M66592_EP6", 0x0006); ("M66592_EP7", 0x0007);
     ("M66592_EP8", 0x0008); ("M66592_EP9", 0x0009); ("M66592_EP10", 0x000A); ("M66592_EP11", 0x000B);
     ("M66592_EP12", 0x000C); ("M66592_EP13", 0x000D); ("M66592_EP14", 0x000E); ("M66592_EP15", 0x000F)]].

Definition PIPEBUF : group := Grp
  [("M66592_PIPEBUF", 0x68)]
  [Fld "M66592_BUFSIZE" 0x7C00 []; Fld "M66592_BUFNMB" 0x00FF []].

Definition PIPEMAXP : group := Grp
  [("M66592_PIPEMAXP", 0x6A)]
  [Fld "M66592_MXPS" 0x07FF []].

Definition PIPEPERI : group := Grp
  [("M66592_PIPEPERI", 0x6C)]
  [Fld "M66592_IFIS" 0x1000 []; Fld "M66592_IITV" 0x0007 []].

Definition PIPECTR : group := Grp
  [("M66592_PIPE1CTR", 0x70); ("M66592_PIPE2CTR", 0x72); ("M66592_PIPE3CTR", 0x74); ("M66592_PIPE4CTR", 0x76); ("M66592_PIPE5CTR", 0x78); ("M66592_PIPE6CTR", 0x7A); ("M66592_PIPE7CTR", 0x7C)]
  [Fld "M66592_BSTS" 0x8000 []; Fld "M66592_INBUFM" 0x4000 []; Fld "M66592_ACLRM" 0x0200 [];
   Fld "M66592_SQCLR" 0x0100 []; Fld "M66592_SQSET" 0x0080 []; Fld "M66592_SQMON" 0x0040 [];
   Fld "M66592_PID" 0x0003 []].

Definition M66592_regs : list group :=
  [SYSCFG; SYSSTS; DVSTCTR; TESTMODE; FBCFG; PINCFG; DMACFG; FIFO; FIFOSEL; FIFOCTR; FIFOSIE; FIFOTRN;
   INTENB0; INTENB1; BRDY; NRDY; BEMP; SOFCFG; INTSTS0; INTSTS0_parts; INTSTS1; FRMNUM; UFRMNUM; RECOVER;
   USBREQ; USBREQ_parts; USBVAL; USBVAL_parts; USBVAL_CONF_NUM; USBVAL_ALT_SET; USBINDEX; USBINDEX_parts;
   USBLENG; DCPCFG; DCPMAXP; DCPCTR; PIPESEL; PIPECFG; PIPEBUF; PIPEMAXP; PIPEPERI; PIPECTR].

Definition M66592_CFBCFG : Z := 0x0A.
Definition M66592_PIPE1CTR : Z := 0x70.
Definition M66592_BRDYENB : Z := 0x36.
Definition M66592_NRDYENB : Z := 0x38.
Definition M66592_BEMPENB : Z := 0x3A.
Definition M66592_BUF_SIZE (x : Z) : Z := Z.shiftl (x / 64 - 1) 10.
(** [DT_TYPE] stands for [M66592_DT_TYPE]. *)
Definition M66592_GET_DT_TYPE (v : Z) : Z := Z.shiftr (Z.land v 0xFF00) 8.
Definition get_pipectr_addr (pipenum : Z) : Z := M66592_PIPE1CTR + (pipenum - 1) * 2.

Definition M66592_MAX_NUM_PIPE : Z := 8.
Definition M66592_MAX_NUM_BULK : Z := 3.
Definition M66592_MAX_NUM_ISOC : Z := 2.
Definition M66592_MAX_NUM_INT : Z := 2.
Definition M66592_BASE_PIPENUM_BULK : Z := 3.
Definition M66592_BASE_PIPENUM_ISOC : Z := 1.
Definition M66592_BASE_PIPENUM_INT : Z := 6.
Definition is_bulk_pipe (pipenum : Z) : bool :=
  (M66592_BASE_PIPENUM_BULK <=? pipenum) && (pipenum <? M66592_BASE_PIPENUM_BULK + M66592_MAX_NUM_BULK).
Definition is_interrupt_pipe (pipenum : Z) : bool :=
  (M66592_BASE_PIPENUM_INT <=? pipenum) && (pipenum <? M66592_BASE_PIPENUM_INT + M66592_MAX_NUM_INT).
Definition is_isoc_pipe (pipenum : Z) : bool :=
  (M66592_BASE_PIPENUM_ISOC <=? pipenum) && (pipenum <? M66592_BASE_PIPENUM_ISOC + M66592_MAX_NUM_ISOC).
End M66592.

(** ** The bus *)
Class Mmio (W : Type) := {
  ioread16 : Z -> M W Z;
  ioread32 : Z -> M W Z;
  iowrite8 : Z -> Z -> M W unit;
  iowrite16 : Z -> Z -> M W unit;
  iowrite32 : Z -> Z -> M W unit;
}.

Section Access.
Context {W : Type} `{!Mmio W}.

(** [ioread32_rep] and [ioread16_rep]: [n] words of [w] bytes, as bytes. *)
Fixpoint ioread_rep (rd : M W Z) (w n : nat) : M W (list Z) :=
  match n with
  | O => ret []
  | S n => v <- rd ;; bs <- ioread_rep rd w n ;; ret (le_bytes w v ++ bs)
  end.
(** [iowrite32_rep] and [iowrite16_rep] from a buffer. *)
Fixpoint iowrite_rep (wr : Z -> M W unit) (w n : nat) (buf : list Z) : FM W unit :=
  match n with
  | O => fret tt
  | S n =>
      if decide (w <= length buf)%nat then
        total_ (wr (of_le_bytes (take w buf))) ~;; iowrite_rep wr w n (drop w buf)
      else fault
  end.
(** A buffer with the bytes stored from an index on. *)
Definition put_bytes (buf : list Z) (i : nat) (bs : list Z) : FM W (list Z) :=
  match buf_store buf i bs with Some buf => fret buf | None => fault end.
Definition get_byte (buf : list Z) (i : nat) : FM W Z :=
  match buf !! i with Some b => fret b | None => fault end.

(** The register window and the platform's way of connecting the chip. *)
Record udc := mkUdc { reg : Z; on_chip : bool }.

(** ** The M66592 *)
Definition m66592_read (u : udc) (offset : Z) : M W Z := ioread16 (reg u + offset).
Definition m66592_write (u : udc) (val offset : Z) : M W unit := iowrite16 val (reg u + offset).

Definition m66592_read_fifo (u : udc) (offset : Z) (buf : list Z) (len : nat) : FM W (list Z) :=
  let fifoaddr := reg u + offset in
  if on_chip u then
    let len := ((len + 3) / 4)%nat in
    bs <~ total_ (ioread_rep (ioread32 fifoaddr) 4 len) ;; put_bytes buf 0 bs
  else
    let len := ((len + 1) / 2)%nat in
    bs <~ total_ (ioread_rep (ioread16 fifoaddr) 2 len) ;; put_bytes buf 0 bs.

(** The loop over the last bytes: [n] are left, [pb] is the rest of the
    buffer. *)
Fixpoint m66592_tail (u : udc) (fifoaddr : Z) (pb : list Z) (n i : nat) : FM W unit :=
  match n with
  | O => fret tt
  | S n =>
      le <~ total_ (m66592_read u M66592.M66592_CFBCFG) ;;
      b <~ get_byte pb i ;;
      (if truthy le then total_ (iowrite8 b (fifoaddr + (3 - Z.of_nat i)))
       else total_ (iowrite8 b (fifoaddr + Z.of_nat i))) ~;;
      m66592_tail u fifoaddr pb n (S i)
  end.
Definition m66592_write_fifo (u : udc) (offset : Z) (buf : list Z) (len : nat) : FM W unit :=
  let fifoaddr := reg u + offset in
  if on_chip u then
    let count := (len / 4)%nat in
    iowrite_rep (fun v => iowrite32 v fifoaddr) 4 count buf ~;;
    if (len mod 4 =? 0)%nat then fret tt
    else m66592_tail u fifoaddr (drop (count * 4) buf) (len mod 4) 0
  else
    let odd := (len mod 2)%nat in
    let len := (len / 2)%nat in
    iowrite_rep (fun v => iowrite16 v fifoaddr) 2 len buf ~;;
    if (odd =? 0)%nat then fret tt
    else b <~ get_byte buf (len * 2) ;; total_ (iowrite8 b fifoaddr).

(** [u16 tmp]; [tmp = tmp & (~pat); tmp = tmp | val] *)
Definition m66592_mdfy (u : udc) (val pat offset : Z) : M W unit :=
  tmp <- m66592_read u offset ;;
  let tmp := u16 (Z.land tmp (Z.lnot pat)) in
  let tmp := u16 (Z.lor tmp val) in
  m66592_write u tmp offset.
Definition m66592_bclr (u : udc) (val offset : Z) : M W unit := m66592_mdfy u 0 val offset.
Definition m66592_bset (u : udc) (val offset : Z) : M W unit := m66592_mdfy u val 0 offset.

(** ** The R8A66597 *)
Section R8A.
(** [CFIFOSEL], [BIGEND] and [PIPE1CTR] of linux/usb/r8a66597.h. *)
Variables CFIFOSEL BIGEND PIPE1CTR : Z.

Definition r8a66597_read (u : udc) (offset : Z) : M W Z := ioread16 (reg u + offset).
Definition r8a66597_write (u : udc) (val offset : Z) : M W unit := iowrite16 val (reg u + offset).

(** "unaligned buf case": the loop, [n] bytes left, the index [i], from
    position [p] of the buffer on; [m] is the mask of the byte in a word. *)
Fixpoint bytes_in (rd : M W Z) (m : Z) (n i p : nat) (data : Z) (buf : list Z) : FM W (list Z) :=
  match n with
  | O => fret buf
  | S n =>
      data <~ (if Z.land (Z.of_nat i) m =? 0 then total_ rd else fret data) ;;
      buf <~ put_bytes buf (p + i) [Z.land (Z.shiftr data (Z.land (Z.of_nat i) m * 8)) 0xff] ;;
      bytes_in rd m n (S i) p data buf
  end.

(** [ptr] is the address of the buffer. *)
Definition r8a66597_read_fifo (u : udc) (offset ptr : Z) (buf : list Z) (len : nat) : FM W (list Z) :=
  let fifoaddr := reg u + offset in
  let data := 0 in
  if on_chip u then
    if (4 <=? len)%nat && (Z.land ptr 0x03 =? 0) then
      bs <~ total_ (ioread_rep (ioread32 fifoaddr) 4 (len / 4)) ;;
      buf <~ put_bytes buf 0 bs ;;
      bytes_in (ioread32 fifoaddr) 0x03 (len mod 4) 0 (len - len mod 4) data buf
    else bytes_in (ioread32 fifoaddr) 0x03 len 0 0 data buf
  else
    if (2 <=? len)%nat && (Z.land ptr 0x01 =? 0) then
      bs <~ total_ (ioread_rep (ioread16 fifoaddr) 2 (len / 2)) ;;
      buf <~ put_bytes buf 0 bs ;;
      bytes_in (ioread16 fifoaddr) 0x01 (len mod 2) 0 (len - len mod 2) data buf
    else bytes_in (ioread16 fifoaddr) 0x01 len 0 0 data buf.

Fixpoint bytes_out (fifoaddr adj : Z) (n i : nat) (buf : list Z) : FM W unit :=
  match n with
  | O => fret tt
  | S n =>
      b <~ get_byte buf i ;;
      total_ (iowrite8 b (fifoaddr + adj - Z.land (Z.of_nat i) adj)) ~;;
      bytes_out fifoaddr adj n (S i) buf
  end.

Definition r8a66597_write_fifo (u : udc) (offset ptr : Z) (buf : list Z) (len : nat) : FM W unit :=
  let fifoaddr := reg u + offset in
  let w := if on_chip u then 4%nat else 2%nat in
  let wr := fun v => if on_chip u then iowrite32 v fifoaddr else iowrite16 v fifoaddr in
  let aligned := (w <=? len)%nat && (Z.land ptr (if on_chip u then 0x03 else 0x01) =? 0) in
  (if aligned then iowrite_rep wr w (len / w) buf else fret tt) ~;;
  let buf := if aligned then drop (len - len mod w) buf else buf in
  let len := if aligned then (len mod w)%nat else len in
  sel <~ total_ (r8a66597_read u CFIFOSEL) ;;
  let adj := if Z.land sel BIGEND =? 0 then (if on_chip u then 0x03 else 0x01) else 0 in
  bytes_out fifoaddr adj len 0 buf.

Definition r8a66597_mdfy (u : udc) (val pat offset : Z) : M W unit :=
  tmp <- r8a66597_read u offset ;;
  let tmp := u16 (Z.land tmp (Z.lnot pat)) in
  let tmp := u16 (Z.lor tmp val) in
  r8a66597_write u tmp offset.
Definition r8a66597_bclr (u : udc) (val offset : Z) : M W unit := r8a66597_mdfy u 0 val offset.
Definition r8a66597_bset (u : udc) (val offset : Z) : M W unit := r8a66597_mdfy u val 0 offset.
Definition get_pipectr_addr (pipenum : Z) : Z := PIPE1CTR + (pipenum - 1) * 2.
End R8A.
End Access.

Module R8A66597.
Definition R8A66597_MAX_NUM_BULK : Z := 3.
Definition R8A66597_MAX_NUM_ISOC : Z := 2.
Definition R8A66597_MAX_NUM_INT : Z := 2.
Definition R8A66597_BASE_PIPENUM_BULK : Z := 3.
Definition R8A66597_BASE_PIPENUM_ISOC : Z := 1.
Definition R8A66597_BASE_PIPENUM_INT : Z := 6.
Definition is_bulk_pipe (pipenum : Z) : bool :=
  (R8A66597_BASE_PIPENUM_BULK <=? pipenum) && (pipenum <? R8A66597_BASE_PIPENUM_BULK + R8A66597_MAX_NUM_BULK).
Definition is_interrupt_pipe (pipenum : Z) : bool :=
  (R8A66597_BASE_PIPENUM_INT <=? pipenum) && (pipenum <? R8A66597_BASE_PIPENUM_INT + R8A66597_MAX_NUM_INT).
Definition is_isoc_pipe (pipenum : Z) : bool :=
  (R8A66597_BASE_PIPENUM_ISOC <=? pipenum) && (pipenum <? R8A66597_BASE_PIPENUM_ISOC + R8A66597_MAX_NUM_ISOC).

(** The crystals of the platform data, and the register values of the
    kernel's header. *)
Inductive xtal := XTAL_12MHZ | XTAL_24MHZ | XTAL_48MHZ | XTAL_other.
Definition get_xtal_from_pdata (XTAL12 XTAL24 XTAL48 : Z) (x : xtal) : Z :=
  match x with XTAL_12MHZ => XTAL12 | XTAL_24MHZ => XTAL24 | XTAL_48MHZ => XTAL48 | XTAL_other => 0 end.
End R8A66597.
