(* ===== verification/RenesasSpec.v ===== *)
(** * The Renesas controllers: properties

    Reading a packet from a FIFO port in any of the ways the code has is
    taking the words that hold it; writing one is exactly a sequence of
    word and byte accesses to the lanes of the port, whatever the registers
    answer; read-modify-write
    on the fields of the tables; the pipes. *)

From Stdlib Require Import ZArith.
From stdpp Require Import base list strings.
From S2P Require Import Prelude HwRegs Renesas.

(** ** Reading the FIFO *)
Lemma buf_write_seq buf p bs cs :
  (p + length bs + length cs <= length buf)%nat ->
  buf_write (buf_write buf p bs) (p + length bs) cs = buf_write buf p (bs ++ cs).
Proof.
  intros H. unfold buf_write at 1. rewrite take_buf_write_ge by lia.
  rewrite <- (drop_drop (buf_write buf p bs)), drop_buf_write, drop_drop by lia.
  unfold buf_write. rewrite length_app, <- !app_assoc. do 3 f_equal. f_equal. lia.
Qed.
Section Reading.
Context {W : Type} `{!Mmio W}.

Lemma ioread_rep_length (rd : M W Z) w n s : length (fst (ioread_rep rd w n s)) = (n * w)%nat.
Proof.
  revert s. induction n as [|n IH]; intros s; [done|]. cbn [ioread_rep]. rewrite !bind_run. cbn [ret fst].
  rewrite length_app, IH, length_le_bytes. lia.
Qed.
Lemma ioread_rep_app (rd : M W Z) w a b s :
  ioread_rep rd w (a + b) s =
    let '(xs, s1) := ioread_rep rd w a s in let '(ys, s2) := ioread_rep rd w b s1 in (xs ++ ys, s2).
Proof.
  revert s. induction a as [|a IH]; intros s; cbn [ioread_rep Nat.add].
  - unfold ret. by destruct (ioread_rep rd w b s).
  - unfold bind. destruct (rd s) as [v s']. rewrite IH. destruct (ioread_rep rd w a s') as [xs s1].
    cbn. destruct (ioread_rep rd w b s1) as [ys s2]. cbn. by rewrite app_assoc.
Qed.

(** What the code means: so many words that they have [len] bytes, and the
    first [len] bytes stored. *)
Definition words (w len : nat) : nat := ((len + (w - 1)) / w)%nat.
Definition read_words (rd : M W Z) (w : nat) (buf : list Z) (p len : nat) : FM W (list Z) :=
  bs <~ total_ (ioread_rep rd w (words w len)) ;; put_bytes buf p (take len bs).

Variables (rd : M W Z) (w : nat) (m : Z).
Hypothesis w_pos : (0 < w)%nat.
Hypothesis m_mask : forall i : nat, Z.land (Z.of_nat i) m = Z.of_nat (i mod w).

Definition pending (i : nat) (data : Z) : list Z := if (i mod w =? 0)%nat then [] else drop (i mod w) (le_bytes w data).

Lemma length_pending i data : length (pending i data) = if (i mod w =? 0)%nat then 0%nat else (w - i mod w)%nat.
Proof using. unfold pending. case_if; [done|]. by rewrite length_drop, length_le_bytes. Qed.

Lemma mod_succ i : (S i mod w = if decide (S (i mod w) = w) then 0 else S (i mod w))%nat.
Proof using w_pos.
  pose proof (Nat.mod_upper_bound i w ltac:(lia)). pose proof (Nat.div_mod_eq i w).
  case_decide as E.
  - replace (S i) with (0 + (i / w + 1) * w)%nat by nia. rewrite Nat.Div0.mod_add. by apply Nat.mod_small.
  - replace (S i) with (S (i mod w) + (i / w) * w)%nat by nia. rewrite Nat.Div0.mod_add. apply Nat.mod_small. lia.
Qed.

(** The byte the loop takes, and what is pending after it. *)
Lemma pending_step (i : nat) data :
  le_bytes w data !! (i mod w)%nat = Some (Z.land (Z.shiftr data (Z.of_nat (i mod w)%nat * 8)) 0xff) /\
  pending (S i) data = drop (S (i mod w)%nat) (le_bytes w data).
Proof using w_pos.
  pose proof (Nat.mod_upper_bound i w ltac:(lia)). split.
  - rewrite le_bytes_lookup by done. f_equal. unfold u8, wrap. change 0xff with (Z.ones 8).
    rewrite Z.land_ones by lia. do 2 f_equal. lia.
  - unfold pending. rewrite mod_succ. case_decide as E.
    + symmetry. apply drop_ge. rewrite length_le_bytes. lia.
    + by rewrite (proj2 (Nat.eqb_neq _ 0)).
Qed.

Lemma put_bytes_ok (buf : list Z) i bs (s : W) :
  (i + length bs <= length buf)%nat -> put_bytes buf i bs s = Some (buf_write buf i bs, s).
Proof using. intros H. unfold put_bytes, buf_store. by rewrite decide_True. Qed.

Lemma bytes_in_run n : forall i p data buf s,
  (p + i + n <= length buf)%nat ->
  bytes_in rd m n i p data buf s =
    let '(bs, s') := ioread_rep rd w (words w (n - length (pending i data))) s in
    Some (buf_write buf (p + i) (take n (pending i data ++ bs)), s').
Proof using w_pos m_mask.
  induction n as [|n IH]; intros i p data buf s H.
  { cbn [bytes_in Nat.sub]. unfold words. rewrite Nat.div_small by lia. cbn. by rewrite take_0, buf_write_nil. }
  cbn [bytes_in]. rewrite m_mask.
  assert (forall data' s', le_bytes w data' !! (i mod w)%nat <> None ->
    (buf0 <~ put_bytes buf (p + i) [Z.land (Z.shiftr data' (Z.of_nat (i mod w) * 8)) 0xff] ;;
     bytes_in rd m n (S i) p data' buf0) s' =
    let '(bs, s2) := ioread_rep rd w (words w (n - (w - S (i mod w)))) s' in
    Some (buf_write buf (p + i) (take (S n) (drop (i mod w) (le_bytes w data') ++ bs)), s2)) as Hbyte.
  { intros data' s' _. pose proof (pending_step i data') as [Hb Hp]. unfold fbind. rewrite put_bytes_ok by (cbn; lia).
    rewrite IH by (rewrite length_buf_write; cbn; lia). rewrite Hp, length_drop, length_le_bytes.
    destruct (ioread_rep rd w _ s') as [bs s2] eqn:E. do 2 f_equal.
    rewrite (drop_S _ _ _ Hb). cbn [app take].
    replace (p + S i)%nat with (p + i + length [Z.land (Z.shiftr data' (Z.of_nat (i mod w) * 8)) 0xff])%nat by (cbn; lia).
    rewrite buf_write_seq; [done|]. cbn [length]. rewrite length_take. lia. }
  pose proof (Nat.mod_upper_bound i w ltac:(lia)) as Hi.
  unfold pending. destruct (Nat.eqb_spec (i mod w) 0) as [E|E].
  - rewrite E in *. change (Z.of_nat 0 =? 0) with true. cbn [length app Nat.sub].
    assert (words w (S n) = S (words w (n - (w - 1)))) as ->.
    { unfold words. destruct (Nat.le_gt_cases (w - 1) n).
      - replace (S n + (w - 1))%nat with (n - (w - 1) + (w - 1) + 1 * w)%nat by lia. rewrite Nat.div_add by lia. lia.
      - replace (n - (w - 1))%nat with 0%nat by lia. rewrite Nat.add_0_l, (Nat.div_small (w - 1)) by lia.
        replace (S n + (w - 1))%nat with (n + 1 * w)%nat by lia. rewrite Nat.div_add, Nat.div_small by lia. done. }
    unfold fbind at 1, total_. cbn [ioread_rep]. unfold bind. destruct (rd s) as [v s1].
    cbv beta. rewrite Hbyte by (rewrite le_bytes_lookup by lia; done).
    destruct (ioread_rep rd w (words w (n - (w - 1))) s1) as [bs s2] eqn:E2. cbn [ret drop].
    done.
  - rewrite (proj2 (Z.eqb_neq _ 0)) by lia. rewrite fbind_ret, Hbyte by (rewrite le_bytes_lookup by lia; done).
    rewrite length_drop, length_le_bytes. by replace (S n - (w - i mod w))%nat with (n - (w - S (i mod w)))%nat by lia.
Qed.
End Reading.

(** A packet of any length by words and a rest, or byte by byte. *)
Section Packet.
Context {W : Type} `{!Mmio W}.
Variables (rd : M W Z) (w : nat) (m : Z).
Hypothesis w_pos : (0 < w)%nat.
Hypothesis m_mask : forall i : nat, Z.land (Z.of_nat i) m = Z.of_nat (i mod w).

Lemma bytes_in_words n p data buf s :
  (p + n <= length buf)%nat -> bytes_in rd m n 0 p data buf s = read_words rd w buf p n s.
Proof using w_pos m_mask.
  intros H. rewrite (bytes_in_run rd w m w_pos m_mask) by lia. unfold pending. rewrite Nat.Div0.mod_0_l.
  cbn [Nat.eqb length app]. rewrite Nat.sub_0_r, Nat.add_0_r. unfold read_words, fbind, total_.
  destruct (ioread_rep rd w (words w n) s) as [bs s']. rewrite put_bytes_ok; [done|]. rewrite length_take. lia.
Qed.

Lemma words_split n : words w n = (n / w + words w (n mod w))%nat.
Proof using w_pos.
  unfold words. rewrite (Nat.div_mod_eq n w) at 1.
  replace (w * (n / w) + n mod w + (w - 1))%nat with (n mod w + (w - 1) + n / w * w)%nat by lia.
  rewrite Nat.div_add by lia. lia.
Qed.

Lemma split_words buf len s :
  (len <= length buf)%nat ->
  (bs <~ total_ (ioread_rep rd w (len / w)) ;;
   buf <~ put_bytes buf 0 bs ;;
   bytes_in rd m (len mod w) 0 (len - len mod w) 0 buf) s = read_words rd w buf 0 len s.
Proof using w_pos m_mask.
  intros H. unfold fbind, total_. unfold read_words at 1, fbind, total_. rewrite words_split, ioread_rep_app.
  pose proof (ioread_rep_length rd w (len / w)%nat s) as Hl. destruct (ioread_rep rd w (len / w)%nat s) as [xs s1]. cbn [fst] in Hl.
  pose proof (Nat.div_mod_eq len w). pose proof (Nat.mod_upper_bound len w ltac:(lia)).
  rewrite put_bytes_ok by (cbn; nia).
  rewrite bytes_in_words by (rewrite length_buf_write; cbn; nia).
  unfold read_words, fbind, total_.
  pose proof (ioread_rep_length rd w (words w (len mod w)%nat) s1) as Hl'.
  destruct (ioread_rep rd w (words w (len mod w)%nat) s1) as [ys s2]. cbn [fst] in Hl'.
  assert (len mod w <= length ys)%nat.
  { rewrite Hl'. unfold words. destruct (Nat.eq_dec (len mod w) 0)%nat as [->|]; [lia|].
    pose proof (Nat.div_mod_eq (len mod w + (w - 1))%nat w). pose proof (Nat.mod_upper_bound (len mod w + (w - 1))%nat w ltac:(lia)). nia. }
  rewrite put_bytes_ok by (rewrite length_buf_write, length_take; cbn; nia).
  rewrite put_bytes_ok by (rewrite length_take, length_app; nia). do 2 f_equal.
  replace (len - len mod w)%nat with (0 + length xs)%nat by nia.
  rewrite buf_write_seq by (rewrite length_take; cbn; nia). f_equal.
  rewrite take_app_ge by nia. do 2 f_equal. nia.
Qed.
End Packet.

Lemma mask4 (i : nat) : Z.land (Z.of_nat i) 0x03 = Z.of_nat (i mod 4).
Proof. change 3 with (Z.ones 2). rewrite Z.land_ones, Nat2Z.inj_mod by lia. done. Qed.
Lemma mask2 (i : nat) : Z.land (Z.of_nat i) 0x01 = Z.of_nat (i mod 2).
Proof. change 1 with (Z.ones 1) at 1. rewrite Z.land_ones, Nat2Z.inj_mod by lia. done. Qed.

Section Ports.
Context {W : Type} `{!Mmio W}.
(** One access of the port and its width in bytes. *)
Definition port_read (u : udc) (offset : Z) : M W Z :=
  if on_chip u then ioread32 (reg u + offset) else ioread16 (reg u + offset).
Definition width (u : udc) : nat := if on_chip u then 4%nat else 2%nat.

Lemma r8a_read_words u offset ptr buf len s :
  (len <= length buf)%nat ->
  r8a66597_read_fifo u offset ptr buf len s = read_words (port_read u offset) (width u) buf 0 len s.
Proof.
  intros H. unfold r8a66597_read_fifo, port_read, width. destruct (on_chip u).
  - destruct ((4 <=? len)%nat && (Z.land ptr 0x03 =? 0)).
    + apply split_words; [lia|apply mask4|done].
    + apply bytes_in_words; [lia|apply mask4|done].
  - destruct ((2 <=? len)%nat && (Z.land ptr 0x01 =? 0)).
    + apply split_words; [lia|apply mask2|done].
    + apply bytes_in_words; [lia|apply mask2|done].
Qed.
Lemma m66592_read_words u offset buf len s :
  m66592_read_fifo u offset buf len s =
    (bs <~ total_ (ioread_rep (port_read u offset) (width u) (words (width u) len)) ;; put_bytes buf 0 bs) s.
Proof. unfold m66592_read_fifo, port_read, width, words. by destruct (on_chip u). Qed.
End Ports.

(** ** Writing the FIFO

    The bus as the code drives it: the writes in order, each with its width
    in bytes, its address and its value.  A read answers what the register at
    its address holds, [answer]; nothing else is assumed of the chips. *)
Definition is_byte (b : Z) : Prop := 0 <= b < 256.
Record bus_write := Wr { wr_width : nat; wr_addr : Z; wr_value : Z }.
Definition record (w : nat) (v a : Z) : M (list bus_write) unit := fun l => (tt, l ++ [Wr w a v]).
(** The bytes a sequence of writes carries, as a little-endian processor has
    them in memory. *)
Definition carried (l : list bus_write) : list Z := l ≫= fun x => le_bytes (wr_width x) (wr_value x).

(** The first [n] words of a packet, each written to the port itself. *)
Definition word_writes (port : Z) (w n : nat) (data : list Z) : list bus_write :=
  (fun k => Wr w port (of_le_bytes (take w (drop (k * w) data)))) <$> seq 0 n.
(** Single bytes, the [i]-th to its lane. *)
Definition byte_writes (port : Z) (lane : nat -> Z) (data : list Z) : list bus_write :=
  imap (fun i b => Wr 1 (port + lane i) b) data.

(** What writing a packet to a port is.  The R8A66597 takes whole words only
    from an aligned buffer; its bytes go down the lanes of the word from the
    highest on a little-endian port, and to lane 0 on a big-endian one. *)
Definition r8a_words (u : udc) (ptr : Z) (len : nat) : nat :=
  if decide (Z.of_nat (width u) <= Z.of_nat len /\ ptr mod Z.of_nat (width u) = 0) then (len / width u)%nat else O.
Definition r8a_lane (u : udc) (big : bool) (i : nat) : Z :=
  if big then 0 else Z.of_nat (width u - 1 - i mod width u).
Definition r8a_packet (u : udc) (port ptr : Z) (big : bool) (data : list Z) : list bus_write :=
  let n := r8a_words u ptr (length data) in
  word_writes port (width u) n data ++ byte_writes port (r8a_lane u big) (drop (n * width u) data).
(** The M66592 always takes the words; of the last bytes, up to three on the
    chip's own bus, the [i]-th goes to lane [3 - i] on a little-endian port and
    to lane [i] otherwise, and the one on the 16-bit bus to lane 0. *)
Definition m66592_lane (u : udc) (little : bool) (i : nat) : Z :=
  if on_chip u && little then Z.of_nat (3 - i) else if on_chip u then Z.of_nat i else 0.
Definition m66592_packet (u : udc) (port : Z) (little : bool) (data : list Z) : list bus_write :=
  let n := (length data / width u)%nat in
  word_writes port (width u) n data ++ byte_writes port (m66592_lane u little) (drop (n * width u) data).

Lemma width_pos u : (0 < width u)%nat.
Proof. unfold width. destruct (on_chip u); lia. Qed.

Section Bus.
Variable answer : Z -> Z.
#[local] Instance BusMmio : Mmio (list bus_write) := {
  ioread16 a l := (answer a, l);
  ioread32 a l := (answer a, l);
  iowrite8 := record 1;
  iowrite16 := record 2;
  iowrite32 := record 4;
}.

Lemma iowrite_rep_words wr port w n data l :
  (forall v, wr v = record w v port) -> (n * w <= length data)%nat ->
  iowrite_rep wr w n data l = Some (tt, l ++ word_writes port w n data).
Proof using.
  intros Hw. revert data l. induction n as [|n IH]; intros data l Hl; [cbn; by rewrite app_nil_r|].
  cbn [iowrite_rep]. rewrite decide_True by lia. unfold fbind, total_. rewrite Hw. unfold record.
  rewrite IH by (rewrite length_drop; lia). rewrite <- app_assoc. do 3 f_equal.
  unfold word_writes. rewrite <- cons_seq, fmap_cons, <- fmap_S_seq, <- list_fmap_compose. cbn [app Nat.mul]. f_equal.
  apply list_fmap_ext. intros i k _. unfold compose. rewrite drop_drop. done.
Qed.

Lemma imap_step {A B} (f : nat -> A -> B) i (xs : list A) x :
  xs !! i = Some x -> imap (fun j => f (i + j)%nat) (drop i xs) = f i x :: imap (fun j => f (S i + j)%nat) (drop (S i) xs).
Proof using.
  intros H. rewrite (drop_S _ _ _ H). cbn [imap]. rewrite Nat.add_0_r. f_equal.
  apply imap_ext. intros j y _. unfold compose. f_equal. lia.
Qed.

Lemma bytes_out_writes port adj (lane : nat -> Z) data i n l :
  (i + n = length data)%nat -> (forall j, adj - Z.land (Z.of_nat j) adj = lane j) ->
  bytes_out port adj n i data l = Some (tt, l ++ imap (fun j b => Wr 1 (port + lane (i + j)%nat) b) (drop i data)).
Proof using.
  intros Hn Hlane. revert i l Hn. induction n as [|n IH]; intros i l Hn.
  { cbn. rewrite drop_ge by lia. cbn. by rewrite app_nil_r. }
  cbn [bytes_out]. destruct (lookup_lt_is_Some_2 data i) as [b Hb]; [lia|]. unfold get_byte. rewrite Hb, fbind_ret.
  unfold fbind, total_. cbn [iowrite8 BusMmio]. unfold record. rewrite IH by lia.
  rewrite (imap_step (fun j b => Wr 1 (port + lane j) b) i data b Hb), <- app_assoc. cbn [app].
  by replace (port + adj - Z.land (Z.of_nat i) adj) with (port + lane i) by (rewrite <- Hlane; lia).
Qed.

Lemma m66592_tail_writes u port data i n l :
  on_chip u = true -> (i + n = length data)%nat -> (length data < 4)%nat ->
  m66592_tail u port data n i l = Some (tt, l ++ imap (fun j b =>
    Wr 1 (port + m66592_lane u (truthy (answer (reg u + M66592.M66592_CFBCFG))) (i + j)%nat) b) (drop i data)).
Proof using.
  intros Hc. revert i l. induction n as [|n IH]; intros i l Hn Hlt.
  { cbn. rewrite drop_ge by lia. cbn. by rewrite app_nil_r. }
  cbn [m66592_tail]. destruct (lookup_lt_is_Some_2 data i) as [b Hb]; [lia|]. unfold get_byte. rewrite Hb.
  unfold fbind, total_, fret, m66592_read. cbn [ioread16 iowrite8 BusMmio].
  set (little := truthy _) in *.
  rewrite (imap_step (fun j b => Wr 1 (port + m66592_lane u little j) b) i data b Hb).
  assert (m66592_lane u little i = if little then 3 - Z.of_nat i else Z.of_nat i) as ->.
  { unfold m66592_lane. rewrite Hc. destruct little; cbn [andb]; lia. }
  by destruct little; unfold record; rewrite IH, <- app_assoc by lia.
Qed.

Section R8AWrite.
Variables CFIFOSEL BIGEND : Z.
Lemma r8a_write_packet u offset ptr data l :
  r8a66597_write_fifo CFIFOSEL BIGEND u offset ptr data (length data) l =
    Some (tt, l ++ r8a_packet u (reg u + offset) ptr (truthy (Z.land (answer (reg u + CFIFOSEL)) BIGEND)) data).
Proof using.
  unfold r8a66597_write_fifo, r8a66597_read, r8a_packet. fold (width u). set (port := reg u + offset). cbv zeta.
  set (al := (width u <=? length data)%nat && _). set (n := r8a_words u ptr (length data)).
  pose proof (width_pos u). pose proof (Nat.div_mod_eq (length data) (width u)).
  pose proof (Nat.mod_upper_bound (length data) (width u) ltac:(lia)).
  assert (n = if al then (length data / width u)%nat else O) as Hn.
  { assert (al = bool_decide (Z.of_nat (width u) <= Z.of_nat (length data) /\ ptr mod Z.of_nat (width u) = 0)) as ->.
    { unfold al, width. rewrite bool_decide_and. f_equal.
      - destruct (on_chip u); apply eq_bool_prop_intro; rewrite bool_decide_spec;
          (split; [intros E; apply Is_true_true, Nat.leb_le in E|intros E; apply Is_true_true, Nat.leb_le]; lia).
      - destruct (on_chip u); [change 3 with (Z.ones 2)|change 1 with (Z.ones 1)]; rewrite Z.land_ones by lia;
          apply eq_bool_prop_intro; rewrite bool_decide_spec; (split; [intros E; by apply Is_true_true, Z.eqb_eq in E|intros E; by apply Is_true_true, Z.eqb_eq]). }
    unfold n, r8a_words. by case_decide; [rewrite bool_decide_true|rewrite bool_decide_false]. }
  assert (forall s, (if al then iowrite_rep (fun v => if on_chip u then iowrite32 v port else iowrite16 v port)
      (width u) (length data / width u) data else fret tt) s = Some (tt, s ++ word_writes port (width u) n data)) as Hw.
  { intros s. rewrite Hn. destruct al; [|by rewrite app_nil_r]. apply iowrite_rep_words; [|lia].
    intros v. unfold width. by destruct (on_chip u). }
  unfold fbind at 1. rewrite Hw. unfold fbind, total_. cbn [ioread16 BusMmio].
  set (big := truthy _).
  rewrite (bytes_out_writes port _ (r8a_lane u big)).
  - rewrite drop_0, <- app_assoc. unfold byte_writes. do 4 f_equal. rewrite Hn. destruct al; [|done]. cbn [Nat.add]. do 2 f_equal. lia.
  - destruct al; rewrite ?length_drop; lia.
  - intros j. unfold r8a_lane, big, truthy, width. destruct (Z.land _ BIGEND =? 0); cbn [negb]. 2: by rewrite Z.land_0_r.
    pose proof (Nat.mod_upper_bound j 4 ltac:(lia)). pose proof (Nat.mod_upper_bound j 2 ltac:(lia)).
    destruct (on_chip u); [rewrite mask4|rewrite mask2]; lia.
Qed.
End R8AWrite.

Lemma m66592_write_packet u offset data l :
  m66592_write_fifo u offset data (length data) l =
    Some (tt, l ++ m66592_packet u (reg u + offset) (truthy (answer (reg u + M66592.M66592_CFBCFG))) data).
Proof using.
  unfold m66592_write_fifo, m66592_packet, width. set (port := reg u + offset). set (len := length data) in *.
  pose proof (Nat.div_mod_eq len 4). pose proof (Nat.div_mod_eq len 2).
  pose proof (Nat.mod_upper_bound len 4 ltac:(lia)). pose proof (Nat.mod_upper_bound len 2 ltac:(lia)).
  destruct (on_chip u) eqn:Hc; cbv zeta; unfold fbind at 1.
  - rewrite (iowrite_rep_words _ port 4) by (done || lia). destruct (Nat.eqb_spec (len mod 4) 0) as [E|E].
    + rewrite drop_ge by lia. unfold byte_writes. cbn. by rewrite app_nil_r.
    + rewrite m66592_tail_writes by (done || rewrite length_drop; lia). by rewrite drop_0, <- app_assoc.
  - rewrite (iowrite_rep_words _ port 2) by (done || lia). destruct (Nat.eqb_spec (len mod 2) 0) as [E|E].
    + rewrite drop_ge by lia. unfold byte_writes. cbn. by rewrite app_nil_r.
    + unfold get_byte. destruct (lookup_lt_is_Some_2 data (len / 2 * 2)%nat) as [b Hb]; [lia|]. rewrite Hb.
      rewrite fbind_ret. unfold total_. cbn [iowrite8 BusMmio]. unfold record.
      rewrite (drop_S _ _ _ Hb), drop_ge by lia. unfold byte_writes, m66592_lane. rewrite Hc. cbn.
      by rewrite Z.add_0_r, <- app_assoc.
Qed.

Lemma carried_app l l' : carried (l ++ l') = carried l ++ carried l'.
Proof using. apply bind_app. Qed.
Lemma carried_words port w n data :
  Forall is_byte data -> (n * w <= length data)%nat -> carried (word_writes port w n data) = take (n * w) data.
Proof using.
  intros Hb. induction n as [|n IH]; intros Hl; [done|]. unfold word_writes in *. rewrite seq_S, fmap_app, carried_app, IH by lia.
  cbn [Nat.add fmap list_fmap]. unfold carried. cbn. rewrite app_nil_r.
  replace (w + n * w)%nat with (n * w + w)%nat by lia. rewrite <- (take_take_drop _ (n * w)). f_equal.
  rewrite <- (le_bytes_of_le (take w _)) at 2 by (by apply Forall_take, Forall_drop). f_equal.
  rewrite length_take, length_drop. lia.
Qed.
Lemma carried_bytes port lane data : Forall is_byte data -> carried (byte_writes port lane data) = data.
Proof using.
  intros Hb. revert lane. induction Hb as [|b data Hb Hbs IH]; intros lane; [done|].
  change (byte_writes port lane (b :: data)) with ([Wr 1 (port + lane O) b] ++ byte_writes port (lane ∘ S) data).
  rewrite carried_app, IH. unfold is_byte in Hb. unfold carried. cbn. by rewrite u8_small.
Qed.
Lemma r8a_words_fit u ptr len : (r8a_words u ptr len * width u <= len)%nat.
Proof using.
  unfold r8a_words. pose proof (width_pos u). pose proof (Nat.div_mod_eq len (width u)). case_decide; lia.
Qed.

(** C29: writing a packet of bytes to a FIFO port, whatever the registers
    answer, performs exactly the bus writes of [r8a_packet] and of
    [m66592_packet]: whole words to the port itself, the R8A66597 only from an
    aligned buffer, and then the remaining bytes one by one, each to its own
    lane of the port for the byte order set in CFIFOSEL or CFBCFG; no other
    register is written, and the writes carry the packet, each byte once
    and in order. *)
Theorem fifo_write_lanes CFIFOSEL BIGEND u offset ptr data l :
  Forall is_byte data ->
  let port := reg u + offset in
  let r8a := r8a_packet u port ptr (truthy (Z.land (answer (reg u + CFIFOSEL)) BIGEND)) data in
  let m66 := m66592_packet u port (truthy (answer (reg u + M66592.M66592_CFBCFG))) data in
  r8a66597_write_fifo CFIFOSEL BIGEND u offset ptr data (length data) l = Some (tt, l ++ r8a) /\
  m66592_write_fifo u offset data (length data) l = Some (tt, l ++ m66) /\
  carried r8a = data /\ carried m66 = data.
Proof using.
  intros Hb. cbv zeta. split; [apply r8a_write_packet|]. split; [apply m66592_write_packet|].
  unfold r8a_packet, m66592_packet. rewrite !carried_app.
  pose proof (r8a_words_fit u ptr (length data)). pose proof (width_pos u).
  pose proof (Nat.div_mod_eq (length data) (width u)).
  rewrite !carried_words, !carried_bytes by (try apply Forall_drop; (done || lia)).
  by rewrite !take_drop.
Qed.
End Bus.

Lemma fifo_write_lanes_witness :
  let u := mkUdc 0x1000 true in
  r8a66597_write_fifo 0x20 0x100 (Mmio0 := BusMmio (fun _ => 0)) u 0x14 0x8000 [1; 2; 3; 4; 5; 6] 6 [] =
    Some (tt, [Wr 4 0x1014 0x04030201; Wr 1 0x1017 5; Wr 1 0x1016 6]) /\
  m66592_write_fifo (Mmio0 := BusMmio (fun _ => 0)) u 0x14 [1; 2; 3; 4; 5; 6] 6 [] =
    Some (tt, [Wr 4 0x1014 0x04030201; Wr 1 0x1014 5; Wr 1 0x1015 6]) /\
  carried [Wr 4 0x1014 0x04030201; Wr 1 0x1017 5; Wr 1 0x1016 6] = [1; 2; 3; 4; 5; 6] /\
  carried [Wr 4 0x1014 0x04030201; Wr 1 0x1014 5; Wr 1 0x1015 6] = [1; 2; 3; 4; 5; 6].
Proof.
  apply (fifo_write_lanes (fun _ => 0) 0x20 0x100 (mkUdc 0x1000 true) 0x14 0x8000 [1; 2; 3; 4; 5; 6] []).
  repeat constructor; unfold is_byte; lia.
Defined.

Lemma words_enough w n : (0 < w)%nat -> (n <= words w n * w < n + w)%nat.
Proof.
  intros H. unfold words. pose proof (Nat.div_mod_eq (n + (w - 1)) w).
  pose proof (Nat.mod_upper_bound (n + (w - 1)) w ltac:(lia)). nia.
Qed.

(** property: on any hardware the R8A66597's read does not depend on the
    address of the buffer: it takes as many words as the packet needs and
    stores its bytes; and the M66592's read takes the same words. *)
Theorem read_any_alignment {W} `{!Mmio W} u offset ptr buf len (s : W) :
  (len <= length buf)%nat ->
  r8a66597_read_fifo u offset ptr buf len s = read_words (port_read u offset) (width u) buf 0 len s /\
  (forall b s', m66592_read_fifo u offset buf len s = Some (b, s') ->
    exists b', r8a66597_read_fifo u offset ptr buf len s = Some (b', s') /\ take len b = take len b').
Proof.
  intros H. split; [by apply r8a_read_words|]. intros b s'. rewrite r8a_read_words, m66592_read_words by done.
  unfold read_words, fbind, total_. pose proof (ioread_rep_length (port_read u offset) (width u) (words (width u) len) s) as Hl.
  pose proof (words_enough _ len (width_pos u)). destruct (ioread_rep _ _ _ s) as [bs s1]. cbn [fst] in Hl.
  unfold put_bytes at 1, buf_store. case_decide as Hd; [|done]. intros [= <- <-].
  rewrite put_bytes_ok by (rewrite length_take; lia). eexists. split; [done|].
  unfold buf_write. rewrite !take_0. cbn [app]. rewrite (take_app_le bs), take_app_le by (rewrite ?length_take; lia).
  rewrite take_take. f_equal. lia.
Qed.
Lemma read_any_alignment_witness :
  r8a66597_read_fifo (Mmio0 := BusMmio (fun _ => 0x0201)) (mkUdc 0 false) 0x14 0x8001 [0; 0; 0] 3 [] =
    read_words (port_read (Mmio0 := BusMmio (fun _ => 0x0201)) (mkUdc 0 false) 0x14) 2 [0; 0; 0] 0 3 [] /\
  (forall b s', m66592_read_fifo (Mmio0 := BusMmio (fun _ => 0x0201)) (mkUdc 0 false) 0x14 [0; 0; 0] 3 [] = Some (b, s') ->
    exists b', r8a66597_read_fifo (Mmio0 := BusMmio (fun _ => 0x0201)) (mkUdc 0 false) 0x14 0x8001 [0; 0; 0] 3 [] = Some (b', s') /\
      take 3 b = take 3 b').
Proof. apply (read_any_alignment (Mmio0 := BusMmio (fun _ => 0x0201))). cbn. lia. Defined.

(** C37: the M66592's read stores whole words: it leaves the buffer
    exactly when the length, rounded up to words, is more than the buffer -
    so a buffer of the size of an odd packet is overrun. *)
Theorem m66592_read_overrun {W} `{!Mmio W} u offset buf len (s : W) :
  m66592_read_fifo u offset buf len s = None <-> (length buf < words (width u) len * width u)%nat.
Proof.
  rewrite m66592_read_words. unfold fbind, total_.
  pose proof (ioread_rep_length (port_read u offset) (width u) (words (width u) len) s) as Hl.
  destruct (ioread_rep _ _ _ s) as [bs s1]. cbn [fst] in Hl. unfold put_bytes, buf_store.
  case_decide; split; intros; (done || lia).
Qed.

(** ** Registers *)
Lemma mdfy_set_bits old pat val :
  0 <= old < 65536 -> 0 <= val < 65536 -> u16 (Z.lor (u16 (Z.land old (Z.lnot pat))) val) = set_bits old pat val.
Proof.
  intros Ho Hv. assert (0 <= Z.land old (Z.lnot pat) < 65536) as H.
  { pose proof (set_bits_range 16 old pat 0 ltac:(lia) Ho ltac:(lia)) as H. unfold set_bits in H.
    by rewrite Z.lor_0_r in H. }
  rewrite (u16_small (Z.land _ _)) by done. apply u16_small. by apply (set_bits_range 16).
Qed.

Lemma m66592_regs_ok : table_ok 16 M66592.M66592_regs = true.
Proof. by vm_compute. Qed.

(** property: read-modify-write on the registers of the header, on any
    hardware that answers 16 bits: writing a value of a field - one
    of its named values, or any other within its mask - with the field's mask
    as pattern reads the register once, writes it once, and the value written
    has the new field and every other field of the register as it was read. *)
Theorem mdfy_field {W} `{!Mmio W} u g r off i f v (s : W) :
  0 <= fst (ioread16 (reg u + off) s) < 65536 ->
  g ∈ M66592.M66592_regs -> (r, off) ∈ g_regs g -> g_fields g !! i = Some f -> within v (f_mask f) = true -> 0 <= v ->
  exists new, m66592_mdfy u v (f_mask f) off s =
      iowrite16 new (reg u + off) (snd (ioread16 (reg u + off) s)) /\
    0 <= new < 65536 /\ Z.land new (f_mask f) = v /\
    forall j f', g_fields g !! j = Some f' -> j <> i ->
      Z.land new (f_mask f') = Z.land (fst (ioread16 (reg u + off) s)) (f_mask f').
Proof.
  intros Hio Hg Hr Hf Hv H0. pose proof (group_field_ok _ _ _ _ m66592_regs_ok Hg (list_elem_of_lookup_2 _ _ _ Hf)) as Hok.
  apply field_ok_range in Hok as Hm.
  assert (0 <= v < 65536) by (apply (within_range 16 v (f_mask f)); [lia..|done|lia]).
  unfold m66592_mdfy, m66592_read, m66592_write. rewrite bind_run. cbv zeta.
  exists (set_bits (fst (ioread16 (reg u + off) s)) (f_mask f) v). split; [by rewrite mdfy_set_bits|].
  split; [by apply (set_bits_range 16)|]. by apply (table_update 16 M66592.M66592_regs).
Qed.
Lemma mdfy_field_witness :
  exists new, m66592_mdfy (Mmio0 := BusMmio (fun _ => 0x4001)) (mkUdc 0x1000 true) 0x0002 0x0003 0x70 [] =
      iowrite16 (Mmio := BusMmio (fun _ => 0x4001)) new 0x1070 [] /\
    0 <= new < 65536 /\ Z.land new 0x0003 = 0x0002 /\
    forall j f', g_fields M66592.PIPECTR !! j = Some f' -> j <> 6%nat -> Z.land new (f_mask f') = Z.land 0x4001 (f_mask f').
Proof.
  apply (mdfy_field (Mmio0 := BusMmio (fun _ => 0x4001)) (mkUdc 0x1000 true) M66592.PIPECTR "M66592_PIPE1CTR" 0x70 6
    (Fld "M66592_PID" 0x0003 []) 0x0002 []); [done| |by left|done|done|done].
  apply list_elem_of_lookup. by exists 41%nat.
Defined.

(** property: the pipes: every pipe but the control pipe has exactly one type,
    the two headers agree on it, and the control registers that
    [get_pipectr_addr] computes are those of the table. *)
Theorem pipe_types p :
  1 <= p < M66592.M66592_MAX_NUM_PIPE ->
  Z.b2z (M66592.is_bulk_pipe p) + Z.b2z (M66592.is_interrupt_pipe p) + Z.b2z (M66592.is_isoc_pipe p) = 1 /\
  R8A66597.is_bulk_pipe p = M66592.is_bulk_pipe p /\ R8A66597.is_interrupt_pipe p = M66592.is_interrupt_pipe p /\
  R8A66597.is_isoc_pipe p = M66592.is_isoc_pipe p /\
  (snd <$> g_regs M66592.PIPECTR) !! Z.to_nat (p - 1) = Some (M66592.get_pipectr_addr p).
Proof.
  unfold M66592.M66592_MAX_NUM_PIPE. intros H.
  assert (p = 1 \/ p = 2 \/ p = 3 \/ p = 4 \/ p = 5 \/ p = 6 \/ p = 7) as Hp by lia.
  by repeat (destruct Hp as [->|Hp]; [done|]); subst.
Qed.
Lemma pipe_types_witness :
  Z.b2z (M66592.is_bulk_pipe 3) + Z.b2z (M66592.is_interrupt_pipe 3) + Z.b2z (M66592.is_isoc_pipe 3) = 1 /\
  R8A66597.is_bulk_pipe 3 = M66592.is_bulk_pipe 3 /\ R8A66597.is_interrupt_pipe 3 = M66592.is_interrupt_pipe 3 /\
  R8A66597.is_isoc_pipe 3 = M66592.is_isoc_pipe 3 /\
  (snd <$> g_regs M66592.PIPECTR) !! 2%nat = Some (M66592.get_pipectr_addr 3).
Proof. apply (pipe_types 3). by vm_compute. Defined.

(** property: the size of a pipe's buffer, in blocks of 64 bytes, fits its
    field and can be read from it, for 64 to 2048 bytes. *)
Theorem buf_size_roundtrip n :
  1 <= n <= 32 ->
  within (M66592.M66592_BUF_SIZE (64 * n)) 0x7C00 = true /\
  (Z.shiftr (Z.land (M66592.M66592_BUF_SIZE (64 * n)) 0x7C00) 10 + 1) * 64 = 64 * n.
Proof.
  intros H. assert (forall x, 0 <= x < 33 -> ((x =? 0) || (within (M66592.M66592_BUF_SIZE (64 * x)) 0x7C00 &&
    ((Z.shiftr (Z.land (M66592.M66592_BUF_SIZE (64 * x)) 0x7C00) 10 + 1) * 64 =? 64 * x))) = true) as Hall.
  { apply (forall_below _ 33). by vm_compute. }
  specialize (Hall n ltac:(lia)). rewrite (proj2 (Z.eqb_neq n 0)) in Hall by lia. cbn [orb] in Hall.
  apply andb_prop in Hall as [H1 H2]. apply Z.eqb_eq in H2. done.
Qed.
Lemma buf_size_roundtrip_witness :
  within (M66592.M66592_BUF_SIZE 512) 0x7C00 = true /\
  (Z.shiftr (Z.land (M66592.M66592_BUF_SIZE 512) 0x7C00) 10 + 1) * 64 = 512.
Proof. apply (buf_size_roundtrip 8). lia. Defined.
