(* ===== verification/AmdUdc.v ===== *)
(** * The AMD 5536 controller (test_gadget/amd5536udc.h)

    Registers, DMA descriptors and the macros that read and write bit fields
    by the name of a field, from its mask and its position. *)

From Stdlib Require Import ZArith.
From stdpp Require Import base list strings.
From S2P Require Import Prelude HwRegs.

(** ** Registers and descriptors *)
Module AMD.
(** Requests that the controller handles itself. *)
Definition SETCONFIG_DWORD0 : pgroup := PGrp
  []
  [PF "UDC_SETCONFIG_DWORD0_VALUE" 0xffff0000 16 []].

Definition SETINTF_DWORD0 : pgroup := PGrp
  []
  [PF "UDC_SETINTF_DWORD0_ALT" 0xffff0000 16 []].

Definition SETINTF_DWORD1 : pgroup := PGrp
  []
  [PF "UDC_SETINTF_DWORD1_INTF" 0x0000ffff 0 []].

Definition CSR_NE : pgroup := PGrp
  [("UDC_CSR_ADDR", 0x500)]
  [PF "UDC_CSR_NE_NUM" 0x0000000f 0 []; PF "UDC_CSR_NE_DIR" 0x00000010 4 []; PF "UDC_CSR_NE_TYPE" 0x00000060 5 [];
   PF "UDC_CSR_NE_CFG" 0x00000780 7 []; PF "UDC_CSR_NE_INTF" 0x00007800 11 []; PF "UDC_CSR_NE_ALT" 0x00078000 15 [];
   PF "UDC_CSR_NE_MAX_PKT" 0x3ff80000 19 []].

Definition DEVCFG : pgroup := PGrp
  [("UDC_DEVCFG_ADDR", 0x400)]
  [B "UDC_DEVCFG_SOFTRESET" 31; B "UDC_DEVCFG_HNPSFEN" 30; B "UDC_DEVCFG_DMARST" 29; B "UDC_DEVCFG_SET_DESC" 18;
   B "UDC_DEVCFG_CSR_PRG" 17; B "UDC_DEVCFG_STATUS" 7; B "UDC_DEVCFG_DIR" 6; B "UDC_DEVCFG_PI" 5;
   B "UDC_DEVCFG_SS" 4; B "UDC_DEVCFG_SP" 3; B "UDC_DEVCFG_RWKP" 2;
   PF "UDC_DEVCFG_SPD" 0x3 0 [("UDC_DEVCFG_SPD_HS", 0x0); ("UDC_DEVCFG_SPD_FS", 0x1); ("UDC_DEVCFG_SPD_LS", 0x2)]].

Definition DEVCTL : pgroup := PGrp
  [("UDC_DEVCTL_ADDR", 0x404)]
  [PF "UDC_DEVCTL_THLEN" 0xff000000 24 []; PF "UDC_DEVCTL_BRLEN" 0x00ff0000 16 []; B "UDC_DEVCTL_CSR_DONE" 13;
   B "UDC_DEVCTL_DEVNAK" 12; B "UDC_DEVCTL_SD" 10; B "UDC_DEVCTL_MODE" 9; B "UDC_DEVCTL_BREN" 8;
   B "UDC_DEVCTL_THE" 7; B "UDC_DEVCTL_BF" 6; B "UDC_DEVCTL_BE" 5; B "UDC_DEVCTL_DU" 4; B "UDC_DEVCTL_TDE" 3;
   B "UDC_DEVCTL_RDE" 2; B "UDC_DEVCTL_RES" 0].

Definition DEVSTS : pgroup := PGrp
  [("UDC_DEVSTS_ADDR", 0x408)]
  [PF "UDC_DEVSTS_TS" 0xfffc0000 18 []; B "UDC_DEVSTS_SESSVLD" 17; B "UDC_DEVSTS_PHY_ERROR" 16;
   B "UDC_DEVSTS_RXFIFO_EMPTY" 15;
   PF "UDC_DEVSTS_ENUM_SPEED" 0x00006000 13 [("UDC_DEVSTS_ENUM_SPEED_FULL", 1); ("UDC_DEVSTS_ENUM_SPEED_HIGH", 0)];
   B "UDC_DEVSTS_SUSP" 12; PF "UDC_DEVSTS_ALT" 0x00000f00 8 []; PF "UDC_DEVSTS_INTF" 0x000000f0 4 [];
   PF "UDC_DEVSTS_CFG" 0x0000000f 0 []].

Definition DEVINT : pgroup := PGrp
  [("UDC_DEVINT_ADDR", 0x40c)]
  [B "UDC_DEVINT_SVC" 7; B "UDC_DEVINT_ENUM" 6; B "UDC_DEVINT_SOF" 5; B "UDC_DEVINT_US" 4; B "UDC_DEVINT_UR" 3;
   B "UDC_DEVINT_ES" 2; B "UDC_DEVINT_SI" 1; B "UDC_DEVINT_SC" 0].

(** The interrupts of the endpoints, by direction and one by one. *)
Definition EPINT : pgroup := PGrp
  [("UDC_EPINT_ADDR", 0x414)]
  [PF "UDC_EPINT_OUT" 0xffff0000 16 []; PF "UDC_EPINT_IN" 0x0000ffff 0 []].

Definition EPINT_bits : pgroup := PGrp
  []
  [B "UDC_EPINT_IN_EP0" 0; B "UDC_EPINT_IN_EP1" 1; B "UDC_EPINT_IN_EP2" 2; B "UDC_EPINT_IN_EP3" 3;
   B "UDC_EPINT_OUT_EP0" 16; B "UDC_EPINT_OUT_EP1" 17; B "UDC_EPINT_OUT_EP2" 18; B "UDC_EPINT_OUT_EP3" 19].

Definition EPINT_MSK : pgroup := PGrp
  [("UDC_EPINT_MSK_ADDR", 0x418)]
  [PF "UDC_EPINT_OUT_MSK" 0xffff0000 16 []; PF "UDC_EPINT_IN_MSK" 0x0000ffff 0 []].

Definition EPCTL : pgroup := PGrp
  [("UDC_EPCTL_ADDR", 0x0)]
  [B "UDC_EPCTL_RRDY" 9; B "UDC_EPCTL_CNAK" 8; B "UDC_EPCTL_SNAK" 7; B "UDC_EPCTL_NAK" 6;
   PF "UDC_EPCTL_ET" 0x00000030 4 [("UDC_EPCTL_ET_CONTROL", 0); ("UDC_EPCTL_ET_ISO", 1); ("UDC_EPCTL_ET_BULK", 2);
     ("UDC_EPCTL_ET_INTERRUPT", 3)];
   B "UDC_EPCTL_P" 3; B "UDC_EPCTL_SN" 2; B "UDC_EPCTL_F" 1; B "UDC_EPCTL_S" 0].

Definition EPSTS : pgroup := PGrp
  [("UDC_EPSTS_ADDR", 0x4)]
  [PF "UDC_EPSTS_RX_PKT_SIZE" 0x007ff800 11 []; B "UDC_EPSTS_TDC" 10; B "UDC_EPSTS_HE" 9; B "UDC_EPSTS_BNA" 7;
   B "UDC_EPSTS_IN" 6;
   PF "UDC_EPSTS_OUT" 0x00000030 4 [("UDC_EPSTS_OUT_DATA", 1); ("UDC_EPSTS_OUT_SETUP", 2)]].

Definition EPIN_BUFF_SIZE : pgroup := PGrp
  [("UDC_EPIN_BUFF_SIZE_ADDR", 0x8)]
  [PF "UDC_EPIN_BUFF_SIZE" 0x0000ffff 0 []].

Definition EPOUT_FRAME_NUMBER : pgroup := PGrp
  [("UDC_EPOUT_FRAME_NUMBER_ADDR", 0x8)]
  [PF "UDC_EPOUT_FRAME_NUMBER" 0x0000ffff 0 []].

Definition EPOUT_BUFF_SIZE : pgroup := PGrp
  [("UDC_EPOUT_BUFF_SIZE_ADDR", 0x0c); ("UDC_EP_MAX_PKT_SIZE_ADDR", 0x0c)]
  [PF "UDC_EPOUT_BUFF_SIZE" 0xffff0000 16 []; PF "UDC_EP_MAX_PKT_SIZE" 0x0000ffff 0 []].

(** The status words of the DMA descriptors; the configuration of a setup
    packet also by its parts. *)
Definition DMA_STP_STS : pgroup := PGrp
  []
  [PF "UDC_DMA_STP_STS_CFG" 0x0fff0000 16 []; PF "UDC_DMA_STP_STS_RX" 0x30000000 28 [];
   PF "UDC_DMA_STP_STS_BS" 0xc0000000 30 [("UDC_DMA_STP_STS_BS_HOST_READY", 0); ("UDC_DMA_STP_STS_BS_DMA_BUSY", 1);
     ("UDC_DMA_STP_STS_BS_DMA_DONE", 2); ("UDC_DMA_STP_STS_BS_HOST_BUSY", 3)]].

Definition DMA_STP_STS_CFG : pgroup := PGrp
  []
  [PF "UDC_DMA_STP_STS_CFG_ALT" 0x000f0000 16 []; PF "UDC_DMA_STP_STS_CFG_INTF" 0x00f00000 20 [];
   PF "UDC_DMA_STP_STS_CFG_NUM" 0x0f000000 24 []].

Definition DMA_IN_STS : pgroup := PGrp
  []
  [PF "UDC_DMA_IN_STS_TXBYTES" 0x0000ffff 0 []; B "UDC_DMA_IN_STS_L" 27; PF "UDC_DMA_IN_STS_TX" 0x30000000 28 [];
   PF "UDC_DMA_IN_STS_BS" 0xc0000000 30 [("UDC_DMA_IN_STS_BS_HOST_READY", 0); ("UDC_DMA_IN_STS_BS_DMA_BUSY", 1);
     ("UDC_DMA_IN_STS_BS_DMA_DONE", 2); ("UDC_DMA_IN_STS_BS_HOST_BUSY", 3)]].

Definition DMA_OUT_STS : pgroup := PGrp
  []
  [PF "UDC_DMA_OUT_STS_RXBYTES" 0x0000ffff 0 []; B "UDC_DMA_OUT_STS_L" 27; PF "UDC_DMA_OUT_STS_RX" 0x30000000 28 [];
   PF "UDC_DMA_OUT_STS_BS" 0xc0000000 30 [("UDC_DMA_OUT_STS_BS_HOST_READY", 0); ("UDC_DMA_OUT_STS_BS_DMA_BUSY", 1);
     ("UDC_DMA_OUT_STS_BS_DMA_DONE", 2); ("UDC_DMA_OUT_STS_BS_HOST_BUSY", 3)]].

(** The frame numbers: the mask is that of bits 26-16, the position 0. *)
Definition UDC_DMA_IN_STS_FRAMENUM : pfield := PF "UDC_DMA_IN_STS_FRAMENUM" 0x07ff0000 0 [].
Definition UDC_DMA_OUT_STS_FRAMENUM : pfield := PF "UDC_DMA_OUT_STS_FRAMENUM" 0x07ff0000 0 [].

Definition AMD_regs : list pgroup :=
  [SETCONFIG_DWORD0; SETINTF_DWORD0; SETINTF_DWORD1; CSR_NE; DEVCFG; DEVCTL; DEVSTS; DEVINT; EPINT;
   EPINT_bits; EPINT_MSK; EPCTL; EPSTS; EPIN_BUFF_SIZE; EPOUT_FRAME_NUMBER; EPOUT_BUFF_SIZE; DMA_STP_STS;
   DMA_STP_STS_CFG; DMA_IN_STS; DMA_OUT_STS].

(** Masks of interrupts. *)
Definition UDC_DEVINT_MSK : Z := 0x7f.
Definition UDC_EPINT_EP0_ENABLE_MSK : Z := 0x001e001e.
Definition UDC_EPDATAINT_MSK_DISABLE : Z := 0xfffefffe.
Definition UDC_DEV_MSK_DISABLE : Z := 0x7f.

(** The address space. *)
Definition UDC_EPIN_REGS_ADDR : Z := 0x0.
Definition UDC_EPOUT_REGS_ADDR : Z := 0x200.
Definition UDC_DEVCFG_ADDR : Z := 0x400.
Definition UDC_CSR_ADDR : Z := 0x500.
Definition UDC_EP_SUBPTR_ADDR : Z := 0x10.
Definition UDC_EP_DESPTR_ADDR : Z := 0x14.
Definition UDC_EP_WRITE_CONFIRM_ADDR : Z := 0x1c.
Definition UDC_EPIN_NUM : Z := 16.
Definition UDC_EPOUT_NUM : Z := 16.
Definition UDC_USED_EP_NUM : Z := 9.
Definition UDC_RXFIFO_ADDR : Z := 0x800.
Definition UDC_RXFIFO_SIZE : Z := 0x400.
Definition UDC_TXFIFO_ADDR : Z := 0xc00.
Definition UDC_TXFIFO_SIZE : Z := 0x600.

Definition udc_csrs : list (string * cty) := [("sca", U32); ("ne", Arr UDC_USED_EP_NUM U32)].
Definition udc_regs : list (string * cty) :=
  [("cfg", U32); ("ctl", U32); ("sts", U32); ("irqsts", U32); ("irqmsk", U32); ("ep_irqsts", U32); ("ep_irqmsk", U32)].
Definition udc_ep_regs : list (string * cty) :=
  [("ctl", U32); ("sts", U32); ("bufin_framenum", U32); ("bufout_maxpkt", U32); ("subptr", U32); ("desptr", U32);
   ("reserved", U32); ("confirm", U32)].
Definition udc_stp_dma : list (string * cty) := [("status", U32); ("_reserved", U32); ("data12", U32); ("data34", U32)].
Definition udc_data_dma : list (string * cty) := [("status", U32); ("_reserved", U32); ("bufptr", U32); ("next", U32)].

(** ** The macros; [bitfield_stub_name] is a field of the tables. *)
Definition AMD_ADDBITS (u32Val bitfield_val : Z) (f : pfield) : Z :=
  Z.lor (Z.land u32Val (u32 (Z.lnot (p_mask f)))) (Z.land (u32 (Z.shiftl bitfield_val (p_ofs f))) (p_mask f)).
Definition AMD_INIT_SETBITS (u32Val bitfield_val : Z) (f : pfield) : Z :=
  Z.lor u32Val (Z.land (u32 (Z.shiftl bitfield_val (p_ofs f))) (p_mask f)).
Definition AMD_GETBITS (u32Val : Z) (f : pfield) : Z := Z.shiftr (Z.land u32Val (p_mask f)) (p_ofs f).
Definition AMD_BIT (n : Z) : Z := u32 (Z.shiftl 1 n).
Definition AMD_UNMASK_BIT (n : Z) : Z := u32 (Z.lnot (AMD_BIT n)).
Definition AMD_CLEAR_BIT (n : Z) : Z := u32 (Z.lnot (AMD_BIT n)).
End AMD.
Import AMD.

Lemma AMD_regs_ok : ptable_ok 32 AMD_regs = true.
Proof. by vm_compute. Qed.

Lemma addbits_set v x f :
  pfield_ok 32 f = true -> 0 <= v < 2 ^ 32 -> AMD_ADDBITS v x f = pf_set f v x.
Proof.
  intros Hf Hv. unfold AMD_ADDBITS, pf_set, set_bits, u32.
  rewrite land_wrap_lnot, land_wrap by (lia || by apply pmask_range). done.
Qed.

(** property: the bit field macros, on every field of every register and
    descriptor the header describes (the frame numbers apart): reading a
    field after [AMD_ADDBITS] gives the value written, cut to the size of the
    field; every other field of the register reads as before; the result is
    a 32-bit word; and on a register whose field is zero [AMD_INIT_SETBITS]
    does the same. *)
Theorem bitfield_roundtrip g i f v x :
  g ∈ AMD_regs -> pg_fields g !! i = Some f -> 0 <= v < 2 ^ 32 ->
  AMD_GETBITS (AMD_ADDBITS v x f) f = x mod 2 ^ p_size f /\
  (forall j f', pg_fields g !! j = Some f' -> j <> i -> AMD_GETBITS (AMD_ADDBITS v x f) f' = AMD_GETBITS v f') /\
  0 <= AMD_ADDBITS v x f < 2 ^ 32 /\
  (AMD_GETBITS v f = 0 -> AMD_INIT_SETBITS v x f = AMD_ADDBITS v x f).
Proof.
  intros Hg Hf Hv. pose proof (ptable_field _ _ _ _ _ AMD_regs_ok Hg Hf) as Hok. pose proof (pmask_range _ _ Hok) as Hm.
  rewrite addbits_set by done.
  destruct (ptable_update 32 AMD_regs g i f v x AMD_regs_ok Hg Hf) as [H1 H2]. split; [exact H1|]. split; [exact H2|]. split.
  - apply set_bits_range; [lia|done|]. apply (within_range 32 _ (p_mask f)); [lia| |apply within_land|done].
    apply Z.land_nonneg. lia.
  - intros H0. unfold AMD_INIT_SETBITS, pf_set, set_bits, u32. rewrite land_wrap by (lia || done). f_equal.
    apply pfield_ok_props in Hok as (Ho & Hs & _ & Hmm). unfold AMD_GETBITS in H0.
    assert (Z.land v (p_mask f) = 0) as E.
    { rewrite Hmm in *. bits_by n. rewrite Z.bits_0. destruct (Z.lt_ge_cases n (p_ofs f)) as [Hn|Hn].
      - by rewrite Z.shiftl_spec_low, andb_false_r by lia.
      - apply (f_equal (fun z => Z.testbit z (n - p_ofs f))) in H0.
        rewrite Z.shiftr_spec, Z.land_spec, Z.bits_0 in H0 by lia. by rewrite Z.sub_add in H0. }
    bits_by n. apply (f_equal (fun z => Z.testbit z n)) in E. rewrite Z.land_spec, Z.bits_0 in E.
    destruct (Z.testbit v n), (Z.testbit (p_mask f) n); (done || discriminate).
Qed.
Lemma bitfield_roundtrip_witness :
  let f := PF "UDC_CSR_NE_MAX_PKT" 0x3ff80000 19 [] in
  AMD_GETBITS (AMD_ADDBITS 0x35 512 f) f = 512 mod 2 ^ p_size f /\
  (forall j f', pg_fields CSR_NE !! j = Some f' -> j <> 6%nat -> AMD_GETBITS (AMD_ADDBITS 0x35 512 f) f' = AMD_GETBITS 0x35 f') /\
  0 <= AMD_ADDBITS 0x35 512 f < 2 ^ 32 /\
  (AMD_GETBITS 0x35 f = 0 -> AMD_INIT_SETBITS 0x35 512 f = AMD_ADDBITS 0x35 512 f).
Proof.
  apply (bitfield_roundtrip CSR_NE 6 (PF "UDC_CSR_NE_MAX_PKT" 0x3ff80000 19 []) 0x35 512); [|done|lia].
  apply list_elem_of_lookup. by exists 3%nat.
Defined.

(** property: the position of the frame number in a DMA descriptor is 0 while
    its mask is that of bits 26-16: a frame number written with the macros is
    lost, and one that the controller has written reads shifted up by 16. *)
Theorem frame_number_lost v x f :
  f = UDC_DMA_IN_STS_FRAMENUM \/ f = UDC_DMA_OUT_STS_FRAMENUM -> 0 <= x < 2 ^ 11 -> 0 <= v < 2 ^ 32 ->
  AMD_GETBITS (AMD_ADDBITS v x f) f = 0 /\
  AMD_GETBITS v f = Z.shiftl (Z.land (Z.shiftr v 16) 0x7ff) 16.
Proof.
  intros Hf Hx Hv. assert (p_mask f = Z.shiftl (Z.ones 11) 16 /\ p_ofs f = 0) as [Hm Ho] by (by destruct Hf as [->| ->]).
  unfold AMD_GETBITS, AMD_ADDBITS. rewrite Ho, Hm, Z.shiftl_0_r, !Z.shiftr_0_r, (u32_small x) by lia. split.
  - bits_by n. rewrite Z.bits_0. unfold u32, wrap. rewrite <- Z.land_ones by lia.
    destruct (Z.lt_ge_cases n 16) as [Hn|Hn].
    + rewrite Z.shiftl_spec_low by lia. by rewrite andb_false_r.
    + rewrite (proj1 (high_bits 11 x ltac:(lia) ltac:(lia)) ltac:(lia) n ltac:(lia)).
      rewrite Z.land_spec, Z.lnot_spec by lia. by destruct (Z.testbit v n), (Z.testbit (Z.shiftl (Z.ones 11) 16) n), (Z.testbit (Z.ones 32) n).
  - change 0x7ff with (Z.ones 11). rewrite Z.shiftl_land. bits_by n.
    destruct (Z.lt_ge_cases n 16) as [Hn|Hn].
    + rewrite (Z.shiftl_spec_low (Z.ones 11)), !andb_false_r by lia. done.
    + rewrite (Z.shiftl_spec (Z.shiftr v 16)), Z.shiftr_spec by lia. by replace (n - 16 + 16) with n by lia.
Qed.
Lemma frame_number_lost_witness :
  AMD_GETBITS (AMD_ADDBITS 0 77 UDC_DMA_IN_STS_FRAMENUM) UDC_DMA_IN_STS_FRAMENUM = 0 /\
  AMD_GETBITS 0 UDC_DMA_IN_STS_FRAMENUM = Z.shiftl (Z.land (Z.shiftr 0 16) 0x7ff) 16.
Proof. apply (frame_number_lost 0 77); [by left|lia..]. Defined.

(** property: the address space: the structures have their members at the
    addresses of the registers, descriptors have 16 bytes, and the blocks -
    endpoint, device and control registers, the FIFOs - follow each other
    without overlap. *)
Theorem amd_layout PTR DMA :
  (forall m o, members PTR DMA 0 udc_regs !! m = Some o -> fst (snd o) = 4 * Z.of_nat m) /\
  offsetof PTR DMA udc_ep_regs "subptr" = Some UDC_EP_SUBPTR_ADDR /\
  offsetof PTR DMA udc_ep_regs "desptr" = Some UDC_EP_DESPTR_ADDR /\
  offsetof PTR DMA udc_ep_regs "confirm" = Some UDC_EP_WRITE_CONFIRM_ADDR /\
  struct_size PTR DMA udc_stp_dma = 16 /\ struct_size PTR DMA udc_data_dma = 16 /\
  UDC_EPIN_REGS_ADDR + UDC_EPIN_NUM * struct_size PTR DMA udc_ep_regs <= UDC_EPOUT_REGS_ADDR /\
  UDC_EPOUT_REGS_ADDR + UDC_EPOUT_NUM * struct_size PTR DMA udc_ep_regs <= UDC_DEVCFG_ADDR /\
  UDC_DEVCFG_ADDR + struct_size PTR DMA udc_regs <= UDC_CSR_ADDR /\
  UDC_CSR_ADDR + struct_size PTR DMA udc_csrs <= UDC_RXFIFO_ADDR /\
  UDC_RXFIFO_ADDR + UDC_RXFIFO_SIZE <= UDC_TXFIFO_ADDR /\
  (snd <$> (pg_regs DEVCFG ++ pg_regs DEVCTL ++ pg_regs DEVSTS ++ pg_regs DEVINT)) =
    (fun m => UDC_DEVCFG_ADDR + fst (snd m)) <$> take 4 (members PTR DMA 0 udc_regs).
Proof.
  repeat split; try done. intros m o. do 7 (destruct m as [|m]; [by intros [= <-]|]). done.
Qed.

(** property: the mask for all device interrupts covers each of them but
    [SVC]: it has seven bits, the register eight interrupts. *)
Theorem svc_interrupt_unmasked f :
  f ∈ pg_fields DEVINT ->
  Z.land (p_mask f) UDC_DEV_MSK_DISABLE = 0 <-> f = B "UDC_DEVINT_SVC" 7.
Proof.
  intros H. unfold DEVINT in H. cbn [pg_fields] in H.
  repeat (apply elem_of_cons in H as [->|H]; [split; [done || (intros E; by vm_compute in E)|intros E; by (inversion E || vm_compute)]|]).
  by apply not_elem_of_nil in H.
Qed.
Lemma svc_interrupt_unmasked_witness :
  Z.land (p_mask (B "UDC_DEVINT_SVC" 7)) UDC_DEV_MSK_DISABLE = 0 <-> B "UDC_DEVINT_SVC" 7 = B "UDC_DEVINT_SVC" 7.
Proof. apply (svc_interrupt_unmasked (B "UDC_DEVINT_SVC" 7)). by left. Defined.
