(* ===== verification/Fusb300.v ===== *)
(** * The FUSB300 controller (test_gadget/fusb300_udc.h)

    Registers with their fields, the bits of the interrupt registers as named
    constants and as macros of the endpoint's number, and the offsets. *)

From Stdlib Require Import ZArith.
From stdpp Require Import base list strings.
From S2P Require Import Prelude HwRegs.

(** ** Registers *)
Module FUSB300.
Definition GCR : pgroup := PGrp
  [("FUSB300_OFFSET_GCR", 0x00)]
  [B "FUSB300_GCR_SF_RST" 8; B "FUSB300_GCR_VBUS_STATUS" 7; B "FUSB300_GCR_FORCE_HS_SUSP" 6;
   B "FUSB300_GCR_SYNC_FIFO1_CLR" 5; B "FUSB300_GCR_SYNC_FIFO0_CLR" 4; B "FUSB300_GCR_FIFOCLR" 3;
   B "FUSB300_GCR_GLINTEN" 2;
   PF "FUSB300_GCR_DEVEN_MSK" 0x3 0 [("FUSB300_GCR_DEVEN_FS", 0x3); ("FUSB300_GCR_DEVEN_HS", 0x2);
     ("FUSB300_GCR_DEVEN_SS", 0x1); ("FUSB300_GCR_DEVDIS", 0x0)]].

Definition GTM : pgroup := PGrp
  [("FUSB300_OFFSET_GTM", 0x04)]
  [B "FUSB300_GTM_TST_DIS_SOFGEN" 16; PF "FUSB300_GTM_TST_CUR_EP_ENTRY" (Z.shiftl 0xF 12) 12 [];
   PF "FUSB300_GTM_TST_EP_ENTRY" (Z.shiftl 0xF 8) 8 []; PF "FUSB300_GTM_TST_EP_NUM" (Z.shiftl 0xF 4) 4 [];
   B "FUSB300_GTM_TST_FIFO_DEG" 1; B "FUSB300_GTM_TSTMODE" 0].

Definition DAR : pgroup := PGrp
  [("FUSB300_OFFSET_DAR", 0x08)]
  [B "FUSB300_DAR_SETCONFG" 7; PF "FUSB300_DAR_DRVADDR" 0x7F 0 []].

Definition CSR : pgroup := PGrp
  [("FUSB300_OFFSET_CSR", 0x0C)]
  [PF "FUSB300_CSR_LEN" (Z.shiftl 0xFFFF 8) 8 []; B "FUSB300_CSR_EMP" 4; B "FUSB300_CSR_FUL" 3;
   B "FUSB300_CSR_CLR" 2; B "FUSB300_CSR_STL" 1; B "FUSB300_CSR_DONE" 0].

Definition EPSET0 : pgroup := PGrp
  []
  [B "FUSB300_EPSET0_CLRSEQNUM" 2; B "FUSB300_EPSET0_EPn_TX0BYTE" 1; B "FUSB300_EPSET0_STL" 0].

Definition EPSET1 : pgroup := PGrp
  []
  [PF "FUSB300_EPSET1_START_ENTRY" (Z.shiftl 0xFF 24) 24 []; PF "FUSB300_EPSET1_FIFOENTRY" (Z.shiftl 0x1F 12) 12 [];
   PF "FUSB300_EPSET1_INTERVAL" (Z.shiftl 0x7 6) 6 []; PF "FUSB300_EPSET1_BWNUM" (Z.shiftl 0x3 4) 4 [];
   PF "FUSB300_EPSET1_TYPE" (Z.shiftl 0x3 2) 2 [("FUSB300_EPSET1_TYPEISO", 1); ("FUSB300_EPSET1_TYPEBLK", 2);
     ("FUSB300_EPSET1_TYPEINT", 3)];
   PF "FUSB300_EPSET1_DIR" (Z.shiftl 0x1 1) 1 [("FUSB300_EPSET1_DIROUT", 0); ("FUSB300_EPSET1_DIRIN", 1)];
   PF "FUSB300_EPSET1_ACTEN" 1 0 [("FUSB300_EPSET1_ACTDIS", 0)]].

Definition EPSET2 : pgroup := PGrp
  []
  [PF "FUSB300_EPSET2_ADDROFS" (Z.shiftl 0x7FFF 16) 16 []; PF "FUSB300_EPSET2_MPS" 0x7FF 0 []].

Definition EPFFR : pgroup := PGrp
  []
  [B "FUSB300_FFR_RST" 31; B "FUSB300_FF_FUL" 30; B "FUSB300_FF_EMPTY" 29; PF "FUSB300_FFR_BYCNT" 0x1FFFF 0 []].

Definition EPSTRID : pgroup := PGrp
  []
  [B "FUSB300_STRID_STREN" 16; PF "FUSB300_STRID_STRID" 0xFFFF 0 []].

Definition HSPTM : pgroup := PGrp
  [("FUSB300_OFFSET_HSPTM", 0x300)]
  [B "FUSB300_HSPTM_TSTPKDONE" 4; B "FUSB300_HSPTM_TSTPKT" 3; B "FUSB300_HSPTM_TSTSET0NAK" 2;
   B "FUSB300_HSPTM_TSTKSTA" 1; B "FUSB300_HSPTM_TSTJSTA" 0].

Definition HSCR : pgroup := PGrp
  [("FUSB300_OFFSET_HSCR", 0x304)]
  [B "FUSB300_HSCR_HS_LPM_PERMIT" 8; B "FUSB300_HSCR_HS_LPM_RMWKUP" 7; B "FUSB300_HSCR_CAP_LPM_RMWKUP" 6;
   B "FUSB300_HSCR_HS_GOSUSP" 5; B "FUSB300_HSCR_HS_GORMWKU" 4; B "FUSB300_HSCR_CAP_RMWKUP" 3].

Definition SSCR0 : pgroup := PGrp
  [("FUSB300_OFFSET_SSCR0", 0x308)]
  [PF "FUSB300_SSCR0_MAX_INTERVAL" (Z.shiftl 0x7 4) 4 []; B "FUSB300_SSCR0_U2_FUN_EN" 1;
   B "FUSB300_SSCR0_U1_FUN_EN" 0].

Definition SSCR1 : pgroup := PGrp
  [("FUSB300_OFFSET_SSCR1", 0x30C)]
  [B "FUSB300_SSCR1_GO_U3_DONE" 8; B "FUSB300_SSCR1_TXDEEMPH_LEVEL" 7; B "FUSB300_SSCR1_DIS_SCRMB" 6;
   B "FUSB300_SSCR1_FORCE_RECOVERY" 5; B "FUSB300_SSCR1_U3_WAKEUP_EN" 4; B "FUSB300_SSCR1_U2_EXIT_EN" 3;
   B "FUSB300_SSCR1_U1_EXIT_EN" 2; B "FUSB300_SSCR1_U2_ENTRY_EN" 1; B "FUSB300_SSCR1_U1_ENTRY_EN" 0].

Definition SSCR2 : pgroup := PGrp
  [("FUSB300_OFFSET_TT", 0x310)]
  [B "FUSB300_SSCR2_SS_TX_SWING" 25; B "FUSB300_SSCR2_FORCE_LINKPM_ACCEPT" 24;
   PF "FUSB300_SSCR2_U2_INACT_TIMEOUT" (Z.shiftl 0xFF 16) 16 [];
   PF "FUSB300_SSCR2_U1TIMEOUT" (Z.shiftl 0xFF 8) 8 []; PF "FUSB300_SSCR2_U2TIMEOUT" 0xFF 0 []].

Definition DEVNOTF : pgroup := PGrp
  [("FUSB300_OFFSET_DEVNOTF", 0x314)]
  [PF "FUSB300_DEVNOTF_CONTEXT0" (Z.shiftl 0xFFFFFF 8) 8 []].

Definition BFMARB : pgroup := PGrp
  [("FUSB300_OFFSET_CS", 0x31C)]
  [B "FUSB300_BFMARB_ARB_M1" 3; B "FUSB300_BFMARB_ARB_M0" 2; B "FUSB300_BFMARB_ARB_S1" 1;
   PF "FUSB300_BFMARB_ARB_S0" 1 0 []].

Definition VSIC : pgroup := PGrp
  []
  [B "FUSB300_VSIC_VCTLOAD_N" 8; PF "FUSB300_VSIC_VCTL" 0x3F 0 []].

(** Interrupt groups 0, by transfer and by FIFO. *)
Definition IGR0_PRD : pgroup := PGrp
  [("FUSB300_OFFSET_IGR0", 0x400)]
  [B "FUSB300_IGR0_EP15_PRD_INT" 31; B "FUSB300_IGR0_EP14_PRD_INT" 30; B "FUSB300_IGR0_EP13_PRD_INT" 29;
   B "FUSB300_IGR0_EP12_PRD_INT" 28; B "FUSB300_IGR0_EP11_PRD_INT" 27; B "FUSB300_IGR0_EP10_PRD_INT" 26;
   B "FUSB300_IGR0_EP9_PRD_INT" 25; B "FUSB300_IGR0_EP8_PRD_INT" 24; B "FUSB300_IGR0_EP7_PRD_INT" 23;
   B "FUSB300_IGR0_EP6_PRD_INT" 22; B "FUSB300_IGR0_EP5_PRD_INT" 21; B "FUSB300_IGR0_EP4_PRD_INT" 20;
   B "FUSB300_IGR0_EP3_PRD_INT" 19; B "FUSB300_IGR0_EP2_PRD_INT" 18; B "FUSB300_IGR0_EP1_PRD_INT" 17].

Definition IGR0_FIFO : pgroup := PGrp
  [("FUSB300_OFFSET_IGR0", 0x400)]
  [B "FUSB300_IGR0_EP15_FIFO_INT" 15; B "FUSB300_IGR0_EP14_FIFO_INT" 14; B "FUSB300_IGR0_EP13_FIFO_INT" 13;
   B "FUSB300_IGR0_EP12_FIFO_INT" 12; B "FUSB300_IGR0_EP11_FIFO_INT" 11; B "FUSB300_IGR0_EP10_FIFO_INT" 10;
   B "FUSB300_IGR0_EP9_FIFO_INT" 9; B "FUSB300_IGR0_EP8_FIFO_INT" 8; B "FUSB300_IGR0_EP7_FIFO_INT" 7;
   B "FUSB300_IGR0_EP6_FIFO_INT" 6; B "FUSB300_IGR0_EP5_FIFO_INT" 5; B "FUSB300_IGR0_EP4_FIFO_INT" 4;
   B "FUSB300_IGR0_EP3_FIFO_INT" 3; B "FUSB300_IGR0_EP2_FIFO_INT" 2; B "FUSB300_IGR0_EP1_FIFO_INT" 1].

Definition IGR1 : pgroup := PGrp
  [("FUSB300_OFFSET_IGR1", 0x404)]
  [B "FUSB300_IGR1_INTGRP5" 31; B "FUSB300_IGR1_VBUS_CHG_INT" 30; B "FUSB300_IGR1_SYNF1_EMPTY_INT" 29;
   B "FUSB300_IGR1_SYNF0_EMPTY_INT" 28; B "FUSB300_IGR1_U3_EXIT_FAIL_INT" 27; B "FUSB300_IGR1_U2_EXIT_FAIL_INT" 26;
   B "FUSB300_IGR1_U1_EXIT_FAIL_INT" 25; B "FUSB300_IGR1_U2_ENTRY_FAIL_INT" 24;
   B "FUSB300_IGR1_U1_ENTRY_FAIL_INT" 23; B "FUSB300_IGR1_U3_EXIT_INT" 22; B "FUSB300_IGR1_U2_EXIT_INT" 21;
   B "FUSB300_IGR1_U1_EXIT_INT" 20; B "FUSB300_IGR1_U3_ENTRY_INT" 19; B "FUSB300_IGR1_U2_ENTRY_INT" 18;
   B "FUSB300_IGR1_U1_ENTRY_INT" 17; B "FUSB300_IGR1_HOT_RST_INT" 16; B "FUSB300_IGR1_WARM_RST_INT" 15;
   B "FUSB300_IGR1_RESM_INT" 14; B "FUSB300_IGR1_SUSP_INT" 13; B "FUSB300_IGR1_HS_LPM_INT" 12;
   B "FUSB300_IGR1_USBRST_INT" 11; B "FUSB300_IGR1_DEV_MODE_CHG_INT" 9; B "FUSB300_IGR1_CX_COMABT_INT" 8;
   B "FUSB300_IGR1_CX_COMFAIL_INT" 7; B "FUSB300_IGR1_CX_CMDEND_INT" 6; B "FUSB300_IGR1_CX_OUT_INT" 5;
   B "FUSB300_IGR1_CX_IN_INT" 4; B "FUSB300_IGR1_CX_SETUP_INT" 3; B "FUSB300_IGR1_INTGRP4" 2;
   B "FUSB300_IGR1_INTGRP3" 1; B "FUSB300_IGR1_INTGRP2" 0].

Definition IGR2 : pgroup := PGrp
  [("FUSB300_OFFSET_IGR2", 0x408)]
  [B "FUSB300_IGR2_EP6_STR_ACCEPT_INT" 29; B "FUSB300_IGR2_EP6_STR_RESUME_INT" 28;
   B "FUSB300_IGR2_EP6_STR_REQ_INT" 27; B "FUSB300_IGR2_EP6_STR_NOTRDY_INT" 26;
   B "FUSB300_IGR2_EP6_STR_PRIME_INT" 25; B "FUSB300_IGR2_EP5_STR_ACCEPT_INT" 24;
   B "FUSB300_IGR2_EP5_STR_RESUME_INT" 23; B "FUSB300_IGR2_EP5_STR_REQ_INT" 22;
   B "FUSB300_IGR2_EP5_STR_NOTRDY_INT" 21; B "FUSB300_IGR2_EP5_STR_PRIME_INT" 20;
   B "FUSB300_IGR2_EP4_STR_ACCEPT_INT" 19; B "FUSB300_IGR2_EP4_STR_RESUME_INT" 18;
   B "FUSB300_IGR2_EP4_STR_REQ_INT" 17; B "FUSB300_IGR2_EP4_STR_NOTRDY_INT" 16;
   B "FUSB300_IGR2_EP4_STR_PRIME_INT" 15; B "FUSB300_IGR2_EP3_STR_ACCEPT_INT" 14;
   B "FUSB300_IGR2_EP3_STR_RESUME_INT" 13; B "FUSB300_IGR2_EP3_STR_REQ_INT" 12;
   B "FUSB300_IGR2_EP3_STR_NOTRDY_INT" 11; B "FUSB300_IGR2_EP3_STR_PRIME_INT" 10;
   B "FUSB300_IGR2_EP2_STR_ACCEPT_INT" 9; B "FUSB300_IGR2_EP2_STR_RESUME_INT" 8; B "FUSB300_IGR2_EP2_STR_REQ_INT" 7;
   B "FUSB300_IGR2_EP2_STR_NOTRDY_INT" 6; B "FUSB300_IGR2_EP2_STR_PRIME_INT" 5;
   B "FUSB300_IGR2_EP1_STR_ACCEPT_INT" 4; B "FUSB300_IGR2_EP1_STR_RESUME_INT" 3; B "FUSB300_IGR2_EP1_STR_REQ_INT" 2;
   B "FUSB300_IGR2_EP1_STR_NOTRDY_INT" 1; B "FUSB300_IGR2_EP1_STR_PRIME_INT" 0].

Definition IGR3 : pgroup := PGrp
  [("FUSB300_OFFSET_IGR3", 0x40C)]
  [B "FUSB300_IGR3_EP12_STR_ACCEPT_INT" 29; B "FUSB300_IGR3_EP12_STR_RESUME_INT" 28;
   B "FUSB300_IGR3_EP12_STR_REQ_INT" 27; B "FUSB300_IGR3_EP12_STR_NOTRDY_INT" 26;
   B "FUSB300_IGR3_EP12_STR_PRIME_INT" 25; B "FUSB300_IGR3_EP11_STR_ACCEPT_INT" 24;
   B "FUSB300_IGR3_EP11_STR_RESUME_INT" 23; B "FUSB300_IGR3_EP11_STR_REQ_INT" 22;
   B "FUSB300_IGR3_EP11_STR_NOTRDY_INT" 21; B "FUSB300_IGR3_EP11_STR_PRIME_INT" 20;
   B "FUSB300_IGR3_EP10_STR_ACCEPT_INT" 19; B "FUSB300_IGR3_EP10_STR_RESUME_INT" 18;
   B "FUSB300_IGR3_EP10_STR_REQ_INT" 17; B "FUSB300_IGR3_EP10_STR_NOTRDY_INT" 16;
   B "FUSB300_IGR3_EP10_STR_PRIME_INT" 15; B "FUSB300_IGR3_EP9_STR_ACCEPT_INT" 14;
   B "FUSB300_IGR3_EP9_STR_RESUME_INT" 13; B "FUSB300_IGR3_EP9_STR_REQ_INT" 12;
   B "FUSB300_IGR3_EP9_STR_NOTRDY_INT" 11; B "FUSB300_IGR3_EP9_STR_PRIME_INT" 10;
   B "FUSB300_IGR3_EP8_STR_ACCEPT_INT" 9; B "FUSB300_IGR3_EP8_STR_RESUME_INT" 8; B "FUSB300_IGR3_EP8_STR_REQ_INT" 7;
   B "FUSB300_IGR3_EP8_STR_NOTRDY_INT" 6; B "FUSB300_IGR3_EP8_STR_PRIME_INT" 5;
   B "FUSB300_IGR3_EP7_STR_ACCEPT_INT" 4; B "FUSB300_IGR3_EP7_STR_RESUME_INT" 3; B "FUSB300_IGR3_EP7_STR_REQ_INT" 2;
   B "FUSB300_IGR3_EP7_STR_NOTRDY_INT" 1; B "FUSB300_IGR3_EP7_STR_PRIME_INT" 0].

Definition IGR4 : pgroup := PGrp
  [("FUSB300_OFFSET_IGR4", 0x410)]
  [B "FUSB300_IGR4_EP15_RX0_INT" 31; B "FUSB300_IGR4_EP14_RX0_INT" 30; B "FUSB300_IGR4_EP13_RX0_INT" 29;
   B "FUSB300_IGR4_EP12_RX0_INT" 28; B "FUSB300_IGR4_EP11_RX0_INT" 27; B "FUSB300_IGR4_EP10_RX0_INT" 26;
   B "FUSB300_IGR4_EP9_RX0_INT" 25; B "FUSB300_IGR4_EP8_RX0_INT" 24; B "FUSB300_IGR4_EP7_RX0_INT" 23;
   B "FUSB300_IGR4_EP6_RX0_INT" 22; B "FUSB300_IGR4_EP5_RX0_INT" 21; B "FUSB300_IGR4_EP4_RX0_INT" 20;
   B "FUSB300_IGR4_EP3_RX0_INT" 19; B "FUSB300_IGR4_EP2_RX0_INT" 18; B "FUSB300_IGR4_EP1_RX0_INT" 17;
   B "FUSB300_IGR4_EP15_STR_ACCEPT_INT" 14; B "FUSB300_IGR4_EP15_STR_RESUME_INT" 13;
   B "FUSB300_IGR4_EP15_STR_REQ_INT" 12; B "FUSB300_IGR4_EP15_STR_NOTRDY_INT" 11;
   B "FUSB300_IGR4_EP15_STR_PRIME_INT" 10; B "FUSB300_IGR4_EP14_STR_ACCEPT_INT" 9;
   B "FUSB300_IGR4_EP14_STR_RESUME_INT" 8; B "FUSB300_IGR4_EP14_STR_REQ_INT" 7;
   B "FUSB300_IGR4_EP14_STR_NOTRDY_INT" 6; B "FUSB300_IGR4_EP14_STR_PRIME_INT" 5;
   B "FUSB300_IGR4_EP13_STR_ACCEPT_INT" 4; B "FUSB300_IGR4_EP13_STR_RESUME_INT" 3;
   B "FUSB300_IGR4_EP13_STR_REQ_INT" 2; B "FUSB300_IGR4_EP13_STR_NOTRDY_INT" 1;
   B "FUSB300_IGR4_EP13_STR_PRIME_INT" 0].

(** The enable registers. *)
Definition IGER0_PRD : pgroup := PGrp
  [("FUSB300_OFFSET_IGER0", 0x420)]
  [B "FUSB300_IGER0_EEP15_PRD_INT" 31; B "FUSB300_IGER0_EEP14_PRD_INT" 30; B "FUSB300_IGER0_EEP13_PRD_INT" 29;
   B "FUSB300_IGER0_EEP12_PRD_INT" 28; B "FUSB300_IGER0_EEP11_PRD_INT" 27; B "FUSB300_IGER0_EEP10_PRD_INT" 26;
   B "FUSB300_IGER0_EEP9_PRD_INT" 25; B "FUSB300_IGER0_EP8_PRD_INT" 24; B "FUSB300_IGER0_EEP7_PRD_INT" 23;
   B "FUSB300_IGER0_EEP6_PRD_INT" 22; B "FUSB300_IGER0_EEP5_PRD_INT" 21; B "FUSB300_IGER0_EEP4_PRD_INT" 20;
   B "FUSB300_IGER0_EEP3_PRD_INT" 19; B "FUSB300_IGER0_EEP2_PRD_INT" 18; B "FUSB300_IGER0_EEP1_PRD_INT" 17].

Definition IGER0_FIFO : pgroup := PGrp
  [("FUSB300_OFFSET_IGER0", 0x420)]
  [B "FUSB300_IGER0_EEP15_FIFO_INT" 15; B "FUSB300_IGER0_EEP14_FIFO_INT" 14; B "FUSB300_IGER0_EEP13_FIFO_INT" 13;
   B "FUSB300_IGER0_EEP12_FIFO_INT" 12; B "FUSB300_IGER0_EEP11_FIFO_INT" 11; B "FUSB300_IGER0_EEP10_FIFO_INT" 10;
   B "FUSB300_IGER0_EEP9_FIFO_INT" 9; B "FUSB300_IGER0_EEP8_FIFO_INT" 8; B "FUSB300_IGER0_EEP7_FIFO_INT" 7;
   B "FUSB300_IGER0_EEP6_FIFO_INT" 6; B "FUSB300_IGER0_EEP5_FIFO_INT" 5; B "FUSB300_IGER0_EEP4_FIFO_INT" 4;
   B "FUSB300_IGER0_EEP3_FIFO_INT" 3; B "FUSB300_IGER0_EEP2_FIFO_INT" 2; B "FUSB300_IGER0_EEP1_FIFO_INT" 1].

Definition IGER1 : pgroup := PGrp
  [("FUSB300_OFFSET_IGER1", 0x424)]
  [B "FUSB300_IGER1_EINT_GRP5" 31; B "FUSB300_IGER1_VBUS_CHG_INT" 30; B "FUSB300_IGER1_SYNF1_EMPTY_INT" 29;
   B "FUSB300_IGER1_SYNF0_EMPTY_INT" 28; B "FUSB300_IGER1_U3_EXIT_FAIL_INT" 27;
   B "FUSB300_IGER1_U2_EXIT_FAIL_INT" 26; B "FUSB300_IGER1_U1_EXIT_FAIL_INT" 25;
   B "FUSB300_IGER1_U2_ENTRY_FAIL_INT" 24; B "FUSB300_IGER1_U1_ENTRY_FAIL_INT" 23; B "FUSB300_IGER1_U3_EXIT_INT" 22;
   B "FUSB300_IGER1_U2_EXIT_INT" 21; B "FUSB300_IGER1_U1_EXIT_INT" 20; B "FUSB300_IGER1_U3_ENTRY_INT" 19;
   B "FUSB300_IGER1_U2_ENTRY_INT" 18; B "FUSB300_IGER1_U1_ENTRY_INT" 17; B "FUSB300_IGER1_HOT_RST_INT" 16;
   B "FUSB300_IGER1_WARM_RST_INT" 15; B "FUSB300_IGER1_RESM_INT" 14; B "FUSB300_IGER1_SUSP_INT" 13;
   B "FUSB300_IGER1_LPM_INT" 12; B "FUSB300_IGER1_HS_RST_INT" 11; B "FUSB300_IGER1_EDEV_MODE_CHG_INT" 9;
   B "FUSB300_IGER1_CX_COMABT_INT" 8; B "FUSB300_IGER1_CX_COMFAIL_INT" 7; B "FUSB300_IGER1_CX_CMDEND_INT" 6;
   B "FUSB300_IGER1_CX_OUT_INT" 5; B "FUSB300_IGER1_CX_IN_INT" 4; B "FUSB300_IGER1_CX_SETUP_INT" 3;
   B "FUSB300_IGER1_INTGRP4" 2; B "FUSB300_IGER1_INTGRP3" 1; B "FUSB300_IGER1_INTGRP2" 0].

Definition EPPRDR : pgroup := PGrp
  [("FUSB300_OFFSET_EPPRDRDY", 0x504)]
  [B "FUSB300_EPPRDR_EP15_PRD_RDY" 15; B "FUSB300_EPPRDR_EP14_PRD_RDY" 14; B "FUSB300_EPPRDR_EP13_PRD_RDY" 13;
   B "FUSB300_EPPRDR_EP12_PRD_RDY" 12; B "FUSB300_EPPRDR_EP11_PRD_RDY" 11; B "FUSB300_EPPRDR_EP10_PRD_RDY" 10;
   B "FUSB300_EPPRDR_EP9_PRD_RDY" 9; B "FUSB300_EPPRDR_EP8_PRD_RDY" 8; B "FUSB300_EPPRDR_EP7_PRD_RDY" 7;
   B "FUSB300_EPPRDR_EP6_PRD_RDY" 6; B "FUSB300_EPPRDR_EP5_PRD_RDY" 5; B "FUSB300_EPPRDR_EP4_PRD_RDY" 4;
   B "FUSB300_EPPRDR_EP3_PRD_RDY" 3; B "FUSB300_EPPRDR_EP2_PRD_RDY" 2; B "FUSB300_EPPRDR_EP1_PRD_RDY" 1].

Definition AHBBCR : pgroup := PGrp
  [("FUSB300_OFFSET_AHBCR", 0x514)]
  [B "FUSB300_AHBBCR_S1_SPLIT_ON" 17; B "FUSB300_AHBBCR_S0_SPLIT_ON" 16].

Definition EPPRD0 : pgroup := PGrp
  []
  [B "FUSB300_EPPRD0_M" 30; B "FUSB300_EPPRD0_O" 29; B "FUSB300_EPPRD0_F" 28; B "FUSB300_EPPRD0_I" 27;
   B "FUSB300_EPPRD0_A" 26; B "FUSB300_EPPRD0_L" 25; B "FUSB300_EPPRD0_H" 24;
   PF "FUSB300_EPPRD0_BTC" 0xFFFFFF 0 []].

Definition FUSB300_regs : list pgroup :=
  [GCR; GTM; DAR; CSR; EPSET0; EPSET1; EPSET2; EPFFR; EPSTRID; HSPTM; HSCR; SSCR0; SSCR1; SSCR2; DEVNOTF;
   BFMARB; VSIC; IGR0_PRD; IGR0_FIFO; IGR1; IGR2; IGR3; IGR4; IGER0_PRD; IGER0_FIFO; IGER1; EPPRDR; AHBBCR;
   EPPRD0].

(** ** Bits by the number of an endpoint *)
Definition FUSB300_IGR0_EPn_PRD_INT (n : Z) : Z := Z.shiftl 1 (n + 16).
Definition FUSB300_IGR0_EPn_FIFO_INT (n : Z) : Z := Z.shiftl 1 n.
Definition FUSB300_IGR2_EP_STR_ACCEPT_INT (n : Z) : Z := Z.shiftl 1 (5 * n - 1).
Definition FUSB300_IGR2_EP_STR_RESUME_INT (n : Z) : Z := Z.shiftl 1 (5 * n - 2).
Definition FUSB300_IGR2_EP_STR_REQ_INT (n : Z) : Z := Z.shiftl 1 (5 * n - 3).
Definition FUSB300_IGR2_EP_STR_NOTRDY_INT (n : Z) : Z := Z.shiftl 1 (5 * n - 4).
Definition FUSB300_IGR2_EP_STR_PRIME_INT (n : Z) : Z := Z.shiftl 1 (5 * n - 5).
Definition FUSB300_IGR3_EP_STR_ACCEPT_INT (n : Z) : Z := Z.shiftl 1 (5 * (n - 6) - 1).
Definition FUSB300_IGR3_EP_STR_RESUME_INT (n : Z) : Z := Z.shiftl 1 (5 * (n - 6) - 2).
Definition FUSB300_IGR3_EP_STR_REQ_INT (n : Z) : Z := Z.shiftl 1 (5 * (n - 6) - 3).
Definition FUSB300_IGR3_EP_STR_NOTRDY_INT (n : Z) : Z := Z.shiftl 1 (5 * (n - 6) - 4).
Definition FUSB300_IGR3_EP_STR_PRIME_INT (n : Z) : Z := Z.shiftl 1 (5 * (n - 6) - 5).
Definition FUSB300_IGR4_EP_RX0_INT (x : Z) : Z := Z.shiftl 1 (x + 16).
Definition FUSB300_IGR4_EP_STR_ACCEPT_INT (n : Z) : Z := Z.shiftl 1 (5 * (n - 12) - 1).
Definition FUSB300_IGR4_EP_STR_RESUME_INT (n : Z) : Z := Z.shiftl 1 (5 * (n - 12) - 2).
Definition FUSB300_IGR4_EP_STR_REQ_INT (n : Z) : Z := Z.shiftl 1 (5 * (n - 12) - 3).
Definition FUSB300_IGR4_EP_STR_NOTRDY_INT (n : Z) : Z := Z.shiftl 1 (5 * (n - 12) - 4).
Definition FUSB300_IGR4_EP_STR_PRIME_INT (n : Z) : Z := Z.shiftl 1 (5 * (n - 12) - 5).
Definition FUSB300_IGR5_EP_STL_INT (n : Z) : Z := Z.shiftl 1 n.
Definition FUSB300_IGER0_EEPn_PRD_INT (n : Z) : Z := Z.shiftl 1 (n + 16).
Definition FUSB300_IGER0_EEPn_FIFO_INT (n : Z) : Z := Z.shiftl 1 n.
Definition FUSB300_IGER2_EEP_STR_ACCEPT_INT (n : Z) : Z := Z.shiftl 1 (5 * n - 1).
Definition FUSB300_IGER2_EEP_STR_RESUME_INT (n : Z) : Z := Z.shiftl 1 (5 * n - 2).
Definition FUSB300_IGER2_EEP_STR_REQ_INT (n : Z) : Z := Z.shiftl 1 (5 * n - 3).
Definition FUSB300_IGER2_EEP_STR_NOTRDY_INT (n : Z) : Z := Z.shiftl 1 (5 * n - 4).
Definition FUSB300_IGER2_EEP_STR_PRIME_INT (n : Z) : Z := Z.shiftl 1 (5 * n - 5).
Definition FUSB300_IGER3_EEP_STR_ACCEPT_INT (n : Z) : Z := Z.shiftl 1 (5 * (n - 6) - 1).
Definition FUSB300_IGER3_EEP_STR_RESUME_INT (n : Z) : Z := Z.shiftl 1 (5 * (n - 6) - 2).
Definition FUSB300_IGER3_EEP_STR_REQ_INT (n : Z) : Z := Z.shiftl 1 (5 * (n - 6) - 3).
Definition FUSB300_IGER3_EEP_STR_NOTRDY_INT (n : Z) : Z := Z.shiftl 1 (5 * (n - 6) - 4).
Definition FUSB300_IGER3_EEP_STR_PRIME_INT (n : Z) : Z := Z.shiftl 1 (5 * (n - 6) - 5).
Definition FUSB300_IGER4_EEP_RX0_INT (n : Z) : Z := Z.shiftl 1 (n + 16).
Definition FUSB300_IGER4_EEP_STR_ACCEPT_INT (n : Z) : Z := Z.shiftl 1 (5 * (n - 6) - 1).
Definition FUSB300_IGER4_EEP_STR_RESUME_INT (n : Z) : Z := Z.shiftl 1 (5 * (n - 6) - 2).
Definition FUSB300_IGER4_EEP_STR_REQ_INT (n : Z) : Z := Z.shiftl 1 (5 * (n - 6) - 3).
Definition FUSB300_IGER4_EEP_STR_NOTRDY_INT (n : Z) : Z := Z.shiftl 1 (5 * (n - 6) - 4).
Definition FUSB300_IGER4_EEP_STR_PRIME_INT (n : Z) : Z := Z.shiftl 1 (5 * (n - 6) - 5).
Definition FUSB300_EPPRDR_EP_PRD_RDY (n : Z) : Z := Z.shiftl 1 n.
Definition FUSB300_IGER5_EEP_STL_INT (n : Z) : Z := Z.shiftl 1 n.

(** ** Offsets *)
Definition FUSB300_OFFSET_EPSET0 (n : Z) : Z := 0x20 + (n - 1) * 0x30.
Definition FUSB300_OFFSET_EPSET1 (n : Z) : Z := 0x24 + (n - 1) * 0x30.
Definition FUSB300_OFFSET_EPSET2 (n : Z) : Z := 0x28 + (n - 1) * 0x30.
Definition FUSB300_OFFSET_EPFFR (n : Z) : Z := 0x2c + (n - 1) * 0x30.
Definition FUSB300_OFFSET_EPSTRID (n : Z) : Z := 0x40 + (n - 1) * 0x30.
Definition FUSB300_OFFSET_EPPRD_W0 (n : Z) : Z := 0x520 + (n - 1) * 0x10.
Definition FUSB300_OFFSET_EPPRD_W1 (n : Z) : Z := 0x524 + (n - 1) * 0x10.
Definition FUSB300_OFFSET_EPPRD_W2 (n : Z) : Z := 0x528 + (n - 1) * 0x10.
Definition FUSB300_OFFSET_EPRD_PTR (n : Z) : Z := 0x52C + (n - 1) * 0x10.
Definition FUSB300_OFFSET_EPPORT (n : Z) : Z := 0x1010 + (n - 1) * 0x10.
(** The other registers. *)
Definition OFFSETS : list (string * Z) :=
  [("GCR", 0x00); ("GTM", 0x04); ("DAR", 0x08); ("CSR", 0x0C); ("CXPORT", 0x10); ("HSPTM", 0x300);
   ("HSCR", 0x304); ("SSCR0", 0x308); ("SSCR1", 0x30C); ("TT", 0x310); ("DEVNOTF", 0x314); ("DNC1", 0x318);
   ("CS", 0x31C); ("SOF", 0x324); ("EFCS", 0x328); ("IGR0", 0x400); ("IGR1", 0x404); ("IGR2", 0x408);
   ("IGR3", 0x40C); ("IGR4", 0x410); ("IGR5", 0x414); ("IGER0", 0x420); ("IGER1", 0x424); ("IGER2", 0x428);
   ("IGER3", 0x42C); ("IGER4", 0x430); ("IGER5", 0x434); ("DMAHMER", 0x500); ("EPPRDRDY", 0x504);
   ("DMAEPMR", 0x508); ("DMAENR", 0x50C); ("DMAAPR", 0x510); ("AHBCR", 0x514)].

(** A macro [((x & mask) << shift)] of a field. *)
Definition FUSB300_field (f : pfield) (x : Z) : Z := pf_val f x.
(** The endpoints but the control endpoint, from the last one as in the
    header. *)
Definition endpoints (hi lo : Z) : list Z := (fun i => hi - Z.of_nat i) <$> seq 0 (Z.to_nat (hi - lo + 1)).
(** The five stream interrupts of an endpoint. *)
Definition streams (accept resume req notrdy prime : Z -> Z) (n : Z) : list Z := [accept n; resume n; req n; notrdy n; prime n].
End FUSB300.
Import FUSB300.

Lemma FUSB300_regs_ok : ptable_ok 32 FUSB300_regs = true.
Proof. by vm_compute. Qed.

(** property: writing a field of any register with its macro and its mask -
    [(old & ~mask) | FIELD(x)] - stores the value, cut to the field, and
    leaves the other fields. *)
Theorem fusb300_write_field g i f old x :
  g ∈ FUSB300_regs -> pg_fields g !! i = Some f ->
  pf_get f (set_bits old (p_mask f) (FUSB300_field f x)) = x mod 2 ^ p_size f /\
  forall j f', pg_fields g !! j = Some f' -> j <> i ->
    pf_get f' (set_bits old (p_mask f) (FUSB300_field f x)) = pf_get f' old.
Proof.
  intros Hg Hf. unfold FUSB300_field. rewrite (pf_val_land 32) by (by eapply ptable_field; [apply FUSB300_regs_ok|..]).
  by apply (ptable_update 32 FUSB300_regs g).
Qed.
Lemma fusb300_write_field_witness :
  let f := PF "FUSB300_EPSET2_MPS" 0x7FF 0 [] in
  pf_get f (set_bits 0x12345678 (p_mask f) (FUSB300_field f 512)) = 512 mod 2 ^ p_size f /\
  forall j f', pg_fields EPSET2 !! j = Some f' -> j <> 1%nat ->
    pf_get f' (set_bits 0x12345678 (p_mask f) (FUSB300_field f 512)) = pf_get f' 0x12345678.
Proof.
  apply (fusb300_write_field EPSET2 1 (PF "FUSB300_EPSET2_MPS" 0x7FF 0 [])); [|done].
  apply list_elem_of_lookup. by exists 6%nat.
Defined.

(** property: the interrupt bits: for every endpoint the macro gives the bit
    that the named constant has, in the status registers and in the enable
    registers that name their bits; and the enable bits of groups 0 to 3 are
    the bits of the status registers. *)
Theorem fusb300_interrupt_bits :
  (p_mask <$> pg_fields IGR0_PRD) = FUSB300_IGR0_EPn_PRD_INT <$> endpoints 15 1 /\
  (p_mask <$> pg_fields IGR0_FIFO) = FUSB300_IGR0_EPn_FIFO_INT <$> endpoints 15 1 /\
  (p_mask <$> pg_fields IGR2) = endpoints 6 1 ≫= streams FUSB300_IGR2_EP_STR_ACCEPT_INT FUSB300_IGR2_EP_STR_RESUME_INT
    FUSB300_IGR2_EP_STR_REQ_INT FUSB300_IGR2_EP_STR_NOTRDY_INT FUSB300_IGR2_EP_STR_PRIME_INT /\
  (p_mask <$> pg_fields IGR3) = endpoints 12 7 ≫= streams FUSB300_IGR3_EP_STR_ACCEPT_INT FUSB300_IGR3_EP_STR_RESUME_INT
    FUSB300_IGR3_EP_STR_REQ_INT FUSB300_IGR3_EP_STR_NOTRDY_INT FUSB300_IGR3_EP_STR_PRIME_INT /\
  (p_mask <$> pg_fields IGR4) = (FUSB300_IGR4_EP_RX0_INT <$> endpoints 15 1) ++
    (endpoints 15 13 ≫= streams FUSB300_IGR4_EP_STR_ACCEPT_INT FUSB300_IGR4_EP_STR_RESUME_INT
      FUSB300_IGR4_EP_STR_REQ_INT FUSB300_IGR4_EP_STR_NOTRDY_INT FUSB300_IGR4_EP_STR_PRIME_INT) /\
  (p_mask <$> pg_fields IGER0_PRD) = FUSB300_IGER0_EEPn_PRD_INT <$> endpoints 15 1 /\
  (p_mask <$> pg_fields IGER0_FIFO) = FUSB300_IGER0_EEPn_FIFO_INT <$> endpoints 15 1 /\
  (p_mask <$> pg_fields IGER1) = p_mask <$> pg_fields IGR1 /\
  (p_mask <$> pg_fields EPPRDR) = FUSB300_EPPRDR_EP_PRD_RDY <$> endpoints 15 1 /\
  (endpoints 6 1 ≫= streams FUSB300_IGER2_EEP_STR_ACCEPT_INT FUSB300_IGER2_EEP_STR_RESUME_INT
    FUSB300_IGER2_EEP_STR_REQ_INT FUSB300_IGER2_EEP_STR_NOTRDY_INT FUSB300_IGER2_EEP_STR_PRIME_INT) = p_mask <$> pg_fields IGR2 /\
  (endpoints 12 7 ≫= streams FUSB300_IGER3_EEP_STR_ACCEPT_INT FUSB300_IGER3_EEP_STR_RESUME_INT
    FUSB300_IGER3_EEP_STR_REQ_INT FUSB300_IGER3_EEP_STR_NOTRDY_INT FUSB300_IGER3_EEP_STR_PRIME_INT) = p_mask <$> pg_fields IGR3.
Proof. by vm_compute. Qed.

(** property: the enable macros of group 4 compute with 6 as those of group 3
    do, not with 12: for each of its endpoints no stream macro gives the bit
    of the status register, and only two of the fifteen are bits of a 32-bit
    register at all. *)
Theorem fusb300_group4_enable_wrong n :
  13 <= n <= 15 ->
  let e := streams FUSB300_IGER4_EEP_STR_ACCEPT_INT FUSB300_IGER4_EEP_STR_RESUME_INT
    FUSB300_IGER4_EEP_STR_REQ_INT FUSB300_IGER4_EEP_STR_NOTRDY_INT FUSB300_IGER4_EEP_STR_PRIME_INT n in
  let s := streams FUSB300_IGR4_EP_STR_ACCEPT_INT FUSB300_IGR4_EP_STR_RESUME_INT
    FUSB300_IGR4_EP_STR_REQ_INT FUSB300_IGR4_EP_STR_NOTRDY_INT FUSB300_IGR4_EP_STR_PRIME_INT n in
  Forall2 (fun x y => x <> y) e s /\ filter (fun x => x < 2 ^ 32) e = if n =? 13 then [bit 31; bit 30] else [].
Proof.
  intros H. assert (n = 13 \/ n = 14 \/ n = 15) as [->|[->| ->]] by lia;
    (split; [by repeat constructor|by vm_compute]).
Qed.
Lemma fusb300_group4_enable_wrong_witness :
  let e := streams FUSB300_IGER4_EEP_STR_ACCEPT_INT FUSB300_IGER4_EEP_STR_RESUME_INT
    FUSB300_IGER4_EEP_STR_REQ_INT FUSB300_IGER4_EEP_STR_NOTRDY_INT FUSB300_IGER4_EEP_STR_PRIME_INT 14 in
  let s := streams FUSB300_IGR4_EP_STR_ACCEPT_INT FUSB300_IGR4_EP_STR_RESUME_INT
    FUSB300_IGR4_EP_STR_REQ_INT FUSB300_IGR4_EP_STR_NOTRDY_INT FUSB300_IGR4_EP_STR_PRIME_INT 14 in
  Forall2 (fun x y => x <> y) e s /\ filter (fun x => x < 2 ^ 32) e = [].
Proof. apply (fusb300_group4_enable_wrong 14). lia. Defined.

(** The registers of an endpoint. *)
Definition endpoint_offsets (n : Z) : list Z :=
  [FUSB300_OFFSET_EPSET0 n; FUSB300_OFFSET_EPSET1 n; FUSB300_OFFSET_EPSET2 n; FUSB300_OFFSET_EPFFR n; FUSB300_OFFSET_EPSTRID n;
   FUSB300_OFFSET_EPPRD_W0 n; FUSB300_OFFSET_EPPRD_W1 n; FUSB300_OFFSET_EPPRD_W2 n; FUSB300_OFFSET_EPRD_PTR n; FUSB300_OFFSET_EPPORT n].

(** property: no two registers, of the controller and of all fifteen
    endpoints, share an offset; all are word aligned. *)
Theorem fusb300_offsets_differ :
  let l := (snd <$> OFFSETS) ++ (endpoints 15 1 ≫= endpoint_offsets) in
  NoDup l /\ Forall (fun o => o mod 4 = 0) l /\ length l = 183%nat.
Proof.
  split; [|split].
  - refine (bool_decide_eq_true_1 (NoDup _) _). by vm_compute.
  - refine (bool_decide_eq_true_1 (Forall _ _) _). by vm_compute.
  - by vm_compute.
Qed.
