(* ===== verification/FslUdc.v ===== *)
(** * The Freescale controllers (test_gadget/arcotg_udc.h,
    test_gadget/fsl_usb2_udc.h, test_gadget/imx_usb_charger.h)

    Two headers for one controller, that of the i.MX chips and that of the
    PowerPC chips, and the charger detector of the first.  Registers, queue
    heads and transfer descriptors are C structures; the driver finds an
    endpoint by a pipe number that it computes from [wIndex]. *)

From Stdlib Require Import ZArith.
From stdpp Require Import base list strings.
From S2P Require Import Prelude HwRegs.

(** Constants of <linux/usb/ch9.h>. *)
Definition USB_ENDPOINT_NUMBER_MASK : Z := 0x0f.
Definition USB_DIR_IN : Z := 0x80.

Module ARCOTG.
(** The registers of the controller, laid over its memory. *)
Definition usb_dr_device (CONFIG_ARCH_MX5 : bool) : list (string * cty) :=
  [("id", U32); ("res1", Arr 35 U32); ("sbuscfg", U32); ("res11", Arr 27 U32); ("caplength", U16);
   ("hciversion", U16); ("hcsparams", U32); ("hccparams", U32); ("res2", Arr 5 U32); ("dciversion", U32);
   ("dccparams", U32); ("res3", Arr 6 U32); ("usbcmd", U32); ("usbsts", U32); ("usbintr", U32);
   ("frindex", U32); ("res4", U32); ("deviceaddr", U32); ("endpointlistaddr", U32); ("res5", U32);
   ("burstsize", U32); ("txttfilltuning", U32); ("res6", Arr 6 U32); ("configflag", U32); ("portsc1", U32);
   ("res7", Arr 7 U32); ("otgsc", U32); ("usbmode", U32); ("endptsetupstat", U32); ("endpointprime", U32);
   ("endptflush", U32); ("endptstatus", U32); ("endptcomplete", U32); ("endptctrl", Arr 16 U32);
   ("res8", Arr 256 U32)] ++
  (if CONFIG_ARCH_MX5 then [("res9", Arr 128 U32)] else []) ++
  [("usbctrl", U32); ("otgmirror", U32); ("phyctrl0", U32); ("phyctrl1", U32); ("ctrl1", U32); ("uh2ctrl", U32)].

Definition usb_sys_interface : list (string * cty) :=
  [("snoop1", U32); ("snoop2", U32); ("age_cnt_thresh", U32); ("pri_ctrl", U32); ("si_ctrl", U32);
   ("res", Arr 236 U8); ("control", U32)].

(** The states of endpoint 0. *)
Definition ep0_states : list (string * Z) :=
  [("WAIT_FOR_SETUP", 0); ("DATA_STATE_XMIT", 1); ("DATA_STATE_NEED_ZLP", 2); ("WAIT_FOR_OUT_STATUS", 3);
   ("DATA_STATE_RECV", 4)].

(** Bits and fields. *)
Definition DCCPARAMS : group := Grp [] [Fld "DCCPARAMS_DC" 0x00000080 []; Fld "DCCPARAMS_DEN_MASK" 0x0000001f []].

Definition FRINDEX : group := Grp [] [Fld "USB_FRINDEX_MASKS" 0x3fff []].

Definition FRAME_SIZES : list (string * Z) :=
  [("USB_CMD_FRAME_SIZE_1024", 0x00000000); ("USB_CMD_FRAME_SIZE_512", 0x00000004);
   ("USB_CMD_FRAME_SIZE_256", 0x00000008); ("USB_CMD_FRAME_SIZE_128", 0x0000000C);
   ("USB_CMD_FRAME_SIZE_64", 0x00008000); ("USB_CMD_FRAME_SIZE_32", 0x00008004);
   ("USB_CMD_FRAME_SIZE_16", 0x00008008); ("USB_CMD_FRAME_SIZE_8", 0x0000800C)].

Definition ASP_values : list (string * Z) :=
  [("USB_CMD_ASP_00", 0x00000000); ("USB_CMD_ASP_01", 0x00000100); ("USB_CMD_ASP_10", 0x00000200);
   ("USB_CMD_ASP_11", 0x00000300)].

Definition ITC_values : list (string * Z) :=
  [("USB_CMD_ITC_NO_THRESHOLD", 0x00000000); ("USB_CMD_ITC_1_MICRO_FRM", 0x00010000);
   ("USB_CMD_ITC_2_MICRO_FRM", 0x00020000); ("USB_CMD_ITC_4_MICRO_FRM", 0x00040000);
   ("USB_CMD_ITC_8_MICRO_FRM", 0x00080000); ("USB_CMD_ITC_16_MICRO_FRM", 0x00100000);
   ("USB_CMD_ITC_32_MICRO_FRM", 0x00200000); ("USB_CMD_ITC_64_MICRO_FRM", 0x00400000)].

Definition USBCMD : group := Grp []
  [Fld "USB_CMD_RUN_STOP" 0x00000001 []; Fld "USB_CMD_CTRL_RESET" 0x00000002 [];
   Fld "USB_CMD_PERIODIC_SCHEDULE_EN" 0x00000010 []; Fld "USB_CMD_ASYNC_SCHEDULE_EN" 0x00000020 [];
   Fld "USB_CMD_INT_AA_DOORBELL" 0x00000040 []; Fld "USB_CMD_ASP" 0x00000300 ASP_values;
   Fld "USB_CMD_ASYNC_SCH_PARK_EN" 0x00000800 []; Fld "USB_CMD_SUTW" 0x00002000 [];
   Fld "USB_CMD_ATDTW" 0x00004000 []; Fld "USB_CMD_ITC" 0x00FF0000 ITC_values].

Definition USBSTS : group := Grp []
  [Fld "USB_STS_INT" 0x00000001 []; Fld "USB_STS_ERR" 0x00000002 []; Fld "USB_STS_PORT_CHANGE" 0x00000004 [];
   Fld "USB_STS_FRM_LST_ROLL" 0x00000008 []; Fld "USB_STS_SYS_ERR" 0x00000010 []; Fld "USB_STS_IAA" 0x00000020 [];
   Fld "USB_STS_RESET" 0x00000040 []; Fld "USB_STS_SOF" 0x00000080 []; Fld "USB_STS_SUSPEND" 0x00000100 [];
   Fld "USB_STS_HC_HALTED" 0x00001000 []; Fld "USB_STS_RCL" 0x00002000 [];
   Fld "USB_STS_PERIODIC_SCHEDULE" 0x00004000 []; Fld "USB_STS_ASYNC_SCHEDULE" 0x00008000 []].

Definition USBINTR : group := Grp []
  [Fld "USB_INTR_INT_EN" 0x00000001 []; Fld "USB_INTR_ERR_INT_EN" 0x00000002 [];
   Fld "USB_INTR_PTC_DETECT_EN" 0x00000004 []; Fld "USB_INTR_FRM_LST_ROLL_EN" 0x00000008 [];
   Fld "USB_INTR_SYS_ERR_EN" 0x00000010 []; Fld "USB_INTR_ASYN_ADV_EN" 0x00000020 [];
   Fld "USB_INTR_RESET_EN" 0x00000040 []; Fld "USB_INTR_SOF_EN" 0x00000080 [];
   Fld "USB_INTR_DEVICE_SUSPEND" 0x00000100 []].

Definition DEVICEADDR : group := Grp [] [Fld "USB_DEVICE_ADDRESS_MASK" 0xFE000000 []].

Definition EPLIST : group := Grp [] [Fld "USB_EP_LIST_ADDRESS_MASK" 0xfffff800 []].

Definition LINE_STATUS : list (string * Z) :=
  [("PORTSCX_LINE_STATUS_SE0", 0x00000000); ("PORTSCX_LINE_STATUS_KSTATE", 0x00000400);
   ("PORTSCX_LINE_STATUS_JSTATE", 0x00000800); ("PORTSCX_LINE_STATUS_UNDEF", 0x00000C00)].

Definition PIC_values : list (string * Z) :=
  [("PORTSCX_PIC_OFF", 0x00000000); ("PORTSCX_PIC_AMBER", 0x00004000); ("PORTSCX_PIC_GREEN", 0x00008000);
   ("PORTSCX_PIC_UNDEF", 0x0000C000)].

Definition PTC_values : list (string * Z) :=
  [("PORTSCX_PTC_DISABLE", 0x00000000); ("PORTSCX_PTC_JSTATE", 0x00010000); ("PORTSCX_PTC_KSTATE", 0x00020000);
   ("PORTSCX_PTC_SEQNAK", 0x00030000); ("PORTSCX_PTC_PACKET", 0x00040000); ("PORTSCX_PTC_FORCE_EN", 0x00050000)].

Definition SPEED_values : list (string * Z) :=
  [("PORTSCX_PORT_SPEED_FULL", 0x00000000); ("PORTSCX_PORT_SPEED_LOW", 0x04000000);
   ("PORTSCX_PORT_SPEED_HIGH", 0x08000000); ("PORTSCX_PORT_SPEED_UNDEF", 0x0C000000)].

Definition PTW_values : list (string * Z) := [("PORTSCX_PTW_8BIT", 0x00000000); ("PORTSCX_PTW_16BIT", 0x10000000)].

Definition PTS_values : list (string * Z) :=
  [("PORTSCX_PTS_UTMI", 0x00000000); ("PORTSCX_PTS_ULPI", 0x80000000); ("PORTSCX_PTS_FSLS", 0xC0000000)].

Definition PORTSC : group := Grp []
  [Fld "PORTSCX_CURRENT_CONNECT_STATUS" 0x00000001 []; Fld "PORTSCX_CONNECT_STATUS_CHANGE" 0x00000002 [];
   Fld "PORTSCX_PORT_ENABLE" 0x00000004 []; Fld "PORTSCX_PORT_EN_DIS_CHANGE" 0x00000008 [];
   Fld "PORTSCX_OVER_CURRENT_ACT" 0x00000010 []; Fld "PORTSCX_OVER_CURRENT_CHG" 0x00000020 [];
   Fld "PORTSCX_PORT_FORCE_RESUME" 0x00000040 []; Fld "PORTSCX_PORT_SUSPEND" 0x00000080 [];
   Fld "PORTSCX_PORT_RESET" 0x00000100 []; Fld "PORTSCX_LINE_STATUS_BITS" 0x00000C00 LINE_STATUS;
   Fld "PORTSCX_PORT_POWER" 0x00001000 []; Fld "PORTSCX_PORT_INDICTOR_CTRL" 0x0000C000 PIC_values;
   Fld "PORTSCX_PORT_TEST_CTRL" 0x000F0000 PTC_values; Fld "PORTSCX_WAKE_ON_CONNECT_EN" 0x00100000 [];
   Fld "PORTSCX_WAKE_ON_CONNECT_DIS" 0x00200000 []; Fld "PORTSCX_WAKE_ON_OVER_CURRENT" 0x00400000 [];
   Fld "PORTSCX_PHY_LOW_POWER_SPD" 0x00800000 []; Fld "PORTSCX_PORT_FORCE_FULL_SPEED" 0x01000000 [];
   Fld "PORTSCX_PORT_SPEED_MASK" 0x0C000000 SPEED_values; Fld "PORTSCX_PORT_WIDTH" 0x10000000 PTW_values;
   Fld "PORTSCX_PHY_TYPE_SEL" 0xC0000000 PTS_values].

Definition OTGSC : group := Grp []
  [Fld "OTGSC_ID_CHANGE_IRQ_STS" (bit 16) []; Fld "OTGSC_B_SESSION_VALID_IRQ_EN" (bit 27) [];
   Fld "OTGSC_B_SESSION_VALID_IRQ_STS" (bit 19) []; Fld "OTGSC_B_SESSION_VALID" (bit 11) [];
   Fld "OTGSC_A_BUS_VALID" (bit 9) []].

Definition USBMODE : group := Grp []
  [Fld "USB_MODE_CTRL_MODE_MASK" 0x00000003 [("USB_MODE_CTRL_MODE_IDLE", 0x00000000); ("USB_MODE_CTRL_MODE_DEVICE", 0x00000002); ("USB_MODE_CTRL_MODE_HOST", 0x00000003); ("USB_MODE_CTRL_MODE_RSV", 0x00000001)];
   Fld "USB_MODE_ES" 0x00000004 []; Fld "USB_MODE_SETUP_LOCK_OFF" 0x00000008 [];
   Fld "USB_MODE_STREAM_DISABLE" 0x00000010 []].

Definition EPFLUSH_TX_OFFSET : Z := 0x00010000.

Definition EPFLUSH_RX_OFFSET : Z := 0x00000000.

Definition SETUPSTAT : group := Grp []
  [Fld "EP_SETUP_STATUS_MASK" 0x0000003F [("EP_SETUP_STATUS_EP0", 0x00000001)]].

Definition EPCTRL : group := Grp []
  [Fld "EPCTRL_TX_ENABLE" 0x00800000 []; Fld "EPCTRL_TX_DATA_TOGGLE_RST" 0x00400000 [];
   Fld "EPCTRL_TX_DATA_TOGGLE_INH" 0x00200000 []; Fld "EPCTRL_TX_TYPE" 0x000C0000 [];
   Fld "EPCTRL_TX_DATA_SOURCE" 0x00020000 []; Fld "EPCTRL_TX_EP_STALL" 0x00010000 [];
   Fld "EPCTRL_RX_ENABLE" 0x00000080 []; Fld "EPCTRL_RX_DATA_TOGGLE_RST" 0x00000040 [];
   Fld "EPCTRL_RX_DATA_TOGGLE_INH" 0x00000020 []; Fld "EPCTRL_RX_TYPE" 0x0000000C [];
   Fld "EPCTRL_RX_DATA_SINK" 0x00000002 []; Fld "EPCTRL_RX_EP_STALL" 0x00000001 []].

Definition EP_TYPES : list (string * Z) :=
  [("EPCTRL_EP_TYPE_CONTROL", 0); ("EPCTRL_EP_TYPE_ISO", 1); ("EPCTRL_EP_TYPE_BULK", 2);
   ("EPCTRL_EP_TYPE_INTERRUPT", 3)].

Definition SNOOP : group := Grp [] [Fld "SNOOP_ADDRESS_MASK" 0xFFFFF000 []].

Definition SNOOP_SIZES : list (string * Z) :=
  [("SNOOP_SIZE_ZERO", 0x00); ("SNOOP_SIZE_4KB", 0x0B); ("SNOOP_SIZE_8KB", 0x0C); ("SNOOP_SIZE_16KB", 0x0D);
   ("SNOOP_SIZE_32KB", 0x0E); ("SNOOP_SIZE_64KB", 0x0F); ("SNOOP_SIZE_128KB", 0x10); ("SNOOP_SIZE_256KB", 0x11);
   ("SNOOP_SIZE_512KB", 0x12); ("SNOOP_SIZE_1MB", 0x13); ("SNOOP_SIZE_2MB", 0x14); ("SNOOP_SIZE_4MB", 0x15);
   ("SNOOP_SIZE_8MB", 0x16); ("SNOOP_SIZE_16MB", 0x17); ("SNOOP_SIZE_32MB", 0x18); ("SNOOP_SIZE_64MB", 0x19);
   ("SNOOP_SIZE_128MB", 0x1A); ("SNOOP_SIZE_256MB", 0x1B); ("SNOOP_SIZE_512MB", 0x1C); ("SNOOP_SIZE_1GB", 0x1D);
   ("SNOOP_SIZE_2GB", 0x1E)].

Definition PRI_CTRL : group := Grp []
  [Fld "PRI_CTRL_PRI_LVL1" 0x0000000C []; Fld "PRI_CTRL_PRI_LVL0" 0x00000003 []].

Definition SI_CTRL : group := Grp []
  [Fld "SI_CTRL_ERR_DISABLE" 0x00000010 []; Fld "SI_CTRL_IDRC_DISABLE" 0x00000008 [];
   Fld "SI_CTRL_RD_SAFE_EN" 0x00000004 []; Fld "SI_CTRL_RD_PREFETCH_DISABLE" 0x00000002 [];
   Fld "SI_CTRL_RD_PREFEFETCH_VAL" 0x00000001 []].

Definition USB_CTRL : group := Grp []
  [Fld "USB_CTRL_IOENB" 0x00000004 []; Fld "USB_CTRL_ULPI_INT0EN" 0x00000001 [];
   Fld "USB_CTRL_OTG_WUIR" 0x80000000 []; Fld "USB_CTRL_OTG_WUIE" 0x08000000 [];
   Fld "USB_CTRL_OTG_VWUE" 0x00001000 []; Fld "USB_CTRL_OTG_IWUE" 0x00100000 []].

Definition PHY_CTRL0 : group := Grp [] [Fld "PHY_CTRL0_CONF2" (bit 26) []; Fld "PHY_CTRL0_USBEN" (bit 24) []].

Definition UH2_CTRL : group := Grp [] [Fld "USB_UH2_OVBWK_EN" (bit 6) []; Fld "USB_UH2_OIDWK_EN" (bit 5) []].

(** Positions of fields. *)
Definition USB_CMD_ASP_BIT_POS : Z := 8.

Definition USB_CMD_ITC_BIT_POS : Z := 16.

Definition USB_DEVICE_ADDRESS_BIT_POS : Z := 25.

Definition PORTSCX_LINE_STATUS_BIT_POS : Z := 10.

Definition PORTSCX_PIC_BIT_POS : Z := 14.

Definition PORTSCX_PTC_BIT_POS : Z := 16.

Definition PORTSCX_SPEED_BIT_POS : Z := 26.

Definition PORTSCX_PTS_BIT_POS : Z := 30.

Definition EPCTRL_TX_EP_TYPE_SHIFT : Z := 18.

Definition EPCTRL_RX_EP_TYPE_SHIFT : Z := 2.

(** Queue heads and transfer descriptors. *)
Definition ep_queue_head : list (string * cty) :=
  [("max_pkt_length", U32); ("curr_dtd_ptr", U32); ("next_dtd_ptr", U32); ("size_ioc_int_sts", U32);
   ("buff_ptr0", U32); ("buff_ptr1", U32); ("buff_ptr2", U32); ("buff_ptr3", U32); ("buff_ptr4", U32);
   ("res1", U32); ("setup_buffer", Arr 8 U8); ("res2", Arr 4 U32)].

Definition QH_CAP : group := Grp []
  [Fld "EP_QUEUE_HEAD_ZLT_SEL" 0x20000000 []; Fld "EP_QUEUE_HEAD_IOS" 0x00008000 []].

Definition QH_TOKEN : group := Grp []
  [Fld "EP_QUEUE_HEAD_IOC" 0x00008000 []; Fld "EP_QUEUE_HEAD_MULTO" 0x00000C00 [];
   Fld "EP_QUEUE_HEAD_STATUS_HALT" 0x00000040 []; Fld "EP_QUEUE_HEAD_STATUS_ACTIVE" 0x00000080 []].

Definition EP_QUEUE_HEAD_MULT_POS : Z := 30.

Definition EP_QUEUE_HEAD_MAX_PKT_LEN_POS : Z := 16.

Definition EP_QUEUE_HEAD_NEXT_TERMINATE : Z := 0x00000001.

Definition EP_QUEUE_CURRENT_OFFSET_MASK : Z := 0x00000FFF.

Definition EP_QUEUE_HEAD_NEXT_POINTER_MASK : Z := 0xFFFFFFE0.

Definition EP_QUEUE_FRINDEX_MASK : Z := 0x000007FF.

Definition EP_MAX_LENGTH_TRANSFER : Z := 0x4000.

Definition EP_QUEUE_HEAD_MAX_PKT_LEN (ep_info : Z) : Z := Z.land (Z.shiftr ep_info 16) 0x07ff.

Definition ep_td_struct : list (string * cty) :=
  [("next_td_ptr", U32); ("size_ioc_sts", U32); ("buff_ptr0", U32); ("buff_ptr1", U32); ("buff_ptr2", U32);
   ("buff_ptr3", U32); ("buff_ptr4", U32); ("td_dma", Dma); ("next_td_virt", Ptr); ("res", Arr 7 U32)].

Definition DTD_TOKEN : group := Grp []
  [Fld "DTD_IOC" 0x00008000 []; Fld "DTD_STATUS_ACTIVE" 0x00000080 []; Fld "DTD_STATUS_HALTED" 0x00000040 [];
   Fld "DTD_STATUS_DATA_BUFF_ERR" 0x00000020 []; Fld "DTD_STATUS_TRANSACTION_ERR" 0x00000008 []].

Definition DTD_NEXT_TERMINATE : Z := 0x00000001.

Definition DTD_RESERVED_FIELDS : Z := 0x80007300.

Definition DTD_ADDR_MASK : Z := 0xFFFFFFE0.

Definition DTD_PACKET_SIZE : Z := 0x7FFF0000.

Definition DTD_LENGTH_BIT_POS : Z := 16.

Definition DTD_ALIGNMENT : Z := 0x20.

Definition QH_ALIGNMENT : Z := 2048.

Definition UDC_DMA_BOUNDARY : Z := 0x1000.

Definition DTD_ERROR_MASK : Z := Z.lor (Z.lor 0x00000040 0x00000020) 0x00000008.

Definition USB_MAX_CTRL_PAYLOAD : Z := 64.

Definition USB_DR_SYS_OFFSET : Z := 0x400.

Definition USB_MAX_ENDPOINTS : Z := 8.

Definition USB_DR_OFFSET : Z := 0x3100.

(** ** Pipes *)
Definition ep_index (bEndpointAddress : Z) : Z := Z.land bEndpointAddress 0xF.
(** The direction of endpoint 0 is that of the current transfer. *)
Definition ep_is_in (ep0_dir bEndpointAddress : Z) : bool :=
  if ep_index bEndpointAddress =? 0 then ep0_dir =? USB_DIR_IN else Z.land bEndpointAddress USB_DIR_IN =? USB_DIR_IN.
(** [None]: beside the array. *)
Definition get_ep_by_pipe {A} (eps : list A) (pipe : Z) : option A := if pipe =? 1 then eps !! 0%nat else eps !! Z.to_nat pipe.
Definition get_pipe_by_windex (windex : Z) : Z :=
  Z.land windex USB_ENDPOINT_NUMBER_MASK * 2 + if truthy (Z.land windex USB_DIR_IN) then 1 else 0.

Definition USB_MAX_PIPES : Z := USB_MAX_ENDPOINTS * 2.

(** All of them. *)
Definition registers : list group :=
  [DCCPARAMS; FRINDEX; USBCMD; USBSTS; USBINTR; DEVICEADDR; EPLIST; PORTSC; OTGSC; USBMODE; SETUPSTAT; EPCTRL;
   SNOOP; PRI_CTRL; SI_CTRL; USB_CTRL; PHY_CTRL0; UH2_CTRL; QH_CAP; QH_TOKEN; DTD_TOKEN].
End ARCOTG.

Module FSL.
(** The registers of the controller, laid over its memory. *)
Definition usb_dr_device : list (string * cty) :=
  [("res1", Arr 256 U8); ("caplength", U16); ("hciversion", U16); ("hcsparams", U32); ("hccparams", U32);
   ("res2", Arr 20 U8); ("dciversion", U32); ("dccparams", U32); ("res3", Arr 24 U8); ("usbcmd", U32);
   ("usbsts", U32); ("usbintr", U32); ("frindex", U32); ("res4", Arr 4 U8); ("deviceaddr", U32);
   ("endpointlistaddr", U32); ("res5", Arr 4 U8); ("burstsize", U32); ("txttfilltuning", U32);
   ("res6", Arr 24 U8); ("configflag", U32); ("portsc1", U32); ("res7", Arr 28 U8); ("otgsc", U32);
   ("usbmode", U32); ("endptsetupstat", U32); ("endpointprime", U32); ("endptflush", U32); ("endptstatus", U32);
   ("endptcomplete", U32); ("endptctrl", Arr 6 U32)].

Definition usb_dr_host : list (string * cty) :=
  [("res1", Arr 256 U8); ("caplength", U16); ("hciversion", U16); ("hcsparams", U32); ("hccparams", U32);
   ("res2", Arr 20 U8); ("dciversion", U32); ("dccparams", U32); ("res3", Arr 24 U8); ("usbcmd", U32);
   ("usbsts", U32); ("usbintr", U32); ("frindex", U32); ("res4", Arr 4 U8); ("periodiclistbase", U32);
   ("asynclistaddr", U32); ("res5", Arr 4 U8); ("burstsize", U32); ("txttfilltuning", U32); ("res6", Arr 24 U8);
   ("configflag", U32); ("portsc1", U32); ("res7", Arr 28 U8); ("otgsc", U32); ("usbmode", U32);
   ("endptsetupstat", U32); ("endpointprime", U32); ("endptflush", U32); ("endptstatus", U32);
   ("endptcomplete", U32); ("endptctrl", Arr 6 U32)].

Definition usb_sys_interface : list (string * cty) :=
  [("snoop1", U32); ("snoop2", U32); ("age_cnt_thresh", U32); ("pri_ctrl", U32); ("si_ctrl", U32);
   ("res", Arr 236 U8); ("control", U32)].

(** The states of endpoint 0. *)
Definition ep0_states : list (string * Z) :=
  [("WAIT_FOR_SETUP", 0); ("DATA_STATE_XMIT", 1); ("DATA_STATE_NEED_ZLP", 2); ("WAIT_FOR_OUT_STATUS", 3);
   ("DATA_STATE_RECV", 4)].

(** Bits and fields. *)
Definition DCCPARAMS : group := Grp [] [Fld "DCCPARAMS_DC" 0x00000080 []; Fld "DCCPARAMS_DEN_MASK" 0x0000001f []].

Definition FRINDEX : group := Grp [] [Fld "USB_FRINDEX_MASKS" 0x3fff []].

Definition FRAME_SIZES : list (string * Z) :=
  [("USB_CMD_FRAME_SIZE_1024", 0x00000000); ("USB_CMD_FRAME_SIZE_512", 0x00000004);
   ("USB_CMD_FRAME_SIZE_256", 0x00000008); ("USB_CMD_FRAME_SIZE_128", 0x0000000C);
   ("USB_CMD_FRAME_SIZE_64", 0x00008000); ("USB_CMD_FRAME_SIZE_32", 0x00008004);
   ("USB_CMD_FRAME_SIZE_16", 0x00008008); ("USB_CMD_FRAME_SIZE_8", 0x0000800C)].

Definition ASP_values : list (string * Z) :=
  [("USB_CMD_ASP_00", 0x00000000); ("USB_CMD_ASP_01", 0x00000100); ("USB_CMD_ASP_10", 0x00000200);
   ("USB_CMD_ASP_11", 0x00000300)].

Definition ITC_values : list (string * Z) :=
  [("USB_CMD_ITC_NO_THRESHOLD", 0x00000000); ("USB_CMD_ITC_1_MICRO_FRM", 0x00010000);
   ("USB_CMD_ITC_2_MICRO_FRM", 0x00020000); ("USB_CMD_ITC_4_MICRO_FRM", 0x00040000);
   ("USB_CMD_ITC_8_MICRO_FRM", 0x00080000); ("USB_CMD_ITC_16_MICRO_FRM", 0x00100000);
   ("USB_CMD_ITC_32_MICRO_FRM", 0x00200000); ("USB_CMD_ITC_64_MICRO_FRM", 0x00400000)].

Definition USBCMD : group := Grp []
  [Fld "USB_CMD_RUN_STOP" 0x00000001 []; Fld "USB_CMD_CTRL_RESET" 0x00000002 [];
   Fld "USB_CMD_PERIODIC_SCHEDULE_EN" 0x00000010 []; Fld "USB_CMD_ASYNC_SCHEDULE_EN" 0x00000020 [];
   Fld "USB_CMD_INT_AA_DOORBELL" 0x00000040 []; Fld "USB_CMD_ASP" 0x00000300 ASP_values;
   Fld "USB_CMD_ASYNC_SCH_PARK_EN" 0x00000800 []; Fld "USB_CMD_SUTW" 0x00002000 [];
   Fld "USB_CMD_ATDTW" 0x00004000 []; Fld "USB_CMD_ITC" 0x00FF0000 ITC_values].

Definition USBSTS : group := Grp []
  [Fld "USB_STS_INT" 0x00000001 []; Fld "USB_STS_ERR" 0x00000002 []; Fld "USB_STS_PORT_CHANGE" 0x00000004 [];
   Fld "USB_STS_FRM_LST_ROLL" 0x00000008 []; Fld "USB_STS_SYS_ERR" 0x00000010 []; Fld "USB_STS_IAA" 0x00000020 [];
   Fld "USB_STS_RESET" 0x00000040 []; Fld "USB_STS_SOF" 0x00000080 []; Fld "USB_STS_SUSPEND" 0x00000100 [];
   Fld "USB_STS_HC_HALTED" 0x00001000 []; Fld "USB_STS_RCL" 0x00002000 [];
   Fld "USB_STS_PERIODIC_SCHEDULE" 0x00004000 []; Fld "USB_STS_ASYNC_SCHEDULE" 0x00008000 []].

Definition USBINTR : group := Grp []
  [Fld "USB_INTR_INT_EN" 0x00000001 []; Fld "USB_INTR_ERR_INT_EN" 0x00000002 [];
   Fld "USB_INTR_PTC_DETECT_EN" 0x00000004 []; Fld "USB_INTR_FRM_LST_ROLL_EN" 0x00000008 [];
   Fld "USB_INTR_SYS_ERR_EN" 0x00000010 []; Fld "USB_INTR_ASYN_ADV_EN" 0x00000020 [];
   Fld "USB_INTR_RESET_EN" 0x00000040 []; Fld "USB_INTR_SOF_EN" 0x00000080 [];
   Fld "USB_INTR_DEVICE_SUSPEND" 0x00000100 []].

Definition DEVICEADDR : group := Grp [] [Fld "USB_DEVICE_ADDRESS_MASK" 0xFE000000 []].

Definition EPLIST : group := Grp [] [Fld "USB_EP_LIST_ADDRESS_MASK" 0xfffff800 []].

Definition LINE_STATUS : list (string * Z) :=
  [("PORTSCX_LINE_STATUS_SE0", 0x00000000); ("PORTSCX_LINE_STATUS_JSTATE", 0x00000400);
   ("PORTSCX_LINE_STATUS_KSTATE", 0x00000800); ("PORTSCX_LINE_STATUS_UNDEF", 0x00000C00)].

Definition PIC_values : list (string * Z) :=
  [("PORTSCX_PIC_OFF", 0x00000000); ("PORTSCX_PIC_AMBER", 0x00004000); ("PORTSCX_PIC_GREEN", 0x00008000);
   ("PORTSCX_PIC_UNDEF", 0x0000C000)].

Definition PTC_values : list (string * Z) :=
  [("PORTSCX_PTC_DISABLE", 0x00000000); ("PORTSCX_PTC_JSTATE", 0x00010000); ("PORTSCX_PTC_KSTATE", 0x00020000);
   ("PORTSCX_PTC_SEQNAK", 0x00030000); ("PORTSCX_PTC_PACKET", 0x00040000); ("PORTSCX_PTC_FORCE_EN", 0x00050000)].

Definition SPEED_values : list (string * Z) :=
  [("PORTSCX_PORT_SPEED_FULL", 0x00000000); ("PORTSCX_PORT_SPEED_LOW", 0x04000000);
   ("PORTSCX_PORT_SPEED_HIGH", 0x08000000); ("PORTSCX_PORT_SPEED_UNDEF", 0x0C000000)].

Definition PTW_values : list (string * Z) := [("PORTSCX_PTW_8BIT", 0x00000000); ("PORTSCX_PTW_16BIT", 0x10000000)].

Definition PTS_values : list (string * Z) :=
  [("PORTSCX_PTS_UTMI", 0x00000000); ("PORTSCX_PTS_ULPI", 0x80000000); ("PORTSCX_PTS_FSLS", 0xC0000000)].

Definition PORTSC : group := Grp []
  [Fld "PORTSCX_CURRENT_CONNECT_STATUS" 0x00000001 []; Fld "PORTSCX_CONNECT_STATUS_CHANGE" 0x00000002 [];
   Fld "PORTSCX_PORT_ENABLE" 0x00000004 []; Fld "PORTSCX_PORT_EN_DIS_CHANGE" 0x00000008 [];
   Fld "PORTSCX_OVER_CURRENT_ACT" 0x00000010 []; Fld "PORTSCX_OVER_CURRENT_CHG" 0x00000020 [];
   Fld "PORTSCX_PORT_FORCE_RESUME" 0x00000040 []; Fld "PORTSCX_PORT_SUSPEND" 0x00000080 [];
   Fld "PORTSCX_PORT_RESET" 0x00000100 []; Fld "PORTSCX_LINE_STATUS_BITS" 0x00000C00 LINE_STATUS;
   Fld "PORTSCX_PORT_POWER" 0x00001000 []; Fld "PORTSCX_PORT_INDICTOR_CTRL" 0x0000C000 PIC_values;
   Fld "PORTSCX_PORT_TEST_CTRL" 0x000F0000 PTC_values; Fld "PORTSCX_WAKE_ON_CONNECT_EN" 0x00100000 [];
   Fld "PORTSCX_WAKE_ON_CONNECT_DIS" 0x00200000 []; Fld "PORTSCX_WAKE_ON_OVER_CURRENT" 0x00400000 [];
   Fld "PORTSCX_PHY_LOW_POWER_SPD" 0x00800000 []; Fld "PORTSCX_PORT_FORCE_FULL_SPEED" 0x01000000 [];
   Fld "PORTSCX_PORT_SPEED_MASK" 0x0C000000 SPEED_values; Fld "PORTSCX_PORT_WIDTH" 0x10000000 PTW_values;
   Fld "PORTSCX_PHY_TYPE_SEL" 0xC0000000 PTS_values].

Definition OTGSC : group := Grp []
  [Fld "OTGSC_CTRL_VUSB_DISCHARGE" 0x00000001 []; Fld "OTGSC_CTRL_VUSB_CHARGE" 0x00000002 [];
   Fld "OTGSC_CTRL_OTG_TERM" 0x00000008 []; Fld "OTGSC_CTRL_DATA_PULSING" 0x00000010 [];
   Fld "OTGSC_STS_USB_ID" 0x00000100 []; Fld "OTGSC_STS_A_VBUS_VALID" 0x00000200 [];
   Fld "OTGSC_STS_A_SESSION_VALID" 0x00000400 []; Fld "OTGSC_STS_B_SESSION_VALID" 0x00000800 [];
   Fld "OTGSC_STS_B_SESSION_END" 0x00001000 []; Fld "OTGSC_STS_1MS_TOGGLE" 0x00002000 [];
   Fld "OTGSC_STS_DATA_PULSING" 0x00004000 []; Fld "OTGSC_INTSTS_USB_ID" 0x00010000 [];
   Fld "OTGSC_INTSTS_A_VBUS_VALID" 0x00020000 []; Fld "OTGSC_INTSTS_A_SESSION_VALID" 0x00040000 [];
   Fld "OTGSC_INTSTS_B_SESSION_VALID" 0x00080000 []; Fld "OTGSC_INTSTS_B_SESSION_END" 0x00100000 [];
   Fld "OTGSC_INTSTS_1MS" 0x00200000 []; Fld "OTGSC_INTSTS_DATA_PULSING" 0x00400000 [];
   Fld "OTGSC_INTR_USB_ID" 0x01000000 []; Fld "OTGSC_INTR_A_VBUS_VALID" 0x02000000 [];
   Fld "OTGSC_INTR_A_SESSION_VALID" 0x04000000 []; Fld "OTGSC_INTR_B_SESSION_VALID" 0x08000000 [];
   Fld "OTGSC_INTR_B_SESSION_END" 0x10000000 []; Fld "OTGSC_INTR_1MS_TIMER" 0x20000000 [];
   Fld "OTGSC_INTR_DATA_PULSING" 0x40000000 []].

Definition USBMODE : group := Grp []
  [Fld "USB_MODE_CTRL_MODE_MASK" 0x00000003 [("USB_MODE_CTRL_MODE_IDLE", 0x00000000); ("USB_MODE_CTRL_MODE_DEVICE", 0x00000002); ("USB_MODE_CTRL_MODE_HOST", 0x00000003); ("USB_MODE_CTRL_MODE_RSV", 0x00000001)];
   Fld "USB_MODE_ES" 0x00000004 []; Fld "USB_MODE_SETUP_LOCK_OFF" 0x00000008 [];
   Fld "USB_MODE_STREAM_DISABLE" 0x00000010 []].

Definition EPFLUSH_TX_OFFSET : Z := 0x00010000.

Definition EPFLUSH_RX_OFFSET : Z := 0x00000000.

Definition SETUPSTAT : group := Grp []
  [Fld "EP_SETUP_STATUS_MASK" 0x0000003F [("EP_SETUP_STATUS_EP0", 0x00000001)]].

Definition EPCTRL : group := Grp []
  [Fld "EPCTRL_TX_ENABLE" 0x00800000 []; Fld "EPCTRL_TX_DATA_TOGGLE_RST" 0x00400000 [];
   Fld "EPCTRL_TX_DATA_TOGGLE_INH" 0x00200000 []; Fld "EPCTRL_TX_TYPE" 0x000C0000 [];
   Fld "EPCTRL_TX_DATA_SOURCE" 0x00020000 []; Fld "EPCTRL_TX_EP_STALL" 0x00010000 [];
   Fld "EPCTRL_RX_ENABLE" 0x00000080 []; Fld "EPCTRL_RX_DATA_TOGGLE_RST" 0x00000040 [];
   Fld "EPCTRL_RX_DATA_TOGGLE_INH" 0x00000020 []; Fld "EPCTRL_RX_TYPE" 0x0000000C [];
   Fld "EPCTRL_RX_DATA_SINK" 0x00000002 []; Fld "EPCTRL_RX_EP_STALL" 0x00000001 []].

Definition EP_TYPES : list (string * Z) :=
  [("EPCTRL_EP_TYPE_CONTROL", 0); ("EPCTRL_EP_TYPE_ISO", 1); ("EPCTRL_EP_TYPE_BULK", 2);
   ("EPCTRL_EP_TYPE_INTERRUPT", 3)].

Definition SNOOP : group := Grp [] [Fld "SNOOP_ADDRESS_MASK" 0xFFFFF000 []].

Definition SNOOP_SIZES : list (string * Z) :=
  [("SNOOP_SIZE_ZERO", 0x00); ("SNOOP_SIZE_4KB", 0x0B); ("SNOOP_SIZE_8KB", 0x0C); ("SNOOP_SIZE_16KB", 0x0D);
   ("SNOOP_SIZE_32KB", 0x0E); ("SNOOP_SIZE_64KB", 0x0F); ("SNOOP_SIZE_128KB", 0x10); ("SNOOP_SIZE_256KB", 0x11);
   ("SNOOP_SIZE_512KB", 0x12); ("SNOOP_SIZE_1MB", 0x13); ("SNOOP_SIZE_2MB", 0x14); ("SNOOP_SIZE_4MB", 0x15);
   ("SNOOP_SIZE_8MB", 0x16); ("SNOOP_SIZE_16MB", 0x17); ("SNOOP_SIZE_32MB", 0x18); ("SNOOP_SIZE_64MB", 0x19);
   ("SNOOP_SIZE_128MB", 0x1A); ("SNOOP_SIZE_256MB", 0x1B); ("SNOOP_SIZE_512MB", 0x1C); ("SNOOP_SIZE_1GB", 0x1D);
   ("SNOOP_SIZE_2GB", 0x1E)].

Definition PRI_CTRL : group := Grp []
  [Fld "PRI_CTRL_PRI_LVL1" 0x0000000C []; Fld "PRI_CTRL_PRI_LVL0" 0x00000003 []].

Definition SI_CTRL : group := Grp []
  [Fld "SI_CTRL_ERR_DISABLE" 0x00000010 []; Fld "SI_CTRL_IDRC_DISABLE" 0x00000008 [];
   Fld "SI_CTRL_RD_SAFE_EN" 0x00000004 []; Fld "SI_CTRL_RD_PREFETCH_DISABLE" 0x00000002 [];
   Fld "SI_CTRL_RD_PREFEFETCH_VAL" 0x00000001 []].

Definition USB_CTRL : group := Grp []
  [Fld "USB_CTRL_IOENB" 0x00000004 []; Fld "USB_CTRL_ULPI_INT0EN" 0x00000001 []].

(** Positions of fields. *)
Definition USB_CMD_ASP_BIT_POS : Z := 8.

Definition USB_CMD_ITC_BIT_POS : Z := 16.

Definition USB_DEVICE_ADDRESS_BIT_POS : Z := 25.

Definition PORTSCX_LINE_STATUS_BIT_POS : Z := 10.

Definition PORTSCX_PIC_BIT_POS : Z := 14.

Definition PORTSCX_PTC_BIT_POS : Z := 16.

Definition PORTSCX_SPEED_BIT_POS : Z := 26.

Definition PORTSCX_PTS_BIT_POS : Z := 30.

Definition EPCTRL_TX_EP_TYPE_SHIFT : Z := 18.

Definition EPCTRL_RX_EP_TYPE_SHIFT : Z := 2.

(** Queue heads and transfer descriptors. *)
Definition ep_queue_head : list (string * cty) :=
  [("max_pkt_length", U32); ("curr_dtd_ptr", U32); ("next_dtd_ptr", U32); ("size_ioc_int_sts", U32);
   ("buff_ptr0", U32); ("buff_ptr1", U32); ("buff_ptr2", U32); ("buff_ptr3", U32); ("buff_ptr4", U32);
   ("res1", U32); ("setup_buffer", Arr 8 U8); ("res2", Arr 4 U32)].

Definition QH_CAP : group := Grp []
  [Fld "EP_QUEUE_HEAD_ZLT_SEL" 0x20000000 []; Fld "EP_QUEUE_HEAD_IOS" 0x00008000 []].

Definition QH_TOKEN : group := Grp []
  [Fld "EP_QUEUE_HEAD_IOC" 0x00008000 []; Fld "EP_QUEUE_HEAD_MULTO" 0x00000C00 [];
   Fld "EP_QUEUE_HEAD_STATUS_HALT" 0x00000040 []; Fld "EP_QUEUE_HEAD_STATUS_ACTIVE" 0x00000080 []].

Definition EP_QUEUE_HEAD_MULT_POS : Z := 30.

Definition EP_QUEUE_HEAD_MAX_PKT_LEN_POS : Z := 16.

Definition EP_QUEUE_HEAD_NEXT_TERMINATE : Z := 0x00000001.

Definition EP_QUEUE_CURRENT_OFFSET_MASK : Z := 0x00000FFF.

Definition EP_QUEUE_HEAD_NEXT_POINTER_MASK : Z := 0xFFFFFFE0.

Definition EP_QUEUE_FRINDEX_MASK : Z := 0x000007FF.

Definition EP_MAX_LENGTH_TRANSFER : Z := 0x4000.

Definition EP_QUEUE_HEAD_MAX_PKT_LEN (ep_info : Z) : Z := Z.land (Z.shiftr ep_info 16) 0x07ff.

Definition ep_td_struct : list (string * cty) :=
  [("next_td_ptr", U32); ("size_ioc_sts", U32); ("buff_ptr0", U32); ("buff_ptr1", U32); ("buff_ptr2", U32);
   ("buff_ptr3", U32); ("buff_ptr4", U32); ("res", U32); ("td_dma", Dma); ("next_td_virt", Ptr)].

Definition DTD_TOKEN : group := Grp []
  [Fld "DTD_IOC" 0x00008000 []; Fld "DTD_STATUS_ACTIVE" 0x00000080 []; Fld "DTD_STATUS_HALTED" 0x00000040 [];
   Fld "DTD_STATUS_DATA_BUFF_ERR" 0x00000020 []; Fld "DTD_STATUS_TRANSACTION_ERR" 0x00000008 []].

Definition DTD_NEXT_TERMINATE : Z := 0x00000001.

Definition DTD_RESERVED_FIELDS : Z := 0x80007300.

Definition DTD_ADDR_MASK : Z := 0xFFFFFFE0.

Definition DTD_PACKET_SIZE : Z := 0x7FFF0000.

Definition DTD_LENGTH_BIT_POS : Z := 16.

Definition DTD_ALIGNMENT : Z := 0x20.

Definition QH_ALIGNMENT : Z := 2048.

Definition UDC_DMA_BOUNDARY : Z := 0x1000.

Definition DTD_ERROR_MASK : Z := Z.lor (Z.lor 0x00000040 0x00000020) 0x00000008.

Definition USB_MAX_CTRL_PAYLOAD : Z := 64.

Definition USB_DR_SYS_OFFSET : Z := 0x400.

(** ** Pipes *)
Definition ep_index (bEndpointAddress : Z) : Z := Z.land bEndpointAddress 0xF.
(** The direction of endpoint 0 is that of the current transfer. *)
Definition ep_is_in (ep0_dir bEndpointAddress : Z) : bool :=
  if ep_index bEndpointAddress =? 0 then ep0_dir =? USB_DIR_IN else Z.land bEndpointAddress USB_DIR_IN =? USB_DIR_IN.
(** [None]: beside the array. *)
Definition get_ep_by_pipe {A} (eps : list A) (pipe : Z) : option A := if pipe =? 1 then eps !! 0%nat else eps !! Z.to_nat pipe.
Definition get_pipe_by_windex (windex : Z) : Z :=
  Z.land windex USB_ENDPOINT_NUMBER_MASK * 2 + if truthy (Z.land windex USB_DIR_IN) then 1 else 0.

Definition get_pipe_by_ep (ep0_dir bEndpointAddress : Z) : Z :=
  ep_index bEndpointAddress * 2 + Z.b2z (ep_is_in ep0_dir bEndpointAddress).

Definition registers : list group :=
  [DCCPARAMS; FRINDEX; USBCMD; USBSTS; USBINTR; DEVICEADDR; EPLIST; PORTSC; OTGSC; USBMODE; SETUPSTAT; EPCTRL;
   SNOOP; PRI_CTRL; SI_CTRL; USB_CTRL; QH_CAP; QH_TOKEN; DTD_TOKEN].
End FSL.

Module CHARGER.
Definition REG_3P0 : pgroup := PGrp
  [("HW_ANADIG_REG_3P0", 0x00000120); ("HW_ANADIG_REG_3P0_SET", 0x00000124); ("HW_ANADIG_REG_3P0_CLR", 0x00000128); ("HW_ANADIG_REG_3P0_TOG", 0x0000012c)]
  [B "BM_ANADIG_REG_3P0_ENABLE_ILIMIT" 2; B "BM_ANADIG_REG_3P0_ENABLE_LINREG" 0].

Definition USB1_VBUS_DETECT : pgroup := PGrp
  [("HW_ANADIG_USB1_VBUS_DETECT", 0x000001a0); ("HW_ANADIG_USB1_VBUS_DETECT_SET", 0x000001a4); ("HW_ANADIG_USB1_VBUS_DETECT_CLR", 0x000001a8); ("HW_ANADIG_USB1_VBUS_DETECT_TOG", 0x000001ac)]
  [B "BM_ANADIG_USB1_VBUS_DETECT_EN_CHARGER_RESISTOR" 31; PF "BM_ANADIG_USB1_VBUS_DETECT_RSVD2" 0x70000000 28 [];
   B "BM_ANADIG_USB1_VBUS_DETECT_CHARGE_VBUS" 27; B "BM_ANADIG_USB1_VBUS_DETECT_DISCHARGE_VBUS" 26;
   PF "BM_ANADIG_USB1_VBUS_DETECT_RSVD1" 0x03E00000 21 []; B "BM_ANADIG_USB1_VBUS_DETECT_VBUSVALID_PWRUP_CMPS" 20;
   B "BM_ANADIG_USB1_VBUS_DETECT_VBUSVALID_5VDETECT" 19; B "BM_ANADIG_USB1_VBUS_DETECT_VBUSVALID_TO_B" 18;
   PF "BM_ANADIG_USB1_VBUS_DETECT_RSVD0" 0x0003FF00 8 []; B "BM_ANADIG_USB1_VBUS_DETECT_VBUSVALID_OVERRIDE" 7;
   B "BM_ANADIG_USB1_VBUS_DETECT_AVALID_OVERRIDE" 6; B "BM_ANADIG_USB1_VBUS_DETECT_BVALID_OVERRIDE" 5;
   B "BM_ANADIG_USB1_VBUS_DETECT_SESSEND_OVERRIDE" 4; B "BM_ANADIG_USB1_VBUS_DETECT_VBUS_OVERRIDE_EN" 3;
   PF "BM_ANADIG_USB1_VBUS_DETECT_VBUSVALID_THRESH" 0x00000007 0 []].

Definition USB1_CHRG_DETECT : pgroup := PGrp
  [("HW_ANADIG_USB1_CHRG_DETECT", 0x000001b0); ("HW_ANADIG_USB1_CHRG_DETECT_SET", 0x000001b4); ("HW_ANADIG_USB1_CHRG_DETECT_CLR", 0x000001b8); ("HW_ANADIG_USB1_CHRG_DETECT_TOG", 0x000001bc)]
  [PF "BM_ANADIG_USB1_CHRG_DETECT_RSVD2" 0xFF000000 24 []; B "BM_ANADIG_USB1_CHRG_DETECT_BGR_BIAS" 23;
   PF "BM_ANADIG_USB1_CHRG_DETECT_RSVD1" 0x00600000 21 []; B "BM_ANADIG_USB1_CHRG_DETECT_EN_B" 20;
   B "BM_ANADIG_USB1_CHRG_DETECT_CHK_CHRG_B" 19; B "BM_ANADIG_USB1_CHRG_DETECT_CHK_CONTACT" 18;
   PF "BM_ANADIG_USB1_CHRG_DETECT_RSVD0" 0x0003FFFE 1 []; B "BM_ANADIG_USB1_CHRG_DETECT_FORCE_DETECT" 0].

Definition USB1_VBUS_DET_STAT : pgroup := PGrp
  [("HW_ANADIG_USB1_VBUS_DET_STAT", 0x000001c0); ("HW_ANADIG_USB1_VBUS_DET_STAT_SET", 0x000001c4); ("HW_ANADIG_USB1_VBUS_DET_STAT_CLR", 0x000001c8); ("HW_ANADIG_USB1_VBUS_DET_STAT_TOG", 0x000001cc)]
  [PF "BM_ANADIG_USB1_VBUS_DET_STAT_RSVD0" 0xFFFFFFF0 4 []; B "BM_ANADIG_USB1_VBUS_DET_STAT_VBUS_VALID" 3;
   B "BM_ANADIG_USB1_VBUS_DET_STAT_AVALID" 2; B "BM_ANADIG_USB1_VBUS_DET_STAT_BVALID" 1;
   B "BM_ANADIG_USB1_VBUS_DET_STAT_SESSEND" 0].

Definition USB1_CHRG_DET_STAT : pgroup := PGrp
  [("HW_ANADIG_USB1_CHRG_DET_STAT", 0x000001d0); ("HW_ANADIG_USB1_CHRG_DET_STAT_SET", 0x000001d4); ("HW_ANADIG_USB1_CHRG_DET_STAT_CLR", 0x000001d8); ("HW_ANADIG_USB1_CHRG_DET_STAT_TOG", 0x000001dc)]
  [PF "BM_ANADIG_USB1_CHRG_DET_STAT_RSVD0" 0xFFFFFFF0 4 []; B "BM_ANADIG_USB1_CHRG_DET_STAT_DP_STATE" 3;
   B "BM_ANADIG_USB1_CHRG_DET_STAT_DM_STATE" 2; B "BM_ANADIG_USB1_CHRG_DET_STAT_CHRG_DETECTED" 1;
   B "BM_ANADIG_USB1_CHRG_DET_STAT_PLUG_CONTACT" 0].

Definition USB1_LOOPBACK : pgroup := PGrp
  [("HW_ANADIG_USB1_LOOPBACK", 0x000001e0); ("HW_ANADIG_USB1_LOOPBACK_SET", 0x000001e4); ("HW_ANADIG_USB1_LOOPBACK_CLR", 0x000001e8); ("HW_ANADIG_USB1_LOOPBACK_TOG", 0x000001ec)]
  [PF "BM_ANADIG_USB1_LOOPBACK_RSVD0" 0xFFFFFE00 9 []; B "BM_ANADIG_USB1_LOOPBACK_UTMO_DIG_TST1" 8;
   B "BM_ANADIG_USB1_LOOPBACK_UTMO_DIG_TST0" 7; B "BM_ANADIG_USB1_LOOPBACK_TSTI_TX_HIZ" 6;
   B "BM_ANADIG_USB1_LOOPBACK_TSTI_TX_EN" 5; B "BM_ANADIG_USB1_LOOPBACK_TSTI_TX_LS_MODE" 4;
   B "BM_ANADIG_USB1_LOOPBACK_TSTI_TX_HS_MODE" 3; B "BM_ANADIG_USB1_LOOPBACK_UTMI_DIG_TST1" 2;
   B "BM_ANADIG_USB1_LOOPBACK_UTMI_DIG_TST0" 1; B "BM_ANADIG_USB1_LOOPBACK_UTMI_TESTSTART" 0].

Definition USB1_MISC : pgroup := PGrp
  [("HW_ANADIG_USB1_MISC", 0x000001f0); ("HW_ANADIG_USB1_MISC_SET", 0x000001f4); ("HW_ANADIG_USB1_MISC_CLR", 0x000001f8); ("HW_ANADIG_USB1_MISC_TOG", 0x000001fc)]
  [B "BM_ANADIG_USB1_MISC_RSVD1" 31; B "BM_ANADIG_USB1_MISC_EN_CLK_UTMI" 30; B "BM_ANADIG_USB1_MISC_RX_VPIN_FS" 29;
   B "BM_ANADIG_USB1_MISC_RX_VMIN_FS" 28; B "BM_ANADIG_USB1_MISC_RX_RXD_FS" 27;
   B "BM_ANADIG_USB1_MISC_RX_SQUELCH" 26; B "BM_ANADIG_USB1_MISC_RX_DISCON_DET" 25;
   B "BM_ANADIG_USB1_MISC_RX_HS_DATA" 24; PF "BM_ANADIG_USB1_MISC_RSVD0" 0x00FFFFFC 2 [];
   B "BM_ANADIG_USB1_MISC_EN_DEGLITCH" 1; B "BM_ANADIG_USB1_MISC_HS_USE_EXTERNAL_R" 0].

Definition registers : list pgroup :=
  [REG_3P0; USB1_VBUS_DETECT; USB1_CHRG_DETECT; USB1_VBUS_DET_STAT; USB1_CHRG_DET_STAT; USB1_LOOPBACK; USB1_MISC].
(** [BF_...(v)] *)
Definition BF (f : pfield) (v : Z) : Z := Z.land (Z.shiftl v (p_ofs f)) (p_mask f).
End CHARGER.

(** ** Fields *)
Lemma chipidea_registers_ok : table_ok 32 (ARCOTG.registers ++ FSL.registers) = true.
Proof. by vm_compute. Qed.
Lemma charger_registers_ok : ptable_ok 32 CHARGER.registers = true.
Proof. by vm_compute. Qed.

(** property: clearing a field of any register and setting one of its named
    values leaves that value in the field and every other field as it was,
    in both headers. *)
Theorem chipidea_set_value g i f s v old :
  g ∈ ARCOTG.registers ++ FSL.registers -> g_fields g !! i = Some f -> (s, v) ∈ f_values f ->
  Z.land (set_bits old (f_mask f) v) (f_mask f) = v /\
  forall j f', g_fields g !! j = Some f' -> j <> i ->
    Z.land (set_bits old (f_mask f) v) (f_mask f') = Z.land old (f_mask f').
Proof. apply (table_set_value 32), chipidea_registers_ok. Qed.
Lemma chipidea_set_value_witness :
  Z.land (set_bits 0x0c001005 0x0C000000 0x08000000) 0x0C000000 = 0x08000000.
Proof.
  apply (chipidea_set_value ARCOTG.PORTSC 18 (Fld "PORTSCX_PORT_SPEED_MASK" 0x0C000000 ARCOTG.SPEED_values)
           "PORTSCX_PORT_SPEED_HIGH" 0x08000000 0x0c001005).
  - apply list_elem_of_lookup. by exists 7%nat.
  - done.
  - apply list_elem_of_lookup. by exists 2%nat.
Defined.

(** Set, clear and toggle addresses behind the register's own. *)
Definition alias_ok (g : pgroup) : bool :=
  match snd <$> pg_regs g with
  | [a; b; c; d] => (b =? a + 4) && (c =? a + 8) && (d =? a + 12) && (a mod 16 =? 0)
  | _ => false
  end.

(** property: the charger detector: a value put into a field of a register
    with its macro is the field's value afterwards, cut to its size; the
    other fields stay.  The addresses that set, clear and toggle bits follow
    the register's own. *)
Theorem charger_field g i f old v :
  g ∈ CHARGER.registers -> pg_fields g !! i = Some f ->
  pf_get f (set_bits old (p_mask f) (CHARGER.BF f v)) = v mod 2 ^ p_size f /\
  (forall j f', pg_fields g !! j = Some f' -> j <> i ->
     pf_get f' (set_bits old (p_mask f) (CHARGER.BF f v)) = pf_get f' old) /\
  exists a, snd <$> pg_regs g = [a; a + 4; a + 8; a + 12] /\ a mod 16 = 0.
Proof.
  intros Hg Hf. destruct (ptable_update 32 _ g i f old v charger_registers_ok Hg Hf) as [H1 H2].
  split; [done|split; [done|]].
  assert (forallb alias_ok CHARGER.registers = true) as Ha by (by vm_compute).
  rewrite forallb_forall in Ha. specialize (Ha g (proj1 (list_elem_of_In _ _) Hg)). unfold alias_ok in Ha.
  destruct (snd <$> pg_regs g) as [|a [|b [|c [|d [|]]]]]; try done. exists a. bool_to_prop. split; [repeat f_equal|]; lia.
Qed.
Lemma charger_field_witness :
  let f := PF "BM_ANADIG_USB1_VBUS_DETECT_VBUSVALID_THRESH" 0x00000007 0 [] in
  pf_get f (set_bits 0xff (p_mask f) (CHARGER.BF f 4)) = 4 mod 2 ^ p_size f.
Proof.
  apply (charger_field CHARGER.USB1_VBUS_DETECT 14 (PF "BM_ANADIG_USB1_VBUS_DETECT_VBUSVALID_THRESH" 0x00000007 0 []) 0xff 4); [|done].
  apply list_elem_of_lookup. by exists 1%nat.
Defined.

(** The positions that the headers name are those of the lowest bits. *)
Lemma chipidea_positions :
  (Z.log2 ∘ lowest) <$> [0x00000300; 0x00FF0000; 0xFE000000; 0x00000C00; 0x0000C000; 0x000F0000; 0x0C000000; 0xC0000000; 0x000C0000; 0x0000000C]
  = [ARCOTG.USB_CMD_ASP_BIT_POS; ARCOTG.USB_CMD_ITC_BIT_POS; ARCOTG.USB_DEVICE_ADDRESS_BIT_POS; ARCOTG.PORTSCX_LINE_STATUS_BIT_POS;
     ARCOTG.PORTSCX_PIC_BIT_POS; ARCOTG.PORTSCX_PTC_BIT_POS; ARCOTG.PORTSCX_SPEED_BIT_POS; ARCOTG.PORTSCX_PTS_BIT_POS;
     ARCOTG.EPCTRL_TX_EP_TYPE_SHIFT; ARCOTG.EPCTRL_RX_EP_TYPE_SHIFT].
Proof. by vm_compute. Qed.

(** ** Codes *)

(** The size of the frame list, from bits 15, 3 and 2. *)
Definition frame_list_size (cmd : Z) : Z := Z.shiftr 1024 (Z.lor (Z.land (Z.shiftr cmd 2) 3) (Z.land (Z.shiftr cmd 13) 4)).
(** The size of a snoop window. *)
Definition snoop_size (code : Z) : Z := if code =? 0 then 0 else Z.shiftl 1 (code + 1).

(** property: the codes mean what their names say: the frame list sizes from
    1024 down to 8 and apart from the other fields of the command register,
    the snoop sizes from 4 KB up to 2 GB in powers of two, the interrupt
    threshold in micro frames, the four types of endpoints in the type fields
    of both directions; and both headers have the same codes. *)
Theorem chipidea_codes :
  (frame_list_size ∘ snd <$> ARCOTG.FRAME_SIZES) = [1024; 512; 256; 128; 64; 32; 16; 8] /\
  forallb (fun v => forallb (fun f => apart (snd v) (f_mask f)) (g_fields ARCOTG.USBCMD)) ARCOTG.FRAME_SIZES = true /\
  (snoop_size ∘ snd <$> ARCOTG.SNOOP_SIZES) = 0 :: ((fun k => 4096 * 2 ^ Z.of_nat k) <$> seq 0 20) /\
  ((fun v => Z.shiftr (snd v) ARCOTG.USB_CMD_ITC_BIT_POS) <$> ARCOTG.ITC_values) = [0; 1; 2; 4; 8; 16; 32; 64] /\
  forallb (fun v => within (Z.shiftl (snd v) ARCOTG.EPCTRL_TX_EP_TYPE_SHIFT) 0x000C0000 &&
                    within (Z.shiftl (snd v) ARCOTG.EPCTRL_RX_EP_TYPE_SHIFT) 0x0000000C) ARCOTG.EP_TYPES = true /\
  FSL.FRAME_SIZES = ARCOTG.FRAME_SIZES /\ FSL.SNOOP_SIZES = ARCOTG.SNOOP_SIZES /\ FSL.ITC_values = ARCOTG.ITC_values /\
  FSL.EP_TYPES = ARCOTG.EP_TYPES /\ FSL.PTC_values = ARCOTG.PTC_values /\ FSL.SPEED_values = ARCOTG.SPEED_values.
Proof. by vm_compute. Qed.

(** property: the two headers disagree on the line status: what one names the
    J state the other names the K state. *)
Theorem chipidea_line_status_differs :
  exists j k, j <> k /\
    ("PORTSCX_LINE_STATUS_JSTATE", j) ∈ ARCOTG.LINE_STATUS /\ ("PORTSCX_LINE_STATUS_KSTATE", k) ∈ ARCOTG.LINE_STATUS /\
    ("PORTSCX_LINE_STATUS_JSTATE", k) ∈ FSL.LINE_STATUS /\ ("PORTSCX_LINE_STATUS_KSTATE", j) ∈ FSL.LINE_STATUS.
Proof. exists 0x800, 0x400. split; [done|]. rewrite !list_elem_of_lookup. repeat split; [exists 2%nat|exists 1%nat|exists 1%nat|exists 2%nat]; done. Qed.

(** ** Layout *)
Section Layout.
Variables PTR DMA : Z.

(** The registers that both structures have. *)
Definition common_registers : list string :=
  ["caplength"; "hciversion"; "hcsparams"; "hccparams"; "dciversion"; "dccparams"; "usbcmd"; "usbsts"; "usbintr"; "frindex"; "deviceaddr";
   "endpointlistaddr"; "burstsize"; "txttfilltuning"; "configflag"; "portsc1"; "otgsc"; "usbmode"; "endptsetupstat"; "endpointprime";
   "endptflush"; "endptstatus"; "endptcomplete"; "endptctrl"].
(** The names of two registers in host mode. *)
Definition host_name (n : string) : string :=
  if decide (n = "deviceaddr") then "periodiclistbase" else if decide (n = "endpointlistaddr") then "asynclistaddr" else n.

(** property: the two headers put every register they share at the same
    offset, and host mode has them all at the offsets of device mode; the
    capability registers begin at 0x100, the operation registers at 0x140;
    the i.MX registers behind the controller at 0x600 (at 0x800 on i.MX51, as
    the comment says); the system interface's control register at 0x100 of
    its block. *)
Theorem chipidea_offsets mx5 :
  Forall (fun n => exists o, offsetof PTR DMA (ARCOTG.usb_dr_device mx5) n = Some o /\ offsetof PTR DMA FSL.usb_dr_device n = Some o /\
                     offsetof PTR DMA FSL.usb_dr_host (host_name n) = Some o) common_registers /\
  offsetof PTR DMA FSL.usb_dr_device "caplength" = Some 0x100 /\ offsetof PTR DMA FSL.usb_dr_device "usbcmd" = Some 0x140 /\
  offsetof PTR DMA (ARCOTG.usb_dr_device mx5) "usbctrl" = Some (if mx5 then 0x800 else 0x600) /\
  offsetof PTR DMA FSL.usb_sys_interface "control" = Some 0x100 /\ ARCOTG.usb_sys_interface = FSL.usb_sys_interface.
Proof.
  split; [|by destruct mx5].
  destruct mx5; repeat (apply List.Forall_cons; [eexists; repeat split; vm_compute; reflexivity|]); apply List.Forall_nil.
Qed.
End Layout.

(** ** Queue heads and transfer descriptors *)

(** property: the descriptors: a queue head has 64 bytes in both headers;
    with 32-bit addresses the i.MX descriptor has the 16 words its comment
    asks for, and with 64-bit ones it has not; the part the controller reads
    is the first 28 bytes of both. *)
Theorem chipidea_descriptor_sizes :
  struct_size 4 4 ARCOTG.ep_queue_head = 64 /\ FSL.ep_queue_head = ARCOTG.ep_queue_head /\
  struct_size 4 4 ARCOTG.ep_td_struct = 64 /\ struct_size 8 8 ARCOTG.ep_td_struct = 80 /\
  offsetof 4 4 FSL.ep_td_struct "td_dma" = Some 32 /\
  take 7 (members 8 8 0 ARCOTG.ep_td_struct) = take 7 (members 4 4 0 FSL.ep_td_struct) /\
  ARCOTG.USB_MAX_PIPES * struct_size 4 4 ARCOTG.ep_queue_head <= ARCOTG.QH_ALIGNMENT.
Proof. by vm_compute. Qed.

(** property: the first word of a queue head: the packet size put at its
    position is what the macro reads, whatever the multiplier, the zero
    length and the setup interrupt bits are. *)
Theorem qh_max_packet_roundtrip len mult (zlt ios : bool) :
  0 <= len < 2048 -> 0 <= mult < 4 ->
  ARCOTG.EP_QUEUE_HEAD_MAX_PKT_LEN
    (Z.lor (Z.lor (Z.shiftl mult ARCOTG.EP_QUEUE_HEAD_MULT_POS) (if zlt then 0x20000000 else 0))
       (Z.lor (Z.shiftl len ARCOTG.EP_QUEUE_HEAD_MAX_PKT_LEN_POS) (if ios then 0x00008000 else 0))) = len.
Proof.
  intros Hl Hm. unfold ARCOTG.EP_QUEUE_HEAD_MAX_PKT_LEN, ARCOTG.EP_QUEUE_HEAD_MULT_POS, ARCOTG.EP_QUEUE_HEAD_MAX_PKT_LEN_POS.
  rewrite !Z.shiftr_lor, !Z.land_lor_distr_l. rewrite Z.shiftr_shiftl_l, Z.shiftr_shiftl_l by lia.
  change 0x07ff with (Z.ones 11). rewrite (Z.land_ones (Z.shiftl len (16 - 16))), Z.sub_diag, Z.shiftl_0_r, Z.mod_small by lia.
  rewrite Z.land_ones, Z.shiftl_mul_pow2 by lia. replace (mult * 2 ^ (30 - 16)) with (mult * 8 * 2 ^ 11) by lia. rewrite Z.mod_mul by lia.
  destruct zlt, ios; rewrite ?Z.lor_0_l, ?Z.lor_0_r; done.
Qed.
Lemma qh_max_packet_roundtrip_witness :
  ARCOTG.EP_QUEUE_HEAD_MAX_PKT_LEN (Z.lor (Z.lor (Z.shiftl 3 30) 0x20000000) (Z.lor (Z.shiftl 1024 16) 0)) = 1024.
Proof. apply (qh_max_packet_roundtrip 1024 3 true false); lia. Defined.

(** property: the second word of a transfer descriptor: length, interrupt
    bit, multiplier and status are apart, and with the reserved bits they
    are all 32; the errors are bits of the status. *)
Theorem dtd_token_bits :
  all_apart [ARCOTG.DTD_PACKET_SIZE; 0x00008000; 0x00000C00; 0x000000FF; ARCOTG.DTD_RESERVED_FIELDS] = true /\
  foldr Z.lor 0 [ARCOTG.DTD_PACKET_SIZE; 0x00008000; 0x00000C00; 0x000000FF; ARCOTG.DTD_RESERVED_FIELDS] = Z.ones 32 /\
  forallb (fun f => within (f_mask f) (Z.lnot ARCOTG.DTD_RESERVED_FIELDS)) (g_fields ARCOTG.DTD_TOKEN ++ g_fields ARCOTG.QH_TOKEN) = true /\
  within ARCOTG.DTD_ERROR_MASK 0xFF = true /\ FSL.DTD_ERROR_MASK = ARCOTG.DTD_ERROR_MASK /\
  FSL.DTD_RESERVED_FIELDS = ARCOTG.DTD_RESERVED_FIELDS /\ FSL.DTD_PACKET_SIZE = ARCOTG.DTD_PACKET_SIZE.
Proof. by vm_compute. Qed.

(** property: a transfer of the largest length fits a descriptor: from any
    byte of a page it ends within the five pages that the descriptor points
    to, and its length fits the length field. *)
Theorem dtd_transfer_fits len addr :
  0 < len <= ARCOTG.EP_MAX_LENGTH_TRANSFER -> 0 <= addr ->
  (addr + len - 1) / ARCOTG.UDC_DMA_BOUNDARY - addr / ARCOTG.UDC_DMA_BOUNDARY < 5 /\
  Z.land (Z.shiftl len ARCOTG.DTD_LENGTH_BIT_POS) ARCOTG.DTD_PACKET_SIZE = Z.shiftl len ARCOTG.DTD_LENGTH_BIT_POS.
Proof.
  unfold ARCOTG.EP_MAX_LENGTH_TRANSFER, ARCOTG.UDC_DMA_BOUNDARY, ARCOTG.DTD_LENGTH_BIT_POS, ARCOTG.DTD_PACKET_SIZE. intros Hl Ha. split.
  - pose proof (Z.div_mod (addr + len - 1) 0x1000). pose proof (Z.div_mod addr 0x1000).
    pose proof (Z.mod_pos_bound (addr + len - 1) 0x1000). pose proof (Z.mod_pos_bound addr 0x1000). lia.
  - change 0x7FFF0000 with (Z.shiftl (Z.ones 15) 16). rewrite <- Z.shiftl_land, Z.land_ones, Z.mod_small by lia. done.
Qed.
Lemma dtd_transfer_fits_witness : (0xfff + 0x4000 - 1) / 0x1000 - 0xfff / 0x1000 < 5.
Proof. apply (dtd_transfer_fits 0x4000 0xfff); [by vm_compute|lia]. Defined.

(** An aligned address survives the mask of its register. *)
Lemma aligned_masked w k a : 0 <= k <= w -> 0 <= a < 2 ^ w -> a mod 2 ^ k = 0 -> Z.land a (Z.shiftl (Z.ones (w - k)) k) = a.
Proof.
  intros Hk Ha Hm. assert (a = Z.shiftl (a / 2 ^ k) k) as He.
  { rewrite Z.shiftl_mul_pow2 by lia. pose proof (Z.div_mod a (2 ^ k)). lia. }
  rewrite He, <- Z.shiftl_land, Z.land_ones by lia. f_equal. apply Z.mod_small.
  split; [apply Z.div_pos; lia|]. apply Z.div_lt_upper_bound; [lia|]. rewrite <- Z.pow_add_r by lia. replace (k + (w - k)) with w by lia. lia.
Qed.
(** property: addresses of the alignments that the headers ask for keep all
    their bits in the pointers of descriptors, of queue heads and of the
    endpoint list. *)
Theorem chipidea_alignment a :
  0 <= a < 2 ^ 32 ->
  (a mod ARCOTG.DTD_ALIGNMENT = 0 -> Z.land a ARCOTG.DTD_ADDR_MASK = a /\ Z.land a ARCOTG.EP_QUEUE_HEAD_NEXT_POINTER_MASK = a) /\
  (a mod ARCOTG.QH_ALIGNMENT = 0 -> Forall (fun f => Z.land a (f_mask f) = a) (g_fields ARCOTG.EPLIST)).
Proof.
  intros Ha. split; intros Hm.
  - split; apply (aligned_masked 32 5 a); (lia || done).
  - apply List.Forall_cons; [|constructor]. apply (aligned_masked 32 11 a); (lia || done).
Qed.
Lemma chipidea_alignment_witness : Z.land 0x12345660 ARCOTG.DTD_ADDR_MASK = 0x12345660.
Proof. apply (chipidea_alignment 0x12345660); [lia|done]. Defined.

(** ** Pipes *)

Lemma pipe_val w : 0 <= w -> ARCOTG.get_pipe_by_windex w = 2 * (w mod 16) + Z.b2z (Z.testbit w 7).
Proof.
  intros Hw. unfold ARCOTG.get_pipe_by_windex, USB_ENDPOINT_NUMBER_MASK, USB_DIR_IN.
  change 0x0f with (Z.ones 4). change 0x80 with (2 ^ 7). rewrite Z.land_ones, truthy_land_pow by lia.
  change (2 ^ 4) with 16. destruct (Z.testbit w 7); cbn; lia.
Qed.

(** property: pipes and [wIndex]: two indices have one pipe only if they name
    the same endpoint and direction, and pipes are below 32. *)
Theorem pipe_injective w w' :
  0 <= w -> 0 <= w' ->
  0 <= ARCOTG.get_pipe_by_windex w < 32 /\
  (ARCOTG.get_pipe_by_windex w = ARCOTG.get_pipe_by_windex w' <-> w mod 16 = w' mod 16 /\ Z.testbit w 7 = Z.testbit w' 7) /\
  FSL.get_pipe_by_windex w = ARCOTG.get_pipe_by_windex w.
Proof.
  intros Hw Hw'. rewrite !pipe_val by done. pose proof (Z.mod_pos_bound w 16). pose proof (Z.mod_pos_bound w' 16).
  split; [|split; [|by rewrite <- pipe_val]]; destruct (Z.testbit w 7), (Z.testbit w' 7); cbn; intuition (lia || congruence).
Qed.
Lemma pipe_injective_witness : 0 <= ARCOTG.get_pipe_by_windex 0x83 < 32.
Proof. apply (pipe_injective 0x83 0x81); lia. Defined.

(** The endpoints of a driver: entry [p] of the array is the endpoint of pipe
    [p], entry 1 being unused. *)
Definition eps_ok (eps : list Z) : Prop := forall p a, eps !! p = Some a -> p <> 1%nat -> a = Z.of_nat p / 2 + 128 * (Z.of_nat p mod 2).

(** The parts of an endpoint address. *)
Lemma address_parts k (d : bool) ep0_dir :
  0 <= k < 16 -> ARCOTG.ep_index (k + 128 * Z.b2z d) = k /\ (k <> 0 -> ARCOTG.ep_is_in ep0_dir (k + 128 * Z.b2z d) = d).
Proof.
  intros Hk. assert (ARCOTG.ep_index (k + 128 * Z.b2z d) = k) as Hi.
  { unfold ARCOTG.ep_index. change 0xF with (Z.ones 4). rewrite Z.land_ones by lia. change (2 ^ 4) with 16.
    replace (k + 128 * Z.b2z d) with (k + 8 * Z.b2z d * 16) by lia. rewrite Z.mod_add by lia. apply Z.mod_small. lia. }
  split; [done|]. intros H0. unfold ARCOTG.ep_is_in. rewrite Hi. assert ((k =? 0) = false) as -> by lia.
  assert (forall x, 0 <= x < 16 -> Z.land (x + 128 * Z.b2z d) USB_DIR_IN = 128 * Z.b2z d) as Hx.
  { intros x Hx. apply Z.eqb_eq. revert x Hx. by apply (forall_below (fun x => Z.land (x + 128 * Z.b2z d) USB_DIR_IN =? 128 * Z.b2z d) 16); destruct d. }
  rewrite Hx by lia. by destruct d.
Qed.

(** property: finding the endpoint that a request names: with an array for
    [n] endpoints, an index whose number is below [n] gives the endpoint of
    that number and - but for endpoint 0, which is one for both directions -
    of that direction, and its pipe by [get_pipe_by_ep] is the one it was
    found by.  A number that is not below [n] is beside the array; nothing
    in the macros checks it. *)
Theorem pipe_finds_endpoint eps (n : nat) w ep0_dir :
  0 <= w -> eps_ok eps -> length eps = (2 * n)%nat -> (0 < n)%nat ->
  (w mod 16 < Z.of_nat n ->
     exists a, ARCOTG.get_ep_by_pipe eps (ARCOTG.get_pipe_by_windex w) = Some a /\ ARCOTG.ep_index a = w mod 16 /\
       (w mod 16 <> 0 -> ARCOTG.ep_is_in ep0_dir a = Z.testbit w 7 /\ FSL.get_pipe_by_ep ep0_dir a = ARCOTG.get_pipe_by_windex w)) /\
  (Z.of_nat n <= w mod 16 -> ARCOTG.get_ep_by_pipe eps (ARCOTG.get_pipe_by_windex w) = None).
Proof.
  intros Hw He Hl Hn. rewrite pipe_val by done. pose proof (Z.mod_pos_bound w 16 ltac:(lia)) as Hb. set (k := w mod 16) in *.
  unfold ARCOTG.get_ep_by_pipe. split.
  - intros Hk. destruct (decide (k = 0)) as [H0|H0].
    + assert (eps !! 0%nat = Some 0) as E0.
      { destruct (lookup_lt_is_Some_2 eps 0%nat ltac:(lia)) as [a Ha]. rewrite Ha. f_equal. by rewrite (He 0%nat a Ha). }
      exists 0. rewrite H0. destruct (Z.testbit w 7); (split; [exact E0|split; [done|intros; lia]]).
    + set (d := Z.testbit w 7). destruct (2 * k + Z.b2z d =? 1) eqn:E1; [destruct d; cbn in E1; lia|].
      destruct (lookup_lt_is_Some_2 eps (Z.to_nat (2 * k + Z.b2z d)) ltac:(destruct d; cbn; lia)) as [a Ha].
      rewrite Ha. exists a. split; [done|]. assert (Z.to_nat (2 * k + Z.b2z d) <> 1%nat) as Hp by (destruct d; cbn; lia). specialize (He _ _ Ha Hp).
      assert (a = k + 128 * Z.b2z d) as Hv.
      { rewrite He, Z2Nat.id by (destruct d; cbn; lia). replace (2 * k + Z.b2z d) with (Z.b2z d + k * 2) by lia. rewrite Z.div_add, Z.mod_add by lia.
        assert (Z.b2z d / 2 = 0) as -> by (by destruct d). assert (Z.b2z d mod 2 = Z.b2z d) as -> by (by destruct d). lia. }
      rewrite Hv. destruct (address_parts k d ep0_dir ltac:(lia)) as [Hi Hd]. split; [done|]. intros _. specialize (Hd H0).
      split; [done|]. unfold FSL.get_pipe_by_ep. change FSL.ep_index with ARCOTG.ep_index. change FSL.ep_is_in with ARCOTG.ep_is_in.
      rewrite Hi, Hd. lia.
  - intros Hk. assert ((2 * k + Z.b2z (Z.testbit w 7) =? 1) = false) as -> by (destruct (Z.testbit w 7); cbn; lia).
    apply lookup_ge_None_2. destruct (Z.testbit w 7); cbn; lia.
Qed.
Lemma pipe_finds_endpoint_witness :
  ARCOTG.get_ep_by_pipe [0; 0; 1; 129; 2; 130] (ARCOTG.get_pipe_by_windex 0x82) = Some 130 /\
  ARCOTG.get_ep_by_pipe [0; 0; 1; 129; 2; 130] (ARCOTG.get_pipe_by_windex 0x03) = None.
Proof.
  assert (eps_ok [0; 0; 1; 129; 2; 130]) as He.
  { intros [|[|[|[|[|[|p]]]]]] a Ha Hp; cbn in Ha; try (by injection Ha as <-); done. }
  split.
  - destruct (proj1 (pipe_finds_endpoint [0; 0; 1; 129; 2; 130] 3 0x82 0 ltac:(lia) He eq_refl ltac:(lia)) ltac:(by vm_compute)) as (a & Ha & _).
    rewrite Ha. by vm_compute in Ha.
  - apply (proj2 (pipe_finds_endpoint [0; 0; 1; 129; 2; 130] 3 0x03 0 ltac:(lia) He eq_refl ltac:(lia))). by vm_compute.
Defined.
