(* ===== verification/ChipIdea.v ===== *)
(** * Other headers of the same controller core (test_gadget/mv_udc.h,
    test_gadget/ci13xxx_udc.h, test_gadget/langwell_udc.h)

    The Marvell, the ChipIdea and the Intel drivers describe the core that
    the Freescale headers describe, each in its own way: masks, shifts, or C
    bit fields.  The theorems compare them. *)

From Stdlib Require Import ZArith.
From stdpp Require Import base list strings.
From S2P Require Import Prelude HwRegs FslUdc.

Module MV.
Definition VUSBHS_MAX_PORTS : Z := 8.

Definition DQH_ALIGNMENT : Z := 2048.

Definition DTD_ALIGNMENT : Z := 64.

Definition DMA_BOUNDARY : Z := 4096.

Definition mv_cap_regs : list (string * cty) :=
  [("caplength_hciversion", U32); ("hcsparams", U32); ("hccparams", U32); ("reserved", Arr 5 U32);
   ("dciversion", U32); ("dccparams", U32)].

Definition mv_op_regs : list (string * cty) :=
  [("usbcmd", U32); ("usbsts", U32); ("usbintr", U32); ("frindex", U32); ("reserved1", Arr 1 U32);
   ("deviceaddr", U32); ("eplistaddr", U32); ("ttctrl", U32); ("burstsize", U32); ("txfilltuning", U32);
   ("reserved", Arr 4 U32); ("epnak", U32); ("epnaken", U32); ("configflag", U32); ("portsc", Arr 8 U32);
   ("otgsc", U32); ("usbmode", U32); ("epsetupstat", U32); ("epprime", U32); ("epflush", U32); ("epstatus", U32);
   ("epcomplete", U32); ("epctrlx", Arr 16 U32); ("mcr", U32); ("isr", U32); ("ier", U32)].

Definition CAP : group := Grp [] [Fld "CAPLENGTH_MASK" 0xff []].

Definition DCCPARAMS : group := Grp [] [Fld "DCCPARAMS_DEN_MASK" 0x1f []].

Definition USBCMD : group := Grp []
  [Fld "USBCMD_RUN_STOP" 0x00000001 []; Fld "USBCMD_CTRL_RESET" 0x00000002 [];
   Fld "USBCMD_SETUP_TRIPWIRE_SET" 0x00002000 []; Fld "USBCMD_ATDTW_TRIPWIRE_SET" 0x00004000 []].

Definition FRAME_SIZES : list (string * Z) :=
  [("USBCMD_FRAME_SIZE_1024", 0x00000000); ("USBCMD_FRAME_SIZE_512", 0x00000004);
   ("USBCMD_FRAME_SIZE_256", 0x00000008); ("USBCMD_FRAME_SIZE_128", 0x0000000C);
   ("USBCMD_FRAME_SIZE_64", 0x00008000); ("USBCMD_FRAME_SIZE_32", 0x00008004);
   ("USBCMD_FRAME_SIZE_16", 0x00008008); ("USBCMD_FRAME_SIZE_8", 0x0000800C)].

Definition EPCTRL : group := Grp []
  [Fld "EPCTRL_TX_DATA_TOGGLE_RST" 0x00400000 []; Fld "EPCTRL_TX_EP_STALL" 0x00010000 [];
   Fld "EPCTRL_RX_EP_STALL" 0x00000001 []; Fld "EPCTRL_RX_DATA_TOGGLE_RST" 0x00000040 [];
   Fld "EPCTRL_RX_ENABLE" 0x00000080 []; Fld "EPCTRL_TX_ENABLE" 0x00800000 [];
   Fld "EPCTRL_TX_TYPE" 0x000C0000 [("EPCTRL_CONTROL", 0x00000000); ("EPCTRL_ISOCHRONOUS", 0x00040000); ("EPCTRL_BULK", 0x00080000); ("EPCTRL_INT", 0x000C0000)];
   Fld "EPCTRL_RX_TYPE" 0x0000000C []].

Definition EPCTRL_TX_ALL_MASK : Z := 0xFFFF0000.

Definition EPCTRL_RX_ALL_MASK : Z := 0x0000FFFF.

Definition EPLIST : group := Grp [] [Fld "USB_EP_LIST_ADDRESS_MASK" 0xfffff800 []].

Definition PORTSC : group := Grp []
  [Fld "PORTSCX_PORT_RESET" 0x00000100 []; Fld "PORTSCX_PORT_POWER" 0x00001000 [];
   Fld "PORTSCX_FORCE_FULL_SPEED_CONNECT" 0x01000000 []; Fld "PORTSCX_PAR_XCVR_SELECT" 0xC0000000 [];
   Fld "PORTSCX_PORT_FORCE_RESUME" 0x00000040 []; Fld "PORTSCX_PORT_SUSPEND" 0x00000080 [];
   Fld "PORTSCX_PORT_SPEED_MASK" 0x0C000000 [("PORTSCX_PORT_SPEED_FULL", 0x00000000); ("PORTSCX_PORT_SPEED_LOW", 0x04000000); ("PORTSCX_PORT_SPEED_HIGH", 0x08000000)]].

Definition PORTSCX_W1C_BITS : Z := 0x2a.

Definition MODE_values : list (string * Z) :=
  [("USBMODE_CTRL_MODE_IDLE", 0x00000000); ("USBMODE_CTRL_MODE_DEVICE", 0x00000002);
   ("USBMODE_CTRL_MODE_HOST", 0x00000003); ("USBMODE_CTRL_MODE_RSV", 0x00000001)].

Definition USBMODE : group := Grp []
  [Fld "USBMODE_SETUP_LOCK_OFF" 0x00000008 []; Fld "USBMODE_STREAM_DISABLE" 0x00000010 []].

Definition USBSTS : group := Grp []
  [Fld "USBSTS_INT" 0x00000001 []; Fld "USBSTS_ERR" 0x00000002 []; Fld "USBSTS_PORT_CHANGE" 0x00000004 [];
   Fld "USBSTS_FRM_LST_ROLL" 0x00000008 []; Fld "USBSTS_SYS_ERR" 0x00000010 []; Fld "USBSTS_IAA" 0x00000020 [];
   Fld "USBSTS_RESET" 0x00000040 []; Fld "USBSTS_SOF" 0x00000080 []; Fld "USBSTS_SUSPEND" 0x00000100 [];
   Fld "USBSTS_HC_HALTED" 0x00001000 []; Fld "USBSTS_RCL" 0x00002000 [];
   Fld "USBSTS_PERIODIC_SCHEDULE" 0x00004000 []; Fld "USBSTS_ASYNC_SCHEDULE" 0x00008000 []].

Definition USBINTR : group := Grp []
  [Fld "USBINTR_INT_EN" 0x00000001 []; Fld "USBINTR_ERR_INT_EN" 0x00000002 [];
   Fld "USBINTR_PORT_CHANGE_DETECT_EN" 0x00000004 []; Fld "USBINTR_ASYNC_ADV_AAE" 0x00000020 [];
   Fld "USBINTR_RESET_EN" 0x00000040 []; Fld "USBINTR_SOF_UFRAME_EN" 0x00000080 [];
   Fld "USBINTR_DEVICE_SUSPEND" 0x00000100 []].

Definition USBINTR_ASYNC_ADV_AAE_DISABLE : Z := 0xFFFFFFDF.

Definition DEVICEADDR : group := Grp [] [Fld "USB_DEVICE_ADDRESS_MASK" 0xfe000000 []].

Definition QH_TOKEN : group := Grp []
  [Fld "EP_QUEUE_HEAD_IOC" 0x00008000 []; Fld "EP_QUEUE_HEAD_MULTO" 0x00000C00 [];
   Fld "EP_QUEUE_HEAD_STATUS_HALT" 0x00000040 []; Fld "EP_QUEUE_HEAD_STATUS_ACTIVE" 0x00000080 []].

Definition EP_MAX_LENGTH_TRANSFER : Z := 0x4000.

Definition EP_QUEUE_HEAD_MAX_PKT_LEN (ep_info : Z) : Z := Z.land (Z.shiftr ep_info 16) 0x07ff.

Definition mv_dqh : list (string * cty) :=
  [("max_packet_length", U32); ("curr_dtd_ptr", U32); ("next_dtd_ptr", U32); ("size_ioc_int_sts", U32);
   ("buff_ptr0", U32); ("buff_ptr1", U32); ("buff_ptr2", U32); ("buff_ptr3", U32); ("buff_ptr4", U32);
   ("reserved1", U32); ("setup_buffer", Arr 8 U8); ("reserved2", Arr 4 U32)].

Definition DTD_TOKEN : group := Grp []
  [Fld "DTD_IOC" 0x00008000 []; Fld "DTD_STATUS_ACTIVE" 0x00000080 []; Fld "DTD_STATUS_HALTED" 0x00000040 [];
   Fld "DTD_STATUS_DATA_BUFF_ERR" 0x00000020 []; Fld "DTD_STATUS_TRANSACTION_ERR" 0x00000008 []].

Definition DTD_NEXT_TERMINATE : Z := 0x00000001.

Definition DTD_RESERVED_FIELDS : Z := 0x00007F00.

Definition DTD_ERROR_MASK : Z := 0x68.

Definition DTD_ADDR_MASK : Z := 0xFFFFFFE0.

Definition DTD_PACKET_SIZE : Z := 0x7FFF0000.

Definition DTD_LENGTH_BIT_POS : Z := 16.

Definition mv_dtd : list (string * cty) :=
  [("dtd_next", U32); ("size_ioc_sts", U32); ("buff_ptr0", U32); ("buff_ptr1", U32); ("buff_ptr2", U32);
   ("buff_ptr3", U32); ("buff_ptr4", U32); ("scratch_ptr", U32); ("td_dma", Dma); ("next_dtd_virt", Ptr)].

Definition USBCMD_SETUP_TRIPWIRE_CLEAR : Z := Z.lnot 0x00002000.

Definition USBCMD_ATDTW_TRIPWIRE_CLEAR : Z := Z.lnot 0x00004000.

Definition registers : list group :=
  [CAP; DCCPARAMS; USBCMD; EPCTRL; EPLIST; PORTSC; USBMODE; USBSTS; USBINTR; DEVICEADDR; QH_TOKEN; DTD_TOKEN].
End MV.

Module CI13XXX.
Definition ci13xxx_td : list (string * cty) := [("next", U32); ("token", U32); ("page", Arr 5 U32)].

(** The transfer descriptor is seven words, the setup packet eight bytes. *)
Definition ci13xxx_qh : list (string * cty) :=
  [("cap", U32); ("curr", U32); ("td", Arr 7 U32); ("RESERVED", U32); ("setup", Arr 8 U8)].

Definition TD_ADDR_MASK : Z := Z.shiftl 0xFFFFFFE 5.

Definition TD_TERMINATE : Z := bit 0.

Definition CI13XXX_PAGE_SIZE : Z := 4096.

Definition ENDPT_MAX : Z := 32.

Definition TD_TOKEN : group := Grp []
  [Fld "TD_STATUS" (Z.shiftl 0x00FF 0) [("TD_STATUS_TR_ERR", bit 3); ("TD_STATUS_DT_ERR", bit 5); ("TD_STATUS_HALTED", bit 6); ("TD_STATUS_ACTIVE", bit 7)];
   Fld "TD_MULTO" (Z.shiftl 0x0003 10) []; Fld "TD_IOC" (bit 15) [];
   Fld "TD_TOTAL_BYTES" (Z.shiftl 0x7FFF 16) []].

Definition TD_PAGE : list (string * Z) :=
  [("TD_CURR_OFFSET", Z.shiftl 0x0FFF 0); ("TD_FRAME_NUM", Z.shiftl 0x07FF 0);
   ("TD_RESERVED_MASK", Z.shiftl 0x0FFF 0)].

Definition QH_CAP : group := Grp []
  [Fld "QH_IOS" (bit 15) []; Fld "QH_MAX_PKT" (Z.shiftl 0x07FF 16) []; Fld "QH_ZLT" (bit 29) [];
   Fld "QH_MULT" (Z.shiftl 0x0003 30) []].

Definition DCCPARAMS : group := Grp [] [Fld "DCCPARAMS_DEN" (Z.shiftl 0x1F 0) []; Fld "DCCPARAMS_DC" (bit 7) []].

Definition USBCMD : group := Grp []
  [Fld "USBCMD_RS" (bit 0) []; Fld "USBCMD_RST" (bit 1) []; Fld "USBCMD_SUTW" (bit 13) [];
   Fld "USBCMD_ATDTW" (bit 14) []].

Definition USBi : group := Grp []
  [Fld "USBi_UI" (bit 0) []; Fld "USBi_UEI" (bit 1) []; Fld "USBi_PCI" (bit 2) []; Fld "USBi_URI" (bit 6) [];
   Fld "USBi_SLI" (bit 8) []].

Definition DEVICEADDR : group := Grp []
  [Fld "DEVICEADDR_USBADRA" (bit 24) []; Fld "DEVICEADDR_USBADR" (Z.shiftl 0x7F 25) []].

Definition PORTSC : group := Grp []
  [Fld "PORTSC_FPR" (bit 6) []; Fld "PORTSC_SUSP" (bit 7) []; Fld "PORTSC_HSP" (bit 9) [];
   Fld "PORTSC_PTC" (Z.shiftl 0x0F 16) []].

Definition DEVLC : group := Grp [] [Fld "DEVLC_PSPD" (Z.shiftl 0x03 25) [("DEVLC_PSPD_HS", Z.shiftl 0x02 25)]].

Definition USBMODE : group := Grp []
  [Fld "USBMODE_CM" (Z.shiftl 0x03 0) [("USBMODE_CM_IDLE", Z.shiftl 0x00 0); ("USBMODE_CM_DEVICE", Z.shiftl 0x02 0); ("USBMODE_CM_HOST", Z.shiftl 0x03 0)];
   Fld "USBMODE_SLOM" (bit 3) []; Fld "USBMODE_SDIS" (bit 4) []].

Definition ENDPTCTRL : group := Grp []
  [Fld "ENDPTCTRL_RXS" (bit 0) []; Fld "ENDPTCTRL_RXT" (Z.shiftl 0x03 2) []; Fld "ENDPTCTRL_RXR" (bit 6) [];
   Fld "ENDPTCTRL_RXE" (bit 7) []; Fld "ENDPTCTRL_TXS" (bit 16) []; Fld "ENDPTCTRL_TXT" (Z.shiftl 0x03 18) [];
   Fld "ENDPTCTRL_TXR" (bit 22) []; Fld "ENDPTCTRL_TXE" (bit 23) []].

Definition FLAGS : list (string * Z) :=
  [("CI13XXX_REGS_SHARED", bit 0); ("CI13XXX_REQUIRE_TRANSCEIVER", bit 1); ("CI13XXX_PULLUP_ON_VBUS", bit 2);
   ("CI13XXX_DISABLE_STREAMING", bit 3)].

Definition registers : list group :=
  [TD_TOKEN; QH_CAP; DCCPARAMS; USBCMD; USBi; DEVICEADDR; PORTSC; DEVLC; USBMODE; ENDPTCTRL].
End CI13XXX.

Module LANGWELL.
(** The bit fields of the second word of a descriptor. *)
Definition dtd_token : list (string * Z) :=
  [("dtd_status", 8); ("dtd_res0", 2); ("dtd_multo", 2); ("dtd_res1", 3); ("dtd_ioc", 1); ("dtd_total", 15);
   ("dtd_res2", 1)].

(** The bit fields of the first word of a queue head. *)
Definition dqh_cap : list (string * Z) :=
  [("dqh_res0", 15); ("dqh_ios", 1); ("dqh_mpl", 11); ("dqh_res1", 2); ("dqh_zlt", 1); ("dqh_mult", 2)].

Definition DTD_NEXT (d : Z) : Z := Z.land (Z.shiftr d 5) 0x7ffffff.

Definition DTD_STATUS (d : Z) : Z := Z.land (Z.shiftr d 0) 0xff.

Definition DTD_TOTAL (d : Z) : Z := Z.land (Z.shiftr d 16) 0x7fff.

Definition DTD_BUFFER (d : Z) : Z := Z.land (Z.shiftr d 12) 0x3ff.

Definition DTD_C_OFFSET (d : Z) : Z := Z.land (Z.shiftr d 0) 0xfff.

Definition DTD_FRAME (d : Z) : Z := Z.land (Z.shiftr d 0) 0x7ff.

Definition DQH_C_DTD (e : Z) : Z := Z.land (Z.shiftr e 5) 0x7ffffff.

Definition DTD_STS : list (string * Z) :=
  [("DTD_STS_ACTIVE", bit 7); ("DTD_STS_HALTED", bit 6); ("DTD_STS_DBE", bit 5); ("DTD_STS_TRE", bit 3)].

Definition DTD_NEXT_MASK : Z := Z.shiftl 0x7ffffff 5.

Definition DTD_TERM : Z := bit 0.

Definition DTD_IOC : Z := bit 15.

Definition DTD_MAX_TRANSFER_LENGTH : Z := 0x4000.

Definition DTD_OFFSET_MASK : Z := 0xfff.

Definition DQH_IOS : Z := bit 15.

Definition DQH_MPL : Z := Z.shiftl 0x7ff 16.

Definition DQH_ZLT : Z := bit 29.

Definition DTD_MULTO : Z := Z.lor (bit 11) (bit 10).

Definition DQH_MULT : Z := Z.lor (bit 30) (bit 31).

(** The structures, the words of bit fields as such. *)
Definition langwell_dtd : list (string * cty) :=
  [("dtd_next", U32); ("dtd_token", U32); ("dtd_buf", Arr 5 U32); ("dtd_dma", Dma); ("next_dtd_virt", Ptr)].

Definition langwell_dqh : list (string * cty) :=
  [("dqh_cap", U32); ("dqh_current", U32); ("dtd_next", U32); ("dtd_token", U32); ("dtd_buf", Arr 5 U32); ("dqh_res2", U32);
   ("dqh_setup", Arr 8 U8)].
End LANGWELL.

Lemma core_registers_ok : table_ok 32 (MV.registers ++ CI13XXX.registers) = true.
Proof. by vm_compute. Qed.

(** property: setting a named value in a field of any register of the two
    headers leaves it in the field, and the other fields as they were. *)
Theorem core_set_value g i f s v old :
  g ∈ MV.registers ++ CI13XXX.registers -> g_fields g !! i = Some f -> (s, v) ∈ f_values f ->
  Z.land (set_bits old (f_mask f) v) (f_mask f) = v /\
  forall j f', g_fields g !! j = Some f' -> j <> i ->
    Z.land (set_bits old (f_mask f) v) (f_mask f') = Z.land old (f_mask f').
Proof. apply (table_set_value 32), core_registers_ok. Qed.
Lemma core_set_value_witness : Z.land (set_bits 0x00CC0080 0x000C0000 0x00080000) 0x000C0000 = 0x00080000.
Proof.
  refine (proj1 (core_set_value MV.EPCTRL 6 (Fld "EPCTRL_TX_TYPE" 0x000C0000 [("EPCTRL_CONTROL", 0x00000000);
    ("EPCTRL_ISOCHRONOUS", 0x00040000); ("EPCTRL_BULK", 0x00080000); ("EPCTRL_INT", 0x000C0000)]) "EPCTRL_BULK" 0x00080000 0x00CC0080 _ _ _)).
  - apply list_elem_of_lookup. by exists 3%nat.
  - done.
  - apply list_elem_of_lookup. by exists 2%nat.
Defined.

(** ** Registers *)

(** The registers of the Marvell header with their names in the others. *)
Definition op_names : list (string * string) :=
  [("usbcmd", "usbcmd"); ("usbsts", "usbsts"); ("usbintr", "usbintr"); ("frindex", "frindex"); ("deviceaddr", "deviceaddr");
   ("eplistaddr", "endpointlistaddr"); ("burstsize", "burstsize"); ("txfilltuning", "txttfilltuning"); ("configflag", "configflag");
   ("portsc", "portsc1"); ("otgsc", "otgsc"); ("usbmode", "usbmode"); ("epsetupstat", "endptsetupstat"); ("epprime", "endpointprime");
   ("epflush", "endptflush"); ("epstatus", "endptstatus"); ("epcomplete", "endptcomplete"); ("epctrlx", "endptctrl")].
Definition cap_names : list (string * string) :=
  [("caplength_hciversion", "caplength"); ("hcsparams", "hcsparams"); ("hccparams", "hccparams"); ("dciversion", "dciversion");
   ("dccparams", "dccparams")].
Definition same_place (PTR DMA : Z) (base : Z) (s : list (string * cty)) (n : string * string) : bool :=
  match offsetof PTR DMA s n.1, offsetof PTR DMA FSL.usb_dr_device n.2 with Some a, Some b => base + a =? b | _, _ => false end.

(** property: the two structures of the Marvell header, at the bases of the
    capability and of the operation registers, have every register where the
    Freescale structure has it. *)
Theorem mv_registers_in_place PTR DMA :
  forallb (same_place PTR DMA 0x100 MV.mv_cap_regs) cap_names = true /\
  forallb (same_place PTR DMA 0x140 MV.mv_op_regs) op_names = true.
Proof. split; by vm_compute. Qed.

(** property: bits with one name mean one bit: status, interrupt, mode,
    command, address and endpoint control bits agree between the headers, and
    the bits of the port register that are cleared by writing one are its
    three change bits. *)
Theorem core_bits_agree :
  (f_mask <$> g_fields MV.USBSTS) = (f_mask <$> g_fields FSL.USBSTS) /\ MV.FRAME_SIZES.*2 = FSL.FRAME_SIZES.*2 /\
  MV.MODE_values.*2 = [0; 2; 3; 1] /\
  MV.PORTSCX_W1C_BITS = foldr Z.lor 0 [0x00000002; 0x00000008; 0x00000020] /\
  forallb (fun n => existsb (fun f => f_name f =? n)%string (g_fields FSL.PORTSC))
    ["PORTSCX_CONNECT_STATUS_CHANGE"; "PORTSCX_PORT_EN_DIS_CHANGE"; "PORTSCX_OVER_CURRENT_CHG"] = true /\
  forallb (fun f => existsb (fun f' => f_mask f =? f_mask f') (g_fields FSL.EPCTRL)) (g_fields CI13XXX.ENDPTCTRL ++ g_fields MV.EPCTRL) = true /\
  forallb (fun f => existsb (fun f' => f_mask f =? f_mask f') (g_fields FSL.USBINTR)) (g_fields CI13XXX.USBi ++ g_fields MV.USBINTR) = true /\
  Z.land MV.USBINTR_ASYNC_ADV_AAE_DISABLE 0x20 = 0 /\ Z.lor MV.USBINTR_ASYNC_ADV_AAE_DISABLE 0x20 = Z.ones 32 /\
  MV.EPCTRL_TX_ALL_MASK + MV.EPCTRL_RX_ALL_MASK = Z.ones 32.
Proof. repeat split; by vm_compute. Qed.

(** property: the two tripwires of the Marvell command register: setting one
    leaves the other and the run bit, clearing it gives back what was there
    before. *)
Theorem mv_tripwires cmd :
  0 <= cmd < 2 ^ 32 ->
  let set w := Z.lor cmd w in
  Z.land (set 0x2000) 0x4001 = Z.land cmd 0x4001 /\ Z.land (set 0x4000) 0x2001 = Z.land cmd 0x2001 /\
  (Z.land cmd 0x2000 = 0 -> Z.land (set 0x2000) MV.USBCMD_SETUP_TRIPWIRE_CLEAR = cmd) /\
  (Z.land cmd 0x4000 = 0 -> Z.land (set 0x4000) MV.USBCMD_ATDTW_TRIPWIRE_CLEAR = cmd).
Proof.
  intros _ set. unfold set, MV.USBCMD_SETUP_TRIPWIRE_CLEAR, MV.USBCMD_ATDTW_TRIPWIRE_CLEAR. rewrite !Z.land_lor_distr_l.
  split; [by rewrite Z.lor_0_r|]. split; [by rewrite Z.lor_0_r|].
  split; intros H; (rewrite Z.land_lnot_diag, Z.lor_0_r, <- Z.ldiff_land; rewrite <- (Z.lor_ldiff_and cmd) at 2; rewrite H, Z.lor_0_r; done).
Qed.
Lemma mv_tripwires_witness : Z.land (Z.lor 1 0x2000) MV.USBCMD_SETUP_TRIPWIRE_CLEAR = 1.
Proof. apply (mv_tripwires 1); done. Defined.

(** ** Descriptors *)

(** A word of C bit fields, from the lowest bit up. *)
Fixpoint bitfields (pos : Z) (l : list (string * Z)) : list pfield :=
  match l with [] => [] | (n, w) :: l => PF n (Z.shiftl (Z.ones w) pos) pos [] :: bitfields (pos + w) l end.
Lemma bitfields_ok : ptable_ok 32 [PGrp [] (bitfields 0 LANGWELL.dtd_token); PGrp [] (bitfields 0 LANGWELL.dqh_cap)] = true.
Proof. by vm_compute. Qed.
Lemma pf_get_shift f d : pf_get f d = Z.land (Z.shiftr d (p_ofs f)) (Z.shiftr (p_mask f) (p_ofs f)).
Proof. unfold pf_get. apply Z.shiftr_land. Qed.

(** property: the bit fields of the Intel structures are where its macros and
    masks have them, and are the fields of the Freescale descriptors. *)
Theorem langwell_bitfields d :
  (exists f, bitfields 0 LANGWELL.dtd_token !! 0%nat = Some f /\ p_name f = "dtd_status" /\ LANGWELL.DTD_STATUS d = pf_get f d) /\
  (exists f, bitfields 0 LANGWELL.dtd_token !! 5%nat = Some f /\ p_name f = "dtd_total" /\ LANGWELL.DTD_TOTAL d = pf_get f d /\ p_mask f = FSL.DTD_PACKET_SIZE) /\
  (p_mask <$> bitfields 0 LANGWELL.dtd_token !! 2%nat) = Some LANGWELL.DTD_MULTO /\
  (p_mask <$> bitfields 0 LANGWELL.dtd_token !! 4%nat) = Some LANGWELL.DTD_IOC /\
  (p_mask <$> bitfields 0 LANGWELL.dqh_cap !! 1%nat) = Some LANGWELL.DQH_IOS /\
  (p_mask <$> bitfields 0 LANGWELL.dqh_cap !! 2%nat) = Some LANGWELL.DQH_MPL /\
  (p_mask <$> bitfields 0 LANGWELL.dqh_cap !! 4%nat) = Some LANGWELL.DQH_ZLT /\
  (p_mask <$> bitfields 0 LANGWELL.dqh_cap !! 5%nat) = Some LANGWELL.DQH_MULT /\
  foldr Z.lor 0 (p_mask <$> filter (fun f => p_name f ∈ ["dtd_res0"; "dtd_res1"; "dtd_res2"]) (bitfields 0 LANGWELL.dtd_token)) = FSL.DTD_RESERVED_FIELDS.
Proof. repeat split; try (eexists; split; [reflexivity|]; rewrite pf_get_shift); by vm_compute. Qed.

(** property: sizes: every queue head has its setup packet at the same place
    and fits 64 bytes, the descriptors begin with the 28 bytes that the
    controller reads. *)
Theorem core_layout :
  offsetof 4 4 MV.mv_dqh "setup_buffer" = Some 40 /\ offsetof 4 4 CI13XXX.ci13xxx_qh "setup" = Some 40 /\
  offsetof 4 4 LANGWELL.langwell_dqh "dqh_setup" = Some 40 /\ offsetof 4 4 FSL.ep_queue_head "setup_buffer" = Some 40 /\
  struct_size 4 4 MV.mv_dqh = 64 /\ struct_size 4 4 CI13XXX.ci13xxx_qh = 48 /\ struct_size 4 4 LANGWELL.langwell_dqh = 48 /\
  struct_size 4 4 CI13XXX.ci13xxx_td = 28 /\ offsetof 4 4 LANGWELL.langwell_dtd "dtd_dma" = Some 28 /\ offsetof 4 4 MV.mv_dtd "td_dma" = Some 32.
Proof. by vm_compute. Qed.

(** property: pointers to descriptors, which are aligned to 32 bytes: the
    masks and macros of three of the headers keep them; that of
    ci13xxx_udc.h, whose constant is shifted one bit too far, keeps only
    those that are aligned to 64. *)
Theorem td_pointers a :
  0 <= a < 2 ^ 32 -> a mod 32 = 0 ->
  Z.land a MV.DTD_ADDR_MASK = a /\ Z.land a LANGWELL.DTD_NEXT_MASK = a /\
  Z.shiftl (LANGWELL.DTD_NEXT a) 5 = a /\ Z.shiftl (LANGWELL.DQH_C_DTD a) 5 = a /\
  (Z.land a CI13XXX.TD_ADDR_MASK = a <-> a mod 64 = 0).
Proof.
  intros Ha Hm. assert (a = Z.shiftl (a / 32) 5) as He.
  { rewrite Z.shiftl_mul_pow2 by lia. pose proof (Z.div_mod a 32). lia. }
  assert (0 <= a / 32 < 2 ^ 27) as Hd by (split; [apply Z.div_pos; lia|apply Z.div_lt_upper_bound; lia]).
  assert (Z.shiftl (LANGWELL.DTD_NEXT a) 5 = a) as Hn.
  { unfold LANGWELL.DTD_NEXT. change 0x7ffffff with (Z.ones 27). rewrite Z.land_ones, Z.shiftr_div_pow2 by lia.
    change (2 ^ 5) with 32. rewrite Z.mod_small by lia. done. }
  split; [by apply (aligned_masked 32 5)|]. split; [by apply (aligned_masked 32 5)|]. split; [done|]. split; [done|].
  assert (Z.land a CI13XXX.TD_ADDR_MASK = a - a mod 64) as Hc.
  { change CI13XXX.TD_ADDR_MASK with (Z.shiftl (Z.ones 27) 6). rewrite land_shiftl, Z.land_ones, Z.shiftr_div_pow2, Z.shiftl_mul_pow2 by lia.
    change (2 ^ 6) with 64. pose proof (Z.div_mod a 64 ltac:(lia)). rewrite Z.mod_small; [lia|].
    split; [apply Z.div_pos; lia|apply Z.div_lt_upper_bound; lia]. }
  rewrite Hc. lia.
Qed.

Lemma td_pointers_witness : Z.land 0x12345660 CI13XXX.TD_ADDR_MASK = 0x12345640 /\ Z.land 0x12345660 MV.DTD_ADDR_MASK = 0x12345660.
Proof. split; [done|]. apply (td_pointers 0x12345660); [lia|done]. Defined.

(** property: the macro that reads the page of a buffer from a descriptor
    has ten bits where the page has twenty: page and offset give back the
    address only below 4 MB. *)
Theorem langwell_buffer_cut a :
  0 <= a < 2 ^ 32 -> (Z.shiftl (LANGWELL.DTD_BUFFER a) 12 + LANGWELL.DTD_C_OFFSET a = a <-> a < 2 ^ 22).
Proof.
  intros Ha. unfold LANGWELL.DTD_BUFFER, LANGWELL.DTD_C_OFFSET. change 0x3ff with (Z.ones 10). change 0xfff with (Z.ones 12).
  rewrite Z.shiftr_0_r, !Z.land_ones, Z.shiftr_div_pow2, Z.shiftl_mul_pow2 by lia.
  pose proof (Z.div_mod a (2 ^ 12) ltac:(lia)). pose proof (Z.mod_pos_bound a (2 ^ 12) ltac:(lia)).
  pose proof (Z.div_mod (a / 2 ^ 12) (2 ^ 10) ltac:(lia)). pose proof (Z.mod_pos_bound (a / 2 ^ 12) (2 ^ 10) ltac:(lia)).
  assert (0 <= a / 2 ^ 12 / 2 ^ 10) by (apply Z.div_pos; [apply Z.div_pos|]; lia). split; intros; nia.
Qed.
Lemma langwell_buffer_cut_witness : ~ (Z.shiftl (LANGWELL.DTD_BUFFER 0x10000000) 12 + LANGWELL.DTD_C_OFFSET 0x10000000 = 0x10000000).
Proof. rewrite (langwell_buffer_cut 0x10000000) by lia. lia. Defined.

(** property: the reserved bits of the Marvell header are not those of the
    core: they have the multiplier's two bits, and lack bit 31. *)
Theorem mv_reserved_bits :
  Z.land MV.DTD_RESERVED_FIELDS 0x00000C00 = 0x00000C00 /\ Z.testbit MV.DTD_RESERVED_FIELDS 31 = false /\
  Z.lxor MV.DTD_RESERVED_FIELDS FSL.DTD_RESERVED_FIELDS = Z.lor (bit 31) 0x00000C00 /\
  MV.DTD_ERROR_MASK = FSL.DTD_ERROR_MASK /\ MV.DTD_PACKET_SIZE = FSL.DTD_PACKET_SIZE.
Proof. by vm_compute. Qed.
