(* ===== verification/Net2280.v ===== *)
(** * The NET2280 helpers (test_gadget/net2280.h)

    Inline functions that drive a PCI device controller: indexed registers,
    the response register of an endpoint, whose bits set and clear flags of
    the hardware, and the lamps of the development kit.  The bit numbers come
    from a header that is not here and the registers are hardware: both are an
    interface with laws ([Bits], [Hw]), which a small device implements. *)

From Stdlib Require Import ZArith.
From stdpp Require Import base list strings.
From S2P Require Import Prelude HwRegs.

(** ** Constants of the header *)
Definition REG_DIAG : Z := 0x0.
Definition REG_FRAME : Z := 0x02.
Definition REG_CHIPREV : Z := 0x03.
Definition REG_HS_NAK_RATE : Z := 0x0a.
Definition CHIPREV_1 : Z := 0x0100.
Definition CHIPREV_1A : Z := 0x0110.
(** Bits of the diagnostic register. *)
Definition DIAG_bits : list (string * Z) :=
  [("RETRY_COUNTER", 16); ("FORCE_PCI_SERR", 11); ("FORCE_PCI_INTERRUPT", 10); ("FORCE_USB_INTERRUPT", 9); ("FORCE_CPU_INTERRUPT", 8);
   ("ILLEGAL_BYTE_ENABLES", 5); ("FAST_TIMES", 4); ("FORCE_RECEIVE_ERROR", 2); ("FORCE_TRANSMIT_CRC_ERROR", 0)].
(** The register of an endpoint's packet size; [high]: at high speed. *)
Definition REG_EP_MAXPKT (high : bool) (num : Z) : Z := (num + 1) * 0x10 + if high then 0 else 1.

(** ** Interface *)

(** Flags of an endpoint that the response register sets and clears. *)
Inductive flag := ENDPOINT_HALT | ENDPOINT_TOGGLE | NAK_OUT_PACKETS_MODE | CONTROL_STATUS_PHASE_HANDSHAKE | NAK_OUT_PACKETS_F.
#[export] Instance flag_eq_dec : EqDecision flag.
Proof. solve_decision. Defined.
Definition flags : list flag := [ENDPOINT_HALT; ENDPOINT_TOGGLE; NAK_OUT_PACKETS_MODE; CONTROL_STATUS_PHASE_HANDSHAKE; NAK_OUT_PACKETS_F].

(** Bit numbers: [SET_...] and [CLEAR_...] of the response register, the
    status bit, and the bits of the GPIO register. *)
Class Bits := {
  SET : flag -> Z;
  CLEAR : flag -> Z;
  NAK_OUT_PACKETS : Z;
  GPIO_DATA : nat -> Z;
  GPIO_OUTPUT_ENABLE : nat -> Z;
  GPIO3_LED_SELECT : Z;
}.
(** Different names are different bits of a 32-bit register; the four data
    bits are the lowest, in order. *)
Class BitsLaws (b : Bits) : Prop := {
  rsp_bits : NoDup ((SET <$> flags) ++ (CLEAR <$> flags));
  rsp_range f : 0 <= SET f < 32 /\ 0 <= CLEAR f < 32;
  stat_range : 0 <= NAK_OUT_PACKETS < 32;
  gpio_data i : (i < 4)%nat -> GPIO_DATA i = Z.of_nat i;
  gpio_out i : (i < 4)%nat -> 4 <= GPIO_OUTPUT_ENABLE i < 32;
  gpio_led : 4 <= GPIO3_LED_SELECT < 32;
}.

(** Registers, and what the hardware keeps behind them. *)
Inductive reg := IDXADDR | IDXDATA | GPIOCTL | EP_RSP | EP_STAT | EP_CFG.
Class Hw (S : Type) := {
  readl : reg -> S -> Z;
  writel : reg -> Z -> S -> S;
  writeb : reg -> Z -> Z -> S -> S;    (** register, byte, value *)
  indexed : S -> Z -> Z;               (** the indexed registers *)
  flag_of : S -> flag -> bool;
}.
Class HwLaws (S : Type) (b : Bits) (h : Hw S) : Prop := {
  idx_addr i s : readl IDXDATA (writel IDXADDR i s) = indexed s i;
  idx_keep i s j : indexed (writel IDXADDR i s) j = indexed s j;
  idx_data i v s j : indexed (writel IDXDATA v (writel IDXADDR i s)) j = if j =? i then v else indexed s j;
  rsp_write v s f : flag_of (writel EP_RSP v s) f =
    if Z.testbit v (SET f) then true else if Z.testbit v (CLEAR f) then false else flag_of s f;
  stat_read s : Z.testbit (readl EP_STAT s) NAK_OUT_PACKETS = flag_of s NAK_OUT_PACKETS_F;
  gpio_rw v s : readl GPIOCTL (writel GPIOCTL v s) = u32 v;
  cfg_byte v s : readl EP_CFG (writeb EP_CFG 2 v s) = set_bits (readl EP_CFG s) 0x00ff0000 (Z.shiftl (u8 v) 16);
}.

(** ** Functions *)
Section Functions.
Context {S : Type} {b : Bits} {h : Hw S}.

Definition get_idx_reg (index : Z) (s : S) : Z * S := let s := writel IDXADDR index s in (readl IDXDATA s, s).
Definition set_idx_reg (index value : Z) (s : S) : S := writel IDXDATA value (writel IDXADDR index s).

(** [writel] of the bits [l] of the response register. *)
Definition bits_or (l : list Z) : Z := foldr (fun n v => Z.lor (bit n) v) 0 l.
(** [ep->stopped] beside the hardware. *)
Definition allow_status (e : S * bool) : S * bool :=
  (writel EP_RSP (bits_or [CLEAR CONTROL_STATUS_PHASE_HANDSHAKE; CLEAR NAK_OUT_PACKETS_F; CLEAR NAK_OUT_PACKETS_MODE]) e.1, true).
Definition set_fifo_bytecount (count : Z) (s : S) : S := writeb EP_CFG 2 count s.

(** [(chiprev == CHIPREV_1) << n] *)
Definition rev1 (chiprev n : Z) : Z := Z.shiftl (if chiprev =? CHIPREV_1 then 1 else 0) n.
Definition set_halt (chiprev : Z) (s : S) : S :=
  writel EP_RSP (Z.lor (Z.lor (bit (CLEAR CONTROL_STATUS_PHASE_HANDSHAKE)) (rev1 chiprev (SET NAK_OUT_PACKETS_F))) (bit (SET ENDPOINT_HALT))) s.
Definition clear_halt (chiprev : Z) (s : S) : S :=
  writel EP_RSP (Z.lor (Z.lor (bit (CLEAR ENDPOINT_HALT)) (bit (CLEAR ENDPOINT_TOGGLE))) (rev1 chiprev (CLEAR NAK_OUT_PACKETS_F))) s.

Definition net2280_led_init (s : S) : S :=
  writel GPIOCTL (bits_or (GPIO3_LED_SELECT :: (GPIO_OUTPUT_ENABLE <$> [3; 2; 1; 0]%nat))) s.
Inductive speed := USB_SPEED_HIGH | USB_SPEED_FULL | USB_SPEED_OTHER.
Definition net2280_led_speed (sp : speed) (s : S) : S :=
  let val := readl GPIOCTL s in
  let val := match sp with
    | USB_SPEED_HIGH => Z.lor (Z.land val (Z.lnot (bit (GPIO_DATA 0)))) (bit (GPIO_DATA 1))
    | USB_SPEED_FULL => Z.lor (Z.land val (Z.lnot (bit (GPIO_DATA 1)))) (bit (GPIO_DATA 0))
    | USB_SPEED_OTHER => Z.land val (Z.lnot (Z.lor (bit (GPIO_DATA 1)) (bit (GPIO_DATA 0))))
    end in
  writel GPIOCTL val s.
(** The bit number is used as a mask. *)
Definition net2280_led_active (is_active : bool) (s : S) : S :=
  let val := readl GPIOCTL s in
  writel GPIOCTL (if is_active then Z.lor val (GPIO_DATA 2) else Z.land val (Z.lnot (GPIO_DATA 2))) s.
Definition net2280_led_shutdown (s : S) : S := writel GPIOCTL (Z.land (readl GPIOCTL s) (Z.lnot 0x0f)) s.

Definition start_out_naking (s : S) : S := writel EP_RSP (bit (SET NAK_OUT_PACKETS_F)) s.
Definition assert_out_naking (s : S) : S :=
  let tmp := readl EP_STAT s in
  if Z.land tmp (bit NAK_OUT_PACKETS) =? 0 then writel EP_RSP (bit (SET NAK_OUT_PACKETS_F)) s else s.
Definition stop_out_naking (s : S) : S :=
  let tmp := readl EP_STAT s in
  if negb (Z.land tmp (bit NAK_OUT_PACKETS) =? 0) then writel EP_RSP (bit (CLEAR NAK_OUT_PACKETS_F)) s else s.
End Functions.

(** ** The response register *)
Section Spec.
Context {S : Type} {b : Bits} {h : Hw S} {LB : BitsLaws b} {LH : HwLaws S b h}.

Lemma testbit_bit n m : 0 <= n -> Z.testbit (bit n) m = (m =? n).
Proof using Type. intros Hn. unfold bit. rewrite Z.shiftl_1_l. rewrite Z.pow2_bits_eqb by done. lia. Qed.
Lemma testbit_bits_or l m : Forall (fun n => 0 <= n) l -> Z.testbit (bits_or l) m = existsb (Z.eqb m) l.
Proof using Type.
  induction 1 as [|n l Hn Hl IH]; cbn [bits_or foldr existsb]; [apply Z.bits_0|].
  rewrite Z.lor_spec, testbit_bit by done. f_equal. apply IH.
Qed.

Lemma flags_all f : f ∈ flags.
Proof using Type. destruct f; unfold flags; repeat (apply list_elem_of_here || apply list_elem_of_further). Qed.
Lemma set_ne_clear f g : (SET f =? CLEAR g) = false.
Proof using LB.
  apply Z.eqb_neq. intros H. pose proof rsp_bits as Hn. apply NoDup_app in Hn as (_ & Hd & _).
  apply (Hd (SET f)); [apply list_elem_of_fmap; exists f|rewrite H; apply list_elem_of_fmap; exists g]; by auto using flags_all.
Qed.
Lemma lookup_inj (l : flag -> Z) f g : NoDup (l <$> flags) -> l f = l g -> f = g.
Proof using Type.
  intros Hn H. destruct (list_elem_of_lookup_1 _ _ (flags_all f)) as [i Hi]. destruct (list_elem_of_lookup_1 _ _ (flags_all g)) as [j Hj].
  assert (i = j) as ->.
  { eapply (proj1 (NoDup_alt _) Hn i j (l f)); rewrite list_lookup_fmap; [by rewrite Hi|by rewrite Hj; cbn; rewrite H]. }
  congruence.
Qed.
Lemma set_eqb f g : (SET f =? SET g) = bool_decide (f = g).
Proof using LB.
  pose proof rsp_bits as Hn. apply NoDup_app in Hn as (Hs & _ & _). case_bool_decide as H; [subst; lia|].
  apply Z.eqb_neq. intros He. by apply H, (lookup_inj SET).
Qed.
Lemma clear_eqb f g : (CLEAR f =? CLEAR g) = bool_decide (f = g).
Proof using LB.
  pose proof rsp_bits as Hn. apply NoDup_app in Hn as (_ & _ & Hs). case_bool_decide as H; [subst; lia|].
  apply Z.eqb_neq. intros He. by apply H, (lookup_inj CLEAR).
Qed.
Lemma clear_ne_set f g : (CLEAR f =? SET g) = false.
Proof using LB. rewrite Z.eqb_sym. apply set_ne_clear. Qed.

(** A write of the bits that set [ss] and clear [cs]. *)
Lemma rsp_update ss cs v s f :
  (forall n, 0 <= n -> Z.testbit v n = existsb (Z.eqb n) ((SET <$> ss) ++ (CLEAR <$> cs))) ->
  flag_of (writel EP_RSP v s) f = bool_decide (f ∈ ss) || (negb (bool_decide (f ∈ cs)) && flag_of s f).
Proof using LB LH.
  intros Hv. rewrite rsp_write, !Hv by apply rsp_range. rewrite !existsb_app.
  assert (forall (k : flag -> Z) n l, existsb (Z.eqb n) (k <$> l) = existsb (fun g => n =? k g) l) as He.
  { intros k n l. induction l as [|g l IH]; [done|]. cbn. by rewrite IH. }
  rewrite !He. assert (forall l, existsb (fun g => SET f =? SET g) l = bool_decide (f ∈ l)) as H1.
  { intros l. induction l as [|g l IH]; [done|]. cbn. rewrite IH, set_eqb. rewrite <- bool_decide_or. apply bool_decide_ext. by rewrite elem_of_cons. }
  assert (forall l, existsb (fun g => CLEAR f =? CLEAR g) l = bool_decide (f ∈ l)) as H2.
  { intros l. induction l as [|g l IH]; [done|]. cbn. rewrite IH, clear_eqb. rewrite <- bool_decide_or. apply bool_decide_ext. by rewrite elem_of_cons. }
  assert (forall l, existsb (fun g => SET f =? CLEAR g) l = false) as H3 by (intros l; induction l as [|g l IH]; [done|]; cbn; by rewrite IH, set_ne_clear).
  assert (forall l, existsb (fun g => CLEAR f =? SET g) l = false) as H4 by (intros l; induction l as [|g l IH]; [done|]; cbn; by rewrite IH, clear_ne_set).
  rewrite H1, H2, H3, H4. by destruct (bool_decide (f ∈ ss)), (bool_decide (f ∈ cs)).
Qed.

Lemma rev1_test c n m : 0 <= n -> Z.testbit (rev1 c n) m = (c =? CHIPREV_1) && (m =? n).
Proof using Type.
  intros Hn. unfold rev1. destruct (c =? CHIPREV_1); [by apply testbit_bit|]. rewrite Z.shiftl_0_l. apply Z.bits_0.
Qed.
Lemma set_pos f : 0 <= SET f.
Proof using LB. apply rsp_range. Qed.
Lemma clear_pos f : 0 <= CLEAR f.
Proof using LB. apply rsp_range. Qed.

(** property: indexed registers: a value that was written is read back under
    its index, the registers of other indices keep theirs, and reading
    changes none. *)
Theorem idx_roundtrip i v s j :
  (get_idx_reg i (set_idx_reg i v s)).1 = v /\ (j <> i -> (get_idx_reg j (set_idx_reg i v s)).1 = (get_idx_reg j s).1) /\
  indexed (get_idx_reg i s).2 j = indexed s j.
Proof using LH.
  unfold get_idx_reg, set_idx_reg. cbn. rewrite !idx_addr, !idx_data, idx_keep, Z.eqb_refl.
  split; [done|]. split; [|done]. intros H. assert ((j =? i) = false) as -> by lia. done.
Qed.

(** property: the flags of an endpoint when its status stage is allowed, when
    it is halted and when the halt is cleared.  On revision 1 halting also
    refuses OUT packets (erratum 0114) and clearing undoes that; on others
    the flag is left alone. *)
Theorem halt_flags chiprev stopped s f :
  flag_of (allow_status (s, stopped)).1 f =
    match f with ENDPOINT_HALT | ENDPOINT_TOGGLE => flag_of s f | _ => false end /\
  (allow_status (s, stopped)).2 = true /\
  flag_of (set_halt chiprev s) f =
    match f with
    | ENDPOINT_HALT => true
    | CONTROL_STATUS_PHASE_HANDSHAKE => false
    | NAK_OUT_PACKETS_F => (chiprev =? CHIPREV_1) || flag_of s f
    | _ => flag_of s f
    end /\
  flag_of (clear_halt chiprev s) f =
    match f with
    | ENDPOINT_HALT | ENDPOINT_TOGGLE => false
    | NAK_OUT_PACKETS_F => negb (chiprev =? CHIPREV_1) && flag_of s f
    | _ => flag_of s f
    end.
Proof using LB LH.
  split; [|split; [done|split]].
  - unfold allow_status. cbn [fst].
    rewrite (rsp_update [] [CONTROL_STATUS_PHASE_HANDSHAKE; NAK_OUT_PACKETS_F; NAK_OUT_PACKETS_MODE]); [by destruct f|].
    intros m Hm. rewrite testbit_bits_or by (repeat constructor; apply clear_pos). done.
  - unfold set_halt.
    rewrite (rsp_update (ENDPOINT_HALT :: if chiprev =? CHIPREV_1 then [NAK_OUT_PACKETS_F] else []) [CONTROL_STATUS_PHASE_HANDSHAKE]).
    + by destruct f, (chiprev =? CHIPREV_1).
    + intros m Hm. rewrite !Z.lor_spec, rev1_test, !testbit_bit by auto using set_pos, clear_pos.
      destruct (chiprev =? CHIPREV_1); cbn; destruct (m =? SET ENDPOINT_HALT), (m =? CLEAR _), (m =? SET NAK_OUT_PACKETS_F); done.
  - unfold clear_halt.
    rewrite (rsp_update [] (ENDPOINT_HALT :: ENDPOINT_TOGGLE :: if chiprev =? CHIPREV_1 then [NAK_OUT_PACKETS_F] else [])).
    + by destruct f, (chiprev =? CHIPREV_1).
    + intros m Hm. rewrite !Z.lor_spec, rev1_test, !testbit_bit by auto using set_pos, clear_pos.
      destruct (chiprev =? CHIPREV_1); cbn; rewrite ?orb_false_r, ?orb_assoc; done.
Qed.

Lemma stat_test s : (Z.land (readl EP_STAT s) (bit NAK_OUT_PACKETS) =? 0) = negb (flag_of s NAK_OUT_PACKETS_F).
Proof using LB LH.
  pose proof stat_range. rewrite <- stat_read, <- truthy_land_pow by lia. unfold truthy. rewrite negb_involutive.
  unfold bit. by rewrite Z.shiftl_1_l.
Qed.
Lemma start_flag s f : flag_of (start_out_naking s) f = bool_decide (f = NAK_OUT_PACKETS_F) || flag_of s f.
Proof using LB LH.
  unfold start_out_naking. rewrite (rsp_update [NAK_OUT_PACKETS_F] []); [by destruct f|].
  intros m Hm. rewrite testbit_bit by apply set_pos. cbn. by rewrite orb_false_r.
Qed.

(** property: refusing OUT packets: after [start_out_naking] and
    [assert_out_naking] the endpoint refuses them, after [stop_out_naking] it
    takes them, and no function changes another flag; one that finds what it
    wants writes nothing. *)
Theorem naking s f :
  flag_of (start_out_naking s) f = bool_decide (f = NAK_OUT_PACKETS_F) || flag_of s f /\
  flag_of (assert_out_naking s) f = bool_decide (f = NAK_OUT_PACKETS_F) || flag_of s f /\
  flag_of (stop_out_naking s) f = negb (bool_decide (f = NAK_OUT_PACKETS_F)) && flag_of s f /\
  (flag_of s NAK_OUT_PACKETS_F = true -> assert_out_naking s = s) /\ (flag_of s NAK_OUT_PACKETS_F = false -> stop_out_naking s = s).
Proof using LB LH.
  unfold assert_out_naking, stop_out_naking. rewrite stat_test, negb_involutive.
  split; [apply start_flag|]. destruct (flag_of s NAK_OUT_PACKETS_F) eqn:E; cbn [negb].
  - split; [by case_bool_decide; subst|]. split; [|done].
    rewrite (rsp_update [] [NAK_OUT_PACKETS_F]); [by destruct f|].
    intros m Hm. rewrite testbit_bit by apply clear_pos. cbn. by rewrite orb_false_r.
  - split; [apply start_flag|]. split; [|done]. by case_bool_decide; subst.
Qed.

(** ** Lamps *)
Lemma gpio_bit v s n : 0 <= n < 32 -> Z.testbit (readl GPIOCTL (writel GPIOCTL v s)) n = Z.testbit v n.
Proof using LH. intros. rewrite gpio_rw. unfold u32, wrap. apply Z.mod_pow2_bits_low. lia. Qed.

(** property: the lamps: the two-colour lamp shows the speed - green, red or
    dark, never both - and shutdown puts out all four; every other bit of the
    register stays. *)
Theorem lamps sp s n :
  0 <= n < 32 ->
  Z.testbit (readl GPIOCTL (net2280_led_speed sp s)) n =
    (if n =? 0 then match sp with USB_SPEED_FULL => true | _ => false end
     else if n =? 1 then match sp with USB_SPEED_HIGH => true | _ => false end
     else Z.testbit (readl GPIOCTL s) n) /\
  Z.testbit (readl GPIOCTL (net2280_led_shutdown s)) n = (4 <=? n) && Z.testbit (readl GPIOCTL s) n.
Proof using LB LH.
  intros Hn. unfold net2280_led_speed, net2280_led_shutdown. rewrite !gpio_bit by done. rewrite !gpio_data by lia. split.
  - change (Z.of_nat 0) with 0. change (Z.of_nat 1) with 1.
    destruct sp; rewrite ?Z.lor_spec, Z.land_spec, Z.lnot_spec, ?Z.lor_spec, !testbit_bit by lia;
      destruct (n =? 0) eqn:E0, (n =? 1) eqn:E1; try lia; cbn; rewrite ?andb_true_r, ?andb_false_r, ?orb_false_r; done.
  - rewrite Z.land_spec, Z.lnot_spec by lia. change 0x0f with (Z.ones 4). destruct (4 <=? n) eqn:E.
    + rewrite Z.ones_spec_high by lia. apply andb_true_r.
    + rewrite Z.ones_spec_low by lia. apply andb_false_r.
Qed.

(** property: the power lamp never changes: [net2280_led_active] takes the
    number of its bit for a mask and switches the green half of the speed lamp
    instead. *)
Theorem led_active_wrong on s n :
  0 <= n < 32 ->
  Z.testbit (readl GPIOCTL (net2280_led_active on s)) n = (if n =? GPIO_DATA 1 then on else Z.testbit (readl GPIOCTL s) n) /\
  Z.testbit (readl GPIOCTL (net2280_led_active on s)) (GPIO_DATA 2) = Z.testbit (readl GPIOCTL s) (GPIO_DATA 2).
Proof using LB LH.
  assert (forall n, 0 <= n < 32 -> Z.testbit (readl GPIOCTL (net2280_led_active on s)) n = if n =? 1 then on else Z.testbit (readl GPIOCTL s) n) as H.
  { intros m Hm. unfold net2280_led_active. rewrite gpio_bit by done. rewrite gpio_data by lia. change (Z.of_nat 2) with (2 ^ 1).
    destruct on; rewrite ?Z.lor_spec, ?Z.land_spec, ?Z.lnot_spec, Z.pow2_bits_eqb by lia; rewrite (Z.eqb_sym 1 m); destruct (m =? 1);
      cbn; rewrite ?orb_true_r, ?orb_false_r, ?andb_true_r, ?andb_false_r; done. }
  intros Hn. rewrite (gpio_data 1), (gpio_data 2) by lia. split; [by apply H|]. by rewrite H.
Qed.

(** property: the number of valid bytes of the next word goes to its byte of
    the configuration register; the other bits stay. *)
Theorem fifo_bytecount count s :
  0 <= count <= 4 ->
  Z.land (Z.shiftr (readl EP_CFG (set_fifo_bytecount count s)) 16) 0xff = count /\
  Z.land (readl EP_CFG (set_fifo_bytecount count s)) (Z.lnot 0x00ff0000) = Z.land (readl EP_CFG s) (Z.lnot 0x00ff0000).
Proof using LH.
  intros Hc. unfold set_fifo_bytecount. rewrite cfg_byte. assert (within (Z.shiftl (u8 count) 16) 0x00ff0000 = true) as Hw.
  { unfold within. change 0x00ff0000 with (Z.shiftl (Z.ones 8) 16). rewrite <- Z.shiftl_land, Z.land_ones by lia.
    rewrite u8_small, Z.mod_small by lia. apply Z.eqb_refl. }
  split.
  - change 0xff with (Z.shiftr 0x00ff0000 16). rewrite <- Z.shiftr_land, set_bits_field by done.
    rewrite Z.shiftr_shiftl_l, u8_small by lia. by rewrite Z.shiftl_0_r.
  - apply set_bits_other; [done|]. unfold apart. by rewrite Z.land_comm, Z.land_lnot_diag.
Qed.

(** property: every endpoint has its own packet size register at each speed. *)
Theorem maxpkt_registers num num' hi hi' :
  0 <= num -> 0 <= num' -> REG_EP_MAXPKT hi num = REG_EP_MAXPKT hi' num' -> num = num' /\ hi = hi'.
Proof using Type. unfold REG_EP_MAXPKT. intros ? ?. destruct hi, hi'; intros; split; (done || lia). Qed.
End Spec.

(** ** A device *)
Record chip := Chip { c_addr : Z; c_idx : Z -> Z; c_gpio : Z; c_flags : flag -> bool; c_cfg : Z }.
Definition number (f : flag) : Z :=
  match f with ENDPOINT_HALT => 0 | ENDPOINT_TOGGLE => 1 | NAK_OUT_PACKETS_MODE => 2 | CONTROL_STATUS_PHASE_HANDSHAKE => 3 | NAK_OUT_PACKETS_F => 7 end.
#[local] Instance chip_bits : Bits := {
  SET f := number f + 8; CLEAR f := number f; NAK_OUT_PACKETS := 4;
  GPIO_DATA i := Z.of_nat i; GPIO_OUTPUT_ENABLE i := 4 + Z.of_nat i; GPIO3_LED_SELECT := 12;
}.
#[local] Instance chip_bits_laws : BitsLaws chip_bits.
Proof.
  split; cbn.
  - refine (bool_decide_eq_true_1 (NoDup _) _). by vm_compute.
  - intros f. by destruct f.
  - lia.
  - done.
  - intros. lia.
  - lia.
Qed.
#[local] Instance chip_hw : Hw chip := {
  readl r c := match r with
    | IDXADDR => c_addr c | IDXDATA => c_idx c (c_addr c) | GPIOCTL => c_gpio c | EP_CFG => c_cfg c
    | EP_STAT => if c_flags c NAK_OUT_PACKETS_F then bit 4 else 0 | EP_RSP => 0 end;
  writel r v c := match r with
    | IDXADDR => Chip v (c_idx c) (c_gpio c) (c_flags c) (c_cfg c)
    | IDXDATA => Chip (c_addr c) (fun j => if j =? c_addr c then v else c_idx c j) (c_gpio c) (c_flags c) (c_cfg c)
    | GPIOCTL => Chip (c_addr c) (c_idx c) (u32 v) (c_flags c) (c_cfg c)
    | EP_RSP => Chip (c_addr c) (c_idx c) (c_gpio c)
        (fun f => if Z.testbit v (number f + 8) then true else if Z.testbit v (number f) then false else c_flags c f) (c_cfg c)
    | EP_CFG => Chip (c_addr c) (c_idx c) (c_gpio c) (c_flags c) (u32 v)
    | EP_STAT => c end;
  writeb r k v c := match r with
    | EP_CFG => Chip (c_addr c) (c_idx c) (c_gpio c) (c_flags c) (set_bits (c_cfg c) (Z.shiftl 0xff (8 * k)) (Z.shiftl (u8 v) (8 * k)))
    | _ => c end;
  indexed c := c_idx c;
  flag_of c := c_flags c;
}.
#[local] Instance chip_hw_laws : HwLaws chip chip_bits chip_hw.
Proof. split; try done. intros s. cbn. by destruct (c_flags s NAK_OUT_PACKETS_F). Qed.
Definition chip0 : chip := Chip 0 (fun _ => 0) 0xf00 (fun _ => false) 0.

Lemma lamps_witness : Z.testbit (readl GPIOCTL (net2280_led_speed USB_SPEED_HIGH chip0)) 1 = true.
Proof. exact (proj1 (lamps USB_SPEED_HIGH chip0 1 ltac:(lia))). Defined.
Lemma led_active_wrong_witness :
  Z.testbit (readl GPIOCTL (net2280_led_active true chip0)) 1 = true /\ Z.testbit (readl GPIOCTL (net2280_led_active true chip0)) 2 = false.
Proof.
  split; [exact (proj1 (led_active_wrong true chip0 1 ltac:(lia)))|exact (proj2 (led_active_wrong true chip0 1 ltac:(lia)))].
Defined.
Lemma fifo_bytecount_witness : Z.land (Z.shiftr (readl EP_CFG (set_fifo_bytecount 3 chip0)) 16) 0xff = 3.
Proof. exact (proj1 (fifo_bytecount 3 chip0 ltac:(lia))). Defined.
Lemma maxpkt_registers_witness : 2 = 2 /\ true = true.
Proof. apply (maxpkt_registers 2 2 true true); (lia || done). Defined.
Lemma halt_flags_witness : flag_of (set_halt CHIPREV_1 chip0) NAK_OUT_PACKETS_F = true /\ flag_of (clear_halt CHIPREV_1 (set_halt CHIPREV_1 chip0)) NAK_OUT_PACKETS_F = false.
Proof.
  split; [exact (proj1 (proj2 (proj2 (halt_flags CHIPREV_1 false chip0 NAK_OUT_PACKETS_F))))|].
  exact (proj2 (proj2 (proj2 (halt_flags CHIPREV_1 false (set_halt CHIPREV_1 chip0) NAK_OUT_PACKETS_F)))).
Defined.
Lemma naking_witness : flag_of (stop_out_naking (start_out_naking chip0)) NAK_OUT_PACKETS_F = false.
Proof. exact (proj1 (proj2 (proj2 (naking (start_out_naking chip0) NAK_OUT_PACKETS_F)))). Defined.
Lemma idx_roundtrip_witness : (get_idx_reg 3 (set_idx_reg 3 0x1234 chip0)).1 = 0x1234.
Proof. exact (proj1 (idx_roundtrip 3 0x1234 chip0 5)). Defined.
