(* ===== verification/AtmelUsba.v ===== *)
(** * The Atmel USBA controller (test_gadget/atmel_usba_udc.h)

    Registers whose fields are named by position and size, and the macros that
    build, extract and insert fields by these names. *)

From Stdlib Require Import ZArith.
From stdpp Require Import base list strings.
From S2P Require Import Prelude HwRegs.

(** A field of [size] bits at [offset]. *)
Definition BF (name : string) (offset size : Z) (values : list (string * Z)) : pfield :=
  PF name (Z.shiftl (Z.ones size) offset) offset values.

Module USBA.
(** Register offsets: of the device, of an endpoint, of a DMA channel. *)
Definition REGS : list (string * Z) :=
  [("USBA_CTRL", 0x0000); ("USBA_FNUM", 0x0004); ("USBA_INT_ENB", 0x0010); ("USBA_INT_STA", 0x0014);
   ("USBA_INT_CLR", 0x0018); ("USBA_EPT_RST", 0x001c); ("USBA_TST", 0x00e0)].

Definition EPT_REGS : list (string * Z) :=
  [("USBA_EPT_CFG", 0x0000); ("USBA_EPT_CTL_ENB", 0x0004); ("USBA_EPT_CTL_DIS", 0x0008); ("USBA_EPT_CTL", 0x000c);
   ("USBA_EPT_SET_STA", 0x0014); ("USBA_EPT_CLR_STA", 0x0018); ("USBA_EPT_STA", 0x001c)].

Definition DMA_REGS : list (string * Z) :=
  [("USBA_DMA_NXT_DSC", 0x0000); ("USBA_DMA_ADDRESS", 0x0004); ("USBA_DMA_CONTROL", 0x0008);
   ("USBA_DMA_STATUS", 0x000c)].

Definition SPEED_CFG_values : list (string * Z) :=
  [("USBA_SPEED_CFG_NORMAL", 0); ("USBA_SPEED_CFG_FORCE_HIGH", 2); ("USBA_SPEED_CFG_FORCE_FULL", 3)].

Definition EPT_SIZE_values : list (string * Z) :=
  [("USBA_EPT_SIZE_8", 0); ("USBA_EPT_SIZE_16", 1); ("USBA_EPT_SIZE_32", 2); ("USBA_EPT_SIZE_64", 3);
   ("USBA_EPT_SIZE_128", 4); ("USBA_EPT_SIZE_256", 5); ("USBA_EPT_SIZE_512", 6); ("USBA_EPT_SIZE_1024", 7)].

Definition EPT_TYPE_values : list (string * Z) :=
  [("USBA_EPT_TYPE_CONTROL", 0); ("USBA_EPT_TYPE_ISO", 1); ("USBA_EPT_TYPE_BULK", 2); ("USBA_EPT_TYPE_INT", 3)].

Definition BK_NUMBER_values : list (string * Z) :=
  [("USBA_BK_NUMBER_ZERO", 0); ("USBA_BK_NUMBER_ONE", 1); ("USBA_BK_NUMBER_DOUBLE", 2);
   ("USBA_BK_NUMBER_TRIPLE", 3)].

(** The fields of the registers. *)
Definition CTRL : pgroup := PGrp [("USBA_CTRL", 0x0000)]
  [BF "USBA_DEV_ADDR" 0 7 []; B "USBA_FADDR_EN" 7; B "USBA_EN_USBA" 8; B "USBA_DETACH" 9;
   B "USBA_REMOTE_WAKE_UP" 10; B "USBA_PULLD_DIS" 11].

Definition FNUM : pgroup := PGrp [("USBA_FNUM", 0x0004)]
  [BF "USBA_MICRO_FRAME_NUM" 0 3 []; BF "USBA_FRAME_NUMBER" 3 11 []; B "USBA_FRAME_NUM_ERROR" 31].

Definition INT : pgroup := PGrp [("USBA_INT_ENB", 0x0010); ("USBA_INT_STA", 0x0014); ("USBA_INT_CLR", 0x0018)]
  [B "USBA_HIGH_SPEED" 0; B "USBA_DET_SUSPEND" 1; B "USBA_MICRO_SOF" 2; B "USBA_SOF" 3; B "USBA_END_OF_RESET" 4;
   B "USBA_WAKE_UP" 5; B "USBA_END_OF_RESUME" 6; B "USBA_UPSTREAM_RESUME" 7; BF "USBA_EPT_INT" 8 16 [];
   BF "USBA_DMA_INT" 24 8 []].

Definition EPT_RST : pgroup := PGrp [("USBA_EPT_RST", 0x001c)] [BF "USBA_RST" 0 16 []].

Definition TST : pgroup := PGrp [("USBA_TST", 0x00e0)]
  [BF "USBA_SPEED_CFG" 0 2 SPEED_CFG_values; B "USBA_TST_J_MODE" 2; B "USBA_TST_K_MODE" 3;
   B "USBA_TST_PKT_MODE" 4; B "USBA_OPMODE2" 5].

Definition EPT_CFG : pgroup := PGrp [("USBA_EPT_CFG", 0x0000)]
  [BF "USBA_EPT_SIZE" 0 3 EPT_SIZE_values; B "USBA_EPT_DIR_IN" 3; BF "USBA_EPT_TYPE" 4 2 EPT_TYPE_values;
   BF "USBA_BK_NUMBER" 6 2 BK_NUMBER_values; BF "USBA_NB_TRANS" 8 2 []; B "USBA_EPT_MAPPED" 31].

Definition EPT_CTL : pgroup := PGrp [("USBA_EPT_CTL", 0x000c); ("USBA_EPT_CTL_ENB", 0x0004); ("USBA_EPT_CTL_DIS", 0x0008)]
  [B "USBA_EPT_ENABLE" 0; B "USBA_AUTO_VALID" 1; B "USBA_INTDIS_DMA" 3; B "USBA_NYET_DIS" 4; B "USBA_DATAX_RX" 6;
   B "USBA_MDATA_RX" 7; B "USBA_BUSY_BANK_IE" 18].

Definition EPT_STA : pgroup := PGrp [("USBA_EPT_STA", 0x001c)]
  [B "USBA_FORCE_STALL" 5; BF "USBA_TOGGLE_SEQ" 6 2 []; B "USBA_ERR_OVFLW" 8; B "USBA_RX_BK_RDY" 9;
   B "USBA_TX_COMPLETE" 10; B "USBA_TX_PK_RDY" 11; B "USBA_RX_SETUP" 12; B "USBA_STALL_SENT" 13;
   B "USBA_NAK_IN" 14; B "USBA_NAK_OUT" 15; BF "USBA_CURRENT_BANK" 16 2 []; BF "USBA_BUSY_BANKS" 18 2 [];
   BF "USBA_BYTE_COUNT" 20 11 []; B "USBA_SHORT_PACKET" 31].

(** The other meanings of its bits: when written, and for isochronous endpoints. *)
Definition EPT_STA_alias : list (string * Z) :=
  [("USBA_TOGGLE_CLR", bit 6); ("USBA_KILL_BANK", bit 9); ("USBA_ISO_ERR_TRANS", bit 11);
   ("USBA_ISO_ERR_FLOW", bit 12); ("USBA_ISO_ERR_CRC", bit 13); ("USBA_ISO_ERR_NBTRANS", bit 13);
   ("USBA_ISO_ERR_FLUSH", bit 14)].

Definition DMA_CONTROL : pgroup := PGrp [("USBA_DMA_CONTROL", 0x0008)]
  [B "USBA_DMA_CH_EN" 0; B "USBA_DMA_LINK" 1; B "USBA_DMA_END_TR_EN" 2; B "USBA_DMA_END_BUF_EN" 3;
   B "USBA_DMA_END_TR_IE" 4; B "USBA_DMA_END_BUF_IE" 5; B "USBA_DMA_DESC_LOAD_IE" 6; B "USBA_DMA_BURST_LOCK" 7;
   BF "USBA_DMA_BUF_LEN" 16 16 []].

Definition DMA_STATUS : pgroup := PGrp [("USBA_DMA_STATUS", 0x000c)]
  [B "USBA_DMA_CH_ACTIVE" 1; B "USBA_DMA_END_TR_ST" 4; B "USBA_DMA_END_BUF_ST" 5; B "USBA_DMA_DESC_LOAD_ST" 6].

Definition registers : list pgroup :=
  [CTRL; FNUM; INT; EPT_RST; TST; EPT_CFG; EPT_CTL; EPT_STA; DMA_CONTROL; DMA_STATUS].

Definition USBA_NR_ENDPOINTS : Z := 7.

(** On AT91 the pull-down is disabled while the controller runs. *)
Definition USBA_ENABLE_MASK (AT91 : bool) : Z := if AT91 then Z.lor (bit 8) (bit 11) else bit 8.
Definition USBA_DISABLE_MASK (AT91 : bool) : Z := if AT91 then bit 9 else 0.

Definition USBA_EPT_BASE (x : Z) : Z := 0x100 + x * 0x20.

Definition USBA_DMA_BASE (x : Z) : Z := 0x300 + x * 0x10.

Definition USBA_FIFO_BASE (x : Z) : Z := Z.shiftl x 16.

Definition usba_dma_desc : list (string * cty) := [("next", Dma); ("addr", Dma); ("ctrl", U32)].

(** The macros, for the field [f]. *)
Definition USBA_BF (f : pfield) (value : Z) : Z := Z.shiftl (Z.land value (Z.shiftl 1 (p_size f) - 1)) (p_ofs f).
Definition USBA_BFEXT (f : pfield) (value : Z) : Z := Z.land (Z.shiftr value (p_ofs f)) (Z.shiftl 1 (p_size f) - 1).
Definition USBA_BFINS (f : pfield) (value old : Z) : Z :=
  Z.lor (Z.land old (Z.lnot (Z.shiftl (Z.shiftl 1 (p_size f) - 1) (p_ofs f)))) (USBA_BF f value).
End USBA.
Import USBA.

Lemma usba_registers_ok : ptable_ok 32 registers = true.
Proof. by vm_compute. Qed.

Lemma ones_c n : Z.shiftl 1 n - 1 = Z.ones n.
Proof. unfold Z.ones. lia. Qed.
(** The macros are the operations on fields. *)
Lemma usba_bfext f v : pfield_ok 32 f = true -> USBA_BFEXT f v = pf_get f v.
Proof.
  intros (Ho & Hs & _ & Hm)%pfield_ok_props. unfold USBA_BFEXT, pf_get.
  rewrite ones_c, Hm, Z.shiftr_land, Z.shiftr_shiftl_l, Z.sub_diag, Z.shiftl_0_r by lia. done.
Qed.
Lemma usba_bfins f v old : pfield_ok 32 f = true -> USBA_BFINS f v old = pf_set f old v.
Proof.
  intros Hf. pose proof (pfield_ok_props _ _ Hf) as (Ho & Hs & _ & Hm). unfold USBA_BFINS, USBA_BF, pf_set, set_bits.
  rewrite ones_c, <- Hm. f_equal. by rewrite <- (pf_val_land 32).
Qed.

(** property: the macros on any field of any register: what is inserted is
    extracted again, cut to the size of the field, and every other field of
    the register stays; a field that is built alone is extracted, too. *)
Theorem usba_bitfields g i f old x :
  g ∈ registers -> pg_fields g !! i = Some f ->
  USBA_BFEXT f (USBA_BFINS f x old) = x mod 2 ^ p_size f /\
  (forall j f', pg_fields g !! j = Some f' -> j <> i -> USBA_BFEXT f' (USBA_BFINS f x old) = USBA_BFEXT f' old) /\
  USBA_BFEXT f (USBA_BF f x) = x mod 2 ^ p_size f.
Proof.
  intros Hg Hf. pose proof (ptable_field 32 _ g i f usba_registers_ok Hg Hf) as Hok.
  destruct (ptable_update 32 _ g i f old x usba_registers_ok Hg Hf) as [H1 H2]. rewrite usba_bfins by done. split; [|split].
  - by rewrite usba_bfext.
  - intros j f' Hj Hij. pose proof (ptable_field 32 _ g j f' usba_registers_ok Hg Hj). rewrite !usba_bfext by done. by apply (H2 j).
  - pose proof (pfield_ok_props _ _ Hok) as (Ho & Hs & _ & _). unfold USBA_BFEXT, USBA_BF.
    rewrite ones_c, Z.shiftr_shiftl_l, Z.sub_diag, Z.shiftl_0_r, <- Z.land_assoc, Z.land_diag by lia. apply Z.land_ones. lia.
Qed.
Lemma usba_bitfields_witness :
  let f := BF "USBA_BYTE_COUNT" 20 11 [] in
  USBA_BFEXT f (USBA_BFINS f 512 0xffffffff) = 512 mod 2 ^ p_size f.
Proof.
  refine (proj1 (usba_bitfields EPT_STA 12 (BF "USBA_BYTE_COUNT" 20 11 []) 0xffffffff 512 _ _)); [|done].
  apply list_elem_of_lookup. by exists 7%nat.
Defined.

(** property: the codes: endpoint sizes from 8 to 1024 bytes, the number of
    banks by itself; the other meanings of status bits lie on status bits. *)
Theorem usba_codes :
  ((fun v => 8 * 2 ^ snd v) <$> EPT_SIZE_values) = [8; 16; 32; 64; 128; 256; 512; 1024] /\
  BK_NUMBER_values.*2 = [0; 1; 2; 3] /\
  forallb (fun a => existsb (fun f => within (snd a) (p_mask f)) (pg_fields EPT_STA)) EPT_STA_alias = true.
Proof. by vm_compute. Qed.

Definition in_block (base size : Z) (o : Z) : bool := (base <=? o) && (o <? base + size).
(** property: the registers of the device, of its endpoints and of their DMA
    channels are at different places: for up to 16 endpoints the blocks do
    not meet, and the registers of a block are inside it. *)
Theorem usba_blocks x y :
  0 <= x < 16 -> 0 <= y < 16 ->
  (x < y -> USBA_EPT_BASE x + 0x20 <= USBA_EPT_BASE y /\ USBA_DMA_BASE x + 0x10 <= USBA_DMA_BASE y) /\
  USBA_EPT_BASE x + 0x20 <= USBA_DMA_BASE y /\
  forallb (fun r => in_block 0 0x100 (snd r)) REGS = true /\ 0x100 <= USBA_EPT_BASE x /\
  forallb (fun r => in_block 0 0x20 (snd r)) EPT_REGS = true /\ forallb (fun r => in_block 0 0x10 (snd r)) DMA_REGS = true /\
  (x <> y -> apart (USBA_BF (BF "USBA_EPT_INT" 8 16 []) (bit x)) (USBA_BF (BF "USBA_EPT_INT" 8 16 []) (bit y)) = true).
Proof.
  unfold USBA_EPT_BASE, USBA_DMA_BASE. intros Hx Hy. split; [lia|]. split; [lia|]. split; [by vm_compute|]. split; [lia|].
  split; [by vm_compute|]. split; [by vm_compute|]. intros Hne.
  assert (forall i, 0 <= i < 16 -> USBA_BF (BF "USBA_EPT_INT" 8 16 []) (bit i) = 2 ^ (i + 8)) as Hb.
  { intros i Hi. apply Z.eqb_eq. revert i Hi. by apply (forall_below (fun i => USBA_BF (BF "USBA_EPT_INT" 8 16 []) (bit i) =? 2 ^ (i + 8)) 16). }
  rewrite !Hb by lia. unfold apart. apply Z.eqb_eq. apply Z.bits_inj'. intros n Hn. rewrite Z.land_spec, !Z.pow2_bits_eqb, Z.bits_0 by lia. lia.
Qed.
Lemma usba_blocks_witness : USBA_EPT_BASE 2 + 0x20 <= USBA_EPT_BASE 3.
Proof. apply (usba_blocks 2 3); lia. Defined.

(** property: the DMA descriptor in memory has the layout of the channel's
    registers when addresses have 32 bits, and not when they have 64. *)
Theorem usba_descriptor PTR :
  (fun m => fst (snd m)) <$> members PTR 4 0 usba_dma_desc = snd <$> take 3 DMA_REGS /\ struct_size PTR 4 usba_dma_desc = 12 /\
  offsetof PTR 8 usba_dma_desc "ctrl" = Some 16.
Proof. by vm_compute. Qed.
