(* ===== verification/GokuUdc.v ===== *)
(** * The Goku-S controller (test_gadget/goku_udc.h)

    The register file as one packed structure, the bits of its registers, and
    the macros that select a bit or a command by an endpoint's number. *)

From Stdlib Require Import ZArith.
From stdpp Require Import base list strings.
From S2P Require Import Prelude HwRegs.

Module GOKU.
Definition goku_udc_regs : list (string * cty) :=
  [("int_status", U32); ("int_enable", U32); ("dma_master", U32); ("out_dma_start", U32); ("out_dma_end", U32);
   ("out_dma_current", U32); ("in_dma_start", U32); ("in_dma_end", U32); ("in_dma_current", U32);
   ("power_detect", U32); ("_reserved0", Arr 472 U8); ("ep_fifo", Arr 4 U32); ("_reserved1", Arr 16 U8);
   ("ep_mode", Arr 4 U32); ("_reserved2", Arr 16 U8); ("ep_status", Arr 4 U32); ("_reserved3", Arr 16 U8);
   ("EPxSizeLA", Arr 4 U32); ("_reserved3a", Arr 16 U8); ("EPxSizeLB", Arr 4 U32); ("_reserved3b", Arr 16 U8);
   ("EPxSizeHA", Arr 4 U32); ("_reserved3c", Arr 16 U8); ("EPxSizeHB", Arr 4 U32); ("_reserved4", Arr 48 U8);
   ("bRequestType", U32); ("bRequest", U32); ("wValueL", U32); ("wValueH", U32); ("wIndexL", U32);
   ("wIndexH", U32); ("wLengthL", U32); ("wLengthH", U32); ("SetupRecv", U32); ("CurrConfig", U32);
   ("StdRequest", U32); ("Request", U32); ("DataSet", U32); ("_reserved5", Arr 4 U8); ("UsbState", U32);
   ("EOP", U32); ("Command", U32); ("EPxSingle", U32); ("_reserved6", Arr 4 U8); ("EPxBCS", U32);
   ("_reserved7", Arr 8 U8); ("IntControl", U32); ("_reserved8", Arr 4 U8); ("reqmode", U32); ("ReqMode", U32);
   ("_reserved9", Arr 24 U8); ("PortStatus", U32); ("_reserved10", Arr 8 U8); ("address", U32);
   ("buff_test", U32); ("_reserved11", Arr 4 U8); ("UsbReady", U32); ("_reserved12", Arr 4 U8);
   ("SetDescStall", U32); ("_reserved13", Arr 1116 U8); ("descriptors", Arr 128 U32);
   ("_reserved14", Arr 1536 U8)].

Definition INT : group := Grp []
  [Fld "INT_SUSPEND" 0x00001 []; Fld "INT_USBRESET" 0x00002 []; Fld "INT_ENDPOINT0" 0x00004 [];
   Fld "INT_SETUP" 0x00008 []; Fld "INT_STATUS" 0x00010 []; Fld "INT_STATUSNAK" 0x00020 [];
   Fld "INT_EP1DATASET" 0x00040 []; Fld "INT_EP2DATASET" 0x00080 []; Fld "INT_EP3DATASET" 0x00100 [];
   Fld "INT_EP1NAK" 0x00200 []; Fld "INT_EP2NAK" 0x00400 []; Fld "INT_EP3NAK" 0x00800 [];
   Fld "INT_SOF" 0x01000 []; Fld "INT_ERR" 0x02000 []; Fld "INT_MSTWRSET" 0x04000 [];
   Fld "INT_MSTWREND" 0x08000 []; Fld "INT_MSTWRTMOUT" 0x10000 []; Fld "INT_MSTRDEND" 0x20000 [];
   Fld "INT_SYSERROR" 0x40000 []; Fld "INT_PWRDETECT" 0x80000 []].

Definition INT_EPxDATASET (n : Z) : Z := Z.shiftl 0x00020 n.

Definition INT_EPnNAK (n : Z) : Z := if 0x00100 <? n then 1 else 0.

Definition INT_DEVWIDE : Z := Z.lor (Z.lor (Z.lor 0x80000 0x40000) 0x00002) 0x00001.

Definition INT_EP0 : Z := Z.lor (Z.lor 0x00008 0x00004) 0x00020.

Definition MST : group := Grp []
  [Fld "MST_EOPB_DIS" 0x0800 []; Fld "MST_EOPB_ENA" 0x0400 []; Fld "MST_TIMEOUT_DIS" 0x0200 [];
   Fld "MST_TIMEOUT_ENA" 0x0100 []; Fld "MST_RD_EOPB" 0x0080 []; Fld "MST_RD_RESET" 0x0040 [];
   Fld "MST_WR_RESET" 0x0020 []; Fld "MST_RD_ENA" 0x0004 []; Fld "MST_WR_ENA" 0x0002 [];
   Fld "MST_CONNECTION" 0x0001 []].

Definition MST_R_BITS : Z := Z.lor (Z.lor (Z.lor 0x0800 0x0400) 0x0004) 0x0040.

Definition MST_W_BITS : Z := Z.lor (Z.lor (Z.lor 0x0200 0x0100) 0x0002) 0x0020.

Definition MST_RW_BITS : Z := Z.lor (Z.lor MST_R_BITS MST_W_BITS) 0x0001.

Definition PW : group := Grp [] [Fld "PW_DETECT" 0x04 []; Fld "PW_RESETB" 0x02 []; Fld "PW_PULLUP" 0x01 []].

Definition EPxSTATUS : group := Grp []
  [Fld "EPxSTATUS_TOGGLE" 0x40 []; Fld "EPxSTATUS_SUSPEND" 0x20 [];
   Fld "EPxSTATUS_EP_MASK" (Z.shiftl 0x07 2) [("EPxSTATUS_EP_READY", Z.shiftl 0 2); ("EPxSTATUS_EP_DATAIN", bit 2); ("EPxSTATUS_EP_FULL", Z.shiftl 2 2); ("EPxSTATUS_EP_TX_ERR", Z.shiftl 3 2); ("EPxSTATUS_EP_RX_ERR", Z.shiftl 4 2); ("EPxSTATUS_EP_BUSY", Z.shiftl 5 2); ("EPxSTATUS_EP_STALL", Z.shiftl 6 2); ("EPxSTATUS_EP_INVALID", Z.shiftl 7 2)];
   Fld "EPxSTATUS_FIFO_DISABLE" 0x02 []; Fld "EPxSTATUS_STAGE_ERROR" 0x01 []].

Definition EPxSize : group := Grp [] [Fld "PACKET_ACTIVE" (bit 7) []; Fld "DATASIZE" 0x7f []].

Definition DATASET_A (epnum : Z) : Z := Z.shiftl 1 (2 * epnum).

Definition DATASET_B (epnum : Z) : Z := Z.shiftl 2 (2 * epnum).

Definition DATASET_AB (epnum : Z) : Z := Z.shiftl 3 (2 * epnum).

Definition UsbState : group := Grp []
  [Fld "USBSTATE_CONFIGURED" 0x04 []; Fld "USBSTATE_ADDRESSED" 0x02 []; Fld "USBSTATE_DEFAULT" 0x01 []].

Definition COMMANDS : list (string * Z) :=
  [("COMMAND_SETDATA0", 2); ("COMMAND_RESET", 3); ("COMMAND_STALL", 4); ("COMMAND_INVALID", 5);
   ("COMMAND_FIFO_DISABLE", 7); ("COMMAND_FIFO_ENABLE", 8); ("COMMAND_INIT_DESCRIPTOR", 9);
   ("COMMAND_FIFO_CLEAR", 10); ("COMMAND_STALL_CLEAR", 11)].

Definition COMMAND_EP (n : Z) : Z := Z.shiftl n 4.

Definition REQMODE : group := Grp []
  [Fld "G_REQMODE_SET_INTF" (bit 7) []; Fld "G_REQMODE_GET_INTF" (bit 6) []; Fld "G_REQMODE_SET_CONF" (bit 5) [];
   Fld "G_REQMODE_GET_CONF" (bit 4) []; Fld "G_REQMODE_GET_DESC" (bit 3) []; Fld "G_REQMODE_SET_FEAT" (bit 2) [];
   Fld "G_REQMODE_CLEAR_FEAT" (bit 1) []; Fld "G_REQMODE_GET_STATUS" (bit 0) []].

Definition registers : list group := [INT; MST; PW; EPxSTATUS; EPxSize; UsbState; REQMODE].

Definition DESC_LEN : Z := 0x80.

Definition MAX_FIFO_SIZE : Z := 64.

Definition MAX_EP0_SIZE : Z := 8.
End GOKU.
Import GOKU.

Lemma goku_registers_ok : table_ok 32 registers = true.
Proof. by vm_compute. Qed.
Definition masks_of (g : group) (names : list string) : list Z :=
  f_mask <$> filter (fun f => f_name f ∈ names) (g_fields g).

(** property: the registers are where the comments of the structure have
    them, and it fills one page.  (Its members are words and bytes at word
    boundaries, so that packing it changes nothing.) *)
Theorem goku_layout PTR DMA :
  (fun n => offsetof PTR DMA goku_udc_regs n) <$>
    ["int_status"; "ep_fifo"; "bRequestType"; "SetupRecv"; "Command"; "reqmode"; "PortStatus"; "SetDescStall"; "descriptors"]
  = Some <$> [0x000; 0x200; 0x300; 0x320; 0x340; 0x360; 0x380; 0x3a0; 0x800] /\
  end_of PTR DMA goku_udc_regs = 0x1000 /\
  forallb (fun m => fst (snd m) mod 4 =? 0) (members PTR DMA 0 goku_udc_regs) = true.
Proof. by vm_compute. Qed.

(** property: the two buffers of an endpoint have their own bits in the data
    set register: both together are the pair, and pairs of different
    endpoints are apart. *)
Theorem goku_dataset n m :
  0 <= n -> 0 <= m ->
  Z.lor (DATASET_A n) (DATASET_B n) = DATASET_AB n /\ apart (DATASET_A n) (DATASET_B n) = true /\
  (n <> m -> apart (DATASET_AB n) (DATASET_AB m) = true).
Proof.
  intros Hn Hm. unfold DATASET_A, DATASET_B, DATASET_AB, apart.
  rewrite <- Z.shiftl_lor, <- Z.shiftl_land. split; [done|]. split; [by rewrite Z.shiftl_0_l|].
  intros Hne. apply Z.eqb_eq, Z.bits_inj'. intros k Hk. rewrite Z.land_spec, !Z.shiftl_spec, Z.bits_0 by done.
  change 3 with (Z.ones 2). destruct (Z.testbit (Z.ones 2) (k - 2 * n)) eqn:E1; [|done].
  destruct (Z.testbit (Z.ones 2) (k - 2 * m)) eqn:E2; [|done]. exfalso.
  assert (forall x, Z.testbit (Z.ones 2) x = true -> 0 <= x < 2) as H.
  { intros x Hx. destruct (Z.lt_ge_cases x 0); [by rewrite Z.testbit_neg_r in Hx|]. destruct (Z.lt_ge_cases x 2); [lia|].
    by rewrite Z.ones_spec_high in Hx by lia. }
  apply H in E1, E2. lia.
Qed.
Lemma goku_dataset_witness : Z.lor (DATASET_A 2) (DATASET_B 2) = DATASET_AB 2.
Proof. apply (goku_dataset 2 1); lia. Defined.

(** property: for the three endpoints the macro of the data interrupts gives
    the named bits; that of the refused-packet interrupts, written with a
    comparison instead of a shift, gives 0 and none of them. *)
Theorem goku_interrupt_macros n :
  0 < n < 4 ->
  masks_of INT ["INT_EP1DATASET"; "INT_EP2DATASET"; "INT_EP3DATASET"] !! Z.to_nat (n - 1) = Some (INT_EPxDATASET n) /\
  INT_EPnNAK n = 0 /\
  masks_of INT ["INT_EP1NAK"; "INT_EP2NAK"; "INT_EP3NAK"] !! Z.to_nat (n - 1) = Some (Z.shiftl 0x100 n).
Proof. intros H. assert (n = 1 \/ n = 2 \/ n = 3) as [->|[->| ->]] by lia; by vm_compute. Qed.
Lemma goku_interrupt_macros_witness : INT_EPnNAK 2 = 0 /\ masks_of INT ["INT_EP1NAK"; "INT_EP2NAK"; "INT_EP3NAK"] !! 1%nat = Some 0x400.
Proof. exact (proj2 (goku_interrupt_macros 2 ltac:(lia))). Defined.

(** property: a command for an endpoint carries both: the low four bits are
    the command, the rest the endpoint. *)
Theorem goku_command s c n :
  (s, c) ∈ COMMANDS -> 0 <= n ->
  Z.land (Z.lor (COMMAND_EP n) c) 0xf = c /\ Z.shiftr (Z.lor (COMMAND_EP n) c) 4 = n.
Proof.
  intros Hc Hn. assert (0 <= c < 16) as Hr.
  { assert (Forall (fun v => 0 <= snd v < 16) COMMANDS) as H by (repeat (apply List.Forall_cons; [cbn; lia|]); apply List.Forall_nil).
    exact (proj1 (Forall_forall _ _) H _ Hc). }
  unfold COMMAND_EP. rewrite lor_shiftl by (cbn; lia). change 0xf with (Z.ones 4). rewrite Z.land_ones, Z.shiftr_div_pow2 by lia.
  rewrite Z.add_comm, Z.mod_add, Z.div_add by lia. rewrite Z.mod_small, Z.div_small by (cbn; lia). lia.
Qed.
Lemma goku_command_witness : Z.shiftr (Z.lor (COMMAND_EP 3) 4) 4 = 3.
Proof. apply (goku_command "COMMAND_STALL" 4 3); [apply list_elem_of_lookup; by exists 2%nat|lia]. Defined.

(** property: the DMA master's bits for reading and for writing are apart and
    are bits of its register; the device interrupts and those of endpoint 0
    are apart and are interrupts. *)
Theorem goku_masks :
  apart MST_R_BITS MST_W_BITS = true /\ within MST_RW_BITS (foldr Z.lor 0 (f_mask <$> g_fields MST)) = true /\
  apart INT_DEVWIDE INT_EP0 = true /\ within (Z.lor INT_DEVWIDE INT_EP0) (foldr Z.lor 0 (f_mask <$> g_fields INT)) = true.
Proof. by vm_compute. Qed.

(** property: setting a state in the status of an endpoint, and any named
    value in a field of the registers: the field has it, the others stay. *)
Theorem goku_set_value g i f s v old :
  g ∈ registers -> g_fields g !! i = Some f -> (s, v) ∈ f_values f ->
  Z.land (set_bits old (f_mask f) v) (f_mask f) = v /\
  forall j f', g_fields g !! j = Some f' -> j <> i ->
    Z.land (set_bits old (f_mask f) v) (f_mask f') = Z.land old (f_mask f').
Proof. apply (table_set_value 32), goku_registers_ok. Qed.
Lemma goku_set_value_witness : exists f, g_fields EPxSTATUS !! 2%nat = Some f /\ Z.land (set_bits 0x5c (f_mask f) (Z.shiftl 6 2)) (f_mask f) = Z.shiftl 6 2.
Proof.
  eexists. split; [reflexivity|]. refine (proj1 (goku_set_value EPxSTATUS 2 _ "EPxSTATUS_EP_STALL" _ 0x5c _ eq_refl _)).
  - apply list_elem_of_lookup. by exists 3%nat.
  - apply list_elem_of_lookup. by exists 6%nat.
Defined.
