(* ===== verification/PxaUdc.v ===== *)
(** * The PXA27x controller (test_gadget/pxa27x_udc.h)

    Registers and fields, the interrupt bits of endpoints, and the macros
    that define endpoints: those the gadget layer sees, by name, and those of
    the hardware.  The names are what endpoint autoconfiguration reads. *)

From Stdlib Require Import ZArith Ascii.
From stdpp Require Import base list strings pretty.
From S2P Require Import Prelude HwRegs EpAutoconf.

Module PXA.
(** Offsets. *)
Definition OFFSETS : list (string * Z) :=
  [("UDCCR", 0x0000); ("UDCICR0", 0x0004); ("UDCICR1", 0x0008); ("UDCISR0", 0x000C); ("UDCISR1", 0x0010);
   ("UDCFNR", 0x0014); ("UDCOTGICR", 0x0018); ("UP2OCR", 0x0020); ("UP3OCR", 0x0024)].

Definition UDCCSRn (x : Z) : Z := 0x0100 + Z.shiftl x 2.

Definition UDCBCRn (x : Z) : Z := 0x0200 + Z.shiftl x 2.

Definition UDCDRn (x : Z) : Z := 0x0300 + Z.shiftl x 2.

Definition UDCCRn (x : Z) : Z := 0x0400 + Z.shiftl x 2.

(** Fields. *)
Definition UDCCR_bits : pgroup := PGrp [("UDCCR", 0x0000)]
  [B "UDCCR_OEN" 31; B "UDCCR_AALTHNP" 30; B "UDCCR_AHNP" 29; B "UDCCR_BHNP" 28; B "UDCCR_DWRE" 16;
   PF "UDCCR_ACN" (Z.shiftl 0x03 11) 11 []; PF "UDCCR_AIN" (Z.shiftl 0x07 8) 8 [];
   PF "UDCCR_AAISN" (Z.shiftl 0x07 5) 5 []; B "UDCCR_SMAC" 4; B "UDCCR_EMCE" 3; B "UDCCR_UDR" 2; B "UDCCR_UDA" 1;
   B "UDCCR_UDE" 0].

Definition UDCICR1_bits : pgroup := PGrp [("UDCICR1", 0x0008)]
  [B "UDCICR1_IECC" 31; B "UDCICR1_IESOF" 30; B "UDCICR1_IERU" 29; B "UDCICR1_IESU" 28; B "UDCICR1_IERS" 27].

Definition UDCISR1_bits : pgroup := PGrp [("UDCISR1", 0x0010)]
  [B "UDCISR1_IRCC" 31; B "UDCISR1_IRSOF" 30; B "UDCISR1_IRRU" 29; B "UDCISR1_IRSU" 28; B "UDCISR1_IRRS" 27].

Definition UDCOTGICR_bits : pgroup := PGrp [("UDCOTGICR", 0x0018)]
  [B "UDCOTGICR_IESF" 24; B "UDCOTGICR_IEXR" 17; B "UDCOTGICR_IEXF" 16; B "UDCOTGICR_IEVV40R" 9;
   B "UDCOTGICR_IEVV40F" 8; B "UDCOTGICR_IEVV44R" 7; B "UDCOTGICR_IEVV44F" 6; B "UDCOTGICR_IESVR" 5;
   B "UDCOTGICR_IESVF" 4; B "UDCOTGICR_IESDR" 3; B "UDCOTGICR_IESDF" 2; B "UDCOTGICR_IEIDR" 1;
   B "UDCOTGICR_IEIDF" 0].

Definition UP2OCR_bits : pgroup := PGrp [("UP2OCR", 0x0020)]
  [B "UP2OCR_CPVEN" 0; B "UP2OCR_CPVPE" 1; B "UP2OCR_DPPDE" 2; B "UP2OCR_DMPDE" 3; B "UP2OCR_DPPUE" 4;
   B "UP2OCR_DMPUE" 5; B "UP2OCR_DPPUBE" 6; B "UP2OCR_DMPUBE" 7; B "UP2OCR_EXSP" 8; B "UP2OCR_EXSUS" 9;
   B "UP2OCR_IDON" 10; B "UP2OCR_HXS" 16; B "UP2OCR_HXOE" 17; B "UP2OCR_SEOS" 24].

Definition UDCCSR0_bits : pgroup := PGrp []
  [B "UDCCSR0_ACM" 9; B "UDCCSR0_AREN" 8; B "UDCCSR0_SA" 7; B "UDCCSR0_RNE" 6; B "UDCCSR0_FST" 5;
   B "UDCCSR0_SST" 4; B "UDCCSR0_DME" 3; B "UDCCSR0_FTF" 2; B "UDCCSR0_IPR" 1; B "UDCCSR0_OPC" 0].

Definition UDCCSR_bits : pgroup := PGrp []
  [B "UDCCSR_DPE" 9; B "UDCCSR_FEF" 8; B "UDCCSR_SP" 7; B "UDCCSR_BNE" 6; B "UDCCSR_FST" 5; B "UDCCSR_SST" 4;
   B "UDCCSR_DME" 3; B "UDCCSR_TRN" 2; B "UDCCSR_PC" 1; B "UDCCSR_FS" 0].

Definition UDCCONR_bits : pgroup := PGrp []
  [PF "UDCCONR_CN" (Z.shiftl 0x03 25) 25 []; PF "UDCCONR_IN" (Z.shiftl 0x07 22) 22 [];
   PF "UDCCONR_AISN" (Z.shiftl 0x07 19) 19 []; PF "UDCCONR_EN" (Z.shiftl 0x0f 15) 15 [];
   PF "UDCCONR_ET" (Z.shiftl 0x03 13) 13 [("UDCCONR_ET_INT", 3); ("UDCCONR_ET_BULK", 2); ("UDCCONR_ET_ISO", 1); ("UDCCONR_ET_NU", 0)];
   B "UDCCONR_ED" 12; PF "UDCCONR_MPS" (Z.shiftl 0x3ff 2) 2 []; B "UDCCONR_DE" 1; B "UDCCONR_EE" 0].

Definition registers : list pgroup :=
  [UDCCR_bits; UDCICR1_bits; UDCISR1_bits; UDCOTGICR_bits; UP2OCR_bits; UDCCSR0_bits; UDCCSR_bits; UDCCONR_bits].

Definition UDCICR_FIFOERR : Z := bit 1.

Definition UDCICR_PKTCOMPL : Z := bit 0.

Definition UDCICR_INT_MASK : Z := Z.lor UDCICR_FIFOERR UDCICR_PKTCOMPL.
Definition UDCICR_INT (n intr : Z) : Z := Z.shiftl (Z.land intr 0x03) (Z.land n 0x0F * 2).
Definition UDCISR_INT (n intr : Z) : Z := Z.shiftl (Z.land intr 0x03) (Z.land n 0x0F * 2).

Definition UDCCR_MASK_BITS : Z := Z.lor (Z.lor (Z.lor (bit 31) (bit 4)) (bit 2)) (bit 0).
Definition UDCCSR_WR_MASK : Z := Z.lor (bit 3) (bit 5).
Definition UDCCSR0_CTRL_REQ_MASK : Z := Z.lor (Z.lor (bit 0) (bit 7)) (bit 6).

Definition UDC_FNR_MASK : Z := 0x7ff.

Definition UDC_BCR_MASK : Z := 0x3ff.

Definition UDCCISR1_EP_MASK : Z := 0xffff.

Definition UDCCISR0_EP_MASK : Z := Z.lnot 0.

Definition EP0_FIFO_SIZE : Z := 16.

Definition BULK_FIFO_SIZE : Z := 64.

Definition ISO_FIFO_SIZE : Z := 256.

Definition INT_FIFO_SIZE : Z := 16.

(** ** Endpoint definitions *)
(** [struct udc_usb_ep]: what the gadget layer sees. *)
Record udc_usb_ep := UdcUsbEp { ue_name : string; ue_maxpacket : Z; ue_address : Z; ue_attributes : Z; ue_size : Z }.
Definition USB_EP_DEF (addr : Z) (bname : string) (dir : bool) (type maxpkt : Z) : udc_usb_ep :=
  UdcUsbEp bname maxpkt (Z.lor addr (if dir then USB_DIR_IN else 0)) type maxpkt.
Definition USB_EP_BULK (addr : Z) (bname : string) (dir : bool) : udc_usb_ep := USB_EP_DEF addr bname dir USB_ENDPOINT_XFER_BULK BULK_FIFO_SIZE.
Definition USB_EP_ISO (addr : Z) (bname : string) (dir : bool) : udc_usb_ep := USB_EP_DEF addr bname dir USB_ENDPOINT_XFER_ISOC ISO_FIFO_SIZE.
Definition USB_EP_INT (addr : Z) (bname : string) (dir : bool) : udc_usb_ep := USB_EP_DEF addr bname dir USB_ENDPOINT_XFER_INT INT_FIFO_SIZE.
Definition USB_EP_IN_BULK (n : Z) : udc_usb_ep := USB_EP_BULK n ("ep" +:+ pretty n +:+ "in-bulk") true.
Definition USB_EP_OUT_BULK (n : Z) : udc_usb_ep := USB_EP_BULK n ("ep" +:+ pretty n +:+ "out-bulk") false.
Definition USB_EP_IN_ISO (n : Z) : udc_usb_ep := USB_EP_ISO n ("ep" +:+ pretty n +:+ "in-iso") true.
Definition USB_EP_OUT_ISO (n : Z) : udc_usb_ep := USB_EP_ISO n ("ep" +:+ pretty n +:+ "out-iso") false.
Definition USB_EP_IN_INT (n : Z) : udc_usb_ep := USB_EP_INT n ("ep" +:+ pretty n +:+ "in-int") true.
Definition USB_EP_CTRL : udc_usb_ep := USB_EP_DEF 0 "ep0" false 0 EP0_FIFO_SIZE.

(** [struct pxa_ep]: an endpoint of the hardware; its bit fields are cut to
    their widths. *)
Record pxa_ep := PxaEp {
  pe_name : string; pe_idx : Z; pe_enabled : bool; pe_dir_in : bool; pe_addr : Z; pe_config : Z; pe_interface : Z; pe_alternate : Z;
  pe_type : Z; pe_fifo_size : Z }.
Definition PXA_EP_DEF (idx addr : Z) (dir : bool) (type maxpkt config iface altset : Z) : pxa_ep :=
  PxaEp ("ep" +:+ pretty idx) (wrap 5 idx) false dir (wrap 4 addr) (wrap 2 config) (wrap 3 iface) (wrap 3 altset) type maxpkt.
Definition PXA_EP_BULK (idx addr : Z) (dir : bool) (config iface alt : Z) : pxa_ep :=
  PXA_EP_DEF idx addr dir USB_ENDPOINT_XFER_BULK BULK_FIFO_SIZE config iface alt.
Definition PXA_EP_ISO (idx addr : Z) (dir : bool) (config iface alt : Z) : pxa_ep :=
  PXA_EP_DEF idx addr dir USB_ENDPOINT_XFER_ISOC ISO_FIFO_SIZE config iface alt.
Definition PXA_EP_INT (idx addr : Z) (dir : bool) (config iface alt : Z) : pxa_ep :=
  PXA_EP_DEF idx addr dir USB_ENDPOINT_XFER_INT INT_FIFO_SIZE config iface alt.
Definition PXA_EP_IN_BULK (i adr c f a : Z) : pxa_ep := PXA_EP_BULK i adr true c f a.
Definition PXA_EP_OUT_BULK (i adr c f a : Z) : pxa_ep := PXA_EP_BULK i adr false c f a.
Definition PXA_EP_IN_ISO (i adr c f a : Z) : pxa_ep := PXA_EP_ISO i adr true c f a.
Definition PXA_EP_OUT_ISO (i adr c f a : Z) : pxa_ep := PXA_EP_ISO i adr false c f a.
Definition PXA_EP_IN_INT (i adr c f a : Z) : pxa_ep := PXA_EP_INT i adr true c f a.
Definition PXA_EP_CTRL : pxa_ep := PXA_EP_DEF 0 0 false 0 EP0_FIFO_SIZE 0 0 0.

(** The states of endpoint 0, their numbers and their names. *)
Inductive ep0_state :=
  WAIT_FOR_SETUP | SETUP_STAGE | IN_DATA_STAGE | OUT_DATA_STAGE | IN_STATUS_STAGE | OUT_STATUS_STAGE | STALL | WAIT_ACK_SET_CONF_INTERF.
Definition ep0_number (s : ep0_state) : Z :=
  match s with WAIT_FOR_SETUP => 0 | SETUP_STAGE => 1 | IN_DATA_STAGE => 2 | OUT_DATA_STAGE => 3 | IN_STATUS_STAGE => 4
             | OUT_STATUS_STAGE => 5 | STALL => 6 | WAIT_ACK_SET_CONF_INTERF => 7 end.
Definition ep0_enumerator (s : ep0_state) : string :=
  match s with WAIT_FOR_SETUP => "WAIT_FOR_SETUP" | SETUP_STAGE => "SETUP_STAGE" | IN_DATA_STAGE => "IN_DATA_STAGE"
             | OUT_DATA_STAGE => "OUT_DATA_STAGE" | IN_STATUS_STAGE => "IN_STATUS_STAGE" | OUT_STATUS_STAGE => "OUT_STATUS_STAGE"
             | STALL => "STALL" | WAIT_ACK_SET_CONF_INTERF => "WAIT_ACK_SET_CONF_INTERF" end.
Definition ep0_state_name : list string :=
  ["WAIT_FOR_SETUP"; "SETUP_STAGE"; "IN_DATA_STAGE"; "OUT_DATA_STAGE"; "IN_STATUS_STAGE"; "OUT_STATUS_STAGE"; "STALL"; "WAIT_ACK_SET_CONF_INTERF"].
End PXA.
Import PXA.

Lemma pxa_registers_ok : ptable_ok 32 registers = true.
Proof. by vm_compute. Qed.

(** property: writing a field of any register through its mask and position:
    the field has the value, the other fields stay. *)
Theorem pxa_write_field g i f old x :
  g ∈ registers -> pg_fields g !! i = Some f ->
  pf_get f (set_bits old (p_mask f) (Z.land (Z.shiftl x (p_ofs f)) (p_mask f))) = x mod 2 ^ p_size f /\
  forall j f', pg_fields g !! j = Some f' -> j <> i ->
    pf_get f' (set_bits old (p_mask f) (Z.land (Z.shiftl x (p_ofs f)) (p_mask f))) = pf_get f' old.
Proof. apply (ptable_update 32), pxa_registers_ok. Qed.
Lemma pxa_write_field_witness :
  let f := PF "UDCCONR_MPS" (Z.shiftl 0x3ff 2) 2 [] in
  pf_get f (set_bits 0xffffffff (p_mask f) (Z.land (Z.shiftl 256 (p_ofs f)) (p_mask f))) = 256 mod 2 ^ p_size f.
Proof.
  refine (proj1 (pxa_write_field UDCCONR_bits 6 (PF "UDCCONR_MPS" (Z.shiftl 0x3ff 2) 2 []) 0xffffffff 256 _ eq_refl)).
  apply list_elem_of_lookup. by exists 7%nat.
Defined.

(** ** Interrupts *)
Definition ep_int (i : Z) : Z := UDCICR_INT i UDCICR_INT_MASK.

(** property: the interrupts of the endpoints: two bits for each, apart for
    endpoints of one register.  Endpoints 0 to 15 are in the first register;
    16 to 23 are in the second, under its endpoint mask and apart from the
    bits of the device.  Endpoint 24, which the documentation of [pxa_ep]
    counts, is outside the mask. *)
Theorem pxa_endpoint_interrupts i j :
  0 <= i < 25 -> 0 <= j < 25 ->
  (i <> j -> i / 16 = j / 16 -> apart (ep_int i) (ep_int j) = true) /\
  ep_int i <> 0 /\ within (ep_int i) (Z.ones 32) = true /\
  (16 <= i -> within (ep_int i) UDCCISR1_EP_MASK = (i <? 24)) /\
  (16 <= i -> forallb (fun f => apart (ep_int i) (p_mask f)) (pg_fields UDCICR1_bits ++ pg_fields UDCISR1_bits) = true) /\
  UDCISR_INT i UDCICR_INT_MASK = ep_int i.
Proof.
  intros Hi Hj.
  assert (forallb (fun i => forallb (fun j => (i =? j) || negb (i / 16 =? j / 16) || apart (ep_int i) (ep_int j)) (Z.of_nat <$> seq 0 25) &&
    negb (ep_int i =? 0) && within (ep_int i) (Z.ones 32) &&
    ((i <? 16) || (eqb (within (ep_int i) UDCCISR1_EP_MASK) (i <? 24) &&
       forallb (fun f => apart (ep_int i) (p_mask f)) (pg_fields UDCICR1_bits ++ pg_fields UDCISR1_bits)))) (Z.of_nat <$> seq 0 25) = true) as H by (by vm_compute).
  pose proof (forall_below _ 25 H i Hi) as Hb. cbv beta in Hb. rewrite !andb_true_iff in Hb. destruct Hb as (((H1 & H2) & H3) & H4).
  pose proof (forall_below _ 25 H1 j Hj) as H1'. cbv beta in H1'. rewrite !orb_true_iff in H1'.
  split; [|split; [|split; [done|split; [|split; [|done]]]]].
  - intros Hne Hq. destruct H1' as [[E|E]|E]; [lia| |done]. rewrite Hq, Z.eqb_refl in E. done.
  - intros E. by rewrite E in H2.
  - intros Hg. assert ((i <? 16) = false) as Hn by lia. rewrite Hn in H4. cbn [orb] in H4. apply andb_true_iff in H4 as [H4 _]. by apply eqb_prop.
  - intros Hg. assert ((i <? 16) = false) as Hn by lia. rewrite Hn in H4. cbn [orb] in H4. by apply andb_true_iff in H4 as [_ H4].
Qed.
Lemma pxa_endpoint_interrupts_witness : within (ep_int 24) UDCCISR1_EP_MASK = false /\ within (ep_int 23) UDCCISR1_EP_MASK = true.
Proof.
  split; [exact (proj1 (proj2 (proj2 (proj2 (pxa_endpoint_interrupts 24 0 ltac:(lia) ltac:(lia))))) ltac:(lia))|
    exact (proj1 (proj2 (proj2 (proj2 (pxa_endpoint_interrupts 23 0 ltac:(lia) ltac:(lia))))) ltac:(lia))].
Defined.

(** property: the register banks of the 32 possible endpoints do not meet each
    other nor the registers of the device. *)
Theorem pxa_offsets i j :
  0 <= i < 32 -> 0 <= j < 32 ->
  UDCCSRn i < UDCBCRn j /\ UDCBCRn i < UDCDRn j /\ UDCDRn i < UDCCRn j /\
  (UDCCSRn i = UDCCSRn j -> i = j) /\ Forall (fun r => snd r + 4 <= UDCCSRn i) OFFSETS.
Proof.
  intros Hi Hj. unfold UDCCSRn, UDCBCRn, UDCDRn, UDCCRn. rewrite !Z.shiftl_mul_pow2 by lia. change (2 ^ 2) with 4.
  repeat split; try lia. unfold OFFSETS. repeat (apply List.Forall_cons; [cbn; lia|]). apply List.Forall_nil.
Qed.
Lemma pxa_offsets_witness : UDCCSRn 23 < UDCBCRn 0.
Proof. apply (pxa_offsets 23 0); lia. Defined.

(** ** Endpoints of the hardware *)

(** property: an endpoint definition keeps what it is given, the values being
    in the range of the hardware; the bit fields of [pxa_ep] are as wide as
    the fields of the configuration register. *)
Theorem pxa_ep_fields idx addr dir type maxpkt config iface alt :
  0 <= idx < 32 -> 0 <= addr < 16 -> 0 <= config < 4 -> 0 <= iface < 8 -> 0 <= alt < 8 ->
  let e := PXA_EP_DEF idx addr dir type maxpkt config iface alt in
  pe_idx e = idx /\ pe_addr e = addr /\ pe_config e = config /\ pe_interface e = iface /\ pe_alternate e = alt /\ pe_dir_in e = dir /\
  pe_name e = ("ep" +:+ pretty idx)%string /\
  p_size <$> filter (fun f => p_name f ∈ ["UDCCONR_CN"; "UDCCONR_IN"; "UDCCONR_AISN"; "UDCCONR_EN"; "UDCCONR_ED"]) (pg_fields UDCCONR_bits) = [2; 3; 3; 4; 1].
Proof. intros. unfold e, PXA_EP_DEF. cbn. rewrite !wrap_small by (cbn; lia). repeat split. Qed.
Lemma pxa_ep_fields_witness : pe_addr (PXA_EP_IN_BULK 3 1 3 0 1) = 1 /\ pe_config (PXA_EP_IN_BULK 3 1 3 0 1) = 3.
Proof.
  destruct (pxa_ep_fields 3 1 true USB_ENDPOINT_XFER_BULK BULK_FIFO_SIZE 3 0 1) as (_ & Ha & Hc & _); [lia..|]. done.
Defined.

(** ** The states of endpoint 0 *)
(** property: the table of names has, for every state, the name that the
    state has in the source. *)
Theorem ep0_names s : ep0_state_name !! Z.to_nat (ep0_number s) = Some (ep0_enumerator s).
Proof. by destruct s. Qed.

(** ** Endpoints of the gadget layer, and autoconfiguration *)

(** The five kinds of endpoints that the header can define. *)
Inductive kind := IN_BULK | OUT_BULK | IN_ISO | OUT_ISO | IN_INT.
Definition def (k : kind) (n : Z) : udc_usb_ep :=
  match k with IN_BULK => USB_EP_IN_BULK n | OUT_BULK => USB_EP_OUT_BULK n | IN_ISO => USB_EP_IN_ISO n
             | OUT_ISO => USB_EP_OUT_ISO n | IN_INT => USB_EP_IN_INT n end.
Definition kinds : list kind := [IN_BULK; OUT_BULK; IN_ISO; OUT_ISO; IN_INT].
Definition kind_in (k : kind) : bool := match k with IN_BULK | IN_ISO | IN_INT => true | _ => false end.
(** The transfer types it can serve: a bulk endpoint also interrupts. *)
Definition serves (k : kind) (type : Z) : bool :=
  match k with
  | IN_BULK | OUT_BULK => (type =? USB_ENDPOINT_XFER_BULK) || (type =? USB_ENDPOINT_XFER_INT)
  | IN_ISO | OUT_ISO => type =? USB_ENDPOINT_XFER_ISOC
  | IN_INT => type =? USB_ENDPOINT_XFER_INT
  end.
Definition as_usb_ep (e : udc_usb_ep) : usb_ep := mkEp (chars (ue_name e)) (ue_maxpacket e) None.
Definition pxa_gadget (eps : list usb_ep) : usb_gadget := mkGadget "pxa27x_udc" false eps.
(** What a function asks for: a type, a direction and a packet size, 0 if
    any will do. *)
Definition request (type : Z) (dir_in : bool) (size : Z) : usb_endpoint_descriptor :=
  mkDesc (if dir_in then USB_DIR_IN else 0) type size.
(** The packet size that is meant, and when the endpoint can have it: for
    interrupt and isochronous transfers the size, bits 0 to 10, is at most
    the endpoint's and the full-speed limit, and there is one transaction per
    frame, bits 11 and 12. *)
Definition packet_size (k : kind) (n size : Z) : Z := if size =? 0 then ue_maxpacket (def k n) else size.
Definition size_fits (k : kind) (n type size : Z) : bool :=
  let s := packet_size k n size in
  (type =? USB_ENDPOINT_XFER_BULK) ||
  ((s mod 2048 <=? ue_maxpacket (def k n)) && (s mod 2048 <=? if type =? USB_ENDPOINT_XFER_INT then 64 else 1023) &&
   ((s / 2048) mod 4 =? 0)).

Lemma not_pxa25x cfg eps : gadget_is cfg "pxa25x_udc" (pxa_gadget eps) = false.
Proof. unfold gadget_is. cbn. apply andb_false_r. Qed.
(** The name of one endpoint against a request. *)
Definition name_ok (k : kind) (n type : Z) (d : bool) : bool :=
  let name := chars (ue_name (def k n)) in
  bool_decide (name_allows (mkBuild (fun _ => false) false) (pxa_gadget []) name (request type d 0) =
    Some (eqb d (kind_in k) && serves k type)) &&
  bool_decide (char_at name 0 = Some "e"%char) &&
  match char_at name 2 with Some c => isdigit c | None => false end &&
  (strtoul_at name 2 =? n) && (ue_address (def k n) =? Z.lor (if kind_in k then USB_DIR_IN else 0) n) &&
  (u8 (ue_address (def k n)) =? ue_address (def k n)).
Lemma name_ok_all :
  forallb (fun k => forallb (fun n => forallb (fun type => name_ok k n type true && name_ok k n type false) [1; 2; 3])
    (Z.of_nat <$> seq 0 16)) kinds = true.
Proof. by vm_compute. Qed.
Lemma name_ok_holds k n type d : 0 <= n < 16 -> 1 <= type <= 3 -> name_ok k n type d = true.
Proof.
  intros Hn Ht. pose proof name_ok_all as H. rewrite forallb_forall in H.
  assert (In k kinds) as Hk by (destruct k; cbn; tauto). specialize (H k Hk).
  pose proof (forall_below _ 16 H n Hn) as Hb. cbv beta in Hb. rewrite forallb_forall in Hb.
  assert (In type [1; 2; 3]) as Hty by (cbn; lia). specialize (Hb type Hty).
  apply andb_true_iff in Hb as [Hb1 Hb2]. by destruct d.
Qed.
Lemma name_allows_sized cfg eps name type d size :
  name_allows cfg (pxa_gadget eps) name (request type d size) =
  name_allows (mkBuild (fun _ => false) false) (pxa_gadget []) name (request type d 0).
Proof. unfold name_allows. by rewrite !not_pxa25x. Qed.

(** The size test at full speed. *)
Lemma size_fits_ok eps k n type d size :
  1 <= type <= 3 ->
  size_allows (pxa_gadget eps) (as_usb_ep (def k n)) (set_max (packet_size k n size) (request type d size)) =
  size_fits k n type size.
Proof.
  intros Ht. unfold size_allows, size_fits. cbn [bmAttributes wMaxPacketSize set_max request is_dualspeed pxa_gadget negb].
  set (s := packet_size k n size). cbn [maxpacket as_usb_ep]. set (m := ue_maxpacket _).
  assert (Z.land 0x7ff s = s mod 2048) as -> by (rewrite Z.land_comm; apply (Z.land_ones s 11); lia).
  assert (truthy (Z.land s (Z.shiftl 3 11)) = negb ((s / 2048) mod 4 =? 0)) as ->.
  { unfold truthy. f_equal. assert (Z.land s (Z.shiftl 3 11) = Z.shiftl ((s / 2048) mod 4) 11) as ->.
    { change 4 with (2 ^ 2). rewrite <- Z.land_ones by lia. change 2048 with (2 ^ 11).
      rewrite <- Z.shiftr_div_pow2 by lia. apply Z.bits_inj'. intros i Hi.
      rewrite Z.land_spec, !Z.shiftl_spec by lia. destruct (Z.le_gt_cases 11 i).
      - rewrite Z.land_spec, Z.shiftr_spec by lia. by replace (i - 11 + 11) with i by lia.
      - rewrite !(Z.testbit_neg_r _ (i - 11)) by lia. apply andb_false_r. }
    rewrite Z.shiftl_mul_pow2 by lia. destruct (Z.eqb_spec ((s / 2048) mod 4) 0) as [->|E]; [done|]. lia. }
  assert (type = 1 \/ type = 2 \/ type = 3) as [->|[->| ->]] by lia; cbn;
    rewrite ?andb_true_r; rewrite ?(Z.leb_antisym _ (s mod 2048)).
  - change (Z.land 1 _ =? USB_ENDPOINT_XFER_INT) with false. change (Z.land 1 _ =? USB_ENDPOINT_XFER_ISOC) with true.
    cbv iota. destruct (_ <? _), (1023 <? _), (_ =? 0); done.
  - done.
  - change (Z.land 3 _ =? USB_ENDPOINT_XFER_INT) with true. cbv iota.
    destruct (Z.ltb_spec 64 (s mod 2048)); [by destruct (_ <? _)|].
    rewrite (proj2 (Z.ltb_ge 1023 (s mod 2048))) by lia. destruct (_ <? _), (_ =? 0); done.
Qed.

(** C38: the names agree with autoconfiguration: on a gadget of this
    controller, in any build, a free endpoint that the header defines is
    accepted for a request exactly if the direction is its own, it serves
    the type of transfer, and - for interrupt and isochronous transfers - the
    packet size asked for, or else the endpoint's, is at most the endpoint's
    and the full-speed limit of 64 or 1023 with one transaction per frame;
    then the request gets the address that the definition has, bulk
    transfers the packet size that it has, others keep the size asked for
    or get the definition's; and no endpoint number is used up. *)
Theorem pxa_autoconf cfg eps k n type d size num :
  0 <= n < 16 -> 1 <= type <= 3 ->
  exists b desc, ep_matches cfg (pxa_gadget eps) (as_usb_ep (def k n)) (request type d size, num) = Some (b, (desc, num)) /\
    b = eqb d (kind_in k) && serves k type && size_fits k n type size /\
    (b = true -> bEndpointAddress desc = ue_address (def k n) /\
      wMaxPacketSize desc = (if type =? USB_ENDPOINT_XFER_BULK then ue_maxpacket (def k n) else packet_size k n size)).
Proof.
  intros Hn Ht. pose proof (name_ok_holds k n type d Hn Ht) as H. unfold name_ok in H. cbv zeta in H.
  rewrite !andb_true_iff in H. destruct H as (((((H1 & H2) & H3) & H4) & H5) & H6).
  apply bool_decide_eq_true_1 in H1, H2. apply Z.eqb_eq in H4, H5, H6.
  unfold ep_matches. cbn [bmAttributes request driver_data ep_name as_usb_ep].
  assert (Z.land type USB_ENDPOINT_XFERTYPE_MASK = type) as Hty
    by (assert (type = 1 \/ type = 2 \/ type = 3) as [->|[->| ->]] by lia; done).
  rewrite Hty, (proj2 (Z.eqb_neq type USB_ENDPOINT_XFER_CONTROL)) by (unfold USB_ENDPOINT_XFER_CONTROL; lia).
  rewrite H2. cbn [mbind option_bind]. fold (request type d size). rewrite name_allows_sized, H1. cbn [mbind option_bind].
  change (is_char "e" "e") with true. cbn [negb].
  destruct (eqb d (kind_in k) && serves k type) eqn:Hdk; cbn [negb andb]; [|eexists _, _; by split_and!].
  set (d1 := if _ =? 0 then _ else _). assert (d1 = set_max (packet_size k n size) (request type d size)) as ->.
  { unfold d1, packet_size. cbn [wMaxPacketSize request]. by destruct (size =? 0). }
  rewrite size_fits_ok by done. destruct (size_fits k n type size); cbn [negb]; [|eexists _, _; by split_and!].
  destruct (char_at _ 2) as [c2|]; [|done]. cbn [mbind option_bind]. rewrite H3, H4.
  eexists _, _. split; [done|]. split; [done|]. intros _.
  apply andb_true_iff in Hdk as [Hd Hserves]. apply eqb_prop in Hd as ->.
  unfold report. cbn [bmAttributes set_addr set_max request bEndpointAddress]. rewrite Hty, (u8_small n) by lia.
  assert (Z.land (if kind_in k then USB_DIR_IN else 0) USB_DIR_IN = if kind_in k then USB_DIR_IN else 0) as ->
    by (by destruct (kind_in k)).
  rewrite <- H5, H6. destruct (type =? USB_ENDPOINT_XFER_BULK) eqn:Hb; cbn [bEndpointAddress wMaxPacketSize set_max set_addr];
    [|done]. split; [done|]. apply Z.eqb_eq in Hb as ->. by destruct k.
Qed.
Lemma pxa_autoconf_witness :
  (exists b desc, ep_matches (mkBuild (fun _ => true) false) (pxa_gadget []) (as_usb_ep (USB_EP_IN_INT 5))
     (request 3 true 8, 2) = Some (b, (desc, 2)) /\ b = true /\
     (b = true -> bEndpointAddress desc = 0x85 /\ wMaxPacketSize desc = 8)) /\
  (exists b desc, ep_matches (mkBuild (fun _ => true) false) (pxa_gadget []) (as_usb_ep (USB_EP_IN_INT 5))
     (request 3 true 32, 2) = Some (b, (desc, 2)) /\ b = false /\
     (b = true -> bEndpointAddress desc = 0x85 /\ wMaxPacketSize desc = 32)).
Proof.
  split.
  - apply (pxa_autoconf (mkBuild (fun _ => true) false) [] IN_INT 5 3 true 8 2); lia.
  - apply (pxa_autoconf (mkBuild (fun _ => true) false) [] IN_INT 5 3 true 32 2); lia.
Defined.
