(* ===== verification/QeImxUdc.v ===== *)
(** * The QE and the i.MX1 controllers (test_gadget/fsl_qe_udc.h,
    test_gadget/imx_udc.h)

    Registers, buffer descriptors and parameter memory of the first, with
    its frames; registers of the second, with its helpers and the dumps that
    decode them. *)

From Stdlib Require Import ZArith.
From stdpp Require Import base list strings.
From S2P Require Import Prelude HwRegs FslUdc.

Module QE.
Definition USB_MAX_ENDPOINTS : Z := 4.

Definition USB_EP_PARA_ALIGNMENT : Z := 32.

Definition USB_EPNUM_SHIFT : Z := 12.

Definition USB_TRANS_MODE_SHIFT : Z := 8.

Definition USB_THS_SHIFT : Z := 2.

Definition USB_RHS_SHIFT : Z := 0.

Definition USB_RTHS_MASK : Z := 0x000f.

Definition MODE : group := Grp []
  [Fld "USB_MODE_EN" 0x01 []; Fld "USB_MODE_HOST" 0x02 []; Fld "USB_MODE_TEST" 0x04 [];
   Fld "USB_MODE_SFTE" 0x08 []; Fld "USB_MODE_RESUME" 0x40 []; Fld "USB_MODE_LSS" 0x80 []].

Definition EPNUM : group := Grp [] [Fld "USB_EPNUM_MASK" 0xF000 []].

Definition TRANS : list (string * Z) :=
  [("USB_TRANS_CTR", 0x0000); ("USB_TRANS_INT", 0x0100); ("USB_TRANS_BULK", 0x0200); ("USB_TRANS_ISO", 0x0300)].

Definition THS : list (string * Z) :=
  [("USB_THS_NORMAL", 0x0); ("USB_THS_IGNORE_IN", 0x0004); ("USB_THS_NACK", 0x0008); ("USB_THS_STALL", 0x000c)].

Definition RHS : list (string * Z) :=
  [("USB_RHS_NORMAL", 0x0); ("USB_RHS_IGNORE_OUT", 0x0001); ("USB_RHS_NACK", 0x0002); ("USB_RHS_STALL", 0x0003)].

Definition EP_FLAGS : group := Grp [] [Fld "USB_EP_MF" 0x0020 []; Fld "USB_EP_RTE" 0x0010 []].

Definition EP_THS : group := Grp [] [Fld "USB_THS_MASK" 0x000c THS].

Definition EP_RHS : group := Grp [] [Fld "USB_RHS_MASK" 0x0003 RHS].

Definition COMMAND : group := Grp []
  [Fld "USB_CMD_STR_FIFO" 0x80 []; Fld "USB_CMD_FLUSH_FIFO" 0x40 []; Fld "USB_CMD_ISFT" 0x20 [];
   Fld "USB_CMD_DSFT" 0x10 []; Fld "USB_CMD_EP_MASK" 0x03 []].

Definition EVENT : group := Grp []
  [Fld "USB_E_MSF_MASK" 0x0800 []; Fld "USB_E_SFT_MASK" 0x0400 []; Fld "USB_E_RESET_MASK" 0x0200 [];
   Fld "USB_E_IDLE_MASK" 0x0100 []; Fld "USB_E_TXE4_MASK" 0x0080 []; Fld "USB_E_TXE3_MASK" 0x0040 [];
   Fld "USB_E_TXE2_MASK" 0x0020 []; Fld "USB_E_TXE1_MASK" 0x0010 []; Fld "USB_E_SOF_MASK" 0x0008 [];
   Fld "USB_E_BSY_MASK" 0x0004 []; Fld "USB_E_TXB_MASK" 0x0002 []; Fld "USB_E_RXB_MASK" 0x0001 []].

Definition USBER_ALL_CLEAR : Z := 0x0fff.

Definition USB_E_DEFAULT_DEVICE : Z := foldr Z.lor 0
  [0x0200; 0x0080; 0x0040; 0x0020; 0x0010; 0x0004; 0x0002; 0x0001].

Definition USB_E_TXE_MASK : Z := foldr Z.lor 0 [0x0080; 0x0040; 0x0020; 0x0010].

Definition usb_device_para : list (string * cty) :=
  [("epptr", Arr 4 U16); ("rstate", U32); ("rptr", U32); ("frame_n", U16); ("rbcnt", U16); ("rtemp", U32);
   ("rxusb_data", U32); ("rxuptr", U16); ("reso", Arr 2 U8); ("softbl", U32); ("sofucrctemp", U8)].

Definition usb_ep_para : list (string * cty) :=
  [("rbase", U16); ("tbase", U16); ("rbmr", U8); ("tbmr", U8); ("mrblr", U16); ("rbptr", U16); ("tbptr", U16);
   ("tstate", U32); ("tptr", U32); ("tcrc", U16); ("tbcnt", U16); ("ttemp", U32); ("txusbu_ptr", U16);
   ("reserve", Arr 2 U8)].

Definition BUSMODE : group := Grp []
  [Fld "USB_BUSMODE_GBL" 0x20 []; Fld "USB_BUSMODE_BO_MASK" 0x18 []; Fld "USB_BUSMODE_CETM" 0x04 [];
   Fld "USB_BUSMODE_DTB" 0x02 []].

Definition USB_BUSMODE_BO_SHIFT : Z := 0x3.

Definition USB_BUSMODE_BE : Z := 0x2.

Definition TM : list (string * Z) :=
  [("USBP_TM_CTL", 0); ("USBP_TM_ISO", 1); ("USBP_TM_BULK", 2); ("USBP_TM_INT", 3)].

Definition FRAME_INFO : group := Grp []
  [Fld "PID_DATA0" 0x80000000 []; Fld "PID_DATA1" 0x40000000 []; Fld "PID_SETUP" 0x20000000 [];
   Fld "SETUP_STATUS" 0x10000000 []; Fld "SETADDR_STATUS" 0x08000000 []; Fld "NO_REQ" 0x04000000 [];
   Fld "HOST_DATA" 0x02000000 []; Fld "FIRST_PACKET_IN_FRAME" 0x01000000 []; Fld "TOKEN_FRAME" 0x00800000 [];
   Fld "ZLP" 0x00400000 []; Fld "IN_TOKEN_FRAME" 0x00200000 []; Fld "OUT_TOKEN_FRAME" 0x00100000 [];
   Fld "SETUP_TOKEN_FRAME" 0x00080000 []; Fld "STALL_FRAME" 0x00040000 []; Fld "NACK_FRAME" 0x00020000 [];
   Fld "NO_PID" 0x00010000 []; Fld "NO_CRC" 0x00008000 []; Fld "HOST_COMMAND" 0x00004000 []].

Definition FRAME_OK : Z := 0x00000000.

Definition FRAME_STATUS : group := Grp []
  [Fld "FRAME_ERROR" 0x80000000 []; Fld "START_FRAME_LOST" 0x40000000 []; Fld "END_FRAME_LOST" 0x20000000 [];
   Fld "RX_ER_NONOCT" 0x10000000 []; Fld "RX_ER_BITSTUFF" 0x08000000 []; Fld "RX_ER_CRC" 0x04000000 [];
   Fld "RX_ER_OVERUN" 0x02000000 []; Fld "RX_ER_PID" 0x01000000 []; Fld "TX_ER_NAK" 0x00800000 [];
   Fld "TX_ER_STALL" 0x00400000 []; Fld "TX_ER_TIMEOUT" 0x00200000 []; Fld "TX_ER_UNDERUN" 0x00100000 [];
   Fld "FRAME_INPROGRESS" 0x00080000 []; Fld "ER_DATA_UNDERUN" 0x00040000 []; Fld "ER_DATA_OVERUN" 0x00020000 []].

Definition T_PIDS : list (string * Z) := [("T_PID_DATA0", 0x00800000); ("T_PID_DATA1", 0x00c00000)].

Definition T_BD : group := Grp []
  [Fld "T_R" 0x80000000 []; Fld "T_W" 0x20000000 []; Fld "T_I" 0x10000000 []; Fld "T_L" 0x08000000 [];
   Fld "T_TC" 0x04000000 []; Fld "T_CNF" 0x02000000 []; Fld "T_LSP" 0x01000000 []; Fld "T_PID" 0x00c00000 T_PIDS;
   Fld "T_NAK" 0x00100000 []; Fld "T_STAL" 0x00080000 []; Fld "T_TO" 0x00040000 []; Fld "T_UN" 0x00020000 []].

Definition DEVICE_T_ERROR : Z := foldr Z.lor 0 [0x00020000; 0x00040000].

Definition HOST_T_ERROR : Z := foldr Z.lor 0 [0x00020000; 0x00040000; 0x00100000; 0x00080000].

Definition T_PID_SHIFT : Z := 6.

Definition R_PIDS : list (string * Z) :=
  [("R_PID_DATA0", 0x00000000); ("R_PID_DATA1", 0x00400000); ("R_PID_SETUP", 0x00800000)].

Definition R_BD : group := Grp []
  [Fld "R_E" 0x80000000 []; Fld "R_W" 0x20000000 []; Fld "R_I" 0x10000000 []; Fld "R_L" 0x08000000 [];
   Fld "R_F" 0x04000000 []; Fld "R_PID" 0x00c00000 R_PIDS; Fld "R_NO" 0x00100000 []; Fld "R_AB" 0x00080000 [];
   Fld "R_CR" 0x00040000 []; Fld "R_OV" 0x00020000 []].

Definition R_ERROR : Z := foldr Z.lor 0 [0x00100000; 0x00080000; 0x00040000; 0x00020000].

Definition CPM_USB_STOP_TX : Z := 0x2e600000.

Definition CPM_USB_RESTART_TX : Z := 0x2e600000.

Definition CPM_USB_STOP_TX_OPCODE : Z := 0x0a.

Definition CPM_USB_RESTART_TX_OPCODE : Z := 0x0b.

Definition CPM_USB_EP_SHIFT : Z := 5.

Definition registers : list group :=
  [MODE; EPNUM; EP_FLAGS; EP_THS; EP_RHS; COMMAND; EVENT; BUSMODE; FRAME_INFO; FRAME_STATUS; T_BD; R_BD].

(** ** Frames *)
(** [struct qe_frame]; a pointer is an address, 0 for NULL. [q_node] is the
    node in a list: [None] when it is not initialized, [Some []] when it is
    alone. *)
Record qe_frame := QeFrame { q_data : Z; q_len : Z; q_status : Z; q_info : Z; q_privdata : Z; q_node : option (list Z) }.
Definition frame_set_length (frm : qe_frame) (leng : Z) : qe_frame := QeFrame (q_data frm) leng (q_status frm) (q_info frm) (q_privdata frm) (q_node frm).
Definition frame_set_data (frm : qe_frame) (dat : Z) : qe_frame := QeFrame dat (q_len frm) (q_status frm) (q_info frm) (q_privdata frm) (q_node frm).
Definition frame_set_info (frm : qe_frame) (inf : Z) : qe_frame := QeFrame (q_data frm) (q_len frm) (q_status frm) inf (q_privdata frm) (q_node frm).
Definition frame_set_status (frm : qe_frame) (stat : Z) : qe_frame := QeFrame (q_data frm) (q_len frm) stat (q_info frm) (q_privdata frm) (q_node frm).
Definition frame_set_privdata (frm : qe_frame) (dat : Z) : qe_frame := QeFrame (q_data frm) (q_len frm) (q_status frm) (q_info frm) dat (q_node frm).
Definition qe_frame_clean (frm : qe_frame) : qe_frame :=
  let frm := frame_set_data frm 0 in
  let frm := frame_set_length frm 0 in
  let frm := frame_set_status frm FRAME_OK in
  let frm := frame_set_info frm 0 in
  frame_set_privdata frm 0.
Definition qe_frame_init (frm : qe_frame) : qe_frame :=
  let frm := qe_frame_clean frm in QeFrame (q_data frm) (q_len frm) (q_status frm) (q_info frm) (q_privdata frm) (Some []).
End QE.

Module IMX.
Definition IMX_USB_NB_EP : Z := 6.

Definition REGS : list (string * Z) :=
  [("USB_FRAME", 0x00); ("USB_SPEC", 0x04); ("USB_STAT", 0x08); ("USB_CTRL", 0x0C); ("USB_DADR", 0x10);
   ("USB_DDAT", 0x14); ("USB_INTR", 0x18); ("USB_MASK", 0x1C); ("USB_ENAB", 0x24)].

Definition USB_EP_STAT (x : Z) : Z := 0x30 + x * 0x30.

Definition USB_EP_INTR (x : Z) : Z := 0x34 + x * 0x30.

Definition USB_EP_MASK (x : Z) : Z := 0x38 + x * 0x30.

Definition USB_EP_FDAT (x : Z) : Z := 0x3C + x * 0x30.

Definition USB_EP_FDAT1 (x : Z) : Z := 0x3D + x * 0x30.

Definition USB_EP_FDAT2 (x : Z) : Z := 0x3E + x * 0x30.

Definition USB_EP_FDAT3 (x : Z) : Z := 0x3F + x * 0x30.

Definition USB_EP_FSTAT (x : Z) : Z := 0x40 + x * 0x30.

Definition USB_EP_FCTRL (x : Z) : Z := 0x44 + x * 0x30.

Definition USB_EP_LRFP (x : Z) : Z := 0x48 + x * 0x30.

Definition USB_EP_LWFP (x : Z) : Z := 0x4C + x * 0x30.

Definition USB_EP_FALRM (x : Z) : Z := 0x50 + x * 0x30.

Definition USB_EP_FRDP (x : Z) : Z := 0x54 + x * 0x30.

Definition USB_EP_FWRP (x : Z) : Z := 0x58 + x * 0x30.

Definition CTRL : group := Grp []
  [Fld "CTRL_CMDOVER" (bit 6) []; Fld "CTRL_CMDERROR" (bit 5) []; Fld "CTRL_FE_ENA" (bit 3) [];
   Fld "CTRL_UDC_RST" (bit 2) []; Fld "CTRL_AFE_ENA" (bit 1) []; Fld "CTRL_RESUME" (bit 0) []].

Definition STAT : group := Grp []
  [Fld "STAT_RST" (bit 8) []; Fld "STAT_SUSP" (bit 7) []; Fld "STAT_CFG" (Z.shiftl 3 5) [];
   Fld "STAT_INTF" (Z.shiftl 3 3) []; Fld "STAT_ALTSET" (Z.shiftl 7 0) []].

Definition INTR : group := Grp []
  [Fld "INTR_WAKEUP" (bit 31) []; Fld "INTR_MSOF" (bit 7) []; Fld "INTR_SOF" (bit 6) [];
   Fld "INTR_RESET_STOP" (bit 5) []; Fld "INTR_RESET_START" (bit 4) []; Fld "INTR_RESUME" (bit 3) [];
   Fld "INTR_SUSPEND" (bit 2) []; Fld "INTR_FRAME_MATCH" (bit 1) []; Fld "INTR_CFG_CHG" (bit 0) []].

Definition ENAB : group := Grp []
  [Fld "ENAB_RST" (bit 31) []; Fld "ENAB_ENAB" (bit 30) []; Fld "ENAB_SUSPEND" (bit 29) [];
   Fld "ENAB_ENDIAN" (bit 28) []; Fld "ENAB_PWRMD" (bit 0) []].

Definition DADR : group := Grp []
  [Fld "DADR_CFG" (bit 31) []; Fld "DADR_BSY" (bit 30) []; Fld "DADR_DADR" 0x1FF []].

Definition DDAT : group := Grp [] [Fld "DDAT_DDAT" 0xFF []].

Definition EPSTAT : group := Grp []
  [Fld "EPSTAT_BCOUNT" (Z.shiftl 0x7F 16) []; Fld "EPSTAT_SIP" (bit 8) []; Fld "EPSTAT_DIR" (bit 7) [];
   Fld "EPSTAT_MAX" (Z.shiftl 3 5) []; Fld "EPSTAT_TYP" (Z.shiftl 3 3) []; Fld "EPSTAT_ZLPS" (bit 2) [];
   Fld "EPSTAT_FLUSH" (bit 1) []; Fld "EPSTAT_STALL" (bit 0) []].

Definition FSTAT : group := Grp []
  [Fld "FSTAT_FRAME_STAT" (Z.shiftl 0xF 24) []; Fld "FSTAT_ERR" (bit 22) []; Fld "FSTAT_UF" (bit 21) [];
   Fld "FSTAT_OF" (bit 20) []; Fld "FSTAT_FR" (bit 19) []; Fld "FSTAT_FULL" (bit 18) [];
   Fld "FSTAT_ALRM" (bit 17) []; Fld "FSTAT_EMPTY" (bit 16) []].

Definition FCTRL : group := Grp [] [Fld "FCTRL_WFR" (bit 29) []].

Definition EPINTR : group := Grp []
  [Fld "EPINTR_FIFO_FULL" (bit 8) []; Fld "EPINTR_FIFO_EMPTY" (bit 7) []; Fld "EPINTR_FIFO_ERROR" (bit 6) [];
   Fld "EPINTR_FIFO_HIGH" (bit 5) []; Fld "EPINTR_FIFO_LOW" (bit 4) []; Fld "EPINTR_MDEVREQ" (bit 3) [];
   Fld "EPINTR_EOT" (bit 2) []; Fld "EPINTR_DEVREQ" (bit 1) []; Fld "EPINTR_EOF" (bit 0) []].

Definition registers : list group := [CTRL; STAT; INTR; ENAB; DADR; DDAT; EPSTAT; FSTAT; FCTRL; EPINTR].

(** The number and the direction of an endpoint address. *)
Definition EP_NO (bEndpointAddress : Z) : Z := Z.land bEndpointAddress (Z.lnot USB_DIR_IN).
Definition EP_DIR (bEndpointAddress : Z) : Z := if truthy (Z.land bEndpointAddress USB_DIR_IN) then 1 else 0.
(** The states of endpoint 0 and the table of their names. *)
Inductive ep0_state := EP0_IDLE | EP0_IN_DATA_PHASE | EP0_OUT_DATA_PHASE | EP0_CONFIG | EP0_STALL.
Definition ep0_number (s : ep0_state) : nat :=
  match s with EP0_IDLE => 0 | EP0_IN_DATA_PHASE => 1 | EP0_OUT_DATA_PHASE => 2 | EP0_CONFIG => 3 | EP0_STALL => 4 end.
Definition ep0_enumerator (s : ep0_state) : string :=
  match s with EP0_IDLE => "EP0_IDLE" | EP0_IN_DATA_PHASE => "EP0_IN_DATA_PHASE" | EP0_OUT_DATA_PHASE => "EP0_OUT_DATA_PHASE"
             | EP0_CONFIG => "EP0_CONFIG" | EP0_STALL => "EP0_STALL" end.
Definition state_name : list string := ["EP0_IDLE"; "EP0_IN_DATA_PHASE"; "EP0_OUT_DATA_PHASE"; "EP0_CONFIG"; "EP0_STALL"].
(** The words that [dump_intr] and [dump_ep_intr] print, in their order. *)
Definition dump_intr (irqreg : Z) : list string :=
  omap (fun p => if truthy (Z.land irqreg (fst p)) then Some (snd p) else None)
    [(bit 31, " wake"); (bit 7, " msof"); (bit 6, " sof"); (bit 3, " resume"); (bit 2, " suspend"); (bit 5, " noreset"); (bit 4, " reset");
     (bit 1, " fmatch"); (bit 0, " config")].
Definition dump_ep_intr (irqreg : Z) : list string :=
  omap (fun p => if truthy (Z.land irqreg (fst p)) then Some (snd p) else None)
    [(bit 8, " full"); (bit 7, " fempty"); (bit 6, " ferr"); (bit 5, " fhigh"); (bit 4, " flow"); (bit 3, " mreq"); (bit 0, " eof");
     (bit 1, " devreq"); (bit 2, " eot")].
(** The numbers that [dump_usb_stat] prints: configuration, interface and
    alternate setting. *)
Definition dump_usb_stat (temp : Z) : Z * Z * Z :=
  (Z.shiftr (Z.land temp (Z.shiftl 3 5)) 5, Z.shiftr (Z.land temp (Z.shiftl 3 3)) 3, Z.land temp (Z.shiftl 7 0)).
(** Whether [dump_req] prints the data of a request: of IN endpoints, and of
    endpoint 0 while it sends. *)
Definition dump_req (req buf : bool) (addr : Z) (s : ep0_state) : bool :=
  if negb req || negb buf then false
  else (negb (truthy (EP_NO addr)) && match s with EP0_IN_DATA_PHASE => true | _ => false end) || (truthy (EP_NO addr) && truthy (EP_DIR addr)).
End IMX.

Lemma qe_imx_registers_ok : table_ok 32 (QE.registers ++ IMX.registers) = true.
Proof. by vm_compute. Qed.

(** property: setting a named value in a field of any register or descriptor
    of the two headers: the field has it, the others stay. *)
Theorem qe_imx_set_value g i f s v old :
  g ∈ QE.registers ++ IMX.registers -> g_fields g !! i = Some f -> (s, v) ∈ f_values f ->
  Z.land (set_bits old (f_mask f) v) (f_mask f) = v /\
  forall j f', g_fields g !! j = Some f' -> j <> i ->
    Z.land (set_bits old (f_mask f) v) (f_mask f') = Z.land old (f_mask f').
Proof. apply (table_set_value 32), qe_imx_registers_ok. Qed.
Lemma qe_imx_set_value_witness : Z.land (set_bits 0xf8c00000 0x00c00000 0x00800000) 0x00c00000 = 0x00800000.
Proof.
  refine (proj1 (qe_imx_set_value QE.T_BD 7 (Fld "T_PID" 0x00c00000 QE.T_PIDS) "T_PID_DATA0" 0x00800000 0xf8c00000 _ eq_refl _)).
  - apply list_elem_of_lookup. by exists 10%nat.
  - apply list_elem_of_lookup. by exists 0%nat.
Defined.

(** property: the endpoint register of the QE is made of fields that are
    apart: number, transfer mode, flags and the two handshakes, whose masks
    together are the mask of both; handshake codes of both directions mean
    the same. *)
Theorem qe_endpoint_register :
  all_apart ((f_mask <$> (g_fields QE.EPNUM ++ g_fields QE.EP_FLAGS ++ g_fields QE.EP_THS ++ g_fields QE.EP_RHS)) ++ [0x0300]) = true /\
  forallb (fun v => within (snd v) 0x0300) QE.TRANS = true /\
  foldr Z.lor 0 (f_mask <$> (g_fields QE.EP_THS ++ g_fields QE.EP_RHS)) = QE.USB_RTHS_MASK /\
  ((fun v => Z.shiftr (snd v) QE.USB_THS_SHIFT) <$> QE.THS) = QE.RHS.*2 /\
  Z.log2 (lowest 0xF000) = QE.USB_EPNUM_SHIFT /\
  ((fun v => Z.shiftr (snd v) QE.USB_TRANS_MODE_SHIFT) <$> QE.TRANS) = [0; 1; 2; 3].
Proof. by vm_compute. Qed.

(** property: the events: the default mask of a device and the mask of the
    four transmit errors are events, clearing all clears every event; the
    errors of descriptors are bits of them, those of a device errors of a
    host, too. *)
Theorem qe_masks :
  within QE.USB_E_DEFAULT_DEVICE QE.USBER_ALL_CLEAR = true /\ within QE.USB_E_TXE_MASK QE.USB_E_DEFAULT_DEVICE = true /\
  foldr Z.lor 0 (f_mask <$> g_fields QE.EVENT) = QE.USBER_ALL_CLEAR /\
  within QE.DEVICE_T_ERROR QE.HOST_T_ERROR = true /\ within QE.HOST_T_ERROR (foldr Z.lor 0 (f_mask <$> g_fields QE.T_BD)) = true /\
  within QE.R_ERROR (foldr Z.lor 0 (f_mask <$> g_fields QE.R_BD)) = true.
Proof. by vm_compute. Qed.

(** property: the parameter memory of an endpoint has the size of its
    alignment, so that those of the endpoints follow each other. *)
Theorem qe_parameter_memory PTR DMA :
  struct_size PTR DMA QE.usb_ep_para = QE.USB_EP_PARA_ALIGNMENT /\ struct_size PTR DMA QE.usb_device_para = 40 /\
  offsetof PTR DMA QE.usb_ep_para "tstate" = Some 12 /\ offsetof PTR DMA QE.usb_device_para "rstate" = Some 8.
Proof. by vm_compute. Qed.

(** property: the commands that stop and restart a transmitter have the same
    code; only the opcodes differ. *)
Theorem qe_stop_is_restart :
  QE.CPM_USB_STOP_TX = QE.CPM_USB_RESTART_TX /\ QE.CPM_USB_STOP_TX_OPCODE <> QE.CPM_USB_RESTART_TX_OPCODE.
Proof. by vm_compute. Qed.

(** property: a frame that is cleaned has no data, no length, no information
    and the status of a good frame, and is where it was in a list; a frame
    that is initialized is in none.  Cleaning again changes nothing. *)
Theorem qe_frame_clean_spec f :
  QE.qe_frame_clean f = QE.QeFrame 0 0 QE.FRAME_OK 0 0 (QE.q_node f) /\
  QE.qe_frame_init f = QE.QeFrame 0 0 QE.FRAME_OK 0 0 (Some []) /\
  QE.qe_frame_clean (QE.qe_frame_init f) = QE.qe_frame_init f /\
  forall g, In g (g_fields QE.FRAME_STATUS) -> Z.land (QE.q_status (QE.qe_frame_clean f)) (f_mask g) = 0.
Proof. repeat split. Qed.

(** ** i.MX1 *)
Lemma imx_address_parts a :
  0 <= a < 256 -> IMX.EP_NO a + 128 * IMX.EP_DIR a = a /\ 0 <= IMX.EP_NO a < 128 /\ 0 <= IMX.EP_DIR a <= 1.
Proof.
  intros Ha. assert (forallb (fun a => (IMX.EP_NO a + 128 * IMX.EP_DIR a =? a) && (0 <=? IMX.EP_NO a) && (IMX.EP_NO a <? 128) &&
    (0 <=? IMX.EP_DIR a) && (IMX.EP_DIR a <=? 1)) (Z.of_nat <$> seq 0 256) = true) as H by (by vm_compute).
  pose proof (forall_below _ 256 H a Ha) as Hb. cbv beta in Hb. lia.
Qed.
(** property: an endpoint address is taken apart and put together again, and
    endpoints that differ in number or direction differ in one of the two. *)
Theorem imx_endpoint_address a a' :
  0 <= a < 256 -> 0 <= a' < 256 ->
  IMX.EP_NO a + 128 * IMX.EP_DIR a = a /\ 0 <= IMX.EP_NO a < 128 /\ 0 <= IMX.EP_DIR a <= 1 /\
  (IMX.EP_NO a = IMX.EP_NO a' -> IMX.EP_DIR a = IMX.EP_DIR a' -> a = a').
Proof. intros Ha Ha'. pose proof (imx_address_parts a Ha). pose proof (imx_address_parts a' Ha'). intuition lia. Qed.
Lemma imx_endpoint_address_witness : IMX.EP_NO 0x83 + 128 * IMX.EP_DIR 0x83 = 0x83.
Proof. exact (proj1 (imx_endpoint_address 0x83 0x03 ltac:(lia) ltac:(lia))). Defined.

Definition ep_regs (x : Z) : list Z :=
  [IMX.USB_EP_STAT x; IMX.USB_EP_INTR x; IMX.USB_EP_MASK x; IMX.USB_EP_FDAT x; IMX.USB_EP_FSTAT x; IMX.USB_EP_FCTRL x; IMX.USB_EP_LRFP x;
   IMX.USB_EP_LWFP x; IMX.USB_EP_FALRM x; IMX.USB_EP_FRDP x; IMX.USB_EP_FWRP x].
(** property: the registers of the device and of its six endpoints are at
    different places, the bytes of a data register inside it. *)
Theorem imx_offsets :
  NoDup (IMX.REGS.*2 ++ (seq 0 (Z.to_nat IMX.IMX_USB_NB_EP) ≫= fun x => ep_regs (Z.of_nat x))) /\
  forall x, IMX.USB_EP_FDAT1 x = IMX.USB_EP_FDAT x + 1 /\ IMX.USB_EP_FDAT2 x = IMX.USB_EP_FDAT x + 2 /\ IMX.USB_EP_FDAT3 x = IMX.USB_EP_FDAT x + 3.
Proof.
  split; [refine (bool_decide_eq_true_1 (NoDup _) _); by vm_compute|]. intros x.
  unfold IMX.USB_EP_FDAT1, IMX.USB_EP_FDAT2, IMX.USB_EP_FDAT3, IMX.USB_EP_FDAT. lia.
Qed.

(** property: the dumps: every interrupt of the register's description, and
    no other bit, has a word; a status that was put together from
    configuration, interface and setting prints these three; state names are
    those of the source. *)
Theorem imx_dumps c i a (r s : bool) st :
  0 <= c < 4 -> 0 <= i < 4 -> 0 <= a < 8 ->
  IMX.dump_usb_stat (Z.lor (Z.shiftl c 5) (Z.lor (Z.shiftl i 3) a) + Z.b2z r * 256 + Z.b2z s * 128) = (c, i, a) /\
  length (IMX.dump_intr (foldr Z.lor 0 (f_mask <$> g_fields IMX.INTR))) = length (g_fields IMX.INTR) /\
  IMX.dump_intr (Z.lnot (foldr Z.lor 0 (f_mask <$> g_fields IMX.INTR))) = [] /\
  length (IMX.dump_ep_intr (foldr Z.lor 0 (f_mask <$> g_fields IMX.EPINTR))) = length (g_fields IMX.EPINTR) /\
  IMX.dump_ep_intr (Z.lnot (foldr Z.lor 0 (f_mask <$> g_fields IMX.EPINTR))) = [] /\
  IMX.state_name !! IMX.ep0_number st = Some (IMX.ep0_enumerator st).
Proof.
  intros Hc Hi Ha. split; [|repeat split; try (by vm_compute); by destruct st].
  assert (forallb (fun c => forallb (fun i => forallb (fun a => forallb (fun h => bool_decide
    (IMX.dump_usb_stat (Z.lor (Z.shiftl c 5) (Z.lor (Z.shiftl i 3) a) + h) = (c, i, a))) [0; 128; 256; 384])
    (Z.of_nat <$> seq 0 8)) (Z.of_nat <$> seq 0 4)) (Z.of_nat <$> seq 0 4) = true) as H by (by vm_compute).
  pose proof (forall_below _ 4 H c Hc) as H1. pose proof (forall_below _ 4 H1 i Hi) as H2. pose proof (forall_below _ 8 H2 a Ha) as H3.
  cbn [forallb] in H3. rewrite !andb_true_iff, !bool_decide_eq_true in H3. destruct H3 as (? & ? & ? & ? & _).
  rewrite <- Z.add_assoc. by destruct r, s.
Qed.
Lemma imx_dumps_witness : IMX.dump_usb_stat (Z.lor (Z.shiftl 1 5) (Z.lor (Z.shiftl 2 3) 5) + Z.b2z true * 256 + Z.b2z false * 128) = (1, 2, 5).
Proof. exact (proj1 (imx_dumps 1 2 5 true false IMX.EP0_IDLE ltac:(lia) ltac:(lia) ltac:(lia))). Defined.

(** property: the data of a request is dumped only for an endpoint that
    sends: an IN endpoint, or endpoint 0 in its IN data phase; and never
    without a buffer. *)
Theorem imx_dump_req req buf a st :
  0 <= a < 256 -> IMX.dump_req req buf a st = true <->
  req = true /\ buf = true /\ ((IMX.EP_NO a = 0 /\ st = IMX.EP0_IN_DATA_PHASE) \/ (IMX.EP_NO a <> 0 /\ IMX.EP_DIR a = 1)).
Proof.
  intros Ha. destruct (imx_address_parts a Ha) as (_ & Hn & Hd). unfold IMX.dump_req, truthy.
  destruct req, buf; cbn [negb orb]; try (split; [done|intros (? & ? & _); done]).
  destruct (IMX.EP_NO a =? 0) eqn:E; cbn [negb andb orb].
  - split; [|intros (_ & _ & [[_ ->]|[? _]]); [done|lia]]. intros H. do 2 (split; [done|]). left. split; [lia|]. by destruct st.
  - split; [|intros (_ & _ & [[? _]|[_ H]]); [lia|by rewrite H]]. intros H. do 2 (split; [done|]). right. split; [lia|].
    apply negb_true_iff in H. lia.
Qed.
Lemma imx_dump_req_witness : IMX.dump_req true true 0x81 IMX.EP0_IDLE = true.
Proof. apply (imx_dump_req true true 0x81 IMX.EP0_IDLE); [lia|]. split; [done|]. split; [done|]. by right. Defined.
