(* ===== verification/SysReg.v ===== *)
(** * System registers of ARMv8 (uboot/app/boot/armv8/common/sysreg.h)

    The encoding of system registers and of the instructions that access
    them, the names the header gives them, the fields of the control and
    identification registers, and the tests of the exception level that the
    crash handler of the U-Boot application uses. *)

From Stdlib Require Import ZArith.
From stdpp Require Import base list strings.
From S2P Require Import Prelude HwRegs UbootApp.

Module A64.
Definition Op0_shift : Z := 19.

Definition Op0_mask : Z := 0x3.

Definition Op1_shift : Z := 16.

Definition Op1_mask : Z := 0x7.

Definition CRn_shift : Z := 12.

Definition CRn_mask : Z := 0xf.

Definition CRm_shift : Z := 8.

Definition CRm_mask : Z := 0xf.

Definition Op2_shift : Z := 5.

Definition Op2_mask : Z := 0x7.

(** The name of a register in an instruction. *)
Definition sys_reg (op0 op1 crn crm op2 : Z) : Z :=
  Z.lor (Z.lor (Z.lor (Z.lor (Z.shiftl op0 Op0_shift) (Z.shiftl op1 Op1_shift)) (Z.shiftl crn CRn_shift)) (Z.shiftl crm CRm_shift))
    (Z.shiftl op2 Op2_shift).
Definition sys_insn := sys_reg.
Definition sys_reg_Op0 (id : Z) : Z := Z.land (Z.shiftr id Op0_shift) Op0_mask.
Definition sys_reg_Op1 (id : Z) : Z := Z.land (Z.shiftr id Op1_shift) Op1_mask.
Definition sys_reg_CRn (id : Z) : Z := Z.land (Z.shiftr id CRn_shift) CRn_mask.
Definition sys_reg_CRm (id : Z) : Z := Z.land (Z.shiftr id CRm_shift) CRm_mask.
Definition sys_reg_Op2 (id : Z) : Z := Z.land (Z.shiftr id Op2_shift) Op2_mask.

(** The word of an instruction for [.long], by CONFIG_CPU_BIG_ENDIAN. *)
Definition INSTR_BSWAP (big : bool) (x : Z) : Z :=
  if big then
    Z.lor (Z.lor (Z.lor (Z.land (u32 (Z.shiftl x 24)) 0xff000000) (Z.land (u32 (Z.shiftl x 8)) 0x00ff0000))
      (Z.land (Z.shiftr x 8) 0x0000ff00)) (Z.land (Z.shiftr x 24) 0x000000ff)
  else x.

Definition REG_PSTATE_PAN_IMM : Z := sys_reg 0 0 4 0 4.
Definition REG_PSTATE_UAO_IMM : Z := sys_reg 0 0 4 0 3.
Definition truth (x : Z) : Z := Z.b2z (negb (x =? 0)).
(** The instruction words that [SET_PSTATE_PAN] and [SET_PSTATE_UAO] emit. *)
Definition SET_PSTATE_PAN (x : Z) : Z :=
  Z.lor (Z.lor (Z.lor 0xd5000000 REG_PSTATE_PAN_IMM) (Z.shiftl (truth x) 8)) 0x1f.
Definition SET_PSTATE_UAO (x : Z) : Z :=
  Z.lor (Z.lor (Z.lor 0xd5000000 REG_PSTATE_UAO_IMM) (Z.shiftl (truth x) 8)) 0x1f.

(** Cache maintenance by set and way. *)
Definition CACHE : list (string * Z) :=
  [("SYS_DC_ISW", sys_insn 1 0 7 6 2); ("SYS_DC_CSW", sys_insn 1 0 7 10 2); ("SYS_DC_CISW", sys_insn 1 0 7 14 2)].

Definition SYS_DBGBVRn_EL1 (n : Z) : Z := sys_reg 2 0 0 n 4.

Definition SYS_DBGBCRn_EL1 (n : Z) : Z := sys_reg 2 0 0 n 5.

Definition SYS_DBGWVRn_EL1 (n : Z) : Z := sys_reg 2 0 0 n 6.

Definition SYS_DBGWCRn_EL1 (n : Z) : Z := sys_reg 2 0 0 n 7.

(** Debug. *)
Definition DEBUG : list (string * Z) :=
  [("SYS_OSDTRRX_EL1", sys_reg 2 0 0 0 2); ("SYS_MDCCINT_EL1", sys_reg 2 0 0 2 0);
   ("SYS_MDSCR_EL1", sys_reg 2 0 0 2 2); ("SYS_OSDTRTX_EL1", sys_reg 2 0 0 3 2);
   ("SYS_OSECCR_EL1", sys_reg 2 0 0 6 2); ("SYS_MDRAR_EL1", sys_reg 2 0 1 0 0);
   ("SYS_OSLAR_EL1", sys_reg 2 0 1 0 4); ("SYS_OSLSR_EL1", sys_reg 2 0 1 1 4);
   ("SYS_OSDLR_EL1", sys_reg 2 0 1 3 4); ("SYS_DBGPRCR_EL1", sys_reg 2 0 1 4 4);
   ("SYS_DBGCLAIMSET_EL1", sys_reg 2 0 7 8 6); ("SYS_DBGCLAIMCLR_EL1", sys_reg 2 0 7 9 6);
   ("SYS_DBGAUTHSTATUS_EL1", sys_reg 2 0 7 14 6); ("SYS_MDCCSR_EL0", sys_reg 2 3 0 1 0);
   ("SYS_DBGDTR_EL0", sys_reg 2 3 0 4 0); ("SYS_DBGDTRRX_EL0", sys_reg 2 3 0 5 0);
   ("SYS_DBGDTRTX_EL0", sys_reg 2 3 0 5 0); ("SYS_DBGVCR32_EL2", sys_reg 2 4 0 7 0)].

(** Identification. *)
Definition ID : list (string * Z) :=
  [("SYS_MIDR_EL1", sys_reg 3 0 0 0 0); ("SYS_MPIDR_EL1", sys_reg 3 0 0 0 5);
   ("SYS_REVIDR_EL1", sys_reg 3 0 0 0 6); ("SYS_ID_PFR0_EL1", sys_reg 3 0 0 1 0);
   ("SYS_ID_PFR1_EL1", sys_reg 3 0 0 1 1); ("SYS_ID_DFR0_EL1", sys_reg 3 0 0 1 2);
   ("SYS_ID_AFR0_EL1", sys_reg 3 0 0 1 3); ("SYS_ID_MMFR0_EL1", sys_reg 3 0 0 1 4);
   ("SYS_ID_MMFR1_EL1", sys_reg 3 0 0 1 5); ("SYS_ID_MMFR2_EL1", sys_reg 3 0 0 1 6);
   ("SYS_ID_MMFR3_EL1", sys_reg 3 0 0 1 7); ("SYS_ID_ISAR0_EL1", sys_reg 3 0 0 2 0);
   ("SYS_ID_ISAR1_EL1", sys_reg 3 0 0 2 1); ("SYS_ID_ISAR2_EL1", sys_reg 3 0 0 2 2);
   ("SYS_ID_ISAR3_EL1", sys_reg 3 0 0 2 3); ("SYS_ID_ISAR4_EL1", sys_reg 3 0 0 2 4);
   ("SYS_ID_ISAR5_EL1", sys_reg 3 0 0 2 5); ("SYS_ID_MMFR4_EL1", sys_reg 3 0 0 2 6);
   ("SYS_MVFR0_EL1", sys_reg 3 0 0 3 0); ("SYS_MVFR1_EL1", sys_reg 3 0 0 3 1);
   ("SYS_MVFR2_EL1", sys_reg 3 0 0 3 2); ("SYS_ID_AA64PFR0_EL1", sys_reg 3 0 0 4 0);
   ("SYS_ID_AA64PFR1_EL1", sys_reg 3 0 0 4 1); ("SYS_ID_AA64DFR0_EL1", sys_reg 3 0 0 5 0);
   ("SYS_ID_AA64DFR1_EL1", sys_reg 3 0 0 5 1); ("SYS_ID_AA64ISAR0_EL1", sys_reg 3 0 0 6 0);
   ("SYS_ID_AA64ISAR1_EL1", sys_reg 3 0 0 6 1); ("SYS_ID_AA64MMFR0_EL1", sys_reg 3 0 0 7 0);
   ("SYS_ID_AA64MMFR1_EL1", sys_reg 3 0 0 7 1); ("SYS_ID_AA64MMFR2_EL1", sys_reg 3 0 0 7 2)].

(** Control, translation, faults, memory attributes. *)
Definition CONTROL : list (string * Z) :=
  [("SYS_SCTLR_EL1", sys_reg 3 0 1 0 0); ("SYS_ACTLR_EL1", sys_reg 3 0 1 0 1);
   ("SYS_CPACR_EL1", sys_reg 3 0 1 0 2); ("SYS_TTBR0_EL1", sys_reg 3 0 2 0 0);
   ("SYS_TTBR1_EL1", sys_reg 3 0 2 0 1); ("SYS_TCR_EL1", sys_reg 3 0 2 0 2);
   ("SYS_ICC_PMR_EL1", sys_reg 3 0 4 6 0); ("SYS_AFSR0_EL1", sys_reg 3 0 5 1 0);
   ("SYS_AFSR1_EL1", sys_reg 3 0 5 1 1); ("SYS_ESR_EL1", sys_reg 3 0 5 2 0); ("SYS_FAR_EL1", sys_reg 3 0 6 0 0);
   ("SYS_PAR_EL1", sys_reg 3 0 7 4 0); ("SYS_PMINTENSET_EL1", sys_reg 3 0 9 14 1);
   ("SYS_PMINTENCLR_EL1", sys_reg 3 0 9 14 2); ("SYS_MAIR_EL1", sys_reg 3 0 10 2 0);
   ("SYS_AMAIR_EL1", sys_reg 3 0 10 3 0); ("SYS_VBAR_EL1", sys_reg 3 0 12 0 0)].

Definition SYS_ICC_AP0Rn_EL1 (n : Z) : Z := sys_reg 3 0 12 8 (Z.lor 4 n).

Definition SYS_ICC_AP1Rn_EL1 (n : Z) : Z := sys_reg 3 0 12 9 n.

(** The interface of the interrupt controller. *)
Definition ICC : list (string * Z) :=
  [("SYS_ICC_IAR0_EL1", sys_reg 3 0 12 8 0); ("SYS_ICC_EOIR0_EL1", sys_reg 3 0 12 8 1);
   ("SYS_ICC_HPPIR0_EL1", sys_reg 3 0 12 8 2); ("SYS_ICC_BPR0_EL1", sys_reg 3 0 12 8 3);
   ("SYS_ICC_AP0R0_EL1", SYS_ICC_AP0Rn_EL1 0); ("SYS_ICC_AP0R1_EL1", SYS_ICC_AP0Rn_EL1 1);
   ("SYS_ICC_AP0R2_EL1", SYS_ICC_AP0Rn_EL1 2); ("SYS_ICC_AP0R3_EL1", SYS_ICC_AP0Rn_EL1 3);
   ("SYS_ICC_AP1R0_EL1", SYS_ICC_AP1Rn_EL1 0); ("SYS_ICC_AP1R1_EL1", SYS_ICC_AP1Rn_EL1 1);
   ("SYS_ICC_AP1R2_EL1", SYS_ICC_AP1Rn_EL1 2); ("SYS_ICC_AP1R3_EL1", SYS_ICC_AP1Rn_EL1 3);
   ("SYS_ICC_DIR_EL1", sys_reg 3 0 12 11 1); ("SYS_ICC_RPR_EL1", sys_reg 3 0 12 11 3);
   ("SYS_ICC_SGI1R_EL1", sys_reg 3 0 12 11 5); ("SYS_ICC_IAR1_EL1", sys_reg 3 0 12 12 0);
   ("SYS_ICC_EOIR1_EL1", sys_reg 3 0 12 12 1); ("SYS_ICC_HPPIR1_EL1", sys_reg 3 0 12 12 2);
   ("SYS_ICC_BPR1_EL1", sys_reg 3 0 12 12 3); ("SYS_ICC_CTLR_EL1", sys_reg 3 0 12 12 4);
   ("SYS_ICC_SRE_EL1", sys_reg 3 0 12 12 5); ("SYS_ICC_IGRPEN0_EL1", sys_reg 3 0 12 12 6);
   ("SYS_ICC_IGRPEN1_EL1", sys_reg 3 0 12 12 7)].

(** Contexts, caches, types. *)
Definition CONTEXT : list (string * Z) :=
  [("SYS_CONTEXTIDR_EL1", sys_reg 3 0 13 0 1); ("SYS_TPIDR_EL1", sys_reg 3 0 13 0 4);
   ("SYS_CNTKCTL_EL1", sys_reg 3 0 14 1 0); ("SYS_CLIDR_EL1", sys_reg 3 1 0 0 1);
   ("SYS_AIDR_EL1", sys_reg 3 1 0 0 7); ("SYS_CSSELR_EL1", sys_reg 3 2 0 0 0); ("SYS_CTR_EL0", sys_reg 3 3 0 0 1);
   ("SYS_DCZID_EL0", sys_reg 3 3 0 0 7)].

(** The performance monitor. *)
Definition PMU : list (string * Z) :=
  [("SYS_PMCR_EL0", sys_reg 3 3 9 12 0); ("SYS_PMCNTENSET_EL0", sys_reg 3 3 9 12 1);
   ("SYS_PMCNTENCLR_EL0", sys_reg 3 3 9 12 2); ("SYS_PMOVSCLR_EL0", sys_reg 3 3 9 12 3);
   ("SYS_PMSWINC_EL0", sys_reg 3 3 9 12 4); ("SYS_PMSELR_EL0", sys_reg 3 3 9 12 5);
   ("SYS_PMCEID0_EL0", sys_reg 3 3 9 12 6); ("SYS_PMCEID1_EL0", sys_reg 3 3 9 12 7);
   ("SYS_PMCCNTR_EL0", sys_reg 3 3 9 13 0); ("SYS_PMXEVTYPER_EL0", sys_reg 3 3 9 13 1);
   ("SYS_PMXEVCNTR_EL0", sys_reg 3 3 9 13 2); ("SYS_PMUSERENR_EL0", sys_reg 3 3 9 14 0);
   ("SYS_PMOVSSET_EL0", sys_reg 3 3 9 14 3)].

(** Threads and timers. *)
Definition TIMER : list (string * Z) :=
  [("SYS_TPIDR_EL0", sys_reg 3 3 13 0 2); ("SYS_TPIDRRO_EL0", sys_reg 3 3 13 0 3);
   ("SYS_CNTFRQ_EL0", sys_reg 3 3 14 0 0); ("SYS_CNTP_TVAL_EL0", sys_reg 3 3 14 2 0);
   ("SYS_CNTP_CTL_EL0", sys_reg 3 3 14 2 1); ("SYS_CNTP_CVAL_EL0", sys_reg 3 3 14 2 2)].

(** Event counters of the performance monitor and their types. *)
Definition PMEV_op2 (n : Z) : Z := Z.land n 0x7.
Definition CNTR_CRm (n : Z) : Z := Z.lor 0x8 (Z.land (Z.shiftr n 3) 0x3).
Definition SYS_PMEVCNTRn_EL0 (n : Z) : Z := sys_reg 3 3 14 (CNTR_CRm n) (PMEV_op2 n).
Definition TYPER_CRm (n : Z) : Z := Z.lor 0xc (Z.land (Z.shiftr n 3) 0x3).
Definition SYS_PMEVTYPERn_EL0 (n : Z) : Z := sys_reg 3 3 14 (TYPER_CRm n) (PMEV_op2 n).

(** The cycle counter filter, and registers of level 2. *)
Definition EL2 : list (string * Z) :=
  [("SYS_PMCCFILTR_EL0", sys_reg 3 3 14 15 7); ("SYS_DACR32_EL2", sys_reg 3 4 3 0 0);
   ("SYS_IFSR32_EL2", sys_reg 3 4 5 0 1); ("SYS_FPEXC32_EL2", sys_reg 3 4 5 3 0)].

Definition SYS__AP0Rx_EL2 (x : Z) : Z := sys_reg 3 4 12 8 x.

Definition SYS__AP1Rx_EL2 (x : Z) : Z := sys_reg 3 4 12 9 x.

Definition SYS__LR0_EL2 (x : Z) : Z := sys_reg 3 4 12 12 x.

Definition SYS__LR8_EL2 (x : Z) : Z := sys_reg 3 4 12 13 x.

(** The virtual interface of the interrupt controller. *)
Definition ICH : list (string * Z) :=
  [("SYS_ICH_AP0R0_EL2", SYS__AP0Rx_EL2 0); ("SYS_ICH_AP0R1_EL2", SYS__AP0Rx_EL2 1);
   ("SYS_ICH_AP0R2_EL2", SYS__AP0Rx_EL2 2); ("SYS_ICH_AP0R3_EL2", SYS__AP0Rx_EL2 3);
   ("SYS_ICH_AP1R0_EL2", SYS__AP1Rx_EL2 0); ("SYS_ICH_AP1R1_EL2", SYS__AP1Rx_EL2 1);
   ("SYS_ICH_AP1R2_EL2", SYS__AP1Rx_EL2 2); ("SYS_ICH_AP1R3_EL2", SYS__AP1Rx_EL2 3);
   ("SYS_ICH_VSEIR_EL2", sys_reg 3 4 12 9 4); ("SYS_ICC_SRE_EL2", sys_reg 3 4 12 9 5);
   ("SYS_ICH_HCR_EL2", sys_reg 3 4 12 11 0); ("SYS_ICH_VTR_EL2", sys_reg 3 4 12 11 1);
   ("SYS_ICH_MISR_EL2", sys_reg 3 4 12 11 2); ("SYS_ICH_EISR_EL2", sys_reg 3 4 12 11 3);
   ("SYS_ICH_ELSR_EL2", sys_reg 3 4 12 11 5); ("SYS_ICH_VMCR_EL2", sys_reg 3 4 12 11 7);
   ("SYS_ICH_LR0_EL2", SYS__LR0_EL2 0); ("SYS_ICH_LR1_EL2", SYS__LR0_EL2 1);
   ("SYS_ICH_LR2_EL2", SYS__LR0_EL2 2); ("SYS_ICH_LR3_EL2", SYS__LR0_EL2 3);
   ("SYS_ICH_LR4_EL2", SYS__LR0_EL2 4); ("SYS_ICH_LR5_EL2", SYS__LR0_EL2 5);
   ("SYS_ICH_LR6_EL2", SYS__LR0_EL2 6); ("SYS_ICH_LR7_EL2", SYS__LR0_EL2 7);
   ("SYS_ICH_LR8_EL2", SYS__LR8_EL2 0); ("SYS_ICH_LR9_EL2", SYS__LR8_EL2 1);
   ("SYS_ICH_LR10_EL2", SYS__LR8_EL2 2); ("SYS_ICH_LR11_EL2", SYS__LR8_EL2 3);
   ("SYS_ICH_LR12_EL2", SYS__LR8_EL2 4); ("SYS_ICH_LR13_EL2", SYS__LR8_EL2 5);
   ("SYS_ICH_LR14_EL2", SYS__LR8_EL2 6); ("SYS_ICH_LR15_EL2", SYS__LR8_EL2 7)].

Definition REGISTERS : list (string * Z) := concat [CACHE; DEBUG; ID; CONTROL; ICC; CONTEXT; PMU; TIMER; EL2; ICH].

(** Bits of the system control registers: common ones, those of level 1. *)
Definition SCTLR : group := Grp []
  [Fld "SCTLR_ELx_EE" (bit 25) []; Fld "SCTLR_ELx_I" (bit 12) []; Fld "SCTLR_ELx_SA" (bit 3) [];
   Fld "SCTLR_ELx_C" (bit 2) []; Fld "SCTLR_ELx_A" (bit 1) []; Fld "SCTLR_ELx_M" 1 []].

Definition SCTLR_EL2_RES1 : Z := foldr Z.lor 0
  [bit 4; bit 5; bit 11; bit 16; bit 18; bit 22; bit 23; bit 28; bit 29].

Definition SCTLR_ELx_FLAGS : Z := foldr Z.lor 0 [1; bit 1; bit 2; bit 3; bit 12].

Definition SCTLR_EL1 : group := Grp []
  [Fld "SCTLR_EL1_UCI" (bit 26) []; Fld "SCTLR_EL1_SPAN" (bit 23) []; Fld "SCTLR_EL1_UCT" (bit 15) [];
   Fld "SCTLR_EL1_SED" (bit 8) []; Fld "SCTLR_EL1_CP15BEN" (bit 5) []].

(** A field of an identification register has four bits. *)
Definition F4 (name : string) (n : Z) (values : list (string * Z)) : pfield := PF name (Z.shiftl 0xf n) n values.

Definition AA64ISAR0 : list pfield :=
  [F4 "ID_AA64ISAR0_RDM_SHIFT" 28 []; F4 "ID_AA64ISAR0_ATOMICS_SHIFT" 20 []; F4 "ID_AA64ISAR0_CRC32_SHIFT" 16 [];
   F4 "ID_AA64ISAR0_SHA2_SHIFT" 12 []; F4 "ID_AA64ISAR0_SHA1_SHIFT" 8 []; F4 "ID_AA64ISAR0_AES_SHIFT" 4 []].

Definition AA64ISAR1 : list pfield :=
  [F4 "ID_AA64ISAR1_LRCPC_SHIFT" 20 []; F4 "ID_AA64ISAR1_FCMA_SHIFT" 16 []; F4 "ID_AA64ISAR1_JSCVT_SHIFT" 12 [];
   F4 "ID_AA64ISAR1_DPB_SHIFT" 0 []].

Definition AA64PFR0 : list pfield :=
  [F4 "ID_AA64PFR0_CSV3_SHIFT" 60 []; F4 "ID_AA64PFR0_CSV2_SHIFT" 56 []; F4 "ID_AA64PFR0_GIC_SHIFT" 24 [];
   F4 "ID_AA64PFR0_ASIMD_SHIFT" 20 [("ID_AA64PFR0_ASIMD_NI", 0xf); ("ID_AA64PFR0_ASIMD_SUPPORTED", 0x0)];
   F4 "ID_AA64PFR0_FP_SHIFT" 16 [("ID_AA64PFR0_FP_NI", 0xf); ("ID_AA64PFR0_FP_SUPPORTED", 0x0)];
   F4 "ID_AA64PFR0_EL3_SHIFT" 12 []; F4 "ID_AA64PFR0_EL2_SHIFT" 8 [];
   F4 "ID_AA64PFR0_EL1_SHIFT" 4 [("ID_AA64PFR0_EL1_64BIT_ONLY", 0x1)];
   F4 "ID_AA64PFR0_EL0_SHIFT" 0 [("ID_AA64PFR0_EL0_64BIT_ONLY", 0x1); ("ID_AA64PFR0_EL0_32BIT_64BIT", 0x2)]].

Definition AA64MMFR0 : list pfield :=
  [F4 "ID_AA64MMFR0_TGRAN4_SHIFT" 28 [("ID_AA64MMFR0_TGRAN4_NI", 0xf); ("ID_AA64MMFR0_TGRAN4_SUPPORTED", 0x0)];
   F4 "ID_AA64MMFR0_TGRAN64_SHIFT" 24 [("ID_AA64MMFR0_TGRAN64_NI", 0xf); ("ID_AA64MMFR0_TGRAN64_SUPPORTED", 0x0)];
   F4 "ID_AA64MMFR0_TGRAN16_SHIFT" 20 [("ID_AA64MMFR0_TGRAN16_NI", 0x0); ("ID_AA64MMFR0_TGRAN16_SUPPORTED", 0x1)];
   F4 "ID_AA64MMFR0_BIGENDEL0_SHIFT" 16 []; F4 "ID_AA64MMFR0_SNSMEM_SHIFT" 12 [];
   F4 "ID_AA64MMFR0_BIGENDEL_SHIFT" 8 []; F4 "ID_AA64MMFR0_ASID_SHIFT" 4 [];
   F4 "ID_AA64MMFR0_PARANGE_SHIFT" 0 []].

Definition AA64MMFR1 : list pfield :=
  [F4 "ID_AA64MMFR1_PAN_SHIFT" 20 []; F4 "ID_AA64MMFR1_LOR_SHIFT" 16 []; F4 "ID_AA64MMFR1_HPD_SHIFT" 12 [];
   F4 "ID_AA64MMFR1_VHE_SHIFT" 8 [];
   F4 "ID_AA64MMFR1_VMIDBITS_SHIFT" 4 [("ID_AA64MMFR1_VMIDBITS_8", 0); ("ID_AA64MMFR1_VMIDBITS_16", 2)];
   F4 "ID_AA64MMFR1_HADBS_SHIFT" 0 []].

Definition AA64MMFR2 : list pfield :=
  [F4 "ID_AA64MMFR2_LVA_SHIFT" 16 []; F4 "ID_AA64MMFR2_IESB_SHIFT" 12 []; F4 "ID_AA64MMFR2_LSM_SHIFT" 8 [];
   F4 "ID_AA64MMFR2_UAO_SHIFT" 4 []; F4 "ID_AA64MMFR2_CNP_SHIFT" 0 []].

Definition AA64DFR0 : list pfield :=
  [F4 "ID_AA64DFR0_PMSVER_SHIFT" 32 []; F4 "ID_AA64DFR0_CTX_CMPS_SHIFT" 28 []; F4 "ID_AA64DFR0_WRPS_SHIFT" 20 [];
   F4 "ID_AA64DFR0_BRPS_SHIFT" 12 []; F4 "ID_AA64DFR0_PMUVER_SHIFT" 8 []; F4 "ID_AA64DFR0_TRACEVER_SHIFT" 4 [];
   F4 "ID_AA64DFR0_DEBUGVER_SHIFT" 0 []].

Definition ISAR5 : list pfield :=
  [F4 "ID_ISAR5_RDM_SHIFT" 24 []; F4 "ID_ISAR5_CRC32_SHIFT" 16 []; F4 "ID_ISAR5_SHA2_SHIFT" 12 [];
   F4 "ID_ISAR5_SHA1_SHIFT" 8 []; F4 "ID_ISAR5_AES_SHIFT" 4 []; F4 "ID_ISAR5_SEVL_SHIFT" 0 []].

Definition MVFR0 : list pfield :=
  [F4 "MVFR0_FPROUND_SHIFT" 28 []; F4 "MVFR0_FPSHVEC_SHIFT" 24 []; F4 "MVFR0_FPSQRT_SHIFT" 20 [];
   F4 "MVFR0_FPDIVIDE_SHIFT" 16 []; F4 "MVFR0_FPTRAP_SHIFT" 12 []; F4 "MVFR0_FPDP_SHIFT" 8 [];
   F4 "MVFR0_FPSP_SHIFT" 4 []; F4 "MVFR0_SIMD_SHIFT" 0 []].

Definition MVFR1 : list pfield :=
  [F4 "MVFR1_SIMDFMAC_SHIFT" 28 []; F4 "MVFR1_FPHP_SHIFT" 24 []; F4 "MVFR1_SIMDHP_SHIFT" 20 [];
   F4 "MVFR1_SIMDSP_SHIFT" 16 []; F4 "MVFR1_SIMDINT_SHIFT" 12 []; F4 "MVFR1_SIMDLS_SHIFT" 8 [];
   F4 "MVFR1_FPDNAN_SHIFT" 4 []; F4 "MVFR1_FPFTZ_SHIFT" 0 []].

Definition ID_AA64MMFR0_TGRAN4_SHIFT : Z := 28.

Definition ID_AA64MMFR0_TGRAN64_SHIFT : Z := 24.

Definition ID_AA64MMFR0_TGRAN16_SHIFT : Z := 20.

Definition ID_AA64MMFR0_TGRAN4_SUPPORTED : Z := 0x0.

Definition ID_AA64MMFR0_TGRAN64_SUPPORTED : Z := 0x0.

Definition ID_AA64MMFR0_TGRAN16_SUPPORTED : Z := 0x1.

Definition ID_FIELDS : list pgroup := (fun fs => PGrp [] fs) <$>
  [AA64ISAR0; AA64ISAR1; AA64PFR0; AA64MMFR0; AA64MMFR1; AA64MMFR2; AA64DFR0; ISAR5; MVFR0; MVFR1].

(** The granule of translation, by the configured size of a page. *)
Inductive pages := ARM64_4K_PAGES | ARM64_16K_PAGES | ARM64_64K_PAGES.
Definition ID_AA64MMFR0_TGRAN_SHIFT (p : pages) : Z :=
  match p with ARM64_4K_PAGES => ID_AA64MMFR0_TGRAN4_SHIFT | ARM64_16K_PAGES => ID_AA64MMFR0_TGRAN16_SHIFT | ARM64_64K_PAGES => ID_AA64MMFR0_TGRAN64_SHIFT end.
Definition ID_AA64MMFR0_TGRAN_SUPPORTED (p : pages) : Z :=
  match p with ARM64_4K_PAGES => ID_AA64MMFR0_TGRAN4_SUPPORTED | ARM64_16K_PAGES => ID_AA64MMFR0_TGRAN16_SUPPORTED | ARM64_64K_PAGES => ID_AA64MMFR0_TGRAN64_SUPPORTED end.
Definition SYS_MPIDR_SAFE_VAL : Z := bit 31.

(** General registers: [x0] to [x30], and [xzr]. *)
Inductive xreg := X (n : Z) | XZR.
Definition reg_num (r : xreg) : Z := match r with X n => n | XZR => 31 end.
(** The instruction words of the assembler macros [mrs_s] and [msr_s]. *)
Definition mrs_s (rt : xreg) (sreg : Z) : Z := Z.lor (Z.lor 0xd5200000 sreg) (reg_num rt).
Definition msr_s (sreg : Z) (rt : xreg) : Z := Z.lor (Z.lor 0xd5000000 sreg) (reg_num rt).

(** What the tests of the state read from [CurrentEL] and [spsr_el1]/[spsr_el3]. *)
Definition get_elx (CurrentEL : Z) : Z := Z.land (Z.shiftr CurrentEL 2) 0x3.
Definition is_el3 (CurrentEL : Z) : bool := Z.land (Z.shiftr CurrentEL 2) 0x3 =? 3.
Definition in_isr_el1 (spsr_el1 : Z) : bool := Z.land (Z.shiftr spsr_el1 5) 0x1 =? 1.
Definition in_isr_el3 (spsr_el3 : Z) : bool := Z.land (Z.shiftr spsr_el3 5) 0x1 =? 1.
End A64.
Import A64.

(** ** Encodings as sums *)
Lemma land_shiftr_div v k s : 0 <= k -> 0 <= s -> Z.land (Z.shiftr v k) (Z.ones s) = v / 2 ^ k mod 2 ^ s.
Proof. intros Hk Hs. by rewrite Z.land_ones, Z.shiftr_div_pow2 by done. Qed.

Definition reg_fields (op0 op1 crn crm op2 : Z) : Prop :=
  0 <= op0 < 4 /\ 0 <= op1 < 8 /\ 0 <= crn < 16 /\ 0 <= crm < 16 /\ 0 <= op2 < 8.
#[export] Instance reg_fields_dec op0 op1 crn crm op2 : Decision (reg_fields op0 op1 crn crm op2).
Proof. unfold reg_fields. apply _. Defined.

Lemma sys_reg_sum op0 op1 crn crm op2 :
  reg_fields op0 op1 crn crm op2 ->
  sys_reg op0 op1 crn crm op2 = op0 * 2 ^ 19 + op1 * 2 ^ 16 + crn * 2 ^ 12 + crm * 2 ^ 8 + op2 * 2 ^ 5.
Proof.
  intros (H0 & H1 & Hn & Hm & H2). unfold sys_reg, Op0_shift, Op1_shift, CRn_shift, CRm_shift, Op2_shift.
  rewrite <- !Z.lor_assoc, (Z.shiftl_mul_pow2 op2) by lia. rewrite (lor_shiftl crm), (lor_shiftl crn), (lor_shiftl op1), (lor_shiftl op0) by lia. lia.
Qed.

Lemma sys_reg_parts id :
  sys_reg_Op0 id = id / 2 ^ 19 mod 4 /\ sys_reg_Op1 id = id / 2 ^ 16 mod 8 /\ sys_reg_CRn id = id / 2 ^ 12 mod 16 /\
  sys_reg_CRm id = id / 2 ^ 8 mod 16 /\ sys_reg_Op2 id = id / 2 ^ 5 mod 8.
Proof.
  unfold sys_reg_Op0, sys_reg_Op1, sys_reg_CRn, sys_reg_CRm, sys_reg_Op2.
  split_and!; [by apply (land_shiftr_div _ _ 2)|by apply (land_shiftr_div _ _ 3)|by apply (land_shiftr_div _ _ 4)..|by apply (land_shiftr_div _ _ 3)].
Qed.

(** property: a system register is the name of its five parts: each decoder
    gets its part back from the encoding, which has bits 5 to 20 only; and any
    such number is the encoding of its parts. *)
Theorem sys_reg_roundtrip op0 op1 crn crm op2 id :
  reg_fields op0 op1 crn crm op2 -> 0 <= id < 2 ^ 21 -> Z.land id 0x1f = 0 ->
  (sys_reg_Op0 (sys_reg op0 op1 crn crm op2) = op0 /\ sys_reg_Op1 (sys_reg op0 op1 crn crm op2) = op1 /\
   sys_reg_CRn (sys_reg op0 op1 crn crm op2) = crn /\ sys_reg_CRm (sys_reg op0 op1 crn crm op2) = crm /\
   sys_reg_Op2 (sys_reg op0 op1 crn crm op2) = op2 /\
   0 <= sys_reg op0 op1 crn crm op2 < 2 ^ 21 /\ Z.land (sys_reg op0 op1 crn crm op2) 0x1f = 0) /\
  sys_reg (sys_reg_Op0 id) (sys_reg_Op1 id) (sys_reg_CRn id) (sys_reg_CRm id) (sys_reg_Op2 id) = id.
Proof.
  intros H Hid H5. pose proof H as (H0 & H1 & Hn & Hm & H2). change 0x1f with (Z.ones 5) in *.
  rewrite Z.land_ones in * by lia. split.
  - destruct (sys_reg_parts (sys_reg op0 op1 crn crm op2)) as (-> & -> & -> & -> & ->).
    rewrite (sys_reg_sum _ _ _ _ _ H). split_and!; Z.to_euclidean_division_equations; lia.
  - destruct (sys_reg_parts id) as (-> & -> & -> & -> & ->). rewrite sys_reg_sum.
    + Z.to_euclidean_division_equations; lia.
    + unfold reg_fields. split_and!; Z.to_euclidean_division_equations; lia.
Qed.
Lemma sys_reg_roundtrip_witness :
  sys_reg_CRn (sys_reg 3 3 9 12 6) = 9 /\ sys_reg (sys_reg_Op0 0x1b9cc0) (sys_reg_Op1 0x1b9cc0) (sys_reg_CRn 0x1b9cc0) (sys_reg_CRm 0x1b9cc0) (sys_reg_Op2 0x1b9cc0) = 0x1b9cc0.
Proof.
  destruct (sys_reg_roundtrip 3 3 9 12 6 0x1b9cc0) as [(_ & _ & H & _) H'];
    [by vm_compute|lia|by vm_compute|by split].
Defined.

Lemma sys_reg_low op0 op1 crn crm op2 x :
  reg_fields op0 op1 crn crm op2 -> 0 <= x < 32 ->
  Z.lor (sys_reg op0 op1 crn crm op2) x = sys_reg op0 op1 crn crm op2 + x.
Proof.
  intros H Hx. rewrite sys_reg_sum by done.
  replace (op0 * 2 ^ 19 + op1 * 2 ^ 16 + crn * 2 ^ 12 + crm * 2 ^ 8 + op2 * 2 ^ 5)
    with ((op0 * 2 ^ 14 + op1 * 2 ^ 11 + crn * 2 ^ 7 + crm * 2 ^ 3 + op2) * 2 ^ 5) by lia.
  rewrite <- Z.shiftl_mul_pow2, lor_shiftl, Z.shiftl_mul_pow2 by lia. done.
Qed.

(** ** Instructions *)
Definition is_xreg (r : xreg) : Prop := match r with X n => 0 <= n < 31 | XZR => True end.
Lemma reg_num_range r : is_xreg r -> 0 <= reg_num r < 32.
Proof. destruct r; simpl; lia. Qed.
Lemma reg_num_inj r r' : is_xreg r -> is_xreg r' -> reg_num r = reg_num r' -> r = r'.
Proof. destruct r, r'; simpl; intros; try lia; by f_equal. Qed.

(** The words with the fixed bits of [mrs] and [msr] above the register. *)
Lemma system_word top op0 op1 crn crm op2 r :
  reg_fields op0 op1 crn crm op2 -> is_xreg r ->
  Z.lor (Z.lor (Z.shiftl top 21) (sys_reg op0 op1 crn crm op2)) (reg_num r) =
  top * 2 ^ 21 + sys_reg op0 op1 crn crm op2 + reg_num r.
Proof.
  intros H Hr%reg_num_range. rewrite <- Z.lor_assoc, sys_reg_low by done.
  pose proof H as (H0 & H1 & Hn & Hm & H2). rewrite lor_shiftl; [lia..|]. rewrite (sys_reg_sum _ _ _ _ _ H). lia.
Qed.

(** What is in such a word. *)
Definition system_parts (op0 op1 crn crm op2 n w : Z) : Prop :=
  sys_reg_Op0 w = op0 /\ sys_reg_Op1 w = op1 /\ sys_reg_CRn w = crn /\ sys_reg_CRm w = crm /\ sys_reg_Op2 w = op2 /\
  Z.land w 0x1f = n /\ Z.shiftr w 22 = 0x354 /\ 0 <= w < 2 ^ 32.
Lemma system_word_parts l op0 op1 crn crm op2 n :
  reg_fields op0 op1 crn crm op2 -> 0 <= n < 32 ->
  let w := (0x6a8 + Z.b2z l) * 2 ^ 21 + sys_reg op0 op1 crn crm op2 + n in
  system_parts op0 op1 crn crm op2 n w /\ Z.testbit w 21 = l.
Proof.
  intros H Hn w. unfold w. rewrite (sys_reg_sum _ _ _ _ _ H). clear w. destruct H as (H0 & H1 & Hcn & Hm & H2). split.
  - unfold system_parts. match goal with |- context [sys_reg_Op0 ?w] => destruct (sys_reg_parts w) as (-> & -> & -> & -> & ->) end.
    change 0x1f with (Z.ones 5). rewrite Z.land_ones, Z.shiftr_div_pow2 by lia.
    destruct l; cbn [Z.b2z]; split_and!; Z.to_euclidean_division_equations; lia.
  - rewrite Z.testbit_odd, Z.shiftr_div_pow2 by lia.
    replace (_ / 2 ^ 21) with (0x6a8 + Z.b2z l) by (destruct l; cbn [Z.b2z]; Z.to_euclidean_division_equations; lia). by destruct l.
Qed.

(** property: the words that [mrs_s] and [msr_s] assemble are instructions:
    the decoders find the system register in them, the low five bits have the
    general register (31 for [xzr]), bits 22 to 31 are those of the system
    class, and only the bit 21, set for a read, tells one from the other. *)
Theorem system_instructions op0 op1 crn crm op2 r :
  reg_fields op0 op1 crn crm op2 -> is_xreg r ->
  let sreg := sys_reg op0 op1 crn crm op2 in
  system_parts op0 op1 crn crm op2 (reg_num r) (mrs_s r sreg) /\
  system_parts op0 op1 crn crm op2 (reg_num r) (msr_s sreg r) /\
  Z.testbit (mrs_s r sreg) 21 = true /\ Z.testbit (msr_s sreg r) 21 = false.
Proof.
  intros H Hr sreg. pose proof (reg_num_range r Hr) as Hn.
  assert (mrs_s r sreg = 0x6a9 * 2 ^ 21 + sreg + reg_num r) as -> by by apply (system_word 0x6a9).
  assert (msr_s sreg r = 0x6a8 * 2 ^ 21 + sreg + reg_num r) as -> by by apply (system_word 0x6a8).
  destruct (system_word_parts true op0 op1 crn crm op2 _ H Hn) as [? ?].
  destruct (system_word_parts false op0 op1 crn crm op2 _ H Hn) as [? ?]. by split_and!.
Qed.
Lemma system_instructions_witness :
  Z.testbit (mrs_s (X 3) (sys_reg 3 0 0 0 5)) 21 = true /\ Z.testbit (msr_s (sys_reg 3 0 0 0 5) (X 3)) 21 = false.
Proof. apply (system_instructions 3 0 0 0 5 (X 3)); [by vm_compute|simpl; lia]. Defined.

(** property: [SET_PSTATE_PAN] and [SET_PSTATE_UAO] write an immediate: the
    word is [msr] of a register whose CRm is 1 for any argument but 0, and
    [xzr]. *)
Theorem set_pstate x :
  SET_PSTATE_PAN x = msr_s (sys_reg 0 0 4 (if x =? 0 then 0 else 1) 4) XZR /\
  SET_PSTATE_UAO x = msr_s (sys_reg 0 0 4 (if x =? 0 then 0 else 1) 3) XZR.
Proof. unfold SET_PSTATE_PAN, SET_PSTATE_UAO, truth. destruct (x =? 0); by vm_compute. Qed.

(** The bytes that [.long] puts into memory. *)
Definition long_bytes (big : bool) (x : Z) : list Z := if big then rev (le_bytes 4 x) else le_bytes 4 x.

Lemma bswap_sum x :
  0 <= x < 2 ^ 32 -> INSTR_BSWAP true x = x mod 256 * 2 ^ 24 + x / 2 ^ 8 mod 256 * 2 ^ 16 + x / 2 ^ 16 mod 256 * 2 ^ 8 + x / 2 ^ 24.
Proof.
  intros Hx. unfold INSTR_BSWAP, u32. rewrite !land_wrap by lia.
  change 0xff000000 with (Z.shiftl (Z.ones 8) 24). change 0x00ff0000 with (Z.shiftl (Z.ones 8) 16).
  change 0x0000ff00 with (Z.shiftl (Z.ones 8) 8). change 0x000000ff with (Z.ones 8).
  rewrite !land_shiftl, (Z.shiftr_shiftl_l x 24 24), (Z.shiftr_shiftl_r x 8 16), Z.shiftr_shiftr by lia.
  change (24 - 24) with 0. change (16 - 8) with 8. change (8 + 8) with 16.
  rewrite Z.shiftl_0_r, <- !Z.lor_assoc, !land_shiftr_div, Z.land_ones by lia.
  rewrite (lor_shiftl (x / 2 ^ 16 mod _)) by (try apply Z.mod_pos_bound; lia).
  rewrite (lor_shiftl (x / 2 ^ 8 mod _)), (lor_shiftl (x mod _)) by (Z.to_euclidean_division_equations; lia).
  Z.to_euclidean_division_equations; lia.
Qed.

Lemma bswap_rev b0 b1 b2 b3 :
  Forall (fun b => 0 <= b < 256) [b0; b1; b2; b3] ->
  INSTR_BSWAP true (of_le_bytes [b0; b1; b2; b3]) = of_le_bytes [b3; b2; b1; b0].
Proof.
  rewrite !Forall_cons. intros (H0 & H1 & H2 & H3 & _). cbn [of_le_bytes]. rewrite bswap_sum by lia.
  Z.to_euclidean_division_equations; lia.
Qed.

(** property: an instruction has its bytes in memory lowest first whatever
    the order of data is: [.long] of the word that [__INSTR_BSWAP] gives puts
    the bytes of the instruction so, on little and on big endian; and the swap
    undoes itself. *)
Theorem instruction_bytes big x :
  0 <= x < 2 ^ 32 -> long_bytes big (INSTR_BSWAP big x) = le_bytes 4 x /\ INSTR_BSWAP big (INSTR_BSWAP big x) = x.
Proof.
  intros Hx. destruct big; [|done].
  pose proof (length_le_bytes 4 x) as Hl.
  destruct (le_bytes 4 x) as [|b0 [|b1 [|b2 [|b3 [|]]]]] eqn:E; try discriminate Hl.
  pose proof (le_bytes_range 4 x) as Hb. rewrite E in Hb.
  assert (Forall (fun b => 0 <= b < 256) [b3; b2; b1; b0]) as Hb'
    by by apply Forall_reverse in Hb.
  pose proof (of_le_bytes_le 4 x) as Ex. rewrite Z.mod_small, E in Ex by done. rewrite <- Ex.
  rewrite bswap_rev, bswap_rev by done. split; [|done].
  unfold long_bytes. transitivity (rev [b3; b2; b1; b0]); [f_equal; apply (le_bytes_of_le [b3; b2; b1; b0] Hb')|done].
Qed.
Lemma instruction_bytes_witness : long_bytes true (INSTR_BSWAP true 0xd53800a3) = [0xa3; 0x00; 0x38; 0xd5].
Proof. rewrite (proj1 (instruction_bytes true 0xd53800a3 ltac:(lia))). by vm_compute. Defined.

(** ** Registers *)
(** The pairs of positions of a list with the same second component. *)
Fixpoint clashes (l : list (string * Z)) : list (string * string) :=
  match l with
  | [] => []
  | (n, c) :: l => ((fun m => (n, m.1)) <$> filter (fun m => m.2 = c) l) ++ clashes l
  end.
Lemma clashes_spec l i j n m c :
  l !! i = Some (n, c) -> l !! j = Some (m, c) -> (i < j)%nat -> (n, m) ∈ clashes l.
Proof.
  revert i j. induction l as [|[k d] l IH]; intros i j Hi Hj Hij; [done|].
  destruct j as [|j]; [lia|]. cbn [lookup list_lookup] in Hj. cbn [clashes]. apply elem_of_app.
  destruct i as [|i]; cbn [lookup list_lookup] in Hi.
  - injection Hi as -> ->. left. apply list_elem_of_fmap. exists (m, c). split; [done|].
    apply list_elem_of_filter. split; [done|]. by apply list_elem_of_lookup_2 with j.
  - right. apply (IH i j); [done..|lia].
Qed.

(** property: the names of the header are names of different registers, with
    one exception: the debug transfer register, which is one name to read and
    another to write. *)
Theorem registers_distinct i j n m c :
  REGISTERS !! i = Some (n, c) -> REGISTERS !! j = Some (m, c) -> (i < j)%nat ->
  n = "SYS_DBGDTRRX_EL0" /\ m = "SYS_DBGDTRTX_EL0".
Proof.
  intros Hi Hj Hij. pose proof (clashes_spec _ _ _ _ _ _ Hi Hj Hij) as H.
  assert (clashes REGISTERS = [("SYS_DBGDTRRX_EL0", "SYS_DBGDTRTX_EL0")]) as E by by vm_compute.
  rewrite E in H. apply list_elem_of_singleton in H. by injection H.
Qed.
Lemma registers_distinct_witness :
  REGISTERS !! 18%nat = Some ("SYS_DBGDTRRX_EL0", sys_reg 2 3 0 5 0) /\
  ("SYS_DBGDTRRX_EL0" = "SYS_DBGDTRRX_EL0" /\ "SYS_DBGDTRTX_EL0" = "SYS_DBGDTRTX_EL0").
Proof.
  split; [by vm_compute|]. apply (registers_distinct 18 19 _ _ (sys_reg 2 3 0 5 0)); [by vm_compute..|lia].
Defined.

Definition counter_ok (n : Z) : bool :=
  let a := SYS_PMEVCNTRn_EL0 n in let b := SYS_PMEVTYPERn_EL0 n in
  (8 * Z.land (sys_reg_CRm a) 3 + sys_reg_Op2 a =? n) && (8 * Z.land (sys_reg_CRm b) 3 + sys_reg_Op2 b =? n) &&
  (Z.shiftr (sys_reg_CRm a) 2 =? 2) && (Z.shiftr (sys_reg_CRm b) 2 =? 3) &&
  forallb (fun r => negb (snd r =? a) && (negb (snd r =? b) || ((n =? 31) && bool_decide (fst r = "SYS_PMCCFILTR_EL0")))) REGISTERS.
(** property: the 32 event counters and their types have registers of their
    own: from the encoding the number is read back and the two kinds differ in
    CRm, so no two are the same; no register with a name is one of them,
    except that the type of "counter 31" is the filter of the cycle counter. *)
Theorem event_counters n :
  0 <= n < 32 ->
  let a := SYS_PMEVCNTRn_EL0 n in let b := SYS_PMEVTYPERn_EL0 n in
  8 * Z.land (sys_reg_CRm a) 3 + sys_reg_Op2 a = n /\ 8 * Z.land (sys_reg_CRm b) 3 + sys_reg_Op2 b = n /\
  Z.shiftr (sys_reg_CRm a) 2 = 2 /\ Z.shiftr (sys_reg_CRm b) 2 = 3 /\
  forall s c, (s, c) ∈ REGISTERS -> c <> a /\ (c = b -> n = 31 /\ s = "SYS_PMCCFILTR_EL0").
Proof.
  intros Hn a b. pose proof (forall_below counter_ok 32 ltac:(by vm_compute) n ltac:(lia)) as H.
  unfold counter_ok in H. fold a b in H. rewrite !andb_true_iff, !Z.eqb_eq, forallb_forall in H.
  destruct H as ((((H1 & H2) & H3) & H4) & H5). split_and!; [done..|]. intros s c Hc%list_elem_of_In.
  specialize (H5 _ Hc). cbn [fst snd] in H5.
  rewrite andb_true_iff, orb_true_iff, andb_true_iff, !negb_true_iff, !Z.eqb_neq, Z.eqb_eq, bool_decide_eq_true in H5.
  destruct H5 as [Ha Hb]. split; [done|]. intros ->. by destruct Hb as [Hb|Hb].
Qed.
Lemma event_counters_witness : Z.shiftr (sys_reg_CRm (SYS_PMEVTYPERn_EL0 31)) 2 = 3.
Proof. apply (event_counters 31). lia. Defined.

(** property: the numbered registers of a bank are different registers: the
    number is the CRm of a breakpoint or watchpoint register, and for the
    priority registers of the interrupt controller, of which there are four,
    the Op2 less its bit 2 in the first group. *)
Theorem numbered_registers n :
  0 <= n < 16 ->
  Forall (fun r => sys_reg_CRm r = n) [SYS_DBGBVRn_EL1 n; SYS_DBGBCRn_EL1 n; SYS_DBGWVRn_EL1 n; SYS_DBGWCRn_EL1 n] /\
  (n < 4 -> sys_reg_Op2 (SYS_ICC_AP0Rn_EL1 n) = 4 + n /\ sys_reg_Op2 (SYS_ICC_AP1Rn_EL1 n) = n) /\
  (n < 8 -> sys_reg_Op2 (SYS__LR0_EL2 n) = n /\ sys_reg_Op2 (SYS__LR8_EL2 n) = n).
Proof.
  intros Hn.
  pose proof (forall_below (fun n => bool_decide (Forall (fun r => sys_reg_CRm r = n)
    [SYS_DBGBVRn_EL1 n; SYS_DBGBCRn_EL1 n; SYS_DBGWVRn_EL1 n; SYS_DBGWCRn_EL1 n])) 16 ltac:(by vm_compute) n ltac:(lia)) as H1.
  split; [by apply bool_decide_eq_true in H1|]. split; intros Hs.
  - pose proof (forall_below (fun n => (sys_reg_Op2 (SYS_ICC_AP0Rn_EL1 n) =? 4 + n) && (sys_reg_Op2 (SYS_ICC_AP1Rn_EL1 n) =? n))
      4 ltac:(by vm_compute) n ltac:(lia)) as H2.
    by rewrite andb_true_iff, !Z.eqb_eq in H2.
  - pose proof (forall_below (fun n => (sys_reg_Op2 (SYS__LR0_EL2 n) =? n) && (sys_reg_Op2 (SYS__LR8_EL2 n) =? n))
      8 ltac:(by vm_compute) n ltac:(lia)) as H2.
    by rewrite andb_true_iff, !Z.eqb_eq in H2.
Qed.
Lemma numbered_registers_witness : sys_reg_Op2 (SYS_ICC_AP0Rn_EL1 3) = 4 + 3.
Proof. apply (numbered_registers 3); lia. Defined.

(** ** Fields *)
Lemma id_fields_ok : ptable_ok 64 ID_FIELDS = true.
Proof. by vm_compute. Qed.

(** property: the fields of an identification register lie apart within its
    64 bits, so what one of them says is read whatever the others say: a
    register that has a value in a field gives it back by shift and mask, and
    putting it there changes no other field of the register. *)
Theorem id_register_fields g i f v x :
  g ∈ ID_FIELDS -> pg_fields g !! i = Some f -> 0 <= x < 16 ->
  Z.land (Z.shiftr (pf_set f v x) (p_ofs f)) 0xf = x /\
  forall j f', pg_fields g !! j = Some f' -> j <> i -> pf_get f' (pf_set f v x) = pf_get f' v.
Proof.
  intros Hg Hf Hx. destruct (ptable_update 64 ID_FIELDS g i f v x id_fields_ok Hg Hf) as [H1 H2]. split; [|done].
  assert (p_size f = 4 /\ p_mask f = Z.shiftl 0xf (p_ofs f)) as [Hs Hm].
  { assert (forallb (fun g => forallb (fun f => (p_size f =? 4) && (p_mask f =? Z.shiftl 0xf (p_ofs f))) (pg_fields g)) ID_FIELDS = true)
      as H by by vm_compute.
    rewrite forallb_forall in H. apply list_elem_of_In in Hg. apply H in Hg. rewrite forallb_forall in Hg.
    apply list_elem_of_lookup_2, list_elem_of_In, Hg in Hf. by rewrite andb_true_iff, !Z.eqb_eq in Hf. }
  rewrite Hs, Z.mod_small in H1 by lia. rewrite <- H1 at 2. unfold pf_get.
  assert (0 <= p_ofs f) by apply (pfield_ok_props 64 f (ptable_field _ _ _ _ _ id_fields_ok Hg Hf)).
  rewrite Z.shiftr_land, Hm, Z.shiftr_shiftl_l, Z.sub_diag, Z.shiftl_0_r by lia. done.
Qed.
Lemma id_register_fields_witness :
  exists f, AA64PFR0 !! 4%nat = Some f /\ Z.land (Z.shiftr (pf_set f 0x22 0xf) (p_ofs f)) 0xf = 0xf.
Proof.
  eexists. split; [reflexivity|].
  apply (id_register_fields (PGrp [] AA64PFR0) 4 _ 0x22 0xf); [|reflexivity|lia].
  apply list_elem_of_fmap. exists AA64PFR0. split; [done|]. apply (list_elem_of_lookup_2 _ 2). reflexivity.
Defined.

(** property: for each size of pages the shift is the one of a field of
    [ID_AA64MMFR0], and the value for "supported" is a value of that field
    that is not its value for "not implemented". *)
Theorem granule_supported p :
  exists f s, f ∈ AA64MMFR0 /\ p_ofs f = ID_AA64MMFR0_TGRAN_SHIFT p /\
    (s, ID_AA64MMFR0_TGRAN_SUPPORTED p) ∈ p_values f /\
    exists s' ni, p_values f = [(s', ni); (s, ID_AA64MMFR0_TGRAN_SUPPORTED p)] /\ ni <> ID_AA64MMFR0_TGRAN_SUPPORTED p.
Proof.
  destruct p.
  1: exists (default (F4 "" 0 []) (AA64MMFR0 !! 0%nat)), "ID_AA64MMFR0_TGRAN4_SUPPORTED".
  2: exists (default (F4 "" 0 []) (AA64MMFR0 !! 2%nat)), "ID_AA64MMFR0_TGRAN16_SUPPORTED".
  3: exists (default (F4 "" 0 []) (AA64MMFR0 !! 1%nat)), "ID_AA64MMFR0_TGRAN64_SUPPORTED".
  all: (split; [apply list_elem_of_lookup; (exists 0%nat; reflexivity) || (exists 1%nat; reflexivity) || (exists 2%nat; reflexivity)|]);
    (split; [reflexivity|]); (split; [right; left|]); do 2 eexists; (split; [reflexivity|done]).
Qed.

(** property: the flags of the system control register are different bits,
    the combined mask is M, A, C, SA and I, and none of the bits that are
    fixed to one at level 2 is a common flag; two flags of level 1, SPAN and
    CP15BEN, are among them, so that mask does not fit level 1. *)
Theorem control_flags :
  group_ok 32 (Grp [] (g_fields SCTLR ++ g_fields SCTLR_EL1)) = true /\
  SCTLR_ELx_FLAGS = foldr Z.lor 0 (f_mask <$> tail (g_fields SCTLR)) /\
  forallb (fun f => apart (f_mask f) SCTLR_EL2_RES1) (g_fields SCTLR) = true /\
  (f_name <$> filter (fun f => within (f_mask f) SCTLR_EL2_RES1 = true) (g_fields SCTLR_EL1)) = ["SCTLR_EL1_SPAN"; "SCTLR_EL1_CP15BEN"].
Proof. by vm_compute. Qed.

(** property: the crash handler reports the level that [CurrentEL] has in its
    bits 2 and 3, whatever its other bits are; [is_el3] holds for level 3
    only. *)
Theorem crash_level el low high esr elr :
  1 <= el <= 3 -> 0 <= low < 4 -> 0 <= high ->
  let CurrentEL := high * 16 + el * 4 + low in
  is_el3 CurrentEL = (el =? 3) /\
  exists r, do_crash (get_elx CurrentEL) esr elr = Some r /\ cr_el r = el /\ cr_elr r = elr el /\ cr_esr r = esr el.
Proof.
  intros He Hl Hh CurrentEL.
  assert (get_elx CurrentEL = el) as Hg.
  { unfold get_elx. rewrite (land_shiftr_div _ 2 2) by lia. unfold CurrentEL. Z.to_euclidean_division_equations; lia. }
  split; [unfold is_el3; by fold (get_elx CurrentEL); rewrite Hg|]. rewrite Hg.
  unfold do_crash. assert ((el =? 1) || (el =? 2) || (el =? 3) = true) as -> by (assert (el = 1 \/ el = 2 \/ el = 3) as [->|[->| ->]] by lia; done).
  rewrite hex2binarystr_run by lia. eexists. split; [reflexivity|done].
Qed.
Lemma crash_level_witness :
  is_el3 (0 * 16 + 3 * 4 + 0) = true /\ exists r, do_crash (get_elx (0 * 16 + 3 * 4 + 0)) (fun _ => 0x96000045) (fun n => 0x80000 + n) = Some r /\ cr_elr r = 0x80003.
Proof.
  destruct (crash_level 3 0 0 (fun _ => 0x96000045) (fun n => 0x80000 + n)) as [H (r & H1 & _ & H2 & _)]; [lia..|].
  split; [exact H|]. exists r. by split.
Defined.
