(* ===== verification/SmallUdc.v ===== *)
(** * Smaller controllers (test_gadget/pxa25x_udc.h, omap_udc.h, at91_udc.h,
    s3c2410_udc.h)

    Registers of three full speed controllers, the state dump of the
    PXA25x, and the endpoints of the S3C2410, whose names are read by
    endpoint autoconfiguration. *)

From Stdlib Require Import ZArith Ascii.
From stdpp Require Import base list strings.
From S2P Require Import Prelude HwRegs EpAutoconf.

Module PXA25.
Definition UFNRH : group := Grp []
  [Fld "UFNRH_SIR" (bit 7) []; Fld "UFNRH_SIM" (bit 6) []; Fld "UFNRH_IPE14" (bit 5) [];
   Fld "UFNRH_IPE9" (bit 4) []; Fld "UFNRH_IPE4" (bit 3) []].

Definition UDCCFR_AREN : Z := bit 7.

Definition UDCCFR_ACM : Z := bit 2.

Definition UDCCFR_MB1 : Z := Z.land 0xff (Z.lnot (Z.lor UDCCFR_AREN UDCCFR_ACM)).

(** The states of endpoint 0 and their names in messages. *)
Inductive ep0_state := EP0_IDLE | EP0_IN_DATA_PHASE | EP0_OUT_DATA_PHASE | EP0_END_XFER | EP0_STALL.
Definition ep0_number (s : ep0_state) : nat :=
  match s with EP0_IDLE => 0 | EP0_IN_DATA_PHASE => 1 | EP0_OUT_DATA_PHASE => 2 | EP0_END_XFER => 3 | EP0_STALL => 4 end.
Definition state_name : list string := ["EP0_IDLE"; "EP0_IN_DATA_PHASE"; "EP0_OUT_DATA_PHASE"; "EP0_END_XFER"; "EP0_STALL"].

Definition EP0_FIFO_SIZE : Z := 16.
Definition BULK_FIFO_SIZE : Z := 64.
Definition ISO_FIFO_SIZE : Z := 256.
Definition INT_FIFO_SIZE : Z := 8.
Definition PXA_UDC_NUM_ENDPOINTS (small : bool) : nat := if small then 3 else 16.
(** When the timer of [start_watchdog] expires. *)
Definition start_watchdog (HZ jiffies : Z) : Z := jiffies + HZ / 200.

(** What [dump_state] reads of the device: for an endpoint if it has a
    descriptor, and what its status register holds. *)
Record ep := mkEp25 { has_desc : bool; udccs : Z }.
Record ep0stats := mkStats { ops : Z; bytes : Z }.
Record device := mkDev25 {
  ep0state : ep0_state; has_cfr : bool; driver : option string; st_read : ep0stats; st_write : ep0stats; eps : list ep }.
(** The registers of the device. *)
Record registers := mkRegs25 { UDCCR : Z; UDCCFR : Z; UDCCS0 : Z; UICR : Z * Z; USIR : Z * Z; UFNR : Z * Z }.

(** The lines. *)
Inductive line :=
| LState (vbus : bool) (state : option string) (uicr usir ufnr : Z * Z)
| LUdccr (label : string) (udccr : Z) (flags : list string)
| LUdccfr (udccfr : Z) (flags : list string)
| LNoDriver
| LDriver (name : string)
| LUdccs0 (label : string) (state : option string) (udccs0 : Z) (flags : list string)
| LStats (inn out : ep0stats)
| LUdccs (i : nat) (v : Z).

Section Dump.
(** The bits of [UDCCR] and [UDCCS0], which the header of the processor
    defines, with the words for them. *)
Variables UDCCR_REM UDCCR_RSTIR UDCCR_SRM UDCCR_SUSIR UDCCR_RESIR UDCCR_RSM UDCCR_UDA UDCCR_UDE : Z.
Variables UDCCS0_SA UDCCS0_RNE UDCCS0_FST UDCCS0_SST UDCCS0_DRWF UDCCS0_FTF UDCCS0_IPR UDCCS0_OPR : Z.

Definition words (v : Z) (l : list (string * Z)) : list string := fst <$> filter (fun w => truthy (Z.land v (snd w)) = true) l.

Definition udccr_words : list (string * Z) :=
  [("rem", UDCCR_REM); ("rstir", UDCCR_RSTIR); ("srm", UDCCR_SRM); ("susir", UDCCR_SUSIR); ("resir", UDCCR_RESIR);
   ("rsm", UDCCR_RSM); ("uda", UDCCR_UDA); ("ude", UDCCR_UDE)].
Definition dump_udccr (r : registers) (label : string) : line := LUdccr label (UDCCR r) (words (UDCCR r) udccr_words).

Definition udccs0_words : list (string * Z) :=
  [("sa", UDCCS0_SA); ("rne", UDCCS0_RNE); ("fst", UDCCS0_FST); ("sst", UDCCS0_SST); ("dwrf", UDCCS0_DRWF);
   ("ftf", UDCCS0_FTF); ("ipr", UDCCS0_IPR); ("opr", UDCCS0_OPR)].
Definition dump_udccs0 (r : registers) (st : ep0_state) (label : string) : line :=
  LUdccs0 label (state_name !! ep0_number st) (UDCCS0 r) (words (UDCCS0 r) udccs0_words).

(** The loop over the endpoints from [i] on; [first] is the status register
    of the first endpoint of the array. *)
Fixpoint dump_eps (first : Z) (i : nat) (l : list ep) : list line :=
  match l with
  | [] => []
  | e :: l => (if has_desc e then [LUdccs i first] else []) ++ dump_eps first (S i) l
  end.

(** [dump_state]; [vbus] is what the two calls of [is_vbus_present] give.
    [*dev->ep->reg_udccs] is the register of [dev->ep[0]]. *)
Definition dump_state (r : registers) (vbus : bool * bool) (dev : device) : option (list line) :=
  let head := LState vbus.1 (state_name !! ep0_number (ep0state dev)) (UICR r) (USIR r) (UFNR r) :: [dump_udccr r "udccr"] ++
    (if has_cfr dev then [LUdccfr (UDCCFR r) (words (UDCCFR r) [("aren", UDCCFR_AREN); ("acm", UDCCFR_ACM)])] else []) in
  match driver dev with
  | None => Some (head ++ [LNoDriver])
  | Some name =>
      if vbus.2 then
        e0 ← eps dev !! 0%nat;
        Some (head ++ [LDriver name; dump_udccs0 r (ep0state dev) "udccs0"; LStats (st_write dev) (st_read dev)] ++
          dump_eps (udccs e0) 1 (drop 1 (eps dev)))
      else Some (head ++ [LDriver name])
  end.
End Dump.
End PXA25.

Module OMAP.
(** The registers, from [UDC_BASE] on. *)
Definition OFFSETS : list (string * Z) :=
  [("UDC_REV", 0x0); ("UDC_EP_NUM", 0x4); ("UDC_DATA", 0x08); ("UDC_CTRL", 0x0C); ("UDC_STAT_FLG", 0x10);
   ("UDC_RXFSTAT", 0x14); ("UDC_SYSCON1", 0x18); ("UDC_SYSCON2", 0x1C); ("UDC_DEVSTAT", 0x20); ("UDC_SOF", 0x24);
   ("UDC_IRQ_EN", 0x28); ("UDC_DMA_IRQ_EN", 0x2C); ("UDC_IRQ_SRC", 0x30); ("UDC_EPN_STAT", 0x34);
   ("UDC_DMAN_STAT", 0x38); ("UDC_RXDMA_CFG", 0x40); ("UDC_TXDMA_CFG", 0x44); ("UDC_DATA_DMA", 0x48)].

Definition EP_NUM : group := Grp [("UDC_EP_NUM", 0x4)]
  [Fld "UDC_SETUP_SEL" (bit 6) []; Fld "UDC_EP_SEL" (bit 5) []; Fld "UDC_EP_DIR" (bit 4) []].

Definition CTRL : group := Grp [("UDC_CTRL", 0x0C)]
  [Fld "UDC_CLR_HALT" (bit 7) []; Fld "UDC_SET_HALT" (bit 6) []; Fld "UDC_CLRDATA_TOGGLE" (bit 3) [];
   Fld "UDC_SET_FIFO_EN" (bit 2) []; Fld "UDC_CLR_EP" (bit 1) []; Fld "UDC_RESET_EP" (bit 0) []].

Definition STAT_FLG : group := Grp [("UDC_STAT_FLG", 0x10)]
  [Fld "UDC_NO_RXPACKET" (bit 15) []; Fld "UDC_MISS_IN" (bit 14) []; Fld "UDC_DATA_FLUSH" (bit 13) [];
   Fld "UDC_ISO_ERR" (bit 12) []; Fld "UDC_ISO_FIFO_EMPTY" (bit 9) []; Fld "UDC_ISO_FIFO_FULL" (bit 8) [];
   Fld "UDC_EP_HALTED" (bit 6) []; Fld "UDC_STALL" (bit 5) []; Fld "UDC_NAK" (bit 4) []; Fld "UDC_ACK" (bit 3) [];
   Fld "UDC_FIFO_EN" (bit 2) []; Fld "UDC_NON_ISO_FIFO_EMPTY" (bit 1) []; Fld "UDC_NON_ISO_FIFO_FULL" (bit 0) []].

Definition SYSCON1 : group := Grp [("UDC_SYSCON1", 0x18)]
  [Fld "UDC_CFG_LOCK" (bit 8) []; Fld "UDC_DATA_ENDIAN" (bit 7) []; Fld "UDC_DMA_ENDIAN" (bit 6) [];
   Fld "UDC_NAK_EN" (bit 4) []; Fld "UDC_AUTODECODE_DIS" (bit 3) []; Fld "UDC_SELF_PWR" (bit 2) [];
   Fld "UDC_SOFF_DIS" (bit 1) []; Fld "UDC_PULLUP_EN" (bit 0) []].

Definition SYSCON2 : group := Grp [("UDC_SYSCON2", 0x1C)]
  [Fld "UDC_RMT_WKP" (bit 6) []; Fld "UDC_STALL_CMD" (bit 5) []; Fld "UDC_DEV_CFG" (bit 3) [];
   Fld "UDC_CLR_CFG" (bit 2) []].

Definition DEVSTAT : group := Grp [("UDC_DEVSTAT", 0x20)]
  [Fld "UDC_B_HNP_ENABLE" (bit 9) []; Fld "UDC_A_HNP_SUPPORT" (bit 8) []; Fld "UDC_A_ALT_HNP_SUPPORT" (bit 7) [];
   Fld "UDC_R_WK_OK" (bit 6) []; Fld "UDC_USB_RESET" (bit 5) []; Fld "UDC_SUS" (bit 4) [];
   Fld "UDC_CFG" (bit 3) []; Fld "UDC_ADD" (bit 2) []; Fld "UDC_DEF" (bit 1) []; Fld "UDC_ATT" (bit 0) []].

Definition SOF : group := Grp [("UDC_SOF", 0x24)]
  [Fld "UDC_FT_LOCK" (bit 12) []; Fld "UDC_TS_OK" (bit 11) []; Fld "UDC_TS" 0x03ff []].

Definition IRQ_EN : group := Grp [("UDC_IRQ_EN", 0x28)]
  [Fld "UDC_SOF_IE" (bit 7) []; Fld "UDC_EPN_RX_IE" (bit 5) []; Fld "UDC_EPN_TX_IE" (bit 4) [];
   Fld "UDC_DS_CHG_IE" (bit 3) []; Fld "UDC_EP0_IE" (bit 0) []].

Definition IRQ_SRC : group := Grp [("UDC_IRQ_SRC", 0x30)]
  [Fld "UDC_TXN_DONE" (bit 10) []; Fld "UDC_RXN_CNT" (bit 9) []; Fld "UDC_RXN_EOT" (bit 8) [];
   Fld "UDC_IRQ_SOF" (bit 7) []; Fld "UDC_EPN_RX" (bit 5) []; Fld "UDC_EPN_TX" (bit 4) [];
   Fld "UDC_DS_CHG" (bit 3) []; Fld "UDC_SETUP" (bit 2) []; Fld "UDC_EP0_RX" (bit 1) [];
   Fld "UDC_EP0_TX" (bit 0) []].

Definition UDC_IRQ_SRC_MASK : Z := 0x7bf.

Definition DMAN_STAT : group := Grp [("UDC_DMAN_STAT", 0x38)] [Fld "UDC_DMA_RX_SB" (bit 12) []].

Definition RXDMA_CFG : group := Grp [("UDC_RXDMA_CFG", 0x40)] [Fld "UDC_DMA_REQ" (bit 12) []].

Definition VBUS_1510 : group := Grp [] [Fld "VBUS_CTRL_1510" (bit 19) []; Fld "VBUS_MODE_1510" (bit 18) []].

Definition TXDMA : group := Grp []
  [Fld "UDC_TXN_EOT" (bit 15) []; Fld "UDC_TXN_START" (bit 14) []; Fld "UDC_TXN_TSC" 0x03ff []].

Definition RXDMA : group := Grp [] [Fld "UDC_RXN_STOP" (bit 15) []; Fld "UDC_RXN_TC" 0x00ff []].

(** The bits the comments add: the buffer size and pointer. *)
Definition EP_CFG : group := Grp []
  [Fld "UDC_EPN_RX_VALID" (bit 15) []; Fld "UDC_EPN_RX_DB" (bit 14) []; Fld "size" (Z.shiftl 3 12) []; Fld "UDC_EPN_RX_ISO" (bit 11) [];
   Fld "pointer" 0x7ff []].

(** DMA channels are 1 to 3. *)
Definition UDC_TX_DONE_IE (n : Z) : Z := Z.shiftl 1 (4 * n - 2).
Definition UDC_RX_CNT_IE (n : Z) : Z := Z.shiftl 1 (4 * n - 3).
Definition UDC_RX_EOT_IE (n : Z) : Z := Z.shiftl 1 (4 * n - 4).
Definition UDC_DMA_RX_SRC (x : Z) : Z := Z.land (Z.shiftr x 8) 0xf.
Definition UDC_DMA_TX_SRC (x : Z) : Z := Z.land (Z.shiftr x 0) 0xf.
Definition UDC_TXDMA (chan : Z) : Z := 0x50 - 4 + 4 * chan.
Definition UDC_RXDMA (chan : Z) : Z := 0x60 - 4 + 4 * chan.
Definition UDC_EP_RX (endpoint : Z) : Z := 0x80 + endpoint * 4.
Definition UDC_EP_TX (endpoint : Z) : Z := 0xc0 + endpoint * 4.
(** [HMC], from the two registers that hold it. *)
Definition HMC_1510 (MOD_CONF_CTRL_0 : Z) : Z := Z.land (Z.shiftr MOD_CONF_CTRL_0 1) 0x3f.
Definition HMC_1610 (OTG_SYSCON_2 : Z) : Z := Z.land OTG_SYSCON_2 0x3f.
Definition HMC (omap15xx : bool) (MOD_CONF_CTRL_0 OTG_SYSCON_2 : Z) : Z :=
  if omap15xx then HMC_1510 MOD_CONF_CTRL_0 else HMC_1610 OTG_SYSCON_2.

Definition registers : list group :=
  [EP_NUM; CTRL; STAT_FLG; SYSCON1; SYSCON2; DEVSTAT; SOF; IRQ_EN; IRQ_SRC; DMAN_STAT; RXDMA_CFG; VBUS_1510;
   TXDMA; RXDMA; EP_CFG].
End OMAP.

Module AT91.
Definition OFFSETS : list (string * Z) :=
  [("AT91_UDP_FRM_NUM", 0x00); ("AT91_UDP_GLB_STAT", 0x04); ("AT91_UDP_FADDR", 0x08); ("AT91_UDP_IER", 0x10);
   ("AT91_UDP_IDR", 0x14); ("AT91_UDP_IMR", 0x18); ("AT91_UDP_ISR", 0x1c); ("AT91_UDP_ICR", 0x20);
   ("AT91_UDP_RST_EP", 0x28); ("AT91_UDP_TXVC", 0x74)].

Definition FRM_NUM : group := Grp [("AT91_UDP_FRM_NUM", 0x00)]
  [Fld "AT91_UDP_NUM" (Z.shiftl 0x7ff 0) []; Fld "AT91_UDP_FRM_ERR" (bit 16) [];
   Fld "AT91_UDP_FRM_OK" (bit 17) []].

Definition GLB_STAT : group := Grp [("AT91_UDP_GLB_STAT", 0x04)]
  [Fld "AT91_UDP_FADDEN" (bit 0) []; Fld "AT91_UDP_CONFG" (bit 1) []; Fld "AT91_UDP_ESR" (bit 2) [];
   Fld "AT91_UDP_RSMINPR" (bit 3) []; Fld "AT91_UDP_RMWUPE" (bit 4) []].

Definition FADDR : group := Grp [("AT91_UDP_FADDR", 0x08)]
  [Fld "AT91_UDP_FADD" (Z.shiftl 0x7f 0) []; Fld "AT91_UDP_FEN" (bit 8) []].

Definition ISR : group := Grp [("AT91_UDP_ISR", 0x1c)]
  [Fld "AT91_UDP_RXSUSP" (bit 8) []; Fld "AT91_UDP_RXRSM" (bit 9) []; Fld "AT91_UDP_EXTRSM" (bit 10) [];
   Fld "AT91_UDP_SOFINT" (bit 11) []; Fld "AT91_UDP_ENDBUSRES" (bit 12) []; Fld "AT91_UDP_WAKEUP" (bit 13) []].

Definition CSR : group := Grp []
  [Fld "AT91_UDP_TXCOMP" (bit 0) []; Fld "AT91_UDP_RX_DATA_BK0" (bit 1) []; Fld "AT91_UDP_RXSETUP" (bit 2) [];
   Fld "AT91_UDP_STALLSENT" (bit 3) []; Fld "AT91_UDP_TXPKTRDY" (bit 4) []; Fld "AT91_UDP_FORCESTALL" (bit 5) [];
   Fld "AT91_UDP_RX_DATA_BK1" (bit 6) []; Fld "AT91_UDP_DIR" (bit 7) [];
   Fld "AT91_UDP_EPTYPE" (Z.shiftl 7 8) [("AT91_UDP_EPTYPE_CTRL", Z.shiftl 0 8); ("AT91_UDP_EPTYPE_ISO_OUT", bit 8); ("AT91_UDP_EPTYPE_BULK_OUT", Z.shiftl 2 8); ("AT91_UDP_EPTYPE_INT_OUT", Z.shiftl 3 8); ("AT91_UDP_EPTYPE_ISO_IN", Z.shiftl 5 8); ("AT91_UDP_EPTYPE_BULK_IN", Z.shiftl 6 8); ("AT91_UDP_EPTYPE_INT_IN", Z.shiftl 7 8)];
   Fld "AT91_UDP_DTGLE" (bit 11) []; Fld "AT91_UDP_EPEDS" (bit 15) [];
   Fld "AT91_UDP_RXBYTECNT" (Z.shiftl 0x7ff 16) []].

Definition TXVC : group := Grp [("AT91_UDP_TXVC", 0x74)]
  [Fld "AT91_UDP_TXVC_TXVDIS" (bit 8) []; Fld "AT91_UDP_TXVC_PUON" (bit 9) []].

Definition AT91_UDP_EP (n : Z) : Z := Z.shiftl 1 n.
Definition AT91_UDP_CSR (n : Z) : Z := 0x30 + n * 4.
Definition AT91_UDP_FDR (n : Z) : Z := 0x50 + n * 4.
Definition NUM_ENDPOINTS : Z := 6.
Definition MINIMUS_INTERRUPTUS : Z := Z.lor (Z.lor (bit 12) (bit 9)) (bit 8).

Definition registers : list group := [FRM_NUM; GLB_STAT; FADDR; ISR; CSR; TXVC].
End AT91.

Module S3C2410.
Definition EP0_FIFO_SIZE : Z := 8.
Definition EP_FIFO_SIZE : Z := 64.
Definition S3C2440_EP_FIFO_SIZE : Z := 128.
Definition ep_name : list string := ["ep0"; "ep1-bulk"; "ep2-bulk"; "ep3-bulk"; "ep4-bulk"].
Definition S3C2410_ENDPOINTS : nat := length ep_name.
Inductive ep0_state := EP0_IDLE | EP0_IN_DATA_PHASE | EP0_OUT_DATA_PHASE | EP0_END_XFER | EP0_STALL.
Definition ep0_number (s : ep0_state) : nat :=
  match s with EP0_IDLE => 0 | EP0_IN_DATA_PHASE => 1 | EP0_OUT_DATA_PHASE => 2 | EP0_END_XFER => 3 | EP0_STALL => 4 end.
Definition ep0states : list string := ["EP0_IDLE"; "EP0_IN_DATA_PHASE"; "EP0_OUT_DATA_PHASE"; "EP0_END_XFER"; "EP0_STALL"].
End S3C2410.

(** ** The PXA25x *)

(** property: the bits of [UDCCFR] that the errata wants to be one are all
    bits of the byte but the two that have a meaning. *)
Theorem pxa25x_must_be_one :
  all_apart [PXA25.UDCCFR_AREN; PXA25.UDCCFR_ACM; PXA25.UDCCFR_MB1] = true /\
  foldr Z.lor 0 [PXA25.UDCCFR_AREN; PXA25.UDCCFR_ACM; PXA25.UDCCFR_MB1] = 0xff /\ group_ok 8 PXA25.UFNRH = true.
Proof. by vm_compute. Qed.

(** property: the watchdog timer waits a two hundredth of a second where the
    clock has that resolution; with fewer than 200 ticks a second it expires
    at once. *)
Theorem pxa25x_watchdog HZ jiffies :
  0 < HZ ->
  (PXA25.start_watchdog HZ jiffies = jiffies <-> HZ < 200) /\
  (200 <= HZ -> HZ - 200 < 200 * (PXA25.start_watchdog HZ jiffies - jiffies) <= HZ).
Proof. intros H. unfold PXA25.start_watchdog. split; [split|]; intros; Z.to_euclidean_division_equations; lia. Qed.
Lemma pxa25x_watchdog_witness : PXA25.start_watchdog 100 5000 = 5000.
Proof. apply (pxa25x_watchdog 100 5000); lia. Defined.

Definition is_udccs (l : PXA25.line) : bool := match l with PXA25.LUdccs _ _ => true | _ => false end.
Definition used_from (i : nat) (l : list PXA25.ep) : list nat :=
  (fun p => p.1) <$> filter (fun p => PXA25.has_desc p.2 = true) (zip (seq i (length l)) l).

Lemma dump_eps_spec first i l :
  PXA25.dump_eps first i l = (fun j => PXA25.LUdccs j first) <$> used_from i l.
Proof.
  revert i. induction l as [|e l IH]; intros i; [done|]. cbn [PXA25.dump_eps]. rewrite IH. unfold used_from.
  cbn [length seq zip zip_with]. rewrite filter_cons. cbn [snd]. destruct (PXA25.has_desc e); by case_decide.
Qed.
Lemma dump_eps_only first i l : filter (fun x => is_udccs x = true) (PXA25.dump_eps first i l) = PXA25.dump_eps first i l.
Proof.
  rewrite dump_eps_spec. induction (used_from i l) as [|j js IH]; [done|]. rewrite fmap_cons, filter_cons. case_decide; [by f_equal|done].
Qed.

(** property: the state dump of a device with a driver and a host names, in
    order, exactly the endpoints after the first that have a descriptor; but
    the status it shows for each of them is the one of the first endpoint of
    the array.  Without a driver or a host no endpoint is shown. *)
Theorem pxa25x_dump m1 m2 m3 m4 m5 m6 m7 m8 n1 n2 n3 n4 n5 n6 n7 n8 r v1 v2 dev e0 rest :
  PXA25.eps dev = e0 :: rest ->
  exists l, PXA25.dump_state m1 m2 m3 m4 m5 m6 m7 m8 n1 n2 n3 n4 n5 n6 n7 n8 r (v1, v2) dev = Some l /\
    filter (fun x => is_udccs x = true) l =
      if bool_decide (is_Some (PXA25.driver dev)) && v2
      then (fun i => PXA25.LUdccs i (PXA25.udccs e0)) <$> used_from 1 rest else [].
Proof.
  intros He. unfold PXA25.dump_state. rewrite He. cbn [snd fst lookup list_lookup drop mbind option_bind].
  destruct (PXA25.driver dev) as [name|]; [destruct v2|].
  all: eexists; split; [reflexivity|]; destruct (PXA25.has_cfr dev); cbn -[PXA25.dump_eps used_from]; try done.
  all: rewrite ?dump_eps_only; apply dump_eps_spec.
Qed.
Lemma pxa25x_dump_witness :
  let e n := PXA25.mkEp25 true n in
  let dev := PXA25.mkDev25 PXA25.EP0_IDLE false (Some "g_ether") (PXA25.mkStats 0 0) (PXA25.mkStats 0 0) [e 0x10; e 0x20; e 0x30] in
  let r := PXA25.mkRegs25 0 0 0 (0, 0) (0, 0) (0, 0) in
  exists l, PXA25.dump_state 0 0 0 0 0 0 0 0 0 0 0 0 0 0 0 0 r (true, true) dev = Some l /\
    filter (fun x => is_udccs x = true) l = [PXA25.LUdccs 1 0x10; PXA25.LUdccs 2 0x10].
Proof.
  intros e dev r.
  apply (pxa25x_dump 0 0 0 0 0 0 0 0 0 0 0 0 0 0 0 0 r true true dev (e 0x10) [e 0x20; e 0x30]). reflexivity.
Defined.

(** ** OMAP and AT91 *)
Lemma omap_ok : table_ok 32 OMAP.registers = true.
Proof. by vm_compute. Qed.
Lemma at91_ok : table_ok 32 AT91.registers = true.
Proof. by vm_compute. Qed.

(** property: setting a field of a register of these two controllers - a
    flag, or the type of an AT91 endpoint to one of its named values - sets it
    and leaves the other fields of the register. *)
Theorem omap_at91_update g i f v old :
  g ∈ OMAP.registers ++ AT91.registers -> g_fields g !! i = Some f -> within v (f_mask f) = true ->
  Z.land (set_bits old (f_mask f) v) (f_mask f) = v /\
  forall j f', g_fields g !! j = Some f' -> j <> i -> Z.land (set_bits old (f_mask f) v) (f_mask f') = Z.land old (f_mask f').
Proof.
  intros Hg. apply (table_update 32 (OMAP.registers ++ AT91.registers)); [|done].
  unfold table_ok. rewrite forallb_app. apply andb_true_iff. by split; [apply omap_ok|apply at91_ok].
Qed.
Lemma omap_at91_update_witness :
  exists f, g_fields AT91.CSR !! 8%nat = Some f /\ Z.land (set_bits 0x8103 (f_mask f) 0x600) (f_mask f) = 0x600.
Proof.
  eexists. split; [reflexivity|]. apply (omap_at91_update AT91.CSR 8 _ 0x600 0x8103); [|reflexivity|by vm_compute].
  apply elem_of_app. right. apply (list_elem_of_lookup_2 _ 4). reflexivity.
Defined.

(** The places of numbered registers. *)
Definition numbered (f : Z -> Z) (from : nat) (n : nat) : list Z := f ∘ Z.of_nat <$> seq from n.

(** property: all registers of these controllers are at places of their own,
    multiples of four: on OMAP those of three DMA channels and 16 endpoints in
    each direction, on AT91 those of eight endpoints; the interrupt source
    mask of OMAP is its sources, and the nine enable bits of the DMA channels
    are different. *)
Theorem omap_at91_places :
  let omap := OMAP.OFFSETS.*2 ++ numbered OMAP.UDC_TXDMA 1 3 ++ numbered OMAP.UDC_RXDMA 1 3 ++
    numbered OMAP.UDC_EP_RX 0 16 ++ numbered OMAP.UDC_EP_TX 0 16 in
  let at91 := AT91.OFFSETS.*2 ++ numbered AT91.AT91_UDP_CSR 0 8 ++ numbered AT91.AT91_UDP_FDR 0 8 in
  NoDup omap /\ NoDup at91 /\ Forall (fun o => o mod 4 = 0) (omap ++ at91) /\
  OMAP.UDC_IRQ_SRC_MASK = foldr Z.lor 0 (f_mask <$> g_fields OMAP.IRQ_SRC) /\
  all_apart (numbered OMAP.UDC_TX_DONE_IE 1 3 ++ numbered OMAP.UDC_RX_CNT_IE 1 3 ++ numbered OMAP.UDC_RX_EOT_IE 1 3) = true.
Proof.
  intros omap at91. split; [refine (bool_decide_eq_true_1 (NoDup _) _); by vm_compute|].
  split; [refine (bool_decide_eq_true_1 (NoDup _) _); by vm_compute|].
  split; [refine (bool_decide_eq_true_1 (Forall _ _) _); by vm_compute|]. by vm_compute.
Qed.

(** property: the interrupt bits of the AT91 endpoints lie below the bits of
    the bus, so a status is both at once; the minimal set is the three bus
    interrupts that cannot be turned off. *)
Theorem at91_interrupts n :
  0 <= n < 8 ->
  forallb (fun f => apart (AT91.AT91_UDP_EP n) (f_mask f)) (g_fields AT91.ISR) = true /\
  within AT91.MINIMUS_INTERRUPTUS (foldr Z.lor 0 (f_mask <$> g_fields AT91.ISR)) = true /\
  (f_name <$> filter (fun f => within (f_mask f) AT91.MINIMUS_INTERRUPTUS = true) (g_fields AT91.ISR)) =
    ["AT91_UDP_RXSUSP"; "AT91_UDP_RXRSM"; "AT91_UDP_ENDBUSRES"].
Proof.
  intros Hn. split; [|by vm_compute]. revert n Hn.
  by apply (forall_below (fun n => forallb (fun f => apart (AT91.AT91_UDP_EP n) (f_mask f)) (g_fields AT91.ISR)) 8).
Qed.
Lemma at91_interrupts_witness : forallb (fun f => apart (AT91.AT91_UDP_EP 7) (f_mask f)) (g_fields AT91.ISR) = true.
Proof. apply (at91_interrupts 7). lia. Defined.

(** property: sources of DMA interrupts: the numbers of the receiving and of
    the sending endpoint are read back from a status that has them, whatever
    its other bits are; and HMC is the same six bits, one place higher on
    OMAP1510. *)
Theorem omap_sources rx tx hi mid x :
  0 <= rx < 16 -> 0 <= tx < 16 -> 0 <= hi -> 0 <= mid < 16 ->
  let v := hi * 2 ^ 12 + rx * 2 ^ 8 + mid * 2 ^ 4 + tx in
  OMAP.UDC_DMA_RX_SRC v = rx /\ OMAP.UDC_DMA_TX_SRC v = tx /\
  OMAP.HMC true (2 * x) x = x mod 64 /\ OMAP.HMC true (2 * x + 1) x = OMAP.HMC false x x.
Proof.
  intros Hr Ht Hh Hm v.
  unfold OMAP.HMC, OMAP.HMC_1510, OMAP.HMC_1610, OMAP.UDC_DMA_RX_SRC, OMAP.UDC_DMA_TX_SRC.
  change 0xf with (Z.ones 4). change 0x3f with (Z.ones 6). rewrite !Z.land_ones, !Z.shiftr_div_pow2 by lia. unfold v.
  split_and!; Z.to_euclidean_division_equations; lia.
Qed.
Lemma omap_sources_witness : OMAP.UDC_DMA_RX_SRC (0 * 2 ^ 12 + 5 * 2 ^ 8 + 0 * 2 ^ 4 + 3) = 5.
Proof. apply (omap_sources 5 3 0 0 0); lia. Defined.

(** ** S3C2410 and autoconfiguration *)
Definition s3c_gadget (eps : list usb_ep) : usb_gadget := mkGadget "s3c2410_udc" false eps.
Definition s3c_ep (size : Z) (i : nat) : usb_ep := mkEp (chars (default "" (S3C2410.ep_name !! i))) size None.
Definition s3c_request (type : Z) (dir_in : bool) : usb_endpoint_descriptor := mkDesc (if dir_in then USB_DIR_IN else 0) type 0.

Lemma s3c_any_build cfg eps ep s :
  ep_matches cfg (s3c_gadget eps) ep s = ep_matches (mkBuild (fun _ => false) false) (s3c_gadget []) ep s.
Proof.
  assert (forall cfg eps, gadget_is cfg "pxa25x_udc" (s3c_gadget eps) = false) as H
    by (intros; unfold gadget_is; cbn; apply andb_false_r).
  unfold ep_matches, name_allows. by rewrite !H.
Qed.

Definition s3c_serves (size type : Z) : bool :=
  (type =? USB_ENDPOINT_XFER_BULK) || ((type =? USB_ENDPOINT_XFER_INT) && (size <=? 64)).
Definition s3c_ok (size : Z) (i : nat) (type : Z) (d : bool) : bool :=
  match ep_matches (mkBuild (fun _ => false) false) (s3c_gadget []) (s3c_ep size i) (s3c_request type d, 0) with
  | Some (b, (desc, _)) => eqb b (s3c_serves size type) &&
      (negb b || ((bEndpointAddress desc =? (if d then 128 else 0) + Z.of_nat i) && (wMaxPacketSize desc =? Z.min size 64)))
  | None => false
  end.
Lemma s3c_ok_all :
  forallb (fun size => forallb (fun i => forallb (fun type => s3c_ok size i type true && s3c_ok size i type false) [1; 2; 3])
    (seq 1 4)) [S3C2410.EP_FIFO_SIZE; S3C2410.S3C2440_EP_FIFO_SIZE] = true.
Proof. by vm_compute. Qed.

(** property: the four endpoints of an S3C2410 and autoconfiguration: on a
    gadget of this controller, in any build, a free endpoint after the first
    takes a request for bulk transfers in either direction, with the number of
    its name and a packet of 64 bytes, and none for isochronous ones.  With
    the FIFO of 64 bytes it also takes a request for interrupt transfers; with
    the one of 128 bytes of the S3C2440 it does not: the size filled in is
    over the limit of full speed. *)
Theorem s3c_autoconf cfg eps size i type d :
  size = S3C2410.EP_FIFO_SIZE \/ size = S3C2410.S3C2440_EP_FIFO_SIZE -> (1 <= i < S3C2410.S3C2410_ENDPOINTS)%nat -> 1 <= type <= 3 ->
  exists b desc num, ep_matches cfg (s3c_gadget eps) (s3c_ep size i) (s3c_request type d, 0) = Some (b, (desc, num)) /\
    b = s3c_serves size type /\
    (b = true -> bEndpointAddress desc = (if d then 128 else 0) + Z.of_nat i /\ wMaxPacketSize desc = 64).
Proof.
  intros Hs Hi Ht. rewrite s3c_any_build. pose proof s3c_ok_all as H. rewrite forallb_forall in H.
  assert (In size [S3C2410.EP_FIFO_SIZE; S3C2410.S3C2440_EP_FIFO_SIZE]) as Hin by (cbn; intuition congruence).
  specialize (H size Hin). rewrite forallb_forall in H. assert (In i (seq 1 4)) as Hii by (apply in_seq; cbn in Hi; lia).
  specialize (H i Hii). rewrite forallb_forall in H. assert (In type [1; 2; 3]) as Hty by (cbn; lia).
  apply (H type), andb_true_iff in Hty as [H1 H2].
  assert (s3c_ok size i type d = true) as Ho by (by destruct d). unfold s3c_ok in Ho.
  destruct (ep_matches _ _ _ _) as [[b [desc num]]|]; [|done]. apply andb_true_iff in Ho as [Hb Ho]. exists b, desc, num.
  split; [done|]. split; [by apply eqb_prop|]. intros ->. cbn [negb orb] in Ho. bool_to_prop.
  assert (Z.min size 64 = 64) by (destruct Hs as [-> | ->]; done). lia.
Qed.
Lemma s3c_autoconf_witness :
  exists b desc num, ep_matches (mkBuild (fun _ => true) false) (s3c_gadget []) (s3c_ep 128 2) (s3c_request 3 true, 0) = Some (b, (desc, num)) /\ b = false.
Proof.
  destruct (s3c_autoconf (mkBuild (fun _ => true) false) [] 128 2 3 true) as (b & desc & num & H & Hb & _);
    [by right|cbn; lia|lia|]. by exists b, desc, num.
Defined.

(** property: the messages name the states of endpoint 0 as the source does,
    in the order of their numbers, on both controllers. *)
Theorem small_state_names :
  NoDup PXA25.state_name /\ PXA25.state_name = S3C2410.ep0states /\
  (forall s, is_Some (PXA25.state_name !! PXA25.ep0_number s)) /\
  (forall s t, PXA25.state_name !! PXA25.ep0_number s = PXA25.state_name !! PXA25.ep0_number t -> s = t) /\
  forall s, is_Some (S3C2410.ep0states !! S3C2410.ep0_number s).
Proof.
  split; [refine (bool_decide_eq_true_1 (NoDup _) _); by vm_compute|]. split; [done|].
  split; [by intros []; eexists|]. split; [by intros [] []|by intros []; eexists].
Qed.
