(* ===== verification/Rndis.v ===== *)
(** * Messages of USB network links and of the updater
    (test_gadget/rndis.h, ndis.h, u_ether.h, fsl_updater.h)

    The codes and messages of RNDIS with the object identifiers of NDIS, the
    test for controllers that can serve CDC Ethernet, and the command blocks
    of the updater's protocol. *)

From Stdlib Require Import ZArith Ascii.
From stdpp Require Import base list strings.
From S2P Require Import Prelude HwRegs EpAutoconf.

Module RNDIS.
Definition RNDIS_MAXIMUM_FRAME_SIZE : Z := 1518.

Definition RNDIS_MAX_TOTAL_SIZE : Z := 1558.

Definition RNDIS_MAJOR_VERSION : Z := 1.

Definition RNDIS_MINOR_VERSION : Z := 0.

Definition STATUS : list (string * Z) :=
  [("RNDIS_STATUS_SUCCESS", 0x00000000); ("RNDIS_STATUS_FAILURE", 0xC0000001);
   ("RNDIS_STATUS_INVALID_DATA", 0xC0010015); ("RNDIS_STATUS_NOT_SUPPORTED", 0xC00000BB);
   ("RNDIS_STATUS_MEDIA_CONNECT", 0x4001000B); ("RNDIS_STATUS_MEDIA_DISCONNECT", 0x4001000C)].

Definition MESSAGES : list (string * Z) :=
  [("REMOTE_NDIS_PACKET_MSG", 0x00000001); ("REMOTE_NDIS_INITIALIZE_MSG", 0x00000002);
   ("REMOTE_NDIS_HALT_MSG", 0x00000003); ("REMOTE_NDIS_QUERY_MSG", 0x00000004);
   ("REMOTE_NDIS_SET_MSG", 0x00000005); ("REMOTE_NDIS_RESET_MSG", 0x00000006);
   ("REMOTE_NDIS_INDICATE_STATUS_MSG", 0x00000007); ("REMOTE_NDIS_KEEPALIVE_MSG", 0x00000008)].

Definition COMPLETIONS : list (string * Z) :=
  [("REMOTE_NDIS_INITIALIZE_CMPLT", 0x80000002); ("REMOTE_NDIS_QUERY_CMPLT", 0x80000004);
   ("REMOTE_NDIS_SET_CMPLT", 0x80000005); ("REMOTE_NDIS_RESET_CMPLT", 0x80000006);
   ("REMOTE_NDIS_KEEPALIVE_CMPLT", 0x80000008)].

Definition DF : group := Grp []
  [Fld "RNDIS_DF_CONNECTIONLESS" 0x00000001 []; Fld "RNDIS_DF_CONNECTION_ORIENTED" 0x00000002 []].

Definition RNDIS_MEDIUM_802_3 : Z := 0x00000000.

Definition OID_PNP : list (string * Z) :=
  [("OID_PNP_CAPABILITIES", 0xFD010100); ("OID_PNP_SET_POWER", 0xFD010101); ("OID_PNP_QUERY_POWER", 0xFD010102);
   ("OID_PNP_ADD_WAKE_UP_PATTERN", 0xFD010103); ("OID_PNP_REMOVE_WAKE_UP_PATTERN", 0xFD010104);
   ("OID_PNP_ENABLE_WAKE_UP", 0xFD010106)].

Definition rndis_init_msg_type : list (string * cty) :=
  [("MessageType", U32); ("MessageLength", U32); ("RequestID", U32); ("MajorVersion", U32); ("MinorVersion", U32);
   ("MaxTransferSize", U32)].

Definition rndis_init_cmplt_type : list (string * cty) :=
  [("MessageType", U32); ("MessageLength", U32); ("RequestID", U32); ("Status", U32); ("MajorVersion", U32);
   ("MinorVersion", U32); ("DeviceFlags", U32); ("Medium", U32); ("MaxPacketsPerTransfer", U32);
   ("MaxTransferSize", U32); ("PacketAlignmentFactor", U32); ("AFListOffset", U32); ("AFListSize", U32)].

Definition rndis_halt_msg_type : list (string * cty) :=
  [("MessageType", U32); ("MessageLength", U32); ("RequestID", U32)].

Definition rndis_query_msg_type : list (string * cty) :=
  [("MessageType", U32); ("MessageLength", U32); ("RequestID", U32); ("OID", U32);
   ("InformationBufferLength", U32); ("InformationBufferOffset", U32); ("DeviceVcHandle", U32)].

Definition rndis_query_cmplt_type : list (string * cty) :=
  [("MessageType", U32); ("MessageLength", U32); ("RequestID", U32); ("Status", U32);
   ("InformationBufferLength", U32); ("InformationBufferOffset", U32)].

Definition rndis_set_msg_type : list (string * cty) :=
  [("MessageType", U32); ("MessageLength", U32); ("RequestID", U32); ("OID", U32);
   ("InformationBufferLength", U32); ("InformationBufferOffset", U32); ("DeviceVcHandle", U32)].

Definition rndis_set_cmplt_type : list (string * cty) :=
  [("MessageType", U32); ("MessageLength", U32); ("RequestID", U32); ("Status", U32)].

Definition rndis_reset_msg_type : list (string * cty) :=
  [("MessageType", U32); ("MessageLength", U32); ("Reserved", U32)].

Definition rndis_reset_cmplt_type : list (string * cty) :=
  [("MessageType", U32); ("MessageLength", U32); ("Status", U32); ("AddressingReset", U32)].

Definition rndis_indicate_status_msg_type : list (string * cty) :=
  [("MessageType", U32); ("MessageLength", U32); ("Status", U32); ("StatusBufferLength", U32);
   ("StatusBufferOffset", U32)].

Definition rndis_keepalive_msg_type : list (string * cty) :=
  [("MessageType", U32); ("MessageLength", U32); ("RequestID", U32)].

Definition rndis_keepalive_cmplt_type : list (string * cty) :=
  [("MessageType", U32); ("MessageLength", U32); ("RequestID", U32); ("Status", U32)].

Definition rndis_packet_msg_type : list (string * cty) :=
  [("MessageType", U32); ("MessageLength", U32); ("DataOffset", U32); ("DataLength", U32); ("OOBDataOffset", U32);
   ("OOBDataLength", U32); ("NumOOBDataElements", U32); ("PerPacketInfoOffset", U32);
   ("PerPacketInfoLength", U32); ("VcHandle", U32); ("Reserved", U32)].

Definition rndis_config_parameter : list (string * cty) :=
  [("ParameterNameOffset", U32); ("ParameterNameLength", U32); ("ParameterType", U32);
   ("ParameterValueOffset", U32); ("ParameterValueLength", U32)].
End RNDIS.

Module NDIS.
Definition MULTICAST : list (string * Z) :=
  [("NDIS_STATUS_MULTICAST_FULL", 0xC0010009); ("NDIS_STATUS_MULTICAST_EXISTS", 0xC001000A);
   ("NDIS_STATUS_MULTICAST_NOT_FOUND", 0xC001000B)].

(** An enumeration has four bytes. *)
Definition NDIS_PM_WAKE_UP_CAPABILITIES : list (string * cty) :=
  [("MinMagicPacketWakeUp", U32); ("MinPatternWakeUp", U32); ("MinLinkChangeWakeUp", U32)].

Definition WAKE : group := Grp []
  [Fld "NDIS_DEVICE_WAKE_UP_ENABLE" 0x00000001 []; Fld "NDIS_DEVICE_WAKE_ON_PATTERN_MATCH_ENABLE" 0x00000002 [];
   Fld "NDIS_DEVICE_WAKE_ON_MAGIC_PACKET_ENABLE" 0x00000004 []].

Definition NDIS_PNP_CAPABILITIES : list (string * cty) :=
  [("Flags", U32); ("WakeUpCapabilities.MinMagicPacketWakeUp", U32); ("WakeUpCapabilities.MinPatternWakeUp", U32);
   ("WakeUpCapabilities.MinLinkChangeWakeUp", U32)].

Definition NDIS_PM_PACKET_PATTERN : list (string * cty) :=
  [("Priority", U32); ("Reserved", U32); ("MaskSize", U32); ("PatternOffset", U32); ("PatternSize", U32);
   ("PatternFlags", U32)].

Definition OID_REQUIRED : list (string * Z) :=
  [("OID_GEN_SUPPORTED_LIST", 0x00010101); ("OID_GEN_HARDWARE_STATUS", 0x00010102);
   ("OID_GEN_MEDIA_SUPPORTED", 0x00010103); ("OID_GEN_MEDIA_IN_USE", 0x00010104);
   ("OID_GEN_MAXIMUM_LOOKAHEAD", 0x00010105); ("OID_GEN_MAXIMUM_FRAME_SIZE", 0x00010106);
   ("OID_GEN_LINK_SPEED", 0x00010107); ("OID_GEN_TRANSMIT_BUFFER_SPACE", 0x00010108);
   ("OID_GEN_RECEIVE_BUFFER_SPACE", 0x00010109); ("OID_GEN_TRANSMIT_BLOCK_SIZE", 0x0001010A);
   ("OID_GEN_RECEIVE_BLOCK_SIZE", 0x0001010B); ("OID_GEN_VENDOR_ID", 0x0001010C);
   ("OID_GEN_VENDOR_DESCRIPTION", 0x0001010D); ("OID_GEN_CURRENT_PACKET_FILTER", 0x0001010E);
   ("OID_GEN_CURRENT_LOOKAHEAD", 0x0001010F); ("OID_GEN_DRIVER_VERSION", 0x00010110);
   ("OID_GEN_MAXIMUM_TOTAL_SIZE", 0x00010111); ("OID_GEN_PROTOCOL_OPTIONS", 0x00010112);
   ("OID_GEN_MAC_OPTIONS", 0x00010113); ("OID_GEN_MEDIA_CONNECT_STATUS", 0x00010114);
   ("OID_GEN_MAXIMUM_SEND_PACKETS", 0x00010115); ("OID_GEN_VENDOR_DRIVER_VERSION", 0x00010116);
   ("OID_GEN_SUPPORTED_GUIDS", 0x00010117); ("OID_GEN_NETWORK_LAYER_ADDRESSES", 0x00010118);
   ("OID_GEN_TRANSPORT_HEADER_OFFSET", 0x00010119); ("OID_GEN_MACHINE_NAME", 0x0001021A);
   ("OID_GEN_RNDIS_CONFIG_PARAMETER", 0x0001021B); ("OID_GEN_VLAN_ID", 0x0001021C)].

Definition OID_OPTIONAL : list (string * Z) :=
  [("OID_GEN_MEDIA_CAPABILITIES", 0x00010201); ("OID_GEN_PHYSICAL_MEDIUM", 0x00010202)].

Definition OID_STATS : list (string * Z) :=
  [("OID_GEN_XMIT_OK", 0x00020101); ("OID_GEN_RCV_OK", 0x00020102); ("OID_GEN_XMIT_ERROR", 0x00020103);
   ("OID_GEN_RCV_ERROR", 0x00020104); ("OID_GEN_RCV_NO_BUFFER", 0x00020105)].

Definition OID_OPTIONAL_STATS : list (string * Z) :=
  [("OID_GEN_DIRECTED_BYTES_XMIT", 0x00020201); ("OID_GEN_DIRECTED_FRAMES_XMIT", 0x00020202);
   ("OID_GEN_MULTICAST_BYTES_XMIT", 0x00020203); ("OID_GEN_MULTICAST_FRAMES_XMIT", 0x00020204);
   ("OID_GEN_BROADCAST_BYTES_XMIT", 0x00020205); ("OID_GEN_BROADCAST_FRAMES_XMIT", 0x00020206);
   ("OID_GEN_DIRECTED_BYTES_RCV", 0x00020207); ("OID_GEN_DIRECTED_FRAMES_RCV", 0x00020208);
   ("OID_GEN_MULTICAST_BYTES_RCV", 0x00020209); ("OID_GEN_MULTICAST_FRAMES_RCV", 0x0002020A);
   ("OID_GEN_BROADCAST_BYTES_RCV", 0x0002020B); ("OID_GEN_BROADCAST_FRAMES_RCV", 0x0002020C);
   ("OID_GEN_RCV_CRC_ERROR", 0x0002020D); ("OID_GEN_TRANSMIT_QUEUE_LENGTH", 0x0002020E);
   ("OID_GEN_GET_TIME_CAPS", 0x0002020F); ("OID_GEN_GET_NETCARD_TIME", 0x00020210);
   ("OID_GEN_NETCARD_LOAD", 0x00020211); ("OID_GEN_DEVICE_PROFILE", 0x00020212);
   ("OID_GEN_INIT_TIME_MS", 0x00020213); ("OID_GEN_RESET_COUNTS", 0x00020214);
   ("OID_GEN_MEDIA_SENSE_COUNTS", 0x00020215); ("OID_GEN_FRIENDLY_NAME", 0x00020216);
   ("OID_GEN_MINIPORT_INFO", 0x00020217); ("OID_GEN_RESET_VERIFY_PARAMETERS", 0x00020218)].

Definition OID_802_3 : list (string * Z) :=
  [("OID_802_3_PERMANENT_ADDRESS", 0x01010101); ("OID_802_3_CURRENT_ADDRESS", 0x01010102);
   ("OID_802_3_MULTICAST_LIST", 0x01010103); ("OID_802_3_MAXIMUM_LIST_SIZE", 0x01010104);
   ("OID_802_3_MAC_OPTIONS", 0x01010105); ("OID_802_3_RCV_ERROR_ALIGNMENT", 0x01020101);
   ("OID_802_3_XMIT_ONE_COLLISION", 0x01020102); ("OID_802_3_XMIT_MORE_COLLISIONS", 0x01020103);
   ("OID_802_3_XMIT_DEFERRED", 0x01020201); ("OID_802_3_XMIT_MAX_COLLISIONS", 0x01020202);
   ("OID_802_3_RCV_OVERRUN", 0x01020203); ("OID_802_3_XMIT_UNDERRUN", 0x01020204);
   ("OID_802_3_XMIT_HEARTBEAT_FAILURE", 0x01020205); ("OID_802_3_XMIT_TIMES_CRS_LOST", 0x01020206);
   ("OID_802_3_XMIT_LATE_COLLISIONS", 0x01020207)].

Definition MINIPORT : group := Grp []
  [Fld "NDIS_MINIPORT_BUS_MASTER" 0x00000001 []; Fld "NDIS_MINIPORT_WDM_DRIVER" 0x00000002 [];
   Fld "NDIS_MINIPORT_SG_LIST" 0x00000004 []; Fld "NDIS_MINIPORT_SUPPORTS_MEDIA_QUERY" 0x00000008 [];
   Fld "NDIS_MINIPORT_INDICATES_PACKETS" 0x00000010 []; Fld "NDIS_MINIPORT_IGNORE_PACKET_QUEUE" 0x00000020 [];
   Fld "NDIS_MINIPORT_IGNORE_REQUEST_QUEUE" 0x00000040 [];
   Fld "NDIS_MINIPORT_IGNORE_TOKEN_RING_ERRORS" 0x00000080 [];
   Fld "NDIS_MINIPORT_INTERMEDIATE_DRIVER" 0x00000100 []; Fld "NDIS_MINIPORT_IS_NDIS_5" 0x00000200 [];
   Fld "NDIS_MINIPORT_IS_CO" 0x00000400 []; Fld "NDIS_MINIPORT_DESERIALIZE" 0x00000800 [];
   Fld "NDIS_MINIPORT_REQUIRES_MEDIA_POLLING" 0x00001000 [];
   Fld "NDIS_MINIPORT_SUPPORTS_MEDIA_SENSE" 0x00002000 []; Fld "NDIS_MINIPORT_NETBOOT_CARD" 0x00004000 [];
   Fld "NDIS_MINIPORT_PM_SUPPORTED" 0x00008000 [];
   Fld "NDIS_MINIPORT_SUPPORTS_MAC_ADDRESS_OVERWRITE" 0x00010000 [];
   Fld "NDIS_MINIPORT_USES_SAFE_BUFFER_APIS" 0x00020000 []; Fld "NDIS_MINIPORT_HIDDEN" 0x00040000 [];
   Fld "NDIS_MINIPORT_SWENUM" 0x00080000 []; Fld "NDIS_MINIPORT_SURPRISE_REMOVE_OK" 0x00100000 [];
   Fld "NDIS_MINIPORT_NO_HALT_ON_SUSPEND" 0x00200000 []; Fld "NDIS_MINIPORT_HARDWARE_DEVICE" 0x00400000 [];
   Fld "NDIS_MINIPORT_SUPPORTS_CANCEL_SEND_PACKETS" 0x00800000 []; Fld "NDIS_MINIPORT_64BITS_DMA" 0x01000000 []].

Definition MEDIUM : list (string * Z) :=
  [("NDIS_MEDIUM_802_3", 0x00000000); ("NDIS_MEDIUM_802_5", 0x00000001); ("NDIS_MEDIUM_FDDI", 0x00000002);
   ("NDIS_MEDIUM_WAN", 0x00000003); ("NDIS_MEDIUM_LOCAL_TALK", 0x00000004); ("NDIS_MEDIUM_DIX", 0x00000005);
   ("NDIS_MEDIUM_ARCENT_RAW", 0x00000006); ("NDIS_MEDIUM_ARCENT_878_2", 0x00000007);
   ("NDIS_MEDIUM_ATM", 0x00000008); ("NDIS_MEDIUM_WIRELESS_LAN", 0x00000009); ("NDIS_MEDIUM_IRDA", 0x0000000A);
   ("NDIS_MEDIUM_BPC", 0x0000000B); ("NDIS_MEDIUM_CO_WAN", 0x0000000C); ("NDIS_MEDIUM_1394", 0x0000000D)].

Definition PACKET_TYPE : group := Grp []
  [Fld "NDIS_PACKET_TYPE_DIRECTED" 0x00000001 []; Fld "NDIS_PACKET_TYPE_MULTICAST" 0x00000002 [];
   Fld "NDIS_PACKET_TYPE_ALL_MULTICAST" 0x00000004 []; Fld "NDIS_PACKET_TYPE_BROADCAST" 0x00000008 [];
   Fld "NDIS_PACKET_TYPE_SOURCE_ROUTING" 0x00000010 []; Fld "NDIS_PACKET_TYPE_PROMISCUOUS" 0x00000020 [];
   Fld "NDIS_PACKET_TYPE_SMT" 0x00000040 []; Fld "NDIS_PACKET_TYPE_ALL_LOCAL" 0x00000080 [];
   Fld "NDIS_PACKET_TYPE_GROUP" 0x00000100 []; Fld "NDIS_PACKET_TYPE_ALL_FUNCTIONAL" 0x00000200 [];
   Fld "NDIS_PACKET_TYPE_FUNCTIONAL" 0x00000400 []; Fld "NDIS_PACKET_TYPE_MAC_FRAME" 0x00000800 []].

Definition MEDIA_STATE : list (string * Z) :=
  [("NDIS_MEDIA_STATE_CONNECTED", 0x00000000); ("NDIS_MEDIA_STATE_DISCONNECTED", 0x00000001)].

Definition MAC_OPTION : group := Grp []
  [Fld "NDIS_MAC_OPTION_COPY_LOOKAHEAD_DATA" 0x00000001 [];
   Fld "NDIS_MAC_OPTION_RECEIVE_SERIALIZED" 0x00000002 []; Fld "NDIS_MAC_OPTION_TRANSFERS_NOT_PEND" 0x00000004 [];
   Fld "NDIS_MAC_OPTION_NO_LOOPBACK" 0x00000008 []; Fld "NDIS_MAC_OPTION_FULL_DUPLEX" 0x00000010 [];
   Fld "NDIS_MAC_OPTION_EOTX_INDICATION" 0x00000020 []; Fld "NDIS_MAC_OPTION_8021P_PRIORITY" 0x00000040 [];
   Fld "NDIS_MAC_OPTION_RESERVED" 0x80000000 []].
End NDIS.

(** ** CDC Ethernet *)
Definition can_support_ecm (cfg : build_config) (gadget : usb_gadget) : bool :=
  if negb (gadget_supports_altsettings cfg gadget) then false else true.

(** ** The updater *)
Module UTP.
Definition UTP_REPLY_PASS : Z := 0.
Definition UTP_REPLY_EXIT : Z := 0x8001.
Definition UTP_REPLY_BUSY : Z := 0x8002.
Definition UTP_REPLY_SIZE : Z := 0x8003.
(** The code and the reply that each macro gives to [utp_set_sense]. *)
Definition UTP_SS_EXIT (r : Z) : Z * Z := (UTP_REPLY_EXIT, wrap 64 r).
Definition UTP_SS_PASS : Z * Z := (UTP_REPLY_PASS, 0).
Definition UTP_SS_BUSY (r : Z) : Z * Z := (UTP_REPLY_BUSY, wrap 64 r).
Definition UTP_SS_SIZE (r : Z) : Z * Z := (UTP_REPLY_SIZE, wrap 64 r).

(** [struct utp_msg] under [#pragma pack(1)], in the memory of a little endian
    processor. *)
Record utp_msg := mkUtp { f0 : Z; utp_msg_type : Z; utp_msg_tag : Z; param_lsb : Z; param_msb : Z }.
Definition put_msg (m : utp_msg) : list Z :=
  le_bytes 1 (f0 m) ++ le_bytes 1 (utp_msg_type m) ++ le_bytes 4 (utp_msg_tag m) ++ le_bytes 4 (param_lsb m) ++ le_bytes 4 (param_msb m).
Definition at_ (cdb : list Z) (ofs n : nat) : Z := of_le_bytes (take n (drop ofs cdb)).
Definition get_msg (cdb : list Z) : utp_msg := mkUtp (at_ cdb 0 1) (at_ cdb 1 1) (at_ cdb 2 4) (at_ cdb 6 4) (at_ cdb 10 4).
(** The other member of the union. *)
Definition get_param (cdb : list Z) : Z := at_ cdb 6 8.

Inductive msg_type := UTP_POLL | UTP_EXEC | UTP_GET | UTP_PUT.
Definition msg_number (t : msg_type) : Z := match t with UTP_POLL => 0 | UTP_EXEC => 1 | UTP_GET => 2 | UTP_PUT => 3 end.
Definition FLAGS : group := Grp []
  [Fld "UTP_FLAG_COMMAND" 0x00000001 []; Fld "UTP_FLAG_DATA" 0x00000002 []; Fld "UTP_FLAG_STATUS" 0x00000004 [];
   Fld "UTP_FLAG_REPORT_BUSY" 0x10000000 []].
End UTP.

(** ** Messages of 32 bit words *)
Definition all_words (l : list (string * cty)) : bool := forallb (fun m => match m.2 with U32 => true | _ => false end) l.
(** A message with its values, and a member of the bytes. *)
Definition encode (vals : list Z) : list Z := vals ≫= le_bytes 4.
Definition member (l : list (string * cty)) (name : string) (buf : list Z) : option Z :=
  o ← offsetof 4 4 l name; Some (of_le_bytes (take 4 (drop (Z.to_nat o) buf))).

Lemma members_words l pos : all_words l = true -> pos mod 4 = 0 ->
  members 4 4 pos l = imap (fun i m => (m.1, (pos + 4 * Z.of_nat i, 4))) l.
Proof.
  revert pos. induction l as [|[n t] l IH]; intros pos Hl Hp; [done|]. cbn [all_words forallb snd] in Hl.
  apply andb_true_iff in Hl as [Ht Hl]. destruct t; try done. cbn [members alignof sizeof imap fst].
  assert (align_up pos 4 = pos) as -> by (unfold align_up; Z.to_euclidean_division_equations; lia).
  f_equal; [f_equal; f_equal; lia|]. rewrite IH; [|done|Z.to_euclidean_division_equations; lia].
  apply imap_ext. intros i m _. cbn. do 2 f_equal. lia.
Qed.

Lemma offsetof_words l i n t : all_words l = true -> NoDup l.*1 -> l !! i = Some (n, t) -> offsetof 4 4 l n = Some (4 * Z.of_nat i).
Proof.
  intros Hl Hn Hi. unfold offsetof. rewrite members_words by done.
  assert (list_find (fun m => m.1 = n) (imap (fun i (m : string * cty) => (m.1, (0 + 4 * Z.of_nat i, 4))) l) =
    Some (i, (n, (0 + 4 * Z.of_nat i, 4)))) as ->; [|by cbn].
  apply list_find_Some. split; [by rewrite list_lookup_imap, Hi|]. split; [done|].
  intros j y Hj Hji E. rewrite list_lookup_imap, fmap_Some in Hj. destruct Hj as ([m t'] & Hm & ->). cbn in E. subst m.
  assert (j = i); [|lia]. apply (proj1 (NoDup_alt _) Hn j i n); by rewrite list_lookup_fmap, ?Hm, ?Hi.
Qed.

Lemma encode_at vals i v : vals !! i = Some v -> take 4 (drop (4 * i) (encode vals)) = le_bytes 4 v.
Proof.
  revert i. induction vals as [|w vals IH]; intros i Hi; [done|]. unfold encode in *. rewrite bind_cons.
  destruct i as [|i]; cbn [lookup list_lookup] in Hi.
  - injection Hi as ->. rewrite Nat.mul_0_r. cbn [drop]. apply (take_app_length' (le_bytes 4 v)). by rewrite length_le_bytes.
  - rewrite drop_app_ge by (rewrite length_le_bytes; lia). rewrite length_le_bytes.
    replace (4 * S i - 4)%nat with (4 * i)%nat by lia. by apply IH.
Qed.

Definition rndis_messages : list (list (string * cty)) :=
  [RNDIS.rndis_init_msg_type; RNDIS.rndis_init_cmplt_type; RNDIS.rndis_halt_msg_type; RNDIS.rndis_query_msg_type;
   RNDIS.rndis_query_cmplt_type; RNDIS.rndis_set_msg_type; RNDIS.rndis_set_cmplt_type;
   RNDIS.rndis_reset_msg_type; RNDIS.rndis_reset_cmplt_type; RNDIS.rndis_indicate_status_msg_type;
   RNDIS.rndis_keepalive_msg_type; RNDIS.rndis_keepalive_cmplt_type; RNDIS.rndis_packet_msg_type].

Lemma rndis_messages_ok : forallb (fun l => all_words l && bool_decide (NoDup l.*1)) rndis_messages = true.
Proof. by vm_compute. Qed.

(** property: a message that is written word by word in the order of its
    structure is read back member by member at the offsets the compiler gives
    them: for every message of RNDIS, the member at position i has the i-th
    value. *)
Theorem rndis_member_roundtrip l vals i n t v :
  l ∈ rndis_messages -> Forall (fun v => 0 <= v < 2 ^ 32) vals ->
  l !! i = Some (n, t) -> vals !! i = Some v -> member l n (encode vals) = Some v.
Proof.
  intros Hl Hv Hi Hvi. pose proof rndis_messages_ok as H. rewrite forallb_forall in H.
  apply list_elem_of_In, H, andb_true_iff in Hl as [Hw Hn%bool_decide_eq_true].
  unfold member. rewrite (offsetof_words l i n t) by done. cbn [mbind option_bind].
  replace (Z.to_nat (4 * Z.of_nat i)) with (4 * i)%nat by lia. rewrite (encode_at vals i v), of_le_bytes_le by done.
  rewrite Z.mod_small; [done|]. by apply (Forall_lookup_1 _ _ _ _ Hv Hvi).
Qed.
Lemma rndis_member_roundtrip_witness :
  member RNDIS.rndis_halt_msg_type "RequestID" (encode [3; 12; 0xdeadbeef]) = Some 0xdeadbeef.
Proof.
  apply (rndis_member_roundtrip RNDIS.rndis_halt_msg_type [3; 12; 0xdeadbeef] 2 "RequestID" U32); [|by repeat constructor|done|done].
  apply (list_elem_of_lookup_2 _ 2). reflexivity.
Defined.

(** property: every message begins with its type and its length and is as long
    as its words; a question and its answer have the request number at the
    same place, with the status after it, except for the reset, which has
    none. *)
Theorem rndis_headers :
  Forall (fun l => offsetof 4 4 l "MessageType" = Some 0 /\ offsetof 4 4 l "MessageLength" = Some 4 /\
    struct_size 4 4 l = 4 * Z.of_nat (length l)) rndis_messages /\
  Forall (fun p => offsetof 4 4 p.1 "RequestID" = Some 8 /\ offsetof 4 4 p.2 "RequestID" = Some 8 /\ offsetof 4 4 p.2 "Status" = Some 12)
    [(RNDIS.rndis_init_msg_type, RNDIS.rndis_init_cmplt_type); (RNDIS.rndis_query_msg_type, RNDIS.rndis_query_cmplt_type);
     (RNDIS.rndis_set_msg_type, RNDIS.rndis_set_cmplt_type); (RNDIS.rndis_keepalive_msg_type, RNDIS.rndis_keepalive_cmplt_type)] /\
  offsetof 4 4 RNDIS.rndis_reset_msg_type "RequestID" = None /\ offsetof 4 4 RNDIS.rndis_reset_cmplt_type "RequestID" = None /\
  offsetof 4 4 RNDIS.rndis_reset_cmplt_type "Status" = Some 8.
Proof.
  split; [refine (bool_decide_eq_true_1 (Forall _ _) _); by vm_compute|].
  split; [refine (bool_decide_eq_true_1 (Forall _ _) _); by vm_compute|]. by vm_compute.
Qed.

(** The name of the answer: [..._MSG] becomes [..._CMPLT]. *)
Definition cmplt_name (n : string) : string := String.substring 0 (String.length n - 3) n +:+ "CMPLT".
Definition unanswered : list string := ["REMOTE_NDIS_PACKET_MSG"; "REMOTE_NDIS_HALT_MSG"; "REMOTE_NDIS_INDICATE_STATUS_MSG"].
(** property: an answer has the code of the question with the highest bit set,
    and every question has one, except for data, halt and the indication of a
    status; all codes are different, and so are the status values. *)
Theorem rndis_answers :
  RNDIS.COMPLETIONS = (fun m => (cmplt_name m.1, Z.lor m.2 0x80000000)) <$> filter (fun m => m.1 ∉ unanswered) RNDIS.MESSAGES /\
  NoDup (RNDIS.MESSAGES.*2 ++ RNDIS.COMPLETIONS.*2) /\ NoDup RNDIS.STATUS.*2.
Proof.
  split; [by vm_compute|]. split; refine (bool_decide_eq_true_1 (NoDup _) _); by vm_compute.
Qed.

(** property: the header of a packet is 44 bytes, the total size is the one of
    an Ethernet frame of 1514 bytes after it; a frame of the maximum size of
    the header, 1518, does not fit with it. *)
Theorem rndis_sizes :
  struct_size 4 4 RNDIS.rndis_packet_msg_type = 44 /\
  RNDIS.RNDIS_MAX_TOTAL_SIZE = struct_size 4 4 RNDIS.rndis_packet_msg_type + 1514 /\
  RNDIS.RNDIS_MAX_TOTAL_SIZE < struct_size 4 4 RNDIS.rndis_packet_msg_type + RNDIS.RNDIS_MAXIMUM_FRAME_SIZE.
Proof. by vm_compute. Qed.

Definition oids : list (string * Z) :=
  NDIS.OID_REQUIRED ++ NDIS.OID_OPTIONAL ++ NDIS.OID_STATS ++ NDIS.OID_OPTIONAL_STATS ++ NDIS.OID_802_3 ++ RNDIS.OID_PNP.
(** property: object identifiers are different, over both headers; the bits of
    filters, options, device and wake-up flags are different bits. *)
Theorem ndis_codes :
  NoDup oids.*2 /\ NoDup oids.*1 /\ table_ok 32 [NDIS.WAKE; NDIS.MINIPORT; NDIS.PACKET_TYPE; NDIS.MAC_OPTION; RNDIS.DF] = true /\
  struct_size 4 4 NDIS.NDIS_PNP_CAPABILITIES = 16 /\ struct_size 4 4 NDIS.NDIS_PM_PACKET_PATTERN = 24.
Proof.
  split; [refine (bool_decide_eq_true_1 (NoDup _) _); by vm_compute|].
  split; [refine (bool_decide_eq_true_1 (NoDup _) _); by vm_compute|]. by vm_compute.
Qed.

(** property: CDC Ethernet is refused exactly for the controllers without
    alternate settings: a PXA25x or a PXA27x in a build that has its driver. *)
Theorem ecm_support cfg g :
  can_support_ecm cfg g = false <-> gadget_is cfg "pxa25x_udc" g = true \/ gadget_is cfg "pxa27x_udc" g = true.
Proof.
  unfold can_support_ecm, gadget_supports_altsettings.
  destruct (gadget_is cfg "pxa25x_udc" g), (gadget_is cfg "pxa27x_udc" g); cbn; intuition congruence.
Qed.

(** property: a command of the updater is 14 bytes, within the 16 of a command
    block; its members are read back from the block whatever the bytes after
    it are, and the 64 bit parameter is the two halves. *)
Theorem utp_roundtrip m tail :
  0 <= UTP.f0 m < 256 -> 0 <= UTP.utp_msg_type m < 256 -> 0 <= UTP.utp_msg_tag m < 2 ^ 32 ->
  0 <= UTP.param_lsb m < 2 ^ 32 -> 0 <= UTP.param_msb m < 2 ^ 32 ->
  length (UTP.put_msg m) = 14%nat /\ UTP.get_msg (UTP.put_msg m ++ tail) = m /\
  UTP.get_param (UTP.put_msg m ++ tail) = UTP.param_lsb m + UTP.param_msb m * 2 ^ 32.
Proof.
  intros H0 H1 H2 H3 H4. split; [done|]. destruct m as [a b c d e]. cbn [UTP.f0 UTP.utp_msg_type UTP.utp_msg_tag UTP.param_lsb UTP.param_msb] in *.
  assert (forall n x, 0 <= x < 2 ^ (8 * Z.of_nat n) -> of_le_bytes (le_bytes n x) = x) as Hr
    by (intros n x Hx; rewrite of_le_bytes_le; by apply Z.mod_small).
  pose proof (Hr 1%nat a ltac:(lia)) as Ha. pose proof (Hr 1%nat b ltac:(lia)) as Hb. pose proof (Hr 4%nat c ltac:(lia)) as Hc.
  pose proof (Hr 4%nat d ltac:(lia)) as Hd. pose proof (Hr 4%nat e ltac:(lia)) as He.
  unfold UTP.get_msg, UTP.get_param, UTP.at_, UTP.put_msg. cbn [UTP.f0 UTP.utp_msg_type UTP.utp_msg_tag UTP.param_lsb UTP.param_msb le_bytes of_le_bytes app take drop] in *.
  split; [by f_equal|]. rewrite take_0. cbn [of_le_bytes]. lia.
Qed.
Lemma utp_roundtrip_witness :
  UTP.get_param (UTP.put_msg (UTP.mkUtp 0xf0 1 7 0x10 0x20) ++ [0; 0]) = 0x10 + 0x20 * 2 ^ 32.
Proof. apply (utp_roundtrip (UTP.mkUtp 0xf0 1 7 0x10 0x20) [0; 0]); cbn; lia. Defined.

(** property: replies of the updater: only "pass" has no highest bit, the three
    others carry a number of 64 bits, and all codes are different; the flags
    of messages are different bits. *)
Theorem utp_replies r :
  NoDup [(UTP.UTP_SS_PASS).1; (UTP.UTP_SS_EXIT r).1; (UTP.UTP_SS_BUSY r).1; (UTP.UTP_SS_SIZE r).1] /\
  Forall (fun s => Z.testbit s.1 15 = true /\ s.2 = r mod 2 ^ 64) [UTP.UTP_SS_EXIT r; UTP.UTP_SS_BUSY r; UTP.UTP_SS_SIZE r] /\
  group_ok 32 UTP.FLAGS = true.
Proof.
  split; [refine (bool_decide_eq_true_1 (NoDup _) _); by vm_compute|]. split; [by repeat constructor|by vm_compute].
Qed.
