(* ===== verification/UserTools.v ===== *)
(** * User space tools (test_watchdog/watchdog_app.c, test_input/sendevent.c)

    The program that feeds the watchdog for a while and then lets the system
    reset, with the driver routine quoted in its file that sets the interval,
    and the program that writes an input event. *)

From Stdlib Require Import ZArith.
From stdpp Require Import base list strings.
From S2P Require Import Prelude HwRegs.

(** ** Feeding the watchdog *)
Module Watchdog.
(** What [main] does in a second: the number it prints, and if it pings. *)
Record second := mkSecond { shown : Z; pinged : bool }.
(** One pass of the loop, [ii] before and after it. *)
Definition pass (ii : Z) : second * Z := (mkSecond ii (0 <? ii), ii - 1).
(** The first [n] passes of [while (1)]. *)
Fixpoint loop (n : nat) (ii : Z) : list second :=
  match n with O => [] | S n => let '(s, ii) := pass ii in s :: loop n ii end.
(** [main]: nothing is done if the device cannot be opened. *)
Definition main (fd : Z) (n : nat) : list second := if fd =? -1 then [] else loop n 10.

(** ** The interval *)
Section Nuc970.
(** The field of the control register, which the header of the processor
    defines. *)
Variable WTIS : Z.
Inductive access := Unlock_RegWriteProtect | ReadCR | WriteCR (val : Z) | Lock_RegWriteProtect.
Definition select (timeout : Z) : Z := if timeout <? 2 then 0x5 else if timeout <? 8 then 0x6 else 0x7.
Definition nuc970wdt_set_timeout (REG_WDT_CR timeout : Z) : list access * Z :=
  let val := u32 (Z.land REG_WDT_CR (Z.lnot WTIS)) in
  let val := Z.lor val (Z.shiftl (select timeout) 8) in
  ([Unlock_RegWriteProtect; ReadCR; WriteCR val; Lock_RegWriteProtect], 0).
End Nuc970.
(** Ticks of the 32768 Hz clock that the comment gives for a selection. *)
Definition interval (sel : Z) : option Z :=
  match sel with 0x5 => Some (2 ^ 14 + 1024) | 0x6 => Some (2 ^ 16 + 1024) | 0x7 => Some (2 ^ 18 + 1024) | _ => None end.
End Watchdog.

(** ** Writing an event *)
Module Sendevent.
(** [struct input_event] after [memset], without its time, which is 0. *)
Record input_event := mkEvent { type : Z; code : Z; value : Z }.
(** Processors of 32 and 64 bits: the width of [size_t] and the size of an
    event. *)
Definition size_bits (b64 : bool) : Z := if b64 then 64 else 32.
Definition sizeof_event (b64 : bool) : Z := if b64 then 24 else 16.

(** The answers of the system calls: [open], [ioctl], [write]. *)
Record system := mkSystem { open_ : string -> Z; ioctl_version : Z -> Z; write_ : Z -> input_event -> Z -> Z }.
(** The result, and what was given to [write]. *)
Definition sendevent_main (b64 : bool) (sys : system) (argv : list string) : Z * option (Z * input_event * Z) :=
  match argv with
  | [_; device; a2; a3; a4] =>
      let fd := open_ sys device in
      if fd <? 0 then (1, None)
      else if negb (ioctl_version sys fd =? 0) then (1, None)
      else
        let event := mkEvent (u16 (atoi a2)) (u16 (atoi a3)) (atoi a4) in
        let ret := write_ sys fd event (sizeof_event b64) in
        (** [ret < sizeof(event)] compares as [size_t]. *)
        let r := if wrap (size_bits b64) ret <? sizeof_event b64 then -1 else 0 in
        (r, Some (fd, event, sizeof_event b64))
  | _ => (1, None)
  end.
(** [main] drops the result. *)
Definition main (b64 : bool) (sys : system) (argv : list string) : Z * option (Z * input_event * Z) :=
  (0, (sendevent_main b64 sys argv).2).
End Sendevent.

(** ** Theorems *)
Import Watchdog.

(** A watchdog of [T] seconds: a ping sets it back, each second counts it
    down; at 0 the system resets.  The result is what is left. *)
Fixpoint watch (T left : Z) (l : list second) : option Z :=
  match l with
  | [] => Some left
  | s :: l => let left := (if pinged s then T else left) - 1 in if left <=? 0 then None else watch T left l
  end.

Lemma loop_app n m ii : loop (n + m) ii = loop n ii ++ loop m (ii - Z.of_nat n).
Proof.
  revert ii. induction n as [|n IH]; intros ii; [by rewrite Z.sub_0_r|].
  cbn [Nat.add loop pass app]. f_equal. rewrite IH. do 2 f_equal. lia.
Qed.
Lemma watch_app T left l k : watch T left (l ++ k) = (left ← watch T left l; watch T left k).
Proof.
  revert left. induction l as [|s l IH]; intros left; [done|]. cbn [app watch].
  destruct (_ <=? 0); [done|apply IH].
Qed.
(** While the counter is positive every second has a ping; after that none. *)
Lemma watch_fed T n ii left : 2 <= T -> Z.of_nat n <= ii -> watch T left (loop n ii) = Some (if (n =? 0)%nat then left else T - 1).
Proof.
  intros HT. revert ii left. induction n as [|n IH]; intros ii left Hn; [done|].
  cbn [loop pass watch pinged]. assert ((0 <? ii) = true) as -> by lia. assert ((T - 1 <=? 0) = false) as -> by lia.
  rewrite IH by lia. by destruct n.
Qed.
Lemma watch_hungry T n ii left :
  ii <= 0 -> 1 <= left -> watch T left (loop n ii) = if left - Z.of_nat n <=? 0 then None else Some (left - Z.of_nat n).
Proof.
  revert ii left. induction n as [|n IH]; intros ii left Hi Hl; cbn [loop pass watch].
  - rewrite Z.sub_0_r. by assert ((left <=? 0) = false) as -> by lia.
  - cbn [pinged]. assert ((0 <? ii) = false) as -> by lia. destruct (left - 1 <=? 0) eqn:E.
    + apply Z.leb_le in E. replace (left - Z.of_nat (S n) <=? 0) with true; [done|]. symmetry. apply Z.leb_le. lia.
    + rewrite IH by lia. by replace (left - 1 - Z.of_nat n) with (left - Z.of_nat (S n)) by lia.
Qed.

(** property: the program feeds the watchdog in each of the first ten seconds
    and never after, and so lets the system reset: with a watchdog of T
    seconds, at least 2, the system is up after n seconds exactly if n is
    below T + 9. *)
Theorem watchdog_resets fd T n :
  fd <> -1 -> 2 <= T ->
  (pinged <$> Watchdog.main fd n) = replicate (n `min` 10) true ++ replicate (n - 10) false /\
  (is_Some (watch T T (Watchdog.main fd n)) <-> Z.of_nat n < T + 9).
Proof.
  intros Hfd HT. unfold Watchdog.main. assert ((fd =? -1) = false) as -> by lia. split.
  - assert (forall n ii, pinged <$> loop n ii = replicate (n `min` Z.to_nat ii) true ++ replicate (n - Z.to_nat ii) false) as H; [|by apply H].
    clear. induction n as [|n IH]; intros ii; [done|]. cbn [loop pass fmap list_fmap pinged].
    fold (pinged <$> loop n (ii - 1)). rewrite IH. destruct (0 <? ii) eqn:E.
    + replace (Z.to_nat ii) with (S (Z.to_nat (ii - 1))) by lia. done.
    + replace (Z.to_nat (ii - 1)) with 0%nat by lia. replace (Z.to_nat ii) with 0%nat by lia. by rewrite Nat.min_0_r, Nat.sub_0_r.
  - destruct (decide (n <= 10)%nat) as [Hn|Hn].
    + rewrite watch_fed by lia. split; [lia|done].
    + replace n with (10 + (n - 10))%nat by lia. rewrite loop_app, watch_app, watch_fed by lia. cbn [Nat.eqb mbind option_bind].
      rewrite watch_hungry by lia. destruct (_ <=? 0) eqn:E; [apply Z.leb_le in E|apply Z.leb_gt in E].
      * split; [by intros []|lia].
      * split; [lia|done].
Qed.
Lemma watchdog_resets_witness :
  is_Some (watch 5 5 (Watchdog.main 3 13)) /\ ~ is_Some (watch 5 5 (Watchdog.main 3 14)).
Proof.
  split; [apply (watchdog_resets 3 5 13); lia|].
  intros H. apply (watchdog_resets 3 5 14) in H; lia.
Defined.

(** property: setting the interval: between unlocking and locking the register
    is read and written once; its field WTIS has the selection, its other bits
    are what they were.  The field is the three bits from 8 on, which the
    selections fit. *)
Theorem nuc970_set WTIS cr timeout :
  WTIS = 0x700 -> 0 <= cr < 2 ^ 32 ->
  exists val, nuc970wdt_set_timeout WTIS cr timeout = ([Unlock_RegWriteProtect; ReadCR; WriteCR val; Lock_RegWriteProtect], 0) /\
    Z.land val WTIS = Z.shiftl (select timeout) 8 /\ Z.land val (Z.lnot WTIS) = Z.land cr (Z.lnot WTIS) /\ 0 <= val < 2 ^ 32.
Proof.
  intros -> Hcr. eexists. split; [reflexivity|].
  assert (within (Z.shiftl (select timeout) 8) 0x700 = true) as Hw by (unfold select; destruct (timeout <? 2), (timeout <? 8); done).
  assert (u32 (Z.land cr (Z.lnot 0x700)) = Z.land cr (Z.lnot 0x700)) as ->.
  { apply u32_small. apply (within_range 32 _ cr); [lia|apply Z.land_nonneg; lia| |done].
    unfold within. apply Z.eqb_eq. by rewrite <- Z.land_assoc, (Z.land_comm _ cr), Z.land_assoc, Z.land_diag. }
  split; [by apply set_bits_field|]. split.
  - apply (set_bits_other cr 0x700 _ (Z.lnot 0x700) Hw). by vm_compute.
  - apply set_bits_range; [lia|done|]. unfold select. destruct (timeout <? 2), (timeout <? 8); vm_compute; intuition congruence.
Qed.
Lemma nuc970_set_witness :
  exists val, nuc970wdt_set_timeout 0x700 0x2c1 10 = ([Unlock_RegWriteProtect; ReadCR; WriteCR val; Lock_RegWriteProtect], 0) /\ Z.land val 0x700 = 0x700.
Proof. destruct (nuc970_set 0x700 0x2c1 10 eq_refl ltac:(lia)) as (v & H & Hv & _). by exists v. Defined.

(** property: the interval that is selected is the shortest for less than 2
    seconds, the middle for less than 8, else the longest; it is at least as
    long as what was asked for 0, 2 and 8 seconds only: for any other request
    the watchdog expires before it. *)
Theorem nuc970_interval timeout :
  0 <= timeout ->
  exists ticks, interval (select timeout) = Some ticks /\
    (32768 * timeout <= ticks <-> timeout = 0 \/ timeout = 2 \/ timeout = 8).
Proof.
  intros H. unfold select. destruct (timeout <? 2) eqn:E1; [|destruct (timeout <? 8) eqn:E2].
  all: eexists; split; [reflexivity|lia].
Qed.
Lemma nuc970_interval_witness : exists ticks, interval (select 7) = Some ticks /\ ticks < 32768 * 7.
Proof. destruct (nuc970_interval 7 ltac:(lia)) as (t & H & Ht). exists t. split; [done|lia]. Defined.

Import Sendevent.
(** property: with four arguments, a device that opens and answers, exactly
    one event is written: its type and code are the second and third argument
    as numbers of 16 bits, its value the fourth. *)
Theorem sendevent_writes b64 sys prog device a2 a3 a4 :
  0 <= open_ sys device -> ioctl_version sys (open_ sys device) = 0 ->
  exists e, (sendevent_main b64 sys [prog; device; a2; a3; a4]).2 = Some (open_ sys device, e, sizeof_event b64) /\
    type e = atoi a2 mod 2 ^ 16 /\ code e = atoi a3 mod 2 ^ 16 /\ value e = atoi a4.
Proof.
  intros Ho Hi. unfold sendevent_main. assert ((open_ sys device <? 0) = false) as -> by lia. rewrite Hi.
  eexists. split; [reflexivity|done].
Qed.
Lemma sendevent_writes_witness :
  let sys := mkSystem (fun _ => 3) (fun _ => 0) (fun _ _ n => n) in
  exists e, (sendevent_main true sys ["sendevent"; "/dev/input/event0"; "1"; "116"; "-1"]).2 = Some (3, e, 24) /\
    type e = 1 /\ code e = 116 /\ value e = -1.
Proof.
  intros sys. apply (sendevent_writes true sys "sendevent" "/dev/input/event0" "1" "116" "-1"); [cbn; lia|reflexivity].
Defined.

(** C39: a short write is reported, but a write that fails is not: its -1
    is compared as an unsigned number, so the result is 0 as after a full
    write.  The exit status is 0 in every case. *)
Theorem sendevent_hides_failure b64 sys prog device a2 a3 a4 ret argv :
  0 <= open_ sys device -> ioctl_version sys (open_ sys device) = 0 -> (forall e, write_ sys (open_ sys device) e (sizeof_event b64) = ret) ->
  -1 <= ret <= sizeof_event b64 ->
  ((sendevent_main b64 sys [prog; device; a2; a3; a4]).1 = 0 <-> ret = sizeof_event b64 \/ ret = -1) /\
  (Sendevent.main b64 sys argv).1 = 0.
Proof.
  intros Ho Hi Hw Hr. split; [|done]. unfold sendevent_main. assert ((open_ sys device <? 0) = false) as -> by lia. rewrite Hi, Hw.
  cbn [Z.eqb negb fst]. assert (ret = -1 \/ 0 <= ret) as [->|Hp] by lia.
  - assert ((wrap (size_bits b64) (-1) <? sizeof_event b64) = false) as -> by by destruct b64. split; [by right|done].
  - rewrite wrap_small by (destruct b64; cbn in *; lia). destruct (ret <? sizeof_event b64) eqn:E; split; intros; try done; lia.
Qed.
Lemma sendevent_hides_failure_witness :
  (sendevent_main true (mkSystem (fun _ => 3) (fun _ => 0) (fun _ _ _ => -1)) ["sendevent"; "/dev/input/event0"; "1"; "116"; "1"]).1 = 0.
Proof.
  refine (proj2 (proj1 (sendevent_hides_failure true (mkSystem (fun _ => 3) (fun _ => 0) (fun _ _ _ => -1))
    "sendevent" "/dev/input/event0" "1" "116" "1" (-1) [] _ _ _ _)) _); [cbn; lia|done|done|cbn; lia|by right].
Defined.
