(* ===== verification/TapTools.v ===== *)
(** * Programs on a tap device (test_tap)

    Three programs that answer what the kernel sends to a virtual network
    interface: [TapFile] (test_tap_file.c) turns an echo request into its
    answer in place, [TapSocket] (test_tap_socket.c) names the protocol of
    each frame of a raw socket and sends it back, [TapArp]
    (test_tap_tcp_udp_file.c) prints frames and answers address requests.

    Packets are lists of bytes; a program's buffer keeps what earlier packets
    left behind the one just read.  The results of the system calls are
    arguments.  [None] is an access outside a buffer or through NULL. *)

From Stdlib Require Import ZArith Ascii.
From stdpp Require Import base list strings pretty.
From S2P Require Import Prelude KernelText.

(** ** Shared by the programs *)
(** Numbers in the byte order of the machine. *)
Definition get16 (big : bool) (b : list Z) (i : nat) : Z :=
  if big then of_le16 (b !!! S i) (b !!! i) else of_le16 (b !!! i) (b !!! S i).
Definition put16 (big : bool) (x : Z) : list Z := if big then reverse (le16 x) else le16 x.
(** Numbers in network order. *)
Definition net16 (b : list Z) (i : nat) : Z := of_le16 (b !!! S i) (b !!! i).
(** [read] of a packet into the buffer: it stores at the start. *)
Definition recv_into (buf pkt : list Z) : list Z := buf_write buf 0 pkt.

(** ** Opening the device *)
Module Tun.
Definition IFNAMSIZ : nat := 16.
Definition IFF_TAP : Z := 0x0002.
Definition IFF_NO_PI : Z := 0x1000.
(** [strncpy(dst, src, n)]: padded with zeros, not terminated if too long. *)
Definition strncpy (n : nat) (s : string) : list ascii :=
  let l := take n (String.list_ascii_of_string s) in l ++ replicate (n - length l) NUL.
(** The answer of the kernel: the file descriptor, and for the flags and the
    name asked for the result of the request and the name it stores. *)
Record kernel := mkK { a_open : Z; a_setiff : Z -> list ascii -> Z * list ascii }.
(** The result, the name in [dev] and the descriptors left open. *)
Definition tun_creat (k : kernel) (dev : string) (flags : Z) : option (Z * string * list Z) :=
  let fd := a_open k in
  if fd <? 0 then Some (fd, dev, [])
  else
    let ifr_name := if decide (dev = EmptyString) then replicate IFNAMSIZ NUL else strncpy IFNAMSIZ dev in
    let '(err, ifr_name) := a_setiff k flags ifr_name in
    if err <? 0 then Some (err, dev, [])
    else name ← c_str ifr_name; Some (fd, name, [fd]).
End Tun.

(** ** The answer to an echo request *)
Module TapFile.
Definition BUF : nat := 4096.
(** The body of the loop between read and write. *)
Definition turn (big : bool) (buf : list Z) : list Z :=
  let ip := take 4 (drop 12 buf) in
  let buf := buf_write buf 12 (take 4 (drop 16 buf)) in
  let buf := buf_write buf 16 ip in
  let buf := <[20%nat := 0]> buf in
  buf_write buf 22 (put16 big (u16 (get16 big buf 22 + 8))).

(** The loop over what [read] returns, [None] an error; the packets given to
    [write], and if the loop has ended. *)
Fixpoint loop (big : bool) (buf : list Z) (reads : list (option (list Z))) : list (list Z) * bool :=
  match reads with
  | [] => ([], false)
  | None :: _ => ([], true)
  | Some pkt :: reads =>
      let buf := turn big (recv_into buf pkt) in
      let '(sent, ended) := loop big buf reads in (take (length pkt) buf :: sent, ended)
  end.
(** The exit code once there is one, and the packets sent. *)
Definition main (big : bool) (k : Tun.kernel) (buf : list Z) (reads : list (option (list Z))) : option (option Z * list (list Z)) :=
  '(tun, _, _) ← Tun.tun_creat k EmptyString (Z.lor Tun.IFF_TAP Tun.IFF_NO_PI);
  if tun <? 0 then Some (Some 1, [])
  else let '(sent, ended) := loop big buf reads in Some (if ended : bool then Some 0 else None, sent).
End TapFile.

(** ** Frames of a raw socket *)
Module TapSocket.
Definition BUFSIZE : nat := 2048.
Definition hex_digit (d : Z) : ascii := ascii_of_nat (Z.to_nat (if d <? 10 then 48 + d else 87 + d)).
(** The digits of an unsigned integer, highest first, [n] of them. *)
Fixpoint nibbles (n : nat) (x : Z) : list ascii :=
  match n with O => [] | S n => nibbles n (Z.shiftr x 4) ++ [hex_digit (Z.land x 15)] end.
(** [%0<min>x]: leading zeros down to the minimal width. *)
Fixpoint strip (min : nat) (l : list ascii) : list ascii :=
  match l with
  | c :: l' => if decide (c = "0"%char /\ (min < length l)%nat) then strip min l' else l
  | [] => []
  end.
Definition fmt_x (min : nat) (x : Z) : list ascii := strip min (nibbles 8 x).
Definition sp : ascii := " ".
(** One byte of the left column, [j] its place in the line. *)
Definition hex_cell (j : nat) (b : Z) : list ascii := fmt_x 2 b ++ (if (j mod 2 =? 1)%nat then [sp] else []).
Definition pad_cell (j : nat) : list ascii := if (j mod 2 =? 1)%nat then [sp; sp; sp] else [sp].
Definition isprint (c : Z) : bool := (32 <=? c) && (c <=? 126).
Definition text_cell (b : Z) : ascii := ascii_of_nat (Z.to_nat (if isprint b then b else 46)).
(** One line of the dump, of the bytes of the line. *)
Definition hex_part (bs : list Z) : list ascii :=
  concat (imap hex_cell bs) ++ concat (pad_cell <$> seq (length bs) (16 - length bs)).
Definition hex_line (addr : Z) (bs : list Z) : list ascii :=
  [sp] ++ fmt_x 4 addr ++ [":"%char; sp] ++ hex_part bs ++ [sp] ++ (text_cell <$> bs).
(** [hex_print]: [len] is compared as an unsigned integer; the lines after
    the empty one, [None] if a byte outside the buffer is read. *)
Fixpoint hex_loop (fuel : nat) (buf : list Z) (len offset i : Z) : option (list (list ascii)) :=
  if i <? u32 len then
    match fuel with
    | O => None
    | S fuel =>
        let jm := u32 (len - i) in
        let jm := if 16 <? jm then 16 else jm in
        if Z.of_nat (length buf) <? i + jm then None
        else
          let line := hex_line (u32 (i + offset)) (take (Z.to_nat jm) (drop (Z.to_nat i) buf)) in
          l ← hex_loop fuel buf len offset (i + 16); Some (line :: l)
    end
  else Some [].
Definition hex_print (buf : list Z) (len offset : Z) : option (list (list ascii)) :=
  hex_loop (S (length buf)) buf len offset 0.

(** [sprintf] of a hardware address: the characters with the terminator. *)
Definition mac_text (b : list Z) : list ascii :=
  match fmt_x 2 <$> b with
  | [] => [NUL]
  | x :: l => x ++ concat ((fun y => ":"%char :: y) <$> l) ++ [NUL]
  end.
(** Storing it in an array of 18 characters. *)
Definition sprintf_mac (b : list Z) : option (list ascii) :=
  let t := mac_text b in if decide (length t <= 18)%nat then Some (t ++ replicate (18 - length t) NUL) else None.

Inductive kind := IP | ARP | RARP | Other.
Definition classify (buf : list Z) : kind :=
  if (buf !!! 12%nat =? 0x08) && (buf !!! 13%nat =? 0x00) then IP
  else if (buf !!! 12%nat =? 0x08) && (buf !!! 13%nat =? 0x06) then ARP
  else if (buf !!! 12%nat =? 0x80) && (buf !!! 13%nat =? 0x35) then RARP
  else Other.

(** [struct ifreq]: the union behind the name, of 16 bytes. *)
Definition IFF_PROMISC : Z := 0x100.
Definition get_ifindex (idx : Z) (u : list Z) : list Z := buf_write u 0 (le_bytes 4 idx).
(** [struct sockaddr]: the family in two bytes, then the address. *)
Definition get_hwaddr (family : Z) (mac u : list Z) : list Z := buf_write u 0 (le16 family ++ mac).
Definition clear_promisc (u : list Z) : list Z :=
  buf_write u 0 (le16 (Z.land (get16 false u 0) (Z.lnot IFF_PROMISC))).

(** What the kernel answers before the loop. *)
Record kernel := mkK { a_socket : Z; a_index : Z * Z; a_hw : Z * Z * list Z; a_bind : Z; a_flags : Z }.
Inductive event := Bind (ifindex : Z) | SetFlags (flags : Z) | Mac (mac : list Z)
  | Frame (k : kind) (src dst : list ascii) | Sent (pkt : list Z).
(** Up to the loop: the exit code if it ends there. *)
Definition setup (k : kernel) : option Z * list event :=
  if a_socket k <? 0 then (Some 1, [])
  else if negb ((a_index k).1 =? 0) then (Some (-1), [])
  else
    let u := get_ifindex (a_index k).2 (replicate 16 0) in
    let ifidx := s32 (of_le_bytes (take 4 u)) in
    let '(e, family, mac) := a_hw k in
    if e <? 0 then (Some 1, [])
    else
      let u := get_hwaddr family mac u in
      let evs := [Mac (take 6 (drop 2 u)); Bind ifidx] in
      if a_bind k <? 0 then (Some (-3), evs)
      else
        let u := clear_promisc u in
        let evs := evs ++ [SetFlags (get16 false u 0)] in
        (if a_flags k <? 0 then Some (-2) else None, evs).
(** The loop; [None] in the list is a read without data, which is repeated. *)
Fixpoint loop (buf : list Z) (reads : list (option (list Z))) : option (list event) :=
  match reads with
  | [] => Some []
  | (None | Some []) :: reads => loop buf reads
  | Some pkt :: reads =>
      let buf := recv_into buf pkt in
      dst ← sprintf_mac (take 6 buf);
      src ← sprintf_mac (take 6 (drop 6 buf));
      evs ← loop buf reads;
      Some (Frame (classify buf) src dst :: Sent (take (length pkt) buf) :: evs)
  end.
Definition main (k : kernel) (buf : list Z) (reads : list (option (list Z))) : option (option Z * list event) :=
  match setup k with
  | (Some r, evs) => Some (Some r, evs)
  | (None, evs) => evs' ← loop buf reads; Some (None, evs ++ evs')
  end.
End TapSocket.

(** ** Address requests *)
Module TapArp.
(** [struct arp_pack] behind the Ethernet header. *)
Record arp_pack := mkArp { ar_op : Z; ar_sha : list Z; ar_sip : list Z; ar_tha : list Z; ar_tip : list Z }.
Definition arp_at (b : list Z) : arp_pack :=
  mkArp (net16 b 20) (take 6 (drop 22 b)) (take 4 (drop 28 b)) (take 6 (drop 32 b)) (take 4 (drop 38 b)).

(** The text of an address, and its bytes back: dotted decimal. *)
Definition inet_ntoa (a : list Z) : string :=
  match pretty <$> a with [a; b; c; d] => a +:+ "." +:+ b +:+ "." +:+ c +:+ "." +:+ d | _ => "" end.
(** The digits up to a dot or the end: the number and the rest after a dot. *)
Fixpoint dec_part (acc : Z) (s : string) : option (Z * option string) :=
  match s with
  | EmptyString => Some (acc, None)
  | String c s => if decide (c = "."%char) then Some (acc, Some s)
                  else d ← digit_val c; dec_part (10 * acc + d) s
  end.
Fixpoint dec_parts (n : nat) (s : string) : option (list Z) :=
  match n with
  | O => None
  | S n =>
      '(x, rest) ← dec_part 0 s;
      if 255 <? x then None
      else match n, rest with
           | O, None => Some [x]
           | S _, Some s => l ← dec_parts n s; Some (x :: l)
           | _, _ => None
           end
  end.
(** [inet_addr] of four decimal numbers; [INADDR_NONE] for another text. *)
Definition inet_addr (s : string) : list Z := default [255; 255; 255; 255] (dec_parts 4 s).

Inductive event :=
  | Received (pkt : list Z) | EthType (t : Z) | IpPacket (protocol ihl : Z)
  | Udp (len source dest : Z) | UdpBytes (l : list Z) | Icmp | IpIp | Tcp | ArpPacket
  | ArpRequest (s t : option string) | ArpReply (s t : option string) | Sent (pkt : list Z).

Definition IHL (b : list Z) : nat := Z.to_nat (Z.land (b !!! 14%nat) 15).
Definition udp_at (b : list Z) : nat := (14 + IHL b * 4)%nat.
(** The branch of an IP packet. *)
Definition show_ip (b : list Z) : option (list event) :=
  let protocol := b !!! 23%nat in
  evs ← (if protocol =? 0x11 then
           let u := udp_at b in
           let len := net16 b (u + 4) in
           if decide (u + Z.to_nat len <= length b)%nat
           then Some [Udp len (net16 b u) (net16 b (u + 2)); UdpBytes (take (Z.to_nat len) (drop u b))]
           else None
         else Some (if protocol =? 0x1 then [Icmp] else if protocol =? 0x4 then [IpIp] else if protocol =? 0x6 then [Tcp] else []));
  Some (IpPacket protocol (Z.of_nat (IHL b)) :: evs).

(** [strdup]: the text, or NULL. *)
Definition strdup (ok : bool) (s : string) : option string := if ok then Some s else None.
(** The last byte of the hardware address at [i] counts up. *)
Definition bump (i : nat) (b : list Z) : list Z := <[i := u8 (b !!! i + 1)]> b.
(** The answer to a request, of the texts of the two addresses. *)
Definition answer (source target : string) (b : list Z) : list Z :=
  let b := bump 27 b in
  let b := buf_write b 28 (inet_addr target) in
  let b := buf_write b 38 (inet_addr source) in
  bump 11 b.
(** The branch of an ARP packet: what it does, and the buffer after it. *)
Definition show_arp (m1 m2 : bool) (n : nat) (b : list Z) : option (list event * list Z) :=
  let a := arp_at b in
  let source := strdup m1 (inet_ntoa (ar_sip a)) in
  let target := strdup m2 (inet_ntoa (ar_tip a)) in
  if ar_op a =? 0x1 then
    match source, target with
    | Some s, Some t => let b := answer s t b in Some ([ArpPacket; ArpRequest source target; Sent (take n b)], b)
    | _, _ => None
    end
  else if ar_op a =? 0x2 then Some ([ArpPacket; ArpReply source target], b)
  else Some ([ArpPacket], b).
(** One pass of the loop, with the answers of the allocator. *)
Definition pass (m1 m2 : bool) (buf pkt : list Z) : option (list event * list Z) :=
  let b := recv_into buf pkt in
  let n := length pkt in
  '(evs, b) ← (if (n <=? 14)%nat then Some ([], b)
               else
                 let t := net16 b 12 in
                 '(evs, b) ← (if t =? 0x0800 then evs ← show_ip b; Some (evs, b)
                              else if t =? 0x0806 then show_arp m1 m2 n b else Some ([], b));
                 Some (EthType t :: evs, b));
  Some (Received pkt :: evs, b).
Fixpoint loop (mem : nat -> bool) (buf : list Z) (reads : list (option (list Z))) : option (list event * bool) :=
  match reads with
  | [] => Some ([], false)
  | None :: _ => Some ([], true)
  | Some pkt :: reads =>
      let k := length reads in
      '(evs, buf) ← pass (mem (2 * k)%nat) (mem (2 * k + 1)%nat) buf pkt;
      '(evs', ended) ← loop mem buf reads;
      Some (evs ++ evs', ended)
  end.
Definition tun_creat := Tun.tun_creat.
Definition main (k : Tun.kernel) (mem : nat -> bool) (buf : list Z) (reads : list (option (list Z))) : option (option Z * list event) :=
  '(tun, _, _) ← tun_creat k EmptyString (Z.lor Tun.IFF_TAP Tun.IFF_NO_PI);
  if tun <? 0 then Some (Some 1, [])
  else '(evs, ended) ← loop mem buf reads; Some (if ended : bool then Some 0 else None, evs).
End TapArp.

(** ** The Internet checksum *)
(** Adding with the carry brought around. *)
Definition oc_add (a b : Z) : Z := let s := a + b in if s <? 65536 then s else s - 65535.
Fixpoint csum (acc : Z) (l : list Z) : Z :=
  match l with
  | a :: b :: l => csum (oc_add acc (of_le16 a b)) l
  | [a] => oc_add acc a
  | [] => acc
  end.
(** A header with its checksum in place sums up to ones. *)
Definition csum_valid (l : list Z) : Prop := csum 0 l = 0xffff.
#[global] Instance csum_valid_dec l : Decision (csum_valid l).
Proof. unfold csum_valid. apply _. Defined.

Definition bytes (l : list Z) : Prop := Forall (fun b => 0 <= b < 256) l.
Lemma pairs_ind {A} (P : list A -> Prop) :
  P [] -> (forall x, P [x]) -> (forall x y l, P l -> P (x :: y :: l)) -> forall l, P l.
Proof.
  intros H0 H1 H2. fix go 1. intros [|x [|y l]]; [done|apply H1|apply H2, go].
Qed.
(** The plain sum, and the one's complement number of a sum. *)
Fixpoint wsum (l : list Z) : Z :=
  match l with a :: b :: l => of_le16 a b + wsum l | [a] => a | [] => 0 end.
Definition norm (s : Z) : Z := if s =? 0 then 0 else (s - 1) mod 65535 + 1.

Lemma norm_range s : 0 <= s -> 0 <= norm s < 65536.
Proof. intros. unfold norm. case_if; [lia|]. pose proof (Z.mod_pos_bound (s - 1) 65535). lia. Qed.
Lemma norm_small s : 0 <= s < 65536 -> norm s = s.
Proof. intros. unfold norm. case_if; bool_to_prop; [lia|]. rewrite Z.mod_small; lia. Qed.
Lemma oc_add_norm a b : 0 <= a -> 0 <= b < 65536 -> oc_add (norm a) b = norm (a + b).
Proof.
  intros Ha Hb. unfold oc_add. pose proof (norm_range a Ha). unfold norm in *. destruct (Z.eqb_spec a 0) as [->|].
  - replace (0 + b) with b by lia. destruct (Z.eqb_spec b 0) as [->|]; [done|]. rewrite (proj2 (Z.ltb_lt _ _)), Z.mod_small by lia. lia.
  - destruct (Z.eqb_spec (a + b) 0); [lia|]. replace (a + b - 1) with (a - 1 + b) by lia.
    rewrite <- (Z.add_mod_idemp_l (a - 1)) by lia. pose proof (Z.mod_pos_bound (a - 1) 65535). set (m := (a - 1) mod 65535) in *.
    destruct (Z.ltb_spec (m + 1 + b) 65536); [rewrite Z.mod_small; lia|].
    replace (m + b) with (m + b - 65535 + 1 * 65535) by lia. rewrite Z.mod_add, Z.mod_small; lia.
Qed.
Lemma wsum_csum l a : bytes l -> 0 <= a -> 0 <= wsum l /\ csum (norm a) l = norm (a + wsum l).
Proof.
  revert a. induction l as [| x | x y l IH] using pairs_ind; intros a Hl Ha; cbn [csum wsum].
  - by rewrite Z.add_0_r.
  - inversion_clear Hl. rewrite oc_add_norm by lia. split; [lia|done].
  - inversion_clear Hl as [|? ? Hx Hl']. inversion_clear Hl' as [|? ? Hy Hl]. unfold of_le16.
    rewrite oc_add_norm by lia. destruct (IH (a + (x + 256 * y)) Hl) as [? ->]; [lia|]. split; [lia|]. f_equal. lia.
Qed.
Lemma csum_norm l : bytes l -> 0 <= wsum l /\ csum 0 l = norm (wsum l).
Proof. intros Hl. destruct (wsum_csum l 0 Hl) as [? H]; [lia|]. by rewrite (norm_small 0) in H by lia. Qed.
Lemma norm_ones s : 0 <= s -> norm s = 0xffff <-> 0 < s /\ s mod 65535 = 0.
Proof.
  intros Hs. unfold norm. destruct (Z.eqb_spec s 0) as [->|]; [lia|].
  pose proof (Z.div_mod s 65535). pose proof (Z.mod_pos_bound s 65535). pose proof (Z.div_mod (s - 1) 65535). pose proof (Z.mod_pos_bound (s - 1) 65535).
  split; [split; lia|]. intros [_ E]. lia.
Qed.

(** ** The echo answer *)
Lemma length_recv buf pkt : (length pkt <= length buf)%nat -> length (recv_into buf pkt) = length buf.
Proof. intros. by apply length_buf_write. Qed.

(** property: the echo answer on a little-endian machine: of an IP packet without
    options that holds an echo request, the packet with the two addresses
    exchanged and the type 0 is written back.  The sum of the IP header is
    unchanged; the sum of the message is valid again exactly if adding 8 to
    the checksum field does not carry. *)
Theorem tap_echo_reply buf hd src dst code k0 k1 rest :
  length hd = 12%nat -> length src = 4%nat -> length dst = 4%nat -> (24 + length rest <= length buf)%nat ->
  bytes (hd ++ src ++ dst ++ [8; code; k0; k1] ++ rest) ->
  exists k0' k1',
    TapFile.loop false buf [Some (hd ++ src ++ dst ++ [8; code; k0; k1] ++ rest)] =
      ([hd ++ dst ++ src ++ [0; code; k0'; k1'] ++ rest], false) /\
    of_le16 k0' k1' = u16 (of_le16 k0 k1 + 8) /\
    csum 0 (hd ++ dst ++ src) = csum 0 (hd ++ src ++ dst) /\
    (csum_valid ([8; code; k0; k1] ++ rest) ->
     csum_valid ([0; code; k0'; k1'] ++ rest) <-> of_le16 k0 k1 < 0xfff8).
Proof.
  intros Hh Hs Hd Hb Hr. exists (u8 (u16 (of_le16 k0 k1 + 8))), (u8 (Z.shiftr (u16 (of_le16 k0 k1 + 8)) 8)).
  split; [|split; [apply of_le16_le16, u16_range|]].
  - destruct hd as [|? [|? [|? [|? [|? [|? [|? [|? [|? [|? [|? [|? []]]]]]]]]]]]]; try discriminate Hh.
    destruct src as [|? [|? [|? [|? []]]]]; try discriminate Hs. destruct dst as [|? [|? [|? [|? []]]]]; try discriminate Hd.
    unfold TapFile.loop. do 2 f_equal. unfold recv_into, buf_write at 1. rewrite take_0. unfold TapFile.turn, put16, le16, get16, buf_write. cbn. do 24 f_equal. by rewrite drop_0, take_app_length.
  - unfold bytes in Hr. rewrite !Forall_app in Hr. destruct Hr as (Hh' & Hs' & Hd' & Hi & Hr).
    split.
    + destruct (csum_norm (hd ++ src ++ dst)) as [_ ->]; [by apply Forall_app; rewrite Forall_app|].
      destruct (csum_norm (hd ++ dst ++ src)) as [_ ->]; [by apply Forall_app; rewrite Forall_app|]. f_equal.
      destruct hd as [|? [|? [|? [|? [|? [|? [|? [|? [|? [|? [|? [|? []]]]]]]]]]]]]; try discriminate Hh.
      destruct src as [|? [|? [|? [|? []]]]]; try discriminate Hs. destruct dst as [|? [|? [|? [|? []]]]]; try discriminate Hd. cbn. lia.
    + assert (0 <= code < 256 /\ 0 <= k0 < 256 /\ 0 <= k1 < 256) as (Hc & H0 & H1).
      { inversion_clear Hi as [|? ? _ Hi']. inversion_clear Hi' as [|? ? ? Hi]. inversion_clear Hi as [|? ? ? Hi']. by inversion_clear Hi'. }
      set (c := u16 (of_le16 k0 k1 + 8)). unfold csum_valid.
      assert (bytes ([0; code; u8 c; u8 (Z.shiftr c 8)] ++ rest)) as Hb'.
      { apply Forall_app. split; [|done]. repeat constructor; try apply u8_range; lia. }
      destruct (csum_norm ([8; code; k0; k1] ++ rest)) as [P1 ->]; [by apply Forall_app|].
      destruct (csum_norm _ Hb') as [P2 ->]. rewrite !norm_ones by done.
      cbn [app wsum] in *. rewrite of_le16_le16 in * by apply u16_range. unfold c, u16, wrap, of_le16 in *. change (2 ^ 16) with 65536 in *.
      destruct (csum_norm rest Hr) as [P3 _]. set (w := wsum rest) in *.
      intros [_ E]. apply Z.mod_divide in E as [q E]; [|lia].
      pose proof (Z.div_mod (k0 + 256 * k1 + 8) 65536). pose proof (Z.mod_pos_bound (k0 + 256 * k1 + 8) 65536).
      set (m := (k0 + 256 * k1 + 8) mod 65536) in *. set (d := (k0 + 256 * k1 + 8) / 65536) in *.
      split; [intros [_ E2]; apply Z.mod_divide in E2 as [q2 E2]; lia|]. intros. split; [lia|]. apply Z.mod_divide; [lia|]. exists q. lia.
Qed.
Lemma tap_echo_reply_witness :
  exists k0' k1',
    TapFile.loop false (replicate 4096 0) [Some (replicate 12 1 ++ [10; 0; 0; 1] ++ [10; 0; 0; 2] ++ [8; 0; 0xf7; 0xff] ++ [])] =
      ([replicate 12 1 ++ [10; 0; 0; 2] ++ [10; 0; 0; 1] ++ [0; 0; k0'; k1'] ++ []], false) /\
    of_le16 k0' k1' = u16 (of_le16 0xf7 0xff + 8) /\
    csum 0 (replicate 12 1 ++ [10; 0; 0; 2] ++ [10; 0; 0; 1]) = csum 0 (replicate 12 1 ++ [10; 0; 0; 1] ++ [10; 0; 0; 2]) /\
    (csum_valid ([8; 0; 0xf7; 0xff] ++ []) -> csum_valid ([0; 0; k0'; k1'] ++ []) <-> of_le16 0xf7 0xff < 0xfff8).
Proof.
  apply (tap_echo_reply (replicate 4096 0) (replicate 12 1) [10; 0; 0; 1] [10; 0; 0; 2] 0 0xf7 0xff []);
    try reflexivity; [rewrite length_replicate; cbn; lia|]. repeat constructor; lia.
Defined.

(** property: the program opens a tap device, whose packets begin with the
    Ethernet header: of a frame it overwrites the type with the two bytes
    behind the first two of the IP header - the length of the packet -, so
    that an IP packet whose length is not 0x0800 is sent as another
    protocol. *)
Theorem tap_frame_type big buf frame :
  (24 <= length frame <= length buf)%nat ->
  exists sent, TapFile.loop big buf [Some frame] = ([sent], false) /\ net16 sent 12 = net16 frame 16.
Proof.
  intros [H1 H2]. cbn [TapFile.loop]. eexists. split; [done|].
  do 24 (destruct frame as [|? frame]; [cbn in H1; lia|]). unfold recv_into, buf_write at 1. by destruct big.
Qed.
Lemma tap_frame_type_witness :
  exists sent, TapFile.loop false (replicate 4096 0) [Some (replicate 16 0 ++ [0; 84] ++ replicate 66 0)] = ([sent], false) /\
    net16 sent 12 = net16 (replicate 16 0 ++ [0; 84] ++ replicate 66 0) 16.
Proof. apply tap_frame_type. rewrite !length_app, !length_replicate. cbn. lia. Defined.

(** property: opening the device: a failure leaves no descriptor open and the
    name as it was, success returns the one descriptor left open; the only
    access outside a buffer is for a name that the kernel did not
    terminate. *)
Theorem tun_creat_fds k dev flags :
  match Tun.tun_creat k dev flags with
  | Some (r, name, fds) => (r < 0 -> fds = [] /\ name = dev) /\ (0 <= r -> fds = [r] /\ r = Tun.a_open k)
  | None => exists asked, c_str (Tun.a_setiff k flags asked).2 = None
  end.
Proof.
  unfold Tun.tun_creat. destruct (Z.ltb_spec (Tun.a_open k) 0); [split; (done || lia)|].
  set (asked := if decide (dev = EmptyString) then _ else _). destruct (Tun.a_setiff k flags asked) as [err name] eqn:E.
  destruct (Z.ltb_spec err 0); [split; (done || lia)|].
  destruct (c_str name) eqn:En; cbn; [split; (done || lia)|]. exists asked. by rewrite E.
Qed.

(** ** Texts of the socket program *)
Import TapSocket.
Definition unhex_digit (c : ascii) : Z := let n := Z.of_nat (nat_of_ascii c) in if n <? 58 then n - 48 else n - 87.
Definition unhex (l : list ascii) : Z := foldl (fun x c => 16 * x + unhex_digit c) 0 l.

Definition fmt_check (b : Z) : bool :=
  match fmt_x 2 b with
  | [x; y] => negb (Ascii.eqb x NUL) && negb (Ascii.eqb y NUL) && (unhex [x; y] =? b)
  | _ => false
  end.
Lemma fmt_byte b : 0 <= b < 256 -> exists x y, fmt_x 2 b = [x; y] /\ x <> NUL /\ y <> NUL /\ unhex [x; y] = b.
Proof.
  intros Hb. assert (fmt_check b = true) as H by (apply (forall_below fmt_check 256); [by vm_compute|lia]).
  unfold fmt_check in H. destruct (fmt_x 2 b) as [|x [|y [|]]]; try done. bool_to_prop.
  exists x, y. split; [done|]. repeat split; [by apply Ascii.eqb_neq..|lia].
Qed.
Lemma length_fmt_byte b : 0 <= b < 256 -> length (fmt_x 2 b) = 2%nat.
Proof. intros Hb. destruct (fmt_byte b Hb) as (x & y & -> & _). done. Qed.

(** property: the text of a hardware address: with its terminator it fills the
    array of 18 characters exactly, and the address can be read back from
    it. *)
Theorem mac_text_roundtrip b :
  length b = 6%nat -> bytes b ->
  exists t, sprintf_mac b = Some (t ++ [NUL]) /\ length t = 17%nat /\ (NUL ∉ t) /\
    forall i, (i < 6)%nat -> b !! i = Some (unhex (take 2 (drop (3 * i) t))).
Proof.
  intros Hl Hb. destruct b as [|a [|b [|c [|d [|e [|f []]]]]]]; try discriminate Hl.
  unfold bytes in Hb. rewrite !Forall_cons in Hb. destruct Hb as (H1 & H2 & H3 & H4 & H5 & H6 & _).
  apply fmt_byte in H1 as (? & ? & ? & ? & ? & ?), H2 as (? & ? & ? & ? & ? & ?), H3 as (? & ? & ? & ? & ? & ?),
    H4 as (? & ? & ? & ? & ? & ?), H5 as (? & ? & ? & ? & ? & ?), H6 as (? & ? & ? & ? & ? & ?).
  unfold sprintf_mac, mac_text. cbn [fmap list_fmap]. 
  repeat match goal with E : fmt_x 2 _ = _ |- _ => rewrite E; clear E end. cbn [app concat fmap list_fmap].
  rewrite decide_True by (cbn; lia). eexists (_ :: _ :: _ :: _ :: _ :: _ :: _ :: _ :: _ :: _ :: _ :: _ :: _ :: _ :: _ :: _ :: [_]). split; [reflexivity|].
  split; [done|]. split.
  - rewrite !not_elem_of_cons. repeat split; try (by apply not_eq_sym); try done. apply not_elem_of_nil.
  - intros i Hi. do 6 (destruct i as [|i]; [cbn; f_equal; symmetry; assumption|]). lia.
Qed.
Lemma mac_text_roundtrip_witness :
  exists t, sprintf_mac [0; 17; 34; 171; 205; 255] = Some (t ++ [NUL]) /\ length t = 17%nat /\ (NUL ∉ t) /\
    forall i, (i < 6)%nat -> [0; 17; 34; 171; 205; 255] !! i = Some (unhex (take 2 (drop (3 * i) t))).
Proof. apply mac_text_roundtrip; [done|]. repeat constructor; lia. Defined.

(** ** The dump *)
Definition lines_of (buf : list Z) : nat := (length buf + 15) / 16.
Definition dump_line (buf : list Z) (offset : Z) (k : nat) : list ascii :=
  hex_line (u32 (16 * Z.of_nat k + offset)) (take 16 (drop (16 * k) buf)).
Lemma hex_loop_lines buf offset m : forall fuel k,
  Z.of_nat (length buf) < 2 ^ 31 -> lines_of buf = (k + m)%nat -> (m <= fuel)%nat ->
  hex_loop fuel buf (Z.of_nat (length buf)) offset (16 * Z.of_nat k) = Some (dump_line buf offset <$> seq k m).
Proof.
  induction m as [|m IH]; intros fuel k Hl Hm Hf; unfold lines_of in Hm;
    pose proof (Nat.div_mod_eq (length buf + 15) 16); pose proof (Nat.mod_upper_bound (length buf + 15) 16).
  - destruct fuel; cbn [hex_loop]; rewrite (u32_small (Z.of_nat (length buf))), (proj2 (Z.ltb_ge _ _)) by lia; done.
  - destruct fuel as [|fuel]; [lia|]. cbn [hex_loop]. rewrite (u32_small (Z.of_nat (length buf))), (proj2 (Z.ltb_lt _ _)) by lia.
    rewrite u32_small by lia. cbv zeta.
    set (jm := if _ <? _ then 16 else _).
    assert (16 * Z.of_nat k + jm <= Z.of_nat (length buf) /\ (jm = 16 \/ jm = Z.of_nat (length buf) - 16 * Z.of_nat k /\ jm <= 16)) as [Hj Hj'].
    { unfold jm. destruct (Z.ltb_spec 16 (Z.of_nat (length buf) - 16 * Z.of_nat k)); lia. }
    rewrite (proj2 (Z.ltb_ge _ _)) by lia.
    replace (16 * Z.of_nat k + 16) with (16 * Z.of_nat (S k)) by lia. rewrite IH by (unfold lines_of; lia). cbn [mbind option_bind seq fmap list_fmap].
    do 2 f_equal. unfold dump_line. f_equal. replace (Z.to_nat (16 * Z.of_nat k)) with (16 * k)%nat by lia.
    destruct Hj' as [->|[-> ?]]; [done|]. rewrite !take_ge by (rewrite length_drop; lia). done.
Qed.
Lemma u32_neg x : - 2 ^ 32 <= x < 0 -> u32 x = x + 2 ^ 32.
Proof. intros. unfold u32, wrap. rewrite <- (Z.mod_add x 1) by lia. rewrite Z.mul_1_l. apply Z.mod_small. lia. Qed.
Lemma hex_loop_negative buf len offset : forall fuel i,
  - 2 ^ 31 <= len < 0 -> Z.of_nat (length buf) < 2 ^ 31 -> 0 <= i <= Z.of_nat (length buf) -> hex_loop fuel buf len offset i = None.
Proof.
  intros fuel i Hn Hl. revert i. assert (u32 len = len + 2 ^ 32) as Hu.
  { apply u32_neg. lia. }
  induction fuel as [|fuel IH]; intros i Hi; cbn [hex_loop]; rewrite (proj2 (Z.ltb_lt i (u32 len))) by lia; [done|].
  assert (u32 (len - i) = len - i + 2 ^ 32) as ->.
  { apply u32_neg. lia. }
  cbv zeta. destruct (Z.ltb_spec 16 (len - i + 2 ^ 32)); [|by rewrite (proj2 (Z.ltb_lt _ (i + _))) by lia].
  destruct (Z.ltb_spec (Z.of_nat (length buf)) (i + 16)); [done|]. by rewrite IH by lia.
Qed.
Lemma concat_imap_length bs k :
  bytes bs -> length (concat (imap (fun j => hex_cell (k + j)) bs)) = sum_list ((fun j => (2 + j mod 2)%nat) <$> seq k (length bs)).
Proof.
  revert k. induction bs as [|b bs IH]; intros k Hb; [done|]. inversion_clear Hb as [|? ? Hx Hb'].
  rewrite imap_cons. cbn [concat length seq fmap list_fmap sum_list]. rewrite length_app, Nat.add_0_r. f_equal.
  - unfold hex_cell. rewrite length_app, length_fmt_byte by done.
    pose proof (Nat.mod_upper_bound k 2 ltac:(lia)) as Hk. destruct (k mod 2)%nat as [|[|]]; [done..|lia].
  - rewrite <- IH by done. do 2 f_equal. apply imap_ext. intros j x _. cbn. by rewrite Nat.add_succ_r.
Qed.
Lemma hex_part_length bs :
  bytes bs -> (length bs <= 16)%nat -> length (hex_part bs) = (40 - (16 - length bs) / 2)%nat.
Proof.
  intros Hb Hl. unfold hex_part. rewrite length_app.
  change (imap hex_cell bs) with (imap (fun j => hex_cell (0 + j)) bs). rewrite (concat_imap_length bs 0 Hb). clear Hb. set (n := length bs) in *. clearbody n.
  do 17 (destruct n as [|n]; [by vm_compute|]). lia.
Qed.

(** property: the dump of a buffer has one line for each 16 bytes and the rest,
    with its address, the bytes and the text; the text starts in the same
    column in full lines, but in the last line two missing bytes shift it by
    one; a negative length reads outside the buffer. *)
Theorem hex_print_lines buf offset :
  Z.of_nat (length buf) < 2 ^ 31 -> bytes buf ->
  hex_print buf (Z.of_nat (length buf)) offset = Some (dump_line buf offset <$> seq 0 (lines_of buf)) /\
  (forall k, length (hex_part (take 16 (drop (16 * k) buf))) = (40 - (16 - length (take 16 (drop (16 * k) buf))) / 2)%nat) /\
  (forall len, - 2 ^ 31 <= len < 0 -> hex_print buf len offset = None).
Proof.
  intros Hl Hb. split; [|split].
  - apply (hex_loop_lines buf offset _ _ 0); [done|done|]. unfold lines_of. apply Nat.Div0.div_le_upper_bound. lia.
  - intros k. apply hex_part_length; [|rewrite length_take; lia]. by apply Forall_take, Forall_drop.
  - intros len Hn. apply hex_loop_negative; lia.
Qed.
Lemma hex_print_lines_witness :
  hex_print [72; 105] 2 0 = Some (dump_line [72; 105] 0 <$> seq 0 (lines_of [72; 105])) /\
  (forall k, length (hex_part (take 16 (drop (16 * k) [72; 105]))) = (40 - (16 - length (take 16 (drop (16 * k) [72; 105]%Z))) / 2)%nat) /\
  (forall len, - 2 ^ 31 <= len < 0 -> hex_print [72; 105] len 0 = None).
Proof. apply (hex_print_lines [72; 105] 0); [done|]. repeat constructor; lia. Defined.
Example dump_hi : String.string_of_list_ascii (dump_line [72; 105; 10] 0 0) = " 0000: 4869 0a                            Hi.".
Proof. reflexivity. Qed.

(** ** The loop of the socket program *)
Definition frames (reads : list (option (list Z))) : list (list Z) := filter (fun p => p <> []) (omap id reads).
Definition sent_of (evs : list event) : list (list Z) := omap (fun e => match e with Sent p => Some p | _ => None end) evs.
Lemma sprintf_mac_total b : length b = 6%nat -> bytes b -> is_Some (sprintf_mac b).
Proof.
  intros Hl Hb. unfold sprintf_mac. rewrite decide_True; [by eexists|].
  destruct b as [|a [|b [|c [|d [|e [|f []]]]]]]; try discriminate Hl.
  unfold bytes in Hb. rewrite !Forall_cons in Hb. destruct Hb as (? & ? & ? & ? & ? & ? & _).
  unfold mac_text. cbn [fmap list_fmap app concat]. rewrite !length_app. cbn [length app]. rewrite !length_app. cbn [length].
  rewrite !length_app. cbn [length]. rewrite !length_app. cbn [length]. rewrite !length_app. cbn [length]. rewrite !length_app. cbn [length].
  rewrite !length_fmt_byte by done. cbn. lia.
Qed.
Lemma bytes_recv buf pkt : bytes buf -> bytes pkt -> bytes (recv_into buf pkt).
Proof. intros. unfold recv_into, buf_write. rewrite take_0. cbn [app]. apply Forall_app. split; [done|]. by apply Forall_drop. Qed.
Lemma take_recv buf pkt : take (length pkt) (recv_into buf pkt) = pkt.
Proof. unfold recv_into, buf_write. rewrite take_0. cbn [app]. apply take_app_length. Qed.

(** property: the socket program sends every frame it reads back as it is, in
    order, and never writes outside its buffers. *)
Theorem socket_echoes buf reads :
  length buf = BUFSIZE -> bytes buf -> Forall (fun p => bytes p /\ (length p <= BUFSIZE)%nat) (omap id reads) ->
  exists evs, TapSocket.loop buf reads = Some evs /\ sent_of evs = frames reads.
Proof.
  intros Hl Hb. revert buf Hl Hb. induction reads as [|[[|x p]|] reads IH]; intros buf Hl Hb Hr; cbn [TapSocket.loop].
  - by exists [].
  - inversion_clear Hr. by apply IH.
  - inversion_clear Hr as [|? ? [Hp Hpl] Hr']. set (pkt := x :: p) in *.
    set (b := recv_into buf pkt). assert (length b = BUFSIZE) as Hbl by (unfold b; rewrite length_recv by lia; done).
    assert (bytes b) as Hbb by (by apply bytes_recv).
    destruct (sprintf_mac_total (take 6 b)) as [dst ->]; [rewrite length_take, Hbl; reflexivity|by apply Forall_take|].
    destruct (sprintf_mac_total (take 6 (drop 6 b))) as [src ->];
      [rewrite length_take, length_drop, Hbl; reflexivity|by apply Forall_take, Forall_drop|].
    destruct (IH b Hbl Hbb Hr') as (evs & -> & Hs). cbn [mbind option_bind]. eexists. split; [done|].
    cbn [sent_of omap list_omap]. fold (sent_of evs). rewrite Hs. unfold b. rewrite take_recv. done.
  - by apply IH.
Qed.
Lemma socket_echoes_witness :
  exists evs, TapSocket.loop (replicate 2048 0) [Some [1; 2; 3]; None; Some []; Some [4]] = Some evs /\
    sent_of evs = frames [Some [1; 2; 3]; None; Some []; Some [4]].
Proof.
  apply (socket_echoes (replicate 2048 0) [Some [1; 2; 3]; None; Some []; Some [4]]);
    [by rewrite length_replicate|apply Forall_replicate; lia|].
  repeat constructor; try lia; unfold BUFSIZE; cbn; lia.
Defined.

Lemma land_le a m : 0 <= a -> 0 <= Z.land a m <= a.
Proof.
  intros Ha. apply Z.ldiff_le; [done|]. apply Z.bits_inj'. intros n Hn.
  rewrite Z.ldiff_spec, Z.land_spec, Z.bits_0. by destruct (Z.testbit a n), (Z.testbit m n).
Qed.

(** property: before the loop the program asks for the hardware address in the
    union that also holds the flags, and then clears one bit of "the
    flags": what it sets is the hardware type without that bit, for Ethernet
    1, the flag that the interface is up, whatever the flags were. *)
Theorem flags_are_family k :
  length (a_hw k).2 = 14%nat -> 0 <= (a_hw k).1.2 < 65536 ->
  forall f, SetFlags f ∈ (setup k).2 -> f = Z.land (a_hw k).1.2 (Z.lnot IFF_PROMISC).
Proof.
  intros Hm Hf f. unfold setup. destruct (_ <? 0); [by rewrite elem_of_nil|]. destruct (negb _); [by rewrite elem_of_nil|].
  destruct (a_hw k) as [[e fam] mac] eqn:E. cbn [fst snd] in *. destruct (e <? 0); [by rewrite elem_of_nil|].
  destruct (a_bind k <? 0); cbn [snd]; intros Hin.
  - by do 2 (apply elem_of_cons in Hin as [?|Hin]; [done|]); apply elem_of_nil in Hin.
  - do 2 (apply elem_of_cons in Hin as [?|Hin]; [done|]). apply list_elem_of_singleton in Hin. injection Hin as Hin. rewrite Hin, (of_le16_le16 fam) by lia.
    pose proof (land_le fam (Z.lnot IFF_PROMISC)). apply of_le16_le16. lia.
Qed.
Lemma flags_are_family_witness :
  forall f, SetFlags f ∈ (setup (mkK 3 (0, 7) (0, 1, replicate 14 0) 0 0)).2 -> f = Z.land 1 (Z.lnot IFF_PROMISC).
Proof. apply (flags_are_family (mkK 3 (0, 7) (0, 1, replicate 14 0) 0 0)); cbn; [done|lia]. Defined.

(** ** Addresses as text *)
Definition is_digit (c : ascii) : bool := match digit_val c with Some _ => true | None => false end.
Fixpoint all_digits (s : string) : bool := match s with EmptyString => true | String c s => is_digit c && all_digits s end.
Definition part_check (b : Z) : bool := all_digits (pretty b) && (digits 0 (pretty b) =? b).
Lemma dec_part_digits s rest acc :
  all_digits s = true ->
  TapArp.dec_part acc (s +:+ "." +:+ rest) = Some (digits acc s, Some rest) /\ TapArp.dec_part acc s = Some (digits acc s, None).
Proof.
  revert acc. induction s as [|c s IH]; intros acc Hs; [done|]. cbn [all_digits] in Hs. apply andb_prop in Hs as [Hc Hs].
  unfold is_digit in Hc. destruct (digit_val c) as [d|] eqn:E; [|done].
  assert (c <> "."%char) by (intros ->; discriminate E).
  change (String c s +:+ "." +:+ rest) with (String c (s +:+ "." +:+ rest)). cbn [TapArp.dec_part digits].
  rewrite !decide_False, E by done. by apply IH.
Qed.
Lemma part_byte b : 0 <= b < 256 -> all_digits (pretty b) = true /\ digits 0 (pretty b) = b.
Proof.
  intros Hb. assert (part_check b = true) as H by (apply (forall_below part_check 256); [by vm_compute|lia]).
  apply andb_prop in H as [H1 H2]. split; [done|lia].
Qed.
Lemma inet_roundtrip a : length a = 4%nat -> bytes a -> TapArp.inet_addr (TapArp.inet_ntoa a) = a.
Proof.
  intros Hl Ha. destruct a as [|a [|b [|c [|d []]]]]; try discriminate Hl.
  unfold bytes in Ha. rewrite !Forall_cons in Ha. destruct Ha as (Ha & Hb & Hc & Hd & _).
  unfold TapArp.inet_addr, TapArp.inet_ntoa. cbn [fmap list_fmap TapArp.dec_parts].
  destruct (part_byte a Ha) as [D V], (part_byte b Hb) as [D2 V2], (part_byte c Hc) as [D3 V3], (part_byte d Hd) as [D4 V4].
  assert (forall x, 0 <= x < 256 -> (255 <? x) = false) as Hr by (intros; lia).
  repeat (first [rewrite (proj1 (dec_part_digits _ _ 0 D)) | rewrite (proj1 (dec_part_digits _ _ 0 D2)) | rewrite (proj1 (dec_part_digits _ _ 0 D3)) | rewrite (proj2 (dec_part_digits _ EmptyString 0 D4))];
    cbn [mbind option_bind]; rewrite ?V, ?V2, ?V3, ?V4, Hr by done). done.
Qed.

(** ** Answers to address requests *)
Import TapArp.

(** property: the answer to an address request that is read: the same frame and
    still a request, in which the sender is the address that was asked for
    with the requester's hardware address counted up in its last byte, the
    target is the requester, and the Ethernet source is counted up too; so
    who processes it learns for the address asked for a hardware address
    that is not the requester's own. *)
Theorem arp_answered buf dst src s hw sha h sip tha tip rest :
  let frame src_last sha_last sip tip := dst ++ src ++ [src_last; 8; 6] ++ hw ++ [0; 1] ++ sha ++ [sha_last] ++ sip ++ tha ++ tip ++ rest in
  length dst = 6%nat -> length src = 5%nat -> length hw = 6%nat -> length sha = 5%nat -> length sip = 4%nat ->
  length tha = 6%nat -> length tip = 4%nat -> (42 + length rest <= length buf)%nat -> bytes (h :: sip ++ tip) ->
  exists buf',
    pass true true buf (frame s h sip tip) =
      Some ([Received (frame s h sip tip); EthType 0x0806; ArpPacket; ArpRequest (Some (inet_ntoa sip)) (Some (inet_ntoa tip));
             Sent (frame (u8 (s + 1)) (u8 (h + 1)) tip sip)], buf') /\
    arp_at buf' = mkArp 1 (sha ++ [u8 (h + 1)]) tip tha sip /\ u8 (h + 1) <> h.
Proof.
  intros frame H1 H2 H3 H4 H5 H6 H7 Hl Hb. inversion_clear Hb as [|? ? Hh Hb']. apply Forall_app in Hb' as [Hs Ht].
  pose proof (inet_roundtrip sip H5 Hs) as Rs. pose proof (inet_roundtrip tip H7 Ht) as Rt.
  assert (u8 (h + 1) <> h). { unfold u8, wrap. change (2 ^ 8) with 256. destruct (decide (h = 255)) as [->|]; [done|]. rewrite Z.mod_small; lia. }
  unfold pass, frame. clear frame.
  destruct dst as [|? [|? [|? [|? [|? [|? []]]]]]]; try discriminate H1. destruct src as [|? [|? [|? [|? [|? []]]]]]; try discriminate H2.
  destruct hw as [|? [|? [|? [|? [|? [|? []]]]]]]; try discriminate H3. destruct sha as [|? [|? [|? [|? [|? []]]]]]; try discriminate H4.
  destruct tha as [|? [|? [|? [|? [|? [|? []]]]]]]; try discriminate H6.
  destruct sip as [|i0 [|i1 [|i2 [|i3 []]]]]; try discriminate H5. destruct tip as [|j0 [|j1 [|j2 [|j3 []]]]]; try discriminate H7.
  cbn [app]. set (pkt := _ :: _). set (R := drop (length pkt) buf).
  assert (recv_into buf pkt = pkt ++ R) as -> by (unfold recv_into, buf_write; by rewrite take_0).
  change (length pkt <=? 14)%nat with false. change (net16 (pkt ++ R) 12) with 0x0806. cbn [Z.eqb Pos.eqb]. unfold show_arp.
  change (ar_op (arp_at (pkt ++ R))) with 1. cbn [Z.eqb Pos.eqb strdup].
  change (ar_sip (arp_at (pkt ++ R))) with [i0; i1; i2; i3]. change (ar_tip (arp_at (pkt ++ R))) with [j0; j1; j2; j3].
  unfold answer, bump. rewrite Rs, Rt. cbn [mbind option_bind]. 
  assert (forall l : list Z, length l = length pkt -> take (length pkt) (l ++ R) = l) as Htk by (intros l <-; apply take_app_length).
  eexists. split; [|split; [|done]].
  - apply f_equal, f_equal2; [|reflexivity]. do 4 (apply f_equal). apply (f_equal (fun p => [Sent p])).
    etrans; [|by apply Htk]. reflexivity.
  - reflexivity.
Qed.
Lemma arp_answered_witness :
  exists buf',
    pass true true (replicate 4096 0)
      (replicate 6 255 ++ [2; 0; 0; 0; 0] ++ [255; 8; 6] ++ [0; 1; 8; 0; 6; 4] ++ [0; 1] ++ [2; 0; 0; 0; 0] ++ [255] ++ [192; 168; 27; 2] ++ replicate 6 0 ++ [192; 168; 27; 111] ++ []) =
      Some ([Received (replicate 6 255 ++ [2; 0; 0; 0; 0] ++ [255; 8; 6] ++ [0; 1; 8; 0; 6; 4] ++ [0; 1] ++ [2; 0; 0; 0; 0] ++ [255] ++ [192; 168; 27; 2] ++ replicate 6 0 ++ [192; 168; 27; 111] ++ []);
             EthType 0x0806; ArpPacket; ArpRequest (Some (inet_ntoa [192; 168; 27; 2])) (Some (inet_ntoa [192; 168; 27; 111]));
             Sent (replicate 6 255 ++ [2; 0; 0; 0; 0] ++ [u8 (255 + 1); 8; 6] ++ [0; 1; 8; 0; 6; 4] ++ [0; 1] ++ [2; 0; 0; 0; 0] ++ [u8 (255 + 1)] ++ [192; 168; 27; 111] ++ replicate 6 0 ++ [192; 168; 27; 2] ++ [])], buf') /\
    arp_at buf' = mkArp 1 ([2; 0; 0; 0; 0] ++ [u8 (255 + 1)]) [192; 168; 27; 111] (replicate 6 0) [192; 168; 27; 2] /\ u8 (255 + 1) <> 255.
Proof.
  apply (arp_answered (replicate 4096 0) (replicate 6 255) [2; 0; 0; 0; 0] 255 [0; 1; 8; 0; 6; 4] [2; 0; 0; 0; 0] 255 [192; 168; 27; 2] (replicate 6 0) [192; 168; 27; 111] []);
    try reflexivity; [rewrite length_replicate; cbn; lia|]. repeat constructor; lia.
Defined.

(** property: a frame is printed without an access outside the buffer exactly if
    it is not a UDP packet whose length field reaches beyond the buffer, and
    not an address request for whose texts there is no memory.  The length of
    the frame that was read plays no part: bytes of earlier frames are
    printed as well. *)
Theorem frame_faults m1 m2 buf pkt :
  let b := recv_into buf pkt in
  pass m1 m2 buf pkt = None <->
    (14 < length pkt)%nat /\
    ((net16 b 12 = 0x0800 /\ b !!! 23%nat = 0x11 /\ (length b < udp_at b + Z.to_nat (net16 b (udp_at b + 4)))%nat) \/
     (net16 b 12 = 0x0806 /\ ar_op (arp_at b) = 1 /\ (m1 && m2 = false))).
Proof.
  intros b. unfold pass. fold b. destruct (Nat.leb_spec (length pkt) 14).
  { cbn. split; [done|]. intros [? _]. lia. }
  assert (forall {A B} (m : option A) (f : A -> B), (x ← m; Some (f x)) = None <-> m = None) as Hb.
  { intros A B [x|] f; cbn; split; done. }
  assert (forall (m : option (list event * list Z)) x, ('(evs, b0) ← ('(evs, b0) ← m; Some (EthType x :: evs, b0)); Some (Received pkt :: evs, b0)) = None <-> m = None) as Hb2.
  { intros [[]|] x; cbn; split; done. }
  rewrite Hb2. destruct (Z.eqb_spec (net16 b 12) 0x0800) as [E|E].
  - rewrite E. rewrite Hb. unfold show_ip. destruct (Z.eqb_spec (b !!! 23%nat) 0x11) as [P|P].
    + case_decide as D; cbn [mbind option_bind]; split; try done.
      * intros [_ [(_ & _ & ?)|(? & _)]]; [lia|done].
      * intros _. split; [done|]. left. repeat split; [done|lia].
    + cbn. split; [done|]. intros [_ [(_ & ? & _)|(? & _)]]; done.
  - destruct (Z.eqb_spec (net16 b 12) 0x0806) as [E'|E'].
    + unfold show_arp. destruct (Z.eqb_spec (ar_op (arp_at b)) 1) as [O|O].
      * destruct m1, m2; cbn; split; try done; try (by intros [_ [(? & _)|(_ & _ & ?)]]); intros _; (split; [done|]); by right.
      * destruct (_ =? 2); (split; [done|]); intros [_ [(? & _)|(_ & ? & _)]]; done.
    + split; [done|]. intros [_ [(? & _)|(? & _)]]; done.
Qed.
