(* ===== verification/Netlink.v ===== *)
(** * Messages between a kernel module and programs (test_netlink)

    [Nl] is the layout of netlink messages, [Ko] the module of
    test_netlinkko.c, [App] and [App2] the programs test_netlinkapp.c and
    test_netlinkapp2.c.  Memory that the allocator does not clear is an
    argument, as are the results of the system calls; [None] is a null
    dereference or a read behind the end of a buffer. *)

From Stdlib Require Import ZArith Ascii.
From stdpp Require Import base list strings.
From S2P Require Import Prelude KernelText.

(** The bytes of a literal, with its terminator. *)
Definition lit (s : string) : list Z :=
  ((fun c => Z.of_nat (nat_of_ascii c)) <$> String.list_ascii_of_string s) ++ [0].
(** [%s]: the bytes up to the terminator, [None] if there is none. *)
Fixpoint cstr (l : list Z) : option (list Z) :=
  match l with [] => None | b :: l => if b =? 0 then Some [] else t ← cstr l; Some (b :: t) end.

(** ** Messages *)
Module Nl.
Definition HDRLEN : nat := 16.
Definition NLMSG_ALIGN (len : nat) : nat := ((len + 3) / 4 * 4)%nat.
Definition NLMSG_LENGTH (len : nat) : nat := (len + HDRLEN)%nat.
Definition NLMSG_SPACE (len : nat) : nat := NLMSG_ALIGN (NLMSG_LENGTH len).
Record nlmsghdr := mkHdr { nlmsg_len : Z; nlmsg_type : Z; nlmsg_flags : Z; nlmsg_seq : Z; nlmsg_pid : Z }.
Definition hdr_bytes (h : nlmsghdr) : list Z :=
  le_bytes 4 (nlmsg_len h) ++ le16 (nlmsg_type h) ++ le16 (nlmsg_flags h) ++ le_bytes 4 (nlmsg_seq h) ++ le_bytes 4 (nlmsg_pid h).
(** [NLMSG_DATA], and the member [nlmsg_pid] of a message. *)
Definition NLMSG_DATA (m : list Z) : list Z := drop HDRLEN m.
Definition pid_of (m : list Z) : Z := of_le_bytes (take 4 (drop 12 m)).
End Nl.
Import Nl.

(** ** The module *)
Module Ko.
Definition MAX_MSGSIZE : nat := 100.
(** [pid], [nl_sk], [flag], the references to buffers that nobody gives back,
    and the messages sent with their address. *)
Record st := mkSt { pid : Z; nl_sk : bool; flag : Z; kept : Z; sent : list (Z * list Z) }.
Definition st0 : st := mkSt 0 false 0 0 [].

(** [alloc]: the 116 bytes of the buffer as the allocator gave them, or NULL.
    [message] is NULL or a terminated text; the store of its terminator does
    not change it.  Without a buffer [nlmsg_put] dereferences NULL. *)
Definition sendnlmsg (alloc : option (list Z)) (message : option (list Z)) : FM st unit := fun s =>
  let len := NLMSG_SPACE MAX_MSGSIZE in
  match message with
  | None => Some (tt, s)
  | Some message =>
      if negb (nl_sk s) then Some (tt, s)
      else
        skb_1 ← alloc;
        let nlh := buf_write skb_1 0 (hdr_bytes (mkHdr (Z.of_nat (NLMSG_LENGTH MAX_MSGSIZE)) 0 0 0 0)) in
        let nlh := buf_write nlh HDRLEN (take 1 message) in
        Some (tt, mkSt (pid s) (nl_sk s) (flag s) (kept s) (sent s ++ [(pid s, nlh)]))
  end.

Definition send_buf : list Z := lit ("I am from kernel" +:+ newline).
(** A buffer from user space: its data, and what is in memory behind it.  The
    text printed, if there is one. *)
Definition nl_data_ready (alloc : option (list Z)) (data behind : list Z) : FM st (option (list Z)) := fun s =>
  (** [skb_get] *)
  let s := mkSt (pid s) (nl_sk s) (flag s) (kept s + 1) (sent s) in
  if (NLMSG_SPACE 0 <=? length data)%nat then
    let memory := NLMSG_DATA (data ++ behind) in
    if (length memory <? 100)%nat then None
    else
      let str := take 100 memory in
      let s := mkSt (pid_of data) (nl_sk s) (flag s) (kept s) (sent s) in
      '(_, s) ← sendnlmsg alloc (Some send_buf) s;
      (** [flag = 1], [kfree_skb] *)
      Some (Some str, mkSt (pid s) (nl_sk s) 1 (kept s - 1) (sent s))
  else Some (None, s).

(** [created]: if the kernel could create the socket. *)
Definition netlink_init (created : bool) (s : st) : Z * st :=
  (if created then 0 else 1, mkSt (pid s) created (flag s) (kept s) (sent s)).
(** The socket is released; the pointer stays. *)
Definition netlink_exit (s : st) : list bool * st := (if nl_sk s then [true] else [], s).
End Ko.

(** ** The first program *)
Module App.
Definition MAX_PAYLOAD : nat := 1024.
Definition SPACE : nat := NLMSG_SPACE MAX_PAYLOAD.
(** The message in the memory [malloc] returned: length, flags, process and
    text are set, type and sequence number are what was there. *)
Definition message (getpid : Z) (mem : list Z) : list Z :=
  let m := buf_write mem 0 (le_bytes 4 (Z.of_nat SPACE)) in
  let m := buf_write m 12 (le_bytes 4 getpid) in
  let m := buf_write m 6 (le16 0) in
  buf_write m HDRLEN (lit "Hello you!").
(** One pass of the loop over what [recvmsg] returned, [None] an error: the
    memory after it, and the text printed. *)
Definition pass (mem : list Z) (r : option (list Z)) : option (list Z * list Z) :=
  let mem := match r with Some m => buf_write mem 0 (take SPACE m) | None => mem end in
  t ← cstr (NLMSG_DATA mem); Some (t, mem).
Fixpoint loop (mem : list Z) (rs : list (option (list Z))) : option (list (list Z)) :=
  match rs with
  | [] => Some []
  | r :: rs => '(t, mem) ← pass mem r; ts ← loop mem rs; Some (t :: ts)
  end.
(** The results of the calls; [a_malloc] is NULL or the memory. *)
Record kernel := mkK { a_socket : Z; a_bind : Z; a_malloc : option (list Z); a_sendmsg : Z }.
Record result := mkR { exit_ : option Z; open_fds : list Z; sent_ : list (list Z); texts : list (list Z) }.
Definition main (k : kernel) (getpid : Z) (rs : list (option (list Z))) : option result :=
  if a_socket k =? -1 then Some (mkR (Some (-1)) [] [] [])
  else if a_bind k <? 0 then Some (mkR (Some (-1)) [] [] [])
  else match a_malloc k with
       | None => Some (mkR (Some (-1)) [] [] [])
       | Some mem =>
           ts ← loop (replicate SPACE 0) rs;
           Some (mkR None [a_socket k] (if a_sendmsg k =? -1 then [] else [message getpid mem]) ts)
       end.
End App.

(** ** The second program *)
Module App2.
Definition MAX_PAYLOAD : nat := 1024.
Definition NLMSG_NOOP : Z := 1.
(** The first 1024 bytes are cleared. *)
Definition clear (mem : list Z) : list Z := buf_write mem 0 (replicate MAX_PAYLOAD 0).
Definition message (getpid : Z) (mem : list Z) : list Z :=
  let m := clear mem in
  let m := buf_write m 0 (hdr_bytes (mkHdr (Z.of_nat (NLMSG_SPACE MAX_PAYLOAD)) NLMSG_NOOP 0 0 getpid)) in
  buf_write m HDRLEN (lit "rr").
(** [r]: what [recvfrom] returned, [None] an error, which is not looked at. *)
Definition main (socket : Z) (malloc : option (list Z)) (getpid : Z) (r : option (list Z)) : option (Z * list (list Z) * list (list Z)) :=
  if socket =? -1 then Some (1, [], [])
  else match malloc with
       | None => Some (1, [], [])
       | Some mem =>
           let m := message getpid mem in
           let sent := take (NLMSG_LENGTH MAX_PAYLOAD) m in
           let mem := clear m in
           let mem := match r with Some x => buf_write mem 0 (take (NLMSG_LENGTH MAX_PAYLOAD) x) | None => mem end in
           t ← cstr (NLMSG_DATA mem);
           Some (0, [sent], [t])
       end.
End App2.

(** ** Texts and messages *)
Lemma cstr_app l k t : cstr l = Some t -> cstr (l ++ k) = Some t.
Proof.
  revert t. induction l as [|b l IH]; intros t H; [done|]. cbn [app cstr] in *. destruct (b =? 0); [done|].
  destruct (cstr l) as [u|] eqn:E; [|done]. cbn in *. by rewrite (IH u eq_refl).
Qed.
Lemma cstr_zero l : is_Some (cstr (l ++ [0])).
Proof.
  induction l as [|b l [t IH]]; [by eexists|]. cbn [app cstr]. destruct (b =? 0); [by eexists|]. rewrite IH. by eexists.
Qed.
Lemma buf_write_split a b c x :
  length x = length b -> buf_write (a ++ b ++ c) (length a) x = a ++ x ++ c.
Proof.
  intros H. unfold buf_write. rewrite take_app_length, H. do 2 f_equal.
  rewrite (app_assoc a b c), drop_app_ge by (rewrite length_app; lia). by rewrite length_app, Nat.sub_diag, drop_0.
Qed.
Lemma buf_write_start b c x : length x = length b -> buf_write (b ++ c) 0 x = x ++ c.
Proof. apply (buf_write_split []). Qed.
(** Writing over the beginning. *)
Lemma buf_write_0 m x : buf_write m 0 x = x ++ drop (length x) m.
Proof. unfold buf_write. by rewrite take_0. Qed.

(** The messages of the programs, byte by byte. *)
Lemma app_message p mem :
  length mem = App.SPACE ->
  App.message p mem =
    le_bytes 4 (Z.of_nat App.SPACE) ++ take 2 (drop 4 mem) ++ le16 0 ++ take 4 (drop 8 mem) ++ le_bytes 4 p ++ lit "Hello you!" ++ drop 27 mem.
Proof.
  intros Hm. change App.SPACE with 1040%nat in *. do 27 (destruct mem as [|? mem]; [discriminate Hm|]). reflexivity.
Qed.
Lemma app2_message p mem :
  length mem = App.SPACE ->
  App2.message p mem =
    hdr_bytes (mkHdr 1040 1 0 0 p) ++ lit "rr" ++ replicate 1005 0 ++ drop 1024 mem.
Proof.
  intros Hm. unfold App2.message, App2.clear. rewrite (buf_write_0 mem), length_replicate.
  change App2.MAX_PAYLOAD with 1024%nat. change (replicate 1024 0) with (replicate 16 0 ++ replicate 3 0 ++ replicate 1005 0).
  rewrite <- !app_assoc, buf_write_start by done.
  change HDRLEN with (length (hdr_bytes (mkHdr (Z.of_nat (NLMSG_SPACE 1024)) App2.NLMSG_NOOP 0 0 p))).
  by rewrite buf_write_split.
Qed.
Lemma app_pid p mem : length mem = App.SPACE -> 0 <= p < 2 ^ 32 -> pid_of (App.message p mem) = p.
Proof.
  intros Hm Hp. rewrite app_message by done. change App.SPACE with 1040%nat in *. do 12 (destruct mem as [|? mem]; [discriminate Hm|]).
  unfold pid_of. transitivity (of_le_bytes (le_bytes 4 p)); [reflexivity|]. rewrite of_le_bytes_le. by apply Z.mod_small.
Qed.
Lemma app2_pid p mem : length mem = App.SPACE -> 0 <= p < 2 ^ 32 -> pid_of (App2.message p mem) = p.
Proof.
  intros Hm Hp. rewrite app2_message by done. unfold pid_of.
  transitivity (of_le_bytes (le_bytes 4 p)); [reflexivity|]. rewrite of_le_bytes_le. by apply Z.mod_small.
Qed.

(** ** The module's handler *)
Import Ko.
(** The message the module sends in the buffer [stale]. *)
Definition reply (stale : list Z) : list Z := hdr_bytes (mkHdr 116 0 0 0 0) ++ 73 :: drop 17 stale.
Lemma reply_eq stale :
  length stale = 116%nat ->
  buf_write (buf_write stale 0 (hdr_bytes (mkHdr (Z.of_nat (NLMSG_LENGTH MAX_MSGSIZE)) 0 0 0 0))) HDRLEN (take 1 send_buf) = reply stale.
Proof. intros H. do 17 (destruct stale as [|? stale]; [discriminate H|]). reflexivity. Qed.

Lemma ready_run stale data behind s :
  length stale = 116%nat -> nl_sk s = true -> (16 <= length data)%nat -> (116 <= length data + length behind)%nat ->
  nl_data_ready (Some stale) data behind s =
    Some (Some (take 100 (drop 16 (data ++ behind))),
          mkSt (pid_of data) true 1 (kept s) (sent s ++ [(pid_of data, reply stale)])).
Proof.
  intros Hs Hn Hd Hb. unfold nl_data_ready. change (NLMSG_SPACE 0) with 16%nat. rewrite (proj2 (Nat.leb_le _ _)) by done.
  unfold NLMSG_DATA. change HDRLEN with 16%nat.
  rewrite (proj2 (Nat.ltb_ge (length (drop 16 (data ++ behind))) 100)) by (rewrite length_drop, length_app; lia).
  unfold sendnlmsg. cbn [nl_sk negb]. rewrite Hn. cbn [negb mbind option_bind pid flag kept sent nl_sk].
  rewrite reply_eq by done. do 4 f_equal. lia.
Qed.

(** property: from the program to the module and back: a message of either
    program reaches the handler as it was sent, the answer is addressed to
    the process that asked, and the handler keeps no buffer; but of its text
    the answer has only the first letter, and what the program then prints
    behind it are bytes that were in the module's buffer before. *)
Theorem only_first_letter p mem stale behind s :
  length mem = App.SPACE -> 0 <= p < 2 ^ 32 -> length stale = 116%nat -> nl_sk s = true ->
  exists s1 s2 u,
    nl_data_ready (Some stale) (App.message p mem) behind s = Some (Some (lit "Hello you!" ++ take 89 (drop 27 mem)), s1) /\
    nl_data_ready (Some stale) (App2.message p mem) behind s = Some (Some (lit "rr" ++ replicate 97 0), s2) /\
    s1 = s2 /\ kept s1 = kept s /\ sent s1 = sent s ++ [(p, reply stale)] /\
    cstr (drop 17 stale ++ [0]) = Some u /\
    App.loop (replicate App.SPACE 0) [Some (reply stale)] = Some [73 :: u] /\
    App2.main 3 (Some mem) p (Some (reply stale)) = Some (0, [App2.message p mem], [73 :: u]).
Proof.
  intros Hm Hp Hs Hn. destruct (cstr_zero (drop 17 stale)) as [u Hu].
  assert (length (App.message p mem) = 1040%nat) as L1.
  { rewrite app_message by done. rewrite !length_app, !length_take, !length_drop, Hm. reflexivity. }
  assert (length (App2.message p mem) = 1040%nat) as L2.
  { rewrite app2_message by done. rewrite !length_app, length_drop, Hm. reflexivity. }
  assert (length (reply stale) = 116%nat) as L3 by (unfold reply; rewrite length_app; cbn [length]; rewrite length_drop, Hs; reflexivity).
  assert (forall k, cstr (NLMSG_DATA (reply stale ++ 0 :: k)) = Some (73 :: u)) as Ht.
  { intros k. change (NLMSG_DATA _) with (73 :: (drop 17 stale ++ [0] ++ k)). cbn [cstr]. rewrite app_assoc.
    by rewrite (cstr_app _ k u Hu). }
  exists (mkSt p true 1 (kept s) (sent s ++ [(p, reply stale)])), (mkSt p true 1 (kept s) (sent s ++ [(p, reply stale)])), u.
  rewrite !ready_run by (done || lia). rewrite app_pid, app2_pid by done. repeat split; try done.
  - rewrite app_message by done. do 2 f_equal. change App.SPACE with 1040%nat in *. f_equal.
    do 27 (destruct mem as [|? mem]; [discriminate Hm|]). cbn [drop]. 
    change (drop 16 _) with (lit "Hello you!" ++ mem ++ behind). rewrite take_app_ge by (apply Nat.leb_le; reflexivity). f_equal.
    change (100 - _)%nat with 89%nat. apply take_app_le.
    change (27 + length mem = 1040)%nat in Hm. rewrite drop_0. lia.
  - unfold App.loop, App.pass. change (take App.SPACE (reply stale)) with (take 1040 (reply stale)). rewrite take_ge by lia.
    change (replicate App.SPACE 0) with (replicate 116 0 ++ 0 :: replicate 923 0). rewrite buf_write_start by (rewrite length_replicate; done).
    by rewrite Ht.
  - unfold App2.main. cbn [Z.eqb]. change (NLMSG_LENGTH App2.MAX_PAYLOAD) with 1040%nat. rewrite !take_ge by lia.
    unfold App2.clear. change (replicate App2.MAX_PAYLOAD 0) with (replicate 116 0 ++ 0 :: replicate 907 0).
    rewrite (buf_write_0 (App2.message p mem)), <- app_assoc, buf_write_start by (rewrite length_replicate; done).
    cbn [app]. by rewrite Ht.
Qed.
Lemma only_first_letter_witness :
  exists s1 s2 u,
    nl_data_ready (Some (replicate 116 0)) (App.message 77 (replicate App.SPACE 7)) [] (netlink_init true st0).2 =
      Some (Some (lit "Hello you!" ++ take 89 (drop 27 (replicate App.SPACE 7))), s1) /\
    nl_data_ready (Some (replicate 116 0)) (App2.message 77 (replicate App.SPACE 7)) [] (netlink_init true st0).2 =
      Some (Some (lit "rr" ++ replicate 97 0), s2) /\
    s1 = s2 /\ kept s1 = 0 /\ sent s1 = [] ++ [(77, reply (replicate 116 0))] /\
    cstr (drop 17 (replicate 116 0) ++ [0]) = Some u /\
    App.loop (replicate App.SPACE 0) [Some (reply (replicate 116 0))] = Some [73 :: u] /\
    App2.main 3 (Some (replicate App.SPACE 7)) 77 (Some (reply (replicate 116 0))) =
      Some (0, [App2.message 77 (replicate App.SPACE 7)], [73 :: u]).
Proof.
  apply (only_first_letter 77 (replicate App.SPACE 7) (replicate 116 0) [] (netlink_init true st0).2);
    [by rewrite length_replicate|lia|by rewrite length_replicate|done].
Defined.

(** property: the buffers of the handler: a message without a whole header is
    not looked at and its reference is kept for ever; otherwise the handler
    copies 100 bytes whatever the length of the message - of a shorter one
    what follows in memory -, and without memory for the answer, while the
    socket is there, it dereferences NULL. *)
Theorem handler_buffers alloc data behind s :
  ((length data < 16)%nat ->
     nl_data_ready alloc data behind s = Some (None, mkSt (pid s) (nl_sk s) (flag s) (kept s + 1) (sent s))) /\
  ((16 <= length data <= 116)%nat -> (116 <= length data + length behind)%nat -> nl_sk s = true ->
     (forall stale, alloc = Some stale -> length stale = 116%nat ->
        exists s', nl_data_ready alloc data behind s = Some (Some (drop 16 data ++ take (116 - length data) behind), s') /\ kept s' = kept s) /\
     (alloc = None -> nl_data_ready alloc data behind s = None)).
Proof.
  split.
  - intros H. unfold nl_data_ready. change (NLMSG_SPACE 0) with 16%nat. by rewrite (proj2 (Nat.leb_gt _ _)) by lia.
  - intros Hd Hb Hn. split.
    + intros stale -> Hs. rewrite ready_run by (done || lia). eexists. split; [apply f_equal, f_equal2; [apply f_equal|reflexivity]|reflexivity].
      rewrite drop_app_le, take_app_ge by (rewrite ?length_drop; lia). f_equal. f_equal. rewrite length_drop. lia.
    + intros ->. unfold nl_data_ready. change (NLMSG_SPACE 0) with 16%nat. rewrite (proj2 (Nat.leb_le _ _)) by lia.
      unfold NLMSG_DATA. change HDRLEN with 16%nat.
      rewrite (proj2 (Nat.ltb_ge (length (drop 16 (data ++ behind))) 100)) by (rewrite length_drop, length_app; lia).
      unfold sendnlmsg. cbn [nl_sk]. by rewrite Hn.
Qed.

(** property: the module loads also when the socket could not be created: the
    result is 1, not negative; messages are then never answered. *)
Theorem init_failure_loads alloc m s :
  let '(r, s') := netlink_init false s in
  r = 1 /\ sendnlmsg alloc m s' = Some (tt, s') /\ (netlink_exit s').1 = [].
Proof. cbn. split; [done|]. split; [by destruct m|done]. Qed.

(** property: the first program prints the last message again and again when a
    receive fails, and never ends. *)
Theorem app_repeats_last mem t n :
  cstr (NLMSG_DATA mem) = Some t -> App.loop mem (replicate n None) = Some (replicate n t).
Proof.
  intros H. induction n as [|n IH]; [done|]. cbn [replicate App.loop]. unfold App.pass at 1. rewrite H. cbn [mbind option_bind]. by rewrite IH.
Qed.
Lemma app_repeats_last_witness : App.loop (replicate App.SPACE 0) (replicate 3 None) = Some (replicate 3 []).
Proof. by apply (app_repeats_last (replicate App.SPACE 0) [] 3). Defined.
