(* ===== verification/Deferred.v ===== *)
(** * Samples of deferred work, sleeping and locking

    [Work] is a write that queues a function to run later, as a work item
    (test_work_struct, test_spi_drv) or as a tasklet (test_tasklet,
    test_tasklet_hi); [Sleep] the read of test_schedule that sleeps until a
    signal comes; [Spin] the reads of the two spinlock samples, which keep
    the lock for ever; [Timer] the attributes and the timer of test_timer.

    Each is a state with the actions of users, of the kernel and of the
    module, in any order. *)

From Stdlib Require Import ZArith Ascii.
From stdpp Require Import base list strings pretty.
From S2P Require Import Prelude KernelText Samples.

(** ** Work items and tasklets *)
Module Work.
(** If the item is queued, how often writes and the function have run, and if
    the module is loaded. *)
Record st := mkSt { queued : bool; writes : Z; runs : Z; loaded : bool }.
Definition st0 : st := mkSt false 0 0 true.
(** [schedule_work], [tasklet_schedule]: an item that is queued stays so. *)
Definition schedule_work (s : st) : st := mkSt true (writes s) (runs s) (loaded s).
Definition wrote (s : st) : st := mkSt (queued s) (writes s + 1) (runs s) (loaded s).

(** The kernel takes the item from its queue and calls the function; [None]
    is a call into a module that has gone. *)
Definition work_func (s : st) : st := mkSt (queued s) (writes s) (runs s + 1) (loaded s).
Definition run (s : st) : option st :=
  if queued s then if loaded s then Some (work_func (mkSt false (writes s) (runs s) (loaded s))) else None
  else Some s.
(** [tasklet_kill]: waits until a queued tasklet has run. *)
Definition tasklet_kill (s : st) : st := default s (run s).
Definition gone (s : st) : st := mkSt (queued s) (writes s) (runs s) false.

(** test_work_struct *)
Definition work_write (count : Z) (s : st) : Z * st := (count, wrote (schedule_work s)).
Definition work_open : Z := 0.
Definition work_read : Z := 0.
Definition work_exit (s : st) : st := gone s.
(** test_spi_drv, the same text *)
Definition spi_write := work_write.
Definition spi_open : Z := 0.
Definition spi_read : Z := 0.
Definition spi_func := work_func.
Definition spi_exit := work_exit.
(** test_tasklet *)
Definition tasklet_handler := work_func.
Definition tasklet_write (count : Z) (s : st) : Z * st := (count, wrote (schedule_work s)).
Definition tasklet_open : Z := 0.
Definition tasklet_read : Z := 0.
Definition tasklet_exit (s : st) : st := gone (tasklet_kill s).
(** test_tasklet_hi *)
Definition hi_handler := work_func.
Definition hi_write (count : Z) (s : st) : Z * st := (count, wrote (schedule_work s)).
Definition hi_open : Z := 0.
Definition hi_read : Z := 0.
Definition hi_exit (s : st) : st := gone (tasklet_kill s).

(** Actions; a write needs the module. *)
Inductive act := Write (count : Z) | Run | Exit.
Definition step (write : Z -> st -> Z * st) (exit : st -> st) (s : st) (a : act) : option st :=
  match a with
  | Write n => Some (if loaded s then snd (write n s) else s)
  | Run => run s
  | Exit => Some (if loaded s then exit s else s)
  end.
Fixpoint steps (write : Z -> st -> Z * st) (exit : st -> st) (s : st) (l : list act) : option st :=
  match l with [] => Some s | a :: l => s ← step write exit s a; steps write exit s l end.
End Work.

(** ** Sleeping until a signal *)
Module Sleep.
Inductive rpc := SetState | Test | Schedule | Woken | Running | Returned.
#[global] Instance rpc_eq : EqDecision rpc.
Proof. solve_decision. Defined.
(** The place in [reg_read], if the task is [TASK_INTERRUPTIBLE], and if a
    signal is pending. *)
Record st := mkSt { pc : rpc; asleep : bool; signal : bool }.
Definition st0 : st := mkSt SetState false false.
(** [reg_read]; [None] while it sleeps.  The scheduler does not stop a task
    that has a signal. *)
Definition reg_read (s : st) : option st :=
  match pc s with
  | SetState => Some (mkSt Test true (signal s))
  | Test => Some (mkSt (if signal s then Running else Schedule) (asleep s) (signal s))
  | Schedule => if asleep s && negb (signal s) then None else Some (mkSt Woken false (signal s))
  | Woken => Some (mkSt SetState (asleep s) (signal s))
  | Running => Some (mkSt Returned false (signal s))
  | Returned => Some s
  end.
Definition reg_write (count : Z) : Z := count.
Definition reg_open : Z := 0.
(** Others wake the task, or send it a signal, which wakes it too. *)
Inductive act := Step | Wake | Signal.
Definition step (s : st) (a : act) : st :=
  match a with
  | Step => default s (reg_read s)
  | Wake => mkSt (pc s) false (signal s)
  | Signal => mkSt (pc s) false true
  end.
End Sleep.

(** ** Locks that are kept *)
Module Spin.
(** If the lock is taken, and the calls that loop with it, that wait for it,
    and that have returned. *)
Record st := mkSt { lock : bool; loops : Z; waits : Z; returned : Z }.
Definition st0 : st := mkSt false 0 0 0.
(** [spin_lock]; [do {;} while (1)]; what follows is never reached. *)
Definition lock_and_loop (s : st) : st :=
  if lock s then mkSt true (loops s) (waits s + 1) (returned s) else mkSt true (loops s + 1) (waits s) (returned s).
Definition foo_show := lock_and_loop.
Definition foo_store := Foo.foo_store.
(** test_spinlock1: writes and opens return at once. *)
Definition reg_read := lock_and_loop.
Definition reg_write (count : Z) : Z := count.
Definition reg_open : Z := 0.

(** The entry points of test_spinlock: results of the two groups; what is
    left. *)
Inductive obj := Class_ | Dev (n : Z) | Group (n : Z).
#[global] Instance obj_eq : EqDecision obj.
Proof. solve_decision. Defined.
Definition example_init (g1 g2 : Z) (s : list obj) : Z * list obj :=
  let s := Dev 2 :: Dev 1 :: Class_ :: s in
  let s := if g1 =? 0 then Group 1 :: s else s in
  let s := if g2 =? 0 then Group 2 :: s else s in
  (g2, s).
(** [device_del] takes the files of the device with it. *)
Definition device_del (n : Z) (s : list obj) : list obj := filter (fun o => o <> Dev n /\ o <> Group n) s.
Definition example_exit (s : list obj) : list obj := filter (fun o => o <> Class_) (device_del 2 (device_del 1 s)).
End Spin.

(** ** The timer *)
Module Timer.
(** [sscanf(buf, "%u", &v)] with [v] 0 before. *)
Definition sscanf_u (buf : string) : Z :=
  let s := skip_spaces buf in if starts_digit s then u32 (digits 0 s) else 0.

Section Hz.
(** Ticks in a second. *)
Variable HZ : Z.
(** The time; when the timer expires, if it is on the kernel's list; if its
    function is running; the period; when the function ran; if the module
    is loaded. *)
Record st := mkSt { jiffies : Z; expires : option Z; running : bool; timeperiod : Z; fired : list Z; loaded : bool }.
Definition st0 : st := mkSt 0 None false 0 [] true.
Definition set_timer (e : option Z) (s : st) : st := mkSt (jiffies s) e (running s) (timeperiod s) (fired s) (loaded s).
Definition mod_timer (e : Z) (s : st) : st := set_timer (Some e) s.
Definition timer_pending (s : st) : bool := match expires s with Some _ => true | None => false end.

Definition on_show (s : st) : string := (if timer_pending s then "true" else "false") +:+ newline.
(** The function that adds the timer; [None] if it is on the list already. *)
Definition timer_func (s : st) : option st :=
  if timer_pending s then None
  else Some (mkSt (jiffies s) (Some (jiffies s + timeperiod s)) false (timeperiod s) (fired s ++ [jiffies s]) (loaded s)).
(** [del_timer_sync]: waits for the function and takes the timer off the
    list; the function that it waits for adds the timer again. *)
Definition del_timer_sync (s : st) : option st :=
  if running s then s ← timer_func s; Some (set_timer None s) else Some (set_timer None s).
Definition on_store (buf : string) (count : Z) (s : st) : option (Z * st) :=
  let flag := sscanf_u buf in
  if flag =? 1 then Some (count, if timeperiod s =? 0 then s else mod_timer (jiffies s + timeperiod s) s)
  else if flag =? 0 then
    if timer_pending s then s ← del_timer_sync s; Some (count, s) else Some (count, s)
  else Some (count, s).
Definition S2JIFFS (x : Z) : Z := u32 (x * HZ).
Definition value_store (buf : string) (count : Z) (s : st) : Z * st :=
  let stime := sscanf_u buf in
  let mstime := u32 (stime * HZ) / 1000 in
  (count, mod_timer (jiffies s + S2JIFFS stime) (mkSt (jiffies s) (expires s) (running s) mstime (fired s) (loaded s))).

(** [example_init]: what is registered; [retval] is returned as it is. *)
Definition example_init (retval : Z) (s : list Spin.obj) : Z * list Spin.obj :=
  let s := Spin.Dev 1 :: Spin.Class_ :: s in (retval, if retval =? 0 then Spin.Group 1 :: s else s).
Definition example_exit (s : st) : option st :=
  s ← (if timer_pending s then del_timer_sync s else Some s);
  Some (mkSt (jiffies s) (expires s) (running s) (timeperiod s) (fired s) false).
Definition exit_objs (s : list Spin.obj) : list Spin.obj := filter (fun o => o <> Spin.Class_) (Spin.device_del 1 s).

(** Actions: time passes; the kernel takes an expired timer from its list and
    starts the function; the function does its work; the attributes; the
    module goes. *)
Inductive act := Tick | Expire | Func | On (buf : string) | Value (buf : string) | Exit.
Definition step (s : st) (a : act) : option st :=
  match a with
  | Tick => Some (mkSt (jiffies s + 1) (expires s) (running s) (timeperiod s) (fired s) (loaded s))
  | Expire =>
      match expires s with
      | Some e => if (e <=? jiffies s) && negb (running s)
                  then Some (mkSt (jiffies s) None true (timeperiod s) (fired s) (loaded s)) else Some s
      | None => Some s
      end
  | Func => if running s then if loaded s then timer_func s else None else Some s
  | On buf => if loaded s then '(_, s) ← on_store buf 0 s; Some s else Some s
  | Value buf => Some (if loaded s then snd (value_store buf 0 s) else s)
  | Exit => if loaded s then example_exit s else Some s
  end.
Fixpoint steps (s : st) (l : list act) : option st := match l with [] => Some s | a :: l => s ← step s a; steps s l end.
End Hz.
End Timer.

(** ** Work items *)
Import Work.
Lemma steps_app w e s l k : steps w e s (l ++ k) = (s ← steps w e s l; steps w e s k).
Proof. revert s. induction l as [|a l IH]; intros s; [done|]. cbn [app steps]. destruct (step w e s a); [apply IH|done]. Qed.
(** An invariant that every step keeps. *)
Lemma steps_inv w e (P : st -> Prop) :
  (forall s a s', P s -> step w e s a = Some s' -> P s') -> forall l s s', P s -> steps w e s l = Some s' -> P s'.
Proof.
  intros H. induction l as [|a l IH]; intros s s' Hs; cbn [steps]; [by intros [= ->]|].
  destruct (step w e s a) as [t|] eqn:E; [|done]. apply IH. by apply (H s a).
Qed.
Definition work_inv (s : st) : Prop := 0 <= runs s /\ runs s + Z.b2z (queued s) <= writes s.

(** property: work items coalesce: in any order of writes, runs and unloading
    the function has run at most once per write, and counting an item that
    is queued; any number of writes before the queue is processed make one
    run. *)
Theorem work_coalesces l s n k :
  steps work_write work_exit st0 l = Some s ->
  0 <= runs s /\ runs s + Z.b2z (queued s) <= writes s /\
  (loaded s = true -> steps work_write work_exit s (replicate (S k) (Write n) ++ [Run; Run]) =
     Some (mkSt false (writes s + Z.of_nat (S k)) (runs s + 1) true)).
Proof.
  intros H. assert (work_inv s) as [H1 H2].
  { revert H. apply steps_inv; [|done]. clear. intros s a s' [H1 H2] H. destruct s as [q w r ld], a as [n| |]; unfold work_inv in *; cbn in *.
    - injection H as <-. destruct ld; cbn; [|done]. destruct q; cbn in *; lia.
    - unfold run in H. cbn in H. destruct q, ld; try done; injection H as <-; cbn in *; lia.
    - injection H as <-. by destruct ld. }
  split; [done|]. split; [done|]. intros Hl. clear -Hl. rewrite steps_app.
  assert (steps work_write work_exit s (replicate (S k) (Write n)) = Some (mkSt true (writes s + Z.of_nat (S k)) (runs s) true)) as ->; [|done].
  destruct s as [q w r ld]. cbn in Hl. subst ld.
  assert (forall k w, steps work_write work_exit (mkSt true w r true) (replicate k (Write n)) = Some (mkSt true (w + Z.of_nat k) r true)) as Hk.
  { clear k w. induction k as [|k IH]; intros w; cbn [replicate steps]; [by rewrite Z.add_0_r|].
    change (step _ _ _ (Write n)) with (Some (mkSt true (w + 1) r true)). cbn [mbind option_bind]. rewrite IH. do 2 f_equal. lia. }
  cbn [replicate steps]. change (step _ _ _ (Write n)) with (Some (mkSt true (w + 1) r true)). cbn [mbind option_bind]. rewrite Hk.
  cbn [writes runs]. do 2 f_equal. lia.
Qed.
Lemma work_coalesces_witness :
  0 <= 1 /\ 1 + Z.b2z false <= 1 /\
  (true = true -> steps work_write work_exit (mkSt false 1 1 true) (replicate 3 (Write 5) ++ [Run; Run]) = Some (mkSt false (1 + 3) (1 + 1) true)).
Proof. by apply (work_coalesces [Write 5; Run] (mkSt false 1 1 true) 5 2). Defined.

(** property: unloading the work queue samples does not wait for the item: the
    kernel calls into the module that has gone exactly if an item is queued
    then.  The tasklet samples wait for theirs, and no order of actions
    leads to such a call. *)
Theorem unload_races l :
  (forall s, steps work_write work_exit st0 l = Some s -> loaded s = true ->
     (steps work_write work_exit st0 (l ++ [Exit; Run]) = None <-> queued s = true)) /\
  is_Some (steps tasklet_write tasklet_exit st0 l).
Proof.
  split.
  - intros s H Hl. rewrite steps_app, H. cbn [mbind option_bind steps step]. rewrite Hl. cbn. unfold run. cbn.
    by destruct (queued s).
  - assert (forall l s, (loaded s = false -> queued s = false) -> is_Some (steps tasklet_write tasklet_exit s l)) as H; [|by apply H].
    clear l. induction l as [|a l IH]; intros s Hs; [by eexists|]. cbn [steps].
    assert (exists t, step tasklet_write tasklet_exit s a = Some t /\ (loaded t = false -> queued t = false)) as (t & -> & Ht); [|by apply IH].
    destruct s as [q w r ld], a as [n| |]; cbn in *.
    + eexists. split; [done|]. by destruct ld.
    + unfold run. cbn. destruct q, ld; try (eexists; split; [done|]; done). by specialize (Hs eq_refl).
    + eexists. split; [done|]. destruct ld; [|done]. cbn. unfold tasklet_kill, run. cbn. by destruct q.
Qed.

(** ** The sleeping reader *)
(** property: the read of test_schedule returns only with a signal, however often
    it is woken; and once there is a signal, it returns within five steps,
    with the task running - wherever it was, so the signal is not lost. *)
Theorem sleep_until_signal l :
  let s := foldl Sleep.step Sleep.st0 l in
  (Sleep.Signal ∉ l -> Sleep.pc s <> Sleep.Returned) /\
  (Sleep.signal s = true ->
   let s' := foldl Sleep.step s (replicate 5 Sleep.Step) in Sleep.pc s' = Sleep.Returned /\ Sleep.asleep s' = false).
Proof.
  set (inv := fun s => (Sleep.pc s = Sleep.Running \/ Sleep.pc s = Sleep.Returned -> Sleep.signal s = true) /\
    (Sleep.pc s = Sleep.Returned -> Sleep.asleep s = false)).
  assert (forall l s, inv s -> inv (foldl Sleep.step s l) /\ (Sleep.signal s = false -> Sleep.Signal ∉ l -> Sleep.signal (foldl Sleep.step s l) = false)) as H.
  { clear l. induction l as [|a l IH]; intros s Hs; [done|]. cbn [foldl]. destruct Hs as [H1 H2].
    assert (inv (Sleep.step s a)) as Hi.
    { destruct s as [p z g], a; unfold inv in *; cbn in *.
      - destruct p, z, g; cbn in *; (split; [intros [|]|intros]); try done; by auto.
      - auto.
      - auto. }
    split; [by apply IH|]. intros Hg Hn. apply not_elem_of_cons in Hn as [Hn1 Hn2]. apply IH; [done| |done].
    destruct s as [p z g], a; cbn in *; [|done..]. subst g. by destruct p, z. }
  intros s. destruct (H l Sleep.st0) as [[H1 H2] H3]; [by split; [intros [|]|]|]. fold s in H1, H2, H3. split.
  - intros Hn E. specialize (H3 eq_refl Hn). rewrite H1 in H3 by auto. done.
  - intros Hg. destruct s as [p z g]. cbn in *. subst g. destruct p; try done; try (by destruct z). by rewrite H2.
Qed.

(** property: of the calls to the samples that loop with the lock, none returns:
    the first loops, every other one waits for it. *)
Theorem spin_never_returns n :
  let s := Nat.iter n Spin.foo_show Spin.st0 in
  Spin.returned s = 0 /\ Spin.loops s = Z.of_nat (n `min` 1) /\ Spin.waits s = Z.of_nat (n - 1).
Proof.
  destruct n as [|n]; [done|]. cbn zeta.
  assert (Nat.iter (S n) Spin.foo_show Spin.st0 = Spin.mkSt true 1 (Z.of_nat n) 0) as ->.
  { induction n as [|n IH]; [done|]. change (Nat.iter (S (S n)) Spin.foo_show Spin.st0) with (Spin.foo_show (Nat.iter (S n) Spin.foo_show Spin.st0)).
    rewrite IH. cbn. f_equal. lia. }
  cbn. repeat split; f_equal; lia.
Qed.

(** property: loading test_spinlock: the result is that of the second group only;
    when it fails the class and the devices stay, when it succeeds
    unloading removes everything. *)
Theorem spin_objects g1 g2 :
  let '(r, s) := Spin.example_init g1 g2 [] in
  r = g2 /\ (g2 <> 0 -> Spin.Class_ ∈ s /\ Spin.Dev 1 ∈ s /\ Spin.Dev 2 ∈ s) /\ Spin.example_exit s = [].
Proof.
  unfold Spin.example_init. destruct (Z.eqb_spec g1 0), (Z.eqb_spec g2 0); (split; [done|]); split; try done;
    intros _; repeat split; rewrite !elem_of_cons; auto.
Qed.

(** ** The timer *)
Import Timer.

(** property: the seconds written to the attribute: the timer first fires after
    that many seconds, but then every thousandth of that time; and when this
    is less than a tick - for less than 1000 ticks - the timer added by its
    function has expired when it is added. *)
Theorem timer_periods HZ buf count s :
  0 < HZ -> sscanf_u buf * HZ < 2 ^ 32 ->
  let s' := snd (value_store HZ buf count s) in
  expires s' = Some (jiffies s + sscanf_u buf * HZ) /\
  1000 * timeperiod s' <= sscanf_u buf * HZ < 1000 * (timeperiod s' + 1) /\
  (sscanf_u buf * HZ < 1000 -> forall t, timer_func (set_timer None s') = Some t -> expires t = Some (jiffies t)).
Proof.
  intros HHz Hlt s'. assert (0 <= sscanf_u buf) as H0 by (unfold sscanf_u; case_if; [apply u32_range|lia]).
  set (v := sscanf_u buf) in *. assert (0 <= v * HZ) by (apply Z.mul_nonneg_nonneg; lia).
  assert (timeperiod s' = v * HZ / 1000) as Hp by (unfold s'; cbn; fold v; by rewrite u32_small by lia).
  split; [unfold s'; cbn; unfold S2JIFFS; fold v; by rewrite u32_small by lia|].
  rewrite Hp. pose proof (Z.div_mod (v * HZ) 1000). pose proof (Z.mod_pos_bound (v * HZ) 1000). split; [lia|].
  clearbody s'. intros Hs t Ht. unfold timer_func in Ht. cbn [timer_pending set_timer expires] in Ht. injection Ht as <-.
  cbn [expires jiffies set_timer timeperiod]. rewrite Hp, (Z.div_small (v * HZ)) by lia. f_equal. lia.
Qed.
Lemma timer_periods_witness :
  let s' := snd (value_store 250 "3" 1 st0) in
  expires s' = Some (0 + sscanf_u "3" * 250) /\
  1000 * timeperiod s' <= sscanf_u "3" * 250 < 1000 * (timeperiod s' + 1) /\
  (sscanf_u "3" * 250 < 1000 -> forall t, timer_func (set_timer None s') = Some t -> expires t = Some (jiffies t)).
Proof. apply (timer_periods 250 "3" 1 st0); by vm_compute. Defined.

(** The function runs at once when the kernel starts it. *)
Definition atomic (l : list act) : list act :=
  concat ((fun a => match a with Expire => [Expire; Func] | Func => [] | a => [a] end) <$> l).
Lemma timer_steps_app HZ s l k : steps HZ s (l ++ k) = (s ← steps HZ s l; steps HZ s k).
Proof. revert s. induction l as [|a l IH]; intros s; [done|]. cbn [app steps]. destruct (step HZ s a); [apply IH|done]. Qed.
Definition quiet (s : st) : Prop := running s = false /\ (loaded s = false -> expires s = None).
Lemma quiet_step HZ s a :
  quiet s -> exists s', steps HZ s (match a with Expire => [Expire; Func] | Func => [] | a => [a] end) = Some s' /\ quiet s'.
Proof.
  intros [Hr Hl]. destruct s as [j e r p f ld]. cbn in Hr, Hl. subst r. destruct a; cbn [steps step].
  - eexists. split; [done|]. by split.
  - cbn [expires]. destruct e as [e|]; [|eexists; split; [done|by split]]. cbn [jiffies running]. destruct (e <=? j); cbn; [|eexists; split; [done|by split]].
    destruct ld; [|by specialize (Hl eq_refl)]. eexists. split; [done|]. by split.
  - eexists. split; [done|]. by split.
  - cbn [loaded]. destruct ld; [|eexists; split; [done|by split]]. unfold on_store. destruct (_ =? 1).
    + eexists. split; [done|]. cbn. destruct (_ =? 0); by split.
    + destruct (_ =? 0); [|eexists; split; [done|by split]]. unfold timer_pending, del_timer_sync. cbn. destruct e; cbn; eexists; split; try done; by split.
  - eexists. split; [done|]. cbn. destruct ld; split; try done; cbn; auto.
  - cbn [loaded]. destruct ld; [|eexists; split; [done|by split]]. unfold example_exit, timer_pending, del_timer_sync. cbn.
    destruct e; cbn; eexists; split; try done; by split.
Qed.

(** property: the timer and its users: as long as the function runs without
    interruption no order of actions adds the timer twice or calls into the
    module that has gone.  An attribute that starts the timer while the
    function runs, or an unload then, does: neither waits for it, because
    the timer is off the list while its function runs. *)
Theorem switched_timer_races HZ l :
  is_Some (steps HZ st0 (atomic l)) /\
  steps HZ st0 [Value "0"; Expire; Value "0"; Func] = None /\
  steps HZ st0 [Value "0"; Expire; Exit; Func] = None.
Proof.
  split; [|done].
  assert (forall l s, quiet s -> is_Some (steps HZ s (atomic l))) as H; [|by apply H].
  clear l. induction l as [|a l IH]; intros s Hs; [by eexists|]. unfold atomic. cbn [fmap list_fmap concat]. fold (atomic l).
  rewrite timer_steps_app. destruct (quiet_step HZ s a Hs) as (s' & -> & Hs'). by apply IH.
Qed.

(** property: a text that is not a number stops the timer, as 0 does; 1 starts
    it only if a period was set; what is shown is if it is on the list. *)
Theorem on_store_spec buf count s :
  running s = false ->
  exists s', on_store buf count s = Some (count, s') /\
    (starts_digit (skip_spaces buf) = false -> expires s' = None /\ on_show s' = "false" +:+ newline) /\
    (sscanf_u buf = 1 -> expires s' = if timeperiod s =? 0 then expires s else Some (jiffies s + timeperiod s)).
Proof.
  intros Hr. unfold on_store, sscanf_u. destruct (starts_digit _).
  - destruct (Z.eqb_spec (u32 (digits 0 (skip_spaces buf))) 1) as [E|E].
    + eexists. split; [done|]. split; [done|]. intros _. by destruct (_ =? 0).
    + destruct (_ =? 0); [|by eexists]. destruct (timer_pending s); [|by eexists].
      unfold del_timer_sync. rewrite Hr. by eexists.
  - cbn [Z.eqb]. unfold timer_pending, on_show, timer_pending. destruct (expires s) eqn:E.
    + unfold del_timer_sync. rewrite Hr. eexists. split; [done|]. by split.
    + eexists. split; [done|]. by rewrite E.
Qed.
Lemma on_store_spec_witness :
  exists s', on_store "off" 3 (mod_timer 9 st0) = Some (3, s') /\
    (starts_digit (skip_spaces "off") = false -> expires s' = None /\ on_show s' = "false" +:+ newline) /\
    (sscanf_u "off" = 1 -> expires s' = if 0 =? 0 then Some 9 else Some (0 + 0)).
Proof. by apply (on_store_spec "off" 3 (mod_timer 9 st0)). Defined.

(** property: when the group of attributes cannot be created the module is not
    loaded, but its class and its device stay. *)
Theorem timer_objects retval :
  let '(r, s) := Timer.example_init retval [] in
  r = retval /\ (retval <> 0 -> s = [Spin.Dev 1; Spin.Class_]) /\ exit_objs s = [].
Proof. unfold Timer.example_init. by destruct (Z.eqb_spec retval 0). Qed.
