(* ===== verification/Devices.v ===== *)
(** * Samples of device interfaces

    [Miscdev] is test_misc.c, [Gpio] test_gpio.c, [Platform]
    test_platform1.c; [Echo] what test_echo_reg.c has besides its buffer;
    [Mmap] the mapping of test_mmap.c and the program test_mmap_app.c;
    [Hpet] the read of test_blockread.c.  Answers of the kernel are
    arguments; [None] is an access outside a buffer or to an object that is
    not there. *)

From Stdlib Require Import ZArith Ascii.
From stdpp Require Import base list strings pretty.
From S2P Require Import Prelude KernelText Samples TapTools.

(** ** A misc device *)
Module Miscdev.
Definition chars (s : string) : list Z := (fun c => Z.of_nat (nat_of_ascii c)) <$> String.list_ascii_of_string s.
(** "this is buf!\n" with its terminator *)
Definition buf1 : list Z := chars ("this is buf!" +:+ newline) ++ [0].
(** User memory from [buf] on, of which the reader owns [size] bytes; the
    result, the memory, the offset, and [param]. *)
Definition my_read (mem : list Z) (size off param : Z) : Z * list Z * Z * Z :=
  if 0 <? off then (0, mem, off, param)
  else let len := Z.of_nat (length buf1) in (len, buf_write mem 0 buf1, off + len, 500).
Definition my_open : Z := 0.

(** Digits of [%x]; the prefix 0x is skipped. *)
Definition hex_val (c : ascii) : option Z :=
  let n := Z.of_nat (nat_of_ascii c) in
  if (48 <=? n) && (n <=? 57) then Some (n - 48)
  else if (97 <=? n) && (n <=? 102) then Some (n - 87)
  else if (65 <=? n) && (n <=? 70) then Some (n - 55) else None.
Fixpoint hex_digits (acc : Z) (s : string) : Z :=
  match s with
  | String c s' => match hex_val c with Some d => hex_digits (16 * acc + d) s' | None => acc end
  | EmptyString => acc
  end.
Definition skip_0x (s : string) : string :=
  match s with String "0" (String "x" s') | String "0" (String "X" s') => s' | s => s end.
Fixpoint hex_rest (s : string) : string :=
  match s with
  | String c s' => match hex_val c with Some _ => hex_rest s' | None => s end
  | EmptyString => s
  end.
(** The number and the rest of the text, if there is a number. *)
Definition scan_x (s : string) : option (Z * string) :=
  match skip_spaces s with
  | String c _ as s => match hex_val c with Some _ => Some (u32 (hex_digits 0 (skip_0x s)), hex_rest (skip_0x s)) | None => None end
  | EmptyString => None
  end.
(** The number stored, 0 as before if there is none. *)
Definition sscanf_x (s : string) : Z := default 0 (fst <$> scan_x s).
(** If the scan looks behind the end of the text. *)
Definition hits_end (s : string) : bool :=
  match scan_x s with
  | Some (_, rest) => bool_decide (rest = EmptyString)
  | None => bool_decide (skip_spaces s = EmptyString)
  end.
(** [strncmp(buf, p, strlen(p)) == 0]: the rest of the text. *)
Fixpoint after (p s : string) : option string :=
  match p, s with
  | EmptyString, s => Some s
  | String a p, String b s => if decide (a = b) then after p s else None
  | String _ _, EmptyString => None
  end.

(** What a command does: it prints; the chip's accesses are commented out. *)
Inductive command := ReadAll (lines : nat) | Read (addr : Z) | Write_ (addr : Z) | ErrAddr | Sync | Unknown.
(** The empty lines of the loop [i = 0 .. 0x320e]. *)
Definition readall_lines : nat := length (filter (fun i => (i mod 20 = 0)%nat) (seq 0 (Z.to_nat 0x320f))).
Definition addressed (mk : Z -> command) (addr : Z) : command := if 0x3fff <=? addr then ErrAddr else mk addr.
Definition parse (buf : string) : command :=
  match after "readall" buf with
  | Some _ => ReadAll (S readall_lines)
  | None =>
      match after "read " buf with
      | Some r => addressed Read (sscanf_x r)
      | None =>
          match after "write " buf with
          | Some r => addressed Write_ (sscanf_x r)
          | None => match after "sync" buf with Some _ => Sync | None => Unknown end
          end
      end
  end.
(** If the scan of the arguments looks behind the end of the text. *)
Definition overruns (buf : string) : bool :=
  match after "readall" buf, after "read " buf, after "write " buf with
  | None, Some r, _ => hits_end r
  | None, None, Some r => hits_end r || match scan_x r with Some (_, rest) => hits_end rest | None => false end
  | _, _, _ => false
  end.
(** [copied]: the user memory could be read; [src]: its [size] bytes, copied to
    [char buf[100]], which is cleared before.  A text that fills it is not
    terminated. *)
Definition misc_write (copied : bool) (src : list ascii) : option (Z * command) :=
  if (100 <? length src)%nat then None
  else if negb copied then Some (0, Unknown)
  else
    match c_str (src ++ replicate (100 - length src) NUL) with
    | Some buf => Some (Z.of_nat (length src), parse buf)
    | None =>
        let buf := String.string_of_list_ascii src in
        if overruns buf then None else Some (Z.of_nat (length src), parse buf)
    end.

(** The entry points: if the device is registered. *)
Definition my_miscdev_init (ret : Z) : Z * bool := (0, ret =? 0).
Definition my_miscdev_exit (registered : bool) : option bool := if registered then Some false else None.
End Miscdev.

(** ** Pins *)
Module Gpio.
(** A pin, or NULL of an optional one, or an error. *)
Inductive desc := Pin (n : Z) | Null | Err (e : Z).
Definition IS_ERR (d : desc) : bool := match d with Err _ => true | _ => false end.
Definition PTR_ERR_OR_ZERO (d : desc) : Z := match d with Err e => e | _ => 0 end.
Inductive event := DirIn (d : desc) | DirOut (d : desc) (v : Z) | RequestIrq (irq : Z).
(** The pins found; the result of setting a direction; the interrupt of a pin;
    the result of requesting it. *)
Record answers := mkA { status0 : desc; reset : desc; status2 : desc; a_out : Z; to_irq : desc -> Z; a_irq : Z -> Z }.
Definition dm90001_probe (a : answers) : Z * list event :=
  let ev1 := if PTR_ERR_OR_ZERO (status0 a) =? 0 then [DirIn (status0 a)] else [] in
  let '(ret, ev2) := if negb (IS_ERR (reset a)) then (a_out a, [DirOut (reset a) 1]) else (0, []) in
  if IS_ERR (status2 a) then (PTR_ERR_OR_ZERO (status2 a), ev1 ++ ev2)
  else
    let irq := to_irq a (status2 a) in
    (a_irq a irq, ev1 ++ ev2 ++ [RequestIrq irq]).
Definition dm9000_drv_remove : Z := 0.
Definition IRQ_HANDLED : Z := 1.
Definition act8945a_status_changed : Z := IRQ_HANDLED.
End Gpio.

(** ** A platform device with its driver *)
Module Platform.
Definition ENOBUFS : Z := 105.
(** What is registered, if the driver is bound, its data, the work item, live
    allocations, if the machine was restarted. *)
Record st := mkSt { device : bool; driver : bool; bound : bool; drvdata : option string; queued : bool; live : Z; restarted : bool }.
Definition st0 : st := mkSt false false false None false 0 false.
Definition dm90001_probe (alloc : bool) (s : st) : Z * st :=
  let s := mkSt (device s) (driver s) (bound s) (drvdata s) true (live s) (restarted s) in
  if negb alloc then (- ENOBUFS, s)
  else (0, mkSt (device s) (driver s) (bound s) (Some "just test set/get drv data!!") (queued s) (live s + 1) (restarted s)).
Definition dm9000_drv_remove (s : st) : Z * st :=
  let live := match drvdata s with Some _ => live s - 1 | None => live s end in
  (0, mkSt (device s) (driver s) (bound s) None (queued s) live (restarted s)).
(** The work item restarts the machine. *)
Definition work_func (s : st) : st := mkSt (device s) (driver s) (bound s) (drvdata s) (queued s) (live s) true.

(** The platform bus: a device and a driver of the same name are bound by
    [probe]; taking either away calls [remove]. *)
Definition set_bound v s := mkSt (device s) (driver s) v (drvdata s) (queued s) (live s) (restarted s).
Definition match_ (alloc : bool) (s : st) : st :=
  if device s && driver s && negb (bound s)
  then let '(r, s) := dm90001_probe alloc s in set_bound (r =? 0) s else s.
Definition unmatch (s : st) : st := if bound s then set_bound false (snd (dm9000_drv_remove s)) else s.
Definition test_platform_device_init (e : Z) (alloc : bool) (s : st) : Z * st :=
  (e, if e =? 0 then match_ alloc (mkSt true (driver s) (bound s) (drvdata s) (queued s) (live s) (restarted s)) else s).
(** [None]: the device was not registered. *)
Definition test_platform_device_exit (s : st) : option st :=
  if device s then let s := unmatch s in Some (mkSt false (driver s) (bound s) (drvdata s) (queued s) (live s) (restarted s)) else None.
(** The result of registering the device is dropped. *)
Definition test_platform_init (e1 e2 : Z) (alloc : bool) (s : st) : Z * st :=
  let '(_, s) := test_platform_device_init e1 alloc s in
  (e2, if e2 =? 0 then match_ alloc (mkSt (device s) true (bound s) (drvdata s) (queued s) (live s) (restarted s)) else s).
Definition test_platform_exit (s : st) : option st :=
  s ← test_platform_device_exit s;
  let s := unmatch s in
  Some (mkSt (device s) false (bound s) (drvdata s) (queued s) (live s) (restarted s)).
End Platform.

(** ** The register reader, continued *)
Module Echo.
Definition IOC (nr : Z) : Z := Z.lor (Z.shiftl 97 8) nr.
Definition TEST_IOC_WRITE : Z := IOC 10.
Definition TEST_IOC_READ : Z := IOC 11.
(** The byte at the user address, [None] if it cannot be accessed: the result
    and the byte afterwards. *)
Definition reg_ioctl (cmd : Z) (user : option Z) : Z * option Z :=
  if cmd =? TEST_IOC_WRITE then (match user with Some _ => 0 | None => - EFAULT end, user)
  else if cmd =? TEST_IOC_READ then match user with Some _ => (0, Some 1) | None => (- EFAULT, None) end
  else (0, user).
(** The data of the file and the live allocations. *)
Definition open_ (alloc : bool) (live : Z) : option EchoReg.testdata * Z :=
  let '(_, p) := EchoReg.reg_open alloc in (p, if alloc then live + 1 else live).
Definition release (pri : option EchoReg.testdata) (live : Z) : Z := match pri with Some _ => live - 1 | None => live end.
Definition foo_show := Foo.foo_show.
Definition foo_store := Foo.foo_store.
End Echo.

(** ** Mapping the buffer *)
Module Mmap.
Definition PAGE : Z := 4096.
Definition SIZE : Z := 32 * 1024 * 1024.
(** The pages of an area, by the offset in physical memory that each address
    shows: [remap_pfn_range] from the page of the buffer on. *)
Definition mmap (phys vm_start vm_end : Z) (remap : Z) : Z * option (Z -> Z) :=
  if remap <? 0 then (-1, None)
  else (0, Some (fun va => Z.shiftl (Z.shiftr phys 12) 12 + (va - vm_start))).
(** Addresses of the area. *)
Definition in_area (vm_start vm_end va : Z) : Prop := vm_start <= va < vm_end.
(** [buffer[0..3]] at load. *)
Definition fill (mem : list Z) : list Z := buf_write mem 0 [0; 1; 2; 3].
Definition reg_write (count : Z) : Z := count.
Definition reg_read : Z := 0.
Definition reg_open : Z := 0.

(** The program: on the memory it has mapped; the numbers it prints.  It then
    sleeps for ever. *)
Fixpoint app_loop (n i : nat) (mem : list Z) : list Z * list Z :=
  match n with
  | O => ([], mem)
  | S n => let p := mem !!! i in let '(l, mem) := app_loop n (S i) (<[i := 0x88]> mem) in (p :: l, mem)
  end.
Definition app_main (fd : Z) (map_failed : bool) (mem : list Z) : option Z * list Z * list Z :=
  if fd <? 0 then (Some (-1), [], mem)
  else if map_failed then (Some (-1), [], mem)
  else let '(l, mem) := app_loop 10 0 mem in (None, l, mem).
End Mmap.

(** ** The read that takes the interrupts *)
Module Hpet.
Definition EAGAIN : Z := 11.
Inductive rpc := Entry | Loop | Take | Test (data : Z) | Sched | Put (data : Z) | Out (r : Z) | Done (r : Z).
#[global] Instance rpc_eq : EqDecision rpc.
Proof. solve_decision. Defined.
(** The reader and the device: the task's state and queue, interrupts not yet
    taken, all interrupts so far, those given to the user and those lost. *)
Record st := mkSt {
  pc : rpc; asleep : bool; waiting : bool; signal : bool;
  irqdata : Z; total : Z; given : Z; lost : Z }.
(** The file: if the interrupt frequency is set, the size of the read,
    [O_NONBLOCK], and if the user's memory can be written. *)
Record file := mkF { ireqfreq : bool; count : Z; nonblock : bool; writable : bool }.
Definition SIZEOF_LONG : Z := 8.
Definition at_ (p : rpc) (s : st) : st := mkSt p (asleep s) (waiting s) (signal s) (irqdata s) (total s) (given s) (lost s).
Definition st0 : st := mkSt Entry false false false 0 0 0 0.
(** One step of [hpet_read]; [None] while it sleeps. *)
Definition hpet_read (f : file) (s : st) : option st :=
  match pc s with
  | Entry =>
      Some (if negb (ireqfreq f) then at_ (Done (- EIO)) s
            else if count f <? SIZEOF_LONG then at_ (Done (- EINVAL)) s
            else mkSt Loop (asleep s) true (signal s) (irqdata s) (total s) (given s) (lost s))
  | Loop => Some (mkSt Take true (waiting s) (signal s) (irqdata s) (total s) (given s) (lost s))
  | Take => Some (mkSt (Test (irqdata s)) (asleep s) (waiting s) (signal s) 0 (total s) (given s) (lost s))
  | Test data =>
      Some (at_ (if negb (data =? 0) then Put data
                 else if nonblock f then Out (- EAGAIN)
                 else if signal s then Out (- ERESTARTSYS) else Sched) s)
  | Sched => if asleep s && negb (signal s) then None
             else Some (mkSt Loop false (waiting s) (signal s) (irqdata s) (total s) (given s) (lost s))
  | Put data =>
      Some (if writable f then mkSt (Out SIZEOF_LONG) (asleep s) (waiting s) (signal s) (irqdata s) (total s) (given s + data) (lost s)
            else mkSt (Out (- EFAULT)) (asleep s) (waiting s) (signal s) (irqdata s) (total s) (given s) (lost s + data))
  | Out r => Some (mkSt (Done r) false false (signal s) (irqdata s) (total s) (given s) (lost s))
  | Done _ => Some s
  end.
(** An interrupt is counted and wakes who waits; a signal wakes the task. *)
Inductive act := Step | Irq | Signal.
Definition step (f : file) (s : st) (a : act) : st :=
  match a with
  | Step => default s (hpet_read f s)
  | Irq => mkSt (pc s) (if waiting s then false else asleep s) (waiting s) (signal s) (irqdata s + 1) (total s + 1) (given s) (lost s)
  | Signal => mkSt (pc s) false (waiting s) true (irqdata s) (total s) (given s) (lost s)
  end.
(** The other operations are those of the wait queue sample. *)
Definition reg_write := WaitQueue.reg_write.
Definition reg_read := WaitQueue.reg_read.
Definition reg_open : Z := 0.
End Hpet.

(** ** The misc device *)
Import Miscdev.
Definition all_hex (l : list ascii) : Prop := Forall (fun c => is_Some (hex_val c)) l.
Definition str (l : list ascii) : string := String.string_of_list_ascii l.
Lemma hex_digits_app l k acc : all_hex l -> hex_digits acc (str (l ++ k)) = hex_digits (hex_digits acc (str l)) (str k).
Proof.
  intros H. revert acc. induction H as [|c l [d Hd] Hl IH]; intros acc; [done|]. cbn. by rewrite Hd.
Qed.
Lemma hex_digit_val d : 0 <= d < 16 -> hex_val (TapSocket.hex_digit d) = Some d.
Proof.
  intros Hd. assert (match hex_val (TapSocket.hex_digit d) with Some v => v =? d | None => false end = true) as H.
  { apply (forall_below (fun d => match hex_val (TapSocket.hex_digit d) with Some v => v =? d | None => false end) 16); [by vm_compute|lia]. }
  destruct (hex_val _); [|done]. f_equal. lia.
Qed.
Lemma nibble_range x : 0 <= Z.land x 15 < 16.
Proof. change 15 with (Z.ones 4). rewrite Z.land_ones by lia. apply Z.mod_pos_bound. lia. Qed.
Lemma nibbles_hex n x : all_hex (TapSocket.nibbles n x).
Proof.
  revert x. induction n as [|n IH]; intros x; [constructor|]. cbn [TapSocket.nibbles]. apply Forall_app. split; [apply IH|].
  constructor; [|constructor]. rewrite hex_digit_val by apply nibble_range. by eexists.
Qed.
Lemma hex_digits_nibbles n x acc : hex_digits acc (str (TapSocket.nibbles n x)) = acc * 16 ^ Z.of_nat n + x mod 16 ^ Z.of_nat n.
Proof.
  revert x acc. induction n as [|n IH]; intros x acc; [cbn; rewrite Z.mod_1_r; lia|].
  cbn [TapSocket.nibbles]. rewrite hex_digits_app by apply nibbles_hex. rewrite IH. cbn. rewrite hex_digit_val by apply nibble_range.
  rewrite Nat2Z.inj_succ, Z.pow_succ_r, Z.rem_mul_r by lia. change 15 with (Z.ones 4). rewrite Z.land_ones, Z.shiftr_div_pow2 by lia.
  change (2 ^ 4) with 16. lia.
Qed.
Lemma skip_0x_hex l : all_hex l -> skip_0x (str l) = str l.
Proof.
  intros H. destruct l as [|a [|b l]]; [done| |].
  - cbn. by repeat (case_match; try done).
  - inversion_clear H as [|? ? _ H']. inversion_clear H' as [|? ? [d Hd] _].
    assert (b <> "x"%char /\ b <> "X"%char) as [? ?] by (split; intros ->; discriminate Hd).
    cbn. destruct a as [[][][][][][][][]]; try done. destruct b as [[][][][][][][][]]; done.
Qed.
(** The text of a number in hexadecimal, eight digits. *)
Definition hex_text (x : Z) : string := str (TapSocket.nibbles 8 x).
Lemma scan_hex x : 0 <= x < 2 ^ 32 -> sscanf_x (hex_text x) = x.
Proof.
  intros Hx. unfold sscanf_x, scan_x, hex_text. pose proof (nibbles_hex 8 x) as H. pose proof (hex_digits_nibbles 8 x 0) as E.
  destruct (TapSocket.nibbles 8 x) as [|c l] eqn:El; [apply (f_equal length) in El; discriminate El|].
  assert (skip_spaces (str (c :: l)) = str (c :: l)) as ->.
  { inversion_clear H as [|? ? [d Hd] _]. cbn. assert (isspace c = false) as ->; [|done].
    destruct c as [[][][][][][][][]]; (discriminate Hd || reflexivity). }
  pose proof (skip_0x_hex _ H) as Hx0. inversion_clear H as [|? ? [d Hd] _].
  unfold str at 1. cbn [String.string_of_list_ascii]. rewrite Hd. change (String c (String.string_of_list_ascii l)) with (str (c :: l)).
  rewrite Hx0, E. change (16 ^ Z.of_nat 8) with (2 ^ 32). cbn [fmap option_fmap option_map default fst].
  rewrite Z.mod_small by lia. apply u32_small. lia.
Qed.

(** property: the commands of the misc device: addresses written in hexadecimal
    are read back, and refused from 0x3fff on. *)
Theorem parse_addresses addr :
  0 <= addr < 2 ^ 32 ->
  parse ("read " +:+ hex_text addr) = (if 0x3fff <=? addr then ErrAddr else Read addr) /\
  parse ("write " +:+ hex_text addr) = (if 0x3fff <=? addr then ErrAddr else Write_ addr).
Proof.
  intros H. split.
  - change (parse _) with (addressed Read (sscanf_x (hex_text addr))). by rewrite scan_hex.
  - change (parse _) with (addressed Write_ (sscanf_x (hex_text addr))). by rewrite scan_hex.
Qed.
Lemma parse_addresses_witness :
  parse ("read " +:+ hex_text 0x3ffe) = (if 0x3fff <=? 0x3ffe then ErrAddr else Read 0x3ffe) /\
  parse ("write " +:+ hex_text 0x3ffe) = (if 0x3fff <=? 0x3ffe then ErrAddr else Write_ 0x3ffe).
Proof. apply (parse_addresses 0x3ffe). lia. Defined.

(** property: a write shorter than the buffer is taken whole and answered with
    its length, a longer one overruns the buffer, and one that fills it is
    not terminated, so that a number at its end is read past it. *)
Theorem misc_write_bounds src :
  ((length src < 100)%nat -> exists c, misc_write true src = Some (Z.of_nat (length src), c)) /\
  ((100 < length src)%nat -> forall copied, misc_write copied src = None) /\
  misc_write true (String.list_ascii_of_string "read " ++ replicate 95 "0"%char) = None.
Proof.
  split; [|split; [|by vm_compute]].
  - intros H. unfold misc_write. rewrite (proj2 (Nat.ltb_ge _ _)) by lia. cbn [negb].
    destruct (c_str _) as [t|] eqn:E; [by eexists|]. exfalso.
    assert (exists l k, src ++ replicate (100 - length src) NUL = l ++ NUL :: k /\ NUL ∉ l) as (l & k & El & Hl).
    { apply list_elem_of_split_l. apply elem_of_app. right. apply elem_of_replicate. split; [done|lia]. }
    rewrite El, c_str_app in E by done. done.
  - intros H copied. unfold misc_write. by rewrite (proj2 (Nat.ltb_lt _ _)) by lia.
Qed.

(** property: a read ignores how much was asked for: it stores 14 bytes in any
    case, in a shorter buffer over what follows, and says so by its result;
    the next one ends. *)
Theorem misc_read_spec mem size param :
  (14 <= length mem)%nat ->
  let '(r, mem', off, param') := my_read mem size 0 param in
  r = 14 /\ mem' = buf1 ++ drop 14 mem /\ param' = 500 /\ my_read mem' size off param' = (0, mem', off, param').
Proof. intros H. cbn [my_read Z.ltb Z.compare]. repeat split. Qed.
Lemma misc_read_spec_witness :
  let '(r, mem', off, param') := my_read (replicate 20 9) 4 0 0 in
  r = 14 /\ mem' = buf1 ++ drop 14 (replicate 20 9) /\ param' = 500 /\ my_read mem' 4 off param' = (0, mem', off, param').
Proof. apply (misc_read_spec (replicate 20 9) 4 0). rewrite length_replicate. lia. Defined.

(** property: the module loads also when the registration fails, and unloading
    it then takes away a device that was never registered. *)
Theorem misc_lifecycle ret :
  let '(r, reg) := my_miscdev_init ret in
  r = 0 /\ (ret = 0 -> my_miscdev_exit reg = Some false) /\ (ret <> 0 -> my_miscdev_exit reg = None).
Proof. unfold my_miscdev_init. by destruct (Z.eqb_spec ret 0). Qed.

(** ** Pins *)
(** property: the probe of the pins succeeds exactly if the second status pin
    could be looked up without error and its interrupt requested; errors of
    the first and of the reset pin are never seen; and where there is no
    second pin - it is optional - the interrupt asked for is the error that
    the lookup of its number gave. *)
Theorem gpio_probe_result a :
  (forall e, Gpio.status2 a = Gpio.Err e -> e < 0) ->
  (fst (Gpio.dm90001_probe a) = 0 <->
     Gpio.IS_ERR (Gpio.status2 a) = false /\ Gpio.a_irq a (Gpio.to_irq a (Gpio.status2 a)) = 0) /\
  (forall s r o, fst (Gpio.dm90001_probe (Gpio.mkA s r (Gpio.status2 a) o (Gpio.to_irq a) (Gpio.a_irq a))) = fst (Gpio.dm90001_probe a)) /\
  (Gpio.status2 a = Gpio.Null -> Gpio.RequestIrq (Gpio.to_irq a Gpio.Null) ∈ snd (Gpio.dm90001_probe a)).
Proof.
  intros Hneg. unfold Gpio.dm90001_probe. split; [|split].
  - destruct (negb _), (Gpio.status2 a) as [n| |e] eqn:E; cbn; try (by split; [by split|intros [_ ?]]);
      specialize (Hneg e eq_refl); split; [lia|by intros [? _]|lia|by intros [? _]].
  - intros s r o. destruct (negb (Gpio.IS_ERR (Gpio.reset a))); cbn; destruct (negb (Gpio.IS_ERR r)); by destruct (Gpio.status2 a).
  - intros E. rewrite E. cbn. destruct (negb _); cbn; rewrite !elem_of_app, ?elem_of_cons; auto.
    all: right; rewrite ?elem_of_app, list_elem_of_singleton; auto.
Qed.
(** A board without the second pin: its interrupt is refused. *)
Definition one_pin : Gpio.answers :=
  Gpio.mkA (Gpio.Pin 15) (Gpio.Pin 1) Gpio.Null 0 (fun d => match d with Gpio.Pin n => n | _ => - EINVAL end) (fun irq => if irq <? 0 then - EINVAL else 0).
Lemma gpio_probe_result_witness :
  (fst (Gpio.dm90001_probe one_pin) = 0 <-> false = false /\ - EINVAL = 0) /\
  (forall s r o, fst (Gpio.dm90001_probe (Gpio.mkA s r Gpio.Null o (Gpio.to_irq one_pin) (Gpio.a_irq one_pin))) = fst (Gpio.dm90001_probe one_pin)) /\
  (Gpio.Null = Gpio.Null -> Gpio.RequestIrq (- EINVAL) ∈ snd (Gpio.dm90001_probe one_pin)).
Proof. apply (gpio_probe_result one_pin). by intros e. Defined.

(** ** The platform device *)
Import Platform.
(** property: loading and unloading the platform sample: with everything
    granted the driver is bound and owns one buffer, and unloading gives all
    back - but the work item it queued, which restarts the machine, stays
    queued; a device whose registration failed is unregistered all the same;
    and when only the driver's fails, the device stays behind. *)
Theorem platform_life e1 e2 alloc :
  let '(r, s) := test_platform_init e1 e2 alloc st0 in
  r = e2 /\ queued s = (e1 =? 0) && (e2 =? 0) /\ restarted (Platform.work_func s) = true /\
  (e1 = 0 -> e2 = 0 -> alloc = true -> bound s = true /\ live s = 1 /\
     test_platform_exit s = Some (mkSt false false false None true 0 false)) /\
  (e1 = 0 -> e2 = 0 -> alloc = false -> bound s = false /\ live s = 0) /\
  (e1 <> 0 -> e2 = 0 -> test_platform_exit s = None) /\
  (e1 = 0 -> e2 <> 0 -> device s = true).
Proof.
  unfold test_platform_init, test_platform_device_init, match_.
  destruct (Z.eqb_spec e1 0), (Z.eqb_spec e2 0), alloc; repeat split; (done || lia).
Qed.

(** ** The register reader *)
(** property: the ioctl of the register reader: its two commands pass the result
    of the access on, the second stores 1; any other command reports
    success.  Opening and releasing leave no allocation. *)
Theorem echo_ioctl cmd user alloc live :
  (cmd <> Echo.TEST_IOC_WRITE -> cmd <> Echo.TEST_IOC_READ -> Echo.reg_ioctl cmd user = (0, user)) /\
  Echo.reg_ioctl Echo.TEST_IOC_READ user = (if user is Some _ then (0, Some 1) else (- EFAULT, None)) /\
  (Echo.reg_ioctl Echo.TEST_IOC_WRITE user).1 = (if user is Some _ then 0 else - EFAULT) /\
  (let '(p, n) := Echo.open_ alloc live in Echo.release p n = live).
Proof.
  split; [|split; [|split]].
  - intros H1 H2. unfold Echo.reg_ioctl. by rewrite (proj2 (Z.eqb_neq _ _) H1), (proj2 (Z.eqb_neq _ _) H2).
  - by destruct user.
  - by destruct user.
  - unfold Echo.open_, EchoReg.reg_open. destruct alloc; cbn; lia.
Qed.

(** ** The mapping *)
Lemma app_loop_run n : forall i mem, (i + n <= length mem)%nat ->
  Mmap.app_loop n i mem = (take n (drop i mem), take i mem ++ replicate n 0x88 ++ drop (i + n) mem).
Proof.
  induction n as [|n IH]; intros i mem H; cbn [Mmap.app_loop].
  - cbn. by rewrite Nat.add_0_r, take_drop.
  - destruct (lookup_lt_is_Some_2 mem i) as [x Hx]; [lia|].
    rewrite (list_lookup_total_correct mem i x Hx). rewrite IH by (rewrite length_insert; lia).
    rewrite drop_insert_lt by lia. rewrite (drop_S mem x i Hx). cbn [take]. f_equal.
    rewrite (take_S_r _ i 0x88) by (apply list_lookup_insert_eq; lia).
    rewrite take_insert_ge by lia. rewrite drop_insert_lt by lia. rewrite <- app_assoc. cbn [app replicate].
    by replace (S i + n)%nat with (i + S n)%nat by lia.
Qed.

(** property: the mapping shows the buffer byte by byte from its start, whatever
    offset was asked for; it is as long as the area, so an area longer than
    the buffer shows the memory behind it. *)
Theorem mmap_window phys vm_start vm_end remap :
  0 <= phys -> phys mod Mmap.PAGE = 0 -> 0 <= remap ->
  exists f, Mmap.mmap phys vm_start vm_end remap = (0, Some f) /\
    (forall va, Mmap.in_area vm_start vm_end va -> (phys <= f va < phys + Mmap.SIZE <-> va - vm_start < Mmap.SIZE)) /\
    (vm_start + Mmap.SIZE < vm_end -> exists va, Mmap.in_area vm_start vm_end va /\ f va = phys + Mmap.SIZE).
Proof.
  intros Hp Hm Hr. unfold Mmap.mmap. rewrite (proj2 (Z.ltb_ge _ _)) by done. eexists. split; [done|].
  assert (Z.shiftl (Z.shiftr phys 12) 12 = phys) as ->.
  { rewrite Z.shiftl_mul_pow2, Z.shiftr_div_pow2 by lia. unfold Mmap.PAGE in Hm. change (2 ^ 12) with 4096.
    pose proof (Z.div_mod phys 4096). lia. }
  unfold Mmap.in_area. split; [lia|]. intros H. exists (vm_start + Mmap.SIZE). unfold Mmap.SIZE in *. lia.
Qed.
Lemma mmap_window_witness :
  exists f, Mmap.mmap 0x10000000 0x7000 0x8000 0 = (0, Some f) /\
    (forall va, Mmap.in_area 0x7000 0x8000 va -> (0x10000000 <= f va < 0x10000000 + Mmap.SIZE <-> va - 0x7000 < Mmap.SIZE)) /\
    (0x7000 + Mmap.SIZE < 0x8000 -> exists va, Mmap.in_area 0x7000 0x8000 va /\ f va = 0x10000000 + Mmap.SIZE).
Proof. by apply (mmap_window 0x10000000 0x7000 0x8000 0). Defined.

(** property: the program on the mapping: the first run prints what the driver
    stored in the first four bytes and whatever the memory held in the next
    six; it leaves ten bytes 0x88, which the next run prints. *)
Theorem mmap_app_runs mem :
  (10 <= length mem)%nat ->
  Mmap.app_main 3 false (Mmap.fill mem) =
    (None, [0; 1; 2; 3] ++ take 6 (drop 4 mem), replicate 10 0x88 ++ drop 10 mem) /\
  Mmap.app_main 3 false (replicate 10 0x88 ++ drop 10 mem) =
    (None, replicate 10 0x88, replicate 10 0x88 ++ drop 10 mem).
Proof.
  intros H. unfold Mmap.app_main. cbn [Z.ltb Z.compare]. split.
  - rewrite app_loop_run.
    + do 10 (destruct mem as [|? mem]; [cbn in H; lia|]). reflexivity.
    + unfold Mmap.fill. rewrite length_buf_write; cbn; lia.
  - rewrite app_loop_run by (rewrite length_app, length_replicate; lia). reflexivity.
Qed.
Lemma mmap_app_runs_witness :
  Mmap.app_main 3 false (Mmap.fill (replicate 12 7)) = (None, [0; 1; 2; 3] ++ take 6 (drop 4 (replicate 12 7)), replicate 10 0x88 ++ drop 10 (replicate 12 7)) /\
  Mmap.app_main 3 false (replicate 10 0x88 ++ drop 10 (replicate 12 7)) = (None, replicate 10 0x88, replicate 10 0x88 ++ drop 10 (replicate 12 7)).
Proof. apply mmap_app_runs. rewrite length_replicate. lia. Defined.

(** ** The read of the interrupts *)
Import Hpet.
(** The interrupts in the reader's hands. *)
Definition in_hand (s : Hpet.st) : Z := match pc s with Test d | Put d => d | _ => 0 end.
(** On the queue between the first check and the end, and counted. *)
Definition hpet_inv (f : file) (s : Hpet.st) : Prop :=
  0 <= irqdata s /\ 0 <= in_hand s /\ irqdata s + in_hand s + given s + lost s = total s /\
  (writable f = true -> lost s = 0) /\
  (pc s = Loop \/ pc s = Take \/ (exists d, pc s = Test d) \/ pc s = Sched -> waiting s = true) /\
  (forall d, pc s = Test d -> d = 0 -> irqdata s = 0 \/ asleep s = false) /\
  (pc s = Sched -> irqdata s = 0 \/ asleep s = false) /\
  (pc s = Put 0 -> False) /\
  (pc s <> Entry -> (exists r, pc s = Done r) \/ (ireqfreq f = true /\ SIZEOF_LONG <= count f)).
Lemma hpet_step f s a : hpet_inv f s -> hpet_inv f (Hpet.step f s a).
Proof.
  intros (H1 & H2 & H3 & H4 & H5 & H6 & H7 & H8 & H9). destruct s as [p z w g i t gv l]. unfold hpet_inv, in_hand in *. cbn in *.
  destruct a; cbn.
  - destruct p as [| | |d| |d|r|r]; cbn in *.
    + destruct (ireqfreq f) eqn:Ei; cbn; [|repeat split; try done; naive_solver lia].
      destruct (Z.ltb_spec (count f) SIZEOF_LONG); cbn; repeat split; try done; naive_solver lia.
    + repeat split; try done; try lia; naive_solver.
    + repeat split; try done; try lia; naive_solver.
    + destruct (Z.eqb_spec d 0); cbn; [subst d; destruct (nonblock f); cbn; [|destruct g; cbn]|]; repeat split; try done; try lia; naive_solver.
    + destruct (z && negb g) eqn:E; cbn; repeat split; try done; try lia; naive_solver.
    + destruct (writable f) eqn:Ew; cbn; repeat split; try done; try lia; naive_solver lia.
    + repeat split; try done; try lia; naive_solver.
    + repeat split; try done; try lia; naive_solver.
  - destruct p as [| | |d| |d|r|r]; cbn in *; repeat split; try done; try lia; try naive_solver;
      (destruct w; [naive_solver|]); exfalso; naive_solver.
  - destruct p as [| | |d| |d|r|r]; cbn in *; repeat split; try done; try lia; naive_solver.
Qed.
Lemma hpet_reachable f l : hpet_inv f (foldl (Hpet.step f) Hpet.st0 l).
Proof.
  assert (forall s, hpet_inv f s -> hpet_inv f (foldl (Hpet.step f) s l)) as H.
  { induction l as [|a l IH]; intros s Hs; [done|]. cbn [foldl]. by apply IH, hpet_step. }
  apply H. unfold hpet_inv, in_hand. cbn. repeat split; try done; try lia; naive_solver.
Qed.

(** property: the read of the interrupts in any order of steps, interrupts and
    signals: every interrupt is given to the user once, or still counted by
    the device, or in the reader's hands, or lost - the last only where the
    user's memory cannot be written; a reader sleeps only while none is
    there; and when one comes the sleeping reader returns it within six
    steps. *)
Theorem hpet_read_spec f l :
  let s := foldl (Hpet.step f) Hpet.st0 l in
  irqdata s + in_hand s + given s + lost s = total s /\
  (writable f = true -> lost s = 0) /\
  (hpet_read f s = None -> irqdata s = 0) /\
  (pc s = Sched -> 0 < irqdata s -> writable f = true ->
   let s' := foldl (Hpet.step f) s (replicate 6 Hpet.Step) in pc s' = Done SIZEOF_LONG /\ given s' = total s' /\ waiting s' = false).
Proof.
  intros s. destruct (hpet_reachable f l) as (H1 & H2 & H3 & H4 & H5 & H6 & H7 & H8 & H9). fold s in H1, H2, H3, H4, H5, H6, H7, H8, H9.
  split; [done|]. split; [done|]. destruct s as [p z w g i t gv ls]; cbn in *. split.
  - unfold hpet_read. cbn. destruct p; try done. destruct z, g; try done. cbn. intros _. destruct (H7 eq_refl); done.
  - intros -> Hi Hw. destruct (H7 eq_refl) as [|Hz]; [lia|]. subst z. rewrite (H4 Hw) in H3. cbn in H3. cbn.
    rewrite (proj2 (Z.eqb_neq i 0)) by lia. cbn. rewrite Hw. cbn. repeat split. lia.
Qed.

(** property: what ends the read at once: no frequency, a buffer too small for
    the number; without waiting, nothing there. *)
Theorem hpet_read_errors f :
  (ireqfreq f = false -> pc (Hpet.step f Hpet.st0 Hpet.Step) = Done (- EIO)) /\
  (ireqfreq f = true -> count f < SIZEOF_LONG -> pc (Hpet.step f Hpet.st0 Hpet.Step) = Done (- EINVAL)) /\
  (ireqfreq f = true -> SIZEOF_LONG <= count f -> nonblock f = true ->
   pc (foldl (Hpet.step f) Hpet.st0 (replicate 5 Hpet.Step)) = Done (- EAGAIN)).
Proof.
  destruct f as [i c n w]. cbn. repeat split; intros; subst; cbn; [done| |].
  - by rewrite (proj2 (Z.ltb_lt _ _)) by done.
  - by rewrite (proj2 (Z.ltb_ge _ _)) by done.
Qed.
