(* ===== verification/Programs.v ===== *)
(** * Test programs and small handlers

    [InputRead], [InputWrite] (test_input_app.c, test_input_app_write.c) read
    and write input events, [TickRead] (test_list_head/test_read.c) reads the
    ticks, [Aio] (test_aio/test_app.c) writes two files asynchronously,
    [FbInfo] prints the screen of the framebuffer (test_fb_app.c), [Hello] is
    the main program of the U-Boot application.  [Key], [Button], [Fw],
    [Sysfs] and [ProcInit] are the interrupt handlers, callbacks and entry
    points of samples whose other parts are in [Samples].

    Results of system calls are arguments; output is a list of what is
    printed; [None] is an access outside a buffer. *)

From Stdlib Require Import ZArith Ascii.
From stdpp Require Import base list strings pretty.
From S2P Require Import Prelude KernelText Samples Deferred Netlink UserTools UbootApp.

(** ** Input events *)
Module InputRead.
(** [version >> 16], [(version >> 8) & 0xff], [version & 0xff] *)
Definition version_text (v : Z) : Z * Z * Z := (Z.shiftr v 16, Z.land (Z.shiftr v 8) 0xff, Z.land v 0xff).
(** The loop over what [read] returned: its result, and the event if it stored
    one.  The events printed, and the exit code once there is one. *)
Fixpoint loop (ev : Sendevent.input_event) (reads : list (Z * option Sendevent.input_event)) : list Sendevent.input_event * option Z :=
  match reads with
  | [] => ([], None)
  | (ret, e) :: reads =>
      if ret <? 0 then ([], Some 1)
      else let ev := default ev e in let '(l, r) := loop ev reads in (ev :: l, r)
  end.
Definition main (fd version : Z) (ev : Sendevent.input_event) (reads : list (Z * option Sendevent.input_event)) :
    option (Z * Z * Z) * list Sendevent.input_event * option Z :=
  if fd <? 0 then (None, [], Some 1) else let '(l, r) := loop ev reads in (Some (version_text version), l, r).
End InputRead.

Module InputWrite.
Definition STDERR : Z := 2.
Definition EV_SYN : Z := 0.
Definition SYN_CONFIG : Z := 1.
(** [event_sync]: the counter [i] before and after, and the event written. *)
Definition event_sync (fd i : Z) : option Sendevent.input_event * Z :=
  if fd <=? STDERR then (None, i) else (Some (Sendevent.mkEvent EV_SYN SYN_CONFIG i), s32 (i + 1)).
(** [send_event]: prints its arguments, then writes the event. *)
Definition send_event (fd type code value : Z) : option Sendevent.input_event :=
  if fd <=? STDERR then None else Some (Sendevent.mkEvent type code value).
(** The first [n] passes of the loop of [main]. *)
Fixpoint loop (n : nat) (fd i : Z) : list Sendevent.input_event :=
  match n with O => [] | S n => let '(e, i) := event_sync fd i in option_list e ++ loop n fd i end.
Definition main (fd : Z) (n : nat) : option Z * list Sendevent.input_event :=
  if fd <? 0 then (Some 1, []) else (None, loop n fd 0).
End InputWrite.

(** ** Reading ticks *)
Module TickRead.
Definition SIZE : nat := 100.
(** [str] is cleared before each read; the bytes [read] stored, [None] an
    error.  The texts printed with their lengths; the exit code. *)
Fixpoint loop (count : Z) (reads : list (option (list Z))) : option (list (list Z * Z) * option Z) :=
  match reads with
  | [] => Some ([], None)
  | None :: _ => Some ([], Some 1)
  | Some bs :: reads =>
      let str := buf_write (replicate SIZE 0) 0 bs in
      let ret := Z.of_nat (length bs) in
      if ret =? 0 then loop count reads
      else
        line ← (if Z.rem count 1000 =? 0 then t ← cstr str; Some [(t, ret)] else Some []);
        '(l, r) ← loop (s32 (count + 1)) reads;
        Some (line ++ l, r)
  end.
Definition main (fd : Z) (reads : list (option (list Z))) : option (list (list Z * Z) * option Z) :=
  if fd <? 0 then Some ([], Some 1) else loop 0 reads.
End TickRead.

(** ** Asynchronous writes *)
Module Aio.
Definition content : list Z := (fun c => Z.of_nat (nat_of_ascii c)) <$> String.list_ascii_of_string "hello world!".
(** A request: file, bytes, offset. *)
Record iocb := mkIo { file : string; bytes : list Z; offset : nat }.
Definition io0 : iocb := mkIo "hello.txt" (take 3 content) 1.
Definition io1 : iocb := mkIo "aabbcc" content 0.
(** Results of the calls in their order: [io_setup], the two [open], the two
    [io_submit]. *)
Record answers := mkA { a_setup : Z; a_open0 : Z; a_submit0 : Z; a_open1 : Z; a_submit1 : Z }.
(** The exit code if [main] ends before its loop, the requests submitted, and
    if the context was destroyed. *)
Definition start (a : answers) : option Z * list iocb * bool :=
  if negb (a_setup a =? 0) then (Some (-1), [], false)
  else if a_open0 a <? 0 then (Some (-1), [], true)
  else if negb (a_submit0 a =? 1) then (Some (-1), [], true)
  else if a_open1 a <? 0 then (Some (-1), [io0], true)
  else if negb (a_submit1 a =? 1) then (Some (-1), [io0], true)
  else (None, [io0; io1], false).
(** An event: the request it is about and its two results. *)
Record io_event := mkE { obj : iocb; res : Z; res2 : Z }.
(** [wr_done]: the messages printed. *)
Definition wr_done (e : io_event) : list string := (if res2 e =? 0 then [] else ["aio write error"]) ++ ["aio write ..."].
(** A pass of the loop over what [io_getevents] gave: [num] and the events. *)
Definition pass (num : Z) (es : list io_event) : list string :=
  (if num =? 0 then [] else concat (wr_done <$> take (Z.to_nat num) es)) ++ ["haven't done"].

(** A file after a write at an offset; a gap is filled with zeros. *)
Definition pwrite (f : list Z) (off : nat) (bs : list Z) : list Z :=
  take off (f ++ replicate off 0) ++ bs ++ drop (off + length bs) f.
Definition complete (files : string -> list Z) (r : iocb) : string -> list Z :=
  fun n => if decide (n = file r) then pwrite (files n) (offset r) (bytes r) else files n.
End Aio.

(** ** The screen *)
Module FbInfo.
Record bitfield := mkB { off : Z; len : Z; msb_right : Z }.
Record fb_var_screeninfo := mkV {
  xres : Z; yres : Z; xres_virtual : Z; yres_virtual : Z; xoffset : Z; yoffset : Z; bits_per_pixel : Z; grayscale : Z;
  red : bitfield; green : bitfield; blue : bitfield; transp : bitfield; nonstd : Z; activate : Z; height : Z; width : Z;
  accel_flags : Z; pixclock : Z; left_margin : Z; right_margin : Z; upper_margin : Z; lower_margin : Z;
  hsync_len : Z; vsync_len : Z; sync : Z; vmode : Z }.
(** The names in the format, in their order, and the arguments. *)
Definition labels : list string :=
  ["xres"; "yres"; "xres_virtual"; "yres_virtual"; "yoffset"; "xoffset"; "bits_per_pixel"; "grayscale";
   "red: offset"; "length"; "msb_right"; "green: offset"; "length"; "msb_right"; "blue: offset"; "length"; "msb_right";
   "transp: offset"; "length"; "msb_right"; "nonstd"; "activate"; "height"; "width"; "accel_flags"; "pixclock";
   "left_margin"; "right_margin"; "upper_margin"; "lower_margin"; "hsync_len"; "vsync_len"; "sync"; "vmode"].
Definition arguments (v : fb_var_screeninfo) : list Z :=
  [xres v; yres v; xres_virtual v; yres_virtual v; xoffset v; yoffset v; bits_per_pixel v; grayscale v;
   off (red v); len (red v); msb_right (red v); off (green v); len (green v); msb_right (green v);
   off (blue v); len (blue v); msb_right (blue v); off (transp v); len (transp v); msb_right (transp v);
   nonstd v; activate v; height v; width v; accel_flags v; pixclock v;
   left_margin v; right_margin v; upper_margin v; lower_margin v; hsync_len v; vsync_len v; sync v; vmode v].
Definition printVariableInfo (v : fb_var_screeninfo) : list (string * Z) := zip labels (arguments v).
End FbInfo.

(** ** The main program of the U-Boot application *)
Module Hello.
(** What is printed: a text with its numbers. *)
Inductive line := Line (format : string) (args : list Z) | Str (format : string) (addr : Z) (s : string).
Definition p : string := "hello".
(** The stubs of the C library. *)
Definition _lseek : Z := -1.
Definition _fstat : Z := 0.
Definition _isatty : Z := 0.
Definition _close : Z := -1.
Definition _getpid : Z := 1.
Definition _kill : Z := -1.
(** [c] and [e], and [b] which is 0 too, are in the memory that is not loaded;
    its contents are an argument, as are the exception level and the
    addresses.  [ma]: the memory of [malloc(100)] and its address, or NULL. *)
Record env := mkEnv { el : Z; v_b : Z; v_c : Z; v_e : Z; p_addr : Z; printf_addr : Z; ma : option (Z * list Z) }.
Definition data_a : Z := 0x23.
Definition data_d : Z := 0x34.
(** The first loop over the memory: stores and prints it. *)
Fixpoint count_loop (n i : nat) (addr : Z) (mem : list Z) : list line * list Z :=
  match n with
  | O => ([], mem)
  | S n =>
      let mem := <[i := u8 (Z.of_nat i)]> mem in
      let '(l, mem') := count_loop n (S i) addr mem in
      (Line "ma[addr[0x%x]:0x%x]" [addr + Z.of_nat i; mem !!! i] :: l, mem')
  end.
Definition show_loop (n : nat) (mem : list Z) : list line := (fun i => Line "[0x%x]" [mem !!! i]) <$> seq 0 n.
Definition test (x : env) (s : string) : Z * list line * option (list Z) :=
  let head := [Line "CurrentEL a: %d" [el x]; Line "CurrentEL b: %d" [el x]; Line "strlen[%d]" [Z.of_nat (String.length s)];
               Line "a[0x%x]b[0x%x] c[0x%x] d[0x%x] e[0x%x]" [data_a; v_b x; v_c x; data_d; v_e x];
               Line "bss:b[0x%x] c[0x%x] e[0x%x]" [v_b x; v_c x; v_e x]] in
  match ma x with
  | None => (0, head ++ [Line "malloc is null" []], None)
  | Some (addr, mem) =>
      let '(l, mem) := count_loop 10 0 addr mem in
      let mem := buf_write mem 0 (replicate 100 0) in
      (0, head ++ [Line "malloc successed!" []] ++ l ++ [Line "over 1" []] ++ show_loop 20 mem ++ [Line "over 2" []], Some mem)
  end.
(** [test_vector]: the store to 0xffffffff faults or not. *)
Definition test_vector (faults : bool) : option (Z * list line) :=
  if faults then None else Some (0, [Line "=>%s" []]).
(** [main]: what is printed; the result, [None] when the fault was taken. *)
Definition main (x : env) (faults : bool) : list line * option Z :=
  let out := [Str "0x%lx : [%s]" (p_addr x) p] ++ ((fun i => Line "i[%d]" [Z.of_nat i]) <$> seq 0 5) ++
             [Line "printf[addr:0x%x] this is api printf test! i[%d]" [printf_addr x; 5]; Line "float[%f]" []] in
  let '(_, l, _) := test x p in
  match test_vector faults with
  | None => (out ++ l, None)
  | Some (_, l') => (out ++ l ++ l', Some 0)
  end.
End Hello.

(** ** Handlers and entry points *)
Module Key.
Inductive irqreturn := IRQ_HANDLED | IRQ_WAKE_THREAD.
(** The upper half only wakes the thread; the thread waits three seconds and
    says if the key is still pressed. *)
Definition top_interrupt : irqreturn := IRQ_WAKE_THREAD.
Definition botton_interrupt (value : Z) : irqreturn * list string :=
  (IRQ_HANDLED, ["irq action begin!!!"] ++ (if value =? 0 then ["press > 3s"] else []) ++ ["irq action end!!!"]).
(** [request_threaded_irq]: without an upper half it is refused unless the
    interrupt stays masked until the thread has run ([IRQF_ONESHOT]);
    otherwise the answer is that of the controller. *)
Definition request_threaded_irq (upper oneshot : bool) (e : Z) : Z := if negb upper && negb oneshot then - EINVAL else e.
Definition button_init (irq1 irq2 e1 e2 : Z) : Z * list Misc.obj :=
  Misc.key_init irq1 irq2 (request_threaded_irq true false e1) (request_threaded_irq false false e2) [].
End Key.

Module Button.
Definition button_open : Z := 0.
Definition button_close (s : list Misc.obj) : list Misc.obj := s.
Definition button_flush : Z := 0.
Definition button_event (type code value : Z) : Z * list (Z * Z * Z) := (0, [(type, code, value)]).
End Button.

Module Fw.
Definition burn_fw (data : list Z) : Z := 0.
(** The result does not depend on the firmware. *)
Definition example_init (request : Z) (data : list Z) (s : list Misc.obj) : Z * list Misc.obj :=
  (0, Misc.fw_work request (burn_fw data) s).
Definition example_exit (s : list Misc.obj) : list Misc.obj := s.
End Fw.

Module Sysfs.
Definition example_init := Spin.example_init.
Definition example_exit := Spin.example_exit.
End Sysfs.

Module ProcInit.
(** If the entry could be created. *)
Definition my_init (created : bool) : Z := if created then 0 else -1.
End ProcInit.

(** ** Input events *)
(** property: the reader of events prints one event for each read and ends, with
    1, at the first that fails; a read that stores nothing prints the event
    before it again. *)
Theorem input_reader ev reads rest :
  Forall (fun r => 0 <= r.1) reads ->
  InputRead.loop ev (reads ++ (-1, None) :: rest) =
    ((fun k => default ev (last (omap snd (take (S k) reads)))) <$> seq 0 (length reads), Some 1).
Proof.
  intros H. revert ev. induction H as [|[ret e] reads Hr Hrs IH]; intros ev; [done|].
  cbn [app InputRead.loop]. cbn in Hr. rewrite (proj2 (Z.ltb_ge _ _)) by done. rewrite IH.
  cbn [length]. rewrite <- cons_seq, <- fmap_S_seq. cbn [fmap list_fmap]. do 2 f_equal.
  - by destruct e.
  - rewrite <- list_fmap_compose. apply list_fmap_ext. intros i k _. unfold compose. cbn [take omap list_omap snd].
    destruct e as [e|]; [|done]. cbn [default]. by rewrite last_cons; destruct (last _).
Qed.
Lemma input_reader_witness :
  InputRead.loop (Sendevent.mkEvent 0 0 0) ([(24, Some (Sendevent.mkEvent 1 57 1)); (0, None)] ++ (-1, None) :: []) =
    ((fun k => default (Sendevent.mkEvent 0 0 0) (last (omap snd (take (S k) [(24, Some (Sendevent.mkEvent 1 57 1)); (0, None)])))) <$> seq 0 2, Some 1).
Proof. apply (input_reader (Sendevent.mkEvent 0 0 0) [(24, Some (Sendevent.mkEvent 1 57 1)); (0, None)] []). repeat constructor; cbn; lia. Defined.

Lemma input_loop_run n : forall fd i, InputWrite.STDERR < fd -> 0 <= i -> i + Z.of_nat n < 2 ^ 31 ->
  InputWrite.loop n fd i = (fun k => Sendevent.mkEvent InputWrite.EV_SYN InputWrite.SYN_CONFIG (i + Z.of_nat k)) <$> seq 0 n.
Proof.
  induction n as [|n IH]; intros fd i Hf Hi Hn; [done|]. cbn [InputWrite.loop]. unfold InputWrite.event_sync.
  rewrite (proj2 (Z.leb_gt _ _)) by done. cbn [option_list app]. rewrite <- cons_seq, <- fmap_S_seq. cbn [fmap list_fmap]. change (option_list (Some ?x) ++ ?l) with (x :: l). f_equal; [by rewrite Z.add_0_r|].
  rewrite s32_small, IH, <- list_fmap_compose by lia. apply list_fmap_ext. intros j k _. unfold compose. f_equal. lia.
Qed.
(** property: the writer of events numbers its synchronisation events from 0 on;
    on a descriptor of the standard streams it writes nothing. *)
Theorem input_writer fd n :
  Z.of_nat n < 2 ^ 31 ->
  InputWrite.main fd n =
    if fd <? 0 then (Some 1, [])
    else (None, if fd <=? 2 then [] else (fun k => Sendevent.mkEvent 0 1 (Z.of_nat k)) <$> seq 0 n).
Proof.
  intros Hn. unfold InputWrite.main. destruct (fd <? 0); [done|]. f_equal. destruct (Z.leb_spec fd 2) as [H|H].
  - assert (forall n i, InputWrite.loop n fd i = []) as ->; [|done]. clear n Hn. induction n as [|n IH]; intros i; [done|].
    cbn [InputWrite.loop]. unfold InputWrite.event_sync, InputWrite.STDERR. rewrite (proj2 (Z.leb_le _ _)) by done. apply IH.
  - rewrite input_loop_run by (unfold InputWrite.STDERR; lia). done.
Qed.
Lemma input_writer_witness :
  InputWrite.main 3 2 = if 3 <? 0 then (Some 1, []) else (None, if 3 <=? 2 then [] else (fun k => Sendevent.mkEvent 0 1 (Z.of_nat k)) <$> seq 0 2).
Proof. apply (input_writer 3 2). cbn. lia. Defined.

(** ** Ticks *)
(** The text of what was read. *)
Definition text_of (bs : list Z) : list Z := default [] (cstr (bs ++ [0])).
Lemma cstr_buffer bs : (length bs < 100)%nat -> cstr (buf_write (replicate TickRead.SIZE 0) 0 bs) = Some (text_of bs).
Proof.
  intros H. rewrite buf_write_0. change TickRead.SIZE with 100%nat.
  replace (100%nat) with (length bs + (1 + (99 - length bs)))%nat by lia.
  rewrite replicate_add, drop_app_length' by (by rewrite length_replicate). cbn [replicate Nat.add].
  unfold text_of. destruct (cstr_zero bs) as [t Ht]. rewrite Ht. change (0 :: replicate (99 - length bs) 0) with ([0] ++ replicate (99 - length bs) 0).
  rewrite app_assoc. by apply cstr_app.
Qed.
Definition shown (c : Z) (bss : list (list Z)) : list (list Z * Z) :=
  concat (imap (fun k bs => if (c + Z.of_nat k) mod 1000 =? 0 then [(text_of bs, Z.of_nat (length bs))] else []) bss).
Lemma shown_cons c bs bss :
  shown c (bs :: bss) = (if c mod 1000 =? 0 then [(text_of bs, Z.of_nat (length bs))] else []) ++ shown (c + 1) bss.
Proof.
  unfold shown. rewrite imap_cons. cbn [concat]. rewrite Z.add_0_r. f_equal. f_equal. apply imap_ext. intros k x _. unfold compose.
  by replace (c + Z.of_nat (S k)) with (c + 1 + Z.of_nat k) by lia.
Qed.
(** property: the reader of ticks prints every thousandth read, from the first
    on, and skips reads without data; a text that fills its array is not
    terminated and read past it. *)
Theorem tick_reader c bss rest :
  0 <= c -> c + Z.of_nat (length bss) < 2 ^ 31 -> Forall (fun bs => (0 < length bs < 100)%nat) bss ->
  TickRead.loop c ((Some <$> bss) ++ None :: rest) = Some (shown c bss, Some 1) /\
  TickRead.loop c (Some [] :: (Some <$> bss) ++ None :: rest) = Some (shown c bss, Some 1) /\
  TickRead.loop 0 (Some (replicate 100 49) :: rest) = None.
Proof.
  intros Hc Hl Hb. assert (TickRead.loop c ((Some <$> bss) ++ None :: rest) = Some (shown c bss, Some 1)) as H; [|done].
  revert c Hc Hl. induction Hb as [|bs bss Hbs _ IH]; intros c Hc Hl; [done|]. cbn [fmap list_fmap app TickRead.loop length] in *.
  rewrite (proj2 (Z.eqb_neq _ 0)), cstr_buffer, Z.rem_mod_nonneg, shown_cons by lia. rewrite s32_small, IH by lia.
  by destruct (c mod 1000 =? 0).
Qed.
Lemma tick_reader_witness :
  TickRead.loop 999 ((Some <$> [[49; 10]; [50; 10]]) ++ [None]) = Some (shown 999 [[49; 10]; [50; 10]], Some 1) /\
  TickRead.loop 999 (Some [] :: (Some <$> [[49; 10]; [50; 10]]) ++ [None]) = Some (shown 999 [[49; 10]; [50; 10]], Some 1) /\
  TickRead.loop 0 [Some (replicate 100 49); None] = None.
Proof.
  destruct (tick_reader 999 [[49; 10]; [50; 10]] [None]) as (H1 & H2 & H3); [lia|cbn; lia|repeat constructor; cbn; lia|].
  split; [exact H1|]. split; [exact H2|]. exact H3.
Defined.

(** ** Files *)
Import Aio.
(** property: the asynchronous writes: when both have completed, in either
    order, the second file begins with the whole text, the first keeps its
    first byte - 0 in a new file - followed by "hel"; no other file
    changes. *)
Theorem aio_files files :
  let r := complete (complete files io0) io1 in
  (forall n, complete (complete files io1) io0 n = r n) /\
  r "hello.txt" = [default 0 (head (files "hello.txt"))] ++ [104; 101; 108] ++ drop 4 (files "hello.txt") /\
  r "aabbcc" = content ++ drop 12 (files "aabbcc") /\
  (forall n, n <> "hello.txt" -> n <> "aabbcc" -> r n = files n).
Proof.
  intros r. split; [|split; [|split]].
  - intros n. destruct (decide (n = "hello.txt")) as [->|H1]; [reflexivity|]. destruct (decide (n = "aabbcc")) as [->|H2]; [reflexivity|].
    unfold r, complete, io0, io1. cbn [file offset bytes]. by rewrite !(decide_False (P := n = "hello.txt")), !(decide_False (P := n = "aabbcc")).
  - change (r "hello.txt") with (pwrite (files "hello.txt") 1 [104; 101; 108]). unfold pwrite. by destruct (files "hello.txt").
  - reflexivity.
  - intros n H1 H2. unfold r, complete, io0, io1. cbn [file offset bytes].
    by rewrite (decide_False (P := n = "hello.txt")), (decide_False (P := n = "aabbcc")).
Qed.

(** property: before its loop the program ends, with -1, exactly if a call
    failed, and then destroys the context if there is one - also while a
    write is under way. *)
Theorem aio_start a :
  let '(r, submitted, destroyed) := start a in
  (r = None <-> a_setup a = 0 /\ 0 <= a_open0 a /\ a_submit0 a = 1 /\ 0 <= a_open1 a /\ a_submit1 a = 1) /\
  (r <> None -> r = Some (-1) /\ (destroyed = true <-> a_setup a = 0)) /\
  (r = None -> submitted = [io0; io1] /\ destroyed = false).
Proof.
  unfold start. destruct (Z.eqb_spec (a_setup a) 0), (Z.ltb_spec (a_open0 a) 0), (Z.eqb_spec (a_submit0 a) 1), (Z.ltb_spec (a_open1 a) 0), (Z.eqb_spec (a_submit1 a) 1);
    cbn; (split; [split; [(done || lia)|(done || lia)]|]); split; try done; intros; split; try done; split; (done || lia).
Qed.

(** ** The screen *)
(** The member a name stands for. *)
Definition member (v : FbInfo.fb_var_screeninfo) (k : nat) : Z :=
  if (k =? 4)%nat then FbInfo.yoffset v else if (k =? 5)%nat then FbInfo.xoffset v else FbInfo.arguments v !!! k.
(** property: the description of the screen has a number for every name; each
    is the member of that name, but the two offsets are exchanged. *)
Theorem screen_labels v :
  length FbInfo.labels = length (FbInfo.arguments v) /\
  FbInfo.printVariableInfo v !! 4%nat = Some ("yoffset", FbInfo.xoffset v) /\
  FbInfo.printVariableInfo v !! 5%nat = Some ("xoffset", FbInfo.yoffset v) /\
  (forall k n x, FbInfo.printVariableInfo v !! k = Some (n, x) -> k <> 4%nat -> k <> 5%nat -> x = member v k).
Proof.
  split; [done|]. split; [done|]. split; [done|]. intros k n x H H4 H5. unfold member.
  rewrite (proj2 (Nat.eqb_neq _ _) H4), (proj2 (Nat.eqb_neq _ _) H5).
  unfold FbInfo.printVariableInfo in H. apply lookup_zip_with_Some in H as (a & b & E & Ha & Hb). injection E as -> ->.
  symmetry. by apply list_lookup_total_correct.
Qed.

(** ** The U-Boot application *)
Lemma count_loop_run n : forall i addr mem, (i + n <= length mem)%nat -> (i + n <= 256)%nat ->
  exists mem', Hello.count_loop n i addr mem =
    ((fun k => Hello.Line "ma[addr[0x%x]:0x%x]" [addr + Z.of_nat k; Z.of_nat k]) <$> seq i n, mem') /\ length mem' = length mem.
Proof.
  induction n as [|n IH]; intros i addr mem Hl Hn; [by eexists|]. cbn [Hello.count_loop].
  destruct (IH (S i) addr (<[i := u8 (Z.of_nat i)]> mem)) as (mem' & -> & Hm); [rewrite length_insert; lia|lia|].
  eexists. split; [|by rewrite length_insert in Hm]. cbn [seq fmap list_fmap]. do 5 f_equal.
  rewrite list_lookup_total_insert_eq by lia. apply u8_small. lia.
Qed.
(** The first lines: level, length, initialised and cleared variables. *)
Definition test_head (x : Hello.env) : list Hello.line :=
  [Hello.Line "CurrentEL a: %d" [Hello.el x]; Hello.Line "CurrentEL b: %d" [Hello.el x]; Hello.Line "strlen[%d]" [5];
   Hello.Line "a[0x%x]b[0x%x] c[0x%x] d[0x%x] e[0x%x]" [0x23; Hello.v_b x; Hello.v_c x; 0x34; Hello.v_e x];
   Hello.Line "bss:b[0x%x] c[0x%x] e[0x%x]" [Hello.v_b x; Hello.v_c x; Hello.v_e x]].
(** property: the test of the U-Boot application stays inside the 100 bytes it
    allocated: it prints ten numbers from 0 on as it stores them, and after
    clearing the memory twenty zeros; without memory it says so.  [main]
    returns only where a store to the end of the address space does not
    fault. *)
Theorem hello_test x faults :
  (forall addr mem, Hello.ma x = Some (addr, mem) -> length mem = 100%nat ->
     Hello.test x Hello.p =
       (0, test_head x ++ [Hello.Line "malloc successed!" []] ++ ((fun k => Hello.Line "ma[addr[0x%x]:0x%x]" [addr + Z.of_nat k; Z.of_nat k]) <$> seq 0 10) ++
           [Hello.Line "over 1" []] ++ replicate 20 (Hello.Line "[0x%x]" [0]) ++ [Hello.Line "over 2" []], Some (replicate 100 0))) /\
  (Hello.ma x = None -> Hello.Line "malloc is null" [] ∈ (Hello.test x Hello.p).1.2) /\
  (snd (Hello.main x faults) = None <-> faults = true).
Proof.
  split; [|split].
  - intros addr mem E Hm. unfold Hello.test. rewrite E. destruct (count_loop_run 10 0 addr mem) as (mem' & -> & Hl); [lia..|].
    rewrite Hm in Hl. assert (buf_write mem' 0 (replicate 100 0) = replicate 100 0) as ->.
    { rewrite buf_write_0, drop_ge by (rewrite length_replicate; lia). by rewrite app_nil_r. }
    reflexivity.
  - intros E. unfold Hello.test. rewrite E. cbn [fst snd]. apply elem_of_app. right. by apply list_elem_of_singleton.
  - unfold Hello.main. destruct (Hello.test x Hello.p) as [[? ?] ?]. by destruct faults.
Qed.

(** ** The keys *)
(** property: the key sample never loads: its second request has no upper half
    and does not keep the interrupt masked, which the kernel refuses; the
    first interrupt then stays requested, with its handler gone. *)
Theorem key_never_loads irq1 irq2 e1 e2 :
  fst (Key.button_init irq1 irq2 e1 e2) = - EBUSY /\
  (e1 = 0 -> snd (Key.button_init irq1 irq2 e1 e2) = [Misc.Irq irq1]).
Proof. unfold Key.button_init, Misc.key_init. cbn. by destruct (Z.eqb_spec e1 0). Qed.

(** property: the firmware sample loads whatever became of the firmware, and
    leaves nothing of it. *)
Theorem fw_loads request data : Fw.example_init request data [] = (0, []).
Proof. unfold Fw.example_init, Misc.fw_work. by destruct (request <? 0). Qed.
