(* ===== verification/Uvc.v ===== *)
(** * Messages of the video function and of the updater
      (test_gadget: uvc.h, uvc_queue.h, fsl_updater.h, u_ether.h)

    What these headers define besides declarations: the codes of ioctls and
    events, the layout of the structures that cross to user space, the inline
    functions and the macros.  Memory is that of a little endian processor. *)

From Stdlib Require Import ZArith.
From stdpp Require Import base list.
From S2P Require Import Prelude.

(** ** Codes of ioctls: direction, size, type, number *)
Definition IOC_WRITE : Z := 1.
Definition IOC_READ : Z := 2.
Definition IOC (dir type nr size : Z) : Z := Z.lor (Z.shiftl dir 30) (Z.lor (Z.shiftl size 16) (Z.lor (Z.shiftl type 8) nr)).
Definition ioc_dir (c : Z) : Z := Z.shiftr c 30.
Definition ioc_size (c : Z) : Z := Z.land (Z.shiftr c 16) 0x3fff.
Definition ioc_type (c : Z) : Z := Z.land (Z.shiftr c 8) 0xff.
Definition ioc_nr (c : Z) : Z := Z.land c 0xff.
(** [container_of]: from the address of a member to that of the structure. *)
Definition container_of (ptr offset : Z) : Z := ptr - offset.

(** ** The video function *)
Module UVC.
(** [struct uvc_request_data] *)
Definition DATA : nat := 60.
Record uvc_request_data := mkReq { length_ : Z; data : list Z }.
Definition put_request (r : uvc_request_data) : list Z := le_bytes 4 (length_ r) ++ data r.
Definition get_request (b : list Z) : uvc_request_data := mkReq (s32 (of_le_bytes (take 4 b))) (take DATA (drop 4 b)).
Definition sizeof_request : Z := 64.

(** [struct usb_ctrlrequest], as the union has it. *)
Record usb_ctrlrequest := mkCtrl { bRequestType : Z; bRequest : Z; wValue : Z; wIndex : Z; wLength : Z }.
Definition put_ctrl (c : usb_ctrlrequest) : list Z :=
  [u8 (bRequestType c); u8 (bRequest c)] ++ le16 (wValue c) ++ le16 (wIndex c) ++ le16 (wLength c).
(** [struct uvc_event], a union. *)
Inductive uvc_event := Speed (s : Z) | Req (c : usb_ctrlrequest) | Data (d : uvc_request_data).
Definition event_size (e : uvc_event) : nat := match e with Speed _ => 4 | Req _ => 8 | Data _ => 64 end.
Definition put_event (e : uvc_event) (mem : list Z) : list Z :=
  match e with
  | Speed s => buf_write mem 0 (le_bytes 4 s)
  | Req c => buf_write mem 0 (put_ctrl c)
  | Data d => buf_write mem 0 (put_request d)
  end.
Definition UVCIOC_SEND_RESPONSE : Z := IOC IOC_WRITE 85 1 sizeof_request.
Section Events.
(** [V4L2_EVENT_PRIVATE_START] of the video framework. *)
Variable PRIVATE_START : Z.
Definition UVC_EVENT_FIRST : Z := PRIVATE_START + 0.
Definition UVC_EVENT_CONNECT : Z := PRIVATE_START + 0.
Definition UVC_EVENT_DISCONNECT : Z := PRIVATE_START + 1.
Definition UVC_EVENT_STREAMON : Z := PRIVATE_START + 2.
Definition UVC_EVENT_STREAMOFF : Z := PRIVATE_START + 3.
Definition UVC_EVENT_SETUP : Z := PRIVATE_START + 4.
Definition UVC_EVENT_DATA : Z := PRIVATE_START + 5.
Definition UVC_EVENT_LAST : Z := PRIVATE_START + 5.
Definition events : list Z := [UVC_EVENT_CONNECT; UVC_EVENT_DISCONNECT; UVC_EVENT_STREAMON; UVC_EVENT_STREAMOFF; UVC_EVENT_SETUP; UVC_EVENT_DATA].
End Events.

Definition UVC_TRACE (n : Z) : Z := Z.shiftl 1 n.
Definition UVC_TRACE_PROBE : Z := UVC_TRACE 0.
Definition UVC_TRACE_DESCR : Z := UVC_TRACE 1.
Definition UVC_TRACE_CONTROL : Z := UVC_TRACE 2.
Definition UVC_TRACE_FORMAT : Z := UVC_TRACE 3.
Definition UVC_TRACE_CAPTURE : Z := UVC_TRACE 4.
Definition UVC_TRACE_CALLS : Z := UVC_TRACE 5.
Definition UVC_TRACE_IOCTL : Z := UVC_TRACE 6.
Definition UVC_TRACE_FRAME : Z := UVC_TRACE 7.
Definition UVC_TRACE_SUSPEND : Z := UVC_TRACE 8.
Definition UVC_TRACE_STATUS : Z := UVC_TRACE 9.
Definition traces : list Z :=
  [UVC_TRACE_PROBE; UVC_TRACE_DESCR; UVC_TRACE_CONTROL; UVC_TRACE_FORMAT; UVC_TRACE_CAPTURE; UVC_TRACE_CALLS;
   UVC_TRACE_IOCTL; UVC_TRACE_FRAME; UVC_TRACE_SUSPEND; UVC_TRACE_STATUS].
Definition UVC_WARN_MINMAX : Z := 0.
Definition UVC_WARN_PROBE_DEF : Z := 1.
(** If a message is printed. *)
Definition uvc_trace (param flag : Z) : bool := truthy (Z.land param flag).
(** [test_and_set_bit]: the bits afterwards. *)
Definition uvc_warn_once (warnings warn : Z) : bool * Z := (negb (Z.testbit warnings warn), Z.setbit warnings warn).
Definition UVC_NUM_REQUESTS : Z := 4.
Definition UVC_MAX_REQUEST_SIZE : Z := 64.
Definition UVC_MAX_EVENTS : Z := 4.
Inductive uvc_state := UVC_STATE_DISCONNECTED | UVC_STATE_CONNECTED | UVC_STATE_STREAMING.
(** [struct uvc_device]: a pointer, the state, and the function behind them. *)
Definition offsetof_func (b64 : bool) : Z := if b64 then 16 else 8.
Definition to_uvc (b64 : bool) (f : Z) : Z := container_of f (offsetof_func b64).
(** [struct uvc_file_handle] begins with the handle. *)
Definition to_uvc_file_handle (handle : Z) : Z := container_of handle 0.
End UVC.

(** ** The queue of video buffers *)
Module UvcQueue.
Definition UVC_MAX_FRAME_SIZE : Z := 16 * 1024 * 1024.
Definition UVC_MAX_VIDEO_BUFFERS : Z := 32.
Inductive uvc_buffer_state := UVC_BUF_STATE_IDLE | UVC_BUF_STATE_QUEUED | UVC_BUF_STATE_ACTIVE | UVC_BUF_STATE_DONE | UVC_BUF_STATE_ERROR.
Definition state_number (s : uvc_buffer_state) : Z :=
  match s with UVC_BUF_STATE_IDLE => 0 | UVC_BUF_STATE_QUEUED => 1 | UVC_BUF_STATE_ACTIVE => 2 | UVC_BUF_STATE_DONE => 3 | UVC_BUF_STATE_ERROR => 4 end.
Definition UVC_QUEUE_STREAMING : Z := Z.shiftl 1 0.
Definition UVC_QUEUE_DISCONNECTED : Z := Z.shiftl 1 1.
Definition UVC_QUEUE_DROP_INCOMPLETE : Z := Z.shiftl 1 2.
Definition UVC_QUEUE_PAUSED : Z := Z.shiftl 1 3.
Definition uvc_queue_streaming (flags : Z) : Z := Z.land flags UVC_QUEUE_STREAMING.
End UvcQueue.

(** ** The updater's messages to user space *)
Module UtpMessage.
Definition UTP_GET_CPU_ID : Z := IOC IOC_READ 85 0 4.
(** [size_t] *)
Definition word (b64 : bool) : nat := if b64 then 8 else 4.
(** The members of [struct utp_message], without gaps. *)
Definition o_size : nat := 4.
Definition o_union (b64 : bool) : nat := (o_size + word b64)%nat.
Definition o_command (b64 : bool) : nat := (o_union b64 + 8)%nat.
Definition o_data (b64 : bool) : nat := (o_union b64 + word b64)%nat.
Inductive utp_message :=
  | Command (flags size payload : Z) (command : list Z)
  | DataMsg (flags size bufsize : Z) (data : list Z)
  | Status (flags size status : Z).
Definition head (b64 : bool) (flags size : Z) : list Z := le_bytes 4 flags ++ le_bytes (word b64) size.
Definition put_message (b64 : bool) (m : utp_message) : list Z :=
  match m with
  | Command f s p c => head b64 f s ++ le_bytes 8 p ++ c
  | DataMsg f s n d => head b64 f s ++ le_bytes (word b64) n ++ d
  | Status f s x => head b64 f s ++ le_bytes 4 x
  end.
Definition field (b : list Z) (ofs n : nat) : Z := of_le_bytes (take n (drop ofs b)).
Definition flags_of (b : list Z) : Z := field b 0 4.
Definition size_of (b64 : bool) (b : list Z) : Z := field b o_size (word b64).
Definition payload_of (b64 : bool) (b : list Z) : Z := field b (o_union b64) 8.
Definition command_of (b64 : bool) (b : list Z) : list Z := drop (o_command b64) b.
Definition bufsize_of (b64 : bool) (b : list Z) : Z := field b (o_union b64) (word b64).
Definition data_of (b64 : bool) (b : list Z) : list Z := drop (o_data b64) b.
Definition status_of (b64 : bool) (b : list Z) : Z := field b (o_union b64) 4.
End UtpMessage.

(** ** CDC Ethernet without RNDIS *)
Module Ether.
(** [rndis_bind_config] of a build without RNDIS. *)
Definition rndis_bind_config : Z := 0.
Inductive rndis_state := RNDIS_UNINITIALIZED | RNDIS_INITIALIZED | RNDIS_DATA_INITIALIZED.
End Ether.

(** ** Codes *)
Lemma IOC_sum dir type nr size :
  0 <= nr < 256 -> 0 <= type < 256 -> 0 <= size < 2 ^ 14 ->
  IOC dir type nr size = ((dir * 2 ^ 14 + size) * 2 ^ 8 + type) * 2 ^ 8 + nr.
Proof.
  intros Hn Ht Hs. unfold IOC. rewrite (lor_shiftl type nr 8), (lor_shiftl size _ 16), (lor_shiftl dir _ 30) by lia. lia.
Qed.
Lemma ioc_parts dir type nr size :
  0 <= nr < 256 -> 0 <= type < 256 -> 0 <= size < 2 ^ 14 ->
  let c := IOC dir type nr size in ioc_dir c = dir /\ ioc_size c = size /\ ioc_type c = type /\ ioc_nr c = nr.
Proof.
  intros Hn Ht Hs c. unfold c. rewrite IOC_sum by done. unfold ioc_dir, ioc_size, ioc_type, ioc_nr.
  change 0x3fff with (Z.ones 14). change 0xff with (Z.ones 8). rewrite !Z.land_ones, !Z.shiftr_div_pow2 by lia.
  change (2 ^ 30) with (2 ^ 8 * 2 ^ 8 * 2 ^ 14). change (2 ^ 16) with (2 ^ 8 * 2 ^ 8). rewrite <- !Z.div_div by lia.
  rewrite !(Z.div_add_l _ (2 ^ 8) nr), (Z.div_small nr), Z.add_0_r by lia.
  rewrite !(Z.div_add_l _ (2 ^ 8) type), (Z.div_small type), Z.add_0_r by lia.
  rewrite Z.div_add_l, (Z.div_small size), Z.add_0_r by lia.
  split; [done|]. rewrite !(Z.add_comm (_ * _)), !Z.mod_add, !Z.mod_small by lia. done.
Qed.

(** property: the ioctls of the two interfaces are told apart by every part that
    matters: direction, number and size are those of the definition, the
    type is the same letter. *)
Theorem interface_ioctls :
  ioc_dir UVC.UVCIOC_SEND_RESPONSE = IOC_WRITE /\ ioc_nr UVC.UVCIOC_SEND_RESPONSE = 1 /\ ioc_size UVC.UVCIOC_SEND_RESPONSE = UVC.sizeof_request /\
  ioc_dir UtpMessage.UTP_GET_CPU_ID = IOC_READ /\ ioc_nr UtpMessage.UTP_GET_CPU_ID = 0 /\ ioc_size UtpMessage.UTP_GET_CPU_ID = 4 /\
  ioc_type UVC.UVCIOC_SEND_RESPONSE = ioc_type UtpMessage.UTP_GET_CPU_ID /\ UVC.UVCIOC_SEND_RESPONSE <> UtpMessage.UTP_GET_CPU_ID.
Proof.
  unfold UVC.UVCIOC_SEND_RESPONSE, UtpMessage.UTP_GET_CPU_ID.
  destruct (ioc_parts IOC_WRITE 85 1 UVC.sizeof_request) as (-> & -> & -> & ->); [by vm_compute..|].
  destruct (ioc_parts IOC_READ 85 0 4) as (-> & -> & -> & ->); [by vm_compute..|]. by vm_compute.
Qed.

(** ** The video function *)
(** property: an answer of the video function survives the way through its 64
    bytes; every member of an event lies inside them.  Its data holds 60
    bytes, 4 fewer than the control buffer the header allows. *)
Theorem uvc_request_roundtrip r rest mem e :
  - 2 ^ 31 <= UVC.length_ r < 2 ^ 31 -> length (UVC.data r) = UVC.DATA -> length mem = 64%nat ->
  (forall d, e = UVC.Data d -> length (UVC.data d) = UVC.DATA) ->
  UVC.get_request (UVC.put_request r ++ rest) = r /\ Z.of_nat (length (UVC.put_request r)) = UVC.sizeof_request /\
  length (UVC.put_event e mem) = 64%nat /\ drop (UVC.event_size e) (UVC.put_event e mem) = drop (UVC.event_size e) mem /\
  Z.of_nat UVC.DATA = UVC.UVC_MAX_REQUEST_SIZE - 4.
Proof.
  intros Hr Hd Hm He. assert (length (UVC.put_request r) = 64%nat) as Hl.
  { unfold UVC.put_request. rewrite length_app, length_le_bytes, Hd. done. }
  split; [|split; [by rewrite Hl|]].
  - destruct r as [n d]. cbn in Hr, Hd. unfold UVC.get_request, UVC.put_request. cbn [UVC.length_ UVC.data].
    rewrite <- app_assoc, take_app_length' by (by rewrite length_le_bytes). rewrite drop_app_length' by (by rewrite length_le_bytes).
    rewrite take_app_length' by done. f_equal. rewrite of_le_bytes_le. unfold s32. change (8 * Z.of_nat 4) with 32.
    rewrite Z.add_mod_idemp_l by lia. rewrite Z.mod_small; lia.
  - assert (forall x, (length x <= 64)%nat -> length (buf_write mem 0 x) = 64%nat /\ drop (length x) (buf_write mem 0 x) = drop (length x) mem) as H.
    { intros x Hx. split; [rewrite length_buf_write; lia|]. apply (drop_buf_write mem 0 x). cbn. lia. }
    destruct e as [s|c|d]; cbn [UVC.put_event UVC.event_size].
    + destruct (H (le_bytes 4 s)) as [-> H2]; [cbn; lia|]. by rewrite length_le_bytes in H2.
    + destruct (H (UVC.put_ctrl c)) as [-> H2]; [cbn; lia|]. done.
    + assert (length (UVC.put_request d) = 64%nat) as Hd' by (unfold UVC.put_request; rewrite length_app, length_le_bytes, (He d eq_refl); done).
      destruct (H (UVC.put_request d)) as [-> H2]; [lia|]. by rewrite Hd' in H2.
Qed.
Lemma uvc_request_roundtrip_witness :
  UVC.get_request (UVC.put_request (UVC.mkReq (-1) (replicate 60 7)) ++ [1]) = UVC.mkReq (-1) (replicate 60 7) /\
  Z.of_nat (length (UVC.put_request (UVC.mkReq (-1) (replicate 60 7)))) = UVC.sizeof_request /\
  length (UVC.put_event (UVC.Speed 3) (replicate 64 0)) = 64%nat /\ drop 4 (UVC.put_event (UVC.Speed 3) (replicate 64 0)) = drop 4 (replicate 64 0) /\
  Z.of_nat UVC.DATA = UVC.UVC_MAX_REQUEST_SIZE - 4.
Proof. by apply (uvc_request_roundtrip (UVC.mkReq (-1) (replicate 60 7)) [1] (replicate 64 0) (UVC.Speed 3)). Defined.

(** property: a warning is printed the first time it is given and never again,
    whatever other warnings are given between. *)
Theorem uvc_warns_once (w : Z) (others : list Z) (warnings : Z) :
  0 <= w -> Forall (fun o => 0 <= o) others ->
  let '(first, b) := UVC.uvc_warn_once warnings w in
  let b := foldl (fun b o => snd (UVC.uvc_warn_once b o)) b others in
  first = negb (Z.testbit warnings w) /\ fst (UVC.uvc_warn_once b w) = false.
Proof.
  intros Hw Ho. cbn. split; [done|]. apply negb_false_iff.
  assert (forall b, Z.testbit b w = true -> Z.testbit (foldl (fun b o => Z.setbit b o) b others) w = true) as H.
  { induction Ho as [|o l Ho _ IH]; intros b Hb; [done|]. cbn [foldl]. apply IH. rewrite Z.setbit_eqb by done. rewrite Hb. apply orb_true_r. }
  apply H. rewrite Z.setbit_eqb, Z.eqb_refl by done. done.
Qed.
Lemma uvc_warns_once_witness :
  let '(first, b) := UVC.uvc_warn_once 0 UVC.UVC_WARN_PROBE_DEF in
  let b := foldl (fun b o => snd (UVC.uvc_warn_once b o)) b [UVC.UVC_WARN_MINMAX] in
  first = negb (Z.testbit 0 1) /\ fst (UVC.uvc_warn_once b 1) = false.
Proof. apply (uvc_warns_once UVC.UVC_WARN_PROBE_DEF [UVC.UVC_WARN_MINMAX] 0); [done|]. by repeat constructor. Defined.

(** property: traces are switched by bits of their own; the streaming test looks
    at its flag only; from the function the device is found again; events are
    different and between the first and the last. *)
Theorem uvc_flags param flags dev b64 start :
  (forall i j f g, UVC.traces !! i = Some f -> UVC.traces !! j = Some g -> UVC.uvc_trace f g = bool_decide (i = j)) /\
  truthy (UvcQueue.uvc_queue_streaming flags) = Z.testbit flags 0 /\
  UvcQueue.uvc_queue_streaming (Z.lor flags UvcQueue.UVC_QUEUE_PAUSED) = UvcQueue.uvc_queue_streaming flags /\
  UVC.uvc_trace param UVC.UVC_TRACE_PROBE = Z.testbit param 0 /\
  UVC.to_uvc b64 (dev + UVC.offsetof_func b64) = dev /\ UVC.to_uvc_file_handle dev = dev /\
  NoDup (UVC.events start) /\ Forall (fun e => UVC.UVC_EVENT_FIRST start <= e <= UVC.UVC_EVENT_LAST start) (UVC.events start).
Proof.
  split; [|split; [|split; [|split; [|split; [|split; [|split]]]]]].
  - assert (forallb (fun i => forallb (fun j => match UVC.traces !! i, UVC.traces !! j with
      Some f, Some g => Bool.eqb (UVC.uvc_trace f g) (bool_decide (i = j)) | _, _ => false end) (seq 0 10)) (seq 0 10) = true) as H by (by vm_compute).
    intros i j f g Hi Hj. rewrite forallb_forall in H.
    assert (i < 10)%nat as Li by apply (lookup_lt_Some _ _ _ Hi). assert (j < 10)%nat as Lj by apply (lookup_lt_Some _ _ _ Hj).
    assert (In i (seq 0 10)) as Ii by (apply in_seq; lia). specialize (H i Ii). rewrite forallb_forall in H.
    assert (In j (seq 0 10)) as Ij by (apply in_seq; lia). specialize (H j Ij). rewrite Hi, Hj in H. by apply Bool.eqb_prop.
  - apply (truthy_land_pow flags 0). lia.
  - unfold UvcQueue.uvc_queue_streaming. rewrite Z.land_lor_distr_l. by rewrite Z.lor_0_r.
  - apply (truthy_land_pow param 0). lia.
  - unfold UVC.to_uvc, container_of. lia.
  - unfold UVC.to_uvc_file_handle, container_of. lia.
  - unfold UVC.events, UVC.UVC_EVENT_CONNECT, UVC.UVC_EVENT_DISCONNECT, UVC.UVC_EVENT_STREAMON, UVC.UVC_EVENT_STREAMOFF, UVC.UVC_EVENT_SETUP, UVC.UVC_EVENT_DATA.
    repeat (constructor; [rewrite ?not_elem_of_cons, ?list_elem_of_singleton, ?elem_of_nil; repeat split; try (intro; lia); auto; lia|]). constructor.
  - unfold UVC.events, UVC.UVC_EVENT_FIRST, UVC.UVC_EVENT_LAST, UVC.UVC_EVENT_CONNECT, UVC.UVC_EVENT_DISCONNECT, UVC.UVC_EVENT_STREAMON, UVC.UVC_EVENT_STREAMOFF, UVC.UVC_EVENT_SETUP, UVC.UVC_EVENT_DATA.
    repeat constructor; lia.
Qed.

(** ** The updater *)
Import UtpMessage.
Lemma field_skip pre x rest n : length pre = n -> field (pre ++ x ++ rest) n (length x) = of_le_bytes x.
Proof. intros H. unfold field. rewrite drop_app_length' by done. by rewrite take_app_length. Qed.

(** property: the updater's messages are read back by the members of their kind,
    on processors of both widths: flags and size always, the payload and the
    text of a command, the length and the bytes of data, a status; the text
    of a command is 8 bytes behind the union's start on both, the bytes of
    data behind a [size_t] - so the two layouts differ for data. *)
Theorem utp_message_roundtrip b64 f s p n x c d :
  0 <= f < 2 ^ 32 -> 0 <= s < 2 ^ 32 -> 0 <= p < 2 ^ 64 -> 0 <= n < 2 ^ 32 -> 0 <= x < 2 ^ 32 ->
  (let m := put_message b64 (Command f s p c) in flags_of m = f /\ size_of b64 m = s /\ payload_of b64 m = p /\ command_of b64 m = c) /\
  (let m := put_message b64 (DataMsg f s n d) in flags_of m = f /\ size_of b64 m = s /\ bufsize_of b64 m = n /\ data_of b64 m = d) /\
  (let m := put_message b64 (Status f s x) in flags_of m = f /\ size_of b64 m = s /\ status_of b64 m = x).
Proof.
  intros Hf Hs Hp Hn Hx.
  assert (forall k y, 0 <= y < 2 ^ (8 * Z.of_nat k) -> of_le_bytes (le_bytes k y) = y) as V by (intros; rewrite of_le_bytes_le; by apply Z.mod_small).
  assert (2 ^ 32 <= 2 ^ (8 * Z.of_nat (word b64))) as Hw by (by destruct b64).
  assert (length (head b64 f s) = o_union b64) as Hh by (unfold head; by rewrite length_app, !length_le_bytes).
  assert (forall r, flags_of (head b64 f s ++ r) = f /\ size_of b64 (head b64 f s ++ r) = s) as Hd.
  { intros r. unfold head. rewrite <- app_assoc. split.
    - change (flags_of _) with (of_le_bytes (le_bytes 4 f)). apply V. exact Hf.
    - unfold size_of. pose proof (field_skip (le_bytes 4 f) (le_bytes (word b64) s) r 4 (length_le_bytes 4 f)) as E.
      rewrite length_le_bytes in E. unfold o_size. rewrite E. apply V. lia. }
  assert (forall k y r, field (head b64 f s ++ le_bytes k y ++ r) (o_union b64) k = of_le_bytes (le_bytes k y)) as U.
  { intros k y r. pose proof (field_skip (head b64 f s) (le_bytes k y) r _ Hh) as E. by rewrite length_le_bytes in E. }
  assert (forall k y r, drop (o_union b64 + k) (head b64 f s ++ le_bytes k y ++ r) = r) as D.
  { intros k y r. rewrite app_assoc. apply drop_app_length'. by rewrite length_app, Hh, length_le_bytes. }
  cbn [put_message]. split; [|split].
  - destruct (Hd (le_bytes 8 p ++ c)) as [-> ->]. split; [done|]. split; [done|]. split; [|apply D].
    unfold payload_of. rewrite U. apply V. exact Hp.
  - destruct (Hd (le_bytes (word b64) n ++ d)) as [-> ->]. split; [done|]. split; [done|]. split; [|apply D].
    unfold bufsize_of. rewrite U. apply V. lia.
  - destruct (Hd (le_bytes 4 x)) as [-> ->]. split; [done|]. split; [done|].
    unfold status_of. pose proof (U 4%nat x []) as E. rewrite app_nil_r in E. rewrite E. apply V. exact Hx.
Qed.
Lemma utp_message_roundtrip_witness :
  (let m := put_message true (Command 1 20 5 [36; 70]) in flags_of m = 1 /\ size_of true m = 20 /\ payload_of true m = 5 /\ command_of true m = [36; 70]) /\
  (let m := put_message true (DataMsg 1 20 2 [1; 2]) in flags_of m = 1 /\ size_of true m = 20 /\ bufsize_of true m = 2 /\ data_of true m = [1; 2]) /\
  (let m := put_message true (Status 1 20 9) in flags_of m = 1 /\ size_of true m = 20 /\ status_of true m = 9).
Proof. apply (utp_message_roundtrip true 1 20 5 2 9 [36; 70] [1; 2]); lia. Defined.
