(* ===== verification/Attributes.v ===== *)
(** * Attributes and registrations of modelled drivers

    The attribute that shows if a composite device is suspended and the
    completion of its control requests (test_gadget/composite.c), and the
    entry points of the fuse driver (test_qfp_fuse/qfp_fuse.c) on a model of
    what it registers. *)

From Stdlib Require Import ZArith.
From stdpp Require Import base list strings.
From S2P Require Import Prelude KernelText.
From S2P Require Import UsbString UsbConfig Composite CompositeSpec CompositeCtl CompositeCtlSpec CompositeRun QfpFuse.

(** ** The composite device *)
Definition composite_show_suspended (d : usb_composite_dev) : Z * string := show_int (suspended d).
(** A completed request: [status], [actual], [length]; if a message is given. *)
Definition composite_setup_complete (status actual length : Z) : bool := truthy status || negb (actual =? length).

(** ** The fuse driver *)
Module FuseDriver.
(** If the platform driver and the misc device are registered. *)
Record st := mkSt { driver : bool; misc : bool }.
Definition misc_register (e : Z) : M st Z := fun s => (e, if e =? 0 then mkSt (driver s) true else s).
Definition qfp_fuse_remove : M st Z := modify (fun s => mkSt (driver s) false) ;; ret 0.
(** Registering the driver probes the device, if there is one; a failed probe
    does not fail the registration. *)
Definition platform_driver_register (e e_misc : Z) (res : option (Z * Z)) (limits : Z * Z) : M st (Z * (Z * Z)) := fun s =>
  if negb (e =? 0) then ((e, limits), s)
  else let '((_, l), s) := qfp_fuse_probe (misc_register e_misc) res limits (mkSt true (misc s)) in ((0, l), s).
Definition qfp_fuse_init := platform_driver_register.
(** A bound device is removed. *)
Definition qfp_fuse_exit : M st unit := fun s =>
  (tt, mkSt false (misc (if misc s then snd (qfp_fuse_remove s) else s))).
End FuseDriver.

(** property: the attribute shows 1 after the host has suspended the device and
    0 after it has resumed it, whatever the functions and the driver do. *)
Theorem suspended_shown VBUS_DRAW has d (w : tworld) :
  (exists d' w', composite_suspend has (d, w) = Some (tt, (d', w')) /\ snd (composite_show_suspended d') = "1" +:+ newline) /\
  (exists d' w', composite_resume VBUS_DRAW has (d, w) = Some (tt, (d', w')) /\ snd (composite_show_suspended d') = "0" +:+ newline).
Proof.
  split.
  - rewrite suspend_run. do 2 eexists. split; reflexivity.
  - rewrite resume_run. do 2 eexists. split; reflexivity.
Qed.

(** property: a message is given for a control request exactly if it did not
    complete or not with all of its bytes. *)
Theorem setup_complete_spec status actual length :
  composite_setup_complete status actual length = false <-> status = 0 /\ actual = length.
Proof.
  unfold composite_setup_complete, truthy. destruct (Z.eqb_spec status 0), (Z.eqb_spec actual length); cbn; split; (done || lia || tauto).
Qed.

(** property: loading and unloading the fuse driver leaves nothing registered; a
    device without memory, or one that cannot be registered, does not keep
    the driver from loading. *)
Theorem fuse_driver_life e e_misc res limits :
  let '((r, _), s) := FuseDriver.qfp_fuse_init e e_misc res limits (FuseDriver.mkSt false false) in
  r = e /\ FuseDriver.driver s = (e =? 0) /\
  FuseDriver.misc s = (e =? 0) && (e_misc =? 0) && bool_decide (is_Some res) /\
  snd (FuseDriver.qfp_fuse_exit s) = FuseDriver.mkSt false false.
Proof.
  unfold FuseDriver.qfp_fuse_init, FuseDriver.platform_driver_register, FuseDriver.misc_register.
  destruct (Z.eqb_spec e 0) as [->|]; cbn [negb]; [|done].
  destruct res as [[a b]|]; cbn; [|by destruct (e_misc =? 0)].
  destruct (e_misc =? 0); done.
Qed.
